(* ===== verification/_CoqProject ===== *)
-Q . S2P
Prelude.v
GoStrings.v
Filepath.v
Base64.v
Envelope.v
Contract.v
PolicyRefs.v
RuntimeInputs.v
PolicyArgs.v
PolicyEngine.v
PolicyLoaders.v
CraftingState.v
ErrGroup.v
PolicyVerifier.v
PolicyGroups.v
Archive.v
Crafter.v
AttestationPolicies.v
Runners.v
CrafterLifecycle.v
Renderer.v
Verifier.v
BizErrors.v
Signing.v
Pagination.v
RunStore.v
RunListing.v
WorkflowRuns.v
Referrers.v
AttestationState.v
StateManagers.v
Authz.v
ApiTokens.v
Access.v
CasBackends.v
Memberships.v
CasTokens.v
CasMappings.v
BlobStores.v
ArtifactCas.v
CasClient.v
ContractSchemas.v
WorkflowContracts.v
JsonFilter.v
Workflows.v
AttestationService.v
AttestationRecords.v
Netguard.v
