(* ===== verification/Prelude.v ===== *)
(** * Chainloop: attestations, from the client that crafts them to the control plane that keeps them

    Chainloop records software supply chain evidence.  A client initializes an
    attestation for a contract, adds materials to it (SBOMs, scan reports, images),
    evaluates the policies of the contract on every material and on the
    attestation itself, and pushes the result, signed, to a control plane, which
    verifies it, stores it, indexes what it refers to and decides who may see it.
    The artifacts themselves go to a content addressed store, a proxy in front of
    the object stores of the organizations, with tokens that the control plane
    mints.  The sources are Go: the client's libraries under src/pkg, the control
    plane under src/app/controlplane, the proxy under src/app/artifact-cas.

    ** The parts, and the files that model them

    - The language: Prelude (errors, the result monad, automation), GoStrings,
      Filepath and Base64 translate what the code uses of Go's standard library.
      An error is a value of [goerr]: a message, a sentinel, a wrap or a policy
      error, so that [errors.Is] and [errors.As] are functions.  A run-time panic
      is the error [panic], which nothing recovers.

    The client:
    - Contract: the contract, the policies and the groups (crafting_schema.proto),
      unique material names and [ToV1] (crafting_schema_validations.go).
    - PolicyRefs: references to policies, parsed by loader.go and validated by
      crafting_schema_validations.go.
    - RuntimeInputs: runtime_inputs.go, the inputs given on the command line and
      which of them apply to a policy.
    - PolicyArgs: the arguments of a policy ([ComputeArguments],
      [getInputArguments], [splitArgs]) and the templates in them.
    - PolicyEngine: engine/engine.go, detect.go, findings/registry.go and the Rego
      engine (module Rego: rego.go, boilerplate.go).  OPA is a parameter: a
      function of the query, with its capabilities and modes.
    - PolicyLoaders: loader.go, group_loader.go and the script loading of
      policies.go.  Files, HTTP, the control plane and decoding are the class
      [World]; the cache between loads is the class [Cache].
    - CraftingState: the state of an attestation (crafting_state.proto), what
      policies see of a material (crafting_state.go) and completeness
      (crafting_state_validations.go).
    - ErrGroup: golang.org/x/sync/errgroup as the verifier uses it, a transition
      system of goroutines with a limit.
    - PolicyVerifier and PolicyGroups: policies.go and policy_groups.go.  What they
      call of the other parts is the class [VerifierDeps]; [world_deps] makes it
      from the other files.
    - Netguard: pkg/netguard and the guarded [http.send] of the Rego engine.
    - Archive: materials/archiveio and materials/archive.go, walking an archive
      and naming its entries.
    - Crafter, AttestationPolicies, CrafterLifecycle: crafter.go and cioverride.go.
      The state manager is the class [StateManager].  Every operation returns the
      crafter also when it fails, with what it left in memory.
    - Runners: crafter/runners and runner.go, with the environment as the class
      [RunnerEnv].
    - Envelope and Renderer: attestations.go and attestation/renderer, the signed
      statement of a crafting state, its verdict on the policies, and what a
      consumer reads back from it.
    - Verifier: attestation/verifier, the checks on certificates and timestamps;
      sigstore's own are the class [Crypto].
    - StateManagers: crafter/statemanager, and the service of the control plane
      behind the remote one.

    The control plane:
    - BizErrors: biz/errors.go and the version syntax of biz.go.
    - Signing: biz/signing.go and pkg/ca, the authorities that attestations are
      signed with and verified against.
    - RunStore: the store of workflow runs, project versions, bundles and saved
      states (data/workflowrun.go, projectversion.go, attestationstate.go), as a
      step relation [server_step] in which the reads that precede a transaction may
      be stale, and the expiration of runs.
    - Pagination and RunListing: pkg/pagination and the listing of runs.
    - WorkflowRuns: biz/workflowrun.go, creating runs, accepting attestations and
      reading them back.
    - Referrers: biz/referrer.go and data/referrer.go, the graph of artifacts.
    - AttestationState: biz/attestationstate.go, the encrypted state of an
      attestation in progress.
    - Authz: pkg/authz, roles, policies, the casbin enforcer and the middleware.
      Casbin's store is the class [Casbin], with its laws as [CasbinLaws].
    - ApiTokens: API tokens in biz, data, jwt and the middleware that
      authenticates them.
    - Access: the middlewares of the API, in their order, the resource checks of
      the services and the service of API tokens.
    - CasBackends: biz/casbackend.go and data/casbackend.go.
    - Memberships: biz/membership.go and data/membership.go.
    - CasMappings: biz/casmapping.go, data/casmapping.go and the services that hand
      out credentials for artifacts (cascredential.go, casredirect.go), with the
      mappings of a stored attestation.
    - ContractSchemas: the contracts as the control plane reads them (pkg/unmarshal,
      biz/workflowcontract.go), the registry of policy providers and its client
      (controlplane/pkg/policies), and what validating a contract's policies means.
    - WorkflowContracts: contracts and their revisions (data/workflowcontract.go,
      biz/workflowcontract.go, service/workflowcontract.go), as a step relation
      [contract_step] in which an update reads the latest revision before it writes.
    - JsonFilter: pkg/jsonfilter, the filters on JSON columns that callers give.
    - Workflows: data/workflow.go, biz/workflow.go, service/workflow.go and the
      implicit creation of a workflow by service/attestation.go.
    - AttestationService and AttestationRecords: service/attestation.go and
      biz/attestation.go, the calls of a client from the initialization of an
      attestation to its storage, over the use cases of the other files in a monad
      of state and errors ([M]); the store of artifacts is the class [CASClient],
      which the client of CasClient implements ([casclient_usecase]), and an upload
      that a call leaves running is a step of its own ([run_upload]).

    The artifact store:
    - CasTokens: internal/robotaccount/cas, what the tokens say, how the control
      plane mints them (biz/cascredentials.go) and how the proxy verifies them.
    - BlobStores: pkg/blobmanager, the interface of the object stores as the class
      [Blobmanager] with its laws [BlobLaws], and the ones on S3, S3 access points
      and Azure, which prove those laws from the laws of their SDKs.
    - ArtifactCas: app/artifact-cas/internal/service, the proxy over any store with
      these laws, as a step relation [cas_step] in which an upload hands its
      verified file to the store in a step of its own.
    - CasClient: pkg/casclient and biz/casclient.go, the client, and the whole way
      from the control plane to the store.

    A table of the database is a finite map from identifiers to rows with the
    columns of the ent schema; a query is a function of the map with the
    predicates of the code; a transaction is one step.

    ** What the theorems show

    - Policies of a material: exactly the ones the contract ties to its type or
      name are selected ([required_policies_exact]); the evaluation is the merge of
      its scripts ([evaluation_merges], [evaluation_absent_iff]) and does not depend
      on how goroutines are scheduled ([material_schedule_independent]); its
      violations are those of the engine, typed or not ([api_violations_exact]);
      groups mark, skip and gate their evaluations ([group_evaluations_marked]).
    - Inputs: the arguments a policy is given, with defaults, bindings, runtime
      inputs and their scopes ([ComputeArguments_spec], [forPolicy_most_specific]).
    - Isolation: the scripts of a policy stay in its directory or on https
      ([scripts_confined]); scripts run with the restricted capabilities
      ([scripts_run_sandboxed]); the guard accepts exactly the public addresses and
      dials only those ([routable_exact], [dials_public_only],
      [http_send_guarded]); policies never see what redaction removed
      ([redacted_never_leaks]).
    - Loading: caching is transparent and recorded digests are those of the loaded
      policy ([cached_loads_transparent], [loaded_digest]).
    - Archives: limits hold at every read, walks fail as a whole, names are fresh.
    - The crafter: adding a material, an archive (a transaction) and evaluating the
      attestation's policies, and the invariant of all reachable states
      ([add_material_effect], [archive_atomic], [attestation_phase_merge],
      [reachable_states_ordered]); completeness, runner, environment and commit.
    - The statement: its verdict is the one of the evaluations and its materials
      read back as they were crafted ([policy_verdict_exact], [material_roundtrip],
      [envelope_bundle_roundtrip]); what verifies is vouched for
      ([verified_bundle]).
    - Runs: the store stays consistent under any interleaving, releases are
      immutable, abandoned runs end ([run_store_consistent],
      [released_versions_immutable], [abandoned_runs_expire]); only acceptable
      attestations are stored, and they are read back ([stored_attestation_accepted],
      [stored_attestation_readable]); listings are complete ([run_pages_complete]).
    - The attestation service, over the whole of the tables: what is shown is what
      was recorded under its digest, whatever the calls ([shown_attestation_recorded]),
      given a store that hands out contents under their digests, as the proxy does
      ([casclient_downloads_whole]); a call that succeeds leaves a complete record
      ([initialized_run], [stored_attestation_complete]), which is final
      ([attestation_recorded_once]); calls, also those that fail, only change the
      runs that their callers may change ([attestation_calls_confined]).
    - The saved state: no update is lost ([no_lost_update]) and the remote manager
      is a store ([saved_state_readable], [remote_keeps_writes]).
    - Discovery: what is indexed is found, only by who may see it, completely
      ([attestation_indexed], [discovery_visible], [references_complete]).
    - Access: the enforcer is the role map ([enforcer_exact], [gate_by_role]); a
      call that passes the middlewares is somebody's who may make it
      ([api_call_guarded]); tokens are confined, revocable and do not escalate
      ([authenticated_token_confined], [revoked_tokens_stay_out],
      [tokens_never_escalate], [token_table_invariant]); listings and checks agree
      ([listing_agrees_with_checks], [authorized_is_visible], [reach_agrees]).
    - Organizations: one default backend, replaced when it is deleted
      ([one_default_backend], [deleted_default_replaced]); an owner as long as there
      was one ([organization_keeps_owner]); removed members lose everything
      ([removed_member_loses_organization]).
    - Artifacts: the store holds content under its own digest only and keeps it,
      however requests interleave and fail ([store_content_addressed]); what is
      acknowledged is stored, what is sent was verified
      ([acknowledged_uploads_stored], [reads_verified]); a client with stale
      credentials is replaced ([stale_client_replaced]); tenants of one bucket do
      not meet ([tenants_isolated]); the whole way there and back gives the content
      of a digest ([artifacts_round_trip]).
    - Access to artifacts: tokens say what was asked for
      ([temporary_credentials_faithful]), are only handed out to who may use them
      ([credentials_confined]), and downloads find the preferred mapping that the
      caller reaches ([user_download_exact], [mapped_artifacts_downloadable]).
    - Contracts: what is accepted is readable and has known policies
      ([accepted_contract_ok], [contract_policies_known]); the history only grows
      ([contract_history]), what was written is described
      ([updated_contract_described]), by who may do it ([contract_changes_confined]),
      and a dry run tells what would happen ([dry_run_agrees]).
    - Workflows: each keeps a contract of its organization
      ([workflows_keep_contracts]), the one that its creation names or implies
      ([created_workflow_contract]); creating by need is idempotent
      ([find_or_create_idempotent]); listings show what the caller may see
      ([listing_confined]), with filters that cannot leave their literal
      ([field_path_language], [filter_not_injectable]).

    Some theorems state behaviour that the code's comments do not intend
    ([empty_argument_hides_default], [safePath_reenters_root],
    [embedded_name_collision], [collectors_persist_orphans],
    [ambiguous_signature_corrupted], [unsigned_bundle_panics],
    [expiration_overrides_success], [run_pages_skip_ties],
    [discovery_crosses_tenants], [issuer_without_url],
    [backend_reset_reads_empty], [concurrent_updates_collide],
    [default_contract_of_another_project],
    [update_attaches_contract_of_another_project],
    [implicit_creation_overwrites_contract], [failed_store_blocks_retry],
    [upload_credentials_of_another_workflow], [cancellation_hides_attestation],
    [unreachable_backend_handed_out]).

    ** Bounds

    Loops over data are structural.  Where a loop is not (splitting and trimming
    strings, the search for a free name, replacing template prefixes, following
    cursors) it runs on fuel that a measure of its input gives (a string's length,
    one more than the number of names in use, the number of rows), and lemmas show
    that it is enough: [split_fuel_enough], [AllocateNamed_spec],
    [run_pages_complete], [references_complete], [stale_client_replaced],
    [copy_loop_all].  Go's strings and byte slices are
    [string], a list of bytes; counters of sizes are [Z] or [nat] that the code's own
    limits keep small; the 32-bit columns of the policy status are truncated as Go
    does.  JSON numbers are kept as text, as [UseNumber] does.  Times are [Z].

    ** What is not modelled

    Crafting one kind of material from a file (some forty crafters), redaction, the
    WASM engine, cryptography (signatures, certificates, AES, argon2, SHA-256), JSON,
    gob, protobuf and time stamps are parameters.  The command line, the plugins, the
    generated ORM, the transport, the object store on OCI registries and the use cases
    of groups, projects, users, invitations and integrations are not in the library
    (of their tables, the rows that the modelled use cases read are).  Logging, tracing,
    metrics and, but for the proxy's, audit events have no counterpart. *)

From stdpp Require Export base gmap strings list sorting.
From Stdlib Require Export Lia Ascii.

Declare Scope go_scope.
Delimit Scope go_scope with go.

(** ** Go errors and results *)

(** An error value of the Go code.  What the callers observe of an error is
    its chain: [errors.Is] looks for a sentinel and [errors.As] for a type,
    both through the [Unwrap] chain that [%w] builds. *)
Inductive goerr :=
| EMsg (msg : string)
| ESentinel (name : string)
| EWrap (msg : string) (e : goerr)
| EWrap2 (msg : string) (e1 e2 : goerr)
| EPolicy (e : goerr).

#[export] Instance goerr_eq_dec : EqDecision goerr.
Proof. solve_decision. Defined.

(** [errors.Is(e, sentinel)] *)
Fixpoint errors_is (s : string) (e : goerr) : bool :=
  match e with
  | EMsg _ => false
  | ESentinel n => bool_decide (n = s)
  | EWrap _ e' | EPolicy e' => errors_is s e'
  | EWrap2 _ e1 e2 => errors_is s e1 || errors_is s e2
  end.

(** [errors.As(e, *PolicyError)] *)
Fixpoint is_policy_error (e : goerr) : bool :=
  match e with
  | EMsg _ | ESentinel _ => false
  | EWrap _ e' => is_policy_error e'
  | EPolicy _ => true
  | EWrap2 _ e1 e2 => is_policy_error e1 || is_policy_error e2
  end.

Inductive result (A : Type) :=
| Ok (a : A)
| Err (e : goerr).
Arguments Ok {A} a.
Arguments Err {A} e.

#[export] Instance result_eq_dec {A} `{EqDecision A} : EqDecision (result A).
Proof. solve_decision. Defined.

#[export] Instance result_ret : MRet result := fun _ a => Ok a.
#[export] Instance result_bind : MBind result := fun _ _ f m =>
  match m with Ok a => f a | Err e => Err e end.
#[export] Instance result_fmap : FMap result := fun _ _ f m =>
  match m with Ok a => Ok (f a) | Err e => Err e end.

(** [if err != nil { return nil, wrap(err) }] *)
Definition map_err {A} (f : goerr -> goerr) (r : result A) : result A :=
  match r with Ok a => Ok a | Err e => Err (f e) end.

Definition is_ok {A} (r : result A) : bool :=
  match r with Ok _ => true | Err _ => false end.

(** A run-time panic (a nil dereference, an index out of range), which no
    caller recovers from.  It propagates like an error that is never inspected. *)
Definition panic (what : string) : goerr := ESentinel ("panic: " +:+ what).

(** [if cond { return nil, err }] *)
Definition guard_err (cond : bool) (e : goerr) : result unit :=
  if cond then Err e else Ok tt.

Lemma bind_Ok {A B} (m : result A) (f : A -> result B) b :
  (m ≫= f) = Ok b <-> exists a, m = Ok a /\ f a = Ok b.
Proof. destruct m; cbn; naive_solver. Qed.

Lemma bind_Err {A B} (m : result A) (f : A -> result B) e :
  (m ≫= f) = Err e <-> m = Err e \/ exists a, m = Ok a /\ f a = Err e.
Proof. destruct m; cbn; naive_solver. Qed.

Lemma map_err_Ok {A} f (r : result A) a : map_err f r = Ok a <-> r = Ok a.
Proof. destruct r; cbn; naive_solver. Qed.

Lemma map_err_Err {A} f (r : result A) e :
  map_err f r = Err e <-> exists e', r = Err e' /\ e = f e'.
Proof. destruct r; cbn; naive_solver. Qed.

Lemma guard_err_Ok c e u : guard_err c e = Ok u <-> c = false.
Proof. destruct c, u; cbn; naive_solver. Qed.

(** [for _, x := range xs { y, err := f(x); if err != nil {return err}; ... }] *)
Fixpoint mapM_result {A B} (f : A -> result B) (xs : list A) : result (list B) :=
  match xs with
  | [] => Ok []
  | x :: xs' => y ← f x; ys ← mapM_result f xs'; Ok (y :: ys)
  end.

Lemma mapM_result_Ok {A B} (f : A -> result B) xs ys :
  mapM_result f xs = Ok ys <-> Forall2 (fun x y => f x = Ok y) xs ys.
Proof.
  revert ys; induction xs as [|x xs IH]; intros ys; cbn.
  - split; [intros [= <-]; constructor | by inversion 1].
  - rewrite bind_Ok. split.
    + intros (y & Hy & H). apply bind_Ok in H as (ys' & H1 & [= <-]).
      constructor; [done | by apply IH].
    + inversion 1 as [|? y ? ys' H1 H2]; subst. exists y. split; [done|].
      apply bind_Ok. exists ys'. split; [by apply IH | done].
Qed.

Lemma mapM_result_Err {A B} (f : A -> result B) xs e :
  mapM_result f xs = Err e -> exists x, x ∈ xs /\ f x = Err e.
Proof.
  induction xs as [|x xs IH]; cbn; [done|].
  rewrite bind_Err. intros [H | (y & Hy & H)].
  - exists x. split; [left | done].
  - apply bind_Err in H as [H | (ys & _ & ?)]; [| done].
    destruct (IH H) as (x' & ? & ?). exists x'. split; [by right | done].
Qed.

(** A fold whose body may return early with an error. *)
Fixpoint foldM_result {A B} (f : B -> A -> result B) (xs : list A) (b : B) : result B :=
  match xs with
  | [] => Ok b
  | x :: xs' => b' ← f b x; foldM_result f xs' b'
  end.

Lemma foldM_result_app {A B} (f : B -> A -> result B) xs ys b :
  foldM_result f (xs ++ ys) b = (foldM_result f xs b ≫= foldM_result f ys).
Proof.
  revert b; induction xs as [|x xs IH]; intros b; cbn; [done|].
  destruct (f b x); cbn; [apply IH | done].
Qed.

Lemma foldM_result_inv {A B} (f : B -> A -> result B) (P : B -> Prop) xs b b' :
  P b -> (forall b x b'', x ∈ xs -> P b -> f b x = Ok b'' -> P b'') ->
  foldM_result f xs b = Ok b' -> P b'.
Proof.
  revert b; induction xs as [|x xs IH]; intros b Hb Hstep; cbn.
  - by intros [= <-].
  - rewrite bind_Ok. intros (b1 & H1 & H2).
    eapply (IH b1); [| | done].
    + eapply Hstep; [left | done | done].
    + intros; eapply Hstep; [by right | done | done].
Qed.

(** [for _, x := range xs { if x != nil { out = append(out, x) } }] *)
Definition not_nil {A} (xs : list (option A)) : list A := omap id xs.

Lemma forallb_Permutation {A} (f : A -> bool) l l' :
  l ≡ₚ l' -> forallb f l = forallb f l'.
Proof.
  induction 1 as [| x l l' _ IH | x y l | l1 l2 l3 _ IH1 _ IH2]; cbn; [done|by rewrite IH| |congruence].
  by rewrite !andb_assoc, (andb_comm (f x)).
Qed.

(** ** Tactics *)

(** Case analysis on the results bound in a hypothesis [m ≫= f = Ok _]. *)
Ltac inv_ok :=
  repeat match goal with
  | H : (_ ≫= _) = Ok _ |- _ => apply bind_Ok in H as (? & ? & H)
  | H : map_err _ _ = Ok _ |- _ => apply map_err_Ok in H
  | H : guard_err _ _ = Ok _ |- _ => apply guard_err_Ok in H
  | H : Ok _ = Ok _ |- _ => injection H as H; subst
  | H : Err _ = Ok _ |- _ => discriminate H
  | H : Ok _ = Err _ |- _ => discriminate H
  end.

(** Split a hypothesis or a goal on its boolean tests. *)
Ltac split_bool :=
  repeat match goal with
  | H : _ && _ = true |- _ => apply andb_true_iff in H as [? ?]
  | H : _ || _ = false |- _ => apply orb_false_iff in H as [? ?]
  | H : negb _ = true |- _ => apply negb_true_iff in H
  | H : negb _ = false |- _ => apply negb_false_iff in H
  | H : bool_decide _ = true |- _ => apply bool_decide_eq_true in H
  | H : bool_decide _ = false |- _ => apply bool_decide_eq_false in H
  end.

Create HintDb go.
#[export] Hint Resolve bind_Ok : go.

(** ** Strings

    A Go string is a sequence of bytes: [string], with [ascii] for a byte. *)

Definition is_empty (s : string) : bool := bool_decide (s = "").

Lemma is_empty_true s : is_empty s = true <-> s = "".
Proof. apply bool_decide_eq_true. Qed.

Lemma is_empty_false s : is_empty s = false <-> s <> "".
Proof. apply bool_decide_eq_false. Qed.

