(* ===== verification/GoStrings.v ===== *)
(** * The functions of Go's [strings] package that the code uses

    Go strings are byte sequences, so the functions below work on bytes.  The
    loops of [Split] and [ReplaceAll] consume at least the separator at each
    turn, which the fuel [S (String.length s)] bounds. *)

From S2P Require Import Prelude.

#[local] Arguments String.append !_ _ /.

(** ** Characters of a string *)

Fixpoint has_char (c : ascii) (s : string) : bool :=
  match s with
  | "" => false
  | String d s' => bool_decide (c = d) || has_char c s'
  end.

(** [strings.ContainsAny(s, chars)] for single-byte [chars] *)
Definition contains_any (s chars : string) : bool :=
  existsb (fun c => has_char c s) (String.list_ascii_of_string chars).

Definition has_prefix (s pre : string) : bool := String.prefix pre s.

Fixpoint str_drop (n : nat) (s : string) : string :=
  match n, s with
  | O, _ => s
  | S n', String _ s' => str_drop n' s'
  | S _, "" => ""
  end.

(** ** Cutting around a separator *)

(** The text before and after the first occurrence of [sep] *)
Fixpoint cut (sep s : string) : option (string * string) :=
  if String.prefix sep s then Some ("", str_drop (String.length sep) s)
  else match s with
       | "" => None
       | String c s' =>
           match cut sep s' with
           | Some (a, b) => Some (String c a, b)
           | None => None
           end
       end.

(** [strings.SplitN(s, sep, 2)] *)
Definition split2 (s sep : string) : list string :=
  match cut sep s with
  | Some (a, b) => [a; b]
  | None => [s]
  end.

Fixpoint split_fuel (fuel : nat) (s sep : string) : list string :=
  match fuel with
  | O => [s]
  | S fuel' =>
      match cut sep s with
      | Some (a, b) => a :: split_fuel fuel' b sep
      | None => [s]
      end
  end.

(** [strings.Split(s, sep)], [sep] not empty *)
Definition split (s sep : string) : list string :=
  split_fuel (S (String.length s)) s sep.

(** [strings.Join(l, sep)] *)
Fixpoint join (l : list string) (sep : string) : string :=
  match l with
  | [] => ""
  | [x] => x
  | x :: l' => x +:+ sep +:+ join l' sep
  end.

(** [strings.ReplaceAll(s, old, new)], [old] not empty: the occurrences
    found from left to right, without overlaps *)
Definition replace_all (s old new : string) : string := join (split s old) new.

(** [strings.HasSuffix] / [strings.TrimSuffix] *)
Definition str_take (n : nat) (s : string) : string := String.substring 0 n s.
Definition has_suffix (s suf : string) : bool :=
  bool_decide (str_drop (String.length s - String.length suf) s = suf).
Definition trim_suffix (s suf : string) : string :=
  if has_suffix s suf then str_take (String.length s - String.length suf) s else s.

(** ** White space

    [strings.TrimSpace] removes the code points with Unicode's White_Space
    property: here each is its UTF-8 encoding.  None is a suffix of the bytes
    of a longer rune, so looking at the bytes decides as decoding runes does. *)

Definition byte (n : nat) : ascii := Ascii.ascii_of_nat n.
Definition bytes (ns : list nat) : string :=
  String.string_of_list_ascii (map byte ns).

Definition white_space : list string :=
  map bytes
    ([[9]; [10]; [11]; [12]; [13]; [32]; [194; 133]; [194; 160]; [225; 154; 128]]
     ++ map (fun n => [226; 128; n]) (seq 128 11)
     ++ [[226; 128; 168]; [226; 128; 169]; [226; 128; 175]; [226; 129; 159];
         [227; 128; 128]]).

(** One white space rune at the start of [s], and what follows it *)
Definition strip_one (ws : list string) (s : string) : option string :=
  match List.find (fun w => String.prefix w s) ws with
  | Some w => Some (str_drop (String.length w) s)
  | None => None
  end.

Fixpoint trim_left_fuel (fuel : nat) (ws : list string) (s : string) : string :=
  match fuel with
  | O => s
  | S fuel' =>
      match strip_one ws s with
      | Some s' => trim_left_fuel fuel' ws s'
      | None => s
      end
  end.

Definition str_rev (s : string) : string :=
  String.string_of_list_ascii (rev (String.list_ascii_of_string s)).

Definition trim_left (ws : list string) (s : string) : string :=
  trim_left_fuel (String.length s) ws s.

(** [strings.TrimSpace(s)] *)
Definition trim_space (s : string) : string :=
  str_rev (trim_left (map str_rev white_space) (str_rev (trim_left white_space s))).

(** [strings.TrimRight(s, "\n")] *)
Definition newline : string := bytes [10].
Definition trim_right_nl (s : string) : string :=
  str_rev (trim_left [newline] (str_rev s)).

(** ** Ordering: [strings.Compare], byte by byte *)

Fixpoint str_compare (a b : string) : comparison :=
  match a, b with
  | "", "" => Eq
  | "", String _ _ => Lt
  | String _ _, "" => Gt
  | String c a', String d b' =>
      match Nat.compare (Ascii.nat_of_ascii c) (Ascii.nat_of_ascii d) with
      | Eq => str_compare a' b'
      | o => o
      end
  end.

Definition str_le (a b : string) : Prop := str_compare a b <> Gt.

#[export] Instance str_le_dec : RelDecision str_le.
Proof. intros a b. unfold str_le. destruct (str_compare a b); [left|left|right]; congruence. Defined.

(** Every byte of the text satisfies the test. *)
Fixpoint str_forall (f : ascii -> bool) (s : string) : bool :=
  match s with "" => true | String c s' => f c && str_forall f s' end.

(** ** Lemmas *)

Lemma str_app_nil_r s : s +:+ "" = s.
Proof. induction s as [|c s IH]; [done|]. cbn. by rewrite IH. Qed.

Lemma str_app_nil_l s : "" +:+ s = s.
Proof. done. Qed.

Lemma str_app_assoc a b c : (a +:+ b) +:+ c = a +:+ (b +:+ c).
Proof. induction a as [|x a IH]; [done|]. cbn. by rewrite IH. Qed.

Lemma str_length_app a b : String.length (a +:+ b) = String.length a + String.length b.
Proof. induction a as [|x a IH]; cbn; [done|]. by rewrite IH. Qed.

Lemma str_app_inj p a b : p +:+ a = p +:+ b -> a = b.
Proof. induction p as [|c p IH]; cbn; [done|]. intros [= E]. by apply IH. Qed.

Lemma prefix_app p s : String.prefix p (p +:+ s) = true.
Proof.
  induction p as [|c p IH]; cbn; [by destruct s|].
  destruct (Ascii.ascii_dec c c); [done | congruence].
Qed.

Lemma prefix_spec p s : String.prefix p s = true <-> exists t, s = p +:+ t.
Proof.
  split; [| intros [t ->]; apply prefix_app].
  revert s; induction p as [|c p IH]; intros s; cbn; [by exists s|].
  destruct s as [|d s]; cbn; [done|].
  destruct (Ascii.ascii_dec c d) as [->|]; [| done].
  intros [t ->]%IH. by exists t.
Qed.

Lemma str_drop_app p s : str_drop (String.length p) (p +:+ s) = s.
Proof. induction p as [|c p IH]; cbn; [by destruct s | done]. Qed.

Lemma str_drop_0 s : str_drop 0 s = s.
Proof. by destruct s. Qed.

Lemma has_char_app c a b : has_char c (a +:+ b) = has_char c a || has_char c b.
Proof. induction a as [|d a IH]; cbn; [done|]. by rewrite IH, orb_assoc. Qed.

(** [cut] splits at an occurrence of the separator ... *)
Lemma cut_Some sep s a b : cut sep s = Some (a, b) -> s = a +:+ sep +:+ b.
Proof.
  revert a b; induction s as [|c s IH]; intros a b H.
  - cbn [cut] in H. destruct (String.prefix sep "") eqn:E; [|done].
    apply prefix_spec in E as [t Ht]. destruct sep; [|done]. by simplify_eq.
  - cbn [cut] in H. destruct (String.prefix sep (String c s)) eqn:E.
    + apply prefix_spec in E as [t Ht]. rewrite Ht, str_drop_app in H. by simplify_eq.
    + destruct (cut sep s) as [[a' b']|]; [|done]. simplify_eq. cbn. by rewrite (IH a' b).
Qed.

(** ... and at the first one, since the text before holds no byte the
    separator starts with. *)
Lemma cut_first c sep a b :
  has_char c a = false ->
  cut (String c sep) (a +:+ String c sep +:+ b) = Some (a, b).
Proof.
  induction a as [|d a IH]; intros Ha.
  - change ("" +:+ String c sep +:+ b) with (String c sep +:+ b).
    destruct (String c sep +:+ b) eqn:E; [done|]. cbn [cut].
    rewrite <- E, prefix_app, str_drop_app. done.
  - cbn in Ha. apply orb_false_iff in Ha as [Hd Ha]. apply bool_decide_eq_false in Hd.
    change (String d a +:+ String c sep +:+ b)
      with (String d (a +:+ String c sep +:+ b)).
    cbn [cut String.prefix]. destruct (Ascii.ascii_dec c d); [congruence|].
    by rewrite IH.
Qed.

Lemma cut_None c sep s : has_char c s = false -> cut (String c sep) s = None.
Proof.
  induction s as [|d s IH]; intros Hs; [done|].
  cbn in Hs. apply orb_false_iff in Hs as [Hd Hs]. apply bool_decide_eq_false in Hd.
  cbn [cut String.prefix]. destruct (Ascii.ascii_dec c d); [congruence|]. by rewrite IH.
Qed.

(** The text before the first single-byte separator does not hold it. *)
Lemma cut_char_before c s a b : cut (String c "") s = Some (a, b) -> has_char c a = false.
Proof.
  revert a b; induction s as [|d s IH]; intros a b; cbn [cut String.prefix]; [done|].
  destruct (Ascii.ascii_dec c d) as [->|Hne]; cbn.
  - destruct s; intros [= <- <-]; done.
  - destruct (cut _ s) as [[a' b']|]; [|done]. intros [= <- <-].
    cbn. rewrite bool_decide_eq_false_2 by done. by eapply IH.
Qed.

Lemma cut_char_None c s : cut (String c "") s = None -> has_char c s = false.
Proof.
  induction s as [|d s IH]; cbn [cut String.prefix]; [done|].
  destruct (Ascii.ascii_dec c d) as [->|Hne]; cbn.
  - by destruct s.
  - destruct (cut _ s) as [[a' b']|]; [done|]. intros _. rewrite bool_decide_eq_false_2 by done.
    by apply IH.
Qed.

Lemma prefix_app_short p s t :
  String.prefix p (s +:+ t) = true -> String.length p <= String.length s ->
  String.prefix p s = true.
Proof.
  revert s; induction p as [|c p IH]; intros s; [by destruct s|].
  destruct s as [|d s]; cbn; [lia|].
  destruct (Ascii.ascii_dec c d); [|done]. intros ??. apply IH; [done|lia].
Qed.

(** Text added after the first occurrence does not move it. *)
Lemma cut_app_l sep s a b t : cut sep s = Some (a, b) -> cut sep (s +:+ t) = Some (a, b +:+ t).
Proof.
  revert a b; induction s as [|c s IH]; intros a b H.
  - cbn [cut] in H. destruct (String.prefix sep "") eqn:E; [|done].
    apply prefix_spec in E as [u Hu]. destruct sep; [|done]. cbn in H. simplify_eq.
    cbn [String.append]. by destruct t.
  - cbn [cut String.append] in *. destruct (String.prefix sep (String c s)) eqn:E.
    + apply prefix_spec in E as [u Hu]. rewrite Hu, str_drop_app in H. simplify_eq.
      change (String c (s +:+ t)) with (String c s +:+ t).
      by rewrite Hu, str_app_assoc, prefix_app, str_drop_app.
    + destruct (cut sep s) as [[a' b']|] eqn:Es; [|done]. simplify_eq.
      rewrite (IH a' b eq_refl).
      destruct (String.prefix sep (String c (s +:+ t))) eqn:E'; [|done].
      apply cut_Some in Es. apply (prefix_app_short sep (String c s) t) in E'; [congruence|].
      cbn. rewrite Es, !str_length_app. lia.
Qed.

Lemma split2_first c sep a b :
  has_char c a = false ->
  split2 (a +:+ String c sep +:+ b) (String c sep) = [a; b].
Proof. intros H. unfold split2. by rewrite cut_first. Qed.

Lemma split2_None c sep s :
  has_char c s = false -> split2 s (String c sep) = [s].
Proof. intros H. unfold split2. by rewrite cut_None. Qed.

Lemma split2_nonempty s sep : split2 s sep <> [].
Proof. unfold split2. by destruct (cut sep s) as [[? ?]|]. Qed.

(** The fuel of [split] is enough: more gives the same pieces. *)
Lemma split_fuel_enough c sep n m s :
  String.length s < n -> n <= m ->
  split_fuel m s (String c sep) = split_fuel n s (String c sep).
Proof.
  revert m s; induction n as [|n IH]; intros m s Hs Hm; [lia|].
  destruct m as [|m]; [lia|]. cbn [split_fuel].
  destruct (cut (String c sep) s) as [[a b]|] eqn:E; [|done].
  apply cut_Some in E. subst s. f_equal.
  repeat (rewrite str_length_app in Hs; cbn in Hs). apply IH; lia.
Qed.

Lemma split_unfold c sep s :
  split s (String c sep)
  = match cut (String c sep) s with
    | Some (a, b) => a :: split b (String c sep)
    | None => [s]
    end.
Proof.
  unfold split at 1.
  change (split_fuel (S ?n) ?s ?sep) with
    (match cut sep s with Some (a, b) => a :: split_fuel n b sep | None => [s] end).
  destruct (cut (String c sep) s) as [[a b]|] eqn:E; [|done]. f_equal.
  apply cut_Some in E. apply split_fuel_enough; [lia|]. subst s.
  rewrite !str_length_app. cbn. lia.
Qed.

Lemma join_cons x y l sep : join (x :: y :: l) sep = x +:+ sep +:+ join (y :: l) sep.
Proof. done. Qed.

Lemma split_fuel_nonempty n s sep : split_fuel n s sep <> [].
Proof. destruct n; cbn; [done|]. by destruct (cut sep s) as [[? ?]|]. Qed.

(** Joining the pieces back gives the text. *)
Lemma join_split_fuel n s sep : join (split_fuel n s sep) sep = s.
Proof.
  revert s; induction n as [|n IH]; intros s; [done|].
  cbn [split_fuel]. destruct (cut sep s) as [[a b]|] eqn:E; [|done].
  apply cut_Some in E. subst s.
  destruct (split_fuel n b sep) as [|y l] eqn:El; [by apply split_fuel_nonempty in El|].
  rewrite join_cons, <- El, IH. done.
Qed.

Lemma join_split s sep : join (split s sep) sep = s.
Proof. apply join_split_fuel. Qed.

(** Splitting a joined list gives the list, when no piece holds the byte. *)
Lemma split_cons c sep x s :
  has_char c x = false ->
  split (x +:+ String c sep +:+ s) (String c sep) = x :: split s (String c sep).
Proof.
  intros Hx. rewrite split_unfold. by rewrite (cut_first c sep x s Hx).
Qed.

Lemma split_single c sep x : has_char c x = false -> split x (String c sep) = [x].
Proof. intros Hx. unfold split. cbn [split_fuel]. by rewrite (cut_None c sep x Hx). Qed.

Lemma split_join c sep l :
  l <> [] -> Forall (fun x => has_char c x = false) l ->
  split (join l (String c sep)) (String c sep) = l.
Proof.
  intros Hl Hall. induction Hall as [|x l Hx Hall IH]; [done|].
  destruct l as [|y l]; [by apply split_single|].
  rewrite join_cons, split_cons by done. by rewrite IH.
Qed.

Lemma split_Forall_char c s : Forall (fun x => has_char c x = false) (split s (String c "")).
Proof.
  unfold split. assert (String.length s < S (String.length s)) as Hlt by lia.
  revert Hlt. generalize (S (String.length s)) as n. intros n. revert s.
  induction n as [|n IH]; intros s Hs; [lia|]. cbn [split_fuel].
  destruct (cut (String c "") s) as [[a b]|] eqn:E.
  - pose proof (cut_char_before _ _ _ _ E). apply cut_Some in E. subst s.
    constructor; [done|]. apply IH. repeat (rewrite str_length_app in Hs; cbn in Hs). lia.
  - constructor; [|constructor]. by apply cut_char_None.
Qed.

Lemma has_suffix_app a b : has_suffix (a +:+ b) b = true.
Proof.
  unfold has_suffix. apply bool_decide_eq_true. rewrite str_length_app.
  replace (String.length a + String.length b - String.length b)
    with (String.length a) by lia. apply str_drop_app.
Qed.

Lemma str_take_app a b : str_take (String.length a) (a +:+ b) = a.
Proof. unfold str_take. induction a as [|c a IH]; cbn; [by destruct b|]. by rewrite IH. Qed.

Lemma trim_suffix_app a b : trim_suffix (a +:+ b) b = a.
Proof.
  unfold trim_suffix. rewrite has_suffix_app, str_length_app.
  replace (String.length a + String.length b - String.length b)
    with (String.length a) by lia. apply str_take_app.
Qed.

(** Splitting on a byte distributes over concatenation around that byte. *)
Lemma split_app_char c a b :
  split (a +:+ String c "" +:+ b) (String c "") = split a (String c "") ++ split b (String c "").
Proof.
  remember (String.length a) as n eqn:Hn. revert a Hn.
  induction (lt_wf n) as [n _ IH]. intros a ->.
  destruct (cut (String c "") a) as [[x y]|] eqn:E.
  - pose proof (cut_char_before _ _ _ _ E) as Hx. apply cut_Some in E. subst a.
    rewrite (split_cons c "" x y Hx), !str_app_assoc.
    rewrite (split_cons c "" x (y +:+ _) Hx). cbn [app]. f_equal.
    eapply IH; [|done]. rewrite !str_length_app. cbn. lia.
  - apply cut_char_None in E. rewrite split_cons by done. by rewrite (split_single c "" a E).
Qed.

(** [ReplaceAll] byte by byte *)
Lemma replace_all_other c sep new d s :
  c <> d ->
  replace_all (String d s) (String c sep) new = String d (replace_all s (String c sep) new).
Proof.
  intros Hd. unfold replace_all. rewrite (split_unfold c sep (String d s)).
  rewrite (split_unfold c sep s). cbn [cut String.prefix].
  destruct (Ascii.ascii_dec c d); [congruence|].
  destruct (cut (String c sep) s) as [[a b]|] eqn:E; [|done].
  destruct (split b _) as [|y l] eqn:El; [by apply split_fuel_nonempty in El|].
  by rewrite !join_cons.
Qed.

Lemma replace_all_hit c sep new s :
  replace_all (String c sep +:+ s) (String c sep) new = new +:+ replace_all s (String c sep) new.
Proof.
  unfold replace_all. change (String c sep +:+ s) with ("" +:+ String c sep +:+ s) at 1.
  rewrite split_cons by done.
  destruct (split s (String c sep)) as [|y l] eqn:El; [by apply split_fuel_nonempty in El|].
  by rewrite join_cons.
Qed.

Lemma replace_all_app_l c sep new a s :
  has_char c a = false ->
  replace_all (a +:+ s) (String c sep) new = a +:+ replace_all s (String c sep) new.
Proof.
  induction a as [|d a IH]; [done|]. cbn [has_char]. intros [Hd Ha]%orb_false_iff.
  apply bool_decide_eq_false in Hd. cbn [String.append].
  rewrite replace_all_other by done. by rewrite IH.
Qed.

Lemma replace_all_none c sep new a :
  has_char c a = false -> replace_all a (String c sep) new = a.
Proof. intros H. rewrite <- (str_app_nil_r a) at 1. rewrite replace_all_app_l by done.
  apply str_app_nil_r. Qed.

(** Trimming takes white space off the front, and only white space. *)
Lemma trim_left_fuel_split n ws s :
  exists pre, s = pre +:+ trim_left_fuel n ws s /\
    (forall c, has_char c pre = true -> exists w, w ∈ ws /\ has_char c w = true).
Proof.
  revert s; induction n as [|n IH]; intros s; cbn [trim_left_fuel].
  - exists "". split; [done|]. by intros c Hc.
  - unfold strip_one. destruct (List.find _ ws) as [w|] eqn:E.
    + apply List.find_some in E as [Hin Hp]. apply prefix_spec in Hp as [t ->].
      rewrite str_drop_app. destruct (IH t) as (pre & Ht & Hpre).
      exists (w +:+ pre). split; [by rewrite str_app_assoc, <- Ht|].
      intros c. rewrite has_char_app. intros [Hc|Hc]%orb_true_iff; [|by apply Hpre].
      exists w. split; [by apply list_elem_of_In | done].
    + exists "". split; [done|]. by intros c Hc.
Qed.

(** The order of [strings.Compare] is total. *)
Lemma str_compare_eq a b : str_compare a b = Eq <-> a = b.
Proof.
  revert b; induction a as [|c a IH]; intros [|d b]; cbn; try done.
  destruct (Nat.compare_spec (Ascii.nat_of_ascii c) (Ascii.nat_of_ascii d)) as [E|E|E].
  - rewrite IH. apply (f_equal Ascii.ascii_of_nat) in E.
    rewrite !Ascii.ascii_nat_embedding in E. subst. naive_solver.
  - split; [done|]. intros [= -> ->]. lia.
  - split; [done|]. intros [= -> ->]. lia.
Qed.

Lemma str_compare_antisym a b : str_compare b a = CompOpp (str_compare a b).
Proof.
  revert b; induction a as [|c a IH]; intros [|d b]; cbn; try done.
  rewrite Nat.compare_antisym.
  destruct (Nat.compare (Ascii.nat_of_ascii c) (Ascii.nat_of_ascii d)); cbn; auto.
Qed.

Lemma str_compare_lt_trans a b c :
  str_compare a b = Lt -> str_compare b c = Lt -> str_compare a c = Lt.
Proof.
  revert b c; induction a as [|x a IH]; intros [|y b] [|z c]; cbn; try done.
  destruct (Nat.compare_spec (Ascii.nat_of_ascii x) (Ascii.nat_of_ascii y)),
    (Nat.compare_spec (Ascii.nat_of_ascii y) (Ascii.nat_of_ascii z)),
    (Nat.compare_spec (Ascii.nat_of_ascii x) (Ascii.nat_of_ascii z));
    try lia; try done. apply IH.
Qed.

#[export] Instance str_le_total : Total str_le.
Proof.
  intros a b. unfold str_le. rewrite (str_compare_antisym a b).
  destruct (str_compare a b); cbn; [left|left|right]; congruence.
Qed.

#[export] Instance str_le_trans : Transitive str_le.
Proof.
  intros a b c. unfold str_le. intros H1 H2.
  destruct (str_compare a b) eqn:E1; [apply str_compare_eq in E1; subst; done| |done].
  destruct (str_compare b c) eqn:E2; [apply str_compare_eq in E2; subst; congruence| |done].
  rewrite (str_compare_lt_trans a b c) by done. done.
Qed.

#[export] Instance str_le_antisym : AntiSymm (=) str_le.
Proof.
  intros a b. unfold str_le. rewrite (str_compare_antisym a b). intros H1 H2.
  destruct (str_compare a b) eqn:E; cbn in *; [by apply str_compare_eq|done|done].
Qed.

Example split2_ex : split2 "a://b://c" "://" = ["a"; "b://c"].
Proof. reflexivity. Qed.
Example split_ex : split ",a,,b," "," = [""; "a"; ""; "b"; ""].
Proof. reflexivity. Qed.
Example trim_space_ex :
  trim_space (bytes [32; 194; 160; 97; 32; 98; 226; 128; 137; 10]) = "a b".
Proof. reflexivity. Qed.
Example replace_all_ex : replace_all "aaabaa" "aa" "x" = "xabx".
Proof. reflexivity. Qed.

Create Rewrite HintDb go_str.
#[export] Hint Rewrite str_app_assoc str_app_nil_r has_char_app : go_str.
