(* ===== verification/Filepath.v ===== *)
(** * Unix file paths: the parts of path/filepath that the loaders use

    [Clean], [Dir], [Join], [IsAbs], [IsLocal] and [Rel] on slash separated
    paths, over the list of path elements, and what it means that a path is
    inside a directory.  Following symbolic links needs the file system and is a
    parameter of the code that does it. *)

From S2P Require Import Prelude.
From S2P Require Import GoStrings.

Definition slash : string := "/".

Definition IsAbs (path : string) : bool :=
  match path with String c _ => bool_decide (c = "/"%char) | "" => false end.

(** One pass over the elements, with the elements kept so far in reverse *)
Fixpoint clean_elems (rooted : bool) (kept : list string) (elems : list string) : list string :=
  match elems with
  | [] => rev kept
  | e :: es =>
      if is_empty e || bool_decide (e = ".") then clean_elems rooted kept es
      else if bool_decide (e = "..") then
        match kept with
        | [] => clean_elems rooted (if rooted then [] else [".."]) es
        | x :: kept' =>
            if bool_decide (x = "..") then clean_elems rooted (".." :: kept) es
            else clean_elems rooted kept' es
        end
      else clean_elems rooted (e :: kept) es
  end.

(** The elements of the cleaned path *)
Definition comps (path : string) : list string :=
  clean_elems (IsAbs path) [] (split path slash).

Definition Clean (path : string) : string :=
  if IsAbs path then slash +:+ join (comps path) slash
  else match comps path with [] => "." | l => join l slash end.

(** [filepath.Dir]: the path up to its last slash, cleaned *)
Definition Dir (path : string) : string :=
  Clean (join (removelast (split path slash) ++ [""]) slash).

(** [filepath.Join(dir, file)] *)
Definition Join (dir file : string) : string :=
  if is_empty dir then if is_empty file then "" else Clean file
  else Clean (dir +:+ slash +:+ file).

Definition dot_elem (e : string) : bool := bool_decide (e = ".") || bool_decide (e = "..").

Definition IsLocal (path : string) : bool :=
  if IsAbs path || is_empty path then false
  else
    let path := if existsb dot_elem (split path slash) then Clean path else path in
    negb (bool_decide (path = "..") || has_prefix path "../").

(** The elements of a path that is already clean *)
Definition elems (path : string) : list string :=
  let path := if IsAbs path then str_drop 1 path else path in
  if is_empty path then [] else split path slash.

Fixpoint strip_common (a b : list string) : list string * list string :=
  match a, b with
  | x :: a', y :: b' => if bool_decide (x = y) then strip_common a' b' else (a, b)
  | _, _ => (a, b)
  end.

(** [filepath.Rel] *)
Definition Rel (basepath targpath : string) : result string :=
  let base := Clean basepath in
  let targ := Clean targpath in
  if bool_decide (targ = base) then Ok "."
  else
    let base := if bool_decide (base = ".") then "" else base in
    if bool_decide (IsAbs base <> IsAbs targ)
    then Err (EMsg ("Rel: can't make " +:+ targpath +:+ " relative to " +:+ basepath))
    else
      let '(bs, ts) := strip_common (elems base) (elems targ) in
      if bool_decide (head bs = Some "..")
      then Err (EMsg ("Rel: can't make " +:+ targpath +:+ " relative to " +:+ basepath))
      else Ok (join (map (fun _ => "..") bs ++ ts) slash).

(** ** Cleaned paths *)

(** A path element that names an entry of its directory *)
Definition proper (e : string) : Prop :=
  e <> "" /\ e <> "." /\ e <> ".." /\ has_char "/" e = false.

Definition normal (rooted : bool) (l : list string) : Prop :=
  exists n xs, l = replicate n ".." ++ xs /\ Forall proper xs /\ (rooted = true -> n = 0).

(** A path inside a directory: below it, without leaving it again *)
Definition inside (dir path : string) : Prop :=
  IsAbs dir = IsAbs path /\ exists rest, comps path = comps dir ++ rest /\ Forall proper rest.

Lemma rev_normal_pop rooted x kept :
  normal rooted (rev (x :: kept)) -> x <> ".." -> normal rooted (rev kept).
Proof.
  intros (n & xs & Hl & Hxs & Hr) Hx. cbn in Hl.
  destruct xs as [|y xs _] using rev_ind.
  - rewrite app_nil_r in Hl. destruct n as [|n]; [by destruct (rev kept)|].
    rewrite replicate_S_end in Hl. apply app_inj_tail in Hl as [_ ->]. done.
  - rewrite app_assoc in Hl. apply app_inj_tail in Hl as [-> ->].
    apply Forall_app in Hxs as [Hxs _]. by exists n, xs.
Qed.

Lemma normal_push rooted l e : normal rooted l -> proper e -> normal rooted (l ++ [e]).
Proof.
  intros (n & xs & -> & Hxs & Hr) He. exists n, (xs ++ [e]).
  rewrite app_assoc. repeat split; [|done]. apply Forall_app. split; [done|]. by apply Forall_singleton.
Qed.

Lemma normal_push_dots rooted kept :
  normal rooted (rev (".." :: kept)) -> normal rooted (rev (".." :: kept) ++ [".."]).
Proof.
  intros (n & xs & Hl & Hxs & Hr). cbn in Hl.
  destruct xs as [|y xs _] using rev_ind.
  - rewrite app_nil_r in Hl. destruct n as [|n]; [by destruct (rev kept)|].
    exists (S (S n)), []. repeat split; [|done|intros H; by specialize (Hr H)].
    cbn [rev]. rewrite Hl, app_nil_r. by rewrite <- replicate_S_end.
  - rewrite app_assoc in Hl. apply app_inj_tail in Hl as [_ <-].
    apply Forall_app in Hxs as [_ Hy]. inversion Hy as [|? ? (_ & _ & ? & _)]. done.
Qed.

Lemma clean_elems_normal rooted kept es :
  normal rooted (rev kept) -> Forall (fun e => has_char "/" e = false) es ->
  normal rooted (clean_elems rooted kept es).
Proof.
  intros Hk Hes. revert kept Hk. induction Hes as [|e es He Hes IH]; intros kept Hk; cbn; [done|].
  destruct (is_empty e || bool_decide (e = ".")) eqn:E1; [by apply IH|].
  apply orb_false_iff in E1 as [E1 E2]. apply is_empty_false in E1. split_bool.
  case_bool_decide as E3.
  - destruct kept as [|x kept]; [apply IH; destruct rooted; [by exists 0, []|by exists 1, []]|].
    case_bool_decide as E4; apply IH; [subst x; by apply normal_push_dots|].
    by eapply rev_normal_pop.
  - apply IH. cbn. apply normal_push; [done|]. by repeat split.
Qed.

Lemma comps_normal path : normal (IsAbs path) (comps path).
Proof.
  apply clean_elems_normal; [by exists 0, [] | apply split_Forall_char].
Qed.

Lemma proper_not_empty_slash rooted l :
  normal rooted l -> Forall (fun e => e <> "" /\ has_char "/" e = false) l.
Proof.
  intros (n & xs & -> & Hxs & _). apply Forall_app. split.
  - by apply Forall_replicate.
  - eapply Forall_impl; [done|]. by intros e (? & _ & _ & ?).
Qed.

Lemma IsAbs_slash_free e s : e <> "" -> has_char "/" e = false -> IsAbs (e +:+ s) = false.
Proof.
  destruct e as [|c e]; [done|]. cbn. intros _ H. apply orb_false_iff in H as [H _].
  apply bool_decide_eq_false in H. apply bool_decide_eq_false. congruence.
Qed.

Lemma IsAbs_join l :
  Forall (fun e => e <> "" /\ has_char "/" e = false) l -> IsAbs (join l slash) = false.
Proof.
  intros H. destruct H as [|e [|e' l] [He Hs] _]; [done| |].
  - cbn. rewrite <- (str_app_nil_r e). by apply IsAbs_slash_free.
  - rewrite join_cons. by apply IsAbs_slash_free.
Qed.

Lemma join_not_empty e l : e <> "" -> join (e :: l) slash <> "".
Proof. destruct e as [|c e]; [done|]. by destruct l. Qed.

Lemma IsAbs_Clean path : IsAbs (Clean path) = IsAbs path.
Proof.
  unfold Clean. destruct (IsAbs path) eqn:E; [done|].
  destruct (comps path) as [|e l] eqn:El; [done|].
  apply IsAbs_join. pose proof (comps_normal path) as H. rewrite El in H.
  by eapply proper_not_empty_slash.
Qed.

Lemma elems_join l :
  Forall (fun e => e <> "" /\ has_char "/" e = false) l -> l <> [] ->
  split (join l slash) slash = l.
Proof.
  intros H Hl. apply (split_join "/" ""); [done|]. eapply Forall_impl; [done|]. by intros ? [].
Qed.

Lemma elems_Clean path :
  elems (Clean path) =
    if IsAbs path then comps path else match comps path with [] => ["."] | l => l end.
Proof.
  unfold elems. rewrite IsAbs_Clean. unfold Clean.
  pose proof (proper_not_empty_slash _ _ (comps_normal path)) as Hp.
  destruct (IsAbs path); destruct (comps path) as [|e l] eqn:El; try done.
  - change (str_drop 1 (slash +:+ ?x)) with x.
    inversion_clear Hp as [|? ? [He _] _].
    rewrite (proj2 (is_empty_false _) (join_not_empty e l He)).
    apply elems_join; [|done]. rewrite <- El.
    apply (proper_not_empty_slash _ _ (comps_normal path)).
  - inversion_clear Hp as [|? ? [He _] _].
    rewrite (proj2 (is_empty_false _) (join_not_empty e l He)).
    apply elems_join; [|done]. rewrite <- El.
    apply (proper_not_empty_slash _ _ (comps_normal path)).
Qed.

Lemma strip_common_spec a b a' b' :
  strip_common a b = (a', b') -> exists c, a = c ++ a' /\ b = c ++ b'.
Proof.
  revert b; induction a as [|x a IH]; intros [|y b] H; cbn in H; simplify_eq;
    try by exists [].
  case_bool_decide; simplify_eq; [|by exists []].
  destruct (IH _ H) as (c & -> & ->). by exists (y :: c).
Qed.

(** Leading dots are never cleaned away. *)
Lemma clean_elems_dots kept es :
  exists l, clean_elems false (kept ++ [".."]) es = ".." :: l.
Proof.
  revert kept; induction es as [|e es IH]; intros kept; cbn.
  - exists (rev kept). by rewrite rev_app_distr.
  - destruct (is_empty e || bool_decide (e = ".")); [apply IH|].
    case_bool_decide.
    + destruct kept as [|x kept]; cbn.
      * apply (IH [".."]).
      * case_bool_decide; [apply (IH (".." :: x :: kept)) | apply IH].
    + apply (IH (e :: kept)).
Qed.

Lemma IsLocal_dots l :
  Forall (fun e => e <> "" /\ has_char "/" e = false) l -> IsLocal (join (".." :: l) slash) = false.
Proof.
  intros Hl.
  assert (Forall (fun e => e <> "" /\ has_char "/" e = false) (".." :: l)) as Hl' by by constructor.
  unfold IsLocal. rewrite IsAbs_join by done.
  rewrite (proj2 (is_empty_false _) (join_not_empty ".." l ltac:(done))).
  cbn [orb]. rewrite elems_join by done. cbn [existsb dot_elem].
  replace (bool_decide (".." = ".") || bool_decide (".." = "..")) with true by done. cbn [orb].
  unfold Clean. rewrite IsAbs_join by done. unfold comps.
  rewrite IsAbs_join, elems_join by done.
  change (clean_elems false [] (".." :: l)) with (clean_elems false ([] ++ [".."]) l).
  destruct (clean_elems_dots [] l) as (l' & ->).
  destruct l' as [|y l']; [done|]. rewrite join_cons.
  apply negb_false_iff, orb_true_iff. right.
  unfold has_prefix. change (".." +:+ slash +:+ ?x) with ("../" +:+ x). apply prefix_app.
Qed.

Lemma normal_suffix_proper rooted c ts :
  normal rooted (c ++ ts) -> head ts <> Some ".." -> Forall proper ts.
Proof.
  intros (n & xs & Hl & Hxs & _) Hh. revert c Hl. induction n as [|n IH]; intros c Hl; cbn in Hl.
  - subst xs. apply Forall_app in Hxs. tauto.
  - destruct c as [|x c]; cbn in Hl; [by subst ts|]. injection Hl as -> Hl. by eapply IH.
Qed.

Lemma comps_not_dot path : comps path <> ["."].
Proof.
  intros H. destruct (comps_normal path) as ([|[|n]] & xs & Hx & Hp & _); rewrite H in Hx; try done.
  cbn in Hx. subst xs. by inversion Hp as [|? ? (_ & ? & _)].
Qed.

(** Two paths that clean to the same text have the same elements. *)
Lemma Clean_comps a b : Clean a = Clean b -> comps a = comps b.
Proof.
  intros H. assert (IsAbs a = IsAbs b) as Ha by (rewrite <- IsAbs_Clean, H; apply IsAbs_Clean).
  pose proof (elems_Clean a) as E1. pose proof (elems_Clean b) as E2.
  rewrite <- H, E1, Ha in E2. destruct (IsAbs b); [done|].
  pose proof (comps_not_dot a). pose proof (comps_not_dot b).
  destruct (comps a), (comps b); congruence.
Qed.

Lemma elems_base dir :
  let base := if bool_decide (Clean dir = ".") then "" else Clean dir in
  elems base = comps dir /\ IsAbs base = IsAbs dir.
Proof.
  intros base. unfold base. case_bool_decide as Hd.
  - change "." with (Clean ".") in Hd. rewrite (Clean_comps _ _ Hd).
    split; [done|]. rewrite <- (IsAbs_Clean dir), Hd. done.
  - split; [|apply IsAbs_Clean]. rewrite elems_Clean.
    destruct (IsAbs dir) eqn:Ha; [done|]. destruct (comps dir) eqn:E; [|done].
    exfalso. apply Hd. unfold Clean. by rewrite Ha, E.
Qed.

(** The check that [confineToDir] makes is the right one: a local relative path
    from the directory means that the target is inside it. *)
Lemma Rel_local_inside dir targ r :
  Rel dir targ = Ok r -> IsLocal r = true -> inside dir targ.
Proof.
  unfold Rel, inside. intros H Hloc. case_bool_decide as Heq.
  { symmetry in Heq. split; [by rewrite <- (IsAbs_Clean dir), Heq, IsAbs_Clean|].
    exists []. rewrite app_nil_r. split; [|done]. symmetry. by apply Clean_comps. }
  destruct (elems_base dir) as [Eb Ab].
  set (base := if bool_decide (Clean dir = ".") then "" else Clean dir) in *.
  case_bool_decide as Habs; [done|].
  rewrite Ab, IsAbs_Clean in Habs. rewrite Eb in H.
  destruct (strip_common (comps dir) (elems (Clean targ))) as [bs ts] eqn:Es.
  case_bool_decide as Hh; [done|]. injection H as <-.
  apply strip_common_spec in Es as (c & Hb & Ht).
  rewrite elems_Clean, <- Habs in Ht. split; [done|].
  assert (Forall (fun e => e <> "" /\ has_char "/" e = false) (c ++ ts)) as Hts.
  { rewrite <- Ht. pose proof (proper_not_empty_slash _ _ (comps_normal targ)).
    destruct (IsAbs dir), (comps targ); try done. by repeat constructor. }
  apply Forall_app in Hts as [_ Hts].
  destruct bs as [|b bs].
  2:{ cbn [map app] in Hloc. rewrite IsLocal_dots in Hloc; [done|].
      apply Forall_app. split; [|done]. apply Forall_fmap, Forall_true. done. }
  rewrite app_nil_r in Hb. subst c. cbn in Hloc.
  assert (head ts <> Some "..") as Hhead.
  { intros Hd. destruct ts as [|t ts]; [done|]. cbn in Hd. injection Hd as ->.
    inversion_clear Hts. by rewrite IsLocal_dots in Hloc. }
  assert (comps targ = comps dir ++ ts) as Hct.
  { destruct (IsAbs dir) eqn:Ha; [done|]. destruct (comps targ) eqn:T; [|done].
    exfalso. apply Heq. unfold Clean. rewrite <- Habs, Ha, T.
    destruct (comps dir) as [|d l] eqn:D; [done|].
    injection Ht as <- Hl. apply eq_sym, app_eq_nil in Hl as [-> _].
    by apply comps_not_dot in D. }
  exists ts. split; [done|]. eapply normal_suffix_proper; [|done].
  rewrite <- Hct. apply comps_normal.
Qed.

(** ** Joining a local path *)

Lemma clean_elems_app rooted kept xs ys :
  clean_elems rooted kept (xs ++ ys)
  = clean_elems rooted (rev (clean_elems rooted kept xs)) ys.
Proof.
  revert kept; induction xs as [|x xs IH]; intros kept; cbn; [by rewrite rev_involutive|].
  destruct (is_empty x || bool_decide (x = ".")); [done|].
  case_bool_decide; [|done]. destruct kept as [|y kept]; [done|]. by case_bool_decide.
Qed.

(** Elements that never climb above where they start stay below it. *)
Lemma clean_elems_below rooted k base es :
  Forall (fun e => e <> "..") k -> head (clean_elems false k es) <> Some ".." ->
  clean_elems rooted (k ++ base) es = rev base ++ clean_elems false k es.
Proof.
  revert k; induction es as [|e es IH]; intros k Hk Hh; cbn in *; [by rewrite rev_app_distr|].
  destruct (is_empty e || bool_decide (e = ".")); [by apply IH|].
  case_bool_decide as He.
  - destruct Hk as [|x k Hx Hk]; cbn in *.
    + by destruct (clean_elems_dots [] es) as (l & Hl); cbn in Hl; rewrite Hl in Hh.
    + rewrite bool_decide_eq_false_2 in * by done. by apply IH.
  - apply (IH (e :: k)); [by constructor | done].
Qed.

Lemma clean_elems_no_dots kept es :
  existsb dot_elem es = false -> Forall (fun e => e <> "..") kept ->
  Forall (fun e => e <> "..") (clean_elems false kept es).
Proof.
  revert kept; induction es as [|e es IH]; intros kept Hd Hk; cbn in *; [by apply Forall_rev|].
  apply orb_false_iff in Hd as [He Hd]. unfold dot_elem in He. split_bool.
  destruct (is_empty e || bool_decide (e = ".")); [by apply IH|].
  rewrite bool_decide_eq_false_2 by done. apply IH; [done|]. by constructor.
Qed.

Lemma IsLocal_comps path :
  IsLocal path = true -> IsAbs path = false /\ head (comps path) <> Some "..".
Proof.
  unfold IsLocal. destruct (IsAbs path) eqn:Ha; [done|]. cbn [orb].
  destruct (is_empty path); [done|]. intros H. split; [done|]. intros Hh.
  destruct (existsb dot_elem (split path slash)) eqn:Ed.
  - unfold Clean in H. rewrite Ha in H.
    destruct (comps path) as [|e [|e' l]]; [done| |]; cbn in Hh; injection Hh as ->; [done|].
    rewrite join_cons in H. split_bool. unfold has_prefix in H0.
    change (".." +:+ slash +:+ ?x) with ("../" +:+ x) in H0. by rewrite prefix_app in H0.
  - unfold comps in Hh. rewrite Ha in Hh.
    pose proof (clean_elems_no_dots [] _ Ed (Forall_nil_2 _)) as Hall.
    destruct Hall; [done|]. cbn in Hh. congruence.
Qed.

Lemma clean_elems_proper rooted kept xs :
  Forall proper xs -> clean_elems rooted kept xs = rev kept ++ xs.
Proof.
  intros H. revert kept. induction H as [|x xs (H1 & H2 & H3 & _) _ IH]; intros kept; cbn;
    [by rewrite app_nil_r|].
  rewrite (proj2 (is_empty_false x) H1), !bool_decide_eq_false_2 by done. cbn [orb].
  rewrite IH. cbn. by rewrite <- app_assoc.
Qed.

Lemma clean_elems_normal_id rooted l : normal rooted l -> clean_elems rooted [] l = l.
Proof.
  intros (n & xs & -> & Hxs & Hr). destruct rooted.
  - rewrite (Hr eq_refl). by apply clean_elems_proper.
  - clear Hr. rewrite clean_elems_app.
    assert (forall m, clean_elems false (replicate m "..") (replicate n "..")
                      = replicate (m + n) "..") as H.
    { induction n as [|n IH]; intros m; cbn.
      - rewrite Nat.add_0_r, rev_alt. apply reverse_replicate.
      - destruct m as [|m]; cbn; [apply (IH 1)|].
        rewrite Nat.add_succ_r. exact (IH (S (S m))). }
    specialize (H 0). cbn in H. rewrite H, clean_elems_proper, rev_involutive; done.
Qed.

Lemma comps_Clean path : comps (Clean path) = comps path.
Proof.
  unfold comps at 1. rewrite IsAbs_Clean.
  pose proof (comps_normal path) as Hn. pose proof (proper_not_empty_slash _ _ Hn) as Hp.
  unfold Clean. destruct (IsAbs path) eqn:Ha.
  - change (slash +:+ ?x) with ("" +:+ String "/" "" +:+ x).
    unfold slash at 2. rewrite split_cons by done. cbn [clean_elems is_empty].
    destruct (comps path) as [|e l] eqn:E; [done|].
    change (String "/" "") with slash. rewrite elems_join by done.
    by apply clean_elems_normal_id.
  - destruct (comps path) as [|e l] eqn:E; [done|].
    rewrite elems_join by done. by apply clean_elems_normal_id.
Qed.

(** A local path joined to a directory is below that directory. *)
Lemma Join_local_inside dir ref :
  dir <> "" -> IsLocal ref = true -> inside dir (Join dir ref).
Proof.
  intros Hd Hl. unfold Join, inside. rewrite (proj2 (is_empty_false dir) Hd), comps_Clean.
  destruct (IsLocal_comps _ Hl) as [Ha Hh]. rewrite IsAbs_Clean.
  assert (IsAbs (dir +:+ slash +:+ ref) = IsAbs dir) as Hj by by destruct dir.
  split; [done|].
  assert (comps (dir +:+ slash +:+ ref) = comps dir ++ comps ref) as Hc.
  { unfold comps. rewrite Hj. unfold slash. rewrite split_app_char, clean_elems_app.
    fold slash. rewrite <- (app_nil_l (rev _)), clean_elems_below; [|done|].
    - by rewrite rev_involutive, Ha.
    - unfold comps in Hh. by rewrite Ha in Hh. }
  exists (comps ref). split; [done|].
  apply (normal_suffix_proper (IsAbs dir) (comps dir)); [|done].
  rewrite <- Hc, <- Hj. apply comps_normal.
Qed.

Lemma Clean_not_empty path : Clean path <> "".
Proof.
  unfold Clean. destruct (IsAbs path); [done|].
  pose proof (proper_not_empty_slash _ _ (comps_normal path)) as Hp.
  destruct Hp as [|e l [He _] _]; [done|]. by apply join_not_empty.
Qed.

Example clean_example : Clean "a//b/./../../../c/" = "../c".
Proof. vm_compute. reflexivity. Qed.
Example rel_example : Rel "/etc/policies" "/etc/passwd" = Ok "../passwd".
Proof. vm_compute. reflexivity. Qed.
Example dir_example : Dir "policies/p.yaml" = "policies".
Proof. vm_compute. reflexivity. Qed.
