(* ===== verification/Base64.v ===== *)
(** * Standard base64 (encoding/base64's StdEncoding)

    Policy sources are recorded in base64, and a WASM policy may be embedded in
    base64.  A byte is its eight bits, a base64 digit six of them. *)

From S2P Require Import Prelude.
From S2P Require Import GoStrings.

(** Six bits, most significant first *)
Definition sextet : Type := bool * bool * bool * bool * bool * bool.

Definition alphabet : string :=
  "ABCDEFGHIJKLMNOPQRSTUVWXYZabcdefghijklmnopqrstuvwxyz0123456789+/".

Definition sextet_value (s : sextet) : nat :=
  let '(a, b, c, d, e, f) := s in
  let bit (x : bool) n := if x then n else 0 in
  bit a 32 + bit b 16 + bit c 8 + bit d 4 + bit e 2 + bit f 1.

Definition enc_char (s : sextet) : ascii :=
  match String.get (sextet_value s) alphabet with Some c => c | None => "="%char end.

Definition all_sextets : list sextet :=
  a ← [false; true]; b ← [false; true]; c ← [false; true]; d ← [false; true];
  e ← [false; true]; f ← [false; true]; [(a, b, c, d, e, f)].

Definition dec_char (c : ascii) : option sextet :=
  List.find (fun s => Ascii.eqb (enc_char s) c) all_sextets.

Definition pad : ascii := "="%char.

(** [base64.StdEncoding.EncodeToString] *)
Fixpoint EncodeToString (s : string) : string :=
  match s with
  | "" => ""
  | String (Ascii x0 x1 x2 x3 x4 x5 x6 x7) "" =>
      String (enc_char (x7, x6, x5, x4, x3, x2))
        (String (enc_char (x1, x0, false, false, false, false)) (String pad (String pad "")))
  | String (Ascii x0 x1 x2 x3 x4 x5 x6 x7) (String (Ascii y0 y1 y2 y3 y4 y5 y6 y7) "") =>
      String (enc_char (x7, x6, x5, x4, x3, x2))
        (String (enc_char (x1, x0, y7, y6, y5, y4))
           (String (enc_char (y3, y2, y1, y0, false, false)) (String pad "")))
  | String (Ascii x0 x1 x2 x3 x4 x5 x6 x7)
      (String (Ascii y0 y1 y2 y3 y4 y5 y6 y7)
         (String (Ascii z0 z1 z2 z3 z4 z5 z6 z7) s')) =>
      String (enc_char (x7, x6, x5, x4, x3, x2))
        (String (enc_char (x1, x0, y7, y6, y5, y4))
           (String (enc_char (y3, y2, y1, y0, z7, z6))
              (String (enc_char (z5, z4, z3, z2, z1, z0)) (EncodeToString s'))))
  end.

(** Line breaks are ignored wherever they are. *)
Definition is_break (c : ascii) : bool := Ascii.eqb c (byte 10) || Ascii.eqb c (byte 13).

Fixpoint strip_breaks (s : string) : string :=
  match s with
  | "" => ""
  | String c s' => if is_break c then strip_breaks s' else String c (strip_breaks s')
  end.

(** Groups of four digits; padding only ends the text *)
Fixpoint decode_groups (s : string) : option string :=
  match s with
  | "" => Some ""
  | String a (String b (String c (String d s'))) =>
      match dec_char a, dec_char b with
      | Some (a5, a4, a3, a2, a1, a0), Some (b5, b4, b3, b2, b1, b0) =>
          let x := Ascii b4 b5 a0 a1 a2 a3 a4 a5 in
          match dec_char c, dec_char d with
          | Some (c5, c4, c3, c2, c1, c0), Some (d5, d4, d3, d2, d1, d0) =>
              let y := Ascii c2 c3 c4 c5 b0 b1 b2 b3 in
              let z := Ascii d0 d1 d2 d3 d4 d5 c0 c1 in
              rest ← decode_groups s'; Some (String x (String y (String z rest)))
          | Some (c5, c4, c3, c2, c1, c0), None =>
              let y := Ascii c2 c3 c4 c5 b0 b1 b2 b3 in
              if Ascii.eqb d pad && is_empty s' then Some (String x (String y "")) else None
          | None, _ =>
              if Ascii.eqb c pad && Ascii.eqb d pad && is_empty s'
              then Some (String x "") else None
          end
      | _, _ => None
      end
  | _ => None
  end.

(** [base64.StdEncoding.DecodeString] *)
Definition DecodeString (s : string) : option string := decode_groups (strip_breaks s).

(** ** Decoding an encoding *)

Lemma dec_enc s : dec_char (enc_char s) = Some s.
Proof. by destruct s as [[[[[[] []] []] []] []] []]; vm_compute. Qed.

Lemma enc_no_break s : is_break (enc_char s) = false.
Proof. by destruct s as [[[[[[] []] []] []] []] []]; vm_compute. Qed.

Lemma dec_pad : dec_char pad = None.
Proof. by vm_compute. Qed.

(** Induction over groups of three bytes *)
Lemma string_ind3 (P : string -> Prop) :
  P "" -> (forall x, P (String x "")) -> (forall x y, P (String x (String y ""))) ->
  (forall x y z s, P s -> P (String x (String y (String z s)))) -> forall s, P s.
Proof.
  intros H0 H1 H2 H3.
  enough (forall n s, String.length s <= n -> P s) as H by (intros s; by eapply H).
  induction n as [|n IH]; intros s Hs.
  - by destruct s; [|cbn in Hs; lia].
  - destruct s as [|x [|y [|z s]]]; auto. apply H3, IH. cbn in Hs. lia.
Qed.

Lemma strip_breaks_encode s : strip_breaks (EncodeToString s) = EncodeToString s.
Proof.
  induction s as [|x|x y|x y z s IH] using string_ind3; [done|destruct x|destruct x, y|destruct x, y, z];
    cbn [EncodeToString strip_breaks]; rewrite !enc_no_break; try done.
  by rewrite IH.
Qed.

Lemma Decode_Encode s : DecodeString (EncodeToString s) = Some s.
Proof.
  unfold DecodeString. rewrite strip_breaks_encode.
  induction s as [|x|x y|x y z s IH] using string_ind3; [done|destruct x|destruct x, y|destruct x, y, z];
    cbn [EncodeToString decode_groups]; rewrite !dec_enc, ?dec_pad; try done.
  by rewrite IH.
Qed.

Example encode_example : EncodeToString "chainloop" = "Y2hhaW5sb29w".
Proof. vm_compute. reflexivity. Qed.
