(* ===== verification/Envelope.v ===== *)
(** * DSSE envelopes and Sigstore bundles

    pkg/attestation/attestations.go and the extraction of an envelope from a
    material, pkg/attestation/crafter/materials/attestation.  An attestation is
    signed as a DSSE envelope (payload and signatures in base64) and stored as a
    Sigstore bundle (raw bytes).  Bundles of older versions hold a signature
    that is base64 text itself; the code guesses this from the bytes.

    The decoders of the two JSON forms come from protobuf and encoding/json on
    third-party types: they are parameters. *)

From S2P Require Import Prelude.
From S2P Require Import GoStrings.
From S2P Require Import Base64.

(** ** Data *)

(** [dsse.Signature] and [dsse.Envelope] *)
Record DsseSignature := { ds_keyid : string; ds_sig : string }.

Record DsseEnvelope := {
  de_payload_type : string; de_payload : string; de_signatures : list DsseSignature
}.

(** The messages of sigstore's bundle that the code reads: the signature and
    the payload are raw bytes there *)
Record SigstoreSignature := { ss_sig : string; ss_keyid : string }.

Record SigstoreEnvelope := {
  se_payload : string; se_payload_type : string; se_signatures : list SigstoreSignature
}.

(** The [content] oneof of the verification material: raw certificates *)
Inductive VerificationContent_ :=
| VMCertificate (raw : string)
| VMCertificateChain (raws : list string)
| VMPublicKey (hint : string).

Record VerificationMaterial := {
  vm_content : option VerificationContent_;
  vm_timestamps : list string
}.

(** [Bundle]; its content is [None] when it is not a DSSE envelope *)
Record Bundle := {
  b_media_type : string;
  b_dsse : option SigstoreEnvelope;
  b_verification : option VerificationMaterial
}.

(** The first signature, which every function below takes as its own *)
Definition first_signature (b : Bundle) : option (SigstoreEnvelope * SigstoreSignature) :=
  match b_dsse b with
  | Some e => match se_signatures e with s :: _ => Some (e, s) | [] => None end
  | None => None
  end.

(** ** Conversions *)

(** The workaround for signatures that were encoded twice *)
Definition undo_encoding (sig : string) : string :=
  match DecodeString sig with Some decoded => decoded | None => sig end.

(** [DSSEEnvelopeFromBundle] *)
Definition DSSEEnvelopeFromBundle (bundle : Bundle) : result DsseEnvelope :=
  match first_signature bundle with
  | None => Err (panic "index out of range")
  | Some (env, s) =>
      Ok {| de_payload_type := se_payload_type env;
            de_payload := EncodeToString (se_payload env);
            de_signatures := [{| ds_keyid := ss_keyid s;
                                 ds_sig := EncodeToString (undo_encoding (ss_sig s)) |}] |}
  end.

Definition bundle_media_type : string := "application/vnd.dev.sigstore.bundle+json;version=0.3".

Definition decode_b64 (s : string) : result string :=
  match DecodeString s with Some d => Ok d | None => Err (EMsg "illegal base64 data") end.

(** [BundleFromDSSEEnvelope] *)
Definition BundleFromDSSEEnvelope (e : DsseEnvelope) : result Bundle :=
  match de_signatures e with
  | [] => Err (EMsg "DSSE envelope has no signatures")
  | s :: _ =>
      payload ← map_err (EWrap "decoding payload") (decode_b64 (de_payload e));
      sig ← map_err (EWrap "decoding signature") (decode_b64 (ds_sig s));
      Ok {| b_media_type := bundle_media_type;
            b_dsse := Some {| se_payload := payload; se_payload_type := de_payload_type e;
                              se_signatures := [{| ss_sig := sig; ss_keyid := ds_keyid s |}] |};
            b_verification := Some {| vm_content := None; vm_timestamps := [] |} |}
  end.

(** [FixSignatureInBundle]; the bundle is changed in place *)
Definition FixSignatureInBundle (b : Bundle) : result Bundle :=
  match b_dsse b with
  | Some {| se_payload := p; se_payload_type := t; se_signatures := s :: rest |} =>
      Ok {| b_media_type := b_media_type b;
            b_dsse := Some {| se_payload := p; se_payload_type := t;
                              se_signatures := {| ss_sig := undo_encoding (ss_sig s);
                                                  ss_keyid := ss_keyid s |} :: rest |};
            b_verification := b_verification b |}
  | _ => Err (panic "index out of range")
  end.

Section Extract.
Context (unmarshal_bundle : string -> result Bundle).
Context (unmarshal_envelope : string -> result DsseEnvelope).

(** [ExtractDSSEEnvelope]: a bundle when it parses as one and has a media type,
    an envelope otherwise *)
Definition ExtractDSSEEnvelope (data : string) : result DsseEnvelope :=
  let as_envelope :=
    map_err (EWrap "failed to parse the provided file as a DSSE envelope") (unmarshal_envelope data) in
  match unmarshal_bundle data with
  | Ok bundle => if is_empty (b_media_type bundle) then as_envelope else DSSEEnvelopeFromBundle bundle
  | Err _ => as_envelope
  end.

(** [DSSEEnvelopeFromBundleBytes] *)
Definition DSSEEnvelopeFromBundleBytes (bundle : string) : result DsseEnvelope :=
  attBundle ← map_err (EWrap "unmarshalling bundle") (unmarshal_bundle bundle);
  match first_signature attBundle with
  | None => Err (EMsg "invalid attestation bundle: missing DSSE signature")
  | Some _ => DSSEEnvelopeFromBundle attBundle
  end.
End Extract.

(** ** Round trips *)

Lemma decode_b64_encode s : decode_b64 (EncodeToString s) = Ok s.
Proof. unfold decode_b64. by rewrite Decode_Encode. Qed.

(** An envelope as a signer writes it: one signature over a payload *)
Definition signed_envelope (payload_type payload keyid sig : string) : DsseEnvelope :=
  {| de_payload_type := payload_type; de_payload := EncodeToString payload;
     de_signatures := [{| ds_keyid := keyid; ds_sig := EncodeToString sig |}] |}.

(** What comes back from a bundle of it *)
Lemma bundle_of_signed payload_type payload keyid sig :
  (BundleFromDSSEEnvelope (signed_envelope payload_type payload keyid sig) ≫= DSSEEnvelopeFromBundle)
  = Ok (signed_envelope payload_type payload keyid (undo_encoding sig)).
Proof.
  unfold BundleFromDSSEEnvelope. cbn [signed_envelope de_signatures de_payload ds_sig].
  rewrite !decode_b64_encode. done.
Qed.

Lemma undo_encoding_encoded s : undo_encoding (EncodeToString s) = s.
Proof. unfold undo_encoding. by rewrite Decode_Encode. Qed.

(** A signed attestation survives its storage as a bundle, payload, type,
    key and signature, exactly when its raw signature does not happen to be
    base64 text of something else; and an envelope that the older versions
    stored with its signature encoded twice comes back corrected. *)
Theorem envelope_bundle_roundtrip payload_type payload keyid sig :
  let e := signed_envelope payload_type payload keyid sig in
  ((BundleFromDSSEEnvelope e ≫= DSSEEnvelopeFromBundle) = Ok e
     <-> DecodeString sig = None \/ DecodeString sig = Some sig)
  /\ (BundleFromDSSEEnvelope (signed_envelope payload_type payload keyid (EncodeToString sig))
        ≫= DSSEEnvelopeFromBundle) = Ok e.
Proof.
  intros e. subst e. rewrite !bundle_of_signed, undo_encoding_encoded. split; [|done]. split.
  - intros [= H]. apply (f_equal DecodeString) in H. rewrite !Decode_Encode in H.
    injection H as H. unfold undo_encoding in H. destruct (DecodeString sig); subst; eauto.
  - unfold undo_encoding. by intros [-> | ->].
Qed.

(** A signature whose raw bytes are base64 text is not the signature that
    is read back: the workaround for older bundles decodes it. *)
Theorem ambiguous_signature_corrupted :
  exists sig e', (BundleFromDSSEEnvelope (signed_envelope "t" "p" "k" sig) ≫= DSSEEnvelopeFromBundle)
    = Ok e' /\ e' <> signed_envelope "t" "p" "k" sig.
Proof.
  exists "c2ln". eexists. rewrite bundle_of_signed. split; [done|]. vm_compute. discriminate.
Qed.
