(* ===== verification/Contract.v ===== *)
(** * The workflow contract: its data and its own validations

    The messages of workflowcontract/v1/crafting_schema.proto that the
    attestation code reads, and the validations of
    workflowcontract/v1/crafting_schema_validations.go.  A protobuf message
    field that the schema validation requires is a plain field here; one that
    may be absent is an option, and a nil map is the empty map (lookup, range
    and len do not tell them apart). *)

From S2P Require Import Prelude.
From S2P Require Import GoStrings.

(** ** Material kinds *)

Inductive MaterialType :=
| MATERIAL_TYPE_UNSPECIFIED
| STRING
| CONTAINER_IMAGE
| ARTIFACT
| SBOM_CYCLONEDX_JSON
| SBOM_SPDX_JSON
| JUNIT_XML
| OPENVEX
| CSAF_VEX
| SARIF
| HELM_CHART
| EVIDENCE
| ATTESTATION
| CSAF_INFORMATIONAL_ADVISORY
| CSAF_SECURITY_ADVISORY
| CSAF_SECURITY_INCIDENT_RESPONSE
| GITLAB_SECURITY_REPORT
| ZAP_DAST_ZIP
| BLACKDUCK_SCA_JSON
| TWISTCLI_SCAN_JSON
| GHAS_CODE_SCAN
| GHAS_SECRET_SCAN
| GHAS_DEPENDENCY_SCAN
| JACOCO_XML
| SLSA_PROVENANCE
| CHAINLOOP_RUNNER_CONTEXT
| CHAINLOOP_PR_INFO
| GITLEAKS_JSON
| CHAINLOOP_AI_AGENT_CONFIG
| CHAINLOOP_AI_CODING_SESSION
| OPENAPI_SPEC
| ASYNCAPI_SPEC
| GRAPHQL_SPEC
| YELP_DETECT_SECRETS_BASELINE
| SYSINTERNALS_SIGCHECK
| SYSINTERNALS_ACCESSCHK
| CERTCC_DRANZER
| OSSF_SCORECARD_JSON
| RADAMSA_REPORT
| RADAMSA_CRASHES
| TRUFFLEHOG_JSON
| COBERTURA_XML
| CHECKMARX_JSON
| OVERSECURED_JSON
| PITEST_XML
| CHAINLOOP_AI_SECURITY_CONTEXT
| MSBUILD_LOG.

#[export] Instance MaterialType_eq_dec : EqDecision MaterialType.
Proof. solve_decision. Defined.

(** [MaterialType.String()] *)
Definition MaterialType_name (t : MaterialType) : string :=
  match t with
  | MATERIAL_TYPE_UNSPECIFIED => "MATERIAL_TYPE_UNSPECIFIED"
  | STRING => "STRING"
  | CONTAINER_IMAGE => "CONTAINER_IMAGE"
  | ARTIFACT => "ARTIFACT"
  | SBOM_CYCLONEDX_JSON => "SBOM_CYCLONEDX_JSON"
  | SBOM_SPDX_JSON => "SBOM_SPDX_JSON"
  | JUNIT_XML => "JUNIT_XML"
  | OPENVEX => "OPENVEX"
  | CSAF_VEX => "CSAF_VEX"
  | SARIF => "SARIF"
  | HELM_CHART => "HELM_CHART"
  | EVIDENCE => "EVIDENCE"
  | ATTESTATION => "ATTESTATION"
  | CSAF_INFORMATIONAL_ADVISORY => "CSAF_INFORMATIONAL_ADVISORY"
  | CSAF_SECURITY_ADVISORY => "CSAF_SECURITY_ADVISORY"
  | CSAF_SECURITY_INCIDENT_RESPONSE => "CSAF_SECURITY_INCIDENT_RESPONSE"
  | GITLAB_SECURITY_REPORT => "GITLAB_SECURITY_REPORT"
  | ZAP_DAST_ZIP => "ZAP_DAST_ZIP"
  | BLACKDUCK_SCA_JSON => "BLACKDUCK_SCA_JSON"
  | TWISTCLI_SCAN_JSON => "TWISTCLI_SCAN_JSON"
  | GHAS_CODE_SCAN => "GHAS_CODE_SCAN"
  | GHAS_SECRET_SCAN => "GHAS_SECRET_SCAN"
  | GHAS_DEPENDENCY_SCAN => "GHAS_DEPENDENCY_SCAN"
  | JACOCO_XML => "JACOCO_XML"
  | SLSA_PROVENANCE => "SLSA_PROVENANCE"
  | CHAINLOOP_RUNNER_CONTEXT => "CHAINLOOP_RUNNER_CONTEXT"
  | CHAINLOOP_PR_INFO => "CHAINLOOP_PR_INFO"
  | GITLEAKS_JSON => "GITLEAKS_JSON"
  | CHAINLOOP_AI_AGENT_CONFIG => "CHAINLOOP_AI_AGENT_CONFIG"
  | CHAINLOOP_AI_CODING_SESSION => "CHAINLOOP_AI_CODING_SESSION"
  | OPENAPI_SPEC => "OPENAPI_SPEC"
  | ASYNCAPI_SPEC => "ASYNCAPI_SPEC"
  | GRAPHQL_SPEC => "GRAPHQL_SPEC"
  | YELP_DETECT_SECRETS_BASELINE => "YELP_DETECT_SECRETS_BASELINE"
  | SYSINTERNALS_SIGCHECK => "SYSINTERNALS_SIGCHECK"
  | SYSINTERNALS_ACCESSCHK => "SYSINTERNALS_ACCESSCHK"
  | CERTCC_DRANZER => "CERTCC_DRANZER"
  | OSSF_SCORECARD_JSON => "OSSF_SCORECARD_JSON"
  | RADAMSA_REPORT => "RADAMSA_REPORT"
  | RADAMSA_CRASHES => "RADAMSA_CRASHES"
  | TRUFFLEHOG_JSON => "TRUFFLEHOG_JSON"
  | COBERTURA_XML => "COBERTURA_XML"
  | CHECKMARX_JSON => "CHECKMARX_JSON"
  | OVERSECURED_JSON => "OVERSECURED_JSON"
  | PITEST_XML => "PITEST_XML"
  | CHAINLOOP_AI_SECURITY_CONTEXT => "CHAINLOOP_AI_SECURITY_CONTEXT"
  | MSBUILD_LOG => "MSBUILD_LOG"
  end.

Definition all_material_types : list MaterialType :=
  [MATERIAL_TYPE_UNSPECIFIED; STRING; CONTAINER_IMAGE; ARTIFACT;
   SBOM_CYCLONEDX_JSON; SBOM_SPDX_JSON; JUNIT_XML; OPENVEX; CSAF_VEX;
   SARIF; HELM_CHART; EVIDENCE; ATTESTATION; CSAF_INFORMATIONAL_ADVISORY;
   CSAF_SECURITY_ADVISORY; CSAF_SECURITY_INCIDENT_RESPONSE;
   GITLAB_SECURITY_REPORT; ZAP_DAST_ZIP; BLACKDUCK_SCA_JSON;
   TWISTCLI_SCAN_JSON; GHAS_CODE_SCAN; GHAS_SECRET_SCAN;
   GHAS_DEPENDENCY_SCAN; JACOCO_XML; SLSA_PROVENANCE;
   CHAINLOOP_RUNNER_CONTEXT; CHAINLOOP_PR_INFO; GITLEAKS_JSON;
   CHAINLOOP_AI_AGENT_CONFIG; CHAINLOOP_AI_CODING_SESSION; OPENAPI_SPEC;
   ASYNCAPI_SPEC; GRAPHQL_SPEC; YELP_DETECT_SECRETS_BASELINE;
   SYSINTERNALS_SIGCHECK; SYSINTERNALS_ACCESSCHK; CERTCC_DRANZER;
   OSSF_SCORECARD_JSON; RADAMSA_REPORT; RADAMSA_CRASHES; TRUFFLEHOG_JSON;
   COBERTURA_XML; CHECKMARX_JSON; OVERSECURED_JSON; PITEST_XML;
   CHAINLOOP_AI_SECURITY_CONTEXT; MSBUILD_LOG].

(** [CraftingSchema_Material_MaterialType_value[kind]] *)
Definition MaterialType_value (kind : string) : option MaterialType :=
  List.find (fun t => bool_decide (MaterialType_name t = kind)) all_material_types.

(** The kinds probed when the kind of a material is not given *)
Definition CraftingMaterialInValidationOrder : list MaterialType :=
  [OPENVEX; SBOM_CYCLONEDX_JSON; SBOM_SPDX_JSON; CSAF_VEX;
   CSAF_INFORMATIONAL_ADVISORY; CSAF_SECURITY_ADVISORY;
   CSAF_SECURITY_INCIDENT_RESPONSE; GITLAB_SECURITY_REPORT; GITLEAKS_JSON;
   YELP_DETECT_SECRETS_BASELINE; SYSINTERNALS_SIGCHECK;
   OSSF_SCORECARD_JSON; OPENAPI_SPEC; ASYNCAPI_SPEC; GRAPHQL_SPEC;
   JUNIT_XML; JACOCO_XML; COBERTURA_XML; PITEST_XML; HELM_CHART; SARIF;
   BLACKDUCK_SCA_JSON; TWISTCLI_SCAN_JSON; ZAP_DAST_ZIP; SLSA_PROVENANCE;
   CHAINLOOP_RUNNER_CONTEXT; CHAINLOOP_AI_AGENT_CONFIG;
   CHAINLOOP_AI_CODING_SESSION; CHAINLOOP_AI_SECURITY_CONTEXT; ATTESTATION;
   CONTAINER_IMAGE; ARTIFACT; STRING].

(** ** Policies *)

Inductive AttestationPhase := ATTESTATION_PHASE_UNSPECIFIED | INIT | PUSH.

#[export] Instance AttestationPhase_eq_dec : EqDecision AttestationPhase.
Proof. solve_decision. Defined.

Record PolicyInput := {
  input_name : string;
  input_description : string;
  input_required : bool;
  input_default : string
}.

(** The [source] oneof of a [PolicySpecV2] *)
Inductive ScriptSource :=
| SourcePath (path : string)
| SourceEmbedded (text : string)
| SourceRef (ref : string).

Record PolicySpecV2 := {
  v2_source : option ScriptSource;
  v2_kind : MaterialType;
  v2_attestation_phases : list AttestationPhase
}.

(** The [source] oneof of a legacy [PolicySpec] *)
Inductive LegacySource :=
| LegacyPath (path : string)
| LegacyEmbedded (text : string).

Record PolicySpec := {
  spec_source : option LegacySource;
  spec_type : MaterialType;
  spec_policies : list PolicySpecV2;
  spec_inputs : list PolicyInput
}.

Record Metadata := {
  meta_name : string;
  meta_description : string;
  meta_annotations : gmap string string;
  meta_organization : option string;
  meta_finding_type : option string
}.

(** [GetFindingType()] *)
Definition GetFindingType (m : Metadata) : string := default "" (meta_finding_type m).

Record Policy := {
  policy_api_version : string;
  policy_kind : string;
  policy_metadata : Metadata;
  policy_spec : PolicySpec
}.

Inductive MatchMode := MATCH_UNSPECIFIED | EXACT | PREFIX.

#[export] Instance MatchMode_eq_dec : EqDecision MatchMode.
Proof. solve_decision. Defined.

Record MaterialSelector := {
  selector_name : string;
  selector_match_mode : MatchMode
}.

(** The [policy] oneof of an attachment *)
Inductive AttachedPolicy :=
| AttachedRef (ref : string)
| AttachedEmbedded (p : Policy).

Record PolicyAttachment := {
  att_policy : option AttachedPolicy;
  att_selector : option MaterialSelector;
  att_disabled : bool;
  att_with : gmap string string;
  att_requirements : list string;
  att_gate : option bool
}.

(** The nil-safe getters of the generated code *)
Definition GetRef (a : PolicyAttachment) : string :=
  match att_policy a with Some (AttachedRef r) => r | _ => "" end.

Definition GetEmbedded (a : PolicyAttachment) : option Policy :=
  match att_policy a with Some (AttachedEmbedded p) => Some p | _ => None end.

Definition GetSelectorName (a : PolicyAttachment) : string :=
  match att_selector a with Some s => selector_name s | None => "" end.

Definition GetSelectorMatchMode (a : PolicyAttachment) : MatchMode :=
  match att_selector a with Some s => selector_match_mode s | None => MATCH_UNSPECIFIED end.

Record Policies := {
  policies_materials : list PolicyAttachment;
  policies_attestation : list PolicyAttachment
}.

Definition GetMaterialPolicies (p : option Policies) : list PolicyAttachment :=
  match p with Some p => policies_materials p | None => [] end.

Definition GetAttestationPolicies (p : option Policies) : list PolicyAttachment :=
  match p with Some p => policies_attestation p | None => [] end.

(** ** Policy groups *)

Record PolicyGroupAttachment := {
  group_att_ref : string;
  group_att_with : gmap string string;
  group_att_skip : list string;
  group_att_gate : option bool
}.

Record GroupMaterial := {
  gm_type : MaterialType;
  gm_name : string;
  gm_optional : bool;
  gm_match_mode : MatchMode;
  gm_policies : list PolicyAttachment
}.

Record PolicyGroupPolicies := {
  gp_materials : list GroupMaterial;
  gp_attestation : list PolicyAttachment
}.

Record PolicyGroup := {
  group_metadata : Metadata;
  group_policies : option PolicyGroupPolicies;
  group_inputs : list PolicyInput
}.

Definition GroupMaterials (g : PolicyGroup) : list GroupMaterial :=
  match group_policies g with Some p => gp_materials p | None => [] end.

Definition GroupAttestation (g : PolicyGroup) : list PolicyAttachment :=
  match group_policies g with Some p => gp_attestation p | None => [] end.

(** ** The contract *)

Record ContractAnnotation := { ann_name : string; ann_value : string }.

Record SchemaMaterial := {
  sm_type : MaterialType;
  sm_name : string;
  sm_optional : bool;
  sm_output : bool;
  sm_annotations : list ContractAnnotation;
  sm_skip_upload : bool;
  sm_group : string
}.

Inductive RunnerType :=
| RUNNER_TYPE_UNSPECIFIED | GITHUB_ACTION | GITLAB_PIPELINE | AZURE_PIPELINE
| JENKINS_JOB | CIRCLECI_BUILD | DAGGER_PIPELINE | TEAMCITY_PIPELINE
| TEKTON_PIPELINE | CHAINLOOP_SANDBOX.

#[export] Instance RunnerType_eq_dec : EqDecision RunnerType.
Proof. solve_decision. Defined.

(** [CraftingSchema], the v1 contract *)
Record CraftingSchema := {
  cs_schema_version : string;
  cs_materials : list SchemaMaterial;
  cs_env_allow_list : list string;
  cs_runner : option RunnerType;
  cs_annotations : list ContractAnnotation;
  cs_policies : option Policies;
  cs_policy_groups : list PolicyGroupAttachment
}.

Record CraftingSchemaV2Spec := {
  v2s_materials : list SchemaMaterial;
  v2s_env_allow_list : list string;
  v2s_runner : option RunnerType;
  v2s_policies : option Policies;
  v2s_policy_groups : list PolicyGroupAttachment;
  v2s_annotations : list ContractAnnotation
}.

(** [CraftingSchemaV2] *)
Record CraftingSchemaV2 := {
  v2c_api_version : string;
  v2c_kind : string;
  v2c_metadata : Metadata;
  v2c_spec : option CraftingSchemaV2Spec
}.

(** ** Validations *)

(** The loop over the material names with the set of names seen so far *)
Fixpoint unique_names (seen : gset string) (ms : list SchemaMaterial) : result unit :=
  match ms with
  | [] => Ok tt
  | m :: ms' =>
      if decide (sm_name m ∈ seen)
      then Err (EMsg ("material with name=" +:+ sm_name m +:+ " is duplicated"))
      else unique_names ({[sm_name m]} ∪ seen) ms'
  end.

(** [CraftingSchema.ValidateUniqueMaterialName] *)
Definition ValidateUniqueMaterialName (schema : CraftingSchema) : result unit :=
  unique_names ∅ (cs_materials schema).

(** [CraftingSchemaV2.ValidateUniqueMaterialName] *)
Definition ValidateUniqueMaterialNameV2 (contract : CraftingSchemaV2) : result unit :=
  match v2c_spec contract with
  | None => Ok tt
  | Some spec => unique_names ∅ (v2s_materials spec)
  end.

(** [CraftingSchemaV2.ToV1] *)
Definition ToV1 (contract : option CraftingSchemaV2) : option CraftingSchema :=
  match contract with
  | None => None
  | Some c =>
      match v2c_spec c with
      | None => None
      | Some spec =>
          Some {| cs_schema_version := "v1";
                  cs_materials := v2s_materials spec;
                  cs_env_allow_list := v2s_env_allow_list spec;
                  cs_runner := v2s_runner spec;
                  cs_policies := v2s_policies spec;
                  cs_policy_groups := v2s_policy_groups spec;
                  cs_annotations := v2s_annotations spec |}
      end
  end.
