(* ===== verification/PolicyRefs.v ===== *)
(** * Policy references

    The reference grammar shared by the contract validation
    (crafting_schema_validations.go) and the policy loaders
    (pkg/policies/loader.go):

      [scheme "://"] [provider ":"] [org "/"] name ["@sha256:" digest]

    [ValidatePolicyAttachmentRef] and [ProviderParts] parse it separately; the
    theorems show that each reads back what was written and that they agree. *)

From S2P Require Import Prelude.
From S2P Require Import GoStrings.
From S2P Require Import Contract.

(** ** Parsing a reference (loader.go) *)

Definition fileScheme : string := "file".
Definition httpScheme : string := "http".
Definition httpsScheme : string := "https".
Definition chainloopScheme : string := "chainloop".

(** [RefParts]: the scheme and the rest *)
Definition RefParts (ref : string) : string * string :=
  match split2 ref "://" with
  | [scheme; id] => (scheme, id)
  | parts => ("", hd "" parts)
  end.

(** [ExtractDigest] *)
Definition ExtractDigest (ref : string) : string * string :=
  match split2 ref "@" with
  | [name; digest] => (name, digest)
  | parts => (hd "" parts, "")
  end.

Definition IsProviderScheme (ref : string) : bool :=
  let '(scheme, _) := RefParts ref in
  bool_decide (scheme = chainloopScheme) || is_empty scheme.

Record ProviderRef := { pr_provider : string; pr_org_name : string; pr_name : string }.

(** The body of [ProviderParts] once the digest is set aside *)
Definition provider_of (ref digest : string) : ProviderRef :=
  let pn :=
    match split2 ref "://" with
    | [p] => split2 p ":"
    | parts => split2 (nth 1 parts "") ":"
    end in
  let '(provider, name) :=
    match pn with
    | [p; n] => (p, n)
    | _ => ("", hd "" pn)
    end in
  let '(orgName, name) :=
    match split2 name "/" with
    | [o; n] => (o, n)
    | _ => ("", name)
    end in
  {| pr_provider := provider; pr_org_name := orgName;
     pr_name := if is_empty digest then name else name +:+ "@sha256:" +:+ digest |}.

(** [ProviderParts] *)
Definition ProviderParts (reference : string) : ProviderRef :=
  match split2 reference "@sha256:" with
  | [ref; digest] => provider_of ref digest
  | _ => provider_of reference ""
  end.

(** [ensureScheme] *)
Definition ensureScheme (ref : string) (expected : list string) : result string :=
  let '(scheme, id) := RefParts ref in
  if existsb (fun ex => bool_decide (scheme = ex)) expected then Ok id
  else Err (EMsg ("unexpected policy reference scheme: " +:+ scheme)).

(** [filepath.Ext]: from the last dot of the last path element *)
Fixpoint ext_rev (l : list ascii) (acc : string) : string :=
  match l with
  | [] => ""
  | c :: l' =>
      if bool_decide (c = "/"%char) then ""
      else if bool_decide (c = "."%char) then String c acc
      else ext_rev l' (String c acc)
  end.

Definition filepath_Ext (path : string) : string :=
  ext_rev (rev (String.list_ascii_of_string path)) "".

(** ** Validating a reference (crafting_schema_validations.go) *)

(** The parts of a [*url.URL] that the code reads *)
Record URL := { url_scheme : string; url_host : string; url_path : string }.

Section Validation.
(** go-containerregistry's [NewHash], [net/url]'s [Parse] and
    apimachinery's [IsDNS1123Label], which returns a list of problems *)
Context (NewHash : string -> result string).
Context (url_Parse : string -> result URL).
Context (IsDNS1123Label : string -> list string).

Definition validateIsDNS1123 (name : string) : result unit :=
  let errs := IsDNS1123Label name in
  if bool_decide (errs = []) then Ok tt
  else Err (EMsg (fold_left (fun acc e => acc +:+ name +:+ ": " +:+ e +:+ newline) errs "")).

(** The arm of the switch for a file URL *)
Definition validate_file_ref (ref : string) : result unit :=
  u ← map_err (EWrap "invalid reference") (url_Parse ref);
  let path := if is_empty (url_path u) then url_host u else url_path u in
  _ ← guard_err (is_empty path) (EMsg "invalid file reference");
  guard_err (is_empty (filepath_Ext path)) (EMsg "missing extension").

(** The arm for an http or https URL *)
Definition validate_http_ref (ref : string) : result unit :=
  u ← map_err (EWrap "invalid reference") (url_Parse ref);
  _ ← guard_err (is_empty (url_path u)) (EMsg "path is empty");
  guard_err (is_empty (filepath_Ext (url_path u))) (EMsg "missing extension").

(** The arm for a policy of a provider: provider:org/name *)
Definition validate_provider_ref (refValue : string) : result unit :=
  let '(providerName, policyName) :=
    match split2 refValue ":" with
    | [p; n] => (p, n)
    | parts => ("", hd "" parts)
    end in
  let '(orgName, policyName) :=
    match split2 policyName "/" with
    | [o; n] => (o, n)
    | _ => ("", policyName)
    end in
  _ ← map_err (EWrap "invalid policy name") (validateIsDNS1123 policyName);
  _ ← (if is_empty providerName then Ok tt
       else map_err (EWrap "invalid provider name") (validateIsDNS1123 providerName));
  if is_empty orgName then Ok tt
  else map_err (EWrap "invalid organization name") (validateIsDNS1123 orgName).

(** The switch on the scheme, the digest being removed *)
Definition validate_scheme (ref : string) : result unit :=
  let '(scheme, refValue) :=
    match split2 ref "://" with
    | [s; v] => (s, v)
    | parts => ("", hd "" parts)
    end in
  if bool_decide (scheme = "file") then validate_file_ref ref
  else if bool_decide (scheme = "http") || bool_decide (scheme = "https")
  then validate_http_ref ref
  else if bool_decide (scheme = "chainloop") || is_empty scheme
  then validate_provider_ref refValue
  else Err (EMsg ("unsupported protocol: " +:+ scheme)).

Definition ValidatePolicyAttachmentRef (ref : string) : result unit :=
  _ ← guard_err (is_empty ref) (EMsg "reference is empty");
  ref ← (match split2 ref "@" with
         | [_; rawDigest] =>
             _ ← map_err (EWrap "invalid digest, want policy-ref@sha256:[hex]")
                   (NewHash rawDigest);
             Ok (trim_suffix ref ("@" +:+ rawDigest))
         | _ => Ok ref
         end);
  validate_scheme ref.

(** The loop of both [ValidatePolicyAttachments] *)
Definition validate_attachments (attachments : list PolicyAttachment) : result unit :=
  foldM_result
    (fun _ att =>
       if is_empty (GetRef att) then Ok tt
       else map_err (EWrap ("invalid reference " +:+ GetRef att))
              (ValidatePolicyAttachmentRef (GetRef att)))
    attachments tt.

Definition ValidatePolicyAttachments (schema : CraftingSchema) : result unit :=
  validate_attachments
    (GetAttestationPolicies (cs_policies schema) ++ GetMaterialPolicies (cs_policies schema)).

Definition ValidatePolicyAttachmentsV2 (contract : CraftingSchemaV2) : result unit :=
  match v2c_spec contract with
  | None => Ok tt
  | Some spec =>
      match v2s_policies spec with
      | None => Ok tt
      | Some policies =>
          validate_attachments (policies_attestation policies ++ policies_materials policies)
      end
  end.
End Validation.

(** ** Reading back what was written *)

(** A component of a reference holds none of the separators. *)
Definition clean (s : string) : Prop :=
  has_char ":" s = false /\ has_char "/" s = false /\ has_char "@" s = false.

#[export] Instance clean_dec s : Decision (clean s).
Proof. unfold clean. apply _. Defined.

(** The reference a user writes for a provider policy *)
Definition print_ref (with_scheme : bool) (provider org name digest : string) : string :=
  (if with_scheme then "chainloop://" else "")
    +:+ (if is_empty provider then "" else provider +:+ ":")
    +:+ (if is_empty org then "" else org +:+ "/")
    +:+ name
    +:+ (if is_empty digest then "" else "@sha256:" +:+ digest).

#[local] Arguments String.append !_ _ /.

Lemma RefParts_scheme scheme id :
  has_char ":" scheme = false -> RefParts (scheme +:+ "://" +:+ id) = (scheme, id).
Proof. intros H. unfold RefParts. by rewrite split2_first. Qed.

Lemma RefParts_plain id : has_char ":" id = false -> RefParts id = ("", id).
Proof. intros H. unfold RefParts. by rewrite split2_None. Qed.

(** The scheme alone decides what is stripped before the provider. *)
Lemma cut_scheme s : cut "://" ("chainloop://" +:+ s) = Some ("chainloop", s).
Proof. apply (cut_first ":" "//" "chainloop" s). done. Qed.

Definition provider_body (provider org name : string) : string :=
  (if is_empty provider then "" else provider +:+ ":")
    +:+ (if is_empty org then "" else org +:+ "/") +:+ name.

Lemma provider_body_no_scheme provider org name :
  clean provider -> clean org -> clean name ->
  cut "://" (provider_body provider org name) = None.
Proof.
  intros [Hp Hp'] [Ho Ho'] [Hn Hn']. unfold provider_body.
  set (rest := (if is_empty org then "" else org +:+ "/") +:+ name).
  assert (Hr : has_char ":" rest = false).
  { unfold rest. destruct (is_empty org); rewrite ?has_char_app, ?Ho, ?Hn; done. }
  destruct (is_empty provider) eqn:E; [by apply cut_None|].
  assert (Hslash : String.prefix "//" rest = false).
  { unfold rest. destruct (is_empty org) eqn:Eo.
    - cbn. destruct name as [|c name]; [done|]. cbn in Hn'. cbn [String.prefix].
      destruct Hn' as [Hn' _]. apply orb_false_iff in Hn' as [Hc _].
      apply bool_decide_eq_false in Hc. by destruct (Ascii.ascii_dec "/" c).
    - destruct org as [|c org]; [done|]. destruct Ho' as [Ho' _]. cbn in Ho'.
      apply orb_false_iff in Ho' as [Hc _]. apply bool_decide_eq_false in Hc.
      cbn [String.append String.prefix]. by destruct (Ascii.ascii_dec "/" c). }
  clear E Hp'. rewrite str_app_assoc. induction provider as [|c p IH].
  - cbn [String.append]. change (":" +:+ rest) with (String ":" rest).
    cbn [cut String.prefix]. destruct (Ascii.ascii_dec ":" ":"); [|done].
    rewrite Hslash. fold cut. rewrite (cut_None ":" "//" rest Hr). done.
  - cbn in Hp. apply orb_false_iff in Hp as [Hc Hp]. apply bool_decide_eq_false in Hc.
    change (String c p +:+ ":" +:+ rest) with (String c (p +:+ ":" +:+ rest)).
    cbn [cut String.prefix]. destruct (Ascii.ascii_dec ":" c); [congruence|].
    by rewrite IH.
Qed.

(** What [ProviderParts] makes of the text between scheme and digest *)
Lemma provider_body_parts provider org name :
  clean provider -> clean org -> clean name ->
  (match split2 (provider_body provider org name) ":" with
   | [p; n] => (p, n) | pn => ("", hd "" pn) end)
  = (provider, (if is_empty org then "" else org +:+ "/") +:+ name).
Proof.
  intros [Hp _] [Ho _] [Hn _]. unfold provider_body.
  destruct (is_empty provider) eqn:E.
  - apply is_empty_true in E. subst. rewrite split2_None; [done|].
    destruct (is_empty org); rewrite ?has_char_app, ?Ho, ?Hn; done.
  - rewrite str_app_assoc.
    change (":" +:+ ?x) with (String ":" "" +:+ x). by rewrite split2_first.
Qed.

Lemma org_body_parts org name :
  clean org -> clean name ->
  (match split2 ((if is_empty org then "" else org +:+ "/") +:+ name) "/" with
   | [o; n] => (o, n)
   | _ => ("", (if is_empty org then "" else org +:+ "/") +:+ name) end) = (org, name).
Proof.
  intros (_ & Ho & _) (_ & Hn & _). destruct (is_empty org) eqn:E.
  - apply is_empty_true in E. subst. by rewrite split2_None.
  - rewrite str_app_assoc. by rewrite split2_first.
Qed.

Lemma ProviderParts_digest ref digest :
  has_char "@" ref = false ->
  ProviderParts (ref +:+ "@sha256:" +:+ digest) = provider_of ref digest.
Proof. intros H. unfold ProviderParts. by rewrite split2_first. Qed.

Lemma ProviderParts_no_digest ref :
  has_char "@" ref = false -> ProviderParts ref = provider_of ref "".
Proof. intros H. unfold ProviderParts. by rewrite split2_None. Qed.

Lemma print_ref_eq with_scheme provider org name digest :
  print_ref with_scheme provider org name digest =
  ((if with_scheme then "chainloop://" else "") +:+ provider_body provider org name)
    +:+ (if is_empty digest then "" else "@sha256:" +:+ digest).
Proof. unfold print_ref, provider_body. by rewrite !str_app_assoc. Qed.

Lemma provider_of_print (with_scheme : bool) provider org name digest :
  clean provider -> clean org -> clean name ->
  provider_of ((if with_scheme then "chainloop://" else "") +:+ provider_body provider org name)
    digest
  = {| pr_provider := provider; pr_org_name := org;
       pr_name := if is_empty digest then name else name +:+ "@sha256:" +:+ digest |}.
Proof.
  intros Hp Ho Hn. unfold provider_of.
  set (body := provider_body provider org name).
  assert (E2 : split2 ((if with_scheme then "chainloop://" else "") +:+ body) "://"
               = if with_scheme then ["chainloop"; body] else [body]).
  { unfold split2, body. destruct with_scheme; [by rewrite cut_scheme|].
    cbn [String.append]. by rewrite provider_body_no_scheme. }
  rewrite E2. pose proof (provider_body_parts provider org name Hp Ho Hn) as E.
  fold body in E. pose proof (org_body_parts org name Ho Hn) as E3.
  pose proof (split2_nonempty body ":") as Hne.
  destruct with_scheme; cbn [nth];
    destruct (split2 body ":") as [|? [|? [|]]]; cbn [hd] in *; simplify_eq;
    rewrite ?E3; done.
Qed.

Lemma clean_body provider org name :
  clean provider -> clean org -> clean name ->
  has_char "@" (provider_body provider org name) = false.
Proof.
  intros (_ & _ & Hp) (_ & _ & Ho) (_ & _ & Hn). unfold provider_body.
  destruct (is_empty provider), (is_empty org);
    rewrite ?has_char_app, ?Hp, ?Ho, ?Hn; done.
Qed.

(** ** The validation and the loaders agree *)

Section Agreement.
Context (NewHash : string -> result string).
Context (url_Parse : string -> result URL).
Context (IsDNS1123Label : string -> list string).

(** go-containerregistry only accepts the sha256 algorithm. *)
Hypothesis NewHash_sha256 :
  forall d h, NewHash d = Ok h -> exists hex, d = "sha256:" +:+ hex.
(** A DNS-1123 label is made of lower case letters, digits and hyphens. *)
Hypothesis label_chars : forall s, IsDNS1123Label s = [] -> clean s.

Lemma validateIsDNS1123_Ok s u :
  validateIsDNS1123 IsDNS1123Label s = Ok u -> IsDNS1123Label s = [].
Proof. unfold validateIsDNS1123. case_bool_decide; done. Qed.

Definition label_or_empty (s : string) : Prop := s = "" \/ IsDNS1123Label s = [].

Lemma optional_label f s u :
  (if is_empty s then Ok tt else map_err f (validateIsDNS1123 IsDNS1123Label s)) = Ok u ->
  label_or_empty s.
Proof.
  unfold label_or_empty. destruct (is_empty s) eqn:E.
  - left. by apply is_empty_true.
  - rewrite map_err_Ok. right. by eapply validateIsDNS1123_Ok.
Qed.

(** The provider arm of the validation accepts what [provider_of] reads. *)
Lemma validate_provider_ref_parts ref digest u :
  validate_provider_ref IsDNS1123Label
    (match split2 ref "://" with [_; v] => v | parts => hd "" parts end) = Ok u ->
  label_or_empty (pr_provider (provider_of ref digest)) /\
  label_or_empty (pr_org_name (provider_of ref digest)) /\
  exists name, IsDNS1123Label name = [] /\
    pr_name (provider_of ref digest)
    = (if is_empty digest then name else name +:+ "@sha256:" +:+ digest).
Proof.
  unfold provider_of, validate_provider_ref, split2, label_or_empty.
  destruct (cut "://" ref) as [[s v]|]; cbn [nth hd].
  1: destruct (cut ":" v) as [[p n]|]. 3: destruct (cut ":" ref) as [[p n]|].
  all: cbn [hd]; match goal with |- context [cut "/" ?t] => destruct (cut "/" t) as [[o m]|] end.
  all: intros H; inv_ok.
  all: repeat match goal with
    | H : validateIsDNS1123 _ _ = Ok _ |- _ => apply validateIsDNS1123_Ok in H
    | H : (if is_empty _ then _ else _) = Ok _ |- _ => apply optional_label in H
    end.
  all: cbn [pr_provider pr_org_name pr_name]; split_and!; eauto.
Qed.

Lemma validate_scheme_provider a t u :
  validate_scheme url_Parse IsDNS1123Label a = Ok u ->
  IsProviderScheme (a +:+ t) = true ->
  exists v, validate_provider_ref IsDNS1123Label
    (match split2 a "://" with [_; v] => v | parts => hd "" parts end) = Ok v.
Proof.
  unfold validate_scheme, IsProviderScheme, RefParts, split2.
  destruct (cut "://" a) as [[s v]|] eqn:E; cbn [hd]; [|eauto].
  rewrite (cut_app_l _ _ _ _ t E). unfold chainloopScheme.
  intros H Hs. destruct (bool_decide (s = "file")) eqn:E1.
  { apply bool_decide_eq_true in E1. by subst. }
  destruct (bool_decide (s = "http")) eqn:E2; [apply bool_decide_eq_true in E2; by subst|].
  destruct (bool_decide (s = "https")) eqn:E3; [apply bool_decide_eq_true in E3; by subst|].
  cbn in H. rewrite Hs in H. eauto.
Qed.

Lemma ValidatePolicyAttachmentRef_provider ref u :
  ValidatePolicyAttachmentRef NewHash url_Parse IsDNS1123Label ref = Ok u ->
  IsProviderScheme ref = true ->
  exists base digest v,
    ProviderParts ref = provider_of base digest /\
    validate_provider_ref IsDNS1123Label
      (match split2 base "://" with [_; v] => v | parts => hd "" parts end) = Ok v.
Proof.
  unfold ValidatePolicyAttachmentRef. intros H Hs. inv_ok. unfold split2 in H1.
  destruct (cut "@" ref) as [[a d]|] eqn:Ea; inv_ok.
  - pose proof (cut_char_before _ _ _ _ Ea) as Ha.
    apply cut_Some in Ea. subst ref. rewrite trim_suffix_app in H.
    match goal with Hh : NewHash _ = Ok _ |- _ => apply NewHash_sha256 in Hh as [hex ->] end.
    destruct (validate_scheme_provider _ _ _ H Hs) as [v Hv].
    exists a, hex, v. split; [by apply ProviderParts_digest | done].
  - rewrite <- (str_app_nil_r x0) in Hs.
    destruct (validate_scheme_provider _ _ _ H Hs) as [v Hv].
    exists x0, "", v. split; [by apply ProviderParts_no_digest, cut_char_None | done].
Qed.

(** The contract validation and the loaders parse references alike: a
    reference to a provider policy that the validation accepts is sent to the
    provider with a name that is a DNS-1123 label (followed by its digest, if
    any), and a provider and an organization that are labels or absent. *)
Theorem validated_ref_parts ref u :
  ValidatePolicyAttachmentRef NewHash url_Parse IsDNS1123Label ref = Ok u ->
  IsProviderScheme ref = true ->
  label_or_empty (pr_provider (ProviderParts ref)) /\
  label_or_empty (pr_org_name (ProviderParts ref)) /\
  IsDNS1123Label (ExtractDigest (pr_name (ProviderParts ref))).1 = [].
Proof.
  intros H Hs.
  destruct (ValidatePolicyAttachmentRef_provider _ _ H Hs) as (base & digest & v & -> & Hv).
  destruct (validate_provider_ref_parts _ digest _ Hv) as (? & ? & name & Hn & ->).
  split_and!; [done..|]. pose proof (label_chars _ Hn) as (_ & _ & Hat).
  destruct (is_empty digest); unfold ExtractDigest.
  - by rewrite split2_None.
  - change ("@sha256:" +:+ digest) with ("@" +:+ ("sha256:" +:+ digest)).
    by rewrite split2_first.
Qed.
End Agreement.

(** Concrete functions that satisfy the hypotheses above *)
Definition NewHash_ex (d : string) : result string :=
  match cut "sha256:" d with
  | Some ("", hex) => Ok hex
  | _ => Err (EMsg "unsupported hash")
  end.

Definition IsDNS1123Label_ex (s : string) : list string :=
  if bool_decide (clean s) && negb (is_empty s) then [] else ["not a label"].

Lemma NewHash_ex_sha256 d h : NewHash_ex d = Ok h -> exists hex, d = "sha256:" +:+ hex.
Proof.
  unfold NewHash_ex. destruct (cut _ d) as [[[|] hex]|] eqn:E; [|done..].
  apply cut_Some in E. by exists hex.
Qed.

Lemma IsDNS1123Label_ex_chars s : IsDNS1123Label_ex s = [] -> clean s.
Proof.
  unfold IsDNS1123Label_ex. case_bool_decide; [done|].
  destruct (is_empty s); done.
Qed.

Lemma ProviderParts_parts (with_scheme : bool) provider org name digest :
  clean provider -> clean org -> clean name ->
  ProviderParts (print_ref with_scheme provider org name digest)
  = {| pr_provider := provider; pr_org_name := org;
       pr_name := if is_empty digest then name else name +:+ "@sha256:" +:+ digest |}.
Proof.
  intros Hp Ho Hn. rewrite print_ref_eq.
  assert (Hat : has_char "@" ((if with_scheme then "chainloop://" else "")
                  +:+ provider_body provider org name) = false).
  { rewrite has_char_app, clean_body by done. by destruct with_scheme. }
  destruct (is_empty digest) eqn:E.
  - apply is_empty_true in E. subst digest. rewrite str_app_nil_r.
    rewrite ProviderParts_no_digest by done. by rewrite provider_of_print.
  - rewrite ProviderParts_digest by done. rewrite provider_of_print by done. by rewrite E.
Qed.

Lemma ExtractDigest_print name digest :
  clean name ->
  ExtractDigest (if is_empty digest then name else name +:+ "@sha256:" +:+ digest)
  = (name, if is_empty digest then "" else "sha256:" +:+ digest).
Proof.
  intros (_ & _ & Hn). unfold ExtractDigest. destruct (is_empty digest).
  - by rewrite split2_None.
  - change ("@sha256:" +:+ digest) with ("@" +:+ ("sha256:" +:+ digest)).
    by rewrite split2_first.
Qed.

(** [ProviderParts] and [ExtractDigest] read back any reference to a
    provider policy: the scheme, the provider, the organization and the digest
    are each optional, and the digest stays with the name. *)
Theorem ProviderParts_print (with_scheme : bool) provider org name digest :
  clean provider -> clean org -> clean name ->
  let r := ProviderParts (print_ref with_scheme provider org name digest) in
  pr_provider r = provider /\ pr_org_name r = org /\
  ExtractDigest (pr_name r) = (name, if is_empty digest then "" else "sha256:" +:+ digest).
Proof.
  intros Hp Ho Hn r. unfold r. rewrite ProviderParts_parts by done. cbn.
  split_and!; [done..|]. by apply ExtractDigest_print.
Qed.

Lemma ProviderParts_print_witness :
  let r := ProviderParts "chainloop://builtin:acme/cve-check@sha256:abcd" in
  pr_provider r = "builtin" /\ pr_org_name r = "acme" /\
  ExtractDigest (pr_name r) = ("cve-check", "sha256:abcd").
Proof.
  apply (ProviderParts_print true "builtin" "acme" "cve-check" "abcd"); vm_compute; done.
Defined.

Lemma validated_ref_parts_witness :
  IsDNS1123Label_ex "cve-check" = [] /\
  IsDNS1123Label_ex
    (ExtractDigest (pr_name (ProviderParts "acme/cve-check@sha256:abcd"))).1 = [].
Proof.
  split; [vm_compute; reflexivity|].
  apply (validated_ref_parts NewHash_ex (fun _ => Err (EMsg "")) IsDNS1123Label_ex
           NewHash_ex_sha256 IsDNS1123Label_ex_chars _ tt); vm_compute; reflexivity.
Defined.
