(* ===== verification/RuntimeInputs.v ===== *)
(** * Policy inputs supplied at run time (pkg/policies/runtime_inputs.go)

    Inputs given on the command line are global or scoped to a policy, and each
    is appended to the contract value or replaces it.  Go iterates over its maps
    in a random order; every loop over a map is shown not to depend on it. *)

From S2P Require Import Prelude.
From S2P Require Import GoStrings.
From S2P Require Import PolicyRefs.

Abbreviation inputs := (gmap string string).

Record RuntimeInputs := {
  Global : inputs;
  Scoped : gmap string inputs;
  GlobalOverride : inputs;
  ScopedOverride : gmap string inputs
}.

(** [ri.empty()], nil-safe *)
Definition ri_empty (ri : option RuntimeInputs) : bool :=
  match ri with
  | None => true
  | Some ri =>
      bool_decide (Global ri = ∅) && bool_decide (Scoped ri = ∅)
      && bool_decide (GlobalOverride ri = ∅) && bool_decide (ScopedOverride ri = ∅)
  end.

(** [splitPolicyRef] *)
Definition splitPolicyRef (ref : string) : string * string :=
  ExtractDigest (pr_name (ProviderParts ref)).

(** [scopeSpecificity] *)
Definition scopeSpecificity (scope : string) : nat :=
  let digest := (splitPolicyRef scope).2 in
  let head :=
    if is_empty digest then scope
    else match cut "@" scope with Some (h, _) => h | None => scope end in
  (if is_empty digest then 0 else 2) + (if contains_any head ":/" then 1 else 0).

(** [policyScopeMatches] *)
Definition policyScopeMatches (scope name ref : string) : bool :=
  if is_empty scope then false
  else if bool_decide (scope = name) || bool_decide (scope = ref) then true
  else
    let '(scopeName, scopeDigest) := splitPolicyRef scope in
    if is_empty scopeName then false
    else
      let '(refName, refDigest) := splitPolicyRef ref in
      if bool_decide (scopeName <> refName) && bool_decide (scopeName <> name) then false
      else if is_empty scopeDigest then true
      else bool_decide (scopeDigest = refDigest).

(** The comparison of [slices.SortFunc] in [matchingScopes] *)
Definition scope_le (a b : string) : Prop :=
  scopeSpecificity a < scopeSpecificity b \/
  (scopeSpecificity a = scopeSpecificity b /\ str_le a b).

#[export] Instance scope_le_dec : RelDecision scope_le.
Proof. intros a b. unfold scope_le. apply _. Defined.

(** [matchingScopes] *)
Definition matchingScopes {V} (scoped : gmap string V) (name ref : string) : list string :=
  merge_sort scope_le
    (filter (fun s => policyScopeMatches s name ref = true) (map_to_list scoped).*1).

(** One turn of the loop of [MergeRuntimeInputs] *)
Definition merge_one (k v : string) (merged : inputs) : inputs :=
  match merged !! k with
  | Some existing =>
      if is_empty existing then <[k := v]> merged
      else <[k := existing +:+ newline +:+ v]> merged
  | None => <[k := v]> merged
  end.

Definition MergeRuntimeInputs (with_ runtimeInputs : inputs) : inputs :=
  if bool_decide (runtimeInputs = ∅) then with_
  else fold_left (fun merged '(k, v) => merge_one k v merged) (map_to_list runtimeInputs) with_.

(** [maps.Copy(dst, src)] *)
Definition maps_Copy (dst src : inputs) : inputs :=
  fold_left (fun m '(k, v) => <[k := v]> m) (map_to_list src) dst.

Definition OverrideRuntimeInputs (with_ overrides : inputs) : inputs :=
  if bool_decide (overrides = ∅) then with_ else maps_Copy (maps_Copy ∅ with_) overrides.

(** [markMatch]: the scopes matched so far, each once *)
Definition mark_match (matched : list string) (scope : string) : list string :=
  if decide (scope ∈ matched) then matched else matched ++ [scope].

(** [ri.forPolicy(name, ref)] *)
Definition forPolicy (ri : option RuntimeInputs) (name ref : string)
    : inputs * inputs * list string :=
  match ri with
  | None => (∅, ∅, [])
  | Some r =>
      if ri_empty ri then (∅, ∅, []) else
      let scopes := matchingScopes (Scoped r) name ref in
      let oscopes := matchingScopes (ScopedOverride r) name ref in
      (fold_left (fun acc s => MergeRuntimeInputs acc (default ∅ (Scoped r !! s)))
         scopes (Global r),
       fold_left (fun acc s => OverrideRuntimeInputs acc (default ∅ (ScopedOverride r !! s)))
         oscopes (GlobalOverride r),
       fold_left mark_match (scopes ++ oscopes) [])
  end.

(** [scopeTracker]: the set of scopes that matched an attachment; nil when
    the caller does not track them *)
Abbreviation scopeTracker := (option (gset string)).

Definition tracker_mark (t : scopeTracker) (keys : list string) : scopeTracker :=
  match t with
  | None => None
  | Some seen => Some (fold_left (fun acc k => {[k]} ∪ acc) keys seen)
  end.

Definition tracker_unmatched (t : scopeTracker) (ri : option RuntimeInputs) : list string :=
  match t, ri with
  | Some seen, Some r =>
      merge_sort str_le
        (elements ((dom (Scoped r) ∪ dom (ScopedOverride r)) ∖ seen))
  | _, _ => []
  end.

(** ** Matching scopes *)

#[export] Instance scope_le_total : Total scope_le.
Proof.
  intros a b. unfold scope_le.
  destruct (lt_eq_lt_dec (scopeSpecificity a) (scopeSpecificity b)) as [[?|Heq]|?]; auto.
  destruct (total str_le a b); auto.
Qed.

#[export] Instance scope_le_trans : Transitive scope_le.
Proof.
  intros a b c [H1|[H1 H1']] [H2|[H2 H2']]; unfold scope_le; try (left; lia).
  right. split; [lia|]. by etrans.
Qed.

#[export] Instance scope_le_antisym : AntiSymm (=) scope_le.
Proof.
  intros a b [H1|[H1 H1']] [H2|[H2 H2']]; try lia. by apply (anti_symm str_le).
Qed.

Lemma elem_of_matchingScopes {V} (scoped : gmap string V) name ref s :
  s ∈ matchingScopes scoped name ref <->
  is_Some (scoped !! s) /\ policyScopeMatches s name ref = true.
Proof.
  unfold matchingScopes. rewrite merge_sort_Permutation, list_elem_of_filter.
  rewrite list_elem_of_fmap. split.
  - intros (H & [k v] & -> & Hkv%elem_of_map_to_list). split; [by exists v | done].
  - intros ([v Hv] & H). split; [done|]. exists (s, v). split; [done|].
    by apply elem_of_map_to_list.
Qed.

Lemma NoDup_matchingScopes {V} (scoped : gmap string V) name ref :
  NoDup (matchingScopes scoped name ref).
Proof.
  unfold matchingScopes. rewrite merge_sort_Permutation.
  apply NoDup_filter, NoDup_fst_map_to_list.
Qed.

Lemma Sorted_matchingScopes {V} (scoped : gmap string V) name ref :
  StronglySorted scope_le (matchingScopes scoped name ref).
Proof. apply StronglySorted_merge_sort; apply _. Qed.

(** Whatever order Go's map iteration takes, sorting gives the same list. *)
Lemma matchingScopes_order {V} (scoped : gmap string V) name ref l :
  l ≡ₚ matchingScopes scoped name ref -> StronglySorted scope_le l ->
  l = matchingScopes scoped name ref.
Proof.
  intros Hp Hs. apply (StronglySorted_unique scope_le); [done|apply Sorted_matchingScopes|done].
Qed.

(** ** Merging *)

(** A loop over the entries of a map that only touches the entry's key
    treats the keys independently, hence in any order. *)
Lemma fold_left_keys (f : string -> string -> inputs -> inputs) (g : string -> option string -> option string) :
  (forall k v m, f k v m !! k = g v (m !! k)) ->
  (forall k v m j, j <> k -> f k v m !! j = m !! j) ->
  forall l m j, NoDup l.*1 ->
  fold_left (fun m '(k, v) => f k v m) l m !! j
  = match (list_to_map l : inputs) !! j with Some v => g v (m !! j) | None => m !! j end.
Proof.
  intros Hk Hne l. induction l as [|[k v] l IH]; intros m j; cbn [fold_left fmap list_fmap fst].
  - intros _. cbn. by rewrite lookup_empty.
  - intros [Hnin Hnd]%NoDup_cons. rewrite IH by done. cbn [list_to_map foldr].
    destruct (decide (j = k)) as [->|Hj].
    + cbn. rewrite lookup_insert_eq.
      rewrite not_elem_of_list_to_map_1 by done. apply Hk.
    + cbn. rewrite lookup_insert_ne by done. by rewrite Hne.
Qed.

Lemma fold_left_map_keys (f : string -> string -> inputs -> inputs) (g : string -> option string -> option string) (src m : inputs) j :
  (forall k v m, f k v m !! k = g v (m !! k)) ->
  (forall k v m j, j <> k -> f k v m !! j = m !! j) ->
  fold_left (fun m '(k, v) => f k v m) (map_to_list src) m !! j
  = match src !! j with Some v => g v (m !! j) | None => m !! j end.
Proof.
  intros Hk Hne. rewrite (fold_left_keys f g) by (done || apply NoDup_fst_map_to_list).
  by rewrite list_to_map_to_list.
Qed.

Definition merge_value (v : string) (old : option string) : option string :=
  match old with
  | Some existing =>
      Some (if is_empty existing then v else existing +:+ newline +:+ v)
  | None => Some v
  end.

Lemma lookup_merge_one_eq k v (m : inputs) : merge_one k v m !! k = merge_value v (m !! k).
Proof.
  unfold merge_one, merge_value. destruct (m !! k) as [e|]; [destruct (is_empty e)|];
    by rewrite lookup_insert_eq.
Qed.

Lemma lookup_merge_one_ne k v (m : inputs) j : j <> k -> merge_one k v m !! j = m !! j.
Proof.
  intros. unfold merge_one. destruct (m !! k) as [e|]; [destruct (is_empty e)|];
    by rewrite lookup_insert_ne.
Qed.

Lemma lookup_MergeRuntimeInputs (w r : inputs) k :
  MergeRuntimeInputs w r !! k
  = match r !! k with Some v => merge_value v (w !! k) | None => w !! k end.
Proof.
  unfold MergeRuntimeInputs. case_bool_decide as E.
  - subst r. by rewrite lookup_empty.
  - apply (fold_left_map_keys merge_one merge_value);
      [apply lookup_merge_one_eq | intros; by apply lookup_merge_one_ne].
Qed.

Lemma maps_Copy_union (dst src : inputs) : maps_Copy dst src = src ∪ dst.
Proof.
  apply map_eq. intros j. unfold maps_Copy.
  rewrite (fold_left_map_keys (fun k v m => <[k := v]> m) (fun v _ => Some v)).
  - rewrite lookup_union. by destruct (src !! j), (dst !! j).
  - intros. apply lookup_insert_eq.
  - intros. by apply lookup_insert_ne.
Qed.

Lemma lookup_OverrideRuntimeInputs (w o : inputs) k :
  OverrideRuntimeInputs w o !! k
  = match o !! k with Some v => Some v | None => w !! k end.
Proof.
  unfold OverrideRuntimeInputs. case_bool_decide as E.
  - subst o. by rewrite lookup_empty.
  - rewrite !maps_Copy_union, lookup_union, map_union_empty.
    by destruct (o !! k), (w !! k).
Qed.

(** ** The inputs of a policy *)

(** The loop over the scopes of the overrides keeps the last value set. *)
Lemma lookup_override_scopes (so : gmap string inputs) scopes acc k :
  fold_left (fun acc s => OverrideRuntimeInputs acc (default ∅ (so !! s))) scopes acc !! k
  = match last (omap (fun s => so !! s ≫= (.!! k)) scopes) with
    | Some v => Some v
    | None => acc !! k
    end.
Proof.
  revert acc; induction scopes as [|s scopes IH]; intros acc; [done|].
  cbn [fold_left omap list_omap]. rewrite IH, lookup_OverrideRuntimeInputs.
  destruct (so !! s) as [m|] eqn:Es; cbn.
  - destruct (m !! k) as [v|] eqn:Ev; [|done].
    rewrite last_cons. by destruct (last _).
  - by rewrite lookup_empty.
Qed.

Lemma last_omap_sorted {B} (f : string -> option B) l s v :
  StronglySorted scope_le l -> NoDup l -> s ∈ l -> f s = Some v ->
  (forall s', s' ∈ l -> is_Some (f s') -> scope_le s' s) ->
  last (omap f l) = Some v.
Proof.
  intros Hs Hnd. revert s v. induction Hs as [|x l Hs IH Hx]; intros s v Hin Hf Hmax; [by inversion Hin|].
  apply NoDup_cons in Hnd as [Hnin Hnd]. cbn [omap list_omap].
  apply elem_of_cons in Hin as [->|Hin].
  - rewrite Hf. replace (omap f l) with (@nil B); [done|].
    symmetry. apply elem_of_nil_inv. intros b (y & Hy & Hfy)%list_elem_of_omap.
    rewrite Forall_forall in Hx. specialize (Hx y Hy).
    assert (y = x) as ->; [|done]. apply (anti_symm scope_le); [|done].
    apply Hmax; [by right|by rewrite Hfy].
  - specialize (IH Hnd s v Hin Hf). assert (last (omap f l) = Some v) as E.
    { apply IH. intros; apply Hmax; [by right|done]. }
    destruct (f x) as [b|]; [|done]. rewrite last_cons. by rewrite E.
Qed.

(** Among the scoped overrides that target a policy, the most specific one
    that sets an input decides its value (a pinned digest before a qualified
    name before a bare name, then the scope string), whatever the order in
    which Go iterates over the scopes. *)
Theorem forPolicy_most_specific ri name ref scope k v m :
  ScopedOverride ri !! scope = Some m -> m !! k = Some v ->
  policyScopeMatches scope name ref = true ->
  (forall scope' m', ScopedOverride ri !! scope' = Some m' -> is_Some (m' !! k) ->
     policyScopeMatches scope' name ref = true -> scope_le scope' scope) ->
  (forPolicy (Some ri) name ref).1.2 !! k = Some v.
Proof.
  intros Hm Hk Hmatch Hmax. unfold forPolicy.
  assert (ri_empty (Some ri) = false) as ->.
  { cbn. rewrite !andb_false_iff, !bool_decide_eq_false. right. intros E.
    by rewrite E, lookup_empty in Hm. }
  cbn [fst snd]. rewrite lookup_override_scopes.
  rewrite (last_omap_sorted _ _ scope v); [done|apply Sorted_matchingScopes
    |apply NoDup_matchingScopes|..].
  - by apply elem_of_matchingScopes.
  - by rewrite Hm.
  - intros s' [[m' Hm'] Hs']%elem_of_matchingScopes. rewrite Hm'. cbn.
    intros ?. by eapply Hmax.
Qed.

(** What a policy finally receives for an input: the replacing value when
    there is one, otherwise the contract value followed by the appended one. *)
Theorem runtime_inputs_layering (w : inputs) ri name ref k :
  let '(append_, replace_, _) := forPolicy ri name ref in
  OverrideRuntimeInputs (MergeRuntimeInputs w append_) replace_ !! k
  = match replace_ !! k with
    | Some v => Some v
    | None => match append_ !! k with
              | Some a => merge_value a (w !! k)
              | None => w !! k
              end
    end.
Proof.
  destruct (forPolicy ri name ref) as [[a r] ms].
  by rewrite lookup_OverrideRuntimeInputs, lookup_MergeRuntimeInputs.
Qed.

Definition ri_example : RuntimeInputs :=
  {| Global := ∅; Scoped := ∅; GlobalOverride := {["min" := "1"]};
     ScopedOverride :=
       <["cve" := {["min" := "5"]}]>
         (<["acme/cve@sha256:ab" := {["min" := "9"]}]> ({["lint" := {["min" := "7"]}]})) |}.

Lemma forPolicy_most_specific_witness :
  (forPolicy (Some ri_example) "cve" "acme/cve@sha256:ab").1.2 !! "min" = Some "9".
Proof.
  apply (forPolicy_most_specific ri_example "cve" "acme/cve@sha256:ab"
           "acme/cve@sha256:ab" "min" "9" {["min" := "9"]}); [vm_compute; reflexivity..|].
  intros s m Hs _ Hmatch. unfold ri_example in Hs; cbn [ScopedOverride] in Hs.
  rewrite !lookup_insert_Some, lookup_singleton_Some in Hs.
  destruct Hs as [[<- _]|[_ [[<- _]|[_ [<- _]]]]].
  - left. vm_compute. lia.
  - by right.
  - vm_compute in Hmatch. discriminate.
Defined.

(** ** Which policies a scope targets *)

Lemma splitPolicyRef_print (with_scheme : bool) provider org name digest :
  clean provider -> clean org -> clean name ->
  splitPolicyRef (print_ref with_scheme provider org name digest)
  = (name, if is_empty digest then "" else "sha256:" +:+ digest).
Proof.
  intros Hp Ho Hn. unfold splitPolicyRef. rewrite ProviderParts_parts by done.
  by apply ExtractDigest_print.
Qed.

Lemma splitPolicyRef_name name : clean name -> splitPolicyRef name = (name, "").
Proof.
  intros Hn. pose proof (splitPolicyRef_print false "" "" name "") as E.
  unfold print_ref in E. cbn in E. rewrite str_app_nil_r in E. by apply E.
Qed.

(** A scope written as a policy reference targets the attachments of the
    policy of that name, from any scheme, provider or organization; a scope
    that pins a digest only targets attachments pinned to the same digest, and
    one that does not targets every version. *)
Theorem policyScopeMatches_print s1 p1 o1 n1 d1 s2 p2 o2 n2 d2 :
  clean p1 -> clean o1 -> clean n1 -> clean p2 -> clean o2 -> clean n2 -> n1 <> "" ->
  policyScopeMatches (print_ref s1 p1 o1 n1 d1) n2 (print_ref s2 p2 o2 n2 d2) = true
  <-> n1 = n2 /\ (d1 = "" \/ d1 = d2).
Proof.
  intros Hp1 Ho1 Hn1 Hp2 Ho2 Hn2 Hne. unfold policyScopeMatches.
  pose proof (splitPolicyRef_print s1 p1 o1 n1 d1 Hp1 Ho1 Hn1) as E1.
  pose proof (splitPolicyRef_print s2 p2 o2 n2 d2 Hp2 Ho2 Hn2) as E2.
  pose proof (splitPolicyRef_name n2 Hn2) as E3.
  destruct (is_empty (print_ref s1 _ _ _ _)) eqn:Es.
  { apply is_empty_true in Es. rewrite Es in E1. vm_compute in E1. congruence. }
  destruct (bool_decide (_ = n2)) eqn:Eb; cbn [orb].
  { apply bool_decide_eq_true in Eb. rewrite Eb, E3 in E1.
    destruct (is_empty d1) eqn:Ed; [|done]. apply is_empty_true in Ed. naive_solver. }
  destruct (bool_decide (_ = print_ref s2 _ _ _ _)) eqn:Er.
  { apply bool_decide_eq_true in Er. rewrite Er, E2 in E1. injection E1 as -> E1.
    split; [intros _; split; [done|]|done].
    destruct (is_empty d1) eqn:Ed1, (is_empty d2) eqn:Ed2; try done.
    - left. by apply is_empty_true.
    - right. by apply str_app_inj in E1. }
  rewrite E1, E2. apply is_empty_false in Hne. rewrite Hne.
  destruct (decide (n1 = n2)) as [->|Hn]; cycle 1.
  { rewrite !bool_decide_eq_true_2 by done. naive_solver. }
  rewrite !bool_decide_eq_false_2 by naive_solver. cbn [andb].
  destruct (is_empty d1) eqn:Ed1; [apply is_empty_true in Ed1; naive_solver|].
  change (is_empty ("sha256:" +:+ d1)) with false. cbn [negb].
  rewrite bool_decide_eq_true.
  apply is_empty_false in Ed1. destruct (is_empty d2) eqn:Ed2.
  - apply is_empty_true in Ed2. naive_solver.
  - split; [intros E%str_app_inj; auto | intros [_ [?| ->]]; done].
Qed.

Lemma policyScopeMatches_print_witness :
  (policyScopeMatches "cve@sha256:ab" "cve" "acme/cve@sha256:cd" = true
   <-> "cve" = "cve" /\ ("ab" = "" \/ "ab" = "cd")) /\
  policyScopeMatches "cve@sha256:ab" "cve" "acme/cve@sha256:cd" = false.
Proof.
  split; [|vm_compute; reflexivity].
  apply (policyScopeMatches_print false "" "" "cve" "ab" false "" "acme" "cve" "cd");
    vm_compute; done.
Defined.

(** ** Reporting the scopes that matched nothing *)

Lemma elem_of_tracker_mark seen keys :
  exists seen', tracker_mark (Some seen) keys = Some seen' /\
    forall k, k ∈ seen' <-> k ∈ keys \/ k ∈ seen.
Proof.
  cbn. eexists; split; [done|]. revert seen.
  induction keys as [|x keys IH]; intros seen k; cbn [fold_left]; [set_solver|].
  rewrite IH. set_solver.
Qed.

Lemma elem_of_mark_matches scopes matched s :
  s ∈ fold_left mark_match scopes matched <-> s ∈ matched \/ s ∈ scopes.
Proof.
  revert matched; induction scopes as [|x scopes IH]; intros matched; cbn [fold_left];
    [set_solver|].
  rewrite IH. unfold mark_match. case_decide; set_solver.
Qed.

Lemma elem_of_forPolicy_matched ri name ref s :
  s ∈ (forPolicy (Some ri) name ref).2 <->
  s ∈ dom (Scoped ri) ∪ dom (ScopedOverride ri) /\ policyScopeMatches s name ref = true.
Proof.
  unfold forPolicy. destruct (ri_empty (Some ri)) eqn:E.
  - cbn in E. split_bool.
    repeat match goal with H : _ ri = ∅ |- _ => rewrite H; clear H end.
    rewrite !dom_empty_L. cbn [snd]. set_solver.
  - cbn [snd]. rewrite elem_of_mark_matches, elem_of_app, !elem_of_matchingScopes.
    rewrite elem_of_union, !elem_of_dom. set_solver.
Qed.

(** After a material is evaluated, the scopes reported as unmatched are
    exactly the declared ones that target none of the attachments evaluated. *)
Theorem unmatched_scopes ri (atts : list (string * string)) s :
  s ∈ tracker_unmatched
        (fold_left (fun t '(name, ref) => tracker_mark t (forPolicy (Some ri) name ref).2)
           atts (Some ∅)) (Some ri)
  <-> s ∈ dom (Scoped ri) ∪ dom (ScopedOverride ri) /\
      forall name ref, (name, ref) ∈ atts -> policyScopeMatches s name ref = false.
Proof.
  assert (Hgen : forall seen, exists seen',
    fold_left (fun t '(name, ref) => tracker_mark t (forPolicy (Some ri) name ref).2)
      atts (Some seen) = Some seen' /\
    forall k, k ∈ seen' <-> k ∈ seen \/ exists name ref, (name, ref) ∈ atts /\
      k ∈ (forPolicy (Some ri) name ref).2).
  { induction atts as [|[n r] atts IH]; intros seen; cbn [fold_left].
    - exists seen. split; [done|]. set_solver.
    - destruct (elem_of_tracker_mark seen (forPolicy (Some ri) n r).2) as (seen1 & -> & H1).
      destruct (IH seen1) as (seen' & -> & H'). exists seen'. split; [done|].
      intros k. rewrite H', H1. setoid_rewrite elem_of_cons. naive_solver. }
  destruct (Hgen ∅) as (seen & -> & Hseen). cbn.
  rewrite merge_sort_Permutation, elem_of_elements, elem_of_difference, Hseen.
  setoid_rewrite elem_of_forPolicy_matched.
  split; intros [Hd H]; (split; [done|]).
  - intros name ref Hin. destruct (policyScopeMatches s name ref) eqn:E; [|done].
    exfalso. apply H. right. eauto 6.
  - intros [?|(name & ref & Hin & _ & Hm)]; [set_solver|]. by rewrite (H name ref) in Hm.
Qed.
