(* ===== verification/PolicyArgs.v ===== *)
(** * The arguments of a policy (pkg/policies/policies.go, pkg/templates)

    [ComputeArguments] matches the arguments of an attachment against the
    inputs a policy declares, [getInputArguments] turns them into the values
    the policy engine receives, and [ApplyBinding] renders the templates in
    them. *)

From S2P Require Import Prelude.
From S2P Require Import GoStrings.
From S2P Require Import Contract.
From S2P Require Import RuntimeInputs.

(** ** Templates *)

(** RE2's [\s] *)
Definition re_space (c : ascii) : bool :=
  existsb (fun n => bool_decide (c = byte n)) [9; 10; 12; 13; 32].

Fixpoint skip_re_space (s : string) : string :=
  match s with
  | String c s' => if re_space c then skip_re_space s' else s
  | "" => ""
  end.

Definition in_range (lo hi : nat) (c : ascii) : bool :=
  (lo <=? Ascii.nat_of_ascii c) && (Ascii.nat_of_ascii c <=? hi).

(** The number of bytes of the first rune of [s], as [utf8.DecodeRune] gives
    it: an invalid encoding is one byte wide. *)
Definition rune_width (s : string) : nat :=
  let cont := in_range 128 191 in
  match s with
  | String a (String b (String c (String d _))) =>
      if in_range 194 223 a && cont b then 2
      else if (bool_decide (a = byte 224) && in_range 160 191 b
               || in_range 225 236 a && cont b || bool_decide (a = byte 237) && in_range 128 159 b
               || in_range 238 239 a && cont b) && cont c then 3
      else if (bool_decide (a = byte 240) && in_range 144 191 b
               || in_range 241 243 a && cont b || bool_decide (a = byte 244) && in_range 128 143 b)
              && cont c && cont d then 4
      else 1
  | String a (String b (String c "")) =>
      if in_range 194 223 a && cont b then 2
      else if (bool_decide (a = byte 224) && in_range 160 191 b
               || in_range 225 236 a && cont b || bool_decide (a = byte 237) && in_range 128 159 b
               || in_range 238 239 a && cont b) && cont c then 3
      else 1
  | String a (String b "") => if in_range 194 223 a && cont b then 2 else 1
  | String _ "" => 1
  | "" => 0
  end.

(** A match of the regular expression [{{\s*(inputs.)] at the start of [s]:
    the text after it.  The dot is not escaped, so it stands for any rune but a
    newline. *)
Definition match_inputs_prefix (s : string) : option string :=
  if has_prefix s "{{" then
    let r := skip_re_space (str_drop 2 s) in
    if has_prefix r "inputs" then
      match str_drop 6 r with
      | "" => None
      | String c _ as t =>
          if bool_decide (c = byte 10) then None else Some (str_drop (rune_width t) t)
      end
    else None
  else None.

(** [inputsPrefixRegexp.ReplaceAllString(input, "{{ .inputs.")] *)
Fixpoint replace_inputs_fuel (fuel : nat) (s : string) : string :=
  match fuel with
  | O => s
  | S fuel' =>
      match match_inputs_prefix s with
      | Some rest => "{{ .inputs." +:+ replace_inputs_fuel fuel' rest
      | None => match s with
                | "" => ""
                | String c s' => String c (replace_inputs_fuel fuel' s')
                end
      end
  end.

Definition replace_inputs (s : string) : string := replace_inputs_fuel (String.length s) s.

(** ** Values of an argument *)

Definition comma_placeholder : string := "$=$$ESCAPED_COMMA$$=$".
Definition escaped_comma : string := "\,".

(** [splitArgs] *)
Definition splitArgs (s : string) : list string :=
  let s := replace_all s escaped_comma comma_placeholder in
  filter (fun t => is_empty t = false)
    (map (fun part => trim_space (replace_all part comma_placeholder ",")) (split s ",")).

(** A value of the [map[string]any] the engines receive *)
Inductive ArgValue :=
| Scalar (s : string)
| Multi (l : list string).

#[export] Instance ArgValue_eq_dec : EqDecision ArgValue.
Proof. solve_decision. Defined.

(** [getValue] *)
Definition getValue (values : list string) : option ArgValue :=
  let lines := filter (fun t => is_empty t = false) (map trim_space values) in
  match lines with
  | [] => None
  | [x] => Some (Scalar x)
  | _ => Some (Multi lines)
  end.

Definition arg_lines (v : string) : list string :=
  flat_map splitArgs (split (trim_right_nl v) newline).

(** [getInputArguments] *)
Definition getInputArguments (args : inputs) : gmap string ArgValue :=
  omap (fun v => getValue (arg_lines v)) args.

(** ** Matching arguments and declared inputs *)

Section Arguments.
(** Parsing and executing a template with Go's [text/template], option
    missingkey=zero, over [{"inputs": bindings}] *)
Context (template_execute : string -> inputs -> result string).

(** [templates.ApplyBinding] *)
Definition ApplyBinding (input : string) (bindings : inputs) : result string :=
  if is_empty input then Ok ""
  else template_execute (replace_inputs input) bindings.

(** One turn of the loop over the declared inputs *)
Definition check_input (args bindings res : inputs) (input : PolicyInput) : result inputs :=
  if input_required input && negb (is_empty (input_default input)) then
    Err (EMsg ("input " +:+ input_name input
               +:+ " can not be required and have a default at the same time"))
  else
    let arg := default "" (args !! input_name input) in
    argValue ← (if is_empty arg then Ok "" else ApplyBinding arg bindings);
    if bool_decide (args !! input_name input = None) || is_empty argValue then
      if input_required input then
        Err (EMsg ("missing required input " +:+ input_name input))
      else if is_empty argValue && negb (is_empty (input_default input)) then
        value ← ApplyBinding (input_default input) bindings;
        Ok (<[input_name input := value]> res)
      else Ok res
    else Ok res.

(** One turn of the loop over the arguments, which range over a map *)
Definition take_argument (decl : list PolicyInput) (bindings res : inputs)
    (kv : string * string) : result inputs :=
  let '(k, v) := kv in
  if existsb (fun i => bool_decide (input_name i = k)) decl then
    value ← ApplyBinding v bindings; Ok (<[k := value]> res)
  else Ok res.

(** [ComputeArguments], with the order in which the arguments are visited *)
Definition ComputeArguments_in (order : list (string * string))
    (decl : list PolicyInput) (args bindings : inputs) : result inputs :=
  let res := if bool_decide (length decl = 0) then args else ∅ in
  res ← foldM_result (check_input args bindings) decl res;
  foldM_result (take_argument decl bindings) order res.

Definition ComputeArguments (decl : list PolicyInput) (args bindings : inputs)
    : result inputs :=
  ComputeArguments_in (map_to_list args) decl args bindings.
End Arguments.

Example splitArgs_ex1 : splitArgs "a\,b,c" = ["a,b"; "c"].
Proof. reflexivity. Qed.
Example splitArgs_ex2 : splitArgs ",a,, b," = ["a"; "b"].
Proof. reflexivity. Qed.
Example splitArgs_ex3 : splitArgs "\d+,\s+" = ["\d+"; "\s+"].
Proof. reflexivity. Qed.
Example replace_inputs_ex :
  replace_inputs "Hello {{inputs.foo }} {{   inputs.bar }}" = "Hello {{ .inputs.foo }} {{ .inputs.bar }}".
Proof. reflexivity. Qed.

(** ** What the computed arguments are *)

Section ArgumentsSpec.
Context (template_execute : string -> inputs -> result string).
Abbreviation render := (ApplyBinding template_execute).

Definition declared (decl : list PolicyInput) (k : string) : bool :=
  existsb (fun i => bool_decide (input_name i = k)) decl.

Lemma declared_spec decl k : declared decl k = true <-> k ∈ input_name <$> decl.
Proof.
  unfold declared. rewrite existsb_exists, list_elem_of_fmap.
  setoid_rewrite list_elem_of_In. setoid_rewrite bool_decide_eq_true. naive_solver.
Qed.

Lemma take_argument_eq decl b res k v :
  take_argument template_execute decl b res (k, v)
  = if declared decl k then w ← render v b; Ok (<[k := w]> res) else Ok res.
Proof. done. Qed.

(** The loop over the arguments succeeds when every template it renders does,
    which does not depend on the order. *)
Lemma take_arguments_is_ok decl b l res :
  is_ok (foldM_result (take_argument template_execute decl b) l res)
  = forallb (fun '(k, v) => negb (declared decl k) || is_ok (render v b)) l.
Proof.
  revert res; induction l as [|[k v] l IH]; intros res; [done|].
  cbn [foldM_result forallb]. rewrite take_argument_eq.
  destruct (declared decl k); cbn [negb orb andb]; [|apply IH].
  destruct (render v b); cbn; [apply IH | done].
Qed.

Lemma lookup_take_arguments decl b l res r k :
  NoDup l.*1 -> foldM_result (take_argument template_execute decl b) l res = Ok r ->
  match (list_to_map l : inputs) !! k with
  | Some v => if declared decl k then exists w, render v b = Ok w /\ r !! k = Some w
              else r !! k = res !! k
  | None => r !! k = res !! k
  end.
Proof.
  revert res; induction l as [|[k' v'] l IH]; intros res; cbn [fmap list_fmap fst].
  - cbn. rewrite lookup_empty. by intros _ [= ->].
  - intros [Hnin Hnd]%NoDup_cons H. cbn [foldM_result] in H.
    apply bind_Ok in H as (res' & H1 & H2). specialize (IH res' Hnd H2).
    rewrite take_argument_eq in H1.
    cbn [list_to_map foldr uncurry]. destruct (decide (k = k')) as [->|Hne].
    + cbn in IH. rewrite not_elem_of_list_to_map_1 in IH by done.
      rewrite lookup_insert_eq. destruct (declared decl k'); inv_ok; [|done].
      eexists; split; [done|]. by rewrite IH, lookup_insert_eq.
    + rewrite lookup_insert_ne by done.
      assert (res' !! k = res !! k) as <-; [|done].
      destruct (declared decl k'); inv_ok; [by rewrite lookup_insert_ne|done].
Qed.

(** [ComputeArguments] does not depend on the order in which Go visits
    the map of arguments: every order gives the same arguments, or an error
    whenever the reference order does. *)
Theorem ComputeArguments_order decl args b order :
  order ≡ₚ map_to_list args ->
  forall r, ComputeArguments_in template_execute order decl args b = Ok r
            <-> ComputeArguments template_execute decl args b = Ok r.
Proof.
  intros Hp r. unfold ComputeArguments, ComputeArguments_in.
  destruct (foldM_result (check_input _ _ _) decl _) as [res|e]; [|done]. cbn.
  assert (Hnd : NoDup order.*1) by (rewrite Hp; apply NoDup_fst_map_to_list).
  assert (Hnd' : NoDup (map_to_list args).*1) by apply NoDup_fst_map_to_list.
  assert (Hmap : (list_to_map order : inputs) = list_to_map (map_to_list args))
    by (by apply list_to_map_proper).
  assert (Hok : is_ok (foldM_result (take_argument template_execute decl b) order res)
                = is_ok (foldM_result (take_argument template_execute decl b) (map_to_list args) res)).
  { rewrite !take_arguments_is_ok. by apply forallb_Permutation. }
  destruct (foldM_result _ order res) as [r1|] eqn:E1,
    (foldM_result _ (map_to_list args) res) as [r2|] eqn:E2; try done.
  assert (r1 = r2) as ->; [|done]. apply map_eq. intros k.
  pose proof (lookup_take_arguments _ _ _ _ _ k Hnd E1) as H1.
  pose proof (lookup_take_arguments _ _ _ _ _ k Hnd' E2) as H2.
  rewrite Hmap in H1. destruct (_ !! k), (declared decl k); try congruence.
  naive_solver congruence.
Qed.

(** The loop over the declared inputs *)
Lemma check_input_lookup args b res i res' k :
  check_input template_execute args b res i = Ok res' ->
  (input_name i <> k -> res' !! k = res !! k) /\
  (input_name i = k -> args !! k = None ->
     if is_empty (input_default i) then res' !! k = res !! k
     else exists w, render (input_default i) b = Ok w /\ res' !! k = Some w).
Proof.
  unfold check_input. destruct (input_required i && _); [done|].
  intros H. apply bind_Ok in H as (av & Hav & H).
  destruct (args !! input_name i) as [v|] eqn:Ea; cbn [default] in Hav.
  - rewrite bool_decide_eq_false_2 in H by done. cbn [orb] in H. split.
    + intros Hne. destruct (is_empty av), (input_required i); inv_ok; [|done..].
      destruct (_ && _); inv_ok; [by rewrite lookup_insert_ne|done].
    + intros <-. by rewrite Ea.
  - rewrite bool_decide_eq_true_2 in H by done. cbn [orb] in H.
    change (Ok "" = Ok av) in Hav. injection Hav as <-.
    destruct (input_required i); [done|].
    change (is_empty "") with true in H. cbn [andb] in H.
    split; intros Hk; destruct (is_empty (input_default i)); cbn [negb] in H; inv_ok; try done.
    + by rewrite lookup_insert_ne.
    + intros _. eexists. split; [done|]. apply lookup_insert_eq.
Qed.

Lemma check_inputs_lookup args b decl res res' k :
  foldM_result (check_input template_execute args b) decl res = Ok res' ->
  args !! k = None -> NoDup (input_name <$> decl) ->
  match List.find (fun i => bool_decide (input_name i = k)) decl with
  | None => res' !! k = res !! k
  | Some i => if is_empty (input_default i) then res' !! k = res !! k
              else exists w, render (input_default i) b = Ok w /\ res' !! k = Some w
  end.
Proof.
  intros H Ha. revert res H. induction decl as [|i decl IH]; intros res H; cbn in H.
  - by simplify_eq.
  - intros [Hnin Hnd]%NoDup_cons. apply bind_Ok in H as (res1 & H1 & H2).
    destruct (check_input_lookup _ _ _ _ _ k H1) as [Hne Heq].
    specialize (IH res1 H2 Hnd). cbn [List.find]. case_bool_decide as Hk.
    + assert (List.find (fun i => bool_decide (input_name i = k)) decl = None) as E.
      { destruct (List.find _ decl) eqn:E; [|done]. apply List.find_some in E as [Hin Hb].
        apply bool_decide_eq_true in Hb. exfalso. apply Hnin. rewrite Hk, <- Hb.
        apply list_elem_of_fmap_2. by apply list_elem_of_In. }
      rewrite E in IH. rewrite IH. by apply Heq.
    + rewrite (Hne Hk) in IH. done.
Qed.

Lemma check_inputs_undeclared args b decl res res' k :
  foldM_result (check_input template_execute args b) decl res = Ok res' ->
  declared decl k = false -> res' !! k = res !! k.
Proof.
  revert res. induction decl as [|i decl IH]; intros res H Hd; cbn in H; [by simplify_eq|].
  apply bind_Ok in H as (res1 & H1 & H2). cbn in Hd. split_bool.
  rewrite (IH res1 H2) by done. by eapply check_input_lookup.
Qed.

(** What [ComputeArguments] returns for a policy that declares its
    inputs: nothing outside the declared inputs, the rendered argument for an
    input that is supplied, and otherwise the rendered default, if any. *)
Theorem ComputeArguments_spec decl args b r k :
  ComputeArguments template_execute decl args b = Ok r ->
  decl <> [] -> NoDup (input_name <$> decl) ->
  match List.find (fun i => bool_decide (input_name i = k)) decl, args !! k with
  | None, _ => r !! k = None
  | Some _, Some v => exists w, render v b = Ok w /\ r !! k = Some w
  | Some i, None =>
      if is_empty (input_default i) then r !! k = None
      else exists w, render (input_default i) b = Ok w /\ r !! k = Some w
  end.
Proof.
  intros H Hne Hnd. unfold ComputeArguments, ComputeArguments_in in H.
  rewrite bool_decide_eq_false_2 in H by (by destruct decl).
  apply bind_Ok in H as (res & H1 & H2).
  pose proof (lookup_take_arguments _ _ _ _ _ k (NoDup_fst_map_to_list args) H2) as H.
  rewrite list_to_map_to_list in H.
  destruct (List.find _ decl) as [i|] eqn:Ef.
  - apply List.find_some in Ef as Hi. destruct Hi as [Hin Hk].
    apply bool_decide_eq_true in Hk. destruct (args !! k) as [v|] eqn:Ea.
    + assert (declared decl k = true) as Hd; [|by rewrite Hd in H].
      apply declared_spec. subst k. apply list_elem_of_fmap_2. by apply list_elem_of_In.
    + pose proof (check_inputs_lookup _ _ _ _ _ k H1 Ea Hnd) as Hc. rewrite Ef in Hc.
      rewrite H. by rewrite lookup_empty in Hc.
  - assert (declared decl k = false) as Hd.
    { unfold declared. destruct (existsb _ decl) eqn:E; [|done].
      apply existsb_exists in E as (i & Hin & Hi).
      by rewrite (List.find_none _ _ Ef _ Hin) in Hi. }
    rewrite Hd in H. assert (r !! k = res !! k) as -> by (by destruct (args !! k)).
    rewrite (check_inputs_undeclared _ _ _ _ _ _ H1 Hd). apply lookup_empty.
Qed.

Lemma check_inputs_required args b decl res res' i :
  foldM_result (check_input template_execute args b) decl res = Ok res' ->
  i ∈ decl -> input_required i = true ->
  exists v w, args !! input_name i = Some v /\ render v b = Ok w /\ w <> "".
Proof.
  revert res. induction decl as [|j decl IH]; intros res H Hin Hr; cbn in H; [by inversion Hin|].
  apply bind_Ok in H as (res1 & H1 & H2). apply elem_of_cons in Hin as [->|Hin]; [|by eapply IH].
  unfold check_input in H1. rewrite Hr in H1. destruct (negb _); [done|]. cbn [andb] in H1.
  apply bind_Ok in H1 as (av & Hav & H1).
  destruct (args !! input_name j) as [v|] eqn:Ea; [|done]. cbn [default] in Hav.
  rewrite bool_decide_eq_false_2 in H1 by done. cbn [orb] in H1.
  destruct (is_empty av) eqn:Ee; [done|]. exists v, av. split_and!; [done| |by apply is_empty_false].
  revert Hav. unfold ApplyBinding, id. destruct (is_empty v); done.
Qed.

(** A required input is never missing: when [ComputeArguments] succeeds,
    each required input was supplied, its template renders to a non-empty
    text, and that text is what the policy receives. *)
Theorem ComputeArguments_required decl args b r i :
  ComputeArguments template_execute decl args b = Ok r ->
  i ∈ decl -> input_required i = true ->
  exists v w, args !! input_name i = Some v /\ render v b = Ok w /\ w <> "" /\
    r !! input_name i = Some w.
Proof.
  intros H Hin Hr. unfold ComputeArguments, ComputeArguments_in in H.
  apply bind_Ok in H as (res & H1 & H2).
  destruct (check_inputs_required _ _ _ _ _ _ H1 Hin Hr) as (v & w & Ha & Hw & Hne).
  exists v, w. split_and!; try done.
  pose proof (lookup_take_arguments _ _ _ _ _ (input_name i) (NoDup_fst_map_to_list args) H2) as H.
  rewrite list_to_map_to_list, Ha in H.
  rewrite (proj2 (declared_spec decl (input_name i))) in H by (by apply list_elem_of_fmap_2).
  destruct H as (w' & Hw' & ->). congruence.
Qed.

(** A default does not apply to an argument that is supplied but renders
    to the empty string (for instance a reference to a group input that is
    not set): the empty string is passed on. *)
Theorem empty_argument_hides_default decl args b r k v :
  ComputeArguments template_execute decl args b = Ok r ->
  k ∈ input_name <$> decl -> args !! k = Some v -> render v b = Ok "" ->
  r !! k = Some "".
Proof.
  intros H Hk Ha Hv. unfold ComputeArguments, ComputeArguments_in in H.
  apply bind_Ok in H as (res & H1 & H2).
  pose proof (lookup_take_arguments _ _ _ _ _ k (NoDup_fst_map_to_list args) H2) as H.
  rewrite list_to_map_to_list, Ha, (proj2 (declared_spec decl k) Hk) in H.
  destruct H as (w & Hw & ->). congruence.
Qed.
End ArgumentsSpec.

(** A concrete renderer of one placeholder *)
Definition template_ex (s : string) (b : inputs) : result string :=
  match cut "{{ .inputs." s with
  | None => Ok s
  | Some (pre, rest) =>
      match cut " }}" rest with
      | Some (key, post) => Ok (pre +:+ default "" (b !! key) +:+ post)
      | None => Err (EMsg "unclosed action")
      end
  end.

Definition inputs_ex : list PolicyInput :=
  [{| input_name := "sev"; input_description := ""; input_required := true; input_default := "" |};
   {| input_name := "max"; input_description := ""; input_required := false; input_default := "10" |}].

Definition args_ex : inputs := {["sev" := "{{ inputs.level }}"; "max" := "{{ inputs.limit }}"; "other" := "x"]}.
Definition bindings_ex : inputs := {["level" := "high"]}.
Definition computed_ex : inputs := {["sev" := "high"; "max" := ""]}.

Lemma ComputeArguments_ex :
  ComputeArguments template_ex inputs_ex args_ex bindings_ex = Ok computed_ex.
Proof. vm_compute. reflexivity. Qed.

Lemma ComputeArguments_order_witness :
  ComputeArguments_in template_ex (rev (map_to_list args_ex)) inputs_ex args_ex bindings_ex
  = Ok computed_ex.
Proof.
  apply (ComputeArguments_order template_ex inputs_ex args_ex bindings_ex).
  - symmetry. apply Permutation_rev.
  - exact ComputeArguments_ex.
Defined.

Lemma ComputeArguments_spec_witness :
  computed_ex !! "other" = None /\
  ComputeArguments template_ex inputs_ex args_ex bindings_ex = Ok computed_ex.
Proof.
  split; [|exact ComputeArguments_ex].
  apply (ComputeArguments_spec template_ex inputs_ex args_ex bindings_ex computed_ex "other");
    [exact ComputeArguments_ex|done|].
  apply (bool_decide_unpack _). vm_compute. exact I.
Defined.

Lemma ComputeArguments_required_witness :
  exists v w, args_ex !! "sev" = Some v /\ ApplyBinding template_ex v bindings_ex = Ok w /\
    w <> "" /\ computed_ex !! "sev" = Some w.
Proof.
  apply (ComputeArguments_required template_ex inputs_ex args_ex bindings_ex computed_ex
           {| input_name := "sev"; input_description := ""; input_required := true;
              input_default := "" |});
    [exact ComputeArguments_ex | left | done].
Defined.

Lemma empty_argument_hides_default_witness : computed_ex !! "max" = Some "".
Proof.
  apply (empty_argument_hides_default template_ex inputs_ex args_ex bindings_ex computed_ex
           "max" "{{ inputs.limit }}"); [exact ComputeArguments_ex|right; left|done|].
  vm_compute. reflexivity.
Defined.

(** ** Multiple values in one argument *)

(** How a user writes a value that holds commas *)
Definition escape_commas (v : string) : string := replace_all v "," escaped_comma.

(** A value that survives the journey: trimmed, not empty, without a backslash,
    nor the dollar sign that the placeholder starts with. *)
Definition plain_value (v : string) : Prop :=
  trim_space v = v /\ v <> "" /\ has_char "\" v = false /\ has_char "$" v = false.

Definition hidden_commas (v : string) : string := replace_all v "," comma_placeholder.

#[local] Arguments String.append !_ _ /.

(** Hiding the escaped commas of a value, then restoring them *)
Lemma hide_escaped v rest :
  has_char "\" v = false ->
  replace_all (escape_commas v +:+ rest) escaped_comma comma_placeholder
  = hidden_commas v +:+ replace_all rest escaped_comma comma_placeholder.
Proof.
  unfold escape_commas, hidden_commas, escaped_comma. induction v as [|c v IH]; intros Hv; [done|].
  cbn [has_char] in Hv. apply orb_false_iff in Hv as [Hc Hv]. apply bool_decide_eq_false in Hc.
  destruct (decide (c = ","%char)) as [->|Hne].
  - change (String "," v) with ("," +:+ v). rewrite !replace_all_hit, !str_app_assoc.
    rewrite replace_all_hit. by rewrite IH.
  - rewrite !replace_all_other by congruence. cbn [String.append].
    rewrite replace_all_other by congruence. by rewrite IH.
Qed.

Lemma hidden_no_comma v : has_char "," (hidden_commas v) = false.
Proof.
  unfold hidden_commas. induction v as [|c v IH]; [done|].
  destruct (decide (c = ","%char)) as [->|Hne].
  - change (String "," v) with ("," +:+ v). rewrite replace_all_hit, has_char_app, IH. done.
  - rewrite replace_all_other by congruence. cbn [has_char].
    rewrite IH, bool_decide_eq_false_2 by congruence. done.
Qed.

Lemma restore_hidden v :
  has_char "$" v = false -> replace_all (hidden_commas v) comma_placeholder "," = v.
Proof.
  unfold hidden_commas, comma_placeholder. induction v as [|c v IH]; intros Hv; [done|].
  cbn [has_char] in Hv. apply orb_false_iff in Hv as [Hc Hv]. apply bool_decide_eq_false in Hc.
  destruct (decide (c = ","%char)) as [->|Hne].
  - change (String "," v) with ("," +:+ v). rewrite replace_all_hit.
    rewrite replace_all_hit. by rewrite IH.
  - rewrite !replace_all_other by congruence. by rewrite IH.
Qed.

Lemma hide_joined vs :
  Forall (fun v => has_char "\" v = false) vs ->
  replace_all (join (map escape_commas vs) ",") escaped_comma comma_placeholder
  = join (map hidden_commas vs) ",".
Proof.
  induction 1 as [|v vs Hv Hvs IH]; [done|]. destruct vs as [|w vs].
  - cbn [map join]. rewrite <- (str_app_nil_r (escape_commas v)), hide_escaped by done.
    apply str_app_nil_r.
  - cbn [map]. rewrite !join_cons, hide_escaped by done.
    change (escape_commas w :: map escape_commas vs) with (map escape_commas (w :: vs)).
    change (hidden_commas w :: map hidden_commas vs) with (map hidden_commas (w :: vs)).
    unfold escaped_comma in *. rewrite replace_all_app_l by done. by rewrite IH.
Qed.

(** Values written as a comma-separated argument, their own commas escaped
    with a backslash, reach the policy as written. *)
Theorem splitArgs_join vs :
  Forall plain_value vs -> splitArgs (join (map escape_commas vs) ",") = vs.
Proof.
  intros Hvs. unfold splitArgs.
  rewrite hide_joined by (eapply Forall_impl; [done|]; by intros v (_ & _ & ? & _)).
  destruct vs as [|v0 vs0] eqn:Evs; [reflexivity|]. rewrite <- Evs in *.
  rewrite split_join;
    [|by rewrite Evs|apply Forall_map, Forall_true; intros; apply hidden_no_comma].
  rewrite map_map. clear v0 vs0 Evs. induction Hvs as [|v vs (Ht & Hne & _ & Hd) Hvs IH]; [done|].
  cbn [map]. rewrite restore_hidden, Ht by done.
  rewrite filter_cons_True by (by apply is_empty_false). by rewrite IH.
Qed.

Lemma splitArgs_join_witness :
  splitArgs (join (map escape_commas ["a,b"; "c d"]) ",") = ["a,b"; "c d"].
Proof.
  apply (splitArgs_join ["a,b"; "c d"]). repeat constructor; vm_compute; done.
Defined.

(** The trailing newlines that [TrimRight] removes carry no value. *)
Definition all_lines (v : string) : list string := flat_map splitArgs (split v newline).

Lemma all_lines_app a b : all_lines (a +:+ newline +:+ b) = all_lines a ++ all_lines b.
Proof. unfold all_lines. change newline with (String (byte 10) ""). by rewrite split_app_char, flat_map_app. Qed.

Lemma list_ascii_app a b :
  String.list_ascii_of_string (a +:+ b)
  = String.list_ascii_of_string a ++ String.list_ascii_of_string b.
Proof. induction a as [|c a IH]; cbn; [done|]. by rewrite IH. Qed.

Lemma string_of_list_app l l' :
  String.string_of_list_ascii (l ++ l')
  = String.string_of_list_ascii l +:+ String.string_of_list_ascii l'.
Proof. induction l as [|c l IH]; cbn; [done|]. by rewrite IH. Qed.

Lemma str_rev_app a b : str_rev (a +:+ b) = str_rev b +:+ str_rev a.
Proof. unfold str_rev. by rewrite list_ascii_app, rev_app_distr, string_of_list_app. Qed.

Lemma str_rev_involutive s : str_rev (str_rev s) = s.
Proof.
  unfold str_rev. by rewrite String.list_ascii_of_string_of_list_ascii, rev_involutive,
    String.string_of_list_ascii_of_string.
Qed.

Fixpoint newlines (n : nat) : string :=
  match n with O => "" | S n => newline +:+ newlines n end.

Lemma newlines_comm n : newlines n +:+ newline = newline +:+ newlines n.
Proof. induction n as [|n IH]; [done|]. cbn [newlines]. by rewrite str_app_assoc, IH. Qed.

Lemma str_rev_newlines n : str_rev (newlines n) = newlines n.
Proof.
  induction n as [|n IH]; [done|]. cbn [newlines]. rewrite str_rev_app, IH.
  change (str_rev newline) with newline. apply newlines_comm.
Qed.

Lemma trim_left_nl s : exists n, s = newlines n +:+ trim_left [newline] s.
Proof.
  unfold trim_left. generalize (String.length s) as m. intros m. revert s.
  induction m as [|m IH]; intros s; [by exists 0|]. cbn [trim_left_fuel].
  unfold strip_one. cbn [List.find]. destruct (String.prefix newline s) eqn:E; [|by exists 0].
  apply prefix_spec in E as [t ->]. rewrite str_drop_app. destruct (IH t) as [n Hn].
  exists (S n). rewrite Hn at 1. cbn [newlines]. by rewrite !str_app_assoc.
Qed.

Lemma trim_right_nl_split s : exists n, s = trim_right_nl s +:+ newlines n.
Proof.
  destruct (trim_left_nl (str_rev s)) as [n Hn]. exists n.
  rewrite <- (str_rev_involutive s) at 1. rewrite Hn at 1.
  by rewrite str_rev_app, str_rev_newlines.
Qed.

Lemma all_lines_newlines x n : all_lines (x +:+ newlines n) = all_lines x.
Proof.
  revert x; induction n as [|n IH]; intros x; cbn [newlines].
  - by rewrite str_app_nil_r.
  - rewrite all_lines_app. rewrite <- (app_nil_r (all_lines x)) at 2. f_equal.
    rewrite <- (str_app_nil_l (newlines n)), IH. reflexivity.
Qed.

Lemma arg_lines_all v : arg_lines v = all_lines v.
Proof.
  unfold arg_lines. destruct (trim_right_nl_split v) as [n Hn].
  rewrite Hn at 2. by rewrite all_lines_newlines.
Qed.

(** Appending a run-time value to a contract value adds to the list of
    values the policy sees: those of the contract first, then those supplied at
    run time, whether each is written on one line or several. *)
Theorem appended_values old v :
  arg_lines (default "" (merge_value v (Some old))) = arg_lines old ++ arg_lines v.
Proof.
  rewrite !arg_lines_all. cbn. destruct (is_empty old) eqn:E.
  - apply is_empty_true in E. by subst.
  - apply all_lines_app.
Qed.
