(* ===== verification/PolicyEngine.v ===== *)
(** * The policy engines

    pkg/policies/engine (options, results, detection of the kind of a script),
    pkg/policies/engine/rego (the Rego engine around OPA, and the boilerplate it
    adds to simplified policies) and pkg/policies/findings (typed findings).

    OPA, the JSON codec and protobuf's JSON codec and validation are parameters. *)

From stdpp Require Import pretty.
From S2P Require Import Prelude.
From S2P Require Import GoStrings.
From S2P Require Import Contract.
From S2P Require Import RuntimeInputs.
From S2P Require Import PolicyArgs.

(** ** JSON values, as [encoding/json] decodes them into [any] *)

#[warnings="-register-all"]
Inductive json :=
| JNull
| JBool (b : bool)
| JNum (n : string)
| JStr (s : string)
| JArr (l : list json)
| JObj (fields : list (string * json)).

Abbreviation jobject := (list (string * json)).

Fixpoint obj_get (k : string) (o : jobject) : option json :=
  match o with
  | [] => None
  | (k', v) :: o' => if bool_decide (k = k') then Some v else obj_get k o'
  end.

(** [m[k] = v] *)
Fixpoint obj_set (k : string) (v : json) (o : jobject) : jobject :=
  match o with
  | [] => [(k, v)]
  | (k', v') :: o' => if bool_decide (k = k') then (k, v) :: o' else (k', v') :: obj_set k v o'
  end.

Lemma obj_get_set_eq k v o : obj_get k (obj_set k v o) = Some v.
Proof.
  induction o as [|[k' v'] o IH]; cbn; [by rewrite bool_decide_eq_true_2|].
  case_bool_decide as Hk; cbn; [by rewrite bool_decide_eq_true_2|].
  by rewrite bool_decide_eq_false_2.
Qed.

Lemma obj_get_set_ne k k' v o : k' <> k -> obj_get k' (obj_set k v o) = obj_get k' o.
Proof.
  intros Hne. induction o as [|[k1 v1] o IH]; cbn; [by rewrite bool_decide_eq_false_2|].
  case_bool_decide as Hk; cbn; [subst; by rewrite !bool_decide_eq_false_2|].
  by rewrite IH.
Qed.

#[export] Hint Rewrite obj_get_set_eq : go_str.

Definition as_bool (j : option json) : bool :=
  match j with Some (JBool b) => b | _ => false end.
Definition as_string (j : option json) : string :=
  match j with Some (JStr s) => s | _ => "" end.
Definition as_array (j : option json) : option (list json) :=
  match j with Some (JArr l) => Some l | _ => None end.

(** ** Kinds of scripts (detect.go) *)

Inductive PolicyType := PolicyTypeRego | PolicyTypeWASM.

#[export] Instance PolicyType_eq_dec : EqDecision PolicyType.
Proof. solve_decision. Defined.

Definition wasm_magic : string := bytes [0; 97; 115; 109].

Definition DetectPolicyType (source : string) : PolicyType :=
  match source with
  | String a (String b (String c (String d _))) =>
      if bool_decide (a = byte 0) && bool_decide (b = byte 97)
         && bool_decide (c = byte 115) && bool_decide (d = byte 109)
      then PolicyTypeWASM else PolicyTypeRego
  | _ => PolicyTypeRego
  end.

(** ** Results (engine.go) *)

Record RawData := { raw_input : string; raw_output : string }.

Record PolicyViolation := {
  pv_subject : string;
  pv_violation : string;
  pv_raw_finding : option jobject
}.

Record EvaluationResult := {
  er_violations : list PolicyViolation;
  er_skipped : bool;
  er_skip_reason : string;
  er_ignore : bool;
  er_raw_data : option RawData
}.

(** [engine.Policy], a loaded script *)
Record Script := { script_source : string; script_name : string }.

(** [NewStructuredViolation] *)
Definition NewStructuredViolation (policyName : string) (obj : jobject) : result PolicyViolation :=
  match obj_get "message" obj with
  | None => Err (EMsg "missing required message field in structured violation")
  | Some (JStr msg) =>
      Ok {| pv_subject := policyName; pv_violation := msg; pv_raw_finding := Some obj |}
  | Some _ => Err (EMsg "message field must be a string")
  end.

(** ** Options (engine.go) *)

Definition BaseAllowedHostnames : list string := ["www.chainloop.dev"; "www.cisa.gov"].

Record CommonEngineOptions := {
  AllowedHostnames : list string;
  IncludeRawData : bool;
  EnablePrint : bool;
  ControlPlaneConnection : bool;
  ProjectName : string;
  ProjectVersionName : string;
  PublicTargetsOnly : bool
}.

Record Options := {
  common : CommonEngineOptions;
  OperatingMode : Z;
  ExecutionTimeout : Z;
  Logger : bool
}.

(** [engine.Option], the functional options *)
Inductive Option_ :=
| WithAllowedHostnames (hostnames : list string)
| WithIncludeRawData (include : bool)
| WithEnablePrint (enable : bool)
| WithOperatingMode (mode : Z)
| WithExecutionTimeout (timeout : Z)
| WithLogger (logger : bool)
| WithGRPCConn (conn : bool)
| WithProjectContext (name version : string)
| WithPublicTargetsOnly.

Definition with_common (f : CommonEngineOptions -> CommonEngineOptions) (o : Options) : Options :=
  {| common := f (common o); OperatingMode := OperatingMode o;
     ExecutionTimeout := ExecutionTimeout o; Logger := Logger o |}.

(** What calling each option does *)
Definition apply_option (o : Options) (opt : Option_) : Options :=
  let c := common o in
  match opt with
  | WithAllowedHostnames hs =>
      with_common (fun c => {| AllowedHostnames := AllowedHostnames c ++ hs;
        IncludeRawData := IncludeRawData c; EnablePrint := EnablePrint c;
        ControlPlaneConnection := ControlPlaneConnection c; ProjectName := ProjectName c;
        ProjectVersionName := ProjectVersionName c; PublicTargetsOnly := PublicTargetsOnly c |}) o
  | WithIncludeRawData b =>
      with_common (fun c => {| AllowedHostnames := AllowedHostnames c;
        IncludeRawData := b; EnablePrint := EnablePrint c;
        ControlPlaneConnection := ControlPlaneConnection c; ProjectName := ProjectName c;
        ProjectVersionName := ProjectVersionName c; PublicTargetsOnly := PublicTargetsOnly c |}) o
  | WithEnablePrint b =>
      with_common (fun c => {| AllowedHostnames := AllowedHostnames c;
        IncludeRawData := IncludeRawData c; EnablePrint := b;
        ControlPlaneConnection := ControlPlaneConnection c; ProjectName := ProjectName c;
        ProjectVersionName := ProjectVersionName c; PublicTargetsOnly := PublicTargetsOnly c |}) o
  | WithOperatingMode m =>
      {| common := c; OperatingMode := m; ExecutionTimeout := ExecutionTimeout o;
         Logger := Logger o |}
  | WithExecutionTimeout t =>
      {| common := c; OperatingMode := OperatingMode o; ExecutionTimeout := t;
         Logger := Logger o |}
  | WithLogger l =>
      {| common := c; OperatingMode := OperatingMode o; ExecutionTimeout := ExecutionTimeout o;
         Logger := l |}
  | WithGRPCConn b =>
      with_common (fun c => {| AllowedHostnames := AllowedHostnames c;
        IncludeRawData := IncludeRawData c; EnablePrint := EnablePrint c;
        ControlPlaneConnection := b; ProjectName := ProjectName c;
        ProjectVersionName := ProjectVersionName c; PublicTargetsOnly := PublicTargetsOnly c |}) o
  | WithProjectContext n v =>
      with_common (fun c => {| AllowedHostnames := AllowedHostnames c;
        IncludeRawData := IncludeRawData c; EnablePrint := EnablePrint c;
        ControlPlaneConnection := ControlPlaneConnection c; ProjectName := n;
        ProjectVersionName := v; PublicTargetsOnly := PublicTargetsOnly c |}) o
  | WithPublicTargetsOnly =>
      with_common (fun c => {| AllowedHostnames := AllowedHostnames c;
        IncludeRawData := IncludeRawData c; EnablePrint := EnablePrint c;
        ControlPlaneConnection := ControlPlaneConnection c; ProjectName := ProjectName c;
        ProjectVersionName := ProjectVersionName c; PublicTargetsOnly := true |}) o
  end.

Definition default_options : Options :=
  {| common := {| AllowedHostnames := []; IncludeRawData := false; EnablePrint := false;
                  ControlPlaneConnection := false; ProjectName := ""; ProjectVersionName := "";
                  PublicTargetsOnly := false |};
     OperatingMode := 0; ExecutionTimeout := 0; Logger := false |}.

(** [ApplyOptions] *)
Definition ApplyOptions (opts : list Option_) : Options :=
  apply_option (fold_left apply_option opts default_options)
    (WithAllowedHostnames BaseAllowedHostnames).

(** ** The interface of the engines: [engine.PolicyEngine]'s [Verify] *)
Class PolicyEngine := {
  Verify : list Option_ -> Script -> string -> gmap string ArgValue -> result EvaluationResult
}.

(** ** Typed findings (findings/registry.go) *)

Inductive FindingKind := Vulnerability | SAST | LicenseViolation.

#[export] Instance FindingKind_eq_dec : EqDecision FindingKind.
Proof. solve_decision. Defined.

(** The [findingTypes] table *)
Definition finding_kind (findingType : string) : option FindingKind :=
  if bool_decide (findingType = "VULNERABILITY") then Some Vulnerability
  else if bool_decide (findingType = "SAST") then Some SAST
  else if bool_decide (findingType = "LICENSE_VIOLATION") then Some LicenseViolation
  else None.

Definition IsValidFindingType (findingType : string) : bool :=
  match finding_kind findingType with Some _ => true | None => false end.

(** A validated finding message: which of the three it is and its content *)
Record Finding := { finding_is : FindingKind; finding_data : jobject }.

(** [PolicyEvaluation.Violation] *)
Record Violation := {
  v_subject : string;
  v_message : string;
  v_finding : option Finding;
  v_suppress : bool
}.

Section Findings.
(** protojson's Unmarshal into the message of that kind (unknown fields
    discarded), then protovalidate's constraints *)
Context (unmarshal_finding : FindingKind -> jobject -> result jobject).
Context (validate_finding : FindingKind -> jobject -> result unit).

Definition ValidateFinding (findingType : string) (raw : jobject) : result Finding :=
  match finding_kind findingType with
  | None => Err (EMsg ("unknown finding type " +:+ findingType))
  | Some kind =>
      data ← map_err (EWrap ("finding does not match " +:+ findingType +:+ " schema"))
               (unmarshal_finding kind raw);
      _ ← map_err (EWrap ("finding validation failed for " +:+ findingType))
            (validate_finding kind data);
      Ok {| finding_is := kind; finding_data := data |}
  end.

(** [SetViolationFinding]: the type assertion, then the oneof is set *)
Definition SetViolationFinding (violation : Violation) (findingType : string)
    (finding : Finding) : result Violation :=
  let set kind msg :=
    if bool_decide (finding_is finding = kind) then
      Ok {| v_subject := v_subject violation; v_message := v_message violation;
            v_finding := Some finding; v_suppress := v_suppress violation |}
    else Err (EMsg msg) in
  match finding_kind findingType with
  | Some Vulnerability => set Vulnerability "finding is not a PolicyVulnerabilityFinding"
  | Some SAST => set SAST "finding is not a PolicySASTFinding"
  | Some LicenseViolation => set LicenseViolation "finding is not a PolicyLicenseViolationFinding"
  | None => Err (EMsg ("unknown finding type " +:+ findingType))
  end.

(** [extractSuppress] (policies.go) *)
Definition extractSuppress (raw : option jobject) : bool :=
  match raw with Some o => as_bool (obj_get "suppress" o) | None => false end.

Record violation_acc := {
  va_res : list Violation; va_warnings : list string;
  va_no_type : bool; va_no_data : bool
}.

Definition warn_no_type : string :=
  "policy returns structured violation objects but does not declare finding_type in metadata — finding data will be ignored".
Definition warn_no_data (findingType : string) : string :=
  "policy declares finding_type " +:+ findingType +:+ " but some violations are plain strings — structured finding data will not be available for those".

(** One violation in the loops of [engineEvaluationsToAPIViolations] *)
Definition add_violation (findingType : string) (acc : violation_acc) (v : PolicyViolation)
    : result violation_acc :=
  let apiV := {| v_subject := pv_subject v; v_message := pv_violation v; v_finding := None;
                 v_suppress := extractSuppress (pv_raw_finding v) |} in
  let put apiV warnings no_type no_data :=
    {| va_res := va_res acc ++ [apiV]; va_warnings := warnings;
       va_no_type := no_type; va_no_data := no_data |} in
  match is_empty findingType, pv_raw_finding v with
  | true, None => Ok (put apiV (va_warnings acc) (va_no_type acc) (va_no_data acc))
  | true, Some _ =>
      let warnings := if va_no_type acc then va_warnings acc
                      else va_warnings acc ++ [warn_no_type] in
      Ok (put apiV warnings true (va_no_data acc))
  | false, None =>
      let warnings := if va_no_data acc then va_warnings acc
                      else va_warnings acc ++ [warn_no_data findingType] in
      Ok (put apiV warnings (va_no_type acc) true)
  | false, Some raw =>
      finding ← map_err (EWrap "structured violation validation")
                  (ValidateFinding findingType raw);
      apiV ← map_err (EWrap "setting violation finding")
               (SetViolationFinding apiV findingType finding);
      Ok (put apiV (va_warnings acc) (va_no_type acc) (va_no_data acc))
  end.

(** [engineEvaluationsToAPIViolations] (policies.go) *)
Definition engineEvaluationsToAPIViolations (results : list EvaluationResult)
    (findingType : string) : result (list Violation * list string) :=
  acc ← foldM_result
          (fun acc r => foldM_result (add_violation findingType) (er_violations r) acc)
          results {| va_res := []; va_warnings := []; va_no_type := false; va_no_data := false |};
  Ok (va_res acc, va_warnings acc).

Lemma foldM_nested {A B C} (f : B -> A -> result B) (g : C -> list A) cs b :
  foldM_result (fun b c => foldM_result f (g c) b) cs b = foldM_result f (concat (map g cs)) b.
Proof.
  revert b; induction cs as [|c cs IH]; intros b; cbn; [done|].
  rewrite foldM_result_app. destruct (foldM_result f (g c) b); cbn; auto.
Qed.

(** All the violations of the scripts, in order *)
Definition all_violations (results : list EvaluationResult) : list PolicyViolation :=
  concat (map er_violations results).

Definition structured (v : PolicyViolation) : bool :=
  match pv_raw_finding v with Some _ => true | None => false end.

(** What is kept of a violation, with the finding attached when there is one *)
Definition api_violation (findingType : string) (v : PolicyViolation) (a : Violation) : Prop :=
  v_subject a = pv_subject v /\ v_message a = pv_violation v
  /\ v_suppress a = extractSuppress (pv_raw_finding v)
  /\ v_finding a = (if is_empty findingType then None
                    else match pv_raw_finding v with
                         | Some raw => match ValidateFinding findingType raw with
                                       | Ok f => Some f | Err _ => None end
                         | None => None end).

Definition expected_warnings (findingType : string) (vs : list PolicyViolation) : list string :=
  if is_empty findingType
  then if existsb structured vs then [warn_no_type] else []
  else if existsb (fun v => negb (structured v)) vs then [warn_no_data findingType] else [].

(** A violation that stops the conversion *)
Definition bad_finding (findingType : string) (v : PolicyViolation) : bool :=
  negb (is_empty findingType)
  && match pv_raw_finding v with Some raw => negb (is_ok (ValidateFinding findingType raw))
     | None => false end.

Lemma ValidateFinding_kind findingType raw f :
  ValidateFinding findingType raw = Ok f -> finding_kind findingType = Some (finding_is f).
Proof.
  unfold ValidateFinding. destruct (finding_kind findingType); [|done].
  intros H. by inv_ok.
Qed.

(** The finding that was validated for a type is always accepted for it. *)
Lemma SetViolationFinding_valid findingType raw f v :
  ValidateFinding findingType raw = Ok f ->
  SetViolationFinding v findingType f =
    Ok {| v_subject := v_subject v; v_message := v_message v;
          v_finding := Some f; v_suppress := v_suppress v |}.
Proof.
  intros H%ValidateFinding_kind. unfold SetViolationFinding. rewrite H.
  by destruct (finding_is f) eqn:E; rewrite bool_decide_eq_true_2.
Qed.

Definition acc_ok (findingType : string) (vs : list PolicyViolation) (acc : violation_acc) : Prop :=
  Forall2 (api_violation findingType) vs (va_res acc)
  /\ va_warnings acc = expected_warnings findingType vs
  /\ va_no_type acc = is_empty findingType && existsb structured vs
  /\ va_no_data acc = negb (is_empty findingType) && existsb (fun v => negb (structured v)) vs.

Lemma add_violation_acc findingType vs acc v :
  acc_ok findingType vs acc ->
  if bad_finding findingType v then is_ok (add_violation findingType acc v) = false
  else exists acc', add_violation findingType acc v = Ok acc' /\ acc_ok findingType (vs ++ [v]) acc'.
Proof.
  intros (Hres & Hw & Ht & Hd).
  unfold bad_finding, add_violation, acc_ok, expected_warnings in *.
  rewrite !existsb_app. cbn [existsb].
  destruct (is_empty findingType) eqn:Eft, (pv_raw_finding v) as [raw|] eqn:Eraw;
    unfold structured at 1 2; rewrite ?Eraw; cbn [negb andb] in *.
  1, 2, 4: eexists; split; [done|]; cbn; repeat split;
    rewrite ?Ht, ?Hd, ?Hw;
    [ apply Forall2_app; [done|]; constructor; [|constructor]; unfold api_violation;
      rewrite Eft, Eraw; by cbn
    | unfold structured; rewrite ?Eraw; cbn;
      repeat match goal with |- context [existsb ?f ?l] => destruct (existsb f l) end; done .. ].
  destruct (ValidateFinding findingType raw) as [f|e] eqn:Ev; cbn; [|done].
  rewrite (SetViolationFinding_valid _ _ _ _ Ev). cbn. eexists; split; [done|]. cbn.
  repeat split; rewrite ?Ht, ?Hd, ?Hw; unfold structured; rewrite ?Eraw; cbn.
  2-4: by rewrite ?orb_false_r.
  apply Forall2_app; [done|]. constructor; [|constructor].
  unfold api_violation; rewrite Eft, Eraw, Ev; by cbn.
Qed.

Lemma add_violations_acc findingType vs done_ acc :
  acc_ok findingType done_ acc ->
  if existsb (bad_finding findingType) vs
  then is_ok (foldM_result (add_violation findingType) vs acc) = false
  else exists acc', foldM_result (add_violation findingType) vs acc = Ok acc'
                    /\ acc_ok findingType (done_ ++ vs) acc'.
Proof.
  revert done_ acc; induction vs as [|v vs IH]; intros done_ acc Hacc; cbn.
  - exists acc. by rewrite app_nil_r.
  - pose proof (add_violation_acc _ _ _ v Hacc) as Hv.
    destruct (bad_finding findingType v); cbn.
    + by destruct (add_violation findingType acc v).
    + destruct Hv as (acc' & -> & Hacc'). cbn.
      specialize (IH _ _ Hacc'). by rewrite <- app_assoc in IH.
Qed.

Lemma engineEvaluations_converted results findingType :
  let vs := all_violations results in
  if existsb (bad_finding findingType) vs
  then is_ok (engineEvaluationsToAPIViolations results findingType) = false
  else exists res,
    engineEvaluationsToAPIViolations results findingType
      = Ok (res, expected_warnings findingType vs)
    /\ Forall2 (api_violation findingType) vs res.
Proof.
  cbn. unfold engineEvaluationsToAPIViolations. rewrite foldM_nested.
  fold (all_violations results).
  pose proof (add_violations_acc findingType (all_violations results) []
    {| va_res := []; va_warnings := []; va_no_type := false; va_no_data := false |}) as H.
  destruct (existsb (bad_finding findingType) (all_violations results)).
  - destruct (foldM_result _ _ _); cbn in *; [|done]. apply H.
    repeat split; unfold expected_warnings; cbn; by destruct (is_empty findingType).
  - destruct H as (acc & -> & Hres & Hw & _).
    + repeat split; unfold expected_warnings; cbn; by destruct (is_empty findingType).
    + cbn in *. exists (va_res acc). by rewrite Hw.
Qed.

(** The conversion of engine results to recorded violations fails exactly
    when the policy declares a finding type and some structured violation does
    not validate as a finding of that type; otherwise every violation of every
    script is kept, one to one and in order, with its message, subject and
    suppression, its finding attached exactly when it is structured and the
    policy is typed, and with at most one warning. *)
Theorem api_violations_exact results findingType :
  let vs := all_violations results in
  if existsb (bad_finding findingType) vs
  then is_ok (engineEvaluationsToAPIViolations results findingType) = false
  else exists res,
    engineEvaluationsToAPIViolations results findingType
      = Ok (res, expected_warnings findingType vs)
    /\ Forall2 (api_violation findingType) vs res.
Proof. apply engineEvaluations_converted. Qed.
End Findings.

(** ** The Rego engine (engine/rego/rego.go) *)

Module Rego.

Definition DefaultExecutionTimeout : Z := 60000000000.

Inductive EnvironmentMode := EnvironmentModeRestrictive | EnvironmentModePermissive | OtherMode.

#[export] Instance EnvironmentMode_eq_dec : EqDecision EnvironmentMode.
Proof. solve_decision. Defined.

Definition mode_of (m : Z) : EnvironmentMode :=
  if bool_decide (m = 0%Z) then EnvironmentModeRestrictive
  else if bool_decide (m = 1%Z) then EnvironmentModePermissive else OtherMode.

Record Engine := {
  operatingMode : EnvironmentMode;
  executionTimeout : Z;
  engine_common : CommonEngineOptions
}.

(** [NewEngine] *)
Definition NewEngine (opts : list Option_) : Engine :=
  let options := ApplyOptions opts in
  {| operatingMode := mode_of (OperatingMode options);
     executionTimeout :=
       if bool_decide (ExecutionTimeout options <= 0)%Z then DefaultExecutionTimeout
       else ExecutionTimeout options;
     engine_common := common options |}.

Definition inputArgs : string := "args".
Definition inputElements : string := "elements".
Definition mainRule : string := "result".
Definition chainloopMetadataKey : string := "chainloop_metadata".

(** [injectProjectMetadata] *)
Definition injectProjectMetadata (r : Engine) (inputMap : jobject) : jobject :=
  let name := ProjectName (engine_common r) in
  let version := ProjectVersionName (engine_common r) in
  if is_empty name && is_empty version then inputMap
  else
    let cm := match obj_get chainloopMetadataKey inputMap with Some (JObj o) => o | _ => [] end in
    let cm := if is_empty name then cm else obj_set "project_name" (JStr name) cm in
    let cm := if is_empty version then cm else obj_set "project_version_name" (JStr version) cm in
    obj_set chainloopMetadataKey (JObj cm) inputMap.

Definition arg_json (v : ArgValue) : json :=
  match v with Scalar s => JStr s | Multi l => JArr (map JStr l) end.

Definition args_json (args : gmap string ArgValue) : json :=
  JObj (map (fun '(k, v) => (k, arg_json v)) (map_to_list args)).

(** The input of the policy: arrays become objects, the project is merged in,
    and the arguments are put under their key *)
Definition prepare_input (r : Engine) (decoded : json) (args : gmap string ArgValue)
    : result jobject :=
  let decoded := match decoded with JArr l => JObj [(inputElements, JArr l)] | j => j end in
  let decoded := match decoded with JObj o => JObj (injectProjectMetadata r o) | j => j end in
  match decoded with
  | JObj o => Ok (obj_set inputArgs (args_json args) o)
  | _ => Err (EMsg "unexpected input arguments")
  end.

(** The violations of a [result] rule: structured findings first, then the
    strings or objects of [violations] *)
Definition parse_findings (name : string) (findings : list json) : result (list PolicyViolation) :=
  mapM_result (fun f =>
    match f with
    | JObj obj => map_err (EWrap ("structured finding in policy " +:+ name))
                    (NewStructuredViolation name obj)
    | _ => Err (EMsg "finding must be an object")
    end) findings.

Definition parse_violations (name : string) (violations : list json) : result (list PolicyViolation) :=
  mapM_result (fun v =>
    match v with
    | JStr s => Ok {| pv_subject := name; pv_violation := s; pv_raw_finding := None |}
    | JObj obj => map_err (EWrap ("structured violation in policy " +:+ name))
                    (NewStructuredViolation name obj)
    | _ => Err (EMsg "violation must be a string or object")
    end) violations.

(** One expression in the loops of [parseResultRule] *)
Definition parse_expression (name : string) (acc : EvaluationResult) (value : json)
    : result EvaluationResult :=
  match value with
  | JObj ruleResult =>
      vs ← (match as_array (obj_get "findings" ruleResult) with
            | Some (f :: fs) => parse_findings name (f :: fs)
            | _ => match as_array (obj_get "violations" ruleResult) with
                   | Some vs => parse_violations name vs
                   | None => Ok []
                   end
            end);
      Ok {| er_violations := er_violations acc ++ vs;
            er_skipped := as_bool (obj_get "skipped" ruleResult);
            er_skip_reason := as_string (obj_get "skip_reason" ruleResult);
            er_ignore := as_bool (obj_get "ignore" ruleResult);
            er_raw_data := er_raw_data acc |}
  | _ => Err (EMsg "Policy result format error: result not found or wrong format")
  end.

(** [parseResultRule]; a result set is a list of results, each a list of
    expression values *)
Definition parseResultRule (res : list (list json)) (name : string) (rawData : option RawData)
    : result EvaluationResult :=
  foldM_result (fun acc exp => foldM_result (parse_expression name) exp acc) res
    {| er_violations := []; er_skipped := false; er_skip_reason := ""; er_ignore := false;
       er_raw_data := rawData |}.

(** An error of OPA's parser: its code and, if known, its line and column *)
Record AstError := { ae_code : string; ae_location : option (nat * nat) }.

(** [sanitizeParseError]; None is an error that is not a list of parse errors *)
Definition sanitizeParseError (e : option (list AstError)) : goerr :=
  match e with
  | None | Some [] => EMsg "invalid policy"
  | Some (first :: _) =>
      match ae_location first with
      | None => EMsg (ae_code first)
      | Some (row, col) =>
          EMsg (ae_code first +:+ " at line " +:+ pretty row +:+ ", column " +:+ pretty col)
      end
  end.

(** *** The boilerplate added to simplified policies (boilerplate.go) *)

Record existingRules := { hasRule : gset string; hasDefault : gset string }.

(** [detectExistingRules] *)
Definition detectExistingRules (rules : list (string * bool)) : existingRules :=
  fold_left
    (fun acc '(name, is_default) =>
       {| hasRule := {[name]} ∪ hasRule acc;
          hasDefault := if is_default : bool then {[name]} ∪ hasDefault acc else hasDefault acc |})
    rules {| hasRule := ∅; hasDefault := ∅ |}.

Record boilerplateData := {
  NeedsResult : bool;
  NeedsDefaultSkipReason : bool;
  NeedsSkipReasonRule : bool;
  NeedsDefaultSkipped : bool;
  NeedsSkippedRule : bool;
  NeedsDefaultIgnore : bool;
  NeedsDefaultValidInput : bool;
  NeedsDefaultViolations : bool
}.

Definition lacks (s : gset string) (name : string) : bool := negb (bool_decide (name ∈ s)).

Definition boilerplate_data (rules : existingRules) : boilerplateData :=
  let no_rule := lacks (hasRule rules) in
  let no_default name := lacks (hasDefault rules) name && no_rule name in
  {| NeedsResult := no_rule "result";
     NeedsDefaultSkipReason := no_default "skip_reason";
     NeedsSkipReasonRule := no_rule "skip_reason";
     NeedsDefaultSkipped := no_default "skipped";
     NeedsSkippedRule := no_rule "skipped";
     NeedsDefaultIgnore := no_default "ignore";
     NeedsDefaultValidInput := no_default "valid_input";
     NeedsDefaultViolations := no_default "violations" |}.

Definition quote_char : string := bytes [34].
Definition quoted (s : string) : string := quote_char +:+ s +:+ quote_char.

(** The lines of a block of boilerplate.rego.tmpl, then the blank line *)
Definition block (lines : list string) : string := join (lines ++ [""; ""]) newline.

(** boilerplate.rego.tmpl, executed *)
Definition boilerplate_template (d : boilerplateData) : string :=
  let when (b : bool) (t : string) := if b then t else "" in
  when (NeedsResult d)
    (block ["result := {";
            "    " +:+ quoted "skipped" +:+ ": skipped,";
            "    " +:+ quoted "violations" +:+ ": violations,";
            "    " +:+ quoted "skip_reason" +:+ ": skip_reason,";
            "    " +:+ quoted "ignore" +:+ ": ignore,"; "}"])
  +:+ when (NeedsDefaultSkipReason d) (block ["default skip_reason := " +:+ quoted ""])
  +:+ when (NeedsSkipReasonRule d)
        (block ["skip_reason := m if {"; "    not valid_input";
                "    m := " +:+ quoted "the file content is not recognized"; "}"])
  +:+ when (NeedsDefaultValidInput d) (block ["default valid_input := true"])
  +:+ when (NeedsDefaultSkipped d) (block ["default skipped := true"])
  +:+ when (NeedsSkippedRule d) (block ["skipped := false if valid_input"])
  +:+ when (NeedsDefaultIgnore d) (block ["default ignore := false"])
  +:+ when (NeedsDefaultViolations d) (block ["default violations := []"]).

(** [buildBoilerplate]: the template is fixed, so neither step can fail *)
Definition buildBoilerplate (rules : existingRules) : string :=
  boilerplate_template (boilerplate_data rules).

(** The blank lines after the declarations are skipped. *)
Fixpoint skip_blank (fuel : nat) (lines : list string) (i : nat) : nat :=
  match fuel with
  | O => i
  | S fuel' =>
      match lines !! i with
      | Some l => if is_empty (trim_space l) then skip_blank fuel' lines (S i) else i
      | None => i
      end
  end.

(** [injectAfterImports]; slicing past the end of the lines panics *)
Definition injectAfterImports (package_row : nat) (import_rows : list nat)
    (originalPolicy injection : string) : option string :=
  let row := fold_left (fun acc r => if bool_decide (acc < r) then r else acc)
               import_rows package_row in
  let lines := split originalPolicy newline in
  let at_ := skip_blank (length lines) lines row in
  let injection := trim_suffix injection newline in
  if bool_decide (at_ <= length lines)
  then Some (join (take at_ lines ++ [injection] ++ drop at_ lines) newline)
  else None.

Section OPA.
(** OPA: parsing a module, its package path, the names of its rules and
    whether each is a default, the lines of its declarations, evaluating a query (an undefined
    rule gives no result set), its table of builtins with their categories;
    and the JSON codec *)
Context {Module_ : Type}.
Context (ast_ParseModule : string -> string -> Module_ + option (list AstError)).
Context (module_rules : Module_ -> list (string * bool)).
Context (package_row : Module_ -> nat).
Context (import_rows : Module_ -> list nat).

Definition ParseModule (msg name source : string) : result Module_ :=
  match ast_ParseModule name source with
  | inl m => Ok m
  | inr e => Err (EWrap msg (sanitizeParseError e))
  end.

Definition all_present (e : existingRules) : bool :=
  bool_decide ("result" ∈ hasRule e)
  && bool_decide ("skip_reason" ∈ hasDefault e) && bool_decide ("skip_reason" ∈ hasRule e)
  && bool_decide ("skipped" ∈ hasDefault e) && bool_decide ("skipped" ∈ hasRule e)
  && bool_decide ("ignore" ∈ hasDefault e)
  && bool_decide ("valid_input" ∈ hasDefault e)
  && bool_decide ("violations" ∈ hasDefault e).

(** [InjectBoilerplate]; None is a panic *)
Definition InjectBoilerplate (policySource policyName : string) : option (result string) :=
  if is_empty policySource then Some (Err (EMsg "empty policy source"))
  else
    match ParseModule "failed to parse policy (must have 'package' and 'import rego.v1')"
            policyName policySource with
    | Err e => Some (Err e)
    | Ok m =>
        let existing := detectExistingRules (module_rules m) in
        if all_present existing then Some (Ok policySource)
        else
          let injection := buildBoilerplate existing in
          if is_empty injection then Some (Ok policySource)
          else Ok <$> injectAfterImports (package_row m) (import_rows m) policySource injection
    end.

(** The rules that every evaluation reads *)
Definition required_rules : list string :=
  ["result"; "skip_reason"; "skipped"; "ignore"; "valid_input"; "violations"].

Lemma skip_blank_bounds fuel lines i :
  i <= length lines -> i <= skip_blank fuel lines i <= length lines.
Proof.
  revert i; induction fuel as [|fuel IH]; intros i Hi; cbn; [lia|].
  destruct (lines !! i) as [l|] eqn:E; [|lia].
  apply lookup_lt_Some in E. destruct (is_empty (trim_space l)); [|lia].
  specialize (IH (S i)). lia.
Qed.

Lemma last_row_bounds rows r0 n :
  r0 <= n -> Forall (fun r => r <= n) rows ->
  let r := fold_left (fun acc r => if bool_decide (acc < r) then r else acc) rows r0 in
  r0 <= r <= n /\ Forall (fun x => x <= r) rows.
Proof.
  intros H0 H. revert r0 H0. induction H as [|x rows Hx H IH]; intros r0 H0; cbn in *; [by split|].
  destruct (IH (if bool_decide (r0 < x) then x else r0)) as [[H1 H2] H3];
    [by case_bool_decide|].
  split; [|constructor; [|done]]; case_bool_decide; lia.
Qed.

Lemma hasDefault_hasRule rules : hasDefault (detectExistingRules rules) ⊆ hasRule (detectExistingRules rules).
Proof.
  unfold detectExistingRules.
  assert (forall acc, hasDefault acc ⊆ hasRule acc ->
    let r := fold_left (fun acc '(name, is_default) =>
       {| hasRule := {[name]} ∪ hasRule acc;
          hasDefault := if is_default : bool then {[name]} ∪ hasDefault acc
                        else hasDefault acc |}) rules acc in hasDefault r ⊆ hasRule r) as H.
  { induction rules as [|[name d] rules IH]; intros acc Hacc; cbn; [done|].
    apply IH; cbn. destruct d; set_solver. }
  apply H. done.
Qed.

Lemma boilerplate_template_empty d :
  boilerplate_template d = "" ->
  d = {| NeedsResult := false; NeedsDefaultSkipReason := false; NeedsSkipReasonRule := false;
         NeedsDefaultSkipped := false; NeedsSkippedRule := false; NeedsDefaultIgnore := false;
         NeedsDefaultValidInput := false; NeedsDefaultViolations := false |}.
Proof.
  destruct d as [b1 b2 b3 b4 b5 b6 b7 b8]. intros H.
  destruct b1; [by vm_compute in H|]. destruct b2; [by vm_compute in H|].
  destruct b3; [by vm_compute in H|]. destruct b7; [by vm_compute in H|].
  destruct b4; [by vm_compute in H|]. destruct b5; [by vm_compute in H|].
  destruct b6; [by vm_compute in H|]. destruct b8; [by vm_compute in H|]. done.
Qed.

Lemma lacks_false (s : gset string) name : lacks s name = false -> name ∈ s.
Proof. unfold lacks. intros H. by split_bool. Qed.

(** Nothing to inject means that every required rule is there. *)
Lemma no_injection_rules rules :
  let e := detectExistingRules rules in
  all_present e = true \/ buildBoilerplate e = "" ->
  Forall (fun r => r ∈ hasRule e) required_rules.
Proof.
  cbn. pose proof (hasDefault_hasRule rules) as Hsub.
  set (e := detectExistingRules rules) in *. unfold required_rules.
  intros [H | H%boilerplate_template_empty].
  - unfold all_present in H. split_bool. repeat constructor; auto.
  - injection H as H1 H2 H3 H4 H5 H6 H7 H8.
    assert (forall name, lacks (hasDefault e) name && lacks (hasRule e) name = false ->
              name ∈ hasRule e) as Hd.
    { intros name [Hn|Hn]%andb_false_iff; apply lacks_false in Hn; auto. }
    repeat constructor; auto using lacks_false.
Qed.

(** Whatever a policy already declares, injecting the boilerplate keeps
    every line of it, in order: the result is either the source itself, and
    then every rule an evaluation reads is declared in it, or the source with
    one block inserted below the package and import declarations.  It does
    not panic when the parser's positions are lines of the source. *)
Theorem InjectBoilerplate_preserves source name m :
  source <> "" -> ast_ParseModule name source = inl m ->
  let lines := split source newline in
  let rows := package_row m :: import_rows m in
  Forall (fun r => r <= length lines) rows ->
  exists out, InjectBoilerplate source name = Some (Ok out) /\
    ((out = source
      /\ Forall (fun r => r ∈ hasRule (detectExistingRules (module_rules m))) required_rules)
     \/ exists pre block post,
          pre ++ post = lines /\ out = join (pre ++ [block] ++ post) newline
          /\ Forall (fun r => r <= length pre) rows).
Proof.
  intros Hne Hp lines rows Hrows. inversion_clear Hrows as [|? ? H0 Hi].
  unfold InjectBoilerplate, ParseModule. rewrite Hp.
  rewrite (proj2 (is_empty_false source) Hne).
  set (e := detectExistingRules (module_rules m)).
  destruct (all_present e) eqn:Ea.
  { exists source. split; [done|]. left. split; [done|]. apply no_injection_rules; auto. }
  destruct (is_empty (buildBoilerplate e)) eqn:Eb.
  { exists source. split; [done|]. left. split; [done|].
    apply no_injection_rules. right. by apply is_empty_true. }
  unfold injectAfterImports. fold lines.
  destruct (last_row_bounds (import_rows m) (package_row m) (length lines) H0 Hi) as [Hr Hall].
  set (row := fold_left _ _ _) in *.
  destruct (skip_blank_bounds (length lines) lines row) as [Hs1 Hs2]; [lia|].
  set (at_ := skip_blank _ _ _) in *. rewrite bool_decide_eq_true_2 by done.
  eexists. split; [done|]. right.
  exists (take at_ lines), (trim_suffix (buildBoilerplate e) newline), (drop at_ lines).
  split; [apply take_drop|]. split; [done|].
  rewrite length_take, Nat.min_l by done.
  constructor; [lia|]. eapply Forall_impl; [exact Hall|]. intros x Hx. exact (Nat.le_trans _ _ _ Hx Hs1).
Qed.

Context (package_path : Module_ -> string).
Context (BuiltinMap : gmap string (list string)).
Context (json_decode : string -> result json).
Context (json_marshal : json -> result string).

Record Capabilities_ := { cap_builtins : gset string; cap_allow_net : option (list string) }.

(** What a query is evaluated with *)
Record Query := {
  q_rule : string; q_module : Module_; q_input : jobject; q_caps : Capabilities_;
  q_print : bool; q_strict : bool; q_permissive : bool; q_public_only : bool
}.

Context (opa_eval : Query -> result (option (list (list (string * json))))).

Definition builtinFuncNotAllowed : list string := ["opa.runtime"; "rego.parse_module"; "trace"].

(** [Capabilities] *)
Definition Capabilities (r : Engine) : Capabilities_ :=
  match operatingMode r with
  | EnvironmentModeRestrictive =>
      {| cap_builtins :=
           list_to_set
             (filter (fun b : string => (b ∉ builtinFuncNotAllowed) /\
                        ("non-restrictive" ∉ default [] (BuiltinMap !! b)))
                (map_to_list BuiltinMap).*1);
         cap_allow_net := Some (AllowedHostnames (engine_common r)) |}
  | EnvironmentModePermissive =>
      {| cap_builtins := dom BuiltinMap; cap_allow_net := None |}
  | OtherMode => {| cap_builtins := ∅; cap_allow_net := None |}
  end.

(** [getRuleName] *)
Definition getRuleName (path rule : string) : string :=
  if is_empty rule then path +:+ newline else path +:+ "." +:+ rule +:+ newline.

(** The query that [executeQuery] runs, in the context [evalContext] marks *)
Definition rule_query (r : Engine) (m : Module_) (input : jobject) (rule : string) : Query :=
  {| q_rule := getRuleName (package_path m) rule; q_module := m; q_input := input;
     q_caps := Capabilities r; q_print := EnablePrint (engine_common r);
     q_strict := bool_decide (operatingMode r = EnvironmentModeRestrictive);
     q_permissive := bool_decide (operatingMode r = EnvironmentModePermissive);
     q_public_only := PublicTargetsOnly (engine_common r) |}.

(** [regoResultSetToRawResults]: the expressions of the last result *)
Definition regoResultSetToRawResults (res : list (list (string * json))) : json :=
  JObj (fold_left
          (fun _ r => fold_left (fun entry '(text, value) => obj_set text value entry) r [])
          res []).

Definition raw_data (r : Engine) (m : Module_) (input : jobject) : result (option RawData) :=
  if IncludeRawData (engine_common r) then
    res ← map_err (EWrap "failed to evaluate policy") (opa_eval (rule_query r m input ""));
    inputBytes ← map_err (EWrap "failed to marshal input for raw data")
                   (json_marshal (JObj input));
    outputBytes ← map_err (EWrap "failed to marshal output for raw data")
                    (json_marshal (regoResultSetToRawResults (default [] res)));
    Ok (Some {| raw_input := inputBytes; raw_output := outputBytes |})
  else Ok None.

(** [Engine.Verify] *)
Definition engine_Verify (r : Engine) (policy : Script) (input : string)
    (args : gmap string ArgValue) : result EvaluationResult :=
  m ← ParseModule "failed to parse rego policy" (script_name policy) (script_source policy);
  decoded ← map_err (EWrap "failed to parse input") (json_decode input);
  inputMap ← prepare_input r decoded args;
  rawData ← raw_data r m inputMap;
  res ← map_err (EWrap "failed to evaluate policy") (opa_eval (rule_query r m inputMap mainRule));
  match res with
  | None => Err (EMsg "failed to evaluate policy: 'result' rule not found")
  | Some res => parseResultRule (map (map snd) res) (script_name policy) rawData
  end.

(** The Rego engine as an instance of the interface *)
#[export] Instance rego_engine : PolicyEngine :=
  {| Verify := fun opts => engine_Verify (NewEngine opts) |}.

(** [evaluateMatchingRule] *)
Definition evaluateMatchingRule (r : Engine) (m : Module_) (rule : string) (input : jobject)
    : result (option bool) :=
  res ← map_err (EWrap "failed to evaluate policy")
          (opa_eval {| q_rule := getRuleName (package_path m) rule; q_module := m;
             q_input := input; q_caps := Capabilities r; q_print := false;
             q_strict := bool_decide (operatingMode r = EnvironmentModeRestrictive);
             q_permissive := bool_decide (operatingMode r = EnvironmentModePermissive);
             q_public_only := PublicTargetsOnly (engine_common r) |});
  Ok (List.find (fun _ => true)
        (omap (fun v => match v with JBool b => Some b | _ => None end)
           (concat (map (map snd) (default [] res))))).

Definition params_json (p : inputs) : json :=
  JObj (map (fun '(k, v) => (k, JStr v)) (map_to_list p)).

(** [MatchesParameters]: a missing rule does not match *)
Definition MatchesParameters (r : Engine) (policy : Script) (evaluationParams expectedParams : inputs)
    : result bool :=
  m ← ParseModule "failed to parse rego policy" (script_name policy) (script_source policy);
  let input := injectProjectMetadata r
    [("args", params_json evaluationParams); ("expected_args", params_json expectedParams)] in
  res ← evaluateMatchingRule r m "matches_parameters" input;
  Ok (default false res).

(** [MatchesEvaluation]: a missing rule matches *)
Definition MatchesEvaluation (r : Engine) (policy : Script) (violations : list string)
    (findings : list jobject) (expectedParams : inputs) : result bool :=
  m ← ParseModule "failed to parse rego policy" (script_name policy) (script_source policy);
  let input := injectProjectMetadata r
    [("expected_args", params_json expectedParams); ("violations", JArr (map JStr violations));
     ("findings", JArr (map JObj findings))] in
  res ← evaluateMatchingRule r m "matches_evaluation" input;
  Ok (default true res).
End OPA.

(** *** Laws of the engine *)

Definition user_hostnames (opts : list Option_) : list string :=
  concat (map (fun o => match o with WithAllowedHostnames hs => hs | _ => [] end) opts).

Definition sets_mode (o : Option_) : bool :=
  match o with WithOperatingMode _ => true | _ => false end.

Lemma fold_options opts o :
  forallb (fun x => negb (sets_mode x)) opts = true ->
  let r := fold_left apply_option opts o in
  OperatingMode r = OperatingMode o
  /\ AllowedHostnames (common r) = AllowedHostnames (common o) ++ user_hostnames opts.
Proof.
  revert o; induction opts as [|x opts IH]; intros o H; cbn in *; [by rewrite app_nil_r|].
  apply andb_true_iff in H as [Hx H]. destruct (IH (apply_option o x) H) as [-> ->].
  unfold user_hostnames. cbn.
  destruct x; cbn; try done; by rewrite ?app_assoc.
Qed.

Lemma NewEngine_mode opts :
  forallb (fun x => negb (sets_mode x)) opts = true ->
  operatingMode (NewEngine opts) = EnvironmentModeRestrictive
  /\ AllowedHostnames (engine_common (NewEngine opts))
     = user_hostnames opts ++ BaseAllowedHostnames.
Proof.
  intros H. destruct (fold_options opts default_options H) as [Hm Hh].
  unfold NewEngine, ApplyOptions. cbn. rewrite Hm, Hh. done.
Qed.

(** What a restricted evaluation may do: the known builtins less the forbidden
    and the non-restrictive ones, the network only for the given hosts, strict
    builtin errors, and a context that is not marked as permissive. *)
Definition restricted {Module_} (BuiltinMap : gmap string (list string)) (hosts : list string)
    (q : Query (Module_ := Module_)) : Prop :=
  q_strict q = true /\ q_permissive q = false
  /\ cap_allow_net (q_caps q) = Some hosts
  /\ forall b, b ∈ cap_builtins (q_caps q) ->
       exists cats, BuiltinMap !! b = Some cats /\ ~ ("non-restrictive" ∈ cats)
                    /\ b ∉ builtinFuncNotAllowed.

Lemma Capabilities_restricted BuiltinMap r b :
  operatingMode r = EnvironmentModeRestrictive ->
  b ∈ cap_builtins (Capabilities BuiltinMap r) ->
  exists cats, BuiltinMap !! b = Some cats /\ ~ ("non-restrictive" ∈ cats)
               /\ b ∉ builtinFuncNotAllowed.
Proof.
  intros Hm. unfold Capabilities. rewrite Hm. cbn [cap_builtins].
  rewrite elem_of_list_to_set, list_elem_of_filter. intros [[H1 H2] H3].
  apply list_elem_of_fmap in H3 as ([k cats] & -> & Hk%elem_of_map_to_list). cbn in *.
  rewrite Hk in H2. eauto.
Qed.

Lemma rule_query_restricted {Module_} path BuiltinMap opts (m : Module_) input rule :
  forallb (fun x => negb (sets_mode x)) opts = true ->
  restricted BuiltinMap (user_hostnames opts ++ BaseAllowedHostnames)
    (rule_query path BuiltinMap (NewEngine opts) m input rule).
Proof.
  intros H. destruct (NewEngine_mode _ H) as [Hm Hh].
  split; [|split; [|split]]; cbn [rule_query q_strict q_permissive q_caps].
  - by rewrite Hm.
  - by rewrite Hm.
  - unfold Capabilities. rewrite Hm. cbn [cap_allow_net]. by rewrite Hh.
  - intros b. by apply Capabilities_restricted.
Qed.

Section Sandbox.
Context {Module_ : Type}.
Context (ast_ParseModule : string -> string -> Module_ + option (list AstError)).
Context (package_path : Module_ -> string).
Context (BuiltinMap : gmap string (list string)).
Context (json_decode : string -> result json) (json_marshal : json -> result string).

(** A Rego evaluation without an explicit operating mode asks OPA restricted
    queries only: two OPAs that agree on those give the same verdict. *)
Lemma verify_restricted opts opa1 opa2 policy input args :
  forallb (fun x => negb (sets_mode x)) opts = true ->
  (forall q, restricted BuiltinMap (user_hostnames opts ++ BaseAllowedHostnames) q ->
     opa1 q = opa2 q) ->
  engine_Verify ast_ParseModule package_path BuiltinMap json_decode json_marshal opa1
    (NewEngine opts) policy input args
  = engine_Verify ast_ParseModule package_path BuiltinMap json_decode json_marshal opa2
      (NewEngine opts) policy input args.
Proof.
  intros Hmode Hopa.
  assert (forall m i rule,
    opa1 (rule_query package_path BuiltinMap (NewEngine opts) m i rule)
    = opa2 (rule_query package_path BuiltinMap (NewEngine opts) m i rule)) as Hq
    by (intros; by apply Hopa, rule_query_restricted).
  unfold engine_Verify, raw_data.
  destruct (ParseModule _ _ _ _) as [m|e]; cbn; [|done].
  destruct (json_decode input) as [d|e]; cbn; [|done].
  destruct (prepare_input _ _ _) as [i|e]; cbn; [|done].
  rewrite !Hq. done.
Qed.
End Sandbox.

Lemma InjectBoilerplate_preserves_witness :
  let source := join ["package main"; "import rego.v1"; ""; "violations contains 1"] newline in
  exists out, InjectBoilerplate (Module_ := unit) (fun _ _ => inl tt)
    (fun _ => [("violations", false)]) (fun _ => 1) (fun _ => [2]) source "p" = Some (Ok out)
    /\ out <> source.
Proof.
  destruct (InjectBoilerplate_preserves (Module_ := unit) (fun _ _ => inl tt)
    (fun _ => [("violations", false)]) (fun _ => 1) (fun _ => [2])
    (join ["package main"; "import rego.v1"; ""; "violations contains 1"] newline) "p" tt)
    as (out & H & _); [done | done | repeat constructor; vm_compute; lia |].
  exists out. split; [exact H|]. intros ->. vm_compute in H. discriminate H.
Defined.

End Rego.

