(* ===== verification/PolicyLoaders.v ===== *)
(** * Loading policies, policy groups and their scripts

    pkg/policies/loader.go and group_loader.go: where a policy spec comes from
    (embedded, file, http, a provider of the control plane behind a cache), its
    digest check and its validation; and the part of pkg/policies/policies.go
    that resolves and loads the scripts a spec references.

    The file system, the HTTP client, the control plane, the decoders and the
    validators are parameters; the theorems say which of them is asked for
    what. *)

From S2P Require Import Prelude.
From S2P Require Import GoStrings.
From S2P Require Import Filepath.
From S2P Require Import Base64.
From S2P Require Import Contract.
From S2P Require Import PolicyRefs.
From S2P Require Import RuntimeInputs.
From S2P Require Import PolicyArgs.
From S2P Require Import PolicyEngine.

(** ** Descriptors *)

Record PolicyDescriptor := {
  desc_URI : string;
  desc_Name : string;
  desc_Digest : string;
  desc_OrgName : string
}.

#[export] Instance PolicyDescriptor_eq_dec : EqDecision PolicyDescriptor.
Proof. solve_decision. Defined.

(** The nil-safe getters *)
Definition GetURI (p : option PolicyDescriptor) : string :=
  match p with Some d => desc_URI d | None => "" end.
Definition GetName (p : option PolicyDescriptor) : string :=
  match p with Some d => desc_Name d | None => "" end.
Definition GetDigest (p : option PolicyDescriptor) : string :=
  match p with Some d => desc_Digest d | None => "" end.
Definition GetOrgName (p : option PolicyDescriptor) : string :=
  match p with Some d => desc_OrgName d | None => "" end.

Definition policyReferenceResourceDescriptor (policyName ref orgName digest : string)
    : PolicyDescriptor :=
  {| desc_URI := ref; desc_Name := policyName; desc_Digest := digest; desc_OrgName := orgName |}.

(** ** Reading raw resources *)

(** app/controlplane/pkg/unmarshal *)
Definition errCUENotSupported : goerr :=
  ESentinel "CUE contract format is no longer supported; use JSON or YAML".

Definition LoadJSONBytes (YAMLToJSON : string -> result string) (rawData extension : string)
    : result string :=
  if bool_decide (extension = ".yaml") || bool_decide (extension = ".yml") then YAMLToJSON rawData
  else if bool_decide (extension = ".cue") then Err errCUENotSupported
  else if bool_decide (extension = ".json") then Ok rawData
  else Err (EMsg "unsupported file format").

(** What a GET request answers: a response, or an error that net/http wraps in
    a [*url.Error] carrying the URL *)
Record Response := { resp_StatusCode : Z; resp_Body : result string }.

Inductive RequestError :=
| URLError (url : string) (err : goerr)
| OtherError (err : goerr).

Section HTTP.
Context {HTTPClient : Type} (DefaultClient : HTTPClient).
Context (client_Get : HTTPClient -> string -> Response + RequestError).

(** [fetchRemote] *)
Definition fetchRemote (client : option HTTPClient) (ref : string) : result string :=
  match client_Get (default DefaultClient client) ref with
  | inr (URLError _ e) | inr (OtherError e) => Err (EWrap "requesting remote policy" e)
  | inl resp =>
      if bool_decide (resp_StatusCode resp < 200)%Z || bool_decide (300 <= resp_StatusCode resp)%Z
      then Err (EMsg "requesting remote policy: server returned an error status")
      else map_err (EWrap "reading remote policy") (resp_Body resp)
  end.
End HTTP.

(** ** The cache of the remote loaders *)

(** What pkg/cache promises: a read may miss at any time (entries expire and
    are evicted), but whatever it returns was written under that key. *)
Class Cache (V : Type) := {
  cache_state : Type;
  holds : cache_state -> string -> V -> Prop;
  cache_Get : cache_state -> string -> option V * cache_state;
  cache_Set : cache_state -> string -> V -> cache_state;
  Get_holds : forall c k v, fst (cache_Get c k) = Some v -> holds c k v;
  Get_keeps : forall c k k' v, holds (snd (cache_Get c k)) k' v -> holds c k' v;
  Set_holds : forall c k v k' v', holds (cache_Set c k v) k' v' ->
    (k' = k /\ v' = v) \/ holds c k' v'
}.
Arguments cache_state V {_}.

(** A bounded in-memory cache, most recent entry first *)
Section LRU.
Context {V : Type} (maxSize : nat).

Fixpoint assoc_get (k : string) (l : list (string * V)) : option V :=
  match l with
  | [] => None
  | (k', v) :: l' => if bool_decide (k = k') then Some v else assoc_get k l'
  end.

Definition lru_get (c : list (string * V)) (k : string) : option V * list (string * V) :=
  match assoc_get k c with
  | Some v => (Some v, (k, v) :: filter (fun e => fst e <> k) c)
  | None => (None, c)
  end.

Definition lru_set (c : list (string * V)) (k : string) (v : V) : list (string * V) :=
  take maxSize ((k, v) :: filter (fun e => fst e <> k) c).

Lemma assoc_get_elem k v l : assoc_get k l = Some v -> (k, v) ∈ l.
Proof.
  induction l as [|[k' v'] l IH]; cbn; [done|]. case_bool_decide as Hk.
  - intros [= ->]. subst. left.
  - intros H. right. by apply IH.
Qed.

#[export] Program Instance LRU_Cache : Cache V :=
  {| cache_state := list (string * V); holds := fun c k v => (k, v) ∈ c;
     cache_Get := lru_get; cache_Set := lru_set |}.
Next Obligation.
  intros c k v. unfold lru_get. destruct (assoc_get k c) eqn:E; [|done].
  cbn. intros [= ->]. by apply assoc_get_elem.
Qed.
Next Obligation.
  intros c k k' v. unfold lru_get. destruct (assoc_get k c) eqn:E; [|done].
  cbn. rewrite elem_of_cons, list_elem_of_filter. intros [[= -> ->]|[_ ?]]; [|done].
  by apply assoc_get_elem.
Qed.
Next Obligation.
  intros c k v k' v'. unfold lru_set. intros H%elem_of_take. destruct H as (i & H & _).
  apply list_elem_of_lookup_2 in H. rewrite elem_of_cons, list_elem_of_filter in H.
  destruct H as [[= -> ->]|[_ ?]]; auto.
Qed.
End LRU.

(** ** The loaders *)

Inductive LoaderKind := EmbeddedLoader | FileLoader | HTTPSLoader | ChainloopLoader.

#[export] Instance LoaderKind_eq_dec : EqDecision LoaderKind.
Proof. solve_decision. Defined.

(** [getLoader] *)
Definition getLoader (attachment : PolicyAttachment) : result LoaderKind :=
  let ref := GetRef attachment in
  match GetEmbedded attachment with
  | Some _ => Ok EmbeddedLoader
  | None =>
      if is_empty ref
      then Err (EMsg "policy must be referenced or embedded in the attachment")
      else
        let scheme := fst (RefParts ref) in
        if bool_decide (scheme = chainloopScheme) || is_empty scheme then Ok ChainloopLoader
        else if bool_decide (scheme = fileScheme) then Ok FileLoader
        else if bool_decide (scheme = httpsScheme) || bool_decide (scheme = httpScheme)
        then Ok HTTPSLoader
        else Err (EMsg ("policy scheme not supported: " +:+ scheme))
  end.

(** [getGroupLoader] *)
Definition getGroupLoader (attachment : PolicyGroupAttachment) : result LoaderKind :=
  let ref := group_att_ref attachment in
  if is_empty ref then Err (EMsg "policy group must be referenced in the attachment")
  else
    let scheme := fst (RefParts ref) in
    if bool_decide (scheme = chainloopScheme) || is_empty scheme then Ok ChainloopLoader
    else if bool_decide (scheme = fileScheme) then Ok FileLoader
    else if bool_decide (scheme = httpsScheme) || bool_decide (scheme = httpScheme)
    then Ok HTTPSLoader
    else Err (EMsg ("policy scheme not supported: " +:+ scheme)).

(** What the control plane answers to GetPolicy and GetPolicyGroup *)
Record RemoteResource (A : Type) := {
  rr_resource : A; rr_url : string; rr_digest : string
}.
Arguments rr_resource {A}.
Arguments rr_url {A}.
Arguments rr_digest {A}.

(** The loaders of one kind of resource: [A] is a policy or a policy group. *)
Section Loaders.
Context {A : Type} (noun : string).
Context (ReadFile : string -> result string).
Context {HTTPClient : Type} (DefaultClient : HTTPClient).
Context (client_Get : HTTPClient -> string -> Response + RequestError).
Context (YAMLToJSON : string -> result string).
Context (protojson_Unmarshal : string -> result A).
Context (SHA256 : string -> string).
Context (NewHash : string -> result string).
Context (url_Parse : string -> result URL).
Context (Query_Get : URL -> string -> string).
Context (GetRemote : ProviderRef -> result (RemoteResource A)).
Context (protovalidate : A -> result unit).

(** [unmarshallResource] *)
Definition unmarshallResource (raw ref digest : string) : result (A * PolicyDescriptor) :=
  jsonContent ← map_err (EWrap "loading resource spec")
                  (LoadJSONBytes YAMLToJSON raw (filepath_Ext ref));
  dest ← map_err (EWrap "unmarshalling policy spec") (protojson_Unmarshal jsonContent);
  let h := SHA256 raw in
  _ ← guard_err (negb (is_empty digest) && negb (bool_decide (h = digest)))
        (EMsg ("digest mismatch: got " +:+ h +:+ ", want " +:+ digest));
  Ok (dest, policyReferenceResourceDescriptor "" ref "" h).

(** [FileLoader.Load] *)
Definition File_Load (attachment_ref : string) : result (A * PolicyDescriptor) :=
  let '(ref, wantDigest) := ExtractDigest attachment_ref in
  filePath ← ensureScheme ref [fileScheme];
  raw ← map_err (EWrap "loading policy spec") (ReadFile (Clean filePath));
  map_err (EWrap "unmarshalling policy spec") (unmarshallResource raw ref wantDigest).

(** [HTTPSLoader.Load] *)
Definition HTTPS_Load (client : option HTTPClient) (attachment_ref : string)
    : result (A * PolicyDescriptor) :=
  let '(ref, wantDigest) := ExtractDigest attachment_ref in
  _ ← map_err (EWrap ("invalid policy reference " +:+ ref))
        (ensureScheme ref [httpScheme; httpsScheme]);
  raw ← fetchRemote DefaultClient client_Get client ref;
  map_err (EWrap "unmarshalling policy spec") (unmarshallResource raw ref wantDigest).

(** What [ChainloopLoader.Load] does when the cache misses *)
Definition remote_fetch (ref : string) : result (A * PolicyDescriptor) :=
  _ ← guard_err (negb (IsProviderScheme ref)) (EMsg ("invalid " +:+ noun +:+ " reference " +:+ ref));
  let providerRef := ProviderParts ref in
  resp ← map_err (EWrap ("requesting remote " +:+ noun +:+ " (provider: " +:+ pr_provider providerRef
                         +:+ ", name: " +:+ pr_name providerRef +:+ ")"))
           (GetRemote providerRef);
  h ← map_err (EWrap "parsing digest") (NewHash (rr_digest resp));
  let orgName :=
    match url_Parse (rr_url resp) with
    | Ok u => let org := Query_Get u "org" in
              if is_empty org then pr_org_name providerRef else org
    | Err _ => pr_org_name providerRef
    end in
  Ok (rr_resource resp,
      policyReferenceResourceDescriptor (pr_name providerRef) (rr_url resp) orgName h).

Section Cached.
Context `{Cache (A * PolicyDescriptor)}.

(** [ChainloopLoader.Load]: the cache is read, read again in the flight, and
    written after a fetch; the errors of the cache are ignored *)
Definition Chainloop_Load (c : cache_state (A * PolicyDescriptor)) (ref : string)
    : result (A * PolicyDescriptor) * cache_state (A * PolicyDescriptor) :=
  match cache_Get c ref with
  | (Some cached, c) => (Ok cached, c)
  | (None, c) =>
      match cache_Get c ref with
      | (Some cached, c) => (Ok cached, c)
      | (None, c) =>
          match remote_fetch ref with
          | Ok cached => (Ok cached, cache_Set c ref cached)
          | Err e => (Err e, c)
          end
      end
  end.

(** [validateResource] *)
Definition validateResource (m : A) : result unit :=
  map_err (EWrap "validating policy spec") (protovalidate m).

(** The dispatch on the loader and the validation, as [loadPolicySpec] and
    [LoadPolicyGroup] do them *)
Definition load_resource (what : string) (client : option HTTPClient) (loader : result LoaderKind)
    (embedded : option A) (ref : string) (c : cache_state (A * PolicyDescriptor))
    : result (A * option PolicyDescriptor) * cache_state (A * PolicyDescriptor) :=
  match map_err (EWrap ("failed to get a loader for " +:+ what)) loader with
  | Err e => (Err e, c)
  | Ok kind =>
      let '(loaded, c) :=
        match kind with
        | EmbeddedLoader =>
            (match embedded with Some p => Ok (p, None)
             | None => Err (EMsg "no embedded resource") end, c)
        | FileLoader => (prod_map id Some <$> File_Load ref, c)
        | HTTPSLoader => (prod_map id Some <$> HTTPS_Load client ref, c)
        | ChainloopLoader =>
            let '(r, c) := Chainloop_Load c ref in (prod_map id Some <$> r, c)
        end in
      (spec_ref ← map_err (EWrap ("failed to load " +:+ what)) loaded;
       _ ← validateResource (fst spec_ref);
       Ok spec_ref, c)
  end.
End Cached.

(** The same without a cache: what every load stands for *)
Definition load_uncached (what : string) (client : option HTTPClient) (loader : result LoaderKind)
    (embedded : option A) (ref : string) : result (A * option PolicyDescriptor) :=
  kind ← map_err (EWrap ("failed to get a loader for " +:+ what)) loader;
  spec_ref ← map_err (EWrap ("failed to load " +:+ what))
    (match kind with
     | EmbeddedLoader =>
         match embedded with Some p => Ok (p, None) | None => Err (EMsg "no embedded resource") end
     | FileLoader => prod_map id Some <$> File_Load ref
     | HTTPSLoader => prod_map id Some <$> HTTPS_Load client ref
     | ChainloopLoader => prod_map id Some <$> remote_fetch ref
     end);
  _ ← validateResource (fst spec_ref);
  Ok spec_ref.

(** *** The cache is transparent *)
Section Transparent.
Context `{Cache (A * PolicyDescriptor)}.

(** Whatever the cache holds is what the control plane answers. *)
Definition coherent (c : cache_state (A * PolicyDescriptor)) : Prop :=
  forall ref v, holds c ref v -> remote_fetch ref = Ok v.

Lemma coherent_Get c k : coherent c -> coherent (snd (cache_Get c k)).
Proof. intros Hc ref v Hv. eapply Hc, Get_keeps, Hv. Qed.

Lemma coherent_Get_hit c k v c' :
  coherent c -> cache_Get c k = (Some v, c') -> remote_fetch k = Ok v /\ coherent c'.
Proof.
  intros Hc E. split.
  - apply Hc, Get_holds. by rewrite E.
  - pose proof (coherent_Get c k Hc) as Hk. by rewrite E in Hk.
Qed.

Lemma coherent_Get_miss c k c' : coherent c -> cache_Get c k = (None, c') -> coherent c'.
Proof. intros Hc E. pose proof (coherent_Get c k Hc) as Hk. by rewrite E in Hk. Qed.

Lemma Chainloop_Load_coherent c ref :
  coherent c ->
  fst (Chainloop_Load c ref) = remote_fetch ref /\ coherent (snd (Chainloop_Load c ref)).
Proof.
  intros Hc. unfold Chainloop_Load. destruct (cache_Get c ref) as [[v|] c1] eqn:E1.
  { by destruct (coherent_Get_hit _ _ _ _ Hc E1) as [-> ?]. }
  apply coherent_Get_miss in E1; [|done].
  destruct (cache_Get c1 ref) as [[v|] c2] eqn:E2.
  { by destruct (coherent_Get_hit _ _ _ _ E1 E2) as [-> ?]. }
  apply coherent_Get_miss in E2; [|done].
  destruct (remote_fetch ref) as [v|e] eqn:Ef; cbn; split; try done.
  intros k v' [[-> ->]|Hk]%Set_holds; [done|]. by apply E2.
Qed.

Lemma load_resource_coherent what client loader embedded ref c :
  coherent c ->
  fst (load_resource what client loader embedded ref c)
    = load_uncached what client loader embedded ref
  /\ coherent (snd (load_resource what client loader embedded ref c)).
Proof.
  intros Hc. unfold load_resource, load_uncached.
  destruct (map_err _ loader) as [kind|e]; cbn; [|done].
  destruct kind; cbn; try done.
  destruct (Chainloop_Load_coherent c ref Hc) as [Hr Hc'].
  destruct (Chainloop_Load c ref) as [r c'] eqn:E. cbn in *. by subst r.
Qed.
End Transparent.

(** A resource is decoded from the bytes whose digest is recorded and checked. *)
Lemma unmarshallResource_Ok raw ref digest a d :
  unmarshallResource raw ref digest = Ok (a, d) ->
  exists json, LoadJSONBytes YAMLToJSON raw (filepath_Ext ref) = Ok json
    /\ protojson_Unmarshal json = Ok a
    /\ desc_Digest d = SHA256 raw /\ desc_URI d = ref /\ (digest <> "" -> SHA256 raw = digest).
Proof.
  unfold unmarshallResource. intros Hu. inv_ok. simplify_eq. eexists. repeat split; [done..|].
  intros Hd. rewrite (proj2 (is_empty_false digest) Hd) in *. cbn in *. by split_bool.
Qed.
End Loaders.

(** ** The world around the verifiers

    The file system, the network, the control plane, the codecs, the validators
    and OPA's parser, gathered so that the components share them. *)
Class World := {
  ReadFile : string -> result string;
  EvalSymlinks : string -> result string;
  LoadFileOrURL : string -> result string;
  HTTPClient : Type;
  DefaultClient : HTTPClient;
  client_Get : HTTPClient -> string -> Response + RequestError;
  YAMLToJSON : string -> result string;
  unmarshal_policy : string -> result Policy;
  unmarshal_group : string -> result PolicyGroup;
  SHA256 : string -> string;
  NewHash : string -> result string;
  url_Parse : string -> result URL;
  url_ParseRef : URL -> string -> result URL;
  url_String : URL -> string;
  Query_Get : URL -> string -> string;
  GetPolicy : ProviderRef -> result (RemoteResource Policy);
  GetPolicyGroup : ProviderRef -> result (RemoteResource PolicyGroup);
  validate_policy : Policy -> result unit;
  validate_group : PolicyGroup -> result unit;
  OPAModule : Type;
  ast_ParseModule : string -> string -> OPAModule + option (list Rego.AstError);
  module_rules : OPAModule -> list (string * bool);
  package_row : OPAModule -> nat;
  import_rows : OPAModule -> list nat
}.

Section Load.
Context `{World}.

(** [FileGroupLoader.Load], [HTTPSGroupLoader.Load] and the fetch of
    [ChainloopGroupLoader.Load] are the policy loaders on groups. *)
Definition FileGroup_Load (ref : string) : result (PolicyGroup * PolicyDescriptor) :=
  File_Load ReadFile YAMLToJSON unmarshal_group SHA256 ref.
Definition HTTPSGroup_Load (client : option HTTPClient) (ref : string)
    : result (PolicyGroup * PolicyDescriptor) :=
  HTTPS_Load DefaultClient client_Get YAMLToJSON unmarshal_group SHA256 client ref.
Definition ChainloopGroup_Load `{Cache (PolicyGroup * PolicyDescriptor)}
    (c : cache_state (PolicyGroup * PolicyDescriptor)) (ref : string)
    : result (PolicyGroup * PolicyDescriptor) * cache_state (PolicyGroup * PolicyDescriptor) :=
  Chainloop_Load "group" NewHash url_Parse Query_Get GetPolicyGroup c ref.

(** [loadPolicySpec] over the policy cache *)
Definition loadPolicySpec `{Cache (Policy * PolicyDescriptor)} (client : option HTTPClient)
    (attachment : PolicyAttachment) (c : cache_state (Policy * PolicyDescriptor))
    : result (Policy * option PolicyDescriptor) * cache_state (Policy * PolicyDescriptor) :=
  load_resource "policy" ReadFile DefaultClient client_Get YAMLToJSON unmarshal_policy SHA256
    NewHash url_Parse Query_Get GetPolicy validate_policy
    "policy spec" client (getLoader attachment) (GetEmbedded attachment) (GetRef attachment) c.

(** [LoadPolicyGroup] over the group cache *)
Definition LoadPolicyGroup `{Cache (PolicyGroup * PolicyDescriptor)} (client : option HTTPClient)
    (att : PolicyGroupAttachment) (c : cache_state (PolicyGroup * PolicyDescriptor))
    : result (PolicyGroup * option PolicyDescriptor)
      * cache_state (PolicyGroup * PolicyDescriptor) :=
  load_resource "group" ReadFile DefaultClient client_Get YAMLToJSON unmarshal_group SHA256
    NewHash url_Parse Query_Get GetPolicyGroup validate_group
    "policy group" client (getGroupLoader att) None (group_att_ref att) c.

(** What the two loads stand for *)
Definition policy_of (client : option HTTPClient) (attachment : PolicyAttachment)
    : result (Policy * option PolicyDescriptor) :=
  load_uncached "policy" ReadFile DefaultClient client_Get YAMLToJSON unmarshal_policy SHA256
    NewHash url_Parse Query_Get GetPolicy validate_policy
    "policy spec" client (getLoader attachment) (GetEmbedded attachment) (GetRef attachment).
Definition group_of (client : option HTTPClient) (att : PolicyGroupAttachment)
    : result (PolicyGroup * option PolicyDescriptor) :=
  load_uncached "group" ReadFile DefaultClient client_Get YAMLToJSON unmarshal_group SHA256
    NewHash url_Parse Query_Get GetPolicyGroup validate_group
    "policy group" client (getGroupLoader att) None (group_att_ref att).

Definition policy_cache_coherent `{Cache (Policy * PolicyDescriptor)}
    (c : cache_state (Policy * PolicyDescriptor)) : Prop :=
  coherent "policy" NewHash url_Parse Query_Get GetPolicy c.

(** A sequence of loads through one cache, whatever it evicts in between *)
Fixpoint load_all `{Cache (Policy * PolicyDescriptor)} (client : option HTTPClient)
    (atts : list PolicyAttachment) (c : cache_state (Policy * PolicyDescriptor))
    : list (result (Policy * option PolicyDescriptor)) :=
  match atts with
  | [] => []
  | a :: atts' =>
      let '(r, c) := loadPolicySpec client a c in r :: load_all client atts' c
  end.

(** The policy cache is transparent: while it only holds what the control
    plane answers, any sequence of loads through it, hits, misses and
    evictions alike, gives for each attachment exactly what loading it afresh
    gives. *)
Theorem cached_loads_transparent `{Cache (Policy * PolicyDescriptor)} client atts c :
  policy_cache_coherent c -> load_all client atts c = map (policy_of client) atts.
Proof.
  revert c; induction atts as [|a atts IH]; intros c Hc; [done|].
  cbn [load_all map].
  destruct (load_resource_coherent "policy" ReadFile DefaultClient client_Get YAMLToJSON
    unmarshal_policy SHA256 NewHash url_Parse Query_Get GetPolicy validate_policy "policy spec"
    client (getLoader a) (GetEmbedded a) (GetRef a) c Hc) as [Hr Hc'].
  unfold loadPolicySpec. destruct (load_resource _ _ _ _ _ _ _ _ _ _ _ _ _ _ _ _ _ c) as [r c'].
  cbn [fst snd] in *. f_equal; [done|]. by apply IH.
Qed.
End Load.

(** ** Pinned digests *)

Section Digests.
Context `{World}.

(** The raw bytes that the reference of an attachment designates *)
Definition raw_resource (client : option HTTPClient) (ref raw : string) : Prop :=
  (exists path, RefParts ref = (fileScheme, path) /\ ReadFile (Clean path) = Ok raw)
  \/ (fst (RefParts ref) ∈ [httpScheme; httpsScheme]
      /\ fetchRemote DefaultClient client_Get client ref = Ok raw).

Lemma ensureScheme_Ok ref expected id :
  ensureScheme ref expected = Ok id -> exists s, RefParts ref = (s, id) /\ s ∈ expected.
Proof.
  unfold ensureScheme. destruct (RefParts ref) as [s i].
  destruct (existsb _ expected) eqn:E; [|done]. intros [= ->].
  exists s. split; [done|]. apply existsb_exists in E as (x & Hx & Hs).
  split_bool. subst. by apply list_elem_of_In.
Qed.

(** A policy that is loaded from a file or from an http(s) URL with a
    pinned digest is decoded from bytes with exactly that SHA-256, the ones
    the reference (without its digest) designates; the recorded digest and
    URI are those of the bytes and of that reference in every case. *)
Theorem loaded_digest client att kind p d :
  getLoader att = Ok kind -> kind = FileLoader \/ kind = HTTPSLoader ->
  policy_of client att = Ok (p, d) ->
  let '(ref, wantDigest) := ExtractDigest (GetRef att) in
  exists raw json,
    raw_resource client ref raw
    /\ LoadJSONBytes YAMLToJSON raw (filepath_Ext ref) = Ok json /\ unmarshal_policy json = Ok p
    /\ GetDigest d = SHA256 raw /\ GetURI d = ref
    /\ (wantDigest <> "" -> SHA256 raw = wantDigest).
Proof.
  unfold policy_of, load_uncached. intros -> Hk Hload. cbn in Hload.
  apply bind_Ok in Hload as ([p' d'] & Hl & Hload). inv_ok. simplify_eq.
  destruct Hk as [-> | ->]; cbn in Hl;
    (match type of Hl with (_ <$> ?m) = _ => destruct m as [[p1 d1]|] eqn:El; [|done] end);
    cbn in Hl; simplify_eq;
    [unfold File_Load in El | unfold HTTPS_Load in El];
    destruct (ExtractDigest (GetRef att)) as [ref want]; inv_ok;
    match goal with He : ensureScheme _ _ = _ |- _ =>
      apply ensureScheme_Ok in He as (s & Hs & Hin) end;
    apply unmarshallResource_Ok in El as (json & Hj & Hu & Hrest);
    eexists _, json; (split; [|by split]).
  - left. apply list_elem_of_singleton in Hin as ->. eauto.
  - right. rewrite Hs. eauto.
Qed.
End Digests.

(** ** The scripts of a policy *)

Section Scripts.
Context `{World}.

Definition errInvalidScriptRef (ref : string) (e : goerr) : goerr :=
  EWrap2 ("invalid policy script reference " +:+ ref)
    (ESentinel "invalid policy script reference") e.

Definition ErrNotExist : string := "file does not exist".

(** [decodeIfBase64Wasm] *)
Definition decodeIfBase64Wasm (content : string) : string :=
  match DecodeString content with
  | None => content
  | Some decoded =>
      if bool_decide (DetectPolicyType decoded = PolicyTypeWASM) then decoded else content
  end.

(** [policyLocation] *)
Definition policyLocation (attachmentRef : string) : string :=
  let scheme := fst (RefParts attachmentRef) in
  if bool_decide (scheme = fileScheme) || bool_decide (scheme = httpsScheme)
  then fst (ExtractDigest attachmentRef) else "".

(** [ensureHTTPSURL] *)
Definition ensureHTTPSURL (u : URL) : result unit :=
  guard_err (negb (bool_decide (url_scheme u = httpsScheme)) || is_empty (url_host u))
    (EMsg "only https:// URLs are supported").

(** [parseHTTPSURL] *)
Definition parseHTTPSURL (raw : string) : result URL :=
  u ← url_Parse raw; _ ← ensureHTTPSURL u; Ok u.

(** [confineToDir] *)
Definition confineToDir (dir ref : string) : result string :=
  let candidate := Join dir ref in
  match EvalSymlinks candidate with
  | Err e => if errors_is ErrNotExist e then Ok candidate else Err e
  | Ok target =>
      realDir ← EvalSymlinks dir;
      match Rel realDir target with
      | Ok rel => if IsLocal rel then Ok target
                  else Err (EMsg "must be a path within the policy directory")
      | Err _ => Err (EMsg "must be a path within the policy directory")
      end
  end.

(** [resolveScriptLocation] *)
Definition resolveScriptLocation (ref basePath : string) : result string :=
  _ ← guard_err (is_empty ref) (EMsg "empty reference");
  if negb (is_empty (fst (RefParts ref))) then _ ← parseHTTPSURL ref; Ok ref
  else
    let '(baseScheme, baseLoc) := RefParts basePath in
    if bool_decide (baseScheme = httpsScheme) then
      baseURL ← map_err (EWrap "invalid base URL") (parseHTTPSURL basePath);
      resolved ← url_ParseRef baseURL ref;
      _ ← ensureHTTPSURL resolved;
      Ok (url_String resolved)
    else if bool_decide (baseScheme = fileScheme) || (is_empty baseScheme && negb (is_empty baseLoc))
    then
      _ ← guard_err (negb (IsLocal ref))
            (EMsg "must be a relative path within the policy directory");
      confineToDir (Dir baseLoc) ref
    else Err (EMsg "relative references are only supported for policies loaded from a file or an https URL").

(** [resolveScriptRef] *)
Definition resolveScriptRef (ref basePath : string) : result string :=
  map_err (errInvalidScriptRef ref) (resolveScriptLocation ref basePath).

(** [loadScriptContent] *)
Definition loadScriptContent (ref basePath : string) (client : option HTTPClient) : result string :=
  scriptPath ← map_err (EWrap "resolving policy reference") (resolveScriptRef ref basePath);
  content ← map_err (EWrap "loading policy content")
    (if bool_decide (fst (RefParts scriptPath) = httpsScheme)
     then fetchRemote DefaultClient client_Get client scriptPath
     else LoadFileOrURL scriptPath);
  Ok (decodeIfBase64Wasm content).

(** [loadPolicyScript] *)
Definition loadPolicyScript (spec : PolicySpecV2) (basePath : string)
    (client : option HTTPClient) : result string :=
  match v2_source spec with
  | Some (SourceEmbedded text) => Ok (decodeIfBase64Wasm text)
  | Some (SourceRef ref) => loadScriptContent ref basePath client
  | Some (SourcePath path) => loadScriptContent path basePath client
  | None => Err (EMsg "policy spec is empty")
  end.

(** [loadLegacyPolicyScript] *)
Definition loadLegacyPolicyScript (spec : PolicySpec) (basePath : string)
    (client : option HTTPClient) : result string :=
  match spec_source spec with
  | Some (LegacyEmbedded text) => Ok (decodeIfBase64Wasm text)
  | Some (LegacyPath path) => loadScriptContent path basePath client
  | None => Err (EMsg "policy spec is empty")
  end.

(** The boilerplate is injected into Rego scripts only. *)
Definition finish_script (name script : string) : result Script :=
  if bool_decide (DetectPolicyType script = PolicyTypeRego) then
    match Rego.InjectBoilerplate ast_ParseModule module_rules package_row import_rows
            script name with
    | None => Err (panic "slice bounds out of range")
    | Some r =>
        source ← map_err (EWrap "failed to inject boilerplate") r;
        Ok {| script_source := source; script_name := name |}
    end
  else Ok {| script_source := script; script_name := name |}.

Definition kind_matches (kind : MaterialType) (spec : PolicySpecV2) : bool :=
  bool_decide (v2_kind spec = MATERIAL_TYPE_UNSPECIFIED) || bool_decide (v2_kind spec = kind).

(** [loadPolicyScriptsFromSpec] *)
Definition loadPolicyScriptsFromSpec (policy : Policy) (kind : MaterialType) (basePath : string)
    (client : option HTTPClient) : result (list Script) :=
  let name := meta_name (policy_metadata policy) in
  let spec := policy_spec policy in
  match spec_source spec with
  | Some _ =>
      script ← map_err (EWrap "failed to load policy script")
                 (loadLegacyPolicyScript spec basePath client);
      s ← finish_script name script;
      Ok [s]
  | None =>
      mapM_result
        (fun spec =>
           script ← map_err (EWrap "failed to load policy script")
                      (loadPolicyScript spec basePath client);
           finish_script name script)
        (List.filter (kind_matches kind) (spec_policies spec))
  end.
End Scripts.

(** ** Where scripts may come from *)

Section Confinement.
Context `{World}.

Definition https_url (u : URL) : Prop := url_scheme u = httpsScheme /\ url_host u <> "".

(** A location that the policy spec at [basePath] may reference as [ref] *)
Definition allowed_location (ref basePath loc : string) : Prop :=
  (loc = ref /\ exists u, url_Parse ref = Ok u /\ https_url u)
  \/ (exists base u, url_Parse basePath = Ok base /\ https_url base
        /\ url_ParseRef base ref = Ok u /\ https_url u /\ loc = url_String u)
  \/ (fst (RefParts basePath) ∈ [fileScheme; ""]
      /\ let dir := Dir (snd (RefParts basePath)) in
         inside dir (Join dir ref)
         /\ ((loc = Join dir ref
              /\ exists e, EvalSymlinks loc = Err e /\ errors_is ErrNotExist e = true)
             \/ exists realDir, EvalSymlinks (Join dir ref) = Ok loc
                  /\ EvalSymlinks dir = Ok realDir /\ inside realDir loc)).

Lemma ensureHTTPSURL_Ok u x : ensureHTTPSURL u = Ok x -> https_url u.
Proof.
  intros Hu%guard_err_Ok. split_bool. split; [done|]. by apply is_empty_false.
Qed.

Lemma parseHTTPSURL_Ok raw u : parseHTTPSURL raw = Ok u -> url_Parse raw = Ok u /\ https_url u.
Proof. unfold parseHTTPSURL. intros Hu. inv_ok. eauto using ensureHTTPSURL_Ok. Qed.

Lemma resolveScriptLocation_allowed ref basePath loc :
  resolveScriptLocation ref basePath = Ok loc -> allowed_location ref basePath loc.
Proof.
  unfold resolveScriptLocation, allowed_location. intros Hr. inv_ok.
  destruct (negb (is_empty (fst (RefParts ref)))).
  { inv_ok. left. split; [done|]. eauto using parseHTTPSURL_Ok. }
  destruct (RefParts basePath) as [scheme path]. cbn [fst snd].
  case_bool_decide as Hs.
  { right; left. inv_ok. edestruct parseHTTPSURL_Ok as [? ?]; [done|].
    do 2 eexists. eauto 10 using ensureHTTPSURL_Ok. }
  destruct (bool_decide (scheme = fileScheme) || _) eqn:Eb; [|done]. inv_ok. split_bool.
  right; right. split.
  { apply orb_true_iff in Eb as [Eb|Eb]; split_bool; [subst; left|].
    match goal with Hs : is_empty scheme = true |- _ => apply is_empty_true in Hs; subst end.
    right; left. }
  split; [apply Join_local_inside; [apply Clean_not_empty | done]|].
  unfold confineToDir in Hr.
  destruct (EvalSymlinks (Join (Dir path) ref)) as [target|e] eqn:Et.
  - inv_ok. destruct (Rel _ target) as [rel|] eqn:Erel; [|done].
    destruct (IsLocal rel) eqn:El; [|done]. injection Hr as ->. right.
    eexists. split; [done|]. split; [done|]. by eapply Rel_local_inside.
  - destruct (errors_is ErrNotExist e) eqn:Ee; [|done]. injection Hr as <-. left. eauto.
Qed.

(** C37: A policy cannot make the verifier read an arbitrary file or URL: a
    script is only ever loaded from an https URL with a host, or, when the
    policy itself is a local file, from a path below the policy's directory
    that, once symbolic links are followed, is still below it (or that does
    not exist). *)
Theorem scripts_confined ref basePath client content :
  loadScriptContent ref basePath client = Ok content ->
  exists loc raw,
    allowed_location ref basePath loc /\ content = decodeIfBase64Wasm raw
    /\ ((fst (RefParts loc) = httpsScheme
         /\ fetchRemote DefaultClient client_Get client loc = Ok raw)
        \/ LoadFileOrURL loc = Ok raw).
Proof.
  unfold loadScriptContent, resolveScriptRef. intros Hl.
  inv_ok. match goal with Hr : resolveScriptLocation _ _ = Ok ?l |- _ =>
    exists l; apply resolveScriptLocation_allowed in Hr end.
  eexists. split; [done|]. split; [done|].
  case_bool_decide; auto.
Qed.

Lemma decode_raw_wasm w : DetectPolicyType w = PolicyTypeWASM -> DecodeString w = None.
Proof.
  destruct w as [|a [|b [|c [|d w]]]]; try done. cbn [DetectPolicyType].
  destruct (bool_decide (a = byte 0)) eqn:Ea; [|done]. split_bool. subst a. intros _.
  unfold DecodeString. generalize (String b (String c (String d w))) as t. intros t.
  cbn [strip_breaks]. replace (is_break (byte 0)) with false by done.
  generalize (strip_breaks t) as u. by intros [|x [|y [|z s]]].
Qed.

(** A WASM policy reaches the engine as the same bytes, embedded raw or in
    base64, and nothing else is ever decoded: the content is either itself or
    the WASM module it is the base64 form of. *)
Theorem embedded_wasm content :
  (DetectPolicyType content = PolicyTypeWASM ->
     decodeIfBase64Wasm (EncodeToString content) = content
     /\ decodeIfBase64Wasm content = content)
  /\ (decodeIfBase64Wasm content = content
      \/ DecodeString content = Some (decodeIfBase64Wasm content)
         /\ DetectPolicyType (decodeIfBase64Wasm content) = PolicyTypeWASM).
Proof.
  unfold decodeIfBase64Wasm. split.
  - intros Hw. rewrite Decode_Encode, bool_decide_eq_true_2, decode_raw_wasm by done. done.
  - destruct (DecodeString content) as [d|] eqn:E; [|auto].
    case_bool_decide; auto.
Qed.
End Confinement.

(** ** Witnesses *)

(** A world with one local policy directory and one policy of a provider *)
Definition toy_policy : Policy :=
  {| policy_api_version := "workflowcontract.chainloop.dev/v1"; policy_kind := "Policy";
     policy_metadata := {| meta_name := "p"; meta_description := ""; meta_annotations := ∅;
                           meta_organization := None; meta_finding_type := None |};
     policy_spec := {| spec_source := None; spec_type := MATERIAL_TYPE_UNSPECIFIED;
                       spec_policies := []; spec_inputs := [] |} |}.

Definition toy_file (path : string) : result string :=
  if bool_decide (path = "dir/p.yaml") then Ok "spec"
  else if bool_decide (path = "dir/p.rego") then Ok "package p"
  else if bool_decide (path = "dir") then Ok "dir"
  else Err (ESentinel ErrNotExist).

Definition toy_symlink (path : string) : result string :=
  match toy_file path with Ok _ => Ok path | Err e => Err e end.

Definition toy_world : World :=
  {| ReadFile := toy_file; EvalSymlinks := toy_symlink; LoadFileOrURL := toy_file;
     HTTPClient := unit; DefaultClient := tt;
     client_Get := fun _ _ => inl {| resp_StatusCode := 404; resp_Body := Ok "" |};
     YAMLToJSON := Ok; unmarshal_policy := fun _ => Ok toy_policy;
     unmarshal_group := fun _ => Err (EMsg "no group");
     SHA256 := fun s => "sha256:" +:+ s; NewHash := Ok;
     url_Parse := fun s => Ok {| url_scheme := fst (RefParts s); url_host := "h"; url_path := "" |};
     url_ParseRef := fun _ r => Ok {| url_scheme := "https"; url_host := "h"; url_path := r |};
     url_String := fun u => url_scheme u +:+ "://" +:+ url_host u +:+ "/" +:+ url_path u;
     Query_Get := fun _ _ => "";
     GetPolicy := fun r => Ok {| rr_resource := toy_policy; rr_url := "chainloop://p";
                                 rr_digest := "sha256:00" |};
     GetPolicyGroup := fun _ => Err (EMsg "no group");
     validate_policy := fun _ => Ok tt; validate_group := fun _ => Ok tt;
     OPAModule := unit; ast_ParseModule := fun _ _ => inl tt; module_rules := fun _ => [];
     package_row := fun _ => 1; import_rows := fun _ => [] |}.

Definition ref_attachment (ref : string) : PolicyAttachment :=
  {| att_policy := Some (AttachedRef ref); att_selector := None; att_disabled := false;
     att_with := ∅; att_requirements := []; att_gate := None |}.

Lemma cached_loads_transparent_witness :
  @load_all toy_world (LRU_Cache 10) None [ref_attachment "p"; ref_attachment "p"] []
  = map (@policy_of toy_world None) [ref_attachment "p"; ref_attachment "p"].
Proof.
  apply (@cached_loads_transparent toy_world (LRU_Cache 10)).
  intros ref v Hv. by apply elem_of_nil in Hv.
Defined.

Lemma loaded_digest_witness :
  exists raw, @raw_resource toy_world None "file://dir/p.yaml" raw /\ raw = "spec".
Proof.
  destruct (@loaded_digest toy_world None (ref_attachment "file://dir/p.yaml@sha256:spec")
    FileLoader toy_policy
    (Some {| desc_URI := "file://dir/p.yaml"; desc_Name := ""; desc_Digest := "sha256:spec";
             desc_OrgName := "" |}))
    as (raw & json & Hraw & _ & _ & _ & _ & Hd); [vm_compute; reflexivity | by left |
      vm_compute; reflexivity |].
  exists raw. split; [exact Hraw|].
  specialize (Hd ltac:(done)). by apply (str_app_inj "sha256:" raw "spec").
Defined.

Lemma scripts_confined_witness :
  exists loc, @allowed_location toy_world "p.rego" "file://dir/p.yaml" loc.
Proof.
  destruct (@scripts_confined toy_world "p.rego" "file://dir/p.yaml" None "package p")
    as (loc & raw & Hl & _); [vm_compute; reflexivity|].
  exists loc. exact Hl.
Defined.
