(* ===== verification/CraftingState.v ===== *)
(** * The crafting state: materials, policy evaluations, the attestation

    pkg/attestation/crafter/api/attestation/v1: the messages of
    crafting_state.proto, the methods of crafting_state.go (what a policy sees
    of a material, and how a material is described in the attestation) and the
    completeness check of crafting_state_validations.go. *)

From S2P Require Import Prelude.
From S2P Require Import GoStrings.
From S2P Require Import Envelope.
From S2P Require Import Contract.
From S2P Require Import RuntimeInputs.
From S2P Require Import PolicyArgs.
From S2P Require Import PolicyEngine.

(** ** Materials *)

Record Artifact := {
  art_name : string; art_digest : string; art_is_subject : bool; art_content : string
}.

Record ContainerImage := {
  ci_name : string; ci_digest : string; ci_is_subject : bool; ci_tag : string;
  ci_signature_digest : string; ci_signature_provider : string; ci_signature : string;
  ci_has_latest_tag : option bool
}.

Record MainComponent := { mc_name : string; mc_version : string; mc_kind : string }.

(** The [m] oneof of a material *)
Inductive MaterialBody :=
| M_String (value digest : string)
| M_ContainerImage (image : ContainerImage)
| M_Artifact (artifact : Artifact)
| M_SbomArtifact (artifact : option Artifact) (main : option MainComponent).

(** [Attestation_Material]; its timestamp is left out *)
Record Attestation_Material := {
  am_id : string;
  am_body : option MaterialBody;
  am_type : MaterialType;
  am_uploaded_to_cas : bool;
  am_inline_cas : bool;
  am_annotations : gmap string string;
  am_output : bool;
  am_required : bool
}.

Definition GetContainerImage (m : Attestation_Material) : option ContainerImage :=
  match am_body m with Some (M_ContainerImage i) => Some i | _ => None end.

Definition GetSbomMain (m : Attestation_Material) : option MainComponent :=
  match am_body m with Some (M_SbomArtifact _ main) => main | _ => None end.

(** ** Annotations *)

Definition AnnotationPrefix : string := "chainloop.".
Definition AnnotationValueTrue : string := "true".
Definition CreateAnnotation (name : string) : string := AnnotationPrefix +:+ name.

Definition AnnotationMaterialType := CreateAnnotation "material.type".
Definition AnnotationMaterialName := CreateAnnotation "material.name".
Definition AnnotationMaterialSignature := CreateAnnotation "material.signature".
Definition AnnotationSignatureDigest := CreateAnnotation "material.signature.digest".
Definition AnnotationSignatureProvider := CreateAnnotation "material.signature.provider".
Definition AnnotationMaterialCAS := CreateAnnotation "material.cas".
Definition AnnotationMaterialInlineCAS := CreateAnnotation "material.cas.inline".
Definition AnnotationContainerTag := CreateAnnotation "material.image.tag".
Definition AnnotationsContainerLatestTag := CreateAnnotation "material.image.is_latest_tag".
Definition AnnotationsSBOMMainComponentName := CreateAnnotation "material.sbom.main_component.name".
Definition AnnotationsSBOMMainComponentType := CreateAnnotation "material.sbom.main_component.type".
Definition AnnotationsSBOMMainComponentVersion :=
  CreateAnnotation "material.sbom.main_component.version".
Definition AnnotationMaterialRedacted := CreateAnnotation "material.redacted".

(** ** The normalized form of a material *)

Record NormalizedMaterialOutput := {
  nm_name : string; nm_digest : string; nm_is_output : bool; nm_content : string
}.

(** [NormalizedOutput] *)
Definition NormalizedOutput (m : Attestation_Material) : result NormalizedMaterialOutput :=
  match am_body m with
  | Some (M_ContainerImage a) =>
      Ok {| nm_name := ci_name a; nm_digest := ci_digest a; nm_is_output := ci_is_subject a;
            nm_content := "" |}
  | Some (M_String value digest) =>
      Ok {| nm_name := ""; nm_digest := digest; nm_is_output := false; nm_content := value |}
  | Some (M_Artifact a) | Some (M_SbomArtifact (Some a) _) =>
      Ok {| nm_name := art_name a; nm_digest := art_digest a; nm_is_output := art_is_subject a;
            nm_content := art_content a |}
  | Some (M_SbomArtifact None _) => Err (panic "nil artifact")
  | None => Err (EMsg ("unknown material: " +:+ MaterialType_name (am_type m)))
  end.

(** ** The in-toto descriptor *)

(** The value of an annotation, as structpb keeps it: text, a boolean, or one of
    its other kinds (a number, null, a list or a struct) *)
Inductive AnnotationValue := AString (s : string) | ABool (b : bool) | AOther (v : json).

Record ResourceDescriptor := {
  rd_name : string;
  rd_uri : string;
  rd_content : string;
  rd_digest : gmap string string;
  rd_annotations : gmap string AnnotationValue
}.

(** [if v != "" { m[k] = v }] *)
Definition set_nonempty (k v : string) (m : gmap string AnnotationValue)
    : gmap string AnnotationValue :=
  if is_empty v then m else <[k := AString v]> m.

(** The annotations that the material itself determines, before its own *)
Definition builtin_annotations (m : Attestation_Material) (name : string)
    : gmap string AnnotationValue :=
  let ann := <[AnnotationMaterialName := AString name]>
               {[AnnotationMaterialType := AString (MaterialType_name (am_type m))]} in
  let ann :=
    match GetContainerImage m with
    | None => ann
    | Some i =>
        <[AnnotationsContainerLatestTag := ABool (default false (ci_has_latest_tag i))]>
          (set_nonempty AnnotationMaterialSignature (ci_signature i)
             (set_nonempty AnnotationSignatureProvider (ci_signature_provider i)
                (set_nonempty AnnotationSignatureDigest (ci_signature_digest i)
                   (set_nonempty AnnotationContainerTag (ci_tag i) ann))))
    end in
  match GetSbomMain m with
  | None => ann
  | Some c =>
      <[AnnotationsSBOMMainComponentVersion := AString (mc_version c)]>
        (<[AnnotationsSBOMMainComponentType := AString (mc_kind c)]>
           (<[AnnotationsSBOMMainComponentName := AString (mc_name c)]> ann))
  end.

(** The mark of where the content is *)
Definition cas_annotation (m : Attestation_Material) (ann : gmap string AnnotationValue)
    : gmap string AnnotationValue :=
  if am_uploaded_to_cas m then <[AnnotationMaterialCAS := ABool true]> ann
  else if am_inline_cas m then <[AnnotationMaterialInlineCAS := ABool true]> ann
  else ann.

(** The annotations of the descriptor: custom ones never replace those that are
    already there (a union that prefers its left side) *)
Definition descriptor_annotations (m : Attestation_Material) (name : string)
    : gmap string AnnotationValue :=
  cas_annotation m (builtin_annotations m name ∪ (AString <$> am_annotations m)).

Section Descriptor.
(** [structpb.NewStruct] refuses text that is not valid UTF-8. *)
Context (utf8_valid : string -> bool).

Fixpoint json_utf8 (v : json) : bool :=
  match v with
  | JStr s => utf8_valid s
  | JArr l => forallb json_utf8 l
  | JObj fields => forallb (fun '(k, x) => utf8_valid k && json_utf8 x) fields
  | _ => true
  end.

Definition NewStruct (m : gmap string AnnotationValue) : result (gmap string AnnotationValue) :=
  if forallb (fun '(k, v) => utf8_valid k
                && match v with AString s => utf8_valid s | ABool _ => true | AOther j => json_utf8 j end)
       (map_to_list m)
  then Ok m else Err (EMsg "invalid UTF-8").

(** [CraftingStateToIntotoDescriptor] *)
Definition CraftingStateToIntotoDescriptor (m : Attestation_Material) (name : string)
    : result ResourceDescriptor :=
  nMaterial ← map_err (EWrap "error normalizing material") (NormalizedOutput m);
  let content := if bool_decide (am_type m = STRING) then nm_content nMaterial else "" in
  '(name', content, digest) ←
    (if is_empty (nm_digest nMaterial) then Ok ("", content, ∅)
     else match split (nm_digest nMaterial) ":" with
          | alg :: hex :: _ => Ok (nm_name nMaterial, nm_content nMaterial, {[alg := hex]})
          | _ => Err (panic "index out of range")
          end);
  let name := if is_empty name then am_id m else name in
  annotations ← map_err (EWrap "error creating annotations")
                  (NewStruct (descriptor_annotations m name));
  Ok {| rd_name := name'; rd_uri := ""; rd_content := content; rd_digest := digest;
        rd_annotations := annotations |}.
End Descriptor.

(** ** What a policy is evaluated on *)

Definition ErrRedactedContentRequired : goerr :=
  ESentinel "sanitized content is required to evaluate a redacted material".

Definition is_redacted (m : Attestation_Material) : bool :=
  bool_decide (am_annotations m !! AnnotationMaterialRedacted = Some AnnotationValueTrue).

(** The artifact whose content is resolved, if the material has one *)
Definition evaluable_artifact (m : Attestation_Material) : option Artifact :=
  match am_body m with
  | Some (M_Artifact a) => Some a
  | Some (M_SbomArtifact a _) => a
  | _ => None
  end.

(** The kinds that [ingestMaterialToJSON] projects from the content *)
Inductive Projection :=
| ProjectRadamsaReport | ProjectTrufflehog | ProjectJacoco | ProjectCobertura
| ProjectPitest | ProjectSigcheck | ProjectAccesschk | ProjectDranzer | ProjectBuildLog.

Section Evaluable.
(** The file system, the decoders of an attestation's envelope, the parsers of the
    formats that are not JSON (from the content, or from a path for JUnit),
    the JSON codec, and how a descriptor encodes to JSON *)
Context (utf8_valid : string -> bool).
Context (ReadFile : string -> result string).
Context (unmarshal_bundle : string -> result Bundle).
Context (unmarshal_envelope : string -> result DsseEnvelope).
Context (DecodeB64Payload : DsseEnvelope -> result string).
Context (junit_Ingest : string -> result string).
Context (project : Projection -> string -> result string).
Context (json_decode : string -> result json) (json_marshal : json -> result string).
Context (descriptor_json : ResourceDescriptor -> json).

(** [ingestMaterialToJSON] *)
Definition ingestMaterialToJSON (m : Attestation_Material) (rawMaterial value : string)
    : result string :=
  match am_type m with
  | JUNIT_XML => map_err (EWrap "failed to ingest junit xml") (junit_Ingest value)
  | RADAMSA_REPORT =>
      map_err (EWrap "invalid radamsa -M metadata log") (project ProjectRadamsaReport rawMaterial)
  | TRUFFLEHOG_JSON =>
      map_err (EWrap "invalid trufflehog report") (project ProjectTrufflehog rawMaterial)
  | RADAMSA_CRASHES => Ok "{}"
  | JACOCO_XML => map_err (EWrap "invalid Jacoco report file") (project ProjectJacoco rawMaterial)
  | COBERTURA_XML =>
      map_err (EWrap "invalid Cobertura report file") (project ProjectCobertura rawMaterial)
  | PITEST_XML => map_err (EWrap "invalid PIT report file") (project ProjectPitest rawMaterial)
  | SYSINTERNALS_SIGCHECK =>
      map_err (EWrap "failed to ingest sigcheck report") (project ProjectSigcheck rawMaterial)
  | SYSINTERNALS_ACCESSCHK =>
      map_err (EWrap "invalid accesschk material") (project ProjectAccesschk rawMaterial)
  | CERTCC_DRANZER =>
      map_err (EWrap "invalid dranzer material") (project ProjectDranzer rawMaterial)
  | MSBUILD_LOG =>
      map_err (EWrap "invalid build log material") (project ProjectBuildLog rawMaterial)
  | _ => Ok rawMaterial
  end.

(** The bytes that [GetEvaluableContent] starts from *)
Definition raw_content (m : Attestation_Material) (value content : string) : result string :=
  if negb (is_empty content) then Ok content
  else
    match evaluable_artifact m with
    | None => Ok ""
    | Some artifact =>
        if am_inline_cas m then Ok (art_content artifact)
        else if is_empty value then Err (EMsg "artifact path required")
        else if bool_decide (am_type m = HELM_CHART) || bool_decide (am_type m = JUNIT_XML)
                || bool_decide (am_type m = RADAMSA_CRASHES)
        then Ok ""
        else map_err (EWrap "failed to read material content") (ReadFile value)
    end.

(** The object handed to the policies, before it is encoded again *)
Definition policy_input (decoded : json) (descriptor : ResourceDescriptor) : jobject :=
  let inputMap :=
    match decoded with
    | JArr l => [("elements", JArr l)]
    | JObj o => o
    | _ => []
    end in
  obj_set "chainloop_metadata" (descriptor_json descriptor) inputMap.

(** [GetEvaluableContent] *)
Definition GetEvaluableContent (m : Attestation_Material) (value content : string)
    : result string :=
  _ ← guard_err (is_empty content && is_redacted m) ErrRedactedContentRequired;
  rawMaterial ← raw_content m value content;
  rawMaterial ←
    (if bool_decide (am_type m = ATTESTATION)
     then envelope ← map_err (EWrap "failed to extract DSSE envelope")
                       (ExtractDSSEEnvelope unmarshal_bundle unmarshal_envelope rawMaterial);
          map_err (EWrap "failed to decode attestation material") (DecodeB64Payload envelope)
     else Ok rawMaterial);
  rawMaterial ← ingestMaterialToJSON m rawMaterial value;
  let rawMaterial := if is_empty rawMaterial then "{}" else rawMaterial in
  decoded ← map_err (EWrap "failed to parse input") (json_decode rawMaterial);
  descriptor ← map_err (EWrap "failed to add chainloop descriptor to material")
                 (CraftingStateToIntotoDescriptor utf8_valid m "");
  map_err (EWrap "failed to encode input")
    (json_marshal (JObj (policy_input decoded descriptor))).
End Evaluable.

(** *** Properties of what policies see *)

Section PolicyView.
Context (utf8_valid : string -> bool) (unmarshal_bundle : string -> result Bundle).
Context (unmarshal_envelope : string -> result DsseEnvelope).
Context (DecodeB64Payload : DsseEnvelope -> result string).
Context (project : Projection -> string -> result string).
Context (json_decode : string -> result json) (json_marshal : json -> result string).
Context (descriptor_json : ResourceDescriptor -> json).

Abbreviation evaluable read ingest :=
  (GetEvaluableContent utf8_valid read unmarshal_bundle unmarshal_envelope DecodeB64Payload ingest
     project json_decode json_marshal descriptor_json).


(** Whatever a material contains, the policies get a JSON object whose
    chainloop_metadata is the descriptor of that material, replacing any such
    key of the content, and whose other keys are those of the content (an
    array is put under its own key). *)
Theorem policy_input_metadata read ingest m value content out :
  evaluable read ingest m value content = Ok out ->
  exists o decoded descriptor,
    json_marshal (JObj o) = Ok out
    /\ CraftingStateToIntotoDescriptor utf8_valid m "" = Ok descriptor
    /\ obj_get "chainloop_metadata" o = Some (descriptor_json descriptor)
    /\ (exists raw, json_decode raw = Ok decoded /\ raw <> "")
    /\ forall k, k <> "chainloop_metadata" ->
         obj_get k o = match decoded with
                       | JObj o' => obj_get k o'
                       | JArr l => if bool_decide (k = "elements") then Some (JArr l) else None
                       | _ => None
                       end.
Proof.
  unfold GetEvaluableContent. intros H. inv_ok.
  do 3 eexists. split; [done|]. split; [done|].
  unfold policy_input. split; [apply obj_get_set_eq|]. split.
  - eexists. split; [done|]. match goal with |- context [is_empty ?r] => destruct (is_empty r) eqn:E end;
      [done | by apply is_empty_false].
  - intros k Hk. rewrite obj_get_set_ne by done.
    match goal with |- context [match ?d with _ => _ end] => by destruct d end.
Qed.
End PolicyView.

(** ** The annotations of a descriptor *)

Lemma set_nonempty_ne k k' v m : k' <> k -> set_nonempty k v m !! k' = m !! k'.
Proof. intros Hk. unfold set_nonempty. destruct (is_empty v); [done|]. by rewrite lookup_insert_ne. Qed.

(** Two annotation keys are different texts. *)
Ltac ann_ne := let H := fresh in intros H; vm_compute in H; discriminate H.

(** The type and the name are always the material's own. *)
Lemma builtin_type_name m name :
  builtin_annotations m name !! AnnotationMaterialType
    = Some (AString (MaterialType_name (am_type m)))
  /\ builtin_annotations m name !! AnnotationMaterialName = Some (AString name).
Proof.
  unfold builtin_annotations.
  split; destruct (GetContainerImage m), (GetSbomMain m);
    repeat first [rewrite lookup_insert_ne by ann_ne | rewrite set_nonempty_ne by ann_ne];
    by rewrite ?lookup_insert_eq, ?lookup_singleton_eq.
Qed.

(** None of them is a mark of the CAS. *)
Lemma builtin_no_cas m name :
  builtin_annotations m name !! AnnotationMaterialCAS = None
  /\ builtin_annotations m name !! AnnotationMaterialInlineCAS = None.
Proof.
  unfold builtin_annotations.
  split; destruct (GetContainerImage m), (GetSbomMain m);
    repeat first [rewrite lookup_insert_ne by ann_ne | rewrite set_nonempty_ne by ann_ne];
    by rewrite ?lookup_singleton_ne by ann_ne.
Qed.

(** An annotation of the descriptor: the material's data first *)
Lemma descriptor_lookup m name k :
  k <> AnnotationMaterialCAS -> k <> AnnotationMaterialInlineCAS ->
  descriptor_annotations m name !! k =
    match builtin_annotations m name !! k with
    | Some b => Some b | None => AString <$> am_annotations m !! k end.
Proof.
  intros Hc Hi. unfold descriptor_annotations, cas_annotation.
  assert ((builtin_annotations m name ∪ (AString <$> am_annotations m)) !! k =
    match builtin_annotations m name !! k with
    | Some b => Some b | None => AString <$> am_annotations m !! k end) as Hu.
  { rewrite lookup_union, lookup_fmap.
    by destruct (builtin_annotations m name !! k), (am_annotations m !! k). }
  destruct (am_uploaded_to_cas m); [by rewrite lookup_insert_ne|].
  destruct (am_inline_cas m); [by rewrite lookup_insert_ne | done].
Qed.

(** The marks of the CAS, as booleans: a custom annotation of that name is text *)
Lemma descriptor_cas m name :
  descriptor_annotations m name !! AnnotationMaterialCAS
    = (if am_uploaded_to_cas m then Some (ABool true)
       else AString <$> am_annotations m !! AnnotationMaterialCAS)
  /\ descriptor_annotations m name !! AnnotationMaterialInlineCAS
    = (if am_inline_cas m && negb (am_uploaded_to_cas m) then Some (ABool true)
       else AString <$> am_annotations m !! AnnotationMaterialInlineCAS).
Proof.
  destruct (builtin_no_cas m name) as [Hc Hi].
  unfold descriptor_annotations, cas_annotation.
  destruct (am_uploaded_to_cas m), (am_inline_cas m); cbn [andb negb];
    rewrite ?lookup_insert_eq; split; try done;
    rewrite ?lookup_insert_ne by ann_ne; rewrite lookup_union, ?Hc, ?Hi, lookup_fmap;
    by destruct (am_annotations m !! _).
Qed.

Lemma descriptor_Ok utf8_valid m name d :
  CraftingStateToIntotoDescriptor utf8_valid m name = Ok d ->
  rd_annotations d = descriptor_annotations m (if is_empty name then am_id m else name).
Proof.
  unfold CraftingStateToIntotoDescriptor. intros H. inv_ok.
  match goal with H : (let '(_, _) := ?x in _) = _ |- _ => destruct x as [[? ?] ?] end.
  inv_ok. cbn [rd_annotations].
  match goal with H : NewStruct _ _ = Ok _ |- _ =>
    unfold NewStruct in H; destruct (forallb _ _); [|done]; by injection H as <- end.
Qed.

(** The descriptor of a material never misstates it: its type and name
    annotations are the material's own, the mark of the CAS is set when the
    content is there, an annotation of the material is recorded unless the same
    key is already set from the material's data, and then the latter wins. *)
Theorem descriptor_annotations_exact utf8_valid m name d :
  CraftingStateToIntotoDescriptor utf8_valid m name = Ok d ->
  let name := if is_empty name then am_id m else name in
  rd_annotations d !! AnnotationMaterialType = Some (AString (MaterialType_name (am_type m)))
  /\ rd_annotations d !! AnnotationMaterialName = Some (AString name)
  /\ (am_uploaded_to_cas m = true -> rd_annotations d !! AnnotationMaterialCAS = Some (ABool true))
  /\ forall k, k <> AnnotationMaterialCAS -> k <> AnnotationMaterialInlineCAS ->
       rd_annotations d !! k =
         match builtin_annotations m name !! k with
         | Some b => Some b
         | None => AString <$> am_annotations m !! k
         end.
Proof.
  intros H. rewrite (descriptor_Ok _ _ _ _ H). cbn zeta.
  set (nm := if is_empty name then am_id m else name).
  destruct (builtin_type_name m nm) as [Ht Hn].
  split; [rewrite descriptor_lookup, Ht by ann_ne; done|].
  split; [rewrite descriptor_lookup, Hn by ann_ne; done|].
  split; [intros Hu; destruct (descriptor_cas m nm) as [-> _]; by rewrite Hu|].
  intros k Hc Hi. by apply descriptor_lookup.
Qed.

(** ** Policy evaluations *)

Record Reference := {
  ref_name : string; ref_digest : string; ref_uri : string; ref_org_name : string
}.

#[export] Instance Reference_eq_dec : EqDecision Reference.
Proof. solve_decision. Defined.

Record PolicyEvaluation := {
  pe_name : string;
  pe_material_name : string;
  pe_sources : list string;
  pe_violations : list Violation;
  pe_annotations : gmap string string;
  pe_description : string;
  pe_with : gmap string string;
  pe_runtime_input_overrides : list string;
  pe_type : MaterialType;
  pe_reference_name : string;
  pe_reference_digest : string;
  pe_policy_reference : option Reference;
  pe_group_reference : option Reference;
  pe_skipped : bool;
  pe_skip_reasons : list string;
  pe_requirements : list string;
  pe_raw_results : list RawData;
  pe_gate : bool
}.

(** ** The attestation and its state *)

Inductive VerificationStatus :=
| VerificationUnspecified | Verified | Unverified | Unavailable | NotApplicable.

Record CommitVerification := {
  cv_attempted : bool; cv_status : VerificationStatus; cv_reason : string;
  cv_platform : string; cv_key_id : string; cv_signature_algorithm : string
}.

Record CommitRemote := { remote_name : string; remote_url : string }.

Record Commit := {
  commit_hash : string; commit_author_email : string; commit_author_name : string;
  commit_message : string; commit_date : Z; commit_remotes : list CommitRemote; commit_signature : string;
  commit_verification : option CommitVerification
}.

(** [WorkflowMetadata]; the message of its version is flattened, and
    [wf_project_version] is the flat version field of older clients *)
Record Workflow := {
  wf_name : string; wf_project : string; wf_team : string; wf_workflow_id : string;
  wf_workflow_run_id : string; wf_organization : string; wf_contract_name : string;
  wf_schema_revision : string; wf_version : string; wf_prerelease : bool;
  wf_project_version : string
}.

Inductive AuthType :=
| AUTH_TYPE_UNSPECIFIED | AUTH_TYPE_USER | AUTH_TYPE_API_TOKEN | AUTH_TYPE_FEDERATED.

Record AttestationAuth := {
  aa_type : AuthType; aa_id : string; aa_name : string; aa_subject : string
}.

Record AttestationCASBackend := {
  acb_id : string; acb_name : string; acb_fallback : bool
}.

Record SigningOptions := { so_timestamp_authority_url : string; so_signing_ca : string }.

Record RunnerEnvironment := {
  re_workflow_file_path : string; re_environment : string; re_authenticated : bool;
  re_type : RunnerType; re_url : string
}.

(** [Attestation]; a time is in nanoseconds *)
Record Attestation := {
  a_initialized_at : Z;
  a_finished_at : option Z;
  a_workflow : option Workflow;
  a_materials : gmap string Attestation_Material;
  a_annotations : gmap string string;
  a_env_vars : gmap string string;
  a_policy_evaluations : list PolicyEvaluation;
  a_head : option Commit;
  a_runner_url : string;
  a_runner_type : RunnerType;
  a_runner_environment : option RunnerEnvironment;
  a_block_on_policy_violation : bool;
  a_bypass_policy_check : bool;
  a_policies_allowed_hostnames : list string;
  a_skip_runner_env_vars : bool;
  a_signing_options : option SigningOptions;
  a_auth : option AttestationAuth;
  a_cas_backend : option AttestationCASBackend
}.

(** The [schema] oneof *)
Inductive Schema := InputSchema (s : CraftingSchema) | SchemaV2 (s : CraftingSchemaV2).

Record CraftingState := {
  st_schema : option Schema;
  st_attestation : Attestation;
  st_dry_run : bool;
  st_ui_dashboard_url : string
}.

(** The accessors that hide which schema the contract uses *)
Definition from_schema {A} (default_ : A) (v1 : CraftingSchema -> A) (v2 : CraftingSchemaV2Spec -> A)
    (state : CraftingState) : A :=
  match st_schema state with
  | Some (InputSchema s) => v1 s
  | Some (SchemaV2 c) => match v2c_spec c with Some spec => v2 spec | None => default_ end
  | None => default_
  end.

Definition GetEnvAllowList : CraftingState -> list string :=
  from_schema [] cs_env_allow_list v2s_env_allow_list.
Definition GetMaterials : CraftingState -> list SchemaMaterial :=
  from_schema [] cs_materials v2s_materials.
Definition GetAnnotations : CraftingState -> list ContractAnnotation :=
  from_schema [] cs_annotations v2s_annotations.
Definition GetPolicyGroups : CraftingState -> list PolicyGroupAttachment :=
  from_schema [] cs_policy_groups v2s_policy_groups.
Definition GetPolicies : CraftingState -> option Policies :=
  from_schema None cs_policies v2s_policies.

(** ** Completeness (crafting_state_validations.go) *)

(** The variables of the loop of [ValidateMaterialsPresence] *)
Record presence := {
  missing : list string;
  groupMembers : gmap string (list string);
  groupSatisfied : gset string;
  groupOrder : list string
}.

Definition presence_step (craftedNames : gset string) (p : presence) (m : SchemaMaterial) : presence :=
  let crafted := bool_decide (sm_name m ∈ craftedNames) in
  if is_empty (sm_group m) then
    {| missing := if negb crafted && negb (sm_optional m) then missing p ++ [sm_name m] else missing p;
       groupMembers := groupMembers p; groupSatisfied := groupSatisfied p;
       groupOrder := groupOrder p |}
  else
    {| missing := missing p;
       groupMembers := <[sm_group m := default [] (groupMembers p !! sm_group m) ++ [sm_name m]]>
                         (groupMembers p);
       groupSatisfied := if crafted then {[sm_group m]} ∪ groupSatisfied p else groupSatisfied p;
       groupOrder := match groupMembers p !! sm_group m with
                     | Some _ => groupOrder p | None => groupOrder p ++ [sm_group m] end |}.

Definition presence_loop (expected : list SchemaMaterial) (craftedNames : gset string) : presence :=
  fold_left (presence_step craftedNames) expected
    {| missing := []; groupMembers := ∅; groupSatisfied := ∅; groupOrder := [] |}.

(** [ValidateMaterialsPresence] *)
Definition ValidateMaterialsPresence (expected : list SchemaMaterial) (craftedNames : gset string)
    : result unit :=
  let p := presence_loop expected craftedNames in
  let errs :=
    (if bool_decide (missing p = []) then []
     else ["some materials have not been crafted yet: " +:+ join (missing p) ", "])
    ++ concat (map (fun group =>
         if bool_decide (group ∈ groupSatisfied p) then []
         else ["at least one material from group " +:+ group +:+ " is required: "
               +:+ join (default [] (groupMembers p !! group)) ", "]) (groupOrder p)) in
  if bool_decide (errs = []) then Ok tt else Err (EMsg (join errs "; ")).

(** [ValidateComplete]; [validate] is protovalidate's check of the state *)
Definition ValidateComplete (validate : CraftingState -> result unit) (state : CraftingState)
    (dryRun : bool) : result unit :=
  _ ← (if dryRun then Ok tt else map_err (EWrap "invalid crafting state") (validate state));
  ValidateMaterialsPresence (GetMaterials state) (dom (a_materials (st_attestation state))).

Section Presence.
Context (craftedNames : gset string).

(** What the loop has found after the materials [seen] *)
Definition presence_inv (seen : list SchemaMaterial) (p : presence) : Prop :=
  (forall n, n ∈ missing p <->
     exists m, m ∈ seen /\ sm_group m = "" /\ sm_optional m = false /\ sm_name m = n
               /\ n ∉ craftedNames)
  /\ (forall g, g ∈ groupSatisfied p <->
        exists m, m ∈ seen /\ sm_group m = g /\ g <> "" /\ sm_name m ∈ craftedNames)
  /\ (forall g, g ∈ groupOrder p <-> exists m, m ∈ seen /\ sm_group m = g /\ g <> "")
  /\ (forall g, is_Some (groupMembers p !! g) <-> g ∈ groupOrder p).

Lemma ex_snoc {A} (P : A -> Prop) seen x :
  (exists m, m ∈ seen ++ [x] /\ P m) <-> (exists m, m ∈ seen /\ P m) \/ P x.
Proof. setoid_rewrite elem_of_app. setoid_rewrite list_elem_of_singleton. naive_solver. Qed.

Lemma presence_step_inv seen p m :
  presence_inv seen p -> presence_inv (seen ++ [m]) (presence_step craftedNames p m).
Proof.
  intros (Hm & Hs & Ho & Hg). unfold presence_step.
  destruct (is_empty (sm_group m)) eqn:Eg.
  - apply is_empty_true in Eg. split; [|split; [|split]]; cbn.
    + intros n. rewrite ex_snoc, <- Hm.
      destruct (sm_optional m), (bool_decide (sm_name m ∈ craftedNames)) eqn:Ec; cbn;
        split_bool; rewrite ?elem_of_app, ?list_elem_of_singleton; naive_solver.
    + intros g. rewrite ex_snoc, <- Hs. naive_solver.
    + intros g. rewrite ex_snoc, <- Ho. naive_solver.
    + done.
  - apply is_empty_false in Eg. split; [|split; [|split]]; cbn.
    + intros n. rewrite ex_snoc, <- Hm. naive_solver.
    + intros g. rewrite ex_snoc, <- Hs.
      case_bool_decide; rewrite ?elem_of_union, ?elem_of_singleton; naive_solver.
    + intros g. rewrite ex_snoc, <- Ho.
      destruct (groupMembers p !! sm_group m) eqn:El.
      * assert (sm_group m ∈ groupOrder p) by (apply Hg; eauto). naive_solver.
      * rewrite elem_of_app, list_elem_of_singleton. naive_solver.
    + intros g. destruct (decide (g = sm_group m)) as [->|Hne].
      * rewrite lookup_insert_eq. destruct (groupMembers p !! sm_group m) eqn:El.
        -- split; [intros _|eauto]. apply Hg. eauto.
        -- rewrite elem_of_app, list_elem_of_singleton. naive_solver.
      * rewrite lookup_insert_ne, Hg by done.
        destruct (groupMembers p !! sm_group m) eqn:El; [done|].
        rewrite elem_of_app, list_elem_of_singleton. naive_solver.
Qed.

Lemma presence_loop_inv expected : presence_inv expected (presence_loop expected craftedNames).
Proof.
  unfold presence_loop.
  assert (forall seen p, presence_inv seen p ->
    presence_inv (seen ++ expected) (fold_left (presence_step craftedNames) expected p)) as H.
  { induction expected as [|m expected IH]; intros seen p Hp; cbn; [by rewrite app_nil_r|].
    rewrite cons_middle, app_assoc. by apply IH, presence_step_inv. }
  apply (H []). clear. split; [|split; [|split]]; cbn; intros x.
  1-3: split; [set_solver | intros (m & Hm%elem_of_nil & _); done].
  rewrite lookup_empty, elem_of_nil. split; [by intros [] | done].
Qed.

(** The completeness check accepts an attestation exactly when every
    required material that is in no group was crafted and every group that the
    contract declares has at least one crafted member, whatever else was
    crafted. *)
Theorem ValidateMaterialsPresence_spec expected :
  ValidateMaterialsPresence expected craftedNames = Ok tt <->
  (forall m, m ∈ expected -> sm_group m = "" -> sm_optional m = false -> sm_name m ∈ craftedNames)
  /\ (forall m, m ∈ expected -> sm_group m <> "" ->
        exists m', m' ∈ expected /\ sm_group m' = sm_group m /\ sm_name m' ∈ craftedNames).
Proof.
  destruct (presence_loop_inv expected) as (Hm & Hs & Ho & _).
  unfold ValidateMaterialsPresence. set (p := presence_loop expected craftedNames) in *.
  assert (missing p = [] <-> forall m, m ∈ expected -> sm_group m = "" ->
            sm_optional m = false -> sm_name m ∈ craftedNames) as Hmiss.
  { split.
    - intros Hnil m Hin Hg Hopt. destruct (decide (sm_name m ∈ craftedNames)); [done|].
      assert (sm_name m ∈ missing p) as Hin' by (apply Hm; eauto 10).
      rewrite Hnil in Hin'. by apply elem_of_nil in Hin'.
    - intros Hall. destruct (missing p) as [|n l] eqn:E; [done|].
      destruct (proj1 (Hm n)) as (m & ? & ? & ? & <- & Hc); [left|]. by destruct Hc; apply Hall. }
  assert (concat (map (fun group =>
       if bool_decide (group ∈ groupSatisfied p) then []
       else ["at least one material from group " +:+ group +:+ " is required: "
             +:+ join (default [] (groupMembers p !! group)) ", "]) (groupOrder p)) = []
    <-> forall g, g ∈ groupOrder p -> g ∈ groupSatisfied p) as Hgr.
  { clear. induction (groupOrder p) as [|g l IH]; cbn; [set_solver|].
    destruct (bool_decide (g ∈ groupSatisfied p)) eqn:E; cbn; split_bool.
    - rewrite IH. split; [intros Hx x [->|?]%elem_of_cons; auto|].
      intros Hx x ?. apply Hx. by right.
    - split; [done|]. intros Hx. destruct E. apply Hx. left. }
  rewrite <- Hmiss.
  assert ((forall g, g ∈ groupOrder p -> g ∈ groupSatisfied p) <->
    (forall m, m ∈ expected -> sm_group m <> "" ->
        exists m', m' ∈ expected /\ sm_group m' = sm_group m /\ sm_name m' ∈ craftedNames)) as Hg2.
  { setoid_rewrite Ho. setoid_rewrite Hs. naive_solver. }
  rewrite <- Hg2, <- Hgr. case_bool_decide as He.
  - apply app_nil in He as [He1 He2]. split; [intros _|done]. split; [|done].
    by case_bool_decide.
  - split; [done|]. intros [H1 H2]. destruct He. rewrite H2.
    by rewrite bool_decide_eq_true_2.
Qed.
End Presence.

(** ** Witnesses *)

Definition toy_session : Attestation_Material :=
  {| am_id := "session";
     am_body := Some (M_Artifact {| art_name := "session.json"; art_digest := "sha256:aa";
                                    art_is_subject := false; art_content := "secret" |});
     am_type := CHAINLOOP_AI_CODING_SESSION; am_uploaded_to_cas := true; am_inline_cas := false;
     am_annotations := {[AnnotationMaterialRedacted := AnnotationValueTrue;
                         AnnotationMaterialType := "forged"]};
     am_output := false; am_required := false |}.

Definition toy_evaluable (read : string -> result string) : string -> string -> result string :=
  GetEvaluableContent (fun _ => true) read (fun _ => Err (EMsg "not a bundle")) (fun _ => Err (EMsg "not an envelope"))
    (fun e => Ok (de_payload e)) Ok (fun _ => Ok) (fun _ => Ok (JObj []))
    (fun j => match j with JObj [(k, JStr v)] => Ok (k +:+ "=" +:+ v) | _ => Ok "" end)
    (fun d => JStr (default "" (head (map_to_list (rd_digest d)).*2))) toy_session.


Lemma policy_input_metadata_witness :
  toy_evaluable (fun _ => Ok "secret") "session.json" "{}" = Ok "chainloop_metadata=aa"
  /\ exists d, CraftingStateToIntotoDescriptor (fun _ => true) toy_session "" = Ok d.
Proof.
  split; [vm_compute; reflexivity|].
  destruct (policy_input_metadata (fun _ => true) (fun _ => Err (EMsg "not a bundle")) (fun _ => Err (EMsg "not an envelope"))
    (fun e => Ok (de_payload e)) (fun _ => Ok) (fun _ => Ok (JObj []))
    (fun j => match j with JObj [(k, JStr v)] => Ok (k +:+ "=" +:+ v) | _ => Ok "" end)
    (fun d => JStr (default "" (head (map_to_list (rd_digest d)).*2)))
    (fun _ => Ok "secret") Ok toy_session "session.json" "{}" "chainloop_metadata=aa")
    as (o & decoded & d & _ & Hd & _); [vm_compute; reflexivity|].
  exists d. exact Hd.
Defined.

Lemma descriptor_annotations_exact_witness :
  exists d, CraftingStateToIntotoDescriptor (fun _ => true) toy_session "" = Ok d
    /\ rd_annotations d !! AnnotationMaterialType = Some (AString "CHAINLOOP_AI_CODING_SESSION").
Proof.
  destruct (CraftingStateToIntotoDescriptor (fun _ => true) toy_session "") as [d|e] eqn:E.
  - exists d. split; [reflexivity|].
    exact (proj1 (descriptor_annotations_exact (fun _ => true) toy_session "" d E)).
  - vm_compute in E. discriminate E.
Defined.
