(* ===== verification/ErrGroup.v ===== *)
(** * Concurrent evaluation: golang.org/x/sync/errgroup with a limit

    The verifiers evaluate policies concurrently:

      results := make([]T, len(tasks))
      g, gCtx := errgroup.WithContext(ctx); g.SetLimit(limit)
      for i, t := range tasks { g.Go(func() error { ...; results[i] = v; return nil }) }
      if err := g.Wait(); err != nil { return nil, err }

    [Go] blocks while [limit] tasks run, so tasks start in order; each task
    writes its own slot; the first error cancels the context, after which a task
    that is still running may fail, or succeed, in any way.  The step relation
    has every interleaving of this, and the theorem is that the outcome does not
    depend on it: it is the outcome of running the tasks one after the other,
    up to which error is reported. *)

From S2P Require Import Prelude.

(** The sequential reference *)
Definition sequential {A} (tasks : list (result A)) : result (list A) := mapM_result id tasks.

(** Two outcomes that differ at most in the error that is reported *)
Definition same_outcome {A} (r1 r2 : result A) : Prop :=
  match r1, r2 with
  | Ok a, Ok b => a = b
  | Err _, Err _ => True
  | _, _ => False
  end.

#[export] Instance same_outcome_equiv {A} : Equivalence (@same_outcome A).
Proof.
  split; [by intros []| |].
  - intros [] []; cbn; congruence.
  - intros [] [] []; cbn; congruence || done.
Qed.

(** What runs after the group only sees whether it failed and its results. *)
#[export] Instance bind_same_outcome {A B} (f : A -> result B) :
  Proper (same_outcome ==> same_outcome) (fun r => r ≫= f).
Proof. intros [a|e] [b|e'] H; cbn in *; subst; done. Qed.

Section ErrGroup.
Context {A : Type} (zero : A) (limit : nat) (tasks : list (result A)).

(** What each task does under a context that is not cancelled is [tasks]. *)
Record group := {
  started : nat;
  running : gset nat;
  slots : list A;
  first_err : option goerr
}.

Definition group_init : group :=
  {| started := 0; running := ∅; slots := replicate (length tasks) zero; first_err := None |}.

(** The ways task [i] may end in a state of the group *)
Definition task_ends (g : group) (i : nat) (r : result A) : Prop :=
  tasks !! i = Some r \/ first_err g <> None.

Inductive group_step : group -> group -> Prop :=
| step_start g :
    started g < length tasks -> size (running g) < limit ->
    group_step g {| started := S (started g); running := {[started g]} ∪ running g;
                    slots := slots g; first_err := first_err g |}
| step_return g i a :
    i ∈ running g -> task_ends g i (Ok a) ->
    group_step g {| started := started g; running := running g ∖ {[i]};
                    slots := <[i := a]> (slots g); first_err := first_err g |}
| step_fail g i e :
    i ∈ running g -> task_ends g i (Err e) ->
    group_step g {| started := started g; running := running g ∖ {[i]};
                    slots := slots g;
                    first_err := Some (default e (first_err g)) |}.

Definition group_reachable : group -> Prop := rtc group_step group_init.

(** [Wait] returns once every task has started and none runs. *)
Definition group_done (g : group) : Prop := started g = length tasks /\ running g = ∅.

Definition group_outcome (g : group) : result (list A) :=
  match first_err g with Some e => Err e | None => Ok (slots g) end.

(** While there is no error, the slots of the finished tasks hold their
    results; an error is only recorded when some task fails. *)
Definition group_inv (g : group) : Prop :=
  started g <= length tasks
  /\ length (slots g) = length tasks
  /\ (forall i, i ∈ running g -> i < started g)
  /\ (first_err g = None ->
      forall i, i < started g -> i ∉ running g -> exists a, tasks !! i = Some (Ok a) /\ slots g !! i = Some a)
  /\ (forall e, first_err g = Some e -> exists i e', tasks !! i = Some (Err e')).

Lemma group_inv_init : group_inv group_init.
Proof.
  repeat split; cbn; [lia | by rewrite length_replicate | set_solver | lia | done].
Qed.

Lemma group_inv_step g g' : group_inv g -> group_step g g' -> group_inv g'.
Proof.
  intros (Hle & Hlen & Hrun & Hok & Herr) Hstep.
  destruct Hstep as [g Hs Hsz | g i a Hi He | g i e Hi He];
    (split; [|split; [|split; [|split]]]); cbn in *.
  - lia.
  - done.
  - intros i [->%elem_of_singleton|Hi]%elem_of_union; [lia|]. specialize (Hrun i Hi). lia.
  - intros Hn i Hlt Hni. apply Hok; [done| |set_solver].
    assert (i <> started g) by set_solver. lia.
  - done.
  - done.
  - by rewrite length_insert.
  - intros j Hj. apply Hrun. set_solver.
  - intros Hn j Hlt Hnj. destruct (decide (j = i)) as [->|Hne].
    + destruct He as [He|He]; [|done]. exists a. split; [done|].
      apply list_lookup_insert_eq. rewrite Hlen. by eapply lookup_lt_Some.
    + rewrite list_lookup_insert_ne by done. apply Hok; [done|done|set_solver].
  - done.
  - done.
  - done.
  - intros j Hj. apply Hrun. set_solver.
  - done.
  - intros e' _. destruct (first_err g) as [e0|] eqn:E0; [by eapply Herr|].
    destruct He as [He|He]; eauto. done.
Qed.

Lemma group_reachable_inv g : group_reachable g -> group_inv g.
Proof.
  intros H. unfold group_reachable in H. revert H. generalize group_inv_init.
  intros H0 H. induction H; [done|]. eauto using group_inv_step.
Qed.

(** The group never gets stuck before it is done. *)
Lemma group_progress g :
  0 < limit -> group_reachable g -> group_done g \/ exists g', group_step g g'.
Proof.
  intros Hl Hr. pose proof (group_reachable_inv g Hr) as (Hle & _ & Hrun & _).
  destruct (decide (running g = ∅)) as [Hre|Hre].
  - destruct (decide (started g = length tasks)); [by left|]. right.
    eexists. apply step_start; [lia|]. by rewrite Hre, size_empty.
  - right. apply set_choose_L in Hre as [i Hi].
    destruct (lookup_lt_is_Some_2 tasks i) as [r Ht]; [specialize (Hrun i Hi); lia|].
    destruct r as [a|e]; eexists; [eapply (step_return _ i)|eapply (step_fail _ i)];
      [done| |done|]; by left.
Qed.

(** Every step starts or ends a task, so a schedule has two steps per task. *)
Definition group_left (g : group) : nat :=
  2 * (length tasks - started g) + size (running g).

Lemma group_step_decreases g g' : group_inv g -> group_step g g' -> group_left g' < group_left g.
Proof.
  intros (_ & _ & Hrun & _) Hs. unfold group_left.
  destruct Hs as [g Hlt _ | g i a Hi _ | g i e Hi _]; cbn.
  - rewrite size_union, size_singleton; [lia|].
    apply disjoint_singleton_l. intros Hin%Hrun. lia.
  - rewrite size_difference, size_singleton by (by apply singleton_subseteq_l).
    assert (size (running g) <> 0) by (apply size_non_empty_iff; set_solver). lia.
  - rewrite size_difference, size_singleton by (by apply singleton_subseteq_l).
    assert (size (running g) <> 0) by (apply size_non_empty_iff; set_solver). lia.
Qed.

(** The outcome of any complete schedule is that of the sequential run. *)
Lemma group_outcome_sequential g :
  group_reachable g -> group_done g -> same_outcome (group_outcome g) (sequential tasks).
Proof.
  intros Hr [Hst Hrun]. pose proof (group_reachable_inv g Hr) as (_ & Hlen & _ & Hok & Herr).
  unfold group_outcome, sequential. destruct (first_err g) as [e|] eqn:Ee.
  - destruct (Herr e eq_refl) as (i & e' & Hi).
    destruct (mapM_result id tasks) as [l|] eqn:El; [|done].
    apply mapM_result_Ok in El. destruct (Forall2_lookup_l _ _ _ _ _ El Hi) as (y & _ & Hy). done.
  - specialize (Hok eq_refl).
    enough (mapM_result id tasks = Ok (slots g)) as -> by done.
    apply mapM_result_Ok, Forall2_same_length_lookup. split; [by rewrite Hlen|].
    intros i r a Ht Ha. destruct (Hok i) as (a' & Ht' & Ha').
    + rewrite Hst. by eapply lookup_lt_Some.
    + rewrite Hrun. set_solver.
    + cbn. congruence.
Qed.
End ErrGroup.
