(* ===== verification/PolicyVerifier.v ===== *)
(** * The policy verifier

    pkg/policies/policies.go: how the policies of a contract are selected for a
    material, run, and merged into the evaluations recorded in the attestation.

    What the verifier needs of the other components is the interface
    [VerifierDeps]; [world_deps] provides it from the loaders, the engines and
    the crafting state.  The concurrent evaluation is the sequential one by
    ErrGroup. *)

From stdpp Require Import pretty.
From S2P Require Import Prelude.
From S2P Require Import GoStrings.
From S2P Require Import Base64.
From S2P Require Import Contract.
From S2P Require Import PolicyRefs.
From S2P Require Import RuntimeInputs.
From S2P Require Import PolicyArgs.
From S2P Require Import PolicyEngine.
From S2P Require Import PolicyLoaders.
From S2P Require Import CraftingState.
From S2P Require Import ErrGroup.

(** ** What the verifier needs *)

Class VerifierDeps := {
  load_policy : PolicyAttachment -> result (Policy * option PolicyDescriptor);
  load_group : PolicyGroupAttachment -> result (PolicyGroup * option PolicyDescriptor);
  load_scripts : Policy -> MaterialType -> string -> result (list Script);
  rego_engine : PolicyEngine;
  wasm_engine : PolicyEngine;
  template_execute : string -> inputs -> result string;
  unmarshal_finding : FindingKind -> jobject -> result jobject;
  validate_finding : FindingKind -> jobject -> result unit;
  evaluable : Attestation_Material -> string -> string -> result string;
  Statement : Type;
  marshal_statement : Statement -> result string
}.

(** ** Options and construction *)

Inductive EvalPhase := EvalPhaseUnspecified | EvalPhaseInit | EvalPhasePush.

#[export] Instance EvalPhase_eq_dec : EqDecision EvalPhase.
Proof. solve_decision. Defined.

Record PolicyVerifierOptions := {
  o_AllowedHostnames : option (list string);
  o_DefaultGate : bool;
  o_IncludeRawData : bool;
  o_EnablePrint : bool;
  o_GRPCConn : bool;
  o_EvalPhase : EvalPhase;
  o_MaxConcurrency : Z;
  o_ProjectName : string;
  o_ProjectVersionName : string;
  o_RuntimeInputs : option RuntimeInputs;
  o_ExecutionTimeout : Z;
  o_PublicTargetsOnly : bool
}.

(** [PolicyVerifierOption]; the options for the caches belong to the loaders *)
Inductive PolicyVerifierOption :=
| VWithAllowedHostnames (hostnames : list string)
| VWithDefaultGate (gate : bool)
| VWithIncludeRawData (include : bool)
| VWithEnablePrint (enable : bool)
| VWithGRPCConn (conn : bool)
| VWithEvalPhase (phase : EvalPhase)
| VWithMaxConcurrency (n : Z)
| VWithProjectContext (name version : string)
| VWithRuntimeInputs (ri : option RuntimeInputs)
| VWithExecutionTimeout (timeout : Z)
| VWithPublicTargetsOnly.

Definition apply_verifier_option (o : PolicyVerifierOptions) (opt : PolicyVerifierOption)
    : PolicyVerifierOptions :=
  match opt with
  | VWithAllowedHostnames hs =>
      {| o_AllowedHostnames := Some hs; o_DefaultGate := o_DefaultGate o; o_IncludeRawData
         := o_IncludeRawData o; o_EnablePrint := o_EnablePrint o; o_GRPCConn := o_GRPCConn
         o; o_EvalPhase := o_EvalPhase o; o_MaxConcurrency := o_MaxConcurrency o;
         o_ProjectName := o_ProjectName o; o_ProjectVersionName := o_ProjectVersionName o;
         o_RuntimeInputs := o_RuntimeInputs o; o_ExecutionTimeout := o_ExecutionTimeout o;
         o_PublicTargetsOnly := o_PublicTargetsOnly o |}
  | VWithDefaultGate b =>
      {| o_AllowedHostnames := o_AllowedHostnames o; o_DefaultGate := b; o_IncludeRawData :=
         o_IncludeRawData o; o_EnablePrint := o_EnablePrint o; o_GRPCConn := o_GRPCConn o;
         o_EvalPhase := o_EvalPhase o; o_MaxConcurrency := o_MaxConcurrency o; o_ProjectName
         := o_ProjectName o; o_ProjectVersionName := o_ProjectVersionName o; o_RuntimeInputs
         := o_RuntimeInputs o; o_ExecutionTimeout := o_ExecutionTimeout o;
         o_PublicTargetsOnly := o_PublicTargetsOnly o |}
  | VWithIncludeRawData b =>
      {| o_AllowedHostnames := o_AllowedHostnames o; o_DefaultGate := o_DefaultGate o;
         o_IncludeRawData := b; o_EnablePrint := o_EnablePrint o; o_GRPCConn := o_GRPCConn
         o; o_EvalPhase := o_EvalPhase o; o_MaxConcurrency := o_MaxConcurrency o;
         o_ProjectName := o_ProjectName o; o_ProjectVersionName := o_ProjectVersionName o;
         o_RuntimeInputs := o_RuntimeInputs o; o_ExecutionTimeout := o_ExecutionTimeout o;
         o_PublicTargetsOnly := o_PublicTargetsOnly o |}
  | VWithEnablePrint b =>
      {| o_AllowedHostnames := o_AllowedHostnames o; o_DefaultGate := o_DefaultGate o;
         o_IncludeRawData := o_IncludeRawData o; o_EnablePrint := b; o_GRPCConn :=
         o_GRPCConn o; o_EvalPhase := o_EvalPhase o; o_MaxConcurrency := o_MaxConcurrency o;
         o_ProjectName := o_ProjectName o; o_ProjectVersionName := o_ProjectVersionName o;
         o_RuntimeInputs := o_RuntimeInputs o; o_ExecutionTimeout := o_ExecutionTimeout o;
         o_PublicTargetsOnly := o_PublicTargetsOnly o |}
  | VWithGRPCConn b =>
      {| o_AllowedHostnames := o_AllowedHostnames o; o_DefaultGate := o_DefaultGate o;
         o_IncludeRawData := o_IncludeRawData o; o_EnablePrint := o_EnablePrint o;
         o_GRPCConn := b; o_EvalPhase := o_EvalPhase o; o_MaxConcurrency := o_MaxConcurrency
         o; o_ProjectName := o_ProjectName o; o_ProjectVersionName := o_ProjectVersionName
         o; o_RuntimeInputs := o_RuntimeInputs o; o_ExecutionTimeout := o_ExecutionTimeout
         o; o_PublicTargetsOnly := o_PublicTargetsOnly o |}
  | VWithEvalPhase ph =>
      {| o_AllowedHostnames := o_AllowedHostnames o; o_DefaultGate := o_DefaultGate o;
         o_IncludeRawData := o_IncludeRawData o; o_EnablePrint := o_EnablePrint o;
         o_GRPCConn := o_GRPCConn o; o_EvalPhase := ph; o_MaxConcurrency := o_MaxConcurrency
         o; o_ProjectName := o_ProjectName o; o_ProjectVersionName := o_ProjectVersionName
         o; o_RuntimeInputs := o_RuntimeInputs o; o_ExecutionTimeout := o_ExecutionTimeout
         o; o_PublicTargetsOnly := o_PublicTargetsOnly o |}
  | VWithMaxConcurrency n =>
      {| o_AllowedHostnames := o_AllowedHostnames o; o_DefaultGate := o_DefaultGate o;
         o_IncludeRawData := o_IncludeRawData o; o_EnablePrint := o_EnablePrint o;
         o_GRPCConn := o_GRPCConn o; o_EvalPhase := o_EvalPhase o; o_MaxConcurrency := n;
         o_ProjectName := o_ProjectName o; o_ProjectVersionName := o_ProjectVersionName o;
         o_RuntimeInputs := o_RuntimeInputs o; o_ExecutionTimeout := o_ExecutionTimeout o;
         o_PublicTargetsOnly := o_PublicTargetsOnly o |}
  | VWithProjectContext n v =>
      {| o_AllowedHostnames := o_AllowedHostnames o; o_DefaultGate := o_DefaultGate o;
         o_IncludeRawData := o_IncludeRawData o; o_EnablePrint := o_EnablePrint o;
         o_GRPCConn := o_GRPCConn o; o_EvalPhase := o_EvalPhase o; o_MaxConcurrency :=
         o_MaxConcurrency o; o_ProjectName := n; o_ProjectVersionName := v; o_RuntimeInputs
         := o_RuntimeInputs o; o_ExecutionTimeout := o_ExecutionTimeout o;
         o_PublicTargetsOnly := o_PublicTargetsOnly o |}
  | VWithRuntimeInputs ri =>
      {| o_AllowedHostnames := o_AllowedHostnames o; o_DefaultGate := o_DefaultGate o;
         o_IncludeRawData := o_IncludeRawData o; o_EnablePrint := o_EnablePrint o;
         o_GRPCConn := o_GRPCConn o; o_EvalPhase := o_EvalPhase o; o_MaxConcurrency :=
         o_MaxConcurrency o; o_ProjectName := o_ProjectName o; o_ProjectVersionName :=
         o_ProjectVersionName o; o_RuntimeInputs := ri; o_ExecutionTimeout :=
         o_ExecutionTimeout o; o_PublicTargetsOnly := o_PublicTargetsOnly o |}
  | VWithExecutionTimeout t =>
      {| o_AllowedHostnames := o_AllowedHostnames o; o_DefaultGate := o_DefaultGate o;
         o_IncludeRawData := o_IncludeRawData o; o_EnablePrint := o_EnablePrint o;
         o_GRPCConn := o_GRPCConn o; o_EvalPhase := o_EvalPhase o; o_MaxConcurrency :=
         o_MaxConcurrency o; o_ProjectName := o_ProjectName o; o_ProjectVersionName :=
         o_ProjectVersionName o; o_RuntimeInputs := o_RuntimeInputs o; o_ExecutionTimeout :=
         t; o_PublicTargetsOnly := o_PublicTargetsOnly o |}
  | VWithPublicTargetsOnly =>
      {| o_AllowedHostnames := o_AllowedHostnames o; o_DefaultGate := o_DefaultGate o;
         o_IncludeRawData := o_IncludeRawData o; o_EnablePrint := o_EnablePrint o;
         o_GRPCConn := o_GRPCConn o; o_EvalPhase := o_EvalPhase o; o_MaxConcurrency :=
         o_MaxConcurrency o; o_ProjectName := o_ProjectName o; o_ProjectVersionName :=
         o_ProjectVersionName o; o_RuntimeInputs := o_RuntimeInputs o; o_ExecutionTimeout :=
         o_ExecutionTimeout o; o_PublicTargetsOnly := true |}
  end.

Definition no_options : PolicyVerifierOptions :=
  {| o_AllowedHostnames := None; o_DefaultGate := false; o_IncludeRawData := false;
     o_EnablePrint := false; o_GRPCConn := false; o_EvalPhase := EvalPhaseUnspecified;
     o_MaxConcurrency := 0; o_ProjectName := ""; o_ProjectVersionName := "";
     o_RuntimeInputs := None; o_ExecutionTimeout := 0; o_PublicTargetsOnly := false |}.

(** The verifier; its client, caches and logger are the dependencies' *)
Record PolicyVerifier := {
  policies : option Policies;
  grpcConn : bool;
  allowedHostnames : option (list string);
  defaultGate : bool;
  includeRawData : bool;
  enablePrint : bool;
  evalPhase : EvalPhase;
  maxConcurrency : Z;
  projectName : string;
  projectVersionName : string;
  runtimeInputs : option RuntimeInputs;
  executionTimeout : Z;
  publicTargetsOnly : bool
}.

Definition DefaultExecutionTimeout : Z := 60000000000.

(** [max(runtime.NumCPU(), 5)] *)
Definition defaultMaxConcurrency (NumCPU : Z) : Z := Z.max NumCPU 5.

(** [NewPolicyVerifier] *)
Definition NewPolicyVerifier (NumCPU : Z) (p : option Policies) (opts : list PolicyVerifierOption)
    : PolicyVerifier :=
  let options := fold_left apply_verifier_option opts no_options in
  {| policies := p;
     grpcConn := o_GRPCConn options;
     allowedHostnames := o_AllowedHostnames options;
     defaultGate := o_DefaultGate options;
     includeRawData := o_IncludeRawData options;
     enablePrint := o_EnablePrint options;
     evalPhase := o_EvalPhase options;
     maxConcurrency :=
       if bool_decide (o_MaxConcurrency options <= 0)%Z then defaultMaxConcurrency NumCPU
       else o_MaxConcurrency options;
     projectName := o_ProjectName options;
     projectVersionName := o_ProjectVersionName options;
     runtimeInputs := o_RuntimeInputs options;
     executionTimeout :=
       if bool_decide (o_ExecutionTimeout options <= 0)%Z then DefaultExecutionTimeout
       else o_ExecutionTimeout options;
     publicTargetsOnly := o_PublicTargetsOnly options |}.

(** ** Phases *)

(** [shouldEvaluateAtPhase] *)
Definition shouldEvaluateAtPhase (phases : list AttestationPhase) (phase : EvalPhase) : bool :=
  if bool_decide (phases = []) then true
  else match phase with
       | EvalPhaseUnspecified => true
       | EvalPhaseInit => bool_decide (INIT ∈ phases)
       | EvalPhasePush => bool_decide (PUSH ∈ phases)
       end.

(** [attestationPhasesForKind] *)
Definition attestationPhasesForKind (spec : PolicySpec) (kind : MaterialType)
    : list AttestationPhase :=
  match spec_source spec with
  | Some _ => []
  | None => concat (map v2_attestation_phases (List.filter (kind_matches kind) (spec_policies spec)))
  end.

(** ** Running one script *)

(** The text of an error, as [Error()] gives it *)
Fixpoint Error (e : goerr) : string :=
  match e with
  | EMsg m | ESentinel m | EWrap2 m _ _ => m
  | EWrap m e' => m +:+ ": " +:+ Error e'
  | EPolicy e' => Error e'
  end.

Definition word_char (c : ascii) : bool :=
  let n := Ascii.nat_of_ascii c in
  (bool_decide (48 <= n) && bool_decide (n <= 57)) || (bool_decide (65 <= n) && bool_decide (n <= 90))
  || (bool_decide (97 <= n) && bool_decide (n <= 122)) || bool_decide (n = 95).

(** The longest run of word characters *)
Fixpoint take_word (s : string) : string :=
  match s with
  | "" => ""
  | String c s' => if word_char c then String c (take_word s') else ""
  end.

Definition undefined_prefix : string := "rego_type_error: undefined function chainloop.".

(** Every match of the regular expression, from left to right *)
Fixpoint find_builtins (fuel : nat) (s : string) : list string :=
  match fuel with
  | O => []
  | S fuel' =>
      match cut undefined_prefix s with
      | None => []
      | Some (_, rest) =>
          let w := take_word rest in
          (if is_empty w then [] else ["chainloop." +:+ w]) ++ find_builtins fuel' rest
      end
  end.

(** [undefinedChainloopBuiltins] *)
Definition undefinedChainloopBuiltins (e : goerr) : list string :=
  find_builtins (S (String.length (Error e))) (Error e).

Section Verifier.
Context `{VerifierDeps}.

(** The options [executeScript] gives to either engine *)
Definition engine_options (pv : PolicyVerifier) : list Option_ :=
  match allowedHostnames pv with Some hs => [WithAllowedHostnames hs] | None => [] end
  ++ (if includeRawData pv then [WithIncludeRawData true] else [])
  ++ (if enablePrint pv then [WithEnablePrint true] else [])
  ++ [WithLogger true]
  ++ (if grpcConn pv then [WithGRPCConn true] else [])
  ++ (if negb (is_empty (projectName pv)) || negb (is_empty (projectVersionName pv))
      then [WithProjectContext (projectName pv) (projectVersionName pv)] else [])
  ++ (if publicTargetsOnly pv then [WithPublicTargetsOnly] else [])
  ++ [WithExecutionTimeout (executionTimeout pv)].

Definition skipped_for_builtins (builtins : list string) : EvaluationResult :=
  {| er_violations := []; er_skipped := true;
     er_skip_reason := "policy requires builtin functions not available in this CLI version: "
       +:+ join builtins ", " +:+ " — please upgrade to the latest version";
     er_ignore := false; er_raw_data := None |}.

(** [executeScript] *)
Definition executeScript (pv : PolicyVerifier) (script : Script) (material : string)
    (args : inputs) : result EvaluationResult :=
  let verify :=
    match DetectPolicyType (script_source script) with
    | PolicyTypeRego => @Verify rego_engine
    | PolicyTypeWASM => @Verify wasm_engine
    end in
  match verify (engine_options pv) script material (getInputArguments args) with
  | Ok res => Ok res
  | Err e =>
      match undefinedChainloopBuiltins e with
      | [] => Err (EWrap "failed to execute policy" e)
      | builtins => Ok (skipped_for_builtins builtins)
      end
  end.

(** ** Evaluating one attachment *)

Record evalOpts := {
  eo_name : string;
  eo_kind : MaterialType;
  eo_bindings : inputs;
  eo_runtimeInputs : option RuntimeInputs
}.

(** The variables of the loop over the scripts *)
Record script_acc := {
  sa_sources : list string;
  sa_results : list EvaluationResult;
  sa_raw : list RawData;
  sa_skipped : bool;
  sa_reasons : list string
}.

Definition add_result (acc : script_acc) (script : Script) (r : EvaluationResult) : script_acc :=
  let raw := match er_raw_data r with Some d => sa_raw acc ++ [d] | None => sa_raw acc end in
  if er_ignore r then
    {| sa_sources := sa_sources acc; sa_results := sa_results acc; sa_raw := raw;
       sa_skipped := sa_skipped acc; sa_reasons := sa_reasons acc |}
  else
    {| sa_sources := sa_sources acc ++ [EncodeToString (script_source script)];
       sa_results := sa_results acc ++ [r];
       sa_raw := raw;
       sa_skipped := sa_skipped acc && er_skipped r;
       sa_reasons := if is_empty (er_skip_reason r) then sa_reasons acc
                     else sa_reasons acc ++ [er_skip_reason r] |}.

Definition run_scripts (pv : PolicyVerifier) (scripts : list Script) (material : string)
    (args : inputs) : result script_acc :=
  foldM_result
    (fun acc script =>
       r ← map_err EPolicy (executeScript pv script material args);
       Ok (add_result acc script r))
    scripts {| sa_sources := []; sa_results := []; sa_raw := []; sa_skipped := true;
               sa_reasons := [] |}.

(** [policyAttachmentGate] *)
Definition policyAttachmentGate (attachment : PolicyAttachment) (defaultGate : bool) : bool :=
  match att_gate attachment with Some g => g | None => defaultGate end.

(** The runtime inputs that the policy declares, sorted *)
Definition runtime_overrides (appendRuntime replaceRuntime args : inputs) : list string :=
  merge_sort str_le (elements ((dom appendRuntime ∪ dom replaceRuntime) ∩ dom args)).

(** From the loaded scripts to the evaluation *)
Definition evaluate_scripts (pv : PolicyVerifier) (attachment : PolicyAttachment)
    (material : string) (opts : evalOpts) (policy : Policy) (ref : option PolicyDescriptor)
    (scripts : list Script) (appendRuntime replaceRuntime : inputs)
    : result (option PolicyEvaluation) :=
  let meta := policy_metadata policy in
  let with_ := OverrideRuntimeInputs
                 (MergeRuntimeInputs (att_with attachment) appendRuntime) replaceRuntime in
  args ← map_err EPolicy
           (ComputeArguments template_execute (spec_inputs (policy_spec policy)) with_
              (eo_bindings opts));
  acc ← run_scripts pv scripts material args;
  if bool_decide (sa_sources acc = []) then Ok None
  else
    '(violations, _) ← map_err (fun e => EPolicy (EWrap ("policy " +:+ meta_name meta) e))
      (engineEvaluationsToAPIViolations unmarshal_finding validate_finding (sa_results acc)
         (GetFindingType meta));
    Ok (Some {|
      pe_name := meta_name meta;
      pe_material_name := eo_name opts;
      pe_sources := match ref with
                    | Some d => if IsProviderScheme (desc_URI d) then [] else sa_sources acc
                    | None => [] end;
      pe_violations := violations;
      pe_annotations := meta_annotations meta;
      pe_description := meta_description meta;
      pe_with := args;
      pe_runtime_input_overrides := runtime_overrides appendRuntime replaceRuntime args;
      pe_type := eo_kind opts;
      pe_reference_name := GetURI ref;
      pe_reference_digest := GetDigest ref;
      pe_policy_reference := Some {| ref_name := meta_name meta; ref_digest := GetDigest ref;
                                     ref_uri := GetURI ref; ref_org_name := GetOrgName ref |};
      pe_group_reference := None;
      pe_skipped := sa_skipped acc;
      pe_skip_reasons := if sa_skipped acc then sa_reasons acc else [];
      pe_requirements := att_requirements attachment;
      pe_raw_results := sa_raw acc;
      pe_gate := policyAttachmentGate attachment (defaultGate pv) |}).

(** [evaluatePolicyAttachment]: the scopes of the runtime inputs that it marks
    as matched, and its result *)
Definition evaluatePolicyAttachment (pv : PolicyVerifier) (attachment : PolicyAttachment)
    (material : string) (opts : evalOpts) : list string * result (option PolicyEvaluation) :=
  match load_policy attachment with
  | Err e => ([], Err (EPolicy e))
  | Ok (policy, ref) =>
      let phases := attestationPhasesForKind (policy_spec policy) (eo_kind opts) in
      if negb (shouldEvaluateAtPhase phases (evalPhase pv)) then ([], Ok None)
      else
        match load_scripts policy (eo_kind opts) (policyLocation (GetRef attachment)) with
        | Err e => ([], Err (EPolicy e))
        | Ok scripts =>
            let '(appendRuntime, replaceRuntime, matchedScopes) :=
              forPolicy (eo_runtimeInputs opts) (meta_name (policy_metadata policy))
                (GetRef attachment) in
            (matchedScopes,
             evaluate_scripts pv attachment material opts policy ref scripts
               appendRuntime replaceRuntime)
        end
  end.

(** ** Selecting the policies of a material *)

(** [nameMatches] *)
Definition nameMatches (name : string) (mode : MatchMode) (materialID : string) : bool :=
  match mode with
  | PREFIX => has_prefix materialID name
  | _ => bool_decide (name = materialID)
  end.

(** [getPolicyTypes] *)
Definition getPolicyTypes (p : Policy) : list MaterialType :=
  if bool_decide (spec_type (policy_spec p) <> MATERIAL_TYPE_UNSPECIFIED)
  then [spec_type (policy_spec p)]
  else List.filter (fun t => bool_decide (t <> MATERIAL_TYPE_UNSPECIFIED))
         (map v2_kind (spec_policies (policy_spec p))).

(** [shouldApplyPolicy] *)
Definition shouldApplyPolicy (policyAtt : PolicyAttachment) (material : Attestation_Material)
    : result bool :=
  '(spec, _) ← map_err (EWrap ("failed to load policy attachment " +:+ GetRef policyAtt))
                 (load_policy policyAtt);
  let filteredName := GetSelectorName policyAtt in
  let specTypes := getPolicyTypes spec in
  if negb (bool_decide (specTypes = [])) && negb (bool_decide (am_type material ∈ specTypes))
  then Ok false
  else if negb (is_empty filteredName)
          && negb (nameMatches filteredName (GetSelectorMatchMode policyAtt) (am_id material))
  then Ok false
  else if bool_decide (specTypes = []) && is_empty filteredName then Ok false
  else Ok true.

(** [requiredPoliciesForMaterial]: the attachments that apply, in order *)
Fixpoint filter_attachments (apply : PolicyAttachment -> result bool)
    (atts : list PolicyAttachment) : result (list PolicyAttachment) :=
  match atts with
  | [] => Ok []
  | a :: atts' =>
      b ← apply a;
      rest ← filter_attachments apply atts';
      Ok (if b : bool then a :: rest else rest)
  end.

Definition requiredPoliciesForMaterial (pv : PolicyVerifier) (material : Attestation_Material)
    : result (list PolicyAttachment) :=
  filter_attachments (fun att => shouldApplyPolicy att material)
    (GetMaterialPolicies (policies pv)).

(** ** The two verifications *)

Definition material_opts (pv : PolicyVerifier) (material : Attestation_Material) : evalOpts :=
  {| eo_name := am_id material; eo_kind := am_type material; eo_bindings := ∅;
     eo_runtimeInputs := runtimeInputs pv |}.

Definition statement_opts : evalOpts :=
  {| eo_name := ""; eo_kind := ATTESTATION; eo_bindings := ∅; eo_runtimeInputs := None |}.

(** The body of a goroutine: the evaluation with its error marked *)
Definition evaluation_task (pv : PolicyVerifier) (subject : string) (opts : evalOpts)
    (att : PolicyAttachment) : result (option PolicyEvaluation) :=
  map_err EPolicy (snd (evaluatePolicyAttachment pv att subject opts)).

(** [VerifyMaterial] *)
Definition VerifyMaterial (pv : PolicyVerifier) (material : Attestation_Material)
    (artifactPath content : string) : result (list PolicyEvaluation) :=
  attachments ← map_err EPolicy (requiredPoliciesForMaterial pv material);
  if bool_decide (attachments = []) then Ok []
  else
    subject ← map_err EPolicy (evaluable material artifactPath content);
    results ← sequential
                (map (evaluation_task pv subject (material_opts pv material)) attachments);
    Ok (not_nil results).

(** The scopes reported as matching no policy of the material *)
Definition unmatched_for_material (pv : PolicyVerifier) (material : Attestation_Material)
    (subject : string) (attachments : list PolicyAttachment) : list string :=
  tracker_unmatched
    (fold_left (fun t att =>
       tracker_mark t (fst (evaluatePolicyAttachment pv att subject (material_opts pv material))))
       attachments (Some ∅))
    (runtimeInputs pv).

(** [VerifyStatement] *)
Definition VerifyStatement (pv : PolicyVerifier) (statement : Statement)
    : result (list PolicyEvaluation) :=
  statementJSON ← map_err EPolicy (marshal_statement statement);
  results ← sequential
              (map (evaluation_task pv statementJSON statement_opts)
                 (GetAttestationPolicies (policies pv)));
  Ok (not_nil results).
End Verifier.

(** ** The dependencies from the other components *)

Section WorldDeps.
Context `{World}.

Definition world_deps (client : option HTTPClient) (rego wasm : PolicyEngine)
    (template : string -> inputs -> result string)
    (unmarshal : FindingKind -> jobject -> result jobject)
    (validate : FindingKind -> jobject -> result unit)
    (content : Attestation_Material -> string -> string -> result string)
    (Stmt : Type) (marshal : Stmt -> result string) : VerifierDeps :=
  {| load_policy := policy_of client;
     load_group := group_of client;
     load_scripts := fun p kind base => loadPolicyScriptsFromSpec p kind base client;
     rego_engine := rego; wasm_engine := wasm; template_execute := template;
     unmarshal_finding := unmarshal; validate_finding := validate;
     evaluable := content; Statement := Stmt; marshal_statement := marshal |}.
End WorldDeps.

(** ** Selection *)

Section Selection.
Context `{VerifierDeps}.

(** Whether a loaded policy applies, as the comment of [shouldApplyPolicy]
    states it *)
Definition applies (m : Attestation_Material) (att : PolicyAttachment) (spec : Policy) : bool :=
  let name_ok := nameMatches (GetSelectorName att) (GetSelectorMatchMode att) (am_id m) in
  match getPolicyTypes spec with
  | [] => negb (is_empty (GetSelectorName att)) && name_ok
  | types => bool_decide (am_type m ∈ types) && (is_empty (GetSelectorName att) || name_ok)
  end.

Lemma shouldApplyPolicy_applies att m spec d :
  load_policy att = Ok (spec, d) -> shouldApplyPolicy att m = Ok (applies m att spec).
Proof.
  intros Hl. unfold shouldApplyPolicy, applies. rewrite Hl. cbn.
  destruct (getPolicyTypes spec) as [|t ts]; cbn.
  - destruct (is_empty (GetSelectorName att)); [done|]. cbn. by destruct (nameMatches _ _ _).
  - case_bool_decide; cbn; [|done].
    destruct (is_empty (GetSelectorName att)); [done|]. cbn. by destruct (nameMatches _ _ _).
Qed.

Lemma shouldApplyPolicy_err att m e :
  load_policy att = Err e -> exists e', shouldApplyPolicy att m = Err e'.
Proof. intros Hl. unfold shouldApplyPolicy. rewrite Hl. cbn. eauto. Qed.

Definition loaded_applies (m : Attestation_Material) (att : PolicyAttachment) : bool :=
  match load_policy att with Ok (spec, _) => applies m att spec | Err _ => false end.

Lemma filter_attachments_spec m atts :
  filter_attachments (fun att => shouldApplyPolicy att m) atts
  = if forallb (fun att => is_ok (load_policy att)) atts
    then Ok (List.filter (loaded_applies m) atts)
    else filter_attachments (fun att => shouldApplyPolicy att m) atts.
Proof.
  induction atts as [|att atts IH]; [done|]. cbn [forallb List.filter].
  destruct (load_policy att) as [[spec d]|e] eqn:El; cbn [is_ok andb]; [|done].
  destruct (forallb _ atts); [|done].
  cbn [filter_attachments]. rewrite (shouldApplyPolicy_applies _ _ _ _ El), IH. cbn.
  unfold loaded_applies. by rewrite El.
Qed.

Lemma filter_attachments_err m atts :
  forallb (fun att => is_ok (load_policy att)) atts = false ->
  exists e, filter_attachments (fun att => shouldApplyPolicy att m) atts = Err e.
Proof.
  induction atts as [|att atts IH]; cbn [forallb]; [done|].
  destruct (load_policy att) as [[spec d]|e] eqn:El; cbn [is_ok andb]; intros Hf.
  - destruct (IH Hf) as (e & He). exists e. cbn.
    rewrite (shouldApplyPolicy_applies _ _ _ _ El), He. done.
  - destruct (shouldApplyPolicy_err att m e El) as (e' & He). exists e'. cbn. by rewrite He.
Qed.

(** The policies of a material are selected by the documented rules: if
    every policy of the contract loads, the ones that apply, in the order of
    the contract, are those that support its type (and whose selector, if any,
    matches its name) and the untyped ones that a selector ties to its name;
    if any policy does not load, nothing is selected and the error is
    reported. *)
Theorem required_policies_exact pv m :
  let atts := GetMaterialPolicies (policies pv) in
  if forallb (fun att => is_ok (load_policy att)) atts
  then requiredPoliciesForMaterial pv m
       = Ok (List.filter (fun att => match load_policy att with
                                     | Ok (spec, _) => applies m att spec | Err _ => false end) atts)
  else exists e, requiredPoliciesForMaterial pv m = Err e.
Proof.
  cbn. unfold requiredPoliciesForMaterial.
  destruct (forallb _ _) eqn:Ef; [|by apply filter_attachments_err].
  rewrite filter_attachments_spec, Ef. done.
Qed.
End Selection.

(** ** What an evaluation merges *)

Section Merge.
Context `{VerifierDeps}.

(** The results that count: those that do not ask to be ignored *)
Definition kept (results : list EvaluationResult) : list EvaluationResult :=
  List.filter (fun r => negb (er_ignore r)) results.

Definition reasons (results : list EvaluationResult) : list string :=
  List.filter (fun s => negb (is_empty s)) (map er_skip_reason results).

Definition merged (scripts : list Script) (results : list EvaluationResult) (acc : script_acc)
    : Prop :=
  sa_results acc = kept results
  /\ sa_skipped acc = forallb er_skipped (kept results)
  /\ sa_reasons acc = reasons (kept results)
  /\ sa_raw acc = not_nil (map er_raw_data results)
  /\ (sa_sources acc = [] <-> kept results = []).

Lemma merged_snoc scripts results acc script r :
  merged scripts results acc -> merged (scripts ++ [script]) (results ++ [r]) (add_result acc script r).
Proof.
  intros (H1 & H2 & H3 & H4 & H5). unfold merged, add_result, kept, reasons, not_nil in *.
  rewrite !List.filter_app, !map_app, ?List.filter_app, omap_app. cbn.
  destruct (er_ignore r) eqn:Ei; cbn;
    rewrite ?app_nil_r, ?forallb_app, ?map_app, ?List.filter_app, H1, ?H2, ?H3, ?H4; cbn.
  - repeat split; try done; try apply H5. by destruct (er_raw_data r); rewrite ?app_nil_r.
  - repeat split; [by rewrite andb_true_r | | | |].
    + destruct (is_empty (er_skip_reason r)); cbn; by rewrite ?app_nil_r.
    + by destruct (er_raw_data r); rewrite ?app_nil_r.
    + by intros [_ ?]%app_nil.
    + by intros [_ ?]%app_nil.
Qed.

Lemma run_scripts_merged pv scripts material args acc :
  run_scripts pv scripts material args = Ok acc ->
  exists results,
    Forall2 (fun s r => executeScript pv s material args = Ok r) scripts results
    /\ merged scripts results acc.
Proof.
  unfold run_scripts.
  assert (forall scripts seen results acc0,
    Forall2 (fun s r => executeScript pv s material args = Ok r) seen results ->
    merged seen results acc0 ->
    foldM_result (fun acc script => r ← map_err EPolicy (executeScript pv script material args);
                                    Ok (add_result acc script r)) scripts acc0 = Ok acc ->
    exists results, Forall2 (fun s r => executeScript pv s material args = Ok r)
                      (seen ++ scripts) results /\ merged (seen ++ scripts) results acc) as Hgen.
  { clear scripts. induction scripts as [|s scripts IH]; intros seen results acc0 Hs Hm Hf; cbn in Hf.
    - injection Hf as <-. rewrite app_nil_r. eauto.
    - destruct (executeScript pv s material args) as [r|] eqn:Er; cbn in Hf; [|done].
      rewrite cons_middle, app_assoc. eapply IH; [| |exact Hf].
      + apply Forall2_app; [exact Hs|]. by repeat constructor.
      + by apply merged_snoc. }
  intros Hr. apply (Hgen scripts [] []) in Hr; [done|constructor|by repeat split].
Qed.

(** C26: An evaluation is the faithful merge of its scripts: it exists only if
    some script did not ask to be ignored; it is skipped exactly when every
    such script was skipped, its skip reasons are theirs and are only given
    then; its violations are all of theirs, in order; and it blocks as the
    attachment says, or by the default when the attachment does not say. *)
Theorem evaluation_merges pv att material opts ev :
  snd (evaluatePolicyAttachment pv att material opts) = Ok (Some ev) ->
  exists policy ref scripts results,
    load_policy att = Ok (policy, ref)
    /\ shouldEvaluateAtPhase (attestationPhasesForKind (policy_spec policy) (eo_kind opts))
         (evalPhase pv) = true
    /\ load_scripts policy (eo_kind opts) (policyLocation (GetRef att)) = Ok scripts
    /\ Forall2 (fun s r => executeScript pv s material (pe_with ev) = Ok r) scripts results
    /\ kept results <> []
    /\ pe_skipped ev = forallb er_skipped (kept results)
    /\ pe_skip_reasons ev = (if pe_skipped ev then reasons (kept results) else [])
    /\ Forall2 (api_violation unmarshal_finding validate_finding
                  (GetFindingType (policy_metadata policy)))
         (all_violations (kept results)) (pe_violations ev)
    /\ pe_gate ev = default (defaultGate pv) (att_gate att)
    /\ pe_name ev = meta_name (policy_metadata policy) /\ pe_material_name ev = eo_name opts
    /\ pe_type ev = eo_kind opts.
Proof.
  unfold evaluatePolicyAttachment.
  destruct (load_policy att) as [[policy ref]|]; [|done].
  destruct (shouldEvaluateAtPhase _ _) eqn:Eph; cbn [negb]; [|done].
  destruct (load_scripts _ _ _) as [scripts|] eqn:Es; [|done].
  destruct (forPolicy _ _ _) as [[app rep] matched]. cbn [snd]. unfold evaluate_scripts.
  intros He. inv_ok. case_bool_decide as Hsrc; [done|].
  apply bind_Ok in He as ([vs ws] & Hv & He). inv_ok.
  match goal with Hr : run_scripts _ _ _ _ = Ok ?acc |- _ =>
    apply run_scripts_merged in Hr as (results & Hres & H1 & H2 & H3 & _ & H5) end.
  simplify_eq. cbn.
  exists policy, ref, scripts, results. repeat (split; [done|]).
  split; [by rewrite <- H5|]. split; [done|]. split; [by rewrite H3|]. split; [|done].
  pose proof (engineEvaluations_converted unmarshal_finding validate_finding (kept results)
    (GetFindingType (policy_metadata policy))) as Hx. cbn in Hx. rewrite H1 in Hv.
  destruct (existsb _ _); [by rewrite Hv in Hx|].
  destruct Hx as (vs' & Hx & Hf). rewrite Hx in Hv. by simplify_eq.
Qed.
End Merge.

(** Evaluations carry the name they were asked for. *)
Lemma evaluation_named `{VerifierDeps} pv att material opts ev :
  snd (evaluatePolicyAttachment pv att material opts) = Ok (Some ev) ->
  pe_material_name ev = eo_name opts.
Proof.
  unfold evaluatePolicyAttachment.
  destruct (load_policy att) as [[policy ref]|]; [|done].
  destruct (shouldEvaluateAtPhase _ _); cbn [negb]; [|done].
  destruct (load_scripts _ _ _) as [scripts|]; [|done].
  destruct (forPolicy _ _ _) as [[app rep] matched]. cbn [snd]. unfold evaluate_scripts.
  intros He. inv_ok. case_bool_decide; [done|].
  apply bind_Ok in He as ([vs ws] & _ & He). by inv_ok.
Qed.

(** ** Errors, schedules and the sandbox *)

Lemma map_err_EPolicy {A} (r : result A) e : map_err EPolicy r = Err e -> is_policy_error e = true.
Proof. intros (e' & _ & ->)%map_err_Err. done. Qed.

#[export] Hint Resolve map_err_EPolicy : go.

Section Outcomes.
Context `{VerifierDeps}.

Lemma evaluation_tasks_err pv subject opts atts e :
  sequential (map (evaluation_task pv subject opts) atts) = Err e -> is_policy_error e = true.
Proof.
  unfold sequential. intros (r & Hr & He)%mapM_result_Err. cbn in He. subst r.
  apply list_elem_of_fmap in Hr as (att & Hr & _). symmetry in Hr. eauto with go.
Qed.

Lemma VerifyMaterial_err pv m path content e :
  VerifyMaterial pv m path content = Err e -> is_policy_error e = true.
Proof.
  unfold VerifyMaterial. intros [He | (atts & _ & He)]%bind_Err; [eauto with go|].
  case_bool_decide; [done|].
  apply bind_Err in He as [He | (subject & _ & He)]; [eauto with go|].
  apply bind_Err in He as [He | (? & _ & ?)]; [|done]. by eapply evaluation_tasks_err.
Qed.

(** Whatever goes wrong in a verification (a policy that does not load, a
    material that cannot be read, a script that fails, a finding that does not
    validate), the error is a policy error, which is how the callers tell it
    from their own failures. *)
Theorem verification_errors_are_policy_errors pv :
  (forall m path content e, VerifyMaterial pv m path content = Err e -> is_policy_error e = true)
  /\ (forall st e, VerifyStatement pv st = Err e -> is_policy_error e = true).
Proof.
  split; [apply VerifyMaterial_err|].
  intros st e. unfold VerifyStatement. intros [He | (js & _ & He)]%bind_Err; [eauto with go|].
  apply bind_Err in He as [He | (? & _ & ?)]; [|done]. by eapply evaluation_tasks_err.
Qed.

Lemma NewPolicyVerifier_limit NumCPU p opts :
  (0 < maxConcurrency (NewPolicyVerifier NumCPU p opts))%Z.
Proof. cbn. case_bool_decide; unfold defaultMaxConcurrency; lia. Qed.


Lemma engine_options_no_mode pv :
  forallb (fun x => negb (Rego.sets_mode x)) (engine_options pv) = true.
Proof.
  unfold engine_options. rewrite !forallb_app.
  destruct (allowedHostnames pv), (includeRawData pv), (enablePrint pv), (grpcConn pv),
    (negb (is_empty (projectName pv)) || negb (is_empty (projectVersionName pv))),
    (publicTargetsOnly pv); done.
Qed.

Lemma engine_options_hostnames pv :
  Rego.user_hostnames (engine_options pv) = default [] (allowedHostnames pv).
Proof.
  unfold engine_options, Rego.user_hostnames.
  destruct (allowedHostnames pv), (includeRawData pv), (enablePrint pv), (grpcConn pv),
    (negb (is_empty (projectName pv)) || negb (is_empty (projectVersionName pv))),
    (publicTargetsOnly pv); cbn; by rewrite ?app_nil_r.
Qed.
End Outcomes.

(** The same dependencies with another Rego engine *)
Definition with_rego (deps : VerifierDeps) (rego : PolicyEngine) : VerifierDeps :=
  {| load_policy := @load_policy deps; load_group := @load_group deps;
     load_scripts := @load_scripts deps; rego_engine := rego;
     wasm_engine := @wasm_engine deps; template_execute := @template_execute deps;
     unmarshal_finding := @unmarshal_finding deps; validate_finding := @validate_finding deps;
     evaluable := @evaluable deps; Statement := @Statement deps;
     marshal_statement := @marshal_statement deps |}.

Section Sandboxed.
Context {Module_ : Type}.
Context (ast_ParseModule : string -> string -> Module_ + option (list Rego.AstError)).
Context (package_path : Module_ -> string).
Context (BuiltinMap : gmap string (list string)).
Context (json_decode : string -> result json) (json_marshal : json -> result string).

(** Every Rego policy runs in the sandbox: whatever the configuration of
    the verifier, running a script only asks OPA restricted queries, without
    the forbidden and the non-restrictive builtins and with the network
    limited to the configured hostnames and the two built-in ones; so two OPAs
    that agree on those give the same verdict on every script. *)
Theorem scripts_run_sandboxed deps pv opa1 opa2 script material args :
  let rego opa := Rego.rego_engine ast_ParseModule package_path BuiltinMap json_decode
                    json_marshal opa in
  (forall q, Rego.restricted BuiltinMap
               (default [] (allowedHostnames pv) ++ BaseAllowedHostnames) q -> opa1 q = opa2 q) ->
  @executeScript (with_rego deps (rego opa1)) pv script material args
  = @executeScript (with_rego deps (rego opa2)) pv script material args.
Proof.
  intros rego Hopa. unfold executeScript. cbn.
  destruct (DetectPolicyType (script_source script)); [|done].
  rewrite (Rego.verify_restricted _ _ _ _ _ _ opa1 opa2); [done|apply engine_options_no_mode|].
  by rewrite engine_options_hostnames.
Qed.
End Sandboxed.

Section Disabled.
Context `{World}.
Context (client : option HTTPClient) (rego wasm : PolicyEngine)
    (template : string -> inputs -> result string)
    (unmarshal : FindingKind -> jobject -> result jobject)
    (validate : FindingKind -> jobject -> result unit)
    (content : Attestation_Material -> string -> string -> result string)
    (Stmt : Type) (marshal : Stmt -> result string).

Let deps := world_deps client rego wasm template unmarshal validate content Stmt marshal.

Definition set_disabled (b : bool) (att : PolicyAttachment) : PolicyAttachment :=
  {| att_policy := att_policy att; att_selector := att_selector att; att_disabled := b;
     att_with := att_with att; att_requirements := att_requirements att;
     att_gate := att_gate att |}.

(** The disabled field of a policy attachment has no effect: a disabled
    policy is selected and evaluated exactly as an enabled one. *)
Theorem disabled_is_ignored b pv att m material opts :
  @shouldApplyPolicy deps (set_disabled b att) m = @shouldApplyPolicy deps att m
  /\ @evaluatePolicyAttachment deps pv (set_disabled b att) material opts
     = @evaluatePolicyAttachment deps pv att material opts.
Proof. done. Qed.
End Disabled.

(** ** When a policy leaves no evaluation *)

Section Absent.
Context `{VerifierDeps}.

Definition target_phase (phase : EvalPhase) : option AttestationPhase :=
  match phase with
  | EvalPhaseUnspecified => None | EvalPhaseInit => Some INIT | EvalPhasePush => Some PUSH
  end.

(** A policy runs at a phase unless, for that kind of material, its branches
    name phases and the current one is not among them. *)
Definition runs_at (spec : PolicySpec) (kind : MaterialType) (phase : EvalPhase) : Prop :=
  match target_phase phase with
  | None => True
  | Some target =>
      let named s t := s ∈ spec_policies spec /\ kind_matches kind s = true
                       /\ t ∈ v2_attestation_phases s in
      is_Some (spec_source spec) \/ (forall s t, ~ named s t) \/ exists s, named s target
  end.

Lemma elem_of_phases spec kind t :
  spec_source spec = None ->
  t ∈ attestationPhasesForKind spec kind <->
  exists s, s ∈ spec_policies spec /\ kind_matches kind s = true /\ t ∈ v2_attestation_phases s.
Proof.
  intros Hn. unfold attestationPhasesForKind. rewrite Hn, list_elem_of_In, in_concat.
  setoid_rewrite in_map_iff. setoid_rewrite filter_In. setoid_rewrite list_elem_of_In.
  naive_solver.
Qed.

Lemma shouldEvaluateAtPhase_runs spec kind phase :
  shouldEvaluateAtPhase (attestationPhasesForKind spec kind) phase = true <->
  runs_at spec kind phase.
Proof.
  unfold runs_at, shouldEvaluateAtPhase.
  destruct (spec_source spec) as [src|] eqn:Es.
  { unfold attestationPhasesForKind. rewrite Es. cbn. destruct (target_phase phase); naive_solver. }
  assert (attestationPhasesForKind spec kind = [] <->
    forall s t, ~ (s ∈ spec_policies spec /\ kind_matches kind s = true
                   /\ t ∈ v2_attestation_phases s)) as Hnil.
  { split.
    - intros Hnil s t Hst. assert (t ∈ attestationPhasesForKind spec kind) as Ht
        by (apply elem_of_phases; eauto). rewrite Hnil in Ht. by apply elem_of_nil in Ht.
    - intros Hall. destruct (attestationPhasesForKind spec kind) as [|t l] eqn:El; [done|].
      destruct (proj1 (elem_of_phases spec kind t Es)) as (s & Hs); [rewrite El; left|].
      by apply Hall in Hs. }
  case_bool_decide as Hp.
  { destruct phase; cbn; split; auto. all: intros _; right; left; by apply Hnil. }
  assert (~ is_Some (@None LegacySource)) by by intros [].
  destruct phase; cbn; [done| |];
    rewrite bool_decide_eq_true, elem_of_phases by done;
    (split; [auto | intros [?|[Hx%Hnil|?]]; done]).
Qed.

(** A policy leaves no evaluation exactly when it loads and either is not
    configured for the current phase, or its scripts load, run and all ask to
    be ignored; nothing else makes a policy disappear without an error. *)
Theorem evaluation_absent_iff pv att material opts :
  snd (evaluatePolicyAttachment pv att material opts) = Ok None <->
  exists policy ref, load_policy att = Ok (policy, ref) /\
    (~ runs_at (policy_spec policy) (eo_kind opts) (evalPhase pv)
     \/ runs_at (policy_spec policy) (eo_kind opts) (evalPhase pv)
        /\ exists scripts args acc,
             load_scripts policy (eo_kind opts) (policyLocation (GetRef att)) = Ok scripts
             /\ (let '(app, rep, _) := forPolicy (eo_runtimeInputs opts)
                    (meta_name (policy_metadata policy)) (GetRef att) in
                 ComputeArguments template_execute (spec_inputs (policy_spec policy))
                   (OverrideRuntimeInputs (MergeRuntimeInputs (att_with att) app) rep)
                   (eo_bindings opts)) = Ok args
             /\ run_scripts pv scripts material args = Ok acc /\ sa_results acc = []).
Proof.
  unfold evaluatePolicyAttachment.
  destruct (load_policy att) as [[policy ref]|]; cbn [snd].
  2:{ split; [done|]. by intros (? & ? & ? & _). }
  assert (forall P Q : Policy -> option PolicyDescriptor -> Prop,
    (exists p r, @Ok (Policy * option PolicyDescriptor) (policy, ref) = Ok (p, r) /\ Q p r)
    <-> Q policy ref) as Hex by (intros; naive_solver).
  rewrite (Hex (fun _ _ => True)). clear Hex. rewrite <- shouldEvaluateAtPhase_runs.
  destruct (shouldEvaluateAtPhase _ _); cbn [negb snd].
  2:{ split; [intros _; by left | done]. }
  destruct (load_scripts _ _ _) as [scripts|]; cbn [snd].
  2:{ split; [done|]. intros [?|(_ & ? & ? & ? & ? & _)]; done. }
  destruct (forPolicy _ _ _) as [[app rep] matched]. cbn [snd]. unfold evaluate_scripts.
  split.
  - intros He. right. split; [done|]. inv_ok. case_bool_decide as Hs.
    + do 3 eexists. split; [done|]. split; [done|]. split; [done|].
      match goal with Hr : run_scripts _ _ _ _ = Ok _ |- _ =>
        apply run_scripts_merged in Hr as (results & _ & H1 & _ & _ & _ & H5) end.
      rewrite H1. by apply H5.
    + by apply bind_Ok in He as ([vs ws] & _ & He).
  - intros [?|(_ & scripts' & args & acc & [= <-] & Ha & Hr & Hn)]; [done|].
    rewrite Ha. cbn. rewrite Hr. cbn.
    apply run_scripts_merged in Hr as (results & _ & H1 & _ & _ & _ & H5).
    rewrite bool_decide_eq_true_2; [done|]. apply H5. congruence.
Qed.
End Absent.

(** ** Witnesses *)

Definition toy_result (violations : list string) (ignore : bool) : EvaluationResult :=
  {| er_violations := map (fun v => {| pv_subject := "p"; pv_violation := v; pv_raw_finding := None |})
                        violations;
     er_skipped := false; er_skip_reason := ""; er_ignore := ignore; er_raw_data := None |}.

(** An engine whose verdict is the text of the script *)
Definition toy_engine : PolicyEngine :=
  {| Verify := fun _ script _ _ => Ok (toy_result [script_source script] false) |}.

Definition toy_deps : VerifierDeps :=
  {| load_policy := fun att => if is_empty (GetRef att) then Err (EMsg "empty") else Ok (toy_policy, None);
     load_group := fun _ => Err (EMsg "no group");
     load_scripts := fun _ _ _ => Ok [{| script_source := "bad"; script_name := "p" |}];
     rego_engine := toy_engine; wasm_engine := toy_engine;
     template_execute := fun t _ => Ok t;
     unmarshal_finding := fun _ => Ok; validate_finding := fun _ _ => Ok tt;
     evaluable := fun _ _ _ => Ok "{}"; Statement := unit; marshal_statement := fun _ => Ok "{}" |}.

Definition toy_attachment : PolicyAttachment :=
  {| att_policy := Some (AttachedRef "p");
     att_selector := Some {| selector_name := "session"; selector_match_mode := EXACT |};
     att_disabled := false; att_with := ∅; att_requirements := []; att_gate := Some true |}.

Definition toy_policies : option Policies :=
  Some {| policies_materials := [toy_attachment]; policies_attestation := [] |}.

Definition toy_pv : PolicyVerifier := NewPolicyVerifier 8 toy_policies [].

Lemma evaluation_merges_witness :
  exists ev, snd (@evaluatePolicyAttachment toy_deps toy_pv toy_attachment "{}"
                    (material_opts toy_pv toy_session)) = Ok (Some ev)
    /\ pe_gate ev = true /\ map v_message (pe_violations ev) = ["bad"].
Proof.
  destruct (snd (@evaluatePolicyAttachment toy_deps toy_pv toy_attachment "{}"
    (material_opts toy_pv toy_session))) as [[ev|]|e] eqn:E; [|vm_compute in E; discriminate E ..].
  exists ev. split; [reflexivity|].
  destruct (@evaluation_merges toy_deps _ _ _ _ _ E)
    as (policy & ref & scripts & results & _ & _ & _ & _ & _ & _ & _ & _ & Hg & _).
  split; [rewrite Hg; reflexivity|]. vm_compute in E. injection E as <-. reflexivity.
Defined.


Definition toy_opa1 (q : Rego.Query (Module_ := unit))
    : result (option (list (list (string * json)))) :=
  if Rego.q_permissive q then Err (EMsg "no")
  else Ok (Some [[("result", JObj [("violations", JArr [JStr "bad"])])]]).
Definition toy_opa2 (q : Rego.Query (Module_ := unit))
    : result (option (list (list (string * json)))) :=
  Ok (Some [[("result", JObj [("violations", JArr [JStr "bad"])])]]).

Definition toy_rego opa : PolicyEngine :=
  Rego.rego_engine (fun _ _ => inl tt) (fun _ => "data.main") ∅ (fun _ => Ok (JObj []))
    (fun _ => Ok "{}") opa.

Lemma scripts_run_sandboxed_witness :
  @executeScript (with_rego toy_deps (toy_rego toy_opa1)) toy_pv
    {| script_source := "package main"; script_name := "p" |} "{}" ∅
  = @executeScript (with_rego toy_deps (toy_rego toy_opa2)) toy_pv
      {| script_source := "package main"; script_name := "p" |} "{}" ∅.
Proof.
  apply (scripts_run_sandboxed (fun _ _ => inl tt) (fun _ => "data.main") ∅ (fun _ => Ok (JObj []))
           (fun _ => Ok "{}") toy_deps toy_pv toy_opa1 toy_opa2).
  intros q (_ & Hq & _). unfold toy_opa1, toy_opa2. rewrite Hq. reflexivity.
Defined.
