(* ===== verification/PolicyGroups.v ===== *)
(** * Policy groups

    pkg/policies/policy_groups.go: a group bundles policies for materials and
    for the attestation; a contract attaches it with arguments, a skip list and
    a gate.  The group verifier selects the policies of the group for a
    material, evaluates them as the plain verifier does, and marks the
    evaluations with the group. *)

From S2P Require Import Prelude.
From S2P Require Import GoStrings.
From S2P Require Import Base64.
From S2P Require Import Contract.
From S2P Require Import PolicyRefs.
From S2P Require Import RuntimeInputs.
From S2P Require Import PolicyArgs.
From S2P Require Import PolicyEngine.
From S2P Require Import PolicyLoaders.
From S2P Require Import CraftingState.
From S2P Require Import ErrGroup.
From S2P Require Import PolicyVerifier.

Definition ErrBlockedTarget : string := "blocked outbound request".

Record PolicyGroupVerifier := {
  policyGroups : list PolicyGroupAttachment;
  group_pv : PolicyVerifier
}.

(** [NewPolicyGroupVerifier] *)
Definition NewPolicyGroupVerifier (NumCPU : Z) (groups : list PolicyGroupAttachment)
    (p : option Policies) (opts : list PolicyVerifierOption) : PolicyGroupVerifier :=
  {| policyGroups := groups; group_pv := NewPolicyVerifier NumCPU p opts |}.

(** [applyGroupGate]: the gate of the group, when it is set, replaces that of
    the policy *)
Definition applyGroupGate (policyAtt : PolicyAttachment) (groupAtt : PolicyGroupAttachment)
    : PolicyAttachment :=
  match group_att_gate groupAtt with
  | None => policyAtt
  | Some groupGate =>
      {| att_policy := att_policy policyAtt; att_selector := att_selector policyAtt;
         att_disabled := att_disabled policyAtt; att_with := att_with policyAtt;
         att_requirements := att_requirements policyAtt; att_gate := Some groupGate |}
  end.

(** Marking an evaluation with its group *)
Definition with_group (r : Reference) (ev : PolicyEvaluation) : PolicyEvaluation :=
  {| pe_name := pe_name ev; pe_material_name := pe_material_name ev; pe_sources := pe_sources ev;
     pe_violations := pe_violations ev; pe_annotations := pe_annotations ev;
     pe_description := pe_description ev; pe_with := pe_with ev;
     pe_runtime_input_overrides := pe_runtime_input_overrides ev; pe_type := pe_type ev;
     pe_reference_name := pe_reference_name ev; pe_reference_digest := pe_reference_digest ev;
     pe_policy_reference := pe_policy_reference ev; pe_group_reference := Some r;
     pe_skipped := pe_skipped ev; pe_skip_reasons := pe_skip_reasons ev;
     pe_requirements := pe_requirements ev; pe_raw_results := pe_raw_results ev;
     pe_gate := pe_gate ev |}.

(** Loading a policy does not look at the gate of its attachment. *)
Class GateBlind (deps : VerifierDeps) : Prop :=
  load_gate_blind : forall att groupAtt,
    @load_policy deps (applyGroupGate att groupAtt) = @load_policy deps att.

#[export] Instance world_gate_blind `{World} client rego wasm template unmarshal validate content
    Stmt marshal :
  GateBlind (world_deps client rego wasm template unmarshal validate content Stmt marshal).
Proof.
  intros att groupAtt. cbn. unfold applyGroupGate. by destruct (group_att_gate groupAtt).
Qed.

(** ** Elements of sequences of results *)

Lemma elem_of_not_nil {A} (x : A) xs : x ∈ not_nil xs <-> Some x ∈ xs.
Proof.
  unfold not_nil. rewrite list_elem_of_omap. split; [|naive_solver].
  intros (y & ? & Hy). cbn in Hy. by subst y.
Qed.

Lemma sequential_elem {A B} (f : A -> result B) xs ys y :
  sequential (map f xs) = Ok ys -> y ∈ ys -> exists x, x ∈ xs /\ f x = Ok y.
Proof.
  unfold sequential. intros Hf Hy. apply mapM_result_Ok in Hf.
  apply list_elem_of_lookup in Hy as [i Hi].
  destruct (Forall2_lookup_r _ _ _ _ _ Hf Hi) as (r & Hr & Hry). cbn in Hry.
  rewrite list_lookup_fmap in Hr. destruct (xs !! i) as [x|] eqn:Ex; [|done].
  exists x. split; [by eapply list_elem_of_lookup_2|]. cbn in Hr. congruence.
Qed.

Lemma mapM_result_concat_elem {A B} (f : A -> result (list B)) xs yss y :
  mapM_result f xs = Ok yss -> y ∈ concat yss -> exists x ys, x ∈ xs /\ f x = Ok ys /\ y ∈ ys.
Proof.
  intros Hm Hy. apply mapM_result_Ok in Hm. apply list_elem_of_In, in_concat in Hy as (ys & Hys & Hy).
  apply list_elem_of_In, list_elem_of_lookup in Hys as [i Hi].
  destruct (Forall2_lookup_r _ _ _ _ _ Hm Hi) as (x & Hx & Hfx).
  exists x, ys. split; [by eapply list_elem_of_lookup_2|]. split; [done|]. by apply list_elem_of_In.
Qed.

Section Groups.
Context `{VerifierDeps}.

(** [InterpolateGroupMaterial] *)
Definition InterpolateGroupMaterial (gm : GroupMaterial) (bindings : inputs)
    : result GroupMaterial :=
  name ← ApplyBinding template_execute (gm_name gm) bindings;
  Ok {| gm_type := gm_type gm; gm_name := name; gm_optional := gm_optional gm;
        gm_match_mode := gm_match_mode gm; gm_policies := gm_policies gm |}.

(** [PolicyGroupVerifier.shouldApplyPolicy] *)
Definition group_shouldApplyPolicy (policyAtt : PolicyAttachment)
    (material : Attestation_Material) : result bool :=
  '(spec, _) ← map_err (EWrap ("failed to load policy attachment " +:+ GetRef policyAtt))
                 (load_policy policyAtt);
  let specTypes := getPolicyTypes spec in
  if negb (bool_decide (specTypes = [])) && bool_decide (am_type material ∈ specTypes)
  then Ok true
  else Ok (bool_decide (specTypes = [])).

(** [PolicyGroupVerifier.requiredPoliciesForMaterial] *)
Fixpoint group_required (material : Attestation_Material) (groupArgs : inputs)
    (materials : list GroupMaterial) : result (list PolicyAttachment) :=
  match materials with
  | [] => Ok []
  | groupMaterial :: rest =>
      gm ← InterpolateGroupMaterial groupMaterial groupArgs;
      here ←
        (if negb (is_empty (gm_name gm))
            && negb (nameMatches (gm_name gm) (gm_match_mode gm) (am_id material))
         then Ok []
         else filter_attachments (fun att => group_shouldApplyPolicy att material)
                (gm_policies gm));
      others ← group_required material groupArgs rest;
      Ok (here ++ others)
  end.

(** [shouldSkipPolicy] *)
Definition shouldSkipPolicy (attachment : PolicyAttachment) (skipList : list string)
    : result (bool * string) :=
  if bool_decide (skipList = []) then Ok (false, "")
  else
    '(policy, _) ← map_err (EWrap "failed to load policy to get name") (load_policy attachment);
    let policyName := meta_name (policy_metadata policy) in
    if bool_decide (policyName ∈ skipList) then Ok (true, policyName) else Ok (false, "").

(** The reference that marks the evaluations of a group *)
Definition group_reference (group : PolicyGroup) (desc : option PolicyDescriptor) : Reference :=
  {| ref_name := meta_name (group_metadata group); ref_digest := GetDigest desc;
     ref_uri := GetURI desc; ref_org_name := GetOrgName desc |}.

(** The body of a goroutine *)
Definition group_task (pgv : PolicyGroupVerifier) (groupAtt : PolicyGroupAttachment)
    (r : Reference) (subject : string) (opts : evalOpts) (att : PolicyAttachment)
    : result (option PolicyEvaluation) :=
  '(skip, _) ← map_err (fun e => EPolicy (EWrap "failed to check if policy should be skipped" e))
                 (shouldSkipPolicy att (group_att_skip groupAtt));
  if skip : bool then Ok None
  else
    ev ← map_err EPolicy
           (snd (evaluatePolicyAttachment (group_pv pgv) (applyGroupGate att groupAtt) subject opts));
    Ok (option_map (with_group r) ev).

(** [ComputeArguments] on the arguments of the group *)
Definition group_arguments (group : PolicyGroup) (groupAtt : PolicyGroupAttachment) : result inputs :=
  ComputeArguments template_execute (group_inputs group) (group_att_with groupAtt) ∅.

(** One group in [VerifyMaterial] *)
Definition verify_group_material (pgv : PolicyGroupVerifier) (material : Attestation_Material)
    (path content : string) (groupAtt : PolicyGroupAttachment) : result (list PolicyEvaluation) :=
  '(group, desc) ← map_err EPolicy (load_group groupAtt);
  groupArgs ← map_err EPolicy (group_arguments group groupAtt);
  policyAtts ← map_err EPolicy (group_required material groupArgs (GroupMaterials group));
  if bool_decide (policyAtts = []) then Ok []
  else
    subject ← map_err EPolicy (evaluable material path content);
    results ← sequential
      (map (group_task pgv groupAtt (group_reference group desc) subject
              {| eo_name := am_id material; eo_kind := am_type material;
                 eo_bindings := groupArgs; eo_runtimeInputs := None |}) policyAtts);
    Ok (not_nil results).

(** [PolicyGroupVerifier.VerifyMaterial] *)
Definition group_VerifyMaterial (pgv : PolicyGroupVerifier) (material : Attestation_Material)
    (path content : string) : result (list PolicyEvaluation) :=
  results ← mapM_result (verify_group_material pgv material path content) (policyGroups pgv);
  Ok (concat results).

(** One group in [VerifyStatement]; a group that does not load is left out,
    unless it was refused by the network guard *)
Definition verify_group_statement (pgv : PolicyGroupVerifier) (statement : Statement)
    (groupAtt : PolicyGroupAttachment) : result (list PolicyEvaluation) :=
  match load_group groupAtt with
  | Err e => if errors_is ErrBlockedTarget e then Err (EPolicy e) else Ok []
  | Ok (group, desc) =>
      groupArgs ← map_err EPolicy (group_arguments group groupAtt);
      statementJSON ← map_err EPolicy (marshal_statement statement);
      results ← sequential
        (map (group_task pgv groupAtt (group_reference group desc) statementJSON
                {| eo_name := ""; eo_kind := ATTESTATION; eo_bindings := groupArgs;
                   eo_runtimeInputs := None |}) (GroupAttestation group));
      Ok (not_nil results)
  end.

(** [PolicyGroupVerifier.VerifyStatement] *)
Definition group_VerifyStatement (pgv : PolicyGroupVerifier) (statement : Statement)
    : result (list PolicyEvaluation) :=
  results ← mapM_result (verify_group_statement pgv statement) (policyGroups pgv);
  Ok (concat results).

(** ** Where the evaluations of a group come from *)

Lemma evaluate_gate pv att material opts ev :
  snd (evaluatePolicyAttachment pv att material opts) = Ok (Some ev) ->
  pe_gate ev = policyAttachmentGate att (defaultGate pv)
  /\ exists policy ref, load_policy att = Ok (policy, ref)
       /\ pe_name ev = meta_name (policy_metadata policy).
Proof.
  unfold evaluatePolicyAttachment.
  destruct (load_policy att) as [[policy ref]|]; [|done].
  destruct (shouldEvaluateAtPhase _ _); cbn [negb]; [|done].
  destruct (load_scripts _ _ _) as [scripts|]; [|done].
  destruct (forPolicy _ _ _) as [[app rep] matched]. cbn [snd]. unfold evaluate_scripts.
  intros He. inv_ok. case_bool_decide; [done|].
  apply bind_Ok in He as ([vs ws] & _ & He). inv_ok. simplify_eq. cbn. eauto.
Qed.

(** The gate of a group decides over that of its policies, and that over the
    default of the organization. *)
Definition effective_gate (groupAtt : PolicyGroupAttachment) (att : PolicyAttachment)
    (default_ : bool) : bool :=
  default (default default_ (att_gate att)) (group_att_gate groupAtt).

Lemma group_task_Some `{!GateBlind H} pgv groupAtt r subject opts att ev :
  group_task pgv groupAtt r subject opts att = Ok (Some ev) ->
  pe_group_reference ev = Some r
  /\ ~ (pe_name ev ∈ group_att_skip groupAtt)
  /\ pe_gate ev = effective_gate groupAtt att (defaultGate (group_pv pgv)).
Proof.
  unfold group_task. intros Ht. apply bind_Ok in Ht as ([skip nm] & Hs & Ht). inv_ok.
  destruct skip; [done|]. inv_ok.
  match goal with He : snd _ = Ok ?o |- _ => destruct o as [ev0|]; [|done];
    apply evaluate_gate in He as (Hgate & policy & ref & Hl & Hname) end.
  match goal with He : Some _ = Some _ |- _ => cbn in He; injection He as <- | _ => idtac end.
  cbn in *. simplify_eq. cbn. split; [done|]. split.
  - rewrite Hname. unfold shouldSkipPolicy in Hs. rewrite load_gate_blind in Hl. case_bool_decide as Hn.
    + rewrite Hn. apply not_elem_of_nil.
    + rewrite Hl in Hs. cbn in Hs. by case_bool_decide.
  - rewrite Hgate. unfold policyAttachmentGate, effective_gate, applyGroupGate.
    destruct (group_att_gate groupAtt); cbn; [done|]. by destruct (att_gate att).
Qed.

Lemma group_material_elem `{!GateBlind H} pgv material path content groupAtt evs ev :
  verify_group_material pgv material path content groupAtt = Ok evs -> ev ∈ evs ->
  exists group desc att,
    load_group groupAtt = Ok (group, desc)
    /\ (exists gm, gm ∈ GroupMaterials group /\ att ∈ gm_policies gm)
    /\ pe_group_reference ev = Some (group_reference group desc)
    /\ ~ (pe_name ev ∈ group_att_skip groupAtt)
    /\ pe_gate ev = effective_gate groupAtt att (defaultGate (group_pv pgv)).
Proof.
  unfold verify_group_material. intros Hv Hev.
  apply bind_Ok in Hv as ([group desc] & Hl & Hv). inv_ok.
  case_bool_decide; inv_ok; [by apply elem_of_nil in Hev|].
  apply elem_of_not_nil in Hev.
  match goal with Hs : sequential _ = Ok _ |- _ =>
    destruct (sequential_elem _ _ _ _ Hs Hev) as (att & Hatt & Ht) end.
  exists group, desc, att. split; [done|].
  split; [|by eapply group_task_Some].
  match goal with Hr : group_required _ _ _ = Ok _ |- _ =>
    clear -Hr Hatt; revert Hr Hatt end.
  match goal with |- _ = Ok ?l -> _ => generalize l as l' end.
  induction (GroupMaterials group) as [|gm gms IH]; intros l' Hr Hatt; cbn in Hr; inv_ok.
  - by apply elem_of_nil in Hatt.
  - apply elem_of_app in Hatt as [Hatt|Hatt].
    + exists gm. split; [left|].
      match goal with Hi : InterpolateGroupMaterial gm _ = Ok _ |- _ =>
        unfold InterpolateGroupMaterial in Hi; inv_ok end. cbn in *.
      destruct (negb _ && negb _); inv_ok; [by apply elem_of_nil in Hatt|].
      match goal with Hf : filter_attachments _ _ = Ok ?l |- _ => revert Hf Hatt; generalize l end.
      induction (gm_policies gm) as [|a atts IHa]; intros l Hf Hatt; cbn in Hf; inv_ok.
      * by apply elem_of_nil in Hatt.
      * match type of Hatt with _ ∈ (if ?b then _ else _) => destruct b end.
        -- apply elem_of_cons in Hatt as [->|Hatt]; [left|right; by eapply IHa].
        -- right. by eapply IHa.
    + destruct (IH _ ltac:(done) Hatt) as (gm' & ? & ?). exists gm'. split; [by right|done].
Qed.

(** Every evaluation that the group verifier records for a material comes
    from a policy of a group attached to the contract, is marked with exactly
    that group, is of no policy in the group's skip list, and blocks as the
    group's gate says, else as its policy's, else by the default. *)
Theorem group_evaluations_marked `{!GateBlind H} pgv material path content evs ev :
  group_VerifyMaterial pgv material path content = Ok evs -> ev ∈ evs ->
  exists groupAtt group desc att,
    groupAtt ∈ policyGroups pgv
    /\ load_group groupAtt = Ok (group, desc)
    /\ (exists gm, gm ∈ GroupMaterials group /\ att ∈ gm_policies gm)
    /\ pe_group_reference ev = Some (group_reference group desc)
    /\ ~ (pe_name ev ∈ group_att_skip groupAtt)
    /\ pe_gate ev = default (default (defaultGate (group_pv pgv)) (att_gate att))
                       (group_att_gate groupAtt).
Proof.
  unfold group_VerifyMaterial. intros Hv Hev. inv_ok.
  match goal with Hm : mapM_result _ _ = Ok _ |- _ =>
    destruct (mapM_result_concat_elem _ _ _ _ Hm Hev) as (groupAtt & ys & Hin & Hy & Hys) end.
  exists groupAtt. destruct (group_material_elem _ _ _ _ _ _ _ Hy Hys) as (group & desc & att & Hrest).
  by exists group, desc, att.
Qed.

Lemma group_task_err pgv groupAtt r subject opts att e :
  group_task pgv groupAtt r subject opts att = Err e -> is_policy_error e = true.
Proof.
  unfold group_task. intros [Hs | ([skip nm] & _ & Ht)]%bind_Err.
  - by apply map_err_Err in Hs as (e' & _ & ->).
  - destruct skip; [done|]. apply bind_Err in Ht as [Ht | (? & _ & ?)]; [eauto with go | done].
Qed.

Lemma group_tasks_err {B} pgv groupAtt r subject opts atts (k : _ -> result B) e :
  (forall l e, k l <> Err e) ->
  (results ← sequential (map (group_task pgv groupAtt r subject opts) atts); k results) = Err e ->
  is_policy_error e = true.
Proof.
  intros Hk [Hs | (l & _ & Hl)]%bind_Err; [|by apply Hk in Hl].
  apply mapM_result_Err in Hs as (x & Hx & He). cbn in He. subst x.
  apply list_elem_of_fmap in Hx as (att & Hx & _). symmetry in Hx. by eapply group_task_err.
Qed.

(** Errors of the group verifier are policy errors too, and a statement is
    never verified with a group whose load the network guard refused. *)
Theorem group_errors pgv :
  (forall m path content e, group_VerifyMaterial pgv m path content = Err e ->
     is_policy_error e = true)
  /\ (forall st e, group_VerifyStatement pgv st = Err e -> is_policy_error e = true)
  /\ (forall st groupAtt e, groupAtt ∈ policyGroups pgv ->
        load_group groupAtt = Err e -> errors_is ErrBlockedTarget e = true ->
        is_ok (group_VerifyStatement pgv st) = false).
Proof.
  split; [|split].
  - intros m path content e. unfold group_VerifyMaterial.
    intros [Hm | (? & _ & ?)]%bind_Err; [|done].
    apply mapM_result_Err in Hm as (groupAtt & _ & Hm). unfold verify_group_material in Hm.
    apply bind_Err in Hm as [Hm | ([group desc] & _ & Hm)]; [eauto with go|].
    apply bind_Err in Hm as [Hm | (args & _ & Hm)]; [eauto with go|].
    apply bind_Err in Hm as [Hm | (atts & _ & Hm)]; [eauto with go|].
    case_bool_decide; [done|].
    apply bind_Err in Hm as [Hm | (subject & _ & Hm)]; [eauto with go|].
    by eapply group_tasks_err in Hm.
  - intros st e. unfold group_VerifyStatement. intros [Hm | (? & _ & ?)]%bind_Err; [|done].
    apply mapM_result_Err in Hm as (groupAtt & _ & Hm). unfold verify_group_statement in Hm.
    destruct (load_group groupAtt) as [[group desc]|e0].
    2:{ destruct (errors_is ErrBlockedTarget e0); by simplify_eq. }
    apply bind_Err in Hm as [Hm | (args & _ & Hm)]; [eauto with go|].
    apply bind_Err in Hm as [Hm | (js & _ & Hm)]; [eauto with go|].
    by eapply group_tasks_err in Hm.
  - intros st groupAtt e Hin Hl Hb. unfold group_VerifyStatement.
    destruct (mapM_result _ _) as [l|] eqn:Em; [|done].
    apply mapM_result_Ok in Em. apply list_elem_of_lookup in Hin as [i Hi].
    destruct (Forall2_lookup_l _ _ _ _ _ Em Hi) as (y & _ & Hy).
    unfold verify_group_statement in Hy. by rewrite Hl, Hb in Hy.
Qed.

Definition with_groups (pgv : PolicyGroupVerifier) (groups : list PolicyGroupAttachment)
    : PolicyGroupVerifier := {| policyGroups := groups; group_pv := group_pv pgv |}.

(** For statements, a group that does not load (and was not refused by the
    network guard) is as if it were not in the contract. *)
Theorem unloadable_groups_skipped pgv st :
  (forall groupAtt e, groupAtt ∈ policyGroups pgv -> load_group groupAtt = Err e ->
     errors_is ErrBlockedTarget e = false) ->
  group_VerifyStatement pgv st
  = group_VerifyStatement
      (with_groups pgv (List.filter (fun g => is_ok (load_group g)) (policyGroups pgv))) st.
Proof.
  intros Hb. unfold group_VerifyStatement. cbn [policyGroups with_groups].
  assert (forall groups,
    (forall groupAtt e, groupAtt ∈ groups -> load_group groupAtt = Err e ->
       errors_is ErrBlockedTarget e = false) ->
    (results ← mapM_result (verify_group_statement pgv st) groups; Ok (concat results))
    = (results ← mapM_result (verify_group_statement pgv st)
                   (List.filter (fun g => is_ok (load_group g)) groups); Ok (concat results))) as Hg.
  { clear Hb. induction groups as [|g groups IH]; intros Hb; [done|]. cbn.
    specialize (IH (fun a e Ha => Hb a e (list_elem_of_further _ _ _ Ha))).
    destruct (load_group g) as [[group desc]|e] eqn:El; cbn.
    - destruct (verify_group_statement pgv st g); cbn; [|done].
      destruct (mapM_result _ groups), (mapM_result _ (List.filter _ groups)); cbn in *; congruence.
    - assert (verify_group_statement pgv st g = Ok []) as ->.
      { unfold verify_group_statement. rewrite El, (Hb g e); [done | left | done]. }
      cbn.
      destruct (mapM_result _ groups), (mapM_result _ (List.filter _ groups)); cbn in *; congruence. }
  apply Hg. exact Hb.
Qed.
End Groups.

(** ** The material that an evaluation is of *)

Section Named.
Context `{VerifierDeps}.

Lemma evaluation_tasks_named pv subject opts atts results ev :
  sequential (map (evaluation_task pv subject opts) atts) = Ok results ->
  ev ∈ not_nil results -> pe_material_name ev = eo_name opts.
Proof.
  intros Hs Hev%elem_of_not_nil. destruct (sequential_elem _ _ _ _ Hs Hev) as (att & _ & Ht).
  unfold evaluation_task in Ht. inv_ok. by eapply evaluation_named.
Qed.

Lemma VerifyMaterial_named pv m path content evs ev :
  VerifyMaterial pv m path content = Ok evs -> ev ∈ evs -> pe_material_name ev = am_id m.
Proof.
  unfold VerifyMaterial. intros Hv Hev. inv_ok.
  case_bool_decide; inv_ok; [by apply not_elem_of_nil in Hev|]. exact (evaluation_tasks_named _ _ _ _ _ _ ltac:(eassumption) Hev).
Qed.

Lemma VerifyStatement_named pv st evs ev :
  VerifyStatement pv st = Ok evs -> ev ∈ evs -> pe_material_name ev = "".
Proof. unfold VerifyStatement. intros Hv Hev. inv_ok. exact (evaluation_tasks_named _ _ _ _ _ _ ltac:(eassumption) Hev). Qed.

Lemma group_tasks_named pgv groupAtt r subject opts atts results ev :
  sequential (map (group_task pgv groupAtt r subject opts) atts) = Ok results ->
  ev ∈ not_nil results -> pe_material_name ev = eo_name opts.
Proof.
  intros Hs Hev%elem_of_not_nil. destruct (sequential_elem _ _ _ _ Hs Hev) as (att & _ & Ht).
  unfold group_task in Ht. apply bind_Ok in Ht as ([skip nm] & _ & Ht).
  destruct skip; [done|]. inv_ok.
  match goal with He : snd _ = Ok ?o |- _ => destruct o; [|done]; apply evaluation_named in He end.
  cbn in *. by simplify_eq.
Qed.

Lemma group_VerifyMaterial_named pgv m path content evs ev :
  group_VerifyMaterial pgv m path content = Ok evs -> ev ∈ evs -> pe_material_name ev = am_id m.
Proof.
  unfold group_VerifyMaterial. intros Hv Hev. inv_ok.
  match goal with Hm : mapM_result _ _ = Ok _ |- _ =>
    destruct (mapM_result_concat_elem _ _ _ _ Hm Hev) as (g & ys & _ & Hy & Hys) end.
  unfold verify_group_material in Hy. apply bind_Ok in Hy as ([group desc] & _ & Hy). inv_ok.
  case_bool_decide; inv_ok; [by apply not_elem_of_nil in Hys|]. exact (group_tasks_named _ _ _ _ _ _ _ _ ltac:(eassumption) Hys).
Qed.

Lemma group_VerifyStatement_named pgv st evs ev :
  group_VerifyStatement pgv st = Ok evs -> ev ∈ evs -> pe_material_name ev = "".
Proof.
  unfold group_VerifyStatement. intros Hv Hev. inv_ok.
  match goal with Hm : mapM_result _ _ = Ok _ |- _ =>
    destruct (mapM_result_concat_elem _ _ _ _ Hm Hev) as (g & ys & _ & Hy & Hys) end.
  unfold verify_group_statement in Hy. destruct (load_group g) as [[group desc]|e].
  - inv_ok. exact (group_tasks_named _ _ _ _ _ _ _ _ ltac:(eassumption) Hys).
  - destruct (errors_is _ _); inv_ok. by apply not_elem_of_nil in Hys.
Qed.
End Named.

(** ** Witnesses *)

Definition toy_group : PolicyGroup :=
  {| group_metadata := {| meta_name := "g"; meta_description := ""; meta_annotations := ∅;
                          meta_organization := None; meta_finding_type := None |};
     group_policies := Some {| gp_materials := [{| gm_type := MATERIAL_TYPE_UNSPECIFIED; gm_name := "";
                                 gm_optional := false; gm_match_mode := MATCH_UNSPECIFIED;
                                 gm_policies := [toy_attachment] |}];
                               gp_attestation := [toy_attachment] |};
     group_inputs := [] |}.

Definition toy_group_deps : VerifierDeps :=
  {| load_policy := fun att => match GetRef att with "" => Err (EMsg "empty") | _ => Ok (toy_policy, None) end;
     load_group := fun g => if bool_decide (group_att_ref g = "g") then Ok (toy_group, None)
                            else Err (EMsg "not found");
     load_scripts := fun _ _ _ => Ok [{| script_source := "bad"; script_name := "p" |}];
     rego_engine := toy_engine; wasm_engine := toy_engine;
     template_execute := fun t _ => Ok t;
     unmarshal_finding := fun _ => Ok; validate_finding := fun _ _ => Ok tt;
     evaluable := fun _ _ _ => Ok "{}"; Statement := unit; marshal_statement := fun _ => Ok "{}" |}.

#[export] Instance toy_gate_blind : GateBlind toy_group_deps.
Proof. intros att groupAtt. unfold applyGroupGate. by destruct (group_att_gate groupAtt). Qed.

Definition toy_group_attachment (ref : string) : PolicyGroupAttachment :=
  {| group_att_ref := ref; group_att_with := ∅; group_att_skip := ["other"];
     group_att_gate := Some false |}.

Definition toy_pgv : PolicyGroupVerifier :=
  NewPolicyGroupVerifier 8 [toy_group_attachment "missing"; toy_group_attachment "g"] None [].

Lemma group_evaluations_marked_witness :
  exists ev, @group_VerifyMaterial toy_group_deps (with_groups toy_pgv [toy_group_attachment "g"])
               toy_session "" "" = Ok [ev]
    /\ pe_gate ev = false.
Proof.
  destruct (@group_VerifyMaterial toy_group_deps (with_groups toy_pgv [toy_group_attachment "g"])
    toy_session "" "") as [[|ev [|? ?]]|e] eqn:E;
    [vm_compute in E; discriminate E | | vm_compute in E; discriminate E ..].
  exists ev. split; [reflexivity|].
  destruct (@group_evaluations_marked toy_group_deps toy_gate_blind _ _ _ _ _ ev E)
    as (groupAtt & group & desc & att & Hin & _ & _ & _ & _ & Hgate); [apply list_elem_of_here|].
  apply list_elem_of_singleton in Hin as ->. exact Hgate.
Defined.

Lemma unloadable_groups_skipped_witness :
  @group_VerifyStatement toy_group_deps toy_pgv tt
  = @group_VerifyStatement toy_group_deps (with_groups toy_pgv [toy_group_attachment "g"]) tt.
Proof.
  apply (@unloadable_groups_skipped toy_group_deps toy_pgv tt).
  intros groupAtt e _ He. cbn in He. destruct (bool_decide (group_att_ref groupAtt = "g"));
    [discriminate He|]. injection He as <-. reflexivity.
Defined.
