(* ===== verification/Archive.v ===== *)
(** * Archives as material values

    pkg/attestation/crafter/materials/archiveio (recognizing an archive and
    walking it under limits) and materials/archive.go (naming the materials that
    an archive is expanded into).  The zip, tar and gzip decoders are
    parameters: what they give is a list of entries and a reader. *)

From stdpp Require Import pretty.
From S2P Require Import Prelude.
From S2P Require Import GoStrings.
From S2P Require Import Filepath.
From S2P Require Import Contract.

(** ** Recognizing an archive (archiveio.go) *)

Inductive Format := None_ | Zip | Tar | TarGz.

#[export] Instance Format_eq_dec : EqDecision Format.
Proof. solve_decision. Defined.

Record Limits := { MaxEntries : Z; MaxTotalSize : Z }.

Definition DefaultLimits : Limits := {| MaxEntries := 10000; MaxTotalSize := 1073741824 |}.

Definition ErrTooManyEntries : goerr := ESentinel "archive exceeds the maximum number of entries".
Definition ErrArchiveTooLarge : goerr := ESentinel "archive exceeds the maximum uncompressed size".
Definition ErrUnsafeEntry : string := "unsafe entry path in archive".

(** [strings.ToLower], on the bytes of a text: of the runes outside ASCII, only
    the Kelvin sign and the dotted capital I have an ASCII lower case *)
Definition lower_char (c : ascii) : ascii :=
  let n := Ascii.nat_of_ascii c in
  if bool_decide (65 <= n) && bool_decide (n <= 90) then Ascii.ascii_of_nat (n + 32) else c.

Fixpoint ToLower_ascii (s : string) : string :=
  match s with
  | String a (String b (String c s' as s2) as s1) =>
      if Ascii.eqb a (byte 226) && Ascii.eqb b (byte 132) && Ascii.eqb c (byte 170)
      then String "k" (ToLower_ascii s')
      else if Ascii.eqb a (byte 196) && Ascii.eqb b (byte 176)
      then String "i" (ToLower_ascii s2)
      else String (lower_char a) (ToLower_ascii s1)
  | String a (String b "") =>
      if Ascii.eqb a (byte 196) && Ascii.eqb b (byte 176) then "i"
      else String (lower_char a) (String (lower_char b) "")
  | String a "" => String (lower_char a) ""
  | "" => ""
  end.

(** [detectByExtension] *)
Definition detectByExtension (p : string) : Format :=
  let lower := ToLower_ascii p in
  if has_suffix lower ".zip" then Zip
  else if has_suffix lower ".tar.gz" || has_suffix lower ".tgz" then TarGz
  else if has_suffix lower ".tar" then Tar
  else None_.

(** [DetectBytes] *)
Definition DetectBytes (data : string) : Format :=
  if has_prefix data (bytes [80; 75; 3; 4]) || has_prefix data (bytes [80; 75; 5; 6]) then Zip
  else if has_prefix data (bytes [31; 139]) then TarGz
  else if bool_decide (262 <= String.length data) && String.eqb (String.substring 257 5 data) "ustar"
  then Tar
  else None_.

Definition magicPeek : nat := 512.

(** [detectPathByMagic] and [DetectFile]; [open] gives the content of a file *)
Definition ErrNotAFile : string := "not a file".

Definition detectPathByMagic (open : string -> result string) (p : string) : result Format :=
  match open p with
  | Err e => if errors_is ErrNotAFile e then Ok None_ else Err (EWrap ("opening " +:+ p) e)
  | Ok content => Ok (DetectBytes (str_take magicPeek content))
  end.

(** [DetectPath] *)
Definition DetectPath (open : string -> result string) (p : string) : result Format :=
  match detectByExtension p with
  | None_ => detectPathByMagic open p
  | f => Ok f
  end.

(** ** Safe entry names *)

Definition normalize_slashes (name : string) : string := replace_all name (bytes [92]) slash.

(** [hasWindowsDriveLetter] *)
Definition hasWindowsDriveLetter (name : string) : bool :=
  match name with
  | String c (String d _) =>
      let n := Ascii.nat_of_ascii c in
      Ascii.eqb d ":" && ((bool_decide (97 <= n) && bool_decide (n <= 122))
                          || (bool_decide (65 <= n) && bool_decide (n <= 90)))
  | _ => false
  end.

(** [safePath] *)
Definition safePath (name : string) : bool :=
  let normalized := normalize_slashes name in
  if has_prefix normalized "/" || hasWindowsDriveLetter normalized then false
  else
    let clean := Clean ("/root" +:+ "/" +:+ normalized) in
    has_prefix clean "/root/" || bool_decide (clean = "/root").

(** ** Reading under a size limit *)

(** [capReader.Read]: [read n] reads at most [n] bytes from the wrapped reader
    and gives how many it read and its error; the shared total is the state *)
Definition capRead (max : Z) (read : Z -> Z * option goerr) (plen total : Z)
    : (Z * option goerr) * Z :=
  if bool_decide (max < total)%Z then ((0, Some ErrArchiveTooLarge), total)%Z
  else
    let probe := (max - total + 1)%Z in
    let plen := if bool_decide (probe < plen)%Z then probe else plen in
    let '(n, err) := read plen in
    let total := (total + n)%Z in
    if bool_decide (max < total)%Z then ((0, Some ErrArchiveTooLarge), total)%Z
    else ((n, err), total).

(** A sequence of reads, each with its own buffer, through one shared total: the
    bytes that reach the caller, and the total *)
Fixpoint capReads (max : Z) (reads : list (Z * (Z -> Z * option goerr))) (total : Z) : Z * Z :=
  match reads with
  | [] => (0, total)%Z
  | (plen, read) :: reads' =>
      let '((n, _), total) := capRead max read plen total in
      let '(rest, total) := capReads max reads' total in
      (n + rest, total)%Z
  end.

(** A reader never gives more than it was asked for. *)
Definition reader_ok (read : Z -> Z * option goerr) : Prop :=
  forall n, (0 <= n -> 0 <= fst (read n) <= n)%Z.

(** Whatever an archive declares and however it is read, the bytes handed
    out through the shared counter never exceed the size limit, and at most one
    byte beyond it is ever read from the archive. *)
Theorem capReads_bounded max reads :
  (0 <= max)%Z -> Forall (fun r => (0 <= fst r)%Z /\ reader_ok (snd r)) reads ->
  let '(delivered, total) := capReads max reads 0 in
  (0 <= delivered <= max)%Z /\ (total <= max + 1)%Z.
Proof.
  intros Hmax H.
  enough (forall total, (0 <= total <= max + 1)%Z ->
    let '(delivered, total') := capReads max reads total in
    (0 <= delivered)%Z /\ (total <= total')%Z /\ (total' <= max + 1)%Z
    /\ (delivered <= Z.max 0 (max - total))%Z) as Hgen.
  { specialize (Hgen 0%Z ltac:(lia)). destruct (capReads max reads 0). lia. }
  induction H as [|[plen read] reads [Hp Hr] _ IH]; intros total Ht; cbn [capReads]; [lia|].
  unfold capRead. cbn in Hp, Hr. case_bool_decide as H1.
  { specialize (IH total Ht). destruct (capReads max reads total). lia. }
  set (p := if bool_decide _ then _ else plen).
  assert (0 <= p <= max - total + 1)%Z as Hpr by (unfold p; case_bool_decide; lia).
  specialize (Hr p ltac:(lia)). destruct (read p) as [n err]. cbn in Hr.
  case_bool_decide as H2.
  - specialize (IH (total + n)%Z ltac:(lia)). destruct (capReads max reads (total + n)). lia.
  - specialize (IH (total + n)%Z ltac:(lia)). destruct (capReads max reads (total + n)). lia.
Qed.

Lemma capReads_bounded_witness :
  let reads := [(512, fun n => (n, None)); (512, fun n => (Z.min n 3, None))]%Z in
  Forall (fun r => (0 <= fst r)%Z /\ reader_ok (snd r)) reads
  /\ let '(delivered, total) := capReads 600 reads 0 in (0 <= delivered <= 600)%Z /\ (total <= 601)%Z.
Proof.
  assert (Forall (fun r => (0 <= fst r)%Z /\ reader_ok (snd r))
    [(512, fun n => (n, None)); (512, fun n => (Z.min n 3, None))]%Z) as H.
  { repeat constructor; cbn; intros; lia. }
  split; [exact H|]. exact (capReads_bounded 600 _ ltac:(lia) H).
Defined.

(** ** Walking an archive *)

(** An entry, as the decoders give it: its name, whether it is a regular file
    with content, and what handing its body to the caller does *)
Record Entry := { entry_name : string; entry_regular : bool; entry_size : Z }.

Section Walk.
(** The state of the caller and what it does with an entry *)
Context {S : Type} (yield : S -> Entry -> result S).
Context (limits : Limits).

(** [walkGuard.consider], [visit] and the loops of [walkZipEntries] and
    [walkTarStream] *)
Definition consider (count : Z) (name : string) : result Z :=
  if negb (safePath name) then Err (EWrap name (ESentinel ErrUnsafeEntry))
  else if bool_decide (MaxEntries limits < count + 1)%Z then Err ErrTooManyEntries
  else Ok (count + 1)%Z.

Definition visit (s : S) (e : Entry) : result S :=
  map_err (EWrap ("processing entry " +:+ entry_name e)) (yield s e).

Fixpoint walkEntries (entries : list Entry) (count : Z) (s : S) : result S :=
  match entries with
  | [] => Ok s
  | e :: entries' =>
      count ← consider count (entry_name e);
      if negb (entry_regular e) || bool_decide (entry_size e = 0)%Z
      then walkEntries entries' count s
      else s ← visit s e; walkEntries entries' count s
  end.

(** [WalkPath] and [WalkBytes], given the decoded entries *)
Definition Walk (format : Format) (decoded : result (list Entry)) (s : S) : result S :=
  match format with
  | None_ => Err (EMsg "unsupported archive format")
  | _ => entries ← decoded; walkEntries entries 0 s
  end.
End Walk.

(** The entries that reach the caller *)
Definition regular (e : Entry) : bool := entry_regular e && negb (bool_decide (entry_size e = 0)%Z).

(** A walk either fails or has seen every entry of the archive: all names
    are safe, there are at most MaxEntries of them (skipped ones included), and
    the caller got exactly the non-empty regular files, in order.  In particular
    one entry with an unsafe path makes the whole walk fail; it is not skipped. *)
Theorem walk_all_or_nothing limits entries l :
  walkEntries (fun seen e => Ok (seen ++ [e])) limits entries 0 [] = Ok l ->
  l = List.filter regular entries
  /\ Forall (fun e => safePath (entry_name e) = true) entries
  /\ (entries <> [] -> (Z.of_nat (length entries) <= MaxEntries limits)%Z).
Proof.
  assert (forall count seen, (count <= MaxEntries limits \/ count = 0)%Z ->
    walkEntries (fun seen e => Ok (seen ++ [e])) limits entries count seen = Ok l ->
    l = seen ++ List.filter regular entries
    /\ Forall (fun e => safePath (entry_name e) = true) entries
    /\ (entries <> [] -> (count + Z.of_nat (length entries) <= MaxEntries limits)%Z)) as Hgen.
  { induction entries as [|e entries IH]; intros count seen Hc Hw; cbn [walkEntries] in Hw.
    - injection Hw as <-. by rewrite app_nil_r.
    - apply bind_Ok in Hw as (count' & Hco & Hw). unfold consider in Hco.
      destruct (safePath (entry_name e)) eqn:Es; [|done]. cbn [negb] in Hco.
      destruct (bool_decide (MaxEntries limits < count + 1)%Z) eqn:Hm; [done|].
      injection Hco as <-. apply bool_decide_eq_false in Hm.
      assert (exists seen', walkEntries (fun seen e => Ok (seen ++ [e])) limits entries
                (count + 1) seen' = Ok l
              /\ seen' ++ List.filter regular entries = seen ++ List.filter regular (e :: entries))
        as (seen' & Hw' & Hs).
      { unfold regular at 2. cbn [List.filter].
        destruct (entry_regular e), (bool_decide (entry_size e = 0)%Z); cbn in *;
          eexists; (split; [exact Hw|]); try done. by rewrite <- app_assoc. }
      destruct (IH (count + 1)%Z seen') as (-> & Hall & Hlen); [left; lia | done|].
      split; [exact Hs|]. split; [by constructor|]. intros _. cbn [length].
      destruct entries; [cbn; lia|]. specialize (Hlen ltac:(done)). cbn in *. lia. }
  intros Hw. destruct (Hgen 0%Z []) as (-> & H1 & H2); auto.
Qed.

Lemma walk_all_or_nothing_witness :
  let e := {| entry_name := "a/x.json"; entry_regular := true; entry_size := 3 |} in
  walkEntries (fun seen e => Ok (seen ++ [e])) DefaultLimits [e] 0 [] = Ok [e]
  /\ [e] = List.filter regular [e].
Proof.
  split; [vm_compute; reflexivity|].
  apply (walk_all_or_nothing DefaultLimits [{| entry_name := "a/x.json"; entry_regular := true;
    entry_size := 3 |}]). vm_compute. reflexivity.
Defined.

(** ** What safe names are *)

Lemma Clean_root_prefix l :
  Forall proper l ->
  has_prefix (slash +:+ join ("root" :: l) slash) "/root/"
  || bool_decide (slash +:+ join ("root" :: l) slash = "/root") = true.
Proof.
  intros _. destruct l as [|x l]; [done|]. rewrite join_cons. apply orb_true_iff. left.
  unfold has_prefix. change (slash +:+ "root" +:+ slash +:+ ?x) with ("/root/" +:+ x).
  apply prefix_app.
Qed.

Lemma root_comps x :
  comps ("/root" +:+ "/" +:+ x) = clean_elems true ["root"] (split x slash).
Proof.
  unfold comps. change ("/root" +:+ "/" +:+ x) with ("/root" +:+ String "/" "" +:+ x).
  unfold slash. rewrite split_app_char. done.
Qed.

Lemma has_prefix_slash x : has_prefix x "/" = IsAbs x.
Proof.
  destruct x as [|c x]; [done|]. unfold has_prefix, IsAbs. cbn [String.prefix].
  case_bool_decide; destruct (Ascii.ascii_dec "/" c); subst; try done. by destruct x.
Qed.

(** Every local path is accepted. *)
Lemma safePath_local name :
  IsLocal (normalize_slashes name) = true -> hasWindowsDriveLetter (normalize_slashes name) = false ->
  safePath name = true.
Proof.
  intros Hl Hd. unfold safePath. set (x := normalize_slashes name) in *. rewrite Hd.
  destruct (IsLocal_comps _ Hl) as [Ha Hh].
  rewrite has_prefix_slash, Ha. cbn [orb]. unfold Clean. replace (IsAbs ("/root" +:+ "/" +:+ x)) with true by done.
  rewrite root_comps, (clean_elems_below true [] ["root"]); [|done|by unfold comps in Hh; rewrite Ha in Hh].
  cbn [rev app]. apply Clean_root_prefix.
  apply (normal_suffix_proper false []); [|by unfold comps in Hh; rewrite Ha in Hh].
  pose proof (comps_normal x) as Hn. rewrite Ha in Hn. unfold comps in Hn. by rewrite Ha in Hn.
Qed.

Lemma normalize_app a x :
  has_char (byte 92) a = false -> normalize_slashes (a +:+ x) = a +:+ normalize_slashes x.
Proof. intros H. unfold normalize_slashes. by apply (replace_all_app_l (byte 92) ""). Qed.

(** The path guard of the archives can be escaped through its virtual root:
    whenever a name is accepted, so is the same name below ../root, which leaves
    the extraction directory. *)
Theorem safePath_reenters_root x :
  safePath x = true ->
  safePath ("../root/" +:+ x) = true /\ IsLocal ("../root/" +:+ x) = false.
Proof.
  intros Hs. split.
  - unfold safePath in *. rewrite normalize_app by done.
    destruct (has_prefix (normalize_slashes x) "/" || _); [done|]. cbn [orb].
    change (has_prefix ("../root/" +:+ normalize_slashes x) "/") with false.
    change (hasWindowsDriveLetter ("../root/" +:+ normalize_slashes x)) with false. cbn [orb].
    enough (Clean ("/root" +:+ "/" +:+ "../root/" +:+ normalize_slashes x)
            = Clean ("/root" +:+ "/" +:+ normalize_slashes x)) as -> by done.
    unfold Clean. change (IsAbs ("/root" +:+ ?y)) with true. cbn iota.
    rewrite !root_comps.
    change ("../root/" +:+ normalize_slashes x) with ("../root" +:+ String "/" "" +:+ normalize_slashes x).
    unfold slash. rewrite split_app_char. done.
  - destruct (IsLocal ("../root/" +:+ x)) eqn:El; [|done].
    apply IsLocal_comps in El as [_ Hh]. unfold comps in Hh.
    change (IsAbs ("../root/" +:+ x)) with false in Hh.
    change ("../root/" +:+ x) with ("../root" +:+ String "/" "" +:+ x) in Hh.
    unfold slash in Hh. rewrite split_app_char in Hh. destruct Hh.
    destruct (clean_elems_dots [] ("root" :: split x (String "/" ""))) as (l & Hl).
    change (head (clean_elems false ([] ++ [".."]) ("root" :: split x (String "/" ""))) = Some "..").
    by rewrite Hl.
Qed.

Lemma safePath_reenters_root_witness :
  safePath "etc/passwd" = true /\ safePath "../root/etc/passwd" = true.
Proof.
  split; [vm_compute; reflexivity|].
  exact (proj1 (safePath_reenters_root "etc/passwd" ltac:(vm_compute; reflexivity))).
Defined.

(** ** The kinds that are expanded, and the names of the entries (archive.go) *)

Definition explodableKinds : list string :=
  [MaterialType_name SBOM_CYCLONEDX_JSON; MaterialType_name SBOM_SPDX_JSON; MaterialType_name SARIF].

Definition IsExplodableKind (kind : string) : bool := bool_decide (kind ∈ explodableKinds).

(** [NormalizeArchivePath] and [ArchiveEntryBaseName] ([path.Base]) *)
Definition NormalizeArchivePath (name : string) : string := normalize_slashes name.

Definition ArchiveEntryBaseName (name : string) : string :=
  let p := NormalizeArchivePath name in
  if is_empty p then "."
  else match List.filter (fun e => negb (is_empty e)) (split p slash) with
       | [] => slash
       | es => List.last es ""
       end.

Definition lower_alnum (c : ascii) : bool :=
  let n := Ascii.nat_of_ascii c in
  (bool_decide (97 <= n) && bool_decide (n <= 122)) || (bool_decide (48 <= n) && bool_decide (n <= 57)).

(** The loop of [SanitizeMaterialName]: whether something was written, and
    whether a hyphen is pending *)
Fixpoint sanitize (written pendingHyphen : bool) (s : string) : string :=
  match s with
  | "" => ""
  | String c s' =>
      if lower_alnum c then
        (if pendingHyphen && written then "-" else "") +:+ String c (sanitize true false s')
      else sanitize written true s'
  end.

(** [SanitizeMaterialName] *)
Definition SanitizeMaterialName (s : string) : string := sanitize false false (ToLower_ascii s).

Definition defaultMaterialName : string := "material".

Record NameAllocator := { used : gset string; named : gmap string nat }.

Definition NewNameAllocator (existing : list string) : NameAllocator :=
  {| used := list_to_set existing; named := ∅ |}.

Definition candidate (b : string) (n : nat) : string :=
  if bool_decide (0 < n) then b +:+ "-" +:+ pretty n else b.

(** The loop of [AllocateNamed]; [None] is a loop that runs on *)
Fixpoint allocate_loop (fuel : nat) (a : NameAllocator) (b : string)
    : option (string * NameAllocator) :=
  match fuel with
  | O => None
  | S fuel' =>
      let n := default 0 (named a !! b) in
      let a := {| used := used a; named := <[b := S n]> (named a) |} in
      if bool_decide (candidate b n ∈ used a) then allocate_loop fuel' a b
      else Some (candidate b n, {| used := {[candidate b n]} ∪ used a; named := named a |})
  end.

Definition base_name (base : string) : string :=
  let s := SanitizeMaterialName base in if is_empty s then defaultMaterialName else s.

(** [AllocateNamed]; one try more than there are names in use is enough *)
Definition AllocateNamed (a : NameAllocator) (base : string) : option (string * NameAllocator) :=
  allocate_loop (S (size (used a))) a (base_name base).

(** [AppendReferences] (materials.go) *)
Fixpoint append_refs (seen : gset string) (refs names : list string) : list string :=
  match names with
  | [] => refs
  | n :: names' =>
      if bool_decide (n ∈ seen) then append_refs seen refs names'
      else append_refs ({[n]} ∪ seen) (refs ++ [n]) names'
  end.

Definition AppendReferences (existing : string) (names : list string) : string :=
  let refs := if is_empty existing then [] else split existing "," in
  join (append_refs (list_to_set refs) refs names) ",".

(** ** Allocated names are fresh and valid *)

#[local] Arguments String.append !_ _ /.

Fixpoint last_char (s : string) : option ascii :=
  match s with
  | "" => None
  | String c s' => match last_char s' with None => Some c | Some d => Some d end
  end.

Definition first_char (s : string) : option ascii :=
  match s with "" => None | String c _ => Some c end.

Definition name_char (c : ascii) : bool := lower_alnum c || Ascii.eqb c "-".

(** ^[a-z0-9]([-a-z0-9]*[a-z0-9])?$, the pattern of a material name *)
Definition valid_name (s : string) : bool :=
  match first_char s, last_char s with
  | Some f, Some l => lower_alnum f && lower_alnum l && str_forall name_char s
  | _, _ => false
  end.

Lemma str_forall_app f a b : str_forall f (a +:+ b) = str_forall f a && str_forall f b.
Proof. induction a as [|c a IH]; [done|]. cbn. by rewrite IH, andb_assoc. Qed.

Lemma last_char_app a b :
  last_char (a +:+ b) = match last_char b with Some c => Some c | None => last_char a end.
Proof.
  induction a as [|c a IH]; cbn; [by destruct (last_char b)|].
  rewrite IH. by destruct (last_char b), (last_char a).
Qed.

Lemma last_char_None s : last_char s = None -> s = "".
Proof. destruct s; cbn; [done|]. by destruct (last_char s). Qed.

(** What is written ends and starts with a letter or a digit. *)
Lemma sanitize_chars written pending s :
  str_forall name_char (sanitize written pending s) = true
  /\ (forall l, last_char (sanitize written pending s) = Some l -> lower_alnum l = true)
  /\ (written = false -> forall f, first_char (sanitize written pending s) = Some f -> lower_alnum f = true).
Proof.
  revert written pending. induction s as [|c s IH]; intros written pending; cbn [sanitize]; [done|].
  destruct (lower_alnum c) eqn:Ec; [|apply IH].
  destruct (IH true false) as (H1 & H2 & _).
  assert (last_char (String c (sanitize true false s)) = Some c
          \/ last_char (String c (sanitize true false s)) = last_char (sanitize true false s)) as Hl
    by (cbn; destruct (last_char (sanitize true false s)); auto).
  assert (name_char c = true) as Hc by (unfold name_char; by rewrite Ec).
  split; [|split].
  - destruct (pending && written); cbn [String.append str_forall]; by rewrite Hc, H1.
  - intros l. rewrite last_char_app. destruct (last_char (String c _)) as [d|] eqn:Ed;
      [|by apply last_char_None in Ed].
    intros [= ->]. destruct Hl as [Hl|Hl]; [by simplify_eq|]. apply H2. congruence.
  - intros ->. rewrite andb_false_r. cbn. intros f [= ->]. done.
Qed.

Lemma valid_name_of s :
  str_forall name_char s = true -> (forall l, last_char s = Some l -> lower_alnum l = true) ->
  (forall f, first_char s = Some f -> lower_alnum f = true) -> s <> "" -> valid_name s = true.
Proof.
  intros H1 H2 H3 H4. unfold valid_name. destruct s as [|c s]; [done|]. cbn [first_char].
  destruct (last_char (String c s)) as [l|] eqn:El; [|by apply last_char_None in El].
  by rewrite (H3 c), (H2 l), H1.
Qed.

Lemma base_name_valid base : valid_name (base_name base) = true.
Proof.
  unfold base_name. destruct (is_empty _) eqn:E; [by vm_compute|]. apply is_empty_false in E.
  destruct (sanitize_chars false false (ToLower_ascii base)) as (H1 & H2 & H3).
  apply valid_name_of; auto.
Qed.

Definition digit (c : ascii) : bool :=
  let n := Ascii.nat_of_ascii c in bool_decide (48 <= n) && bool_decide (n <= 57).

Lemma pretty_N_char_digit x : digit (pretty_N_char x) = true.
Proof. unfold pretty_N_char. by repeat case_match. Qed.

Lemma pretty_digits (n : nat) : str_forall digit (pretty n) = true.
Proof.
  unfold pretty, pretty_nat, pretty, pretty_N. case_decide; [done|].
  generalize (N.of_nat n) as x. intros x.
  assert (forall s, str_forall digit s = true -> str_forall digit (pretty_N_go x s) = true) as Hgo.
  { induction (N.lt_wf_0 x) as [x _ IH]. intros s Hs.
    destruct (decide (x = 0%N)) as [->|Hx]; [by rewrite pretty_N_go_0|].
    rewrite pretty_N_go_step by lia. apply IH; [apply N.div_lt; lia|].
    cbn. by rewrite pretty_N_char_digit. }
  by apply Hgo.
Qed.

Lemma digits_alnum s : str_forall digit s = true ->
  str_forall name_char s = true /\ (forall l, last_char s = Some l -> lower_alnum l = true).
Proof.
  induction s as [|c s IH]; [done|]. cbn. intros [Hc Hs]%andb_true_iff.
  destruct (IH Hs) as [H1 H2].
  assert (lower_alnum c = true) as Hl by (unfold lower_alnum; fold (digit c); by rewrite Hc, orb_true_r).
  rewrite H1. split; [unfold name_char; by rewrite Hl|].
  destruct (last_char s) as [d|]; [by intros l [= ->]; auto | by intros l [= <-]].
Qed.

Lemma pretty_not_empty (n : nat) : pretty n <> "".
Proof.
  destruct (decide (n = 0)) as [->|Hn]; [done|]. intros Hp.
  assert (pretty n = pretty n) as Hr by done. rewrite Hp in Hr at 1.
  unfold pretty, pretty_nat, pretty, pretty_N in Hp. case_decide; [lia|].
  rewrite pretty_N_go_step in Hp by lia.
  assert (forall x s, String.length s <= String.length (pretty_N_go x s)) as Hlen.
  { intros x. induction (N.lt_wf_0 x) as [x _ IH]. intros s.
    destruct (decide (x = 0%N)) as [->|Hx]; [by rewrite pretty_N_go_0|].
    rewrite pretty_N_go_step by lia. etransitivity; [|apply IH, N.div_lt; lia]. cbn. lia. }
  specialize (Hlen (N.of_nat n `div` 10)%N (String (pretty_N_char (N.of_nat n `mod` 10)) "")).
  rewrite Hp in Hlen. cbn in Hlen. lia.
Qed.

Lemma candidate_valid b n : valid_name b = true -> valid_name (candidate b n) = true.
Proof.
  intros Hb. unfold candidate. case_bool_decide as Hn; [|done].
  destruct b as [|c b]; [done|]. unfold valid_name in Hb. cbn [first_char] in Hb.
  destruct (last_char (String c b)) as [l|] eqn:El; [|done].
  apply andb_true_iff in Hb as [[Hf Hl]%andb_true_iff Hall].
  destruct (digits_alnum _ (pretty_digits n)) as [Hd1 Hd2].
  apply valid_name_of.
  - rewrite !str_forall_app, Hd1. by rewrite Hall.
  - intros l'. rewrite !last_char_app.
    destruct (last_char (pretty n)) as [d|] eqn:Ed; [by intros [= <-]; apply Hd2|].
    by apply last_char_None, pretty_not_empty in Ed.
  - cbn. by intros f [= <-].
  - done.
Qed.

Lemma candidate_inj b n m : candidate b n = candidate b m -> n = m.
Proof.
  assert (forall k : nat, b +:+ "-" +:+ pretty k <> b) as Hne.
  { intros k Hk. apply (f_equal String.length) in Hk. rewrite !str_length_app in Hk. cbn in Hk. lia. }
  unfold candidate. case_bool_decide; case_bool_decide; intros Hc.
  - apply str_app_inj, str_app_inj in Hc. by apply (inj pretty).
  - by apply Hne in Hc.
  - by symmetry in Hc; apply Hne in Hc.
  - lia.
Qed.

(** One of any more candidates than names in use is free. *)
Lemma free_candidate (used_ : gset string) b n k :
  size used_ < k -> exists i, n <= i < n + k /\ candidate b i ∉ used_.
Proof.
  intros Hk. destruct (decide (Forall (fun i => candidate b i ∈ used_) (seq n k))) as [Hall|Hex].
  - exfalso. assert (size (list_to_set (C := gset string) (map (candidate b) (seq n k))) = k) as Hsz.
    { rewrite size_list_to_set; [by rewrite length_map, length_seq|].
      apply NoDup_fmap_2_strong; [|apply NoDup_seq].
      intros x y _ _. apply candidate_inj. }
    assert (list_to_set (map (candidate b) (seq n k)) ⊆ used_) as Hsub.
    { intros x Hx. apply elem_of_list_to_set, list_elem_of_fmap in Hx as (i & -> & Hi).
      rewrite Forall_forall in Hall. by apply Hall. }
    apply subseteq_size in Hsub. lia.
  - apply not_Forall_Exists in Hex; [|apply _]. apply Exists_exists in Hex as (i & Hi & Hc).
    apply elem_of_seq in Hi. by exists i.
Qed.

(** The loop finds the first free candidate from the counter on. *)
Lemma allocate_loop_finds fuel a b n :
  default 0 (named a !! b) = n -> (exists i, n <= i < n + fuel /\ candidate b i ∉ used a) ->
  exists i a', allocate_loop fuel a b = Some (candidate b i, a')
    /\ n <= i /\ (candidate b i ∉ used a) /\ used a' = {[candidate b i]} ∪ used a
    /\ (forall j, n <= j < i -> candidate b j ∈ used a).
Proof.
  revert a n. induction fuel as [|fuel IH]; intros a n Hn (i & Hi & Hfree); [lia|].
  cbn [allocate_loop]. rewrite Hn. cbn [used]. case_bool_decide as Hu.
  - destruct (IH {| used := used a; named := <[b := S n]> (named a) |} (S n))
      as (j & a' & -> & Hj & Hf & Hu' & Hmin); cbn [used named] in *.
    + by rewrite lookup_insert_eq.
    + exists i. split; [|done]. assert (i <> n) by congruence. lia.
    + exists j, a'. repeat (split; [done || lia|]). intros k Hk.
      destruct (decide (k = n)) as [->|]; [done|]. apply Hmin. lia.
  - exists n. eexists. split; [done|]. cbn. split; [lia|]. split; [done|]. split; [done|]. lia.
Qed.

Lemma AllocateNamed_spec a base :
  exists i a', AllocateNamed a base = Some (candidate (base_name base) i, a')
    /\ (candidate (base_name base) i ∉ used a)
    /\ used a' = {[candidate (base_name base) i]} ∪ used a
    /\ valid_name (candidate (base_name base) i) = true
    /\ (forall j, default 0 (named a !! base_name base) <= j < i ->
           candidate (base_name base) j ∈ used a).
Proof.
  unfold AllocateNamed.
  destruct (allocate_loop_finds (S (size (used a))) a (base_name base) _ eq_refl)
    as (i & a' & Hl & _ & Hf & Hu & Hmin); [apply free_candidate; lia|].
  exists i, a'. repeat (split; [done|]). split; [|done]. apply candidate_valid, base_name_valid.
Qed.

(** The name allocator always answers, with a valid material name that is
    not in use, reserves it, and gives the first free name of base, base-1,
    base-2 and so on: entries of an archive never overwrite a material. *)
Theorem AllocateNamed_fresh a base :
  exists i a', AllocateNamed a base = Some (candidate (base_name base) i, a')
    /\ (candidate (base_name base) i ∉ used a)
    /\ used a' = {[candidate (base_name base) i]} ∪ used a
    /\ valid_name (candidate (base_name base) i) = true
    /\ (forall j, default 0 (named a !! base_name base) <= j < i ->
           candidate (base_name base) j ∈ used a).
Proof. apply AllocateNamed_spec. Qed.
