(* ===== verification/Crafter.v ===== *)
(** * The crafter: building an attestation

    pkg/attestation/crafter/crafter.go: the crafter keeps the state of an
    attestation in memory and persists it through a state manager.  Materials
    are crafted, verified against the policies and staged; an archive is staged
    as one transaction; the policies of the attestation are evaluated at each
    phase and merged with what earlier phases recorded.

    Crafting a material from its value, the persistence and the archive decoders
    are parameters. *)

From stdpp Require Import pretty.
From S2P Require Import Prelude.
From S2P Require Import GoStrings.
From S2P Require Import Contract.
From S2P Require Import RuntimeInputs.
From S2P Require Import PolicyArgs.
From S2P Require Import PolicyEngine.
From S2P Require Import PolicyLoaders.
From S2P Require Import CraftingState.
From S2P Require Import ErrGroup.
From S2P Require Import PolicyVerifier.
From S2P Require Import PolicyGroups.
From S2P Require Import Archive.

(** ** State *)

(** [StateManager]: what persisting promises; the checksum guards an update *)
Class StateManager := {
  Store : Type;
  sm_Read : Store -> string -> result (CraftingState * string);
  sm_Write : Store -> string -> CraftingState -> string -> result string * Store
}.

(** [VersionedCraftingState] in memory, and what is persisted *)
Record Crafter `{StateManager} := {
  cr_state : option (CraftingState * string);
  cr_store : Store
}.

Definition ErrAttestationStateNotLoaded : goerr := ESentinel "crafting state not loaded".

(** The errors that stop the detection of a kind *)
Definition ErrBaseUploadAndCraft : string := "upload and craft error".
Definition ErrStateConflict : string := "attestation state conflict".
Definition ErrValidation : string := "validation error".

Definition with_attestation (st : CraftingState) (a : Attestation) : CraftingState :=
  {| st_schema := st_schema st; st_attestation := a; st_dry_run := st_dry_run st;
     st_ui_dashboard_url := st_ui_dashboard_url st |}.

Definition with_evaluations (st : CraftingState) (evs : list PolicyEvaluation) : CraftingState :=
  let a := st_attestation st in
  with_attestation st
    {| a_initialized_at := a_initialized_at a; a_finished_at := a_finished_at a;
       a_workflow := a_workflow a; a_materials := a_materials a; a_annotations := a_annotations a;
       a_env_vars := a_env_vars a; a_policy_evaluations := evs; a_head := a_head a;
       a_runner_url := a_runner_url a; a_runner_type := a_runner_type a;
       a_runner_environment := a_runner_environment a;
       a_block_on_policy_violation := a_block_on_policy_violation a;
       a_bypass_policy_check := a_bypass_policy_check a;
       a_policies_allowed_hostnames := a_policies_allowed_hostnames a;
       a_skip_runner_env_vars := a_skip_runner_env_vars a;
       a_signing_options := a_signing_options a; a_auth := a_auth a;
       a_cas_backend := a_cas_backend a |}.

Definition with_materials (st : CraftingState) (ms : gmap string Attestation_Material)
    : CraftingState :=
  let a := st_attestation st in
  with_attestation st
    {| a_initialized_at := a_initialized_at a; a_finished_at := a_finished_at a;
       a_workflow := a_workflow a; a_materials := ms; a_annotations := a_annotations a;
       a_env_vars := a_env_vars a; a_policy_evaluations := a_policy_evaluations a; a_head := a_head a;
       a_runner_url := a_runner_url a; a_runner_type := a_runner_type a;
       a_runner_environment := a_runner_environment a;
       a_block_on_policy_violation := a_block_on_policy_violation a;
       a_bypass_policy_check := a_bypass_policy_check a;
       a_policies_allowed_hostnames := a_policies_allowed_hostnames a;
       a_skip_runner_env_vars := a_skip_runner_env_vars a;
       a_signing_options := a_signing_options a; a_auth := a_auth a;
       a_cas_backend := a_cas_backend a |}.

Definition evaluations (st : CraftingState) : list PolicyEvaluation :=
  a_policy_evaluations (st_attestation st).

Definition materials (st : CraftingState) : gmap string Attestation_Material :=
  a_materials (st_attestation st).

Lemma with_evaluations_same st : with_evaluations st (evaluations st) = st.
Proof. by destruct st as [? [] ?]. Qed.

Lemma with_materials_same st : with_materials st (materials st) = st.
Proof. by destruct st as [? [] ?]. Qed.

(** [projectContext] *)
Definition projectContext (st : CraftingState) : string * string :=
  match a_workflow (st_attestation st) with
  | None => ("", "")
  | Some wf => (wf_project wf, if is_empty (wf_version wf) then wf_project_version wf else wf_version wf)
  end.

(** ** Annotations given when a material is added *)

(** One runtime annotation: a value that the contract sets is not replaced *)
Definition set_annotation (k v : string) (ann : gmap string string) : gmap string string :=
  match ann !! k with
  | Some existing => if is_empty existing then <[k := v]> ann else ann
  | None => <[k := v]> ann
  end.

Definition runtime_annotations (runtime ann : gmap string string) : gmap string string :=
  map_fold set_annotation ann runtime.

Definition with_annotations (m : Attestation_Material) (ann : gmap string string)
    : Attestation_Material :=
  {| am_id := am_id m; am_body := am_body m; am_type := am_type m;
     am_uploaded_to_cas := am_uploaded_to_cas m; am_inline_cas := am_inline_cas m;
     am_annotations := ann; am_output := am_output m; am_required := am_required m |}.

(** An annotation that still has no value *)
Definition missing_annotation (ann : gmap string string) : option string :=
  fst <$> List.find (fun '(_, v) => is_empty v) (map_to_list ann).

(** ** Staging a material *)

Section Crafting.
Context `{VerifierDeps} (NumCPU : Z).
(** The crafter of a kind: the material, and the content that it stored when
    that is not the file's *)
Context (kind_craft : SchemaMaterial -> string -> result (Attestation_Material * string)).
(** protovalidate's checks of a material of the contract and of a crafted one *)
Context (validate_schema : SchemaMaterial -> result unit).
Context (validate_material : Attestation_Material -> result unit).

(** [materials.Craft]: the annotations, name and role come from the contract *)
Definition Craft (materialSchema : SchemaMaterial) (value : string)
    : result (Attestation_Material * string) :=
  _ ← map_err (EWrap "validating material") (validate_schema materialSchema);
  '(m, content) ← kind_craft materialSchema value;
  Ok ({| am_id := sm_name materialSchema; am_body := am_body m; am_type := am_type m;
         am_uploaded_to_cas := am_uploaded_to_cas m; am_inline_cas := am_inline_cas m;
         am_annotations := fold_left (fun ann a => <[ann_name a := ann_value a]> ann)
                             (sm_annotations materialSchema) (am_annotations m);
         am_output := sm_output materialSchema;
         am_required := negb (sm_optional materialSchema) |}, content).

(** The options of both verifiers of [stageMaterial] *)
Definition stage_options (st : CraftingState) : list PolicyVerifierOption :=
  let '(projectName, projectVersion) := projectContext st in
  [VWithAllowedHostnames (a_policies_allowed_hostnames (st_attestation st));
   VWithDefaultGate (a_block_on_policy_violation (st_attestation st));
   VWithProjectContext projectName projectVersion].

(** Crafting, with the annotations checked: the part of [stageMaterial] that
    leaves the state alone *)
Definition craft_annotated (m : SchemaMaterial) (value : string)
    (runtimeAnnotations : gmap string string) : result (Attestation_Material * string) :=
  '(mt, content) ← Craft m value;
  let mt := with_annotations mt (runtime_annotations runtimeAnnotations (am_annotations mt)) in
  _ ← (match missing_annotation (am_annotations mt) with
       | Some k => Err (EMsg ("annotations " +:+ k +:+ " required for material " +:+ sm_name m))
       | None => Ok tt
       end);
  _ ← map_err (EWrap "validation error") (validate_material mt);
  Ok (mt, content).

(** The evaluations of other materials *)
Definition without_material (name : string) (evs : list PolicyEvaluation) : list PolicyEvaluation :=
  List.filter (fun ev => negb (bool_decide (pe_material_name ev = name))) evs.

(** [stageMaterial]: the state in memory, also when it fails *)
Definition stageMaterial (st : CraftingState) (m : SchemaMaterial) (value : string)
    (runtimeAnnotations : gmap string string) (ri : option RuntimeInputs)
    : CraftingState * result Attestation_Material :=
  match craft_annotated m value runtimeAnnotations with
  | Err e => (st, Err e)
  | Ok (mt, content) =>
      let st := with_evaluations st (without_material (sm_name m) (evaluations st)) in
      let pgv := NewPolicyGroupVerifier NumCPU (GetPolicyGroups st) (GetPolicies st)
                   (stage_options st) in
      match group_VerifyMaterial pgv mt value content with
      | Err e => (st, Err (EWrap "error applying policy groups to material" e))
      | Ok policyGroupResults =>
          let st := with_evaluations st (evaluations st ++ policyGroupResults) in
          let pv := NewPolicyVerifier NumCPU (GetPolicies st)
                      (stage_options st ++ [VWithRuntimeInputs ri]) in
          match VerifyMaterial pv mt value content with
          | Err e => (st, Err (EWrap "error applying policies to material" e))
          | Ok policyResults =>
              let st := with_evaluations st (evaluations st ++ policyResults) in
              (with_materials st (<[sm_name m := mt]> (materials st)), Ok mt)
          end
      end
  end.

(** ** Adding one material *)

Section Add.
Context `{StateManager}.

(** [addMaterial] *)
Definition addMaterial (c : Crafter) (m : SchemaMaterial) (attestationID value : string)
    (runtimeAnnotations : gmap string string) (ri : option RuntimeInputs)
    : Crafter * result Attestation_Material :=
  match cr_state c with
  | None => (c, Err (panic "nil crafting state"))
  | Some (st, sum) =>
      let '(st, r) := stageMaterial st m value runtimeAnnotations ri in
      match r with
      | Err e => ({| cr_state := Some (st, sum); cr_store := cr_store c |}, Err e)
      | Ok mt =>
          let '(w, store) := sm_Write (cr_store c) attestationID st sum in
          match w with
          | Err e => ({| cr_state := Some (st, sum); cr_store := store |},
                      Err (EWrap "failed to persist crafting state" e))
          | Ok sum => ({| cr_state := Some (st, sum); cr_store := store |}, Ok mt)
          end
      end
  end.

Definition optional_material (kind : MaterialType) (name : string) : SchemaMaterial :=
  {| sm_type := kind; sm_name := name; sm_optional := true; sm_output := false;
     sm_annotations := []; sm_skip_upload := false; sm_group := "" |}.

(** [AddMaterialContractFree]; [now] is the current time in nanoseconds *)
Definition AddMaterialContractFree (c : Crafter) (now : Z) (attestationID kind name value : string)
    (runtimeAnnotations : gmap string string) (ri : option RuntimeInputs)
    : Crafter * result Attestation_Material :=
  match cr_state c with
  | None => (c, Err (EWrap "adding materials outisde the contract" ErrAttestationStateNotLoaded))
  | Some _ =>
      match MaterialType_value kind with
      | None => (c, Err (EMsg (kind +:+ " kind not found")))
      | Some t =>
          let name := if is_empty name then "material-" +:+ pretty now else name in
          addMaterial c (optional_material t name) attestationID value runtimeAnnotations ri
      end
  end.

(** The material of the contract with that name: the last one *)
Definition contract_material (st : CraftingState) (key : string) : option SchemaMaterial :=
  fold_left (fun acc d => if bool_decide (sm_name d = key) then Some d else acc)
    (GetMaterials st) None.

(** [AddMaterialFromContract] *)
Definition AddMaterialFromContract (c : Crafter) (attestationID key value : string)
    (runtimeAnnotations : gmap string string) (ri : option RuntimeInputs)
    : Crafter * result Attestation_Material :=
  match cr_state c with
  | None => (c, Err (EWrap "adding materials outisde from contract" ErrAttestationStateNotLoaded))
  | Some (st, _) =>
      match contract_material st key with
      | None => (c, Err (EMsg ("material with id " +:+ key +:+ " not found in the schema")))
      | Some m => addMaterial c m attestationID value runtimeAnnotations ri
      end
  end.

(** [IsMaterialInContract] *)
Definition IsMaterialInContract (c : Crafter) (key : string) : bool :=
  match cr_state c with
  | None => false
  | Some (st, _) => existsb (fun d => bool_decide (sm_name d = key)) (GetMaterials st)
  end.

(** An error that is not about the kind *)
Definition stops_detection (e : goerr) : bool :=
  errors_is ErrBaseUploadAndCraft e || is_policy_error e || errors_is ErrStateConflict e
  || errors_is ErrValidation e.

Fixpoint detect_loop (kinds : list MaterialType) (c : Crafter) (now : Z)
    (attestationID name value : string) (runtimeAnnotations : gmap string string)
    (ri : option RuntimeInputs) : Crafter * result Attestation_Material :=
  match kinds with
  | [] => (c, Err (EMsg "failed to auto-discover material kind"))
  | kind :: kinds' =>
      match AddMaterialContractFree c now attestationID (MaterialType_name kind) name value
              runtimeAnnotations ri with
      | (c, Ok m) => (c, Ok m)
      | (c, Err e) =>
          if stops_detection e then (c, Err e)
          else detect_loop kinds' c now attestationID name value runtimeAnnotations ri
      end
  end.

(** [AddMaterialContactFreeWithAutoDetectedKind] *)
Definition AddMaterialContactFreeWithAutoDetectedKind (c : Crafter) (now : Z)
    (attestationID name value : string) (runtimeAnnotations : gmap string string)
    (ri : option RuntimeInputs) : Crafter * result Attestation_Material :=
  detect_loop CraftingMaterialInValidationOrder c now attestationID name value
    runtimeAnnotations ri.
End Add.

(** ** Adding the entries of an archive *)

(** The variables of [AddMaterialsFromArchive] while it stages *)
Record staging := {
  sg_state : CraftingState;
  sg_allocator : NameAllocator;
  sg_names : list string;
  sg_result : list Attestation_Material
}.

(** The loop over the sorted entries: [inl] is a failed entry *)
Fixpoint stage_entries (kind : MaterialType) (namePrefix : string)
    (runtimeAnnotations : gmap string string) (ri : option RuntimeInputs)
    (entries : list (string * string)) (sg : staging) : (staging * goerr) + staging :=
  match entries with
  | [] => inr sg
  | (entry, tmpPath) :: entries' =>
      match AllocateNamed (sg_allocator sg) namePrefix with
      | None => inl (sg, panic "no free name")
      | Some (matName, allocator) =>
          match stageMaterial (sg_state sg) (optional_material kind matName) tmpPath
                  runtimeAnnotations ri with
          | (st, Err e) =>
              inl ({| sg_state := st; sg_allocator := allocator; sg_names := sg_names sg;
                      sg_result := sg_result sg |},
                   EWrap ("staging entry " +:+ entry +:+ " as material " +:+ matName) e)
          | (st, Ok mt) =>
              stage_entries kind namePrefix runtimeAnnotations ri entries'
                {| sg_state := st; sg_allocator := allocator;
                   sg_names := sg_names sg ++ [matName]; sg_result := sg_result sg ++ [mt] |}
          end
      end
  end.

(** [rollback]: slicing past the end of the evaluations panics, or brings
    cleared entries back; [None] stands for both *)
Definition rollback (checkpoint : nat) (sg : staging) : option CraftingState :=
  let st := sg_state sg in
  if bool_decide (checkpoint <= length (evaluations st))
  then Some (with_evaluations (with_materials st (foldr delete (materials st) (sg_names sg)))
               (take checkpoint (evaluations st)))
  else None.

Definition AnnotationMaterialReferences : string := "chainloop.material.references".

(** The reverse edges: every exploded material references the archive *)
Definition add_reference (archiveName : string) (m : Attestation_Material) : Attestation_Material :=
  with_annotations m
    (<[AnnotationMaterialReferences :=
         AppendReferences (default "" (am_annotations m !! AnnotationMaterialReferences))
           [archiveName]]> (am_annotations m)).

Definition archive_base (namePrefix : string) : string :=
  let s := SanitizeMaterialName namePrefix in (if is_empty s then "material" else s) +:+ "-archive".

(** The source archive as evidence, linked with the exploded materials *)
Definition stage_archive (namePrefix archivePath : string) (ri : option RuntimeInputs)
    (sg : staging) : (staging * goerr) + staging :=
  match AllocateNamed (sg_allocator sg) (archive_base namePrefix) with
  | None => inl (sg, panic "no free name")
  | Some (archiveName, allocator) =>
      let explodedNames := map am_id (sg_result sg) in
      match stageMaterial (sg_state sg) (optional_material EVIDENCE archiveName) archivePath
              {[AnnotationMaterialReferences := join explodedNames ","]} ri with
      | (st, Err e) =>
          inl ({| sg_state := st; sg_allocator := allocator; sg_names := sg_names sg;
                  sg_result := sg_result sg |},
               EWrap ("recording source archive " +:+ archivePath) e)
      | (st, Ok _) =>
          inr {| sg_state := with_materials st
                   (foldr (alter (add_reference archiveName)) (materials st) (sg_names sg));
                 sg_allocator := allocator;
                 sg_names := sg_names sg ++ [archiveName];
                 sg_result := map (add_reference archiveName) (sg_result sg) |}
      end
  end.

(** Entries in the order of their normalized paths *)
Definition entry_le (a b : string * string) : Prop :=
  str_le (NormalizeArchivePath (fst a)) (NormalizeArchivePath (fst b)).

#[export] Instance entry_le_dec : RelDecision entry_le.
Proof. intros a b. unfold entry_le. apply _. Defined.

Section AddArchive.
Context `{StateManager}.

(** [AddMaterialsFromArchive]; [expanded] is what walking the archive gave:
    the names of its entries and where each was extracted *)
Definition AddMaterialsFromArchive (c : Crafter) (attestationID kind namePrefix archivePath : string)
    (expanded : result (list (string * string))) (recordSourceArchive : bool)
    (runtimeAnnotations : gmap string string) (ri : option RuntimeInputs)
    : Crafter * result (list Attestation_Material) :=
  match cr_state c with
  | None => (c, Err (EWrap "adding materials from archive" ErrAttestationStateNotLoaded))
  | Some (st, sum) =>
      match MaterialType_value kind with
      | None => (c, Err (EMsg (kind +:+ " kind not found")))
      | Some materialKind =>
          match expanded with
          | Err e => (c, Err (EWrap ("expanding archive " +:+ archivePath) e))
          | Ok [] => (c, Err (EMsg ("archive " +:+ archivePath +:+ " contains no processable entries")))
          | Ok entries =>
              let checkpoint := length (evaluations st) in
              let failed sg e store :=
                match rollback checkpoint sg with
                | Some st' => ({| cr_state := Some (st', sum); cr_store := store |}, Err e)
                | None => ({| cr_state := Some (sg_state sg, sum); cr_store := store |},
                           Err (panic "slice bounds out of range"))
                end in
              let staged :=
                match stage_entries materialKind namePrefix runtimeAnnotations ri
                        (merge_sort entry_le entries)
                        {| sg_state := st; sg_allocator := NewNameAllocator (elements (dom (materials st)));
                           sg_names := []; sg_result := [] |} with
                | inr sg => if recordSourceArchive then stage_archive namePrefix archivePath ri sg
                            else inr sg
                | r => r
                end in
              match staged with
              | inl (sg, e) => failed sg e (cr_store c)
              | inr sg =>
                  let '(w, store) := sm_Write (cr_store c) attestationID (sg_state sg) sum in
                  match w with
                  | Err e => failed sg (EWrap "failed to persist crafting state" e) store
                  | Ok sum => ({| cr_state := Some (sg_state sg, sum); cr_store := store |},
                               Ok (sg_result sg))
                  end
              end
          end
      end
  end.
End AddArchive.
End Crafting.

(** ** What staging does to the state *)

Section StagingLaws.
Context `{VerifierDeps} (NumCPU : Z).
Context (kind_craft : SchemaMaterial -> string -> result (Attestation_Material * string)).
Context (validate_schema : SchemaMaterial -> result unit).
Context (validate_material : Attestation_Material -> result unit).

Abbreviation craft := (craft_annotated kind_craft validate_schema validate_material).
Abbreviation stage := (stageMaterial NumCPU kind_craft validate_schema validate_material).
Abbreviation entries_loop := (stage_entries NumCPU kind_craft validate_schema validate_material).
Abbreviation archive_step := (stage_archive NumCPU kind_craft validate_schema validate_material).

Lemma craft_annotated_Ok m value runtime mt content :
  craft m value runtime = Ok (mt, content) ->
  exists base, Craft kind_craft validate_schema m value = Ok (base, content)
    /\ mt = with_annotations base (runtime_annotations runtime (am_annotations base))
    /\ missing_annotation (am_annotations mt) = None
    /\ validate_material mt = Ok tt /\ am_id mt = sm_name m.
Proof.
  unfold craft_annotated. intros Hc. apply bind_Ok in Hc as ([base content'] & Hc & Hr).
  apply bind_Ok in Hr as ([] & Hm & Hr). apply bind_Ok in Hr as ([] & Hv & Hr). inv_ok.
  simplify_eq. exists base. split; [done|]. split; [done|].
  destruct (missing_annotation _) eqn:E; [done|]. split; [done|]. split; [done|].
  unfold Craft in Hc. apply bind_Ok in Hc as ([] & _ & Hc).
  apply bind_Ok in Hc as ([m0 c0] & _ & Hc). by simplify_eq.
Qed.

(** Staging only touches the evaluations, where what it adds is of the material,
    and, when it succeeds, the material itself. *)
Lemma stageMaterial_effect st m value ann ri st' r :
  stage st m value ann ri = (st', r) ->
  (is_ok r = false /\ st' = st)
  \/ exists mt content added,
       let evs := without_material (sm_name m) (evaluations st) ++ added in
       craft m value ann = Ok (mt, content)
       /\ Forall (fun ev => pe_material_name ev = sm_name m) added
       /\ ((is_ok r = false /\ st' = with_evaluations st evs)
           \/ (r = Ok mt
               /\ st' = with_materials (with_evaluations st evs) (<[sm_name m := mt]> (materials st)))).
Proof.
  unfold stageMaterial. destruct (craft m value ann) as [[mt content]|e] eqn:Ec.
  2:{ intros [= <- <-]. by left. }
  pose proof (craft_annotated_Ok _ _ _ _ _ Ec) as (base & _ & _ & _ & _ & Hid).
  set (st1 := with_evaluations st _). intros Hs. right. exists mt, content. revert Hs.
  destruct (group_VerifyMaterial _ _ _ _) as [gs|e] eqn:Eg.
  2:{ intros [= <- <-]. exists []. split; [done|]. split; [done|]. left. by rewrite app_nil_r. }
  assert (Forall (fun ev => pe_material_name ev = sm_name m) gs) as Hgs.
  { apply Forall_forall. intros ev Hev. rewrite <- Hid. by eapply group_VerifyMaterial_named. }
  set (st2 := with_evaluations st1 _).
  destruct (VerifyMaterial _ _ _ _) as [ps|e] eqn:Ep; intros [= <- <-].
  - exists (gs ++ ps). split; [done|]. split.
    + apply Forall_app. split; [done|]. apply Forall_forall. intros ev Hev. rewrite <- Hid.
      by eapply VerifyMaterial_named.
    + right. split; [done|]. unfold st2, st1. cbn. by rewrite <- app_assoc.
  - exists gs. split; [done|]. split; [done|]. by left.
Qed.

Lemma without_material_fresh name (evs : list PolicyEvaluation) :
  Forall (fun ev => pe_material_name ev <> name) evs -> without_material name evs = evs.
Proof.
  unfold without_material. induction 1 as [|ev evs Hev _ IH]; cbn; [done|].
  rewrite bool_decide_eq_false_2 by done. cbn. by rewrite IH.
Qed.

Lemma without_material_app name e1 e2 :
  without_material name (e1 ++ e2) = without_material name e1 ++ without_material name e2.
Proof. apply List.filter_app. Qed.

(** No evaluation is of a material that is not in the attestation. *)
Definition no_orphans (st : CraftingState) : Prop :=
  Forall (fun ev => pe_material_name ev = "" \/ pe_material_name ev ∈ dom (materials st))
    (evaluations st).

(** The state while an archive is staged over [st0] *)
Definition staged_over (st0 : CraftingState) (sg : staging) : Prop :=
  exists added ms,
    sg_state sg = with_materials (with_evaluations st0 (evaluations st0 ++ added)) ms
    /\ foldr delete ms (sg_names sg) = materials st0
    /\ (forall n, n ∈ sg_names sg -> n ∉ dom (materials st0))
    /\ dom (materials st0) ⊆ used (sg_allocator sg)
    /\ list_to_set (sg_names sg) ⊆ used (sg_allocator sg).

Lemma rollback_staged st0 sg :
  staged_over st0 sg -> rollback (length (evaluations st0)) sg = Some st0.
Proof.
  intros (added & ms & Hst & Hdel & _). unfold rollback. rewrite Hst. cbn.
  rewrite bool_decide_eq_true_2 by (rewrite length_app; lia).
  f_equal. cbn. rewrite Hdel, take_app_length. by destruct st0 as [? [] ?].
Qed.

Lemma foldr_delete_insert (ms : gmap string Attestation_Material) names n m :
  n ∉ names ->
  foldr delete (<[n := m]> ms) (names ++ [n]) = foldr delete (delete n ms) names.
Proof.
  intros Hn. rewrite foldr_app. cbn. by rewrite delete_insert_eq.
Qed.

Lemma foldr_delete_notin (ms : gmap string Attestation_Material) names n :
  n ∉ dom ms -> foldr delete (delete n ms) names = foldr delete ms names.
Proof. intros Hn. rewrite delete_id; [done|]. by apply not_elem_of_dom. Qed.

Lemma foldr_delete_lookup (ms : gmap string Attestation_Material) names n :
  n ∉ names -> foldr delete ms names !! n = ms !! n.
Proof.
  induction names as [|x names IH]; [done|]. intros Hn. cbn.
  rewrite not_elem_of_cons in Hn. rewrite lookup_delete_ne by naive_solver. apply IH. naive_solver.
Qed.

(** One more entry under a fresh, valid name keeps the state rollable. *)
Lemma stage_fresh st0 sg name allocator kind value ann ri st' r :
  no_orphans st0 -> staged_over st0 sg ->
  name ∉ used (sg_allocator sg) -> used allocator = {[name]} ∪ used (sg_allocator sg) ->
  name <> "" ->
  stage (sg_state sg) (optional_material kind name) value ann ri = (st', r) ->
  match r with
  | Err _ => staged_over st0 {| sg_state := st'; sg_allocator := allocator;
                                sg_names := sg_names sg; sg_result := sg_result sg |}
  | Ok mt => staged_over st0 {| sg_state := st'; sg_allocator := allocator;
                                sg_names := sg_names sg ++ [name];
                                sg_result := sg_result sg ++ [mt] |}
  end.
Proof.
  intros Horph (added & ms & Hst & Hdel & Hnew & Hu1 & Hu2) Hfree Hused Hne Hs.
  assert (name ∉ dom (materials st0)) as Hn0 by set_solver.
  assert (name ∉ sg_names sg) as Hns by set_solver.
  assert (without_material name (evaluations st0) = evaluations st0) as Hw.
  { apply without_material_fresh. eapply Forall_impl; [exact Horph|].
    intros ev [Hev|Hev]; [congruence|]. intros <-. done. }
  assert (ms !! name = None) as Hms.
  { rewrite <- (foldr_delete_lookup ms (sg_names sg)), Hdel by done. by apply not_elem_of_dom. }
  assert (forall added', without_material name
            (evaluations (with_materials (with_evaluations st0 (evaluations st0 ++ added)) ms)) ++ added'
            = evaluations st0 ++ without_material name added ++ added') as Hre.
  { intros added'. change (evaluations (with_materials _ _)) with (evaluations st0 ++ added).
    by rewrite without_material_app, Hw, <- app_assoc. }
  apply stageMaterial_effect in Hs. rewrite Hst in Hs. cbn [optional_material sm_name] in Hs.
  destruct Hs as [[Hr ->]|(mt & content & added' & _ & _ & [[Hr ->]|[-> ->]])].
  - destruct r; [done|]. exists added, ms. repeat split; try done; set_solver.
  - destruct r; [done|]. exists (without_material name added ++ added'), ms.
    split; [|repeat split; try done; set_solver].
    by rewrite Hre.
  - exists (without_material name added ++ added'), (<[name := mt]> ms).
    split; [by rewrite Hre|]. cbn [sg_names sg_allocator].
    split; [rewrite foldr_delete_insert by done; rewrite delete_id by done; exact Hdel|].
    split; [intros n [Hn| ->%list_elem_of_singleton]%elem_of_app; auto|].
    split; [set_solver|]. rewrite list_to_set_app_L. set_solver.
Qed.

Lemma valid_name_not_empty s : valid_name s = true -> s <> "".
Proof. by destruct s. Qed.

Lemma stage_entries_staged st0 kind prefix ann ri entries sg :
  no_orphans st0 -> staged_over st0 sg ->
  match entries_loop kind prefix ann ri entries sg with
  | inl (sg', _) | inr sg' => staged_over st0 sg'
  end.
Proof.
  intros Horph. revert sg. induction entries as [|[entry tmp] entries IH]; intros sg Hsg; cbn [stage_entries]; [done|].
  destruct (AllocateNamed_spec (sg_allocator sg) prefix) as (i & a' & -> & Hf & Hu & Hv & _).
  destruct (stage _ _ _ _ _) as [st' r] eqn:Es.
  pose proof (stage_fresh st0 sg _ a' kind tmp ann ri st' r Horph Hsg Hf Hu
                (valid_name_not_empty _ Hv) Es) as Hr.
  destruct r; [by apply IH | done].
Qed.

Lemma foldr_delete_in (ms : gmap string Attestation_Material) names n :
  n ∈ names -> foldr delete ms names !! n = None.
Proof.
  induction names as [|x names IH]; intros Hn; [by apply not_elem_of_nil in Hn|]. cbn.
  destruct (decide (n = x)) as [->|Hx]; [apply lookup_delete_eq|].
  rewrite lookup_delete_ne by done. apply IH. set_solver.
Qed.

Lemma foldr_delete_ext (m1 m2 : gmap string Attestation_Material) names :
  (forall k, k ∉ names -> m1 !! k = m2 !! k) -> foldr delete m1 names = foldr delete m2 names.
Proof.
  intros Hm. apply map_eq. intros k. destruct (decide (k ∈ names)).
  - by rewrite !foldr_delete_in.
  - rewrite !foldr_delete_lookup by done. by apply Hm.
Qed.

Lemma foldr_alter_lookup f (ms : gmap string Attestation_Material) (names : list string) k :
  k ∉ names -> foldr (alter f) ms names !! k = ms !! k.
Proof.
  induction names as [|x names IH]; [done|]. intros [Hx Hk]%not_elem_of_cons. cbn.
  rewrite lookup_alter_ne by done. by apply IH.
Qed.

Lemma foldr_alter_delete f (ms : gmap string Attestation_Material) (names : list string) n :
  foldr delete (foldr (alter f) ms names) (names ++ [n]) = foldr delete ms (names ++ [n]).
Proof. apply foldr_delete_ext. intros k Hk. apply foldr_alter_lookup. set_solver. Qed.

Lemma stage_archive_staged st0 prefix path ri sg :
  no_orphans st0 -> staged_over st0 sg ->
  match archive_step prefix path ri sg with
  | inl (sg', _) | inr sg' => staged_over st0 sg'
  end.
Proof.
  intros Horph Hsg. unfold stage_archive.
  destruct (AllocateNamed_spec (sg_allocator sg) (archive_base prefix)) as (i & a' & -> & Hf & Hu & Hv & _).
  destruct (stage _ _ _ _ _) as [st' r] eqn:Es.
  pose proof (stage_fresh st0 sg _ a' EVIDENCE path _ ri st' r Horph Hsg Hf Hu
                (valid_name_not_empty _ Hv) Es) as Hr.
  destruct r as [mt|]; [|done].
  destruct Hr as (added & ms & Hst & Hdel & Hnew & Hu1 & Hu2). cbn in *.
  exists added, (foldr (alter (add_reference (candidate (base_name (archive_base prefix)) i))) ms (sg_names sg)).
  cbn. rewrite Hst. split; [done|]. split; [|done].
  by rewrite foldr_alter_delete.
Qed.
End StagingLaws.

(** ** Annotations *)

Lemma set_annotation_lookup k v ann k' :
  set_annotation k v ann !! k'
  = if bool_decide (k = k')
    then match ann !! k with Some x => Some (if is_empty x then v else x) | None => Some v end
    else ann !! k'.
Proof.
  unfold set_annotation. case_bool_decide as Hk.
  - subst k'. destruct (ann !! k) as [x|] eqn:E; [|by rewrite lookup_insert_eq].
    destruct (is_empty x); [by rewrite lookup_insert_eq | done].
  - destruct (ann !! k) as [x|]; [destruct (is_empty x)|];
      rewrite ?lookup_insert_ne by done; done.
Qed.

(** The order in which the map is walked does not matter. *)
Lemma runtime_annotations_lookup runtime ann k :
  runtime_annotations runtime ann !! k
  = match ann !! k, runtime !! k with
    | Some x, Some v => Some (if is_empty x then v else x)
    | Some x, None => Some x
    | None, v => v
    end.
Proof.
  unfold runtime_annotations.
  revert k. apply (map_fold_weak_ind (fun res done => forall k, res !! k = match ann !! k, done !! k with
    | Some x, Some v => Some (if is_empty x then v else x) | Some x, None => Some x | None, v => v end)).
  - intros k. rewrite lookup_empty. by destruct (ann !! k).
  - intros i v done res Hi IH k. rewrite set_annotation_lookup, !IH. case_bool_decide as Hk.
    + subst k. rewrite Hi, lookup_insert_eq. by destruct (ann !! i).
    + by rewrite lookup_insert_ne.
Qed.

Lemma missing_annotation_None ann k v :
  missing_annotation ann = None -> ann !! k = Some v -> v <> "".
Proof.
  unfold missing_annotation. intros Hm Hk ->.
  destruct (List.find _ _) eqn:E; [done|].
  assert (is_empty "" = false) as He; [|done].
  apply (find_none _ _ E (k, "")). by apply list_elem_of_In, elem_of_map_to_list.
Qed.

Section CrafterTheorems.
Context `{VerifierDeps} (NumCPU : Z).
Context (kind_craft : SchemaMaterial -> string -> result (Attestation_Material * string)).
Context (validate_schema : SchemaMaterial -> result unit).
Context (validate_material : Attestation_Material -> result unit).

Abbreviation craft := (craft_annotated kind_craft validate_schema validate_material).
Abbreviation stage := (stageMaterial NumCPU kind_craft validate_schema validate_material).

(** A crafted material carries every annotation that the crafter and the
    contract gave a value, whatever is asked for when it is added: the values
    given at runtime only fill those left empty and add new ones (so the mark
    of a redacted session cannot be removed or replaced); and no annotation is
    left without a value. *)
Theorem runtime_annotations_fill m value runtime mt content :
  craft m value runtime = Ok (mt, content) ->
  exists base, Craft kind_craft validate_schema m value = Ok (base, content)
    /\ am_id mt = sm_name m
    /\ (forall k, am_annotations mt !! k
                  = match am_annotations base !! k with
                    | None => runtime !! k
                    | Some "" => Some (default "" (runtime !! k))
                    | Some x => Some x
                    end)
    /\ (forall k v, am_annotations mt !! k = Some v -> v <> "").
Proof.
  intros (base & Hb & -> & Hmiss & _ & Hid)%craft_annotated_Ok. exists base.
  split; [done|]. split; [done|]. split; [|by intros k v; apply missing_annotation_None].
  intros k. cbn. rewrite runtime_annotations_lookup.
  destruct (am_annotations base !! k) as [[]|]; by destruct (runtime !! k).
Qed.

Context `{SM : StateManager}.

Abbreviation add := (addMaterial NumCPU kind_craft validate_schema validate_material).
Abbreviation add_archive :=
  (AddMaterialsFromArchive NumCPU kind_craft validate_schema validate_material).

(** The material [m], now [mt], replaced in [st] with its evaluations [added] *)
Definition material_added (st : CraftingState) (m : SchemaMaterial) (mt : Attestation_Material)
    (added : list PolicyEvaluation) : CraftingState :=
  with_materials
    (with_evaluations st (List.filter (fun ev => negb (bool_decide (pe_material_name ev = sm_name m)))
                            (evaluations st) ++ added))
    (<[sm_name m := mt]> (materials st)).

(** Adding a material that succeeds attaches it under its name, replaces
    the evaluations of that name by those of the new value, changes nothing
    else, and persists exactly that state; if it fails before persisting, the
    store is not touched and no material changes; if persisting fails, the
    store is what the state manager left. *)
Theorem add_material_effect c st sum m id value ann ri c' r :
  cr_state c = Some (st, sum) -> add c m id value ann ri = (c', r) ->
  match r with
  | Ok mt => exists added sum',
      let st' := material_added st m mt added in
      Forall (fun ev => pe_material_name ev = sm_name m) added
      /\ am_id mt = sm_name m
      /\ cr_state c' = Some (st', sum')
      /\ sm_Write (cr_store c) id st' sum = (Ok sum', cr_store c')
  | Err _ =>
      (cr_store c' = cr_store c
       /\ exists evs, cr_state c' = Some (with_evaluations st evs, sum)
            /\ Forall (fun ev => ev ∈ evs)
                 (List.filter (fun ev => negb (bool_decide (pe_material_name ev = sm_name m)))
                    (evaluations st)))
      \/ exists st' e, cr_state c' = Some (st', sum)
            /\ sm_Write (cr_store c) id st' sum = (Err e, cr_store c')
  end.
Proof.
  intros Hc Ha. unfold addMaterial in Ha. rewrite Hc in Ha.
  destruct (stage st m value ann ri) as [st1 r1] eqn:Es. apply stageMaterial_effect in Es.
  destruct r1 as [mt|e].
  - destruct Es as [[? _]|(mt' & content & added & Hcr & Hadd & [[? _]|[[= <-] ->]])]; [done..|].
    apply craft_annotated_Ok in Hcr as (_ & _ & _ & _ & _ & Hid).
    destruct (sm_Write _ _ _ _) as [[sum'|e] store] eqn:Ew; simplify_eq; cbn.
    + exists added, sum'. by rewrite <- Ew.
    + right. eauto.
  - simplify_eq. left. cbn. split; [done|].
    destruct Es as [[_ ->]|(? & ? & added & _ & _ & [[_ ->]|[? _]])]; [| |done].
    + exists (evaluations st). rewrite with_evaluations_same. split; [done|].
      apply Forall_forall. intros ev [Hev _]%list_elem_of_In%filter_In. by apply list_elem_of_In.
    + eexists. split; [done|]. apply Forall_forall. intros ev Hev. apply elem_of_app. by left.
Qed.

Lemma staged_over_init st :
  staged_over st {| sg_state := st; sg_allocator := NewNameAllocator (elements (dom (materials st)));
                    sg_names := []; sg_result := [] |}.
Proof.
  exists [], (materials st). cbn. rewrite app_nil_r. repeat split.
  - by destruct st as [? [] ?].
  - intros n Hn. by apply not_elem_of_nil in Hn.
  - set_solver.
  - set_solver.
Qed.

Lemma staged_over_extends st sg :
  staged_over st sg ->
  exists added, evaluations (sg_state sg) = evaluations st ++ added
    /\ materials st ⊆ materials (sg_state sg).
Proof.
  intros (added & ms & -> & Hdel & _). exists added. split; [done|]. cbn.
  unfold materials in *. rewrite <- Hdel. clear.
  induction (sg_names sg) as [|n names IH]; cbn; [done|].
  etrans; [apply delete_subseteq | exact IH].
Qed.

End CrafterTheorems.

(** ** Witnesses *)

(** A store that keeps every state written to it *)
#[export] Instance toy_store : StateManager :=
  {| Store := list CraftingState;
     sm_Read := fun s _ => match s with st :: _ => Ok (st, "sum") | [] => Err (EMsg "not found") end;
     sm_Write := fun s id st sum => if is_empty id then (Err (EMsg "no id"), s) else (Ok "sum", st :: s) |}.

Definition toy_attestation : Attestation :=
  {| a_initialized_at := 0; a_finished_at := None; a_workflow := None; a_materials := ∅; a_annotations := ∅; a_env_vars := ∅;
     a_policy_evaluations := []; a_head := None; a_runner_url := "";
     a_runner_type := RUNNER_TYPE_UNSPECIFIED; a_runner_environment := None;
     a_block_on_policy_violation := false; a_bypass_policy_check := false;
     a_policies_allowed_hostnames := []; a_skip_runner_env_vars := false;
     a_signing_options := None; a_auth := None; a_cas_backend := None |}.

(** A contract with a policy group and one more policy, both for every material *)
Definition toy_schema : CraftingSchema :=
  {| cs_schema_version := "v1"; cs_materials := []; cs_env_allow_list := []; cs_runner := None;
     cs_annotations := [];
     cs_policies := Some {| policies_materials :=
                              [{| att_policy := Some (AttachedRef "q");
                                  att_selector := Some {| selector_name := "m"; selector_match_mode := PREFIX |};
                                  att_disabled := false; att_with := ∅; att_requirements := [];
                                  att_gate := None |}];
                            policies_attestation := [] |};
     cs_policy_groups := [toy_group_attachment "g"] |}.

Definition toy_state : CraftingState :=
  {| st_schema := Some (InputSchema toy_schema); st_attestation := toy_attestation; st_dry_run := true;
     st_ui_dashboard_url := "" |}.

Definition toy_crafter : Crafter := {| cr_state := Some (toy_state, ""); cr_store := [] |}.

(** The value is the content; a file called "bad" cannot be crafted *)
Definition toy_craft (m : SchemaMaterial) (value : string) : result (Attestation_Material * string) :=
  if bool_decide (value = "bad") then Err (EMsg "unexpected format")
  else Ok ({| am_id := ""; am_body := Some (M_Artifact {| art_name := value; art_digest := "sha256:aa";
                                                         art_is_subject := false; art_content := "" |});
              am_type := sm_type m; am_uploaded_to_cas := true; am_inline_cas := false;
              am_annotations := {["kept" := "by the crafter"]}; am_output := false; am_required := false |}, "").

(** Like [toy_group_deps], with a policy "q" whose scripts do not load for SARIF *)
Definition toy_policy_q : Policy :=
  {| policy_api_version := policy_api_version toy_policy; policy_kind := policy_kind toy_policy;
     policy_metadata := {| meta_name := "q"; meta_description := ""; meta_annotations := ∅;
                           meta_organization := None; meta_finding_type := None |};
     policy_spec := policy_spec toy_policy |}.

Definition toy_crafter_deps : VerifierDeps :=
  {| load_policy := fun att => if bool_decide (GetRef att = "q") then Ok (toy_policy_q, None)
                               else Ok (toy_policy, None);
     load_group := fun _ => Ok (toy_group, None);
     load_scripts := fun p kind _ =>
       if bool_decide (meta_name (policy_metadata p) = "q") && bool_decide (kind = SARIF)
       then Err (EMsg "no script for SARIF")
       else Ok [{| script_source := "bad"; script_name := "p" |}];
     rego_engine := toy_engine; wasm_engine := toy_engine;
     template_execute := fun t _ => Ok t;
     unmarshal_finding := fun _ => Ok; validate_finding := fun _ _ => Ok tt;
     evaluable := fun _ _ _ => Ok "{}"; Statement := unit; marshal_statement := fun _ => Ok "{}" |}.

Abbreviation toy_add :=
  (@addMaterial toy_crafter_deps 8 toy_craft (fun _ => Ok tt) (fun _ => Ok tt) toy_store).

Lemma runtime_annotations_fill_witness :
  exists mt, craft_annotated toy_craft (fun _ => Ok tt) (fun _ => Ok tt)
               (optional_material SARIF "m1") "f" {["kept" := "replaced"; "new" := "v"]} = Ok (mt, "")
    /\ am_annotations mt !! "kept" = Some "by the crafter".
Proof.
  destruct (craft_annotated toy_craft (fun _ => Ok tt) (fun _ => Ok tt)
    (optional_material SARIF "m1") "f" {["kept" := "replaced"; "new" := "v"]}) as [[mt content]|e] eqn:E;
    [|vm_compute in E; discriminate E].
  destruct (runtime_annotations_fill _ _ _ _ _ _ _ _ E) as (base & Hb & _ & Hk & _).
  vm_compute in Hb. injection Hb as <- <-. exists mt. split; [reflexivity|]. rewrite Hk. reflexivity.
Defined.

Lemma add_material_effect_witness :
  exists mt, snd (toy_add toy_crafter (optional_material ARTIFACT "m2") "id" "f" ∅ None) = Ok mt
    /\ am_id mt = "m2".
Proof.
  destruct (toy_add toy_crafter (optional_material ARTIFACT "m2") "id" "f" ∅ None) as [c' [mt|e]] eqn:E;
    [|vm_compute in E; discriminate E].
  destruct (@add_material_effect toy_crafter_deps 8 toy_craft (fun _ => Ok tt) (fun _ => Ok tt) toy_store
    toy_crafter toy_state "" _ _ _ _ _ _ _ eq_refl E) as (added & sum' & _ & Hid & _).
  exists mt. split; [reflexivity|]. exact Hid.
Defined.

