(* ===== verification/AttestationPolicies.v ===== *)
(** * The policies of the attestation

    pkg/attestation/crafter/crafter.go, [EvaluateAttestationPolicies]: at each
    phase (init, push) the attestation-level policies are evaluated, deduplicated
    and merged with the evaluations that the state already has.  The merge is
    exact for states that keep the evaluations of the attestation before those of
    the materials; CrafterLifecycle shows that the crafter only makes such
    states. *)

From S2P Require Import Prelude.
From S2P Require Import GoStrings.
From S2P Require Import Contract.
From S2P Require Import RuntimeInputs.
From S2P Require Import PolicyArgs.
From S2P Require Import PolicyEngine.
From S2P Require Import PolicyLoaders.
From S2P Require Import CraftingState.
From S2P Require Import ErrGroup.
From S2P Require Import PolicyVerifier.
From S2P Require Import PolicyGroups.
From S2P Require Import Archive.
From S2P Require Import Crafter.

(** ** Merging evaluations *)

(** [policyEvalMatches] *)
Definition policyEvalMatches (a b : PolicyEvaluation) : bool :=
  bool_decide (pe_policy_reference a = pe_policy_reference b) && bool_decide (pe_with a = pe_with b).

Definition matched (evs : list PolicyEvaluation) (ev : PolicyEvaluation) : bool :=
  existsb (fun existing => policyEvalMatches existing ev) evs.

(** The loop that drops what was evaluated already in this phase *)
Definition dedupe (evs : list PolicyEvaluation) : list PolicyEvaluation :=
  fold_left (fun filtered ev => if matched filtered ev then filtered else filtered ++ [ev]) evs [].

(** The loop that keeps what was not evaluated again; the list it compares with
    grows as it goes *)
Definition preserve (policyEvaluations existing : list PolicyEvaluation) : list PolicyEvaluation :=
  fold_left (fun evs ev =>
    if negb (is_empty (pe_material_name ev)) then evs ++ [ev]
    else if matched evs ev then evs else evs ++ [ev]) existing policyEvaluations.

Section Evaluate.
Context `{VerifierDeps} (NumCPU : Z) `{StateManager}.

(** The options of both verifiers *)
Definition phase_options (st : CraftingState) (phase : EvalPhase) : list PolicyVerifierOption :=
  let '(projectName, projectVersion) := projectContext st in
  [VWithAllowedHostnames (a_policies_allowed_hostnames (st_attestation st));
   VWithDefaultGate (a_block_on_policy_violation (st_attestation st));
   VWithEvalPhase phase;
   VWithProjectContext projectName projectVersion].

(** The evaluations of this phase *)
Definition phase_evaluations (st : CraftingState) (statement : Statement) (phase : EvalPhase)
    : result (list PolicyEvaluation) :=
  policyEvaluations ←
    map_err (EWrap "evaluating policies in statement")
      (VerifyStatement (NewPolicyVerifier NumCPU (GetPolicies st) (phase_options st phase)) statement);
  policyGroupResults ←
    map_err (EWrap "evaluating policy groups in statement")
      (group_VerifyStatement
         (NewPolicyGroupVerifier NumCPU (GetPolicyGroups st) (GetPolicies st) (phase_options st phase))
         statement);
  Ok (policyEvaluations ++ policyGroupResults).

(** [EvaluateAttestationPolicies] *)
Definition EvaluateAttestationPolicies (c : Crafter) (attestationID : string)
    (statement : Statement) (phase : EvalPhase) : Crafter * result unit :=
  match cr_state c with
  | None => (c, Err (panic "nil crafting state"))
  | Some (st, sum) =>
      match phase_evaluations st statement phase with
      | Err e => (c, Err e)
      | Ok evs =>
          let st := with_evaluations st (preserve (dedupe evs) (evaluations st)) in
          let '(w, store) := sm_Write (cr_store c) attestationID st sum in
          match w with
          | Err e => ({| cr_state := Some (st, sum); cr_store := store |},
                      Err (EWrap "failed to persist crafting state" e))
          | Ok sum => ({| cr_state := Some (st, sum); cr_store := store |}, Ok tt)
          end
      end
  end.

(** [ValidateAttestation] and [requireStateLoaded] *)
Definition requireStateLoaded (c : Crafter) : result CraftingState :=
  match cr_state c with
  | None => Err ErrAttestationStateNotLoaded
  | Some (st, _) => Ok st
  end.

Definition ValidateAttestation (validate : CraftingState -> result unit) (c : Crafter) : result unit :=
  st ← requireStateLoaded c; ValidateComplete validate st (st_dry_run st).
End Evaluate.

(** ** What merging gives *)

(** What [policyEvalMatches] compares *)
Definition eval_key (ev : PolicyEvaluation) : option Reference * inputs :=
  (pe_policy_reference ev, pe_with ev).

Lemma policyEvalMatches_key a b : policyEvalMatches a b = bool_decide (eval_key a = eval_key b).
Proof.
  unfold policyEvalMatches, eval_key. apply eq_true_iff_eq.
  rewrite andb_true_iff, !bool_decide_eq_true. split; [intros [-> ->]; done | by intros [= -> ->]].
Qed.

Lemma matched_key evs ev : matched evs ev = bool_decide (eval_key ev ∈ map eval_key evs).
Proof.
  unfold matched. apply eq_true_iff_eq. rewrite existsb_exists, bool_decide_eq_true, list_elem_of_fmap.
  split.
  - intros (x & Hx & Hm). rewrite policyEvalMatches_key, bool_decide_eq_true in Hm.
    exists x. split; [done|]. by apply list_elem_of_In.
  - intros (x & Hk & Hx). exists x. split; [by apply list_elem_of_In|].
    by rewrite policyEvalMatches_key, bool_decide_eq_true.
Qed.

Lemma dedupe_snoc evs ev :
  dedupe (evs ++ [ev]) = if matched (dedupe evs) ev then dedupe evs else dedupe evs ++ [ev].
Proof. unfold dedupe. by rewrite fold_left_app. Qed.

(** Deduplicating keeps one evaluation of each policy and arguments. *)
Lemma dedupe_keys evs :
  NoDup (map eval_key (dedupe evs))
  /\ (forall ev, ev ∈ dedupe evs -> ev ∈ evs)
  /\ (forall ev, ev ∈ evs -> eval_key ev ∈ map eval_key (dedupe evs)).
Proof.
  induction evs as [|ev evs (IH1 & IH2 & IH3)] using rev_ind; [by repeat constructor; intros ? ?%not_elem_of_nil|].
  rewrite dedupe_snoc, matched_key. case_bool_decide as Hk.
  - split; [done|]. split; [intros; apply elem_of_app; auto|].
    intros x [Hx| ->%list_elem_of_singleton]%elem_of_app; auto.
  - rewrite map_app. cbn. split; [|split].
    + apply NoDup_app. split; [done|]. split; [|apply NoDup_singleton].
      intros k Hin ->%list_elem_of_singleton. done.
    + intros x [Hx| ->%list_elem_of_singleton]%elem_of_app; apply elem_of_app; [auto|].
      right. by apply list_elem_of_singleton.
    + intros x [Hx| ->%list_elem_of_singleton]%elem_of_app; apply elem_of_app; [auto|].
      right. by apply list_elem_of_singleton.
Qed.

(** Attestation-level evaluations first, one for each policy and arguments *)
Definition ordered (evs : list PolicyEvaluation) : Prop :=
  exists atts mats, evs = atts ++ mats
    /\ Forall (fun ev => pe_material_name ev = "") atts
    /\ Forall (fun ev => pe_material_name ev <> "") mats
    /\ NoDup (map eval_key atts).

Definition of_attestation : list PolicyEvaluation -> list PolicyEvaluation :=
  List.filter (fun ev => is_empty (pe_material_name ev)).

Definition of_materials : list PolicyEvaluation -> list PolicyEvaluation :=
  List.filter (fun ev => negb (is_empty (pe_material_name ev))).

Definition not_reevaluated (new : list PolicyEvaluation) : list PolicyEvaluation -> list PolicyEvaluation :=
  List.filter (fun ev => negb (matched new ev)).

Lemma filter_all {A} (f : A -> bool) l : Forall (fun x => f x = true) l -> List.filter f l = l.
Proof. induction 1 as [|x l Hx _ IH]; cbn; [done|]. by rewrite Hx, IH. Qed.

Lemma filter_none {A} (f : A -> bool) l : Forall (fun x => f x = false) l -> List.filter f l = [].
Proof. induction 1 as [|x l Hx _ IH]; cbn; [done|]. by rewrite Hx. Qed.

Lemma ordered_parts evs :
  ordered evs -> evs = of_attestation evs ++ of_materials evs /\ NoDup (map eval_key (of_attestation evs)).
Proof.
  intros (atts & mats & -> & Ha & Hm & Hn). unfold of_attestation, of_materials.
  rewrite !List.filter_app.
  rewrite (filter_all _ atts), (filter_none _ atts), (filter_none _ mats), (filter_all _ mats);
    [by rewrite app_nil_r|eapply Forall_impl; [eassumption|]..]; cbn; intros ev Hev;
    by destruct (pe_material_name ev).
Qed.

Lemma preserve_app new l1 l2 : preserve new (l1 ++ l2) = preserve (preserve new l1) l2.
Proof. unfold preserve. apply fold_left_app. Qed.

Lemma preserve_cons new ev l :
  preserve new (ev :: l)
  = preserve (if negb (is_empty (pe_material_name ev)) then new ++ [ev]
              else if matched new ev then new else new ++ [ev]) l.
Proof. reflexivity. Qed.

Lemma preserve_materials new mats :
  Forall (fun ev => pe_material_name ev <> "") mats -> preserve new mats = new ++ mats.
Proof.
  intros Hm. revert new. induction Hm as [|ev mats Hev _ IH]; intros new; [by rewrite app_nil_r|].
  rewrite preserve_cons, IH.
  assert (is_empty (pe_material_name ev) = false) as -> by (by destruct (pe_material_name ev)).
  cbn. by rewrite <- app_assoc.
Qed.

Lemma matched_app l1 l2 ev : matched (l1 ++ l2) ev = matched l1 ev || matched l2 ev.
Proof. apply existsb_app. Qed.

Lemma preserve_attestation new atts :
  Forall (fun ev => pe_material_name ev = "") atts -> NoDup (map eval_key atts) ->
  preserve new atts = new ++ not_reevaluated new atts.
Proof.
  induction atts as [|ev atts IH] using rev_ind; intros Ha Hn; [by rewrite app_nil_r|].
  apply Forall_app in Ha as [Ha Hev]. apply Forall_inv in Hev. cbn in Hev.
  rewrite map_app, NoDup_app in Hn. destruct Hn as (Hn & Hd & _).
  rewrite preserve_app, IH by done. unfold not_reevaluated. rewrite List.filter_app.
  rewrite preserve_cons, Hev. change (preserve ?l []) with l.
  change (is_empty "") with true. cbn [negb List.filter]. rewrite (matched_app new).
  assert (matched (List.filter (fun ev => negb (matched new ev)) atts) ev = false) as ->.
  { rewrite matched_key, bool_decide_eq_false. intros (x & Hk & Hx)%list_elem_of_fmap.
    apply list_elem_of_In, filter_In in Hx as [Hx _]. apply (Hd (eval_key x)).
    - apply list_elem_of_fmap. exists x. split; [done|]. by apply list_elem_of_In.
    - apply list_elem_of_singleton. done. }
  rewrite orb_false_r. destruct (matched new ev); cbn; [by rewrite app_nil_r | by rewrite <- app_assoc].
Qed.

(** Merging an ordered state is exact, and keeps it ordered. *)
Lemma preserve_ordered new evs :
  ordered evs -> preserve new evs = new ++ not_reevaluated new (of_attestation evs) ++ of_materials evs.
Proof.
  intros Ho. pose proof (ordered_parts _ Ho) as [Heq Hn]. rewrite Heq at 1. rewrite preserve_app.
  rewrite (preserve_attestation new (of_attestation evs)), preserve_materials;
    [by rewrite <- app_assoc| | |done].
  - apply Forall_forall. intros ev [_ Hev]%list_elem_of_In%filter_In. intros Hz. by rewrite Hz in Hev.
  - apply Forall_forall. intros ev [_ Hev]%list_elem_of_In%filter_In. by destruct (pe_material_name ev).
Qed.

Lemma ordered_preserve new evs :
  ordered evs -> NoDup (map eval_key new) -> Forall (fun ev => pe_material_name ev = "") new ->
  ordered (preserve new evs).
Proof.
  intros Ho Hn Ha. rewrite preserve_ordered by done.
  exists (new ++ not_reevaluated new (of_attestation evs)), (of_materials evs).
  split; [by rewrite <- app_assoc|]. pose proof (ordered_parts _ Ho) as [_ Hnd].
  split; [|split].
  - apply Forall_app. split; [done|]. apply Forall_forall.
    intros ev Hev%list_elem_of_In. apply filter_In in Hev as [[_ Hev]%filter_In _].
    by destruct (pe_material_name ev).
  - apply Forall_forall. intros ev [_ Hev]%list_elem_of_In%filter_In. intros Hz. by rewrite Hz in Hev.
  - rewrite map_app. apply NoDup_app. split; [done|]. split.
    + intros k Hk (ev & -> & Hev)%list_elem_of_fmap. apply list_elem_of_In, filter_In in Hev as [_ Hev].
      rewrite matched_key, negb_true_iff, bool_decide_eq_false in Hev. done.
    + revert Hnd. generalize (of_attestation evs) as l. clear.
      induction l as [|ev l IH]; cbn; [done|]. intros [Hev Hl]%NoDup_cons.
      destruct (negb (matched new ev)); cbn; [|auto]. apply NoDup_cons. split; [|auto].
      intros (x & Hk & Hx)%list_elem_of_fmap. apply Hev. apply list_elem_of_fmap. exists x.
      split; [done|]. apply list_elem_of_In, filter_In in Hx as [Hx _]. by apply list_elem_of_In.
Qed.

Section EvaluateTheorems.
Context `{VerifierDeps} (NumCPU : Z) `{SM : StateManager}.

Abbreviation evaluate := (EvaluateAttestationPolicies NumCPU).

Lemma phase_evaluations_named st statement phase evs :
  phase_evaluations NumCPU st statement phase = Ok evs ->
  Forall (fun ev => pe_material_name ev = "") evs.
Proof.
  unfold phase_evaluations. intros He. inv_ok. apply Forall_app.
  split; apply Forall_forall; intros ev Hev;
    [by eapply VerifyStatement_named | by eapply group_VerifyStatement_named].
Qed.

Lemma new_evaluations_named st statement phase evs :
  phase_evaluations NumCPU st statement phase = Ok evs ->
  Forall (fun ev => pe_material_name ev = "") (dedupe evs).
Proof.
  intros He%phase_evaluations_named. rewrite Forall_forall in He. apply Forall_forall.
  intros ev Hev. apply He. by apply dedupe_keys.
Qed.

(** Evaluating the policies of the attestation at a phase replaces exactly
    what it evaluates again: the new evaluations come first, one for each policy
    and arguments; those of the attestation with another policy or other
    arguments are kept, in order; every evaluation of a material is kept; and
    that state is persisted.  If a policy cannot be evaluated, nothing
    changes. *)
Theorem attestation_phase_merge c st sum id statement phase c' r :
  cr_state c = Some (st, sum) -> ordered (evaluations st) ->
  evaluate c id statement phase = (c', r) ->
  match phase_evaluations NumCPU st statement phase with
  | Err e => c' = c /\ r = Err e
  | Ok evs =>
      let new := dedupe evs in
      let st' := with_evaluations st
        (new ++ List.filter (fun ev => negb (existsb (fun n => policyEvalMatches n ev) new))
                  (of_attestation (evaluations st)) ++ of_materials (evaluations st)) in
      (forall ev, ev ∈ evs -> exists n, n ∈ new /\ policyEvalMatches n ev = true)
      /\ (forall i j a b, new !! i = Some a -> new !! j = Some b -> policyEvalMatches a b = true -> i = j)
      /\ match r with
         | Ok _ => exists sum', cr_state c' = Some (st', sum')
                     /\ sm_Write (cr_store c) id st' sum = (Ok sum', cr_store c')
         | Err _ => exists e, cr_state c' = Some (st', sum)
                     /\ sm_Write (cr_store c) id st' sum = (Err e, cr_store c')
         end
  end.
Proof.
  intros Hc Ho. unfold EvaluateAttestationPolicies. rewrite Hc.
  destruct (phase_evaluations NumCPU st statement phase) as [evs|e]; [|by intros [= <- <-]].
  cbn zeta. rewrite preserve_ordered by done. intros He.
  pose proof (dedupe_keys evs) as (Hnd & _ & Hall). split; [|split].
  - intros ev Hev. apply Hall, list_elem_of_fmap in Hev as (n & Hk & Hn). exists n.
    split; [done|]. by rewrite policyEvalMatches_key, bool_decide_eq_true.
  - intros i j a b Hi Hj. rewrite policyEvalMatches_key, bool_decide_eq_true. intros Hk.
    rewrite NoDup_alt in Hnd. apply (Hnd i j (eval_key a)); rewrite list_lookup_fmap;
      [by rewrite Hi | by rewrite Hj, Hk].
  - unfold not_reevaluated, matched in *.
    destruct (sm_Write _ _ _ _) as [[sum'|e] store] eqn:Ew; injection He as <- <-; cbn;
      eexists; (split; reflexivity).
Qed.

(** The state stays ordered, persisted or not. *)
Lemma evaluate_ordered c st sum id statement phase c' r :
  cr_state c = Some (st, sum) -> ordered (evaluations st) ->
  evaluate c id statement phase = (c', r) ->
  exists st' sum', cr_state c' = Some (st', sum') /\ ordered (evaluations st')
    /\ (c' = c \/ exists w, sm_Write (cr_store c) id st' sum = (w, cr_store c')).
Proof.
  intros Hc Ho. unfold EvaluateAttestationPolicies. rewrite Hc.
  destruct (phase_evaluations NumCPU st statement phase) as [evs|e] eqn:Ep.
  2:{ intros [= <- <-]. eauto 10. }
  assert (ordered (preserve (dedupe evs) (evaluations st))) as Hp.
  { apply ordered_preserve; [done|apply dedupe_keys|by eapply new_evaluations_named]. }
  cbn zeta. destruct (sm_Write _ _ _ _) as [[sum'|e] store] eqn:Ew; intros [= <- <-]; cbn;
    eexists _, _; (split; [reflexivity|]); (split; [exact Hp|]); right; eexists; exact Ew.
Qed.
End EvaluateTheorems.

(** ** Witnesses *)

Definition toy_named (name text : string) : Policy :=
  {| policy_api_version := policy_api_version toy_policy; policy_kind := policy_kind toy_policy;
     policy_metadata := {| meta_name := name; meta_description := ""; meta_annotations := ∅;
                           meta_organization := None; meta_finding_type := None |};
     policy_spec := {| spec_source := Some (LegacyEmbedded text);
                       spec_type := MATERIAL_TYPE_UNSPECIFIED; spec_policies := []; spec_inputs := [] |} |}.

Definition toy_embedded (name text : string) : PolicyAttachment :=
  {| att_policy := Some (AttachedEmbedded (toy_named name text)); att_selector := None;
     att_disabled := false; att_with := ∅; att_requirements := []; att_gate := None |}.

(** Embedded policies run their text; all but "clean" give one violation *)
Definition toy_embedded_deps : VerifierDeps :=
  {| load_policy := fun att => match GetEmbedded att with
                               | Some p => Ok (p, None) | None => Err (EMsg "not embedded") end;
     load_group := fun _ => Err (EMsg "no group");
     load_scripts := fun p _ _ => match spec_source (policy_spec p) with
                                  | Some (LegacyEmbedded text) => Ok [{| script_source := text; script_name := "p" |}]
                                  | _ => Ok [] end;
     rego_engine := {| Verify := fun _ s _ _ =>
       Ok (toy_result (if bool_decide (script_source s = "clean") then [] else [script_source s]) false) |};
     wasm_engine := toy_engine;
     template_execute := fun t _ => Ok t;
     unmarshal_finding := fun _ => Ok; validate_finding := fun _ _ => Ok tt;
     evaluable := fun _ _ _ => Ok "{}"; Statement := unit; marshal_statement := fun _ => Ok "{}" |}.

Definition toy_contract (atts : list PolicyAttachment) : CraftingState :=
  {| st_schema := Some (InputSchema {|
       cs_schema_version := "v1"; cs_materials := []; cs_env_allow_list := []; cs_runner := None;
       cs_annotations := [];
       cs_policies := Some {| policies_materials := []; policies_attestation := atts |};
       cs_policy_groups := [] |});
     st_attestation := toy_attestation; st_dry_run := true;
     st_ui_dashboard_url := "" |}.

Definition toy_evaluate (atts : list PolicyAttachment) : Crafter * result unit :=
  @EvaluateAttestationPolicies toy_embedded_deps 8 toy_store
    {| cr_state := Some (toy_contract atts, ""); cr_store := [] |} "id" tt EvalPhasePush.

(** The names and violations that the state ends with *)
Definition toy_outcome (atts : list PolicyAttachment) : list (string * nat) :=
  match cr_state (fst (toy_evaluate atts)) with
  | Some (st, _) => map (fun ev => (pe_name ev, length (pe_violations ev))) (evaluations st)
  | None => []
  end.

(** Two embedded policies of the same name and arguments count as one: the
    second is evaluated but its evaluation is dropped with its violations, although
    its code is another; under another name they are recorded. *)
Theorem embedded_name_collision :
  toy_outcome [toy_embedded "a" "clean"; toy_embedded "a" "denies"] = [("a", 0)]
  /\ toy_outcome [toy_embedded "a" "clean"; toy_embedded "b" "denies"] = [("a", 0); ("b", 1)].
Proof. split; vm_compute; reflexivity. Qed.

Lemma attestation_phase_merge_witness :
  exists st sum, cr_state (fst (toy_evaluate [toy_embedded "a" "denies"])) = Some (st, sum)
    /\ length (evaluations st) = 1.
Proof.
  destruct (toy_evaluate [toy_embedded "a" "denies"]) as [c' r] eqn:E.
  pose proof (@attestation_phase_merge toy_embedded_deps 8 toy_store
    {| cr_state := Some (toy_contract [toy_embedded "a" "denies"], ""); cr_store := [] |}
    (toy_contract [toy_embedded "a" "denies"]) "" "id" tt EvalPhasePush c' r eq_refl) as Hm.
  destruct (@phase_evaluations toy_embedded_deps 8 (toy_contract [toy_embedded "a" "denies"]) tt EvalPhasePush) as [evs|e] eqn:Ep;
    [|vm_compute in Ep; discriminate Ep].
  destruct r as [u|e]; [|vm_compute in E; discriminate E].
  destruct Hm as (_ & _ & sum' & Hst & _); [|exact E|].
  - exists [], []. repeat split; constructor.
  - exists (with_evaluations (toy_contract [toy_embedded "a" "denies"]) (dedupe evs)), sum'.
    cbn [fst]. rewrite Hst. split.
    + cbn. by rewrite app_nil_r.
    + vm_compute in Ep. injection Ep as <-. vm_compute. reflexivity.
Defined.
