(* ===== verification/Runners.v ===== *)
(** * The CI runners

    pkg/attestation/crafter/runners/ and runner.go: the environments an
    attestation can be crafted in, what each tells of its run and which of its
    variables it records, and how the one at hand is discovered.

    The process environment, the files that are looked at and the tokens and
    verifications that the platforms' APIs give are the parameters of
    [RunnerEnv]. *)

From S2P Require Import Prelude.
From S2P Require Import GoStrings.
From S2P Require Import Contract.
From S2P Require Import CraftingState.

(** What the runners look at *)
Class RunnerEnv := {
  Getenv : string -> string;
  (** whether [os.Stat] finds the path *)
  Stat : string -> bool;
  ReadFile : string -> result string;
  (** the OIDC token of GitHub: runner environment, workflow reference *)
  github_token : option (string * string);
  (** the OIDC token of GitLab, for the token given to the command *)
  gitlab_token : string -> option (string * string);
  (** the labels that the Kubernetes API gives, with the token and CA read from files,
      for host, port, namespace and name of the pod *)
  pod_labels : string -> string -> string -> string -> string -> string -> result (gmap string string);
  (** owner, repository, commit and token *)
  VerifyGitHubCommit : string -> string -> string -> string -> option CommitVerification;
  (** server, project, commit, API token and job token *)
  VerifyGitLabCommit : string -> string -> string -> string -> string -> option CommitVerification;
  (** the server's URL with the path of a project and a query; "" if it does not parse *)
  results_url : string -> string -> list (string * string) -> string
}.

(** ** Environment variables (runners.go) *)

Record EnvVarDefinition := { env_name : string; env_optional : bool }.

Definition required_var (n : string) : EnvVarDefinition := {| env_name := n; env_optional := false |}.
Definition optional_var (n : string) : EnvVarDefinition := {| env_name := n; env_optional := true |}.

Inductive Hosting := Managed | SelfHosted | HostingUnknown.

(** [RunnerEnvironment.String] *)
Definition Hosting_String (h : Hosting) : string :=
  match h with Managed => "managed" | SelfHosted => "self-hosted" | HostingUnknown => "unknown" end.

(** [SupportedRunner]; resolving the variables gives them or the errors *)
Record SupportedRunner := {
  r_ID : RunnerType;
  r_CheckEnv : bool;
  r_ListEnvVars : list EnvVarDefinition;
  r_ResolveEnvVars : gmap string string + list goerr;
  r_RunURI : string;
  r_WorkflowFilePath : string;
  r_IsAuthenticated : bool;
  r_Environment : Hosting;
  r_VerifyCommitSignature : string -> option CommitVerification
}.

Section Runners.
Context `{RunnerEnv}.

Definition is_set (name : string) : bool := negb (is_empty (Getenv name)).

(** [resolveEnvVars]: the loop, then nothing at all if something is missing *)
Definition resolve_step (acc : gmap string string * list goerr) (d : EnvVarDefinition)
    : gmap string string * list goerr :=
  let '(result, errors) := acc in
  let value := Getenv (env_name d) in
  if negb (is_empty value) then (<[env_name d := value]> result, errors)
  else if env_optional d then (result, errors)
  else (result, errors ++ [EMsg ("environment variable " +:+ env_name d +:+ " cannot be resolved")]).

Definition resolveEnvVars (defs : list EnvVarDefinition) : gmap string string + list goerr :=
  let '(result, errors) := fold_left resolve_step defs (∅, []) in
  if bool_decide (errors = []) then inl result else inr errors.

(** ** The runners *)

(** What [Generic] gives the runners that embed it *)
Definition plain_runner (id : RunnerType) (check : bool) (vars : list EnvVarDefinition)
    (uri : string) : SupportedRunner :=
  {| r_ID := id; r_CheckEnv := check; r_ListEnvVars := vars; r_ResolveEnvVars := resolveEnvVars vars;
     r_RunURI := uri; r_WorkflowFilePath := ""; r_IsAuthenticated := false;
     r_Environment := HostingUnknown; r_VerifyCommitSignature := fun _ => None |}.

(** [Generic] *)
Definition Generic : SupportedRunner := plain_runner RUNNER_TYPE_UNSPECIFIED true [] "".

(** [AzurePipeline] *)
Definition AzurePipeline : SupportedRunner :=
  plain_runner AZURE_PIPELINE (forallb is_set ["TF_BUILD"; "BUILD_BUILDURI"])
    [optional_var "BUILD_REQUESTEDFOREMAIL"; required_var "BUILD_REQUESTEDFOR";
     optional_var "BUILD_REPOSITORY_URI"; optional_var "BUILD_REPOSITORY_NAME";
     required_var "BUILD_BUILDID"; required_var "BUILD_BUILDNUMBER"; required_var "BUILD_BUILDURI";
     optional_var "BUILD_REASON"; optional_var "TF_BUILD"]
    (results_url (Getenv "SYSTEM_TEAMFOUNDATIONSERVERURI") (Getenv "SYSTEM_TEAMPROJECT")
       [("buildId", Getenv "BUILD_BUILDID"); ("view", "logs"); ("j", Getenv "SYSTEM_JOBID")]).

(** [ChainloopSandbox] *)
Definition ChainloopSandbox : SupportedRunner :=
  plain_runner CHAINLOOP_SANDBOX (is_set "CHAINLOOP_SANDBOX") [] "".

(** [CircleCIBuild] *)
Definition CircleCIBuild : SupportedRunner :=
  plain_runner CIRCLECI_BUILD
    (forallb (fun v => bool_decide (Getenv v = "true")) ["CI"; "CIRCLECI"])
    [required_var "CIRCLE_BUILD_URL"; required_var "CIRCLE_JOB"; required_var "CIRCLE_BRANCH";
     required_var "CIRCLE_NODE_TOTAL"; required_var "CIRCLE_NODE_INDEX"]
    (Getenv "CIRCLE_BUILD_URL").

(** [JenkinsJob] *)
Definition JenkinsJob : SupportedRunner :=
  plain_runner JENKINS_JOB (forallb is_set ["JENKINS_HOME"; "BUILD_URL"])
    [required_var "JOB_NAME"; required_var "BUILD_URL"; optional_var "GIT_BRANCH";
     optional_var "GIT_COMMIT"; optional_var "AGENT_WORKDIR"; required_var "WORKSPACE";
     required_var "NODE_NAME"]
    (Getenv "BUILD_URL").

(** [TeamCityPipeline] *)
Definition TeamCityPipeline : SupportedRunner :=
  plain_runner TEAMCITY_PIPELINE (is_set "TEAMCITY_PROJECT_NAME")
    [required_var "BUILD_URL"; required_var "TEAMCITY_PROJECT_NAME"; optional_var "TEAMCITY_VERSION";
     optional_var "BUILD_NUMBER"; optional_var "USER"; optional_var "TEAMCITY_GIT_VERSION";
     optional_var "BUILD_VCS_NUMBER"; optional_var "HOME"]
    (Getenv "BUILD_URL").

(** The verification that GitHub and Dagger share *)
Definition verifyCommitViaGitHub (commitHash : string) : option CommitVerification :=
  match split (Getenv "GITHUB_REPOSITORY") "/" with
  | [owner; repo] => VerifyGitHubCommit owner repo commitHash (Getenv "GITHUB_TOKEN")
  | _ => None
  end.

Definition verifyCommitViaGitLab (commitHash : string) : option CommitVerification :=
  let baseURL := Getenv "CI_SERVER_URL" in
  let projectPath := Getenv "CI_PROJECT_PATH" in
  if is_empty baseURL || is_empty projectPath then None
  else VerifyGitLabCommit baseURL projectPath commitHash (Getenv "GITLAB_TOKEN") (Getenv "CI_JOB_TOKEN").

(** [DaggerPipeline] *)
Definition DaggerPipeline : SupportedRunner :=
  let vars :=
    required_var "CHAINLOOP_DAGGER_CLIENT"
    :: map optional_var
         ["GITHUB_EVENT_NAME"; "GITHUB_HEAD_REF"; "GITHUB_BASE_REF"; "GITHUB_EVENT_PATH";
          "CI_PIPELINE_SOURCE"; "CI_MERGE_REQUEST_IID"; "CI_MERGE_REQUEST_TITLE";
          "CI_MERGE_REQUEST_DESCRIPTION"; "CI_MERGE_REQUEST_SOURCE_BRANCH_NAME";
          "CI_MERGE_REQUEST_TARGET_BRANCH_NAME"; "CI_MERGE_REQUEST_PROJECT_URL";
          "CI_MERGE_REQUEST_PROJECT_PATH"; "CI_SERVER_URL"; "CI_PROJECT_PATH"; "GITLAB_USER_LOGIN"] in
  {| r_ID := DAGGER_PIPELINE; r_CheckEnv := is_set "CHAINLOOP_DAGGER_CLIENT"; r_ListEnvVars := vars;
     r_ResolveEnvVars := resolveEnvVars vars; r_RunURI := ""; r_WorkflowFilePath := "";
     r_IsAuthenticated := false; r_Environment := HostingUnknown;
     r_VerifyCommitSignature := fun commitHash =>
       if is_set "GITHUB_REPOSITORY" && is_set "GITHUB_RUN_ID" then verifyCommitViaGitHub commitHash
       else if is_set "GITLAB_CI" && is_set "CI_JOB_URL" then verifyCommitViaGitLab commitHash
       else None |}.

(** The hosting that a platform's token states *)
Definition token_hosting (managed : string) (token : option (string * string)) : Hosting :=
  match token with
  | Some (env, _) => if bool_decide (env = managed) then Managed
                     else if bool_decide (env = "self-hosted") then SelfHosted else HostingUnknown
  | None => HostingUnknown
  end.

Definition token_workflow (token : option (string * string)) : string :=
  match token with Some (_, ref) => ref | None => "" end.

(** [GitHubAction] *)
Definition GitHubAction : SupportedRunner :=
  let vars :=
    map required_var ["GITHUB_ACTOR"; "GITHUB_REF"; "GITHUB_REPOSITORY"; "GITHUB_REPOSITORY_OWNER";
                      "GITHUB_RUN_ID"; "GITHUB_SHA"; "RUNNER_NAME"; "RUNNER_OS"]
    ++ map optional_var ["GITHUB_EVENT_NAME"; "GITHUB_HEAD_REF"; "GITHUB_BASE_REF"; "GITHUB_EVENT_PATH"] in
  {| r_ID := GITHUB_ACTION; r_CheckEnv := forallb is_set ["CI"; "GITHUB_REPOSITORY"; "GITHUB_RUN_ID"];
     r_ListEnvVars := vars; r_ResolveEnvVars := resolveEnvVars vars;
     r_RunURI := if is_set "GITHUB_REPOSITORY" && is_set "GITHUB_RUN_ID"
                 then "https://github.com/" +:+ Getenv "GITHUB_REPOSITORY" +:+ "/actions/runs/"
                      +:+ Getenv "GITHUB_RUN_ID"
                 else "";
     r_WorkflowFilePath := token_workflow github_token;
     r_IsAuthenticated := bool_decide (is_Some github_token);
     r_Environment := token_hosting "github-hosted" github_token;
     r_VerifyCommitSignature := fun commitHash =>
       if is_set "GITHUB_REPOSITORY" then verifyCommitViaGitHub commitHash else None |}.

(** [GitlabPipeline] *)
Definition GitlabPipeline (authToken : string) : SupportedRunner :=
  let vars :=
    map required_var ["GITLAB_USER_EMAIL"; "GITLAB_USER_LOGIN"; "CI_SERVER_URL"; "CI_PROJECT_URL";
                      "CI_COMMIT_SHA"; "CI_JOB_URL"; "CI_PIPELINE_URL"; "CI_RUNNER_VERSION"]
    ++ [optional_var "CI_RUNNER_DESCRIPTION"; required_var "CI_COMMIT_REF_NAME";
        required_var "CI_PROJECT_PATH"]
    ++ map optional_var ["CI_PIPELINE_SOURCE"; "CI_MERGE_REQUEST_IID"; "CI_MERGE_REQUEST_TITLE";
                         "CI_MERGE_REQUEST_DESCRIPTION"; "CI_MERGE_REQUEST_SOURCE_BRANCH_NAME";
                         "CI_MERGE_REQUEST_TARGET_BRANCH_NAME"; "CI_MERGE_REQUEST_PROJECT_URL";
                         "CI_MERGE_REQUEST_PROJECT_PATH"] in
  {| r_ID := GITLAB_PIPELINE; r_CheckEnv := forallb is_set ["GITLAB_CI"; "CI_JOB_URL"];
     r_ListEnvVars := vars; r_ResolveEnvVars := resolveEnvVars vars;
     r_RunURI := Getenv "CI_JOB_URL";
     r_WorkflowFilePath := token_workflow (gitlab_token authToken);
     r_IsAuthenticated := bool_decide (is_Some (gitlab_token authToken));
     r_Environment := token_hosting "gitlab-hosted" (gitlab_token authToken);
     r_VerifyCommitSignature := verifyCommitViaGitLab |}.

(** ** Tekton *)

(** [TektonPipeline]: what its constructor found out *)
Record tekton := {
  tk_podName : string; tk_namespace : string; tk_labels : gmap string string
}.

Definition service_account : string := "/var/run/secrets/kubernetes.io/serviceaccount/".

(** [discoverLabelsFromKubeAPI]: best effort *)
Definition discoverLabelsFromKubeAPI (podName namespace : string) : gmap string string :=
  match ReadFile (service_account +:+ "token"), ReadFile (service_account +:+ "ca.crt") with
  | Ok token, Ok caCert =>
      let apiHost := Getenv "KUBERNETES_SERVICE_HOST" in
      let apiPort := Getenv "KUBERNETES_SERVICE_PORT" in
      let apiPort := if is_empty apiPort then "443" else apiPort in
      if is_empty apiHost || is_empty namespace || is_empty podName then ∅
      else match pod_labels (trim_space token) caCert apiHost apiPort namespace podName with
           | Ok labels => filter (fun kv => has_prefix kv.1 "tekton.dev/" = true) labels
           | Err _ => ∅
           end
  | _, _ => ∅
  end.

(** [NewTektonPipeline] *)
Definition NewTekton : tekton :=
  let podName := Getenv "HOSTNAME" in
  let namespace := match ReadFile (service_account +:+ "namespace") with
                   | Ok ns => trim_space ns | Err _ => "" end in
  {| tk_podName := podName; tk_namespace := namespace;
     tk_labels := discoverLabelsFromKubeAPI podName namespace |}.

Definition label (t : tekton) (k : string) : string := default "" (tk_labels t !! k).

(** [taskRunNameFromHostname] *)
Definition taskRunNameFromHostname (t : tekton) : string :=
  let hostname := tk_podName t in
  if is_empty hostname then ""
  else match cut "-pod-retry" hostname with
       | Some (before, _) => before
       | None => if has_suffix hostname "-pod" then trim_suffix hostname "-pod" else ""
       end.

(** [strings.TrimRight(s, "/")] *)
Definition trim_right_slash (s : string) : string :=
  str_rev (trim_left ["/"] (str_rev s)).

(** [TektonPipeline.RunURI] *)
Definition tekton_RunURI (t : tekton) : string :=
  let taskRun := label t "tekton.dev/taskRun" in
  let pipelineRun := label t "tekton.dev/pipelineRun" in
  let taskRun := if is_empty taskRun then taskRunNameFromHostname t else taskRun in
  let ns := tk_namespace t in
  let dashboard := Getenv "TEKTON_DASHBOARD_URL" in
  if negb (is_empty dashboard) && negb (is_empty pipelineRun) && negb (is_empty ns)
  then trim_right_slash dashboard +:+ "/#/namespaces/" +:+ ns +:+ "/pipelineruns/" +:+ pipelineRun
  else if negb (is_empty dashboard) && negb (is_empty taskRun) && negb (is_empty ns)
  then trim_right_slash dashboard +:+ "/#/namespaces/" +:+ ns +:+ "/taskruns/" +:+ taskRun
  else if negb (is_empty pipelineRun) && negb (is_empty ns)
  then "tekton://" +:+ ns +:+ "/pipelineruns/" +:+ pipelineRun
  else if negb (is_empty taskRun) && negb (is_empty ns)
  then "tekton://" +:+ ns +:+ "/taskruns/" +:+ taskRun
  else "".

(** The closures [requireVar] and [optionalVar] of [ResolveEnvVars] *)
Definition tekton_step (acc : gmap string string * list goerr) (v : bool * (string * string))
    : gmap string string * list goerr :=
  let '(resolved, errors) := acc in
  let '(required, (key, value)) := v in
  if negb (is_empty value) then (<[key := value]> resolved, errors)
  else if required : bool
  then (resolved, errors ++ [EMsg ("required var " +:+ key +:+ " not resolved")])
  else (resolved, errors).

(** [TektonPipeline.ResolveEnvVars] *)
Definition tekton_ResolveEnvVars (t : tekton) : gmap string string + list goerr :=
  let '(resolved, errors) :=
    fold_left tekton_step
      [(false, ("HOSTNAME", Getenv "HOSTNAME"));
       (true, ("TEKTON_TASKRUN_NAME", label t "tekton.dev/taskRun"));
       (true, ("TEKTON_NAMESPACE", tk_namespace t));
       (false, ("TEKTON_TASK_NAME", label t "tekton.dev/task"));
       (false, ("TEKTON_PIPELINE_NAME", label t "tekton.dev/pipeline"));
       (false, ("TEKTON_PIPELINERUN_NAME", label t "tekton.dev/pipelineRun"));
       (false, ("TEKTON_PIPELINE_TASK_NAME", label t "tekton.dev/pipelineTask"))] (∅, []) in
  if bool_decide (errors = []) then inl resolved else inr errors.

(** [TektonPipeline.Environment] *)
Definition tekton_Environment : Hosting :=
  if is_set "GOOGLE_CLOUD_PROJECT" then Managed
  else if is_set "AWS_WEB_IDENTITY_TOKEN_FILE" then Managed
  else if is_set "AZURE_FEDERATED_TOKEN_FILE" then Managed
  else if is_set "KUBERNETES_SERVICE_HOST" then SelfHosted
  else HostingUnknown.

(** [TektonPipeline] *)
Definition TektonPipeline : SupportedRunner :=
  let t := NewTekton in
  {| r_ID := TEKTON_PIPELINE; r_CheckEnv := Stat "/tekton/results";
     r_ListEnvVars :=
       [optional_var "HOSTNAME"; required_var "TEKTON_TASKRUN_NAME"; optional_var "TEKTON_TASK_NAME";
        required_var "TEKTON_NAMESPACE"; optional_var "TEKTON_PIPELINE_NAME";
        optional_var "TEKTON_PIPELINERUN_NAME"; optional_var "TEKTON_PIPELINE_TASK_NAME"];
     r_ResolveEnvVars := tekton_ResolveEnvVars t; r_RunURI := tekton_RunURI t;
     r_WorkflowFilePath := ""; r_IsAuthenticated := false; r_Environment := tekton_Environment;
     r_VerifyCommitSignature := fun _ => None |}.

Definition maxTektonResultSize : nat := 3500.
Definition truncated_mark : string := newline +:+ "... (truncated)".

(** The content that [TektonPipeline.Report] writes *)
Definition tekton_report (tableOutput attestationViewURL : string) : string :=
  let content := "Chainloop Attestation Report" +:+ newline +:+ newline +:+ tableOutput in
  let content := if is_empty attestationViewURL then content
                 else content +:+ newline +:+ "View details: " +:+ attestationViewURL +:+ newline in
  if bool_decide (maxTektonResultSize < String.length content)
  then str_take (maxTektonResultSize - String.length truncated_mark) content +:+ truncated_mark
  else content.

(** ** Discovery (runner.go) *)

(** The number of the enum *)
Definition runner_number (t : RunnerType) : nat :=
  match t with
  | RUNNER_TYPE_UNSPECIFIED => 0 | GITHUB_ACTION => 1 | GITLAB_PIPELINE => 2 | AZURE_PIPELINE => 3
  | JENKINS_JOB => 4 | CIRCLECI_BUILD => 5 | DAGGER_PIPELINE => 6 | TEAMCITY_PIPELINE => 7
  | TEKTON_PIPELINE => 8 | CHAINLOOP_SANDBOX => 9
  end.

(** The keys of [RunnerFactories], in the order of the source *)
Definition factory_types : list RunnerType :=
  [GITHUB_ACTION; GITLAB_PIPELINE; AZURE_PIPELINE; JENKINS_JOB; CIRCLECI_BUILD; DAGGER_PIPELINE;
   TEAMCITY_PIPELINE; TEKTON_PIPELINE; CHAINLOOP_SANDBOX].

(** [NewRunner], with [RunnerFactories] *)
Definition NewRunner (t : RunnerType) (authToken : string) : SupportedRunner :=
  match t with
  | GITHUB_ACTION => GitHubAction
  | GITLAB_PIPELINE => GitlabPipeline authToken
  | AZURE_PIPELINE => AzurePipeline
  | JENKINS_JOB => JenkinsJob
  | CIRCLECI_BUILD => CircleCIBuild
  | DAGGER_PIPELINE => DaggerPipeline
  | TEAMCITY_PIPELINE => TeamCityPipeline
  | TEKTON_PIPELINE => TektonPipeline
  | CHAINLOOP_SANDBOX => ChainloopSandbox
  | RUNNER_TYPE_UNSPECIFIED => Generic
  end.

(** The comparison that sorts the types is not positive *)
Definition discovery_le (a b : RunnerType) : Prop :=
  a = DAGGER_PIPELINE \/ (b <> DAGGER_PIPELINE /\ runner_number a <= runner_number b).

#[export] Instance discovery_le_dec : RelDecision discovery_le.
Proof. intros a b. unfold discovery_le. apply _. Defined.

(** [runnerDiscoveryOrder], for the order in which the map is iterated *)
Definition runnerDiscoveryOrder (iteration : list RunnerType) : list RunnerType :=
  merge_sort discovery_le iteration.

(** [DiscoverRunner] *)
Fixpoint first_match (types : list RunnerType) (authToken : string) : SupportedRunner :=
  match types with
  | [] => Generic
  | t :: types' => let r := NewRunner t authToken in
                   if r_CheckEnv r then r else first_match types' authToken
  end.

Definition DiscoverRunner (iteration : list RunnerType) (authToken : string) : SupportedRunner :=
  first_match (runnerDiscoveryOrder iteration) authToken.

(** [DiscoverAndEnforceRunner] *)
Definition DiscoverAndEnforceRunner (iteration : list RunnerType) (enforced : RunnerType)
    (dryRun : bool) (authToken : string) : result SupportedRunner :=
  let discovered := DiscoverRunner iteration authToken in
  if bool_decide (enforced = RUNNER_TYPE_UNSPECIFIED) || dryRun then Ok discovered
  else if negb (bool_decide (enforced = r_ID discovered)) then Err (EMsg "runner not found")
  else Ok discovered.
End Runners.

(** ** What the discovery gives *)

#[export] Instance discovery_le_trans : Transitive discovery_le.
Proof. intros a b c. unfold discovery_le. intros [->|[Hb H1]] [->|[Hc H2]]; auto; [congruence|]. right. split; [done|lia]. Qed.

#[export] Instance discovery_le_total : Total discovery_le.
Proof.
  intros a b. unfold discovery_le.
  destruct (decide (a = DAGGER_PIPELINE)), (decide (b = DAGGER_PIPELINE)); auto.
  destruct (decide (runner_number a <= runner_number b)); [auto|]. right. right. split; [done|lia].
Qed.

#[export] Instance discovery_le_antisym : AntiSymm (=) discovery_le.
Proof.
  intros a b. unfold discovery_le. intros [->|[Hb H1]] [->|[Ha H2]]; [done|congruence|congruence|].
  assert (runner_number a = runner_number b) as Hn by lia. by destruct a, b.
Qed.

(** The order of discovery: Dagger, then the enum's *)
Definition discovery_order : list RunnerType :=
  [DAGGER_PIPELINE; GITHUB_ACTION; GITLAB_PIPELINE; AZURE_PIPELINE; JENKINS_JOB; CIRCLECI_BUILD;
   TEAMCITY_PIPELINE; TEKTON_PIPELINE; CHAINLOOP_SANDBOX].

Lemma runnerDiscoveryOrder_unique iteration :
  Permutation iteration factory_types -> runnerDiscoveryOrder iteration = discovery_order.
Proof.
  intros Hp. apply (Sorted_unique discovery_le).
  - apply Sorted_merge_sort; apply _.
  - repeat (constructor; [|try constructor; unfold discovery_le; cbn; (by left) || (right; split; [done|lia])]).
    constructor.
  - unfold runnerDiscoveryOrder. rewrite merge_sort_Permutation, Hp.
    apply NoDup_Permutation; [by apply (bool_decide_unpack _)|by apply (bool_decide_unpack _)|].
    intros x. destruct x; set_solver.
Qed.

Section DiscoveryTheorems.
Context `{RunnerEnv}.

Lemma NewRunner_ID t authToken : r_ID (NewRunner t authToken) = t.
Proof. by destruct t. Qed.

Lemma first_match_find types authToken :
  first_match types authToken
  = match List.find (fun t => r_CheckEnv (NewRunner t authToken)) types with
    | Some t => NewRunner t authToken
    | None => Generic
    end.
Proof. induction types as [|t types IH]; cbn [first_match List.find]; [done|]. by destruct (r_CheckEnv _). Qed.

(** Which runner is discovered does not depend on the order in which Go
    iterates the map of runners: it is the first one whose environment is
    there, with Dagger before all others and the others by their number, and
    the generic runner if there is none.  So inside the Dagger module the Dagger
    runner is found whatever the variables of the CI around it. *)
Theorem discovery_deterministic iteration authToken :
  Permutation iteration factory_types ->
  DiscoverRunner iteration authToken
  = match List.find (fun t => r_CheckEnv (NewRunner t authToken)) discovery_order with
    | Some t => NewRunner t authToken
    | None => Generic
    end
  /\ (Getenv "CHAINLOOP_DAGGER_CLIENT" <> "" -> r_ID (DiscoverRunner iteration authToken) = DAGGER_PIPELINE).
Proof.
  intros Hp. unfold DiscoverRunner. rewrite runnerDiscoveryOrder_unique, first_match_find by done.
  split; [done|]. intros Hd. cbn [discovery_order List.find NewRunner DaggerPipeline r_CheckEnv].
  assert (is_set "CHAINLOOP_DAGGER_CLIENT" = true) as ->; [|done].
  unfold is_set. by apply negb_true_iff, is_empty_false.
Qed.

(** An enforced runner is the one the attestation gets: outside dry runs, a
    contract that requires a runner is only served by that runner, in its own
    environment; and it is refused exactly when another one is discovered. *)
Theorem enforced_runner iteration enforced authToken :
  Permutation iteration factory_types -> enforced <> RUNNER_TYPE_UNSPECIFIED ->
  match DiscoverAndEnforceRunner iteration enforced false authToken with
  | Ok r => r = NewRunner enforced authToken /\ r_CheckEnv r = true
  | Err _ => r_ID (DiscoverRunner iteration authToken) <> enforced
  end.
Proof.
  intros Hp Hne. unfold DiscoverAndEnforceRunner.
  rewrite bool_decide_eq_false_2 by done. cbn [orb].
  case_bool_decide as He; cbn [negb]; [|by intros Hx; rewrite Hx in He].
  revert He. unfold DiscoverRunner. rewrite first_match_find.
  destruct (List.find _ _) as [t|] eqn:Ef; [|done].
  rewrite NewRunner_ID. intros ->. split; [done|]. by apply find_some in Ef as [_ Ef].
Qed.

(** A variable that the definitions require but that is not set *)
Definition missing_var (d : EnvVarDefinition) : bool :=
  negb (env_optional d) && is_empty (Getenv (env_name d)).

Lemma resolve_fold defs :
  (forall k v, (fold_left resolve_step defs (∅, [])).1 !! k = Some v <->
     v = Getenv k /\ v <> "" /\ exists d, d ∈ defs /\ env_name d = k)
  /\ length (fold_left resolve_step defs (∅, [])).2 = length (List.filter missing_var defs).
Proof.
  induction defs as [|d defs [IH1 IH2]] using rev_ind.
  { cbn. split; [|done]. intros k v. rewrite lookup_empty. split; [done|].
    by intros (_ & _ & d & Hd%not_elem_of_nil & _). }
  rewrite fold_left_app, List.filter_app, length_app. cbn [fold_left List.filter].
  destruct (fold_left resolve_step defs (∅, [])) as [res errs]. cbn [fst snd] in *.
  unfold resolve_step. change (missing_var d) with (negb (env_optional d) && is_empty (Getenv (env_name d))).
  assert (forall k v, (v = Getenv k /\ v <> "" /\ exists d', d' ∈ defs ++ [d] /\ env_name d' = k)
    <-> res !! k = Some v \/ (env_name d = k /\ v = Getenv k /\ v <> "")) as Hd.
  { intros k v. rewrite IH1. split.
    - intros (? & ? & d' & [Hd'| ->%list_elem_of_singleton]%elem_of_app & ?); eauto 10.
    - intros [(? & ? & d' & ? & ?)|(? & ? & ?)]; (split; [done|]); (split; [done|]);
        [exists d'|exists d]; (split; [apply elem_of_app|done]); [by left|right; by apply list_elem_of_singleton]. }
  setoid_rewrite Hd. destruct (is_empty (Getenv (env_name d))) eqn:Ee; cbn [negb andb].
  - apply is_empty_true in Ee. split.
    + intros k v. assert (forall A B : Prop, ~ B -> (A <-> A \/ B)) as Hor by tauto.
      destruct (env_optional d); cbn; apply Hor; intros (<- & -> & Hv); by rewrite Ee in Hv.
    + destruct (env_optional d); cbn; rewrite ?length_app, IH2; cbn; lia.
  - apply is_empty_false in Ee. cbn [fst snd]. split.
    + intros k v. destruct (decide (env_name d = k)) as [<-|Hk].
      * rewrite lookup_insert_eq. split; [intros [= <-]; auto|].
        intros [Hv%IH1|(_ & -> & _)]; [by destruct Hv as [-> _]|done].
      * rewrite lookup_insert_ne by done. tauto.
    + rewrite andb_false_r. cbn. lia.
Qed.

(** Resolving the variables of a runner records exactly those it lists that
    have a value, with that value; if a required one has none it records
    nothing and reports one error for each. *)
Theorem resolveEnvVars_exact defs :
  match resolveEnvVars defs with
  | inl vars => Forall (fun d => env_optional d = true \/ Getenv (env_name d) <> "") defs
      /\ forall k v, vars !! k = Some v <->
           v = Getenv k /\ v <> "" /\ exists d, d ∈ defs /\ env_name d = k
  | inr errs => errs <> [] /\ length errs = length (List.filter missing_var defs)
  end.
Proof.
  pose proof (resolve_fold defs) as [H1 H2]. unfold resolveEnvVars.
  destruct (fold_left resolve_step defs (∅, [])) as [res errs]. cbn [fst snd] in *.
  case_bool_decide as He; [|done]. subst errs. cbn in H2. split; [|done].
  apply Forall_forall. intros d Hd.
  destruct (missing_var d) eqn:Em.
  - exfalso. assert (d ∈ List.filter missing_var defs) as Hin.
    { apply list_elem_of_In, filter_In. split; [by apply list_elem_of_In|done]. }
    destruct (List.filter missing_var defs); [by apply not_elem_of_nil in Hin|done].
  - unfold missing_var in Em. apply andb_false_iff in Em as [Em|Em]; [left|right].
    + by apply negb_false_iff.
    + by apply is_empty_false.
Qed.

Lemma str_take_length n s : String.length (str_take n s) <= n.
Proof.
  unfold str_take. revert n. induction s as [|c s IH]; intros [|n]; cbn; [lia..|].
  specialize (IH n). lia.
Qed.

(** What is written to Tekton Results is never longer than its limit, and
    is the whole report when that fits. *)
Theorem tekton_report_bounded tableOutput url :
  String.length (tekton_report tableOutput url) <= maxTektonResultSize
  /\ (url = "" -> String.length tableOutput <= 3470 ->
      tekton_report tableOutput url
      = "Chainloop Attestation Report" +:+ newline +:+ newline +:+ tableOutput).
Proof.
  split.
  - unfold tekton_report. case_bool_decide as Hl; [|lia].
    match type of Hl with _ < String.length ?c => set (content := c) in * end.
    rewrite str_length_app.
    pose proof (str_take_length (maxTektonResultSize - String.length truncated_mark) content) as Hn.
    change (String.length truncated_mark) with 16 in *. unfold maxTektonResultSize in *. lia.
  - intros -> Hs. unfold tekton_report. change (is_empty "") with true. cbn [negb].
    case_bool_decide as Hl; [|done]. exfalso. revert Hl.
    rewrite !str_length_app. unfold maxTektonResultSize.
    change (String.length newline) with 1. change (String.length "Chainloop Attestation Report") with 28. lia.
Qed.
End DiscoveryTheorems.

(** ** Witnesses *)

(** The environment of the Dagger module in a GitLab job *)
Definition toy_runner_env : RunnerEnv :=
  {| Getenv := fun n => if bool_decide (n ∈ ["CHAINLOOP_DAGGER_CLIENT"; "GITLAB_CI"; "CI_JOB_URL"])
                        then "1" else "";
     Stat := fun _ => false; ReadFile := fun _ => Err (EMsg "no file");
     github_token := None; gitlab_token := fun _ => None;
     pod_labels := fun _ _ _ _ _ _ => Err (EMsg "no pod");
     VerifyGitHubCommit := fun _ _ _ _ => None; VerifyGitLabCommit := fun _ _ _ _ _ => None;
     results_url := fun _ _ _ => "" |}.

Lemma discovery_deterministic_witness :
  Permutation (rev factory_types) factory_types
  /\ r_ID (@DiscoverRunner toy_runner_env (rev factory_types) "") = DAGGER_PIPELINE.
Proof.
  assert (Permutation (rev factory_types) factory_types) as Hp by (symmetry; apply Permutation_rev).
  split; [exact Hp|].
  apply (@discovery_deterministic toy_runner_env (rev factory_types) "" Hp).
  intros Hc. vm_compute in Hc. discriminate Hc.
Defined.

Lemma enforced_runner_witness :
  is_ok (@DiscoverAndEnforceRunner toy_runner_env factory_types GITLAB_PIPELINE false "") = false
  /\ r_ID (@DiscoverRunner toy_runner_env factory_types "") <> GITLAB_PIPELINE.
Proof.
  split; [vm_compute; reflexivity|].
  pose proof (@enforced_runner toy_runner_env factory_types GITLAB_PIPELINE "" (Permutation_refl _)) as Hr.
  destruct (@DiscoverAndEnforceRunner toy_runner_env factory_types GITLAB_PIPELINE false "") as [r|e] eqn:E;
    [vm_compute in E; discriminate E|].
  apply Hr. discriminate.
Defined.
