(* ===== verification/CrafterLifecycle.v ===== *)
(** * The life of a crafter

    pkg/attestation/crafter/crafter.go and cioverride.go: the initial state with
    the commit it is for, loading and persisting, the environment variables, the
    collectors; and all operations of the crafter as one transition system, with
    the invariant of its reachable states.

    Git, the environment and the event payload of GitHub are the parameters of
    [InitEnv]. *)

From stdpp Require Import relations.
From S2P Require Import Prelude.
From S2P Require Import GoStrings.
From S2P Require Import Contract.
From S2P Require Import RuntimeInputs.
From S2P Require Import PolicyArgs.
From S2P Require Import PolicyEngine.
From S2P Require Import PolicyLoaders.
From S2P Require Import CraftingState.
From S2P Require Import ErrGroup.
From S2P Require Import PolicyVerifier.
From S2P Require Import PolicyGroups.
From S2P Require Import Archive.
From S2P Require Import Crafter.
From S2P Require Import AttestationPolicies.
From S2P Require Import Runners.

(** ** The head commit *)

(** What go-git tells of a commit *)
Record GitCommit := {
  gc_hash : string; gc_author_email : string; gc_author_name : string;
  gc_message : string; gc_date : Z; gc_signature : string
}.

(** A remote: whether its configuration validates, its name and its URLs *)
Record GitRemote := { gr_valid : bool; gr_name : string; gr_urls : list string }.

(** An open repository *)
Record GitRepo := {
  git_Head : result string;
  git_CommitObject : string -> result GitCommit;
  git_Remotes : result (list GitRemote)
}.

(** The errors of go-git that the crafter tells apart *)
Definition ErrReferenceNotFound : string := "reference not found".
Definition not_a_repository : list string :=
  ["repository does not exist"; "unsupported extension for repository format version";
   "unknown extension"; "unsupported repository format version"].

Class InitEnv := {
  PlainOpen : string -> result GitRepo;
  (** [url.Parse], [User = nil] and [String] *)
  without_user : string -> result string;
  (** the payload's pull_request.head.sha, "" if it has none *)
  event_head_sha : string -> result string;
  (** [time.Now] when the attestation is initialized *)
  init_time : Z
}.

Section Head.
Context `{RunnerEnv} `{InitEnv}.

(** [sanitizeRemoteURL] *)
Definition sanitizeRemoteURL (remoteURL : string) : result string :=
  match without_user remoteURL with
  | Ok uri => Ok uri
  | Err e => if has_prefix remoteURL "git@" then Ok remoteURL
             else Err (EWrap "parsing remote url" e)
  end.

(** The loop over the remotes; a valid one has an URL *)
Fixpoint head_remotes (remotes : list GitRemote) : result (list CommitRemote) :=
  match remotes with
  | [] => Ok []
  | r :: rest =>
      if gr_valid r then
        match gr_urls r with
        | [] => Err (panic "index out of range")
        | url :: _ =>
            uri ← map_err (EWrap "sanitizing remote url") (sanitizeRemoteURL url);
            others ← head_remotes rest;
            Ok ({| remote_name := gr_name r; remote_url := uri |} :: others)
        end
      else head_remotes rest
  end.

(** [gracefulGitRepoHead]: [None] outside a repository or before its first
    commit *)
Definition gracefulGitRepoHead (path : string) : result (option Commit) :=
  match PlainOpen path with
  | Err e => if existsb (fun s => errors_is s e) not_a_repository then Ok None
             else Err (EWrap "opening repository" e)
  | Ok repo =>
      match git_Head repo with
      | Err e => if errors_is ErrReferenceNotFound e then Ok None
                 else Err (EWrap "finding repo head" e)
      | Ok head =>
          commit ← map_err (EWrap "finding head commit") (git_CommitObject repo head);
          remotes ← map_err (EWrap "getting remotes") (git_Remotes repo);
          remotes ← head_remotes remotes;
          Ok (Some {| commit_hash := gc_hash commit; commit_author_email := gc_author_email commit;
                      commit_author_name := gc_author_name commit; commit_message := gc_message commit;
                      commit_date := gc_date commit; commit_remotes := remotes; commit_signature := gc_signature commit;
                      commit_verification := None |})
      end
  end.

(** [resolveGitHubPRHeadSHA] *)
Definition resolveGitHubPRHeadSHA : string :=
  if negb (bool_decide (Getenv "GITHUB_EVENT_NAME" = "pull_request")) then ""
  else if is_empty (Getenv "GITHUB_EVENT_PATH") then ""
  else match ReadFile (Getenv "GITHUB_EVENT_PATH") with
       | Err _ => ""
       | Ok data => match event_head_sha data with Ok sha => sha | Err _ => "" end
       end.

Definition with_hash (c : Commit) (sha : string) : Commit :=
  {| commit_hash := sha; commit_author_email := commit_author_email c;
     commit_author_name := commit_author_name c; commit_message := commit_message c;
     commit_date := commit_date c; commit_remotes := commit_remotes c; commit_signature := commit_signature c;
     commit_verification := commit_verification c |}.

(** [overrideHeadWithPRCommit] *)
Definition overrideHeadWithPRCommit (headCommit : Commit) (path actualSHA : string) : Commit :=
  match PlainOpen path with
  | Err _ => with_hash headCommit actualSHA
  | Ok repo =>
      match git_CommitObject repo actualSHA with
      | Err _ => with_hash headCommit actualSHA
      | Ok commit =>
          {| commit_hash := gc_hash commit; commit_author_email := gc_author_email commit;
             commit_author_name := gc_author_name commit; commit_message := gc_message commit;
             commit_date := gc_date commit; commit_remotes := commit_remotes headCommit; commit_signature := gc_signature commit;
             commit_verification := commit_verification headCommit |}
      end
  end.

(** [verifyCommitWithPlatform] on the commit *)
Definition with_verification (c : Commit) (v : option CommitVerification) : Commit :=
  {| commit_hash := commit_hash c; commit_author_email := commit_author_email c;
     commit_author_name := commit_author_name c; commit_message := commit_message c;
     commit_date := commit_date c; commit_remotes := commit_remotes c; commit_signature := commit_signature c;
     commit_verification := v |}.

(** ** Initialization *)

(** [InitOpts], without its logger *)
Record InitOpts := {
  io_WfInfo : option Workflow;
  io_SchemaV1 : option CraftingSchema;
  io_SchemaV2 : option CraftingSchemaV2;
  io_DryRun : bool;
  io_AttestationID : string;
  io_Runner : option SupportedRunner;
  io_BlockOnPolicyViolation : bool;
  io_PoliciesAllowedHostnames : list string;
  io_SkipRunnerEnvVars : bool;
  io_PRMode : bool;
  io_SigningOptions : option SigningOptions;
  io_Auth : option AttestationAuth;
  io_CASBackend : option AttestationCASBackend;
  io_UIDashboardURL : string
}.

Definition AnnotationIsPullRequest : string := "chainloop.dev/is-pull-request".

(** [resolveRunnerInfo] *)
Definition resolveRunnerInfo (r : SupportedRunner) : RunnerEnvironment :=
  {| re_workflow_file_path := r_WorkflowFilePath r; re_environment := Hosting_String (r_Environment r);
     re_authenticated := r_IsAuthenticated r; re_type := r_ID r; re_url := r_RunURI r |}.

(** The commit that the attestation records *)
Definition attested_head (cwd : string) (runner : SupportedRunner) : result (option Commit) :=
  headCommit ← map_err (EWrap "getting git commit hash") (gracefulGitRepoHead cwd);
  Ok (option_map (fun head =>
        let actualSHA := if bool_decide (r_ID runner = GITHUB_ACTION) then resolveGitHubPRHeadSHA else "" in
        let head := if negb (is_empty actualSHA) && negb (bool_decide (actualSHA = commit_hash head))
                    then overrideHeadWithPRCommit head cwd actualSHA else head in
        with_verification head (r_VerifyCommitSignature runner (commit_hash head))) headCommit).

(** [initialCraftingState] *)
Definition initialCraftingState (cwd : string) (opts : InitOpts) : result CraftingState :=
  match io_WfInfo opts, io_Runner opts, io_SchemaV1 opts, io_SchemaV2 opts with
  | None, _, _, _ | _, None, _, _ | _, _, None, None => Err (EMsg "required init options not provided")
  | Some wf, Some runner, v1, v2 =>
      head ← attested_head cwd runner;
      Ok {| st_schema := match v2, v1 with
                         | Some s, _ => Some (SchemaV2 s)
                         | None, Some s => Some (InputSchema s)
                         | None, None => None
                         end;
            st_attestation :=
              {| a_initialized_at := init_time; a_finished_at := None;
                 a_workflow := Some wf; a_materials := ∅;
                 a_annotations := if io_PRMode opts then {[AnnotationIsPullRequest := "true"]} else ∅;
                 a_env_vars := ∅; a_policy_evaluations := []; a_head := head;
                 a_runner_url := r_RunURI runner; a_runner_type := r_ID runner;
                 a_runner_environment := Some (resolveRunnerInfo runner);
                 a_block_on_policy_violation := io_BlockOnPolicyViolation opts;
                 a_bypass_policy_check := false;
                 a_policies_allowed_hostnames := io_PoliciesAllowedHostnames opts;
                 a_skip_runner_env_vars := io_SkipRunnerEnvVars opts;
                 a_signing_options :=
                   Some (default {| so_timestamp_authority_url := ""; so_signing_ca := "" |}
                           (io_SigningOptions opts));
                 a_auth := io_Auth opts; a_cas_backend := io_CASBackend opts |};
            st_dry_run := io_DryRun opts; st_ui_dashboard_url := io_UIDashboardURL opts |}
  end.
End Head.

(** ** Loading, environment variables and collectors *)

Definition with_environment (st : CraftingState) (vars : gmap string string)
    (env : option RunnerEnvironment) : CraftingState :=
  let a := st_attestation st in
  with_attestation st
    {| a_initialized_at := a_initialized_at a; a_finished_at := a_finished_at a;
       a_workflow := a_workflow a; a_materials := a_materials a; a_annotations := a_annotations a;
       a_env_vars := vars; a_policy_evaluations := a_policy_evaluations a; a_head := a_head a;
       a_runner_url := a_runner_url a; a_runner_type := a_runner_type a;
       a_runner_environment := env;
       a_block_on_policy_violation := a_block_on_policy_violation a;
       a_bypass_policy_check := a_bypass_policy_check a;
       a_policies_allowed_hostnames := a_policies_allowed_hostnames a;
       a_skip_runner_env_vars := a_skip_runner_env_vars a;
       a_signing_options := a_signing_options a; a_auth := a_auth a;
       a_cas_backend := a_cas_backend a |}.

Section Lifecycle.
Context `{RunnerEnv} `{InitEnv} `{StateManager}.

(** [LoadCraftingState]; when reading fails the crafter is left with a state
    that has no attestation, which no operation can use: [None] *)
Definition LoadCraftingState (c : Crafter) (attestationID : string) : option Crafter * result unit :=
  match sm_Read (cr_store c) attestationID with
  | Err e => (None, Err (EWrap "failed to load crafting state" e))
  | Ok (st, sum) => (Some {| cr_state := Some (st, sum); cr_store := cr_store c |}, Ok tt)
  end.

(** The runner of a loaded state *)
Definition loaded_runner (st : CraftingState) (authToken : string) : SupportedRunner :=
  NewRunner (a_runner_type (st_attestation st)) authToken.

(** [Init] and [initCraftingStateFile] *)
Definition Init (c : Crafter) (cwd : string) (opts : InitOpts) : option Crafter * result unit :=
  match io_SchemaV1 opts, io_SchemaV2 opts, io_WfInfo opts with
  | None, None, _ => (Some c, Err (EMsg "schema is nil"))
  | _, _, None => (Some c, Err (EMsg "workflow metadata is nil"))
  | _, _, Some _ =>
      match initialCraftingState cwd opts with
      | Err e => (Some c, Err (EWrap "initializing crafting state" e))
      | Ok state =>
          let '(w, store) := sm_Write (cr_store c) (io_AttestationID opts) state "" in
          let c := {| cr_state := cr_state c; cr_store := store |} in
          match w with
          | Err e => (Some c, Err (EWrap "failed to persist crafting state" e))
          | Ok _ => LoadCraftingState c (io_AttestationID opts)
          end
      end
  end.

Definition ErrRunnerContextNotFound : goerr :=
  ESentinel "the runner environment doesn't match the required runner type".

(** The variables of the allow list, all of them required *)
Definition allowed_vars (envAllowList : list string) (vars : gmap string string)
    : result (gmap string string) :=
  foldM_result (fun vars want =>
    if is_empty (Getenv want) then Err (EMsg ("required env variables not present " +:+ want))
    else Ok (<[want := Getenv want]> vars)) envAllowList vars.

(** The variables that [ResolveEnvVars] records *)
Definition resolved_vars (st : CraftingState) (runner : SupportedRunner) : result (gmap string string) :=
  _ ← guard_err (negb (r_CheckEnv runner))
        (EWrap "couldn't detect the environment" ErrRunnerContextNotFound);
  vars ← (if a_skip_runner_env_vars (st_attestation st) then Ok ∅
          else match r_ResolveEnvVars runner with
               | inl vars => Ok vars
               | inr _ => Err (EMsg "error while resolving runner environment variables")
               end);
  allowed_vars (GetEnvAllowList st) vars.

(** [ResolveEnvVars] *)
Definition ResolveEnvVars (c : Crafter) (authToken attestationID : string) : Crafter * result unit :=
  match cr_state c with
  | None => (c, Err ErrAttestationStateNotLoaded)
  | Some (st, sum) =>
      let runner := loaded_runner st authToken in
      match resolved_vars st runner with
      | Err e => (c, Err e)
      | Ok vars =>
          let st := with_environment st vars (Some (resolveRunnerInfo runner)) in
          let '(w, store) := sm_Write (cr_store c) attestationID st sum in
          match w with
          | Err e => ({| cr_state := Some (st, sum); cr_store := store |},
                      Err (EWrap "failed to persist crafting state" e))
          | Ok sum => ({| cr_state := Some (st, sum); cr_store := store |}, Ok tt)
          end
      end
  end.

(** [RunCollectors]: what a collector returns is only logged *)
Definition RunCollectors (collectors : list (Crafter -> Crafter * result unit)) (c : Crafter)
    (attestationID : string) : option Crafter :=
  match LoadCraftingState c attestationID with
  | (None, _) => None
  | (Some c, _) =>
      fst (LoadCraftingState (fold_left (fun c collect => fst (collect c)) collectors c) attestationID)
  end.
End Lifecycle.

(** ** The recorded environment and commit *)

Section Recorded.
Context `{RunnerEnv} `{InitEnv}.

Lemma allowed_vars_lookup allow vars vars' :
  allowed_vars allow vars = Ok vars' ->
  Forall (fun k => Getenv k <> "") allow
  /\ forall k, vars' !! k = if decide (k ∈ allow) then Some (Getenv k) else vars !! k.
Proof.
  unfold allowed_vars. revert vars. induction allow as [|want allow IH]; intros vars Hf; cbn in Hf.
  { inv_ok. split; [constructor|]. intros k. destruct (decide (k ∈ [])) as [Hk|]; [|done].
    by apply not_elem_of_nil in Hk. }
  destruct (is_empty (Getenv want)) eqn:Ee; [done|]. apply is_empty_false in Ee. cbn in Hf.
  destruct (IH _ Hf) as [H1 H2]. split; [by constructor|]. intros k. rewrite H2.
  destruct (decide (k ∈ allow)), (decide (k ∈ want :: allow)) as [Hk|Hk]; try set_solver.
  - apply elem_of_cons in Hk as [->|]; [|done]. by rewrite lookup_insert_eq.
  - rewrite lookup_insert_ne; [done|]. set_solver.
Qed.

(** The environment variables that an attestation records are exactly those
    of the allow list of the contract, which must all be set, and, unless the
    organization opted out, those that the runner resolved; and they are only
    recorded in the environment of the runner. *)
Theorem recorded_env_vars st runner vars :
  resolved_vars st runner = Ok vars ->
  r_CheckEnv runner = true
  /\ Forall (fun k => Getenv k <> "") (GetEnvAllowList st)
  /\ exists base,
       (if a_skip_runner_env_vars (st_attestation st) then base = ∅
        else r_ResolveEnvVars runner = inl base)
       /\ forall k, vars !! k = if decide (k ∈ GetEnvAllowList st) then Some (Getenv k) else base !! k.
Proof.
  unfold resolved_vars. intros Hr. apply bind_Ok in Hr as ([] & Hc & Hr).
  unfold guard_err in Hc. destruct (r_CheckEnv runner); [|done]. split; [done|].
  apply bind_Ok in Hr as (base & Hb & Hr). apply allowed_vars_lookup in Hr as [H1 H2].
  split; [done|]. exists base. split; [|done].
  destruct (a_skip_runner_env_vars _); [by inv_ok|]. destruct (r_ResolveEnvVars runner); by inv_ok.
Qed.

(** In a pull request on GitHub the attestation is for the head of the pull
    request, not for the merge commit that is checked out, whether or not the
    commit is in the local clone; and the platform's verification is always of
    the commit that is recorded. *)
Theorem attested_head_is_pr cwd runner head :
  (forall path repo h c, PlainOpen path = Ok repo -> git_CommitObject repo h = Ok c -> gc_hash c = h) ->
  attested_head cwd runner = Ok (Some head) ->
  commit_verification head = r_VerifyCommitSignature runner (commit_hash head)
  /\ (r_ID runner = GITHUB_ACTION -> resolveGitHubPRHeadSHA <> "" ->
      commit_hash head = resolveGitHubPRHeadSHA).
Proof.
  intros Hgit. unfold attested_head. intros Hh. apply bind_Ok in Hh as ([h|] & _ & Hh); [|done].
  injection Hh as <-. split; [done|]. intros Hid Hsha. cbn [with_verification commit_hash].
  rewrite bool_decide_eq_true_2 by done. apply is_empty_false in Hsha. rewrite Hsha. cbn [negb andb].
  case_bool_decide as He; cbn [negb]; [done|]. unfold overrideHeadWithPRCommit.
  destruct (PlainOpen cwd) as [repo|] eqn:Ep; [|done].
  destruct (git_CommitObject repo resolveGitHubPRHeadSHA) as [c|] eqn:Ec; [|done]. cbn. by eapply Hgit.
Qed.
End Recorded.

(** ** The crafter as a transition system *)

(** What a state manager promises: what it reads was written to it. *)
Class ReadsWritten (SM : StateManager) : Prop :=
  reads_written : forall s id st sum w s' id' st' sum',
    sm_Write s id st sum = (w, s') -> sm_Read s' id' = Ok (st', sum') ->
    st' = st \/ exists sum0, sm_Read s id' = Ok (st', sum0).

Section Transitions.
Context `{VerifierDeps} `{RunnerEnv} `{InitEnv} (NumCPU : Z) `{SM : StateManager}.
Context (kind_craft : SchemaMaterial -> string -> result (Attestation_Material * string)).
Context (validate_schema : SchemaMaterial -> result unit).
Context (validate_material : Attestation_Material -> result unit).

(** One call of an operation of the crafter, whether it succeeds or fails *)
Inductive crafter_step (c : Crafter) : Crafter -> Prop :=
| step_init cwd opts c' r : Init c cwd opts = (Some c', r) -> crafter_step c c'
| step_load id c' r : LoadCraftingState c id = (Some c', r) -> crafter_step c c'
| step_env token id c' r : ResolveEnvVars c token id = (c', r) -> crafter_step c c'
| step_contract_free now id kind name value ann ri c' r :
    AddMaterialContractFree NumCPU kind_craft validate_schema validate_material
      c now id kind name value ann ri = (c', r) -> crafter_step c c'
| step_from_contract id key value ann ri c' r :
    AddMaterialFromContract NumCPU kind_craft validate_schema validate_material
      c id key value ann ri = (c', r) -> crafter_step c c'
| step_detected now id name value ann ri c' r :
    AddMaterialContactFreeWithAutoDetectedKind NumCPU kind_craft validate_schema validate_material
      c now id name value ann ri = (c', r) -> crafter_step c c'
| step_archive id kind prefix path expanded record ann ri c' r :
    AddMaterialsFromArchive NumCPU kind_craft validate_schema validate_material
      c id kind prefix path expanded record ann ri = (c', r) ->
    r <> Err (panic "slice bounds out of range") -> crafter_step c c'
| step_evaluate id statement phase c' r :
    EvaluateAttestationPolicies NumCPU c id statement phase = (c', r) -> crafter_step c c'.

(** A new crafter on a store with nothing to read *)
Definition fresh (c : Crafter) : Prop :=
  cr_state c = None /\ forall id, is_ok (sm_Read (cr_store c) id) = false.

(** The invariant, in memory and in the store *)
Definition crafter_inv (c : Crafter) : Prop :=
  (forall st sum, cr_state c = Some (st, sum) -> ordered (evaluations st))
  /\ (forall id st sum, sm_Read (cr_store c) id = Ok (st, sum) -> ordered (evaluations st)).

Lemma fresh_inv c : fresh c -> crafter_inv c.
Proof.
  intros [Hs Hr]. split; [by rewrite Hs|]. intros id st sum Hx. specialize (Hr id). by rewrite Hx in Hr.
Qed.

(** *** Each operation keeps the invariant *)

(** protovalidate refuses a material without a name: the schema's pattern for
    names does not match the empty string *)
Context (named : forall m, validate_schema m = Ok tt -> sm_name m <> "").
Context `{!ReadsWritten SM}.

Abbreviation stage := (stageMaterial NumCPU kind_craft validate_schema validate_material).

Lemma write_inv c id st sum w store sum' :
  crafter_inv c -> ordered (evaluations st) -> sm_Write (cr_store c) id st sum = (w, store) ->
  crafter_inv {| cr_state := Some (st, sum'); cr_store := store |}.
Proof.
  intros [_ Hr] Ho Hw. split; cbn; [by intros st' s' [= <- <-]|].
  intros id' st' s' Hx. destruct (reads_written _ _ _ _ _ _ _ _ _ Hw Hx) as [->|[s0 Hs0]]; [done|].
  by eapply Hr.
Qed.

Lemma set_state_inv c st sum :
  crafter_inv c -> ordered (evaluations st) ->
  crafter_inv {| cr_state := Some (st, sum); cr_store := cr_store c |}.
Proof. intros [_ Hr] Ho. split; cbn; [by intros st' s' [= <- <-]|done]. Qed.

Lemma ordered_replace name evs added :
  name <> "" -> ordered evs -> Forall (fun ev => pe_material_name ev = name) added ->
  ordered (without_material name evs ++ added).
Proof.
  intros Hn (atts & mats & -> & Ha & Hm & Hk) Hadd.
  exists atts, (without_material name mats ++ added). rewrite without_material_app.
  rewrite (without_material_fresh name atts) by (eapply Forall_impl; [exact Ha|]; cbn; congruence).
  split; [by rewrite <- app_assoc|]. split; [done|]. split; [|done].
  apply Forall_app. split; [|eapply Forall_impl; [exact Hadd|]; cbn; congruence].
  unfold without_material. rewrite Forall_forall in *. intros ev [Hev _]%list_elem_of_In%filter_In.
  apply Hm. by apply list_elem_of_In.
Qed.

Lemma ordered_take n evs : ordered evs -> ordered (take n evs).
Proof.
  intros (atts & mats & -> & Ha & Hm & Hk). rewrite take_app.
  exists (take n atts), (take (n - length atts) mats).
  split; [done|]. split; [by apply Forall_take|]. split; [by apply Forall_take|].
  rewrite <- (take_drop n atts), map_app, NoDup_app in Hk. by destruct Hk.
Qed.

Lemma stage_ordered st m value ann ri st' r :
  ordered (evaluations st) -> stage st m value ann ri = (st', r) -> ordered (evaluations st').
Proof.
  intros Ho [[_ ->]|(mt & content & added & Hc & Hadd & Hst)]%stageMaterial_effect; [done|].
  assert (sm_name m <> "") as Hn.
  { apply craft_annotated_Ok in Hc as (base & Hb & _). unfold Craft in Hb.
    apply bind_Ok in Hb as ([] & Hv & _). apply map_err_Ok in Hv. by apply named. }
  destruct Hst as [[_ ->]|[_ ->]]; by apply ordered_replace.
Qed.

Lemma add_inv c m id value ann ri c' r :
  crafter_inv c ->
  addMaterial NumCPU kind_craft validate_schema validate_material c m id value ann ri = (c', r) ->
  crafter_inv c'.
Proof.
  intros Hc. unfold addMaterial. destruct (cr_state c) as [[st sum]|] eqn:Es; [|by intros [= <- _]].
  destruct (stage st m value ann ri) as [st1 r1] eqn:Est.
  apply stage_ordered in Est; [|exact (proj1 Hc _ _ Es)].
  destruct r1; [|intros [= <- _]; by apply set_state_inv].
  destruct (sm_Write _ _ _ _) as [[]] eqn:Ew; intros [= <- _]; by eapply write_inv.
Qed.

Lemma contract_free_inv c now id kind name value ann ri c' r :
  crafter_inv c ->
  AddMaterialContractFree NumCPU kind_craft validate_schema validate_material
    c now id kind name value ann ri = (c', r) -> crafter_inv c'.
Proof.
  intros Hc. unfold AddMaterialContractFree. destruct (cr_state c); [|by intros [= <- _]].
  destruct (MaterialType_value kind); [|by intros [= <- _]]. by apply add_inv.
Qed.

Lemma detect_inv kinds c now id name value ann ri c' r :
  crafter_inv c ->
  detect_loop NumCPU kind_craft validate_schema validate_material
    kinds c now id name value ann ri = (c', r) -> crafter_inv c'.
Proof.
  revert c. induction kinds as [|kind kinds IH]; intros c Hc; cbn [detect_loop]; [by intros [= <- _]|].
  destruct (AddMaterialContractFree _ _ _ _ _ _ _ _ _ _ _ _) as [c1 [m|e]] eqn:Ea;
    apply contract_free_inv in Ea; [by intros [= <- _]|done| |done].
  destruct (stops_detection e); [by intros [= <- _]|]. by apply IH.
Qed.

Lemma stage_entries_ordered kind prefix ann ri entries sg :
  ordered (evaluations (sg_state sg)) ->
  match stage_entries NumCPU kind_craft validate_schema validate_material kind prefix ann ri entries sg with
  | inl (sg', _) | inr sg' => ordered (evaluations (sg_state sg'))
  end.
Proof.
  revert sg. induction entries as [|[entry tmp] entries IH]; intros sg Ho; cbn [stage_entries]; [done|].
  destruct (AllocateNamed _ _) as [[name a]|]; [|done].
  destruct (stage _ _ _ _ _) as [st r] eqn:Es. apply stage_ordered in Es; [|done].
  destruct r; [by apply IH | done].
Qed.

Lemma stage_archive_ordered prefix path ri sg :
  ordered (evaluations (sg_state sg)) ->
  match stage_archive NumCPU kind_craft validate_schema validate_material prefix path ri sg with
  | inl (sg', _) | inr sg' => ordered (evaluations (sg_state sg'))
  end.
Proof.
  intros Ho. unfold stage_archive. destruct (AllocateNamed _ _) as [[name a]|]; [|done].
  destruct (stage _ _ _ _ _) as [st r] eqn:Es. apply stage_ordered in Es; [|done]. by destruct r.
Qed.

Lemma rollback_ordered n sg st :
  ordered (evaluations (sg_state sg)) -> rollback n sg = Some st -> ordered (evaluations st).
Proof.
  intros Ho. unfold rollback. case_bool_decide; [|done]. intros [= <-]. by apply ordered_take.
Qed.

Lemma archive_inv c id kind prefix path expanded record ann ri c' r :
  crafter_inv c ->
  AddMaterialsFromArchive NumCPU kind_craft validate_schema validate_material
    c id kind prefix path expanded record ann ri = (c', r) ->
  crafter_inv c'.
Proof.
  intros Hc. unfold AddMaterialsFromArchive.
  destruct (cr_state c) as [[st sum]|] eqn:Es; [|by intros [= <- _]].
  destruct (MaterialType_value kind) as [t|]; [|by intros [= <- _]].
  destruct expanded as [[|e0 entries]|]; [by intros [= <- _]| |by intros [= <- _]].
  pose proof (stage_entries_ordered t prefix ann ri (merge_sort entry_le (e0 :: entries))
    {| sg_state := st; sg_allocator := NewNameAllocator (elements (dom (materials st)));
       sg_names := []; sg_result := [] |} (proj1 Hc _ _ Es)) as Hs.
  assert (forall sg, ordered (evaluations (sg_state sg)) ->
    match rollback (length (evaluations st)) sg with
    | Some st' => ordered (evaluations st') | None => ordered (evaluations (sg_state sg)) end) as Hrb.
  { intros sg Ho. destruct (rollback _ sg) eqn:Er; [by eapply rollback_ordered|done]. }
  destruct (stage_entries _ _ _ _ _ _ _ _ _ _) as [[sg e]|sg].
  { specialize (Hrb sg Hs). destruct (rollback _ sg); intros [= <- _]; by apply set_state_inv. }
  assert (match (if record : bool
                 then stage_archive NumCPU kind_craft validate_schema validate_material prefix path ri sg
                 else inr sg)
          with inl (sg', _) | inr sg' => ordered (evaluations (sg_state sg')) end) as Hs2.
  { destruct record; [by apply stage_archive_ordered | done]. }
  destruct (if record then _ else _) as [[sg2 e]|sg2].
  { specialize (Hrb sg2 Hs2). destruct (rollback _ sg2); intros [= <- _]; by apply set_state_inv. }
  destruct (sm_Write _ _ _ _) as [[sum'|e] store] eqn:Ew; [intros [= <- _]; by eapply write_inv|].
  specialize (Hrb sg2 Hs2).
  destruct (write_inv _ _ _ _ _ _ sum Hc Hs2 Ew) as [_ Hst].
  destruct (rollback _ sg2); intros [= <- _]; (split; cbn; [by intros ? ? [= <- <-]|exact Hst]).
Qed.

Lemma load_inv c id c' r : crafter_inv c -> LoadCraftingState c id = (Some c', r) -> crafter_inv c'.
Proof.
  intros Hc. unfold LoadCraftingState. destruct (sm_Read _ _) as [[st sum]|] eqn:Er; [|done].
  intros [= <- _]. apply set_state_inv; [done|]. by apply (proj2 Hc) in Er.
Qed.

Lemma init_inv c cwd opts c' r : crafter_inv c -> Init c cwd opts = (Some c', r) -> crafter_inv c'.
Proof.
  intros Hc. unfold Init.
  assert (forall c0, c0 = c -> crafter_inv c0) as Hsame by (by intros ? ->).
  destruct (initialCraftingState cwd opts) as [st|] eqn:Ei.
  2:{ destruct (io_SchemaV1 opts), (io_SchemaV2 opts), (io_WfInfo opts); intros [= <- _]; done. }
  assert (ordered (evaluations st)) as Ho.
  { unfold initialCraftingState in Ei.
    destruct (io_WfInfo opts), (io_Runner opts), (io_SchemaV1 opts), (io_SchemaV2 opts);
      try discriminate Ei; apply bind_Ok in Ei as (? & _ & Ei); injection Ei as <-;
      (exists [], []; repeat split; constructor). }
  destruct (sm_Write _ _ _ _) as [w store] eqn:Ew.
  assert (crafter_inv {| cr_state := cr_state c; cr_store := store |}) as Hc1.
  { split; [exact (proj1 Hc)|]. exact (proj2 (write_inv _ _ _ _ _ _ "" Hc Ho Ew)). }
  destruct (io_SchemaV1 opts), (io_SchemaV2 opts), (io_WfInfo opts), w;
    first [intros [= <- _]; assumption | by apply load_inv].
Qed.

Lemma env_inv c token id c' r : crafter_inv c -> ResolveEnvVars c token id = (c', r) -> crafter_inv c'.
Proof.
  intros Hc. unfold ResolveEnvVars. destruct (cr_state c) as [[st sum]|] eqn:Es; [|by intros [= <- _]].
  destruct (resolved_vars _ _); [|by intros [= <- _]].
  destruct (sm_Write _ _ _ _) as [[]] eqn:Ew; intros [= <- _];
    (eapply write_inv; [exact Hc|exact (proj1 Hc _ _ Es)|exact Ew]).
Qed.

Lemma evaluate_inv c id statement phase c' r :
  crafter_inv c -> EvaluateAttestationPolicies NumCPU c id statement phase = (c', r) -> crafter_inv c'.
Proof.
  intros Hc He. destruct (cr_state c) as [[st sum]|] eqn:Es.
  - destruct (evaluate_ordered _ _ _ _ _ _ _ _ _ Es (proj1 Hc _ _ Es) He)
      as (st' & sum' & Hs' & Ho & [->|[w Hw]]); [done|].
    destruct (write_inv _ _ _ _ _ _ sum' Hc Ho Hw) as [_ Hst]. split; [|exact Hst].
    rewrite Hs'. by intros ? ? [= <- <-].
  - unfold EvaluateAttestationPolicies in He. rewrite Es in He. by injection He as <- _.
Qed.

Lemma step_inv c c' : crafter_inv c -> crafter_step c c' -> crafter_inv c'.
Proof.
  intros Hc Hs. destruct Hs as [| | | |id key value ann ri c' r Ha|now id name value ann ri c' r Ha| |];
    eauto using init_inv, load_inv, env_inv, contract_free_inv, archive_inv, evaluate_inv.
  - unfold AddMaterialFromContract in Ha. destruct (cr_state c) as [[st sum]|]; [|by injection Ha as <- _].
    destruct (contract_material st key); [|by injection Ha as <- _]. by eapply add_inv.
  - by eapply detect_inv.
Qed.

End Transitions.

(** ** Witnesses *)

#[export] Instance toy_reads_written : ReadsWritten toy_store.
Proof.
  intros s id st sum w s' id' st' sum'. cbn. destruct (is_empty id).
  - intros [= <- <-]. eauto.
  - intros [= <- <-] [= <- <-]. by left.
Qed.

Definition toy_init_env : InitEnv :=
  {| PlainOpen := fun _ => Ok {| git_Head := Ok "merge";
       git_CommitObject := fun h => if bool_decide (h = "merge")
         then Ok {| gc_hash := "merge"; gc_author_email := ""; gc_author_name := ""; gc_message := "";
                    gc_date := 0; gc_signature := "" |} else Err (EMsg "object not found");
       git_Remotes := Ok [] |};
     without_user := Ok; event_head_sha := Ok; init_time := 0 |}.

(** A GitHub job for a pull request *)
Definition toy_github_env : RunnerEnv :=
  {| Getenv := fun n => if bool_decide (n = "GITHUB_EVENT_NAME") then "pull_request"
                        else if bool_decide (n = "GITHUB_EVENT_PATH") then "event.json" else "set";
     Stat := fun _ => false; ReadFile := fun _ => Ok "pr-head";
     github_token := None; gitlab_token := fun _ => None;
     pod_labels := fun _ _ _ _ _ _ => Err (EMsg "no pod");
     VerifyGitHubCommit := fun _ _ _ _ => None; VerifyGitLabCommit := fun _ _ _ _ _ => None;
     results_url := fun _ _ _ => "" |}.

Definition toy_workflow : Workflow :=
  {| wf_name := "build"; wf_project := "p"; wf_team := ""; wf_workflow_id := "w";
     wf_workflow_run_id := ""; wf_organization := "org"; wf_contract_name := "c";
     wf_schema_revision := "1"; wf_version := "v1"; wf_prerelease := true;
     wf_project_version := "" |}.

Definition toy_init_opts : InitOpts :=
  {| io_WfInfo := Some toy_workflow;
     io_SchemaV1 := Some toy_schema; io_SchemaV2 := None; io_DryRun := true; io_AttestationID := "id";
     io_Runner := Some (@GitHubAction toy_github_env); io_BlockOnPolicyViolation := false;
     io_PoliciesAllowedHostnames := []; io_SkipRunnerEnvVars := false; io_PRMode := true;
     io_SigningOptions := None; io_Auth := None; io_CASBackend := None; io_UIDashboardURL := "" |}.

Definition toy_new : Crafter := {| cr_state := None; cr_store := ([] : list CraftingState) |}.

(** The crafter after init *)
Definition toy_started : Crafter :=
  default toy_new (fst (@Init toy_github_env toy_init_env toy_store toy_new "." toy_init_opts)).

(** Validation that refuses materials without a name *)
Definition toy_validate (m : SchemaMaterial) : result unit :=
  guard_err (is_empty (sm_name m)) (EMsg "name is required").

Lemma toy_validate_named m : toy_validate m = Ok tt -> sm_name m <> "".
Proof. intros Hm%guard_err_Ok. by apply is_empty_false. Qed.

Definition toy_collect (kind : MaterialType) (name : string) (c : Crafter) : Crafter * result unit :=
  let '(c, r) := @AddMaterialContractFree toy_crafter_deps 8 toy_craft toy_validate (fun _ => Ok tt)
                   toy_store c 0 "id" (MaterialType_name kind) name "f" ∅ None in
  (c, match r with Ok _ => Ok tt | Err e => Err e end).

(** The failure of a collector is not contained: when the policies of its
    material fail to evaluate after the policy groups did, the groups' evaluations
    stay in memory and the next collector that succeeds persists them, so the
    attestation that is loaded again has an evaluation of a material that it does
    not have. *)
Theorem collectors_persist_orphans :
  is_ok (snd (toy_collect SARIF "m1" toy_started)) = false
  /\ exists c st sum ev,
       RunCollectors [toy_collect SARIF "m1"; toy_collect ARTIFACT "m2"] toy_started "id" = Some c
       /\ cr_state c = Some (st, sum)
       /\ ev ∈ evaluations st /\ pe_material_name ev = "m1" /\ materials st !! "m1" = None.
Proof.
  split; [vm_compute; reflexivity|].
  destruct (RunCollectors [toy_collect SARIF "m1"; toy_collect ARTIFACT "m2"] toy_started "id")
    as [c|] eqn:E; [|vm_compute in E; discriminate E].
  vm_compute in E. injection E as <-. eexists _, _, _, _. split; [reflexivity|]. split; [reflexivity|].
  split; [apply list_elem_of_here|]. split; reflexivity.
Qed.


Lemma recorded_env_vars_witness :
  exists vars, @resolved_vars toy_github_env (toy_contract []) (@GitHubAction toy_github_env) = Ok vars
    /\ vars !! "GITHUB_SHA" = Some "set".
Proof.
  destruct (@resolved_vars toy_github_env (toy_contract []) (@GitHubAction toy_github_env)) as [vars|] eqn:E;
    [|vm_compute in E; discriminate E].
  destruct (@recorded_env_vars toy_github_env _ _ _ E) as (_ & _ & base & Hb & Hk).
  exists vars. split; [reflexivity|]. rewrite Hk. vm_compute in Hb. injection Hb as <-. reflexivity.
Defined.

Lemma attested_head_is_pr_witness :
  exists head, @attested_head toy_github_env toy_init_env "." (@GitHubAction toy_github_env) = Ok (Some head)
    /\ commit_hash head = "pr-head".
Proof.
  destruct (@attested_head toy_github_env toy_init_env "." (@GitHubAction toy_github_env)) as [[head|]|] eqn:E;
    [|vm_compute in E; discriminate E..].
  exists head. split; [reflexivity|].
  apply (@attested_head_is_pr toy_github_env toy_init_env "." (@GitHubAction toy_github_env) head);
    [|exact E|reflexivity|discriminate].
  intros path repo h c. cbn. intros [= <-]. cbn. case_bool_decide; [|discriminate]. by intros [= <-].
Defined.
