(* ===== verification/Renderer.v ===== *)
(** * Rendering the attestation

    pkg/attestation/renderer: the in-toto statement of an attestation
    (chainloop/v02.go, chainloop/chainloop.go), the verdict of its policies
    (chainloop/policy_status.go), and its signature as a DSSE envelope and a
    Sigstore bundle (renderer.go).

    The JSON and protobuf codecs, the hash, the formatting of a date, the signer
    and the timestamp authority are parameters.  The deprecated [body] of an
    evaluation is left out. *)

From S2P Require Import Prelude.
From S2P Require Import GoStrings.
From S2P Require Import Base64.
From S2P Require Import Envelope.
From S2P Require Import Contract.
From S2P Require Import PolicyEngine.
From S2P Require Import CraftingState.

Open Scope Z_scope.

(** ** Policy evaluations in the predicate *)

Definition PredicateTypeV02 : string := "chainloop.dev/attestation/v0.2".
Definition AttPolicyEvaluation : string := "CHAINLOOP.ATTESTATION".

(** [PolicyViolation] of the predicate *)
Record RenderedViolation := {
  rv_subject : string;
  rv_message : string;
  rv_suppress : bool;
  rv_vulnerability : option jobject;
  rv_sast : option jobject;
  rv_license_violation : option jobject
}.

(** [PolicyEvaluation] of the predicate, with the fields that only old
    attestations set *)
Record RenderedEvaluation := {
  rev_name : string;
  rev_material_name : string;
  rev_material_name_fallback : string;
  rev_sources : list string;
  rev_policy_reference : option ResourceDescriptor;
  rev_policy_reference_fallback : option ResourceDescriptor;
  rev_description : string;
  rev_annotations : gmap string string;
  rev_violations : list RenderedViolation;
  rev_with : gmap string string;
  rev_type : string;
  rev_skipped : bool;
  rev_skip_reasons : list string;
  rev_group_reference : option ResourceDescriptor;
  rev_requirements : list string;
  rev_gate : bool
}.

(** [TrimPrefix] *)
Definition trim_prefix (s p : string) : string :=
  if has_prefix s p then str_drop (String.length p) s else s.

Section Render.
Context (utf8_valid : string -> bool).

(** [renderReference] *)
Definition renderReference (ref : option Reference) : result (option ResourceDescriptor) :=
  match ref with
  | None => Ok None
  | Some ref =>
      annotations ← NewStruct utf8_valid
        (<["organization" := AString (ref_org_name ref)]> {["name" := AString (ref_name ref)]});
      Ok (Some {| rd_name := ref_name ref; rd_uri := ref_uri ref; rd_content := "";
                  rd_digest := {["sha256" := trim_prefix (ref_digest ref) "sha256:"]};
                  rd_annotations := annotations |})
  end.

(** One violation; its finding is only kept for the bundle *)
Definition render_violation (includeSuppressed : bool) (vi : Violation) : RenderedViolation :=
  let finding k :=
    match v_finding vi with
    | Some f => if includeSuppressed && bool_decide (finding_is f = k) then Some (finding_data f) else None
    | None => None
    end in
  {| rv_subject := v_subject vi; rv_message := v_message vi; rv_suppress := v_suppress vi;
     rv_vulnerability := finding Vulnerability; rv_sast := finding SAST;
     rv_license_violation := finding LicenseViolation |}.

(** [renderEvaluation] *)
Definition renderEvaluation (ev : PolicyEvaluation) (includeSuppressed : bool)
    : result RenderedEvaluation :=
  let violations :=
    map (render_violation includeSuppressed)
      (List.filter (fun vi => negb (v_suppress vi) || includeSuppressed) (pe_violations ev)) in
  policyRef ← renderReference (pe_policy_reference ev);
  groupRef ← renderReference (pe_group_reference ev);
  Ok {| rev_name := pe_name ev; rev_material_name := pe_material_name ev;
        rev_material_name_fallback := ""; rev_sources := pe_sources ev;
        rev_policy_reference := policyRef; rev_policy_reference_fallback := None;
        rev_description := pe_description ev; rev_annotations := pe_annotations ev;
        rev_violations := violations; rev_with := pe_with ev;
        rev_type := MaterialType_name (pe_type ev); rev_skipped := pe_skipped ev;
        rev_skip_reasons := pe_skip_reasons ev; rev_group_reference := groupRef;
        rev_requirements := pe_requirements ev; rev_gate := pe_gate ev |}.

(** [evaluationsResult] *)
Record evaluationsResult := {
  er_evaluations : gmap string (list RenderedEvaluation);
  hasViolations : bool;
  hasGatedViolations : bool;
  hasGates : bool;
  evaluationsCount : Z;
  violationsCount : Z;
  skippedCount : Z;
  passedCount : Z;
  suppressedCount : Z
}.

Definition no_evaluations : evaluationsResult :=
  {| er_evaluations := ∅; hasViolations := false; hasGatedViolations := false; hasGates := false;
     evaluationsCount := 0; violationsCount := 0; skippedCount := 0; passedCount := 0;
     suppressedCount := 0 |}.

(** How many violations count, and how many are suppressed *)
Definition active_violations (p : PolicyEvaluation) : Z :=
  Z.of_nat (length (List.filter (fun vi => negb (v_suppress vi)) (pe_violations p))).
Definition suppressed_violations (p : PolicyEvaluation) : Z :=
  Z.of_nat (length (List.filter v_suppress (pe_violations p))).

Definition evaluation_key (p : PolicyEvaluation) : string :=
  if is_empty (pe_material_name p) then AttPolicyEvaluation else pe_material_name p.

(** The body of the loop of [groupEvaluations] *)
Definition group_step (includeSuppressed : bool) (res : evaluationsResult) (p : PolicyEvaluation)
    : result evaluationsResult :=
  let keyName := evaluation_key p in
  let active := active_violations p in
  ev ← renderEvaluation p includeSuppressed;
  let violated := bool_decide (0 < active) in
  Ok {| er_evaluations :=
          <[keyName := default [] (er_evaluations res !! keyName) ++ [ev]]> (er_evaluations res);
        hasViolations := violated || hasViolations res;
        hasGatedViolations := (violated && rev_gate ev) || hasGatedViolations res;
        hasGates := rev_gate ev || hasGates res;
        evaluationsCount := evaluationsCount res;
        violationsCount := violationsCount res + (if violated then active else 0);
        skippedCount := skippedCount res + (if negb violated && rev_skipped ev then 1 else 0);
        passedCount := passedCount res + (if negb violated && negb (rev_skipped ev) then 1 else 0);
        suppressedCount := suppressedCount res + suppressed_violations p |}.

(** [groupEvaluations] *)
Definition groupEvaluations (evals : list PolicyEvaluation) (includeSuppressed : bool)
    : result evaluationsResult :=
  res ← foldM_result (group_step includeSuppressed) evals no_evaluations;
  Ok {| er_evaluations := er_evaluations res; hasViolations := hasViolations res;
        hasGatedViolations := hasGatedViolations res; hasGates := hasGates res;
        evaluationsCount := Z.of_nat (length evals); violationsCount := violationsCount res;
        skippedCount := skippedCount res; passedCount := passedCount res;
        suppressedCount := suppressedCount res |}.

Definition mappedPolicyEvaluations (att : Attestation) : result evaluationsResult :=
  groupEvaluations (a_policy_evaluations att) false.

(** [PolicyEvaluationsFromBundle]; [unmarshal_evaluations] is protojson's decoder
    of the bundle *)
Definition PolicyEvaluationsFromBundle
    (unmarshal_evaluations : string -> result (list PolicyEvaluation)) (data : string)
    : result (gmap string (list RenderedEvaluation)) :=
  bundle ← map_err (EWrap "unmarshaling policy evaluation bundle") (unmarshal_evaluations data);
  res ← groupEvaluations bundle true;
  Ok (er_evaluations res).

(** ** Materials *)

(** [outputMaterials]: every material, in the order of its key, or only those
    marked as output *)
Fixpoint render_materials (att : Attestation) (onlyOutput : bool) (keys : list string)
    : result (list ResourceDescriptor) :=
  match keys with
  | [] => Ok []
  | mdefName :: keys' =>
      match a_materials att !! mdefName with
      | None => Err (panic "nil material")
      | Some mdef =>
          nMaterial ← map_err (EWrap "error normalizing material") (NormalizedOutput mdef);
          if onlyOutput && negb (nm_is_output nMaterial)
          then render_materials att onlyOutput keys'
          else
            material ← map_err (EWrap "rendering material")
                         (CraftingStateToIntotoDescriptor utf8_valid mdef mdefName);
            rest ← render_materials att onlyOutput keys';
            Ok (material :: rest)
      end
  end.

Definition outputMaterials (att : Attestation) (onlyOutput : bool)
    : result (list ResourceDescriptor) :=
  render_materials att onlyOutput (merge_sort str_le (elements (dom (a_materials att)))).

(** ** The subjects *)

(** [DetectSignatureType] (runners/commitverification) *)
Definition DetectSignatureType (signature : string) : string :=
  if is_empty signature then ""
  else
    let sig := trim_space signature in
    if has_prefix sig "-----BEGIN PGP SIGNATURE-----" then "PGP"
    else if has_prefix sig "-----BEGIN SSH SIGNATURE-----" then "SSH"
    else if has_prefix sig "-----BEGIN SIGNED MESSAGE-----" then "X509"
    else if has_prefix sig "-----BEGIN PGP MESSAGE-----" then "PGP"
    else "UNKNOWN".

Definition VerificationStatus_name (s : VerificationStatus) : string :=
  match s with
  | VerificationUnspecified => "unspecified"
  | Verified => "verified"
  | Unverified => "unverified"
  | Unavailable => "unavailable"
  | NotApplicable => "not_applicable"
  end.

(** [time.Time.Format(time.RFC3339)], the hash of the attestation's JSON *)
Context (format_time : Z -> string).
Context (marshal_attestation : Attestation -> result string) (sha256_hex : string -> string).

Definition remote_json (r : CommitRemote) : json :=
  JObj [("name", JStr (remote_name r)); ("url", JStr (remote_url r))].

(** [commitAnnotations] *)
Definition commitAnnotations (c : Commit) : result (gmap string AnnotationValue) :=
  let raw : gmap string AnnotationValue :=
    <["message" := AString (commit_message c)]>
      (<["author.name" := AString (commit_author_name c)]>
         (<["author.email" := AString (commit_author_email c)]>
            {["date" := AString (format_time (commit_date c))]})) in
  let raw := set_nonempty "signature" (commit_signature c) raw in
  let raw :=
    match commit_verification c with
    | Some pv => <["author.verification_status" := AString (VerificationStatus_name (cv_status pv))]> raw
    | None => raw
    end in
  let reported := match commit_verification c with Some pv => cv_signature_algorithm pv | None => "" end in
  let algorithm := if is_empty reported then DetectSignatureType (commit_signature c) else reported in
  let raw := set_nonempty "signature.algorithm" algorithm raw in
  let raw :=
    match commit_remotes c with
    | [] => raw
    | remotes => <["remotes" := AOther (JArr (map remote_json remotes))]> raw
    end in
  NewStruct utf8_valid raw.

Definition SubjectGitHead : string := "git.head".

(** [subject] *)
Definition subject (att : Attestation) : result (list ResourceDescriptor) :=
  raw ← marshal_attestation att;
  match a_workflow att with
  | None => Err (panic "nil workflow")
  | Some wf =>
      let workflow :=
        {| rd_name := CreateAnnotation ("workflow." +:+ wf_name wf); rd_uri := ""; rd_content := "";
           rd_digest := {["sha256" := sha256_hex raw]}; rd_annotations := ∅ |} in
      git ← match a_head att with
            | None => Ok []
            | Some head =>
                annotations ← map_err (EWrap "error creating annotations") (commitAnnotations head);
                Ok [{| rd_name := SubjectGitHead; rd_uri := ""; rd_content := "";
                       rd_digest := {["sha1" := commit_hash head]}; rd_annotations := annotations |}]
            end;
      normalizedMaterials ← map_err (EWrap "error normalizing materials") (outputMaterials att true);
      let outputs :=
        map (fun m => {| rd_name := rd_name m; rd_uri := ""; rd_content := "";
                         rd_digest := rd_digest m; rd_annotations := rd_annotations m |})
          (List.filter (fun m => negb (bool_decide (rd_digest m = ∅))) normalizedMaterials) in
      Ok (workflow :: git ++ outputs)
  end.

(** ** The predicate *)

Inductive BlockingStrategy := Enforced | Advisory | OtherStrategy (s : string).

#[export] Instance BlockingStrategy_eq_dec : EqDecision BlockingStrategy.
Proof. solve_decision. Defined.

(** [Metadata], [Auth], [CASBackend] and [ProvenancePredicateCommon] *)
Record Metadata := {
  md_name : string; md_project : string; md_project_version : string;
  md_project_version_prerelease : bool; md_team : string; md_initialized_at : Z;
  md_finished_at : Z; md_workflow_run_id : string; md_workflow_id : string;
  md_workflow_name : string; md_organization : string; md_contract_name : string;
  md_contract_version : string
}.

Record PredicateAuth := {
  pa_id : string; pa_type : string; pa_name : string; pa_subject : string
}.

Record PredicateCASBackend := { pcb_id : string; pcb_name : string; pcb_fallback : bool }.

Record ProvenancePredicateCommon := {
  pc_metadata : option Metadata;
  pc_builder : string;
  pc_build_type : string;
  pc_env : gmap string string;
  pc_runner_type : string;
  pc_runner_url : string;
  pc_annotations : gmap string string;
  pc_runner_environment : string;
  pc_runner_authenticated : bool;
  pc_runner_workflow_file_path : string;
  pc_auth : option PredicateAuth;
  pc_cas_backend : option PredicateCASBackend
}.

Definition AuthType_name (t : AuthType) : string :=
  match t with
  | AUTH_TYPE_UNSPECIFIED => "AUTH_TYPE_UNSPECIFIED"
  | AUTH_TYPE_USER => "AUTH_TYPE_USER"
  | AUTH_TYPE_API_TOKEN => "AUTH_TYPE_API_TOKEN"
  | AUTH_TYPE_FEDERATED => "AUTH_TYPE_FEDERATED"
  end.

Definition RunnerType_name (t : RunnerType) : string :=
  match t with
  | RUNNER_TYPE_UNSPECIFIED => "RUNNER_TYPE_UNSPECIFIED"
  | GITHUB_ACTION => "GITHUB_ACTION"
  | GITLAB_PIPELINE => "GITLAB_PIPELINE"
  | AZURE_PIPELINE => "AZURE_PIPELINE"
  | JENKINS_JOB => "JENKINS_JOB"
  | CIRCLECI_BUILD => "CIRCLECI_BUILD"
  | DAGGER_PIPELINE => "DAGGER_PIPELINE"
  | TEAMCITY_PIPELINE => "TEAMCITY_PIPELINE"
  | TEKTON_PIPELINE => "TEKTON_PIPELINE"
  | CHAINLOOP_SANDBOX => "CHAINLOOP_SANDBOX"
  end.

(** [getChainloopMeta]; the getters of an absent workflow give empty texts, and
    an absent finish is the epoch *)
Definition getChainloopMeta (att : Attestation) : Metadata :=
  let get (f : Workflow -> string) := match a_workflow att with Some wf => f wf | None => "" end in
  {| md_initialized_at := a_initialized_at att; md_finished_at := default 0 (a_finished_at att);
     md_name := get wf_name; md_team := get wf_team; md_project := get wf_project;
     md_workflow_run_id := get wf_workflow_run_id; md_workflow_id := get wf_workflow_id;
     md_workflow_name := get wf_name; md_organization := get wf_organization;
     md_contract_name := get wf_contract_name; md_contract_version := get wf_schema_revision;
     md_project_version := get wf_version;
     md_project_version_prerelease :=
       match a_workflow att with Some wf => wf_prerelease wf | None => false end |}.

Definition chainloopBuildType : string := "chainloop.dev/workflowrun/v0.1".

(** [predicateCommon] *)
Definition predicateCommon (builder_version builder_digest : string) (att : Attestation)
    : ProvenancePredicateCommon :=
  {| pc_build_type := chainloopBuildType;
     pc_builder := "chainloop.dev/cli/" +:+ builder_version +:+ "@" +:+ builder_digest;
     pc_metadata := Some (getChainloopMeta att);
     pc_env := a_env_vars att;
     pc_runner_type := RunnerType_name (a_runner_type att);
     pc_runner_url := a_runner_url att;
     pc_annotations := a_annotations att;
     pc_runner_environment :=
       match a_runner_environment att with Some e => re_environment e | None => "" end;
     pc_runner_authenticated :=
       match a_runner_environment att with Some e => re_authenticated e | None => false end;
     pc_runner_workflow_file_path :=
       match a_runner_environment att with Some e => re_workflow_file_path e | None => "" end;
     pc_auth := option_map (fun a => {| pa_id := aa_id a; pa_type := AuthType_name (aa_type a);
                                        pa_name := aa_name a; pa_subject := aa_subject a |}) (a_auth att);
     pc_cas_backend := option_map (fun c => {| pcb_id := acb_id c; pcb_name := acb_name c;
                                               pcb_fallback := acb_fallback c |}) (a_cas_backend att) |}.

(** [PolicyEvaluationsRef] and [GetSizeBytes] *)
Record PolicyEvaluationsRef := { per_descriptor : option ResourceDescriptor; per_size : Z }.

Definition GetSizeBytes (r : option PolicyEvaluationsRef) : Z :=
  match r with
  | None => 0
  | Some r => if bool_decide (per_size r < 0) then 0 else per_size r
  end.

(** [ProvenancePredicateV02] *)
Record ProvenancePredicateV02 := {
  pp_common : ProvenancePredicateCommon;
  pp_materials : list ResourceDescriptor;
  pp_evaluations : gmap string (list RenderedEvaluation);
  pp_evaluations_ref : option PolicyEvaluationsRef;
  pp_evaluations_fallback : option (gmap string (list RenderedEvaluation));
  pp_has_violations : bool;
  pp_evaluations_count : Z;
  pp_violations_count : Z;
  pp_skipped_count : Z;
  pp_passed_count : Z;
  pp_suppressed_count : Z;
  pp_has_gated_violations : bool;
  pp_has_gates : bool;
  pp_strategy : BlockingStrategy;
  pp_bypass_enabled : bool;
  pp_att_blocked : bool;
  pp_signing_ca : string;
  pp_signing_tsa : string
}.

(** The struct that [predicate] encodes *)
Definition provenance (builder_version builder_digest : string) (ref : option PolicyEvaluationsRef)
    (att : Attestation) : result ProvenancePredicateV02 :=
  normalizedMaterials ← map_err (EWrap "error normalizing materials") (outputMaterials att false);
  evalResult ← map_err (EWrap "error rendering policy evaluations") (mappedPolicyEvaluations att);
  let strategy := if a_block_on_policy_violation att then Enforced else Advisory in
  let blocked := negb (a_bypass_policy_check att)
                 && (hasGatedViolations evalResult
                     || (hasViolations evalResult && a_block_on_policy_violation att)) in
  Ok {| pp_common := predicateCommon builder_version builder_digest att;
        pp_materials := normalizedMaterials;
        pp_evaluations := match ref with None => er_evaluations evalResult | Some _ => ∅ end;
        pp_evaluations_ref := ref;
        pp_evaluations_fallback := None;
        pp_has_violations := hasViolations evalResult;
        pp_evaluations_count := evaluationsCount evalResult;
        pp_violations_count := violationsCount evalResult;
        pp_skipped_count := skippedCount evalResult;
        pp_passed_count := passedCount evalResult;
        pp_suppressed_count := suppressedCount evalResult;
        pp_has_gated_violations := hasGatedViolations evalResult;
        pp_has_gates := hasGates evalResult || bool_decide (strategy = Enforced);
        pp_strategy := strategy;
        pp_bypass_enabled := a_bypass_policy_check att;
        pp_att_blocked := blocked;
        pp_signing_ca := match a_signing_options att with Some o => so_signing_ca o | None => "" end;
        pp_signing_tsa :=
          match a_signing_options att with Some o => so_timestamp_authority_url o | None => "" end |}.

(** The in-toto statement; [encode_predicate] is the two-step encoding of the
    predicate, to JSON and then to a structpb struct *)
Record IntotoStatement := {
  is_type : string;
  is_subject : list ResourceDescriptor;
  is_predicate_type : string;
  is_predicate : jobject
}.

Definition StatementTypeUri : string := "https://in-toto.io/Statement/v1".

Context (encode_predicate : ProvenancePredicateV02 -> result jobject).

(** [predicate] and [Statement] *)
Definition render_predicate (builder_version builder_digest : string)
    (ref : option PolicyEvaluationsRef) (att : Attestation) : result jobject :=
  p ← provenance builder_version builder_digest ref att; encode_predicate p.

Definition renderer_Statement (builder_version builder_digest : string)
    (ref : option PolicyEvaluationsRef) (att : Attestation) : result IntotoStatement :=
  subject ← map_err (EWrap "error creating subject") (subject att);
  predicate ← map_err (EWrap "error creating predicate")
                (render_predicate builder_version builder_digest ref att);
  Ok {| is_type := StatementTypeUri; is_subject := subject; is_predicate_type := PredicateTypeV02;
        is_predicate := predicate |}.

(** ** Signing (renderer.go) *)

(** The signer: the certificate chain of chainloop's own one ([None] for the
    others), what it answers, the PEM decoder of a certificate *)
Context (validate_statement : IntotoStatement -> result unit).
Context (marshal_statement : IntotoStatement -> result string).
Context (sign_message : string -> result string).
Context (unmarshal_envelope : string -> result DsseEnvelope).
Context (signer_chain : option (list string)) (pem_Decode : string -> option string).
Context (tsa_sign : string -> string -> result string).

Definition with_verification_material (b : Bundle) (v : VerificationMaterial) : Bundle :=
  {| b_media_type := b_media_type b; b_dsse := b_dsse b; b_verification := Some v |}.

(** [envelopeToBundle]; [tsaSig] is [None] when there is no timestamp *)
Definition envelopeToBundle (dsseEnvelope : DsseEnvelope) (tsaSig : option string) : result Bundle :=
  bundle ← BundleFromDSSEEnvelope dsseEnvelope;
  content ← match signer_chain with
            | None => Ok None
            | Some [] => Err (EMsg "certificate chain is empty")
            | Some (leaf :: _) =>
                match pem_Decode leaf with
                | None => Err (EMsg "failed to decode PEM block")
                | Some raw => Ok (Some (VMCertificate raw))
                end
            end;
  Ok (with_verification_material bundle
        {| vm_content := content;
           vm_timestamps := match tsaSig with Some ts => [ts] | None => [] end |}).

Definition tsa_url (att : Attestation) : string :=
  match a_signing_options att with Some o => so_timestamp_authority_url o | None => "" end.

(** [Render] *)
Definition renderer_Render (builder_version builder_digest : string)
    (ref : option PolicyEvaluationsRef) (att : Attestation) : result (DsseEnvelope * Bundle) :=
  statement ← renderer_Statement builder_version builder_digest ref att;
  _ ← map_err (EWrap "validating intoto statement") (validate_statement statement);
  rawStatement ← marshal_statement statement;
  signedAtt ← map_err (EWrap "signing message") (sign_message rawStatement);
  dsseEnvelope ← unmarshal_envelope signedAtt;
  match de_signatures dsseEnvelope with
  | [] => Err (panic "index out of range")
  | s :: _ =>
      decodedSig ← map_err (EWrap "decoding signature") (decode_b64 (ds_sig s));
      tsaSig ← (if is_empty (tsa_url att) then Ok None
                else ts ← map_err (EWrap "adding timestamp") (tsa_sign (tsa_url att) decodedSig);
                     Ok (Some ts));
      bundle ← map_err (EWrap "loading bundle") (envelopeToBundle dsseEnvelope tsaSig);
      Ok (dsseEnvelope, bundle)
  end.
End Render.

(** ** Reading a predicate back *)

(** [NormalizedMaterial]; its hash is the hexadecimal text of a SHA-256 *)
Record ReferencedSourceComponent := { rsc_type : string; rsc_name : string; rsc_version : string }.

Record NormalizedMaterial := {
  nz_name : string;
  nz_type : string;
  nz_filename : string;
  nz_value : string;
  nz_hash : option string;
  nz_tag : string;
  nz_uploaded_to_cas : bool;
  nz_embedded_inline : bool;
  nz_annotations : gmap string string;
  nz_source_component : option ReferencedSourceComponent
}.

(** [GetStringValue] and [GetBoolValue] of an annotation *)
Definition string_value (v : AnnotationValue) : string := match v with AString s => s | _ => "" end.
Definition bool_value (v : AnnotationValue) : bool := match v with ABool b => b | _ => false end.

Section Normalize.
(** [%g] of a number, and [json.Marshal] of a list or a struct *)
Context (format_number : string -> string) (marshal_json : json -> result string).

(** [structValueToString] *)
Definition structValueToString (v : AnnotationValue) : string :=
  match v with
  | AString s => s
  | ABool b => if b then "true" else "false"
  | AOther (JNum n) => format_number n
  | AOther (JStr s) => s
  | AOther (JBool b) => if b then "true" else "false"
  | AOther JNull => ""
  | AOther j => match marshal_json j with Ok s => s | Err _ => "" end
  end.

Definition annotation_text (k : string) (m : gmap string AnnotationValue) : string :=
  match m !! k with Some v => string_value v | None => "" end.
Definition annotation_flag (k : string) (m : gmap string AnnotationValue) : bool :=
  match m !! k with Some v => bool_value v | None => false end.

Definition source_component (ann : gmap string AnnotationValue) : option ReferencedSourceComponent :=
  let name := annotation_text AnnotationsSBOMMainComponentName ann in
  if is_empty name then None
  else Some {| rsc_name := name;
               rsc_version := annotation_text AnnotationsSBOMMainComponentVersion ann;
               rsc_type := annotation_text AnnotationsSBOMMainComponentType ann |}.

(** [normalizeMaterial]; the content of a decoded descriptor is nil when it is
    empty *)
Definition normalizeMaterial (material : ResourceDescriptor) : result NormalizedMaterial :=
  let ann := rd_annotations material in
  let annotations := structValueToString <$> ann in
  mType ← match ann !! AnnotationMaterialType with
          | Some v => Ok (string_value v) | None => Err (EMsg "material type not found") end;
  mName ← match ann !! AnnotationMaterialName with
          | Some v => Ok (string_value v) | None => Err (EMsg "material name not found") end;
  if bool_decide (mType = MaterialType_name STRING) then
    if is_empty (rd_content material) then Err (EMsg "material content not found")
    else Ok {| nz_name := mName; nz_type := mType; nz_filename := ""; nz_value := rd_content material;
               nz_hash := rd_digest material !! "sha256"; nz_tag := ""; nz_uploaded_to_cas := false;
               nz_embedded_inline := false; nz_annotations := annotations;
               nz_source_component := None |}
  else
    d ← match rd_digest material !! "sha256" with
        | Some d => Ok d | None => Err (EMsg "material digest not found") end;
    if is_empty (rd_name material) then Err (EMsg "material name not found")
    else
      let uploaded := annotation_flag AnnotationMaterialCAS ann in
      let inline := annotation_flag AnnotationMaterialInlineCAS ann in
      Ok {| nz_name := mName; nz_type := mType;
            nz_filename := if inline || uploaded then rd_name material else "";
            nz_value := if inline then rd_content material
                        else if uploaded then "" else rd_name material;
            nz_hash := Some d; nz_tag := annotation_text AnnotationContainerTag ann;
            nz_uploaded_to_cas := uploaded; nz_embedded_inline := inline;
            nz_annotations := annotations; nz_source_component := source_component ann |}.

(** [GetMaterials]: a descriptor that does not normalize is left out *)
Definition predicate_GetMaterials (p : ProvenancePredicateV02) : list NormalizedMaterial :=
  omap (fun m => match normalizeMaterial m with Ok m => Some m | Err _ => None end) (pp_materials p).
End Normalize.

(** ** The verdict *)

(** [PolicyEvaluationStatus] *)
Record PolicyEvaluationStatus := {
  ps_strategy : BlockingStrategy;
  ps_bypassed : bool;
  ps_blocked : bool;
  ps_has_violations : bool;
  ps_has_gated_violations : bool;
  ps_has_gates : bool;
  ps_evaluations_count : Z;
  ps_violations_count : Z;
  ps_skipped_count : Z;
  ps_passed_count : Z;
  ps_suppressed_count : Z
}.

Definition violated_inline (ev : RenderedEvaluation) : bool := negb (bool_decide (rev_violations ev = [])).

Definition skips (ev : RenderedEvaluation) : Z :=
  if negb (violated_inline ev) && rev_skipped ev then 1 else 0.
Definition passes (ev : RenderedEvaluation) : Z :=
  if negb (violated_inline ev) && negb (rev_skipped ev) then 1 else 0.

Fixpoint sum_of {A} (f : A -> Z) (l : list A) : Z :=
  match l with [] => 0 | x :: l' => f x + sum_of f l' end.

(** [summarizeInlineEvaluations], over the evaluations in the order in which the
    map is iterated *)
Definition summarizeInlineEvaluations (evals : gmap string (list RenderedEvaluation)) : Z * Z * bool :=
  let all := concat (map_to_list evals).*2 in
  (sum_of skips all, sum_of passes all, existsb rev_gate all).

(** [GetPolicyEvaluationStatus] *)
Definition GetPolicyEvaluationStatus (p : ProvenancePredicateV02) : PolicyEvaluationStatus :=
  let countersMissing := bool_decide (pp_skipped_count p = 0) && bool_decide (pp_passed_count p = 0)
                         && bool_decide (0 < pp_evaluations_count p) in
  let evals := if bool_decide (pp_evaluations p = ∅) then default ∅ (pp_evaluations_fallback p)
               else pp_evaluations p in
  let '(sc, pc, hg) := summarizeInlineEvaluations evals in
  let backfill := (countersMissing || negb (pp_has_gates p)) && negb (bool_decide (evals = ∅)) in
  let hasGates := pp_has_gates p || (backfill && hg) in
  {| ps_strategy := pp_strategy p; ps_bypassed := pp_bypass_enabled p;
     ps_blocked := pp_att_blocked p; ps_has_violations := pp_has_violations p;
     ps_has_gated_violations := pp_has_gated_violations p;
     ps_has_gates := hasGates || bool_decide (pp_strategy p = Enforced);
     ps_evaluations_count := pp_evaluations_count p;
     ps_violations_count := pp_violations_count p;
     ps_skipped_count := if backfill && countersMissing then sc else pp_skipped_count p;
     ps_passed_count := if backfill && countersMissing then pc else pp_passed_count p;
     ps_suppressed_count := pp_suppressed_count p |}.

Inductive PolicyStatus :=
| StatusNotApplicable | StatusPassed | StatusSkipped | StatusWarning | StatusBlocked | StatusBypassed.

#[export] Instance PolicyStatus_eq_dec : EqDecision PolicyStatus.
Proof. solve_decision. Defined.

Record PolicyStatusSummary := {
  sum_status : PolicyStatus; sum_total : Z; sum_passed : Z; sum_skipped : Z; sum_violated : Z;
  sum_has_gates : bool; sum_suppressed : Z
}.

(** [DerivePolicyStatusSummary] *)
Definition DerivePolicyStatusSummary (s : option PolicyEvaluationStatus) : PolicyStatusSummary :=
  let not_applicable :=
    {| sum_status := StatusNotApplicable; sum_total := 0; sum_passed := 0; sum_skipped := 0;
       sum_violated := 0; sum_has_gates := false; sum_suppressed := 0 |} in
  match s with
  | None => not_applicable
  | Some s =>
      if bool_decide (ps_evaluations_count s = 0) then not_applicable
      else
        let enforced := ps_has_gated_violations s || bool_decide (ps_strategy s = Enforced) in
        {| sum_status := if enforced && ps_bypassed s then StatusBypassed
                         else if enforced && ps_has_violations s then StatusBlocked
                         else if ps_has_violations s then StatusWarning
                         else if bool_decide (0 < ps_skipped_count s) then StatusSkipped
                         else StatusPassed;
           sum_total := ps_evaluations_count s; sum_passed := ps_passed_count s;
           sum_skipped := ps_skipped_count s; sum_violated := ps_violations_count s;
           sum_has_gates := ps_has_gates s; sum_suppressed := ps_suppressed_count s |}
  end.

(** ** Extracting the predicate from an envelope *)

Section ExtractPredicate.
(** The conversion of a JSON number to an int32, the third-party decoder of the
    payload, and the decoders of the statement and of the predicate's struct *)
Context (int32_of : string -> Z).
Context (DecodeB64Payload : DsseEnvelope -> result string).
Context (unmarshal_statement : string -> result IntotoStatement).
Context (decode_predicate : jobject -> result ProvenancePredicateV02).

(** [CraftingSchema_Material_MaterialType_name[n]], "" for a number it lacks *)
Definition material_type_of_number (n : Z) : string :=
  if bool_decide (0 <= n) then
    match all_material_types !! Z.to_nat n with Some t => MaterialType_name t | None => "" end
  else "".

Definition fix_evaluation_type (p : json) : json :=
  match p with
  | JObj fields =>
      match obj_get "type" fields with
      | Some (JNum n) => JObj (obj_set "type" (JStr (material_type_of_number (int32_of n))) fields)
      | _ => p
      end
  | _ => p
  end.

Definition fix_evaluation_list (v : json) : json :=
  match v with JArr l => JArr (map fix_evaluation_type l) | _ => v end.

(** [fixPolicyTypeField]; the struct is changed in place *)
Definition fixPolicyTypeField (predicate : jobject) : jobject :=
  match obj_get "policy_evaluations" predicate with
  | Some (JObj groups) =>
      obj_set "policy_evaluations"
        (JObj (map (fun '(k, v) => (k, fix_evaluation_list v)) groups)) predicate
  | _ => predicate
  end.

(** The compatibility with the field names of older attestations *)
Definition fix_evaluation_names (ev : RenderedEvaluation) : RenderedEvaluation :=
  {| rev_name := rev_name ev;
     rev_material_name := if is_empty (rev_material_name_fallback ev) then rev_material_name ev
                          else rev_material_name_fallback ev;
     rev_material_name_fallback := rev_material_name_fallback ev;
     rev_sources := rev_sources ev;
     rev_policy_reference := match rev_policy_reference_fallback ev with
                             | Some r => Some r | None => rev_policy_reference ev end;
     rev_policy_reference_fallback := rev_policy_reference_fallback ev;
     rev_description := rev_description ev; rev_annotations := rev_annotations ev;
     rev_violations := rev_violations ev; rev_with := rev_with ev; rev_type := rev_type ev;
     rev_skipped := rev_skipped ev; rev_skip_reasons := rev_skip_reasons ev;
     rev_group_reference := rev_group_reference ev; rev_requirements := rev_requirements ev;
     rev_gate := rev_gate ev |}.

Definition with_inline_evaluations (p : ProvenancePredicateV02)
    (evals : gmap string (list RenderedEvaluation)) : ProvenancePredicateV02 :=
  {| pp_common := pp_common p; pp_materials := pp_materials p; pp_evaluations := evals;
     pp_evaluations_ref := pp_evaluations_ref p;
     pp_evaluations_fallback := pp_evaluations_fallback p;
     pp_has_violations := pp_has_violations p; pp_evaluations_count := pp_evaluations_count p;
     pp_violations_count := pp_violations_count p; pp_skipped_count := pp_skipped_count p;
     pp_passed_count := pp_passed_count p; pp_suppressed_count := pp_suppressed_count p;
     pp_has_gated_violations := pp_has_gated_violations p; pp_has_gates := pp_has_gates p;
     pp_strategy := pp_strategy p; pp_bypass_enabled := pp_bypass_enabled p;
     pp_att_blocked := pp_att_blocked p; pp_signing_ca := pp_signing_ca p;
     pp_signing_tsa := pp_signing_tsa p |}.

(** [extractPredicate] *)
Definition extractPredicate (statement : IntotoStatement) : result ProvenancePredicateV02 :=
  v ← map_err (EWrap "un-marshaling predicate")
        (decode_predicate (fixPolicyTypeField (is_predicate statement)));
  let evals := default (pp_evaluations v) (pp_evaluations_fallback v) in
  Ok (with_inline_evaluations v (map fix_evaluation_names <$> evals)).

(** [ExtractStatement] *)
Definition ExtractStatement (envelope : DsseEnvelope) : result IntotoStatement :=
  decodedPayload ← DecodeB64Payload envelope;
  map_err (EWrap "un-marshaling predicate") (unmarshal_statement decodedPayload).

(** [ExtractPredicate] *)
Definition ExtractPredicate (envelope : DsseEnvelope) : result ProvenancePredicateV02 :=
  statement ← map_err (EWrap "extracting statement") (ExtractStatement envelope);
  if bool_decide (is_predicate_type statement = PredicateTypeV02)
  then map_err (EWrap "extracting predicate") (extractPredicate statement)
  else Err (EMsg ("unsupported predicate type: " +:+ is_predicate_type statement)).
End ExtractPredicate.

(** ** What grouping computes *)

Definition violated (p : PolicyEvaluation) : bool := bool_decide (0 < active_violations p).

Section Grouping.
Context (utf8_valid : string -> bool).

Lemma renderEvaluation_Ok p inc ev :
  renderEvaluation utf8_valid p inc = Ok ev ->
  rev_gate ev = pe_gate p /\ rev_skipped ev = pe_skipped p
  /\ rev_violations ev = map (render_violation inc)
       (List.filter (fun vi => negb (v_suppress vi) || inc) (pe_violations p)).
Proof. unfold renderEvaluation. intros H. inv_ok. done. Qed.

Lemma sum_of_app {A} (f : A -> Z) l1 l2 : sum_of f (l1 ++ l2) = sum_of f l1 + sum_of f l2.
Proof. induction l1 as [|x l1 IH]; cbn; [done|]. rewrite IH. lia. Qed.

Lemma sum_of_Permutation {A} (f : A -> Z) l1 l2 : l1 ≡ₚ l2 -> sum_of f l1 = sum_of f l2.
Proof. induction 1; cbn; lia. Qed.

Lemma sum_of_nonneg {A} (f : A -> Z) l : (forall x, 0 <= f x) -> 0 <= sum_of f l.
Proof. intros H. induction l as [|x l IH]; cbn; [lia|]. specialize (H x). lia. Qed.

Lemma active_nonneg p : 0 <= active_violations p.
Proof. unfold active_violations. lia. Qed.

(** The counters after the loop, by evaluation *)
Record group_counts (evals : list PolicyEvaluation) (res0 res : evaluationsResult) : Prop := {
  gc_violations : hasViolations res = existsb violated evals || hasViolations res0;
  gc_gated : hasGatedViolations res
             = existsb (fun p => violated p && pe_gate p) evals || hasGatedViolations res0;
  gc_gates : hasGates res = existsb pe_gate evals || hasGates res0;
  gc_count : violationsCount res = violationsCount res0 + sum_of active_violations evals;
  gc_skipped : skippedCount res = skippedCount res0
               + sum_of (fun p => if negb (violated p) && pe_skipped p then 1 else 0) evals;
  gc_passed : passedCount res = passedCount res0
              + sum_of (fun p => if negb (violated p) && negb (pe_skipped p) then 1 else 0) evals;
  gc_suppressed : suppressedCount res = suppressedCount res0 + sum_of suppressed_violations evals
}.

Lemma group_fold_counts inc evals res0 res :
  foldM_result (group_step utf8_valid inc) evals res0 = Ok res -> group_counts evals res0 res.
Proof.
  revert res0; induction evals as [|p evals IH]; intros res0 H; cbn in H.
  - inv_ok. split; cbn; lia || done.
  - apply bind_Ok in H as (res1 & H1 & H). apply IH in H as [h1 h2 h3 h4 h5 h6 h7].
    unfold group_step in H1. apply bind_Ok in H1 as (ev & Hev & H1). inv_ok.
    apply renderEvaluation_Ok in Hev as (Hg & Hs & _).
    pose proof (active_nonneg p) as Hp.
    split; cbn in *; rewrite ?h1, ?h2, ?h3, ?h4, ?h5, ?h6, ?h7, ?Hg, ?Hs; unfold violated.
    1-3: by rewrite orb_assoc, (orb_comm (existsb _ _)).
    all: case_bool_decide; cbn; destruct (pe_skipped p); cbn; lia.
Qed.

(** The evaluations of a material, in their order *)
Lemma group_fold_lookup inc evals res0 res k :
  foldM_result (group_step utf8_valid inc) evals res0 = Ok res ->
  exists l, mapM_result (fun p => renderEvaluation utf8_valid p inc)
              (List.filter (fun p => bool_decide (evaluation_key p = k)) evals) = Ok l
    /\ default [] (er_evaluations res !! k) = default [] (er_evaluations res0 !! k) ++ l.
Proof.
  revert res0; induction evals as [|p evals IH]; intros res0 H; cbn in H.
  - inv_ok. exists []. split; [done|]. by rewrite app_nil_r.
  - apply bind_Ok in H as (res1 & H1 & H). destruct (IH _ H) as (l & Hl & Hk).
    unfold group_step in H1. apply bind_Ok in H1 as (ev & Hev & H1). inv_ok.
    cbn [er_evaluations] in Hk. cbn [List.filter].
    destruct (decide (evaluation_key p = k)) as [<-|Hne].
    + rewrite bool_decide_eq_true_2 by done. cbn [mapM_result]. rewrite Hev. cbn. rewrite Hl.
      exists (ev :: l). split; [done|]. rewrite Hk, lookup_insert_eq. cbn. by rewrite <- app_assoc.
    + rewrite bool_decide_eq_false_2 by done. exists l. split; [done|].
      by rewrite Hk, lookup_insert_ne by done.
Qed.
End Grouping.

(** ** The verdict is the one of the evaluations *)

Lemma violated_iff p : violated p = true <-> exists vi, vi ∈ pe_violations p /\ v_suppress vi = false.
Proof.
  unfold violated, active_violations. rewrite bool_decide_eq_true.
  induction (pe_violations p) as [|vi l IH]; cbn; [split; [lia | intros (? & ?%not_elem_of_nil & _); done]|].
  destruct (v_suppress vi) eqn:E; cbn.
  - rewrite IH. split; intros (x & Hx & Hs); exists x; [by split; [right|]|].
    apply elem_of_cons in Hx as [->|Hx]; [congruence | done].
  - split; [|lia]. intros _. exists vi. split; [left | done].
Qed.

(** Some evaluation has a violation that is not suppressed, [P] holding of it *)
Definition violation_where (P : PolicyEvaluation -> bool) (att : Attestation) : Prop :=
  exists ev vi, ev ∈ a_policy_evaluations att /\ vi ∈ pe_violations ev
    /\ v_suppress vi = false /\ P ev = true.

Lemma existsb_violation P att :
  existsb (fun p => violated p && P p) (a_policy_evaluations att) = true <-> violation_where P att.
Proof.
  rewrite existsb_exists. unfold violation_where. split.
  - intros (p & Hp%list_elem_of_In & [(vi & Hv & Hs)%violated_iff HP]%andb_true_iff). by exists p, vi.
  - intros (p & vi & Hp & Hv & Hs & HP). exists p. split; [by apply list_elem_of_In|].
    apply andb_true_iff. split; [|done]. apply violated_iff. eauto.
Qed.

Lemma existsb_ext {A} (f g : A -> bool) l : (forall x, f x = g x) -> existsb f l = existsb g l.
Proof. intros H. induction l as [|x l IH]; cbn; [done|]. by rewrite H, IH. Qed.

Lemma derived_blocked p :
  sum_status (DerivePolicyStatusSummary (Some (GetPolicyEvaluationStatus p))) = StatusBlocked <->
  pp_evaluations_count p <> 0 /\ pp_bypass_enabled p = false /\ pp_has_violations p = true
  /\ (pp_has_gated_violations p = true \/ pp_strategy p = Enforced).
Proof.
  unfold DerivePolicyStatusSummary, GetPolicyEvaluationStatus.
  destruct (summarizeInlineEvaluations _) as [[sc pc] hg].
  cbn [ps_evaluations_count ps_has_gated_violations ps_strategy ps_bypassed ps_has_violations
       ps_skipped_count].
  case_bool_decide as Hn; cbn [sum_status]; [split; [discriminate | intros [? _]; done]|].
  destruct (pp_has_gated_violations p), (pp_bypass_enabled p), (pp_has_violations p);
    destruct (decide (pp_strategy p = Enforced)) as [He|He];
    rewrite ?(bool_decide_eq_true_2 _ He), ?(bool_decide_eq_false_2 _ He); cbn [orb andb];
    try case_bool_decide; intuition congruence.
Qed.

Section Verdict.
Context (utf8_valid : string -> bool) (version digest : string).

Lemma provenance_counts ref att p :
  provenance utf8_valid version digest ref att = Ok p ->
  exists res, mappedPolicyEvaluations utf8_valid att = Ok res
    /\ group_counts (a_policy_evaluations att) no_evaluations res
    /\ pp_evaluations p = match ref with None => er_evaluations res | Some _ => ∅ end
    /\ pp_evaluations_fallback p = None
    /\ pp_has_violations p = hasViolations res
    /\ pp_has_gated_violations p = hasGatedViolations res
    /\ pp_evaluations_count p = Z.of_nat (length (a_policy_evaluations att))
    /\ pp_violations_count p = violationsCount res /\ pp_skipped_count p = skippedCount res
    /\ pp_passed_count p = passedCount res /\ pp_suppressed_count p = suppressedCount res
    /\ pp_has_gates p = hasGates res || a_block_on_policy_violation att
    /\ pp_strategy p = (if a_block_on_policy_violation att then Enforced else Advisory)
    /\ pp_bypass_enabled p = a_bypass_policy_check att
    /\ pp_att_blocked p = negb (a_bypass_policy_check att)
         && (hasGatedViolations res || (hasViolations res && a_block_on_policy_violation att)).
Proof.
  unfold provenance. intros H.
  apply bind_Ok in H as (ms & _ & H). apply bind_Ok in H as (res & Hres%map_err_Ok & H).
  exists res. split; [done|]. unfold mappedPolicyEvaluations, groupEvaluations in Hres.
  apply bind_Ok in Hres as (r & Hr & Hres). apply group_fold_counts in Hr as [].
  inv_ok. cbn in *. split; [by split|].
  repeat (split; [done|]). split; [|done]. by destruct (a_block_on_policy_violation att).
Qed.

(** The verdict recorded in an attestation is the one its evaluations give.
    The attestation is marked as blocked exactly when the bypass is off and some
    violation that is not suppressed belongs to a gate, or to any policy if the
    organization blocks on violations; the status derived from it is BLOCKED in
    those cases only, and every evaluation is counted once, as violated, skipped
    or passed. *)
Theorem policy_verdict_exact ref att p :
  provenance utf8_valid version digest ref att = Ok p ->
  let status := DerivePolicyStatusSummary (Some (GetPolicyEvaluationStatus p)) in
  (pp_att_blocked p = true <->
     a_bypass_policy_check att = false
     /\ violation_where (fun ev => pe_gate ev || a_block_on_policy_violation att) att)
  /\ (sum_status status = StatusBlocked <-> pp_att_blocked p = true)
  /\ (pp_has_violations p = true <-> violation_where (fun _ => true) att)
  /\ pp_evaluations_count p = Z.of_nat (length (a_policy_evaluations att))
  /\ pp_skipped_count p + pp_passed_count p
     + Z.of_nat (length (List.filter violated (a_policy_evaluations att))) = pp_evaluations_count p
  /\ pp_violations_count p = sum_of active_violations (a_policy_evaluations att)
  /\ pp_suppressed_count p = sum_of suppressed_violations (a_policy_evaluations att).
Proof.
  intros H status.
  destruct (provenance_counts _ _ _ H)
    as (res & _ & Hg & _ & _ & Hv & Hgv & Hn & Hvc & Hsk & Hpa & Hsu & _ & Hst & Hby & Hbl).
  destruct Hg as [g1 g2 g3 g4 g5 g6 g7]. cbn in g1, g2, g4, g5, g6, g7. rewrite orb_false_r in g1, g2.
  assert (hasGatedViolations res || (hasViolations res && a_block_on_policy_violation att)
          = existsb (fun ev => violated ev && (pe_gate ev || a_block_on_policy_violation att))
              (a_policy_evaluations att)) as Hor.
  { rewrite g1, g2. clear. induction (a_policy_evaluations att) as [|ev evs IH]; cbn; [done|].
    rewrite <- IH. destruct (violated ev), (pe_gate ev), (a_block_on_policy_violation att),
      (existsb _ evs), (existsb violated evs); done. }
  split; [|split; [|split; [|split; [|split; [|split]]]]].
  - rewrite Hbl, Hor, andb_true_iff, negb_true_iff. by rewrite existsb_violation.
  - unfold status. rewrite derived_blocked, Hn, Hst, Hby, Hgv, Hv, Hbl.
    assert (hasGatedViolations res = true -> hasViolations res = true) as Himp.
    { rewrite g1, g2, !existsb_exists. intros (x & Hx & [Hx1 _]%andb_true_iff). eauto. }
    assert (hasViolations res = true -> Z.of_nat (length (a_policy_evaluations att)) <> 0) as Hne.
    { rewrite g1. destruct (a_policy_evaluations att); cbn; [done | lia]. }
    destruct (hasGatedViolations res), (hasViolations res), (a_block_on_policy_violation att),
      (a_bypass_policy_check att); cbn; intuition congruence.
  - rewrite Hv, g1, <- existsb_violation.
    rewrite (existsb_ext (fun p => violated p && true) violated); [done|]. intros x. apply andb_true_r.
  - done.
  - rewrite Hsk, Hpa, Hn, g5, g6. clear.
    induction (a_policy_evaluations att) as [|ev evs IH]; cbn [sum_of length List.filter]; [lia|].
    destruct (violated ev), (pe_skipped ev); cbn [negb andb length]; lia.
  - by rewrite Hvc, g4.
  - by rewrite Hsu, g7.
Qed.
End Verdict.

(** ** Attestations without counters *)

(** A predicate as the versions before the counters wrote it *)
Definition without_counters (p : ProvenancePredicateV02) : ProvenancePredicateV02 :=
  {| pp_common := pp_common p; pp_materials := pp_materials p; pp_evaluations := pp_evaluations p;
     pp_evaluations_ref := pp_evaluations_ref p;
     pp_evaluations_fallback := pp_evaluations_fallback p;
     pp_has_violations := pp_has_violations p; pp_evaluations_count := pp_evaluations_count p;
     pp_violations_count := pp_violations_count p; pp_skipped_count := 0; pp_passed_count := 0;
     pp_suppressed_count := pp_suppressed_count p;
     pp_has_gated_violations := pp_has_gated_violations p; pp_has_gates := false;
     pp_strategy := pp_strategy p; pp_bypass_enabled := pp_bypass_enabled p;
     pp_att_blocked := pp_att_blocked p; pp_signing_ca := pp_signing_ca p;
     pp_signing_tsa := pp_signing_tsa p |}.

(** The evaluations of a map, in the order of its iteration *)
Definition inline_all (m : gmap string (list RenderedEvaluation)) : list RenderedEvaluation :=
  concat (map_to_list m).*2.

Lemma concat_Permutation {A} (l1 l2 : list (list A)) : l1 ≡ₚ l2 -> concat l1 ≡ₚ concat l2.
Proof.
  induction 1 as [|x l1 l2 _ IH|x y l| ]; cbn; [done | by rewrite IH | | by etrans].
  rewrite !app_assoc. by rewrite (Permutation_app_comm x y).
Qed.

(** Appending to the evaluations of one key *)
Lemma inline_all_append k ev m :
  inline_all (<[k := default [] (m !! k) ++ [ev]]> m) ≡ₚ ev :: inline_all m.
Proof.
  unfold inline_all. destruct (m !! k) as [l|] eqn:E; cbn [default].
  - rewrite <- (insert_delete_eq m k), map_to_list_insert by apply lookup_delete_eq.
    rewrite <- (map_to_list_delete m k l E). cbn.
    rewrite <- app_assoc. symmetry. apply (Permutation_middle l).
  - by rewrite map_to_list_insert.
Qed.

Section Backfill.
Context (utf8_valid : string -> bool).

(** What the loop of [groupEvaluations] appends, whatever the iteration *)
Lemma group_fold_inline evals res0 res :
  foldM_result (group_step utf8_valid false) evals res0 = Ok res ->
  exists l, mapM_result (fun p => renderEvaluation utf8_valid p false) evals = Ok l
    /\ inline_all (er_evaluations res) ≡ₚ l ++ inline_all (er_evaluations res0).
Proof.
  revert res0; induction evals as [|p evals IH]; intros res0 H; cbn in H.
  - inv_ok. by exists [].
  - apply bind_Ok in H as (res1 & H1 & H). destruct (IH _ H) as (l & Hl & Hp).
    unfold group_step in H1. apply bind_Ok in H1 as (ev & Hev & H1). inv_ok.
    exists (ev :: l). cbn [mapM_result]. rewrite Hev. cbn. rewrite Hl. split; [done|].
    cbn [er_evaluations] in Hp. rewrite Hp, inline_all_append. symmetry. apply Permutation_middle.
Qed.

Lemma violated_inline_rendered p ev :
  renderEvaluation utf8_valid p false = Ok ev -> violated_inline ev = violated p.
Proof.
  intros (_ & _ & Hv)%renderEvaluation_Ok. unfold violated_inline, violated, active_violations.
  rewrite Hv. clear Hv. apply eq_true_iff_eq. rewrite negb_true_iff, bool_decide_eq_false, bool_decide_eq_true.
  induction (pe_violations p) as [|vi l IH]; cbn; [split; [done | lia]|].
  destruct (v_suppress vi); cbn; [done|]. split; [lia | done].
Qed.

(** The counters that the inline evaluations give *)
Lemma summarize_rendered evals l :
  mapM_result (fun p => renderEvaluation utf8_valid p false) evals = Ok l ->
  sum_of skips l = sum_of (fun p => if negb (violated p) && pe_skipped p then 1 else 0) evals
  /\ sum_of passes l = sum_of (fun p => if negb (violated p) && negb (pe_skipped p) then 1 else 0) evals
  /\ existsb rev_gate l = existsb pe_gate evals.
Proof.
  revert l; induction evals as [|p evals IH]; intros l H; cbn in H; [by inv_ok|].
  apply bind_Ok in H as (ev & Hev & H). apply bind_Ok in H as (l' & Hl & H). inv_ok.
  destruct (IH _ Hl) as (h1 & h2 & h3). pose proof (violated_inline_rendered _ _ Hev) as Hv.
  apply renderEvaluation_Ok in Hev as (Hg & Hs & _).
  cbn. unfold skips at 1, passes at 1. by rewrite Hv, Hs, Hg, h1, h2, h3.
Qed.

Lemma existsb_Permutation {A} (f : A -> bool) l1 l2 : l1 ≡ₚ l2 -> existsb f l1 = existsb f l2.
Proof.
  intros HP. apply eq_true_iff_eq. rewrite !existsb_exists.
  setoid_rewrite <- list_elem_of_In. by setoid_rewrite HP.
Qed.

(** The status of an attestation signed before the counters existed is the
    one the counters would give: it is recomputed from the inline evaluations,
    in whatever order the map of materials is iterated. *)
Theorem status_backfill version digest att p :
  provenance utf8_valid version digest None att = Ok p ->
  GetPolicyEvaluationStatus (without_counters p) = GetPolicyEvaluationStatus p.
Proof.
  intros H. destruct (provenance_counts _ _ _ _ _ _ H)
    as (res & Hres & Hg & He & Hf & _ & _ & Hn & _ & Hsk & Hpa & _ & Hga & Hst & _).
  unfold mappedPolicyEvaluations, groupEvaluations in Hres.
  apply bind_Ok in Hres as (r & Hr & Hres). inv_ok. cbn in He, Hsk, Hpa, Hga.
  destruct (group_fold_inline _ _ _ Hr) as (l & Hl & Hperm).
  change (inline_all (er_evaluations no_evaluations)) with (@nil RenderedEvaluation) in Hperm.
  rewrite app_nil_r in Hperm.
  destruct (summarize_rendered _ _ Hl) as (h1 & h2 & h3).
  destruct Hg as [_ _ g3 _ g5 g6 _]. cbn in g3, g5, g6. rewrite orb_false_r in g3.
  assert (summarizeInlineEvaluations (pp_evaluations p)
          = (skippedCount r, passedCount r, hasGates r)) as Hsum.
  { unfold summarizeInlineEvaluations. fold (inline_all (pp_evaluations p)).
    rewrite He. by rewrite !(sum_of_Permutation _ _ _ Hperm), (existsb_Permutation _ _ _ Hperm),
      h1, h2, h3, g3, g5, g6. }
  assert (pp_evaluations p = ∅ -> a_policy_evaluations att = []) as Hempty.
  { intros Hp. rewrite <- He, Hp in Hperm. apply Permutation_nil_l in Hperm. subst l.
    destruct (a_policy_evaluations att); [done|]. cbn in Hl. by inv_ok. }
  unfold GetPolicyEvaluationStatus. cbn [without_counters pp_evaluations pp_evaluations_fallback
    pp_evaluations_count pp_skipped_count pp_passed_count pp_has_gates pp_strategy].
  rewrite Hf, Hn. cbn [default].
  destruct (decide (pp_evaluations p = ∅)) as [Hp|Hp].
  - rewrite (Hempty Hp) in *. cbn in Hr. injection Hr as <-. cbn in Hsk, Hpa, Hga.
    rewrite Hsk, Hpa, Hga, Hst, (bool_decide_eq_true_2 _ Hp).
    change (summarizeInlineEvaluations ∅) with (0, 0, false).
    by destruct (a_block_on_policy_violation att).
  - rewrite (bool_decide_eq_false_2 _ Hp), Hsum, Hsk, Hpa, Hga, Hst. cbn [negb].
    destruct (a_policy_evaluations att) as [|e evs]; [cbn in Hr; injection Hr as <-; by rewrite He in Hp|].
    rewrite (bool_decide_eq_true_2 (0 < _)) by (cbn [length]; lia).
    f_equal; destruct (a_block_on_policy_violation att), (hasGates r); cbn;
      try done; repeat case_bool_decide; cbn; congruence || done.
Qed.
End Backfill.

(** ** Materials survive the attestation *)

Lemma sha256_split hex : has_char ":" hex = false -> split ("sha256:" +:+ hex) ":" = ["sha256"; hex].
Proof.
  intros H. change ("sha256:" +:+ hex) with ("sha256" +:+ ":" +:+ hex).
  rewrite split_cons by done. by rewrite split_single.
Qed.

(** The descriptor of a material that has a SHA-256 *)
Lemma descriptor_sha256 utf8_valid m name out hex d :
  NormalizedOutput m = Ok out -> nm_digest out = "sha256:" +:+ hex -> has_char ":" hex = false ->
  CraftingStateToIntotoDescriptor utf8_valid m name = Ok d ->
  rd_name d = nm_name out /\ rd_content d = nm_content out /\ rd_digest d = {["sha256" := hex]}.
Proof.
  intros Ho Hd Hh H. pose proof (sha256_split hex Hh) as Hs. rewrite <- Hd in Hs.
  assert (is_empty (nm_digest out) = false) as He by (by apply is_empty_false; rewrite Hd).
  unfold CraftingStateToIntotoDescriptor in H. rewrite Ho in H.
  apply bind_Ok in H as (n & Hn%map_err_Ok & H). injection Hn as <-.
  rewrite He, Hs in H. cbn in H. inv_ok. done.
Qed.

(** A consumer of an attestation reads its materials as they were crafted:
    the name, the type and the hash of each, where its content is (in the CAS,
    inline or by reference) with the value or the file name that goes with it,
    and every annotation of the user that does not clash with chainloop's own. *)
Theorem material_roundtrip utf8_valid format_number marshal_json m name out hex d :
  NormalizedOutput m = Ok out -> nm_digest out = "sha256:" +:+ hex -> has_char ":" hex = false ->
  name <> "" -> nm_name out <> "" -> am_type m <> STRING ->
  CraftingStateToIntotoDescriptor utf8_valid m name = Ok d ->
  let inline := am_inline_cas m && negb (am_uploaded_to_cas m) in
  exists z, normalizeMaterial format_number marshal_json d = Ok z
    /\ nz_name z = name /\ nz_type z = MaterialType_name (am_type m) /\ nz_hash z = Some hex
    /\ nz_uploaded_to_cas z = am_uploaded_to_cas m /\ nz_embedded_inline z = inline
    /\ nz_value z = (if inline then nm_content out
                     else if am_uploaded_to_cas m then "" else nm_name out)
    /\ nz_filename z = (if inline || am_uploaded_to_cas m then nm_name out else "")
    /\ forall k v, am_annotations m !! k = Some v -> builtin_annotations m name !! k = None ->
         k <> AnnotationMaterialCAS -> k <> AnnotationMaterialInlineCAS ->
         nz_annotations z !! k = Some v.
Proof.
  intros Ho Hd Hh Hn Hon Ht H inline.
  destruct (descriptor_sha256 _ _ _ _ _ _ Ho Hd Hh H) as (Hname & Hcontent & Hdigest).
  apply descriptor_Ok in H. rewrite (proj2 (is_empty_false name) Hn) in H.
  destruct (builtin_type_name m name) as [Hbt Hbn].
  destruct (descriptor_cas m name) as [Hcas Hinl]. fold inline in Hinl.
  assert (annotation_flag AnnotationMaterialCAS (rd_annotations d) = am_uploaded_to_cas m) as Hf1.
  { unfold annotation_flag. rewrite H, Hcas. destruct (am_uploaded_to_cas m); [done|].
    by destruct (am_annotations m !! AnnotationMaterialCAS). }
  assert (annotation_flag AnnotationMaterialInlineCAS (rd_annotations d) = inline) as Hf2.
  { unfold annotation_flag. rewrite H, Hinl. destruct inline; [done|].
    by destruct (am_annotations m !! AnnotationMaterialInlineCAS). }
  unfold normalizeMaterial. rewrite Hf1, Hf2, H, Hdigest, Hname, Hcontent.
  rewrite !descriptor_lookup, Hbt, Hbn by ann_ne.
  assert (MaterialType_name (am_type m) <> MaterialType_name STRING) as Hs.
  { destruct (am_type m); cbn; congruence. }
  cbn. rewrite (bool_decide_eq_false_2 _ Hs), lookup_singleton_eq. cbn.
  rewrite (proj2 (is_empty_false (nm_name out)) Hon).
  eexists. split; [done|]. repeat (split; [done|]).
  intros k v Hk Hb Hc Hi. cbn [nz_annotations].
  rewrite lookup_fmap, descriptor_lookup, Hb, Hk by done. done.
Qed.

(** ** Witnesses *)

Definition toy_artifact : Attestation_Material :=
  {| am_id := "sbom"; am_type := SBOM_CYCLONEDX_JSON; am_uploaded_to_cas := true; am_inline_cas := false;
     am_body := Some (M_Artifact {| art_name := "sbom.json"; art_digest := "sha256:beef";
                                    art_is_subject := true; art_content := "" |});
     am_annotations := {["team" := "core"]}; am_output := true; am_required := true |}.

Definition toy_evaluation (gate suppressed : bool) : PolicyEvaluation :=
  {| pe_name := "no-secrets"; pe_material_name := "sbom"; pe_sources := [];
     pe_violations := [{| v_subject := "s"; v_message := "found"; v_finding := None;
                          v_suppress := suppressed |}];
     pe_annotations := ∅; pe_description := ""; pe_with := ∅; pe_runtime_input_overrides := [];
     pe_type := SBOM_CYCLONEDX_JSON; pe_reference_name := ""; pe_reference_digest := "";
     pe_policy_reference := None; pe_group_reference := None; pe_skipped := false;
     pe_skip_reasons := []; pe_requirements := []; pe_raw_results := []; pe_gate := gate |}.

(** An advisory organization, a gate whose violation is suppressed and a policy
    with a violation *)
Definition toy_rendered : Attestation :=
  {| a_initialized_at := 0; a_finished_at := None; a_workflow := None;
     a_materials := {["sbom" := toy_artifact]}; a_annotations := ∅; a_env_vars := ∅;
     a_policy_evaluations := [toy_evaluation true true; toy_evaluation false false];
     a_head := None; a_runner_url := ""; a_runner_type := RUNNER_TYPE_UNSPECIFIED;
     a_runner_environment := None; a_block_on_policy_violation := false;
     a_bypass_policy_check := false; a_policies_allowed_hostnames := [];
     a_skip_runner_env_vars := false; a_signing_options := None; a_auth := None;
     a_cas_backend := None |}.

Lemma policy_verdict_exact_witness :
  exists p, provenance (fun _ => true) "v" "d" None toy_rendered = Ok p
    /\ pp_att_blocked p = false /\ pp_violations_count p = 1 /\ pp_suppressed_count p = 1.
Proof.
  destruct (provenance (fun _ => true) "v" "d" None toy_rendered) as [p|] eqn:E;
    [|vm_compute in E; discriminate].
  exists p. destruct (policy_verdict_exact _ _ _ _ _ _ E) as (_ & _ & _ & _ & _ & Hv & Hs).
  split; [done|]. split; [|split; [rewrite Hv; by vm_compute | rewrite Hs; by vm_compute]].
  vm_compute in E. injection E as <-. done.
Defined.

Lemma status_backfill_witness :
  exists p, provenance (fun _ => true) "v" "d" None toy_rendered = Ok p
    /\ ps_passed_count (GetPolicyEvaluationStatus (without_counters p)) = 1.
Proof.
  destruct (provenance (fun _ => true) "v" "d" None toy_rendered) as [p|] eqn:E;
    [|vm_compute in E; discriminate].
  exists p. split; [done|]. rewrite (status_backfill _ _ _ _ _ E).
  vm_compute in E. injection E as <-. by vm_compute.
Defined.

Lemma material_roundtrip_witness :
  exists d z, CraftingStateToIntotoDescriptor (fun _ => true) toy_artifact "sbom" = Ok d
    /\ normalizeMaterial id (fun _ => Ok "") d = Ok z
    /\ nz_filename z = "sbom.json" /\ nz_annotations z !! "team" = Some "core".
Proof.
  destruct (CraftingStateToIntotoDescriptor (fun _ => true) toy_artifact "sbom") as [d|] eqn:E;
    [|vm_compute in E; discriminate].
  destruct (material_roundtrip (fun _ => true) id (fun _ => Ok "") toy_artifact "sbom"
    {| nm_name := "sbom.json"; nm_digest := "sha256:beef"; nm_is_output := true; nm_content := "" |}
    "beef" d) as (z & Hz & _ & _ & _ & _ & _ & _ & Hf & Ha);
    [reflexivity | reflexivity | reflexivity | discriminate | discriminate | discriminate | exact E |].
  exists d, z. split; [reflexivity|]. split; [exact Hz|]. split; [rewrite Hf; reflexivity|].
  apply Ha; vm_compute; (reflexivity || discriminate).
Defined.
