(* ===== verification/Verifier.v ===== *)
(** * Verifying a signed attestation

    pkg/attestation/verifier: the signature of a bundle is checked against the
    certificate it carries, the certificate against the trusted roots, its
    organization against the expected one, and every RFC 3161 timestamp against
    the configured authorities.

    What sigstore-go, cosign, go-securesystemslib, the timestamp library and
    crypto/x509 compute is a parameter, collected in the class [Crypto]: parsing
    certificates, checking a chain, a signature and a timestamp response. *)

From S2P Require Import Prelude.
From S2P Require Import GoStrings.
From S2P Require Import Base64.
From S2P Require Import Envelope.

(** The fields of [x509.Certificate] that the code reads; times in nanoseconds *)
Record Certificate := {
  cert_organizations : list string;
  cert_authority_key_id : string;
  cert_subject_key_id : string;
  cert_common_name : string;
  cert_serial : Z;
  cert_raw_issuer : string;
  cert_not_before : Z;
  cert_not_after : Z
}.

(** [TrustedRoot]; the authorities are listed in the order in which a run
    iterates over their map *)
Record TrustedRoot := {
  tr_keys : gmap string (list Certificate);
  tr_authorities : list (string * list Certificate)
}.

(** [verify.VerificationContent]: its certificate, if it has one, and whether it
    is valid at a time *)
Record VerificationContent := {
  vc_certificate : option Certificate;
  vc_valid_at : Z -> bool
}.

(** The identity of a signer of a response: its issuer and serial number *)
Record tsrSignerID := { signer_issuer : string; signer_serial : option Z }.

Class Crypto := {
  unmarshal_bundle : string -> result Bundle;
  (** sigstore-go's accessors of a bundle *)
  VerificationContent_of : Bundle -> result VerificationContent;
  Timestamps_of : Bundle -> result (list string);
  Signature_of : Bundle -> result string;
  (** hex(sha256(_)) *)
  sha256_hex : string -> string;
  (** cosign's check of a certificate against a chain, and the DSSE verifier
      that it gives *)
  SignatureVerifier : Type;
  EnvelopeVerifier : Type;
  ValidateAndUnpackCertWithChain : Certificate -> list Certificate -> result SignatureVerifier;
  NewEnvelopeVerifier : SignatureVerifier -> result EnvelopeVerifier;
  envelope_Verify : EnvelopeVerifier -> DsseEnvelope -> result unit;
  (** the time of a valid timestamp response over a signature *)
  VerifyTimestampResponse :
    string -> string -> Certificate -> list Certificate -> list Certificate -> result Z;
  (** the signers of a response, [None] when it does not parse or has none *)
  parse_signers : string -> option (list tsrSignerID)
}.

Definition ErrMissingVerificationMaterial : string := "missing material".
Definition ErrInvalidBundle : string := "invalid bundle".
Definition ErrUnsupportedVerificationMaterial : string := "unsupported verification material".
Definition ErrOrganizationMismatch : string := "signing certificate organization mismatch".
Definition ErrBundleMissingMaterial : string := "sigstore: missing verification material".
Definition ErrTSAResponseInvalid : string := "TSA response verification failed".
Definition ErrTimestampOutsideTSAValidity : string := "timestamp outside TSA certificate validity window".
Definition ErrSigningCertNotValidAtTimestamp : string := "signing certificate not valid at timestamp time".
Definition ErrNoTSARootsConfigured : string := "no TSA trust roots configured".
Definition ErrTSASignerNotTrusted : string :=
  "TSA response signer is not a configured timestamp authority".

(** [IsTrustConfigError] *)
Definition IsTrustConfigError (e : goerr) : bool :=
  errors_is ErrNoTSARootsConfigured e || errors_is ErrTSASignerNotTrusted e.

Section Verify.
Context `{Crypto}.

(** ** Timestamps (timestamp.go) *)

(** [signedByCert] *)
Definition signedByCert (signers : option (list tsrSignerID)) (cert : Certificate) : bool :=
  match signers with
  | None => true
  | Some l => existsb (fun s => bool_decide (signer_serial s = Some (cert_serial cert))
                                && bool_decide (signer_issuer s = cert_raw_issuer cert)) l
  end.

(** The part of the loop body of [verifyTimestamp] after the check of the
    signer: [None] is success *)
Definition check_authority (st sigBytes : string) (vc : option VerificationContent)
    (tsaCert : Certificate) (rest : list Certificate) : option goerr :=
  let roots := match last rest with Some r => [r] | None => [] end in
  let intermediates := removelast rest in
  match VerifyTimestampResponse st sigBytes tsaCert intermediates roots with
  | Err e => Some (EWrap2 "" (ESentinel ErrTSAResponseInvalid) e)
  | Ok ts =>
      if bool_decide (cert_not_after tsaCert < ts)%Z || bool_decide (ts < cert_not_before tsaCert)%Z
      then Some (EWrap "" (ESentinel ErrTimestampOutsideTSAValidity))
      else
        match vc with
        | Some v => match vc_certificate v with
                    | Some _ => if vc_valid_at v ts then None
                                else Some (EWrap "" (ESentinel ErrSigningCertNotValidAtTimestamp))
                    | None => None
                    end
        | None => None
        end
  end.

(** The loop over the authorities: the last error and whether one was skipped *)
Fixpoint try_authorities (st sigBytes : string) (vc : option VerificationContent)
    (signers : option (list tsrSignerID)) (authorities : list (string * list Certificate))
    (lastErr : option goerr) (skipped : bool) : result unit :=
  match authorities with
  | [] =>
      match lastErr with
      | Some e => Err e
      | None => if skipped then Err (EWrap "" (ESentinel ErrTSASignerNotTrusted)) else Ok tt
      end
  | (_, []) :: _ => Err (panic "index out of range")
  | (_, tsaCert :: rest) :: others =>
      if signedByCert signers tsaCert then
        match check_authority st sigBytes vc tsaCert rest with
        | None => Ok tt
        | Some e => try_authorities st sigBytes vc signers others (Some e) skipped
        end
      else try_authorities st sigBytes vc signers others lastErr true
  end.

(** [verifyTimestamp] *)
Definition verifyTimestamp (st sigBytes : string) (vc : option VerificationContent)
    (tr : TrustedRoot) : result unit :=
  try_authorities st sigBytes vc (parse_signers st) (tr_authorities tr) None false.

(** The verification content, absent when the bundle has none *)
Definition optional_content (b : Bundle) : result (option VerificationContent) :=
  match VerificationContent_of b with
  | Ok vc => Ok (Some vc)
  | Err e => if errors_is ErrBundleMissingMaterial e then Ok None
             else Err (EWrap "could not get verification material" e)
  end.

(** [VerifyTimestamps] *)
Definition VerifyTimestamps (b : Bundle) (tr : TrustedRoot) : result unit :=
  signedTimestamps ←
    (match Timestamps_of b with
     | Ok l => Ok l
     | Err e => if errors_is ErrBundleMissingMaterial e
                then Err (ESentinel ErrMissingVerificationMaterial)
                else Err (EWrap "could not get timestamps" e)
     end);
  _ ← guard_err (bool_decide (signedTimestamps = [])) (ESentinel ErrMissingVerificationMaterial);
  _ ← guard_err (bool_decide (tr_authorities tr = [])) (ESentinel ErrNoTSARootsConfigured);
  signature ← map_err (EWrap "could not get signature material") (Signature_of b);
  vc ← optional_content b;
  foldM_result (fun _ st => verifyTimestamp st (undo_encoding signature) vc tr) signedTimestamps tt.

(** ** The bundle (verifier.go) *)

(** [checkCertOrganization] *)
Definition checkCertOrganization (cert : Certificate) (expected : string) : result unit :=
  match cert_organizations cert with
  | [org] => if bool_decide (org = expected) then Ok tt
             else Err (EWrap ("certificate issued to " +:+ org) (ESentinel ErrOrganizationMismatch))
  | _ => Err (EWrap "expected a single organization" (ESentinel ErrOrganizationMismatch))
  end.

(** [verifyCertSignature] *)
Definition verifyCertSignature (b : Bundle) (signingCert : Certificate) (tr : TrustedRoot) : result unit :=
  match tr_keys tr !! sha256_hex (cert_authority_key_id signingCert) with
  | None => Err (EMsg "trusted root not found for signing key")
  | Some chain =>
      verifier ← map_err (EWrap "validating the certificate")
                   (ValidateAndUnpackCertWithChain signingCert chain);
      dsseVerifier ← map_err (EWrap "creating DSSE verifier") (NewEnvelopeVerifier verifier);
      env ← DSSEEnvelopeFromBundle b;
      map_err (EWrap "validating the DSSE envelope") (envelope_Verify dsseVerifier env)
  end.

Definition GetPublicKey (b : Bundle) : option string :=
  match b_verification b with
  | Some v => match vm_content v with Some (VMPublicKey h) => Some h | _ => None end
  | None => None
  end.

(** [VerifyBundle]; [bundleBytes] is [None] for nil, [expectedOrg] is "" when no
    organization is expected *)
Definition VerifyBundle (bundleBytes : option string) (tr : TrustedRoot) (expectedOrg : string)
    : result unit :=
  match bundleBytes with
  | None => Err (ESentinel ErrMissingVerificationMaterial)
  | Some raw =>
      match unmarshal_bundle raw with
      | Err e => Err (EWrap2 "" e (ESentinel ErrInvalidBundle))
      | Ok bundle =>
          bundle ← FixSignatureInBundle bundle;
          vc ← optional_content bundle;
          _ ← match vc ≫= vc_certificate with
              | Some cert =>
                  _ ← verifyCertSignature bundle cert tr;
                  if is_empty expectedOrg then Ok tt else checkCertOrganization cert expectedOrg
              | None =>
                  match GetPublicKey bundle with
                  | Some _ => Err (EWrap "public key verification material"
                                     (ESentinel ErrUnsupportedVerificationMaterial))
                  | None => Err (ESentinel ErrMissingVerificationMaterial)
                  end
              end;
          match VerifyTimestamps bundle tr with
          | Ok _ => Ok tt
          | Err e => if errors_is ErrMissingVerificationMaterial e then Ok tt
                     else Err (EWrap "could not verify timestamps" e)
          end
      end
  end.

(** ** What a verified bundle guarantees *)

(** The certificate of a bundle is trusted for it: the roots have a chain for
    its authority, the chain accepts it, and the signature of the envelope is
    the certificate's *)
Definition trusted_signature (tr : TrustedRoot) (b : Bundle) (cert : Certificate) : Prop :=
  exists chain v d env,
    tr_keys tr !! sha256_hex (cert_authority_key_id cert) = Some chain
    /\ ValidateAndUnpackCertWithChain cert chain = Ok v
    /\ NewEnvelopeVerifier v = Ok d
    /\ DSSEEnvelopeFromBundle b = Ok env /\ envelope_Verify d env = Ok tt.

(** An authority vouches for a timestamp: it may have signed it, and its checks
    pass *)
Definition vouches (st sigBytes : string) (vc : option VerificationContent)
    (authority : string * list Certificate) : Prop :=
  exists tsaCert rest, snd authority = tsaCert :: rest
    /\ signedByCert (parse_signers st) tsaCert = true
    /\ check_authority st sigBytes vc tsaCert rest = None.

Lemma try_authorities_Ok st sigBytes vc authorities lastErr skipped :
  try_authorities st sigBytes vc (parse_signers st) authorities lastErr skipped = Ok tt ->
  (exists a, a ∈ authorities /\ vouches st sigBytes vc a)
  \/ (authorities = [] /\ lastErr = None /\ skipped = false).
Proof.
  revert lastErr skipped; induction authorities as [|[n chain] authorities IH];
    intros lastErr skipped; cbn.
  - destruct lastErr; [done|]. destruct skipped; [done | auto].
  - destruct chain as [|tsaCert rest]; [done|].
    destruct (signedByCert (parse_signers st) tsaCert) eqn:Es.
    + destruct (check_authority _ _ _ _ _) as [e|] eqn:Ec.
      * intros [(a & Ha & Hv) | (-> & ? & _)]%IH; [|done]. left. exists a. split; [by right | done].
      * intros _. left. exists (n, tsaCert :: rest). split; [left|]. by exists tsaCert, rest.
    + intros [(a & Ha & Hv) | (-> & _ & ?)]%IH; [|done]. left. exists a. split; [by right | done].
Qed.

Lemma try_authorities_complete st sigBytes vc authorities lastErr skipped :
  Forall (fun a => snd a <> []) authorities ->
  (exists a, a ∈ authorities /\ vouches st sigBytes vc a) ->
  try_authorities st sigBytes vc (parse_signers st) authorities lastErr skipped = Ok tt.
Proof.
  intros Hne. revert lastErr skipped.
  induction Hne as [|[n chain] authorities Hc Hne IH]; intros lastErr skipped (a & Ha & Hv).
  - by apply not_elem_of_nil in Ha.
  - cbn. cbn in Hc. destruct chain as [|tsaCert rest]; [done|].
    apply elem_of_cons in Ha as [->|Ha].
    + destruct Hv as (c & r & [= <- <-] & Hs & Hck). by rewrite Hs, Hck.
    + destruct (signedByCert _ _); [destruct (check_authority _ _ _ _ _)|]; [|done|]; apply IH; eauto.
Qed.

(** Whether a timestamp verifies depends on neither the order of the
    authorities nor on the ones that fail. *)
Lemma verifyTimestamp_iff st sigBytes vc tr :
  tr_authorities tr <> [] -> Forall (fun a => snd a <> []) (tr_authorities tr) ->
  (verifyTimestamp st sigBytes vc tr = Ok tt <->
   exists a, a ∈ tr_authorities tr /\ vouches st sigBytes vc a).
Proof.
  intros Hn Hne. unfold verifyTimestamp. split.
  - intros [?|(? & _)]%try_authorities_Ok; done.
  - by apply try_authorities_complete.
Qed.

(** The timestamps of a bundle: none, or each vouched for *)
Definition timestamps_vouched (tr : TrustedRoot) (b : Bundle) (vc : option VerificationContent) : Prop :=
  forall l, Timestamps_of b = Ok l -> l <> [] ->
    exists signature, Signature_of b = Ok signature
      /\ forall st, st ∈ l ->
           exists a, a ∈ tr_authorities tr /\ vouches st (undo_encoding signature) vc a.

(** The errors of the third-party accessors are not the verifier's own, of a
    bundle without material *)
Class CryptoErrors : Prop := {
  timestamps_no_missing b e :
    Timestamps_of b = Err e -> errors_is ErrMissingVerificationMaterial e = false;
  signature_no_missing b e :
    Signature_of b = Err e -> errors_is ErrMissingVerificationMaterial e = false;
  content_no_missing b e :
    VerificationContent_of b = Err e -> errors_is ErrMissingVerificationMaterial e = false;
  response_no_missing st sig c i r e :
    VerifyTimestampResponse st sig c i r = Err e ->
    errors_is ErrMissingVerificationMaterial e = false
}.

Lemma check_authority_err `{CryptoErrors} st sig vc c rest e :
  check_authority st sig vc c rest = Some e -> errors_is ErrMissingVerificationMaterial e = false.
Proof.
  unfold check_authority. destruct (VerifyTimestampResponse _ _ _ _ _) as [ts|e'] eqn:E.
  - destruct (_ || _); [by intros [= <-]|]. destruct vc as [v|]; [|done].
    destruct (vc_certificate v); [|done]. destruct (vc_valid_at v ts); [done | by intros [= <-]].
  - intros [= <-]. cbn. exact (response_no_missing _ _ _ _ _ _ E).
Qed.

Lemma try_authorities_err `{CryptoErrors} st sig vc signers authorities lastErr skipped e :
  (forall e', lastErr = Some e' -> errors_is ErrMissingVerificationMaterial e' = false) ->
  try_authorities st sig vc signers authorities lastErr skipped = Err e ->
  errors_is ErrMissingVerificationMaterial e = false.
Proof.
  revert lastErr skipped; induction authorities as [|[n [|c rest]] authorities IH];
    intros lastErr skipped Hl; cbn.
  - destruct lastErr as [e'|]; [intros [= <-]; by apply Hl|]. destruct skipped; [by intros [= <-] | done].
  - by intros [= <-].
  - destruct (signedByCert signers c); [|by apply IH].
    destruct (check_authority _ _ _ _ _) as [e'|] eqn:E; [|done]. apply IH.
    intros e'' [= <-]. by eapply check_authority_err.
Qed.

Lemma fold_timestamps l sig vc tr :
  foldM_result (fun _ st => verifyTimestamp st sig vc tr) l tt = Ok tt ->
  forall st, st ∈ l -> verifyTimestamp st sig vc tr = Ok tt.
Proof.
  induction l as [|st l IH]; cbn; [by intros _ st ?%not_elem_of_nil|].
  rewrite bind_Ok. intros ([] & H1 & H2) st' [->|Hst]%elem_of_cons; [done|]. by apply IH.
Qed.

Lemma fold_timestamps_err `{CryptoErrors} l sig vc tr e :
  foldM_result (fun _ st => verifyTimestamp st sig vc tr) l tt = Err e ->
  errors_is ErrMissingVerificationMaterial e = false.
Proof.
  induction l as [|st l IH]; cbn; [done|].
  rewrite bind_Err. intros [H' | ([] & _ & H')]; [|by apply IH].
  eapply try_authorities_err; [|exact H']. done.
Qed.

(** A missing timestamp is the only thing that is let through. *)
Lemma timestamps_checked `{CryptoErrors} b tr vc :
  optional_content b = Ok vc ->
  (VerifyTimestamps b tr = Ok tt
   \/ exists e, VerifyTimestamps b tr = Err e /\ errors_is ErrMissingVerificationMaterial e = true) ->
  timestamps_vouched tr b vc.
Proof.
  intros Hvc Hv l Hl Hne. unfold VerifyTimestamps in Hv. rewrite Hl in Hv. cbn in Hv.
  rewrite (bool_decide_eq_false_2 _ Hne) in Hv. cbn in Hv.
  case_bool_decide as Ha; cbn in Hv; [by destruct Hv as [|(e & [= <-] & ?)]|].
  destruct (Signature_of b) as [signature|e] eqn:Es; cbn in Hv.
  2: { destruct Hv as [|(e' & [= <-] & He)]; [done|]. cbn in He. by rewrite (signature_no_missing _ _ Es) in He. }
  rewrite Hvc in Hv. cbn in Hv. exists signature. split; [done|]. intros st Hst.
  destruct Hv as [Hv|(e & He & Hm)].
  - pose proof (fold_timestamps _ _ _ _ Hv st Hst) as Hok.
    apply try_authorities_Ok in Hok as [?|(? & _)]; [done | by destruct Ha].
  - by rewrite (fold_timestamps_err _ _ _ _ _ He) in Hm.
Qed.

(** C7: A bundle verifies only if it carries a certificate that the trusted roots
    accept and that signed exactly the envelope of the bundle, issued to the
    expected organization and to no other, and only if each of its timestamps is
    vouched for by a configured authority at a time when the certificates were
    valid; bundles without a certificate, or with a bare public key, never do. *)
Theorem verified_bundle `{CryptoErrors} raw tr org :
  VerifyBundle (Some raw) tr org = Ok tt ->
  exists b0 b vc cert,
    unmarshal_bundle raw = Ok b0 /\ FixSignatureInBundle b0 = Ok b
    /\ VerificationContent_of b = Ok vc /\ vc_certificate vc = Some cert
    /\ trusted_signature tr b cert
    /\ (org <> "" -> cert_organizations cert = [org])
    /\ timestamps_vouched tr b (Some vc).
Proof.
  cbn. destruct (unmarshal_bundle raw) as [b0|] eqn:E0; [|done].
  rewrite bind_Ok. intros (b & Hb & Hv). apply bind_Ok in Hv as (ovc & Hvc & Hv).
  apply bind_Ok in Hv as ([] & Hc & Hv).
  destruct ovc as [vc|]; cbn in Hc; [|by destruct (GetPublicKey b)].
  destruct (vc_certificate vc) as [cert|] eqn:Ecert; [|by destruct (GetPublicKey b)].
  apply bind_Ok in Hc as ([] & Hs & Ho).
  exists b0, b, vc, cert. split; [done|]. split; [done|]. split; [|split; [done|split; [|split]]].
  - unfold optional_content in Hvc.
    destruct (VerificationContent_of b); [by injection Hvc as -> | by destruct (errors_is _ _)].
  - unfold verifyCertSignature in Hs. destruct (tr_keys tr !! _) as [chain|] eqn:Ek; [|done]. inv_ok.
    match goal with Hx : envelope_Verify _ _ = Ok ?u |- _ => destruct u end.
    repeat eexists; done.
  - intros Hne. rewrite (proj2 (is_empty_false org) Hne) in Ho. unfold checkCertOrganization in Ho.
    destruct (cert_organizations cert) as [|o [|]]; [done| |done].
    case_bool_decide; [by subst | done].
  - apply timestamps_checked; [done|]. destruct (VerifyTimestamps b tr) as [[]|e]; [by left|].
    right. exists e. split; [done|]. by destruct (errors_is _ e).
Qed.
(** The signature of a bundle is trusted, by a certificate of the expected
    organization *)
Definition certified (tr : TrustedRoot) (raw org : string) : Prop :=
  exists b0 b vc cert,
    unmarshal_bundle raw = Ok b0 /\ FixSignatureInBundle b0 = Ok b
    /\ VerificationContent_of b = Ok vc /\ vc_certificate vc = Some cert
    /\ trusted_signature tr b cert /\ (org <> "" -> cert_organizations cert = [org]).

(** The errors of the third-party functions are not about the configuration of
    the timestamp authorities *)
Class CryptoTrust : Prop := {
  unmarshal_no_trust raw e : unmarshal_bundle raw = Err e -> IsTrustConfigError e = false;
  content_no_trust b e : VerificationContent_of b = Err e -> IsTrustConfigError e = false;
  chain_no_trust c l e : ValidateAndUnpackCertWithChain c l = Err e -> IsTrustConfigError e = false;
  verifier_no_trust v e : NewEnvelopeVerifier v = Err e -> IsTrustConfigError e = false;
  envelope_no_trust d env e : envelope_Verify d env = Err e -> IsTrustConfigError e = false
}.

Lemma verifyCertSignature_trusted b cert tr u :
  verifyCertSignature b cert tr = Ok u -> trusted_signature tr b cert.
Proof.
  unfold verifyCertSignature. destruct (tr_keys tr !! _) as [chain|] eqn:Ek; [|done]. intros Hs. inv_ok.
  match goal with Hx : envelope_Verify _ _ = Ok ?u |- _ => destruct u end.
  repeat eexists; done.
Qed.

Lemma IsTrustConfigError_wrap m e : IsTrustConfigError (EWrap m e) = IsTrustConfigError e.
Proof. done. Qed.

Lemma verifyCertSignature_no_trust `{CryptoTrust} b cert tr e :
  verifyCertSignature b cert tr = Err e -> IsTrustConfigError e = false.
Proof.
  unfold verifyCertSignature. destruct (tr_keys tr !! _) as [chain|]; [|by intros [= <-]].
  rewrite bind_Err. intros [Hv|(v & _ & Hv)].
  - apply map_err_Err in Hv as (e' & He & ->). rewrite IsTrustConfigError_wrap. by eapply chain_no_trust.
  - apply bind_Err in Hv as [Hv|(d & _ & Hv)].
    + apply map_err_Err in Hv as (e' & He & ->). rewrite IsTrustConfigError_wrap. by eapply verifier_no_trust.
    + apply bind_Err in Hv as [Hv|(env & _ & Hv)].
      * unfold DSSEEnvelopeFromBundle in Hv. destruct (first_signature b) as [[]|]; [done|]. by injection Hv as <-.
      * apply map_err_Err in Hv as (e' & He & ->). rewrite IsTrustConfigError_wrap. by eapply envelope_no_trust.
Qed.

Lemma checkCertOrganization_Ok cert org u : checkCertOrganization cert org = Ok u -> cert_organizations cert = [org].
Proof.
  unfold checkCertOrganization. destruct (cert_organizations cert) as [|o [|]]; [done| |done].
  case_bool_decide; [by subst | done].
Qed.

Lemma checkCertOrganization_no_trust cert org e :
  checkCertOrganization cert org = Err e -> IsTrustConfigError e = false.
Proof.
  unfold checkCertOrganization. destruct (cert_organizations cert) as [|o [|]]; [by intros [= <-]| |by intros [= <-]].
  case_bool_decide; [done | by intros [= <-]].
Qed.

(** A bundle that verifies, or fails because of the configuration of the
    timestamp authorities, has a trusted signature. *)
Lemma VerifyBundle_certified `{CryptoTrust} raw tr org r :
  VerifyBundle (Some raw) tr org = r ->
  (r = Ok tt \/ exists e, r = Err e /\ IsTrustConfigError e = true) -> certified tr raw org.
Proof.
  intros <- Hr. unfold VerifyBundle in Hr.
  destruct (unmarshal_bundle raw) as [b0|e0] eqn:E0.
  2:{ destruct Hr as [?|(e & [= <-] & Ht)]; [done|]. pose proof (unmarshal_no_trust _ _ E0) as Hn.
      unfold IsTrustConfigError in *. cbn in Ht. apply orb_false_iff in Hn as [Hn1 Hn2].
      rewrite Hn1, Hn2 in Ht. done. }
  destruct (FixSignatureInBundle b0) as [b|e1] eqn:E1.
  2:{ destruct Hr as [?|(e & [= <-] & Ht)]; [done|]. unfold FixSignatureInBundle in E1.
      destruct (b_dsse b0) as [[p t [|sg l]]|]; [|done|]; by injection E1 as <-. }
  cbn [mbind result_bind] in Hr. destruct (optional_content b) as [ovc|e2] eqn:E2.
  2:{ destruct Hr as [?|(e & [= <-] & Ht)]; [done|]. unfold optional_content in E2.
      destruct (VerificationContent_of b) as [|e'] eqn:E3; [done|]. destruct (errors_is _ e'); [done|].
      injection E2 as <-. rewrite IsTrustConfigError_wrap, (content_no_trust _ _ E3) in Ht. done. }
  cbn [mbind result_bind] in Hr.
  destruct ovc as [vc|]; cbn [mbind option_bind] in Hr;
    [|destruct (GetPublicKey b); cbn in Hr; destruct Hr as [?|(e & [= <-] & Ht)]; done].
  destruct (vc_certificate vc) as [cert|] eqn:Ecert;
    [|destruct (GetPublicKey b); cbn in Hr; destruct Hr as [?|(e & [= <-] & Ht)]; done].
  destruct (verifyCertSignature b cert tr) as [[]|e] eqn:Es; cbn [mbind result_bind] in Hr.
  2:{ destruct Hr as [?|(e' & [= <-] & Ht)]; [done|].
      by rewrite (verifyCertSignature_no_trust _ _ _ _ Es) in Ht. }
  exists b0, b, vc, cert. split; [done|]. split; [done|]. split.
  { unfold optional_content in E2. destruct (VerificationContent_of b); [by injection E2 as -> | by destruct (errors_is _ _)]. }
  split; [done|]. split; [by eapply verifyCertSignature_trusted|].
  intros Hne. rewrite (proj2 (is_empty_false org) Hne) in Hr.
  destruct (checkCertOrganization cert org) as [u|e] eqn:Eo; [by eapply checkCertOrganization_Ok|].
  cbn [mbind result_bind] in Hr. destruct Hr as [?|(e' & [= <-] & Ht)]; [done|].
  by rewrite (checkCertOrganization_no_trust _ _ _ Eo) in Ht.
Qed.
End Verify.

(** Verifying a bundle that parses but has no DSSE signature panics, instead
    of reporting an invalid bundle: the first signature is corrected before
    anything is checked. *)
Theorem unsigned_bundle_panics `{Crypto} raw b tr org :
  unmarshal_bundle raw = Ok b -> first_signature b = None ->
  VerifyBundle (Some raw) tr org = Err (panic "index out of range").
Proof.
  intros Hu Hf. unfold VerifyBundle. rewrite Hu. unfold FixSignatureInBundle.
  unfold first_signature in Hf. destruct (b_dsse b) as [[p t [|s l]]|]; done.
Qed.

(** ** Witnesses *)

Definition toy_cert : Certificate :=
  {| cert_organizations := ["org"]; cert_authority_key_id := "aki"; cert_subject_key_id := "aki"; cert_common_name := "";
     cert_serial := 1; cert_raw_issuer := "ca"; cert_not_before := 0; cert_not_after := 100 |}.

Definition toy_bundle : Bundle :=
  {| b_media_type := bundle_media_type;
     b_dsse := Some {| se_payload := "p"; se_payload_type := "t";
                       se_signatures := [{| ss_sig := "!sig"; ss_keyid := "k" |}] |};
     b_verification := Some {| vm_content := Some (VMCertificate "c"); vm_timestamps := ["ts"] |} |}.

(** One certificate, a timestamp at time 5, and a signature that must be the
    bundle's *)
#[export] Instance toy_crypto : Crypto :=
  {| unmarshal_bundle := fun s => if bool_decide (s = "bundle") then Ok toy_bundle
       else if bool_decide (s = "unsigned")
            then Ok {| b_media_type := "m"; b_dsse := None; b_verification := None |}
            else Err (EMsg "syntax error");
     VerificationContent_of := fun _ => Ok {| vc_certificate := Some toy_cert; vc_valid_at := fun _ => true |};
     Timestamps_of := fun b => match b_verification b with
                               | Some v => Ok (vm_timestamps v) | None => Ok [] end;
     Signature_of := fun b => match first_signature b with
                              | Some (_, s) => Ok (ss_sig s) | None => Err (EMsg "no signature") end;
     sha256_hex := id;
     SignatureVerifier := unit; EnvelopeVerifier := unit;
     ValidateAndUnpackCertWithChain := fun _ chain =>
       if Nat.eqb (length chain) 0 then Err (EMsg "no chain") else Ok tt;
     NewEnvelopeVerifier := Ok;
     envelope_Verify := fun _ e => if bool_decide (de_payload e = EncodeToString "p") then Ok tt
                                   else Err (EMsg "bad signature");
     VerifyTimestampResponse := fun _ sig _ _ _ =>
       if bool_decide (sig = "!sig") then Ok 5%Z else Err (EMsg "hash mismatch");
     parse_signers := fun _ => None |}.

#[export] Instance toy_crypto_errors : CryptoErrors.
Proof.
  split; cbn.
  - intros b e. by destruct (b_verification b).
  - intros b e. destruct (first_signature b) as [[? ?]|]; [done|]. by intros [= <-].
  - done.
  - intros st sig c i r e. case_bool_decide; [done|]. by intros [= <-].
Qed.

Definition toy_roots : TrustedRoot :=
  {| tr_keys := {["aki" := [toy_cert]]}; tr_authorities := [("tsa", [toy_cert])] |}.

Lemma verified_bundle_witness :
  VerifyBundle (Some "bundle") toy_roots "org" = Ok tt
  /\ VerifyBundle (Some "bundle") toy_roots "other" <> Ok tt
  /\ exists vc, timestamps_vouched toy_roots toy_bundle (Some vc).
Proof.
  assert (VerifyBundle (Some "bundle") toy_roots "org" = Ok tt) as Hv by (vm_compute; reflexivity).
  split; [exact Hv|]. split; [vm_compute; discriminate|].
  destruct (verified_bundle "bundle" toy_roots "org" Hv)
    as (b0 & b & vc & cert & Hb0 & Hb & _ & _ & _ & _ & Ht).
  exists vc. vm_compute in Hb0. injection Hb0 as <-. vm_compute in Hb. injection Hb as <-. exact Ht.
Defined.

Lemma unsigned_bundle_panics_witness :
  VerifyBundle (Some "unsigned") toy_roots "org" = Err (panic "index out of range").
Proof. eapply unsigned_bundle_panics; reflexivity. Defined.
