(* ===== verification/BizErrors.v ===== *)
(** * The errors and the name checks of the business layer

    app/controlplane/pkg/biz/errors.go and biz.go.  The callers tell the errors
    apart with [errors.As] on their type, through the chain that [%w] builds;
    a type is a sentinel here, wrapped with the text of the error.  The errors
    of this layer do not unwrap to the error they carry, so that error is text. *)

From S2P Require Import Prelude.
From S2P Require Import GoStrings.

Definition ErrNotFound : string := "biz.ErrNotFound".
Definition ErrInvalidUUID : string := "biz.ErrInvalidUUID".
Definition BizErrValidation : string := "biz.ErrValidation".
Definition ErrNotImplemented : string := "biz.ErrNotImplemented".
Definition ErrUnauthorized : string := "biz.ErrUnauthorized".
Definition ErrAmbiguousReferrer : string := "biz.ErrAmbiguousReferrer".
Definition ErrAttestationStateConflict : string := "biz.ErrAttestationStateConflict".
Definition ErrReleasedVersionImmutable : string := "biz.ErrReleasedVersionImmutable".
Definition ErrAlreadyExists : string := "biz.ErrAlreadyExists".
Definition ErrInvalidPassphrase : string := "biz.ErrInvalidPassphrase".

Definition NewErrNotFound (entity : string) : goerr := EWrap (entity +:+ " not found") (ESentinel ErrNotFound).
Definition NewErrInvalidUUID : goerr := EWrap "invalid UUID" (ESentinel ErrInvalidUUID).
Definition NewErrValidationStr (msg : string) : goerr :=
  EWrap ("validation error: " +:+ msg) (ESentinel BizErrValidation).
Definition NewErrNotImplemented (msg : string) : goerr :=
  EWrap ("not implemented: " +:+ msg) (ESentinel ErrNotImplemented).
Definition NewErrUnauthorizedStr (msg : string) : goerr :=
  EWrap ("authorization error: " +:+ msg) (ESentinel ErrUnauthorized).
Definition NewErrReferrerAmbiguous (digest : string) : goerr :=
  EWrap ("digest " +:+ digest +:+ " present in several kinds") (ESentinel ErrAmbiguousReferrer).
Definition NewErrAttestationStateConflict (got want : string) : goerr :=
  EWrap ("got=" +:+ got +:+ ", want=" +:+ want) (ESentinel ErrAttestationStateConflict).
Definition NewErrReleasedVersionImmutable (version : string) : goerr :=
  EWrap ("version " +:+ version +:+ " is released and immutable") (ESentinel ErrReleasedVersionImmutable).
Definition NewErrAlreadyExists (msg : string) : goerr :=
  EWrap ("duplicated: " +:+ msg) (ESentinel ErrAlreadyExists).
Definition NewErrInvalidPassphrase : goerr := ESentinel ErrInvalidPassphrase.

Definition IsNotFound : goerr -> bool := errors_is ErrNotFound.
Definition IsErrValidation : goerr -> bool := errors_is BizErrValidation.
Definition IsErrNotImplemented : goerr -> bool := errors_is ErrNotImplemented.
Definition IsErrAttestationStateConflict : goerr -> bool := errors_is ErrAttestationStateConflict.
Definition IsErrInvalidPassphrase : goerr -> bool := errors_is ErrInvalidPassphrase.
Definition IsErrUnauthorized : goerr -> bool := errors_is ErrUnauthorized.
Definition IsErrAmbiguousReferrer : goerr -> bool := errors_is ErrAmbiguousReferrer.
Definition IsErrAlreadyExists : goerr -> bool := errors_is ErrAlreadyExists.

(** UUIDs are their canonical texts; the parser is google/uuid's. *)
Abbreviation UUID := string.

Definition uuid_Nil : UUID := "00000000-0000-0000-0000-000000000000".

(** A project (ent/schema/project.go), with the columns that are read of it *)
Record ProjectRow := { pr_name : string; pr_organization : UUID; pr_deleted : bool }.

Class UuidLib := { uuid_Parse : string -> option UUID }.

(** [uuid.Parse], whose error some callers return as it is *)
Definition raw_uuid `{UuidLib} (id : string) : result UUID :=
  match uuid_Parse id with Some u => Ok u | None => Err (EMsg "invalid UUID") end.

Definition parse_uuid `{UuidLib} (id : string) : result UUID :=
  match uuid_Parse id with Some u => Ok u | None => Err NewErrInvalidUUID end.

Lemma parse_uuid_Ok `{UuidLib} id u : parse_uuid id = Ok u <-> uuid_Parse id = Some u.
Proof. unfold parse_uuid. destruct (uuid_Parse id); naive_solver. Qed.

Lemma raw_uuid_Ok `{UuidLib} id u : raw_uuid id = Ok u <-> uuid_Parse id = Some u.
Proof. unfold raw_uuid. destruct (uuid_Parse id); naive_solver. Qed.

(** ** Versions *)

Definition version_char (c : ascii) : bool :=
  let n := Ascii.nat_of_ascii c in
  (Nat.leb 97 n && Nat.leb n 122) || (Nat.leb 65 n && Nat.leb n 90)
  || (Nat.leb 48 n && Nat.leb n 57)
  || bool_decide (c ∈ [("."%char); ("-"%char); ("_"%char); ("+"%char)]).

(** [ValidateVersion]; the optional suffix of the regular expression adds
    nothing, since its characters and the plus sign are in the first class *)
Definition ValidateVersion (version : string) : result unit :=
  if negb (is_empty version) && str_forall version_char version then Ok tt
  else Err (NewErrValidationStr ("invalid version format: " +:+ version)).
