(* ===== verification/Signing.v ===== *)
(** * Signing authorities

    app/controlplane/pkg/biz/signing.go and pkg/ca: the certificate and timestamp
    authorities of an instance, the certificates it signs and the roots that its
    attestations are verified against; trustedRootBizToVerifier of
    biz/workflowrun.go.

    A certificate authority is a record of its operations, as the interface
    [CertificateAuthority] is; the file authority is modelled, with Fulcio's
    functions as parameters, and the EJBCA client is a parameter. *)

From S2P Require Import Prelude.
From S2P Require Import GoStrings.
From S2P Require Import Filepath.
From S2P Require Import Verifier.
From S2P Require Import BizErrors.

(** [fulcioca.CodeSigningCertificate]: its certificate and its chain in PEM *)
Record CodeSigningCertificate := { CertPEM : result string; ChainPEM : result (list string) }.

Record FileCAConf := { fc_cert : string; fc_key : string; fc_pass : string }.

(** [conf.CA], whose authority is a oneof *)
Inductive CAConfKind (EJBCA : Type) := ConfFile (f : FileCAConf) | ConfEJBCA (e : EJBCA).
Arguments ConfFile {EJBCA} f.
Arguments ConfEJBCA {EJBCA} e.

Section Signing.
(** certificate requests and private keys, as their libraries represent them *)
Context {CSR SignerKey : Type}.

(** [ca.CertificateAuthority]; a principal is the organization it names *)
Record CertificateAuthority := {
  CreateCertificateFromCSR : string -> CSR -> result CodeSigningCertificate;
  GetRootChain : result (list Certificate);
  GetName : string
}.

(** ** The file authority (pkg/ca/fileca) *)

(** What the file authority uses of the file system, of the PEM parsers and of
    Fulcio; [pemutil_Read] gives [None] for a key that cannot sign *)
Class CALibraries := {
  ca_ReadFile : string -> result string;
  LoadCertificatesFromPEM : string -> result (list Certificate);
  MarshalCertificateToPEM : Certificate -> result string;
  pemutil_Read : string -> string -> result (option SignerKey);
  VerifyCertChain : list Certificate -> SignerKey -> result unit;
  fulcio_CreateCertificate : list Certificate -> SignerKey -> string -> CSR -> result CodeSigningCertificate;
  fulcio_TrustBundle : list Certificate -> result (list (list Certificate))
}.
Context {libs : CALibraries}.

(** [loadKeyPair] *)
Definition loadKeyPair (certPath keyPath keyPass : string) : result (list Certificate * SignerKey) :=
  data ← ca_ReadFile (Clean certPath);
  certs ← LoadCertificatesFromPEM data;
  opaqueKey ← pemutil_Read keyPath keyPass;
  match opaqueKey with
  | Some key => Ok (certs, key)
  | None => Err (EMsg "fileca: loaded private key can't be used to sign")
  end.

(** [FileCA.GetRootChain] *)
Definition file_GetRootChain (certs : list Certificate) : result (list Certificate) :=
  tb ← map_err (EWrap "failed to load trust bundle") (fulcio_TrustBundle certs);
  match tb with c :: _ => Ok c | [] => Err (panic "index out of range") end.

(** [fileca.New] *)
Definition fileca_New (certPath keyPath keyPass : string) (verify : bool) : result CertificateAuthority :=
  '(certs, key) ← loadKeyPair certPath keyPath keyPass;
  _ ← (if verify then VerifyCertChain certs key else Ok tt);
  Ok {| CreateCertificateFromCSR := fulcio_CreateCertificate certs key;
        GetRootChain := file_GetRootChain certs;
        GetName := "fileCA" |}.

(** ** The configured authorities (pkg/ca/ca.go) *)

Context {EJBCA : Type} (ejbca_New : EJBCA -> result CertificateAuthority).

Record CAConf := { cc_issuer : bool; cc_ca : option (CAConfKind EJBCA) }.

Record CertificateAuthorities := {
  CAs : list CertificateAuthority;
  SignerCA : option CertificateAuthority
}.

(** The authority that an entry of the configuration makes, if it has one *)
Definition configured_authority (configCA : CAConf) : result (option CertificateAuthority) :=
  match cc_ca configCA with
  | Some (ConfFile f) =>
      map_err (EWrap "failed to create file CA")
        (Some <$> fileca_New (fc_cert f) (fc_key f) (fc_pass f) (cc_issuer configCA))
  | Some (ConfEJBCA e) => map_err (EWrap "failed to create file CA") (Some <$> ejbca_New e)
  | None => Ok None
  end.

(** The loop of [NewCertificateAuthoritiesFromConfig] *)
Fixpoint collect_authorities (configCAs : list CAConf) (authorities : list CertificateAuthority)
    (issuerCA : option CertificateAuthority)
    : result (list CertificateAuthority * option CertificateAuthority) :=
  match configCAs with
  | [] => Ok (authorities, issuerCA)
  | configCA :: rest =>
      authority ← configured_authority configCA;
      match authority with
      | None => collect_authorities rest authorities issuerCA
      | Some a =>
          if cc_issuer configCA then
            match issuerCA with
            | Some _ => Err (EMsg "only one issuer CA can be configured")
            | None => collect_authorities rest (authorities ++ [a]) (Some a)
            end
          else collect_authorities rest (authorities ++ [a]) issuerCA
      end
  end.

(** [NewCertificateAuthoritiesFromConfig] *)
Definition NewCertificateAuthoritiesFromConfig (configCAs : list CAConf) : result CertificateAuthorities :=
  '(authorities, issuerCA) ← collect_authorities configCAs [] None;
  match authorities, issuerCA with
  | [a], _ => Ok {| CAs := authorities; SignerCA := Some a |}
  | _ :: _ :: _, None => Err (EMsg "at least one issuer CA needs to be configured")
  | _, _ => Ok {| CAs := authorities; SignerCA := issuerCA |}
  end.

(** [GetSignerCA] *)
Definition GetSignerCA (c : CertificateAuthorities) : result CertificateAuthority :=
  match SignerCA c with Some a => Ok a | None => Err (EMsg "no signer CA found") end.

(** ** Timestamp authorities (signing.go) *)

Record TSAConf := { tc_url : string; tc_issuer : bool; tc_cert_chain_path : string }.

(** [TimestampAuthority]; [tsa_URL] is [None] for nil *)
Record TimestampAuthority := {
  tsa_Issuer : bool;
  tsa_URL : option string;
  tsa_CertChain : list Certificate
}.

Context (url_Parse : string -> result string).

(** [parseTSA] *)
Definition parseTSA (tsaConf : TSAConf) : result TimestampAuthority :=
  url ← (if is_empty (tc_url tsaConf) then Ok None
         else match url_Parse (tc_url tsaConf) with
              | Ok u => Ok (Some u)
              | Err e => if tc_issuer tsaConf then Err (EWrap "failed to parse TSA URL" e) else Ok None
              end);
  _ ← guard_err (is_empty (tc_cert_chain_path tsaConf)) (EMsg "missing certificate path for TSA");
  pemBytes ← map_err (EWrap "failed to read certificate chain") (ca_ReadFile (tc_cert_chain_path tsaConf));
  certs ← map_err (EWrap "failed to load certificates") (LoadCertificatesFromPEM pemBytes);
  Ok {| tsa_Issuer := tc_issuer tsaConf; tsa_URL := url; tsa_CertChain := certs |}.

(** The loop of [parseTimestamps] *)
Fixpoint collect_tsas (confs : list TSAConf) (issuerFound : bool) (auths : list TimestampAuthority)
    : result (bool * list TimestampAuthority) :=
  match confs with
  | [] => Ok (issuerFound, auths)
  | tsaConf :: rest =>
      tsa ← parseTSA tsaConf;
      if issuerFound && tsa_Issuer tsa then Err (EMsg "duplicate timestamp issuer in tsa config")
      else collect_tsas rest (issuerFound || tsa_Issuer tsa) (auths ++ [tsa])
  end.

(** [parseTimestamps] *)
Definition parseTimestamps (confs : list TSAConf) : result (list TimestampAuthority) :=
  '(issuerFound, auths) ← collect_tsas confs false [];
  let '(auths, issuerFound) :=
    match auths with
    | [a] => match tsa_URL a with
             | Some _ => ([{| tsa_Issuer := true; tsa_URL := tsa_URL a; tsa_CertChain := tsa_CertChain a |}], true)
             | None => (auths, issuerFound)
             end
    | _ => (auths, issuerFound)
    end in
  _ ← guard_err (negb (bool_decide (length auths = 0)) && negb issuerFound)
        (EMsg "timestamp issuer not found in tsa config");
  Ok auths.

(** ** The use case (signing.go) *)

Record SigningUseCase := {
  su_CAs : option CertificateAuthorities;
  su_TimestampAuthorities : list TimestampAuthority;
  su_ForceVerification : bool
}.

(** [parseCAs] *)
Definition parseCAs (configCAs : list CAConf) : result (option CertificateAuthorities) :=
  authorities ← map_err (EWrap "failed to create CA authorities")
                  (NewCertificateAuthoritiesFromConfig configCAs);
  match CAs authorities with [] => Ok None | _ => Ok (Some authorities) end.

(** [NewChainloopSigningUseCase]; [force] is the optional setting *)
Definition NewChainloopSigningUseCase (tsaConfs : list TSAConf) (configCAs : list CAConf)
    (force : option bool) : result SigningUseCase :=
  tsas ← map_err (EWrap "failed to parse timestamps authorities") (parseTimestamps tsaConfs);
  cas ← map_err (EWrap "failed to parse CA authorities") (parseCAs configCAs);
  Ok {| su_CAs := cas; su_TimestampAuthorities := tsas; su_ForceVerification := default true force |}.

(** [KeylessEnabled]; a nil use case is [None] *)
Definition KeylessEnabled (s : option SigningUseCase) : bool :=
  match s with Some u => match su_CAs u with Some _ => true | None => false end | None => false end.

(** [GetCurrentTSA] *)
Definition GetCurrentTSA (s : SigningUseCase) : option TimestampAuthority :=
  List.find tsa_Issuer (su_TimestampAuthorities s).

(** [GetSigningCA] *)
Definition GetSigningCA (s : SigningUseCase) : option CertificateAuthority := su_CAs s ≫= SignerCA.

(** What [CreateSigningCert] uses to parse and check a request *)
Context (ParseCSR : string -> result CSR) (ValidatePubKey CheckSignature : CSR -> result unit).

(** [CreateSigningCert] *)
Definition CreateSigningCert (s : SigningUseCase) (orgID csrRaw : string) : result (list string) :=
  match su_CAs s with
  | None => Err (NewErrNotImplemented "CAs not initialized")
  | Some cas =>
      _ ← guard_err (is_empty csrRaw) (EMsg "csr cannot be empty");
      csr ← map_err (EWrap "parsing csr") (ParseCSR csrRaw);
      _ ← map_err (EWrap "invalid public key") (ValidatePubKey csr);
      _ ← map_err (EWrap "invalid signature") (CheckSignature csr);
      issuerCA ← map_err (EWrap "getting signer CA") (GetSignerCA cas);
      csc ← map_err (EWrap "creating certificate") (CreateCertificateFromCSR issuerCA orgID csr);
      finalPEM ← map_err (EWrap "marshaling certificate to PEM") (CertPEM csc);
      finalChainPEM ← map_err (EWrap "marshaling chain to PEM") (ChainPEM csc);
      Ok (finalPEM :: finalChainPEM)
  end.

(** ** The trusted root *)

(** [TrustedRoot] of this layer: PEM certificates by key *)
Record BizTrustedRoot := {
  btr_Keys : gmap string (list string);
  btr_TimestampAuthorities : gmap string (list string)
}.

(** hex(sha256(_)) *)
Context (key_digest : string -> string).

Definition append_at {A} (k : string) (l : list A) (m : gmap string (list A)) : gmap string (list A) :=
  <[k := default [] (m !! k) ++ l]> m.

(** Adding one chain: an empty one is skipped *)
Definition add_chain (keys : gmap string (list string)) (chain : list Certificate)
    : result (gmap string (list string)) :=
  match chain with
  | [] => Ok keys
  | c :: _ =>
      pems ← mapM_result (fun cert => map_err (EWrap "marshaling certificate to PEM")
                                        (MarshalCertificateToPEM cert)) chain;
      Ok (append_at (key_digest (cert_subject_key_id c)) pems keys)
  end.

(** [GetTrustedRoot] *)
Definition GetTrustedRoot (s : SigningUseCase) : result BizTrustedRoot :=
  match su_CAs s with
  | None => Err (NewErrNotImplemented "CAs not initialized")
  | Some cas =>
      keys ← foldM_result (fun keys auth =>
               chain ← map_err (EWrap "getting root chain") (GetRootChain auth); add_chain keys chain)
               (CAs cas) ∅;
      tsas ← foldM_result (fun keys tsa => add_chain keys (tsa_CertChain tsa))
               (su_TimestampAuthorities s) ∅;
      Ok {| btr_Keys := keys; btr_TimestampAuthorities := tsas |}
  end.

(** The certificate of an entry, the first of its PEM *)
Definition load_entry (pem : string) : result Certificate :=
  certs ← map_err (EWrap "loading certificate from PEM") (LoadCertificatesFromPEM pem);
  match certs with c :: _ => Ok c | [] => Err (panic "index out of range") end.

(** One map of [trustedRootBizToVerifier]: an entry without certificates is not
    written *)
Definition load_keys (m : gmap string (list string)) : result (gmap string (list Certificate)) :=
  foldM_result (fun out kv =>
      certs ← mapM_result load_entry (snd kv);
      Ok (match certs with [] => out | _ => append_at (fst kv) certs out end))
    (map_to_list m) ∅.

(** [trustedRootBizToVerifier] *)
Definition trustedRootBizToVerifier (biztr : BizTrustedRoot) : result TrustedRoot :=
  keys ← load_keys (btr_Keys biztr);
  tsas ← load_keys (btr_TimestampAuthorities biztr);
  Ok {| tr_keys := keys; tr_authorities := map_to_list tsas |}.

(** ** A configuration that loads can be used *)

Lemma find_unique {A} (P : A -> bool) l :
  (length (List.filter P l) = 1)%nat -> exists a, List.find P l = Some a /\ List.filter P l = [a].
Proof.
  induction l as [|x l IH]; cbn; [done|]. destruct (P x) eqn:E; [|done]. cbn. intros [= Hl].
  exists x. split; [done|]. by rewrite (nil_length_inv _ Hl).
Qed.

Lemma collect_tsas_issuers confs : forall found auths found' auths',
  collect_tsas confs found auths = Ok (found', auths') ->
  length (List.filter tsa_Issuer auths) = Nat.b2n found ->
  length (List.filter tsa_Issuer auths') = Nat.b2n found'.
Proof.
  induction confs as [|c confs IH]; cbn; intros found auths found' auths' H Hl; [by injection H as <- <-|].
  apply bind_Ok in H as (tsa & _ & H). destruct (found && tsa_Issuer tsa) eqn:E; [done|].
  apply IH in H; [done|]. rewrite List.filter_app, length_app, Hl. cbn.
  by destruct found, (tsa_Issuer tsa).
Qed.

Lemma parseTimestamps_issuer confs auths :
  parseTimestamps confs = Ok auths -> auths <> [] -> length (List.filter tsa_Issuer auths) = 1%nat.
Proof.
  unfold parseTimestamps. rewrite bind_Ok. intros ([found l] & Hc & H) Hne.
  apply collect_tsas_issuers in Hc; [|done].
  destruct l as [|a [|b l]].
  - cbn in H. by injection H as <-.
  - destruct (tsa_URL a) as [u|]; cbn in H.
    + by injection H as <-.
    + destruct found; [|done]. by injection H as <-.
  - destruct found; cbn in H; [|done]. by injection H as <-.
Qed.

Lemma collect_authorities_issuer confs : forall auths issuer auths' issuer',
  collect_authorities confs auths issuer = Ok (auths', issuer') ->
  (forall a, issuer = Some a -> a ∈ auths) -> (forall a, issuer' = Some a -> a ∈ auths').
Proof.
  induction confs as [|c confs IH]; cbn; intros auths issuer auths' issuer' H Hi; [by injection H as <- <-|].
  apply bind_Ok in H as ([a|] & _ & H); [|by eapply IH].
  destruct (cc_issuer c); [destruct issuer; [done|]|]; (eapply IH; [exact H|]).
  - intros a' [= <-]. set_solver.
  - intros a' Ha. apply Hi in Ha. set_solver.
Qed.

(** A signing configuration that loads can be used: when there are
    certificate authorities one of them is the signer, so that a valid request
    never fails for lack of one, and when there are timestamp authorities
    exactly one of them is the issuer, the one that clients are told to use. *)
Theorem signing_config_sound tsaConfs configCAs force s :
  NewChainloopSigningUseCase tsaConfs configCAs force = Ok s ->
  (KeylessEnabled (Some s) = true ->
     exists cas a, su_CAs s = Some cas /\ GetSigningCA s = Some a /\ GetSignerCA cas = Ok a /\ a ∈ CAs cas)
  /\ (su_TimestampAuthorities s <> [] ->
        exists tsa, GetCurrentTSA s = Some tsa /\ List.filter tsa_Issuer (su_TimestampAuthorities s) = [tsa])
  /\ su_ForceVerification s = default true force.
Proof.
  unfold NewChainloopSigningUseCase. rewrite bind_Ok. intros (tsas & Ht & H).
  apply map_err_Ok in Ht. apply bind_Ok in H as (cas & Hc & [= <-]). apply map_err_Ok in Hc. cbn.
  split; [|split; [|done]].
  - intros Hk. destruct cas as [cas|]; [|done]. exists cas. unfold parseCAs in Hc.
    apply bind_Ok in Hc as (c & Hn & Hc). apply map_err_Ok in Hn.
    assert (c = cas /\ CAs c <> []) as [-> Hne] by (destruct (CAs c) eqn:E; [done|]; by injection Hc as ->).
    clear Hc. unfold NewCertificateAuthoritiesFromConfig in Hn. apply bind_Ok in Hn as ([l i] & Hl & Hn).
    assert (forall a, i = Some a -> a ∈ l) as Hi by (eapply collect_authorities_issuer; [exact Hl | done]).
    unfold GetSigningCA, GetSignerCA. cbn.
    destruct l as [|a [|b l]]; [by injection Hn as <-| |].
    + injection Hn as <-. cbn. exists a. repeat split; [done..|]. set_solver.
    + destruct i as [i|]; [|done]. injection Hn as <-. cbn. exists i. repeat split; [done..|]. by apply Hi.
  - intros Hne. by apply find_unique, (parseTimestamps_issuer tsaConfs).
Qed.

(** The issuer may have no URL: the configuration is accepted with an issuer
    that has none, and then the handler that tells it to a client dereferences
    nil. *)
Theorem issuer_without_url path pem certs :
  path <> "" -> ca_ReadFile path = Ok pem -> LoadCertificatesFromPEM pem = Ok certs ->
  exists tsas, parseTimestamps [{| tc_url := ""; tc_issuer := true; tc_cert_chain_path := path |}] = Ok tsas
    /\ forall cas f, tsa_URL <$> GetCurrentTSA {| su_CAs := cas; su_TimestampAuthorities := tsas;
                                                  su_ForceVerification := f |} = Some None.
Proof.
  intros Hp Hr Hl. unfold parseTimestamps. cbn. unfold parseTSA. cbn.
  rewrite (proj2 (is_empty_false path) Hp). cbn. rewrite Hr. cbn. rewrite Hl. cbn.
  eexists. split; [done|]. done.
Qed.

(** ** The roots that attestations are verified against *)

(** Chains grouped by the key of their first certificate *)
Definition group_chains (chains : list (list Certificate)) : gmap string (list Certificate) :=
  foldl (fun m chain => match chain with
                        | [] => m
                        | c :: _ => append_at (key_digest (cert_subject_key_id c)) chain m
                        end) ∅ chains.

Section Roots.
(** PEM as a faithful encoding of certificates *)
Context (pem : Certificate -> string).
Context (marshal_pem : forall c, MarshalCertificateToPEM c = Ok (pem c)).
Context (load_pem : forall c, LoadCertificatesFromPEM (pem c) = Ok [c]).

(** The PEM of a chain, and of a map of chains *)
Definition pems (chain : list Certificate) : list string := pem <$> chain.
Definition pem_map (m : gmap string (list Certificate)) : gmap string (list string) := pems <$> m.

Lemma marshal_chain chain :
  mapM_result (fun cert => map_err (EWrap "marshaling certificate to PEM")
                             (MarshalCertificateToPEM cert)) chain = Ok (pems chain).
Proof. induction chain as [|c chain IH]; [done|]. cbn [mapM_result]. by rewrite IH, marshal_pem. Qed.

Lemma load_chain chain : mapM_result load_entry (pems chain) = Ok chain.
Proof.
  induction chain as [|c chain IH]; [done|]. change (pems (c :: chain)) with (pem c :: pems chain).
  cbn [mapM_result]. assert (load_entry (pem c) = Ok c) as -> by (unfold load_entry; by rewrite load_pem).
  cbn [mbind result_bind]. by rewrite IH.
Qed.

Lemma fmap_append_at k l (m : gmap string (list Certificate)) :
  append_at k (pems l) (pem_map m) = pem_map (append_at k l m).
Proof.
  unfold append_at, pem_map. rewrite fmap_insert, lookup_fmap. f_equal.
  destruct (m !! k); cbn; [|done]. unfold pems. by rewrite <- fmap_app.
Qed.

Lemma add_chain_pem chain m :
  add_chain (pem_map m) chain
  = Ok (pem_map match chain with
                     | [] => m
                     | c :: _ => append_at (key_digest (cert_subject_key_id c)) chain m
                     end).
Proof.
  unfold add_chain. destruct chain as [|c chain]; [done|].
  rewrite marshal_chain. cbn [mbind result_bind]. by rewrite fmap_append_at.
Qed.

Lemma add_chains_pem {A} (f : A -> result (list Certificate)) l chains :
  Forall2 (fun a chain => f a = Ok chain) l chains ->
  foldM_result (fun keys a => chain ← f a; add_chain keys chain) l ∅
  = Ok (pem_map (group_chains chains)).
Proof.
  intros Hl. unfold group_chains. assert (∅ = pem_map ∅) as -> by (unfold pem_map; by rewrite fmap_empty).
  generalize (∅ : gmap string (list Certificate)).
  induction Hl as [|a chain l chains Hf _ IH]; intros m; cbn [foldM_result foldl]; [done|].
  rewrite Hf. cbn [mbind result_bind]. rewrite add_chain_pem. cbn [mbind result_bind]. apply IH.
Qed.

Lemma group_chains_ne chains k l : group_chains chains !! k = Some l -> l <> [].
Proof.
  unfold group_chains. assert (forall m : gmap string (list Certificate),
    (forall k l, m !! k = Some l -> l <> []) ->
    foldl (fun m chain => match chain with [] => m | c :: _ =>
             append_at (key_digest (cert_subject_key_id c)) chain m end) m chains !! k = Some l -> l <> []) as Hgen.
  { revert k l. induction chains as [|chain chains IH]; intros k l m Hm; cbn; [apply Hm|].
    apply IH. destruct chain as [|c chain]; [done|]. intros k' l'. unfold append_at.
    rewrite lookup_insert_Some. intros [[<- <-]|[_ H']]; [|by eapply Hm].
    destruct (default [] _); done. }
  apply Hgen. intros ? ?. by rewrite lookup_empty.
Qed.

Lemma load_keys_pem (m : gmap string (list Certificate)) :
  (forall k l, m !! k = Some l -> l <> []) -> load_keys (pem_map m) = Ok m.
Proof.
  intros Hne. unfold load_keys, pem_map. rewrite map_to_list_fmap.
  assert (forall l out, Forall (fun kv => snd kv <> []) l -> NoDup l.*1 ->
            Forall (fun kv => out !! fst kv = None) l ->
    foldM_result (fun out (kv : string * list string) =>
        certs ← mapM_result load_entry (snd kv);
        Ok (match certs with [] => out | _ => append_at (fst kv) certs out end))
      (prod_map id pems <$> l) out = Ok (list_to_map l ∪ out)) as Hgen.
  { induction l as [|[k cs] l IH]; intros out Hl Hnd Hout; cbn -[union load_entry]; [by rewrite (left_id_L ∅ (∪))|].
    inversion Hl as [|? ? Hcs Hl']; subst. cbn in Hcs. inversion Hnd as [|? ? Hk Hnd']; subst.
    inversion Hout as [|? ? Ho Hout']; subst. cbn in Ho.
    rewrite load_chain. cbn [mbind result_bind].
    destruct cs as [|c cs]; [done|]. unfold append_at. rewrite Ho. cbn [default].
    change (list_fmap _ _ (prod_map id pems) l) with (prod_map id pems <$> l).
    rewrite IH; [|done|done|].
    - f_equal. rewrite <- insert_union_r; [by rewrite insert_union_l|]. by apply not_elem_of_list_to_map_1.
    - rewrite Forall_forall in Hout' |- *. intros [k' cs'] Hin. cbn. rewrite lookup_insert_ne; [by apply (Hout' _ Hin)|].
      intros ->. apply Hk. by apply (list_elem_of_fmap_2 fst) in Hin. }
  rewrite Hgen.
  - by rewrite list_to_map_to_list, (right_id_L ∅ (∪)).
  - apply Forall_forall. intros [k l] H. apply elem_of_map_to_list in H. cbn. by eapply Hne.
  - apply NoDup_fst_map_to_list.
  - apply Forall_forall. intros [k l] _. apply lookup_empty.
Qed.

(** Attestations are verified against exactly the configured authorities: the
    trusted roots are the chains of the certificate authorities, grouped by the
    digest of the key of their first certificate, and the timestamp authorities
    are grouped in the same way, none with an empty chain, which is what
    verifying a timestamp relies on. *)
Theorem trusted_roots_exact s cas chains :
  su_CAs s = Some cas -> Forall2 (fun a chain => GetRootChain a = Ok chain) (CAs cas) chains ->
  exists tr, (GetTrustedRoot s ≫= trustedRootBizToVerifier) = Ok tr
    /\ tr_keys tr = group_chains chains
    /\ list_to_map (tr_authorities tr) = group_chains (tsa_CertChain <$> su_TimestampAuthorities s)
    /\ Forall (fun a => snd a <> []) (tr_authorities tr).
Proof.
  intros Hc Hch. unfold GetTrustedRoot. rewrite Hc.
  rewrite (add_chains_pem (fun a => map_err (EWrap "getting root chain") (GetRootChain a)) _ chains)
    by (eapply Forall2_impl; [exact Hch | intros a ch Ha; by rewrite Ha]).
  cbn [mbind result_bind].
  pose proof (add_chains_pem (fun t => Ok (tsa_CertChain t)) (su_TimestampAuthorities s)
                (tsa_CertChain <$> su_TimestampAuthorities s)) as Ht. cbn [mbind result_bind] in Ht.
  rewrite Ht by (apply Forall2_fmap_r, Forall_Forall2_diag, Forall_forall; done).
  unfold trustedRootBizToVerifier. cbn [mbind result_bind btr_Keys btr_TimestampAuthorities].
  rewrite !load_keys_pem by apply group_chains_ne. cbn. eexists. split; [done|]. cbn.
  split; [done|]. split; [apply list_to_map_to_list|].
  apply Forall_forall. intros [k l] H. apply elem_of_map_to_list in H. by eapply group_chains_ne.
Qed.
End Roots.
End Signing.

(** ** Witnesses *)

(** A faithful text of certificates *)
Fixpoint pos_text (p : positive) : string :=
  match p with
  | xH => EmptyString
  | xO p' => String "0" (pos_text p')
  | xI p' => String "1" (pos_text p')
  end.

Fixpoint text_pos (s : string) : positive :=
  match s with
  | EmptyString => xH
  | String c s' => if bool_decide (c = "0"%char) then xO (text_pos s') else xI (text_pos s')
  end.

Lemma text_pos_text p : text_pos (pos_text p) = p.
Proof. induction p as [p IH|p IH|]; cbn; [by rewrite IH..|done]. Qed.

#[export] Instance certificate_eq_dec : EqDecision Certificate.
Proof. solve_decision. Defined.

#[export] Instance certificate_countable : Countable Certificate.
Proof.
  refine (inj_countable'
    (fun c => (cert_organizations c, cert_authority_key_id c, cert_subject_key_id c, cert_common_name c,
               cert_serial c, cert_raw_issuer c, cert_not_before c, cert_not_after c))
    (fun '(o, a, s, n, r, i, b, e) => Build_Certificate o a s n r i b e) _).
  by intros [].
Defined.

Definition toy_pem (c : Certificate) : string := pos_text (encode c).

Definition toy_load (s : string) : result (list Certificate) :=
  match decode (text_pos s) with Some c => Ok [c] | None => Ok [toy_cert] end.

#[export] Instance toy_libs : CALibraries (CSR := string) (SignerKey := unit) :=
  {| ca_ReadFile := fun p => Ok p;
     LoadCertificatesFromPEM := toy_load;
     MarshalCertificateToPEM := fun c => Ok (toy_pem c);
     pemutil_Read := fun _ _ => Ok (Some tt);
     VerifyCertChain := fun _ _ => Ok tt;
     fulcio_CreateCertificate := fun _ _ org csr => Ok {| CertPEM := Ok (org +:+ csr); ChainPEM := Ok [] |};
     fulcio_TrustBundle := fun certs => Ok [certs] |}.

Definition toy_signing : result SigningUseCase :=
  NewChainloopSigningUseCase (EJBCA := Empty_set) (fun e => match e with end) (fun u => Ok u)
    [{| tc_url := "https://tsa"; tc_issuer := false; tc_cert_chain_path := "tsa.pem" |}]
    [{| cc_issuer := false; cc_ca := Some (ConfFile {| fc_cert := "ca.pem"; fc_key := "k"; fc_pass := "" |}) |}]
    None.

Lemma signing_config_sound_witness :
  exists s, toy_signing = Ok s /\ KeylessEnabled (Some s) = true
    /\ (exists a, GetSigningCA s = Some a) /\ exists tsa, GetCurrentTSA s = Some tsa.
Proof.
  destruct toy_signing as [s|] eqn:E; [|discriminate]. exists s.
  assert (KeylessEnabled (Some s) = true /\ su_TimestampAuthorities s <> []) as [Hk Ht]
    by (injection E as <-; split; done).
  destruct (signing_config_sound _ _ _ _ _ _ E) as (H1 & H2 & _).
  split; [done|]. split; [done|]. destruct (H1 Hk) as (? & a & _ & ? & _). destruct (H2 Ht) as (tsa & ? & _). eauto.
Defined.

Lemma issuer_without_url_witness :
  exists tsas, parseTimestamps (fun u => Ok u)
                 [{| tc_url := ""; tc_issuer := true; tc_cert_chain_path := "tsa.pem" |}] = Ok tsas
    /\ tsas <> [].
Proof.
  destruct (issuer_without_url (fun u => Ok u) "tsa.pem" "tsa.pem" [toy_cert]) as (tsas & H & Hu).
  - discriminate.
  - reflexivity.
  - vm_compute. reflexivity.
  - exists tsas. split; [exact H|]. intros ->. discriminate (Hu None true).
Defined.

Lemma trusted_roots_exact_witness :
  exists s tr, toy_signing = Ok s /\ (GetTrustedRoot id s ≫= trustedRootBizToVerifier) = Ok tr
    /\ tr_keys tr = group_chains id [[toy_cert]].
Proof.
  destruct toy_signing as [s|] eqn:E; [|discriminate]. exists s.
  destruct (su_CAs s) as [cas|] eqn:Ec; [|injection E as <-; discriminate].
  destruct (trusted_roots_exact id toy_pem) with (s := s) (cas := cas) (chains := [[toy_cert]])
    as (tr & H & Hk & _).
  - reflexivity.
  - intros c. cbn. unfold toy_load, toy_pem. by rewrite text_pos_text, decode_encode.
  - exact Ec.
  - injection E as <-. injection Ec as <-. repeat constructor.
  - exists tr. auto.
Defined.
