(* ===== verification/Pagination.v ===== *)
(** * Pagination

    app/controlplane/pkg/pagination (cursor.go, offset.go), and the way that the
    repositories page their queries: rows are ordered from the newest, a page has
    at most [Limit] rows, one more is fetched to know whether there is a next
    page, and the cursor of the next page is the creation time and the identifier
    of the last row.

    The formatting and parsing of times and identifiers are parameters. *)

From S2P Require Import Prelude.
From S2P Require Import GoStrings.
From S2P Require Import Base64.
From S2P Require Import BizErrors.

Open Scope Z_scope.

(** ** Cursors *)

(** [CursorOptions]: the row after which the page starts, and its size *)
Record CursorOptions := { cur_after : option (Z * UUID); cur_limit : nat }.

Definition DefaultCursorLimit : nat := 10.

Class CursorCodec := {
  format_time : Z -> string;
  parse_time : string -> option Z;
  show_uuid : UUID -> string;
  read_uuid : string -> option UUID
}.

(** [EncodeCursor] *)
Definition EncodeCursor `{CursorCodec} (t : Z) (id : UUID) : string :=
  EncodeToString (format_time t +:+ "," +:+ show_uuid id).

(** [decodeCursor] *)
Definition decodeCursor `{CursorCodec} (encodedCursor : string) : result (Z * UUID) :=
  match DecodeString encodedCursor with
  | None => Err (EMsg "illegal base64 data")
  | Some byt =>
      match split byt "," with
      | [rawTime; rawID] =>
          match parse_time rawTime with
          | None => Err (EMsg "parsing time")
          | Some t => match read_uuid rawID with Some id => Ok (t, id) | None => Err (EMsg "invalid UUID") end
          end
      | _ => Err (EMsg "cursor is invalid")
      end
  end.

(** [NewCursor] *)
Definition NewCursor `{CursorCodec} (c : string) (l : Z) : result CursorOptions :=
  after ← (if is_empty c then Ok None
           else Some <$> map_err (EWrap "decoding cursor") (decodeCursor c));
  Ok {| cur_after := after; cur_limit := if bool_decide (0 < l) then Z.to_nat l else DefaultCursorLimit |}.

(** ** Offsets *)

Record OffsetPaginationOpts := { op_page : Z; op_page_size : Z }.

(** [NewDefaultOffsetPaginationOpts] *)
Definition NewDefaultOffsetPaginationOpts : OffsetPaginationOpts := {| op_page := 1; op_page_size := 100 |}.

(** [NewOffsetPaginationOpts] *)
Definition NewOffsetPaginationOpts (offset limit : Z) : result OffsetPaginationOpts :=
  if bool_decide (limit < 1) then Err (EMsg "pageSize must be greater than 0")
  else if bool_decide (offset < 0) then Err (EMsg "page must be greater than or equal to 0")
  else Ok {| op_page := offset; op_page_size := limit |}.

(** [Offset] and [Limit]: the first page is the page zero or one *)
Definition Offset (o : OffsetPaginationOpts) : Z := (Z.max 1 (op_page o) - 1) * op_page_size o.
Definition Limit (o : OffsetPaginationOpts) : Z := op_page_size o.

(** ** Pages of a query *)

(** The order of rows on the pair of columns: [older a b] when [a < b] *)
Definition older (a b : Z * UUID) : bool :=
  bool_decide (fst a < fst b)
  || (bool_decide (fst a = fst b) && bool_decide (str_compare (snd a) (snd b) = Lt)).

Section Pages.
Context {A : Type} (pos : A -> Z * UUID).
(** ORDER BY *)
Context (order : list A -> list A).

(** One page: its rows and the cursor of the next one *)
Definition page (rows : list A) (p : CursorOptions) : list A * option (Z * UUID) :=
  let matching := List.filter (fun a => match cur_after p with
                                        | Some c => older (pos a) c | None => true end) rows in
  let l := take (S (cur_limit p)) (order matching) in
  if Nat.ltb (cur_limit p) (length l)
  then (take (cur_limit p) l, pos <$> last (take (cur_limit p) l))
  else (l, None).

(** A client that follows the cursors *)
Fixpoint walk (fuel : nat) (rows : list A) (limit : nat) (after : option (Z * UUID)) : list A :=
  match fuel with
  | O => []
  | S fuel' =>
      let '(l, next) := page rows {| cur_after := after; cur_limit := limit |} in
      l ++ match next with None => [] | Some c => walk fuel' rows limit (Some c) end
  end.
End Pages.

(** ** Lemmas *)

Lemma str_compare_refl a : str_compare a a = Eq.
Proof. induction a as [|c a IH]; cbn; [done|]. by rewrite Nat.compare_refl. Qed.

Lemma str_compare_trans a b c : str_compare a b = Lt -> str_compare b c = Lt -> str_compare a c = Lt.
Proof.
  revert b c; induction a as [|x a IH]; intros [|y b] [|z c]; cbn; try done.
  destruct (Nat.compare_spec (Ascii.nat_of_ascii x) (Ascii.nat_of_ascii y)),
    (Nat.compare_spec (Ascii.nat_of_ascii y) (Ascii.nat_of_ascii z)),
    (Nat.compare_spec (Ascii.nat_of_ascii x) (Ascii.nat_of_ascii z)); try lia; try done.
  apply IH.
Qed.

Lemma older_spec a b : older a b = true <-> fst a < fst b \/ fst a = fst b /\ str_compare (snd a) (snd b) = Lt.
Proof. unfold older. rewrite orb_true_iff, andb_true_iff, !bool_decide_eq_true. done. Qed.

Lemma older_irrefl a : older a a = false.
Proof. apply not_true_iff_false. rewrite older_spec, str_compare_refl. intros [?|[_ ?]]; [lia | done]. Qed.

Lemma older_trans a b c : older a b = true -> older b c = true -> older a c = true.
Proof.
  rewrite !older_spec. intros [?|[? H1]] [?|[? H2]]; [left; lia..|]. right. split; [lia|].
  by eapply str_compare_trans.
Qed.

Lemma older_asym a b : older a b = true -> older b a = false.
Proof.
  intros H1. apply not_true_iff_false. intros H2. pose proof (older_trans _ _ _ H1 H2) as H3.
  by rewrite older_irrefl in H3.
Qed.

Lemma older_total a b : a <> b -> older a b = true \/ older b a = true.
Proof.
  intros Hne. rewrite !older_spec. destruct (Z.lt_trichotomy (fst a) (fst b)) as [?|[He|?]]; [auto| |auto].
  destruct (str_compare (snd a) (snd b)) eqn:Ec.
  - destruct Hne. destruct a, b. cbn in *. apply str_compare_eq in Ec. by subst.
  - auto.
  - right. right. split; [done|]. by rewrite str_compare_antisym, Ec.
Qed.

Lemma filter_perm {A} (f : A -> bool) l l' : l ≡ₚ l' -> List.filter f l ≡ₚ List.filter f l'.
Proof.
  induction 1 as [|x l l' _ IH|x y l|l1 l2 l3 _ IH1 _ IH2]; cbn; [done| | |by rewrite IH1].
  - destruct (f x); [by rewrite IH | done].
  - destruct (f x), (f y); try done. constructor.
Qed.

Section Walk.
Context {A : Type} (pos : A -> Z * UUID) (order : list A -> list A) (rows : list A).

(** [a] comes before [b]: it is strictly newer *)
Definition newer (a b : A) : Prop := older (pos b) (pos a) = true.

(** ORDER BY lists the rows it is given, from the newest, without ties *)
Context (order_Permutation : forall l, order l ≡ₚ l).
Context (order_sorted : forall l, (forall a, a ∈ l -> a ∈ rows) -> NoDup l -> StronglySorted newer (order l)).
Context (rows_NoDup : NoDup rows).

Lemma newer_sorted_unique l1 l2 :
  StronglySorted newer l1 -> StronglySorted newer l2 -> l1 ≡ₚ l2 -> l1 = l2.
Proof.
  apply StronglySorted_unique_strong. intros a b _ _ H1 H2. unfold newer in *.
  by rewrite (older_asym _ _ H1) in H2.
Qed.

(** The rows after the last one of a prefix are the rest. *)
Lemma order_after pre x rest :
  order rows = pre ++ x :: rest -> order (List.filter (fun a => older (pos a) (pos x)) rows) = rest.
Proof.
  intros Ho. assert (StronglySorted newer (order rows)) as Hs by (by apply order_sorted).
  rewrite Ho in Hs. pose proof (StronglySorted_app_1_r _ _ _ Hs) as Hr.
  apply StronglySorted_inv in Hr as [Hrest Hx].
  apply newer_sorted_unique; [|done|].
  - apply order_sorted.
    + intros a Ha. by apply list_elem_of_In, filter_In in Ha as [Ha%list_elem_of_In _].
    + by apply NoDup_ListNoDup, List.NoDup_filter, NoDup_ListNoDup.
  - rewrite order_Permutation.
    assert (List.filter (fun a => older (pos a) (pos x)) rows ≡ₚ
            List.filter (fun a => older (pos a) (pos x)) (order rows)) as ->
      by (apply filter_perm; by rewrite order_Permutation).
    rewrite Ho, List.filter_app. cbn. rewrite older_irrefl.
    assert (List.filter (fun a => older (pos a) (pos x)) pre = []) as ->.
    { apply StronglySorted_app in Hs as (Hcross & _ & _).
      assert (forall a, a ∈ pre -> older (pos a) (pos x) = false) as Hpre.
      { intros a Ha. apply older_asym. apply (Hcross a x); [done | left]. }
      clear -Hpre. induction pre as [|a pre IH]; cbn; [done|].
      rewrite (Hpre a) by left. apply IH. intros b Hb. apply Hpre. by right. }
    cbn. clear -Hx. induction rest as [|a rest IH]; cbn; [done|].
    inversion Hx as [|? ? H1 H2]; subst. unfold newer in H1. rewrite H1. by rewrite (IH H2).
Qed.

Lemma walk_rest limit rest fuel after :
  (0 < limit)%nat -> (length rest <= fuel)%nat ->
  order (List.filter (fun a => match after with Some c => older (pos a) c | None => true end) rows) = rest ->
  (exists pre, order rows = pre ++ rest) ->
  walk pos order fuel rows limit after = rest.
Proof.
  intros Hl. revert rest after. induction fuel as [|fuel IH]; intros rest after Hf Hr (pre & Hpre).
  - destruct rest; [done | cbn in Hf; lia].
  - cbn [walk]. unfold page. cbn [cur_after cur_limit]. rewrite Hr, length_take.
    destruct (Nat.ltb_spec limit (Nat.min (S limit) (length rest))).
    + rewrite take_take, Nat.min_l by lia.
      destruct (last (take limit rest)) as [x|] eqn:Ex.
      2:{ apply last_None in Ex. apply (f_equal length) in Ex. rewrite length_take in Ex. cbn in Ex. lia. }
      cbn [fmap option_fmap option_map]. apply last_Some in Ex as (front & Hfront).
      rewrite (IH (drop limit rest) (Some (pos x))).
      * apply take_drop.
      * rewrite length_drop. lia.
      * apply (order_after (pre ++ front)). rewrite Hpre, <- app_assoc. f_equal.
        rewrite <- (take_drop limit rest) at 1. by rewrite Hfront, <- app_assoc.
      * exists (pre ++ take limit rest). by rewrite <- app_assoc, take_drop.
    + rewrite app_nil_r, take_ge by lia. done.
Qed.

(** A client that follows the cursors sees every row exactly once, in order. *)
Lemma walk_complete limit :
  (0 < limit)%nat -> walk pos order (length rows) rows limit None = order rows.
Proof.
  intros Hl. apply walk_rest; [done| | |by exists []].
  - by rewrite order_Permutation.
  - f_equal. clear. induction rows as [|a l IH]; cbn; [done|]. by rewrite IH.
Qed.
End Walk.

(** A cursor that a server made is read back. *)
Lemma cursor_roundtrip `{CursorCodec} t id l :
  parse_time (format_time t) = Some t -> read_uuid (show_uuid id) = Some id ->
  has_char "," (format_time t) = false -> has_char "," (show_uuid id) = false ->
  exists p, NewCursor (EncodeCursor t id) l = Ok p /\ cur_after p = Some (t, id) /\ (0 < cur_limit p)%nat.
Proof.
  intros Ht Hid Hc1 Hc2. unfold NewCursor.
  assert (decodeCursor (EncodeCursor t id) = Ok (t, id)) as Hd.
  { unfold decodeCursor, EncodeCursor. rewrite Decode_Encode, split_cons, split_single by done. by rewrite Ht, Hid. }
  assert (is_empty (EncodeCursor t id) = false) as ->.
  { apply is_empty_false. intros He. rewrite He in Hd. unfold decodeCursor in Hd. done. }
  rewrite Hd. cbn. eexists. split; [reflexivity|]. cbn. split; [done|]. case_bool_decide; [lia|]. unfold DefaultCursorLimit. lia.
Qed.
