(* ===== verification/RunStore.v ===== *)
(** * The store of the workflow runs

    app/controlplane/pkg/data: workflowrun.go, projectversion.go and
    attestationstate.go over the tables of ent/schema (workflow, workflow_run,
    attestation, project_version), with the columns that this code uses.

    A table is a map from identifiers to rows and a query of the generated ORM
    is the selection that its predicates state, so that a transaction is a
    function of the database.  A transaction that fails leaves the database
    unchanged, and transactions run one after the other; what a handler read
    before its transaction started is an argument of it, and may be stale.
    Failures of the connection to the database are left out. *)

From S2P Require Import Prelude.
From S2P Require Import GoStrings.
From S2P Require Import Renderer.
From S2P Require Import BizErrors.

Open Scope Z_scope.

(** ** Tables *)

Inductive WorkflowRunStatus :=
| RunInitialized | RunSuccess | RunError | RunExpired | RunCancelled.

#[export] Instance WorkflowRunStatus_eq_dec : EqDecision WorkflowRunStatus.
Proof. solve_decision. Defined.

Record WorkflowRow := {
  wr_name : string;
  wr_team : string;
  wr_description : string;
  wr_contract : UUID;
  wr_organization : UUID;
  wr_project : UUID;
  wr_deleted : bool;
  wr_runs_count : Z;
  wr_latest_run : option UUID;
  wr_template : option UUID;
  wr_metadata : string;
  wr_created_at : Z;
  wr_updated_at : Z
}.

Record VersionRow := {
  pv_project : UUID;
  pv_version : string;
  pv_prerelease : bool;
  pv_latest : bool;
  pv_deleted : bool;
  pv_run_count : Z;
  pv_released_at : option Z;
  pv_last_run_at : option Z
}.

Record RunRow := {
  run_workflow : UUID;
  run_organization : UUID;
  run_version : UUID;
  run_contract_version : UUID;
  run_url : string;
  run_runner_type : string;
  run_backends : list UUID;
  run_revision_latest : Z;
  run_revision_used : Z;
  run_created_at : Z;
  run_finished_at : option Z;
  run_state : WorkflowRunStatus;
  run_reason : string;
  run_digest : string;
  run_attestation_state : option string;
  run_has_violations : option bool;
  run_policy_status : option PolicyStatusSummary
}.

(** [db_bundles] is the attestation table, by the run it belongs to *)
Record DB := {
  db_workflows : gmap UUID WorkflowRow;
  db_versions : gmap UUID VersionRow;
  db_runs : gmap UUID RunRow;
  db_bundles : gmap UUID string
}.

Definition with_workflows (db : DB) (t : gmap UUID WorkflowRow) : DB :=
  {| db_workflows := t; db_versions := db_versions db; db_runs := db_runs db; db_bundles := db_bundles db |}.
Definition with_versions (db : DB) (t : gmap UUID VersionRow) : DB :=
  {| db_workflows := db_workflows db; db_versions := t; db_runs := db_runs db; db_bundles := db_bundles db |}.
Definition with_runs (db : DB) (t : gmap UUID RunRow) : DB :=
  {| db_workflows := db_workflows db; db_versions := db_versions db; db_runs := t; db_bundles := db_bundles db |}.
Definition with_bundles (db : DB) (t : gmap UUID string) : DB :=
  {| db_workflows := db_workflows db; db_versions := db_versions db; db_runs := db_runs db; db_bundles := t |}.

(** ** Project versions (projectversion.go) *)

Definition set_latest (b : bool) (v : VersionRow) : VersionRow :=
  {| pv_project := pv_project v; pv_version := pv_version v; pv_prerelease := pv_prerelease v;
     pv_latest := b; pv_deleted := pv_deleted v; pv_run_count := pv_run_count v;
     pv_released_at := pv_released_at v; pv_last_run_at := pv_last_run_at v |}.

(** [Update().Where(ProjectID, DeletedAtIsNil, Latest(true)).SetLatest(false)] *)
Definition clear_latest (project : UUID) (versions : gmap UUID VersionRow) : gmap UUID VersionRow :=
  (fun v => if bool_decide (pv_project v = project) && negb (pv_deleted v) then set_latest false v else v)
    <$> versions.

(** The live version of that name, if there is one *)
Definition version_named (project : UUID) (version : string) (v : VersionRow) : bool :=
  bool_decide (pv_project v = project) && bool_decide (pv_version v = version) && negb (pv_deleted v).

Definition find_where {A} (P : A -> bool) (t : gmap UUID A) : option (UUID * A) :=
  List.find (fun kv => P (snd kv)) (map_to_list t).

(** [createProjectVersionWithTx]; [id] is the identifier of the new row, and the
    unique index refuses a second live version of that name *)
Definition createProjectVersionWithTx (db : DB) (id project : UUID) (version : string)
    (prerelease : bool) (markAsLatest : option bool) : result DB :=
  _ ← guard_err (is_empty version) (NewErrValidationStr "version must not be empty");
  let shouldBeLatest := match markAsLatest with None => true | Some b => b end in
  let versions := if shouldBeLatest then clear_latest project (db_versions db) else db_versions db in
  match find_where (version_named project version) versions, versions !! id with
  | None, None =>
      Ok (with_versions db
            (<[id := {| pv_project := project; pv_version := version; pv_prerelease := prerelease;
                        pv_latest := shouldBeLatest; pv_deleted := false; pv_run_count := 0;
                        pv_released_at := None; pv_last_run_at := None |}]> versions))
  | _, _ => Err (EMsg "constraint failed: duplicate key value")
  end.

(** [promoteVersionToLatestWithTx] on the row that the transaction locked *)
Definition promoteVersionToLatestWithTx (db : DB) (id : UUID) (v : VersionRow) : result (bool * DB) :=
  _ ← guard_err (negb (pv_prerelease v))
        (NewErrValidationStr "cannot promote a released version to latest");
  Ok (negb (pv_latest v),
      with_versions db (alter (set_latest true) id (clear_latest (pv_project v) (db_versions db)))).

(** [ForUpdate().Where(ID, ProjectID, DeletedAtIsNil).Only] *)
Definition lock_version (db : DB) (id project : UUID) : result VersionRow :=
  match db_versions db !! id with
  | Some v => if bool_decide (pv_project v = project) && negb (pv_deleted v) then Ok v
              else Err (NewErrNotFound "Version")
  | None => Err (NewErrNotFound "Version")
  end.

(** [MarkAsLatest] *)
Definition MarkAsLatest (db : DB) (project id : UUID) : result (bool * DB) :=
  v ← lock_version db id project; promoteVersionToLatestWithTx db id v.

(** [Update]: [prerelease] is [None] when the caller leaves it as it is *)
Definition version_Update (db : DB) (id : UUID) (prerelease : option bool) (now : Z) : result DB :=
  match db_versions db !! id with
  | Some v =>
      if pv_deleted v then Err (NewErrNotFound "Version")
      else
        Ok (with_versions db
              (<[id := {| pv_project := pv_project v; pv_version := pv_version v;
                          pv_prerelease := default (pv_prerelease v) prerelease;
                          pv_latest := pv_latest v; pv_deleted := pv_deleted v;
                          pv_run_count := pv_run_count v;
                          pv_released_at :=
                            match prerelease with
                            | None => pv_released_at v
                            | Some false => match pv_released_at v with
                                            | Some t => Some t | None => Some now end
                            | Some true => None
                            end;
                          pv_last_run_at := pv_last_run_at v |}]> (db_versions db)))
  | None => Err (NewErrNotFound "Version")
  end.

(** ** Runs (workflowrun.go) *)

(** [WorkflowRunRepoCreateOpts] *)
Record RunCreateOpts := {
  co_workflow : UUID;
  co_contract_version : UUID;
  co_url : string;
  co_runner_type : string;
  co_backends : list UUID;
  co_revision_latest : Z;
  co_revision_used : Z;
  co_version : string;
  co_use_latest : bool;
  co_require_existing : bool;
  co_mark_latest : option bool;
  co_block_released : bool
}.

(** What [Create] reads before its transaction: the workflow and the version, if
    it exists *)
Definition resolve_version (db : DB) (opts : RunCreateOpts) : result (WorkflowRow * option UUID) :=
  match db_workflows db !! co_workflow opts with
  | None => Err (EWrap "getting workflow" (EMsg "not found"))
  | Some wf =>
      if co_use_latest opts then
        match find_where (fun v => bool_decide (pv_project v = wr_project wf) && negb (pv_deleted v)
                                   && pv_latest v) (db_versions db) with
        | Some (id, _) => Ok (wf, Some id)
        | None => Err (NewErrValidationStr "no project version exists")
        end
      else
        match find_where (version_named (wr_project wf) (co_version opts)) (db_versions db) with
        | Some (id, _) => Ok (wf, Some id)
        | None =>
            if co_require_existing opts
            then Err (NewErrValidationStr ("project version " +:+ co_version opts +:+ " not found"))
            else Ok (wf, None)
        end
  end.

(** The row of a new run: the defaults of the schema and what [Create] sets *)
Definition new_run (opts : RunCreateOpts) (wf : WorkflowRow) (version : UUID) (now : Z) : RunRow :=
  {| run_workflow := co_workflow opts; run_organization := wr_organization wf; run_version := version;
     run_contract_version := co_contract_version opts; run_url := co_url opts;
     run_runner_type := co_runner_type opts; run_backends := co_backends opts;
     run_revision_latest := co_revision_latest opts; run_revision_used := co_revision_used opts;
     run_created_at := now; run_finished_at := None; run_state := RunInitialized; run_reason := "";
     run_digest := ""; run_attestation_state := None; run_has_violations := None;
     run_policy_status := None |}.

Definition count_workflow_run (id : UUID) (now : Z) (w : WorkflowRow) : WorkflowRow :=
  {| wr_name := wr_name w; wr_team := wr_team w; wr_description := wr_description w; wr_contract := wr_contract w;
     wr_organization := wr_organization w; wr_project := wr_project w; wr_deleted := wr_deleted w;
     wr_runs_count := wr_runs_count w + 1; wr_latest_run := Some id; wr_template := wr_template w;
     wr_metadata := wr_metadata w; wr_created_at := wr_created_at w; wr_updated_at := now |}.

Definition count_version_run (now : Z) (v : VersionRow) : VersionRow :=
  {| pv_project := pv_project v; pv_version := pv_version v; pv_prerelease := pv_prerelease v;
     pv_latest := pv_latest v; pv_deleted := pv_deleted v; pv_run_count := pv_run_count v + 1;
     pv_released_at := pv_released_at v; pv_last_run_at := Some now |}.

(** The version that the transaction of [Create] uses, [snapshot] being what was
    read before it started *)
Definition create_version_step (db : DB) (opts : RunCreateOpts) (wf : WorkflowRow)
    (snapshot : option UUID) (version_id : UUID) : result (UUID * DB) :=
  match snapshot with
  | None =>
      db ← map_err (EWrap "creating version")
             (createProjectVersionWithTx db version_id (wr_project wf) (co_version opts) true
                (co_mark_latest opts));
      Ok (version_id, db)
  | Some id =>
      let markAsLatest := default false (co_mark_latest opts) in
      if co_block_released opts || markAsLatest then
        fresh ← lock_version db id (wr_project wf);
        _ ← guard_err (co_block_released opts && negb (pv_prerelease fresh))
              (NewErrReleasedVersionImmutable (pv_version fresh));
        if markAsLatest
        then '(_, db) ← promoteVersionToLatestWithTx db id fresh; Ok (id, db)
        else Ok (id, db)
      else Ok (id, db)
  end.

(** The transaction of [Create]; [run_id] and [version_id] are fresh identifiers *)
Definition create_tx (db : DB) (opts : RunCreateOpts) (wf : WorkflowRow) (snapshot : option UUID)
    (run_id version_id : UUID) (now : Z) : result DB :=
  '(version, db) ← create_version_step db opts wf snapshot version_id;
  match db_runs db !! run_id, db_workflows db !! co_workflow opts, db_versions db !! version with
  | None, Some w, Some v =>
      Ok {| db_workflows := <[co_workflow opts := count_workflow_run run_id now w]> (db_workflows db);
            db_versions := <[version := count_version_run now v]> (db_versions db);
            db_runs := <[run_id := new_run opts wf version now]> (db_runs db);
            db_bundles := db_bundles db |}
  | _, _, _ => Err (EMsg "constraint failed")
  end.

(** [FindByID] and [FindByIDInOrg], through the workflow of the run *)
Definition FindByID (db : DB) (id : UUID) : option RunRow := db_runs db !! id.

Definition FindByIDInOrg (db : DB) (org id : UUID) : result RunRow :=
  match db_runs db !! id with
  | Some r =>
      match db_workflows db !! run_workflow r with
      | Some w => if bool_decide (wr_organization w = org) then Ok r
                  else Err (NewErrNotFound "workflow run")
      | None => Err (NewErrNotFound "workflow run")
      end
  | None => Err (NewErrNotFound "workflow run")
  end.

(** [FindByAttestationDigest]: [Only] fails when several runs have the digest *)
Definition FindByAttestationDigest (db : DB) (digest : string) : result (option (UUID * RunRow)) :=
  match List.filter (fun kv => bool_decide (run_digest (snd kv) = digest)) (map_to_list (db_runs db)) with
  | [] => Ok None
  | [r] => Ok (Some r)
  | _ => Err (EMsg "ent: workflow_run not singular")
  end.

Definition update_run (db : DB) (id : UUID) (f : RunRow -> RunRow) : DB :=
  with_runs db (alter f id (db_runs db)).

Definition set_digest (digest : string) (r : RunRow) : RunRow :=
  {| run_workflow := run_workflow r; run_organization := run_organization r;
     run_version := run_version r; run_contract_version := run_contract_version r;
     run_url := run_url r; run_runner_type := run_runner_type r; run_backends := run_backends r;
     run_revision_latest := run_revision_latest r; run_revision_used := run_revision_used r;
     run_created_at := run_created_at r; run_finished_at := run_finished_at r;
     run_state := run_state r; run_reason := run_reason r; run_digest := digest;
     run_attestation_state := run_attestation_state r; run_has_violations := run_has_violations r;
     run_policy_status := run_policy_status r |}.

Definition set_attestation_state (s : option string) (r : RunRow) : RunRow :=
  {| run_workflow := run_workflow r; run_organization := run_organization r;
     run_version := run_version r; run_contract_version := run_contract_version r;
     run_url := run_url r; run_runner_type := run_runner_type r; run_backends := run_backends r;
     run_revision_latest := run_revision_latest r; run_revision_used := run_revision_used r;
     run_created_at := run_created_at r; run_finished_at := run_finished_at r;
     run_state := run_state r; run_reason := run_reason r; run_digest := run_digest r;
     run_attestation_state := s; run_has_violations := run_has_violations r;
     run_policy_status := run_policy_status r |}.

Definition set_state (state : WorkflowRunStatus) (reason : string) (finished : option Z) (r : RunRow) : RunRow :=
  {| run_workflow := run_workflow r; run_organization := run_organization r;
     run_version := run_version r; run_contract_version := run_contract_version r;
     run_url := run_url r; run_runner_type := run_runner_type r; run_backends := run_backends r;
     run_revision_latest := run_revision_latest r; run_revision_used := run_revision_used r;
     run_created_at := run_created_at r; run_finished_at := finished;
     run_state := state; run_reason := reason; run_digest := run_digest r;
     run_attestation_state := None; run_has_violations := run_has_violations r;
     run_policy_status := run_policy_status r |}.

Definition set_policy_status (violated : bool) (s : PolicyStatusSummary) (r : RunRow) : RunRow :=
  {| run_workflow := run_workflow r; run_organization := run_organization r;
     run_version := run_version r; run_contract_version := run_contract_version r;
     run_url := run_url r; run_runner_type := run_runner_type r; run_backends := run_backends r;
     run_revision_latest := run_revision_latest r; run_revision_used := run_revision_used r;
     run_created_at := run_created_at r; run_finished_at := run_finished_at r;
     run_state := run_state r; run_reason := run_reason r; run_digest := run_digest r;
     run_attestation_state := run_attestation_state r;
     run_has_violations := Some violated; run_policy_status := Some s |}.

(** [assertVersionAcceptsAttestationWithTx] *)
Definition assertVersionAcceptsAttestationWithTx (db : DB) (id : UUID) (blockReleasedVersions : bool)
    : result unit :=
  if negb blockReleasedVersions then Ok tt
  else
    match db_runs db !! id ≫= fun r => db_versions db !! run_version r with
    | None => Err (NewErrNotFound "workflow run")
    | Some v => if pv_prerelease v then Ok tt else Err (NewErrReleasedVersionImmutable (pv_version v))
    end.

(** [SaveAttestationDigest] *)
Definition SaveAttestationDigest (db : DB) (id : UUID) (digest : string) (block : bool) : result DB :=
  _ ← assertVersionAcceptsAttestationWithTx db id block;
  match db_runs db !! id with
  | None => Err (NewErrNotFound "workflow run")
  | Some _ => Ok (update_run db id (set_digest digest))
  end.

(** [SaveAttestationBundle]: a run has one bundle, which is not empty *)
Definition SaveAttestationBundle (db : DB) (id : UUID) (digest bundle : string) (block : bool) : result DB :=
  db' ← SaveAttestationDigest db id digest block;
  match db_bundles db !! id with
  | Some _ => Err (EWrap "saving bundle" (EMsg "constraint failed"))
  | None => if is_empty bundle then Err (EWrap "saving bundle" (EMsg "validator failed"))
            else Ok (with_bundles db' (<[id := bundle]> (db_bundles db')))
  end.

(** A summary as its 32-bit columns keep it *)
Definition int32 (z : Z) : Z := (z + 2147483648) mod 4294967296 - 2147483648.

Definition summary_row (s : PolicyStatusSummary) : PolicyStatusSummary :=
  {| sum_status := sum_status s; sum_total := int32 (sum_total s); sum_passed := int32 (sum_passed s);
     sum_skipped := int32 (sum_skipped s); sum_violated := int32 (sum_violated s);
     sum_has_gates := sum_has_gates s; sum_suppressed := int32 (sum_suppressed s) |}.

(** [UpdatePolicyStatus] *)
Definition UpdatePolicyStatus (db : DB) (id : UUID) (s : PolicyStatusSummary) : result DB :=
  match db_runs db !! id with
  | None => Err (NewErrNotFound "workflow run")
  | Some _ => Ok (update_run db id
                (set_policy_status (bool_decide (0 < sum_violated s)) (summary_row s)))
  end.

(** [GetBundle] *)
Definition GetBundle (db : DB) (id : UUID) : result string :=
  match db_bundles db !! id with Some b => Ok b | None => Err (NewErrNotFound "attestation") end.

(** [MarkAsFinished] *)
Definition MarkAsFinished (db : DB) (id : UUID) (status : WorkflowRunStatus) (reason : string) (now : Z)
    : result DB :=
  match db_runs db !! id with
  | None => Err (EWrap "failed to find workflow run" (EMsg "not found"))
  | Some _ => Ok (update_run db id (set_state status reason (Some now)))
  end.

(** [Expire] *)
Definition Expire (db : DB) (id : UUID) : result DB :=
  match db_runs db !! id with
  | None => Err (EMsg "not found")
  | Some r => Ok (update_run db id (set_state RunExpired (run_reason r) (run_finished_at r)))
  end.

(** [ListNotFinishedOlderThan], in the order of the database *)
Definition overdue (olderThan : Z) (r : RunRow) : bool :=
  bool_decide (run_created_at r <= olderThan) && bool_decide (run_state r = RunInitialized).

Definition ListNotFinishedOlderThan (db : DB) (olderThan : Z) (limit : nat) : list UUID :=
  let all := (List.filter (fun kv => overdue olderThan (snd kv)) (map_to_list (db_runs db))).*1 in
  match limit with O => all | _ => take limit all end.

(** [ExpirationSweep] (biz/workflowrun.go) *)
Definition maxNumberOfRunsToExpire : nat := 100%nat.

Definition expire_all (db : DB) (ids : list UUID) : result DB := foldM_result Expire ids db.

Definition ExpirationSweep (db : DB) (olderThan : Z) : result DB :=
  expire_all db (ListNotFinishedOlderThan db olderThan maxNumberOfRunsToExpire).

(** ** The state of the attestation (attestationstate.go) *)

Definition state_Initialized (db : DB) (id : UUID) : bool :=
  match db_runs db !! id with
  | Some r => match run_attestation_state r with Some _ => true | None => false end
  | None => false
  end.

Section StateDigest.
(** hex(sha256(json(_))) *)
Context (state_digest : string -> string).

(** [Save]: the stored state must be the one the base digest was computed on *)
Definition state_Save (db : DB) (id : UUID) (state baseDigest : string) : result (string * DB) :=
  _ ← (if is_empty baseDigest then Ok tt
       else
         match db_runs db !! id ≫= run_attestation_state with
         | None => Err (NewErrNotFound "attestation state")
         | Some stored =>
             let storedDigest := state_digest stored in
             guard_err (negb (bool_decide (baseDigest = storedDigest)))
               (NewErrAttestationStateConflict storedDigest baseDigest)
         end);
  match db_runs db !! id with
  | None => Err (NewErrNotFound "workflow run")
  | Some _ => Ok (state_digest state, update_run db id (set_attestation_state (Some state)))
  end.

(** [Read] *)
Definition state_Read (db : DB) (id : UUID) : result (string * string) :=
  match db_runs db !! id ≫= run_attestation_state with
  | None => Err (NewErrNotFound "attestation state")
  | Some s => Ok (s, state_digest s)
  end.
End StateDigest.

(** [Reset] *)
Definition state_Reset (db : DB) (id : UUID) : result DB :=
  match db_runs db !! id with
  | None => Err (NewErrNotFound "attestation state")
  | Some _ => Ok (update_run db id (set_attestation_state None))
  end.

(** ** Handlers that run at the same time *)

(** A server: the database, and the creations that have read their workflow and
    version and have not committed yet *)
Record server := {
  sv_db : DB;
  sv_pending : list (RunCreateOpts * WorkflowRow * option UUID)
}.

Definition with_db (s : server) (db : DB) : server := {| sv_db := db; sv_pending := sv_pending s |}.

Inductive server_step (digest : string -> string) (s : server) : server -> Prop :=
| step_resolve opts wf snapshot :
    resolve_version (sv_db s) opts = Ok (wf, snapshot) ->
    server_step digest s {| sv_db := sv_db s; sv_pending := (opts, wf, snapshot) :: sv_pending s |}
| step_create opts wf snapshot run_id version_id now db' :
    (opts, wf, snapshot) ∈ sv_pending s ->
    create_tx (sv_db s) opts wf snapshot run_id version_id now = Ok db' ->
    server_step digest s (with_db s db')
| step_create_version id project version prerelease db' :
    createProjectVersionWithTx (sv_db s) id project version prerelease None = Ok db' ->
    server_step digest s (with_db s db')
| step_promote project id promoted db' :
    MarkAsLatest (sv_db s) project id = Ok (promoted, db') -> server_step digest s (with_db s db')
| step_release id prerelease now db' :
    version_Update (sv_db s) id prerelease now = Ok db' -> server_step digest s (with_db s db')
| step_finish id status reason now db' :
    MarkAsFinished (sv_db s) id status reason now = Ok db' -> server_step digest s (with_db s db')
| step_expire id db' :
    Expire (sv_db s) id = Ok db' -> server_step digest s (with_db s db')
| step_save_digest id d block db' :
    SaveAttestationDigest (sv_db s) id d block = Ok db' -> server_step digest s (with_db s db')
| step_save_bundle id d bundle block db' :
    SaveAttestationBundle (sv_db s) id d bundle block = Ok db' -> server_step digest s (with_db s db')
| step_policy_status id summary db' :
    UpdatePolicyStatus (sv_db s) id summary = Ok db' -> server_step digest s (with_db s db')
| step_save_state id state base d db' :
    state_Save digest (sv_db s) id state base = Ok (d, db') -> server_step digest s (with_db s db')
| step_reset_state id db' :
    state_Reset (sv_db s) id = Ok db' -> server_step digest s (with_db s db').

(** ** The database stays consistent *)

(** What a run points to: its workflow, its organization and its version *)
Definition run_links (r : RunRow) : UUID * UUID * UUID :=
  (run_workflow r, run_organization r, run_version r).

Definition links (db : DB) : gmap UUID (UUID * UUID * UUID) := run_links <$> db_runs db.

Definition count_links (P : UUID * UUID * UUID -> bool) (m : gmap UUID (UUID * UUID * UUID)) : Z :=
  Z.of_nat (size (filter (fun kv => P (snd kv) = true) m)).

Definition to_workflow (w : UUID) (l : UUID * UUID * UUID) : bool := bool_decide (fst (fst l) = w).
Definition to_version (v : UUID) (l : UUID * UUID * UUID) : bool := bool_decide (snd l = v).

Record consistent (db : DB) : Prop := {
  one_latest : forall i j v w, db_versions db !! i = Some v -> db_versions db !! j = Some w ->
    pv_deleted v = false -> pv_deleted w = false -> pv_latest v = true -> pv_latest w = true ->
    pv_project v = pv_project w -> i = j;
  one_name : forall i j v w, db_versions db !! i = Some v -> db_versions db !! j = Some w ->
    pv_deleted v = false -> pv_deleted w = false -> pv_version v = pv_version w ->
    pv_project v = pv_project w -> i = j;
  runs_linked : forall id w o v, links db !! id = Some (w, o, v) ->
    exists wf ver, db_workflows db !! w = Some wf /\ db_versions db !! v = Some ver
      /\ wr_organization wf = o /\ pv_project ver = wr_project wf;
  workflow_counts : forall w wf, db_workflows db !! w = Some wf ->
    wr_runs_count wf = count_links (to_workflow w) (links db);
  version_counts : forall v ver, db_versions db !! v = Some ver ->
    pv_run_count ver = count_links (to_version v) (links db);
  bundles_owned : forall id b, db_bundles db !! id = Some b -> is_Some (db_runs db !! id)
}.

(** Rows that may change in everything but their identity *)
Definition same_version (v v' : VersionRow) : Prop :=
  pv_project v' = pv_project v /\ pv_version v' = pv_version v /\ pv_deleted v' = pv_deleted v.

Definition same_workflow (w w' : WorkflowRow) : Prop :=
  wr_organization w' = wr_organization w /\ wr_project w' = wr_project w.

(** No row disappears or changes its identity. *)
Definition kept (db db' : DB) : Prop :=
  (forall i v, db_versions db !! i = Some v -> exists v', db_versions db' !! i = Some v' /\ same_version v v')
  /\ (forall i w, db_workflows db !! i = Some w ->
        exists w', db_workflows db' !! i = Some w' /\ same_workflow w w').

#[export] Instance kept_preorder : PreOrder kept.
Proof.
  split.
  - intros db. split.
    + intros i v H. exists v. repeat split; done.
    + intros i w H. exists w. repeat split; done.
  - intros a b c [V1 W1] [V2 W2]. split.
    + intros i v (v' & H' & h1 & h2 & h3)%V1. apply V2 in H' as (v'' & H'' & k1 & k2 & k3).
      exists v''. split; [done|]. repeat split; congruence.
    + intros i w (w' & H' & h1 & h2)%W1. apply W2 in H' as (w'' & H'' & k1 & k2).
      exists w''. split; [done|]. split; congruence.
Qed.

Lemma fmap_alter_same {A B} (g : A -> B) (f : A -> A) (i : UUID) (m : gmap UUID A) :
  (forall a, g (f a) = g a) -> g <$> alter f i m = g <$> m.
Proof.
  intros Hf. apply map_eq. intros j. rewrite !lookup_fmap, lookup_alter.
  case_decide; [subst|done]. destruct (m !! j); cbn; [by rewrite Hf | done].
Qed.

(** A run may change in everything but what it points to. *)
Lemma update_run_consistent db id f :
  (forall r, run_links (f r) = run_links r) -> consistent db ->
  consistent (update_run db id f) /\ kept db (update_run db id f).
Proof.
  intros Hf [h1 h2 h3 h4 h5 h6].
  assert (links (update_run db id f) = links db) as Hl by (by apply fmap_alter_same).
  split; [split; rewrite ?Hl; try done | split; [intros i v; exists v | intros i w; exists w]; by repeat split].
  intros i b Hb. cbn in *. apply h6 in Hb as [r Hr]. destruct (decide (id = i)) as [->|].
  - rewrite lookup_alter_eq, Hr. by eexists.
  - rewrite lookup_alter_ne, Hr by done. by eexists.
Qed.

Lemma clear_latest_lookup p t i v' :
  clear_latest p t !! i = Some v' ->
  exists v, t !! i = Some v /\ same_version v v' /\ pv_run_count v' = pv_run_count v
    /\ (pv_latest v' = true -> pv_latest v = true)
    /\ (pv_project v = p -> pv_deleted v = false -> pv_latest v' = false).
Proof.
  unfold clear_latest. rewrite lookup_fmap. destruct (t !! i) as [v|]; [|done].
  intros [= <-]. exists v. split; [done|].
  destruct (bool_decide (pv_project v = p) && negb (pv_deleted v)) eqn:E; cbn.
  - done.
  - repeat split; try done. intros Hp Hd. rewrite Hp, Hd, bool_decide_eq_true_2 in E by done. done.
Qed.

Lemma clear_latest_kept p t i v :
  t !! i = Some v -> exists v', clear_latest p t !! i = Some v' /\ same_version v v'.
Proof.
  intros H. unfold clear_latest. rewrite lookup_fmap, H. eexists. split; [done|].
  cbn. by destruct (_ && _).
Qed.

Lemma find_where_None {A} (P : A -> bool) (t : gmap UUID A) i v :
  find_where P t = None -> t !! i = Some v -> P v = false.
Proof.
  intros Hf Hi. apply (find_none _ _ Hf (i, v)). by apply list_elem_of_In, elem_of_map_to_list.
Qed.

Lemma find_where_Some {A} (P : A -> bool) (t : gmap UUID A) i v :
  find_where P t = Some (i, v) -> t !! i = Some v /\ P v = true.
Proof.
  intros [H1 H2]%find_some. split; [|done]. by apply list_elem_of_In, elem_of_map_to_list in H1.
Qed.

(** No run points to a version that does not exist. *)
Lemma count_links_fresh db v :
  consistent db -> db_versions db !! v = None -> count_links (to_version v) (links db) = 0.
Proof.
  intros [_ _ h _ _ _] Hv. unfold count_links.
  enough (filter (fun kv => to_version v (snd kv) = true) (links db) = ∅) as -> by (by rewrite map_size_empty).
  apply map_empty_filter_2. intros id [[w o] v'] Hl Hb. cbn in Hb.
  apply bool_decide_eq_true in Hb. cbn in Hb. subst v'. apply h in Hl as (wf & ver & _ & Hver & _). congruence.
Qed.

(** A change of the versions that keeps their identity and counts *)
Lemma versions_consistent db t :
  consistent db ->
  (forall i v', t !! i = Some v' ->
     (exists v, db_versions db !! i = Some v /\ same_version v v' /\ pv_run_count v' = pv_run_count v)
     \/ (db_versions db !! i = None /\ pv_run_count v' = 0)) ->
  (forall i v, db_versions db !! i = Some v -> exists v', t !! i = Some v' /\ same_version v v') ->
  (forall i j v w, t !! i = Some v -> t !! j = Some w ->
    pv_deleted v = false -> pv_deleted w = false -> pv_latest v = true -> pv_latest w = true ->
    pv_project v = pv_project w -> i = j) ->
  (forall i j v w, t !! i = Some v -> t !! j = Some w ->
    pv_deleted v = false -> pv_deleted w = false -> pv_version v = pv_version w ->
    pv_project v = pv_project w -> i = j) ->
  consistent (with_versions db t) /\ kept db (with_versions db t).
Proof.
  intros Hc Hback Hfwd Hl Hn. pose proof Hc as [h1 h2 h3 h4 h5 h6]. split.
  - split; cbn; try done.
    + intros id w o v (wf & ver & Hw & Hv & Ho & Hp)%h3.
      apply Hfwd in Hv as (ver' & Hv & Hs & _ & _). exists wf, ver'. repeat split; congruence.
    + intros v ver [(v0 & Hv0 & _ & ->)|(Hnone & ->)]%Hback; [by apply h5|].
      symmetry. by apply count_links_fresh.
  - split; [done|]. intros i w. exists w. by repeat split.
Qed.

Lemma create_version_consistent db id project version prerelease mark db' :
  createProjectVersionWithTx db id project version prerelease mark = Ok db' ->
  consistent db ->
  consistent db' /\ kept db db' /\ db_runs db' = db_runs db /\ db_workflows db' = db_workflows db
  /\ exists v, db_versions db' !! id = Some v /\ pv_project v = project /\ pv_prerelease v = prerelease.
Proof.
  unfold createProjectVersionWithTx. intros H Hc. inv_ok.
  set (latest := match mark with None => true | Some b => b end) in *.
  set (t := if latest then clear_latest project (db_versions db) else db_versions db) in *.
  destruct (find_where _ t) as [|] eqn:Ef; [done|]. destruct (t !! id) as [|] eqn:Ei; [done|].
  injection H as <-.
  assert (forall i v', t !! i = Some v' ->
    exists v, db_versions db !! i = Some v /\ same_version v v' /\ pv_run_count v' = pv_run_count v
      /\ (pv_latest v' = true -> pv_latest v = true)
      /\ (latest = true -> pv_project v = project -> pv_deleted v = false -> pv_latest v' = false)) as Hb.
  { intros i v' Hi. unfold t in Hi. destruct latest.
    - destruct (clear_latest_lookup _ _ _ _ Hi) as (v & h1 & h2 & h3 & h4 & h5). exists v. auto.
    - exists v'. repeat split; done. }
  assert (db_versions db !! id = None) as Hid.
  { destruct (db_versions db !! id) as [v|] eqn:E; [|done]. unfold t in Ei. destruct latest; [|congruence].
    destruct (clear_latest_kept project _ _ _ E) as (v' & ? & _). congruence. }
  pose proof Hc as [l1 l2 _ _ _ _].
  assert (forall i v w, t !! i = Some v -> pv_deleted v = false ->
    pv_version v = version -> pv_project v = project -> w = id -> i = w) as Hname.
  { intros i v w Hi Hd Hv Hp. apply (find_where_None _ _ _ _ Ef) in Hi. unfold version_named in Hi.
    rewrite Hp, Hv, Hd, !bool_decide_eq_true_2 in Hi by done. done. }
  destruct (versions_consistent db (<[id := {| pv_project := project; pv_version := version;
      pv_prerelease := prerelease; pv_latest := latest; pv_deleted := false; pv_run_count := 0;
      pv_released_at := None; pv_last_run_at := None |}]> t)) as [Hcons Hkept]; [done|..].
  - intros i v' [(<- & <-)|(_ & Hi)]%lookup_insert_Some; [by right|].
    left. destruct (Hb _ _ Hi) as (v & ? & ? & ? & _). eauto.
  - intros i v Hv. assert (i <> id) as Hne by congruence. rewrite lookup_insert_ne by done.
    unfold t. destruct latest; [by apply clear_latest_kept|]. exists v. by repeat split.
  - intros i j v w Hi Hj Hd1 Hd2 Hl1 Hl2 Hp.
    apply lookup_insert_Some in Hi as [(<- & <-)|(_ & Hi)], Hj as [(<- & <-)|(_ & Hj)]; [done|..]; cbn in *.
    + destruct (Hb _ _ Hj) as (v0 & _ & (e1 & _ & e3) & _ & _ & Hno).
      rewrite Hno in Hl2; congruence.
    + destruct (Hb _ _ Hi) as (v0 & _ & (e1 & _ & e3) & _ & _ & Hno).
      rewrite Hno in Hl1; congruence.
    + destruct (Hb _ _ Hi) as (v0 & Hv0 & (e1 & _ & e3) & _ & Hl0 & _).
      destruct (Hb _ _ Hj) as (w0 & Hw0 & (k1 & _ & k3) & _ & Hm0 & _).
      eapply (l1 i j v0 w0); eauto; congruence.
  - intros i j v w Hi Hj Hd1 Hd2 Hv Hp.
    apply lookup_insert_Some in Hi as [(<- & <-)|(_ & Hi)], Hj as [(<- & <-)|(_ & Hj)]; [done|..]; cbn in *.
    + symmetry. eapply Hname; eauto.
    + eapply Hname; eauto.
    + destruct (Hb _ _ Hi) as (v0 & Hv0 & (e1 & e2 & e3) & _).
      destruct (Hb _ _ Hj) as (w0 & Hw0 & (k1 & k2 & k3) & _).
      eapply (l2 i j v0 w0); eauto; congruence.
  - repeat (split; [done|]). cbn. rewrite lookup_insert_eq. by eexists.
Qed.

Lemma lock_version_Ok db id project v :
  lock_version db id project = Ok v ->
  db_versions db !! id = Some v /\ pv_project v = project /\ pv_deleted v = false.
Proof.
  unfold lock_version. destruct (db_versions db !! id) as [w|]; [|done].
  destruct (bool_decide _ && _) eqn:E; [|done]. intros [= ->]. split_bool. done.
Qed.

Lemma promote_consistent db id v b db' :
  promoteVersionToLatestWithTx db id v = Ok (b, db') -> db_versions db !! id = Some v ->
  pv_deleted v = false -> consistent db ->
  consistent db' /\ kept db db' /\ db_runs db' = db_runs db /\ db_workflows db' = db_workflows db.
Proof.
  unfold promoteVersionToLatestWithTx. intros H Hv Hd Hc. apply bind_Ok in H as (u & _ & [= _ <-]).
  set (t := clear_latest (pv_project v) (db_versions db)).
  assert (forall i w', alter (set_latest true) id t !! i = Some w' ->
    exists w, db_versions db !! i = Some w /\ same_version w w' /\ pv_run_count w' = pv_run_count w
      /\ (i <> id -> pv_latest w' = true -> pv_latest w = true)
      /\ (i <> id -> pv_project w = pv_project v -> pv_deleted w = false -> pv_latest w' = false)) as Hb.
  { intros i w'. destruct (decide (i = id)) as [->|Hne].
    - rewrite lookup_alter_eq. destruct (t !! id) as [w1|] eqn:E; [|done]. intros [= <-].
      destruct (clear_latest_lookup _ _ _ _ E) as (w & h1 & h2 & h3 & _). exists w.
      repeat split; try done; apply h2.
    - rewrite lookup_alter_ne by done. intros E.
      destruct (clear_latest_lookup _ _ _ _ E) as (w & h1 & h2 & h3 & h4 & h5). exists w. auto. }
  pose proof Hc as [l1 l2 _ _ _ _].
  destruct (versions_consistent db (alter (set_latest true) id t)) as [Hcons Hkept]; [done|..].
  - intros i w' Hi. left. destruct (Hb _ _ Hi) as (w & ? & ? & ? & _). eauto.
  - intros i w Hw. destruct (clear_latest_kept (pv_project v) _ _ _ Hw) as (w' & Hw' & Hs). fold t in Hw'.
    destruct (decide (i = id)) as [->|Hne].
    + rewrite lookup_alter_eq, Hw'. by eexists.
    + rewrite lookup_alter_ne by done. eauto.
  - intros i j w x Hi Hj Hd1 Hd2 Hl1 Hl2 Hp.
    destruct (Hb _ _ Hi) as (w0 & Hw0 & (e1 & _ & e3) & _ & Hl0 & Hno).
    destruct (Hb _ _ Hj) as (x0 & Hx0 & (k1 & _ & k3) & _ & Hm0 & Hmo).
    destruct (decide (i = id)) as [->|Hi'], (decide (j = id)) as [->|Hj']; [done|..].
    + rewrite Hmo in Hl2; congruence.
    + rewrite Hno in Hl1; congruence.
    + eapply (l1 i j w0 x0); eauto; congruence.
  - intros i j w x Hi Hj Hd1 Hd2 Hn Hp.
    destruct (Hb _ _ Hi) as (w0 & Hw0 & (e1 & e2 & e3) & _).
    destruct (Hb _ _ Hj) as (x0 & Hx0 & (k1 & k2 & k3) & _).
    eapply (l2 i j w0 x0); eauto; congruence.
  - done.
Qed.

Lemma version_Update_consistent db id prerelease now db' :
  version_Update db id prerelease now = Ok db' -> consistent db -> consistent db' /\ kept db db'.
Proof.
  unfold version_Update. destruct (db_versions db !! id) as [v|] eqn:Ev; [|done].
  destruct (pv_deleted v) eqn:Ed; [done|]. intros [= <-] Hc.
  match goal with |- context [<[id := ?r]> _] => set (row := r) end.
  assert (forall i w', <[id := row]> (db_versions db) !! i = Some w' ->
    exists w, db_versions db !! i = Some w /\ same_version w w' /\ pv_run_count w' = pv_run_count w
      /\ pv_latest w' = pv_latest w) as Hb.
  { intros i w' [(<- & <-)|(_ & Hi)]%lookup_insert_Some; [exists v | exists w']; by repeat split. }
  pose proof Hc as [l1 l2 _ _ _ _]. apply versions_consistent; [done|..].
  - intros i w' Hi. left. destruct (Hb _ _ Hi) as (w & ? & ? & ? & _). eauto.
  - intros i w Hw. destruct (decide (i = id)) as [->|Hne].
    + rewrite lookup_insert_eq. exists row. split; [done|]. replace w with v by congruence. by repeat split.
    + rewrite lookup_insert_ne by done. exists w. by repeat split.
  - intros i j w x Hi Hj. destruct (Hb _ _ Hi) as (w0 & Hw0 & (e1 & _ & e3) & _ & e4).
    destruct (Hb _ _ Hj) as (x0 & Hx0 & (k1 & _ & k3) & _ & k4).
    rewrite e1, e3, e4, k1, k3, k4. by apply l1.
  - intros i j w x Hi Hj. destruct (Hb _ _ Hi) as (w0 & Hw0 & (e1 & e2 & e3) & _).
    destruct (Hb _ _ Hj) as (x0 & Hx0 & (k1 & k2 & k3) & _).
    rewrite e1, e2, e3, k1, k2, k3. by apply l2.
Qed.

(** What a pending creation read is still there when it commits. *)
Definition pending_ok (db : DB) (p : RunCreateOpts * WorkflowRow * option UUID) : Prop :=
  let '(opts, wf, snapshot) := p in
  (exists w, db_workflows db !! co_workflow opts = Some w /\ same_workflow wf w)
  /\ forall id, snapshot = Some id ->
       exists v, db_versions db !! id = Some v /\ pv_project v = wr_project wf.

Lemma pending_kept db db' p : kept db db' -> pending_ok db p -> pending_ok db' p.
Proof.
  destruct p as [[opts wf] snapshot]. intros [HV HW] [(w & Hw & h1 & h2) Hs]. split.
  - apply HW in Hw as (w' & Hw' & k1 & k2). exists w'. split; [done|]. split; congruence.
  - intros id (v & Hv & Hp)%Hs. apply HV in Hv as (v' & Hv' & k & _). exists v'. split; congruence.
Qed.

Lemma resolve_pending db opts wf snapshot :
  resolve_version db opts = Ok (wf, snapshot) -> pending_ok db (opts, wf, snapshot).
Proof.
  unfold resolve_version. destruct (db_workflows db !! co_workflow opts) as [w|] eqn:Ew; [|done].
  intros H. assert (wf = w) as ->.
  { destruct (co_use_latest opts), (find_where _ _) as [[id v]|]; try congruence.
    by destruct (co_require_existing opts); try congruence. }
  split; [exists w; by repeat split|]. intros id ->.
  destruct (co_use_latest opts), (find_where _ _) as [[id' v]|] eqn:Ef; try congruence;
    try (destruct (co_require_existing opts); congruence).
  all: injection H as ->; apply find_where_Some in Ef as [Hv HP]; unfold version_named in HP; split_bool; eauto.
Qed.

Lemma create_version_step_Ok db opts wf snapshot version_id version db' :
  create_version_step db opts wf snapshot version_id = Ok (version, db') ->
  consistent db -> pending_ok db (opts, wf, snapshot) ->
  consistent db' /\ kept db db' /\ db_runs db' = db_runs db /\ db_workflows db' = db_workflows db
  /\ exists v, db_versions db' !! version = Some v /\ pv_project v = wr_project wf
       /\ (co_block_released opts = true -> pv_prerelease v = true).
Proof.
  unfold create_version_step. destruct snapshot as [id|].
  - intros H Hc [_ Hs]. destruct (Hs id eq_refl) as (v & Hv & Hp).
    destruct (co_block_released opts || default false (co_mark_latest opts)) eqn:E.
    2: { injection H as <- <-. apply orb_false_iff in E as [Eb _]. split; [done|]. split; [reflexivity|].
         repeat (split; [done|]). exists v. rewrite Eb. done. }
    apply bind_Ok in H as (fresh & Hf & H). apply lock_version_Ok in Hf as (Hf & _ & Hd).
    apply bind_Ok in H as (u & Hg%guard_err_Ok & H). replace fresh with v in * by congruence.
    assert (co_block_released opts = true -> pv_prerelease v = true) as Hb.
    { intros Hb. rewrite Hb in Hg. by apply negb_false_iff in Hg. }
    destruct (default false (co_mark_latest opts)).
    + apply bind_Ok in H as ([b db1] & Hpr & [= <- <-]).
      destruct (promote_consistent _ _ _ _ _ Hpr Hv Hd Hc) as (h1 & h2 & h3 & h4).
      repeat (split; [done|]). unfold promoteVersionToLatestWithTx in Hpr.
      apply bind_Ok in Hpr as (u' & Hn%guard_err_Ok & [= _ <-]). cbn. rewrite lookup_alter_eq.
      unfold clear_latest. rewrite lookup_fmap, Hv. eexists. split; [done|]. cbn.
      apply negb_false_iff in Hn. destruct (bool_decide (pv_project v = pv_project v) && negb (pv_deleted v)); done.
    + injection H as <- <-. split; [done|]. split; [reflexivity|]. repeat (split; [done|]). eauto.
  - intros H Hc _. apply bind_Ok in H as (db1 & Hcr%map_err_Ok & [= <- <-]).
    destruct (create_version_consistent _ _ _ _ _ _ _ Hcr Hc) as (h1 & h2 & h3 & h4 & v & h5 & h6 & h7).
    repeat (split; [done|]). exists v. auto.
Qed.

Lemma count_links_insert P m id l :
  m !! id = None -> count_links P (<[id := l]> m) = count_links P m + (if P l then 1 else 0).
Proof.
  intros Hn. unfold count_links. destruct (P l) eqn:E.
  - rewrite map_filter_insert_True by done. rewrite map_size_insert_None; [lia|].
    apply map_lookup_filter_None. by left.
  - rewrite map_filter_insert_False by (cbn; congruence). rewrite delete_id by done. lia.
Qed.

Lemma create_tx_consistent db opts wf snapshot run_id version_id now db' :
  create_tx db opts wf snapshot run_id version_id now = Ok db' ->
  consistent db -> pending_ok db (opts, wf, snapshot) ->
  consistent db' /\ kept db db'
  /\ exists v, links db' !! run_id = Some (co_workflow opts, wr_organization wf, v)
       /\ (co_block_released opts = true ->
           exists ver, db_versions db' !! v = Some ver /\ pv_prerelease ver = true).
Proof.
  unfold create_tx. intros H Hc Hp. apply bind_Ok in H as ([version db1] & Hs & H).
  destruct (create_version_step_Ok _ _ _ _ _ _ _ Hs Hc Hp)
    as (Hc1 & Hk1 & Hr1 & Hw1 & v & Hv & Hvp & Hvb).
  destruct (db_runs db1 !! run_id) eqn:Er; [done|].
  destruct (db_workflows db1 !! co_workflow opts) as [w|] eqn:Ew; [|done].
  rewrite Hv in H. injection H as <-.
  destruct Hp as [(w0 & Hw0 & Ho & Hpr) _].
  assert (w0 = w) as -> by congruence.
  set (l := (co_workflow opts, wr_organization wf, version)).
  set (db2 := {| db_workflows := _ |}).
  assert (links db2 = <[run_id := l]> (links db1)) as Hl by (unfold links; cbn; by rewrite fmap_insert).
  assert (links db1 !! run_id = None) as Hln by (unfold links; by rewrite lookup_fmap, Er).
  assert (forall i u', db_versions db2 !! i = Some u' ->
    exists u, db_versions db1 !! i = Some u /\ same_version u u' /\ pv_latest u' = pv_latest u) as Hvb2.
  { intros i u' Hi. unfold db2 in Hi. cbn in Hi. apply lookup_insert_Some in Hi as [(<- & <-)|(_ & Hi)]; [exists v | exists u'];
      by repeat split. }
  destruct Hc1 as [c1 c2 c3 c4 c5 c6].
  assert (kept db1 db2) as Hk2.
  { split.
    - intros i u Hu. destruct (decide (i = version)) as [->|Hne]; cbn.
      + rewrite lookup_insert_eq. eexists. split; [done|]. replace u with v by congruence. by repeat split.
      + rewrite lookup_insert_ne by done. exists u. by repeat split.
    - intros i u Hu. destruct (decide (i = co_workflow opts)) as [->|Hne]; cbn.
      + rewrite lookup_insert_eq. eexists. split; [done|]. replace u with w by congruence. by repeat split.
      + rewrite lookup_insert_ne by done. exists u. by repeat split. }
  split; [|split; [by etrans|]].
  - split.
    + intros i j x y Hi Hj. destruct (Hvb2 _ _ Hi) as (x0 & Hx & (e1 & _ & e3) & e4).
      destruct (Hvb2 _ _ Hj) as (y0 & Hy & (k1 & _ & k3) & k4). rewrite e1, e3, e4, k1, k3, k4. by apply c1.
    + intros i j x y Hi Hj. destruct (Hvb2 _ _ Hi) as (x0 & Hx & (e1 & e2 & e3) & _).
      destruct (Hvb2 _ _ Hj) as (y0 & Hy & (k1 & k2 & k3) & _). rewrite e1, e2, e3, k1, k2, k3. by apply c2.
    + intros id a b c. rewrite Hl. destruct Hk2 as [HV HW].
      intros [(<- & [= <- <- <-])|(_ & Hi)]%lookup_insert_Some.
      * destruct (HV _ _ Hv) as (v' & Hv' & e1 & _). destruct (HW _ _ Ew) as (w' & Hw' & k1 & k2).
        exists w', v'. repeat split; congruence.
      * apply c3 in Hi as (wf0 & ver0 & Hwf0 & Hver0 & ? & ?).
        apply HV in Hver0 as (ver1 & ? & e1 & _). apply HW in Hwf0 as (wf1 & ? & k1 & k2).
        exists wf1, ver1. repeat split; congruence.
    + intros i w' Hi. unfold db2 in Hi. cbn in Hi. rewrite Hl, count_links_insert by done.
      apply lookup_insert_Some in Hi as [(<- & <-)|(Hne & Hi)].
      * replace (to_workflow _ l) with true by (symmetry; by apply bool_decide_eq_true_2).
        cbn. by rewrite <- (c4 _ _ Ew).
      * replace (to_workflow i l) with false by (symmetry; by apply bool_decide_eq_false_2).
        rewrite <- (c4 _ _ Hi). lia.
    + intros i v' Hi. unfold db2 in Hi. cbn in Hi. rewrite Hl, count_links_insert by done.
      apply lookup_insert_Some in Hi as [(<- & <-)|(Hne & Hi)].
      * replace (to_version _ l) with true by (symmetry; by apply bool_decide_eq_true_2).
        cbn. by rewrite <- (c5 _ _ Hv).
      * replace (to_version i l) with false by (symmetry; by apply bool_decide_eq_false_2).
        rewrite <- (c5 _ _ Hi). lia.
    + intros i b Hb. apply c6 in Hb as [r Hr]. cbn. apply lookup_insert_is_Some'. right. by eexists.
  - exists version. rewrite Hl, lookup_insert_eq. split; [done|]. intros Hb. cbn.
    rewrite lookup_insert_eq. eexists. split; [done|]. cbn. by apply Hvb.
Qed.

Lemma SaveAttestationDigest_Ok db id digest block db' :
  SaveAttestationDigest db id digest block = Ok db' ->
  db' = update_run db id (set_digest digest) /\ is_Some (db_runs db !! id)
  /\ (block = true -> exists r v, db_runs db !! id = Some r
        /\ db_versions db !! run_version r = Some v /\ pv_prerelease v = true).
Proof.
  unfold SaveAttestationDigest, assertVersionAcceptsAttestationWithTx. intros H.
  apply bind_Ok in H as (u & Ha & H). destruct (db_runs db !! id) as [r|]; [|done].
  injection H as <-. split; [done|]. split; [by eexists|]. intros ->. cbn in Ha.
  destruct (db_versions db !! run_version r) as [v|] eqn:E; [|done]. exists r, v.
  by destruct (pv_prerelease v).
Qed.

Lemma SaveAttestationBundle_Ok db id digest bundle block db' :
  SaveAttestationBundle db id digest bundle block = Ok db' ->
  exists db1, SaveAttestationDigest db id digest block = Ok db1
    /\ db' = with_bundles db1 (<[id := bundle]> (db_bundles db)) /\ db_bundles db1 = db_bundles db
    /\ db_bundles db !! id = None /\ bundle <> "".
Proof.
  unfold SaveAttestationBundle. intros H. apply bind_Ok in H as (db1 & Hd & H).
  exists db1. split; [done|].
  assert (db_bundles db1 = db_bundles db) as Hb by (by apply SaveAttestationDigest_Ok in Hd as [-> _]).
  destruct (db_bundles db !! id); [done|]. destruct (is_empty bundle) eqn:E; [done|].
  injection H as <-. rewrite Hb. repeat (split; [done|]). by apply is_empty_false.
Qed.

Lemma bundle_consistent db id b :
  is_Some (db_runs db !! id) -> consistent db ->
  consistent (with_bundles db (<[id := b]> (db_bundles db)))
  /\ kept db (with_bundles db (<[id := b]> (db_bundles db))).
Proof.
  intros Hr [h1 h2 h3 h4 h5 h6]. split; [|exact (reflexivity db : kept db db)].
  split; try done. intros i b' Hi. cbn in Hi.
  apply lookup_insert_Some in Hi as [(<- & _)|(_ & Hi)]; [done | by eapply h6].
Qed.

(** What every step preserves *)
Definition server_inv (s : server) : Prop :=
  consistent (sv_db s) /\ Forall (pending_ok (sv_db s)) (sv_pending s).

Lemma with_db_inv s db' :
  server_inv s -> consistent db' -> kept (sv_db s) db' -> server_inv (with_db s db').
Proof.
  intros [_ Hp] Hc Hk. split; [done|]. eapply Forall_impl; [exact Hp|]. intros p. by apply pending_kept.
Qed.

Lemma server_step_kept digest s s' :
  server_step digest s s' -> server_inv s -> server_inv s' /\ kept (sv_db s) (sv_db s').
Proof.
  intros Hstep Hinv. pose proof Hinv as [Hc Hp].
  enough ((exists p, sv_db s' = sv_db s /\ sv_pending s' = p :: sv_pending s /\ pending_ok (sv_db s) p)
          \/ exists db', s' = with_db s db' /\ consistent db' /\ kept (sv_db s) db')
    as [([[o w] sn] & Hdb & Hpend & Hok)|(db' & -> & Hc' & Hk)].
  { split; [split; [by rewrite Hdb | rewrite Hpend, Hdb; by constructor] | by rewrite Hdb]. }
  { split; [by apply with_db_inv | done]. }
  destruct Hstep as [opts wf snapshot Hr|opts wf snapshot rid vid now db' Hin Ht|id p ver pre db' Ht|
    p id b db' Ht|id pre now db' Ht|id st re now db' Ht|id db' Ht|id d bl db' Ht|id d bu bl db' Ht|
    id su db' Ht|id st ba d db' Ht|id db' Ht].
  - left. eexists. repeat (split; [done|]). by apply resolve_pending.
  - right. eexists. split; [done|]. rewrite Forall_forall in Hp.
    destruct (create_tx_consistent _ _ _ _ _ _ _ _ Ht Hc (Hp _ Hin)) as (? & ? & _). done.
  - right. eexists. split; [done|].
    destruct (create_version_consistent _ _ _ _ _ _ _ Ht Hc) as (? & ? & _). done.
  - right. eexists. split; [done|]. unfold MarkAsLatest in Ht. apply bind_Ok in Ht as (v & Hl & Ht).
    apply lock_version_Ok in Hl as (Hv & _ & Hd).
    destruct (promote_consistent _ _ _ _ _ Ht Hv Hd Hc) as (? & ? & _). done.
  - right. eexists. split; [done|]. by eapply version_Update_consistent.
  - right. eexists. split; [done|]. unfold MarkAsFinished in Ht. destruct (db_runs _ !! id); [|done].
    injection Ht as <-. by apply update_run_consistent.
  - right. eexists. split; [done|]. unfold Expire in Ht. destruct (db_runs _ !! id); [|done].
    injection Ht as <-. by apply update_run_consistent.
  - right. eexists. split; [done|]. apply SaveAttestationDigest_Ok in Ht as (-> & _).
    by apply update_run_consistent.
  - right. eexists. split; [done|]. apply SaveAttestationBundle_Ok in Ht as (db1 & Hd & -> & Hb & _).
    apply SaveAttestationDigest_Ok in Hd as (-> & Hs & _). rewrite <- Hb.
    destruct (update_run_consistent (sv_db s) id (set_digest d)) as [Hc1 Hk1]; [done..|].
    destruct (bundle_consistent (update_run (sv_db s) id (set_digest d)) id bu) as [Hc2 Hk2]; [|done|].
    { destruct Hs as [r Hr]. cbn. rewrite lookup_alter_eq, Hr. by eexists. }
    split; [done | by etrans].
  - right. eexists. split; [done|]. unfold UpdatePolicyStatus in Ht. destruct (db_runs _ !! id); [|done].
    injection Ht as <-. by apply update_run_consistent.
  - right. eexists. split; [done|]. unfold state_Save in Ht. apply bind_Ok in Ht as (u & _ & Ht).
    destruct (db_runs _ !! id); [|done]. injection Ht as _ <-. by apply update_run_consistent.
  - right. eexists. split; [done|]. unfold state_Reset in Ht. destruct (db_runs _ !! id); [|done].
    injection Ht as <-. by apply update_run_consistent.
Qed.

Lemma reachable_inv digest s s' :
  rtc (server_step digest) s s' -> server_inv s -> server_inv s' /\ kept (sv_db s) (sv_db s').
Proof.
  induction 1 as [|s s1 s' Hstep _ IH]; intros Hinv; [by split|].
  destruct (server_step_kept _ _ _ Hstep Hinv) as [H1 Hk1]. destruct (IH H1) as [H2 Hk2].
  split; [done | by etrans].
Qed.


(** C29: An organization that blocks attestations on released versions is
    obeyed under any interleaving: no transaction creates a run for a version
    that is released when it commits, whatever was read before, and none
    records an attestation on such a version. *)
Theorem released_versions_immutable digest s s' :
  consistent (sv_db s) -> sv_pending s = [] -> rtc (server_step digest) s s' ->
  (forall opts wf snapshot run_id version_id now db',
     (opts, wf, snapshot) ∈ sv_pending s' -> co_block_released opts = true ->
     create_tx (sv_db s') opts wf snapshot run_id version_id now = Ok db' ->
     exists w o v ver, links db' !! run_id = Some (w, o, v)
       /\ db_versions db' !! v = Some ver /\ pv_prerelease ver = true)
  /\ (forall id d bundle db', SaveAttestationBundle (sv_db s') id d bundle true = Ok db'
                              \/ SaveAttestationDigest (sv_db s') id d true = Ok db' ->
     exists r ver, db_runs (sv_db s') !! id = Some r
       /\ db_versions db' !! run_version r = Some ver /\ pv_prerelease ver = true).
Proof.
  intros Hc Hp Hr. destruct (reachable_inv _ _ _ Hr) as [[Hc' Hpend] _].
  { split; [done|]. rewrite Hp. constructor. }
  split.
  - intros opts wf snapshot run_id version_id now db' Hin Hb Ht. rewrite Forall_forall in Hpend.
    destruct (create_tx_consistent _ _ _ _ _ _ _ _ Ht Hc' (Hpend _ Hin)) as (_ & _ & v & Hl & Hv).
    destruct (Hv Hb) as (ver & ? & ?). eauto 7.
  - intros id d bundle db' H.
    assert (exists db1, SaveAttestationDigest (sv_db s') id d true = Ok db1
            /\ db_versions db' = db_versions db1) as (db1 & Hd & ->).
    { destruct H as [H|H]; [|by exists db'].
      apply SaveAttestationBundle_Ok in H as (db1 & Hd & -> & _). by exists db1. }
    apply SaveAttestationDigest_Ok in Hd as (-> & _ & Hv). by apply Hv.
Qed.

(** ** Overdue runs expire *)

Definition overdue_ids (db : DB) (t : Z) : list UUID :=
  (List.filter (fun kv => overdue t (snd kv)) (map_to_list (db_runs db))).*1.

Lemma elem_of_overdue db t id :
  id ∈ overdue_ids db t <-> exists r, db_runs db !! id = Some r /\ overdue t r = true.
Proof.
  unfold overdue_ids. rewrite list_elem_of_fmap. split.
  - intros ([k r] & -> & H). apply list_elem_of_In, filter_In in H as [H%list_elem_of_In Ho].
    apply elem_of_map_to_list in H. eauto.
  - intros (r & Hr & Ho). exists (id, r). split; [done|].
    apply list_elem_of_In, filter_In. split; [|done]. by apply list_elem_of_In, elem_of_map_to_list.
Qed.

Lemma NoDup_overdue db t : NoDup (overdue_ids db t).
Proof.
  unfold overdue_ids. pose proof (NoDup_fst_map_to_list (db_runs db)) as H.
  induction (map_to_list (db_runs db)) as [|[k r] l IH]; cbn in *; [constructor|].
  apply NoDup_cons in H as [Hk H]. destruct (overdue t r); cbn; [|by apply IH].
  constructor; [|by apply IH]. intros Hin. apply Hk.
  apply list_elem_of_fmap in Hin as ([k' r'] & -> & Hin). apply list_elem_of_In, filter_In in Hin as [Hin _].
  apply list_elem_of_fmap. exists (k', r'). split; [done | by apply list_elem_of_In].
Qed.

Definition expired_row (r : RunRow) : RunRow := set_state RunExpired (run_reason r) (run_finished_at r) r.

Lemma expire_all_spec ids : forall db,
  NoDup ids -> (forall id, id ∈ ids -> is_Some (db_runs db !! id)) ->
  exists db', expire_all db ids = Ok db'
    /\ forall id, db_runs db' !! id = if bool_decide (id ∈ ids) then expired_row <$> db_runs db !! id
                                      else db_runs db !! id.
Proof.
  unfold expire_all. induction ids as [|x ids IH]; intros db Hnd Hin; cbn [foldM_result].
  - exists db. split; [done|]. intros id. rewrite bool_decide_eq_false_2 by apply not_elem_of_nil. done.
  - apply NoDup_cons in Hnd as [Hx Hnd]. destruct (Hin x) as [r Hr]; [left|].
    assert (Expire db x = Ok (update_run db x (set_state RunExpired (run_reason r) (run_finished_at r)))) as He
      by (unfold Expire; by rewrite Hr).
    rewrite He. cbn [result_bind].
    destruct (IH (update_run db x (set_state RunExpired (run_reason r) (run_finished_at r))) Hnd)
      as (db' & Hdb' & Hl).
    { intros id Hid. cbn. destruct (decide (x = id)) as [->|Hne].
      - rewrite lookup_alter_eq, Hr. by eexists.
      - rewrite lookup_alter_ne by done. apply Hin. by right. }
    exists db'. split; [exact Hdb'|]. intros id. rewrite Hl. cbn.
    destruct (decide (x = id)) as [->|Hne].
    + rewrite bool_decide_eq_false_2, bool_decide_eq_true_2 by (done || left).
      rewrite lookup_alter_eq, Hr. done.
    + rewrite lookup_alter_ne by done.
      replace (bool_decide (id ∈ x :: ids)) with (bool_decide (id ∈ ids)); [done|].
      apply bool_decide_ext. rewrite elem_of_cons. naive_solver.
Qed.

(** [n] sweeps with the same threshold *)
Fixpoint sweeps (n : nat) (db : DB) (t : Z) : result DB :=
  match n with O => Ok db | S n' => db' ← ExpirationSweep db t; sweeps n' db' t end.

(** One sweep expires the runs it lists, touches no other, and leaves the rest
    of the overdue ones for the next. *)
Lemma sweep_spec db t :
  exists db', ExpirationSweep db t = Ok db'
    /\ (length (overdue_ids db' t) = length (overdue_ids db t) - maxNumberOfRunsToExpire)%nat
    /\ forall id r, db_runs db !! id = Some r ->
         db_runs db' !! id = Some (expired_row r) /\ overdue t r = true
         \/ db_runs db' !! id = Some r.
Proof.
  unfold ExpirationSweep, ListNotFinishedOlderThan. fold (overdue_ids db t).
  set (ids := take maxNumberOfRunsToExpire (overdue_ids db t)).
  change (match maxNumberOfRunsToExpire with O => _ | S _ => _ end) with ids.
  assert (forall id, id ∈ ids -> id ∈ overdue_ids db t) as Hsub.
  { intros id Hid. rewrite <- (take_drop maxNumberOfRunsToExpire (overdue_ids db t)). set_solver. }
  pose proof (NoDup_overdue db t) as Hnd.
  destruct (expire_all_spec ids db) as (db' & Hok & Hl).
  { unfold ids. rewrite <- (take_drop maxNumberOfRunsToExpire) in Hnd. by apply NoDup_app in Hnd as (? & _). }
  { intros id Hid%Hsub. apply elem_of_overdue in Hid as (r & -> & _). by eexists. }
  exists db'. split; [done|]. split.
  - assert (overdue_ids db' t ≡ₚ drop maxNumberOfRunsToExpire (overdue_ids db t)) as Hp.
    { apply NoDup_Permutation; [apply NoDup_overdue|..].
      - rewrite <- (take_drop maxNumberOfRunsToExpire) in Hnd. by apply NoDup_app in Hnd as (_ & _ & ?).
      - intros id. rewrite elem_of_overdue. split.
        + intros (r & Hr & Ho). rewrite Hl in Hr. case_bool_decide as Hid.
          { destruct (db_runs db !! id); [|done]. injection Hr as <-.
            unfold overdue in Ho. cbn in Ho. by rewrite andb_false_r in Ho. }
          assert (id ∈ overdue_ids db t) as Hin by (apply elem_of_overdue; eauto).
          rewrite <- (take_drop maxNumberOfRunsToExpire (overdue_ids db t)) in Hin. set_solver.
        + intros Hid. assert (id ∈ overdue_ids db t) as Hin.
          { rewrite <- (take_drop maxNumberOfRunsToExpire (overdue_ids db t)). set_solver. }
          apply elem_of_overdue in Hin as (r & Hr & Ho). exists r. split; [|done].
          rewrite Hl, bool_decide_eq_false_2; [done|]. intros Ht.
          rewrite <- (take_drop maxNumberOfRunsToExpire) in Hnd. apply NoDup_app in Hnd as (_ & Hdis & _).
          by eapply Hdis. }
    by rewrite Hp, length_drop.
  - intros id r Hr. rewrite Hl, Hr. case_bool_decide as Hid; [|by right]. left. split; [done|].
    apply Hsub, elem_of_overdue in Hid as (r' & Hr' & Ho). congruence.
Qed.

(** C30: Abandoned runs always end: each sweep succeeds, a run that is not overdue
    is never touched, and a run still initialized past the threshold is expired,
    with its state dropped, after at most one sweep per hundred of them. *)
Theorem abandoned_runs_expire db t n :
  (length (overdue_ids db t) <= n * maxNumberOfRunsToExpire)%nat ->
  exists db', sweeps n db t = Ok db' /\ overdue_ids db' t = []
    /\ forall id r, db_runs db !! id = Some r ->
         db_runs db' !! id = Some (if overdue t r then expired_row r else r).
Proof.
  revert db. induction n as [|n IH]; intros db Hn; cbn [sweeps].
  - exists db. split; [done|]. assert (overdue_ids db t = []) as He by (apply nil_length_inv; lia).
    split; [done|]. intros id r Hr. destruct (overdue t r) eqn:E; [|done].
    assert (id ∈ overdue_ids db t) as Hin by (apply elem_of_overdue; eauto). rewrite He in Hin.
    by apply not_elem_of_nil in Hin.
  - destruct (sweep_spec db t) as (db1 & Hs & Hlen & Hrows). rewrite Hs. cbn.
    destruct (IH db1) as (db' & Hok & He & Hr'); [lia|]. exists db'. split; [done|]. split; [done|].
    intros id r Hr. destruct (Hrows _ _ Hr) as [[H1 Ho]|H1]; rewrite (Hr' _ _ H1).
    + rewrite Ho. unfold overdue. cbn. by rewrite andb_false_r.
    + done.
Qed.

(** Expiring does not look at the state of the run again: a run that succeeds
    between the listing of the overdue runs and its expiration ends as expired,
    with its attestation recorded. *)
Theorem expiration_overrides_success db id r t now :
  db_runs db !! id = Some r -> overdue t r = true ->
  exists db1 db2, MarkAsFinished db id RunSuccess "" now = Ok db1
    /\ id ∈ overdue_ids db t /\ expire_all db1 [id] = Ok db2
    /\ exists r', db_runs db2 !! id = Some r' /\ run_state r' = RunExpired
         /\ run_digest r' = run_digest r /\ run_finished_at r' = Some now.
Proof.
  intros Hr Ho. unfold MarkAsFinished. rewrite Hr.
  assert (forall f, db_runs (update_run db id f) !! id = Some (f r)) as Hu
    by (intros f; cbn; by rewrite lookup_alter_eq, Hr).
  do 2 eexists. split; [reflexivity|]. split; [apply elem_of_overdue; eauto|].
  unfold expire_all, foldM_result, Expire. rewrite Hu. split; [reflexivity|].
  cbn. rewrite !lookup_alter_eq, Hr. cbn. eauto.
Qed.

(** ** Optimistic locking of the attestation state *)

(** A client that read the state, or saved it, and saves with the digest it was
    given *)
Lemma state_Save_Ok digest db id state base d db' :
  state_Save digest db id state base = Ok (d, db') ->
  exists r, db_runs db !! id = Some r /\ d = digest state
    /\ db' = update_run db id (set_attestation_state (Some state))
    /\ (base = "" \/ exists stored, run_attestation_state r = Some stored /\ base = digest stored).
Proof.
  unfold state_Save. intros H. apply bind_Ok in H as ([] & Hg & H).
  destruct (db_runs db !! id) as [r|] eqn:Hr; [|done]. injection H as <- <-.
  exists r. split; [done|]. split; [done|]. split; [done|].
  destruct (is_empty base) eqn:He; [left; by apply is_empty_true in He|]. right. cbn in Hg.
  destruct (run_attestation_state r) as [stored|] eqn:Hs; [|done].
  exists stored. split; [done|]. unfold guard_err in Hg. case_bool_decide; [done|discriminate].
Qed.

Lemma state_Save_Read digest db id state base d db' :
  state_Save digest db id state base = Ok (d, db') -> state_Read digest db' id = Ok (state, d).
Proof.
  intros (r & Hr & -> & -> & _)%state_Save_Ok. unfold state_Read. cbn. by rewrite lookup_alter_eq, Hr.
Qed.

(** C28: The state of an attestation in progress is never overwritten by an update
    that was computed from an older one: a save that names the digest of the
    state it started from succeeds exactly when that state is still stored, is
    then what the next read returns, and of two saves that started from the same
    state and change it only the first succeeds; the second is told that there
    is a conflict.  The digest is assumed to tell the states apart. *)
Theorem no_lost_update digest db id s0 d0 :
  Inj (=) (=) digest -> (forall s, digest s <> "") ->
  state_Read digest db id = Ok (s0, d0) ->
  forall s1, exists db1, state_Save digest db id s1 d0 = Ok (digest s1, db1)
    /\ state_Read digest db1 id = Ok (s1, digest s1)
    /\ (s1 <> s0 -> forall s2, state_Save digest db1 id s2 d0
                                = Err (NewErrAttestationStateConflict (digest s1) d0))
    /\ (forall s2, exists db2, state_Save digest db1 id s2 (digest s1) = Ok (digest s2, db2)).
Proof.
  intros Hinj Hne Hr s1. unfold state_Read in Hr.
  destruct (db_runs db !! id) as [r|] eqn:Hrow; [cbn in Hr|done].
  destruct (run_attestation_state r) as [s|] eqn:Hs; [injection Hr as -> <-|done].
  assert (is_empty (digest s0) = false) as He0 by (apply is_empty_false, Hne).
  assert (is_empty (digest s1) = false) as He1 by (apply is_empty_false, Hne).
  assert (state_Save digest db id s1 (digest s0)
          = Ok (digest s1, update_run db id (set_attestation_state (Some s1)))) as Hsave.
  { unfold state_Save. rewrite He0, Hrow. cbn. rewrite Hs. by rewrite bool_decide_eq_true_2. }
  exists (update_run db id (set_attestation_state (Some s1))). split; [done|].
  split; [by eapply state_Save_Read|].
  assert (db_runs (update_run db id (set_attestation_state (Some s1))) !! id
          = Some (set_attestation_state (Some s1) r)) as Hrow'.
  { cbn. by rewrite lookup_alter_eq, Hrow. }
  split.
  - intros Hd s2. unfold state_Save. rewrite He0, Hrow'. cbn.
    rewrite bool_decide_eq_false_2; [done|]. intros H. by apply Hinj in H.
  - intros s2. eexists. unfold state_Save. rewrite He1, Hrow'. cbn.
    by rewrite bool_decide_eq_true_2.
Qed.

(** Without a base digest there is no lock: the save succeeds whatever is
    stored, as the clients that predate the lock rely on. *)
Theorem save_without_base_overwrites digest db id r state :
  db_runs db !! id = Some r ->
  exists db', state_Save digest db id state "" = Ok (digest state, db')
    /\ state_Read digest db' id = Ok (state, digest state).
Proof.
  intros Hr. assert (state_Save digest db id state ""
    = Ok (digest state, update_run db id (set_attestation_state (Some state)))) as Hs.
  { unfold state_Save. by rewrite Hr. }
  eexists. split; [exact Hs | by eapply state_Save_Read].
Qed.

(** ** Concrete runs *)

Definition toy_row : WorkflowRow :=
  {| wr_name := "build"; wr_team := ""; wr_description := ""; wr_contract := "contract";
     wr_organization := "org"; wr_project := "project"; wr_deleted := false; wr_runs_count := 0;
     wr_latest_run := None; wr_template := None; wr_metadata := ""; wr_created_at := 0; wr_updated_at := 0 |}.

Definition toy_db : DB :=
  {| db_workflows := {["wf" := toy_row]}; db_versions := ∅; db_runs := ∅; db_bundles := ∅ |}.

Definition toy_opts : RunCreateOpts :=
  {| co_workflow := "wf"; co_contract_version := "cv"; co_url := ""; co_runner_type := "";
     co_backends := []; co_revision_latest := 1; co_revision_used := 1; co_version := "v1";
     co_use_latest := false; co_require_existing := false; co_mark_latest := None;
     co_block_released := true |}.

Definition ok_or {A} (a : A) (r : result A) : A := match r with Ok x => x | Err _ => a end.

Definition toy_versioned : DB :=
  ok_or toy_db (createProjectVersionWithTx toy_db "v1id" "project" "v1" true None).
Definition toy_running : DB :=
  ok_or toy_db (create_tx toy_versioned toy_opts toy_row (Some "v1id") "run" "unused" 10).
Definition toy_saved : DB :=
  ok_or toy_db (SaveAttestationBundle toy_running "run" "sha256:1" "bundle" true).
Definition toy_released : DB := ok_or toy_db (version_Update toy_versioned "v1id" (Some false) 20).

Lemma toy_consistent : consistent toy_db.
Proof.
  split; cbn; intros *.
  1,2: by rewrite lookup_empty.
  - unfold links. cbn. by rewrite fmap_empty, lookup_empty.
  - intros [<- <-]%lookup_singleton_Some. reflexivity.
  - by rewrite lookup_empty.
  - by rewrite lookup_empty.
Qed.

Lemma toy_reaches digest :
  rtc (server_step digest) {| sv_db := toy_db; sv_pending := [] |}
    {| sv_db := toy_saved; sv_pending := [(toy_opts, toy_row, Some "v1id")] |}.
Proof.
  eapply rtc_l; [eapply (step_create_version _ _ "v1id" "project" "v1" true toy_versioned); vm_compute; reflexivity|].
  eapply rtc_l; [eapply (step_resolve _ _ toy_opts toy_row (Some "v1id")); vm_compute; reflexivity|].
  eapply rtc_l; [eapply (step_create _ _ toy_opts toy_row (Some "v1id") "run" "unused" 10 toy_running);
                   [left | vm_compute; reflexivity]|].
  eapply rtc_l; [eapply (step_save_bundle _ _ "run" "sha256:1" "bundle" true toy_saved); vm_compute; reflexivity|].
  apply rtc_refl.
Qed.


(** A creation that read an unreleased version fails once that version is
    released. *)
Lemma released_versions_immutable_witness :
  (exists r ver, db_runs toy_saved !! "run" = Some r
     /\ db_versions toy_saved !! run_version r = Some ver /\ pv_prerelease ver = true)
  /\ create_tx toy_released toy_opts toy_row (Some "v1id") "run" "unused" 30
     = Err (NewErrReleasedVersionImmutable "v1").
Proof.
  split; [|vm_compute; reflexivity].
  destruct (released_versions_immutable (fun s => s) {| sv_db := toy_db; sv_pending := [] |} _
              toy_consistent eq_refl (toy_reaches _)) as [_ H].
  destruct (H "run" "sha256:1" "" toy_saved) as (r & ver & Hr & Hv & Hp).
  { right. vm_compute. reflexivity. }
  exists r, ver. auto.
Defined.

Lemma abandoned_runs_expire_witness :
  exists db', sweeps 1 toy_running 20 = Ok db' /\ overdue_ids db' 20 = []
    /\ run_state <$> (db_runs db' !! "run") = Some RunExpired.
Proof.
  destruct (abandoned_runs_expire toy_running 20 1) as (db' & Hs & He & Hr); [vm_compute; lia|].
  exists db'. split; [exact Hs|]. split; [exact He|].
  destruct (db_runs toy_running !! "run") as [r|] eqn:E; [|vm_compute in E; discriminate].
  rewrite (Hr _ _ E). vm_compute in E. injection E as <-. reflexivity.
Defined.

Lemma expiration_overrides_success_witness :
  exists db1 db2, MarkAsFinished toy_running "run" RunSuccess "" 15 = Ok db1
    /\ "run" ∈ overdue_ids toy_running 20 /\ expire_all db1 ["run"] = Ok db2
    /\ run_state <$> (db_runs db2 !! "run") = Some RunExpired.
Proof.
  destruct (db_runs toy_running !! "run") as [r|] eqn:E; [|vm_compute in E; discriminate].
  destruct (expiration_overrides_success toy_running "run" r 20 15)
    as (db1 & db2 & H1 & Hin & H2 & r' & Hr' & Hs & _).
  - exact E.
  - vm_compute in E. injection E as <-. reflexivity.
  - exists db1, db2. rewrite Hr'. cbn. rewrite Hs. auto.
Defined.

(** A digest that tells the states apart *)
Definition toy_digest (s : string) : string := "d" +:+ s.

Definition toy_stateful : DB := update_run toy_running "run" (set_attestation_state (Some "s0")).

Lemma no_lost_update_witness :
  exists db1, state_Save toy_digest toy_stateful "run" "s1" "ds0" = Ok ("ds1", db1)
    /\ state_Save toy_digest db1 "run" "s2" "ds0" = Err (NewErrAttestationStateConflict "ds1" "ds0").
Proof.
  destruct (no_lost_update toy_digest toy_stateful "run" "s0" "ds0") with (s1 := "s1")
    as (db1 & H1 & _ & H2 & _).
  - intros a b H. by injection H.
  - intros s H. discriminate H.
  - vm_compute. reflexivity.
  - exists db1. split; [exact H1|]. apply H2. discriminate.
Defined.

Lemma save_without_base_overwrites_witness :
  exists db', state_Save toy_digest toy_stateful "run" "s1" "" = Ok ("ds1", db')
    /\ state_Read toy_digest db' "run" = Ok ("s1", "ds1").
Proof.
  destruct (db_runs toy_stateful !! "run") as [r|] eqn:E; [|vm_compute in E; discriminate].
  exact (save_without_base_overwrites toy_digest toy_stateful "run" r "s1" E).
Defined.
