(* ===== verification/RunListing.v ===== *)
(** * Listing the runs of an organization

    [List] of app/controlplane/pkg/data/workflowrun.go: the runs of an
    organization, filtered, from the newest, a page at a time.  The query orders
    the runs by their creation time only; the order of runs that were created at
    the same time is the database's, a parameter. *)

From S2P Require Import Prelude.
From S2P Require Import GoStrings.
From S2P Require Import Renderer.
From S2P Require Import BizErrors.
From S2P Require Import Pagination.
From S2P Require Import RunStore.

Open Scope Z_scope.

(** [RunListFilters]; a filter that is [None] is not applied *)
Record RunListFilters := {
  rl_workflow : option UUID;
  rl_version : option UUID;
  rl_status : option WorkflowRunStatus;
  rl_projects : option (list UUID);
  rl_violations : option bool;
  rl_policy_status : option PolicyStatus;
  rl_has_gates : option bool
}.

Definition filter_by {A B} `{EqDecision B} (f : A -> B) (wanted : option B) (a : A) : bool :=
  match wanted with Some b => bool_decide (f a = b) | None => true end.

(** The conditions of the query; the status of the policies takes precedence over
    the filter on violations *)
Definition run_matches (db : DB) (org : UUID) (f : RunListFilters) (r : RunRow) : bool :=
  bool_decide (run_organization r = org)
  && match db_workflows db !! run_workflow r with
     | Some wf => negb (wr_deleted wf)
                  && match rl_projects f with
                     | Some ps => bool_decide (wr_project wf ∈ ps) | None => true end
     | None => false
     end
  && filter_by run_workflow (rl_workflow f) r
  && filter_by run_state (rl_status f) r
  && filter_by run_version (rl_version f) r
  && match rl_policy_status f with
     | Some s => bool_decide (sum_status <$> run_policy_status r = Some s)
     | None => match rl_violations f with
               | Some b => bool_decide (run_has_violations r = Some b) | None => true end
     end
  && match rl_has_gates f with
     | Some b => bool_decide (sum_has_gates <$> run_policy_status r = Some b) | None => true end.

Definition matching_runs (db : DB) (org : UUID) (f : RunListFilters) : list (UUID * RunRow) :=
  List.filter (fun kv => run_matches db org f (snd kv)) (map_to_list (db_runs db)).

Definition run_position (kv : UUID * RunRow) : Z * UUID := (run_created_at (snd kv), fst kv).

Section Listing.
(** ORDER BY created_at DESC *)
Context (order : list (UUID * RunRow) -> list (UUID * RunRow)).

(** [List] *)
Definition run_List (db : DB) (org : UUID) (f : RunListFilters) (p : option CursorOptions)
    : result (list (UUID * RunRow) * option (Z * UUID)) :=
  match p with
  | None => Err (EMsg "pagination options is required")
  | Some p => Ok (page run_position order (matching_runs db org f) p)
  end.

(** A client that lists all the pages *)
Definition list_all (db : DB) (org : UUID) (f : RunListFilters) (limit : nat) : list (UUID * RunRow) :=
  let rows := matching_runs db org f in walk run_position order (length rows) rows limit None.

(** A later run comes first *)
Definition later (a b : UUID * RunRow) : Prop := run_created_at (snd b) <= run_created_at (snd a).

Context (order_Permutation : forall l, order l ≡ₚ l).
Context (order_sorted : forall l, StronglySorted later (order l)).

Lemma matching_runs_NoDup db org f : NoDup (matching_runs db org f).
Proof.
  unfold matching_runs. apply NoDup_ListNoDup, List.NoDup_filter, NoDup_ListNoDup, NoDup_map_to_list.
Qed.

Lemma elem_of_matching db org f id r :
  (id, r) ∈ matching_runs db org f <-> db_runs db !! id = Some r /\ run_matches db org f r = true.
Proof.
  unfold matching_runs. rewrite <- elem_of_map_to_list, !list_elem_of_In, filter_In. done.
Qed.

(** Following the cursors of the listing shows every run that matches the
    filters exactly once, whatever the size of a page, when no two of them were
    created at the same time. *)
Theorem run_pages_complete db org f limit :
  (0 < limit)%nat ->
  (forall i j r r', db_runs db !! i = Some r -> db_runs db !! j = Some r' ->
     run_created_at r = run_created_at r' -> i = j) ->
  list_all db org f limit ≡ₚ matching_runs db org f /\ NoDup (list_all db org f limit)
  /\ forall id r, (id, r) ∈ list_all db org f limit
       <-> db_runs db !! id = Some r /\ run_matches db org f r = true.
Proof.
  intros Hl Hdist. unfold list_all.
  rewrite (walk_complete run_position order (matching_runs db org f) order_Permutation).
  - split; [apply order_Permutation|]. split; [rewrite order_Permutation; apply matching_runs_NoDup|].
    intros id r. rewrite order_Permutation. apply elem_of_matching.
  - intros l Hsub Hnd.
    assert (forall a b, a ∈ l -> b ∈ l -> a <> b -> later a b -> newer run_position a b) as Hstrict.
    { intros [i r] [j r'] Ha Hb Hne Hlt. unfold newer. apply older_spec. left. cbn.
      apply Hsub, elem_of_matching in Ha as [Ha _]. apply Hsub, elem_of_matching in Hb as [Hb _].
      unfold later in Hlt. cbn in Hlt. destruct (decide (run_created_at r' = run_created_at r)) as [He|]; [|lia].
      destruct Hne. assert (i = j) as -> by (by eapply Hdist). congruence. }
    pose proof (order_sorted l) as Hs. pose proof (order_Permutation l) as Hp.
    assert (NoDup (order l)) as Hnd' by (by rewrite Hp).
    assert (forall a, a ∈ order l -> a ∈ l) as Hin by (intros a; by rewrite Hp).
    clear Hp Hsub. induction Hs as [|a l' Hs IH Hf]; [constructor|].
    apply NoDup_cons in Hnd' as [Ha Hnd']. constructor.
    + apply IH; [done|]. intros b Hb. apply Hin. by right.
    + apply Forall_forall. intros b Hb. rewrite Forall_forall in Hf. apply Hstrict.
      * apply Hin. left.
      * apply Hin. by right.
      * by intros ->.
      * by apply Hf.
  - apply matching_runs_NoDup.
  - done.
Qed.
End Listing.

(** ** Runs that were created at the same time *)

Definition no_filters : RunListFilters :=
  {| rl_workflow := None; rl_version := None; rl_status := None; rl_projects := None;
     rl_violations := None; rl_policy_status := None; rl_has_gates := None |}.

Definition tied_run : RunRow := new_run toy_opts toy_row "v1id" 10.

Definition tied_db : DB :=
  with_runs toy_versioned {["run-a" := tied_run; "run-b" := tied_run]}.

(** An order that lists tied runs by increasing identifier *)
Definition by_creation (a b : UUID * RunRow) : Prop :=
  run_created_at (snd b) < run_created_at (snd a)
  \/ run_created_at (snd b) = run_created_at (snd a) /\ str_le (fst a) (fst b).
#[export] Instance by_creation_dec a b : Decision (by_creation a b).
Proof. unfold by_creation. apply _. Defined.

Lemma by_creation_sorted l : StronglySorted later (merge_sort by_creation l).
Proof.
  apply Sorted_StronglySorted.
  { intros a b c. unfold later. lia. }
  assert (Sorted by_creation (merge_sort by_creation l)) as Hs.
  { apply Sorted_merge_sort. intros a b. unfold by_creation, str_le.
    destruct (Z.lt_trichotomy (run_created_at (snd a)) (run_created_at (snd b))) as [?|[?|?]]; [right; auto| |left; auto].
    destruct (str_compare (fst a) (fst b)) eqn:E; [left|left|right]; right; (split; [done|]); try done.
    rewrite str_compare_antisym, E. done. }
  induction Hs as [|a l' Hs IH Hd]; constructor; [done|].
  destruct Hd as [|b l'' Hb]; constructor. unfold by_creation in Hb. unfold later. lia.
Qed.

(** With two runs that were created at the same time the listing may skip
    one: the query leaves their order open while the cursor compares their
    identifiers, so that the page after the first run is empty when that run has
    the smaller identifier. *)
Theorem run_pages_skip_ties :
  (forall l, StronglySorted later (merge_sort by_creation l) /\ merge_sort by_creation l ≡ₚ l)
  /\ fst <$> matching_runs tied_db "org" no_filters ≡ₚ ["run-a"; "run-b"]
  /\ fst <$> list_all (merge_sort by_creation) tied_db "org" no_filters 1 = ["run-a"].
Proof.
  split; [|split; vm_compute; reflexivity].
  intros l. split; [apply by_creation_sorted | apply merge_sort_Permutation].
Qed.

Lemma run_pages_complete_witness :
  exists r, ("run", r) ∈ list_all (merge_sort by_creation) toy_running "org" no_filters 1.
Proof.
  destruct (run_pages_complete (merge_sort by_creation)) with (db := toy_running) (org := "org")
    (f := no_filters) (limit := 1%nat) as (_ & _ & Hin).
  - intros l. apply merge_sort_Permutation.
  - intros l. apply by_creation_sorted.
  - lia.
  - intros i j r r' Hi Hj _. vm_compute in Hi, Hj.
    assert (forall k x, toy_running.(db_runs) !! k = Some x -> k = "run") as Hk.
    { intros k x Hx. change (db_runs toy_running) with
        (<["run" := new_run toy_opts toy_row "v1id" 10]> (∅ : gmap UUID RunRow)) in Hx.
      apply lookup_insert_Some in Hx as [[? _]|[_ Hx]]; [done|]. by rewrite lookup_empty in Hx. }
    rewrite (Hk i r Hi), (Hk j r' Hj). reflexivity.
  - destruct (db_runs toy_running !! "run") as [r|] eqn:E; [|vm_compute in E; discriminate].
    exists r. apply Hin. split; [exact E|]. vm_compute in E. injection E as <-. vm_compute. reflexivity.
Defined.
