(* ===== verification/WorkflowRuns.v ===== *)
(** * Workflow runs: accepting and reading attestations

    app/controlplane/pkg/biz/workflowrun.go over the tables of RunStore: creating
    runs, what an attestation must satisfy to be stored, and how it is read and
    verified again.

    Identifiers are parsed by google/uuid, bundles by protobuf and payloads by the
    decoders of Renderer: these are parameters.  The tables of organizations and
    of contract revisions, which this code only reads, are fields of the state.
    An operation returns the database also when it fails, with what it has
    committed. *)

From S2P Require Import Prelude.
From S2P Require Import GoStrings.
From S2P Require Import Envelope.
From S2P Require Import Contract.
From S2P Require Import PolicyEngine.
From S2P Require Import CraftingState.
From S2P Require Import Renderer.
From S2P Require Import Verifier.
From S2P Require Import BizErrors.
From S2P Require Import Signing.
From S2P Require Import RunStore.

Definition DefaultVersionName : string := "v0".

(** The decoders of what a bundle holds *)
Class Decoders := {
  dec_uuid :: UuidLib;
  dec_int32_of : string -> Z;
  dec_DecodeB64Payload : DsseEnvelope -> result string;
  dec_unmarshal_statement : string -> result IntotoStatement;
  dec_decode_predicate : jobject -> result ProvenancePredicateV02;
  dec_format_number : string -> string;
  dec_marshal_json : json -> result string
}.

(** A panic propagates through every caller *)
Fixpoint is_panic (e : goerr) : bool :=
  match e with
  | EMsg _ => false
  | ESentinel n => String.prefix "panic: " n
  | EWrap _ e' | EPolicy e' => is_panic e'
  | EWrap2 _ e1 e2 => is_panic e1 || is_panic e2
  end.

(** What this layer reads of the other tables: whether an organization blocks
    attestations on released versions, and what looking up a contract revision gives,
    whose schema may be nil *)
Record Catalog := {
  cat_organizations : gmap UUID bool;
  cat_contracts : gmap UUID (result (option CraftingSchema))
}.

Section WorkflowRuns.
Context `{Decoders} `{Crypto}.
Context {CSR SignerKey : Type} {libs : CALibraries (CSR := CSR) (SignerKey := SignerKey)}.

(** The use case of signing, nil when it is not configured *)
Context (signing : option (SigningUseCase (CSR := CSR))).

Definition extract_predicate : DsseEnvelope -> result ProvenancePredicateV02 :=
  ExtractPredicate dec_int32_of dec_DecodeB64Payload dec_unmarshal_statement dec_decode_predicate.

Definition extract_statement : DsseEnvelope -> result IntotoStatement :=
  ExtractStatement dec_DecodeB64Payload dec_unmarshal_statement.

Definition get_materials : ProvenancePredicateV02 -> list NormalizedMaterial :=
  predicate_GetMaterials dec_format_number dec_marshal_json.

Definition envelope_of_bundle : string -> result DsseEnvelope := DSSEEnvelopeFromBundleBytes unmarshal_bundle.

(** ** Creating and finishing runs *)

(** [WorkflowRunCreateOpts]; the contract revision is [None] for nil, or its
    version's identifier, the latest revision and the used one *)
Record WorkflowRunCreateOpts := {
  wo_workflow_id : string;
  wo_contract_revision : option (UUID * Z * Z);
  wo_run_url : string;
  wo_runner_type : string;
  wo_cas_backend : UUID;
  wo_project_version : string;
  wo_use_latest : bool;
  wo_require_existing : bool;
  wo_mark_as_latest : option bool;
  wo_block_released : bool
}.

(** The checks of [Create] and the options that it gives to the repository *)
Definition create_opts (opts : WorkflowRunCreateOpts) : result RunCreateOpts :=
  workflowUUID ← raw_uuid (wo_workflow_id opts);
  _ ← guard_err (bool_decide (wo_cas_backend opts = uuid_Nil)) (EMsg "CASBackendID cannot be nil");
  match wo_contract_revision opts with
  | None => Err (EMsg "contract revision cannot be nil")
  | Some (version, latest, used) =>
      _ ← guard_err (wo_use_latest opts && negb (is_empty (wo_project_version opts)))
            (NewErrValidationStr "cannot specify both a project version and use-latest-version");
      _ ← guard_err (match wo_mark_as_latest opts with Some _ => wo_use_latest opts | None => false end)
            (NewErrValidationStr "--mark-latest and --latest-version are mutually exclusive");
      let project_version :=
        if is_empty (wo_project_version opts) && negb (wo_use_latest opts) then DefaultVersionName
        else wo_project_version opts in
      _ ← (if is_empty project_version then Ok tt else ValidateVersion project_version);
      Ok {| co_workflow := workflowUUID; co_contract_version := version; co_url := wo_run_url opts;
            co_runner_type := wo_runner_type opts; co_backends := [wo_cas_backend opts];
            co_revision_latest := latest; co_revision_used := used; co_version := project_version;
            co_use_latest := wo_use_latest opts; co_require_existing := wo_require_existing opts;
            co_mark_latest := wo_mark_as_latest opts; co_block_released := wo_block_released opts |}
  end.

(** [Create]; the identifiers are fresh *)
Definition Create (db : DB) (opts : WorkflowRunCreateOpts) (run_id version_id : UUID) (now : Z) : result DB :=
  repo_opts ← create_opts opts;
  '(wf, snapshot) ← resolve_version db repo_opts;
  create_tx db repo_opts wf snapshot run_id version_id now.

(** [ExistsInWorkflow] *)
Definition ExistsInWorkflow (db : DB) (workflowID id : string) : result bool :=
  runUUID ← raw_uuid id;
  Ok (match FindByID db runUUID with
      | Some r => bool_decide (run_workflow r = workflowID) | None => false end).

(** [WorkflowRunUseCase.MarkAsFinished] *)
Definition uc_MarkAsFinished (db : DB) (id : string) (status : WorkflowRunStatus) (reason : string) (now : Z)
    : result DB :=
  runID ← parse_uuid id; MarkAsFinished db runID status reason now.

(** ** Verifying *)

Record VerificationResult := {
  vr_Result : bool;
  vr_FailureReason : goerr;
  vr_TrustConfigFault : bool
}.

Definition failed_verification (reason : string) : VerificationResult :=
  {| vr_Result := false; vr_FailureReason := EMsg reason; vr_TrustConfigFault := false |}.

(** The roots of the instance, as the verifier takes them *)
Definition verifier_roots (su : SigningUseCase) : result (option TrustedRoot) :=
  match GetTrustedRoot sha256_hex su with
  | Err e => if IsErrNotImplemented e then Ok None else Err (EWrap "getting trusted root" e)
  | Ok tr => Some <$> map_err (EWrap "parsing roots") (trustedRootBizToVerifier tr)
  end.

(** [verifyBundle]; the result is [None] when there is nothing to verify *)
Definition verifyBundle (su : SigningUseCase) (bundle expectedOrg : string)
    : result (option VerificationResult) :=
  roots ← verifier_roots su;
  match roots with
  | None => Ok None
  | Some tr =>
      match VerifyBundle (Some bundle) tr expectedOrg with
      | Ok _ => Ok (Some {| vr_Result := true; vr_FailureReason := EMsg ""; vr_TrustConfigFault := false |})
      | Err e =>
          if is_panic e then Err e
          else if errors_is ErrMissingVerificationMaterial e then Ok None
          else if errors_is ErrInvalidBundle e then Err e
          else Ok (Some {| vr_Result := false; vr_FailureReason := e;
                           vr_TrustConfigFault := IsTrustConfigError e |})
      end
  end.

(** [verifyRunBundle] *)
Definition verifyRunBundle (su : SigningUseCase) (bundle expectedOrg : string)
    : result (option VerificationResult) :=
  let r := verifyBundle su bundle expectedOrg in
  if negb (su_ForceVerification su) then r
  else
    match r with
    | Err e => if is_panic e then Err e
               else if errors_is ErrInvalidBundle e
               then Ok (Some (failed_verification "the attestation is not a valid bundle"))
               else Err e
    | Ok None => Ok (Some (failed_verification "the attestation has no verification material"))
    | Ok (Some v) => Ok (Some v)
    end.

(** The workflow of a run, which the queries load *)
Definition workflow_of (db : DB) (r : RunRow) : option WorkflowRow := db_workflows db !! run_workflow r.

(** [verifyAttestationToStore] *)
Definition verifyAttestationToStore (db : DB) (r : RunRow) (bundle : string) : result unit :=
  match signing with
  | Some su =>
      if KeylessEnabled signing then
        match workflow_of db r with
        | Some wf =>
            if bool_decide (wr_organization wf = uuid_Nil)
            then Err (NewErrValidationStr "attestation verification failed: workflow run has no organization")
            else
              match verifyRunBundle su bundle (wr_organization wf) with
              | Err e => if is_panic e then Err e
                         else if errors_is ErrInvalidBundle e then Ok tt else Err e
              | Ok None => Ok tt
              | Ok (Some v) =>
                  if vr_Result v || vr_TrustConfigFault v then Ok tt
                  else Err (NewErrValidationStr "attestation verification failed")
              end
        | None => Err (NewErrValidationStr "attestation verification failed: workflow run has no organization")
        end
      else Ok tt
  | None => Ok tt
  end.

(** ** Storing an attestation *)

(** [orgBlocksReleasedVersions] *)
Definition orgBlocksReleasedVersions (cat : Catalog) (db : DB) (r : RunRow) : result bool :=
  match workflow_of db r with
  | None => Ok false
  | Some wf => match cat_organizations cat !! wr_organization wf with
               | Some b => Ok b
               | None => Err (NewErrNotFound "organization")
               end
  end.

(** [validateAgainstContract] *)
Definition validateAgainstContract (cat : Catalog) (r : RunRow) (predicate : ProvenancePredicateV02)
    : result unit :=
  _ ← guard_err (bool_decide (run_contract_version r = uuid_Nil))
        (NewErrValidationStr "workflow run has no contract revision associated");
  match cat_contracts cat !! run_contract_version r with
  | None => Err (NewErrNotFound "contract version")
  | Some (Err e) => Err (EWrap "finding contract version" e)
  | Some (Ok None) => Err (NewErrValidationStr "contract revision could not be read")
  | Some (Ok (Some schema)) =>
      let craftedNames := list_to_set (nz_name <$> get_materials predicate) in
      match ValidateMaterialsPresence (cs_materials schema) craftedNames with
      | Ok _ => Ok tt
      | Err _ => Err (NewErrValidationStr "attestation does not satisfy contract revision")
      end
  end.

(** The loop over the dependent attestations; the hash of a material that has a
    type other than STRING is never nil *)
Definition material_hash (m : NormalizedMaterial) : result string :=
  match nz_hash m with
  | Some h => Ok ("sha256:" +:+ h)
  | None => Err (panic "nil dereference")
  end.

Definition check_dependencies (db : DB) (materials : list NormalizedMaterial) : result unit :=
  foldM_result (fun _ m =>
      if bool_decide (nz_type m = MaterialType_name ATTESTATION) then
        hash ← material_hash m;
        found ← map_err (EWrap "finding attestation") (FindByAttestationDigest db hash);
        match found with
        | Some _ => Ok tt
        | None => Err (NewErrValidationStr ("dependent attestation not found: " +:+ hash))
        end
      else Ok tt) materials tt.

(** [ValidateAttestationContract] *)
Definition ValidateAttestationContract (cat : Catalog) (db : DB) (runID bundle : string) : result unit :=
  id ← parse_uuid runID;
  match FindByID db id with
  | None => Err (NewErrNotFound "workflow run")
  | Some run =>
      _ ← verifyAttestationToStore db run bundle;
      dsseEnv ← map_err (EWrap "extracting DSSE envelope") (envelope_of_bundle bundle);
      predicate ← map_err (EWrap "extracting predicate") (extract_predicate dsseEnv);
      validateAgainstContract cat run predicate
  end.

(** What [SaveAttestation] checks before it writes: the run, whether released
    versions are blocked, and the predicate *)
Definition acceptable (cat : Catalog) (db : DB) (id bundle : string)
    : result (UUID * bool * ProvenancePredicateV02) :=
  runID ← parse_uuid id;
  match FindByID db runID with
  | None => Err (NewErrNotFound "workflow run")
  | Some run =>
      block ← orgBlocksReleasedVersions cat db run;
      dsseEnv ← map_err (EWrap "extracting DSSE envelope") (envelope_of_bundle bundle);
      predicate ← map_err (EWrap "extracting predicate") (extract_predicate dsseEnv);
      _ ← verifyAttestationToStore db run bundle;
      _ ← check_dependencies db (get_materials predicate);
      _ ← validateAgainstContract cat run predicate;
      Ok (runID, block, predicate)
  end.

Definition bundle_digest (bundle : string) : string := "sha256:" +:+ sha256_hex bundle.

(** [SaveAttestation]: the bundle, or its digest only, then the policy status *)
Definition SaveAttestation (cat : Catalog) (db : DB) (id bundle : string) (skipBundlePersistence : bool)
    : DB * result string :=
  match acceptable cat db id bundle with
  | Err e => (db, Err e)
  | Ok (runID, block, predicate) =>
      let digest := bundle_digest bundle in
      match (if skipBundlePersistence
             then map_err (EWrap "saving attestation digest") (SaveAttestationDigest db runID digest block)
             else map_err (EWrap "saving attestation bundle") (SaveAttestationBundle db runID digest bundle block)) with
      | Err e => (db, Err e)
      | Ok db1 =>
          let summary := DerivePolicyStatusSummary (Some (GetPolicyEvaluationStatus predicate)) in
          match UpdatePolicyStatus db1 runID summary with
          | Err e => (db1, Err (EWrap "updating policy status" e))
          | Ok db2 => (db2, Ok digest)
          end
      end
  end.

(** ** Reading an attestation *)

(** A run with its attestation: the digest, the envelope and the bundle *)
Record RunView := {
  view_row : RunRow;
  view_digest : string;
  view_envelope : option DsseEnvelope;
  view_bundle : string
}.

(** [entWrToBizWr] on what this layer reads *)
Definition run_view (r : RunRow) : RunView :=
  {| view_row := r; view_digest := run_digest r; view_envelope := None; view_bundle := "" |}.

(** The cache of bundles, when there is one, and the download from the CAS of an
    organization, [None] when it has no such bundle *)
Record BundleSources := {
  bs_cache : option (gmap string string);
  bs_download : string -> UUID -> result (option string)
}.

(** [cacheBundle] *)
Definition cacheBundle (src : BundleSources) (digest data : string) : BundleSources :=
  {| bs_cache := (fun c => <[digest := data]> c) <$> bs_cache src; bs_download := bs_download src |}.

(** [applyBundle] *)
Definition applyBundle (v : RunView) (bundleBytes : string) : result RunView :=
  bundle ← map_err (EWrap "unmarshalling bundle") (unmarshal_bundle bundleBytes);
  env ← DSSEEnvelopeFromBundle bundle;
  Ok {| view_row := view_row v; view_digest := view_digest v; view_envelope := Some env;
        view_bundle := bundleBytes |}.

(** The third layer of [addAttestationFromBundle]: the CAS *)
Definition from_cas (db : DB) (src : BundleSources) (v : RunView) : BundleSources * result RunView :=
  match workflow_of db (view_row v) with
  | None => (src, Err (panic "nil dereference"))
  | Some wf =>
      match bs_download src (view_digest v) (wr_organization wf) with
      | Ok (Some b) => if is_empty b then (src, Ok v)
                       else (cacheBundle src (view_digest v) b, applyBundle v b)
      | Ok None | Err _ => (src, Ok v)
      end
  end.

(** [addAttestationFromBundle] *)
Definition addAttestationFromBundle (db : DB) (src : BundleSources) (id : UUID) (v : RunView)
    : BundleSources * result RunView :=
  if negb (bool_decide (run_state (view_row v) = RunSuccess)) || is_empty (view_digest v) then (src, Ok v)
  else
    match bs_cache src ≫= (fun c => c !! view_digest v) with
    | Some cached => (src, applyBundle v cached)
    | None =>
        match GetBundle db id with
        | Err e => if IsNotFound e then from_cas db src v
                   else (src, Err (EWrap "retrieving bundle from repo" e))
        | Ok b => if is_empty b then from_cas db src v
                  else (cacheBundle src (view_digest v) b, applyBundle v b)
        end
    end.

Definition in_retrieval {A} (p : BundleSources * result A) : BundleSources * result A :=
  (fst p, map_err (EWrap "retrieving attestation from bundle") (snd p)).

(** [GetByIDInOrg] *)
Definition GetByIDInOrg (db : DB) (src : BundleSources) (orgID runID : string) : BundleSources * result RunView :=
  match (org ← parse_uuid orgID; id ← parse_uuid runID;
         r ← map_err (EWrap "finding workflow run") (FindByIDInOrg db org id); Ok (id, r)) with
  | Err e => (src, Err e)
  | Ok (id, r) => in_retrieval (addAttestationFromBundle db src id (run_view r))
  end.

(** go-containerregistry's parser of digests *)
Context (NewHash : string -> result unit).

(** [GetByDigestInOrg] *)
Definition GetByDigestInOrg (db : DB) (src : BundleSources) (orgID digest : string)
    : BundleSources * result RunView :=
  match (org ← parse_uuid orgID;
         _ ← match NewHash digest with
             | Ok _ => Ok tt | Err _ => Err (NewErrValidationStr "invalid digest format") end;
         found ← map_err (EWrap "finding workflow run") (FindByAttestationDigest db digest);
         match found with
         | None => Err (NewErrNotFound "workflow run")
         | Some (id, r) =>
             match workflow_of db r with
             | None => Err (panic "nil dereference")
             | Some wf => if bool_decide (wr_organization wf = org) then Ok (id, r)
                          else Err (NewErrNotFound "workflow run")
             end
         end) with
  | Err e => (src, Err e)
  | Ok (id, r) => in_retrieval (addAttestationFromBundle db src id (run_view r))
  end.

(** [VerifyRun] *)
Definition VerifyRun (v : RunView) : result (option VerificationResult) :=
  match signing with
  | Some su =>
      if negb (KeylessEnabled signing) then Ok None
      else if is_empty (view_bundle v) then
        if is_empty (view_digest v) || negb (su_ForceVerification su) then Ok None
        else Ok (Some (failed_verification "the attestation bundle could not be retrieved"))
      else verifyRunBundle su (view_bundle v) ""
  | None => Ok None
  end.

(** ** What is stored was accepted *)

(** Under forced keyless signing, an attestation that may be stored is signed by
    a trusted certificate of the organization of its run. *)
Lemma verifyAttestationToStore_certified `{!CryptoTrust} su db r bundle :
  signing = Some su -> KeylessEnabled signing = true -> su_ForceVerification su = true ->
  verifyAttestationToStore db r bundle = Ok tt ->
  exists wf tr, workflow_of db r = Some wf /\ verifier_roots su = Ok (Some tr)
    /\ certified tr bundle (wr_organization wf).
Proof.
  intros Hs Hk Hf. unfold verifyAttestationToStore. rewrite Hk, Hs.
  destruct (workflow_of db r) as [wf|]; [|done]. case_bool_decide; [done|].
  unfold verifyRunBundle. rewrite Hf. cbn [negb]. unfold verifyBundle.
  destruct (verifier_roots su) as [[tr|]|e]; cbn [mbind result_bind]; [|done|].
  - intros Hv. exists wf, tr. split; [done|]. split; [done|].
    destruct (VerifyBundle (Some bundle) tr (wr_organization wf)) as [[]|e] eqn:Ev.
    + eapply VerifyBundle_certified; [exact Ev | by left].
    + destruct (is_panic e) eqn:Ep; [cbn in Hv; by repeat (rewrite Ep in Hv; cbn in Hv)|].
      destruct (errors_is ErrMissingVerificationMaterial e); [done|].
      destruct (errors_is ErrInvalidBundle e) eqn:Ei; [cbn in Hv; by rewrite Ep, Ei in Hv|].
      cbn in Hv. destruct (IsTrustConfigError e) eqn:Et; [|done].
      eapply VerifyBundle_certified; [exact Ev|]. right. by exists e.
  - destruct (is_panic e) eqn:Ep; [by rewrite Ep|].
    destruct (errors_is ErrInvalidBundle e) eqn:Ei; [done|]. rewrite Ep. by rewrite Ei.
Qed.

(** The payload that the signature covers is the one that the envelope has. *)
Lemma fixed_payload raw b0 b env env' :
  unmarshal_bundle raw = Ok b0 -> FixSignatureInBundle b0 = Ok b ->
  envelope_of_bundle raw = Ok env -> DSSEEnvelopeFromBundle b = Ok env' ->
  de_payload env' = de_payload env /\ de_payload_type env' = de_payload_type env.
Proof.
  intros Hu Hfix He He'. unfold envelope_of_bundle, DSSEEnvelopeFromBundleBytes in He. rewrite Hu in He.
  cbn [mbind result_bind map_err] in He. unfold FixSignatureInBundle in Hfix.
  unfold DSSEEnvelopeFromBundle, first_signature in *.
  destruct (b_dsse b0) as [[p t [|sg l]]|]; [done| |done].
  injection Hfix as <-. cbn in *. injection He as <-. by injection He' as <-.
Qed.

Lemma check_dependencies_Ok db ms :
  check_dependencies db ms = Ok tt ->
  forall m, m ∈ ms -> nz_type m = MaterialType_name ATTESTATION ->
    exists h dep, nz_hash m = Some h /\ FindByAttestationDigest db ("sha256:" +:+ h) = Ok (Some dep).
Proof.
  unfold check_dependencies. induction ms as [|x ms IH]; cbn [foldM_result]; [by intros _ m ?%not_elem_of_nil|].
  rewrite bind_Ok. intros ([] & Hx & Hms) m [->|Hm]%elem_of_cons Ht; [|by apply IH].
  rewrite bool_decide_eq_true_2 in Hx by done. apply bind_Ok in Hx as (hash & Hh & Hx).
  unfold material_hash in Hh. destruct (nz_hash x) as [h|]; [|done]. injection Hh as <-.
  apply bind_Ok in Hx as (found & Hfd & Hx). apply map_err_Ok in Hfd. destruct found as [dep|]; [|done]. eauto.
Qed.

Lemma FindByAttestationDigest_Some db digest id r :
  FindByAttestationDigest db digest = Ok (Some (id, r)) -> db_runs db !! id = Some r /\ run_digest r = digest.
Proof.
  unfold FindByAttestationDigest. intros Hf.
  destruct (List.filter _ _) as [|[i x] [|]] eqn:E; [done| |done]. injection Hf as -> ->.
  assert ((id, r) ∈ [(id, r)]) as Hin by left. rewrite <- E in Hin.
  apply list_elem_of_In, filter_In in Hin as [Hin%list_elem_of_In Hd]. split.
  - by apply elem_of_map_to_list.
  - by apply bool_decide_eq_true in Hd.
Qed.

(** What the contract of a run asks of the names of the materials *)
Definition satisfies_contract (schema : CraftingSchema) (names : gset string) : Prop :=
  (forall m, m ∈ cs_materials schema -> sm_group m = "" -> sm_optional m = false -> sm_name m ∈ names)
  /\ (forall m, m ∈ cs_materials schema -> sm_group m <> "" ->
        exists m', m' ∈ cs_materials schema /\ sm_group m' = sm_group m /\ sm_name m' ∈ names).

Lemma validateAgainstContract_Ok cat r p :
  validateAgainstContract cat r p = Ok tt ->
  exists schema, cat_contracts cat !! run_contract_version r = Some (Ok (Some schema))
    /\ satisfies_contract schema (list_to_set (nz_name <$> get_materials p)).
Proof.
  unfold validateAgainstContract. rewrite bind_Ok. intros (u & _ & Hc).
  destruct (cat_contracts cat !! _) as [[[schema|]|]|]; [|done..]. exists schema. split; [done|].
  destruct (ValidateMaterialsPresence _ _) as [[]|] eqn:Ev; [|done].
  by apply ValidateMaterialsPresence_spec in Ev.
Qed.

(** The row of a run with its attestation recorded *)
Definition attested_row (digest : string) (p : ProvenancePredicateV02) (r : RunRow) : RunRow :=
  let s := DerivePolicyStatusSummary (Some (GetPolicyEvaluationStatus p)) in
  set_policy_status (bool_decide (0 < sum_violated s)%Z) (summary_row s) (set_digest digest r).

(** The database after an attestation was stored *)
Lemma SaveAttestation_db cat db id bundle skip db' digest :
  SaveAttestation cat db id bundle skip = (db', Ok digest) ->
  exists runID block p, acceptable cat db id bundle = Ok (runID, block, p)
    /\ digest = bundle_digest bundle
    /\ db_runs db' = alter (attested_row digest p) runID (db_runs db)
    /\ db_versions db' = db_versions db /\ db_workflows db' = db_workflows db
    /\ (block = true -> exists r v, db_runs db !! runID = Some r
          /\ db_versions db !! run_version r = Some v /\ pv_prerelease v = true)
    /\ (skip = false -> db_bundles db !! runID = None /\ db_bundles db' = <[runID := bundle]> (db_bundles db)
                        /\ bundle <> "").
Proof.
  unfold SaveAttestation. destruct (acceptable cat db id bundle) as [[[runID block] p]|]; [|done].
  destruct (if skip then _ else _) as [db1|] eqn:Esave; [|done].
  destruct (UpdatePolicyStatus db1 runID _) as [db2|] eqn:Eup; [|done]. intros [= <- <-].
  exists runID, block, p. split; [done|]. split; [done|].
  unfold UpdatePolicyStatus in Eup. destruct (db_runs db1 !! runID); [|done]. injection Eup as <-. cbn.
  assert (exists dbd, SaveAttestationDigest db runID (bundle_digest bundle) block = Ok dbd
    /\ db_runs db1 = db_runs dbd /\ db_versions db1 = db_versions dbd /\ db_workflows db1 = db_workflows dbd
    /\ (skip = false -> db_bundles db !! runID = None /\ db_bundles db1 = <[runID := bundle]> (db_bundles db)
                        /\ bundle <> "")) as (dbd & Hd & Hr & Hv & Hw & Hb).
  { destruct skip; apply map_err_Ok in Esave; [by exists db1|].
    apply SaveAttestationBundle_Ok in Esave as (dbd & Hd & -> & Hb & Hn & Hne). by exists dbd. }
  apply SaveAttestationDigest_Ok in Hd as (-> & _ & Hblock). cbn in *.
  rewrite Hr, Hv, Hw. split; [|done]. by rewrite alter_alter_eq.
Qed.

(** C5: What the control plane stores was accepted.  When an attestation is
    stored, its run exists; under forced keyless signing the payload is signed
    by a certificate that a trusted authority issued to the organization of the
    run; every material that the contract revision of the run requires is
    attested; every dependent attestation is recorded; and the run records the
    digest of the bundle and the policy status of the signed payload, on a
    version that is not released if the organization blocks those. *)
Theorem stored_attestation_accepted `{!CryptoTrust} cat db id bundle skip db' digest :
  SaveAttestation cat db id bundle skip = (db', Ok digest) ->
  exists runID r env p schema,
    uuid_Parse id = Some runID /\ db_runs db !! runID = Some r
    /\ envelope_of_bundle bundle = Ok env /\ extract_predicate env = Ok p
    /\ (forall su, signing = Some su -> KeylessEnabled signing = true -> su_ForceVerification su = true ->
          exists wf tr, workflow_of db r = Some wf /\ verifier_roots su = Ok (Some tr)
            /\ certified tr bundle (wr_organization wf))
    /\ (forall b0 b env', unmarshal_bundle bundle = Ok b0 -> FixSignatureInBundle b0 = Ok b ->
          DSSEEnvelopeFromBundle b = Ok env' -> de_payload env' = de_payload env)
    /\ cat_contracts cat !! run_contract_version r = Some (Ok (Some schema))
    /\ satisfies_contract schema (list_to_set (nz_name <$> get_materials p))
    /\ (forall m, m ∈ get_materials p -> nz_type m = MaterialType_name ATTESTATION ->
          exists h i dep, nz_hash m = Some h /\ db_runs db !! i = Some dep
            /\ run_digest dep = "sha256:" +:+ h)
    /\ digest = bundle_digest bundle
    /\ db_runs db' !! runID = Some (attested_row digest p r)
    /\ (orgBlocksReleasedVersions cat db r = Ok true ->
          exists v, db_versions db !! run_version r = Some v /\ pv_prerelease v = true)
    /\ (skip = false -> db_bundles db' !! runID = Some bundle).
Proof.
  intros Hsave. destruct (SaveAttestation_db _ _ _ _ _ _ _ Hsave)
    as (runID & block & p & Hacc & Hdig & Hruns & _ & _ & Hblock & Hbun).
  unfold acceptable in Hacc. apply bind_Ok in Hacc as (u & Hu & Hacc).
  unfold FindByID in Hacc. destruct (db_runs db !! u) as [r|] eqn:Er; [|done].
  apply bind_Ok in Hacc as (bl & Hbl & Hacc). apply bind_Ok in Hacc as (env & He & Hacc).
  apply map_err_Ok in He. apply bind_Ok in Hacc as (p' & Hp & Hacc). apply map_err_Ok in Hp.
  apply bind_Ok in Hacc as ([] & Hver & Hacc). apply bind_Ok in Hacc as ([] & Hdep & Hacc).
  apply bind_Ok in Hacc as ([] & Hcon & Hacc). injection Hacc as -> -> ->.
  destruct (validateAgainstContract_Ok _ _ _ Hcon) as (schema & Hsch & Hsat).
  exists runID, r, env, p, schema.
  split. { unfold parse_uuid in Hu. destruct (uuid_Parse id); [by injection Hu as ->|done]. }
  split; [done|]. split; [done|]. split; [done|].
  split. { intros su Hs Hk Hf. by eapply verifyAttestationToStore_certified. }
  split. { intros b0 b env' Hb0 Hb Henv'. by destruct (fixed_payload _ _ _ _ _ Hb0 Hb He Henv'). }
  split; [done|]. split; [done|]. split.
  { intros m Hm Ht. destruct (check_dependencies_Ok _ _ Hdep m Hm Ht) as (h & [i dep] & Hh & Hf).
    apply FindByAttestationDigest_Some in Hf as [? ?]. by exists h, i, dep. }
  split; [done|]. split. { by rewrite Hruns, lookup_alter_eq, Er. }
  split.
  - intros Ho. rewrite Ho in Hbl. injection Hbl as <-.
    destruct (Hblock eq_refl) as (r' & v & Hr' & Hv & Hp'). exists v. rewrite Er in Hr'. by injection Hr' as <-.
  - intros Hskip. destruct (Hbun Hskip) as (_ & -> & _). by rewrite lookup_insert_eq.
Qed.

(** ** What is stored can be read *)

Lemma envelope_of_bundle_apply bundle env v :
  envelope_of_bundle bundle = Ok env ->
  applyBundle v bundle = Ok {| view_row := view_row v; view_digest := view_digest v;
                               view_envelope := Some env; view_bundle := bundle |}.
Proof.
  unfold envelope_of_bundle, DSSEEnvelopeFromBundleBytes, applyBundle.
  destruct (unmarshal_bundle bundle) as [b|]; cbn [mbind result_bind map_err]; [|done].
  destruct (first_signature b); [|done]. by intros ->.
Qed.

Lemma addAttestationFromBundle_stored db src id v bundle env :
  run_state (view_row v) = RunSuccess -> view_digest v <> "" -> bundle <> "" ->
  GetBundle db id = Ok bundle -> envelope_of_bundle bundle = Ok env ->
  (forall c b, bs_cache src = Some c -> c !! view_digest v = Some b -> b = bundle) ->
  exists src', addAttestationFromBundle db src id v
      = (src', Ok {| view_row := view_row v; view_digest := view_digest v;
                     view_envelope := Some env; view_bundle := bundle |})
    /\ (forall c, bs_cache src' = Some c -> c !! view_digest v = Some bundle).
Proof.
  intros Hst Hd Hb Hget He Hcache. unfold addAttestationFromBundle.
  rewrite bool_decide_eq_true_2, (proj2 (is_empty_false (view_digest v)) Hd) by done. cbn [negb orb].
  rewrite Hget, (proj2 (is_empty_false bundle) Hb), (envelope_of_bundle_apply _ env) by done.
  destruct (bs_cache src) as [c|] eqn:Ec; cbn [mbind option_bind].
  - destruct (c !! view_digest v) as [b|] eqn:Eb.
    + rewrite (Hcache c b eq_refl Eb), (envelope_of_bundle_apply _ env) by done. eexists. split; [reflexivity|].
      intros c' Hc'. rewrite Ec in Hc'. injection Hc' as <-. by rewrite Eb, (Hcache c b).
    + eexists. split; [reflexivity|]. intros c'. cbn. rewrite Ec. cbn. intros [= <-]. by rewrite lookup_insert_eq.
  - eexists. split; [reflexivity|]. intros c'. cbn. by rewrite Ec.
Qed.

(** An attestation that was stored, of a run that was then marked as
    successful, is read back from its organization as the very bundle that was
    sent, with its envelope and its digest, from the cache or from the database,
    and is cached for the next read; a cache is assumed to hold no other bundle
    for the digest. *)
Theorem stored_attestation_readable cat db id bundle db1 digest now db2 src orgID org runID r :
  SaveAttestation cat db id bundle false = (db1, Ok digest) ->
  uc_MarkAsFinished db1 id RunSuccess "" now = Ok db2 ->
  uuid_Parse orgID = Some org -> uuid_Parse id = Some runID -> FindByIDInOrg db org runID = Ok r ->
  (forall c b, bs_cache src = Some c -> c !! digest = Some b -> b = bundle) ->
  exists src' v env, GetByIDInOrg db2 src orgID id = (src', Ok v)
    /\ envelope_of_bundle bundle = Ok env
    /\ view_bundle v = bundle /\ view_envelope v = Some env /\ view_digest v = digest
    /\ (forall c, bs_cache src' = Some c -> c !! digest = Some bundle).
Proof.
  intros Hsave Hfin Horg Hid Hfind Hcache.
  destruct (SaveAttestation_db _ _ _ _ _ _ _ Hsave)
    as (runID' & block & p & Hacc & Hdig & Hruns & _ & Hwfs & _ & Hbun).
  destruct (Hbun eq_refl) as (_ & Hbun' & Hne). clear Hbun.
  unfold acceptable in Hacc. apply bind_Ok in Hacc as (u & Hu & Hacc).
  unfold parse_uuid in Hu. rewrite Hid in Hu. injection Hu as <-.
  destruct (FindByID db runID) as [r0|] eqn:Er0; [|done].
  apply bind_Ok in Hacc as (bl & _ & Hacc). apply bind_Ok in Hacc as (env & He & Hacc).
  apply map_err_Ok in He. repeat (apply bind_Ok in Hacc as (? & _ & Hacc)). injection Hacc as <- _ _.
  unfold uc_MarkAsFinished, parse_uuid in Hfin. rewrite Hid in Hfin. cbn [mbind result_bind] in Hfin.
  unfold FindByIDInOrg in Hfind. unfold FindByID in Er0. rewrite Er0 in Hfind.
  destruct (db_workflows db !! run_workflow r0) as [wf|] eqn:Ewf; [|done].
  case_bool_decide as Ho; [|done]. injection Hfind as <-.
  unfold MarkAsFinished in Hfin. rewrite Hruns, lookup_alter_eq, Er0 in Hfin. cbn in Hfin. injection Hfin as <-.
  unfold GetByIDInOrg, parse_uuid. rewrite Horg, Hid. cbn [mbind result_bind].
  unfold FindByIDInOrg. cbn [db_runs update_run with_runs db_workflows].
  rewrite Hruns, lookup_alter_eq, lookup_alter_eq, Er0. cbn [fmap option_fmap option_map].
  cbn [run_workflow set_state attested_row set_policy_status set_digest].
  rewrite Hwfs, Ewf, bool_decide_eq_true_2 by done. cbn [mbind result_bind map_err].
  destruct (addAttestationFromBundle_stored (update_run db1 runID (set_state RunSuccess "" (Some now))) src runID
    (run_view (set_state RunSuccess "" (Some now) (attested_row digest p r0))) bundle env)
    as (src' & -> & Hc).
  - done.
  - cbn. by rewrite Hdig.
  - done.
  - unfold GetBundle. cbn. by rewrite Hbun', lookup_insert_eq.
  - done.
  - done.
  - do 3 eexists. split; [reflexivity|]. done.
Qed.
End WorkflowRuns.

(** ** Witnesses *)

Definition toy_statement : IntotoStatement :=
  {| is_type := StatementTypeUri; is_subject := []; is_predicate_type := PredicateTypeV02; is_predicate := [] |}.

#[export] Instance toy_decoders : Decoders :=
  {| dec_uuid := {| uuid_Parse := fun s => if is_empty s then None else Some s |};
     dec_int32_of := fun _ => 0%Z;
     dec_DecodeB64Payload := fun _ => Ok "p";
     dec_unmarshal_statement := fun _ => Ok toy_statement;
     dec_decode_predicate := fun _ => provenance (fun _ => true) "v" "d" None toy_rendered;
     dec_format_number := id;
     dec_marshal_json := fun _ => Ok "" |}.

#[export] Instance toy_crypto_trust : CryptoTrust.
Proof.
  split; cbn.
  - intros raw e. do 2 (case_bool_decide; [done|]). by intros [= <-].
  - done.
  - intros c l e. destruct (Nat.eqb _ _); [by intros [= <-] | done].
  - done.
  - intros d env e. case_bool_decide; [done | by intros [= <-]].
Qed.

Definition toy_catalog (required : string) : Catalog :=
  {| cat_organizations := {["org" := true]};
     cat_contracts := {["cv" := Ok (Some
       {| cs_schema_version := "v1";
          cs_materials := [{| sm_type := SBOM_CYCLONEDX_JSON; sm_name := required; sm_optional := false;
                              sm_output := false; sm_annotations := []; sm_skip_upload := false;
                              sm_group := "" |}];
          cs_env_allow_list := []; cs_runner := None; cs_annotations := []; cs_policies := None;
          cs_policy_groups := [] |})]} |}.

Definition toy_signer : option SigningUseCase := match toy_signing with Ok s => Some s | Err _ => None end.

Definition toy_save (required bundle : string) : DB * result string :=
  SaveAttestation toy_signer (toy_catalog required) toy_running "run" bundle false.

(** An attestation without a required material, or that does not parse, is not
    stored. *)
Lemma stored_attestation_accepted_witness :
  snd (toy_save "sbom" "bundle") = Ok "sha256:bundle"
  /\ is_ok (snd (toy_save "report" "bundle")) = false /\ is_ok (snd (toy_save "sbom" "other")) = false
  /\ exists wf tr, certified tr "bundle" (wr_organization wf).
Proof.
  destruct (toy_save "sbom" "bundle") as [db' r] eqn:E.
  assert (r = Ok "sha256:bundle") as -> by (vm_compute in E; injection E as _ <-; reflexivity).
  split; [reflexivity|]. split; [vm_compute; reflexivity|]. split; [vm_compute; reflexivity|].
  destruct (stored_attestation_accepted toy_signer (toy_catalog "sbom") toy_running "run" "bundle" false db'
              "sha256:bundle" E) as (runID & row & env & p & schema & _ & _ & _ & _ & Hc & _).
  destruct toy_signer as [su|] eqn:Es; [|discriminate Es].
  destruct (Hc su) as (wf & tr & _ & _ & H).
  - reflexivity.
  - injection Es as <-. reflexivity.
  - injection Es as <-. reflexivity.
  - exists wf, tr. exact H.
Defined.

Lemma stored_attestation_readable_witness :
  exists db1 db2 src' v, toy_save "sbom" "bundle" = (db1, Ok "sha256:bundle")
    /\ uc_MarkAsFinished db1 "run" RunSuccess "" 9 = Ok db2
    /\ GetByIDInOrg db2 {| bs_cache := Some ∅; bs_download := fun _ _ => Ok None |} "org" "run" = (src', Ok v)
    /\ view_bundle v = "bundle".
Proof.
  destruct (toy_save "sbom" "bundle") as [db1 r] eqn:E.
  assert (r = Ok "sha256:bundle") as -> by (vm_compute in E; injection E as _ <-; reflexivity).
  destruct (uc_MarkAsFinished db1 "run" RunSuccess "" 9) as [db2|] eqn:Ef.
  2:{ vm_compute in E. injection E as <-. vm_compute in Ef. discriminate. }
  destruct (FindByIDInOrg toy_running "org" "run") as [row|] eqn:Er; [|vm_compute in Er; discriminate].
  destruct (stored_attestation_readable toy_signer (toy_catalog "sbom") toy_running "run" "bundle" db1
    "sha256:bundle" 9 db2 {| bs_cache := Some ∅; bs_download := fun _ _ => Ok None |} "org" "org" "run" row)
    as (src' & v & env & Hg & _ & Hb & _).
  - exact E.
  - exact Ef.
  - reflexivity.
  - reflexivity.
  - exact Er.
  - intros c b [= <-] Hl. rewrite lookup_empty in Hl. discriminate Hl.
  - exists db1, db2, src', v. auto.
Defined.
