(* ===== verification/Referrers.v ===== *)
(** * The graph of referrers

    app/controlplane/pkg/biz/referrer.go and pkg/data/referrer.go: the artifacts
    that an attestation mentions are indexed with links to it, and found again
    from a digest, within the organizations and projects that the caller may see.

    The table is indexed by digest and kind, which its unique index guarantees;
    its other columns are immutable, so that saving a referrer again only adds
    workflows and references to it.  Workflows, versions and runs are the tables
    of RunStore. *)

From S2P Require Import Prelude.
From S2P Require Import GoStrings.
From S2P Require Import Envelope.
From S2P Require Import PolicyEngine.
From S2P Require Import CraftingState.
From S2P Require Import Renderer.
From S2P Require Import BizErrors.
From S2P Require Import Pagination.
From S2P Require Import RunStore.
From S2P Require Import WorkflowRuns.

Open Scope Z_scope.

(** ** Extraction (biz/referrer.go) *)

(** A digest and a kind *)
Abbreviation refkey := (string * string)%type.

(** [Referrer]; a reference has only its digest and kind *)
Record Referrer := {
  rf_digest : string;
  rf_kind : string;
  rf_downloadable : bool;
  rf_references : list refkey;
  rf_metadata : gmap string string;
  rf_annotations : gmap string string
}.

Definition ReferrerAttestationType : string := "ATTESTATION".
Definition referrerGitHeadType : string := "GIT_HEAD_COMMIT".

(** [newRef] and [MapID] *)
Definition newRef (digest kind : string) : string := kind +:+ "-" +:+ digest.
Definition rf_key (r : Referrer) : refkey := (rf_digest r, rf_kind r).
Definition MapID (r : Referrer) : string := newRef (rf_digest r) (rf_kind r).

Definition with_references (refs : list refkey) (r : Referrer) : Referrer :=
  {| rf_digest := rf_digest r; rf_kind := rf_kind r; rf_downloadable := rf_downloadable r;
     rf_references := refs; rf_metadata := rf_metadata r; rf_annotations := rf_annotations r |}.

Definition show_bool (b : bool) : string := if b then "true" else "false".

(** The metadata of the attestation's referrer *)
Definition attestation_metadata (p : ProvenancePredicateV02) (m : Metadata) : gmap string string :=
  let status := GetPolicyEvaluationStatus p in
  list_to_map
    [("name", md_name m); ("team", md_team m); ("project", md_project m);
     ("hasPolicyViolations", show_bool (ps_has_violations status));
     ("hasGatedPolicyViolations", show_bool (ps_has_gated_violations status));
     ("projectVersion", md_project_version m);
     ("projectVersionPrerelease", show_bool (md_project_version_prerelease m));
     ("organization", md_organization m); ("contractName", md_contract_name m);
     ("contractVersion", md_contract_version m)].

(** A referrer that is linked to the attestation, in both directions *)
Definition link (att : string) (attkey : refkey) (r : Referrer) (m : gmap string Referrer)
    : gmap string Referrer :=
  alter (fun a => with_references (rf_references a ++ [rf_key r]) a) att
    (<[MapID r := with_references [attkey] r]> m).

(** The type assertions on the annotations of a subject, which panic *)
Definition assert_string (v : AnnotationValue) : result string :=
  match v with
  | AString s | AOther (JStr s) => Ok s
  | _ => Err (panic "interface conversion")
  end.

Definition assert_bool (v : AnnotationValue) : result bool :=
  match v with
  | ABool b | AOther (JBool b) => Ok b
  | _ => Err (panic "interface conversion")
  end.

(** [intotoSubjectToReferrer]; the digest is the first one that the iteration
    over the map of digests gives *)
Definition intotoSubjectToReferrer (r : ResourceDescriptor) : result (option Referrer) :=
  let digestStr := match map_to_list (rd_digest r) with
                   | (alg, val) :: _ => alg +:+ ":" +:+ val | [] => "" end in
  if bool_decide (rd_name r = SubjectGitHead) then
    _ ← guard_err (is_empty digestStr) (EMsg "no digest found for subject");
    Ok (Some {| rf_digest := digestStr; rf_kind := referrerGitHeadType; rf_downloadable := false;
                rf_references := []; rf_metadata := ∅; rf_annotations := ∅ |})
  else
    materialType ← match rd_annotations r !! AnnotationMaterialType with
                   | Some v => assert_string v | None => Ok "" end;
    uploadedToCAS ← match rd_annotations r !! AnnotationMaterialCAS with
                    | Some v => assert_bool v | None => Ok false end;
    if is_empty materialType then Ok None
    else
      _ ← guard_err (is_empty digestStr) (EMsg "no digest found for subject");
      Ok (Some {| rf_digest := digestStr; rf_kind := materialType; rf_downloadable := uploadedToCAS;
                  rf_references := []; rf_metadata := ∅; rf_annotations := ∅ |}).

Section Extraction.
Context `{Decoders}.
(** [repo.Exist(digest, WithKind(ATTESTATION))] *)
Context (attestation_exists : string -> bool).
Context (att : string) (attkey : refkey).

(** The loop over the materials *)
Definition material_step (m : gmap string Referrer) (material : NormalizedMaterial)
    : result (gmap string Referrer) :=
  match nz_hash material with
  | None => Ok m
  | Some h =>
      let hash := "sha256:" +:+ h in
      _ ← guard_err (bool_decide (nz_type material = ReferrerAttestationType) && negb (attestation_exists hash))
            (EMsg "attestation material does not exist");
      match m !! newRef hash (nz_type material) with
      | Some _ => Ok m
      | None => Ok (link att attkey
                  {| rf_digest := hash; rf_kind := nz_type material;
                     rf_downloadable := nz_uploaded_to_cas material; rf_references := [];
                     rf_metadata := ∅; rf_annotations := ∅ |} m)
      end
  end.

(** The loop over the subjects *)
Definition subject_step (m : gmap string Referrer) (subject : ResourceDescriptor)
    : result (gmap string Referrer) :=
  r ← map_err (EWrap "transforming subject to referrer") (intotoSubjectToReferrer subject);
  match r with
  | None => Ok m
  | Some r => match m !! MapID r with Some _ => Ok m | None => Ok (link att attkey r m) end
  end.

(** The referrers, sorted by their key *)
Definition sorted_referrers (m : gmap string Referrer) : list Referrer :=
  omap (fun k => m !! k) (merge_sort str_le (elements (dom m))).
End Extraction.

(** [extractReferrers] *)
Definition extractReferrers `{Decoders} (attestation_exists : string -> bool) (env : DsseEnvelope)
    (digest : string) : result (list Referrer) :=
  let key := newRef digest ReferrerAttestationType in
  predicate ← map_err (EWrap "extracting predicate") (extract_predicate env);
  match pc_metadata (pp_common predicate) with
  | None => Err (panic "nil dereference")
  | Some md =>
      let attestation :=
        {| rf_digest := digest; rf_kind := ReferrerAttestationType; rf_downloadable := true;
           rf_references := []; rf_metadata := attestation_metadata predicate md;
           rf_annotations := pc_annotations (pp_common predicate) |} in
      m ← foldM_result (material_step attestation_exists key (digest, ReferrerAttestationType))
            (get_materials predicate) {[key := attestation]};
      statement ← map_err (EWrap "extracting predicate") (extract_statement env);
      m ← foldM_result (subject_step key (digest, ReferrerAttestationType)) (is_subject statement) m;
      Ok (sorted_referrers m)
  end.

(** ** The table (data/referrer.go) *)

Record ReferrerRow := {
  rr_id : UUID;
  rr_downloadable : bool;
  rr_metadata : gmap string string;
  rr_annotations : gmap string string;
  rr_created_at : Z;
  rr_workflows : gset UUID;
  rr_references : gset refkey
}.

Abbreviation ReferrerTable := (gmap refkey ReferrerRow).

(** The upsert: the columns of an existing row are kept *)
Definition upsert (fresh : refkey -> UUID) (now : Z) (workflowID : UUID) (t : ReferrerTable) (r : Referrer)
    : ReferrerTable :=
  <[rf_key r :=
      match t !! rf_key r with
      | Some row =>
          {| rr_id := rr_id row; rr_downloadable := rr_downloadable row; rr_metadata := rr_metadata row;
             rr_annotations := rr_annotations row; rr_created_at := rr_created_at row;
             rr_workflows := {[workflowID]} ∪ rr_workflows row; rr_references := rr_references row |}
      | None =>
          {| rr_id := fresh (rf_key r); rr_downloadable := rf_downloadable r; rr_metadata := rf_metadata r;
             rr_annotations := rf_annotations r; rr_created_at := now; rr_workflows := {[workflowID]};
             rr_references := ∅ |}
      end]> t.

Definition add_references (refs : list refkey) (row : ReferrerRow) : ReferrerRow :=
  {| rr_id := rr_id row; rr_downloadable := rr_downloadable row; rr_metadata := rr_metadata row;
     rr_annotations := rr_annotations row; rr_created_at := rr_created_at row;
     rr_workflows := rr_workflows row; rr_references := list_to_set refs ∪ rr_references row |}.

(** The references of one referrer, through the map of what was stored *)
Definition relate (stored : gmap string refkey) (t : ReferrerTable) (parent : Referrer) : result ReferrerTable :=
  references ← mapM_result (fun ref =>
      match stored !! newRef (fst ref) (snd ref) with
      | Some k => Ok k | None => Err (EMsg "referrer not found") end) (rf_references parent);
  match stored !! MapID parent with
  | None => Err (panic "nil dereference")
  | Some k => match references with
              | [] => Ok t
              | _ => Ok (alter (add_references references) k t)
              end
  end.

(** [WorkflowRepo.FindByID] *)
Definition live_workflow (db : DB) (id : UUID) : result WorkflowRow :=
  match db_workflows db !! id with
  | Some wf => if wr_deleted wf then Err (NewErrNotFound "workflow") else Ok wf
  | None => Err (NewErrNotFound "workflow")
  end.

(** The keys of what was stored, by the text that names them *)
Definition stored_map (referrers : list Referrer) : gmap string refkey :=
  foldl (fun m r => <[MapID r := rf_key r]> m) ∅ referrers.

(** [Save] *)
Definition referrer_Save (fresh : refkey -> UUID) (now : Z) (db : DB) (t : ReferrerTable)
    (referrers : list Referrer) (workflowID : UUID) : result ReferrerTable :=
  _ ← map_err (EWrap "failed to find workflow") (live_workflow db workflowID);
  foldM_result (relate (stored_map referrers)) referrers
    (foldl (upsert fresh now workflowID) t referrers).

(** [Exist], of an attestation *)
Definition attestation_Exist (t : ReferrerTable) (digest : string) : bool :=
  match t !! (digest, ReferrerAttestationType) with Some _ => true | None => false end.

(** [ExtractAndPersist] *)
Definition ExtractAndPersist `{Decoders} (fresh : refkey -> UUID) (now : Z) (db : DB) (t : ReferrerTable)
    (env : DsseEnvelope) (digest workflowID : string) : result ReferrerTable :=
  workflowUUID ← parse_uuid workflowID;
  _ ← map_err (EWrap "finding workflow") (live_workflow db workflowUUID);
  referrers ← map_err (EWrap "extracting referrers") (extractReferrers (attestation_Exist t) env digest);
  map_err (EWrap "saving referrers") (referrer_Save fresh now db t referrers workflowUUID).

(** ** Visibility *)

(** The projects that are visible in an organization to which RBAC applies; an
    organization that has no entry has no restriction *)
Abbreviation VisibleProjects := (gmap UUID (list UUID)).

(** [hydrateWorkflowsInfo], also of the deleted workflows *)
Definition workflows_of (db : DB) (row : ReferrerRow) : list WorkflowRow :=
  omap (fun id => db_workflows db !! id) (elements (rr_workflows row)).

(** [isReferrerVisible] *)
Definition isReferrerVisible (db : DB) (row : ReferrerRow) (allowedOrgs : list UUID) (visible : VisibleProjects)
    : bool :=
  let wfs := workflows_of db row in
  existsb (fun wf =>
      bool_decide (wr_organization wf ∈ allowedOrgs)
      && match visible !! wr_organization wf with
         | Some projects => existsb (fun w => bool_decide (wr_project w ∈ projects)) wfs
         | None => true
         end) wfs.

(** [referrerVisibleToOrgs]: attached to a live workflow of one of them *)
Definition referrerVisibleToOrgs (db : DB) (orgs : list UUID) (row : ReferrerRow) : bool :=
  existsb (fun wf => negb (wr_deleted wf) && bool_decide (wr_organization wf ∈ orgs)) (workflows_of db row).

(** [projectVisibilityPredicate]: a project of an unrestricted organization, or
    one that is granted in its own *)
Definition project_visible (orgs : list UUID) (visible : VisibleProjects) (id : UUID) (p : ProjectRow) : bool :=
  existsb (fun org => bool_decide (pr_organization p = org)
                      && match visible !! org with
                         | Some granted => bool_decide (id ∈ granted)
                         | None => true
                         end) orgs.

(** [projectScopePredicate] on the digest of a referrer *)
Definition projectScopePredicate (db : DB) (projects : gmap UUID ProjectRow) (name version : string)
    (orgs : list UUID) (visible : VisibleProjects) (digest : string) : bool :=
  existsb (fun kv =>
    let r := snd kv in
    negb (is_empty (run_digest r)) && bool_decide (run_digest r = digest)
    && match db_versions db !! run_version r, db_workflows db !! run_workflow r with
       | Some v, Some wf =>
           negb (pv_deleted v) && (is_empty version || bool_decide (pv_version v = version))
           && match projects !! pv_project v with
              | Some p => bool_decide (pr_name p = name) && negb (pr_deleted p) | None => false end
           && negb (wr_deleted wf)
           && match projects !! wr_project wf with
              | Some p => project_visible orgs visible (wr_project wf) p | None => false end
       | _, _ => false
       end) (map_to_list (db_runs db)).

(** ** Discovery *)

(** [GetFromRootFilters]; a project without a name is no filter *)
Record GetFromRootFilters := {
  gf_root_kind : option string;
  gf_visible : VisibleProjects;
  gf_project_name : string;
  gf_project_version : string
}.

(** [StoredReferrer]; the references of a reference are not loaded *)
Record StoredReferrer := {
  sr_key : refkey;
  sr_row : ReferrerRow;
  sr_references : list (refkey * ReferrerRow)
}.

(** Rows in descending order of their creation and identifier *)
Definition position (kr : refkey * ReferrerRow) : Z * UUID := (rr_created_at (snd kr), rr_id (snd kr)).

Definition newest_first (a b : refkey * ReferrerRow) : Prop := older (position a) (position b) = false.
#[export] Instance newest_first_dec a b : Decision (newest_first a b).
Proof. unfold newest_first. apply _. Defined.

Section Discovery.
Context (db : DB) (projects : gmap UUID ProjectRow) (t : ReferrerTable).
Context (allowedOrgs : list UUID) (filters : GetFromRootFilters).

Definition project_filter : bool := negb (is_empty (gf_project_name filters)).

Definition in_project (k : refkey) : bool :=
  projectScopePredicate db projects (gf_project_name filters) (gf_project_version filters) allowedOrgs
    (gf_visible filters) (fst k).

(** The condition on an attestation when a project is asked for *)
Definition project_pred (k : refkey) : bool :=
  negb project_filter || negb (bool_decide (snd k = ReferrerAttestationType)) || in_project k.

(** The rows that a referrer refers to *)
Definition referenced (row : ReferrerRow) : list (refkey * ReferrerRow) :=
  omap (fun k => (fun r => (k, r)) <$> t !! k) (elements (rr_references row)).

(** The references that the caller may be shown *)
Definition candidates (row : ReferrerRow) : list (refkey * ReferrerRow) :=
  List.filter (fun kr => referrerVisibleToOrgs db allowedOrgs (snd kr) && project_pred (fst kr))
    (referenced row).

(** The page of references, of the default size when the caller gives none *)
Definition references_page (row : ReferrerRow) (p : option CursorOptions)
    : list (refkey * ReferrerRow) * option (Z * UUID) :=
  page position (merge_sort newest_first) (candidates row)
    (default {| cur_after := None; cur_limit := DefaultCursorLimit |} p).

(** [doGet] at the last level: the referrer itself, if it is visible *)
Definition doGet_leaf (kr : refkey * ReferrerRow) : option (refkey * ReferrerRow) :=
  if isReferrerVisible db (snd kr) allowedOrgs (gf_visible filters) then Some kr else None.

(** Whether some attestation of the project refers to the root *)
Definition referenced_in_project (row : ReferrerRow) : bool :=
  existsb (fun kr => bool_decide (snd (fst kr) = ReferrerAttestationType) && in_project (fst kr)
                     && referrerVisibleToOrgs db allowedOrgs (snd kr)) (referenced row).

(** [doGet] at the first level; [maxTraverseLevels] is one *)
Definition doGet (k : refkey) (row : ReferrerRow) (p : option CursorOptions)
    : result (StoredReferrer * option (Z * UUID)) :=
  if negb (isReferrerVisible db row allowedOrgs (gf_visible filters))
  then Err (NewErrUnauthorizedStr "referrer not allowed")
  else
    let '(page, next) := references_page row p in
    let references := omap doGet_leaf page in
    if project_filter && negb (bool_decide (snd k = ReferrerAttestationType))
       && bool_decide (references = []) && negb (referenced_in_project row)
    then Err (NewErrUnauthorizedStr "referrer not part of the requested project")
    else Ok ({| sr_key := k; sr_row := row; sr_references := references |}, next).

(** The candidates for the root *)
Definition roots (digest : string) : list (refkey * ReferrerRow) :=
  List.filter (fun kr =>
      bool_decide (fst (fst kr) = digest)
      && match gf_root_kind filters with Some kind => bool_decide (snd (fst kr) = kind) | None => true end
      && referrerVisibleToOrgs db allowedOrgs (snd kr) && project_pred (fst kr)) (map_to_list t).

(** [ReferrerRepo.GetFromRoot] *)
Definition repo_GetFromRoot (digest : string) (p : option CursorOptions)
    : result (option StoredReferrer * option (Z * UUID)) :=
  match roots digest with
  | [] => Ok (None, None)
  | [(k, row)] =>
      match doGet k row p with
      | Ok (res, next) => Ok (Some res, next)
      | Err e => if IsErrUnauthorized e then Ok (None, None) else Err (EWrap "failed to get referrer" e)
      end
  | _ => Err (NewErrReferrerAmbiguous digest)
  end.

(** [ReferrerUseCase.GetFromRoot] *)
Definition GetFromRoot (digest : string) (p : option CursorOptions)
    : result (StoredReferrer * option (Z * UUID)) :=
  match repo_GetFromRoot digest p with
  | Err e => if IsErrAmbiguousReferrer e then Err (NewErrValidationStr "please provide the referrer kind")
             else Err (EWrap "getting referrer from root" e)
  | Ok (None, _) => Err (NewErrNotFound ("artifact or piece of evidence with digest " +:+ digest))
  | Ok (Some ref, next) => Ok (ref, next)
  end.
End Discovery.

(** ** The graph of an attestation is a star *)

(** The attestation at [key] refers to every other referrer, and each of these
    to the attestation alone *)
Record star (key : string) (attkey : refkey) (m : gmap string Referrer) : Prop := {
  star_keys : forall k r, m !! k = Some r -> MapID r = k;
  star_leaves : forall k r, m !! k = Some r -> k <> key -> rf_references r = [attkey];
  star_center : exists a, m !! key = Some a /\ rf_key a = attkey
    /\ forall ref, ref ∈ rf_references a <-> exists k r, m !! k = Some r /\ k <> key /\ rf_key r = ref
}.

Lemma link_star key attkey r m :
  star key attkey m -> m !! MapID r = None -> star key attkey (link key attkey r m).
Proof.
  intros [Hk Hl (a & Ha & Hak & Href)] Hn. assert (MapID r <> key) as Hne by congruence.
  assert (forall k x, link key attkey r m !! k = Some x ->
    (k = key /\ x = with_references (rf_references a ++ [rf_key r]) a)
    \/ (k = MapID r /\ x = with_references [attkey] r)
    \/ (k <> key /\ k <> MapID r /\ m !! k = Some x)) as Hlook.
  { intros k x. unfold link. destruct (decide (k = key)) as [->|Hkk].
    - rewrite lookup_alter_eq, lookup_insert_ne, Ha by done. intros [= <-]. by left.
    - rewrite lookup_alter_ne by done. rewrite lookup_insert_Some.
      intros [[<- <-]|[? ?]]; [right; left | right; right]; done. }
  split.
  - intros k x [[-> ->]|[[-> ->]|(_ & _ & Hx)]]%Hlook; [|done|by apply Hk]. by apply Hk in Ha.
  - intros k x [[-> ->]|[[-> ->]|(Hk1 & _ & Hx)]]%Hlook Hkk; [done|done|by eapply Hl].
  - exists (with_references (rf_references a ++ [rf_key r]) a). split; [|split; [done|]].
    { unfold link. by rewrite lookup_alter_eq, lookup_insert_ne, Ha. }
    intros ref. cbn. rewrite elem_of_app, Href, list_elem_of_singleton. split.
    + intros [(k & x & Hx & Hkk & <-)| ->].
      * exists k, x. split; [|done]. unfold link. rewrite lookup_alter_ne, lookup_insert_ne by congruence. done.
      * exists (MapID r), (with_references [attkey] r). split; [|done]. unfold link.
        by rewrite lookup_alter_ne, lookup_insert_eq.
    + intros (k & x & [[-> _]|[[-> ->]|(_ & _ & Hx)]]%Hlook & Hkk & <-); [done|by right|].
      left. by exists k, x.
Qed.

Lemma steps_star {A} (step : gmap string Referrer -> A -> result (gmap string Referrer)) key attkey l m m' :
  (forall m x m', step m x = Ok m' -> m' = m \/ exists r, m !! MapID r = None /\ m' = link key attkey r m) ->
  star key attkey m -> foldM_result step l m = Ok m' ->
  star key attkey m' /\ forall k, is_Some (m !! k) -> is_Some (m' !! k).
Proof.
  intros Hstep Hs Hf. eapply (foldM_result_inv step
    (fun m' => star key attkey m' /\ forall k, is_Some (m !! k) -> is_Some (m' !! k))); [done| |exact Hf].
  intros m1 x m2 _ [Hs1 Hk1] [->|(r & Hn & ->)]%Hstep; [done|]. split; [by apply link_star|].
  intros k Hk. unfold link. apply lookup_alter_is_Some. destruct (decide (MapID r = k)) as [->|].
  - rewrite lookup_insert_eq. by eexists.
  - rewrite lookup_insert_ne by done. by apply Hk1.
Qed.

Lemma material_step_link exist key attkey m x m' :
  material_step exist key attkey m x = Ok m' ->
  m' = m \/ exists r, m !! MapID r = None /\ m' = link key attkey r m.
Proof.
  unfold material_step. destruct (nz_hash x) as [h|]; [|by intros [= <-]; left].
  rewrite bind_Ok. intros (u & _ & H1). destruct (m !! newRef _ _) eqn:E; injection H1 as <-; [by left|].
  right. eexists. split; [|reflexivity]. exact E.
Qed.

Lemma subject_step_link key attkey m x m' :
  subject_step key attkey m x = Ok m' ->
  m' = m \/ exists r, m !! MapID r = None /\ m' = link key attkey r m.
Proof.
  unfold subject_step. rewrite bind_Ok. intros ([r|] & _ & H1); [|injection H1 as <-; by left].
  destruct (m !! MapID r) eqn:E; injection H1 as <-; [by left|]. right. by exists r.
Qed.

Lemma elem_of_sorted m r : r ∈ sorted_referrers m <-> exists k, m !! k = Some r.
Proof.
  unfold sorted_referrers. rewrite list_elem_of_omap. split.
  - intros (k & _ & Hk). by exists k.
  - intros (k & Hk). exists k. split; [|done].
    rewrite merge_sort_Permutation. apply elem_of_elements, elem_of_dom. by eexists.
Qed.

Lemma sorted_MapID key attkey m :
  star key attkey m -> MapID <$> sorted_referrers m = merge_sort str_le (elements (dom m)).
Proof.
  intros [Hk _ _]. unfold sorted_referrers.
  assert (forall k, k ∈ merge_sort str_le (elements (dom m)) -> is_Some (m !! k)) as Hall.
  { intros k. rewrite merge_sort_Permutation, elem_of_elements, elem_of_dom. done. }
  induction (merge_sort str_le (elements (dom m))) as [|k l IH]; cbn; [done|].
  destruct (Hall k) as [r Hr]; [left|]. rewrite Hr. cbn. f_equal; [by apply Hk|].
  apply IH. intros k' Hk'. apply Hall. by right.
Qed.

(** What an attestation is saved as: its referrers have distinct names, refer to
    each other only, and the links go both ways *)
Record graph (attkey : refkey) (refs : list Referrer) : Prop := {
  graph_names : NoDup (MapID <$> refs);
  graph_closed : forall r ref, r ∈ refs -> ref ∈ rf_references r -> exists r', r' ∈ refs /\ rf_key r' = ref;
  graph_center : exists a, a ∈ refs /\ rf_key a = attkey
    /\ forall r, r ∈ refs -> r <> a -> rf_references r = [attkey] /\ rf_key r ∈ rf_references a
}.

Lemma star_graph key attkey m : star key attkey m -> graph attkey (sorted_referrers m).
Proof.
  intros Hs. pose proof (sorted_MapID _ _ _ Hs) as Hids. destruct Hs as [Hk Hl (a & Ha & Hak & Href)].
  split.
  - rewrite Hids, merge_sort_Permutation. apply NoDup_elements.
  - intros r ref (k & Hr)%elem_of_sorted Hin. destruct (decide (k = key)) as [->|Hne].
    + assert (a = r) as -> by congruence. apply Href in Hin as (k' & r' & Hr' & _ & He).
      exists r'. split; [apply elem_of_sorted; by exists k' | done].
    + rewrite (Hl _ _ Hr Hne) in Hin. apply list_elem_of_singleton in Hin as ->.
      exists a. split; [apply elem_of_sorted; by exists key | done].
  - exists a. split; [apply elem_of_sorted; by exists key|]. split; [done|].
    intros r (k & Hr)%elem_of_sorted Hne. assert (k <> key) by congruence.
    split; [by eapply Hl|]. apply Href. by exists k, r.
Qed.

(** The referrers of an attestation *)
Lemma extractReferrers_graph `{Decoders} exist env digest refs :
  extractReferrers exist env digest = Ok refs ->
  graph (digest, ReferrerAttestationType) refs
  /\ exists p, extract_predicate env = Ok p
     /\ forall z h, z ∈ get_materials p -> nz_hash z = Some h ->
          (exists r, r ∈ refs /\ MapID r = newRef ("sha256:" +:+ h) (nz_type z))
          /\ (nz_type z = ReferrerAttestationType -> exist ("sha256:" +:+ h) = true).
Proof.
  unfold extractReferrers. rewrite bind_Ok. intros (p & Hp & Hx). apply map_err_Ok in Hp.
  destruct (pc_metadata (pp_common p)) as [md|]; [|done].
  apply bind_Ok in Hx as (m1 & H1 & Hx). apply bind_Ok in Hx as (st & _ & Hx).
  apply bind_Ok in Hx as (m2 & H2 & [= <-]).
  set (key := newRef digest ReferrerAttestationType) in *.
  match type of H1 with foldM_result _ _ {[_ := ?a0]} = _ => set (a := a0) in * end.
  assert (star key (digest, ReferrerAttestationType) {[key := a]}) as Hs0.
  { split.
    - intros k r [<- <-]%lookup_singleton_Some. done.
    - by intros k r [<- <-]%lookup_singleton_Some.
    - exists a. rewrite lookup_singleton_eq. split; [done|]. split; [done|]. cbn. intros ref. split.
      + by intros ?%not_elem_of_nil.
      + by intros (k & r & [<- <-]%lookup_singleton_Some & ? & _). }
  destruct (steps_star _ _ _ _ _ _ (material_step_link exist key _) Hs0 H1) as [Hs1 _].
  destruct (steps_star _ _ _ _ _ _ (subject_step_link key _) Hs1 H2) as [Hs2 Hmono].
  split; [by eapply star_graph|]. exists p. split; [done|].
  intros z h Hz Hh.
  assert (is_Some (m1 !! newRef ("sha256:" +:+ h) (nz_type z))
          /\ (nz_type z = ReferrerAttestationType -> exist ("sha256:" +:+ h) = true)) as [Hin He].
  { apply list_elem_of_split in Hz as (l1 & l2 & Hz). rewrite Hz, foldM_result_app in H1.
    apply bind_Ok in H1 as (ma & Ha & H1). cbn [foldM_result] in H1. apply bind_Ok in H1 as (mb & Hb & H1).
    destruct (steps_star _ _ _ _ _ _ (material_step_link exist key _) Hs0 Ha) as [Hsa _].
    destruct (steps_star (material_step exist key (digest, ReferrerAttestationType)) key
      (digest, ReferrerAttestationType) [z] ma mb (material_step_link exist key _) Hsa) as [Hsb _].
    { cbn [foldM_result]. by rewrite Hb. }
    destruct (steps_star _ _ _ _ _ _ (material_step_link exist key _) Hsb H1) as [_ Hm].
    unfold material_step in Hb. rewrite Hh in Hb. apply bind_Ok in Hb as (u & Hg & Hb).
    apply guard_err_Ok in Hg. split.
    - apply Hm. destruct (ma !! newRef _ _) eqn:E; injection Hb as <-; [by rewrite E|].
      unfold link. apply lookup_alter_is_Some. rewrite lookup_insert_eq. by eexists.
    - intros Ht. rewrite bool_decide_eq_true_2 in Hg by done. by destruct (exist _). }
  split; [|done]. apply Hmono in Hin as [r Hr]. exists r. split; [apply elem_of_sorted; by eexists|].
  by apply (star_keys _ _ _ Hs2) in Hr.
Qed.

(** ** Saving a graph *)

Section SaveSpec.
Context (fresh : refkey -> UUID) (now : Z) (workflowID : UUID).

Definition upserted (r : Referrer) (old : option ReferrerRow) : ReferrerRow :=
  match old with
  | Some row =>
      {| rr_id := rr_id row; rr_downloadable := rr_downloadable row; rr_metadata := rr_metadata row;
         rr_annotations := rr_annotations row; rr_created_at := rr_created_at row;
         rr_workflows := {[workflowID]} ∪ rr_workflows row; rr_references := rr_references row |}
  | None =>
      {| rr_id := fresh (rf_key r); rr_downloadable := rf_downloadable r; rr_metadata := rf_metadata r;
         rr_annotations := rf_annotations r; rr_created_at := now; rr_workflows := {[workflowID]};
         rr_references := ∅ |}
  end.

Lemma upsert_insert t r : upsert fresh now workflowID t r = <[rf_key r := upserted r (t !! rf_key r)]> t.
Proof. unfold upsert, upserted. by destruct (t !! rf_key r). Qed.

Lemma upserts_lookup refs : forall t, NoDup (rf_key <$> refs) ->
  (forall r, r ∈ refs -> foldl (upsert fresh now workflowID) t refs !! rf_key r = Some (upserted r (t !! rf_key r)))
  /\ (forall k, k ∉ rf_key <$> refs -> foldl (upsert fresh now workflowID) t refs !! k = t !! k).
Proof.
  induction refs as [|x refs IH]; intros t Hnd; cbn [foldl].
  - split; [by intros r ?%not_elem_of_nil | done].
  - rewrite fmap_cons in Hnd |- *. apply NoDup_cons in Hnd as [Hx Hnd].
    destruct (IH (upsert fresh now workflowID t x) Hnd) as [Hin Hout]. split.
    + intros r [->|Hr]%elem_of_cons.
      * rewrite Hout by done. by rewrite upsert_insert, lookup_insert_eq.
      * rewrite Hin, upsert_insert, lookup_insert_ne by (try done; intros He; apply Hx; rewrite He;
          by apply list_elem_of_fmap_2). done.
    + intros k [Hk1 Hk2]%not_elem_of_cons. rewrite Hout, upsert_insert, lookup_insert_ne by done. done.
Qed.

End SaveSpec.

Lemma stored_map_lookup refs : NoDup (MapID <$> refs) ->
  forall r, r ∈ refs -> stored_map refs !! MapID r = Some (rf_key r).
Proof.
  intros Hnd r. unfold stored_map. generalize (∅ : gmap string refkey).
  revert Hnd. induction refs as [|x refs IH]; intros Hnd m; [by intros ?%not_elem_of_nil|].
  rewrite fmap_cons in Hnd. apply NoDup_cons in Hnd as [Hx Hnd]. cbn [foldl].
  intros [->|Hr]%elem_of_cons; [|by apply IH].
  assert (forall (m : gmap string refkey) k, k ∉ MapID <$> refs ->
    foldl (fun (m : gmap string refkey) (r : Referrer) => <[MapID r := rf_key r]> m) m refs !! k = m !! k) as Hfr.
  { clear. induction refs as [|y refs IH]; intros m k Hk; cbn; [done|].
    rewrite fmap_cons in Hk. apply not_elem_of_cons in Hk as [? ?]. by rewrite IH, lookup_insert_ne by done. }
  by rewrite Hfr, lookup_insert_eq.
Qed.

Lemma add_references_nil row : add_references [] row = row.
Proof. destruct row. unfold add_references. cbn. f_equal. set_solver. Qed.

(** A referrer whose references were all stored gets exactly these. *)
Lemma relate_closed refs t parent :
  NoDup (MapID <$> refs) -> parent ∈ refs ->
  (forall ref, ref ∈ rf_references parent -> exists r', r' ∈ refs /\ rf_key r' = ref) ->
  relate (stored_map refs) t parent = Ok (alter (add_references (rf_references parent)) (rf_key parent) t).
Proof.
  intros Hnd Hp Hcl. unfold relate.
  assert (forall l, (forall ref, ref ∈ l -> exists r', r' ∈ refs /\ rf_key r' = ref) ->
    mapM_result (fun ref => match stored_map refs !! newRef (fst ref) (snd ref) with
      | Some k => Ok k | None => Err (EMsg "referrer not found") end) l = Ok l) as Hmap.
  { induction l as [|ref l IH]; intros Hl; cbn [mapM_result]; [done|].
    destruct (Hl ref) as (r' & Hr' & <-); [left|].
    change (newRef (fst (rf_key r')) (snd (rf_key r'))) with (MapID r').
    rewrite (stored_map_lookup _ Hnd _ Hr'). cbn [mbind result_bind].
    rewrite IH; [done|]. intros ? ?. apply Hl. by right. }
  rewrite Hmap by done. cbn [mbind result_bind]. rewrite (stored_map_lookup _ Hnd _ Hp).
  destruct (rf_references parent) as [|ref l]; [|done]. f_equal. symmetry. apply alter_id.
  intros row _. apply add_references_nil.
Qed.

Lemma relates_lookup all refs : forall t,
  NoDup (MapID <$> all) -> NoDup (rf_key <$> refs) -> (forall r, r ∈ refs -> r ∈ all) ->
  (forall r ref, r ∈ all -> ref ∈ rf_references r -> exists r', r' ∈ all /\ rf_key r' = ref) ->
  exists t', foldM_result (relate (stored_map all)) refs t = Ok t'
    /\ (forall r, r ∈ refs -> t' !! rf_key r = add_references (rf_references r) <$> t !! rf_key r)
    /\ (forall k, k ∉ rf_key <$> refs -> t' !! k = t !! k).
Proof.
  induction refs as [|x refs IH]; intros t Hnd Hndk Hsub Hcl; cbn [foldM_result].
  - exists t. split; [done|]. split; [by intros r ?%not_elem_of_nil | done].
  - rewrite fmap_cons in Hndk |- *. apply NoDup_cons in Hndk as [Hx Hndk].
    rewrite relate_closed; [|done|apply Hsub; left|intros ref; apply Hcl; apply Hsub; left].
    cbn [mbind result_bind].
    destruct (IH (alter (add_references (rf_references x)) (rf_key x) t)) as (t' & Ht & Hin & Hout);
      [done|done|intros r Hr; apply Hsub; by right|done|].
    exists t'. split; [done|]. split.
    + intros r [->|Hr]%elem_of_cons; [by rewrite Hout, lookup_alter_eq|].
      rewrite Hin, lookup_alter_ne; [done| |done]. intros He. apply Hx. rewrite He. by apply list_elem_of_fmap_2.
    + intros k [Hk1 Hk2]%not_elem_of_cons. by rewrite Hout, lookup_alter_ne.
Qed.
Lemma NoDup_MapID_key refs : NoDup (MapID <$> refs) -> NoDup (rf_key <$> refs).
Proof.
  intros Hnd. apply (NoDup_fmap_1 (fun k => newRef (fst k) (snd k))).
  by rewrite <- list_fmap_compose.
Qed.

(** Saving a graph succeeds, and its effect *)
Lemma referrer_Save_graph fresh now db t refs attkey workflowID wf :
  graph attkey refs -> live_workflow db workflowID = Ok wf ->
  exists t', referrer_Save fresh now db t refs workflowID = Ok t'
    /\ (forall r, r ∈ refs -> t' !! rf_key r
          = Some (add_references (rf_references r) (upserted fresh now workflowID r (t !! rf_key r))))
    /\ (forall k, k ∉ rf_key <$> refs -> t' !! k = t !! k).
Proof.
  intros [Hnd Hcl _] Hwf. unfold referrer_Save. rewrite Hwf. cbn [map_err mbind result_bind].
  pose proof (NoDup_MapID_key _ Hnd) as Hndk.
  destruct (upserts_lookup fresh now workflowID refs t Hndk) as [Hup Hout].
  destruct (relates_lookup refs refs (foldl (upsert fresh now workflowID) t refs)) as (t' & Ht & Hin & Hf);
    [done|done|done|done|].
  exists t'. split; [done|]. split.
  - intros r Hr. by rewrite Hin, Hup.
  - intros k Hk. by rewrite Hf, Hout.
Qed.

Lemma ExtractAndPersist_saved `{Decoders} fresh now db t env digest workflowID id wf refs :
  uuid_Parse workflowID = Some id -> live_workflow db id = Ok wf ->
  extractReferrers (attestation_Exist t) env digest = Ok refs ->
  graph (digest, ReferrerAttestationType) refs
  /\ exists t', ExtractAndPersist fresh now db t env digest workflowID = Ok t'
    /\ (forall r, r ∈ refs -> t' !! rf_key r
          = Some (add_references (rf_references r) (upserted fresh now id r (t !! rf_key r))))
    /\ (forall k, k ∉ rf_key <$> refs -> t' !! k = t !! k).
Proof.
  intros Hid Hwf Hx. destruct (extractReferrers_graph _ _ _ _ Hx) as [Hg _]. split; [done|].
  destruct (referrer_Save_graph fresh now db t refs _ id wf Hg Hwf) as (t' & Ht & Hin & Hout).
  exists t'. split; [|done]. unfold ExtractAndPersist, parse_uuid. rewrite Hid. cbn [mbind result_bind].
  rewrite Hwf. cbn [map_err mbind result_bind]. rewrite Hx. cbn [map_err mbind result_bind]. by rewrite Ht.
Qed.

(** Once the referrers of an attestation have been extracted for a live
    workflow, saving them cannot fail, and the index then has all of them, attached
    to the workflow; the attestation and each of the others refer to each other;
    the rows that existed keep their columns and their links, and no other row
    changes. *)
Theorem attestation_indexed `{Decoders} fresh now db t env digest workflowID id wf refs :
  uuid_Parse workflowID = Some id -> live_workflow db id = Ok wf ->
  extractReferrers (attestation_Exist t) env digest = Ok refs ->
  exists t' att, ExtractAndPersist fresh now db t env digest workflowID = Ok t'
    /\ t' !! (digest, ReferrerAttestationType) = Some att
    /\ (forall r, r ∈ refs -> exists row, t' !! rf_key r = Some row /\ id ∈ rr_workflows row
          /\ (rf_key r <> (digest, ReferrerAttestationType) ->
                (digest, ReferrerAttestationType) ∈ rr_references row /\ rf_key r ∈ rr_references att)
          /\ match t !! rf_key r with
             | Some old => rr_metadata row = rr_metadata old /\ rr_annotations row = rr_annotations old
                           /\ rr_id row = rr_id old /\ rr_workflows old ⊆ rr_workflows row
                           /\ rr_references old ⊆ rr_references row
             | None => rr_metadata row = rf_metadata r /\ rr_annotations row = rf_annotations r
             end)
    /\ (forall k, k ∉ rf_key <$> refs -> t' !! k = t !! k).
Proof.
  intros Hid Hwf Hx.
  destruct (ExtractAndPersist_saved fresh now db t env digest _ _ _ _ Hid Hwf Hx) as (Hg & t' & Ht & Hin & Hout).
  destruct (graph_center _ _ Hg) as (a & Ha & Hak & Hleaves).
  eexists t', _. split; [done|]. split; [rewrite <- Hak; by apply Hin|]. split; [|done].
  intros r Hr. eexists. split; [by apply Hin|]. split; [|split].
  - unfold upserted. destruct (t !! rf_key r); cbn; set_solver.
  - intros Hne. destruct (Hleaves r Hr) as [Hr1 Hr2]; [by intros ->|]. cbn. rewrite Hr1.
    split; [set_solver|]. apply elem_of_union_l, elem_of_list_to_set. done.
  - unfold upserted. destruct (t !! rf_key r); cbn; [|done]. repeat split; [done..| |]; set_solver.
Qed.

(** ** What discovery shows *)

(** A row that the caller may see: it belongs to a live workflow of one of the
    caller's organizations, and in one of these that has it RBAC does not
    restrict the caller, or a project of the row is granted there *)
Definition may_see (db : DB) (orgs : list UUID) (visible : VisibleProjects) (row : ReferrerRow) : Prop :=
  (exists id wf, id ∈ rr_workflows row /\ db_workflows db !! id = Some wf /\ wr_deleted wf = false
     /\ wr_organization wf ∈ orgs)
  /\ exists id wf, id ∈ rr_workflows row /\ db_workflows db !! id = Some wf /\ wr_organization wf ∈ orgs
     /\ (visible !! wr_organization wf = None
         \/ exists granted id' wf', visible !! wr_organization wf = Some granted
              /\ id' ∈ rr_workflows row /\ db_workflows db !! id' = Some wf' /\ wr_project wf' ∈ granted).

Lemma elem_of_workflows_of db row wf :
  wf ∈ workflows_of db row <-> exists id, id ∈ rr_workflows row /\ db_workflows db !! id = Some wf.
Proof.
  unfold workflows_of. rewrite list_elem_of_omap. split.
  - intros (id & Hid%elem_of_elements & Hw). eauto.
  - intros (id & Hid & Hw). exists id. split; [by apply elem_of_elements | done].
Qed.

Lemma may_see_iff db orgs visible row :
  referrerVisibleToOrgs db orgs row && isReferrerVisible db row orgs visible = true
  <-> may_see db orgs visible row.
Proof.
  rewrite andb_true_iff. unfold referrerVisibleToOrgs, isReferrerVisible, may_see.
  rewrite !existsb_exists. split.
  - intros [(wf & Hin1%list_elem_of_In%elem_of_workflows_of & H1) (wf2 & Hin2%list_elem_of_In%elem_of_workflows_of & H2)].
    apply andb_true_iff in H1 as [Hd Ho%bool_decide_eq_true], H2 as [Ho2%bool_decide_eq_true Hv].
    destruct Hin1 as (id & ? & ?), Hin2 as (id2 & ? & ?). apply negb_true_iff in Hd. split; [eauto 6|].
    exists id2, wf2. split; [done|]. split; [done|]. split; [done|].
    destruct (visible !! wr_organization wf2) as [granted|]; [right|by left].
    apply existsb_exists in Hv as (w & Hw%list_elem_of_In%elem_of_workflows_of & Hp%bool_decide_eq_true).
    destruct Hw as (id' & ? & ?). by exists granted, id', w.
  - intros [(id & wf & Hr & Hw & Hd & Ho) (id2 & wf2 & Hr2 & Hw2 & Ho2 & Hv)]. split.
    + exists wf. split; [by apply list_elem_of_In, elem_of_workflows_of; eauto|].
      rewrite Hd. by apply bool_decide_eq_true_2.
    + exists wf2. split; [by apply list_elem_of_In, elem_of_workflows_of; eauto|].
      rewrite bool_decide_eq_true_2 by done. cbn.
      destruct Hv as [->|(granted & id' & wf' & -> & ? & ? & ?)]; [done|].
      apply existsb_exists. exists wf'. split; [by apply list_elem_of_In, elem_of_workflows_of; eauto|].
      by apply bool_decide_eq_true_2.
Qed.

Lemma page_incl {A} (pos : A -> Z * UUID) order rows p a :
  (forall l, order l ≡ₚ l) -> a ∈ fst (page pos order rows p) -> a ∈ rows.
Proof.
  intros Hp. unfold page.
  assert (forall n l, a ∈ take n (order (List.filter l rows)) -> a ∈ rows) as Hin.
  { intros n l Ha. assert (a ∈ order (List.filter l rows)) as Ho.
    { rewrite <- (take_drop n (order (List.filter l rows))). apply elem_of_app. by left. }
    rewrite Hp in Ho. by apply list_elem_of_In, filter_In in Ho as [Ho%list_elem_of_In _]. }
  destruct (Nat.ltb _ _); cbn [fst]; [rewrite take_take|]; apply Hin.
Qed.

Section Shown.
Context (db : DB) (projects : gmap UUID ProjectRow) (t : ReferrerTable).
Context (orgs : list UUID) (filters : GetFromRootFilters).

Lemma candidates_spec row k row' :
  (k, row') ∈ candidates db projects t orgs filters row ->
  t !! k = Some row' /\ k ∈ rr_references row /\ referrerVisibleToOrgs db orgs row' = true.
Proof.
  unfold candidates. intros [Hc%list_elem_of_In Hvis]%list_elem_of_In%filter_In.
  unfold referenced in Hc. apply list_elem_of_omap in Hc as (k0 & Hk0%elem_of_elements & Hl).
  destruct (t !! k0) as [r0|] eqn:E0; [|done]. cbn in Hl. injection Hl as -> ->.
  apply andb_true_iff in Hvis as [Hvis _]. done.
Qed.

Lemma roots_spec digest k row :
  (k, row) ∈ roots db projects t orgs filters digest ->
  t !! k = Some row /\ fst k = digest /\ referrerVisibleToOrgs db orgs row = true.
Proof.
  unfold roots. intros [Hin%list_elem_of_In Hc]%list_elem_of_In%filter_In.
  apply elem_of_map_to_list in Hin. rewrite !andb_true_iff in Hc. destruct Hc as [[[Hd _] Hv] _].
  by apply bool_decide_eq_true in Hd.
Qed.

Lemma doGet_Ok k row p sr next :
  doGet db projects t orgs filters k row p = Ok (sr, next) ->
  sr_key sr = k /\ sr_row sr = row /\ isReferrerVisible db row orgs (gf_visible filters) = true
  /\ forall k' row', (k', row') ∈ sr_references sr ->
       (k', row') ∈ candidates db projects t orgs filters row
       /\ isReferrerVisible db row' orgs (gf_visible filters) = true.
Proof.
  unfold doGet. destruct (isReferrerVisible db row orgs (gf_visible filters)) eqn:Ei; [|done]. cbn [negb].
  destruct (references_page db projects t orgs filters row p) as [pg nx'] eqn:Epg.
  destruct (_ && _ && _ && _); [done|]. intros [= <- <-]. cbn [sr_key sr_row sr_references].
  split; [done|]. split; [done|]. split; [done|].
  intros k' row' (kr & Hkr & Hleaf)%list_elem_of_omap. unfold doGet_leaf in Hleaf.
  destruct (isReferrerVisible db (snd kr) orgs (gf_visible filters)) eqn:Ek; [|done]. injection Hleaf as ->.
  split; [|done]. apply (page_incl position (merge_sort newest_first) _
    (default {| cur_after := None; cur_limit := DefaultCursorLimit |} p)); [apply merge_sort_Permutation|].
  unfold references_page in Epg. by rewrite Epg.
Qed.

Lemma GetFromRoot_Ok digest p sr next :
  GetFromRoot db projects t orgs filters digest p = Ok (sr, next) ->
  exists k row, (k, row) ∈ roots db projects t orgs filters digest
    /\ doGet db projects t orgs filters k row p = Ok (sr, next).
Proof.
  unfold GetFromRoot, repo_GetFromRoot.
  destruct (roots db projects t orgs filters digest) as [|[k row] [|]]; [done| |done].
  destruct (doGet db projects t orgs filters k row p) as [[res nx]|e] eqn:Ed.
  - intros [= <- <-]. exists k, row. split; [left | done].
  - destruct (IsErrUnauthorized e); [done|].
    by destruct (IsErrAmbiguousReferrer (EWrap "failed to get referrer" e)).
Qed.
End Shown.

(** C34: Discovery shows only what the caller may see: the artifact with the digest
    that was asked for and the ones it is linked to all belong to a live workflow
    of an organization of the caller, and to a project that is granted to the
    caller where RBAC applies; an artifact that the caller may not see is not
    found. *)
Theorem discovery_visible db projects t orgs filters digest p :
  match GetFromRoot db projects t orgs filters digest p with
  | Ok (sr, _) =>
      t !! sr_key sr = Some (sr_row sr) /\ fst (sr_key sr) = digest
      /\ may_see db orgs (gf_visible filters) (sr_row sr)
      /\ forall k row, (k, row) ∈ sr_references sr ->
           t !! k = Some row /\ k ∈ rr_references (sr_row sr) /\ may_see db orgs (gf_visible filters) row
  | Err _ => True
  end
  /\ ((forall kind row, t !! (digest, kind) = Some row -> ~ may_see db orgs (gf_visible filters) row) ->
      forall sr next, GetFromRoot db projects t orgs filters digest p <> Ok (sr, next)).
Proof.
  assert (forall sr next, GetFromRoot db projects t orgs filters digest p = Ok (sr, next) ->
    t !! sr_key sr = Some (sr_row sr) /\ fst (sr_key sr) = digest
    /\ may_see db orgs (gf_visible filters) (sr_row sr)
    /\ forall k row, (k, row) ∈ sr_references sr ->
         t !! k = Some row /\ k ∈ rr_references (sr_row sr) /\ may_see db orgs (gf_visible filters) row) as Hok.
  { intros sr next (k & row & (Hl & Hd & Hv)%roots_spec & (-> & -> & Hi & Hrefs)%doGet_Ok)%GetFromRoot_Ok.
    split; [done|]. split; [done|]. split; [apply may_see_iff; by rewrite Hv|].
    intros k' row' [(Hl' & Hk' & Hv')%candidates_spec Hi']%Hrefs.
    split; [done|]. split; [done|]. apply may_see_iff. by rewrite Hv'. }
  split.
  - destruct (GetFromRoot _ _ _ _ _ _ _) as [[sr next]|] eqn:E; [|done]. by eapply Hok.
  - intros Hno sr next E. destruct (Hok _ _ E) as (Hl & Hd & Hs & _).
    destruct (sr_key sr) as [d kind]. cbn in Hd. subst. by eapply Hno.
Qed.

(** ** Every reference is found *)

(** Rows with distinct positions are sorted strictly. *)
Lemma newest_strict l :
  (forall a b, a ∈ l -> b ∈ l -> position a = position b -> a = b) -> NoDup l ->
  StronglySorted (newer position) (merge_sort newest_first l).
Proof.
  intros Hinj Hnd.
  assert (StronglySorted newest_first (merge_sort newest_first l)) as Hs.
  { apply StronglySorted_merge_sort.
    - intros a b c. unfold newest_first. intros H1 H2. apply not_true_iff_false. intros H3.
      destruct (decide (position a = position b)) as [E|E]; [rewrite E in H3; congruence|].
      destruct (older_total _ _ E) as [Ho|Ho]; [congruence|].
      pose proof (older_trans _ _ _ Ho H3). congruence.
    - intros a b. unfold newest_first. destruct (older (position a) (position b)) eqn:E; [right|by left].
      by apply older_asym. }
  assert (NoDup (merge_sort newest_first l)) as Hnd' by (by rewrite merge_sort_Permutation).
  assert (forall a, a ∈ merge_sort newest_first l -> a ∈ l) as Hin by (intros a; by rewrite merge_sort_Permutation).
  induction Hs as [|a l' Hs IH Hf]; [constructor|]. apply NoDup_cons in Hnd' as [Ha Hnd']. constructor.
  - apply IH; [done|]. intros b Hb. apply Hin. by right.
  - rewrite Forall_forall in Hf |- *. intros b Hb. unfold newer.
    destruct (older_total (position a) (position b)) as [Ho|Ho]; [| |done].
    + intros E. apply Hinj in E as ->; [done | apply Hin; left | apply Hin; by right].
    + specialize (Hf b Hb). unfold newest_first in Hf. congruence.
Qed.

Section Pages.
Context (db : DB) (projects : gmap UUID ProjectRow) (t : ReferrerTable).
Context (orgs : list UUID) (filters : GetFromRootFilters).

(** A client that follows the cursors of a root *)
Fixpoint discover_all (fuel : nat) (k : refkey) (row : ReferrerRow) (limit : nat) (after : option (Z * UUID))
    : result (list (refkey * ReferrerRow)) :=
  match fuel with
  | O => Ok []
  | S fuel' =>
      '(sr, next) ← doGet db projects t orgs filters k row (Some {| cur_after := after; cur_limit := limit |});
      match next with
      | None => Ok (sr_references sr)
      | Some c => rest ← discover_all fuel' k row limit (Some c); Ok (sr_references sr ++ rest)
      end
  end.

Lemma discover_walk fuel k row limit : forall after,
  isReferrerVisible db row orgs (gf_visible filters) = true -> gf_project_name filters = "" ->
  discover_all fuel k row limit after
  = Ok (omap (doGet_leaf db orgs filters)
          (walk position (merge_sort newest_first) fuel (candidates db projects t orgs filters row) limit after)).
Proof.
  induction fuel as [|fuel IH]; intros after Hv Hp; [done|]. cbn [discover_all walk].
  unfold doGet. rewrite Hv. cbn [negb]. unfold references_page. cbn [default].
  destruct (page position (merge_sort newest_first) _ _) as [pg next].
  assert (project_filter filters = false) as -> by (unfold project_filter; by rewrite Hp).
  cbn [andb mbind result_bind sr_references].
  destruct next as [c|]; [|by rewrite app_nil_r].
  rewrite IH by done. cbn [mbind result_bind]. by rewrite omap_app.
Qed.

Lemma NoDup_referenced row : NoDup (referenced t row).
Proof.
  unfold referenced. pose proof (NoDup_elements (rr_references row)) as Hnd.
  induction (elements (rr_references row)) as [|k l IH]; cbn; [constructor|].
  apply NoDup_cons in Hnd as [Hk Hnd]. destruct (t !! k) as [r|]; cbn; [|by apply IH].
  constructor; [|by apply IH]. intros (k' & Hk' & Hl)%list_elem_of_omap.
  destruct (t !! k'); [|done]. cbn in Hl. by injection Hl as -> _.
Qed.

Lemma doGet_leaf_Some a b :
  doGet_leaf db orgs filters a = Some b -> a = b /\ isReferrerVisible db (snd b) orgs (gf_visible filters) = true.
Proof.
  unfold doGet_leaf. destruct (isReferrerVisible db (snd a) orgs _) eqn:E; [|done]. by intros [= <-].
Qed.

Lemma NoDup_leaves l : NoDup l -> NoDup (omap (doGet_leaf db orgs filters) l).
Proof.
  induction 1 as [|a l Ha _ IH]; cbn; [constructor|].
  destruct (doGet_leaf db orgs filters a) as [b|] eqn:E; [|done]. apply doGet_leaf_Some in E as [<- _].
  constructor; [|done]. by intros (c & Hc & [-> _]%doGet_leaf_Some)%list_elem_of_omap.
Qed.

End Pages.

(** ** Dependent attestations *)

(** Looking for an artifact of a kind, with no restriction *)
Definition by_kind (kind : string) : GetFromRootFilters :=
  {| gf_root_kind := Some kind; gf_visible := ∅; gf_project_name := ""; gf_project_version := "" |}.

Lemma filter_map_to_list_unique {A} (P : refkey * A -> bool) (m : gmap refkey A) k a :
  m !! k = Some a -> P (k, a) = true -> (forall k' a', P (k', a') = true -> k' = k) ->
  List.filter P (map_to_list m) = [(k, a)].
Proof.
  intros Hk Hp Hu. apply Permutation_singleton_r, NoDup_Permutation.
  - apply NoDup_ListNoDup, List.NoDup_filter, NoDup_ListNoDup, NoDup_map_to_list.
  - apply NoDup_singleton.
  - intros [k' a']. rewrite list_elem_of_In, filter_In, <- list_elem_of_In, elem_of_map_to_list, list_elem_of_singleton.
    split; [|by intros [= -> ->]]. intros [Hl Hp']. rewrite (Hu _ _ Hp') in *. congruence.
Qed.

Lemma roots_by_kind db projects t org k row id wf :
  t !! k = Some row -> id ∈ rr_workflows row -> db_workflows db !! id = Some wf -> wr_deleted wf = false ->
  wr_organization wf = org ->
  exists sr next, GetFromRoot db projects t [org] (by_kind (snd k)) (fst k) None = Ok (sr, next) /\ sr_row sr = row.
Proof.
  intros Hk Hid Hwf Hd Ho.
  assert (may_see db [org] ∅ row) as Hs%may_see_iff.
  { split.
    - exists id, wf. repeat split; [done..|]. rewrite Ho. left.
    - exists id, wf. split; [done|]. split; [done|]. split; [rewrite Ho; left|]. left. apply lookup_empty. }
  apply andb_true_iff in Hs as [Hs1 Hs2].
  assert (roots db projects t [org] (by_kind (snd k)) (fst k) = [(k, row)]) as Hr.
  { apply filter_map_to_list_unique; [done| |].
    - cbn [fst snd]. rewrite !bool_decide_eq_true_2 by done. cbn [gf_root_kind by_kind].
      rewrite bool_decide_eq_true_2, Hs1 by done. done.
    - intros k' a'. cbn. rewrite !andb_true_iff, !bool_decide_eq_true. intros [[[H1 H2] _] _].
      destruct k, k'. cbn in *. congruence. }
  unfold GetFromRoot, repo_GetFromRoot. rewrite Hr. unfold doGet. cbn [gf_visible by_kind]. rewrite Hs2. cbn [negb].
  destruct (references_page _ _ _ _ _ _ _) as [pg next]. cbn [andb project_filter gf_project_name by_kind is_empty negb].
  change (project_filter (by_kind (snd k))) with false. cbn [andb]. by do 2 eexists.
Qed.

(** The index does not separate tenants: whoever attests a material that has
    the digest and kind of an indexed artifact, in particular another
    organization's attestation, attaches it to its own workflow, and discovery
    then shows that artifact to its organization, with the metadata and the
    annotations that it was stored with. *)
Theorem discovery_crosses_tenants `{Decoders} fresh now db projects t env digest workflowID id wf refs r row :
  uuid_Parse workflowID = Some id -> live_workflow db id = Ok wf ->
  extractReferrers (attestation_Exist t) env digest = Ok refs -> r ∈ refs -> t !! rf_key r = Some row ->
  exists t' sr next, ExtractAndPersist fresh now db t env digest workflowID = Ok t'
    /\ GetFromRoot db projects t' [wr_organization wf] (by_kind (rf_kind r)) (rf_digest r) None = Ok (sr, next)
    /\ rr_metadata (sr_row sr) = rr_metadata row /\ rr_annotations (sr_row sr) = rr_annotations row.
Proof.
  intros Hid Hwf Hx Hr Hrow.
  destruct (ExtractAndPersist_saved fresh now db t env digest _ _ _ _ Hid Hwf Hx) as (_ & t' & Ht & Hin & _).
  assert (db_workflows db !! id = Some wf /\ wr_deleted wf = false) as [Hl Hd].
  { unfold live_workflow in Hwf. destruct (db_workflows db !! id) as [w|]; [|done].
    destruct (wr_deleted w) eqn:E; [done|]. by injection Hwf as ->. }
  specialize (Hin r Hr). rewrite Hrow in Hin.
  destruct (roots_by_kind db projects t' (wr_organization wf) (rf_key r) _ id wf Hin) as (sr & next & Hget & Hsr);
    [cbn; set_solver|done|done|done|].
  exists t', sr, next. split; [done|]. split; [exact Hget|by rewrite Hsr].
Qed.

(** ** Witnesses *)

Definition toy_envelope : DsseEnvelope := {| de_payload_type := "t"; de_payload := "cA=="; de_signatures := [] |}.

(** An index where another organization's workflow has the material *)
Definition toy_index : ReferrerTable :=
  {[("sha256:beef", "SBOM_CYCLONEDX_JSON") :=
      {| rr_id := "id1"; rr_downloadable := true; rr_metadata := {["project" := "theirs"]};
         rr_annotations := ∅; rr_created_at := 1; rr_workflows := {["other"]}; rr_references := ∅ |}]}.

Definition toy_fresh (k : refkey) : UUID := snd k +:+ fst k.

Lemma toy_refs_found :
  exists refs, extractReferrers (attestation_Exist toy_index) toy_envelope "sha256:att" = Ok refs
    /\ ("sha256:beef", "SBOM_CYCLONEDX_JSON") ∈ rf_key <$> refs.
Proof.
  destruct (extractReferrers (attestation_Exist toy_index) toy_envelope "sha256:att") as [refs|] eqn:E;
    [|vm_compute in E; discriminate].
  exists refs. split; [done|]. vm_compute in E. injection E as <-. vm_compute. do 2 constructor.
Qed.

Lemma attestation_indexed_witness :
  exists t' att, ExtractAndPersist toy_fresh 5 toy_db toy_index toy_envelope "sha256:att" "wf" = Ok t'
    /\ t' !! ("sha256:att", ReferrerAttestationType) = Some att
    /\ ("sha256:beef", "SBOM_CYCLONEDX_JSON") ∈ rr_references att.
Proof.
  destruct toy_refs_found as (refs & Hx & Hin).
  destruct (attestation_indexed toy_fresh 5 toy_db toy_index toy_envelope "sha256:att" "wf" "wf" toy_row refs)
    as (t' & att & Ht & Hatt & Hrefs & _); [reflexivity | reflexivity | exact Hx |].
  exists t', att. split; [exact Ht|]. split; [exact Hatt|].
  apply list_elem_of_fmap in Hin as (r & Hk & Hr). destruct (Hrefs r Hr) as (row & _ & _ & Hl & _).
  rewrite Hk. apply Hl. rewrite <- Hk. discriminate.
Defined.

Lemma discovery_visible_witness :
  GetFromRoot toy_db ∅ toy_index ["org"] (by_kind "SBOM_CYCLONEDX_JSON") "sha256:beef" None
  = Err (NewErrNotFound "artifact or piece of evidence with digest sha256:beef")
  /\ forall sr next, GetFromRoot toy_db ∅ toy_index ["org"] (by_kind "SBOM_CYCLONEDX_JSON") "sha256:beef" None
       <> Ok (sr, next).
Proof.
  split; [vm_compute; reflexivity|].
  destruct (discovery_visible toy_db ∅ toy_index ["org"] (by_kind "SBOM_CYCLONEDX_JSON") "sha256:beef" None)
    as [_ H]. apply H.
  intros kind row Hrow. unfold toy_index in Hrow. apply lookup_singleton_Some in Hrow as [Hk <-].
  intros [(id & wf & Hid & Hwf & _) _].
  cbn [rr_workflows] in Hid. apply elem_of_singleton in Hid as ->. vm_compute in Hwf. discriminate.
Defined.

(** A material of the organization and the attestation that refers to it *)
Definition toy_material_row : ReferrerRow :=
  {| rr_id := "i1"; rr_downloadable := false; rr_metadata := ∅; rr_annotations := ∅;
     rr_created_at := 1; rr_workflows := {["wf"]}; rr_references := ∅ |}.

Definition toy_root_row : ReferrerRow :=
  {| rr_id := "i2"; rr_downloadable := false; rr_metadata := ∅; rr_annotations := ∅;
     rr_created_at := 1; rr_workflows := {["wf"]}; rr_references := {[("sha256:m", "SBOM")]} |}.


Lemma discovery_crosses_tenants_witness :
  exists t' sr next, ExtractAndPersist toy_fresh 5 toy_db toy_index toy_envelope "sha256:att" "wf" = Ok t'
    /\ GetFromRoot toy_db ∅ t' ["org"] (by_kind "SBOM_CYCLONEDX_JSON") "sha256:beef" None = Ok (sr, next)
    /\ rr_metadata (sr_row sr) !! "project" = Some "theirs".
Proof.
  destruct toy_refs_found as (refs & Hx & (r & Hk & Hr)%list_elem_of_fmap).
  destruct r as [d k dl rs md an]. injection Hk as <- <-.
  destruct (discovery_crosses_tenants toy_fresh 5 toy_db ∅ toy_index toy_envelope "sha256:att" "wf" "wf" toy_row
              refs {| rf_digest := "sha256:beef"; rf_kind := "SBOM_CYCLONEDX_JSON"; rf_downloadable := dl;
                      rf_references := rs; rf_metadata := md; rf_annotations := an |}
              {| rr_id := "id1"; rr_downloadable := true; rr_metadata := {["project" := "theirs"]};
                        rr_annotations := ∅; rr_created_at := 1; rr_workflows := {["other"]};
                        rr_references := ∅ |})
    as (t' & sr & next & Ht & Hg & Hm & _);
    [reflexivity | reflexivity | exact Hx | exact Hr | reflexivity |].
  exists t', sr, next. split; [exact Ht|]. split; [exact Hg|]. rewrite Hm. reflexivity.
Defined.
