(* ===== verification/AttestationState.v ===== *)
(** * The remote state of an attestation

    app/controlplane/pkg/biz/attestationstate.go: the state of an attestation in
    progress is encrypted with a passphrase that comes with the request and saved
    with its run, under the optimistic lock of RunStore.

    The bytes of a state are a string.  AES, PBKDF2 and the random generator are
    parameters; the CFB mode is modelled.  Protocol buffers are a parameter. *)

From S2P Require Import Prelude.
From S2P Require Import GoStrings.
From S2P Require Import CraftingState.
From S2P Require Import Renderer.
From S2P Require Import BizErrors.
From S2P Require Import RunStore.
From S2P Require Import WorkflowRuns.

Open Scope nat_scope.

(** ** Bytes *)

Abbreviation bytes_of := String.list_ascii_of_string.
Abbreviation of_bytes := String.string_of_list_ascii.

Definition xor_byte (a b : ascii) : ascii :=
  match a, b with
  | Ascii a0 a1 a2 a3 a4 a5 a6 a7, Ascii b0 b1 b2 b3 b4 b5 b6 b7 =>
      Ascii (xorb a0 b0) (xorb a1 b1) (xorb a2 b2) (xorb a3 b3)
            (xorb a4 b4) (xorb a5 b5) (xorb a6 b6) (xorb a7 b7)
  end.

(** The bytes of [a], each xored with the one of [b] at its place *)
Definition xor_bytes (a b : list ascii) : list ascii := zip_with xor_byte a b.

(** ** Cipher feedback (crypto/cipher) *)

Definition BlockSize : nat := 16.

Section CFB.
(** The block cipher under a key *)
Context (block : list ascii -> list ascii).

(** [NewCFBEncrypter(block, iv).XORKeyStream]; [fuel] bounds the number of blocks *)
Fixpoint cfb_encrypt (fuel : nat) (prev plain : list ascii) : list ascii :=
  match fuel, plain with
  | O, _ | _, [] => []
  | S fuel', _ =>
      let c := xor_bytes (take BlockSize plain) (block prev) in
      c ++ cfb_encrypt fuel' c (drop BlockSize plain)
  end.

(** [NewCFBDecrypter(block, iv).XORKeyStream] *)
Fixpoint cfb_decrypt (fuel : nat) (prev cipher : list ascii) : list ascii :=
  match fuel, cipher with
  | O, _ | _, [] => []
  | S fuel', _ =>
      let c := take BlockSize cipher in
      xor_bytes c (block prev) ++ cfb_decrypt fuel' c (drop BlockSize cipher)
  end.
End CFB.

(** ** Encryption (attestationstate.go) *)

Definition saltSize : nat := 16.
Definition keySize : nat := 32.
Definition magic : string := "MagicPrefix__".
Definition maxEncryptedSize : N := (6 * 1024 * 1024)%N.

Class Cipher := {
  (** AES under a key *)
  aes_block : list ascii -> list ascii -> list ascii;
  (** [generateKey]: PBKDF2 of the passphrase and the salt *)
  generateKey : string -> list ascii -> list ascii
}.

(** [aes.NewCipher] *)
Definition NewCipher `{Cipher} (key : list ascii) : result (list ascii -> list ascii) :=
  if bool_decide (length key = 16 \/ length key = 24 \/ length key = 32) then Ok (aes_block key)
  else Err (EMsg "crypto/aes: invalid key size").

(** [encrypt]; [salt] and [iv] are what the random generator gave *)
Definition encrypt `{Cipher} (salt iv : list ascii) (data passphrase : string) : result string :=
  _ ← guard_err (bool_decide (maxEncryptedSize < N.of_nat (String.length data))%N) (EMsg "value too large");
  let plaintextWithMagic := bytes_of (magic +:+ data) in
  block ← NewCipher (generateKey passphrase salt);
  Ok (of_bytes (salt ++ iv ++ cfb_encrypt block (length plaintextWithMagic) iv plaintextWithMagic)).

(** [decrypt] *)
Definition decrypt `{Cipher} (data passphrase : string) : result string :=
  let ciphertext := bytes_of data in
  _ ← guard_err (bool_decide (length ciphertext <= saltSize)) (EMsg "encrypted data too short");
  let salt := take saltSize ciphertext in
  let ciphertext := drop saltSize ciphertext in
  block ← map_err (EWrap "failed to create cipher") (NewCipher (generateKey passphrase salt));
  _ ← guard_err (bool_decide (length ciphertext < BlockSize)) (EMsg "ciphertext too short");
  let iv := take BlockSize ciphertext in
  let ciphertext := drop BlockSize ciphertext in
  let plain := cfb_decrypt block (length ciphertext) iv ciphertext in
  if bool_decide (length plain < String.length magic) then Err NewErrInvalidPassphrase
  else if negb (bool_decide (take (String.length magic) plain = bytes_of magic)) then Err NewErrInvalidPassphrase
  else Ok (of_bytes (drop (String.length magic) plain)).

(** ** The use case *)

Section UseCase.
Context `{Decoders} `{Cipher}.
(** protobuf's codec of the state, and the digest of what is stored *)
Context (proto_Marshal : CraftingState -> result string) (proto_Unmarshal : string -> result CraftingState).
Context (state_digest : string -> string).

(** [checkWorkflowRunInWorkflow] *)
Definition checkWorkflowRunInWorkflow (db : DB) (workflowID runID : string) : result UUID :=
  workflowUUID ← parse_uuid workflowID;
  runUUID ← parse_uuid runID;
  match FindByID db runUUID with
  | None => Err (NewErrNotFound "workflow run")
  | Some run =>
      if bool_decide (run_workflow run = workflowUUID) then Ok runUUID
      else Err (NewErrNotFound "workflow run")
  end.

(** [Initialized] *)
Definition uc_Initialized (db : DB) (workflowID runID : string) : result bool :=
  runUUID ← map_err (EWrap "failed to check workflow run") (checkWorkflowRunInWorkflow db workflowID runID);
  Ok (state_Initialized db runUUID).

(** [Save] *)
Definition uc_Save (salt iv : list ascii) (db : DB) (workflowID runID : string) (state : CraftingState)
    (passphrase baseDigest : string) : result (string * DB) :=
  runUUID ← map_err (EWrap "failed to check workflow run") (checkWorkflowRunInWorkflow db workflowID runID);
  rawState ← map_err (EWrap "failed to marshal attestation state") (proto_Marshal state);
  _ ← guard_err (is_empty passphrase) (NewErrValidationStr "passphrase is required");
  encryptedState ← map_err (EWrap "failed to encrypt attestation state") (encrypt salt iv rawState passphrase);
  map_err (EWrap "failed to save attestation state")
    (state_Save state_digest db runUUID encryptedState baseDigest).

(** [Read] *)
Definition uc_Read (db : DB) (workflowID runID passphrase : string) : result (CraftingState * string) :=
  runUUID ← map_err (EWrap "failed to check workflow run") (checkWorkflowRunInWorkflow db workflowID runID);
  '(res, digest) ← map_err (EWrap "failed to read attestation state") (state_Read state_digest db runUUID);
  decryptedState ← map_err (EWrap "failed to decrypt attestation state") (decrypt res passphrase);
  state ← map_err (EWrap "failed to unmarshal attestation state") (proto_Unmarshal decryptedState);
  Ok (state, digest).

(** [Reset] *)
Definition uc_Reset (db : DB) (workflowID runID : string) : result DB :=
  runUUID ← map_err (EWrap "failed to check workflow run") (checkWorkflowRunInWorkflow db workflowID runID);
  map_err (EWrap "failed to reset attestation state") (state_Reset db runUUID).
End UseCase.

(** ** Encryption is reversible *)

Lemma xor_byte_involutive a b : xor_byte (xor_byte a b) b = a.
Proof. destruct a, b. cbn. f_equal; by rewrite xorb_assoc, xorb_nilpotent, xorb_false_r. Qed.

Lemma xor_bytes_involutive a b : (length a <= length b)%nat -> xor_bytes (xor_bytes a b) b = a.
Proof.
  revert b; induction a as [|x a IH]; intros [|y b]; cbn; try done; [lia|].
  intros Hl. rewrite xor_byte_involutive. f_equal. apply IH. lia.
Qed.

Lemma length_xor_bytes a b : length (xor_bytes a b) = Nat.min (length a) (length b).
Proof. apply length_zip_with. Qed.

Section Reversible.
Context (block : list ascii -> list ascii).
Context (block_size : forall b, length (block b) = BlockSize).

Lemma cfb_encrypt_length fuel prev plain :
  (length plain <= fuel)%nat -> length (cfb_encrypt block fuel prev plain) = length plain.
Proof.
  revert prev plain; induction fuel as [|fuel IH]; intros prev plain Hf; [by destruct plain; cbn in *; [|lia]|].
  destruct plain as [|b plain]; [done|]. cbn [cfb_encrypt].
  rewrite length_app, length_xor_bytes, block_size, IH, length_drop, length_take.
  - unfold BlockSize. cbn [length]. lia.
  - rewrite length_drop. cbn [length] in *. unfold BlockSize. lia.
Qed.

Lemma cfb_roundtrip fuel prev plain :
  (length plain <= fuel)%nat -> cfb_decrypt block fuel prev (cfb_encrypt block fuel prev plain) = plain.
Proof.
  revert prev plain; induction fuel as [|fuel IH]; intros prev plain Hf; [by destruct plain; cbn in *; [|lia]|].
  destruct plain as [|b plain]; [done|]. set (p := b :: plain) in *. cbn [cfb_encrypt].
  replace (match p with [] => [] | _ :: _ => _ end) with
    (xor_bytes (take BlockSize p) (block prev)
       ++ cfb_encrypt block fuel (xor_bytes (take BlockSize p) (block prev)) (drop BlockSize p)) by done.
  set (c := xor_bytes (take BlockSize p) (block prev)).
  assert (length c = Nat.min BlockSize (length p)) as Hc.
  { unfold c. rewrite length_xor_bytes, block_size, length_take. lia. }
  assert (c ++ cfb_encrypt block fuel c (drop BlockSize p) <> []) as Hne.
  { intros He. apply (f_equal length) in He. rewrite length_app, Hc in He. unfold p, BlockSize in He. cbn in He. lia. }
  assert (take BlockSize (c ++ cfb_encrypt block fuel c (drop BlockSize p)) = c
          /\ drop BlockSize (c ++ cfb_encrypt block fuel c (drop BlockSize p))
             = cfb_encrypt block fuel c (drop BlockSize p)) as [Ht Hd].
  { destruct (decide (BlockSize <= length p)) as [Hb|Hb].
    - rewrite take_app_length', drop_app_length' by lia. done.
    - rewrite drop_ge by lia. destruct fuel; cbn [cfb_encrypt]; rewrite app_nil_r, take_ge, drop_ge by lia; done. }
  cbn [cfb_decrypt]. destruct (c ++ _) as [|x l] eqn:El; [done|]. rewrite Ht, Hd.
  rewrite IH.
  - unfold c. rewrite xor_bytes_involutive by (rewrite block_size, length_take; lia). apply take_drop.
  - rewrite length_drop. unfold p, BlockSize in *. cbn [length] in *. lia.
Qed.
End Reversible.

(** What AES and PBKDF2 promise: a block in, a block out, and a key of the size
    that was asked for *)
Class CipherLaws `{Cipher} : Prop := {
  aes_block_size : forall key b, length (aes_block key b) = BlockSize;
  generateKey_size : forall passphrase salt, length (generateKey passphrase salt) = keySize
}.

Lemma bytes_of_app a b : bytes_of (a +:+ b) = bytes_of a ++ bytes_of b.
Proof. induction a as [|c a IH]; [done|]. change (c :: bytes_of (a +:+ b) = c :: (bytes_of a ++ bytes_of b)). by rewrite IH. Qed.

Lemma length_bytes_of s : length (bytes_of s) = String.length s.
Proof. induction s as [|c s IH]; cbn; [done|]. by rewrite IH. Qed.

Section RoundTrip.
Context `{Cipher} `{!CipherLaws}.
Context (salt iv : list ascii) (salt_size : length salt = saltSize) (iv_size : length iv = BlockSize).

Lemma NewCipher_Ok passphrase s : NewCipher (generateKey passphrase s) = Ok (aes_block (generateKey passphrase s)).
Proof. unfold NewCipher. rewrite bool_decide_eq_true_2; [done|]. rewrite generateKey_size. auto. Qed.

(** What was encrypted decrypts with the same passphrase. *)
Lemma decrypt_encrypt data passphrase c :
  encrypt salt iv data passphrase = Ok c -> decrypt c passphrase = Ok data.
Proof.
  unfold encrypt. rewrite bind_Ok. intros (u & _ & He). rewrite NewCipher_Ok in He. cbn [mbind result_bind] in He.
  assert (forall a b : string, Ok a = Ok b -> a = b) as Hinj by congruence. apply Hinj in He as <-.
  unfold decrypt. rewrite String.list_ascii_of_string_of_list_ascii.
  set (plain := bytes_of (magic +:+ data)). set (blk := aes_block (generateKey passphrase salt)).
  assert (length (cfb_encrypt blk (length plain) iv plain) = length plain) as Hlen
    by (apply cfb_encrypt_length; [apply aes_block_size|done]).
  rewrite (bool_decide_eq_false_2 (length (salt ++ _) <= saltSize))
    by (rewrite length_app, length_app, salt_size, iv_size; unfold BlockSize; lia).
  cbn [guard_err mbind result_bind]. rewrite take_app_length', drop_app_length' by done.
  rewrite NewCipher_Ok. cbn [map_err mbind result_bind]. fold blk.
  rewrite (bool_decide_eq_false_2 (length (iv ++ _) < BlockSize)) by (rewrite length_app, iv_size; lia).
  cbn [guard_err mbind result_bind]. rewrite take_app_length', drop_app_length' by done.
  rewrite Hlen, cfb_roundtrip by (try apply aes_block_size; done). unfold plain. rewrite bytes_of_app.
  rewrite bool_decide_eq_false_2 by (rewrite length_app, length_bytes_of; lia).
  rewrite take_app_length' by (by rewrite length_bytes_of).
  rewrite bool_decide_eq_true_2 by done. cbn [negb].
  rewrite drop_app_length' by (by rewrite length_bytes_of). by rewrite String.string_of_list_ascii_of_string.
Qed.

Context `{Decoders}.
Context (proto_Marshal : CraftingState -> result string) (proto_Unmarshal : string -> result CraftingState).
Context (state_digest : string -> string).

Lemma checkWorkflowRunInWorkflow_Ok db workflowID runID id :
  checkWorkflowRunInWorkflow db workflowID runID = Ok id ->
  exists r, db_runs db !! id = Some r /\ uuid_Parse workflowID = Some (run_workflow r)
    /\ uuid_Parse runID = Some id.
Proof.
  unfold checkWorkflowRunInWorkflow, parse_uuid, FindByID.
  destruct (uuid_Parse workflowID) as [w|]; [|done]. destruct (uuid_Parse runID) as [i|]; [|done]. cbn.
  destruct (db_runs db !! i) as [r|] eqn:Er; [|done]. case_bool_decide as Hw; [|done]. intros [= <-].
  exists r. by rewrite Hw.
Qed.

Lemma update_run_check db id f workflowID runID i :
  (forall r, run_workflow (f r) = run_workflow r) ->
  checkWorkflowRunInWorkflow db workflowID runID = Ok i ->
  checkWorkflowRunInWorkflow (update_run db id f) workflowID runID = Ok i.
Proof.
  intros Hf Hc. destruct (checkWorkflowRunInWorkflow_Ok _ _ _ _ Hc) as (r & Hr & Hw & Hi).
  unfold checkWorkflowRunInWorkflow, parse_uuid, FindByID. rewrite Hw, Hi.
  cbn [mbind result_bind update_run with_runs db_runs].
  destruct (decide (id = i)) as [->|Hd]; [rewrite lookup_alter_eq | rewrite lookup_alter_ne by done];
    rewrite Hr; cbn [fmap option_fmap option_map]; rewrite ?Hf, bool_decide_eq_true_2; done.
Qed.

Lemma uc_Save_Ok db workflowID runID state passphrase base digest db' :
  (forall raw, proto_Marshal state = Ok raw -> proto_Unmarshal raw = Ok state) ->
  uc_Save proto_Marshal state_digest salt iv db workflowID runID state passphrase base = Ok (digest, db') ->
  exists id enc, checkWorkflowRunInWorkflow db workflowID runID = Ok id /\ passphrase <> ""
    /\ state_Save state_digest db id enc base = Ok (digest, db')
    /\ db' = update_run db id (set_attestation_state (Some enc))
    /\ uc_Read proto_Unmarshal state_digest db' workflowID runID passphrase = Ok (state, digest).
Proof.
  intros Hcodec Hs. unfold uc_Save in Hs. apply bind_Ok in Hs as (id & Hc & Hs). apply map_err_Ok in Hc.
  apply bind_Ok in Hs as (raw & Hraw & Hs). apply map_err_Ok in Hraw.
  apply bind_Ok in Hs as (u & Hp & Hs). apply guard_err_Ok in Hp. apply is_empty_false in Hp.
  apply bind_Ok in Hs as (enc & He & Hs). apply map_err_Ok in He, Hs.
  pose proof (state_Save_Read _ _ _ _ _ _ _ Hs) as Hread. exists id, enc.
  split; [done|]. split; [done|]. split; [done|].
  apply state_Save_Ok in Hs as (r & Hr & -> & -> & _). split; [done|].
  unfold uc_Read. rewrite (update_run_check _ _ (set_attestation_state (Some enc)) _ _ _ (fun _ => eq_refl) Hc).
  cbn [map_err mbind result_bind]. rewrite Hread. cbn [map_err mbind result_bind].
  rewrite (decrypt_encrypt _ _ _ He). cbn [map_err mbind result_bind]. by rewrite (Hcodec _ Hraw).
Qed.

(** The state of an attestation that a client saved, encrypted, is read back
    by whoever has the same passphrase, with the digest that the save returned,
    which the next save must give; only a run of the caller's workflow is saved,
    and no other run changes. *)
Theorem saved_state_readable db workflowID runID state passphrase base digest db' :
  (forall raw, proto_Marshal state = Ok raw -> proto_Unmarshal raw = Ok state) ->
  uc_Save proto_Marshal state_digest salt iv db workflowID runID state passphrase base = Ok (digest, db') ->
  uc_Read proto_Unmarshal state_digest db' workflowID runID passphrase = Ok (state, digest)
  /\ passphrase <> ""
  /\ exists id r, uuid_Parse runID = Some id /\ db_runs db !! id = Some r
       /\ uuid_Parse workflowID = Some (run_workflow r)
       /\ (base = "" \/ exists stored, run_attestation_state r = Some stored /\ base = state_digest stored)
       /\ forall j, j <> id -> db_runs db' !! j = db_runs db !! j.
Proof.
  intros Hcodec Hs. destruct (uc_Save_Ok _ _ _ _ _ _ _ _ Hcodec Hs) as (id & enc & Hc & Hp & Hsave & Hdb & Hread).
  split; [done|]. split; [done|]. apply state_Save_Ok in Hsave as (r & Hr & _ & -> & Hbase).
  destruct (checkWorkflowRunInWorkflow_Ok _ _ _ _ Hc) as (r' & Hr' & Hw & Hi).
  rewrite Hr in Hr'. injection Hr' as <-. exists id, r. split; [done|]. split; [done|]. split; [done|].
  split; [done|]. intros j Hj. cbn. by rewrite lookup_alter_ne.
Qed.
End RoundTrip.

(** ** Witnesses *)

(** A cipher whose key is the passphrase padded, and whose block is the key xored
    with the previous block *)
#[export] Instance toy_cipher : Cipher :=
  {| aes_block := fun key b => take BlockSize (xor_bytes key (b ++ repeat "b"%char 32) ++ repeat "z"%char 16);
     generateKey := fun p s => take 32 (bytes_of p ++ s ++ repeat "k"%char 32) |}.

#[export] Instance toy_cipher_laws : CipherLaws.
Proof.
  split.
  - intros key b. cbn [aes_block toy_cipher]. rewrite length_take, length_app, repeat_length. unfold BlockSize. lia.
  - intros p s. cbn [generateKey toy_cipher]. rewrite length_take, !length_app, repeat_length. unfold keySize. lia.
Qed.

Definition toy_crafting : CraftingState :=
  {| st_schema := None; st_attestation := toy_rendered; st_dry_run := false; st_ui_dashboard_url := "" |}.

Definition toy_salt : list ascii := repeat "s"%char 16.

(** The state that was saved is read, and another passphrase is refused. *)
Lemma saved_state_readable_witness :
  exists digest db', uc_Save (fun _ => Ok "raw") toy_digest toy_salt toy_salt toy_running "wf" "run" toy_crafting
                       "secret" "" = Ok (digest, db')
    /\ uc_Read (fun _ => Ok toy_crafting) toy_digest db' "wf" "run" "secret" = Ok (toy_crafting, digest)
    /\ uc_Read (fun _ => Ok toy_crafting) toy_digest db' "wf" "run" "wrong"
       = Err (EWrap "failed to decrypt attestation state" NewErrInvalidPassphrase).
Proof.
  destruct (uc_Save (fun _ => Ok "raw") toy_digest toy_salt toy_salt toy_running "wf" "run" toy_crafting
              "secret" "") as [[digest db']|] eqn:E; [|vm_compute in E; discriminate].
  exists digest, db'. split; [reflexivity|]. split.
  - destruct (saved_state_readable toy_salt toy_salt eq_refl eq_refl (fun _ => Ok "raw") (fun _ => Ok toy_crafting)
                toy_digest toy_running "wf" "run" toy_crafting "secret" "" digest db') as [H _].
    + intros raw _. reflexivity.
    + exact E.
    + exact H.
  - vm_compute in E. injection E as <- <-. vm_compute. reflexivity.
Defined.
