(* ===== verification/StateManagers.v ===== *)
(** * The state managers of the crafter

    pkg/attestation/crafter/statemanager: the state of an attestation in progress
    is kept in a file (filesystem.go) or in the control plane (remote.go, through
    app/controlplane/internal/service/attestationstate.go).  Both are instances of
    the interface that the crafter uses, and keep its promise.

    The project check of the service is a parameter, as are the JSON codec of the
    state and the outcomes of the file system. *)

From S2P Require Import Prelude.
From S2P Require Import GoStrings.
From S2P Require Import CraftingState.
From S2P Require Import Crafter.
From S2P Require Import CrafterLifecycle.
From S2P Require Import Verifier.
From S2P Require Import BizErrors.
From S2P Require Import RunStore.
From S2P Require Import WorkflowRuns.
From S2P Require Import AttestationState.

(** ** A file (filesystem.go) *)

Definition ErrStateNotFound : string := "state not found".

(** What the file system answers: creating the file, and how much of the content
    is written when writing fails *)
Class FileSystem := {
  fs_create_error : string -> option goerr;
  fs_write_error : string -> string -> option (goerr * nat);
  fs_open_error : string -> option goerr;
  fs_remove_error : string -> option goerr
}.

Section File.
Context `{FileSystem}.
Context (json_Marshal : CraftingState -> result string) (json_Unmarshal : string -> result CraftingState).
Context (statePath : string).

(** The content of the state file, [None] when it does not exist *)
Abbreviation file := (option string).

(** [Initialized] *)
Definition fs_Initialized (f : file) : bool := match f with Some _ => true | None => false end.

(** [Write]: the file is truncated when it is created *)
Definition fs_Write (f : file) (_ : string) (state : CraftingState) (checksum : string) : result string * file :=
  match json_Marshal state with
  | Err e => (Err (EWrap "failed to marshal state" e), f)
  | Ok raw =>
      match fs_create_error statePath with
      | Some e => (Err (EWrap "failed to create state file" e), f)
      | None =>
          match fs_write_error statePath raw with
          | Some (e, n) => (Err (EWrap "failed to write state file" e), Some (str_take n raw))
          | None => (Ok checksum, Some raw)
          end
      end
  end.

(** [Read]: the file holds no checksum *)
Definition fs_Read (f : file) (_ : string) : result (CraftingState * string) :=
  match f with
  | None => Err (ESentinel ErrStateNotFound)
  | Some raw =>
      match fs_open_error statePath with
      | Some e => Err (EWrap "failed to open state file" e)
      | None => state ← map_err (EWrap "failed to unmarshal state") (json_Unmarshal raw); Ok (state, "")
      end
  end.

(** [Reset] *)
Definition fs_Reset (f : file) : result unit * file :=
  match f with
  | None => (Err (ESentinel ErrStateNotFound), None)
  | Some raw => match fs_remove_error statePath with
                | Some e => (Err (EWrap "failed to remove state file" e), f)
                | None => (Ok tt, None)
                end
  end.

Definition filesystem : StateManager := {| Store := file; sm_Read := fs_Read; sm_Write := fs_Write |}.
End File.

(** ** The service (service/attestationstate.go) *)

(** [usercontext.RobotAccount] *)
Record RobotAccount := { ra_org_id : string; ra_workflow_id : string; ra_provider_key : string }.

Definition FederatedProviderKey : string := "federatedProvider".

(** A request: the account it is made with and its authorization header, when it
    comes through a transport *)
Record Request := { rq_account : option RobotAccount; rq_authorization : option string }.

Definition lower_char (c : ascii) : ascii :=
  let n := Ascii.nat_of_ascii c in
  if Nat.leb 65 n && Nat.leb n 90 then Ascii.ascii_of_nat (n + 32) else c.

Fixpoint lower (s : string) : string :=
  match s with "" => "" | String c s' => String (lower_char c) (lower s') end.

(** [encryptionPassphrase]; [hash] is hex(sha256(_)) *)
Definition encryptionPassphrase (hash : string -> string) (rq : Request) : result string :=
  match rq_account rq with
  | None => Err (EMsg "robot account not found")
  | Some account =>
      if bool_decide (ra_provider_key account = FederatedProviderKey) then Ok (ra_provider_key account)
      else
        match rq_authorization rq with
        | None => Err (EMsg "transport not found")
        | Some header =>
            match cut " " header with
            | Some (scheme, token) => if bool_decide (lower scheme = "bearer") then Ok (hash token)
                                      else Err (EMsg "missing auth token")
            | None => Err (EMsg "missing auth token")
            end
        end
  end.

Section Service.
Context `{Decoders} `{Crypto} `{Cipher}.
Context (proto_Marshal : CraftingState -> result string) (proto_Unmarshal : string -> result CraftingState).
Context (state_digest token_hash : string -> string).
(** [userHasPermissionOnProject] for a policy, on the project of a workflow *)
Context (permitted : WorkflowRow -> string -> result unit).
(** where bundles are, for a run that has finished *)
Context (sources : BundleSources).
(** what the random generator gives: a salt and an initialization vector *)
Context (random : DB -> list ascii * list ascii).

(** [WorkflowUseCase.FindByIDInOrg] *)
Definition workflow_in_org (db : DB) (orgID workflowID : string) : result (UUID * WorkflowRow) :=
  org ← parse_uuid orgID;
  id ← parse_uuid workflowID;
  match db_workflows db !! id with
  | Some wf => if bool_decide (wr_organization wf = org) && negb (wr_deleted wf) then Ok (id, wf)
               else Err (EWrap "failed to get workflow" (NewErrNotFound "workflow"))
  | None => Err (EWrap "failed to get workflow" (NewErrNotFound "workflow"))
  end.

(** [findWorkflowFromTokenOrRunID] *)
Definition findWorkflowFromTokenOrRunID (db : DB) (orgID workflowID runID : string) : result (UUID * WorkflowRow) :=
  if is_empty orgID then Err (NewErrValidationStr "orgID must be provided")
  else if negb (is_empty workflowID) then workflow_in_org db orgID workflowID
  else if negb (is_empty runID) then
    v ← map_err (EWrap "error retrieving the workflow run") (snd (GetByIDInOrg db sources orgID runID));
    match workflow_of db (view_row v) with
    | Some wf => Ok (run_workflow (view_row v), wf)
    | None => Err (panic "nil dereference")
    end
  else Err (NewErrValidationStr "workflowRunId must be provided").

(** The workflow of a request that its account may use for [policy] *)
Definition authorized_workflow (db : DB) (rq : Request) (runID policy : string) : result UUID :=
  match rq_account rq with
  | None => Err (EMsg "robot account not found")
  | Some account =>
      '(id, wf) ← map_err (EWrap "service")
          (findWorkflowFromTokenOrRunID db (ra_org_id account) (ra_workflow_id account) runID);
      _ ← permitted wf policy; Ok id
  end.

(** The handlers [Initialized], [Save], [Read] and [Reset] *)
Definition svc_Initialized (db : DB) (rq : Request) (runID : string) : result bool :=
  wf ← authorized_workflow db rq runID "workflow_run:create";
  map_err (EWrap "service") (uc_Initialized db wf runID).

Definition svc_Save (db : DB) (rq : Request) (runID : string) (state : CraftingState) (base : string)
    : result (string * DB) :=
  wf ← authorized_workflow db rq runID "workflow_run:create";
  passphrase ← map_err (fun _ => EMsg "failed to authenticate request") (encryptionPassphrase token_hash rq);
  match uc_Save proto_Marshal state_digest (fst (random db)) (snd (random db)) db wf runID state passphrase base with
  | Ok r => Ok r
  | Err e => if IsErrAttestationStateConflict e then Err (EWrap "saving attestation" (ESentinel ErrStateConflict))
             else Err (EWrap "service" e)
  end.

Definition svc_Read (db : DB) (rq : Request) (runID : string) : result (CraftingState * string) :=
  wf ← authorized_workflow db rq runID "workflow_run:read";
  passphrase ← map_err (fun _ => EMsg "failed to authenticate request") (encryptionPassphrase token_hash rq);
  map_err (EWrap "service") (uc_Read proto_Unmarshal state_digest db wf runID passphrase).

Definition svc_Reset (db : DB) (rq : Request) (runID : string) : result DB :=
  wf ← authorized_workflow db rq runID "workflow_run:update";
  map_err (EWrap "service") (uc_Reset db wf runID).

(** ** The control plane (remote.go) *)

Context (rq : Request).

Definition key_guard (key : string) : result unit := guard_err (is_empty key) (EMsg "key cannot be empty").

(** [Initialized] *)
Definition remote_Initialized (db : DB) (key : string) : result bool :=
  _ ← key_guard key; map_err (EWrap "failed to check state") (svc_Initialized db rq key).

(** [Write]: the checksum is the digest that the server returned, if it did *)
Definition remote_Write (db : DB) (key : string) (state : CraftingState) (checksum : string) : result string * DB :=
  match (_ ← key_guard key; map_err (EWrap "failed to save state") (svc_Save db rq key state checksum)) with
  | Ok (digest, db') => (Ok (if is_empty digest then checksum else digest), db')
  | Err e => (Err e, db)
  end.

(** [Read] *)
Definition remote_Read (db : DB) (key : string) : result (CraftingState * string) :=
  _ ← key_guard key; map_err (EWrap "failed to read state") (svc_Read db rq key).

(** [Reset] *)
Definition remote_Reset (db : DB) (key : string) : result unit * DB :=
  match (_ ← key_guard key; map_err (EWrap "failed to reset state") (svc_Reset db rq key)) with
  | Ok db' => (Ok tt, db')
  | Err e => (Err e, db)
  end.

Definition remote : StateManager := {| Store := DB; sm_Read := remote_Read; sm_Write := remote_Write |}.
End Service.

(** ** Both keep what the crafter relies on *)

(** A write that fails has not written everything *)
Class FileSystemLaws `{FileSystem} : Prop :=
  write_error_short : forall path raw e n,
    fs_write_error path raw = Some (e, n) -> n < String.length raw.

Section FileFaithful.
Context `{FileSystem} `{!FileSystemLaws}.
Context (json_Marshal : CraftingState -> result string) (json_Unmarshal : string -> result CraftingState).
(** protojson reads what it wrote, and an object cut short is no JSON *)
Context (json_roundtrip : forall st raw, json_Marshal st = Ok raw -> json_Unmarshal raw = Ok st).
Context (json_truncated : forall st raw n, json_Marshal st = Ok raw -> n < String.length raw ->
  is_ok (json_Unmarshal (str_take n raw)) = false).

Lemma filesystem_reads_written path : ReadsWritten (filesystem json_Marshal json_Unmarshal path).
Proof.
  intros f id st sum w f' id' st' sum'. cbn. unfold fs_Write.
  destruct (json_Marshal st) as [raw|e] eqn:Em; [|intros [= _ <-]; eauto].
  destruct (fs_create_error path); [intros [= _ <-]; eauto|]. unfold fs_Read.
  destruct (fs_write_error path raw) as [[e n]|] eqn:Ew; intros [= _ <-]; destruct (fs_open_error path); try done.
  - pose proof (json_truncated st raw n Em (write_error_short _ _ _ _ Ew)) as Ht.
    destruct (json_Unmarshal (str_take n raw)); [done|]. done.
  - rewrite (json_roundtrip _ _ Em). cbn. intros [= <- _]. by left.
Qed.
End FileFaithful.

Section RemoteFaithful.
Context `{Decoders} `{Crypto} `{Cipher} `{!CipherLaws}.
Context (proto_Marshal : CraftingState -> result string) (proto_Unmarshal : string -> result CraftingState).
Context (state_digest token_hash : string -> string) (permitted : WorkflowRow -> string -> result unit).
Context (sources : BundleSources) (random : DB -> list ascii * list ascii).
Context (random_size : forall db, length (fst (random db)) = saltSize /\ length (snd (random db)) = BlockSize).
Context (rq : Request).

(** The same view of a run in another state of its attestation *)
Definition retag (f : RunRow -> RunRow) (v : RunView) : RunView :=
  {| view_row := f (view_row v); view_digest := view_digest v; view_envelope := view_envelope v;
     view_bundle := view_bundle v |}.

Lemma applyBundle_retag f v b : applyBundle (retag f v) b = retag f <$> applyBundle v b.
Proof.
  unfold applyBundle. destruct (unmarshal_bundle b) as [bundle|]; [|done]. cbn [map_err mbind result_bind].
  by destruct (Envelope.DSSEEnvelopeFromBundle bundle).
Qed.

Lemma addAttestation_retag db db' f id v :
  db_workflows db' = db_workflows db -> db_bundles db' = db_bundles db ->
  (forall r, run_workflow (f r) = run_workflow r) -> (forall r, run_state (f r) = run_state r) ->
  snd (addAttestationFromBundle db' sources id (retag f v))
  = retag f <$> snd (addAttestationFromBundle db sources id v).
Proof.
  intros Hw Hb Hfw Hfs. unfold addAttestationFromBundle. cbn [retag view_row view_digest]. rewrite Hfs.
  destruct (negb _ || _); [done|].
  destruct (bs_cache sources ≫= _) as [cached|]; [cbn [snd]; apply applyBundle_retag|].
  unfold GetBundle. rewrite Hb.
  assert (snd (from_cas db' sources (retag f v)) = retag f <$> snd (from_cas db sources v)) as Hcas.
  { unfold from_cas, workflow_of. cbn [retag view_row view_digest]. rewrite Hfw, Hw.
    destruct (db_workflows db !! run_workflow (view_row v)) as [wf|]; [|done].
    destruct (bs_download sources (view_digest v) (wr_organization wf)) as [[b|]|]; [|done..].
    destruct (is_empty b); [done|]. cbn [snd]. apply applyBundle_retag. }
  destruct (db_bundles db !! id) as [b|]; [destruct (is_empty b)|]; [done|cbn [snd]; apply applyBundle_retag|done].
Qed.

(** Saving the state of a run does not change which workflow a request may use. *)
Lemma authorized_workflow_saved db id enc runID policy :
  authorized_workflow permitted sources (update_run db id (set_attestation_state enc)) rq runID policy
  = authorized_workflow permitted sources db rq runID policy.
Proof.
  unfold authorized_workflow. destruct (rq_account rq) as [account|]; [|done].
  assert (findWorkflowFromTokenOrRunID sources (update_run db id (set_attestation_state enc))
            (ra_org_id account) (ra_workflow_id account) runID
          = findWorkflowFromTokenOrRunID sources db (ra_org_id account) (ra_workflow_id account) runID) as ->; [|done].
  unfold findWorkflowFromTokenOrRunID. destruct (is_empty (ra_org_id account)); [done|].
  destruct (negb (is_empty (ra_workflow_id account))); [done|]. destruct (negb (is_empty runID)); [|done].
  unfold GetByIDInOrg. destruct (parse_uuid (ra_org_id account)) as [org|]; [|done].
  destruct (parse_uuid runID) as [i|]; [|done]. cbn [mbind result_bind]. unfold FindByIDInOrg.
  cbn [update_run with_runs db_runs db_workflows].
  assert (exists f, (forall r, run_workflow (f r) = run_workflow r) /\ (forall r, run_state (f r) = run_state r)
    /\ (forall r, run_digest (f r) = run_digest r)
    /\ alter (set_attestation_state enc) id (db_runs db) !! i = f <$> db_runs db !! i) as (f & Hfw & Hfs & Hfd & ->).
  { destruct (decide (id = i)) as [->|Hne].
    - exists (set_attestation_state enc). by rewrite lookup_alter_eq.
    - exists (fun r => r). rewrite lookup_alter_ne by done. repeat split. by destruct (db_runs db !! i). }
  destruct (db_runs db !! i) as [r|]; [|done]. cbn [fmap option_fmap option_map]. rewrite Hfw.
  destruct (db_workflows db !! run_workflow r) as [wf|]; [|done]. destruct (bool_decide _); [|done].
  cbn [map_err mbind result_bind in_retrieval snd].
  assert (run_view (f r) = retag f (run_view r)) as -> by (unfold run_view, retag; cbn; by rewrite Hfd).
  rewrite (addAttestation_retag db) by done.
  destruct (snd (addAttestationFromBundle db sources i (run_view r))) as [v|]; [|done].
  cbn. unfold workflow_of. cbn. by rewrite Hfw.
Qed.

Lemma checkWorkflowRun_saved db id enc workflowID runID :
  checkWorkflowRunInWorkflow (update_run db id (set_attestation_state enc)) workflowID runID
  = checkWorkflowRunInWorkflow db workflowID runID.
Proof.
  unfold checkWorkflowRunInWorkflow, FindByID. destruct (parse_uuid workflowID) as [w|]; [|done].
  destruct (parse_uuid runID) as [i|]; [|done]. cbn [mbind result_bind update_run with_runs db_runs].
  destruct (decide (id = i)) as [->|]; [rewrite lookup_alter_eq | by rewrite lookup_alter_ne].
  by destruct (db_runs db !! i).
Qed.

Lemma authorized_read db key wf :
  (forall w, permitted w "workflow_run:create" = Ok tt -> permitted w "workflow_run:read" = Ok tt) ->
  authorized_workflow permitted sources db rq key "workflow_run:create" = Ok wf ->
  authorized_workflow permitted sources db rq key "workflow_run:read" = Ok wf.
Proof.
  intros Hperm. unfold authorized_workflow. destruct (rq_account rq) as [account|]; [|done].
  rewrite !bind_Ok. intros ([i w] & Hf & Hx). apply bind_Ok in Hx as ([] & Hp & [= <-]).
  exists (i, w). split; [done|]. by rewrite (Hperm _ Hp).
Qed.

(** A write that succeeds: the workflow and the run it was for *)
Lemma remote_Write_Ok db key st sum sum' db' :
  (forall raw, proto_Marshal st = Ok raw -> proto_Unmarshal raw = Ok st) ->
  remote_Write proto_Marshal state_digest token_hash permitted sources random rq db key st sum = (Ok sum', db') ->
  key <> "" /\ exists wf id enc passphrase digest,
    authorized_workflow permitted sources db rq key "workflow_run:create" = Ok wf
    /\ encryptionPassphrase token_hash rq = Ok passphrase
    /\ checkWorkflowRunInWorkflow db wf key = Ok id
    /\ db' = update_run db id (set_attestation_state (Some enc))
    /\ uc_Read proto_Unmarshal state_digest db' wf key passphrase = Ok (st, digest)
    /\ sum' = if is_empty digest then sum else digest.
Proof.
  intros Hcodec. unfold remote_Write. destruct (_ ← key_guard key; _) as [[digest db1]|e] eqn:Es; [|done].
  intros [= <- <-]. apply bind_Ok in Es as (u & Hk & Es). apply guard_err_Ok, is_empty_false in Hk.
  apply map_err_Ok in Es. unfold svc_Save in Es.
  apply bind_Ok in Es as (wf & Hwf & Es). apply bind_Ok in Es as (passphrase & Hp & Es). apply map_err_Ok in Hp.
  destruct (uc_Save _ _ _ _ _ _ _ _ _ _) as [r|e] eqn:Eu; [|by destruct (IsErrAttestationStateConflict e)].
  injection Es as ->. destruct (random_size db) as [Hs Hi].
  destruct (uc_Save_Ok _ _ Hs Hi proto_Marshal proto_Unmarshal state_digest db wf key st passphrase
    sum digest db1 Hcodec Eu) as (id & enc & Hid & _ & _ & Hdb & Hread).
  split; [done|]. by exists wf, id, enc, passphrase, digest.
Qed.

Lemma remote_Write_Err db key st sum e db' :
  remote_Write proto_Marshal state_digest token_hash permitted sources random rq db key st sum = (Err e, db') ->
  db' = db.
Proof. unfold remote_Write. destruct (_ ← _; _) as [[]|]; [done|]. by intros [= _ <-]. Qed.

(** What is read after a write was written, then or before *)
Lemma remote_write_read db key st sum w db' key' st' sum' :
  (forall raw, proto_Marshal st = Ok raw -> proto_Unmarshal raw = Ok st) ->
  remote_Write proto_Marshal state_digest token_hash permitted sources random rq db key st sum = (w, db') ->
  remote_Read proto_Unmarshal state_digest token_hash permitted sources rq db' key' = Ok (st', sum') ->
  st' = st \/ exists sum0,
    remote_Read proto_Unmarshal state_digest token_hash permitted sources rq db key' = Ok (st', sum0).
Proof.
  intros Hcodec Hw Hr. destruct w as [sumw|e]; [|apply remote_Write_Err in Hw as ->; eauto].
  destruct (remote_Write_Ok _ _ _ _ _ _ Hcodec Hw)
    as (_ & wf & id & enc & passphrase & digest & _ & Hp & Hid & -> & Hread & _).
  unfold remote_Read in Hr |- *. apply bind_Ok in Hr as (u' & Hk & Hr). apply map_err_Ok in Hr. unfold svc_Read in Hr.
  apply bind_Ok in Hr as (wf' & Hwf' & Hr). rewrite authorized_workflow_saved in Hwf'.
  apply bind_Ok in Hr as (passphrase' & Hp' & Hr). apply map_err_Ok in Hp', Hr.
  assert (passphrase' = passphrase) as -> by congruence.
  unfold uc_Read in Hr. rewrite checkWorkflowRun_saved in Hr.
  destruct (checkWorkflowRunInWorkflow db wf' key') as [id'|] eqn:Ec'; [|done]. cbn [map_err mbind result_bind] in Hr.
  destruct (decide (id' = id)) as [->|Hne].
  - left. unfold uc_Read in Hread. rewrite checkWorkflowRun_saved, Hid in Hread. cbn [map_err mbind result_bind] in Hread.
    rewrite Hread in Hr. congruence.
  - right. unfold svc_Read. rewrite Hk, Hwf', Hp'. cbn [map_err mbind result_bind]. unfold uc_Read. rewrite Ec'.
    cbn [map_err mbind result_bind]. unfold state_Read in Hr |- *. cbn [update_run with_runs db_runs] in Hr.
    rewrite lookup_alter_ne in Hr by done. rewrite Hr. by eexists.
Qed.

Lemma remote_reads_written :
  (forall st raw, proto_Marshal st = Ok raw -> proto_Unmarshal raw = Ok st) ->
  ReadsWritten (remote proto_Marshal proto_Unmarshal state_digest token_hash permitted sources random rq).
Proof.
  intros Hcodec db key st sum w db' key' st' sum' Hw Hr.
  exact (remote_write_read _ _ _ _ _ _ _ _ _ (Hcodec st) Hw Hr).
Qed.

End RemoteFaithful.

(** ** Witnesses *)

Definition toy_request : Request :=
  {| rq_account := Some {| ra_org_id := "org"; ra_workflow_id := ""; ra_provider_key := "token" |};
     rq_authorization := Some "Bearer secret" |}.

Definition toy_sources : BundleSources := {| bs_cache := None; bs_download := fun _ _ => Ok None |}.

