(* ===== verification/Authz.v ===== *)
(** * Roles, policies and their enforcement

    app/controlplane/pkg/authz: the policies of each role and of each API operation
    (authz.go), the Casbin enforcer that is loaded with them (enforcer.go,
    model.conf), and the middleware that checks every API call
    (authz/middleware/middleware.go).

    Casbin is a parameter: a store of rules and of links between roles, whose
    laws are what its documentation says of the model in model.conf.  The order in
    which Go walks the map of roles is not specified, so that the configuration is
    a list in any order. *)

From S2P Require Import Prelude.
From S2P Require Import GoStrings.

(** ** Policies and roles (authz.go) *)

Abbreviation Role := string.

Record Policy := mkPolicy { Resource : string; Action : string }.

#[export] Instance Policy_eq_dec : EqDecision Policy.
Proof. solve_decision. Defined.

Definition ActionRead : string := "read".
Definition ActionList : string := "list".
Definition ActionCreate : string := "create".
Definition ActionUpdate : string := "update".
Definition ActionDelete : string := "delete".
Definition ActionManageOwners : string := "manage_owners".
Definition ResourceWorkflowContract : string := "workflow_contract".
Definition ResourceCASArtifact : string := "cas_artifact".
Definition ResourceCASBackend : string := "cas_backend".
Definition ResourceReferrer : string := "referrer".
Definition ResourceAvailableIntegration : string := "integration_available".
Definition ResourceRegisteredIntegration : string := "integration_registered".
Definition ResourceAttachedIntegration : string := "integration_attached".
Definition ResourceOrgMetric : string := "metrics_org".
Definition ResourceWorkflowRun : string := "workflow_run".
Definition ResourceWorkflow : string := "workflow".
Definition ResourceProject : string := "project".
Definition Organization : string := "organization".
Definition OrganizationMemberships : string := "organization_memberships".
Definition ResourceGroup : string := "group".
Definition ResourceGroupMembership : string := "group_membership".
Definition ResourceAPIToken : string := "api_token".
Definition ResourceProjectMembership : string := "project_membership".
Definition ResourceOrganizationInvitations : string := "organization_invitations".
Definition ResourceDefaultBackend : string := "default_backend".

Definition RoleInstanceAdmin : Role := "role:instance:admin".
Definition RoleOwner : Role := "role:org:owner".
Definition RoleAdmin : Role := "role:org:admin".
Definition RoleViewer : Role := "role:org:viewer".
Definition RoleOrgMember : Role := "role:org:member".
Definition RoleOrgContributor : Role := "role:org:contributor".
Definition RoleProjectAdmin : Role := "role:project:admin".
Definition RoleProjectViewer : Role := "role:project:viewer".
Definition RoleGroupMaintainer : Role := "role:group:maintainer".
Definition RoleProductViewer : Role := "role:product:viewer".
Definition RoleProductAdmin : Role := "role:product:admin".

(** [RBACEnabled] *)
Definition RBACEnabled (r : Role) : bool := bool_decide (r = RoleOrgMember) || bool_decide (r = RoleOrgContributor).

(** [IsAdmin] *)
Definition IsAdmin (r : Role) : bool := bool_decide (r = RoleAdmin) || bool_decide (r = RoleOwner).

(** [Role.Values] *)
Definition Role_Values : list Role :=
  [RoleInstanceAdmin; RoleOwner; RoleAdmin; RoleViewer; RoleOrgMember; RoleOrgContributor; RoleProjectAdmin;
   RoleProjectViewer; RoleGroupMaintainer; RoleProductAdmin; RoleProductViewer].

Definition PolicyReferrerRead : Policy := mkPolicy ResourceReferrer ActionRead.
Definition PolicyArtifactDownload : Policy := mkPolicy ResourceCASArtifact ActionRead.
Definition PolicyArtifactUpload : Policy := mkPolicy ResourceCASArtifact ActionCreate.
Definition PolicyDefaultBackendArtifactRead : Policy := mkPolicy ResourceDefaultBackend ActionRead.
Definition PolicyCASBackendList : Policy := mkPolicy ResourceCASBackend ActionList.
Definition PolicyCASBackendUpdate : Policy := mkPolicy ResourceCASBackend ActionUpdate.
Definition PolicyCASBackendCreate : Policy := mkPolicy ResourceCASBackend ActionCreate.
Definition PolicyAvailableIntegrationList : Policy := mkPolicy ResourceAvailableIntegration ActionList.
Definition PolicyAvailableIntegrationRead : Policy := mkPolicy ResourceAvailableIntegration ActionRead.
Definition PolicyRegisteredIntegrationList : Policy := mkPolicy ResourceRegisteredIntegration ActionList.
Definition PolicyRegisteredIntegrationRead : Policy := mkPolicy ResourceRegisteredIntegration ActionRead.
Definition PolicyRegisteredIntegrationAdd : Policy := mkPolicy ResourceRegisteredIntegration ActionCreate.
Definition PolicyAttachedIntegrationList : Policy := mkPolicy ResourceAttachedIntegration ActionList.
Definition PolicyAttachedIntegrationAttach : Policy := mkPolicy ResourceAttachedIntegration ActionCreate.
Definition PolicyAttachedIntegrationDetach : Policy := mkPolicy ResourceAttachedIntegration ActionDelete.
Definition PolicyOrgMetricsRead : Policy := mkPolicy ResourceOrgMetric ActionList.
Definition PolicyWorkflowContractList : Policy := mkPolicy ResourceWorkflowContract ActionList.
Definition PolicyWorkflowContractRead : Policy := mkPolicy ResourceWorkflowContract ActionRead.
Definition PolicyWorkflowContractUpdate : Policy := mkPolicy ResourceWorkflowContract ActionUpdate.
Definition PolicyWorkflowContractCreate : Policy := mkPolicy ResourceWorkflowContract ActionCreate.
Definition PolicyWorkflowContractDelete : Policy := mkPolicy ResourceWorkflowContract ActionDelete.
Definition PolicyWorkflowRunList : Policy := mkPolicy ResourceWorkflowRun ActionList.
Definition PolicyWorkflowRunRead : Policy := mkPolicy ResourceWorkflowRun ActionRead.
Definition PolicyWorkflowRunCreate : Policy := mkPolicy ResourceWorkflowRun ActionCreate.
Definition PolicyWorkflowRunUpdate : Policy := mkPolicy ResourceWorkflowRun ActionUpdate.
Definition PolicyWorkflowList : Policy := mkPolicy ResourceWorkflow ActionList.
Definition PolicyWorkflowRead : Policy := mkPolicy ResourceWorkflow ActionRead.
Definition PolicyWorkflowCreate : Policy := mkPolicy ResourceWorkflow ActionCreate.
Definition PolicyWorkflowUpdate : Policy := mkPolicy ResourceWorkflow ActionUpdate.
Definition PolicyWorkflowDelete : Policy := mkPolicy ResourceWorkflow ActionDelete.
Definition PolicyProjectCreate : Policy := mkPolicy ResourceProject ActionCreate.
Definition PolicyProjectList : Policy := mkPolicy ResourceProject ActionList.
Definition PolicyOrganizationCreate : Policy := mkPolicy Organization ActionCreate.
Definition PolicyOrganizationDelete : Policy := mkPolicy Organization ActionDelete.
Definition PolicyOrganizationRead : Policy := mkPolicy Organization ActionRead.
Definition PolicyOrganizationListMemberships : Policy := mkPolicy OrganizationMemberships ActionList.
Definition PolicyGroupListPendingInvitations : Policy := mkPolicy ResourceGroup ActionList.
Definition PolicyGroupListMemberships : Policy := mkPolicy ResourceGroupMembership ActionList.
Definition PolicyGroupAddMemberships : Policy := mkPolicy ResourceGroupMembership ActionCreate.
Definition PolicyGroupRemoveMemberships : Policy := mkPolicy ResourceGroupMembership ActionDelete.
Definition PolicyGroupUpdateMemberships : Policy := mkPolicy ResourceGroupMembership ActionUpdate.
Definition PolicyAPITokenList : Policy := mkPolicy ResourceAPIToken ActionList.
Definition PolicyAPITokenCreate : Policy := mkPolicy ResourceAPIToken ActionCreate.
Definition PolicyAPITokenRevoke : Policy := mkPolicy ResourceAPIToken ActionDelete.
Definition PolicyProjectListMemberships : Policy := mkPolicy ResourceProjectMembership ActionList.
Definition PolicyProjectAddMemberships : Policy := mkPolicy ResourceProjectMembership ActionCreate.
Definition PolicyProjectUpdateMemberships : Policy := mkPolicy ResourceProjectMembership ActionUpdate.
Definition PolicyProjectRemoveMemberships : Policy := mkPolicy ResourceProjectMembership ActionDelete.
Definition PolicyOrganizationInvitationsCreate : Policy := mkPolicy ResourceOrganizationInvitations ActionCreate.
Definition PolicyOrganizationManageOwners : Policy := mkPolicy OrganizationMemberships ActionManageOwners.

(** The policies of each role, as the map that the enforcer is loaded with *)
Abbreviation Config := (list (Role * list Policy)).

Definition RolesMap : Config :=
  [(RoleInstanceAdmin,
    [PolicyOrganizationCreate; PolicyOrganizationInvitationsCreate; PolicyCASBackendList;
      PolicyCASBackendCreate]);
    (RoleOwner,
    [PolicyOrganizationDelete; PolicyOrganizationManageOwners]);
    (RoleAdmin,
    [PolicyArtifactUpload; PolicyOrganizationInvitationsCreate; PolicyDefaultBackendArtifactRead]);
    (RoleViewer,
    [PolicyReferrerRead; PolicyArtifactDownload; PolicyCASBackendList;
      PolicyAvailableIntegrationList; PolicyAvailableIntegrationRead;
      PolicyRegisteredIntegrationList; PolicyAttachedIntegrationList; PolicyOrgMetricsRead;
      PolicyWorkflowContractList; PolicyWorkflowContractRead; PolicyWorkflowRunList;
      PolicyWorkflowRunRead; PolicyWorkflowList; PolicyWorkflowRead; PolicyProjectList;
      PolicyOrganizationRead; PolicyOrganizationListMemberships]);
    (RoleOrgContributor,
    [PolicyWorkflowRead; PolicyWorkflowContractList; PolicyWorkflowContractRead;
      PolicyWorkflowContractCreate; PolicyWorkflowContractUpdate; PolicyWorkflowContractDelete;
      PolicyWorkflowList; PolicyWorkflowCreate; PolicyWorkflowUpdate; PolicyWorkflowDelete;
      PolicyProjectList; PolicyWorkflowRunList; PolicyWorkflowRunRead; PolicyArtifactDownload;
      PolicyArtifactUpload; PolicyCASBackendList; PolicyOrganizationRead;
      PolicyAvailableIntegrationList; PolicyAvailableIntegrationRead;
      PolicyRegisteredIntegrationList; PolicyRegisteredIntegrationRead;
      PolicyAttachedIntegrationList; PolicyAttachedIntegrationAttach;
      PolicyAttachedIntegrationDetach; PolicyOrgMetricsRead; PolicyReferrerRead; PolicyAPITokenList;
      PolicyAPITokenCreate; PolicyAPITokenRevoke; PolicyProjectListMemberships;
      PolicyProjectAddMemberships; PolicyProjectRemoveMemberships; PolicyProjectUpdateMemberships]);
    (RoleOrgMember,
    [PolicyProjectCreate]);
    (RoleProjectViewer,
    [PolicyWorkflowRead; PolicyWorkflowRunRead; PolicyWorkflowContractList;
      PolicyWorkflowContractRead; PolicyAPITokenList]);
    (RoleProjectAdmin,
    [PolicyWorkflowContractCreate; PolicyWorkflowContractUpdate; PolicyWorkflowContractDelete;
      PolicyWorkflowCreate; PolicyWorkflowRunCreate; PolicyWorkflowRunUpdate; PolicyWorkflowUpdate;
      PolicyWorkflowDelete; PolicyAttachedIntegrationAttach; PolicyAttachedIntegrationDetach;
      PolicyAPITokenCreate; PolicyAPITokenRevoke; PolicyProjectListMemberships;
      PolicyProjectAddMemberships; PolicyProjectRemoveMemberships; PolicyProjectUpdateMemberships]);
    (RoleGroupMaintainer,
    [PolicyGroupListMemberships; PolicyGroupListPendingInvitations; PolicyGroupAddMemberships;
      PolicyGroupRemoveMemberships; PolicyGroupUpdateMemberships])].

(** The policies that an API operation requires *)
Definition ServerOperationsMap : list (string * list Policy) :=
  [("/controlplane.v1.ReferrerService/DiscoverPrivate", [PolicyReferrerRead]);
   ("/controlplane.v1.CASCredentialsService/Get", []);
   ("/controlplane.v1.CASRedirectService/GetDownloadURL", [PolicyArtifactDownload]);
   ("/controlplane.v1.CASBackendService/List", [PolicyCASBackendList]);
   ("/controlplane.v1.CASBackendService/Revalidate", [PolicyCASBackendUpdate]);
   ("/controlplane.v1.CASBackendService/Create", [PolicyCASBackendCreate]);
   ("/controlplane.v1.IntegrationsService/ListAvailable", [PolicyAvailableIntegrationList; PolicyAvailableIntegrationRead]);
   ("/controlplane.v1.IntegrationsService/ListRegistrations", [PolicyRegisteredIntegrationList]);
   ("/controlplane.v1.IntegrationsService/DescribeRegistration", [PolicyRegisteredIntegrationRead]);
   ("/controlplane.v1.IntegrationsService/Register", [PolicyRegisteredIntegrationAdd]);
   ("/controlplane.v1.IntegrationsService/ListAttachments", [PolicyAttachedIntegrationList]);
   ("/controlplane.v1.IntegrationsService/Attach", [PolicyAttachedIntegrationAttach]);
   ("/controlplane.v1.IntegrationsService/Detach", [PolicyAttachedIntegrationDetach]);
   ("/controlplane.v1.OrgMetricsService/Totals", [PolicyOrgMetricsRead]);
   ("/controlplane.v1.OrgMetricsService/TopWorkflowsByRunsCount", [PolicyOrgMetricsRead]);
   ("/controlplane.v1.OrgMetricsService/DailyRunsCount", [PolicyOrgMetricsRead]);
   ("/controlplane.v1.WorkflowService/List", [PolicyWorkflowList]);
   ("/controlplane.v1.WorkflowService/View", [PolicyWorkflowRead]);
   ("/controlplane.v1.WorkflowService/Create", [PolicyWorkflowCreate]);
   ("/controlplane.v1.WorkflowService/Update", [PolicyWorkflowUpdate]);
   ("/controlplane.v1.WorkflowService/Delete", [PolicyWorkflowDelete]);
   ("/controlplane.v1.WorkflowRunService/List", [PolicyWorkflowRunList]);
   ("/controlplane.v1.WorkflowRunService/View", [PolicyWorkflowRunRead]);
   ("/controlplane.v1.WorkflowContractService/List", [PolicyWorkflowContractList]);
   ("/controlplane.v1.WorkflowContractService/Describe", [PolicyWorkflowContractRead]);
   ("/controlplane.v1.WorkflowContractService/Update", [PolicyWorkflowContractUpdate]);
   ("/controlplane.v1.WorkflowContractService/Create", [PolicyWorkflowContractCreate]);
   ("/controlplane.v1.WorkflowContractService/Delete", [PolicyWorkflowContractDelete]);
   ("/controlplane.v1.WorkflowContractService/Apply", [PolicyWorkflowContractCreate; PolicyWorkflowContractUpdate]);
   ("/controlplane.v1.ContextService/Current", [PolicyOrganizationRead]);
   ("/controlplane.v1.OrganizationService/Create", []);
   ("/controlplane.v1.OrganizationService/Delete", []);
   ("/controlplane.v1.OrganizationService/ListMemberships", [PolicyOrganizationListMemberships]);
   ("/controlplane.v1.UserService/ListMemberships", []);
   ("/controlplane.v1.UserService/SetCurrentMembership", []);
   ("/controlplane.v1.UserService/DeleteMembership", []);
   ("/controlplane.v1.AuthService/DeleteAccount", []);
   ("/controlplane.v1.GroupService/List", []);
   ("/controlplane.v1.GroupService/Get", []);
   ("/controlplane.v1.GroupService/ListMembers", []);
   ("/controlplane.v1.GroupService/ListProjects", []);
   ("/controlplane.v1.GroupService/AddMember", []);
   ("/controlplane.v1.GroupService/RemoveMember", []);
   ("/controlplane.v1.GroupService/ListPendingInvitations", []);
   ("/controlplane.v1.GroupService/UpdateMemberMaintainerStatus", []);
   ("/controlplane.v1.ProjectService/List", [PolicyProjectList]);
   ("/controlplane.v1.ProjectService/ListMembers", [PolicyProjectListMemberships]);
   ("/controlplane.v1.ProjectService/AddMember", [PolicyProjectAddMemberships]);
   ("/controlplane.v1.ProjectService/RemoveMember", [PolicyProjectRemoveMemberships]);
   ("/controlplane.v1.ProjectService/UpdateMemberRole", [PolicyProjectUpdateMemberships]);
   ("/controlplane.v1.ProjectService/ListPendingInvitations", [PolicyProjectListMemberships]);
   ("/controlplane.v1.APITokenService/List", [PolicyAPITokenList]);
   ("/controlplane.v1.APITokenService/Create", [PolicyAPITokenCreate]);
   ("/controlplane.v1.APITokenService/Revoke", [PolicyAPITokenRevoke]);
   ("/controlplane.v1.OrgInvitationService/Create", [PolicyOrganizationInvitationsCreate])].

(** ** The enforcer (enforcer.go) *)

Definition api_token_prefix : string := "api-token:".

(** [SubjectAPIToken.String] *)
Definition SubjectAPIToken (id : string) : string := api_token_prefix +:+ id.

(** A rule of Casbin: subject, object and action *)
Abbreviation Rule := (string * string * string)%type.

(** The enforcer of Casbin for the model in model.conf *)
Class Casbin := {
  casbin : Type;
  casbin_NewEnforcer : result casbin;
  AddPolicy : casbin -> Rule -> result casbin;
  RemovePolicy : casbin -> Rule -> result casbin;
  GetPolicy : casbin -> result (list Rule);
  AddGroupingPolicy : casbin -> string -> string -> result casbin;
  casbin_Enforce : casbin -> string -> string -> string -> result bool
}.

Section Enforcer.
Context `{Casbin}.

Record CasbinEnforcer := { ce_Enforcer : casbin; ce_config : option Config }.

(** [Enforce] *)
Definition Enforce (e : CasbinEnforcer) (sub : string) (p : Policy) : result bool :=
  if has_prefix sub api_token_prefix then Err (EMsg "API token subjects not supported")
  else casbin_Enforce (ce_Enforcer e) sub (Resource p) (Action p).

Definition rule (role : Role) (p : Policy) : Rule := (role, Resource p, Action p).

(** The first loop of [syncRBACRoles] *)
Definition add_role (e : casbin) (entry : Role * list Policy) : result casbin :=
  foldM_result (fun e p => map_err (EWrap "failed to add policy") (AddPolicy e (rule entry.1 p))) entry.2 e.

(** [conf.RolesMap[Role(role)]] *)
Definition role_policies (conf : Config) (role : Role) : option (list Policy) :=
  snd <$> List.find (fun entry => bool_decide (entry.1 = role)) conf.

(** The second loop: a rule that the configuration does not have is removed *)
Definition prune_rule (conf : Config) (e : casbin) (r : Rule) : result casbin :=
  match role_policies conf r.1.1 with
  | None => map_err (EWrap "failed to remove policy") (RemovePolicy e r)
  | Some wantPolicies =>
      if existsb (fun p => bool_decide (Resource p = r.1.2) && bool_decide (Action p = r.2)) wantPolicies then Ok e
      else map_err (EWrap "failed to remove policy") (RemovePolicy e r)
  end.

(** The roles that inherit from another one *)
Definition role_links : list (Role * Role) :=
  [(RoleAdmin, RoleViewer); (RoleOwner, RoleAdmin); (RoleOrgMember, RoleOrgContributor);
   (RoleProjectAdmin, RoleProjectViewer)].

Definition add_link (e : casbin) (l : Role * Role) : result casbin :=
  map_err (EWrap "failed to add grouping policy") (AddGroupingPolicy e l.1 l.2).

(** [syncRBACRoles]; a nil configuration is replaced with the enforcer's own *)
Definition syncRBACRoles (e : CasbinEnforcer) (c : option Config) : result casbin :=
  match (match c with Some conf => Some conf | None => ce_config e end) with
  | None => Err (panic "nil configuration")
  | Some conf =>
      e1 ← foldM_result add_role conf (ce_Enforcer e);
      policies ← map_err (EWrap "failed to get policies") (GetPolicy e1);
      e2 ← foldM_result (prune_rule conf) policies e1;
      foldM_result add_link role_links e2
  end.

(** [NewCasbinEnforcer] *)
Definition NewCasbinEnforcer (config : option Config) : result CasbinEnforcer :=
  enforcer ← map_err (EWrap "failed to create enforcer") casbin_NewEnforcer;
  enforcer ← map_err (EWrap "failed to sync roles")
               (syncRBACRoles {| ce_Enforcer := enforcer; ce_config := config |} config);
  Ok {| ce_Enforcer := enforcer; ce_config := config |}.
End Enforcer.

(** ** The middleware (middleware.go) *)

Definition Forbidden : string := "Forbidden".
Definition InternalServer : string := "InternalServer".

(** An error of the transport layer with its kind *)
Definition transport_err (kind msg : string) : goerr := EWrap msg (ESentinel kind).

(** [policiesLookup] *)
Definition policiesLookup (apiOperation : string) : result (list Policy) :=
  match List.find (fun entry => bool_decide (entry.1 = apiOperation)) ServerOperationsMap with
  | Some entry => Ok entry.2
  | None => Err (EMsg "operation not allowed")
  end.

Section Middleware.
(** The [Enforcer] that the middleware is given *)
Context (enforce : string -> Policy -> result bool).

(** The loop of [checkPolicies] *)
Definition check_policy (subject : string) (_ : unit) (p : Policy) : result unit :=
  match enforce subject p with
  | Err e => Err (transport_err InternalServer "internal error")
  | Ok true => Ok tt
  | Ok false => Err (transport_err Forbidden "operation not allowed")
  end.

(** [checkPolicies] *)
Definition checkPolicies (subject apiOperation : string) : result unit :=
  match policiesLookup apiOperation with
  | Err _ => Err (transport_err Forbidden "operation not allowed")
  | Ok policies => foldM_result (check_policy subject) policies tt
  end.

(** [WithAuthzMiddleware], before it calls the handler; [operation] is that of
    the transport, [None] when there is no transport in the context *)
Definition WithAuthzMiddleware (subject : string) (operation : option string) : result unit :=
  if is_empty subject then Err (transport_err Forbidden "missing authentication")
  else match operation with
  | None => Err (transport_err InternalServer "could not get transport from context")
  | Some apiOperation =>
      if is_empty apiOperation then Err (transport_err InternalServer "could not find API request")
      else if IsAdmin subject then Ok tt
      else checkPolicies subject apiOperation
  end.
End Middleware.

(** ** What the enforcer decides *)

(** What Casbin documents of a store and of the matcher of model.conf: a request
    is allowed when some rule has its object and action, and a subject that the
    subject of the request is or inherits from; chains of up to ten links are
    followed. *)
Class CasbinLaws `{Casbin} := {
  rules : casbin -> Rule -> Prop;
  links : casbin -> Role -> Role -> Prop;
  NewEnforcer_law e : casbin_NewEnforcer = Ok e -> (forall r, ~ rules e r) /\ (forall a b, ~ links e a b);
  AddPolicy_law e r e' : AddPolicy e r = Ok e' ->
    (forall r', rules e' r' <-> r' = r \/ rules e r') /\ (forall a b, links e' a b <-> links e a b);
  RemovePolicy_law e r e' : RemovePolicy e r = Ok e' ->
    (forall r', rules e' r' <-> rules e r' /\ r' <> r) /\ (forall a b, links e' a b <-> links e a b);
  GetPolicy_law e rs : GetPolicy e = Ok rs -> forall r, r ∈ rs <-> rules e r;
  AddGroupingPolicy_law e a b e' : AddGroupingPolicy e a b = Ok e' ->
    (forall r, rules e' r <-> rules e r) /\ (forall x y, links e' x y <-> (x = a /\ y = b) \/ links e x y);
  Enforce_sound e sub obj act : casbin_Enforce e sub obj act = Ok true ->
    exists role, rtc (links e) sub role /\ rules e (role, obj, act);
  Enforce_complete e sub obj act role n b : casbin_Enforce e sub obj act = Ok b ->
    nsteps (links e) n sub role -> n < 10 -> rules e (role, obj, act) -> b = true
}.

(** The roles that a subject acts with: itself and those it inherits from *)
Definition inherited (sub : Role) : list Role :=
  if bool_decide (sub = RoleOwner) then [RoleAdmin; RoleViewer]
  else if bool_decide (sub = RoleAdmin) then [RoleViewer]
  else if bool_decide (sub = RoleOrgMember) then [RoleOrgContributor]
  else if bool_decide (sub = RoleProjectAdmin) then [RoleProjectViewer]
  else [].

Definition implied (sub : Role) : list Role := sub :: inherited sub.

(** The policies of a role in a configuration *)
Definition grants (conf : Config) (role : Role) (p : Policy) : Prop :=
  exists ps, (role, ps) ∈ conf /\ p ∈ ps.

(** The reference: a subject may do what some role it acts with grants *)
Definition role_allows (sub : Role) (p : Policy) : bool :=
  existsb (fun role => existsb (fun entry => bool_decide (entry.1 = role) && bool_decide (p ∈ entry.2)) RolesMap)
    (implied sub).

Lemma role_allows_spec sub p : role_allows sub p = true <-> exists role, role ∈ implied sub /\ grants RolesMap role p.
Proof.
  unfold role_allows, grants. rewrite existsb_exists. split.
  - intros (role & Hin & H). apply existsb_exists in H as ([r ps] & Hc & H). split_bool. simplify_eq/=.
    exists role. split; [by apply list_elem_of_In|]. exists ps. split; [by apply list_elem_of_In|done].
  - intros (role & Hin & ps & Hc & Hp). exists role. split; [by apply list_elem_of_In|].
    apply existsb_exists. exists (role, ps). split; [by apply list_elem_of_In|]. cbn.
    by rewrite !bool_decide_eq_true_2.
Qed.

Lemma inherited_closed sub l : l ∈ role_links -> l.1 ∈ inherited sub -> l.2 ∈ inherited sub.
Proof.
  intros Hl. assert (Forall (fun roles => Forall (fun l => l.1 ∈ roles -> l.2 ∈ roles) role_links)
    [[RoleAdmin; RoleViewer]; [RoleViewer]; [RoleOrgContributor]; [RoleProjectViewer]; []]) as Hc
    by (apply (bool_decide_unpack _); vm_compute; done).
  rewrite Forall_forall in Hc. specialize (Hc (inherited sub)).
  rewrite Forall_forall in Hc. apply Hc; [|done].
  unfold inherited. repeat case_bool_decide; set_solver.
Qed.

Lemma implied_sound sub role : rtc (fun a b => (a, b) ∈ role_links) sub role -> role ∈ implied sub.
Proof.
  intros Hr. apply rtc_ind_r with (P := fun r => r ∈ implied sub) in Hr; [done|left|].
  intros y z _ Hyz Hy. apply elem_of_cons in Hy as [->|Hy].
  - unfold role_links in Hyz.
    repeat (apply elem_of_cons in Hyz as [[= -> ->]|Hyz]; [by apply (bool_decide_unpack _); vm_compute|]).
    by apply not_elem_of_nil in Hyz.
  - right. by apply (inherited_closed sub (y, z)).
Qed.

Lemma implied_complete sub role :
  role ∈ implied sub -> exists n, n < 10 /\ nsteps (fun a b => (a, b) ∈ role_links) n sub role.
Proof.
  intros Hr. unfold implied, inherited in Hr. apply elem_of_cons in Hr as [->|Hr]; [exists 0; split; [lia|constructor]|].
  repeat (case_bool_decide; subst); repeat (apply elem_of_cons in Hr as [->|Hr]); try by apply not_elem_of_nil in Hr.
  2: { exists 2. split; [lia|]. apply nsteps_l with RoleAdmin; [|apply nsteps_once];
         by apply (bool_decide_unpack _); vm_compute. }
  all: exists 1; split; [lia|]; apply nsteps_once; by apply (bool_decide_unpack _); vm_compute.
Qed.

(** The rules that a configuration has *)
Definition wanted (conf : Config) (r : Rule) : Prop := exists role p, grants conf role p /\ r = rule role p.

Lemma role_policies_spec conf role ps :
  NoDup (conf.*1) -> role_policies conf role = Some ps <-> (role, ps) ∈ conf.
Proof.
  unfold role_policies. induction conf as [|[k v] conf IH]; cbn; [set_solver|].
  intros [Hk Hd]%NoDup_cons. case_bool_decide as Hkr; cbn.
  - rewrite elem_of_cons. subst. split; [intros [= ->]; by left|].
    intros [[= ->]|Hin]; [done|]. destruct Hk. apply list_elem_of_fmap. by exists (role, ps).
  - rewrite (IH Hd), elem_of_cons. naive_solver.
Qed.

Section Sync.
Context `{CasbinLaws}.

(** A step that only adds rules *)
Definition adds (P : Rule -> Prop) (e e' : casbin) : Prop :=
  (forall r, rules e' r <-> P r \/ rules e r) /\ (forall a b, links e' a b <-> links e a b).

Lemma add_role_adds e entry e' :
  add_role e entry = Ok e' -> adds (fun r => exists p, p ∈ entry.2 /\ r = rule entry.1 p) e e'.
Proof.
  unfold add_role. destruct entry as [role ps]. cbn. revert e. induction ps as [|p ps IH]; intros e Hf; cbn in Hf.
  - injection Hf as <-. split; [|done]. intros r. split; [by right|]. intros [(p & Hp & _)|]; [|done]. set_solver.
  - inv_ok. destruct (AddPolicy_law _ _ _ H1) as [Hr Hl]. destruct (IH _ Hf) as [Hr' Hl'].
    split; [|intros; by rewrite Hl', Hl]. intros r. rewrite Hr', Hr. set_solver.
Qed.

Lemma add_roles_adds conf e e' :
  foldM_result add_role conf e = Ok e' -> adds (wanted conf) e e'.
Proof.
  revert e. induction conf as [|[role ps] conf IH]; intros e Hf; cbn [foldM_result] in Hf.
  - injection Hf as <-. split; [|done]. intros r. split; [by right|].
    intros [(? & ? & (? & Hp & _) & _)|]; [set_solver|done].
  - inv_ok. destruct (add_role_adds _ _ _ H1) as [Hr Hl]. destruct (IH _ Hf) as [Hr' Hl'].
    split; [|intros; by rewrite Hl', Hl]. intros r. rewrite Hr', Hr. unfold wanted, grants. cbn. set_solver.
Qed.
Lemma prune_rule_spec conf e r e' :
  NoDup (conf.*1) -> prune_rule conf e r = Ok e' ->
  (forall r', rules e' r' <-> rules e r' /\ (r' = r -> wanted conf r)) /\ (forall a b, links e' a b <-> links e a b).
Proof.
  intros Hd Hp.
  assert (~ wanted conf r -> RemovePolicy e r = Ok e' ->
    (forall r', rules e' r' <-> rules e r' /\ (r' = r -> wanted conf r)) /\ (forall a b, links e' a b <-> links e a b))
    as Hremoved.
  { intros Hw [Hr Hl]%RemovePolicy_law. split; [|done]. intros r'. rewrite Hr. naive_solver. }
  destruct r as [[role res] act]. unfold prune_rule in Hp. cbn [fst snd] in Hp.
  destruct (role_policies conf role) as [ps|] eqn:Hps.
  - destruct (existsb _ ps) eqn:Hx.
    + injection Hp as <-. split; [|done]. intros r'. split; [|tauto]. intros Hr. split; [done|]. intros _.
      apply existsb_exists in Hx as ([res' act'] & Hin & Hx). split_bool. cbn in *. subst.
      exists role, (mkPolicy res act). split; [|done]. exists ps. split; [by apply role_policies_spec|by apply list_elem_of_In].
    + inv_ok. apply Hremoved; [|done]. intros (role' & p & (ps' & Hin & Hp') & [= -> -> ->]).
      apply (role_policies_spec _ _ _ Hd) in Hin. assert (ps' = ps) as -> by congruence.
      apply not_true_iff_false in Hx. apply Hx, existsb_exists. exists p. split; [by apply list_elem_of_In|].
      by rewrite !bool_decide_eq_true_2.
  - inv_ok. apply Hremoved; [|done]. intros (role' & p & (ps' & Hin & _) & [= -> _ _]).
    apply (role_policies_spec _ _ _ Hd) in Hin. congruence.
Qed.

Lemma prune_rules_spec conf rs e e' :
  NoDup (conf.*1) -> foldM_result (prune_rule conf) rs e = Ok e' ->
  (forall r, rules e' r <-> rules e r /\ (r ∈ rs -> wanted conf r)) /\ (forall a b, links e' a b <-> links e a b).
Proof.
  intros Hd. revert e. induction rs as [|r rs IH]; intros e Hf; cbn [foldM_result] in Hf.
  - injection Hf as <-. split; [|done]. intros r. split; [intros Hr; split; [done|set_solver]|tauto].
  - inv_ok. destruct (prune_rule_spec _ _ _ _ Hd H1) as [Hr Hl]. destruct (IH _ Hf) as [Hr' Hl'].
    split; [|intros; by rewrite Hl', Hl]. intros r'. rewrite Hr', Hr, elem_of_cons. naive_solver.
Qed.

Lemma add_links_spec ls e e' :
  foldM_result add_link ls e = Ok e' ->
  (forall r, rules e' r <-> rules e r) /\ (forall a b, links e' a b <-> (a, b) ∈ ls \/ links e a b).
Proof.
  revert e. induction ls as [|[x y] ls IH]; intros e Hf; cbn [foldM_result] in Hf.
  - injection Hf as <-. split; [done|]. set_solver.
  - inv_ok. unfold add_link in H1. inv_ok. destruct (AddGroupingPolicy_law _ _ _ _ H1) as [Hr Hl].
    destruct (IH _ Hf) as [Hr' Hl']. split; [intros; by rewrite Hr', Hr|].
    intros a b. rewrite Hl', Hl, elem_of_cons. cbn. naive_solver.
Qed.

Lemma syncRBACRoles_spec e conf e' :
  NoDup (conf.*1) -> syncRBACRoles e (Some conf) = Ok e' ->
  (forall r, rules e' r <-> wanted conf r)
  /\ (forall a b, links e' a b <-> (a, b) ∈ role_links \/ links (ce_Enforcer e) a b).
Proof.
  intros Hd Hs. unfold syncRBACRoles in Hs. inv_ok.
  destruct (add_roles_adds _ _ _ H1) as [Hr1 Hl1]. pose proof (GetPolicy_law _ _ H2) as Hg.
  destruct (prune_rules_spec _ _ _ _ Hd H3) as [Hr2 Hl2]. destruct (add_links_spec _ _ _ Hs) as [Hr3 Hl3].
  split; [|intros; by rewrite Hl3, Hl2, Hl1]. intros r. rewrite Hr3, Hr2, Hg, Hr1. naive_solver.
Qed.

Lemma enforcer_spec conf e :
  conf ≡ₚ RolesMap -> NewCasbinEnforcer (Some conf) = Ok e ->
  (forall e0 e1, syncRBACRoles e0 (Some conf) = Ok e1 ->
     forall role p, rules e1 (rule role p) <-> exists ps, (role, ps) ∈ RolesMap /\ p ∈ ps)
  /\ forall sub p b, Enforce e sub p = Ok b ->
       has_prefix sub api_token_prefix = false /\ b = role_allows sub p.
Proof.
  intros Hc Hn.
  assert (NoDup (conf.*1)) as Hd by (rewrite Hc; by apply (bool_decide_unpack _); vm_compute).
  assert (forall role p, wanted conf (rule role p) <-> grants RolesMap role p) as Hw.
  { intros role p. split.
    - intros (role' & p' & (ps & Hin & Hp) & E). destruct p, p'. cbn in E. simplify_eq. exists ps. by rewrite <-Hc.
    - intros (ps & Hin & Hp). exists role, p. split; [|done]. exists ps. by rewrite Hc. }
  split.
  { intros e0 e1 Hs role p. destruct (syncRBACRoles_spec _ _ _ Hd Hs) as [Hr _]. by rewrite Hr, Hw. }
  unfold NewCasbinEnforcer in Hn. inv_ok. destruct (NewEnforcer_law _ H1) as [_ Hl0].
  destruct (syncRBACRoles_spec _ _ _ Hd H2) as [Hr Hl]. cbn [ce_Enforcer] in Hl.
  assert (forall a b, links x0 a b <-> (a, b) ∈ role_links) as Hlinks by (intros; rewrite Hl; naive_solver).
  intros sub p b He. unfold Enforce in He. destruct (has_prefix _ _); [done|]. split; [done|]. cbn [ce_Enforcer] in He.
  apply eq_bool_prop_intro. split; intros Hb; apply Is_true_eq_true in Hb; apply Is_true_eq_left.
  - subst b. apply Enforce_sound in He as (role & Hlink & Hrule). apply role_allows_spec. exists role. split.
    + apply implied_sound. revert Hlink. apply rtc_subrel. intros a b. apply Hlinks.
    + by apply Hw, Hr.
  - apply role_allows_spec in Hb as (role & Hin & Hg). apply implied_complete in Hin as (n & Hn & Hsteps).
    eapply Enforce_complete; [done| |exact Hn|apply Hr, Hw, Hg].
    apply (nsteps_congruence (R := fun a b => (a, b) ∈ role_links) id); [|done]. intros a b'. apply Hlinks.
Qed.

(** C17: Loading the enforcer makes its rules those of the configuration whatever the store held
    before, and after loading the role map it allows a role a policy exactly when
    the role, or one that it inherits from, has it; subjects that are API tokens
    are refused. *)
Theorem enforcer_exact conf e :
  conf ≡ₚ RolesMap -> NewCasbinEnforcer (Some conf) = Ok e ->
  (forall e0 e1, syncRBACRoles e0 (Some conf) = Ok e1 ->
     forall role p, rules e1 (rule role p) <-> exists ps, (role, ps) ∈ RolesMap /\ p ∈ ps)
  /\ forall sub p b, Enforce e sub p = Ok b ->
       has_prefix sub api_token_prefix = false /\ b = role_allows sub p.
Proof. apply enforcer_spec. Qed.
End Sync.

(** ** What the middleware lets through *)

Lemma policiesLookup_Ok op ps : policiesLookup op = Ok ps <-> (op, ps) ∈ ServerOperationsMap.
Proof.
  assert (NoDup (ServerOperationsMap.*1)) as Hd by (by apply (bool_decide_unpack _); vm_compute).
  rewrite <-(role_policies_spec ServerOperationsMap op ps Hd). unfold policiesLookup, role_policies.
  destruct (List.find _ _) as [[k v]|]; cbn; split; congruence.
Qed.

Lemma check_policies_Ok enforce subject ps :
  foldM_result (check_policy enforce subject) ps tt = Ok tt <-> Forall (fun p => enforce subject p = Ok true) ps.
Proof.
  induction ps as [|p ps IH]; cbn [foldM_result]; [by split; [constructor|]|].
  rewrite bind_Ok, Forall_cons, <-IH. unfold check_policy at 1. split.
  - intros ([] & Hp & Hps). by destruct (enforce subject p) as [[]|].
  - intros [-> Hps]. by exists tt.
Qed.

Lemma WithAuthzMiddleware_Ok enforce subject op :
  WithAuthzMiddleware enforce subject (Some op) = Ok tt <->
  subject <> "" /\ op <> "" /\
  (IsAdmin subject = true
   \/ exists ps, (op, ps) ∈ ServerOperationsMap /\ Forall (fun p => enforce subject p = Ok true) ps).
Proof.
  unfold WithAuthzMiddleware, checkPolicies.
  destruct (is_empty subject) eqn:Hs; [apply is_empty_true in Hs; naive_solver|apply is_empty_false in Hs].
  destruct (is_empty op) eqn:Ho; [apply is_empty_true in Ho; naive_solver|apply is_empty_false in Ho].
  destruct (IsAdmin subject) eqn:Ha; [tauto|]. destruct (policiesLookup op) as [ps|] eqn:Hps.
  - rewrite check_policies_Ok. apply policiesLookup_Ok in Hps as Hin. split; [naive_solver|].
    intros (_ & _ & [|(ps' & Hin' & Hall)]); [done|].
    apply policiesLookup_Ok in Hin'. rewrite Hps in Hin'. by injection Hin' as ->.
  - split; [done|]. intros (_ & _ & [|(ps' & Hin & _)]); [done|]. apply policiesLookup_Ok in Hin. congruence.
Qed.

Definition reads (p : Policy) : bool := bool_decide (Action p = ActionRead) || bool_decide (Action p = ActionList).

Lemma role_allows_reads role p :
  role = RoleViewer \/ role = RoleProjectViewer -> role_allows role p = true -> reads p = true.
Proof.
  intros Hrole (r & Hr & ps & Hin & Hp)%role_allows_spec.
  assert (Forall (fun e => e.1 = RoleViewer \/ e.1 = RoleProjectViewer -> Forall (fun p => reads p = true) e.2) RolesMap)
    as Hall by (apply (bool_decide_unpack _); vm_compute; done).
  rewrite Forall_forall in Hall. specialize (Hall _ Hin). rewrite Forall_forall in Hall. apply Hall; [|done].
  destruct Hrole as [-> | ->]; apply list_elem_of_singleton in Hr; subst; cbn; tauto.
Qed.

(** A role passes the middleware for an operation exactly when it is an administrator's or
    the operation is a listed one and the role, or one that it inherits from,
    has all the policies that it requires; so nobody else reaches an operation
    that is not listed, and a viewer only operations that require nothing but
    read and list policies. *)
Theorem gate_by_role `{CasbinLaws} conf e role op :
  conf ≡ₚ RolesMap -> NewCasbinEnforcer (Some conf) = Ok e ->
  (forall p, is_ok (Enforce e role p) = true) -> role <> "" -> op <> "" ->
  (WithAuthzMiddleware (Enforce e) role (Some op) = Ok tt <->
     IsAdmin role = true
     \/ exists ps, (op, ps) ∈ ServerOperationsMap /\ Forall (fun p => role_allows role p = true) ps)
  /\ (role = RoleViewer -> WithAuthzMiddleware (Enforce e) role (Some op) = Ok tt ->
      exists ps, (op, ps) ∈ ServerOperationsMap /\ Forall (fun p => reads p = true) ps).
Proof.
  intros Hc Hn Hok Hr Ho. destruct (enforcer_spec conf e Hc Hn) as [_ He].
  assert (forall p, Enforce e role p = Ok true <-> role_allows role p = true) as Hiff.
  { intros p. specialize (Hok p). destruct (Enforce e role p) as [b|] eqn:E; [|done].
    destruct (He _ _ _ E) as [_ ->]. split; [by injection 1|congruence]. }
  assert (WithAuthzMiddleware (Enforce e) role (Some op) = Ok tt <->
     IsAdmin role = true
     \/ exists ps, (op, ps) ∈ ServerOperationsMap /\ Forall (fun p => role_allows role p = true) ps) as Hgate.
  { rewrite WithAuthzMiddleware_Ok. setoid_rewrite Hiff. tauto. }
  split; [exact Hgate|]. intros -> [Ha|(ps & Hin & Hall)]%Hgate; [done|].
  exists ps. split; [done|]. apply (Forall_impl _ _ _ Hall). intros p. apply role_allows_reads. by left.
Qed.

(** ** Witnesses *)

Module ListCasbin.
(** An enforcer whose store is two lists *)
Fixpoint reachable (ls : list (Role * Role)) (fuel : nat) (a b : Role) : bool :=
  bool_decide (a = b) ||
  match fuel with
  | O => false
  | S fuel => existsb (fun l => if bool_decide (l.1 = a) then reachable ls fuel l.2 b else false) ls
  end.

#[export] Instance list_casbin : Casbin :=
  {| casbin := list Rule * list (Role * Role);
     casbin_NewEnforcer := Ok ([], []);
     AddPolicy := fun e r => Ok (r :: e.1, e.2);
     RemovePolicy := fun e r => Ok (List.filter (fun r' => negb (bool_decide (r' = r))) e.1, e.2);
     GetPolicy := fun e => Ok e.1;
     AddGroupingPolicy := fun e a b => Ok (e.1, (a, b) :: e.2);
     casbin_Enforce := fun e sub obj act =>
       Ok (existsb (fun r => bool_decide (r.1.2 = obj) && bool_decide (r.2 = act)
                             && reachable e.2 10 sub r.1.1) e.1) |}.

Lemma reachable_rtc ls n a b : reachable ls n a b = true -> rtc (fun x y => (x, y) ∈ ls) a b.
Proof.
  revert a. induction n as [|n IH]; intros a; cbn; rewrite orb_true_iff; intros [->%bool_decide_eq_true|Hx]; try done.
  apply existsb_exists in Hx as ([x y] & Hin & Hx). cbn in Hx. case_bool_decide; [subst|done].
  apply rtc_l with y; [by apply list_elem_of_In|by apply IH].
Qed.

Lemma reachable_nsteps ls n m a b : nsteps (fun x y => (x, y) ∈ ls) n a b -> n <= m -> reachable ls m a b = true.
Proof.
  intros Hs. revert m. induction Hs as [x|n x y z Hxy Hs IH]; intros m Hm.
  - destruct m; cbn; by rewrite bool_decide_eq_true_2.
  - destruct m as [|m]; [lia|]. cbn. apply orb_true_iff. right. apply existsb_exists. exists (x, y).
    split; [by apply list_elem_of_In|]. cbn. rewrite bool_decide_eq_true_2 by done. apply IH. lia.
Qed.

#[export] Instance list_casbin_laws : CasbinLaws.
Proof.
  refine {| rules := fun e r => r ∈ (e : list Rule * list (Role * Role)).1;
            links := fun e a b => (a, b) ∈ (e : list Rule * list (Role * Role)).2 |}.
  - intros e [= <-]. split; cbn; intros; apply not_elem_of_nil.
  - intros [rs ls] r e' [= <-]. cbn. split; [|done]. intros r'. by rewrite elem_of_cons.
  - intros [rs ls] r e' [= <-]. cbn. split; [|done]. intros r'. rewrite !list_elem_of_In, filter_In.
    rewrite negb_true_iff, bool_decide_eq_false. done.
  - intros [rs ls] rs' [= <-] r. done.
  - intros [rs ls] a b e' [= <-]. cbn. split; [done|]. intros x y. rewrite elem_of_cons. naive_solver.
  - intros [rs ls] sub obj act [= Hx]. apply existsb_exists in Hx as ([[r o] a] & Hin & Hx). split_bool. cbn [fst snd] in *. subst.
    exists r. split; [exact (reachable_rtc ls 10 sub r H0)|by apply list_elem_of_In].
  - intros [rs ls] sub obj act role n b [= <-] Hs Hn Hr. apply existsb_exists. exists (role, obj, act).
    split; [by apply list_elem_of_In|]. cbn [fst snd]. rewrite !bool_decide_eq_true_2 by done. cbn [andb].
    exact (reachable_nsteps ls n 10 sub role Hs ltac:(lia)).
Defined.
End ListCasbin.
Import ListCasbin.

(** The enforcer that is loaded with the roles, and a test of it *)
Definition toy_enforcer : result (@CasbinEnforcer ListCasbin.list_casbin) := NewCasbinEnforcer (Some RolesMap).
Definition toy_test (f : @CasbinEnforcer ListCasbin.list_casbin -> bool) : bool :=
  match toy_enforcer with Ok e => f e | Err _ => false end.

Lemma toy_test_elim f : toy_test f = true -> exists e, toy_enforcer = Ok e /\ f e = true.
Proof. unfold toy_test. destruct toy_enforcer as [e|]; [|discriminate]. by exists e. Qed.

Lemma enforcer_exact_witness :
  exists e, toy_enforcer = Ok e
    /\ Enforce e RoleAdmin PolicyReferrerRead = Ok true /\ role_allows RoleAdmin PolicyReferrerRead = true.
Proof.
  destruct (toy_test_elim (fun e => bool_decide (Enforce e RoleAdmin PolicyReferrerRead = Ok true)))
    as (e & E & He%bool_decide_eq_true); [vm_compute; reflexivity|].
  exists e. split; [exact E|]. split; [exact He|].
  symmetry. exact (proj2 (proj2 (enforcer_exact RolesMap e (Permutation_refl _) E) _ _ _ He)).
Defined.

Lemma gate_by_role_witness :
  exists e, toy_enforcer = Ok e
    /\ exists ps, ("/controlplane.v1.WorkflowService/View", ps) ∈ ServerOperationsMap
                  /\ Forall (fun p => reads p = true) ps.
Proof.
  destruct (toy_test_elim (fun e => bool_decide
    (WithAuthzMiddleware (Enforce e) RoleViewer (Some "/controlplane.v1.WorkflowService/View") = Ok tt)))
    as (e & E & He%bool_decide_eq_true); [vm_compute; reflexivity|].
  exists e. split; [exact E|].
  refine (proj2 (gate_by_role RolesMap e RoleViewer _ (Permutation_refl _) E (fun _ => eq_refl) _ _) eq_refl He);
    intros [=].
Defined.
