(* ===== verification/ApiTokens.v ===== *)
(** * API tokens

    An API token is a row of the api_token table and a signed JWT that names it.
    app/controlplane/pkg/jwt/apitoken/apitoken.go (the claims),
    pkg/biz/apitoken.go and apitoken_stale_revoker.go (minting, checking, revoking),
    pkg/data/apitoken.go over ent/schema/apitoken.go (the table),
    pkg/usercontext/entities/apitoken.go (what a token reaches),
    internal/usercontext/apitoken_middleware.go (authentication) and pkg/biz/authz.go
    (what a token may do).

    The signature of the JWT and the DNS-1123 check of names are parameters; a
    signed token is verified, and its expiration checked, before the claims reach
    this code.  Failures of the connection to the database are left out. *)

From S2P Require Import Prelude.
From S2P Require Import GoStrings.
From S2P Require Import BizErrors.
From S2P Require Import Authz.

Open Scope Z_scope.

(** ** Scopes (authz/membership.go, entities/apitoken.go) *)

Abbreviation ResourceType := string.

Definition ResourceTypeInstance : ResourceType := "instance".
Definition ResourceTypeOrganization : ResourceType := "organization".
Definition ResourceTypeProject : ResourceType := "project".
Definition ResourceTypeProduct : ResourceType := "product".
Definition ResourceTypeGroup : ResourceType := "group".

Definition ScopeInstanceAdmin : string := "INSTANCE_ADMIN".

(** The token that the request context carries; its policies may hold nil pointers *)
Record CtxToken := {
  ct_ID : UUID;
  ct_Name : string;
  ct_ProjectID : option UUID;
  ct_ProjectName : option string;
  ct_WorkflowID : option UUID;
  ct_WorkflowName : option string;
  ct_Scope : option ResourceType;
  ct_ScopeID : option UUID;
  ct_ProjectIDs : option (list UUID);
  ct_Policies : list (option Policy);
  ct_IsSystem : bool
}.

Definition scope_is (kind : ResourceType) (scope : option ResourceType) : bool := bool_decide (scope = Some kind).

(** [ResourceScope], of the scope and its identifier *)
Definition resource_scope (scope : option ResourceType) (scopeID : option UUID) : option (ResourceType * UUID) :=
  match scope, scopeID with
  | Some kind, Some id =>
      if bool_decide (kind = ResourceTypeProject) || bool_decide (kind = ResourceTypeProduct) then Some (kind, id)
      else None
  | _, _ => None
  end.

(** The methods of [*APIToken], whose receiver may be nil *)
Definition IsProductScoped (t : option CtxToken) : bool :=
  match t with Some t => scope_is ResourceTypeProduct (ct_Scope t) | None => false end.
Definition IsOrgScoped (t : option CtxToken) : bool :=
  match t with Some t => scope_is ResourceTypeOrganization (ct_Scope t) | None => false end.
Definition IsInstanceScoped (t : option CtxToken) : bool :=
  match t with Some t => scope_is ResourceTypeInstance (ct_Scope t) | None => false end.
Definition ResourceScope (t : option CtxToken) : option (ResourceType * UUID) :=
  match t with Some t => resource_scope (ct_Scope t) (ct_ScopeID t) | None => None end.
Definition token_projects (t : option CtxToken) : list UUID :=
  match t with Some t => default [] (ct_ProjectIDs t) | None => [] end.

(** [ReachableProjects]: [None] is nil, no restriction *)
Definition ReachableProjects (t : option CtxToken) : option (list UUID) :=
  if IsOrgScoped t || IsInstanceScoped t then None
  else match ResourceScope t with
  | None => Some []
  | Some (kind, id) => if bool_decide (kind = ResourceTypeProject) then Some [id] else Some (token_projects t)
  end.

(** [ReachesProject] *)
Definition ReachesProject (t : option CtxToken) (id : UUID) : bool :=
  if IsOrgScoped t || IsInstanceScoped t then true
  else match ResourceScope t with
  | None => false
  | Some (kind, scopeID) =>
      if bool_decide (kind = ResourceTypeProject) then bool_decide (scopeID = id)
      else bool_decide (id ∈ token_projects t)
  end.

(** ** Claims (jwt/apitoken/apitoken.go) *)

Definition Audience : string := "api-token-auth.chainloop".

Record CustomClaims := {
  cl_OrgID : string;
  cl_OrgName : string;
  cl_KeyName : string;
  cl_ProjectID : string;
  cl_ProjectName : string;
  cl_WorkflowID : string;
  cl_WorkflowName : string;
  cl_Scope : string;
  cl_ScopeID : string;
  cl_ID : string;
  cl_Issuer : string;
  cl_Audience : list string;
  cl_ExpiresAt : option Z
}.

(** [HasScopeClaims] *)
Definition HasScopeClaims (c : CustomClaims) : bool :=
  negb (is_empty (cl_Scope c)) && negb (bool_decide (cl_Scope c = ScopeInstanceAdmin)).

Section Claims.
Context `{UuidLib}.

(** [legacyScope] *)
Definition legacyScope (c : CustomClaims) : result (ResourceType * option UUID) :=
  if bool_decide (cl_Scope c = ScopeInstanceAdmin) then Ok (ResourceTypeInstance, None)
  else
    '(kind, raw) ← (if negb (is_empty (cl_ProjectID c)) then Ok (ResourceTypeProject, cl_ProjectID c)
                    else if negb (is_empty (cl_OrgID c)) then Ok (ResourceTypeOrganization, cl_OrgID c)
                    else Err (EMsg "the claims name no scope"));
    id ← map_err (EWrap ("invalid " +:+ kind +:+ " claim")) (raw_uuid raw);
    Ok (kind, Some id).

(** [namedScope] *)
Definition namedScope (c : CustomClaims) : result (ResourceType * option UUID) :=
  if negb (HasScopeClaims c) then legacyScope c
  else
    let kind := cl_Scope c in
    if bool_decide (kind = ResourceTypeInstance) then
      if negb (is_empty (cl_ScopeID c)) then Err (EMsg "an instance scope names no resource")
      else Ok (kind, None)
    else if bool_decide (kind ∈ [ResourceTypeOrganization; ResourceTypeProject; ResourceTypeProduct]) then
      id ← map_err (EWrap "invalid scope_id claim") (raw_uuid (cl_ScopeID c));
      Ok (kind, Some id)
    else Err (EMsg ("unknown scope claim " +:+ cl_Scope c)).

(** [validateScope]; the identifier is dereferenced, and is nil for an instance only *)
Definition validateScope (c : CustomClaims) (kind : ResourceType) (id : option UUID) : result unit :=
  _ ← guard_err (negb (is_empty (cl_WorkflowID c)) && is_empty (cl_ProjectID c))
        (EMsg "a workflow claim needs a project claim");
  if bool_decide (kind = ResourceTypeInstance) then
    guard_err (negb (is_empty (cl_OrgID c)) || negb (is_empty (cl_ProjectID c)))
      (EMsg "an instance scope names no organization or project")
  else if bool_decide (kind = ResourceTypeOrganization) then
    match id with
    | None => Err (panic "nil dereference")
    | Some id => guard_err (negb (bool_decide (cl_OrgID c = id)) || negb (is_empty (cl_ProjectID c)))
                   (EMsg "an organization scope names its own organization and no project")
    end
  else if bool_decide (kind = ResourceTypeProject) then
    if is_empty (cl_OrgID c) then Err (EMsg "a project scope names its organization and its own project")
    else match id with
    | None => Err (panic "nil dereference")
    | Some id => guard_err (negb (bool_decide (cl_ProjectID c = id)))
                   (EMsg "a project scope names its organization and its own project")
    end
  else if bool_decide (kind = ResourceTypeProduct) then
    guard_err (is_empty (cl_OrgID c) || negb (is_empty (cl_ProjectID c)))
      (EMsg "a product scope names its organization and no project")
  else Ok tt.

(** [GetScope] *)
Definition GetScope (c : CustomClaims) : result (ResourceType * option UUID) :=
  '(kind, id) ← namedScope c;
  _ ← validateScope c kind id;
  Ok (kind, id).

Record GenerateJWTOptions := {
  go_Org : option (UUID * option string);
  go_KeyID : UUID;
  go_KeyName : string;
  go_Project : option (UUID * option string);
  go_Workflow : option (UUID * option string);
  go_ExpiresAt : option Z;
  go_Scope : option ResourceType;
  go_ScopeID : option UUID
}.

(** The claims that [GenerateJWT] signs; a name that is nil is dereferenced, the
    workflow's apart *)
Definition new_claims (issuer : string) (o : GenerateJWTOptions) : result CustomClaims :=
  _ ← guard_err (bool_decide (go_KeyID o = uuid_Nil)) (EMsg "keyID is required");
  _ ← guard_err (is_empty (go_KeyName o)) (EMsg "keyName is required");
  '(orgID, orgName) ← match go_Org o with
                      | Some (id, Some name) => Ok (id, name)
                      | Some (_, None) => Err (panic "nil dereference")
                      | None => Ok ("", "")
                      end;
  '(projectID, projectName) ← match go_Project o with
                              | Some (id, Some name) => Ok (id, name)
                              | Some (_, None) => Err (panic "nil dereference")
                              | None => Ok ("", "")
                              end;
  '(workflowID, workflowName) ← match go_Workflow o with
                                | Some (id, Some name) => Ok (id, name)
                                | Some (_, None) => Err (EMsg "workflowName is required when workflowID is set")
                                | None => Ok ("", "")
                                end;
  scope ← match go_Scope o with Some s => Ok s | None => Err (EMsg "scope is required") end;
  _ ← guard_err (negb (bool_decide (scope ∈ [ResourceTypeInstance; ResourceTypeOrganization; ResourceTypeProject;
                                             ResourceTypeProduct])))
        (EMsg ("invalid scope " +:+ scope));
  let claims :=
    {| cl_OrgID := orgID; cl_OrgName := orgName; cl_KeyName := go_KeyName o;
       cl_ProjectID := projectID; cl_ProjectName := projectName;
       cl_WorkflowID := workflowID; cl_WorkflowName := workflowName;
       cl_Scope := scope; cl_ScopeID := default "" (go_ScopeID o);
       cl_ID := go_KeyID o; cl_Issuer := issuer; cl_Audience := [Audience]; cl_ExpiresAt := go_ExpiresAt o |} in
  _ ← map_err (EWrap "inconsistent token scope") (GetScope claims);
  Ok claims.

(** [GenerateJWT] *)
Definition GenerateJWT (sign : CustomClaims -> result string) (issuer : string) (o : GenerateJWTOptions)
    : result string :=
  claims ← new_claims issuer o; sign claims.
End Claims.

(** ** The shape of a token (biz/apitoken.go) *)

Definition same_id (a b : option UUID) : bool :=
  match a, b with Some a, Some b => bool_decide (a = b) | _, _ => false end.

(** [ValidateTokenShape]; the scope only carries a project list when it is a product *)
Definition ValidateTokenShape (scope : option ResourceType) (scopeID orgID projectID : option UUID)
    (projectIDs : option (list UUID)) : result unit :=
  _ ← guard_err (negb (Bool.eqb (scope_is ResourceTypeProduct scope) (bool_decide (is_Some projectIDs))))
        (NewErrValidationStr "only a product-scoped token carries a project list, and it always carries one");
  match scope with
  | None => guard_err (bool_decide (is_Some scopeID)) (NewErrValidationStr "a scope id needs a scope kind")
  | Some kind =>
      let coherent :=
        if bool_decide (kind = ResourceTypeOrganization) then bool_decide (projectID = None) && same_id scopeID orgID
        else if bool_decide (kind = ResourceTypeProject) then same_id scopeID projectID
        else if bool_decide (kind = ResourceTypeInstance) then
          bool_decide (scopeID = None) && bool_decide (orgID = None) && bool_decide (projectID = None)
        else if bool_decide (kind = ResourceTypeProduct) then
          bool_decide (is_Some scopeID) && bool_decide (is_Some orgID) && bool_decide (projectID = None)
        else false in
      guard_err (negb coherent) (NewErrValidationStr ("a " +:+ kind +:+ " scope does not agree with the token it is on"))
  end.

(** [newTokenScope] *)
Definition newTokenScope (orgID projectID : option UUID) : ResourceType * option UUID :=
  match projectID, orgID with
  | Some p, _ => (ResourceTypeProject, Some p)
  | None, Some o => (ResourceTypeOrganization, Some o)
  | None, None => (ResourceTypeInstance, None)
  end.

(** [slices.Compact] *)
Fixpoint compact (l : list UUID) : list UUID :=
  match l with
  | a :: (b :: _) as l' => if bool_decide (a = b) then compact l' else a :: compact l'
  | _ => l
  end.

(** [CanonicalProjectIDs]; the order of the bytes of two UUIDs is that of their texts *)
Definition CanonicalProjectIDs (ids : list UUID) : list UUID := compact (merge_sort str_le ids).

(** ** The table (data/apitoken.go, ent/schema/apitoken.go) *)

Record TokenRow := {
  tr_name : string;
  tr_description : string;
  tr_created_at : Z;
  tr_expires_at : option Z;
  tr_revoked_at : option Z;
  tr_last_used_at : option Z;
  tr_organization_id : option UUID;
  tr_project_id : option UUID;
  tr_workflow_id : option UUID;
  tr_scope : option ResourceType;
  tr_scope_id : option UUID;
  tr_project_ids : option (list UUID);
  tr_policies : list (option Policy);
  tr_is_system : bool
}.

Record OrgRow := { or_name : string; or_suspended : bool; or_deleted : bool; or_inactivity_days : option Z }.
Record WorkflowName := { wn_name : string; wn_project : UUID }.

(** The tables that this code reads and writes *)
Record TokenDB := {
  td_tokens : gmap UUID TokenRow;
  td_orgs : gmap UUID OrgRow;
  td_projects : gmap UUID ProjectRow;
  td_workflows : gmap UUID WorkflowName
}.

Definition with_tokens (db : TokenDB) (t : gmap UUID TokenRow) : TokenDB :=
  {| td_tokens := t; td_orgs := td_orgs db; td_projects := td_projects db; td_workflows := td_workflows db |}.

(** [biz.APIToken] *)
Record APIToken := {
  at_ID : UUID;
  at_Name : string;
  at_Description : string;
  at_JWT : string;
  at_OrganizationID : UUID;
  at_OrganizationName : string;
  at_CreatedAt : Z;
  at_ExpiresAt : option Z;
  at_RevokedAt : option Z;
  at_LastUsedAt : option Z;
  at_ProjectID : option UUID;
  at_ProjectName : option string;
  at_WorkflowID : option UUID;
  at_WorkflowName : option string;
  at_Scope : option ResourceType;
  at_ScopeID : option UUID;
  at_ProjectIDs : option (list UUID);
  at_Policies : list (option Policy);
  at_IsSystem : bool
}.

(** [entAPITokenToBiz]; the project and the workflow come from their tables, and
    the organization's name when the query loaded it *)
Definition entAPITokenToBiz (db : TokenDB) (with_org : bool) (id : UUID) (t : TokenRow) : APIToken :=
  let project := tr_project_id t ≫= fun p => (p,.) <$> td_projects db !! p in
  let workflow := tr_workflow_id t ≫= fun w => (w,.) <$> td_workflows db !! w in
  {| at_ID := id; at_Name := tr_name t; at_Description := tr_description t; at_JWT := "";
     at_OrganizationID := default uuid_Nil (tr_organization_id t);
     at_OrganizationName := if with_org then default "" (or_name <$> (tr_organization_id t ≫= fun o => td_orgs db !! o)) else "";
     at_CreatedAt := tr_created_at t; at_ExpiresAt := tr_expires_at t;
     at_RevokedAt := tr_revoked_at t; at_LastUsedAt := tr_last_used_at t;
     at_ProjectID := fst <$> project; at_ProjectName := (fun p => pr_name (snd p)) <$> project;
     at_WorkflowID := fst <$> workflow; at_WorkflowName := (fun w => wn_name (snd w)) <$> workflow;
     at_Scope := tr_scope t; at_ScopeID := tr_scope_id t; at_ProjectIDs := tr_project_ids t;
     at_Policies := tr_policies t; at_IsSystem := tr_is_system t |}.

(** [FindByID] *)
Definition repo_FindByID (db : TokenDB) (id : UUID) : option APIToken :=
  entAPITokenToBiz db true id <$> td_tokens db !! id.

Definition same_org (a b : TokenRow) : bool :=
  match tr_organization_id a, tr_organization_id b with Some x, Some y => bool_decide (x = y) | _, _ => false end.

(** The rows of the four partial indexes on the name *)
Definition org_level (t : TokenRow) : bool :=
  bool_decide (tr_project_id t = None) && negb (scope_is ResourceTypeProduct (tr_scope t)).
Definition product_level (t : TokenRow) : bool := scope_is ResourceTypeProduct (tr_scope t).
Definition project_level (t : TokenRow) : bool := bool_decide (is_Some (tr_project_id t)).
Definition instance_level (t : TokenRow) : bool := bool_decide (tr_organization_id t = None).

(** Two rows that a unique index refuses; a null column is unlike any other *)
Definition name_conflict (a b : TokenRow) : bool :=
  bool_decide (tr_revoked_at a = None) && bool_decide (tr_revoked_at b = None)
  && bool_decide (tr_name a = tr_name b)
  && ((org_level a && org_level b && same_org a b)
      || (product_level a && product_level b && same_id (tr_scope_id a) (tr_scope_id b))
      || (project_level a && project_level b && same_id (tr_project_id a) (tr_project_id b))
      || (instance_level a && instance_level b)).

Definition known {A} (t : gmap UUID A) (id : option UUID) : bool :=
  match id with Some i => bool_decide (is_Some (t !! i)) | None => true end.

(** What the constraints of the table accept: the references exist, the key is
    new and no index is violated *)
Definition insertable (db : TokenDB) (id : UUID) (t : TokenRow) : bool :=
  known (td_orgs db) (tr_organization_id t) && known (td_projects db) (tr_project_id t)
  && known (td_workflows db) (tr_workflow_id t)
  && bool_decide (td_tokens db !! id = None)
  && forallb (fun kv => negb (name_conflict t kv.2)) (map_to_list (td_tokens db)).

Record APITokenCreateOpts := {
  co_Name : string;
  co_Description : option string;
  co_ExpiresAt : option Z;
  co_OrganizationID : option UUID;
  co_ProjectID : option UUID;
  co_WorkflowID : option UUID;
  co_Scope : option ResourceType;
  co_ScopeID : option UUID;
  co_ProjectIDs : option (list UUID);
  co_Policies : list (option Policy);
  co_IsSystem : bool
}.

(** [Where(IDIn, OrganizationID, DeletedAtIsNil)] *)
Definition live_in_org (db : TokenDB) (org id : UUID) : bool :=
  match td_projects db !! id with
  | Some p => bool_decide (pr_organization p = org) && negb (pr_deleted p)
  | None => false
  end.

(** [liveProjectsInOrg] *)
Definition liveProjectsInOrg (db : TokenDB) (orgID : option UUID) (ids : list UUID) : result (list UUID) :=
  let canonical := CanonicalProjectIDs ids in
  match canonical with
  | [] => Ok canonical
  | _ =>
      match orgID with
      | None => Err (NewErrValidationStr "a token without an organization reaches no project")
      | Some org =>
          if bool_decide (length (List.filter (live_in_org db org) canonical) = length canonical) then Ok canonical
          else Err (NewErrValidationStr "every project a token reaches must be a live project of its organization")
      end
  end.

(** [APITokenRepo.Create]; [id] is the identifier that the row gets *)
Definition repo_Create (db : TokenDB) (id : UUID) (now : Z) (opts : APITokenCreateOpts)
    : result (APIToken * TokenDB) :=
  _ ← ValidateTokenShape (co_Scope opts) (co_ScopeID opts) (co_OrganizationID opts) (co_ProjectID opts)
        (co_ProjectIDs opts);
  ids ← match co_ProjectIDs opts with
        | None => Ok None
        | Some ids => Some <$> liveProjectsInOrg db (co_OrganizationID opts) ids
        end;
  let row :=
    {| tr_name := co_Name opts; tr_description := default "" (co_Description opts);
       tr_created_at := now; tr_expires_at := co_ExpiresAt opts; tr_revoked_at := None; tr_last_used_at := None;
       tr_organization_id := co_OrganizationID opts; tr_project_id := co_ProjectID opts;
       tr_workflow_id := co_WorkflowID opts; tr_scope := co_Scope opts; tr_scope_id := co_ScopeID opts;
       tr_project_ids := ids; tr_policies := co_Policies opts; tr_is_system := co_IsSystem opts |} in
  _ ← guard_err (negb (insertable db id row)) (NewErrAlreadyExists "constraint failed");
  let db' := with_tokens db (<[id := row]> (td_tokens db)) in
  Ok (entAPITokenToBiz db' true id row, db').

Definition set_revoked (now : Z) (t : TokenRow) : TokenRow :=
  {| tr_name := tr_name t; tr_description := tr_description t; tr_created_at := tr_created_at t;
     tr_expires_at := tr_expires_at t; tr_revoked_at := Some now; tr_last_used_at := tr_last_used_at t;
     tr_organization_id := tr_organization_id t; tr_project_id := tr_project_id t; tr_workflow_id := tr_workflow_id t;
     tr_scope := tr_scope t; tr_scope_id := tr_scope_id t; tr_project_ids := tr_project_ids t;
     tr_policies := tr_policies t; tr_is_system := tr_is_system t |}.
Definition set_expires (at_ : Z) (t : TokenRow) : TokenRow :=
  {| tr_name := tr_name t; tr_description := tr_description t; tr_created_at := tr_created_at t;
     tr_expires_at := Some at_; tr_revoked_at := tr_revoked_at t; tr_last_used_at := tr_last_used_at t;
     tr_organization_id := tr_organization_id t; tr_project_id := tr_project_id t; tr_workflow_id := tr_workflow_id t;
     tr_scope := tr_scope t; tr_scope_id := tr_scope_id t; tr_project_ids := tr_project_ids t;
     tr_policies := tr_policies t; tr_is_system := tr_is_system t |}.
Definition set_last_used (at_ : Z) (t : TokenRow) : TokenRow :=
  {| tr_name := tr_name t; tr_description := tr_description t; tr_created_at := tr_created_at t;
     tr_expires_at := tr_expires_at t; tr_revoked_at := tr_revoked_at t; tr_last_used_at := Some at_;
     tr_organization_id := tr_organization_id t; tr_project_id := tr_project_id t; tr_workflow_id := tr_workflow_id t;
     tr_scope := tr_scope t; tr_scope_id := tr_scope_id t; tr_project_ids := tr_project_ids t;
     tr_policies := tr_policies t; tr_is_system := tr_is_system t |}.

Definition live_token (db : TokenDB) (id : UUID) : option TokenRow :=
  t ← td_tokens db !! id; if bool_decide (tr_revoked_at t = None) then Some t else None.

(** [APITokenRepo.Revoke]: the row with that identifier and organization that is
    not revoked yet *)
Definition repo_Revoke (db : TokenDB) (orgID : option UUID) (id : UUID) (now : Z) : result TokenDB :=
  match live_token db id with
  | Some t => if bool_decide (tr_organization_id t = orgID)
              then Ok (with_tokens db (<[id := set_revoked now t]> (td_tokens db)))
              else Err (NewErrNotFound "API token")
  | None => Err (NewErrNotFound "API token")
  end.

(** [UpdateExpiration] *)
Definition repo_UpdateExpiration (db : TokenDB) (id : UUID) (expiresAt : Z) : result TokenDB :=
  match td_tokens db !! id with
  | Some t => Ok (with_tokens db (<[id := set_expires expiresAt t]> (td_tokens db)))
  | None => Err (EWrap "updating APIToken" (EMsg "ent: api_token not found"))
  end.

(** [UpdateLastUsedAt] *)
Definition repo_UpdateLastUsedAt (db : TokenDB) (id : UUID) (lastUsedAt : Z) : result TokenDB :=
  match live_token db id with
  | Some t => Ok (with_tokens db (<[id := set_last_used lastUsedAt t]> (td_tokens db)))
  | None => Err (NewErrNotFound "API token")
  end.

(** [FindByIDInOrg] *)
Definition repo_FindByIDInOrg (db : TokenDB) (orgID id : UUID) : result APIToken :=
  match live_token db id with
  | Some t => if bool_decide (tr_organization_id t = Some orgID) then Ok (entAPITokenToBiz db false id t)
              else Err (NewErrNotFound "API token")
  | None => Err (NewErrNotFound "API token")
  end.

(** The condition of [FindInactive] *)
Definition inactive (orgID : UUID) (inactiveSince : Z) (t : TokenRow) : bool :=
  bool_decide (tr_organization_id t = Some orgID) && bool_decide (tr_revoked_at t = None)
  && match tr_last_used_at t with
     | Some used => bool_decide (used < inactiveSince)
     | None => bool_decide (tr_created_at t < inactiveSince)
     end.

(** [FindInactive] *)
Definition FindInactive (db : TokenDB) (orgID : UUID) (inactiveSince : Z) : list UUID :=
  (List.filter (fun kv => inactive orgID inactiveSince kv.2) (map_to_list (td_tokens db))).*1.

Inductive APITokenStatusFilter := StatusActive | StatusRevoked | StatusAll.

Record APITokenListFilters := {
  lf_FilterByProjects : option (list UUID);
  lf_StatusFilter : APITokenStatusFilter;
  lf_FilterByScope : string;
  lf_IncludeSystem : bool
}.

(** The conditions of [APITokenRepo.List] *)
Definition token_listed (orgID : option UUID) (f : APITokenListFilters) (t : TokenRow) : bool :=
  match orgID with Some o => bool_decide (tr_organization_id t = Some o) | None => true end
  && match lf_FilterByProjects f with
     | Some ids => match tr_project_id t with Some p => bool_decide (p ∈ ids) | None => false end
     | None => true
     end
  && (lf_IncludeSystem f || negb (tr_is_system t))
  && (let scope := lf_FilterByScope f in
      if bool_decide (scope = ResourceTypeProject) then bool_decide (is_Some (tr_project_id t))
      else if bool_decide (scope = ResourceTypeProduct) then scope_is ResourceTypeProduct (tr_scope t)
      else if bool_decide (scope = ResourceTypeOrganization) then
        bool_decide (is_Some (tr_organization_id t)) && bool_decide (tr_project_id t = None)
        && negb (scope_is ResourceTypeProduct (tr_scope t))
      else if bool_decide (scope = ResourceTypeInstance) then bool_decide (tr_organization_id t = None)
      else true)
  && match lf_StatusFilter f with
     | StatusRevoked => bool_decide (is_Some (tr_revoked_at t))
     | StatusAll => true
     | StatusActive => bool_decide (tr_revoked_at t = None)
     end.

Definition created_le (a b : UUID * TokenRow) : Prop := tr_created_at a.2 <= tr_created_at b.2.
#[export] Instance created_le_dec a b : Decision (created_le a b).
Proof. unfold created_le. apply _. Defined.

(** [APITokenRepo.List], from the oldest *)
Definition repo_List (db : TokenDB) (orgID : option UUID) (f : APITokenListFilters) : list APIToken :=
  (fun kv => entAPITokenToBiz db true kv.1 kv.2) <$>
    merge_sort created_le (List.filter (fun kv => token_listed orgID f kv.2) (map_to_list (td_tokens db))).

(** ** Checking a row against its claims (biz/apitoken.go) *)

Definition ErrAPITokenClaimsMismatch : string := "API token could not be verified".
Definition mismatch (msg : string) : goerr := EWrap msg (ESentinel ErrAPITokenClaimsMismatch).

(** [scopeView], and the methods that are those of it *)
Definition scopeView (t : APIToken) : option CtxToken :=
  Some {| ct_ID := ""; ct_Name := ""; ct_ProjectID := None; ct_ProjectName := None; ct_WorkflowID := None;
          ct_WorkflowName := None; ct_Scope := at_Scope t; ct_ScopeID := at_ScopeID t; ct_ProjectIDs := None;
          ct_Policies := []; ct_IsSystem := false |}.

(** [sameClaimedID] *)
Definition sameClaimedID (row : option UUID) (claim : string) : bool :=
  match row with None => is_empty claim | Some id => bool_decide (id = claim) end.

(** [sameScopeID] *)
Definition sameScopeID (a b : option UUID) : bool := bool_decide (a = b).

Definition org_claim (t : APIToken) : string :=
  if bool_decide (at_OrganizationID t = uuid_Nil) then "" else at_OrganizationID t.

Section UseCase.
Context `{UuidLib}.
Context (sign : CustomClaims -> result string) (ValidateIsDNS1123 : string -> result unit).

(** [VerifyClaims] *)
Definition VerifyClaims (t : APIToken) (claims : CustomClaims) : result unit :=
  '(kind, id) ← map_err (fun e => EWrap2 "API token scope claims" e (ESentinel ErrAPITokenClaimsMismatch)) (GetScope claims);
  _ ← guard_err (negb (scope_is kind (at_Scope t)) || negb (sameScopeID (at_ScopeID t) id))
        (mismatch "API token scope mismatch");
  _ ← guard_err (negb (bool_decide (cl_OrgID claims = org_claim t))) (mismatch "API token organization mismatch");
  _ ← guard_err (negb (sameClaimedID (at_ProjectID t) (cl_ProjectID claims))) (mismatch "API token project mismatch");
  guard_err (negb (sameClaimedID (at_WorkflowID t) (cl_WorkflowID claims))) (mismatch "API token workflow mismatch").

(** [OrganizationUseCase.FindByID] *)
Definition org_FindByID (db : TokenDB) (id : string) : result (UUID * OrgRow) :=
  orgUUID ← parse_uuid id;
  match td_orgs db !! orgUUID with
  | Some o => if or_deleted o then Err (NewErrNotFound "organization") else Ok (orgUUID, o)
  | None => Err (NewErrNotFound "organization")
  end.

(** [OrganizationUseCase.FindByName]; the query wants one row *)
Definition org_FindByName (db : TokenDB) (name : string) : result (UUID * OrgRow) :=
  match List.filter (fun kv => bool_decide (or_name kv.2 = name) && negb (or_deleted kv.2)) (map_to_list (td_orgs db)) with
  | [] => Err (NewErrNotFound "organization")
  | [o] => Ok o
  | _ => Err (EWrap "failed to find organization" (EMsg "ent: organization not singular"))
  end.

(** ** Minting *)

Definition DefaultIssuer : string := "cp.chainloop".

Definition orgLevelTokenPolicies : list Policy :=
  [PolicyAPITokenCreate; PolicyAPITokenList; PolicyAPITokenRevoke; PolicyRegisteredIntegrationAdd;
   PolicyRegisteredIntegrationList; PolicyRegisteredIntegrationRead].

(** [IsOrgLevelTokenPolicy] *)
Definition IsOrgLevelTokenPolicy (p : option Policy) : bool :=
  match p with
  | None => false
  | Some p => existsb (fun o => bool_decide (Resource o = Resource p) && bool_decide (Action o = Action p))
                orgLevelTokenPolicies
  end.

Definition defaultAuthzPolicies : list Policy :=
  [PolicyWorkflowRunList; PolicyWorkflowRunRead; PolicyWorkflowRead; PolicyWorkflowList; PolicyWorkflowCreate;
   PolicyWorkflowContractList; PolicyWorkflowContractRead; PolicyWorkflowContractUpdate; PolicyWorkflowContractCreate;
   PolicyArtifactDownload; PolicyReferrerRead; PolicyOrganizationRead; PolicyAvailableIntegrationRead;
   PolicyAvailableIntegrationList; PolicyAttachedIntegrationList; PolicyAttachedIntegrationAttach; PolicyArtifactUpload].

(** [apiTokenOptions]: a project and a workflow with their names, the workflow
    with its project; the lists are nil or not *)
Record TokenOptions := {
  to_project : option (UUID * string);
  to_workflow : option (UUID * string * UUID);
  to_scope : option (ResourceType * option UUID);
  to_projectIDs : option (list UUID);
  to_policies : option (list (option Policy));
  to_isSystem : bool
}.

Definition id_of {A} (x : option (UUID * A)) : option UUID := fst <$> x.

(** The checks of [APITokenUseCase.Create] before it stores the row: the
    organization, and the options of the repository *)
Definition create_checks (db : TokenDB) (now : Z) (name : string) (description : option string)
    (expiresIn : option Z) (orgID : option string) (o : TokenOptions)
    : result (option (UUID * OrgRow) * APITokenCreateOpts) :=
  org ← match orgID with
        | Some id => if is_empty id then Ok None
                     else Some <$> (_ ← parse_uuid id; map_err (EWrap "finding organization") (org_FindByID db id))
        | None => Ok None
        end;
  let orgUUID := fst <$> org in
  _ ← guard_err (is_empty name) (NewErrValidationStr "name is required");
  _ ← map_err (fun _ => NewErrValidationStr "invalid name") (ValidateIsDNS1123 name);
  let expiresAt := (fun d => now + d) <$> expiresIn in
  let projectID := id_of (to_project o) in
  _ ← guard_err (bool_decide (is_Some projectID) && bool_decide (orgUUID = None))
        (NewErrValidationStr "a project-scoped token requires an organization");
  workflowID ← match to_workflow o, projectID with
               | None, _ => Ok None
               | Some _, None => Err (NewErrValidationStr "workflow scope requires a project scope")
               | Some (w, _, p'), Some p =>
                   if bool_decide (p' = p) then Ok (Some w)
                   else Err (NewErrValidationStr "workflow does not belong to the requested project")
               end;
  let '(scope, scopeID) := match to_scope o with Some s => s | None => newTokenScope orgUUID projectID end in
  _ ← ValidateTokenShape (Some scope) scopeID orgUUID projectID (to_projectIDs o);
  let policies := default (Some <$> defaultAuthzPolicies) (to_policies o) in
  _ ← (if bool_decide (scope = ResourceTypeProduct) then
         _ ← guard_err (bool_decide (policies = [])) (NewErrValidationStr "a product-scoped token needs at least one policy");
         _ ← guard_err (bool_decide (None ∈ policies)) (NewErrValidationStr "a product-scoped token cannot carry a nil policy");
         guard_err (existsb IsOrgLevelTokenPolicy policies)
           (NewErrValidationStr "a product-scoped token cannot carry organization-level policies")
       else Ok tt);
  let policies := if bool_decide (scope = ResourceTypeOrganization)
                  then policies ++ (Some <$> orgLevelTokenPolicies) else policies in
  Ok (org, {| co_Name := name; co_Description := description; co_ExpiresAt := expiresAt;
              co_OrganizationID := orgUUID; co_ProjectID := projectID; co_WorkflowID := workflowID;
              co_Scope := Some scope; co_ScopeID := scopeID; co_ProjectIDs := to_projectIDs o;
              co_Policies := policies; co_IsSystem := to_isSystem o |}).

Definition with_jwt (t : APIToken) (jwt : string) : APIToken :=
  {| at_ID := at_ID t; at_Name := at_Name t; at_Description := at_Description t; at_JWT := jwt;
     at_OrganizationID := at_OrganizationID t; at_OrganizationName := at_OrganizationName t;
     at_CreatedAt := at_CreatedAt t; at_ExpiresAt := at_ExpiresAt t; at_RevokedAt := at_RevokedAt t;
     at_LastUsedAt := at_LastUsedAt t; at_ProjectID := at_ProjectID t; at_ProjectName := at_ProjectName t;
     at_WorkflowID := at_WorkflowID t; at_WorkflowName := at_WorkflowName t; at_Scope := at_Scope t;
     at_ScopeID := at_ScopeID t; at_ProjectIDs := at_ProjectIDs t; at_Policies := at_Policies t;
     at_IsSystem := at_IsSystem t |}.

(** [APITokenUseCase.Create]: an error after the row is stored leaves it there *)
Definition uc_Create (db : TokenDB) (id : UUID) (now : Z) (name : string) (description : option string)
    (expiresIn : option Z) (orgID : option string) (o : TokenOptions) : result APIToken * TokenDB :=
  match create_checks db now name description expiresIn orgID o with
  | Err e => (Err e, db)
  | Ok (org, opts) =>
      match repo_Create db id now opts with
      | Err e => (Err (if IsErrAlreadyExists e then NewErrAlreadyExists "name already taken"
                       else EWrap "storing token" e), db)
      | Ok (token, db') =>
          let generationOpts :=
            {| go_Org := (fun org => (at_OrganizationID token, Some (or_name org.2))) <$> org;
               go_KeyID := at_ID token; go_KeyName := name;
               go_Project := (fun p => (p.1, Some p.2)) <$> to_project o;
               go_Workflow := (fun w => (w.1.1, Some w.1.2)) <$> to_workflow o;
               go_ExpiresAt := co_ExpiresAt opts; go_Scope := co_Scope opts; go_ScopeID := co_ScopeID opts |} in
          match GenerateJWT sign DefaultIssuer generationOpts with
          | Err e => (Err (EWrap "generating jwt" e), db')
          | Ok jwt => (Ok (with_jwt token jwt), db')
          end
      end
  end.

(** [RegenerateJWT] *)
Definition RegenerateJWT (db : TokenDB) (tokenID : UUID) (now expiresIn : Z) : result APIToken * TokenDB :=
  if bool_decide (expiresIn = 0) then (Err (EMsg "expiresAt is mandatory"), db)
  else
    let expiresAt := now + expiresIn in
    let r :=
      match repo_FindByID db tokenID with
      | None => Err (panic "nil dereference")
      | Some token =>
          _ ← guard_err (bool_decide (at_Scope token = None)) (NewErrValidationStr "the token records no scope");
          let rowOrgID := if bool_decide (at_OrganizationID token = uuid_Nil) then None else Some (at_OrganizationID token) in
          _ ← ValidateTokenShape (at_Scope token) (at_ScopeID token) rowOrgID (at_ProjectID token) (at_ProjectIDs token);
          org ← match rowOrgID with
                | None => Ok None
                | Some org =>
                    o ← map_err (EWrap "finding organization") (org_FindByID db org);
                    Ok (Some (org, Some (or_name o.2)))
                end;
          jwt ← map_err (EWrap "generating jwt")
            (GenerateJWT sign DefaultIssuer
              {| go_Org := org; go_KeyID := at_ID token; go_KeyName := at_Name token;
                 go_Project := (fun p => (p, at_ProjectName token)) <$> at_ProjectID token;
                 go_Workflow := (fun w => (w, at_WorkflowName token)) <$> at_WorkflowID token;
                 go_ExpiresAt := Some expiresAt; go_Scope := at_Scope token; go_ScopeID := at_ScopeID token |});
          Ok (with_jwt token jwt)
      end in
    match r with
    | Err e => (Err e, db)
    | Ok token =>
        match repo_UpdateExpiration db tokenID expiresAt with
        | Err e => (Err (EWrap "updating expiration for token" e), db)
        | Ok db' => (Ok token, db')
        end
    end.

(** ** Finding, listing and revoking *)

(** [APITokenUseCase.FindByID] *)
Definition uc_FindByID (db : TokenDB) (id : string) : result APIToken :=
  u ← parse_uuid id;
  match repo_FindByID db u with Some t => Ok t | None => Err (NewErrNotFound "token") end.

(** [APITokenUseCase.FindByIDInOrg] *)
Definition uc_FindByIDInOrg (db : TokenDB) (orgID id : string) : result APIToken :=
  org ← parse_uuid orgID; u ← parse_uuid id;
  map_err (EWrap "finding token") (repo_FindByIDInOrg db org u).

Definition listableAPITokenScopes : list ResourceType :=
  [ResourceTypeProject; ResourceTypeProduct; ResourceTypeOrganization; ResourceTypeInstance].

(** [APITokenUseCase.List] *)
Definition uc_List (db : TokenDB) (orgID : string) (filters : APITokenListFilters) : result (list APIToken) :=
  _ ← guard_err (negb (is_empty (lf_FilterByScope filters))
                 && negb (bool_decide (lf_FilterByScope filters ∈ listableAPITokenScopes)))
        (NewErrValidationStr ("invalid scope " +:+ lf_FilterByScope filters));
  org ← (if is_empty orgID then Ok None else Some <$> parse_uuid orgID);
  Ok (repo_List db org filters).

(** [APITokenUseCase.Revoke]; a token that does not exist fails in the repository *)
Definition uc_Revoke (db : TokenDB) (orgID id : string) (now : Z) : result TokenDB :=
  org ← (if is_empty orgID then Ok None else Some <$> parse_uuid orgID);
  u ← parse_uuid id;
  map_err (EWrap "revoking token") (repo_Revoke db org u now).

(** [APITokenUseCase.UpdateLastUsedAt] *)
Definition uc_UpdateLastUsedAt (db : TokenDB) (tokenID : string) (now : Z) : result TokenDB :=
  id ← parse_uuid tokenID;
  map_err (EWrap "updating last used at") (repo_UpdateLastUsedAt db id now).

(** [Sweep] (apitoken_stale_revoker.go): every organization with a threshold; an
    error revoking one token is logged *)
Definition day : Z := 24 * 3600 * 1000000000.

Definition revoke_stale (org : UUID) (now : Z) (db : TokenDB) (id : UUID) : TokenDB :=
  match uc_Revoke db org id now with Ok db' => db' | Err _ => db end.

Definition sweep_org (now : Z) (db : TokenDB) (kv : UUID * OrgRow) : TokenDB :=
  match or_inactivity_days kv.2 with
  | None => db
  | Some days =>
      match uuid_Parse kv.1 with
      | None => db
      | Some org => foldl (revoke_stale org now) db (FindInactive db org (now - days * day))
      end
  end.

Definition Sweep (db : TokenDB) (now : Z) : TokenDB :=
  foldl (sweep_org now) db
    (List.filter (fun kv => negb (or_deleted kv.2) && bool_decide (is_Some (or_inactivity_days kv.2)))
       (map_to_list (td_orgs db))).

(** ** Authentication (apitoken_middleware.go) *)

(** What the middleware puts in the context: the organization, with its
    identifier, the token, and the subject of the authorization *)
Record TokenContext := {
  tc_org : option (UUID * OrgRow);
  tc_token : CtxToken;
  tc_subject : string
}.

Definition ctx_token (t : APIToken) : CtxToken :=
  {| ct_ID := at_ID t; ct_Name := at_Name t; ct_ProjectID := at_ProjectID t; ct_ProjectName := at_ProjectName t;
     ct_WorkflowID := at_WorkflowID t; ct_WorkflowName := at_WorkflowName t; ct_Scope := at_Scope t;
     ct_ScopeID := at_ScopeID t; ct_ProjectIDs := at_ProjectIDs t; ct_Policies := at_Policies t;
     ct_IsSystem := at_IsSystem t |}.

(** [setCurrentOrgAndAPIToken]; [header] is the organization that the request
    names, empty when it names none *)
Definition setCurrentOrgAndAPIToken (db : TokenDB) (header : string) (claims : CustomClaims)
    : result (TokenContext * APIToken) :=
  _ ← guard_err (is_empty (cl_ID claims)) (EMsg "error retrieving the key ID from the API token");
  token ← map_err (EWrap "error retrieving the API token") (uc_FindByID db (cl_ID claims));
  _ ← map_err (fun e => if errors_is ErrAPITokenClaimsMismatch e then ESentinel ErrAPITokenClaimsMismatch else e)
        (VerifyClaims token claims);
  _ ← guard_err (bool_decide (is_Some (at_RevokedAt token))) (EMsg "API token revoked");
  org ← (if IsInstanceScoped (scopeView token) then
           if is_empty header then Ok None
           else Some <$> map_err (EWrap "error retrieving the organization") (org_FindByName db header)
         else Some <$> map_err (EWrap "error retrieving the organization") (org_FindByID db (at_OrganizationID token)));
  Ok ({| tc_org := org; tc_token := ctx_token token; tc_subject := SubjectAPIToken (at_ID token) |}, token).

(** ** Authorization (biz/authz.go) *)

(** The loop over the policies of the token *)
Fixpoint token_allows (policies : list (option Policy)) (p : Policy) : result bool :=
  match policies with
  | [] => Ok false
  | None :: _ => Err (panic "nil dereference")
  | Some allowed :: policies =>
      if bool_decide (Resource allowed = Resource p) && bool_decide (Action allowed = Action p) then Ok true
      else token_allows policies p
  end.

(** [AuthzUseCase.Enforce] *)
Definition authz_Enforce `{Casbin} (db : TokenDB) (e : CasbinEnforcer) (sub : string) (p : Policy) : result bool :=
  if has_prefix sub api_token_prefix then
    match split sub ":" with
    | _ :: tokenID :: _ =>
        id ← raw_uuid tokenID;
        match repo_FindByID db id with
        | None => Err (NewErrNotFound "API token")
        | Some token => token_allows (at_Policies token) p
        end
    | _ => Err (panic "index out of range")
    end
  else Enforce e sub p.
End UseCase.

(** ** What a token reaches *)

Lemma reach_list (t : option CtxToken) :
  match ReachableProjects t with
  | None => (IsOrgScoped t = true \/ IsInstanceScoped t = true) /\ forall id, ReachesProject t id = true
  | Some l => forall id, ReachesProject t id = true <-> id ∈ l
  end.
Proof.
  unfold ReachableProjects, ReachesProject. destruct (IsOrgScoped t || IsInstanceScoped t) eqn:E.
  - apply orb_true_iff in E. done.
  - destruct (ResourceScope t) as [[kind sid]|]; [|intros id; split; [done|intros Hid; by apply not_elem_of_nil in Hid]].
    case_bool_decide; intros id; rewrite bool_decide_eq_true; [|done].
    rewrite list_elem_of_singleton. naive_solver.
Qed.

(** The list of the projects that a token reaches and the test of one project
    agree: no list means that every project passes, and a list has exactly the
    projects that pass; only a token of an organization or of the instance is not
    restricted, and a missing token reaches nothing. *)
Theorem reach_agrees (t : option CtxToken) :
  match ReachableProjects t with
  | None => (IsOrgScoped t = true \/ IsInstanceScoped t = true) /\ forall id, ReachesProject t id = true
  | Some l => forall id, ReachesProject t id = true <-> id ∈ l
  end.
Proof. apply reach_list. Qed.

(** ** The invariant of the table *)

(** What google/uuid documents: a text that parses gives the canonical text of
    the identifier, which parses to itself, and the empty text does not parse *)
Class UuidLaws `{UuidLib} := {
  uuid_canonical : forall s u, uuid_Parse s = Some u -> uuid_Parse u = Some u;
  uuid_empty : uuid_Parse "" = None
}.

(** A well-formed row: its columns agree with its scope, and the projects that
    it lists are projects of its organization *)
Record token_wf (db : TokenDB) (t : TokenRow) : Prop := {
  wf_shape : ValidateTokenShape (tr_scope t) (tr_scope_id t) (tr_organization_id t) (tr_project_id t)
               (tr_project_ids t) = Ok tt;
  wf_projects : forall ids p, tr_project_ids t = Some ids -> p ∈ ids ->
    exists pr, td_projects db !! p = Some pr /\ tr_organization_id t = Some (pr_organization pr)
}.

Definition tokens_wf (db : TokenDB) : Prop := map_Forall (fun _ t => token_wf db t) (td_tokens db).

Lemma filter_length_all {A} (f : A -> bool) l : length (List.filter f l) = length l -> forall x, x ∈ l -> f x = true.
Proof.
  induction l as [|a l IH]; cbn; [set_solver|]. pose proof (List.filter_length_le f l).
  destruct (f a) eqn:Ha; cbn; [|lia]. intros [= Hl] x [->|Hx]%elem_of_cons; [done|by apply IH].
Qed.

Lemma liveProjectsInOrg_Ok db orgID ids l :
  liveProjectsInOrg db orgID ids = Ok l ->
  l = CanonicalProjectIDs ids /\ forall p, p ∈ l -> exists org, orgID = Some org /\ live_in_org db org p = true.
Proof.
  unfold liveProjectsInOrg. destruct (CanonicalProjectIDs ids) as [|c cs] eqn:E.
  - intros [= <-]. split; [done|]. intros p Hp. by apply not_elem_of_nil in Hp.
  - destruct orgID as [org|]; [|done]. case_bool_decide as Hl; [|done]. intros [= <-]. split; [done|].
    intros p Hp. exists org. split; [done|]. by apply (filter_length_all _ _ Hl).
Qed.

Lemma ValidateTokenShape_lists s sid o p l l' :
  is_Some l <-> is_Some l' -> ValidateTokenShape s sid o p l = ValidateTokenShape s sid o p l'.
Proof.
  intros Hiff. unfold ValidateTokenShape.
  replace (bool_decide (is_Some l)) with (bool_decide (is_Some l')); [done|]. by apply bool_decide_ext.
Qed.

Lemma repo_Create_Ok db id now opts t db' :
  repo_Create db id now opts = Ok (t, db') ->
  exists row, td_tokens db !! id = None /\ db' = with_tokens db (<[id := row]> (td_tokens db))
    /\ t = entAPITokenToBiz db' true id row /\ token_wf db row
    /\ insertable db id row = true /\ tr_revoked_at row = None
    /\ tr_organization_id row = co_OrganizationID opts /\ tr_project_id row = co_ProjectID opts
    /\ tr_workflow_id row = co_WorkflowID opts /\ tr_scope row = co_Scope opts /\ tr_scope_id row = co_ScopeID opts
    /\ tr_policies row = co_Policies opts /\ tr_project_ids row = CanonicalProjectIDs <$> co_ProjectIDs opts.
Proof.
  unfold repo_Create. intros Hc. apply bind_Ok in Hc as ([] & Hshape & Hc). apply bind_Ok in Hc as (ids & Hids & Hc).
  apply bind_Ok in Hc as ([] & Hg & Hc). apply guard_err_Ok in Hg. split_bool.
  injection Hc as <- <-. eexists. split; [|split; [reflexivity|]].
  { unfold insertable in Hg. split_bool. done. }
  split; [reflexivity|].
  assert (ids = CanonicalProjectIDs <$> co_ProjectIDs opts
          /\ forall l p, ids = Some l -> p ∈ l -> exists org, co_OrganizationID opts = Some org /\ live_in_org db org p = true)
    as [-> Hlive].
  { destruct (co_ProjectIDs opts) as [l|]; cbn in Hids; [|injection Hids as <-; split; [done|congruence]].
    destruct (liveProjectsInOrg db _ l) as [l'|] eqn:El; [|done]. injection Hids as <-.
    apply liveProjectsInOrg_Ok in El as [-> Hl]. split; [done|]. intros l0 p [= <-]. apply Hl. }
  split; [|repeat split; done]. constructor; cbn.
  - rewrite <-Hshape. apply ValidateTokenShape_lists. by destruct (co_ProjectIDs opts).
  - intros l p Hl Hp. destruct (Hlive l p Hl Hp) as (org & -> & Hpr). unfold live_in_org in Hpr.
    destruct (td_projects db !! p) as [pr|]; [|done]. split_bool. exists pr. split; [done|by f_equal].
Qed.

(** ** The operations on the table *)

Lemma setCurrentOrgAndAPIToken_Ok `{UuidLib} db header claims ctx t :
  setCurrentOrgAndAPIToken db header claims = Ok (ctx, t) ->
  exists u row, uuid_Parse (cl_ID claims) = Some u /\ td_tokens db !! u = Some row
    /\ t = entAPITokenToBiz db true u row /\ VerifyClaims t claims = Ok tt /\ tr_revoked_at row = None
    /\ tc_token ctx = ctx_token t /\ tc_subject ctx = SubjectAPIToken u
    /\ if IsInstanceScoped (scopeView t) then forall o, tc_org ctx = Some o -> org_FindByName db header = Ok o
       else exists o, tc_org ctx = Some o /\ org_FindByID db (at_OrganizationID t) = Ok o.
Proof.
  unfold setCurrentOrgAndAPIToken. intros Hs. apply bind_Ok in Hs as ([] & _ & Hs).
  apply bind_Ok in Hs as (tok & Hf%map_err_Ok & Hs). apply bind_Ok in Hs as ([] & Hv%map_err_Ok & Hs).
  apply bind_Ok in Hs as ([] & Hr%guard_err_Ok & Hs). apply bind_Ok in Hs as (org & Ho & Hs). injection Hs as <- <-.
  unfold uc_FindByID in Hf. apply bind_Ok in Hf as (u & Hu%parse_uuid_Ok & Hf). unfold repo_FindByID in Hf.
  destruct (td_tokens db !! u) as [row|] eqn:Hrow; [|done]. injection Hf as <-.
  exists u, row. split; [done|]. split; [done|]. split; [done|]. split; [done|]. split.
  { apply bool_decide_eq_false in Hr. cbn in Hr. destruct (tr_revoked_at row); [destruct Hr; by eexists|done]. }
  split; [done|]. split; [done|]. cbn [tc_org]. destruct (IsInstanceScoped _).
  - intros o ->. destruct (is_empty header); [done|]. destruct (org_FindByName db header); [|done]. by injection Ho as ->.
  - destruct (org_FindByID _ _) as [o|]; [|done]. injection Ho as <-. by exists o.
Qed.

Lemma live_token_Some db id t : live_token db id = Some t <-> td_tokens db !! id = Some t /\ tr_revoked_at t = None.
Proof.
  unfold live_token. destruct (td_tokens db !! id) as [t0|]; cbn; [|naive_solver].
  case_bool_decide; naive_solver.
Qed.

Section Steps.
Context `{UuidLib} (sign : CustomClaims -> result string) (valid_name : string -> result unit).

(** What the control plane does to the table *)
Inductive token_step (db : TokenDB) : TokenDB -> Prop :=
| step_create id now name desc expiresIn orgID o r db' :
    uc_Create sign valid_name db id now name desc expiresIn orgID o = (r, db') -> token_step db db'
| step_regenerate id now expiresIn r db' : RegenerateJWT sign db id now expiresIn = (r, db') -> token_step db db'
| step_revoke orgID id now db' : uc_Revoke db orgID id now = Ok db' -> token_step db db'
| step_used id now db' : uc_UpdateLastUsedAt db id now = Ok db' -> token_step db db'
| step_sweep now : token_step db (Sweep db now).

(** A row after some operations: what authorizes the token does not change, and
    it stays revoked *)
Record row_evolves (t t' : TokenRow) : Prop := {
  ev_organization : tr_organization_id t' = tr_organization_id t;
  ev_project : tr_project_id t' = tr_project_id t;
  ev_workflow : tr_workflow_id t' = tr_workflow_id t;
  ev_scope : tr_scope t' = tr_scope t;
  ev_scope_id : tr_scope_id t' = tr_scope_id t;
  ev_project_ids : tr_project_ids t' = tr_project_ids t;
  ev_policies : tr_policies t' = tr_policies t;
  ev_revoked : tr_revoked_at t <> None -> tr_revoked_at t' = tr_revoked_at t
}.

Record db_evolves (db db' : TokenDB) : Prop := {
  ev_orgs : td_orgs db' = td_orgs db;
  ev_projects : td_projects db' = td_projects db;
  ev_workflows : td_workflows db' = td_workflows db;
  ev_rows : forall id t, td_tokens db !! id = Some t -> exists t', td_tokens db' !! id = Some t' /\ row_evolves t t';
  ev_new : forall id t', td_tokens db !! id = None -> td_tokens db' !! id = Some t' -> token_wf db t'
}.

#[local] Instance row_evolves_refl : Reflexive row_evolves.
Proof. intros t. by constructor. Qed.

#[local] Instance row_evolves_trans : Transitive row_evolves.
Proof.
  intros a b c [] []. constructor; try congruence.
  intros Ha. rewrite <-(ev_revoked0 Ha). apply ev_revoked1. by rewrite (ev_revoked0 Ha).
Qed.

Lemma token_wf_tables db db' t :
  td_projects db' = td_projects db -> token_wf db t -> token_wf db' t.
Proof. intros Hp [Hs Hl]. split; [done|]. by rewrite Hp. Qed.

Lemma token_wf_evolves db t t' : row_evolves t t' -> token_wf db t -> token_wf db t'.
Proof. intros [] [Hs Hl]. split; by rewrite ?ev_organization0, ?ev_project0, ?ev_scope0, ?ev_scope_id0, ?ev_project_ids0. Qed.

#[local] Instance db_evolves_refl : Reflexive db_evolves.
Proof. intros db. constructor; try done; [|congruence]. intros id t Ht. by exists t. Qed.

#[local] Instance db_evolves_trans : Transitive db_evolves.
Proof.
  intros a b c Hab Hbc. constructor.
  1-3: by (rewrite (ev_orgs _ _ Hbc); apply Hab) || (rewrite (ev_projects _ _ Hbc); apply Hab)
           || (rewrite (ev_workflows _ _ Hbc); apply Hab).
  - intros id t Ht. destruct (ev_rows _ _ Hab id t Ht) as (t1 & Ht1 & H1).
    destruct (ev_rows _ _ Hbc id t1 Ht1) as (t2 & Ht2 & H2). exists t2. split; [done|by transitivity t1].
  - intros id t' Hn Ht'. destruct (td_tokens b !! id) as [t1|] eqn:Hb.
    + destruct (ev_rows _ _ Hbc id t1 Hb) as (t2 & Ht2 & H2). rewrite Ht' in Ht2. injection Ht2 as <-.
      apply (token_wf_evolves _ t1); [done|]. by apply (ev_new _ _ Hab id).
    + apply (token_wf_tables b); [symmetry; apply Hab|]. by apply (ev_new _ _ Hbc id).
Qed.

Lemma update_evolves db id t t' :
  td_tokens db !! id = Some t -> row_evolves t t' -> db_evolves db (with_tokens db (<[id := t']> (td_tokens db))).
Proof.
  intros Ht Hev. constructor; try done; cbn.
  - intros id0 t0 H0. destruct (decide (id0 = id)) as [->|Hne].
    + exists t'. rewrite lookup_insert_eq. split; [done|]. by simplify_eq.
    + exists t0. by rewrite lookup_insert_ne.
  - intros id0 t0 Hn. destruct (decide (id0 = id)) as [->|Hne]; [congruence|]. rewrite lookup_insert_ne by done. congruence.
Qed.

Lemma uc_Revoke_Ok db orgID id now db' :
  uc_Revoke db orgID id now = Ok db' ->
  exists u t, uuid_Parse id = Some u /\ live_token db u = Some t
    /\ db' = with_tokens db (<[u := set_revoked now t]> (td_tokens db)).
Proof.
  unfold uc_Revoke. intros Hr. apply bind_Ok in Hr as (org & _ & Hr).
  apply bind_Ok in Hr as (u & Hu%parse_uuid_Ok & Hr). apply map_err_Ok in Hr.
  unfold repo_Revoke in Hr. destruct (live_token db u) as [t|] eqn:Ht; [|done]. case_bool_decide; [|done].
  injection Hr as <-. by exists u, t.
Qed.

Lemma uc_Revoke_evolves db orgID id now db' : uc_Revoke db orgID id now = Ok db' -> db_evolves db db'.
Proof.
  intros (u & t & _ & [Ht Hl]%live_token_Some & ->)%uc_Revoke_Ok. by apply (update_evolves _ _ t).
Qed.

Lemma foldl_evolves {A} (f : TokenDB -> A -> TokenDB) l db :
  (forall db x, db_evolves db (f db x)) -> db_evolves db (foldl f db l).
Proof.
  intros Hf. revert db. induction l as [|x l IH]; intros db; cbn; [done|]. transitivity (f db x); [apply Hf|apply IH].
Qed.

Lemma Sweep_evolves db now : db_evolves db (Sweep db now).
Proof.
  unfold Sweep. apply foldl_evolves. intros db' kv. unfold sweep_org. destruct (or_inactivity_days _); [|done].
  destruct (uuid_Parse _); [|done]. apply foldl_evolves. intros db0 id. unfold revoke_stale.
  destruct (uc_Revoke _ _ _ _) as [db1|] eqn:E; [|done]. by eapply uc_Revoke_evolves.
Qed.

Lemma create_evolves db id row :
  td_tokens db !! id = None -> token_wf db row -> db_evolves db (with_tokens db (<[id := row]> (td_tokens db))).
Proof.
  intros Hn Hwf. constructor; try done; cbn.
  - intros id0 t0 H0. exists t0. rewrite lookup_insert_ne by congruence. done.
  - intros id0 t0 Hn0. rewrite lookup_insert_Some. intros [[<- <-]|[_ Ht0]]; [done|congruence].
Qed.

Lemma token_step_evolves db db' : token_step db db' -> db_evolves db db'.
Proof.
  destruct 1 as [id now name desc ex org o r db' Hs|id now ex r db' Hs|org id now db' Hs|id now db' Hs|now].
  - unfold uc_Create in Hs. destruct (create_checks _ _ _ _ _ _ _ _) as [[org' opts]|]; [|by injection Hs as <- <-].
    destruct (repo_Create db id now opts) as [[t db1]|] eqn:Hc; [|by injection Hs as <- <-].
    apply repo_Create_Ok in Hc as (row & Hn & -> & _ & Hwf & _).
    assert (db' = with_tokens db (<[id:=row]> (td_tokens db))) as -> by (destruct (GenerateJWT _ _ _); congruence).
    by apply create_evolves.
  - unfold RegenerateJWT in Hs. case_bool_decide; [by injection Hs as <- <-|]. cbn zeta in Hs.
    destruct (match repo_FindByID db id with Some _ => _ | None => _ end); [|by injection Hs as <- <-].
    unfold repo_UpdateExpiration in Hs. destruct (td_tokens db !! id) as [t|] eqn:Ht; [|by injection Hs as <- <-].
    injection Hs as <- <-. by apply (update_evolves _ _ t).
  - by eapply uc_Revoke_evolves.
  - unfold uc_UpdateLastUsedAt in Hs. apply bind_Ok in Hs as (u & _ & Hs). apply map_err_Ok in Hs.
    unfold repo_UpdateLastUsedAt in Hs. destruct (live_token db u) as [t|] eqn:Ht; [|done]. injection Hs as <-.
    apply live_token_Some in Ht as [Ht _]. by apply (update_evolves _ _ t).
  - apply Sweep_evolves.
Qed.

Lemma token_steps_evolve db db' : rtc token_step db db' -> db_evolves db db'.
Proof. induction 1 as [|db db1 db2 H1 _ IH]; [done|]. transitivity db1; [by apply token_step_evolves|done]. Qed.

Lemma tokens_wf_evolves db db' : db_evolves db db' -> tokens_wf db -> tokens_wf db'.
Proof.
  intros Hev Hwf id t' Ht'. apply (token_wf_tables db); [apply Hev|].
  destruct (td_tokens db !! id) as [t|] eqn:Ht.
  - destruct (ev_rows _ _ Hev id t Ht) as (t1 & Ht1 & H1). assert (t1 = t') as -> by congruence.
    by apply (token_wf_evolves _ t), (Hwf id t Ht).
  - by apply (ev_new _ _ Hev id).
Qed.

(** C33: Whatever is minted, renewed, used, swept or revoked, the rows of the table stay
    well-formed (the columns of each agree with its scope, and a product token
    lists only projects of its own organization), and what authorizes a token
    (its organization, project, workflow, scope, list and policies) never changes. *)
Theorem token_table_invariant db db' :
  rtc token_step db db' -> tokens_wf db ->
  tokens_wf db' /\
  forall id t, td_tokens db !! id = Some t -> exists t', td_tokens db' !! id = Some t' /\ row_evolves t t'.
Proof.
  intros Hev%token_steps_evolve Hwf. split; [by apply (tokens_wf_evolves db)|apply Hev].
Qed.

(** A revoked token is refused from then on, whatever claims are presented for it and
    whatever happens to the table. *)
Theorem revoked_tokens_stay_out db orgID id now db1 db2 header claims u :
  uc_Revoke db orgID id now = Ok db1 -> rtc token_step db1 db2 ->
  uuid_Parse id = Some u -> uuid_Parse (cl_ID claims) = Some u ->
  exists e, setCurrentOrgAndAPIToken db2 header claims = Err e.
Proof.
  intros (u' & t & Hu & Ht & ->)%uc_Revoke_Ok Hev%token_steps_evolve Hu' Hid. assert (u' = u) as -> by congruence.
  destruct (ev_rows _ _ Hev u (set_revoked now t)) as (t2 & Ht2 & H2); [apply lookup_insert_eq|].
  destruct (setCurrentOrgAndAPIToken db2 header claims) as [[ctx tok]|e] eqn:E; [|by exists e].
  apply setCurrentOrgAndAPIToken_Ok in E as (u' & row & Hu'' & Hrow & _ & _ & Hlive & _).
  assert (u' = u) as -> by congruence. assert (row = t2) as -> by congruence.
  rewrite (ev_revoked _ _ H2) in Hlive; done.
Qed.
End Steps.

(** ** What an authenticated token is confined to *)

Lemma GetScope_Ok `{UuidLib} c kind id :
  GetScope c = Ok (kind, id) -> namedScope c = Ok (kind, id) /\ validateScope c kind id = Ok tt.
Proof.
  unfold GetScope. intros Hs. apply bind_Ok in Hs as ([k i] & Hn & Hs). apply bind_Ok in Hs as ([] & Hv & Hs).
  by injection Hs as <- <-.
Qed.

Lemma VerifyClaims_Ok `{UuidLib} t c :
  VerifyClaims t c = Ok tt ->
  exists kind id, GetScope c = Ok (kind, id) /\ at_Scope t = Some kind /\ at_ScopeID t = id
    /\ cl_OrgID c = org_claim t /\ sameClaimedID (at_ProjectID t) (cl_ProjectID c) = true
    /\ sameClaimedID (at_WorkflowID t) (cl_WorkflowID c) = true.
Proof.
  unfold VerifyClaims. intros Hv. apply bind_Ok in Hv as ([kind id] & Hg%map_err_Ok & Hv).
  apply bind_Ok in Hv as ([] & H1%guard_err_Ok & Hv). apply bind_Ok in Hv as ([] & H2%guard_err_Ok & Hv).
  apply bind_Ok in Hv as ([] & H3%guard_err_Ok & H4%guard_err_Ok). unfold scope_is, sameScopeID in H1.
  exists kind, id. split_bool. done.
Qed.

Lemma org_claim_named t : org_claim t <> "" -> org_claim t = at_OrganizationID t.
Proof. unfold org_claim. case_bool_decide; done. Qed.

Lemma validateScope_org `{UuidLib} c kind id :
  validateScope c kind id = Ok tt -> kind <> ResourceTypeInstance ->
  (forall o, id = Some o -> uuid_Parse o = Some o) -> uuid_Parse "" = None ->
  kind ∈ [ResourceTypeOrganization; ResourceTypeProject; ResourceTypeProduct] -> cl_OrgID c <> "".
Proof.
  unfold validateScope. intros Hv Hne Hid Hempty Hk. apply bind_Ok in Hv as ([] & _ & Hv).
  rewrite bool_decide_eq_false_2 in Hv by done. case_bool_decide.
  - destruct id as [o|]; [|done]. apply guard_err_Ok in Hv. split_bool. intros He.
    specialize (Hid o eq_refl). congruence.
  - case_bool_decide; [destruct (is_empty (cl_OrgID c)) eqn:He; [done|by apply is_empty_false in He]|].
    case_bool_decide; [|set_solver]. apply guard_err_Ok in Hv. split_bool. by apply is_empty_false.
Qed.

Lemma namedScope_kinds `{UuidLaws} c kind id :
  namedScope c = Ok (kind, id) ->
  kind ∈ [ResourceTypeInstance; ResourceTypeOrganization; ResourceTypeProject; ResourceTypeProduct]
  /\ (forall o, id = Some o -> uuid_Parse o = Some o).
Proof.
  unfold namedScope, legacyScope. intros Hn.
  assert (forall k raw i, (id0 ← map_err (EWrap k) (raw_uuid raw); Ok (i, Some id0)) = Ok (kind, id) ->
    kind = i /\ forall o, id = Some o -> uuid_Parse o = Some o) as Hparse.
  { intros k raw i Hp. apply bind_Ok in Hp as (u & Hu%map_err_Ok & Hp). injection Hp as <- <-. split; [done|].
    intros o [= <-]. apply raw_uuid_Ok in Hu. by apply uuid_canonical in Hu. }
  destruct (negb (HasScopeClaims c)).
  - case_bool_decide; [injection Hn as <- <-; split; [set_solver|done]|].
    destruct (negb (is_empty (cl_ProjectID c))); [|destruct (negb (is_empty (cl_OrgID c)))]; cbn in Hn; try done;
      apply Hparse in Hn as [-> ?]; (split; [set_solver|done]).
  - case_bool_decide as Hi.
    + destruct (negb (is_empty _)); [done|]. injection Hn as <- <-. split; [rewrite Hi; set_solver|done].
    + case_bool_decide; [|done]. apply Hparse in Hn as [-> ?]. split; [set_solver|done].
Qed.

Lemma project_reach t id p :
  ct_Scope t = Some ResourceTypeProject -> ct_ScopeID t = Some id -> ReachesProject (Some t) p = bool_decide (id = p).
Proof.
  intros Hs Hid. unfold ReachesProject, IsOrgScoped, IsInstanceScoped, ResourceScope, resource_scope, scope_is.
  rewrite Hs, Hid. reflexivity.
Qed.

Lemma product_reach t p :
  ct_Scope t = Some ResourceTypeProduct -> ReachesProject (Some t) p = true ->
  exists ids, ct_ProjectIDs t = Some ids /\ p ∈ ids.
Proof.
  intros Hs. unfold ReachesProject, IsOrgScoped, IsInstanceScoped, ResourceScope, resource_scope, scope_is, token_projects.
  rewrite Hs. destruct (ct_ScopeID t) as [id|]; [|done]. intros Hp.
  change (bool_decide (p ∈ default [] (ct_ProjectIDs t)) = true) in Hp. apply bool_decide_eq_true in Hp.
  destruct (ct_ProjectIDs t) as [ids|]; [by exists ids|by apply not_elem_of_nil in Hp].
Qed.

(** C10: A token that is authenticated is confined to what its signed claims name, whatever its
    row says: its scope is the one of the claims; a project token reaches exactly
    the project of its claims, a product token only projects of the organization
    of its claims, and any token but an instance's works in the organization of
    its claims. *)
Theorem authenticated_token_confined `{UuidLaws} db header claims ctx t :
  tokens_wf db -> setCurrentOrgAndAPIToken db header claims = Ok (ctx, t) ->
  let reaches := ReachesProject (Some (tc_token ctx)) in
  exists kind sid, GetScope claims = Ok (kind, sid)
    /\ ct_Scope (tc_token ctx) = Some kind /\ ct_ScopeID (tc_token ctx) = sid
    /\ (kind = ResourceTypeProject -> forall p, reaches p = true <-> p = cl_ProjectID claims)
    /\ (kind = ResourceTypeProduct -> forall p, reaches p = true ->
          exists pr, td_projects db !! p = Some pr /\ pr_organization pr = cl_OrgID claims)
    /\ (kind <> ResourceTypeInstance ->
          exists org o, tc_org ctx = Some (org, o) /\ uuid_Parse (cl_OrgID claims) = Some org /\ or_deleted o = false).
Proof.
  intros Hwf (u & row & _ & Hrow & -> & Hv & _ & Htok & _ & Horg)%setCurrentOrgAndAPIToken_Ok. cbn zeta.
  rewrite Htok. set (t := entAPITokenToBiz db true u row) in *.
  destruct (VerifyClaims_Ok _ _ Hv) as (kind & sid & Hg & Hs & Hsid & Ho & _). exists kind, sid.
  split; [done|]. split; [done|]. split; [done|]. destruct (GetScope_Ok _ _ _ Hg) as [Hn Hval].
  destruct (namedScope_kinds _ _ _ Hn) as [Hk Hcanon].
  assert (kind <> ResourceTypeInstance -> cl_OrgID claims = at_OrganizationID t) as Hclaim.
  { intros Hne. rewrite Ho. apply org_claim_named. rewrite <-Ho.
    apply (validateScope_org _ _ _ Hval Hne Hcanon uuid_empty). set_solver. }
  split; [|split].
  - intros -> p. unfold validateScope in Hval.
    apply bind_Ok in Hval as ([] & _ & Hval). cbn in Hval. destruct (is_empty (cl_OrgID claims)); [done|].
    destruct sid as [p'|]; [|done]. apply guard_err_Ok in Hval. split_bool. subst p'.
    rewrite (project_reach (ctx_token t) _ p Hs Hsid), bool_decide_eq_true. naive_solver.
  - intros -> p Hp. destruct (product_reach (ctx_token t) p Hs Hp) as (ids & Hids & Hin).
    destruct (wf_projects _ _ (Hwf u row Hrow) ids p Hids Hin) as (pr & Hpr & Hporg). exists pr. split; [done|].
    rewrite Hclaim by done. cbn. by rewrite Hporg.
  - intros Hne. unfold IsInstanceScoped, scopeView, scope_is in Horg. cbn [ct_Scope] in Horg. rewrite Hs in Horg.
    rewrite bool_decide_eq_false_2 in Horg by congruence. destruct Horg as ([org o] & Htc & Hf). exists org, o.
    split; [done|]. unfold org_FindByID in Hf. apply bind_Ok in Hf as (org' & Hp%parse_uuid_Ok & Hf).
    rewrite Hclaim by done. destruct (td_orgs db !! org') as [o'|]; [|done]. destruct (or_deleted o') eqn:Hd; [done|].
    by injection Hf as <- <-.
Qed.

(** ** Minting and authenticating *)

(** The shapes of a row that records its scope *)
Inductive shaped : ResourceType -> option UUID -> option UUID -> option UUID -> Prop :=
| shaped_org o : shaped ResourceTypeOrganization (Some o) (Some o) None
| shaped_project p org : shaped ResourceTypeProject (Some p) org (Some p)
| shaped_instance : shaped ResourceTypeInstance None None None
| shaped_product s o : shaped ResourceTypeProduct (Some s) (Some o) None.

Lemma same_id_true a b : same_id a b = true -> exists x, a = Some x /\ b = Some x.
Proof. destruct a as [x|], b as [y|]; cbn; try done. intros ->%bool_decide_eq_true. by exists y. Qed.

Lemma shape_cases kind sid org proj l : ValidateTokenShape (Some kind) sid org proj l = Ok tt -> shaped kind sid org proj.
Proof.
  unfold ValidateTokenShape. intros Hs. apply bind_Ok in Hs as ([] & _ & Hs). apply guard_err_Ok, negb_false_iff in Hs.
  assert (forall a : option UUID, bool_decide (is_Some a) = true -> exists x, a = Some x) as Hsome
    by (intros a Ha; apply bool_decide_eq_true in Ha as [x ->]; by exists x).
  case_bool_decide; [subst|]. { apply andb_true_iff in Hs as [->%bool_decide_eq_true (x & -> & ->)%same_id_true]. constructor. }
  case_bool_decide; [subst|]. { apply same_id_true in Hs as (x & -> & ->). constructor. }
  case_bool_decide; [subst|]. { split_bool. subst. constructor. }
  case_bool_decide; [subst|done]. apply andb_true_iff in Hs as [Hs ->%bool_decide_eq_true].
  apply andb_true_iff in Hs as [(x & ->)%Hsome (y & ->)%Hsome]. constructor.
Qed.

(** The claims that carry the columns of a row *)
Record claims_of (kind : ResourceType) (sid org proj work : option UUID) (c : CustomClaims) : Prop := {
  co_scope : cl_Scope c = kind;
  co_scope_id : cl_ScopeID c = default "" sid;
  co_org : cl_OrgID c = default "" org;
  co_project : cl_ProjectID c = default "" proj;
  co_workflow : cl_WorkflowID c = default "" work
}.

Definition canonical `{UuidLib} (id : option UUID) : Prop := forall u, id = Some u -> uuid_Parse u = Some u.

Lemma canonical_nonempty `{UuidLaws} u : uuid_Parse u = Some u -> is_empty u = false.
Proof. intros Hu. apply is_empty_false. intros ->. by rewrite uuid_empty in Hu. Qed.

Lemma GetScope_of_shape `{UuidLaws} kind sid org proj work c :
  claims_of kind sid org proj work c -> shaped kind sid org proj ->
  canonical sid -> canonical org -> canonical proj ->
  (is_Some proj -> is_Some org) -> (is_Some work -> is_Some proj) ->
  GetScope c = Ok (kind, sid).
Proof.
  intros [Hk Hsid Horg Hproj Hwork] Hshape Csid Corg Cproj Hpo Hwp. unfold GetScope.
  assert (namedScope c = Ok (kind, sid)) as ->.
  { assert (HasScopeClaims c = true) as Hhas by (unfold HasScopeClaims; rewrite Hk; destruct Hshape; reflexivity).
    unfold namedScope. rewrite Hhas, Hk, Hsid. destruct Hshape as [o|p org| |s o]; [| |reflexivity|];
      cbn [negb default from_option id]; rewrite (bool_decide_eq_false_2 (_ = ResourceTypeInstance)) by done; rewrite bool_decide_eq_true_2 by set_solver;
      unfold raw_uuid; by rewrite (Csid _ eq_refl). }
  cbn [mbind result_bind]. assert (validateScope c kind sid = Ok tt) as ->; [|done].
  unfold validateScope. rewrite Horg, Hproj, Hwork.
  assert (forall u, uuid_Parse u = Some u -> is_empty u = false) as Hne by apply canonical_nonempty.
  assert (negb (is_empty (default "" work)) && is_empty (default "" proj) = false) as ->.
  { destruct work as [w|]; [|done]. destruct (Hwp ltac:(by eexists)) as [p ->]. cbn.
    by rewrite (Hne p (Cproj _ eq_refl)), andb_false_r. }
  cbn [guard_err mbind result_bind]. destruct Hshape as [o|p org| |s o].
  - cbn [default from_option id]. rewrite (bool_decide_eq_true_2 (o = o)) by done. reflexivity.
  - destruct (Hpo ltac:(by eexists)) as [o ->]. cbn [default from_option id]. rewrite (Hne o (Corg _ eq_refl)).
    rewrite (bool_decide_eq_true_2 (p = p)) by done. reflexivity.
  - reflexivity.
  - cbn [default from_option id]. rewrite (Hne o (Corg _ eq_refl)). reflexivity.
Qed.

Lemma create_checks_Ok `{UuidLaws} valid_name db now name desc ex orgID o org opts :
  create_checks valid_name db now name desc ex orgID o = Ok (org, opts) ->
  co_OrganizationID opts = id_of org /\ co_ProjectID opts = id_of (to_project o)
  /\ co_WorkflowID opts = (fun w => w.1.1) <$> to_workflow o
  /\ (forall u r, org = Some (u, r) -> uuid_Parse u = Some u /\ td_orgs db !! u = Some r /\ or_deleted r = false)
  /\ (is_Some (to_project o) -> is_Some org) /\ (is_Some (to_workflow o) -> is_Some (to_project o)) /\ name <> ""
  /\ exists kind, co_Scope opts = Some kind
     /\ (kind, co_ScopeID opts) = default (newTokenScope (id_of org) (id_of (to_project o))) (to_scope o).
Proof.
  unfold create_checks. intros Hc. apply bind_Ok in Hc as (org' & Horg & Hc).
  apply bind_Ok in Hc as ([] & Hname%guard_err_Ok & Hc). apply bind_Ok in Hc as ([] & _ & Hc).
  apply bind_Ok in Hc as ([] & Hpo%guard_err_Ok & Hc). apply bind_Ok in Hc as (w & Hw & Hc).
  destruct (match to_scope o with Some s => s | None => _ end) as [kind sid] eqn:Hscope.
  apply bind_Ok in Hc as ([] & _ & Hc). apply bind_Ok in Hc as ([] & _ & Hc). injection Hc as <- <-.
  cbn [co_OrganizationID co_ProjectID co_WorkflowID co_Scope co_ScopeID].
  split; [done|]. split; [done|]. split; [|split; [|split; [|split; [|split]]]].
  - destruct (to_workflow o) as [[[w' n] p']|]; [|by injection Hw as <-]. destruct (id_of (to_project o)); [|done].
    case_bool_decide; [|done]. by injection Hw as <-.
  - intros u r ->. destruct orgID as [i|]; [|done]. destruct (is_empty i); [done|].
    unfold org_FindByID in Horg. destruct (parse_uuid i) as [u'|] eqn:Hu; [|done]. cbn [mbind result_bind] in Horg.
    apply parse_uuid_Ok in Hu. destruct (td_orgs db !! u') as [r'|] eqn:Hr; [|done].
    destruct (or_deleted r') eqn:Hd; [done|]. injection Horg as <- <-. split; [by apply (uuid_canonical i)|done].
  - intros [p Hp]. unfold id_of in Hpo. rewrite Hp in Hpo. destruct org' as [r|]; [by eexists|]. cbn in Hpo. done.
  - intros [wf Hwf]. rewrite Hwf in Hw. unfold id_of in Hw. destruct wf as [[w' n] p']. destruct (to_project o); [by eexists|done].
  - by apply is_empty_false in Hname.
  - exists kind. split; [done|]. unfold id_of. by destruct (to_scope o).
Qed.

Lemma insertable_known db id row :
  insertable db id row = true ->
  (forall p, tr_project_id row = Some p -> is_Some (td_projects db !! p))
  /\ (forall w, tr_workflow_id row = Some w -> is_Some (td_workflows db !! w)).
Proof.
  unfold insertable. rewrite !andb_true_iff. intros [[[[_ Hp] Hw] _] _].
  split; intros i Hi; [rewrite Hi in Hp|rewrite Hi in Hw]; by eapply bool_decide_eq_true_1.
Qed.

Lemma uc_Create_Ok `{UuidLib} sign valid_name db id now name desc ex orgID o token db' :
  uc_Create sign valid_name db id now name desc ex orgID o = (Ok token, db') ->
  exists org opts, create_checks valid_name db now name desc ex orgID o = Ok (org, opts)
    /\ at_Scope token = co_Scope opts /\ at_ScopeID token = co_ScopeID opts.
Proof.
  unfold uc_Create. destruct (create_checks _ _ _ _ _ _ _ _) as [[org opts]|]; [|done].
  destruct (repo_Create db id now opts) as [[t db1]|] eqn:Hr; [|done]. intros Hc. exists org, opts. split; [done|].
  apply repo_Create_Ok in Hr as (row & _ & _ & -> & _ & _ & _ & _ & _ & _ & Hs & Hsid & _).
  destruct (GenerateJWT _ _ _); [|done]. injection Hc as <- _. done.
Qed.

Section Minting.
Context `{UuidLaws} (sign : CustomClaims -> result string) (valid_name : string -> result unit).

(** The identifiers of the options are UUIDs *)
Definition options_canonical (o : TokenOptions) : Prop :=
  canonical (id_of (to_project o)) /\ forall kind sid, to_scope o = Some (kind, sid) -> canonical sid.

(** The options that the JWT of a new token is generated from *)
Definition mint_options (name : string) (o : TokenOptions) (org : option (UUID * OrgRow)) (opts : APITokenCreateOpts)
    (token : APIToken) : GenerateJWTOptions :=
  {| go_Org := (fun org => (at_OrganizationID token, Some (or_name org.2))) <$> org;
     go_KeyID := at_ID token; go_KeyName := name;
     go_Project := (fun p => (p.1, Some p.2)) <$> to_project o;
     go_Workflow := (fun w => (w.1.1, Some w.1.2)) <$> to_workflow o;
     go_ExpiresAt := co_ExpiresAt opts; go_Scope := co_Scope opts; go_ScopeID := co_ScopeID opts |}.

(** What is known of a token whose row was just stored *)
Record minted (id : UUID) (name : string) (o : TokenOptions) (org : option (UUID * OrgRow)) (opts : APITokenCreateOpts)
    (db db' : TokenDB) (token : APIToken) (kind : ResourceType) : Prop := {
  mi_id : at_ID token = id;
  mi_name : name <> "";
  mi_stored : repo_FindByID db' id = Some token;
  mi_live : at_RevokedAt token = None;
  mi_orgs : td_orgs db' = td_orgs db;
  mi_kind : co_Scope opts = Some kind;
  mi_scope : at_Scope token = Some kind;
  mi_scope_id : at_ScopeID token = co_ScopeID opts;
  mi_org : at_OrganizationID token = default uuid_Nil (id_of org);
  mi_org_row : forall u r, org = Some (u, r) -> uuid_Parse u = Some u /\ td_orgs db !! u = Some r /\ or_deleted r = false;
  mi_project : at_ProjectID token = id_of (to_project o);
  mi_workflow : at_WorkflowID token = (fun w => w.1.1) <$> to_workflow o;
  mi_shape : shaped kind (co_ScopeID opts) (id_of org) (id_of (to_project o));
  mi_canonical : canonical (co_ScopeID opts) /\ canonical (id_of org) /\ canonical (id_of (to_project o));
  mi_project_org : is_Some (to_project o) -> is_Some org;
  mi_workflow_project : is_Some (to_workflow o) -> is_Some (to_project o)
}.

Lemma create_minted db id now name desc ex orgID o org opts token db' :
  create_checks valid_name db now name desc ex orgID o = Ok (org, opts) ->
  repo_Create db id now opts = Ok (token, db') -> options_canonical o ->
  exists kind, minted id name o org opts db db' token kind.
Proof.
  intros Hc Hr [Cp Cs].
  apply create_checks_Ok in Hc as (Eo & Ep & Ew & Horg & Hpo & Hwp & Hname & kind & Ekind & Escope).
  apply repo_Create_Ok in Hr as (row & Hn & -> & -> & [Hshape _] & Hins & Hlive & Ro & Rp & Rw & Rs & Rsid & _ & _).
  rewrite Rs, Rsid, Ro, Rp, Ekind, Eo, Ep in Hshape. apply shape_cases in Hshape.
  destruct (insertable_known _ _ _ Hins) as [Hkp Hkw].
  assert (canonical (id_of org)) as Corg.
  { intros u Hu. destruct org as [[u' r]|]; [|done]. injection Hu as <-. by apply (Horg u' r). }
  exists kind. constructor; try done.
  - unfold repo_FindByID. cbn. by rewrite lookup_insert_eq.
  - cbn. by rewrite Rs.
  - cbn. by rewrite Ro, Eo.
  - cbn. rewrite Rp, Ep in *. destruct (id_of (to_project o)) as [p|]; [|done].
    destruct (Hkp p eq_refl) as [pr Hpr]. cbn. by rewrite Hpr.
  - cbn. rewrite Rw, Ew in *. destruct ((fun w => w.1.1) <$> to_workflow o) as [w|]; [|done].
    destruct (Hkw w eq_refl) as [wn Hwn]. cbn. by rewrite Hwn.
  - split; [|done]. destruct (to_scope o) as [[k i]|] eqn:Hs; cbn in Escope; [injection Escope as _ ->; by eapply Cs|].
    unfold newTokenScope in Escope. destruct (id_of (to_project o)); [by injection Escope as _ ->|].
    destruct (id_of org); by injection Escope as _ ->.
Qed.

(** The claims of such a token *)
Definition minted_claims (id : UUID) (name : string) (o : TokenOptions) (org : option (UUID * OrgRow))
    (opts : APITokenCreateOpts) (kind : ResourceType) : CustomClaims :=
  {| cl_OrgID := default "" (id_of org); cl_OrgName := default "" ((fun org => or_name org.2) <$> org);
     cl_KeyName := name; cl_ProjectID := default "" (id_of (to_project o));
     cl_ProjectName := default "" (snd <$> to_project o);
     cl_WorkflowID := default "" ((fun w => w.1.1) <$> to_workflow o);
     cl_WorkflowName := default "" ((fun w => w.1.2) <$> to_workflow o);
     cl_Scope := kind; cl_ScopeID := default "" (co_ScopeID opts); cl_ID := id; cl_Issuer := DefaultIssuer;
     cl_Audience := [Audience]; cl_ExpiresAt := co_ExpiresAt opts |}.

Section Minted.
Context (id : UUID) (name : string) (o : TokenOptions) (org : option (UUID * OrgRow)) (opts : APITokenCreateOpts).
Context (db db' : TokenDB) (token : APIToken) (kind : ResourceType).
Context (Hm : minted id name o org opts db db' token kind).

Lemma minted_scope : GetScope (minted_claims id name o org opts kind) = Ok (kind, co_ScopeID opts).
Proof.
  destruct (mi_canonical _ _ _ _ _ _ _ _ _ Hm) as (Cs & Co & Cp).
  apply (GetScope_of_shape kind _ (id_of org) (id_of (to_project o)) ((fun w => w.1.1) <$> to_workflow o)); try done.
  - by apply Hm.
  - unfold id_of. rewrite !fmap_is_Some. by apply Hm.
  - unfold id_of. rewrite !fmap_is_Some. by apply Hm.
Qed.

Lemma minted_new_claims :
  id <> uuid_Nil -> new_claims DefaultIssuer (mint_options name o org opts token) = Ok (minted_claims id name o org opts kind).
Proof.
  intros Hnil. pose proof minted_scope as Hg. destruct Hm. unfold new_claims, mint_options.
  cbn [go_KeyID go_KeyName go_Org go_Project go_Workflow go_Scope go_ScopeID go_ExpiresAt].
  assert (kind ∈ [ResourceTypeInstance; ResourceTypeOrganization; ResourceTypeProject; ResourceTypeProduct]) as Hkind
    by (destruct mi_shape0; set_solver).
  rewrite mi_id0, (bool_decide_eq_false_2 (id = uuid_Nil)) by done. rewrite (proj2 (is_empty_false name) mi_name0).
  rewrite mi_kind0, mi_org0. cbn [guard_err mbind result_bind]. revert Hg. unfold minted_claims.
  destruct org as [[ou orow]|], (to_project o) as [[p pn]|], (to_workflow o) as [[[w wn] wp]|];
    cbn [fmap option_fmap option_map id_of fst snd default from_option Datatypes.id mbind result_bind]; intros Hg;
    rewrite (bool_decide_eq_true_2 _ Hkind); cbn [negb guard_err mbind result_bind]; by rewrite Hg.
Qed.

Lemma minted_verifies : td_orgs db !! uuid_Nil = None -> VerifyClaims token (minted_claims id name o org opts kind) = Ok tt.
Proof.
  intros Hno. unfold VerifyClaims. rewrite minted_scope. cbn [map_err mbind result_bind]. destruct Hm.
  assert (org_claim token = default "" (id_of org)) as Hoc.
  { unfold org_claim. rewrite mi_org0. destruct org as [[u r]|]; [|done]. cbn.
    rewrite bool_decide_eq_false_2; [done|]. intros ->. destruct (mi_org_row0 _ _ eq_refl) as (_ & Hu & _). congruence. }
  unfold scope_is, sameScopeID. rewrite mi_scope0, mi_scope_id0, Hoc, mi_project0, mi_workflow0.
  rewrite !bool_decide_eq_true_2 by done. cbn [negb orb guard_err mbind result_bind].
  assert (forall a, sameClaimedID a (default "" a) = true) as Hsame by (intros [a|]; [by apply bool_decide_eq_true|done]).
  cbn [cl_ProjectID cl_WorkflowID minted_claims]. rewrite !Hsame. done.
Qed.

Lemma minted_authenticates :
  uuid_Parse id = Some id -> td_orgs db !! uuid_Nil = None ->
  exists ctx, setCurrentOrgAndAPIToken db' "" (minted_claims id name o org opts kind) = Ok (ctx, token).
Proof.
  intros Hid Hno. pose proof (minted_verifies Hno) as Hv. destruct Hm. unfold setCurrentOrgAndAPIToken.
  change (cl_ID _) with id. rewrite (canonical_nonempty id Hid). cbn [guard_err mbind result_bind].
  unfold uc_FindByID, parse_uuid. rewrite Hid. cbn [mbind result_bind]. rewrite mi_stored0. cbn [map_err mbind result_bind].
  rewrite Hv. cbn [map_err mbind result_bind]. rewrite mi_live0. cbn [bool_decide guard_err].
  unfold IsInstanceScoped, scopeView, scope_is. cbn [ct_Scope]. rewrite mi_scope0.
  destruct org as [[u r]|].
  - destruct (mi_org_row0 u r eq_refl) as (Hu & Hrow & Hdel).
    assert (org_FindByID db' u = Ok (u, r)) as Hf
      by (unfold org_FindByID, parse_uuid; rewrite Hu, mi_orgs0; cbn; by rewrite Hrow, Hdel).
    rewrite mi_org0. cbn [id_of fmap option_fmap option_map fst default from_option Datatypes.id]. rewrite Hf.
    case_bool_decide; by eexists.
  - rewrite bool_decide_eq_true_2; [by eexists|].
    inversion mi_shape0 as [|p org' Hk Hs Ho Hp| |]; [|done]. destruct (to_project o); [|done].
    destruct mi_project_org0 as [? ?]; [by eexists|done].
Qed.
End Minted.

(** A token that is minted authenticates: its claims are signed, and presenting them finds
    the row that was stored, whose scope, organization, project and workflow match
    them.  When minting fails, no row was stored, unless it is the signature that
    failed. *)
Theorem minted_token_authenticates db id now name desc ex orgID o :
  uuid_Parse id = Some id -> id <> uuid_Nil -> td_orgs db !! uuid_Nil = None -> options_canonical o ->
  match uc_Create sign valid_name db id now name desc ex orgID o with
  | (Ok token, db') => exists claims ctx t, sign claims = Ok (at_JWT token)
      /\ setCurrentOrgAndAPIToken db' "" claims = Ok (ctx, t) /\ token = with_jwt t (at_JWT token)
  | (Err _, db') => db' = db \/ exists claims e, sign claims = Err e
  end.
Proof.
  intros Hid Hnil Hno Hcan. unfold uc_Create.
  destruct (create_checks _ _ _ _ _ _ _ _) as [[org opts]|] eqn:Hc; [|by left].
  destruct (repo_Create db id now opts) as [[token db']|] eqn:Hr; [|by left].
  destruct (create_minted _ _ _ _ _ _ _ _ _ _ _ _ Hc Hr Hcan) as [kind Hm].
  destruct (minted_authenticates _ _ _ _ _ _ _ _ _ Hm Hid Hno) as [ctx Hctx].
  fold (mint_options name o org opts token). unfold GenerateJWT.
  rewrite (minted_new_claims _ _ _ _ _ _ _ _ _ Hm Hnil). cbn [mbind result_bind].
  destruct (sign (minted_claims _ _ _ _ _ _)) as [jwt|e] eqn:Hs; [|right; by eauto].
  by exists (minted_claims id name o org opts kind), ctx, token.
Qed.
End Minting.

(** ** Sweeping stale tokens *)

(** The tokens that the sweep is about: those of an organization with a
    threshold, not used, or not created, since that many days *)
Definition stale (db : TokenDB) (now : Z) (t : TokenRow) : bool :=
  match tr_organization_id t with
  | Some o =>
      match td_orgs db !! o with
      | Some r => negb (or_deleted r)
                  && match or_inactivity_days r with Some d => inactive o (now - d * day) t | None => false end
      | None => false
      end
  | None => false
  end.

Section Sweeping.
Context `{UuidLaws} (now : Z).

(** A sweep by a condition *)
Definition swept (cond : TokenRow -> bool) (t : TokenRow) : TokenRow := if cond t then set_revoked now t else t.

Definition keys_canonical {A} (m : gmap UUID A) : Prop := forall id x, m !! id = Some x -> uuid_Parse id = Some id.

Lemma inactive_revoked org since t : inactive org since (set_revoked now t) = false.
Proof. unfold inactive. cbn. by rewrite andb_false_r. Qed.

Lemma revoke_stale_eq db org since id t :
  uuid_Parse org = Some org -> uuid_Parse id = Some id -> td_tokens db !! id = Some t -> inactive org since t = true ->
  revoke_stale org now db id = with_tokens db (<[id := set_revoked now t]> (td_tokens db)).
Proof.
  unfold inactive. intros Ho Hi Ht Hin. split_bool. unfold revoke_stale, uc_Revoke, parse_uuid.
  rewrite (canonical_nonempty _ Ho), Ho, Hi. cbn [fmap result_fmap mbind result_bind]. unfold repo_Revoke.
  rewrite (proj2 (live_token_Some db id t)) by done. by rewrite bool_decide_eq_true_2.
Qed.

Lemma revoke_all org since ids db :
  uuid_Parse org = Some org -> keys_canonical (td_tokens db) -> NoDup ids ->
  (forall id, id ∈ ids -> exists t, td_tokens db !! id = Some t /\ inactive org since t = true) ->
  td_orgs (foldl (revoke_stale org now) db ids) = td_orgs db /\
  forall id, td_tokens (foldl (revoke_stale org now) db ids) !! id
             = (if bool_decide (id ∈ ids) then set_revoked now <$> td_tokens db !! id else td_tokens db !! id).
Proof.
  intros Ho. revert db. induction ids as [|i ids IH]; intros db Hk Hd Hall; [done|].
  apply NoDup_cons in Hd as [Hi Hd]. destruct (Hall i ltac:(left)) as (t & Ht & Hin).
  cbn [foldl]. rewrite (revoke_stale_eq db org since i t Ho (Hk _ _ Ht) Ht Hin).
  destruct (IH (with_tokens db (<[i := set_revoked now t]> (td_tokens db)))) as [Horgs Htok]; [| done | |].
  - intros id x. cbn. rewrite lookup_insert_Some. intros [[<- _]|[_ Hx]]; by eapply Hk.
  - intros id Hid. destruct (Hall id) as (t' & Ht' & Hin'); [by right|]. exists t'. cbn.
    rewrite lookup_insert_ne; [done|]. by intros ->.
  - split; [done|]. intros id. rewrite Htok. cbn [td_tokens with_tokens]. destruct (decide (id = i)) as [->|Hne].
    + rewrite (bool_decide_eq_false_2 (i ∈ ids)) by done. rewrite (bool_decide_eq_true_2 (i ∈ i :: ids)) by left.
      by rewrite lookup_insert_eq, Ht.
    + rewrite lookup_insert_ne by done. rewrite (bool_decide_ext (id ∈ i :: ids) (id ∈ ids)); [done|].
      rewrite elem_of_cons. naive_solver.
Qed.

Lemma FindInactive_spec db org since id :
  id ∈ FindInactive db org since <-> exists t, td_tokens db !! id = Some t /\ inactive org since t = true.
Proof.
  unfold FindInactive. rewrite list_elem_of_fmap. split.
  - intros ([k t] & -> & Hin). apply list_elem_of_In, filter_In in Hin as [Hin Hc]. exists t. split; [|done].
    by apply elem_of_map_to_list, list_elem_of_In.
  - intros (t & Ht & Hc). exists (id, t). split; [done|]. apply list_elem_of_In, filter_In. split; [|done].
    by apply list_elem_of_In, elem_of_map_to_list.
Qed.

Lemma FindInactive_NoDup db org since : NoDup (FindInactive db org since).
Proof.
  unfold FindInactive. pose proof (NoDup_fst_map_to_list (td_tokens db)) as Hd.
  induction (map_to_list (td_tokens db)) as [|[k t] l IH]; cbn; [constructor|].
  cbn in Hd. apply NoDup_cons in Hd as [Hk Hd]. destruct (inactive _ _ _); cbn; [|by apply IH].
  apply NoDup_cons. split; [|by apply IH]. intros Hin. apply Hk. apply list_elem_of_fmap in Hin as ([k' t'] & -> & Hin).
  apply list_elem_of_In, filter_In in Hin as [Hin _]. apply list_elem_of_fmap. exists (k', t').
  split; [done|by apply list_elem_of_In].
Qed.

Definition org_cutoff (kv : UUID * OrgRow) (t : TokenRow) : bool :=
  match or_inactivity_days kv.2 with Some d => inactive kv.1 (now - d * day) t | None => false end.

Lemma sweep_org_eq db kv :
  uuid_Parse kv.1 = Some kv.1 -> keys_canonical (td_tokens db) ->
  td_orgs (sweep_org now db kv) = td_orgs db /\ td_tokens (sweep_org now db kv) = swept (org_cutoff kv) <$> td_tokens db.
Proof.
  destruct kv as [org r]. cbn [fst]. intros Ho Hk. unfold sweep_org, org_cutoff. cbn [fst snd].
  destruct (or_inactivity_days r) as [d|].
  - rewrite Ho. destruct (revoke_all org (now - d * day) (FindInactive db org (now - d * day)) db Ho Hk) as [Horgs Htok].
    { apply FindInactive_NoDup. } { intros id. apply FindInactive_spec. }
    split; [done|]. apply map_eq. intros id. rewrite Htok, lookup_fmap. unfold swept.
    destruct (td_tokens db !! id) as [t|] eqn:Ht; [|by case_bool_decide].
    case_bool_decide as Hin; rewrite FindInactive_spec in Hin; cbn.
    + destruct Hin as (t' & Ht' & Hc). assert (t' = t) as -> by congruence. by rewrite Hc.
    + destruct (inactive org (now - d * day) t) eqn:E; [|done]. destruct Hin. by exists t.
  - split; [done|]. apply map_eq. intros id. rewrite lookup_fmap. by destruct (td_tokens db !! id).
Qed.
Lemma sweep_orgs_eq l db :
  (forall kv, kv ∈ l -> uuid_Parse kv.1 = Some kv.1) -> keys_canonical (td_tokens db) ->
  td_tokens (foldl (sweep_org now) db l) = swept (fun t => existsb (fun kv => org_cutoff kv t) l) <$> td_tokens db.
Proof.
  revert db. induction l as [|kv l IH]; intros db Hl Hk; cbn [foldl].
  - apply map_eq. intros id. rewrite lookup_fmap. by destruct (td_tokens db !! id).
  - destruct (sweep_org_eq db kv (Hl kv ltac:(left)) Hk) as [_ Htok]. rewrite IH, Htok.
    + apply map_eq. intros id. rewrite !lookup_fmap. destruct (td_tokens db !! id) as [t|]; [|done]. cbn. f_equal.
      unfold swept. cbn [existsb]. destruct (org_cutoff kv t) eqn:E; cbn; [|done].
      assert (existsb (fun kv => org_cutoff kv (set_revoked now t)) l = false) as ->; [|done].
      apply not_true_iff_false. intros ([o r] & _ & Hx)%existsb_exists. unfold org_cutoff in Hx.
      destruct (or_inactivity_days _); [|done]. by rewrite inactive_revoked in Hx.
    + intros kv' Hin. apply Hl. by right.
    + intros id x. rewrite Htok, lookup_fmap. destruct (td_tokens db !! id) as [t|] eqn:Ht; [|done]. intros _. by eapply Hk.
Qed.

(** A sweep revokes exactly the stale tokens: the live tokens of the organizations with an
    inactivity threshold that were last used, or else created, before it; no other
    token is touched. *)
Theorem sweep_exact db :
  keys_canonical (td_tokens db) -> keys_canonical (td_orgs db) ->
  td_tokens (Sweep db now) = (fun t => if stale db now t then set_revoked now t else t) <$> td_tokens db.
Proof.
  intros Hk Ho. unfold Sweep. rewrite sweep_orgs_eq; [| |done].
  - apply map_fmap_ext. intros id t Ht. unfold swept.
    assert (existsb (fun kv => org_cutoff kv t)
      (List.filter (fun kv => negb (or_deleted kv.2) && bool_decide (is_Some (or_inactivity_days kv.2)))
         (map_to_list (td_orgs db))) = stale db now t) as ->; [|done].
    apply eq_bool_prop_intro. split; intros Hx%Is_true_eq_true; apply Is_true_eq_left.
    + apply existsb_exists in Hx as ([o r] & Hin & Hx). apply filter_In in Hin as [Hin Hc].
      apply list_elem_of_In, elem_of_map_to_list in Hin. unfold org_cutoff in Hx. cbn [fst snd] in *. unfold stale.
      destruct (or_inactivity_days r) as [d|] eqn:Hd; [|done].
      assert (tr_organization_id t = Some o) as -> by (unfold inactive in Hx; split_bool; done).
      rewrite Hin, Hd. split_bool. by rewrite H1.
    + unfold stale in Hx. destruct (tr_organization_id t) as [o|]; [|done].
      destruct (td_orgs db !! o) as [r|] eqn:Hr; [|done]. apply andb_true_iff in Hx as [Hdel Hx].
      apply existsb_exists. exists (o, r). unfold org_cutoff. cbn [fst snd]. split; [|done].
      apply filter_In. split; [by apply list_elem_of_In, elem_of_map_to_list|]. cbn. rewrite Hdel.
      by destruct (or_inactivity_days r).
  - intros [o r] Hin. apply list_elem_of_In, filter_In in Hin as [Hin _].
    apply list_elem_of_In, elem_of_map_to_list in Hin. by eapply Ho.
Qed.
End Sweeping.

(** ** Witnesses *)

#[local] Instance toy_uuid : UuidLib := {| uuid_Parse := fun s => if is_empty s then None else Some s |}.
#[local] Instance toy_uuid_laws : UuidLaws.
Proof.
  split; [|reflexivity]. intros s u. cbn. destruct (is_empty s) eqn:E; [discriminate|]. intros [= <-]. by rewrite E.
Qed.

Definition toy_org : OrgRow := {| or_name := "org"; or_suspended := false; or_deleted := false; or_inactivity_days := Some 30 |}.
Definition toy_db : TokenDB :=
  {| td_tokens := ∅; td_orgs := {[ "o" := toy_org ]};
     td_projects := {[ "p" := {| pr_name := "project"; pr_organization := "o"; pr_deleted := false |} ]};
     td_workflows := ∅ |}.
Definition toy_options : TokenOptions :=
  {| to_project := Some ("p", "project"); to_workflow := None; to_scope := None; to_projectIDs := None;
     to_policies := None; to_isSystem := false |}.
Definition toy_create : result APIToken * TokenDB :=
  uc_Create (fun _ => Ok "jwt") (fun _ => Ok tt) toy_db "t" 0 "token" None None (Some "o") toy_options.
Definition toy_minted : TokenDB := snd toy_create.

Lemma toy_options_canonical : options_canonical toy_options.
Proof. split; [intros u [= <-]; reflexivity|done]. Qed.

Lemma minted_token_authenticates_witness :
  exists token db' claims ctx t, toy_create = (Ok token, db')
    /\ setCurrentOrgAndAPIToken db' "" claims = Ok (ctx, t) /\ token = with_jwt t "jwt".
Proof.
  pose proof (minted_token_authenticates (fun _ => Ok "jwt") (fun _ => Ok tt) toy_db "t" 0 "token" None None (Some "o")
    toy_options eq_refl ltac:(discriminate) eq_refl toy_options_canonical) as Hm.
  fold toy_create in Hm. destruct toy_create as [r db'] eqn:E.
  assert (exists token, r = Ok token /\ at_JWT token = "jwt") as (token & -> & Hjwt)
    by (vm_compute in E; injection E as <- _; eexists; split; reflexivity).
  destruct Hm as (claims & ctx & t & _ & Hs & Ht). exists token, db', claims, ctx, t.
  split; [reflexivity|]. split; [exact Hs|]. rewrite Hjwt in Ht. exact Ht.
Defined.

Definition toy_claims : CustomClaims :=
  {| cl_OrgID := "o"; cl_OrgName := "org"; cl_KeyName := "token"; cl_ProjectID := "p"; cl_ProjectName := "project";
     cl_WorkflowID := ""; cl_WorkflowName := ""; cl_Scope := ResourceTypeProject; cl_ScopeID := "p"; cl_ID := "t";
     cl_Issuer := DefaultIssuer; cl_Audience := [Audience]; cl_ExpiresAt := None |}.

Lemma toy_db_wf : tokens_wf toy_db.
Proof. intros id t Ht. change ((∅ : gmap UUID TokenRow) !! id = Some t) in Ht. by rewrite lookup_empty in Ht. Qed.

Lemma toy_step : rtc (token_step (fun _ => Ok "jwt") (fun _ => Ok tt)) toy_db toy_minted.
Proof.
  apply rtc_once. apply (step_create _ _ _ "t" 0 "token" None None (Some "o") toy_options (fst toy_create)).
  unfold toy_minted. fold toy_create. by destruct toy_create.
Qed.

Lemma toy_minted_wf : tokens_wf toy_minted.
Proof. exact (tokens_wf_evolves toy_db toy_minted (token_steps_evolve _ _ _ _ toy_step) toy_db_wf). Qed.

Lemma token_table_invariant_witness : tokens_wf toy_minted.
Proof. exact (proj1 (token_table_invariant _ _ toy_db toy_minted toy_step toy_db_wf)). Defined.

Lemma authenticated_token_confined_witness :
  exists ctx t, setCurrentOrgAndAPIToken toy_minted "" toy_claims = Ok (ctx, t)
    /\ exists kind sid, GetScope toy_claims = Ok (kind, sid) /\ ct_Scope (tc_token ctx) = Some kind.
Proof.
  destruct (setCurrentOrgAndAPIToken toy_minted "" toy_claims) as [[ctx t]|] eqn:E; [|vm_compute in E; discriminate].
  exists ctx, t. split; [reflexivity|].
  destruct (authenticated_token_confined toy_minted "" toy_claims ctx t
    toy_minted_wf E) as (kind & sid & Hg & Hs & _).
  exists kind, sid. split; [exact Hg|exact Hs].
Defined.

Lemma revoked_tokens_stay_out_witness :
  exists db' e, uc_Revoke toy_minted "o" "t" 1 = Ok db' /\ setCurrentOrgAndAPIToken db' "" toy_claims = Err e.
Proof.
  destruct (uc_Revoke toy_minted "o" "t" 1) as [db'|] eqn:E; [|vm_compute in E; discriminate]. exists db'.
  destruct (revoked_tokens_stay_out (fun _ => Ok "jwt") (fun _ => Ok tt) toy_minted "o" "t" 1 db' db' "" toy_claims "t"
    E (rtc_refl _ _) eq_refl eq_refl) as [e He].
  exists e. split; [reflexivity|exact He].
Defined.

Lemma sweep_exact_witness :
  exists t, td_tokens toy_minted !! "t" = Some t /\ stale toy_minted (31 * day) t = true
    /\ td_tokens (Sweep toy_minted (31 * day)) !! "t" = Some (set_revoked (31 * day) t).
Proof.
  destruct (td_tokens toy_minted !! "t") as [t|] eqn:E; [|vm_compute in E; discriminate]. exists t. split; [reflexivity|].
  assert (stale toy_minted (31 * day) t = true) as Hs by (vm_compute in E; injection E as <-; vm_compute; reflexivity).
  split; [exact Hs|]. rewrite (sweep_exact (31 * day) toy_minted).
  - rewrite lookup_fmap, E. cbn [fmap option_fmap option_map]. rewrite Hs. reflexivity.
  - intros id x Hx. assert (toy_minted = with_tokens toy_db (<["t" := t]> ∅)) as Hm.
    { vm_compute in E. injection E as <-. vm_compute. reflexivity. }
    rewrite Hm in Hx. cbn in Hx. apply lookup_insert_Some in Hx as [[<- _]|[_ Hx]]; [reflexivity|].
    by rewrite lookup_empty in Hx.
  - intros id x Hx. change (td_orgs toy_minted) with (td_orgs toy_db) in Hx. cbn in Hx.
    apply lookup_singleton_Some in Hx as [<- _]. reflexivity.
Defined.
