(* ===== verification/Access.v ===== *)
(** * Who may do what: the context of a request and its checks

    app/controlplane: the middlewares that identify the caller of the API
    (internal/usercontext: apitoken_middleware.go, currentuser_middleware.go,
    currentorganization_middleware.go, suspension_middleware.go), their chain
    (internal/server/grpc.go), and the checks of the services (internal/service:
    service.go and apitoken.go).

    The interfaces [UserOrgFinder] and [MembershipsRBAC] of the use cases, the
    cache of memberships and the external authorization of operations are
    parameters; so is the organization that a request's contract names.  Logging
    and usage metrics have no counterpart. *)

From S2P Require Import Prelude.
From S2P Require Import GoStrings.
From S2P Require Import BizErrors.
From S2P Require Import Authz.
From S2P Require Import ApiTokens.

Open Scope nat_scope.

(** ** The context *)

(** [entities.Org] *)
Record Org := { org_ID : string; org_Name : string; org_Suspended : bool }.

(** [entities.ResourceMembership] *)
Record ResourceMembership := { rm_Role : Role; rm_ResourceType : ResourceType; rm_ResourceID : UUID }.

(** The values that the middlewares put in the context *)
Record Ctx := {
  cx_token : option CtxToken;
  cx_user : option UUID;
  cx_memberships : option (list ResourceMembership);
  cx_org : option Org;
  cx_subject : string
}.

Definition background : Ctx :=
  {| cx_token := None; cx_user := None; cx_memberships := None; cx_org := None; cx_subject := "" |}.

Definition with_user (c : Ctx) (u : UUID) : Ctx :=
  {| cx_token := cx_token c; cx_user := Some u; cx_memberships := cx_memberships c; cx_org := cx_org c;
     cx_subject := cx_subject c |}.
Definition with_memberships (c : Ctx) (m : list ResourceMembership) : Ctx :=
  {| cx_token := cx_token c; cx_user := cx_user c; cx_memberships := Some m; cx_org := cx_org c;
     cx_subject := cx_subject c |}.
Definition with_org (c : Ctx) (o : Org) : Ctx :=
  {| cx_token := cx_token c; cx_user := cx_user c; cx_memberships := cx_memberships c; cx_org := Some o;
     cx_subject := cx_subject c |}.
Definition with_subject (c : Ctx) (s : string) : Ctx :=
  {| cx_token := cx_token c; cx_user := cx_user c; cx_memberships := cx_memberships c; cx_org := cx_org c;
     cx_subject := s |}.
Definition with_token (c : Ctx) (tc : TokenContext) : Ctx :=
  {| cx_token := Some (tc_token tc); cx_user := cx_user c; cx_memberships := cx_memberships c;
     cx_org := match tc_org tc with
               | Some (id, o) => Some {| org_ID := id; org_Name := or_name o; org_Suspended := or_suspended o |}
               | None => cx_org c
               end;
     cx_subject := tc_subject tc |}.

(** ** The checks of the services (service.go) *)

(** [rbacEnabled] *)
Definition rbacEnabled (c : Ctx) : bool :=
  match cx_token c with
  | Some t => negb (IsOrgScoped (Some t)) && negb (IsInstanceScoped (Some t))
  | None => RBACEnabled (cx_subject c)
  end.

(** [visibleProjects]: [None] is nil, RBAC does not apply *)
Definition visibleProjects (c : Ctx) : result (option (list UUID)) :=
  if negb (rbacEnabled c) then Ok None
  else match cx_token c with
  | Some t => Ok (ReachableProjects (Some t))
  | None =>
      match cx_memberships c with
      | None => Err (panic "nil dereference")
      | Some ms => Ok (Some (rm_ResourceID <$> List.filter (fun rm => bool_decide (rm_ResourceType rm = ResourceTypeProject)) ms))
      end
  end.

(** [rbacScopesForOrg] *)
Definition rbacScopesForOrg (c : Ctx) (orgID : UUID) : result (gmap UUID (list UUID)) :=
  visible ← visibleProjects c;
  Ok match visible with Some projects => {[ orgID := projects ]} | None => ∅ end.

(** [tokenOutOfReachMessage] *)
Definition tokenOutOfReachMessage (t : CtxToken) : string :=
  match ResourceScope (Some t) with
  | None => "operation not allowed: this auth token is not confined to this resource"
  | Some (kind, id) =>
      if bool_decide (kind = ResourceTypeProject) then
        "operation not allowed: This auth token is valid only with the project " +:+ default id (ct_ProjectName t)
      else "operation not allowed: this auth token is valid only with the projects of the " +:+ kind +:+ " " +:+ id
  end.

Definition NotFound : string := "NotFound".
Definition BadRequest : string := "BadRequest".
Definition ClientClosed : string := "ClientClosed".
Definition Unimplemented : string := "Unimplemented".
Definition AlreadyExists : string := "AlreadyExists".
Definition FailedPrecondition : string := "FailedPrecondition".
Definition ErrCanceled : string := "context canceled".

Definition transport_kinds : list string :=
  [Forbidden; InternalServer; NotFound; BadRequest; ClientClosed; Unimplemented; AlreadyExists; FailedPrecondition].

(** [errors.As(err, &gs)]: the first error of the chain that has a gRPC status *)
Fixpoint grpc_status (e : goerr) : option string :=
  match e with
  | EMsg _ => None
  | ESentinel n => if bool_decide (n ∈ transport_kinds) then Some n else None
  | EWrap _ e' | EPolicy e' => grpc_status e'
  | EWrap2 _ e1 e2 => match grpc_status e1 with Some k => Some k | None => grpc_status e2 end
  end.

(** [isClientErrorCode], of the kinds that are used here *)
Definition isClientErrorCode (kind : string) : bool :=
  bool_decide (kind ∈ [ClientClosed; BadRequest; NotFound; Forbidden; Unimplemented; AlreadyExists; FailedPrecondition]).

(** [handleUseCaseErr]; the errors of invalid time windows and of pagination are
    the [others] that are bad requests *)
Definition handleUseCaseErr (others : goerr -> bool) (e : goerr) : goerr :=
  if errors_is ErrCanceled e then transport_err ClientClosed "client closed"
  else if IsErrValidation e || errors_is ErrInvalidUUID e || others e then transport_err BadRequest "invalid"
  else if IsNotFound e then transport_err NotFound "not found"
  else if IsErrUnauthorized e then transport_err Forbidden "unauthorized"
  else if IsErrNotImplemented e then transport_err Unimplemented "not implemented"
  else if IsErrAlreadyExists e then transport_err AlreadyExists "already exists"
  else if errors_is ErrReleasedVersionImmutable e then transport_err FailedPrecondition "released version"
  else if IsErrInvalidPassphrase e then transport_err FailedPrecondition "invalid passphrase"
  else match grpc_status e with
  | Some kind => if isClientErrorCode kind then transport_err kind "status" else transport_err InternalServer "server error"
  | None => transport_err InternalServer "server error"
  end.

Section Service.
(** [AuthzUseCase.Enforce], and the errors that are bad requests *)
Context (enforce : string -> Policy -> result bool) (others : goerr -> bool).

(** The loop of [authorizeResource] over the roles of the matching memberships *)
Fixpoint any_role (op : Policy) (ms : list ResourceMembership) : result unit :=
  match ms with
  | [] => Err (transport_err Forbidden "you do not have permissions")
  | rm :: ms =>
      match enforce (rm_Role rm) op with
      | Err e => Err (handleUseCaseErr others e)
      | Ok true => Ok tt
      | Ok false => any_role op ms
      end
  end.

Definition on_resource (kind : ResourceType) (id : UUID) (rm : ResourceMembership) : bool :=
  bool_decide (rm_ResourceType rm = kind) && bool_decide (rm_ResourceID rm = id).

(** [authorizeResource]; no matching membership fails as no passing role does *)
Definition authorizeResource (c : Ctx) (forceRBAC : bool) (op : Policy) (resourceType : ResourceType) (resourceID : UUID)
    : result unit :=
  if negb forceRBAC && negb (rbacEnabled c) then Ok tt
  else match cx_token c with
  | Some t =>
      if bool_decide (resourceType = ResourceTypeProject) && ReachesProject (Some t) resourceID then Ok tt
      else Err (transport_err Forbidden (tokenOutOfReachMessage t))
  | None =>
      match cx_memberships c with
      | None => Err (panic "nil dereference")
      | Some ms => any_role op (List.filter (on_resource resourceType resourceID) ms)
      end
  end.

(** The loop of [projectsAllowing] over the memberships: the answers per role and
    the projects allowed so far *)
Definition allow_step (op : Policy) (acc : gmap Role bool * gmap UUID bool) (rm : ResourceMembership)
    : result (gmap Role bool * gmap UUID bool) :=
  let '(roleGrants, allowed) := acc in
  if negb (bool_decide (rm_ResourceType rm = ResourceTypeProject)) then Ok acc
  else
    roleGrants ← match roleGrants !! rm_Role rm with
                 | Some _ => Ok roleGrants
                 | None => grants ← enforce (rm_Role rm) op; Ok (<[rm_Role rm := grants]> roleGrants)
                 end;
    Ok (roleGrants, if default false (roleGrants !! rm_Role rm) then <[rm_ResourceID rm := true]> allowed else allowed).

(** [projectsAllowing] *)
Definition projectsAllowing (c : Ctx) (op : Policy) (projects : list UUID) : result (gmap UUID bool) :=
  orgAllows ← (if IsAdmin (cx_subject c) then Ok true else enforce (cx_subject c) op);
  if negb orgAllows then Ok ∅
  else if negb (rbacEnabled c) then Ok (list_to_map ((fun p => (p, true)) <$> projects))
  else match cx_token c with
  | Some t => Ok (list_to_map ((fun p => (p, ReachesProject (Some t) p)) <$> projects))
  | None =>
      match cx_memberships c with
      | None => Err (panic "nil dereference")
      | Some ms => snd <$> foldM_result (allow_step op) ms (∅, ∅)
      end
  end.

(** [canCreateProject] *)
Definition canCreateProject (c : Ctx) : result bool :=
  if negb (rbacEnabled c) then
    match cx_token c with Some _ => Ok true | None => Ok (IsAdmin (cx_subject c)) end
  else match cx_token c with
  | Some _ => Ok false
  | None => enforce (cx_subject c) PolicyProjectCreate
  end.

(** [userCanCreateProject] *)
Definition userCanCreateProject (c : Ctx) : result unit :=
  match canCreateProject c with
  | Err e => Err (handleUseCaseErr others e)
  | Ok true => Ok tt
  | Ok false => Err (transport_err Forbidden "you are not allowed to create projects")
  end.

(** The loop of [checkPolicy] over the memberships *)
Fixpoint any_creator (ms : list ResourceMembership) : result unit :=
  match ms with
  | [] => Err (transport_err Forbidden "not allowed")
  | rm :: ms =>
      match enforce (rm_Role rm) PolicyOrganizationCreate with
      | Err e => Err (handleUseCaseErr others e)
      | Ok true => Ok tt
      | Ok false => any_creator ms
      end
  end.

(** [checkPolicy] *)
Definition checkPolicy (c : Ctx) (policy : Policy) : result unit :=
  match (if is_empty (cx_subject c) then Ok false else enforce (cx_subject c) policy) with
  | Err e => Err (handleUseCaseErr others e)
  | Ok true => Ok tt
  | Ok false =>
      match cx_memberships c with
      | None => Err (transport_err Forbidden "not allowed")
      | Some ms => any_creator ms
      end
  end.

(** [userHasPermissionOnProject]; [find] parses the reference and finds the project *)
Definition userHasPermissionOnProject {Ref} (find : Ref -> result (UUID * string)) (c : Ctx) (ref : Ref)
    (policy : Policy) : result (UUID * string) :=
  p ← map_err (handleUseCaseErr others) (find ref);
  if negb (rbacEnabled c) then Ok p
  else _ ← authorizeResource c false policy ResourceTypeProject p.1; Ok p.
End Service.

(** [isUserOrgAdmin] *)
Definition isUserOrgAdmin (c : Ctx) : bool := IsAdmin (cx_subject c).

(** [requireCurrentOrg] *)
Definition requireCurrentOrg (c : Ctx) : result Org :=
  match cx_org c with
  | Some o => Ok o
  | None => Err (transport_err NotFound "current organization not set")
  end.

(** ** Identifying the caller (usercontext) *)

Definition user_Audience : string := "user-auth.chainloop".

(** What a verified JWT says: its audiences, the claims of an API token as they
    decode, and the user *)
Record JwtClaims := {
  jc_audiences : list string;
  jc_api : result CustomClaims;
  jc_user_id : option string
}.

(** [claimsHaveAudience] *)
Definition claimsHaveAudience (c : JwtClaims) (expected : string) : bool := bool_decide (expected ∈ jc_audiences c).

(** The interfaces [biz.UserOrgFinder] and [biz.MembershipsRBAC], with the cache
    of the memberships; a user is found with its identifier, and a membership is
    its role and organization *)
Class Directory := {
  dir_FindByID : string -> result (option UUID);
  dir_MembershipInOrg : UUID -> string -> result (option (Role * Org));
  dir_CurrentMembership : UUID -> result (option (Role * Org));
  dir_ListAllMembershipsForUser : UUID -> result (list ResourceMembership);
  dir_cache : UUID -> result (option (list ResourceMembership))
}.

(** A request: its claims, headers and operation, the organization that its
    contract names, and what the external authorization answers *)
Record ApiRequest := {
  ar_claims : option JwtClaims;
  ar_org_header : string;
  ar_resource_org : result string;
  ar_operation : string;
  ar_external : option goerr
}.

Definition org_entity (o : UUID * OrgRow) : Org :=
  {| org_ID := o.1; org_Name := or_name o.2; org_Suspended := or_suspended o.2 |}.

Section Middlewares.
Context `{UuidLib} `{Directory} (db : TokenDB).

(** [WithCurrentAPITokenAndOrgMiddleware] *)
Definition WithCurrentAPITokenAndOrg (r : ApiRequest) (c : Ctx) : result Ctx :=
  match ar_claims r with
  | None => Err (EMsg "can't extract JWT info from the context")
  | Some claims =>
      if claimsHaveAudience claims Audience then
        match jc_api claims with
        | Err _ => Err (EMsg "error mapping the API-token claims")
        | Ok api =>
            _ ← guard_err (is_empty (cl_ID api)) (EMsg "error mapping the API-token claims");
            tc ← map_err (EWrap "error setting current org and user") (setCurrentOrgAndAPIToken db (ar_org_header r) api);
            Ok (with_token c tc.1)
        end
      else Ok c
  end.

(** [WithCurrentUserMiddleware] and [setCurrentUser] *)
Definition WithCurrentUser (r : ApiRequest) (c : Ctx) : result Ctx :=
  match ar_claims r with
  | None => Err (EMsg "can't extract JWT info from the context")
  | Some claims =>
      if claimsHaveAudience claims user_Audience then
        let userID := default "" (jc_user_id claims) in
        _ ← guard_err (is_empty userID) (EMsg "error mapping the user claims");
        u ← map_err (EWrap "error setting current user") (dir_FindByID userID);
        match u with
        | None => Err (EWrap "error setting current user" (EMsg "user not found"))
        | Some u => Ok (with_user c u)
        end
      else Ok c
  end.

(** [WithCurrentMembershipsMiddleware] and [setCurrentMembershipsForUser]: an
    error of the cache is a miss *)
Definition WithCurrentMemberships (c : Ctx) : result Ctx :=
  match cx_user c with
  | None => Ok c
  | Some u =>
      match dir_cache u with
      | Ok (Some ms) => Ok (with_memberships c ms)
      | _ =>
          ms ← map_err (EWrap "error setting current org membership")
                 (_ ← raw_uuid u;
                  map_err (EWrap "error getting membership list") (dir_ListAllMembershipsForUser u));
          Ok (with_memberships c ms)
      end
  end.

(** [WithOperationAuthorizationMiddleware] *)
Definition WithOperationAuthorization (r : ApiRequest) (c : Ctx) : result Ctx :=
  match ar_external r with Some e => Err e | None => Ok c end.

(** [setMembershipIfInstanceAdmin] *)
Definition setMembershipIfInstanceAdmin (c : Ctx) (orgName : string) : result Ctx :=
  match cx_memberships c with
  | None => Err (EMsg "user membership not found")
  | Some ms =>
      if existsb (fun rm => bool_decide (rm_Role rm = RoleInstanceAdmin)
                            && bool_decide (rm_ResourceType rm = ResourceTypeInstance)) ms then
        o ← map_err (EWrap "failed to find organization") (org_FindByName db orgName);
        Ok (with_org c (org_entity o))
      else Ok c
  end.

(** [setCurrentMembershipFromOrgName] *)
Definition setCurrentMembershipFromOrgName (c : Ctx) (u : UUID) (orgName : string) : result Ctx :=
  match dir_MembershipInOrg u orgName with
  | Ok (Some (role, o)) => Ok (with_subject (with_org c o) role)
  | Ok None => c' ← setMembershipIfInstanceAdmin c orgName; Ok (with_subject c' RoleInstanceAdmin)
  | Err e =>
      if IsNotFound e then c' ← setMembershipIfInstanceAdmin c orgName; Ok (with_subject c' RoleInstanceAdmin)
      else Err (EWrap "failed to find membership" e)
  end.

(** [setCurrentOrganizationFromDB] *)
Definition setCurrentOrganizationFromDB (c : Ctx) (u : UUID) : result Ctx :=
  match dir_CurrentMembership u with
  | Err e => Err e
  | Ok None => Err (EMsg "org not found")
  | Ok (Some (role, o)) => Ok (with_subject (with_org c o) role)
  end.

(** The organization that a request names: that of its resource, or of its header *)
Definition requested_org (r : ApiRequest) : result string :=
  fromResource ← map_err (EWrap "organization from resource") (ar_resource_org r);
  Ok (if is_empty fromResource then ar_org_header r else fromResource).

(** [WithCurrentOrganizationMiddleware] *)
Definition WithCurrentOrganization (r : ApiRequest) (c : Ctx) : result Ctx :=
  match cx_user c with
  | None => Ok c
  | Some u =>
      orgName ← requested_org r;
      c' ← (if is_empty orgName then map_err (EWrap "error setting current org") (setCurrentOrganizationFromDB c u)
            else map_err (fun _ => EMsg ("user is not a member of organization " +:+ orgName))
                   (setCurrentMembershipFromOrgName c u orgName));
      _ ← guard_err (bool_decide (cx_org c' = None)) (EMsg "org not found");
      Ok c'
  end.

(** [WithSuspensionMiddleware] *)
Definition WithSuspension (c : Ctx) : result Ctx :=
  match cx_org c with
  | Some o => if org_Suspended o then Err (transport_err Forbidden "organization is suspended") else Ok c
  | None => Ok c
  end.

(** The chain of [craftMiddleware] for the operations of users and API tokens, up
    to the authorization; [needs_org] matches the operations that act in an
    organization *)
Definition api_chain `{Casbin} (e : CasbinEnforcer) (needs_org : string -> bool) (r : ApiRequest) : result Ctx :=
  c ← WithCurrentAPITokenAndOrg r background;
  c ← WithCurrentUser r c;
  c ← WithCurrentMemberships c;
  c ← WithOperationAuthorization r c;
  if needs_org (ar_operation r) then
    c ← WithCurrentOrganization r c;
    c ← WithSuspension c;
    _ ← WithAuthzMiddleware (authz_Enforce db e) (cx_subject c) (Some (ar_operation r));
    Ok c
  else Ok c.

(** [WithAttestationContextFromUser], for a user's token *)
Definition WithAttestationContextFromUser (r : ApiRequest) (c : Ctx) : result (Ctx * string) :=
  c ← WithCurrentUser r c;
  c ← WithCurrentOrganization r c;
  match cx_org c with
  | None => Err (EMsg "organization not found")
  | Some o =>
      _ ← guard_err (is_empty (cx_subject c)) (EMsg "missing authorization subject");
      _ ← guard_err (negb (IsAdmin (cx_subject c)) && negb (RBACEnabled (cx_subject c)))
            (EMsg "your user doesn't have permissions to perform attestations in this organization");
      Ok (c, org_ID o)
  end.
End Middlewares.

(** ** The API tokens service (internal/service/apitoken.go) *)

Section TokenService.
Context `{UuidLib} (enforce : string -> Policy -> result bool) (others : goerr -> bool).
Context (sign : CustomClaims -> result string) (valid_name : string -> result unit).
(** Finding a project of an organization by reference *)
Context {Ref : Type} (find : string -> Ref -> result (UUID * string)).

Definition token_acts_org_wide (c : Ctx) : bool := IsOrgScoped (cx_token c) || IsInstanceScoped (cx_token c).

(** The checks of [APITokenService.Create], and the project of the new token *)
Definition create_token_checks (c : Ctx) (ref : option Ref) : result (Org * option (UUID * string)) :=
  currentOrg ← requireCurrentOrg c;
  let isSet := match ref with Some _ => true | None => false end in
  _ ← guard_err (rbacEnabled c && negb isSet) (transport_err BadRequest "project is required");
  _ ← guard_err (token_acts_org_wide c && negb isSet)
        (transport_err Forbidden "org-level API tokens must specify a project when creating new tokens");
  project ← match ref with
            | None => Ok None
            | Some r => Some <$> userHasPermissionOnProject enforce others (find (org_ID currentOrg)) c r PolicyAPITokenCreate
            end;
  Ok (currentOrg, project).

(** [APITokenService.Create] *)
Definition svc_CreateToken (db : TokenDB) (id : UUID) (now : Z) (c : Ctx) (name : string) (description : option string)
    (expiresIn : option Z) (ref : option Ref) : result APIToken * TokenDB :=
  match create_token_checks c ref with
  | Err e => (Err e, db)
  | Ok (currentOrg, project) =>
      let '(r, db') :=
        uc_Create sign valid_name db id now name description expiresIn (Some (org_ID currentOrg))
          {| to_project := project; to_workflow := None; to_scope := None; to_projectIDs := None; to_policies := None;
             to_isSystem := false |} in
      (map_err (handleUseCaseErr others) r, db')
  end.

(** [APITokenService.List]; [scope] is that of the request *)
Definition svc_ListTokens (db : TokenDB) (c : Ctx) (ref : option Ref) (scope : string) (status : APITokenStatusFilter)
    : result (list APIToken) :=
  currentOrg ← requireCurrentOrg c;
  visible ← visibleProjects c;
  filter ← match ref with
           | None => Ok visible
           | Some r =>
               p ← userHasPermissionOnProject enforce others (find (org_ID currentOrg)) c r PolicyAPITokenList;
               Ok (Some [p.1])
           end;
  map_err (handleUseCaseErr others)
    (uc_List db (org_ID currentOrg)
       {| lf_FilterByProjects := filter; lf_StatusFilter := status;
          lf_FilterByScope := if token_acts_org_wide c then ResourceTypeProject else scope; lf_IncludeSystem := false |}).

(** [APITokenService.Revoke] *)
Definition svc_RevokeToken (db : TokenDB) (now : Z) (c : Ctx) (id : string) : result TokenDB :=
  currentOrg ← requireCurrentOrg c;
  t ← map_err (handleUseCaseErr others) (uc_FindByIDInOrg db (org_ID currentOrg) id);
  let view := scopeView t in
  let org_wide := IsOrgScoped view || IsInstanceScoped view in
  _ ← guard_err (at_IsSystem t) (transport_err NotFound "API token not found");
  _ ← guard_err (org_wide && rbacEnabled c) (transport_err BadRequest "you can not manage a global API token");
  _ ← guard_err (token_acts_org_wide c && bool_decide (at_ProjectID t = None))
        (transport_err Forbidden "org-level API tokens can only revoke project-scoped tokens");
  _ ← (if org_wide then Ok tt
       else match ResourceScope view with
       | Some (kind, rid) => authorizeResource enforce others c false PolicyAPITokenRevoke kind rid
       | None =>
           if bool_decide (at_Scope t = None) && negb (rbacEnabled c) then Ok tt
           else Err (transport_err BadRequest "this API token carries an incomplete scope and cannot be managed here")
       end);
  map_err (handleUseCaseErr others) (uc_Revoke db (org_ID currentOrg) (at_ID t) now).
End TokenService.

(** ** What the checks agree on *)

Section Agreement.
Context (enforce : string -> Policy -> result bool) (others : goerr -> bool) (op : Policy).

Definition is_project (rm : ResourceMembership) : bool := bool_decide (rm_ResourceType rm = ResourceTypeProject).

(** The answers that are cached are those of the enforcer *)
Definition cache_sound (g : gmap Role bool) : Prop := forall r b, g !! r = Some b -> enforce r op = Ok b.

Lemma allow_step_Ok g a rm g' a' :
  cache_sound g -> allow_step enforce op (g, a) rm = Ok (g', a') ->
  cache_sound g' /\
  (if is_project rm then exists b, enforce (rm_Role rm) op = Ok b /\ a' = if b then <[rm_ResourceID rm := true]> a else a
   else a' = a).
Proof.
  intros Hg. unfold allow_step, is_project. case_bool_decide as Hp; cbn [negb]; [|by intros [= <- <-]].
  intros Hs. apply bind_Ok in Hs as (g1 & Hg1 & Hs). injection Hs as <- <-.
  destruct (g !! rm_Role rm) as [b|] eqn:Hb.
  - injection Hg1 as <-. split; [done|]. exists b. rewrite Hb. split; [by apply Hg|done].
  - apply bind_Ok in Hg1 as (b & He & Hg1). injection Hg1 as <-. split.
    + intros r b'. rewrite lookup_insert_Some. intros [[<- <-]|[_ Hr]]; [done|by apply Hg].
    + exists b. rewrite lookup_insert_eq. done.
Qed.

Lemma allow_fold ms g a g' a' :
  cache_sound g -> foldM_result (allow_step enforce op) ms (g, a) = Ok (g', a') ->
  (forall rm, rm ∈ ms -> is_project rm = true -> exists b, enforce (rm_Role rm) op = Ok b)
  /\ forall p, a' !! p = Some true <-> a !! p = Some true \/
       exists rm, rm ∈ ms /\ is_project rm = true /\ rm_ResourceID rm = p /\ enforce (rm_Role rm) op = Ok true.
Proof.
  revert g a. induction ms as [|rm ms IH]; intros g a Hg Hf; cbn [foldM_result] in Hf.
  - injection Hf as _ <-. split; [set_solver|]. set_solver.
  - apply bind_Ok in Hf as ([g1 a1] & Hs & Hf). apply allow_step_Ok in Hs as [Hg1 Hs]; [|done].
    destruct (IH g1 a1 Hg1 Hf) as [Hall Hp]. destruct (is_project rm) eqn:Erm.
    + destruct Hs as (b & He & ->). split.
      { intros rm' [->|Hin]%elem_of_cons Hproj; [by exists b|by apply Hall]. }
      intros p. rewrite Hp. setoid_rewrite elem_of_cons. destruct b; [rewrite lookup_insert_Some|].
      all: split; [naive_solver|]. all: destruct (decide (rm_ResourceID rm = p)); naive_solver congruence.
    + subst a1. split.
      { intros rm' [->|Hin]%elem_of_cons Hproj; [congruence|by apply Hall]. }
      intros p. rewrite Hp. setoid_rewrite elem_of_cons. naive_solver congruence.
Qed.

Lemma any_role_Ok ms :
  (forall rm, rm ∈ ms -> exists b, enforce (rm_Role rm) op = Ok b) ->
  any_role enforce others op ms = Ok tt <-> exists rm, rm ∈ ms /\ enforce (rm_Role rm) op = Ok true.
Proof.
  induction ms as [|rm ms IH]; intros Hall; cbn [any_role]; [set_solver|].
  destruct (Hall rm ltac:(left)) as [b Hb]. rewrite Hb. destruct b.
  - split; [|done]. intros _. exists rm. split; [left|done].
  - rewrite IH by (intros; apply Hall; by right). setoid_rewrite elem_of_cons. naive_solver congruence.
Qed.

Lemma on_resource_filter kind id ms rm :
  rm ∈ List.filter (on_resource kind id) ms <-> rm ∈ ms /\ rm_ResourceType rm = kind /\ rm_ResourceID rm = id.
Proof.
  rewrite !list_elem_of_In, filter_In. unfold on_resource. by rewrite andb_true_iff, !bool_decide_eq_true.
Qed.

Lemma map_true_lookup (f : UUID -> bool) (l : list UUID) p :
  p ∈ l -> (list_to_map ((fun p => (p, f p)) <$> l) : gmap UUID bool) !! p = Some (f p).
Proof.
  induction l as [|x l IH]; [set_solver|]. cbn. destruct (decide (x = p)) as [->|Hne]; [by rewrite lookup_insert_eq|].
  rewrite lookup_insert_ne by done. intros [->|Hp]%elem_of_cons; [done|by apply IH].
Qed.

(** The answers that a listing gives in advance are those that the operation would meet: a
    project is marked as allowing an operation exactly when the caller's role
    passes the API-level check for it (or is an administrator's) and the
    resource check on the project passes, for users and for API tokens. *)
Theorem listing_agrees_with_checks c projects allowed p :
  projectsAllowing enforce c op projects = Ok allowed -> p ∈ projects ->
  (allowed !! p = Some true <->
     (IsAdmin (cx_subject c) = true \/ enforce (cx_subject c) op = Ok true)
     /\ authorizeResource enforce others c false op ResourceTypeProject p = Ok tt).
Proof.
  unfold projectsAllowing, authorizeResource. intros Hp Hin. apply bind_Ok in Hp as (orgAllows & Ho & Hp).
  assert (IsAdmin (cx_subject c) = true \/ enforce (cx_subject c) op = Ok true <-> orgAllows = true) as ->.
  { destruct (IsAdmin (cx_subject c)); [injection Ho as <-; tauto|]. rewrite Ho. naive_solver. }
  destruct orgAllows; cbn [negb] in Hp; [|injection Hp as <-; rewrite lookup_empty; naive_solver].
  destruct (rbacEnabled c); cbn [negb andb] in *.
  2: { injection Hp as <-. rewrite (map_true_lookup (fun _ => true)) by done. naive_solver. }
  destruct (cx_token c) as [t|].
  - injection Hp as <-. rewrite (map_true_lookup (ReachesProject (Some t))) by done.
    rewrite bool_decide_eq_true_2 by done. cbn [andb]. destruct (ReachesProject (Some t) p); naive_solver.
  - destruct (cx_memberships c) as [ms|]; [|done].
    destruct (foldM_result _ ms (∅, ∅)) as [[g' a']|] eqn:Hf; [|done]. injection Hp as <-. cbn [snd].
    apply allow_fold in Hf as [Hall Ha]; [|by intros r b; rewrite lookup_empty].
    rewrite any_role_Ok, Ha, lookup_empty.
    + setoid_rewrite on_resource_filter. unfold is_project. setoid_rewrite bool_decide_eq_true. naive_solver.
    + intros rm Hrm. apply on_resource_filter in Hrm as (Hrm & Ht & _). apply Hall; [done|].
      by apply bool_decide_eq_true.
Qed.

Lemma any_role_some ms : any_role enforce others op ms = Ok tt -> exists rm, rm ∈ ms.
Proof. destruct ms as [|rm ms]; [done|]. exists rm. left. Qed.

(** The projects that a caller sees bound those that it may act on: an operation is
    authorized on a project only if the project is one of the visible ones, or if
    visibility is not restricted at all. *)
Theorem authorized_is_visible c p :
  authorizeResource enforce others c false op ResourceTypeProject p = Ok tt ->
  exists visible, visibleProjects c = Ok visible /\
    match visible with Some l => p ∈ l | None => rbacEnabled c = false end.
Proof.
  unfold authorizeResource, visibleProjects. destruct (rbacEnabled c) eqn:Hrbac; cbn [negb andb]; [|intros _; by exists None].
  destruct (cx_token c) as [t|] eqn:Ht.
  - rewrite bool_decide_eq_true_2 by done. cbn [andb]. destruct (ReachesProject (Some t) p) eqn:Hr; [|done]. intros _.
    eexists. split; [done|]. pose proof (reach_list (Some t)) as Hl.
    destruct (ReachableProjects (Some t)) as [l|]; [by apply Hl|].
    unfold rbacEnabled in Hrbac. rewrite Ht in Hrbac. destruct Hl as [[Ho|Hi] _];
      [rewrite Ho in Hrbac|rewrite Hi, andb_false_r in Hrbac]; done.
  - destruct (cx_memberships c) as [ms|]; [|done]. intros (rm & Hrm)%any_role_some.
    apply on_resource_filter in Hrm as (Hrm & Hk & <-). eexists. split; [done|]. cbn.
    apply list_elem_of_fmap. exists rm. split; [done|]. apply list_elem_of_In, filter_In.
    split; [by apply list_elem_of_In|by apply bool_decide_eq_true].
Qed.
End Agreement.

(** ** The identity that a request acts with *)

(** The role of a user in an organization was given to the user: it is that of a
    membership of the user in that organization, or the user administers the
    instance *)
Definition earned `{Directory} (db : TokenDB) (c : Ctx) (u : UUID) (role : Role) (o : Org) : Prop :=
  (exists name, dir_MembershipInOrg u name = Ok (Some (role, o)))
  \/ dir_CurrentMembership u = Ok (Some (role, o))
  \/ (role = RoleInstanceAdmin
      /\ (exists ms rm, cx_memberships c = Some ms /\ rm ∈ ms /\ rm_Role rm = RoleInstanceAdmin
                        /\ rm_ResourceType rm = ResourceTypeInstance)
      /\ exists name row, org_FindByName db name = Ok row /\ o = org_entity row).

Section Identity.
Context `{UuidLib} `{Directory} (db : TokenDB).

Lemma instance_admin_org c name c' :
  cx_org c = None -> setMembershipIfInstanceAdmin db c name = Ok c' -> forall o, cx_org c' = Some o ->
  (exists ms rm, cx_memberships c = Some ms /\ rm ∈ ms /\ rm_Role rm = RoleInstanceAdmin
                 /\ rm_ResourceType rm = ResourceTypeInstance)
  /\ exists name row, org_FindByName db name = Ok row /\ o = org_entity row.
Proof.
  intros Hno Hs o Ho. unfold setMembershipIfInstanceAdmin in Hs. destruct (cx_memberships c) as [ms|]; [|done].
  destruct (existsb _ ms) eqn:Hx; [|injection Hs as <-; congruence].
  apply existsb_exists in Hx as (rm & Hin & Hx). split_bool.
  apply bind_Ok in Hs as (row & Hf%map_err_Ok & Hs). injection Hs as <-. injection Ho as <-.
  split; [|by exists name, row]. exists ms, rm. split; [done|]. split; [by apply list_elem_of_In|done].
Qed.

Lemma WithCurrentOrganization_earned r c c' u :
  cx_user c = Some u -> cx_org c = None -> WithCurrentOrganization db r c = Ok c' ->
  exists o, cx_org c' = Some o /\ earned db c u (cx_subject c') o.
Proof.
  intros Hu Hno Hw. unfold WithCurrentOrganization in Hw. rewrite Hu in Hw. apply bind_Ok in Hw as (name & _ & Hw).
  apply bind_Ok in Hw as (c1 & Hc1 & Hw). apply bind_Ok in Hw as ([] & Hg%guard_err_Ok & Hw). injection Hw as <-.
  apply bool_decide_eq_false in Hg. destruct (cx_org c1) as [o|] eqn:Ho; [|done]. exists o. split; [done|]. clear Hg.
  destruct (is_empty name); apply map_err_Ok in Hc1.
  - unfold setCurrentOrganizationFromDB in Hc1. destruct (dir_CurrentMembership u) as [[[role o']|]|] eqn:Hm; try done.
    injection Hc1 as <-. injection Ho as ->. right; left. exact Hm.
  - assert (forall c2, setMembershipIfInstanceAdmin db c name = Ok c2 -> c1 = with_subject c2 RoleInstanceAdmin ->
      earned db c u (cx_subject c1) o) as Hadmin.
    { intros c2 Hs ->. right; right. split; [done|]. by apply (instance_admin_org c name c2). }
    unfold setCurrentMembershipFromOrgName in Hc1. destruct (dir_MembershipInOrg u name) as [[[role o']|]|e] eqn:Hm.
    + injection Hc1 as <-. injection Ho as ->. left. by exists name.
    + apply bind_Ok in Hc1 as (c2 & Hs & [= <-]). by eapply Hadmin.
    + destruct (IsNotFound e); [|done]. apply bind_Ok in Hc1 as (c2 & Hs & [= <-]). by eapply Hadmin.
Qed.

Lemma WithCurrentMemberships_keeps c c' :
  WithCurrentMemberships c = Ok c' ->
  cx_user c' = cx_user c /\ cx_org c' = cx_org c /\ cx_token c' = cx_token c /\ cx_subject c' = cx_subject c.
Proof.
  unfold WithCurrentMemberships. destruct (cx_user c) as [u|] eqn:Hu; [|intros [= <-]; by rewrite Hu].
  assert (forall ms, cx_user (with_memberships c ms) = Some u) as Hw by done.
  destruct (dir_cache u) as [[ms|]|]; [by intros [= <-]| |].
  all: intros Hc; apply bind_Ok in Hc as (ms & _ & [= <-]); done.
Qed.

Lemma WithSuspension_Ok c c' :
  WithSuspension c = Ok c' -> c' = c /\ forall o, cx_org c = Some o -> org_Suspended o = false.
Proof.
  unfold WithSuspension. destruct (cx_org c) as [o|]; [|intros [= <-]; done].
  destruct (org_Suspended o) eqn:Ho; [done|]. intros [= <-]. split; [done|]. by intros o' [= <-].
Qed.

Lemma WithCurrentOrganization_keeps r c c' :
  WithCurrentOrganization db r c = Ok c' ->
  cx_memberships c' = cx_memberships c /\ cx_user c' = cx_user c /\ cx_token c' = cx_token c.
Proof.
  unfold WithCurrentOrganization. destruct (cx_user c) as [u|] eqn:Hu; [|intros [= <-]; by rewrite Hu].
  intros Hw. apply bind_Ok in Hw as (name & _ & Hw). apply bind_Ok in Hw as (c1 & Hc1 & Hw).
  apply bind_Ok in Hw as ([] & _ & [= <-]). rewrite <-Hu. destruct (is_empty name); apply map_err_Ok in Hc1.
  - unfold setCurrentOrganizationFromDB in Hc1. destruct (dir_CurrentMembership u) as [[[role o']|]|]; try done.
    by injection Hc1 as <-.
  - assert (forall c2 role, setMembershipIfInstanceAdmin db c name = Ok c2 ->
      cx_memberships (with_subject c2 role) = cx_memberships c /\ cx_user (with_subject c2 role) = cx_user c
      /\ cx_token (with_subject c2 role) = cx_token c) as Hadmin.
    { intros c2 role Hs. unfold setMembershipIfInstanceAdmin in Hs. destruct (cx_memberships c) as [ms|] eqn:Hms; [|done].
      destruct (existsb _ ms); [apply bind_Ok in Hs as (row & _ & [= <-])|injection Hs as <-]; cbn; by rewrite Hms. }
    unfold setCurrentMembershipFromOrgName in Hc1. destruct (dir_MembershipInOrg u name) as [[[role o']|]|e].
    + by injection Hc1 as <-.
    + apply bind_Ok in Hc1 as (c2 & Hs & [= <-]). by apply Hadmin.
    + destruct (IsNotFound e); [|done]. apply bind_Ok in Hc1 as (c2 & Hs & [= <-]). by apply Hadmin.
Qed.

(** C6: A call of the API that passes the middlewares acts in an organization that is not
    suspended, with a subject that the authorization let through for the operation,
    and that belongs to the caller: a token's own subject after its row was checked
    against its claims, or the role of a membership of the user in that organization,
    or the administration of the instance. *)
Theorem api_call_guarded `{Casbin} e needs_org r claims c :
  api_chain db e needs_org r = Ok c -> ar_claims r = Some claims -> needs_org (ar_operation r) = true ->
  ~ (claimsHaveAudience claims Audience = true /\ claimsHaveAudience claims user_Audience = true) ->
  (forall o, cx_org c = Some o -> org_Suspended o = false)
  /\ WithAuthzMiddleware (authz_Enforce db e) (cx_subject c) (Some (ar_operation r)) = Ok tt
  /\ (claimsHaveAudience claims Audience = true ->
        exists api tc t, jc_api claims = Ok api /\ setCurrentOrgAndAPIToken db (ar_org_header r) api = Ok (tc, t)
          /\ cx_token c = Some (tc_token tc) /\ cx_subject c = tc_subject tc)
  /\ (claimsHaveAudience claims user_Audience = true ->
        exists u o, cx_user c = Some u /\ cx_org c = Some o /\ cx_token c = None /\ earned db c u (cx_subject c) o).
Proof.
  unfold api_chain. intros Hc Hcl Hneeds Hboth. apply bind_Ok in Hc as (c1 & H1c & Hc). apply bind_Ok in Hc as (c2 & H2c & Hc).
  apply bind_Ok in Hc as (c3 & H3c & Hc). apply bind_Ok in Hc as (c4 & H4c & Hc). rewrite Hneeds in Hc.
  apply bind_Ok in Hc as (c5 & H5c & Hc). apply bind_Ok in Hc as (c6 & H6c & Hc). apply bind_Ok in Hc as ([] & Hz & [= <-]).
  apply WithSuspension_Ok in H6c as [-> Hsusp]. unfold WithOperationAuthorization in H4c.
  destruct (ar_external r); [done|injection H4c as <-].
  split; [done|]. split; [done|]. split; intros Haud.
  - assert (claimsHaveAudience claims user_Audience = false) as Hnu by (apply not_true_iff_false; tauto).
    unfold WithCurrentAPITokenAndOrg in H1c. rewrite Hcl, Haud in H1c. destruct (jc_api claims) as [api|]; [|done].
    apply bind_Ok in H1c as ([] & _ & H1c). apply bind_Ok in H1c as ([tc t] & Hs%map_err_Ok & [= <-]).
    unfold WithCurrentUser in H2c. rewrite Hcl, Hnu in H2c. injection H2c as <-.
    unfold WithCurrentMemberships in H3c. cbn [cx_user with_token background] in H3c. injection H3c as <-.
    unfold WithCurrentOrganization in H5c. cbn [cx_user with_token background] in H5c. injection H5c as <-.
    by exists api, tc, t.
  - assert (claimsHaveAudience claims Audience = false) as Hna by (apply not_true_iff_false; tauto).
    unfold WithCurrentAPITokenAndOrg in H1c. rewrite Hcl, Hna in H1c. injection H1c as <-.
    unfold WithCurrentUser in H2c. rewrite Hcl, Haud in H2c. apply bind_Ok in H2c as ([] & _ & H2c).
    apply bind_Ok in H2c as ([u|] & _ & H2c); [injection H2c as <-|done].
    apply WithCurrentMemberships_keeps in H3c as (Hu & Ho & Ht & _).
    destruct (WithCurrentOrganization_keeps _ _ _ H5c) as (Hms & Hu5 & Ht5).
    destruct (WithCurrentOrganization_earned r c3 c5 u Hu Ho H5c) as (o & Ho5 & He).
    exists u, o. rewrite Hu5, Ht5. split; [done|]. split; [done|]. split; [done|].
    destruct He as [?|[?|(Hr & Hadm & Hrow)]]; [by left|by right; left|]. right; right. by rewrite Hms.
Qed.
End Identity.

(** ** Errors and tokens *)

Lemma handleUseCaseErr_kind others e :
  exists kind msg, handleUseCaseErr others e = transport_err kind msg /\ kind ∈ transport_kinds.
Proof.
  unfold handleUseCaseErr. repeat case_match; try (eexists _, _; split; [reflexivity|set_solver]).
  eexists _, _. split; [reflexivity|]. match goal with H : isClientErrorCode _ = true |- _ =>
    apply bool_decide_eq_true in H; unfold transport_kinds; set_solver end.
Qed.

(** Converting the error of a use case for the transport always gives an error with a
    status, and converting it again keeps the status, so that a handler may
    convert what an inner one has converted already. *)
Theorem error_conversion_stable others e :
  (forall kind msg, others (transport_err kind msg) = false) ->
  exists kind, grpc_status (handleUseCaseErr others e) = Some kind
    /\ grpc_status (handleUseCaseErr others (handleUseCaseErr others e)) = Some kind.
Proof.
  intros Ho. destruct (handleUseCaseErr_kind others e) as (kind & msg & -> & Hk). exists kind. split.
  - cbn. by rewrite bool_decide_eq_true_2.
  - unfold transport_kinds in Hk. unfold handleUseCaseErr. rewrite Ho.
    repeat (apply elem_of_cons in Hk as [->|Hk]; [reflexivity|]). by apply not_elem_of_nil in Hk.
Qed.

(** A caller under RBAC (a user with a project role, or a token that is confined) mints only
    tokens of one project, on which it may create tokens itself; a token that acts
    for the whole organization also mints only tokens of one project. *)
Theorem tokens_never_escalate `{UuidLaws} enforce others sign valid_name {Ref} (find : string -> Ref -> result (UUID * string))
    db id now c name desc ex ref token db' :
  rbacEnabled c = true \/ token_acts_org_wide c = true ->
  svc_CreateToken enforce others sign valid_name find db id now c name desc ex ref = (Ok token, db') ->
  exists p, ct_Scope (ctx_token token) = Some ResourceTypeProject /\ ct_ScopeID (ctx_token token) = Some p
    /\ (forall q, ReachesProject (Some (ctx_token token)) q = true <-> q = p)
    /\ authorizeResource enforce others c false PolicyAPITokenCreate ResourceTypeProject p = Ok tt.
Proof.
  intros Hcaller Hs. unfold svc_CreateToken in Hs. destruct (create_token_checks _ _ _ _ _) as [[org project]|] eqn:Hc; [|done].
  destruct (uc_Create _ _ _ _ _ _ _ _ _ _) as [res db1] eqn:Hcreate. injection Hs as Hr <-. apply map_err_Ok in Hr as ->.
  unfold create_token_checks in Hc. apply bind_Ok in Hc as (o & _ & Hc). apply bind_Ok in Hc as ([] & H1%guard_err_Ok & Hc).
  apply bind_Ok in Hc as ([] & H2%guard_err_Ok & Hc). apply bind_Ok in Hc as (project' & Hp & [= -> ->]).
  destruct ref as [ref|]; [|cbn in H1, H2; rewrite andb_true_r in H1, H2; destruct Hcaller; congruence].
  destruct (userHasPermissionOnProject _ _ _ _ _ _) as [p|] eqn:Hperm; [|done]. injection Hp as <-.
  destruct (uc_Create_Ok _ _ _ _ _ _ _ _ _ _ _ _ Hcreate) as (org' & opts & Hchecks & Hscope & Hsid).
  apply create_checks_Ok in Hchecks as (_ & Ep & _ & _ & _ & _ & _ & kind & Ekind & Escope). cbn in Escope.
  injection Escope as Ek Esid. exists p.1.
  assert (ct_Scope (ctx_token token) = Some ResourceTypeProject) as Hts by (cbn; congruence).
  assert (ct_ScopeID (ctx_token token) = Some p.1) as Htid by (cbn; congruence).
  split; [done|]. split; [done|]. split.
  - intros q. rewrite (project_reach _ p.1 q Hts Htid), bool_decide_eq_true. naive_solver.
  - unfold userHasPermissionOnProject in Hperm. apply bind_Ok in Hperm as (p' & _ & Hperm).
    destruct (rbacEnabled c) eqn:Hrbac; cbn [negb] in Hperm.
    + apply bind_Ok in Hperm as ([] & Ha & [= <-]). done.
    + unfold authorizeResource. by rewrite Hrbac.
Qed.

(** ** Witnesses *)

Definition toy_enforce (sub : string) (p : Policy) : result bool := Ok (role_allows sub p).

Definition toy_organization : Org := {| org_ID := "o"; org_Name := "org"; org_Suspended := false |}.

(** A member of the organization who administers the project [p] *)
Definition toy_member : Ctx :=
  {| cx_token := None; cx_user := Some "u";
     cx_memberships := Some [{| rm_Role := RoleProjectAdmin; rm_ResourceType := ResourceTypeProject; rm_ResourceID := "p" |}];
     cx_org := Some toy_organization; cx_subject := RoleOrgMember |}.

Lemma listing_agrees_with_checks_witness :
  exists allowed, projectsAllowing toy_enforce toy_member PolicyWorkflowCreate ["p"; "q"] = Ok allowed
    /\ allowed !! "p" = Some true.
Proof.
  destruct (projectsAllowing toy_enforce toy_member PolicyWorkflowCreate ["p"; "q"]) as [allowed|] eqn:E;
    [|vm_compute in E; discriminate].
  exists allowed. split; [reflexivity|].
  apply (listing_agrees_with_checks toy_enforce (fun _ => false) PolicyWorkflowCreate toy_member ["p"; "q"] allowed "p" E);
    [left|]. split; [right; vm_compute; reflexivity|vm_compute; reflexivity].
Defined.

Lemma authorized_is_visible_witness :
  exists visible, visibleProjects toy_member = Ok visible
    /\ match visible with Some l => "p" ∈ l | None => rbacEnabled toy_member = false end.
Proof.
  exact (authorized_is_visible toy_enforce (fun _ => false) PolicyWorkflowCreate toy_member "p" ltac:(vm_compute; reflexivity)).
Defined.

Lemma error_conversion_stable_witness :
  exists kind, grpc_status (handleUseCaseErr (fun _ => false) (NewErrNotFound "run")) = Some kind.
Proof.
  destruct (error_conversion_stable (fun _ => false) (NewErrNotFound "run") (fun _ _ => eq_refl)) as (kind & Hk & _).
  exists kind. exact Hk.
Defined.

Lemma tokens_never_escalate_witness :
  exists token db', svc_CreateToken (H := ApiTokens.toy_uuid) toy_enforce (fun _ => false) (fun _ => Ok "jwt") (fun _ => Ok tt)
      (fun _ (r : string) => Ok (r, "project")) toy_db "t" 0 toy_member "token" None None (Some "p") = (Ok token, db')
    /\ exists p, ct_Scope (ctx_token token) = Some ResourceTypeProject /\ ct_ScopeID (ctx_token token) = Some p.
Proof.
  destruct (svc_CreateToken (H := ApiTokens.toy_uuid) toy_enforce (fun _ => false) (fun _ => Ok "jwt") (fun _ => Ok tt)
      (fun _ (r : string) => Ok (r, "project")) toy_db "t" 0 toy_member "token" None None (Some "p")) as [r db'] eqn:E.
  assert (exists token, r = Ok token) as [token ->] by (vm_compute in E; injection E as <- _; eexists; reflexivity).
  exists token, db'. split; [reflexivity|].
  destruct (tokens_never_escalate (H0 := ApiTokens.toy_uuid_laws) _ _ _ _ _ _ _ _ toy_member _ _ _ _ _ _
    (or_introl (eq_refl : rbacEnabled toy_member = true)) E) as (p & Hs & Hid & _).
  exists p. split; [exact Hs|exact Hid].
Defined.

#[local] Instance toy_directory : Directory :=
  {| dir_FindByID := fun s => Ok (Some s);
     dir_MembershipInOrg := fun _ _ => Ok (Some (RoleAdmin, toy_organization));
     dir_CurrentMembership := fun _ => Ok (Some (RoleAdmin, toy_organization));
     dir_ListAllMembershipsForUser := fun _ => Ok [];
     dir_cache := fun _ => Ok None |}.

Definition toy_jwt : JwtClaims := {| jc_audiences := [user_Audience]; jc_api := Err (EMsg ""); jc_user_id := Some "u" |}.
Definition toy_api_request : ApiRequest :=
  {| ar_claims := Some toy_jwt; ar_org_header := "org"; ar_resource_org := Ok "";
     ar_operation := "/controlplane.v1.WorkflowService/View"; ar_external := None |}.

Definition toy_empty_enforcer : @CasbinEnforcer ListCasbin.list_casbin :=
  @Build_CasbinEnforcer ListCasbin.list_casbin ([], []) None.

Lemma api_call_guarded_witness :
  exists c, api_chain (H := ApiTokens.toy_uuid) toy_db
      toy_empty_enforcer (fun _ => true) toy_api_request = Ok c
    /\ exists u o, cx_user c = Some u /\ cx_org c = Some o /\ org_Suspended o = false.
Proof.
  destruct (api_chain (H := ApiTokens.toy_uuid) toy_db
      toy_empty_enforcer (fun _ => true) toy_api_request) as [c|] eqn:E;
    [|vm_compute in E; discriminate].
  exists c. split; [reflexivity|].
  destruct (api_call_guarded _ _ _ _ toy_jwt c E eq_refl eq_refl) as (Hsusp & _ & _ & Huser).
  { intros [Ha _]. vm_compute in Ha. discriminate. }
  destruct Huser as (u & o & Hu & Ho & _); [reflexivity|]. exists u, o. split; [exact Hu|]. split; [exact Ho|].
  apply Hsusp. exact Ho.
Defined.
