(* ===== verification/CasBackends.v ===== *)
(** * The CAS backends of an organization

    app/controlplane/pkg/biz/casbackend.go over pkg/data/casbackend.go and the
    table of ent/schema/casbackend.go.  One backend of an organization is its
    default, another one may be its fallback; when the default is deleted or
    demoted, another one is promoted.

    The secrets manager and the providers are parameters.  Each repository call
    is a transaction, and a use case runs its calls one after the other. *)

From S2P Require Import Prelude.
From S2P Require Import GoStrings.
From S2P Require Import BizErrors.

Open Scope Z_scope.

(** ** The table (data/casbackend.go) *)

Inductive ValidationStatus := ValidationOK | ValidationFailed.

#[export] Instance ValidationStatus_eq_dec : EqDecision ValidationStatus.
Proof. solve_decision. Defined.

Definition CASBackendInline : string := "INLINE".

Record Backend := {
  cb_name : string;
  cb_organization : UUID;
  cb_location : string;
  cb_description : string;
  cb_secret : string;
  cb_provider : string;
  cb_default : bool;
  cb_fallback : bool;
  cb_managed : bool;
  cb_max_bytes : Z;
  cb_status : ValidationStatus;
  cb_error : option string;
  cb_created_at : Z;
  cb_validated_at : Z;
  cb_deleted : bool
}.

Abbreviation Backends := (gmap UUID Backend).

Definition set_flags (def fb : bool) (b : Backend) : Backend :=
  {| cb_name := cb_name b; cb_organization := cb_organization b; cb_location := cb_location b;
     cb_description := cb_description b; cb_secret := cb_secret b; cb_provider := cb_provider b;
     cb_default := def; cb_fallback := fb; cb_managed := cb_managed b; cb_max_bytes := cb_max_bytes b;
     cb_status := cb_status b; cb_error := cb_error b; cb_created_at := cb_created_at b;
     cb_validated_at := cb_validated_at b; cb_deleted := cb_deleted b |}.

Definition is_inline (b : Backend) : bool := bool_decide (cb_provider b = CASBackendInline).

(** [Query().Where(organization, DeletedAtIsNil, ...)] *)
Definition live_in (org : UUID) (P : Backend -> bool) (b : Backend) : bool :=
  bool_decide (cb_organization b = org) && negb (cb_deleted b) && P b.

(** [Only(ctx)], with no row as nil: two rows are an error *)
Definition only_live (t : Backends) (org : UUID) (P : Backend -> bool) : result (option (UUID * Backend)) :=
  match List.filter (fun kv => live_in org P kv.2) (map_to_list t) with
  | [] => Ok None
  | [x] => Ok (Some x)
  | _ => Err (EMsg "ent: cas_backend not singular")
  end.

Definition repo_FindDefaultBackend (t : Backends) (org : UUID) := only_live t org cb_default.
Definition repo_FindFallbackBackend (t : Backends) (org : UUID) := only_live t org cb_fallback.
Definition repo_FindInlineBackend (t : Backends) (org : UUID) := only_live t org is_inline.
Definition repo_FindManagedBackend (t : Backends) (org : UUID) := only_live t org cb_managed.

(** [FindByID] *)
Definition backend_FindByID (t : Backends) (id : UUID) : option Backend :=
  b ← t !! id; if cb_deleted b then None else Some b.

(** [FindByIDInOrg] *)
Definition backend_FindByIDInOrg (t : Backends) (org id : UUID) : option Backend :=
  b ← backend_FindByID t id; if bool_decide (cb_organization b = org) then Some b else None.

(** [Update().Where(HasOrganizationWith, Default(true)).SetDefault(false)], and the same for the fallback *)
Definition clear_default (org : UUID) (t : Backends) : Backends :=
  (fun b => if bool_decide (cb_organization b = org) && cb_default b then set_flags false (cb_fallback b) b else b) <$> t.
Definition clear_fallback (org : UUID) (t : Backends) : Backends :=
  (fun b => if bool_decide (cb_organization b = org) && cb_fallback b then set_flags (cb_default b) false b else b) <$> t.

Definition is_true (o : option bool) : bool := match o with Some true => true | _ => false end.

Record BackendCreateOpts := {
  bc_OrgID : UUID;
  bc_Name : string;
  bc_Location : string;
  bc_Secret : string;
  bc_Description : option string;
  bc_Provider : string;
  bc_Default : option bool;
  bc_Fallback : option bool;
  bc_Managed : option bool;
  bc_MaxBytes : Z
}.

(** The unique index: one live backend of that name in the organization *)
Definition name_taken (t : Backends) (org : UUID) (name : string) : bool :=
  existsb (fun kv => live_in org (fun b => bool_decide (cb_name b = name)) kv.2) (map_to_list t).

(** [CASBackendRepo.Create]; [id] is the identifier of the new row *)
Definition repo_Create (t : Backends) (id : UUID) (now : Z) (o : BackendCreateOpts) : result (Backend * Backends) :=
  _ ← guard_err (is_true (bc_Default o) && is_true (bc_Fallback o))
        (EMsg "a backend cannot be both default and fallback");
  let t := if is_true (bc_Default o) then clear_default (bc_OrgID o) t else t in
  let t := if is_true (bc_Fallback o) then clear_fallback (bc_OrgID o) t else t in
  _ ← guard_err (name_taken t (bc_OrgID o) (bc_Name o) || bool_decide (is_Some (t !! id)))
        (NewErrAlreadyExists "constraint failed");
  let row :=
    {| cb_name := bc_Name o; cb_organization := bc_OrgID o; cb_location := bc_Location o;
       cb_description := default "" (bc_Description o); cb_secret := bc_Secret o; cb_provider := bc_Provider o;
       cb_default := is_true (bc_Default o); cb_fallback := is_true (bc_Fallback o);
       cb_managed := is_true (bc_Managed o); cb_max_bytes := bc_MaxBytes o;
       cb_status := ValidationOK; cb_error := None; cb_created_at := now; cb_validated_at := now; cb_deleted := false |} in
  Ok (row, <[id := row]> t).

Record BackendUpdateOpts := {
  bu_ID : UUID;
  bu_OrgID : UUID;
  bu_Secret : string;
  bu_Description : option string;
  bu_Default : option bool;
  bu_Fallback : option bool;
  bu_Status : option ValidationStatus;
  bu_Error : option string;
  bu_MaxBytes : option Z
}.

(** The chain of setters of [CASBackendRepo.Update] *)
Definition update_row (o : BackendUpdateOpts) (b : Backend) : Backend :=
  let def1 := default (cb_default b) (bu_Default o) in
  let fb1 := if is_true (bu_Default o) then false else cb_fallback b in
  let fb2 := default fb1 (bu_Fallback o) in
  let def2 := if is_true (bu_Fallback o) then false else def1 in
  {| cb_name := cb_name b; cb_organization := cb_organization b; cb_location := cb_location b;
     cb_description := default (cb_description b) (bu_Description o);
     cb_secret := if is_empty (bu_Secret o) then cb_secret b else bu_Secret o;
     cb_provider := cb_provider b; cb_default := def2; cb_fallback := fb2; cb_managed := cb_managed b;
     cb_max_bytes := default (cb_max_bytes b) (bu_MaxBytes o);
     cb_status := default (cb_status b) (bu_Status o);
     cb_error := match bu_Error o with Some e => Some e | None => cb_error b end;
     cb_created_at := cb_created_at b; cb_validated_at := cb_validated_at b; cb_deleted := cb_deleted b |}.

(** [CASBackendRepo.Update]: the organization of the options may be the nil one,
    and then clears nothing.  The row is read again at the end, and may be deleted *)
Definition repo_Update (t : Backends) (o : BackendUpdateOpts) : result (option Backend * Backends) :=
  let t := if is_true (bu_Default o) then clear_default (bu_OrgID o) t else t in
  let t := if is_true (bu_Fallback o) then clear_fallback (bu_OrgID o) t else t in
  match t !! bu_ID o with
  | None => Err (EMsg "ent: cas_backend not found")
  | Some b =>
      let t := <[bu_ID o := update_row o b]> t in
      Ok (backend_FindByID t (bu_ID o), t)
  end.

Definition set_deleted (b : Backend) : Backend :=
  {| cb_name := cb_name b; cb_organization := cb_organization b; cb_location := cb_location b;
     cb_description := cb_description b; cb_secret := cb_secret b; cb_provider := cb_provider b;
     cb_default := cb_default b; cb_fallback := cb_fallback b; cb_managed := cb_managed b; cb_max_bytes := cb_max_bytes b;
     cb_status := cb_status b; cb_error := cb_error b; cb_created_at := cb_created_at b;
     cb_validated_at := cb_validated_at b; cb_deleted := true |}.
Definition set_status (status : ValidationStatus) (err : option string) (now : Z) (b : Backend) : Backend :=
  {| cb_name := cb_name b; cb_organization := cb_organization b; cb_location := cb_location b;
     cb_description := cb_description b; cb_secret := cb_secret b; cb_provider := cb_provider b;
     cb_default := cb_default b; cb_fallback := cb_fallback b; cb_managed := cb_managed b; cb_max_bytes := cb_max_bytes b;
     cb_status := status; cb_error := err; cb_created_at := cb_created_at b;
     cb_validated_at := now; cb_deleted := cb_deleted b |}.

(** [SoftDelete], [Delete] and [UpdateValidationStatus] of the repository *)
Definition repo_SoftDelete (t : Backends) (id : UUID) : result Backends :=
  match t !! id with
  | Some b => Ok (<[id := set_deleted b]> t)
  | None => Err (EMsg "ent: cas_backend not found")
  end.
Definition repo_Delete (t : Backends) (id : UUID) : result Backends :=
  match t !! id with Some _ => Ok (delete id t) | None => Err (EMsg "ent: cas_backend not found") end.
Definition repo_UpdateValidationStatus (t : Backends) (id : UUID) (status : ValidationStatus) (err : option string)
    (now : Z) : result Backends :=
  match t !! id with
  | Some b => Ok (<[id := set_status status err now b]> t)
  | None => Err (EMsg "ent: cas_backend not found")
  end.

Definition created_desc (a b : UUID * Backend) : Prop := cb_created_at b.2 <= cb_created_at a.2.
#[export] Instance created_desc_dec a b : Decision (created_desc a b).
Proof. unfold created_desc. apply _. Defined.

(** [CASBackendRepo.List], from the newest *)
Definition repo_ListBackends (t : Backends) (org : UUID) : list (UUID * Backend) :=
  merge_sort created_desc (List.filter (fun kv => live_in org (fun _ => true) kv.2) (map_to_list t)).

(** ** The use case (biz/casbackend.go) *)

Definition CASBackendInlineDefaultMaxBytes : Z := 500 * 1024.
Definition MinCASBackendMaxBytes : Z := 10 * 1024 * 1024.
Definition CASBackendInlineDescription : string := "Embed artifacts content in the attestation (fallback)".

(** The secrets manager, and what validating a backend with its credentials says *)
Class Secrets := {
  SaveCredentials : string -> string -> option string -> result string;
  ReadCredentials : string -> result string;
  provider_known : string -> bool;
  (** the message of its error *)
  ValidateAndExtractCredentials : string -> string -> string -> option string
}.

Definition errMsgCredentialsAccess : string :=
  "Failed to access CAS backend credentials in external Secrets Manager".

Section UseCase.
Context `{UuidLib} `{Secrets} (ValidateIsDNS1123 : string -> result unit) (MaxBytesDefault : Z).

Definition found (b : option (UUID * Backend)) : result (UUID * Backend) :=
  match b with Some b => Ok b | None => Err (NewErrNotFound "CAS Backend") end.

(** [FindDefaultBackend] *)
Definition FindDefaultBackend (t : Backends) (orgID : string) : result (UUID * Backend) :=
  org ← parse_uuid orgID; b ← repo_FindDefaultBackend t org; found b.

(** [FindFallbackBackend] *)
Definition FindFallbackBackend (t : Backends) (orgID : string) : result (UUID * Backend) :=
  org ← parse_uuid orgID; b ← repo_FindFallbackBackend t org; found b.

(** [FindDefaultOrFallbackBackend] *)
Definition FindDefaultOrFallbackBackend (t : Backends) (orgID : string) : result (UUID * Backend) :=
  defaultBackend ← FindDefaultBackend t orgID;
  if bool_decide (cb_status defaultBackend.2 = ValidationOK) then Ok defaultBackend
  else
    fallbackBackend ← FindFallbackBackend t orgID;
    if bool_decide (cb_status fallbackBackend.2 = ValidationOK) then Ok fallbackBackend
    else Err (NewErrValidationStr "both default and fallback CAS backends are unreachable").

(** [CreateInlineBackend] *)
Definition CreateInlineBackend (t : Backends) (id : UUID) (now : Z) (orgID : string) : result (Backend * Backends) :=
  org ← parse_uuid orgID;
  repo_Create t id now
    {| bc_OrgID := org; bc_Name := "default-inline"; bc_Location := ""; bc_Secret := "";
       bc_Description := Some CASBackendInlineDescription; bc_Provider := CASBackendInline; bc_Default := Some true;
       bc_Fallback := None; bc_Managed := None; bc_MaxBytes := CASBackendInlineDefaultMaxBytes |}.

(** One finder of [findPromotionCandidate] *)
Definition candidate_of (excludeID : option UUID) (b : option (UUID * Backend)) : option (UUID * Backend) :=
  match b with
  | Some b => if bool_decide (excludeID = Some b.1) then None else Some b
  | None => None
  end.

(** [findPromotionCandidate] *)
Definition findPromotionCandidate (t : Backends) (org : UUID) (excludeID : option UUID) : result (option (UUID * Backend)) :=
  fallback ← repo_FindFallbackBackend t org;
  match candidate_of excludeID fallback with
  | Some b => Ok (Some b)
  | None =>
      managed ← repo_FindManagedBackend t org;
      match candidate_of excludeID managed with
      | Some b => Ok (Some b)
      | None => inline ← repo_FindInlineBackend t org; Ok (candidate_of excludeID inline)
      end
  end.

Definition promote_opts (id : UUID) : BackendUpdateOpts :=
  {| bu_ID := id; bu_OrgID := uuid_Nil; bu_Secret := ""; bu_Description := None; bu_Default := Some true;
     bu_Fallback := None; bu_Status := None; bu_Error := None; bu_MaxBytes := None |}.

(** [promoteNextAvailableBackend], whose update does not name the organization *)
Definition promoteNextAvailableBackend (t : Backends) (orgID : string) (excludeID : option UUID) : result Backends :=
  org ← parse_uuid orgID;
  candidate ← findPromotionCandidate t org excludeID;
  match candidate with
  | None => Ok t
  | Some (id, _) => r ← repo_Update t (promote_opts id); Ok r.2
  end.

(** [CASBackendUseCase.Create] *)
Definition backend_Create (t : Backends) (id : UUID) (now : Z) (orgID name location description provider creds : string)
    (defaultB fallbackB : bool) (maxBytes : option Z) : result (Backend * Backends) :=
  _ ← guard_err (is_empty orgID || is_empty name) (NewErrValidationStr "organization and name are required");
  _ ← guard_err (defaultB && fallbackB) (NewErrValidationStr "a backend cannot be both default and fallback");
  org ← parse_uuid orgID;
  _ ← map_err (fun _ => NewErrValidationStr "invalid name") (ValidateIsDNS1123 name);
  _ ← guard_err (match maxBytes with Some m => bool_decide (m < MinCASBackendMaxBytes) | None => false end)
        (NewErrValidationStr "max_bytes must be at least 10M");
  secretName ← map_err (EWrap "storing the credentials") (SaveCredentials orgID creds None);
  map_err (fun e => if IsErrAlreadyExists e then NewErrAlreadyExists "name already taken"
                    else EWrap "failed to create CAS backend" e)
    (repo_Create t id now
       {| bc_OrgID := org; bc_Name := name; bc_Location := location; bc_Secret := secretName;
          bc_Description := Some description; bc_Provider := provider; bc_Default := Some defaultB;
          bc_Fallback := Some fallbackB; bc_Managed := None; bc_MaxBytes := default MaxBytesDefault maxBytes |}).

(** What [PerformValidation] finds out *)
Definition validation (b : Backend) : ValidationStatus * option string :=
  match ReadCredentials (cb_secret b) with
  | Err _ => (ValidationFailed, Some errMsgCredentialsAccess)
  | Ok creds =>
      match ValidateAndExtractCredentials (cb_provider b) (cb_location b) creds with
      | Some errMsg => (ValidationFailed, Some errMsg)
      | None => (ValidationOK, None)
      end
  end.

(** [PerformValidation]; a failed update of the status is logged *)
Definition PerformValidation (t : Backends) (id : string) (now : Z) : result unit * Backends :=
  match parse_uuid id with
  | Err e => (Err e, t)
  | Ok u =>
      match backend_FindByID t u with
      | None => (Err (NewErrNotFound "CAS Backend"), t)
      | Some b =>
          if is_inline b then (Ok tt, t)
          else if negb (provider_known (cb_provider b)) then (Err (EMsg "CAS backend provider not found"), t)
          else
            let '(status, err) := validation b in
            (Ok tt, match repo_UpdateValidationStatus t u status err now with Ok t' => t' | Err _ => t end)
      end
  end.

(** The checks of [CASBackendUseCase.Update], and the row before it *)
Definition update_checks (t : Backends) (orgID id : string) (defaultB fallbackB : option bool) (maxBytes : option Z)
    : result (UUID * UUID * Backend) :=
  org ← parse_uuid orgID; u ← parse_uuid id;
  before ← match backend_FindByIDInOrg t org u with Some b => Ok b | None => Err (NewErrNotFound "CAS Backend") end;
  _ ← guard_err (is_true defaultB && is_true fallbackB)
        (NewErrValidationStr "a backend cannot be both default and fallback");
  _ ← guard_err (bool_decide (is_Some maxBytes) && is_inline before)
        (NewErrValidationStr "inline backends cannot have their max_bytes updated");
  _ ← guard_err (cb_managed before) (NewErrValidationStr "managed CAS backends cannot be modified");
  _ ← guard_err (match maxBytes with Some m => bool_decide (m < MinCASBackendMaxBytes) | None => false end)
        (NewErrValidationStr "max_bytes must be at least 10M");
  Ok (org, u, before).

Definition existing_secret (b : Backend) : option string := if is_empty (cb_secret b) then None else Some (cb_secret b).

(** [CASBackendUseCase.Update]: what was written before an error stays *)
Definition backend_Update (t : Backends) (now : Z) (orgID id : string) (description creds : option string)
    (defaultB fallbackB : option bool) (maxBytes : option Z) : result Backend * Backends :=
  match update_checks t orgID id defaultB fallbackB maxBytes with
  | Err e => (Err e, t)
  | Ok (org, u, before) =>
      match (match creds with
             | Some c => map_err (EWrap "storing the credentials") (SaveCredentials orgID c (existing_secret before))
             | None => Ok ""
             end) with
      | Err e => (Err e, t)
      | Ok secretName =>
          let rotated := bool_decide (is_Some creds) in
          match repo_Update t
                  {| bu_ID := u; bu_OrgID := org; bu_Secret := secretName; bu_Description := description;
                     bu_Default := defaultB; bu_Fallback := fallbackB;
                     bu_Status := if rotated then None else Some (cb_status before);
                     bu_Error := if rotated then None else cb_error before; bu_MaxBytes := maxBytes |} with
          | Err e => (Err e, t)
          | Ok (after, t1) =>
              let t2 := if rotated then snd (PerformValidation t1 id now) else t1 in
              match (if rotated then backend_FindByIDInOrg t2 org u else after) with
              | None => (Err (panic "nil dereference"), t2)
              | Some after =>
                  if cb_default before && negb (cb_default after) then
                    match promoteNextAvailableBackend t2 orgID (Some u) with
                    | Err e => (Err (EWrap "promoting next available backend to default" e), t2)
                    | Ok t3 => (Ok after, t3)
                    end
                  else (Ok after, t2)
              end
          end
      end
  end.

(** [CreateOrUpdate], deprecated; the credentials are valid *)
Definition CreateOrUpdate (t : Backends) (id : UUID) (now : Z) (orgID name creds provider : string) (defaultB : bool)
    : result Backends :=
  org ← parse_uuid orgID;
  secretName ← map_err (EWrap "storing the credentials") (SaveCredentials orgID creds None);
  b ← map_err (EWrap "checking for existing CAS backends") (repo_FindDefaultBackend t org);
  let create := r ← repo_Create t id now
       {| bc_OrgID := org; bc_Name := ""; bc_Location := name; bc_Secret := secretName; bc_Description := None;
          bc_Provider := provider; bc_Default := Some defaultB; bc_Fallback := None; bc_Managed := None; bc_MaxBytes := 0 |};
     Ok r.2 in
  match b with
  | Some (bid, row) =>
      if bool_decide (cb_provider row = provider) then
        r ← repo_Update t
              {| bu_ID := bid; bu_OrgID := uuid_Nil; bu_Secret := secretName; bu_Description := None;
                 bu_Default := Some defaultB; bu_Fallback := None; bu_Status := None; bu_Error := None; bu_MaxBytes := None |};
        Ok r.2
      else create
  | None => create
  end.

(** [CASBackendUseCase.SoftDelete]: the backend stays deleted when promoting fails *)
Definition backend_SoftDelete (t : Backends) (orgID id : string) : result unit * Backends :=
  match (org ← parse_uuid orgID; u ← parse_uuid id;
         b ← match backend_FindByIDInOrg t org u with Some b => Ok b | None => Err (NewErrNotFound "CAS Backend") end;
         _ ← guard_err (is_inline b) (NewErrValidationStr "can't delete the inline CAS backend");
         _ ← guard_err (cb_managed b) (NewErrValidationStr "can't delete a managed CAS backend");
         t1 ← repo_SoftDelete t u; Ok (b, t1)) with
  | Err e => (Err e, t)
  | Ok (b, t1) =>
      if cb_default b then
        match promoteNextAvailableBackend t1 orgID None with
        | Err e => (Err (EWrap "promoting next available backend to default" e), t1)
        | Ok t2 => (Ok tt, t2)
        end
      else (Ok tt, t1)
  end.

(** [CASBackendUseCase.Delete]; the secret is deleted too, and failing to do so is logged *)
Definition backend_Delete (t : Backends) (id : string) : result Backends :=
  u ← parse_uuid id;
  _ ← match backend_FindByID t u with Some b => Ok b | None => Err (NewErrNotFound "CAS Backend") end;
  repo_Delete t u.
End UseCase.

(** ** The invariant of the table *)

(** No other live backend of the organization has the flag *)
Definition others_free (P : Backend -> bool) (t : Backends) (org id : UUID) : Prop :=
  forall j c, j <> id -> t !! j = Some c -> cb_deleted c = false -> cb_organization c = org -> P c = false.

(** At most one live backend of an organization has the flag *)
Definition unique_live (P : Backend -> bool) (t : Backends) : Prop :=
  forall i b, t !! i = Some b -> cb_deleted b = false -> P b = true -> others_free P t (cb_organization b) i.

(** At most one default and one fallback per organization, and never the same one *)
Record backends_ok (t : Backends) : Prop := {
  ok_default : unique_live cb_default t;
  ok_fallback : unique_live cb_fallback t;
  ok_exclusive : map_Forall (fun _ b => cb_default b && cb_fallback b = false) t
}.

(** A row that only lost flags, or was deleted *)
Record weaker (b b' : Backend) : Prop := {
  wk_organization : cb_organization b' = cb_organization b;
  wk_default : cb_default b' = true -> cb_default b = true;
  wk_fallback : cb_fallback b' = true -> cb_fallback b = true;
  wk_deleted : cb_deleted b' = false -> cb_deleted b = false
}.

Definition weakens (t t' : Backends) : Prop :=
  forall i b', t' !! i = Some b' -> exists b, t !! i = Some b /\ weaker b b'.

#[local] Instance weaker_refl : Reflexive weaker.
Proof. by intros b. Qed.

#[local] Instance weakens_refl : Reflexive weakens.
Proof. intros t i b Hb. by exists b. Qed.

#[local] Instance weakens_trans : Transitive weakens.
Proof.
  intros t1 t2 t3 H12 H23 i b3 Hb3. destruct (H23 i b3 Hb3) as (b2 & Hb2 & [O2 D2 F2 L2]).
  destruct (H12 i b2 Hb2) as (b1 & Hb1 & [O1 D1 F1 L1]). exists b1. split; [done|]. constructor; [congruence|auto..].
Qed.

Lemma weakens_fmap f t : (forall b, weaker b (f b)) -> weakens t (f <$> t).
Proof.
  intros Hf i b'. rewrite lookup_fmap. destruct (t !! i) as [b|] eqn:Hb; [|done]. intros [= <-]. by exists b.
Qed.

Lemma weakens_insert t i b b' : t !! i = Some b -> weaker b b' -> weakens t (<[i := b']> t).
Proof. intros Hb Hw j c. rewrite lookup_insert_Some. intros [[<- <-]|[_ Hc]]; [by exists b|by exists c]. Qed.

Lemma weakens_delete t i : weakens t (delete i t).
Proof. intros j c. rewrite lookup_delete_Some. intros [_ Hc]. by exists c. Qed.

Lemma clear_default_weakens org t : weakens t (clear_default org t).
Proof. apply weakens_fmap. intros b. case_match; [|done]. by constructor. Qed.

Lemma clear_fallback_weakens org t : weakens t (clear_fallback org t).
Proof. apply weakens_fmap. intros b. case_match; [|done]. by constructor. Qed.

Lemma others_free_weakens (P : Backend -> bool) t t' org id :
  (forall b b', weaker b b' -> P b' = true -> P b = true) ->
  weakens t t' -> others_free P t org id -> others_free P t' org id.
Proof.
  intros HP Hw Ho j c Hj Hc Hl Horg. destruct (Hw j c Hc) as (b & Hb & Hbc). apply not_true_iff_false. intros Hp.
  pose proof (Ho j b Hj Hb (wk_deleted _ _ Hbc Hl)) as Hf. rewrite (HP _ _ Hbc Hp) in Hf.
  assert (cb_organization b = org) as Hbo by (rewrite <-(wk_organization _ _ Hbc); done). by specialize (Hf Hbo).
Qed.

Lemma unique_weakens (P : Backend -> bool) t t' :
  (forall b b', weaker b b' -> P b' = true -> P b = true) -> weakens t t' -> unique_live P t -> unique_live P t'.
Proof.
  intros HP Hw Hu i b' Hb' Hl Hp. destruct (Hw i b' Hb') as (b & Hb & Hbb). rewrite (wk_organization _ _ Hbb).
  apply (others_free_weakens P t); [done|done|]. apply Hu; [done| |by eapply HP]. by apply (wk_deleted _ _ Hbb).
Qed.

Lemma ok_weakens t t' : weakens t t' -> backends_ok t -> backends_ok t'.
Proof.
  intros Hw [Hd Hf He]. constructor.
  - apply (unique_weakens _ t); [|done|done]. intros b b' Hbb. apply Hbb.
  - apply (unique_weakens _ t); [|done|done]. intros b b' Hbb. apply Hbb.
  - intros i b' Hb'. destruct (Hw i b' Hb') as (b & Hb & Hbb). specialize (He i b Hb). cbn in He.
    destruct (cb_default b') eqn:E1; [|done]. destruct (cb_fallback b') eqn:E2; [|done].
    by rewrite (wk_default _ _ Hbb E1), (wk_fallback _ _ Hbb E2) in He.
Qed.

Lemma unique_insert (P : Backend -> bool) t id row :
  unique_live P t -> (P row = true -> cb_deleted row = false -> others_free P t (cb_organization row) id) ->
  unique_live P (<[id := row]> t).
Proof.
  intros Hu Hrow i b Hb Hl Hp j c Hj Hc Hlc Horg. apply lookup_insert_Some in Hb as [[<- <-]|[Hi Hb]].
  - rewrite lookup_insert_ne in Hc by done. by apply (Hrow Hp Hl j c).
  - apply lookup_insert_Some in Hc as [[-> <-]|[Hjd Hc]]; [|by apply (Hu i b Hb Hl Hp j c)].
    apply not_true_iff_false. intros Hpr. by rewrite (Hrow Hpr Hlc i b (not_eq_sym Hi) Hb Hl (eq_sym Horg)) in Hp.
Qed.

Lemma ok_insert t id row :
  backends_ok t -> cb_default row && cb_fallback row = false ->
  (cb_default row = true -> cb_deleted row = false -> others_free cb_default t (cb_organization row) id) ->
  (cb_fallback row = true -> cb_deleted row = false -> others_free cb_fallback t (cb_organization row) id) ->
  backends_ok (<[id := row]> t).
Proof.
  intros [Hd Hf He] Hrow Hdef Hfb. constructor.
  - by apply unique_insert.
  - by apply unique_insert.
  - by apply map_Forall_insert_2.
Qed.

Lemma clear_default_free org t id : others_free cb_default (clear_default org t) org id.
Proof.
  intros j c _ Hc _ Horg. unfold clear_default in Hc. rewrite lookup_fmap in Hc.
  destruct (t !! j) as [b|]; [|done]. injection Hc as <-. revert Horg. case_match eqn:E; [done|]. intros Horg.
  rewrite bool_decide_eq_true_2 in E by done. done.
Qed.

Lemma clear_fallback_free org t id : others_free cb_fallback (clear_fallback org t) org id.
Proof.
  intros j c _ Hc _ Horg. unfold clear_fallback in Hc. rewrite lookup_fmap in Hc.
  destruct (t !! j) as [b|]; [|done]. injection Hc as <-. revert Horg. case_match eqn:E; [done|]. intros Horg.
  rewrite bool_decide_eq_true_2 in E by done. done.
Qed.

(** What clearing the flags that a new row claims does *)
Definition cleared (def fb : bool) (org : UUID) (t : Backends) : Backends :=
  let t := if def then clear_default org t else t in if fb then clear_fallback org t else t.

Lemma cleared_weakens def fb org t : weakens t (cleared def fb org t).
Proof.
  unfold cleared. transitivity (if def then clear_default org t else t).
  - destruct def; [apply clear_default_weakens|done].
  - destruct fb; [apply clear_fallback_weakens|done].
Qed.

Lemma cleared_default def fb org t id : def = true -> others_free cb_default (cleared def fb org t) org id.
Proof.
  intros ->. unfold cleared. destruct fb; [|apply clear_default_free].
  apply (others_free_weakens _ (clear_default org t)); [by intros b b' Hw; apply Hw|apply clear_fallback_weakens|].
  apply clear_default_free.
Qed.

Lemma cleared_fallback def fb org t id : fb = true -> others_free cb_fallback (cleared def fb org t) org id.
Proof. intros ->. apply clear_fallback_free. Qed.

(** ** Every operation keeps it *)

Lemma repo_Create_ok t id now o row t' : backends_ok t -> repo_Create t id now o = Ok (row, t') -> backends_ok t'.
Proof.
  intros Hok. unfold repo_Create. intros Hc. apply bind_Ok in Hc as ([] & Hboth%guard_err_Ok & Hc).
  apply bind_Ok in Hc as ([] & _ & Hc). injection Hc as <- <-.
  fold (cleared (is_true (bc_Default o)) (is_true (bc_Fallback o)) (bc_OrgID o) t).
  apply ok_insert; cbn.
  - by apply (ok_weakens t), Hok; apply cleared_weakens.
  - done.
  - intros Hd _. by apply cleared_default.
  - intros Hf _. by apply cleared_fallback.
Qed.

Lemma repo_Update_Ok t o r t' :
  repo_Update t o = Ok (r, t') ->
  exists b0 b, t !! bu_ID o = Some b0 /\ weaker b0 b
    /\ cleared (is_true (bu_Default o)) (is_true (bu_Fallback o)) (bu_OrgID o) t !! bu_ID o = Some b
    /\ t' = <[bu_ID o := update_row o b]> (cleared (is_true (bu_Default o)) (is_true (bu_Fallback o)) (bu_OrgID o) t)
    /\ r = backend_FindByID t' (bu_ID o).
Proof.
  unfold repo_Update. fold (cleared (is_true (bu_Default o)) (is_true (bu_Fallback o)) (bu_OrgID o) t).
  destruct (cleared _ _ _ t !! bu_ID o) as [b|] eqn:Hb; [|done]. intros [= <- <-].
  destruct (cleared_weakens _ _ _ _ _ _ Hb) as (b0 & Hb0 & Hw). by exists b0, b.
Qed.

Lemma update_row_exclusive o b : cb_default b && cb_fallback b = false ->
  cb_default (update_row o b) && cb_fallback (update_row o b) = false.
Proof. intros Hb. cbn. by destruct (bu_Default o) as [[]|], (bu_Fallback o) as [[]|], (cb_default b), (cb_fallback b). Qed.

(** An update keeps the invariant when the flags that it sets are cleared in the
    organization of the row, or free there *)
Lemma repo_Update_ok t o r t' :
  backends_ok t -> repo_Update t o = Ok (r, t') ->
  (forall b, t !! bu_ID o = Some b ->
     (is_true (bu_Default o) = true -> bu_OrgID o = cb_organization b \/ others_free cb_default t (cb_organization b) (bu_ID o))
     /\ (is_true (bu_Fallback o) = true -> bu_OrgID o = cb_organization b)) ->
  backends_ok t'.
Proof.
  intros Hok (b0 & b & Hb0 & Hw & Hb & -> & _)%repo_Update_Ok Hfree. destruct (Hfree b0 Hb0) as [Hd Hf].
  set (t1 := cleared _ _ _ t) in *. assert (weakens t t1) as Hw1 by apply cleared_weakens.
  assert (backends_ok t1) as Hok1 by by apply (ok_weakens t). rewrite <-(wk_organization _ _ Hw) in Hd, Hf.
  apply ok_insert; [done| | |].
  - apply update_row_exclusive. by apply (ok_exclusive _ Hok1 (bu_ID o)).
  - cbn. intros Hdef Hl. destruct (is_true (bu_Default o)) eqn:E.
    + destruct (Hd eq_refl) as [Ho|Ho].
      * rewrite <-Ho. by apply cleared_default.
      * apply (others_free_weakens _ t); [by intros x y Hxy; apply Hxy|done|done].
    + apply (ok_default _ Hok1 (bu_ID o) b); [done|done|].
      destruct (bu_Default o) as [[]|]; [done| |]; by destruct (is_true (bu_Fallback o)).
  - cbn. intros Hfb Hl. destruct (is_true (bu_Fallback o)) eqn:E.
    + rewrite <-(Hf eq_refl). by apply cleared_fallback.
    + apply (ok_fallback _ Hok1 (bu_ID o) b); [done|done|].
      destruct (bu_Fallback o) as [[]|]; [done|done|]. cbn in Hfb. by destruct (is_true (bu_Default o)).
Qed.

Lemma only_live_Some t org P id b : only_live t org P = Ok (Some (id, b)) -> t !! id = Some b /\ live_in org P b = true.
Proof.
  unfold only_live. destruct (List.filter _ _) as [|x [|]] eqn:E; [done| |done]. intros [= ->].
  assert (In (id, b) (List.filter (fun kv => live_in org P kv.2) (map_to_list t))) as Hin by (rewrite E; by left).
  apply filter_In in Hin as [Hin Hp]. split; [|done]. by apply elem_of_map_to_list, list_elem_of_In.
Qed.

Lemma live_in_true org P b : live_in org P b = true <-> cb_organization b = org /\ cb_deleted b = false /\ P b = true.
Proof. unfold live_in. rewrite !andb_true_iff, bool_decide_eq_true, negb_true_iff. tauto. Qed.

Lemma candidate_of_Some ex b x : candidate_of ex b = Some x -> b = Some x /\ ex <> Some x.1.
Proof. destruct b as [b|]; cbn; [|done]. case_bool_decide; [done|]. by intros [= <-]. Qed.

(** A candidate is a live backend of the organization, and not the excluded one *)
Lemma findPromotionCandidate_Some t org ex id b :
  findPromotionCandidate t org ex = Ok (Some (id, b)) ->
  t !! id = Some b /\ cb_organization b = org /\ cb_deleted b = false /\ ex <> Some id.
Proof.
  unfold findPromotionCandidate. intros Hf. apply bind_Ok in Hf as (fb & Hfb & Hf).
  assert (forall P x, only_live t org P = Ok x -> candidate_of ex x = Some (id, b) ->
    t !! id = Some b /\ cb_organization b = org /\ cb_deleted b = false /\ ex <> Some id) as Hgo.
  { intros P x Hx [-> Hex]%candidate_of_Some. apply only_live_Some in Hx as [Hb (Ho & Hl & _)%live_in_true]. done. }
  destruct (candidate_of ex fb) as [x|] eqn:E1; [injection Hf as ->; by eapply Hgo|].
  apply bind_Ok in Hf as (mg & Hmg & Hf). destruct (candidate_of ex mg) as [x|] eqn:E2; [injection Hf as ->; by eapply Hgo|].
  apply bind_Ok in Hf as (il & Hil & Hf). injection Hf as Hf. by eapply Hgo.
Qed.

Definition no_default (t : Backends) (org : UUID) : Prop :=
  forall j c, t !! j = Some c -> cb_deleted c = false -> cb_organization c = org -> cb_default c = false.

Lemma promote_ok `{UuidLib} t orgID org ex t' :
  backends_ok t -> uuid_Parse orgID = Some org -> no_default t org ->
  promoteNextAvailableBackend t orgID ex = Ok t' -> backends_ok t'.
Proof.
  intros Hok Horg Hno Hp. unfold promoteNextAvailableBackend in Hp. apply bind_Ok in Hp as (org' & Ho%parse_uuid_Ok & Hp).
  assert (org' = org) as -> by congruence. apply bind_Ok in Hp as ([[id b]|] & Hc & Hp); [|by injection Hp as <-].
  apply findPromotionCandidate_Some in Hc as (Hb & Hbo & _). apply bind_Ok in Hp as ([r t1] & Hu & [= <-]).
  apply (repo_Update_ok _ _ _ _ Hok Hu). cbn. intros b' Hb'. assert (b' = b) as -> by congruence. split; [|done].
  intros _. right. intros j c _ Hj Hl Hjo. apply (Hno j c Hj Hl). congruence.
Qed.

Lemma validation_weakens `{UuidLib} `{Secrets} t id now : weakens t (snd (PerformValidation t id now)).
Proof.
  unfold PerformValidation. destruct (parse_uuid id) as [u|]; [|done]. destruct (backend_FindByID t u) as [b|]; [|done].
  destruct (is_inline b); [done|]. destruct (negb _); [done|]. destruct (validation b) as [status err]. cbn [snd].
  unfold repo_UpdateValidationStatus. destruct (t !! u) as [b'|] eqn:Hb'; [|done].
  by apply (weakens_insert _ _ b').
Qed.

Lemma FindByIDInOrg_Some t org u b :
  backend_FindByIDInOrg t org u = Some b <-> t !! u = Some b /\ cb_deleted b = false /\ cb_organization b = org.
Proof.
  unfold backend_FindByIDInOrg, backend_FindByID. destruct (t !! u) as [c|]; cbn; [|naive_solver].
  destruct (cb_deleted c) eqn:E; cbn; [naive_solver congruence|]. case_bool_decide; naive_solver congruence.
Qed.

Lemma update_checks_Ok `{UuidLib} t orgID id def fb mb org u before :
  update_checks t orgID id def fb mb = Ok (org, u, before) ->
  uuid_Parse orgID = Some org /\ uuid_Parse id = Some u
  /\ t !! u = Some before /\ cb_deleted before = false /\ cb_organization before = org.
Proof.
  unfold update_checks. intros Hc. apply bind_Ok in Hc as (o & Ho%parse_uuid_Ok & Hc).
  apply bind_Ok in Hc as (i & Hi%parse_uuid_Ok & Hc). apply bind_Ok in Hc as (b & Hb & Hc).
  do 4 (apply bind_Ok in Hc as ([] & _ & Hc)). injection Hc as -> -> ->.
  destruct (backend_FindByIDInOrg t org u) as [b'|] eqn:Hf; [|done]. injection Hb as ->.
  apply FindByIDInOrg_Some in Hf. done.
Qed.

(** Once the only default of an organization has lost the flag, or its row, there is none *)
Lemma demoted_no_default t t' org u before :
  backends_ok t -> t !! u = Some before -> cb_deleted before = false -> cb_organization before = org ->
  cb_default before = true ->
  (forall j c, j <> u -> t' !! j = Some c -> exists b, t !! j = Some b /\ weaker b c) ->
  (forall c, t' !! u = Some c -> cb_deleted c = false -> cb_default c = false) -> no_default t' org.
Proof.
  intros Hok Hu Hl Ho Hd Hothers Hself j c Hj Hlc Hco. destruct (decide (j = u)) as [->|Hne]; [by apply Hself|].
  destruct (Hothers j c Hne Hj) as (b & Hb & Hw). apply not_true_iff_false. intros Hdc.
  pose proof (ok_default _ Hok u before Hu Hl Hd j b Hne Hb (wk_deleted _ _ Hw Hlc)) as Hf.
  rewrite (wk_default _ _ Hw Hdc) in Hf. assert (cb_organization b = cb_organization before) as E
    by (rewrite <-(wk_organization _ _ Hw); congruence). by specialize (Hf E).
Qed.

Lemma deleted_no_default t u b :
  backends_ok t -> t !! u = Some b -> cb_deleted b = false -> cb_default b = true ->
  no_default (<[u := set_deleted b]> t) (cb_organization b).
Proof.
  intros Hok Hu Hl Hd. apply (demoted_no_default t _ _ u b); [done..| |].
  - intros j c Hj. rewrite lookup_insert_ne by done. intros Hc. by exists c.
  - intros c. rewrite lookup_insert_eq. by intros [= <-].
Qed.

Section Steps.
Context `{UuidLib} `{Secrets} (valid_name : string -> result unit) (max_default : Z).

Lemma backend_SoftDelete_ok t orgID id r t' : backends_ok t -> backend_SoftDelete t orgID id = (r, t') -> backends_ok t'.
Proof.
  intros Hok. unfold backend_SoftDelete.
  destruct (parse_uuid orgID) as [org|] eqn:Horg; [|by intros [= <- <-]].
  destruct (parse_uuid id) as [u|]; [|by intros [= <- <-]]. cbn [mbind result_bind].
  destruct (backend_FindByIDInOrg t org u) as [b|] eqn:Hf; [|by intros [= <- <-]]. cbn [mbind result_bind].
  unfold guard_err. destruct (is_inline b); [by intros [= <- <-]|]. destruct (cb_managed b); [by intros [= <- <-]|].
  cbn [mbind result_bind]. apply FindByIDInOrg_Some in Hf as (Hu & Hl & Ho). unfold repo_SoftDelete. rewrite Hu.
  cbn [mbind result_bind]. apply parse_uuid_Ok in Horg.
  assert (weakens t (<[u:=set_deleted b]> t)) as Hw by (apply (weakens_insert _ _ b); [done|by constructor]).
  destruct (cb_default b) eqn:Hd; [|intros [= <- <-]; by apply (ok_weakens t)].
  destruct (promoteNextAvailableBackend _ orgID None) as [t2|] eqn:Hp; intros [= <- <-]; [|by apply (ok_weakens t)].
  apply (promote_ok _ _ org _ _ (ok_weakens _ _ Hw Hok) Horg) in Hp; [done|].
  rewrite <-Ho. by apply deleted_no_default.
Qed.

Lemma backend_Update_ok t now orgID id desc creds def fb mb r t' :
  backends_ok t -> backend_Update t now orgID id desc creds def fb mb = (r, t') -> backends_ok t'.
Proof.
  intros Hok. unfold backend_Update.
  destruct (update_checks _ _ _ _ _ _) as [[[org u] before]|] eqn:Hc; [|by intros [= <- <-]].
  apply update_checks_Ok in Hc as (Horg & Hid & Hu & Hl & Ho).
  destruct (match creds with Some _ => _ | None => _ end) as [secret|]; [|by intros [= <- <-]].
  destruct (repo_Update _ _) as [[after t1]|] eqn:Hup; [|by intros [= <- <-]]. cbn zeta.
  assert (backends_ok t1) as Hok1.
  { apply (repo_Update_ok _ _ _ _ Hok Hup). cbn. intros b Hb. assert (b = before) as -> by congruence.
    split; [left; congruence|congruence]. }
  set (t2 := if bool_decide (is_Some creds) then snd (PerformValidation t1 id now) else t1).
  assert (weakens t1 t2) as Hw2 by (unfold t2; case_bool_decide; [apply validation_weakens|done]).
  assert (backends_ok t2) as Hok2 by by apply (ok_weakens t1).
  destruct (if bool_decide (is_Some creds) then _ else after) as [aft|] eqn:Haft; [|by intros [= <- <-]].
  destruct (cb_default before && negb (cb_default aft)) eqn:Hdem; [|by intros [= <- <-]]. split_bool.
  destruct (promoteNextAvailableBackend _ _ _) as [t3|] eqn:Hp; intros [= <- <-]; [|done].
  apply (promote_ok _ _ org _ _ Hok2 Horg) in Hp; [done|].
  apply repo_Update_Ok in Hup as (b0 & b & Hb0 & Hwb & Hb & Ht1 & Hr). cbn [bu_ID] in *.
  apply (demoted_no_default t _ org u before); try done.
  - intros j c Hj Hcj. destruct (Hw2 j c Hcj) as (c1 & Hc1 & Hwc). rewrite Ht1, lookup_insert_ne in Hc1 by done.
    destruct (cleared_weakens _ _ _ _ _ _ Hc1) as (c0 & Hc0 & Hw0). exists c0. split; [done|].
    destruct Hw0, Hwc. constructor; [congruence|auto..].
  - intros c Hcu Hcl. enough (c = aft) as -> by done. destruct (bool_decide (is_Some creds)).
    + apply FindByIDInOrg_Some in Haft as (Ha & _). congruence.
    + rewrite Haft in Hr. unfold backend_FindByID in Hr. unfold t2 in Hcu. rewrite Hcu in Hr. cbn in Hr.
      rewrite Hcl in Hr. congruence.
Qed.

(** What the control plane does to the table *)
Inductive backend_step (t : Backends) : Backends -> Prop :=
| bs_create id now orgID name loc desc prov creds def fb mb b t' :
    backend_Create valid_name max_default t id now orgID name loc desc prov creds def fb mb = Ok (b, t') -> backend_step t t'
| bs_inline id now orgID b t' : CreateInlineBackend t id now orgID = Ok (b, t') -> backend_step t t'
| bs_update now orgID id desc creds def fb mb r t' :
    backend_Update t now orgID id desc creds def fb mb = (r, t') -> backend_step t t'
| bs_create_or_update id now orgID name creds prov def t' :
    CreateOrUpdate t id now orgID name creds prov def = Ok t' -> backend_step t t'
| bs_soft_delete orgID id r t' : backend_SoftDelete t orgID id = (r, t') -> backend_step t t'
| bs_delete id t' : backend_Delete t id = Ok t' -> backend_step t t'
| bs_validate id now r t' : PerformValidation t id now = (r, t') -> backend_step t t'.

Lemma CreateOrUpdate_ok t id now orgID name creds prov def t' :
  backends_ok t -> CreateOrUpdate t id now orgID name creds prov def = Ok t' -> backends_ok t'.
Proof.
  intros Hok. unfold CreateOrUpdate. intros Hc. apply bind_Ok in Hc as (org & _ & Hc). apply bind_Ok in Hc as (secret & _ & Hc).
  apply bind_Ok in Hc as ([[bid row]|] & Hf%map_err_Ok & Hc).
  - case_bool_decide.
    + apply bind_Ok in Hc as ([r t1] & Hu & [= <-]). apply (repo_Update_ok _ _ _ _ Hok Hu). cbn. intros b Hb.
      apply only_live_Some in Hf as [Hrow (Ho & Hl & Hd)%live_in_true]. assert (b = row) as -> by congruence.
      split; [|done]. intros _. right. by apply (ok_default _ Hok bid row).
    + apply bind_Ok in Hc as ([r t1] & Hr & [= <-]). by eapply repo_Create_ok.
  - apply bind_Ok in Hc as ([r t1] & Hr & [= <-]). by eapply repo_Create_ok.
Qed.

Lemma backend_step_ok t t' : backends_ok t -> backend_step t t' -> backends_ok t'.
Proof.
  intros Hok. destruct 1 as [? ? ? ? ? ? ? ? ? ? ? ? ? Hs|? ? ? ? ? Hs|? ? ? ? ? ? ? ? ? ? Hs|? ? ? ? ? ? ? ? Hs|? ? ? ? Hs|? ? Hs|? ? ? ? Hs].
  - unfold backend_Create in Hs. do 2 (apply bind_Ok in Hs as ([] & _ & Hs)). apply bind_Ok in Hs as (org & _ & Hs).
    do 2 (apply bind_Ok in Hs as ([] & _ & Hs)). apply bind_Ok in Hs as (secret & _ & Hs). apply map_err_Ok in Hs.
    by eapply repo_Create_ok.
  - unfold CreateInlineBackend in Hs. apply bind_Ok in Hs as (org & _ & Hs). by eapply repo_Create_ok.
  - by eapply backend_Update_ok.
  - by eapply CreateOrUpdate_ok.
  - by eapply backend_SoftDelete_ok.
  - unfold backend_Delete in Hs. apply bind_Ok in Hs as (u & _ & Hs). apply bind_Ok in Hs as (b & _ & Hs).
    unfold repo_Delete in Hs. destruct (t !! u); [|done]. injection Hs as <-.
    apply (ok_weakens t); [apply weakens_delete|done].
  - pose proof (validation_weakens t id now) as Hw. rewrite Hs in Hw. by apply (ok_weakens t).
Qed.
End Steps.

(** ** The successor of a default *)

(** How much a backend deserves to be the default *)
Definition rank (b : Backend) : Z := if cb_fallback b then 3 else if cb_managed b then 2 else if is_inline b then 1 else 0.

(** The live backend of the organization with the highest rank, when one has any *)
Definition best_ranked (t : Backends) (org : UUID) (r : option (UUID * Backend)) : Prop :=
  match r with
  | Some (id, b) => t !! id = Some b /\ cb_organization b = org /\ cb_deleted b = false /\ 0 < rank b
      /\ forall j c, t !! j = Some c -> cb_organization c = org -> cb_deleted c = false -> rank c <= rank b
  | None => forall j c, t !! j = Some c -> cb_organization c = org -> cb_deleted c = false -> rank c = 0
  end.

Lemma only_live_None t org P j c :
  only_live t org P = Ok None -> t !! j = Some c -> cb_organization c = org -> cb_deleted c = false -> P c = false.
Proof.
  unfold only_live. destruct (List.filter _ _) as [|x [|]] eqn:E; [|done|done]. intros _ Hj Ho Hl.
  apply not_true_iff_false. intros Hp.
  assert (In (j, c) (List.filter (fun kv => live_in org P kv.2) (map_to_list t))) as Hin; [|by rewrite E in Hin].
  apply filter_In. split; [by apply list_elem_of_In, elem_of_map_to_list|]. by apply live_in_true.
Qed.

(** The only row that fits is the one found *)
Lemma only_live_unique t org P id b :
  t !! id = Some b -> live_in org P b = true -> (forall j c, j <> id -> t !! j = Some c -> live_in org P c = false) ->
  only_live t org P = Ok (Some (id, b)).
Proof.
  intros Hb Hp Ho. unfold only_live. set (l := List.filter _ _).
  assert (forall x, In x l <-> x = (id, b)) as Hl.
  { intros [j c]. unfold l. rewrite filter_In, <-list_elem_of_In, elem_of_map_to_list. cbn. split.
    - intros [Hj Hc]. destruct (decide (j = id)) as [->|Hne]; [congruence|]. by rewrite (Ho j c Hne Hj) in Hc.
    - by intros [= -> ->]. }
  assert (List.NoDup l) as Hnd by (apply List.NoDup_filter, NoDup_ListNoDup, NoDup_map_to_list).
  destruct l as [|x [|y l]].
  - by destruct (proj2 (Hl (id, b)) eq_refl).
  - f_equal. f_equal. apply Hl. by left.
  - exfalso. assert (x = y) as -> by (trans (id, b); [|symmetry]; apply Hl; cbn; auto). inversion Hnd as [|? ? Hy]. apply Hy. by left.
Qed.

(** With nothing excluded, the candidate is the one of the highest rank *)
Lemma findPromotionCandidate_best t org r : findPromotionCandidate t org None = Ok r -> best_ranked t org r.
Proof.
  unfold findPromotionCandidate. intros Hf. apply bind_Ok in Hf as (fb & Hfb & Hf).
  destruct fb as [[i b]|]; cbn [candidate_of] in Hf.
  { injection Hf as <-. apply only_live_Some in Hfb as [Hb (Ho & Hl & Hp)%live_in_true].
    assert (rank b = 3) as Hr by (unfold rank; by rewrite Hp). repeat split; [done..|lia|].
    intros j c _ _ _. rewrite Hr. unfold rank. repeat case_match; lia. }
  apply bind_Ok in Hf as (mg & Hmg & Hf). destruct mg as [[i b]|]; cbn [candidate_of] in Hf.
  { injection Hf as <-. apply only_live_Some in Hmg as [Hb (Ho & Hl & Hp)%live_in_true].
    assert (rank b = 2) as Hr by (unfold rank; by rewrite (only_live_None _ _ _ _ _ Hfb Hb Ho Hl), Hp).
    repeat split; [done..|lia|]. intros j c Hj Hjo Hjl. rewrite Hr. unfold rank.
    rewrite (only_live_None _ _ _ _ _ Hfb Hj Hjo Hjl). repeat case_match; lia. }
  apply bind_Ok in Hf as (il & Hil & Hf). injection Hf as <-. destruct il as [[i b]|]; cbn [candidate_of].
  - apply only_live_Some in Hil as [Hb (Ho & Hl & Hp)%live_in_true].
    assert (forall j c, t !! j = Some c -> cb_organization c = org -> cb_deleted c = false -> rank c <= 1) as Hle.
    { intros j c Hj Hjo Hjl. unfold rank.
      rewrite (only_live_None _ _ _ _ _ Hfb Hj Hjo Hjl), (only_live_None _ _ _ _ _ Hmg Hj Hjo Hjl). case_match; lia. }
    assert (rank b = 1) as Hr by (unfold rank;
      by rewrite (only_live_None _ _ _ _ _ Hfb Hb Ho Hl), (only_live_None _ _ _ _ _ Hmg Hb Ho Hl), Hp).
    repeat split; [done..|lia|]. intros. rewrite Hr. eauto.
  - intros j c Hj Hjo Hjl. unfold rank. by rewrite (only_live_None _ _ _ _ _ Hfb Hj Hjo Hjl),
      (only_live_None _ _ _ _ _ Hmg Hj Hjo Hjl), (only_live_None _ _ _ _ _ Hil Hj Hjo Hjl).
Qed.

(** Promoting in an organization with no default makes the candidate the only default *)
Lemma promote_default t org i b t' r :
  no_default t org -> t !! i = Some b -> cb_organization b = org -> cb_deleted b = false ->
  repo_Update t (promote_opts i) = Ok (r, t') ->
  repo_FindDefaultBackend t' org = Ok (Some (i, set_flags true false b)).
Proof.
  intros Hno Hb Ho Hl (b0 & b1 & Hb0 & _ & Hb1 & -> & _)%repo_Update_Ok. cbn [bu_ID promote_opts] in *.
  assert (b0 = b) as -> by congruence. cbn [is_true bu_Default bu_Fallback bu_OrgID promote_opts cleared] in *.
  unfold clear_default in *. rewrite lookup_fmap, Hb in Hb1. cbn [fmap option_fmap option_map] in Hb1.
  rewrite (Hno i b Hb Hl Ho), andb_false_r in Hb1. injection Hb1 as <-.
  apply only_live_unique.
  - rewrite lookup_insert_eq. reflexivity.
  - apply live_in_true. by destruct b.
  - intros j c Hj Hc. rewrite lookup_insert_ne in Hc by done. rewrite lookup_fmap in Hc.
    destruct (t !! j) as [c0|] eqn:Hc0; [|done]. injection Hc as <-. apply not_true_iff_false.
    intros (Hco & Hcl & Hcd)%live_in_true. case_match; [done|]. rewrite (Hno j c0 Hc0) in Hcd; done.
Qed.

Lemma no_default_None t org : no_default t org -> repo_FindDefaultBackend t org = Ok None.
Proof.
  intros Hno. unfold repo_FindDefaultBackend, only_live. destruct (List.filter _ _) as [|[j c] l] eqn:E; [done|].
  assert (In (j, c) (List.filter (fun kv => live_in org cb_default kv.2) (map_to_list t))) as Hin by (rewrite E; by left).
  apply filter_In in Hin as [Hj (Ho & Hl & Hd)%live_in_true]. apply list_elem_of_In, elem_of_map_to_list in Hj.
  cbn in *. by rewrite (Hno j c Hj Hl Ho) in Hd.
Qed.

(** What promoting does in an organization with no default *)
Lemma promote_spec `{UuidLib} t orgID org t' :
  uuid_Parse orgID = Some org -> no_default t org -> promoteNextAvailableBackend t orgID None = Ok t' ->
  exists r, best_ranked t org r /\ repo_FindDefaultBackend t' org = Ok (prod_map Datatypes.id (set_flags true false) <$> r).
Proof.
  intros Horg Hno Hp. unfold promoteNextAvailableBackend, parse_uuid in Hp. rewrite Horg in Hp. cbn [mbind result_bind] in Hp.
  apply bind_Ok in Hp as (r & Hr & Hp). exists r. apply findPromotionCandidate_best in Hr as Hbest. split; [done|].
  destruct r as [[j c]|]; [|injection Hp as <-; by apply no_default_None].
  apply bind_Ok in Hp as ([r t2] & Hu & [= <-]). destruct Hbest as (Hj & Ho & Hl & _). by eapply promote_default.
Qed.

(** Deleting a backend that could not be a successor changes no successor *)
Lemma best_ranked_deleted t org u b r :
  t !! u = Some b -> rank b = 0 -> best_ranked (<[u := set_deleted b]> t) org r -> best_ranked t org r.
Proof.
  intros Hu Hr0. destruct r as [[j c]|]; cbn.
  - intros (Hj & Hjo & Hjl & Hr & Hmax).
    apply lookup_insert_Some in Hj as [[<- <-]|[_ Hj]]; [done|]. repeat split; [done..|]. intros k d Hk Hko Hkl.
    destruct (decide (k = u)) as [->|Hne]; [assert (d = b) as -> by congruence; lia|].
    apply (Hmax k d); [|done..]. by rewrite lookup_insert_ne.
  - intros Hz k d Hk Hko Hkl. destruct (decide (k = u)) as [->|Hne]; [congruence|].
    apply (Hz k d); [|done..]. by rewrite lookup_insert_ne.
Qed.

(** Promoting leaves the deleted rows deleted *)
Lemma promote_keeps_deleted `{UuidLib} t orgID ex t' u b :
  t !! u = Some b -> cb_deleted b = true -> promoteNextAvailableBackend t orgID ex = Ok t' -> backend_FindByID t' u = None.
Proof.
  intros Hu Hdel Hp. unfold promoteNextAvailableBackend in Hp. apply bind_Ok in Hp as (org & _ & Hp).
  apply bind_Ok in Hp as ([[j c]|] & Hc & Hp).
  - apply findPromotionCandidate_Some in Hc as (Hj & _ & Hl & _). apply bind_Ok in Hp as ([r t2] & Hup & [= <-]).
    apply repo_Update_Ok in Hup as (b0 & b1 & _ & _ & _ & -> & _). cbn. unfold backend_FindByID.
    rewrite lookup_insert_ne by congruence. unfold clear_default. rewrite lookup_fmap, Hu. cbn.
    destruct (bool_decide _ && _); cbn; by rewrite Hdel.
  - injection Hp as <-. unfold backend_FindByID. rewrite Hu. cbn. by rewrite Hdel.
Qed.

(** ** The theorems *)

Section Theorems.
Context `{UuidLib} `{Secrets} (valid_name : string -> result unit) (max_default : Z).

(** In whatever order the control plane creates, updates, validates,
    soft-deletes and deletes backends, failed operations included, an
    organization never has two live defaults or two live fallbacks, and no
    backend is both *)
Theorem one_default_backend t t' :
  backends_ok t -> rtc (backend_step valid_name max_default) t t' -> backends_ok t'.
Proof. intros Hok. induction 1; [done|]. eauto using backend_step_ok. Qed.

(** Deleting the default of an organization removes it and makes the live
    backend of the highest rank the default: the fallback, else the managed one,
    else the inline one; when there is none of these the organization is left
    without a default *)
Theorem deleted_default_replaced t orgID org id u b t' :
  backends_ok t -> uuid_Parse orgID = Some org -> uuid_Parse id = Some u -> t !! u = Some b -> cb_default b = true ->
  backend_SoftDelete t orgID id = (Ok tt, t') ->
  backend_FindByID t' u = None
  /\ exists r, best_ranked t org r
     /\ repo_FindDefaultBackend t' org = Ok (prod_map Datatypes.id (set_flags true false) <$> r).
Proof.
  intros Hok Horg Hid Hu Hd Hs. unfold backend_SoftDelete, parse_uuid in Hs. rewrite Horg, Hid in Hs. cbn in Hs.
  destruct (backend_FindByIDInOrg t org u) as [b'|] eqn:Hf; [|done]. cbn [mbind result_bind] in Hs.
  apply FindByIDInOrg_Some in Hf as (Hu' & Hl & Ho). assert (b' = b) as -> by congruence. unfold guard_err in Hs.
  destruct (is_inline b) eqn:Hin; [done|]. destruct (cb_managed b) eqn:Hmg; [done|]. cbn [mbind result_bind] in Hs.
  unfold repo_SoftDelete in Hs. rewrite Hu in Hs. cbn [mbind result_bind] in Hs. rewrite Hd in Hs.
  set (t1 := <[u := set_deleted b]> t) in Hs.
  destruct (promoteNextAvailableBackend t1 orgID None) as [t2|] eqn:Hp; [|done]. injection Hs as <-.
  assert (no_default t1 org) as Hno by (rewrite <-Ho; by apply deleted_no_default).
  assert (rank b = 0) as Hr0.
  { unfold rank. rewrite Hin, Hmg. pose proof (ok_exclusive _ Hok u b Hu) as Hx. cbn in Hx. rewrite Hd in Hx. cbn in Hx.
    by rewrite Hx. }
  pose proof Hp as (r & Hr & Hdef)%(promote_spec _ _ org); [|done..]. split.
  - apply (promote_keeps_deleted t1 orgID None t2 u (set_deleted b)); [by unfold t1; rewrite lookup_insert_eq|done|done].
  - exists r. split; [by apply (best_ranked_deleted t org u b)|done].
Qed.
End Theorems.

(** ** Witnesses *)

Module Tables.
#[export] Instance any_uuid : UuidLib := {| uuid_Parse := fun s => if is_empty s then None else Some s |}.
#[export] Instance open_secrets : Secrets := {|
  SaveCredentials := fun org creds _ => Ok (org +:+ creds);
  ReadCredentials := fun s => Ok s;
  provider_known := fun p => negb (is_empty p);
  ValidateAndExtractCredentials := fun _ _ creds => if is_empty creds then Some "no credentials" else None
|}.

Definition any_name (_ : string) : result unit := Ok tt.

(** An organization with its inline backend as the default, and then an S3 default *)
Definition inline_only : Backends := from_option snd ∅ (match CreateInlineBackend ∅ "b1" 1 "o" with Ok r => Some r | Err _ => None end).
Definition with_s3 : Backends :=
  match backend_Create any_name 100 inline_only "b2" 2 "o" "s3" "bucket" "" "S3" "key" true false None with
  | Ok r => r.2
  | Err _ => ∅
  end.
Definition s3_deleted : result unit * Backends := backend_SoftDelete with_s3 "o" "b2".
End Tables.

Import Tables.

Lemma backends_ok_empty : backends_ok ∅.
Proof. constructor; [intros i b; by rewrite lookup_empty|intros i b; by rewrite lookup_empty|apply map_Forall_empty]. Qed.

Lemma steps_with_s3 : rtc (backend_step any_name 100) ∅ with_s3.
Proof.
  apply (rtc_l _ _ inline_only).
  - eapply (bs_inline _ _ _ "b1" 1 "o"). vm_compute. reflexivity.
  - apply rtc_once. eapply (bs_create _ _ _ "b2" 2 "o" "s3" "bucket" "" "S3" "key" true false None). vm_compute. reflexivity.
Qed.

Lemma one_default_backend_witness : backends_ok s3_deleted.2.
Proof.
  apply (one_default_backend any_name 100 ∅); [exact backends_ok_empty|].
  eapply rtc_r; [exact steps_with_s3|]. apply (bs_soft_delete _ _ _ "o" "b2" s3_deleted.1). vm_compute. reflexivity.
Defined.

Lemma with_s3_ok : backends_ok with_s3.
Proof.
  apply (backend_step_ok any_name 100 inline_only); [apply (backend_step_ok any_name 100 ∅); [exact backends_ok_empty|]|].
  - eapply (bs_inline _ _ _ "b1" 1 "o"). vm_compute. reflexivity.
  - eapply (bs_create _ _ _ "b2" 2 "o" "s3" "bucket" "" "S3" "key" true false None). vm_compute. reflexivity.
Qed.

Lemma deleted_default_replaced_witness :
  backend_FindByID s3_deleted.2 "b2" = None
  /\ exists r, best_ranked with_s3 "o" r
     /\ repo_FindDefaultBackend s3_deleted.2 "o" = Ok (prod_map Datatypes.id (set_flags true false) <$> r).
Proof.
  destruct (with_s3 !! "b2") as [b|] eqn:Hb; [|vm_compute in Hb; done].
  apply (deleted_default_replaced with_s3 "o" "o" "b2" "b2" b).
  - exact with_s3_ok.
  - reflexivity.
  - reflexivity.
  - exact Hb.
  - revert Hb. vm_compute. by intros [= <-].
  - vm_compute. reflexivity.
Defined.
