(* ===== verification/Memberships.v ===== *)
(** * Memberships

    app/controlplane/pkg/biz/membership.go over pkg/data/membership.go and the
    tables of ent/schema/membership.go, group.go and group_membership.go: who
    belongs to an organization with which role, which resources a user reaches
    directly and through groups, and how memberships are changed and removed.

    Each repository call is a transaction; a use case runs its calls one after
    the other.  The authorization of a role is a parameter, which the enforcer of
    Authz.v implements. *)

From S2P Require Import Prelude.
From S2P Require Import GoStrings.
From S2P Require Import BizErrors.
From S2P Require Import Pagination.
From S2P Require Import Authz.
From S2P Require Import ApiTokens.

Open Scope Z_scope.

(** ** The tables *)

Inductive MembershipType := MembershipTypeUser | MembershipTypeGroup.

#[export] Instance MembershipType_eq_dec : EqDecision MembershipType.
Proof. solve_decision. Defined.

(** A row with its edges: its organization, its user and its parent *)
Record MembershipRow := {
  ms_role : Role;
  ms_current : bool;
  ms_type : MembershipType;
  ms_member : UUID;
  ms_resource_type : ResourceType;
  ms_resource : UUID;
  ms_parent : option UUID;
  ms_organization : option UUID;
  ms_user : option UUID;
  ms_created_at : Z
}.

#[export] Instance MembershipRow_eq_dec : EqDecision MembershipRow.
Proof. solve_decision. Defined.

Record GroupRow := { gr_organization : UUID; gr_member_count : Z }.
Record GroupMember := { gm_group : UUID; gm_user : UUID; gm_deleted : bool }.

Abbreviation MembershipTable := (gmap UUID MembershipRow).

(** The users with their emails, and the names of the live organizations *)
Record MemberDB := {
  md_memberships : MembershipTable;
  md_groups : gmap UUID GroupRow;
  md_group_members : gmap UUID GroupMember;
  md_users : gmap UUID string;
  md_orgs : gmap UUID string
}.

Definition with_memberships_table (db : MemberDB) (t : MembershipTable) : MemberDB :=
  {| md_memberships := t; md_groups := md_groups db; md_group_members := md_group_members db;
     md_users := md_users db; md_orgs := md_orgs db |}.

(** [entMembershipToBiz]: the organization of a membership; the nil one without an edge *)
Definition membership_org (m : MembershipRow) : UUID :=
  if bool_decide (ms_resource_type m = ResourceTypeOrganization) then ms_resource m
  else default uuid_Nil (ms_organization m).

(** A user's own membership of an organization *)
Definition org_row (org : UUID) (m : MembershipRow) : bool :=
  bool_decide (ms_type m = MembershipTypeUser) && bool_decide (ms_resource_type m = ResourceTypeOrganization)
  && bool_decide (ms_resource m = org).

Definition user_row (user : UUID) (m : MembershipRow) : bool :=
  bool_decide (ms_type m = MembershipTypeUser) && bool_decide (ms_resource_type m = ResourceTypeOrganization)
  && bool_decide (ms_member m = user).

(** The unique indexes: one explicit role, and one inherited from each parent *)
Definition same_membership (a b : MembershipRow) : bool :=
  bool_decide (ms_type a = ms_type b) && bool_decide (ms_member a = ms_member b)
  && bool_decide (ms_resource_type a = ms_resource_type b) && bool_decide (ms_resource a = ms_resource b)
  && bool_decide (ms_parent a = ms_parent b).

Definition select (P : MembershipRow -> bool) (t : MembershipTable) : list (UUID * MembershipRow) :=
  List.filter (fun kv => P kv.2) (map_to_list t).

(** [Only(ctx)], a row that does not exist being nil *)
Definition only_membership (P : MembershipRow -> bool) (t : MembershipTable) : result (option (UUID * MembershipRow)) :=
  match select P t with
  | [] => Ok None
  | [m] => Ok (Some m)
  | _ => Err (EMsg "ent: membership not singular")
  end.

(** ** The repository (data/membership.go) *)

Definition insert_row (db : MemberDB) (id : UUID) (m : MembershipRow) : option MemberDB :=
  let t := md_memberships db in
  if bool_decide (is_Some (t !! id)) || negb (bool_decide (select (same_membership m) t = [])) then None
  else Some (with_memberships_table db (<[id := m]> t)).

(** [MembershipRepo.Create]: the user and the organization are foreign keys *)
Definition repo_CreateMembership (db : MemberDB) (id : UUID) (now : Z) (orgID userID : UUID) (current : bool) (role : Role)
    : result MemberDB :=
  if bool_decide (is_Some (md_users db !! userID)) && bool_decide (is_Some (md_orgs db !! orgID)) then
    match insert_row db id
      {| ms_role := role; ms_current := current; ms_type := MembershipTypeUser; ms_member := userID;
         ms_resource_type := ResourceTypeOrganization; ms_resource := orgID; ms_parent := None;
         ms_organization := Some orgID; ms_user := Some userID; ms_created_at := now |} with
    | Some db => Ok db
    | None => Err (EMsg "constraint failed")
    end
  else Err (EMsg "constraint failed").

(** [FindByUser], [FindByIDInUser], [FindByIDInOrg] and [FindByOrgAndUser] *)
Definition FindByUser (db : MemberDB) (user : UUID) : list (UUID * MembershipRow) :=
  select (user_row user) (md_memberships db).

Definition FindByIDInUser (db : MemberDB) (user id : UUID) : option MembershipRow :=
  m ← md_memberships db !! id; if user_row user m then Some m else None.

Definition FindByIDInOrg (db : MemberDB) (org id : UUID) : option MembershipRow :=
  m ← md_memberships db !! id; if org_row org m then Some m else None.

Definition repo_FindByOrgAndUser (db : MemberDB) (org user : UUID) : result (option (UUID * MembershipRow)) :=
  only_membership (fun m => org_row org m && bool_decide (ms_member m = user)) (md_memberships db).

(** [FindByOrgNameAndUser]: [First] of the organizations of that name *)
Definition repo_FindByOrgNameAndUser (db : MemberDB) (orgName : string) (user : UUID) : result (option (UUID * MembershipRow)) :=
  match List.filter (fun kv => bool_decide (kv.2 = orgName)) (map_to_list (md_orgs db)) with
  | [] => Err (NewErrNotFound ("organization " +:+ orgName +:+ " not found"))
  | (org, _) :: _ => repo_FindByOrgAndUser db org user
  end.

(** [FindByOrgIDAndUserEmail] *)
Definition FindByOrgIDAndUserEmail (db : MemberDB) (org : UUID) (userEmail : string) : result (UUID * MembershipRow) :=
  match List.filter (fun kv => bool_decide (kv.2 = userEmail)) (map_to_list (md_users db)) with
  | [(user, _)] =>
      m ← map_err (EWrap "failed to query memberships") (repo_FindByOrgAndUser db org user);
      match m with
      | Some m => Ok m
      | None => Err (NewErrNotFound ("membership for user " +:+ userEmail +:+ " in organization " +:+ org +:+ " not found"))
      end
  | [] => Err (NewErrNotFound ("user with email " +:+ userEmail +:+ " not found"))
  | _ => Err (EWrap ("failed to find user by email " +:+ userEmail) (EMsg "ent: user not singular"))
  end.

Definition newest (a b : UUID * MembershipRow) : Prop := ms_created_at b.2 <= ms_created_at a.2.
#[export] Instance newest_dec a b : Decision (newest a b).
Proof. unfold newest. apply _. Defined.

(** [FindByOrg] with the filters on the role and the identifier, which do not
    need the table of users: a page, and the count of all the rows *)
Definition FindByOrg (db : MemberDB) (org : UUID) (id : option UUID) (role : option Role) (pg : OffsetPaginationOpts)
    : list (UUID * MembershipRow) * Z :=
  let rows := List.filter (fun kv => org_row org kv.2
                && match id with Some i => bool_decide (kv.1 = i) | None => true end
                && match role with Some r => bool_decide (ms_role kv.2 = r) | None => true end)
                (map_to_list (md_memberships db)) in
  (take (Z.to_nat (Limit pg)) (drop (Z.to_nat (Offset pg)) (merge_sort newest rows)), Z.of_nat (length rows)).

Definition set_current_row (current : bool) (m : MembershipRow) : MembershipRow :=
  {| ms_role := ms_role m; ms_current := current; ms_type := ms_type m; ms_member := ms_member m;
     ms_resource_type := ms_resource_type m; ms_resource := ms_resource m; ms_parent := ms_parent m;
     ms_organization := ms_organization m; ms_user := ms_user m; ms_created_at := ms_created_at m |}.
Definition set_role_row (role : Role) (m : MembershipRow) : MembershipRow :=
  {| ms_role := role; ms_current := ms_current m; ms_type := ms_type m; ms_member := ms_member m;
     ms_resource_type := ms_resource_type m; ms_resource := ms_resource m; ms_parent := ms_parent m;
     ms_organization := ms_organization m; ms_user := ms_user m; ms_created_at := ms_created_at m |}.

(** [MembershipRepo.SetCurrent] *)
Definition repo_SetCurrent (db : MemberDB) (id : UUID) : result MemberDB :=
  match md_memberships db !! id with
  | None => Err (EMsg "ent: membership not found")
  | Some m =>
      let t := (fun x => if user_row (ms_member m) x then set_current_row false x else x) <$> md_memberships db in
      Ok (with_memberships_table db (alter (set_current_row true) id t))
  end.

(** [MembershipRepo.SetRole] *)
Definition repo_SetRole (db : MemberDB) (id : UUID) (role : Role) : result MemberDB :=
  match md_memberships db !! id with
  | None => Err (EWrap "failed to update membership" (EMsg "ent: membership not found"))
  | Some _ => Ok (with_memberships_table db (alter (set_role_row role) id (md_memberships db)))
  end.

(** A row goes with its parent: [ON DELETE CASCADE], up to [fuel] generations *)
Fixpoint doomed (fuel : nat) (t : MembershipTable) (D : UUID -> MembershipRow -> bool) (id : UUID) : bool :=
  match t !! id, fuel with
  | None, _ => false
  | Some m, O => D id m
  | Some m, S n => D id m || match ms_parent m with Some p => doomed n t D p | None => false end
  end.

Definition delete_rows (D : UUID -> MembershipRow -> bool) (t : MembershipTable) : MembershipTable :=
  filter (fun kv => doomed (size t) t D kv.1 = false) t.

(** [UpdateGroupMemberCount] (data/group.go) *)
Definition UpdateGroupMemberCount (members : gmap UUID GroupMember) (id : UUID) (g : GroupRow) : GroupRow :=
  {| gr_organization := gr_organization g;
     gr_member_count := Z.of_nat (length (List.filter (fun kv => bool_decide (gm_group kv.2 = id) && negb (gm_deleted kv.2))
                                            (map_to_list members))) |}.

(** A live membership of the user in a group of the organization *)
Definition live_member_in (db : MemberDB) (user org : UUID) (gm : GroupMember) : bool :=
  bool_decide (gm_user gm = user) && negb (gm_deleted gm)
  && match md_groups db !! gm_group gm with Some g => bool_decide (gr_organization g = org) | None => false end.

Definition soft_delete_member (gm : GroupMember) : GroupMember :=
  {| gm_group := gm_group gm; gm_user := gm_user gm; gm_deleted := true |}.

(** [MembershipRepo.Delete]: with the membership of an organization go the user's
    other memberships there and the groups of that organization *)
Definition repo_DeleteMembership (db : MemberDB) (id : UUID) : result MemberDB :=
  match md_memberships db !! id with
  | None => Ok db
  | Some m =>
      if bool_decide (ms_resource_type m = ResourceTypeOrganization) && bool_decide (ms_type m = MembershipTypeUser) then
        match ms_organization m with
        | None => Err (panic "nil dereference")
        | Some org =>
            let user := ms_member m in
            let t := delete_rows (fun i x => bool_decide (i = id)
                       || (bool_decide (ms_member x = user) && bool_decide (ms_organization x = Some org))) (md_memberships db) in
            let members := (fun gm => if live_member_in db user org gm then soft_delete_member gm else gm) <$> md_group_members db in
            let touched := gm_group <$> (List.filter (live_member_in db user org) (map_to_list (md_group_members db)).*2) in
            Ok {| md_memberships := t;
                  md_groups := map_imap (fun g row => Some (if bool_decide (g ∈ touched)
                                                            then UpdateGroupMemberCount members g row else row)) (md_groups db);
                  md_group_members := members; md_users := md_users db; md_orgs := md_orgs db |}
        end
      else Ok (with_memberships_table db (delete_rows (fun i _ => bool_decide (i = id)) (md_memberships db)))
  end.

(** [ListAllByUser], [ListGroupMembershipsByUser] and [ListAllByResource] *)
Definition ListAllByUser (db : MemberDB) (user : UUID) : list MembershipRow :=
  (select (fun m => bool_decide (ms_type m = MembershipTypeUser) && bool_decide (ms_member m = user)) (md_memberships db)).*2.

Definition ListGroupMembershipsByUser (db : MemberDB) (user : UUID) : list MembershipRow :=
  let groupIDs := gm_group <$> List.filter (fun gm => bool_decide (gm_user gm = user) && negb (gm_deleted gm))
                                 (map_to_list (md_group_members db)).*2 in
  (select (fun m => bool_decide (ms_type m = MembershipTypeGroup) && bool_decide (ms_member m ∈ groupIDs)) (md_memberships db)).*2.

Definition ListAllByResource (db : MemberDB) (kind : ResourceType) (id : UUID) : list MembershipRow :=
  (select (fun m => bool_decide (ms_resource_type m = kind) && bool_decide (ms_resource m = id)) (md_memberships db)).*2.

(** [AddResourceRole]: a membership that exists is kept *)
Definition AddResourceRole (db : MemberDB) (id : UUID) (now : Z) (orgID : UUID) (kind : ResourceType) (resource : UUID)
    (type : MembershipType) (member : UUID) (role : Role) (parent : option UUID) : MemberDB :=
  match insert_row db id
    {| ms_role := role; ms_current := false; ms_type := type; ms_member := member; ms_resource_type := kind;
       ms_resource := resource; ms_parent := parent; ms_organization := Some orgID; ms_user := None; ms_created_at := now |} with
  | Some db' => db'
  | None => db
  end.

(** ** The use case (biz/membership.go) *)

Definition errMsgOnlyOwnersManageOwners : string := "only organization owners can manage owner memberships".

(** [ListAllMembershipsForUser] *)
Definition ListAllMembershipsForUser (db : MemberDB) (user : UUID) : list MembershipRow :=
  ListAllByUser db user ++ ListGroupMembershipsByUser db user.

(** [RBACScope] and [RBACScopes] *)
Record RBACScope := { sc_ProjectIDs : list UUID; sc_ProductIDs : list UUID }.
Abbreviation RBACScopes := (gmap UUID RBACScope).

(** [ProjectIDsByOrg], of scopes that are not nil *)
Definition ProjectIDsByOrg (s : RBACScopes) : gmap UUID (list UUID) := sc_ProjectIDs <$> s.

(** [resourcesWithMembershipInOrg] *)
Definition resourcesWithMembershipInOrg (org : UUID) (ms : list MembershipRow) (kind : ResourceType) : list UUID :=
  ms_resource <$> List.filter (fun m => bool_decide (ms_resource_type m = kind) && bool_decide (membership_org m = org)) ms.

Definition scope_in (ms : list MembershipRow) (org : UUID) : RBACScope :=
  {| sc_ProjectIDs := resourcesWithMembershipInOrg org ms ResourceTypeProject;
     sc_ProductIDs := resourcesWithMembershipInOrg org ms ResourceTypeProduct |}.

(** The loop of [GetOrgsAndRBACInfoForUser] *)
Fixpoint orgs_and_scopes (ms : list MembershipRow) (l : list MembershipRow) (acc : list UUID * RBACScopes) : list UUID * RBACScopes :=
  match l with
  | [] => acc
  | m :: l =>
      orgs_and_scopes ms l
        (if bool_decide (ms_resource_type m = ResourceTypeOrganization) then
           (acc.1 ++ [ms_resource m],
            if RBACEnabled (ms_role m) then <[ms_resource m := scope_in ms (ms_resource m)]> acc.2 else acc.2)
         else acc)
  end.

(** [GetOrgsAndRBACInfoForUser] *)
Definition GetOrgsAndRBACInfoForUser (db : MemberDB) (user : UUID) : list UUID * RBACScopes :=
  let ms := ListAllMembershipsForUser db user in orgs_and_scopes ms ms ([], ∅).

Section UseCase.
Context `{UuidLib} (enforce : Role -> Policy -> result bool).

(** [enforceManageOwners] *)
Definition enforceManageOwners (callerRole : Role) (deniedMsg : string) : result unit :=
  ok ← map_err (EWrap "failed to enforce manage owners policy") (enforce callerRole PolicyOrganizationManageOwners);
  if ok : bool then Ok tt else Err (NewErrUnauthorizedStr deniedMsg).

(** [m.User.ID] *)
Definition user_of (m : MembershipRow) : result UUID :=
  match ms_user m with Some u => Ok u | None => Err (panic "nil dereference") end.

(** [DeleteOther] *)
Definition DeleteOther (db : MemberDB) (orgID userID membershipID : string) (callerRole : Role) : result MemberDB :=
  id ← parse_uuid membershipID; org ← parse_uuid orgID;
  m ← match FindByIDInOrg db org id with Some m => Ok m | None => Err (NewErrNotFound "membership") end;
  user ← user_of m;
  _ ← guard_err (bool_decide (user = userID)) (NewErrValidationStr "cannot delete yourself from the org");
  _ ← (if bool_decide (ms_role m = RoleOwner) then enforceManageOwners callerRole errMsgOnlyOwnersManageOwners else Ok tt);
  map_err (EWrap "failed to delete membership") (repo_DeleteMembership db id).

(** [UpdateRole]; the event at the end needs the user *)
Definition UpdateRole (db : MemberDB) (orgID userID membershipID : string) (role callerRole : Role) : result MemberDB :=
  _ ← guard_err (is_empty role) (NewErrValidationStr "role is required");
  id ← parse_uuid membershipID; org ← parse_uuid orgID;
  m ← match FindByIDInOrg db org id with Some m => Ok m | None => Err (NewErrNotFound "membership") end;
  user ← user_of m;
  _ ← guard_err (bool_decide (user = userID)) (NewErrValidationStr "cannot update yourself");
  _ ← (if bool_decide (ms_role m = RoleOwner) || bool_decide (role = RoleOwner)
       then enforceManageOwners callerRole errMsgOnlyOwnersManageOwners else Ok tt);
  _ ← parse_uuid user;
  map_err (EWrap "failed to update membership role") (repo_SetRole db id role).

(** [MembershipUseCase.Create], the role being [RoleViewer] unless one is given *)
Definition membership_Create (db : MemberDB) (id : UUID) (now : Z) (orgID userID : string) (current : bool) (role : option Role)
    : result MemberDB :=
  org ← parse_uuid orgID; user ← parse_uuid userID;
  db ← map_err (EWrap "failed to create membership")
         (repo_CreateMembership db id now org user current (default RoleViewer role));
  if current then repo_SetCurrent db id else Ok db.

(** [ByUser], [SetCurrent], [FindByOrgAndUser] and [FindByOrgNameAndUser] *)
Definition ByUser (db : MemberDB) (userID : string) : result (list (UUID * MembershipRow)) :=
  user ← parse_uuid userID; Ok (FindByUser db user).

Definition membership_SetCurrent (db : MemberDB) (userID membershipID : string) : result MemberDB :=
  user ← parse_uuid userID; id ← parse_uuid membershipID;
  _ ← match FindByIDInUser db user id with Some m => Ok m | None => Err (NewErrNotFound "membership") end;
  repo_SetCurrent db id.

Definition found_membership (m : option (UUID * MembershipRow)) : result (UUID * MembershipRow) :=
  match m with Some m => Ok m | None => Err (NewErrNotFound "membership") end.

Definition membership_FindByOrgAndUser (db : MemberDB) (orgID userID : string) : result (UUID * MembershipRow) :=
  org ← parse_uuid orgID; user ← parse_uuid userID;
  m ← map_err (EWrap "failed to find membership") (repo_FindByOrgAndUser db org user); found_membership m.

Definition membership_FindByOrgNameAndUser (db : MemberDB) (orgName userID : string) : result (UUID * MembershipRow) :=
  user ← parse_uuid userID;
  m ← map_err (EWrap "failed to find membership") (repo_FindByOrgNameAndUser db orgName user); found_membership m.

(** [SetProjectOwner]: a project that has an admin keeps it *)
Definition SetProjectOwner (db : MemberDB) (id : UUID) (now : Z) (orgID projectID userID : UUID) : MemberDB :=
  if existsb (fun m => bool_decide (ms_role m = RoleProjectAdmin)) (ListAllByResource db ResourceTypeProject projectID) then db
  else AddResourceRole db id now orgID ResourceTypeProject projectID MembershipTypeUser userID RoleProjectAdmin None.

(** [isUserSoleOwner], on the first page of the owners *)
Definition isUserSoleOwner (db : MemberDB) (org user : UUID) : bool :=
  let owners := fst (FindByOrg db org None (Some RoleOwner) NewDefaultOffsetPaginationOpts) in
  existsb (fun o => bool_decide (ms_user o.2 = Some user)) owners && bool_decide (length owners = 1%nat).

(** [Leave] *)
Definition Leave (db : MemberDB) (userID membershipID : string) : result MemberDB :=
  id ← parse_uuid membershipID; user ← parse_uuid userID;
  m ← match FindByIDInUser db user id with Some m => Ok m | None => Err (NewErrNotFound "membership") end;
  _ ← guard_err (isUserSoleOwner db (membership_org m) user)
        (NewErrValidationStr "cannot leave organization as the sole owner. Please add another owner or delete the organization instead");
  map_err (EWrap "failed to delete membership") (repo_DeleteMembership db id).
End UseCase.

(** ** Lemmas *)

Lemma elem_of_select P t i m : (i, m) ∈ select P t <-> t !! i = Some m /\ P m = true.
Proof. unfold select. rewrite list_elem_of_In, filter_In, <-list_elem_of_In, elem_of_map_to_list. done. Qed.

Lemma elem_of_select_rows P t m : m ∈ (select P t).*2 <-> exists i, t !! i = Some m /\ P m = true.
Proof.
  rewrite list_elem_of_fmap. split.
  - intros ([i x] & -> & Hx%elem_of_select). by exists i.
  - intros (i & Hm). exists (i, m). by rewrite elem_of_select.
Qed.

Lemma org_row_true org m :
  org_row org m = true <-> ms_type m = MembershipTypeUser /\ ms_resource_type m = ResourceTypeOrganization /\ ms_resource m = org.
Proof. unfold org_row. rewrite !andb_true_iff, !bool_decide_eq_true. tauto. Qed.

Lemma user_row_true user m :
  user_row user m = true <-> ms_type m = MembershipTypeUser /\ ms_resource_type m = ResourceTypeOrganization /\ ms_member m = user.
Proof. unfold user_row. rewrite !andb_true_iff, !bool_decide_eq_true. tauto. Qed.

Lemma same_membership_true a b :
  same_membership a b = true <->
  ms_type a = ms_type b /\ ms_member a = ms_member b /\ ms_resource_type a = ms_resource_type b
  /\ ms_resource a = ms_resource b /\ ms_parent a = ms_parent b.
Proof. unfold same_membership. rewrite !andb_true_iff, !bool_decide_eq_true. tauto. Qed.

Lemma doomed_false n t D i m : t !! i = Some m -> doomed n t D i = false -> D i m = false.
Proof. intros Hm. destruct n; cbn; rewrite Hm; [done|]. by intros [? _]%orb_false_iff. Qed.

Lemma doomed_root n t D i m : t !! i = Some m -> ms_parent m = None -> doomed n t D i = D i m.
Proof. intros Hm Hp. destruct n; cbn; rewrite Hm; [done|]. by rewrite Hp, orb_false_r. Qed.

Lemma lookup_delete_rows D t i m :
  delete_rows D t !! i = Some m -> t !! i = Some m /\ D i m = false.
Proof. intros [Hm Hd]%map_lookup_filter_Some. split; [done|]. by eapply doomed_false. Qed.

Lemma delete_rows_keeps D t i m :
  t !! i = Some m -> ms_parent m = None -> D i m = false -> delete_rows D t !! i = Some m.
Proof. intros Hm Hp Hd. apply map_lookup_filter_Some. split; [done|]. cbn. by rewrite (doomed_root _ _ _ _ m). Qed.

(** The invariant: the memberships of organizations are explicit and carry their
    edges, a group has memberships only in its organization, and the unique
    indexes hold *)
Record members_ok (db : MemberDB) : Prop := {
  mo_org : map_Forall (fun _ m => ms_type m = MembershipTypeUser -> ms_resource_type m = ResourceTypeOrganization ->
             ms_organization m = Some (ms_resource m) /\ ms_user m = Some (ms_member m) /\ ms_parent m = None)
             (md_memberships db);
  mo_group : map_Forall (fun _ m => ms_type m = MembershipTypeGroup ->
               exists g, md_groups db !! ms_member m = Some g /\ membership_org m = gr_organization g) (md_memberships db);
  mo_unique : forall i j a b, md_memberships db !! i = Some a -> md_memberships db !! j = Some b ->
                same_membership a b = true -> i = j
}.

(** A table whose rows are rows of the old one, up to the role and the current flag *)
Record like (a b : MembershipRow) : Prop := {
  lk_type : ms_type b = ms_type a; lk_member : ms_member b = ms_member a;
  lk_kind : ms_resource_type b = ms_resource_type a; lk_resource : ms_resource b = ms_resource a;
  lk_parent : ms_parent b = ms_parent a; lk_org : ms_organization b = ms_organization a;
  lk_user : ms_user b = ms_user a
}.

Definition narrows (t t' : MembershipTable) : Prop :=
  forall i b, t' !! i = Some b -> exists a, t !! i = Some a /\ like a b.

Lemma members_ok_narrows db db' :
  narrows (md_memberships db) (md_memberships db') ->
  (forall g row, md_groups db !! g = Some row -> exists row', md_groups db' !! g = Some row' /\ gr_organization row' = gr_organization row) ->
  members_ok db -> members_ok db'.
Proof.
  intros Hn Hg [Ho Hgr Hu]. constructor.
  - intros i b Hb Ht Hk. destruct (Hn i b Hb) as (a & Ha & []). specialize (Ho i a Ha). cbn in Ho.
    destruct Ho as (? & ? & ?); [congruence..|]. by repeat split; congruence.
  - intros i b Hb Ht. destruct (Hn i b Hb) as (a & Ha & Hl). specialize (Hgr i a Ha).
    destruct Hgr as (g & Hgg & Horg); [by rewrite <-(lk_type _ _ Hl)|]. rewrite (lk_member _ _ Hl).
    destruct (Hg _ _ Hgg) as (g' & Hg' & E). exists g'. split; [done|]. rewrite E, <-Horg. unfold membership_org.
    by rewrite (lk_kind _ _ Hl), (lk_resource _ _ Hl), (lk_org _ _ Hl).
  - intros i j b1 b2 Hb1 Hb2 (? & ? & ? & ? & ?)%same_membership_true.
    destruct (Hn i b1 Hb1) as (a1 & Ha1 & []), (Hn j b2 Hb2) as (a2 & Ha2 & []).
    apply (Hu i j a1 a2 Ha1 Ha2), same_membership_true. repeat split; congruence.
Qed.

Lemma members_ok_insert db id m db' :
  members_ok db -> insert_row db id m = Some db' ->
  (ms_type m = MembershipTypeUser -> ms_resource_type m = ResourceTypeOrganization ->
     ms_organization m = Some (ms_resource m) /\ ms_user m = Some (ms_member m) /\ ms_parent m = None) ->
  ms_type m = MembershipTypeUser -> members_ok db'.
Proof.
  intros [Ho Hgr Hu] Hi Hm Hty. unfold insert_row in Hi. destruct (_ || _) eqn:E; [done|]. injection Hi as <-.
  apply orb_false_iff in E as [Hid Hsel]. apply negb_false_iff, bool_decide_eq_true in Hsel.
  assert (forall j b, md_memberships db !! j = Some b -> same_membership m b = false) as Hfresh.
  { intros j b Hb. apply not_true_iff_false. intros Hs. apply (not_elem_of_nil (j, b)). rewrite <-Hsel.
    by apply elem_of_select. }
  constructor; cbn.
  - by apply map_Forall_insert_2.
  - apply map_Forall_insert_2; [|done]. by rewrite Hty.
  - intros i j a b [[<- <-]|[Hi Ha]]%lookup_insert_Some [[<- <-]|[Hj Hb]]%lookup_insert_Some Hs; [done| | |by eapply Hu].
    + by rewrite (Hfresh j b Hb) in Hs.
    + apply same_membership_true in Hs as (? & ? & ? & ? & ?).
      assert (same_membership m a = true) as E by (apply same_membership_true; repeat split; congruence).
      by rewrite (Hfresh i a Ha) in E.
Qed.

#[local] Instance like_refl : Reflexive like.
Proof. done. Qed.

Lemma narrows_delete D t : narrows t (delete_rows D t).
Proof. intros i b [Hb _]%lookup_delete_rows. by exists b. Qed.

Lemma narrows_alter f t i : (forall m, like m (f m)) -> narrows t (alter f i t).
Proof.
  intros Hf j b. rewrite lookup_alter. case_decide; [|intros Hb; by exists b].
  destruct (t !! j) as [a|] eqn:Ha; cbn; [|subst; by rewrite Ha]. subst. rewrite Ha. cbn. intros [= <-]. by exists a.
Qed.

Lemma narrows_fmap f t : (forall m, like m (f m)) -> narrows t (f <$> t).
Proof. intros Hf j b. rewrite lookup_fmap. destruct (t !! j) as [a|]; [|done]. intros [= <-]. by exists a. Qed.

#[local] Instance narrows_trans : Transitive narrows.
Proof.
  intros t1 t2 t3 H12 H23 i c Hc. destruct (H23 i c Hc) as (b & Hb & []), (H12 i b Hb) as (a & Ha & []).
  exists a. split; [done|]. constructor; congruence.
Qed.

(** What the rows look like after deleting a membership *)
Definition deleted_with (id : UUID) (m : MembershipRow) (i : UUID) (x : MembershipRow) : bool :=
  bool_decide (i = id)
  || (bool_decide (ms_resource_type m = ResourceTypeOrganization) && bool_decide (ms_type m = MembershipTypeUser)
      && (bool_decide (ms_member x = ms_member m) && bool_decide (ms_organization x = ms_organization m))).

Lemma repo_Delete_Ok db id m db' :
  md_memberships db !! id = Some m -> repo_DeleteMembership db id = Ok db' ->
  md_memberships db' = delete_rows (deleted_with id m) (md_memberships db)
  /\ forall g row, md_groups db !! g = Some row -> exists row', md_groups db' !! g = Some row' /\ gr_organization row' = gr_organization row.
Proof.
  intros Hm. unfold repo_DeleteMembership. rewrite Hm.
  assert (forall D D', (forall i x, D i x = D' i x) -> delete_rows D (md_memberships db) = delete_rows D' (md_memberships db)) as Hext.
  { intros D D' HD. assert (forall n i, doomed n (md_memberships db) D i = doomed n (md_memberships db) D' i) as Hd.
    { intros n. induction n as [|n IH]; intros i; cbn; destruct (md_memberships db !! i) as [x|]; [apply HD|done|rewrite HD|done].
      destruct (ms_parent x); [by rewrite IH|done]. }
    apply map_filter_ext. intros i x _. cbn. by rewrite Hd. }
  destruct (bool_decide _ && bool_decide _) eqn:E.
  - destruct (ms_organization m) as [org|] eqn:Ho; [|done]. intros [= <-]. cbn. split.
    + apply Hext. intros i x. unfold deleted_with. rewrite E, Ho. done.
    + intros g row Hg. rewrite map_lookup_imap, Hg. cbn. eexists. split; [reflexivity|]. by destruct (bool_decide (g ∈ _)).
  - intros [= <-]. cbn. split; [|by intros g row Hg; exists row]. apply Hext. intros i x. unfold deleted_with. by rewrite E, orb_false_r.
Qed.

Lemma repo_Delete_ok db id db' : members_ok db -> repo_DeleteMembership db id = Ok db' -> members_ok db'.
Proof.
  intros Hok Hd. destruct (md_memberships db !! id) as [m|] eqn:Hm.
  - destruct (repo_Delete_Ok _ _ _ _ Hm Hd) as [Ht Hg]. apply (members_ok_narrows db); [|done|done].
    rewrite Ht. apply narrows_delete.
  - unfold repo_DeleteMembership in Hd. rewrite Hm in Hd. by injection Hd as <-.
Qed.

(** ** Owners *)

Definition owns (db : MemberDB) (org user : UUID) : Prop :=
  exists i m, md_memberships db !! i = Some m /\ org_row org m = true /\ ms_member m = user /\ ms_role m = RoleOwner.

Definition has_owner (db : MemberDB) (org : UUID) : Prop := exists user, owns db org user.

(** An owner whose membership is neither the deleted one nor of that user stays *)
Lemma owner_survives db id m db' org user :
  members_ok db -> md_memberships db !! id = Some m -> ms_type m = MembershipTypeUser ->
  ms_resource_type m = ResourceTypeOrganization -> repo_DeleteMembership db id = Ok db' ->
  owns db org user -> ms_resource m <> org \/ ms_member m <> user -> owns db' org user.
Proof.
  intros Hok Hm Hty Hk Hd (i & x & Hx & Ho & Hu & Hr) Hne. exists i, x. split; [|done].
  destruct (repo_Delete_Ok _ _ _ _ Hm Hd) as [-> _]. apply org_row_true in Ho as (Ht & Hkx & Hres).
  destruct (mo_org _ Hok i x Hx Ht Hkx) as (Hox & _ & Hpx). destruct (mo_org _ Hok id m Hm Hty Hk) as (Hom & _ & _).
  apply delete_rows_keeps; [done|done|]. unfold deleted_with. apply orb_false_iff. split.
  - apply bool_decide_eq_false_2. intros ->. assert (x = m) as -> by congruence. destruct Hne; congruence.
  - apply andb_false_iff. right. apply andb_false_iff. destruct Hne as [Hne|Hne].
    + right. apply bool_decide_eq_false_2. congruence.
    + left. apply bool_decide_eq_false_2. congruence.
Qed.

(** Only owners may manage owners *)
Lemma role_allows_manage_owners r : role_allows r PolicyOrganizationManageOwners = true -> r = RoleOwner.
Proof.
  intros (role & Hin & ps & Hps & Hp)%role_allows_spec.
  assert (role = RoleOwner) as ->.
  { assert (Forall (fun e : Role * list Policy => PolicyOrganizationManageOwners ∈ e.2 -> e.1 = RoleOwner) RolesMap) as Hall
      by (apply (bool_decide_unpack _); vm_compute; done).
    rewrite Forall_forall in Hall. by apply (Hall (role, ps)). }
  unfold implied, inherited in Hin. apply elem_of_cons in Hin as [Hin|Hin]; [done|].
  exfalso. revert Hin. repeat case_bool_decide; apply (bool_decide_unpack _); vm_compute; done.
Qed.

(** The page of the owners is all of them, or has a hundred *)
Lemma sole_owner_spec db org user i m :
  members_ok db -> md_memberships db !! i = Some m -> org_row org m = true -> ms_member m = user -> ms_role m = RoleOwner ->
  isUserSoleOwner db org user = false -> exists other, other <> user /\ owns db org other.
Proof.
  intros Hok Hm Hrow Hu Hr. unfold isUserSoleOwner, FindByOrg. set (rows := List.filter _ _).
  cbn [fst]. rewrite skipn_0. set (page := take _ _).
  assert (forall j x, (j, x) ∈ rows <-> md_memberships db !! j = Some x /\ org_row org x = true /\ ms_role x = RoleOwner) as Hrows.
  { intros j x. unfold rows. rewrite list_elem_of_In, filter_In, <-list_elem_of_In, elem_of_map_to_list. cbn.
    rewrite andb_true_r, andb_true_iff, bool_decide_eq_true. done. }
  assert (merge_sort newest rows ≡ₚ rows) as Hp by apply merge_sort_Permutation.
  assert (NoDup page) as Hnd.
  { apply (sublist_NoDup page (merge_sort newest rows)); [|apply sublist_take]. rewrite Hp.
    apply NoDup_ListNoDup, List.NoDup_filter, NoDup_ListNoDup, NoDup_map_to_list. }
  assert (forall x, x ∈ page -> x ∈ rows) as Hsub 
    by (intros x (k & Hk & _)%elem_of_take; rewrite <-Hp; by eapply list_elem_of_lookup_2).
  assert ((i, m) ∈ rows) as Hin by by apply Hrows.
  assert (forall x, x ∈ page -> x <> (i, m) -> exists other, other <> user /\ owns db org other) as Hother.
  { intros [j x] Hx Hne. apply Hsub, Hrows in Hx as (Hjx & Hxo & Hxr). exists (ms_member x). split; [|by exists j, x].
    intros Heq. apply Hne. apply org_row_true in Hrow as (Ht & Hk & Hres), Hxo as (Htx & Hkx & Hresx).
    destruct (mo_org _ Hok i m Hm Ht Hk) as (_ & _ & Hpm), (mo_org _ Hok j x Hjx Htx Hkx) as (_ & _ & Hpx).
    assert (j = i) as -> by (apply (mo_unique _ Hok j i x m Hjx Hm), same_membership_true; repeat split; congruence).
    congruence. }
  intros Hsole. destruct (decide ((i, m) ∈ page)) as [Hip|Hip].
  - destruct page as [|x [|y page']]; [by apply not_elem_of_nil in Hip| |].
    + exfalso. apply elem_of_cons in Hip as [<-|Hip]; [|by apply not_elem_of_nil in Hip]. cbn in Hsole.
      apply org_row_true in Hrow as (Ht & Hk & _). destruct (mo_org _ Hok i m Hm Ht Hk) as (_ & Hum & _).
      by rewrite Hum, bool_decide_eq_true_2 in Hsole by congruence.
    + apply NoDup_cons in Hnd as [Hxy _]. destruct (decide (x = (i, m))) as [->|Hx].
      * apply (Hother y); [by right; left|]. intros ->. apply Hxy. by left.
      * apply (Hother x); [by left|done].
  - destruct page as [|x page'] eqn:E; [|apply (Hother x); [by left|intros ->; apply Hip; by left]].
    exfalso. apply (f_equal length) in E. unfold page in E. rewrite length_take, Hp in E. cbn in E.
    destruct rows; [by apply not_elem_of_nil in Hin|]. cbn in E. lia.
Qed.

(** Changing a role keeps the owners that it does not change *)
Lemma set_role_owners db id role db' m org user :
  md_memberships db !! id = Some m -> repo_SetRole db id role = Ok db' -> owns db org user ->
  ms_resource m <> org \/ ms_member m <> user -> owns db' org user.
Proof.
  intros Hm Hs (i & x & Hx & Ho & Hu & Hr) Hne. unfold repo_SetRole in Hs. rewrite Hm in Hs. injection Hs as <-.
  exists i, x. cbn. rewrite lookup_alter_ne; [done|]. intros ->. apply org_row_true in Ho as (_ & _ & Hres).
  destruct Hne; congruence.
Qed.

Lemma set_current_owners db id db' org user :
  repo_SetCurrent db id = Ok db' -> owns db org user -> owns db' org user.
Proof.
  intros Hs (i & x & Hx & Ho & Hu & Hr). unfold repo_SetCurrent in Hs.
  destruct (md_memberships db !! id) as [m|]; [|done]. injection Hs as <-.
  exists i. destruct (decide (i = id)) as [->|Hne].
  - eexists. cbn. rewrite lookup_alter_eq, lookup_fmap, Hx. cbn. split; [reflexivity|]. by destruct (user_row _ x).
  - eexists. cbn. rewrite lookup_alter_ne, lookup_fmap, Hx by done. cbn. split; [reflexivity|]. by destruct (user_row _ x).
Qed.

Lemma insert_owners db id m db' org user : insert_row db id m = Some db' -> owns db org user -> owns db' org user.
Proof.
  unfold insert_row. destruct (_ || _) eqn:E; [done|]. intros [= <-] (i & x & Hx & Ho). exists i, x. split; [|done].
  apply orb_false_iff in E as [Hid%bool_decide_eq_false _]. cbn. rewrite lookup_insert_ne; [done|]. intros ->.
  apply Hid. by eexists.
Qed.

Lemma set_role_ok db id role db' : members_ok db -> repo_SetRole db id role = Ok db' -> members_ok db'.
Proof.
  intros Hok Hs. unfold repo_SetRole in Hs. destruct (md_memberships db !! id); [|done]. injection Hs as <-.
  apply (members_ok_narrows db); [|by intros g row Hg; exists row|done]. by apply narrows_alter.
Qed.

Lemma set_current_ok db id db' : members_ok db -> repo_SetCurrent db id = Ok db' -> members_ok db'.
Proof.
  intros Hok Hs. unfold repo_SetCurrent in Hs. destruct (md_memberships db !! id) as [m|]; [|done]. injection Hs as <-.
  apply (members_ok_narrows db); [|by intros g row Hg; exists row|done]. cbn.
  transitivity ((fun x => if user_row (ms_member m) x then set_current_row false x else x) <$> md_memberships db).
  - apply narrows_fmap. intros x. by destruct (user_row _ x).
  - by apply narrows_alter.
Qed.

Lemma create_row_inv db id now org user current role db' :
  repo_CreateMembership db id now org user current role = Ok db' ->
  exists m, insert_row db id m = Some db' /\ ms_type m = MembershipTypeUser /\ ms_organization m = Some (ms_resource m)
    /\ ms_user m = Some (ms_member m) /\ ms_parent m = None.
Proof.
  unfold repo_CreateMembership. destruct (_ && _); [|done]. destruct (insert_row _ _ _) as [db1|] eqn:E; [|done].
  intros [= <-]. by eexists.
Qed.

(** ** The steps of the use case *)

Section Steps.
Context `{UuidLib} (enforce : Role -> Policy -> result bool).
Hypothesis enforce_roles : forall r p b, enforce r p = Ok b -> b = role_allows r p.

(** The caller acts with the role of one of its memberships: an owner is one *)
Definition acts_as (db : MemberDB) (orgID userID : string) (callerRole : Role) : Prop :=
  callerRole = RoleOwner -> exists org, uuid_Parse orgID = Some org /\ owns db org userID.

Inductive membership_step (db : MemberDB) : MemberDB -> Prop :=
| ms_leave userID id db' : Leave db userID id = Ok db' -> membership_step db db'
| ms_delete_other orgID userID id callerRole db' :
    acts_as db orgID userID callerRole -> DeleteOther enforce db orgID userID id callerRole = Ok db' -> membership_step db db'
| ms_update_role orgID userID id role callerRole db' :
    acts_as db orgID userID callerRole -> UpdateRole enforce db orgID userID id role callerRole = Ok db' -> membership_step db db'
| ms_create id now orgID userID current role db' :
    membership_Create db id now orgID userID current role = Ok db' -> membership_step db db'
| ms_set_current userID id db' : membership_SetCurrent db userID id = Ok db' -> membership_step db db'
| ms_project_owner id now orgID projectID userID : membership_step db (SetProjectOwner db id now orgID projectID userID).

Lemma member_FindByIDInOrg_Some db org id m :
  FindByIDInOrg db org id = Some m <-> md_memberships db !! id = Some m /\ org_row org m = true.
Proof.
  unfold FindByIDInOrg. destruct (md_memberships db !! id) as [x|]; cbn; [|naive_solver].
  destruct (org_row org x) eqn:E; naive_solver congruence.
Qed.

Lemma FindByIDInUser_Some db user id m :
  FindByIDInUser db user id = Some m <-> md_memberships db !! id = Some m /\ user_row user m = true.
Proof.
  unfold FindByIDInUser. destruct (md_memberships db !! id) as [x|]; cbn; [|naive_solver].
  destruct (user_row user x) eqn:E; naive_solver congruence.
Qed.

Lemma manage_owners_Ok r msg : enforceManageOwners enforce r msg = Ok tt -> r = RoleOwner.
Proof.
  unfold enforceManageOwners. intros Hm. apply bind_Ok in Hm as (b & Hb%map_err_Ok & Hm). destruct b; [|done].
  apply role_allows_manage_owners. by rewrite <-(enforce_roles _ _ _ Hb).
Qed.

(** What a successful removal or change of another member checked *)
Lemma DeleteOther_Ok db orgID userID mid callerRole db' :
  DeleteOther enforce db orgID userID mid callerRole = Ok db' ->
  exists id org m user, uuid_Parse mid = Some id /\ uuid_Parse orgID = Some org
    /\ md_memberships db !! id = Some m /\ org_row org m = true /\ ms_user m = Some user /\ user <> userID
    /\ (ms_role m = RoleOwner -> callerRole = RoleOwner) /\ repo_DeleteMembership db id = Ok db'.
Proof.
  unfold DeleteOther. intros Hs. apply bind_Ok in Hs as (id & Hid%parse_uuid_Ok & Hs).
  apply bind_Ok in Hs as (org & Horg%parse_uuid_Ok & Hs). apply bind_Ok in Hs as (m & Hm & Hs).
  apply bind_Ok in Hs as (user & Hu & Hs). apply bind_Ok in Hs as ([] & Hne%guard_err_Ok & Hs).
  apply bind_Ok in Hs as ([] & Hman & Hs). apply map_err_Ok in Hs.
  destruct (FindByIDInOrg db org id) as [m'|] eqn:Hf; [|done]. injection Hm as ->.
  apply member_FindByIDInOrg_Some in Hf as [Hm Hrow]. unfold user_of in Hu. destruct (ms_user m) as [u|] eqn:Hmu; [|done].
  injection Hu as ->. exists id, org, m, user. repeat split; try done; [by apply bool_decide_eq_false in Hne|].
  intros Hr. rewrite bool_decide_eq_true_2 in Hman by done. by eapply manage_owners_Ok.
Qed.

Lemma UpdateRole_Ok db orgID userID mid role callerRole db' :
  UpdateRole enforce db orgID userID mid role callerRole = Ok db' ->
  exists id org m user, uuid_Parse mid = Some id /\ uuid_Parse orgID = Some org
    /\ md_memberships db !! id = Some m /\ org_row org m = true /\ ms_user m = Some user /\ user <> userID
    /\ (ms_role m = RoleOwner \/ role = RoleOwner -> callerRole = RoleOwner) /\ repo_SetRole db id role = Ok db'.
Proof.
  unfold UpdateRole. intros Hs. apply bind_Ok in Hs as ([] & _ & Hs). apply bind_Ok in Hs as (id & Hid%parse_uuid_Ok & Hs).
  apply bind_Ok in Hs as (org & Horg%parse_uuid_Ok & Hs). apply bind_Ok in Hs as (m & Hm & Hs).
  apply bind_Ok in Hs as (user & Hu & Hs). apply bind_Ok in Hs as ([] & Hne%guard_err_Ok & Hs).
  apply bind_Ok in Hs as ([] & Hman & Hs). apply bind_Ok in Hs as (u2 & _ & Hs). apply map_err_Ok in Hs.
  destruct (FindByIDInOrg db org id) as [m'|] eqn:Hf; [|done]. injection Hm as ->.
  apply member_FindByIDInOrg_Some in Hf as [Hm Hrow]. unfold user_of in Hu. destruct (ms_user m) as [u|] eqn:Hmu; [|done].
  injection Hu as ->. exists id, org, m, user. repeat split; try done; [by apply bool_decide_eq_false in Hne|].
  intros Hr. assert (bool_decide (ms_role m = RoleOwner) || bool_decide (role = RoleOwner) = true) as E
    by (apply orb_true_iff; rewrite !bool_decide_eq_true; done). rewrite E in Hman. by eapply manage_owners_Ok.
Qed.

(** A user has one membership of an organization *)
Lemma one_org_row db org i j a b :
  members_ok db -> md_memberships db !! i = Some a -> md_memberships db !! j = Some b ->
  org_row org a = true -> org_row org b = true -> ms_member a = ms_member b -> i = j /\ a = b.
Proof.
  intros Hok Ha Hb (Hta & Hka & Hra)%org_row_true (Htb & Hkb & Hrb)%org_row_true Hm.
  destruct (mo_org _ Hok i a Ha Hta Hka) as (_ & _ & Hpa), (mo_org _ Hok j b Hb Htb Hkb) as (_ & _ & Hpb).
  assert (i = j) as -> by (apply (mo_unique _ Hok i j a b Ha Hb), same_membership_true; repeat split; congruence).
  split; congruence.
Qed.

Lemma leave_owner db userID mid db' org :
  members_ok db -> Leave db userID mid = Ok db' -> has_owner db org -> has_owner db' org.
Proof.
  intros Hok Hl [u Hu]. unfold Leave in Hl. apply bind_Ok in Hl as (id & _ & Hl). apply bind_Ok in Hl as (user & _ & Hl).
  apply bind_Ok in Hl as (m & Hm & Hl). apply bind_Ok in Hl as ([] & Hsole%guard_err_Ok & Hl). apply map_err_Ok in Hl.
  destruct (FindByIDInUser db user id) as [m'|] eqn:Hf; [|done]. injection Hm as ->.
  apply FindByIDInUser_Some in Hf as [Hm (Ht & Hk & Hmem)%user_row_true].
  unfold membership_org in Hsole. rewrite bool_decide_eq_true_2 in Hsole by done.
  destruct (decide (ms_resource m = org)) as [Ho|Ho]; [|exists u; by apply (owner_survives db id m); auto].
  destruct (decide (u = user)) as [->|Hne]; [|exists u; apply (owner_survives db id m); try done; right; congruence].
  destruct Hu as (i & x & Hx & Hrow & Hxu & Hr). rewrite Ho in Hsole.
  destruct (sole_owner_spec db org user i x Hok Hx Hrow Hxu Hr Hsole) as (other & Hne & Hown).
  exists other. apply (owner_survives db id m); try done. right. congruence.
Qed.

(** Changing another member never removes the last owner: either that member is
    not the owner, or the caller is another one *)
Lemma other_owner db db' org org0 m id userID user callerRole :
  members_ok db -> md_memberships db !! id = Some m -> org_row org0 m = true -> ms_user m = Some user -> user <> userID ->
  (ms_role m = RoleOwner -> callerRole = RoleOwner) -> (callerRole = RoleOwner -> owns db org0 userID) ->
  (forall u, owns db org u -> ms_resource m <> org \/ ms_member m <> u -> owns db' org u) ->
  has_owner db org -> has_owner db' org.
Proof.
  intros Hok Hm Hrow Husr Hne Hrole Hcaller Hsurv [u Hu]. apply org_row_true in Hrow as Hrow'.
  destruct Hrow' as (Ht & Hk & Hres). destruct (mo_org _ Hok id m Hm Ht Hk) as (_ & Hmu & _).
  destruct (decide (org = org0)) as [->|Ho]; [|exists u; apply Hsurv; [done|left; congruence]].
  destruct (decide (u = ms_member m)) as [->|Hu']; [|exists u; apply Hsurv; [done|right; congruence]].
  destruct Hu as (i & x & Hx & Hxr & Hxu & Hr). destruct (one_org_row _ _ _ _ _ _ Hok Hx Hm Hxr Hrow Hxu) as [-> ->].
  exists userID. apply Hsurv; [by apply Hcaller, Hrole|]. right. congruence.
Qed.

Lemma membership_step_spec db db' :
  members_ok db -> membership_step db db' -> members_ok db' /\ forall org, has_owner db org -> has_owner db' org.
Proof.
  intros Hok. destruct 1 as [userID mid db' Hs|orgID userID mid callerRole db' Hacts Hs|orgID userID mid role callerRole db' Hacts Hs
    |id now orgID userID current role db' Hs|userID mid db' Hs|id now orgID projectID userID].
  - split; [|intros org Ho; by eapply leave_owner]. unfold Leave in Hs.
    apply bind_Ok in Hs as (id & _ & Hs). do 2 (apply bind_Ok in Hs as (? & _ & Hs)).
    apply bind_Ok in Hs as ([] & _ & Hs). apply map_err_Ok in Hs. by eapply repo_Delete_ok.
  - apply DeleteOther_Ok in Hs as (id & org0 & m & user & _ & Horg & Hm & Hrow & Hu & Hne & Hrole & Hd).
    split; [by eapply repo_Delete_ok|]. intros org. apply (other_owner db db' org org0 m id userID user callerRole); try done.
    + intros Hc. destruct (Hacts Hc) as (o & Ho & Hown). congruence.
    + intros u Hown Hd'. apply org_row_true in Hrow as (Ht & Hk & _). by eapply owner_survives.
  - apply UpdateRole_Ok in Hs as (id & org0 & m & user & _ & Horg & Hm & Hrow & Hu & Hne & Hrole & Hd).
    split; [by eapply set_role_ok|]. intros org. apply (other_owner db db' org org0 m id userID user callerRole); try done.
    + auto.
    + intros Hc. destruct (Hacts Hc) as (o & Ho & Hown). congruence.
    + intros u Hown Hd'. by eapply set_role_owners.
  - unfold membership_Create in Hs. do 2 (apply bind_Ok in Hs as (? & _ & Hs)).
    apply bind_Ok in Hs as (db1 & Hc%map_err_Ok & Hs). apply create_row_inv in Hc as (m & Hi & Ht & Ho & Hu & Hp).
    assert (members_ok db1) as Hok1 by by eapply members_ok_insert.
    assert (forall org, has_owner db org -> has_owner db1 org) as Hown1 by (intros org [u Hu']; exists u; by eapply insert_owners).
    destruct current; [|by injection Hs as <-]. split; [by eapply set_current_ok|].
    intros org [u Hu']%Hown1. exists u. by eapply set_current_owners.
  - unfold membership_SetCurrent in Hs. do 3 (apply bind_Ok in Hs as (? & _ & Hs)). split; [by eapply set_current_ok|].
    intros org [u Hu]. exists u. by eapply set_current_owners.
  - unfold SetProjectOwner, AddResourceRole. destruct (existsb _ _); [done|]. destruct (insert_row _ _ _) as [db1|] eqn:E; [|done].
    split; [by eapply members_ok_insert|]. intros org [u Hu]. exists u. by eapply insert_owners.
Qed.
End Steps.

(** C9: Whatever members do - leave, remove other members, change their roles,
    join, switch their current organization - an organization that has an owner
    keeps one, provided that a caller who acts as an owner is an owner; and the
    memberships stay well formed *)
Theorem organization_keeps_owner `{UuidLib} (enforce : Role -> Policy -> result bool) db db' org :
  (forall r p b, enforce r p = Ok b -> b = role_allows r p) ->
  members_ok db -> rtc (membership_step enforce) db db' -> has_owner db org -> members_ok db' /\ has_owner db' org.
Proof.
  intros He Hok Hs. revert Hok. induction Hs as [|db1 db2 db3 H12 _ IH]; [done|]. intros Hok Ho.
  destruct (membership_step_spec enforce He _ _ Hok H12) as [Hok2 Ho2]. auto.
Qed.

(** ** What is left of a removed member *)

Lemma elem_of_all_memberships db user m :
  m ∈ ListAllMembershipsForUser db user <->
  exists i, md_memberships db !! i = Some m
    /\ (ms_type m = MembershipTypeUser /\ ms_member m = user
        \/ ms_type m = MembershipTypeGroup /\ exists k gm, md_group_members db !! k = Some gm
              /\ gm_user gm = user /\ gm_deleted gm = false /\ gm_group gm = ms_member m).
Proof.
  unfold ListAllMembershipsForUser, ListAllByUser, ListGroupMembershipsByUser. rewrite elem_of_app, !elem_of_select_rows.
  assert (forall g, g ∈ gm_group <$> List.filter (fun gm => bool_decide (gm_user gm = user) && negb (gm_deleted gm))
                           (map_to_list (md_group_members db)).*2
    <-> exists k gm, md_group_members db !! k = Some gm /\ gm_user gm = user /\ gm_deleted gm = false /\ gm_group gm = g) as Hg.
  { intros g. rewrite list_elem_of_fmap. split.
    - intros (gm & -> & Hin%list_elem_of_In). apply filter_In in Hin as [Hin E]. apply andb_true_iff in E as [E1 E2].
      apply bool_decide_eq_true in E1. apply negb_true_iff in E2. apply list_elem_of_In, list_elem_of_fmap in Hin as ([k gm'] & -> & Hk).
      apply elem_of_map_to_list in Hk. by exists k, gm'.
    - intros (k & gm & Hk & Hu & Hd & <-). exists gm. split; [done|]. apply list_elem_of_In, filter_In.
      rewrite Hd, bool_decide_eq_true_2 by done. split; [|done].
      apply list_elem_of_In, list_elem_of_fmap. exists (k, gm). split; [done|]. by apply elem_of_map_to_list. }
  setoid_rewrite andb_true_iff. setoid_rewrite bool_decide_eq_true. setoid_rewrite Hg. naive_solver.
Qed.

Lemma orgs_and_scopes_spec ms l acc :
  let r := orgs_and_scopes ms l acc in
  (forall o, o ∈ r.1 <-> o ∈ acc.1 \/ exists m, m ∈ l /\ ms_resource_type m = ResourceTypeOrganization /\ ms_resource m = o)
  /\ forall o s, r.2 !! o = Some s -> acc.2 !! o = Some s
       \/ s = scope_in ms o /\ exists m, m ∈ l /\ ms_resource_type m = ResourceTypeOrganization /\ ms_resource m = o
            /\ RBACEnabled (ms_role m) = true.
Proof.
  cbn zeta. revert acc. induction l as [|m l IH]; intros acc; cbn [orgs_and_scopes]; [set_solver|].
  destruct (IH (if bool_decide (ms_resource_type m = ResourceTypeOrganization) then
           (acc.1 ++ [ms_resource m],
            if RBACEnabled (ms_role m) then <[ms_resource m := scope_in ms (ms_resource m)]> acc.2 else acc.2)
         else acc)) as [Ho Hs]. split.
  - intros o. rewrite Ho. case_bool_decide as E; cbn [fst]; set_solver.
  - intros o s Hl. apply Hs in Hl as [Hl|(-> & x & Hx & Hx')]; [|right; split; [done|]; exists x; set_solver].
    case_bool_decide; [|by left]. cbn [snd] in Hl.
    destruct (RBACEnabled _) eqn:E; [|by left]. apply lookup_insert_Some in Hl as [[<- <-]|[_ Hl]]; [|by left].
    right. split; [done|]. exists m. set_solver.
Qed.

(** Whether a membership restricts its member to resources of the organization *)
Definition restricts (o : UUID) (m : MembershipRow) : bool :=
  bool_decide (ms_resource_type m = ResourceTypeOrganization) && bool_decide (ms_resource m = o) && RBACEnabled (ms_role m).

Lemma orgs_and_scopes_lookup ms l acc o :
  (orgs_and_scopes ms l acc).2 !! o = if existsb (restricts o) l then Some (scope_in ms o) else acc.2 !! o.
Proof.
  revert acc. induction l as [|m l IH]; intros acc; cbn [orgs_and_scopes existsb]; [done|]. rewrite IH.
  destruct (existsb (restricts o) l); [by rewrite orb_true_r|]. rewrite orb_false_r. unfold restricts.
  case_bool_decide as E; [|done]. cbn [andb snd]. case_bool_decide as Eo.
  - subst. destruct (RBACEnabled _); [by rewrite lookup_insert_eq|done].
  - destruct (RBACEnabled _); [by rewrite lookup_insert_ne|done].
Qed.

Lemma deleted_row_gone db id m db' i x :
  md_memberships db !! id = Some m -> ms_type m = MembershipTypeUser -> ms_resource_type m = ResourceTypeOrganization ->
  repo_DeleteMembership db id = Ok db' -> md_memberships db' !! i = Some x ->
  md_memberships db !! i = Some x /\ (ms_member x = ms_member m -> ms_organization x <> ms_organization m).
Proof.
  intros Hm Ht Hk Hd Hx. destruct (repo_Delete_Ok _ _ _ _ Hm Hd) as [Et _]. rewrite Et in Hx.
  apply lookup_delete_rows in Hx as [Hx Hf]. split; [done|]. unfold deleted_with in Hf. apply orb_false_iff in Hf as [_ Hf].
  rewrite (bool_decide_eq_true_2 (ms_resource_type m = _)), (bool_decide_eq_true_2 (ms_type m = _)) in Hf by done.
  cbn in Hf. intros Hmem Horg. by rewrite !bool_decide_eq_true_2 in Hf by done.
Qed.

Lemma deleted_groups_left db id m org db' k gm g :
  md_memberships db !! id = Some m -> ms_type m = MembershipTypeUser -> ms_resource_type m = ResourceTypeOrganization ->
  ms_organization m = Some org -> repo_DeleteMembership db id = Ok db' ->
  md_group_members db' !! k = Some gm -> gm_user gm = ms_member m -> gm_deleted gm = false ->
  md_groups db !! gm_group gm = Some g -> gr_organization g <> org.
Proof.
  intros Hm Ht Hk Ho Hd Hgm Hu Hl Hg Horg. unfold repo_DeleteMembership in Hd.
  rewrite Hm, (bool_decide_eq_true_2 (ms_resource_type m = _)), (bool_decide_eq_true_2 (ms_type m = _)), Ho in Hd by done.
  cbn [andb] in Hd. injection Hd as <-. cbn [md_group_members] in Hgm. rewrite lookup_fmap in Hgm.
  destruct (md_group_members db !! k) as [gm0|]; [|done]. injection Hgm as <-.
  destruct (live_member_in db (ms_member m) org gm0) eqn:E; [done|]. unfold live_member_in in E.
  by rewrite Hg, Hl, !bool_decide_eq_true_2 in E by done.
Qed.

(** Once the membership of a user in an organization is removed, the user has
    no membership left there, neither direct nor through a group, and the
    organizations and scopes that downloads and discovery use for the user no
    longer name the organization *)
Theorem removed_member_loses_organization db id m org db' :
  members_ok db -> org <> uuid_Nil -> md_memberships db !! id = Some m -> org_row org m = true ->
  repo_DeleteMembership db id = Ok db' ->
  (forall x, x ∈ ListAllMembershipsForUser db' (ms_member m) -> membership_org x <> org)
  /\ (org ∉ fst (GetOrgsAndRBACInfoForUser db' (ms_member m)))
  /\ snd (GetOrgsAndRBACInfoForUser db' (ms_member m)) !! org = None.
Proof.
  intros Hok Hnil Hm (Ht & Hk & Hres)%org_row_true Hd. destruct (mo_org _ Hok id m Hm Ht Hk) as (Ho & _ & _).
  rewrite Hres in Ho.
  assert (forall x, x ∈ ListAllMembershipsForUser db' (ms_member m) -> membership_org x <> org) as Hnone.
  { intros x (i & Hx & Hkind)%elem_of_all_memberships Horg.
    destruct (deleted_row_gone _ _ _ _ _ _ Hm Ht Hk Hd Hx) as [Hx0 Hgone].
    destruct Hkind as [[Htx Hu]|(Htx & k & gm & Hgm & Hu & Hl & Hg)].
    - apply (Hgone Hu). rewrite Ho. unfold membership_org in Horg. case_bool_decide as E.
      + destruct (mo_org _ Hok i x Hx0 Htx E) as (-> & _). congruence.
      + destruct (ms_organization x); cbn in Horg; congruence.
    - destruct (mo_group _ Hok i x Hx0 Htx) as (g & Hgg & Hgo). rewrite <-Hg in Hgg.
      apply (deleted_groups_left db id m org db' k gm g); try done. congruence. }
  split; [done|]. unfold GetOrgsAndRBACInfoForUser.
  destruct (orgs_and_scopes_spec (ListAllMembershipsForUser db' (ms_member m)) (ListAllMembershipsForUser db' (ms_member m)) ([], ∅))
    as [Hor Hsc]. assert (forall x, x ∈ ListAllMembershipsForUser db' (ms_member m) ->
      ms_resource_type x = ResourceTypeOrganization -> ms_resource x <> org) as Hno.
  { intros x Hx Hkx Hrx. apply (Hnone x Hx). unfold membership_org. by rewrite bool_decide_eq_true_2. }
  split.
  - intros [Hin|(x & Hx & Hkx & Hrx)]%Hor; [by apply not_elem_of_nil in Hin|by apply (Hno x)].
  - apply eq_None_not_Some. intros [s [Hs|(_ & x & Hx & Hkx & Hrx & _)]%Hsc]; [done|by apply (Hno x)].
Qed.

(** ** Witnesses *)

Module MemberTables.
#[export] Instance any_uuid : UuidLib := {| uuid_Parse := fun s => if is_empty s then None else Some s |}.

Definition table_enforce (r : Role) (p : Policy) : result bool := Ok (role_allows r p).

Definition empty_db : MemberDB :=
  {| md_memberships := ∅; md_groups := {[ "g" := {| gr_organization := "o"; gr_member_count := 1 |} ]};
     md_group_members := {[ "gm" := {| gm_group := "g"; gm_user := "u2"; gm_deleted := false |} ]};
     md_users := {[ "u1" := "one@x"; "u2" := "two@x" ]}; md_orgs := {[ "o" := "org" ]} |}.

Definition ok_or (r : result MemberDB) : MemberDB := match r with Ok db => db | Err _ => empty_db end.

(** An owner, a second member who becomes an owner too, and the first one leaving *)
Definition db1 : MemberDB := ok_or (membership_Create empty_db "m1" 1 "o" "u1" true (Some RoleOwner)).
Definition db2 : MemberDB := ok_or (membership_Create db1 "m2" 2 "o" "u2" true None).
Definition db3 : MemberDB := ok_or (UpdateRole table_enforce db2 "o" "u1" "m2" RoleOwner RoleOwner).
Definition db4 : MemberDB := ok_or (Leave db3 "u1" "m1").
End MemberTables.

Import MemberTables.

Lemma empty_db_ok : members_ok empty_db.
Proof. constructor; [apply map_Forall_empty|apply map_Forall_empty|by intros i j a b Ha]. Qed.

Lemma steps_to_db3 : rtc (membership_step table_enforce) db1 db3.
Proof.
  apply (rtc_l _ _ db2); [apply (ms_create _ _ "m2" 2 "o" "u2" true None); vm_compute; reflexivity|].
  apply rtc_once. apply (ms_update_role _ _ "o" "u1" "m2" RoleOwner RoleOwner).
  - intros _. exists "o". split; [done|]. exists "m1". eexists. repeat split; vm_compute; reflexivity.
  - vm_compute. reflexivity.
Qed.

Lemma db1_owner : members_ok db1 /\ has_owner db1 "o".
Proof.
  split.
  - apply (membership_step_spec table_enforce ltac:(by intros r p b [= <-]) empty_db); [exact empty_db_ok|].
    apply (ms_create _ _ "m1" 1 "o" "u1" true (Some RoleOwner)). vm_compute. reflexivity.
  - exists "u1", "m1". eexists. repeat split; vm_compute; reflexivity.
Qed.

Lemma db3_ok : members_ok db3.
Proof.
  pose proof steps_to_db3 as Hs. pose proof (proj1 db1_owner) as Hok. revert Hok.
  induction Hs as [|x y z Hxy _ IH]; [done|]. intros Hok. apply IH.
  by apply (membership_step_spec table_enforce ltac:(by intros r p b [= <-]) x).
Qed.

Lemma organization_keeps_owner_witness : members_ok db4 /\ has_owner db4 "o".
Proof.
  apply (organization_keeps_owner table_enforce db1).
  - by intros r p b [= <-].
  - apply db1_owner.
  - eapply rtc_r; [exact steps_to_db3|]. apply (ms_leave _ _ "u1" "m1"). vm_compute. reflexivity.
  - apply db1_owner.
Defined.

Lemma removed_member_loses_organization_witness :
  "o" ∈ (GetOrgsAndRBACInfoForUser db3 "u1").1 /\ "o" ∉ (GetOrgsAndRBACInfoForUser db4 "u1").1.
Proof.
  split; [apply (bool_decide_unpack _); vm_compute; exact I|].
  destruct (md_memberships db3 !! "m1") as [m|] eqn:Hm; [|vm_compute in Hm; done].
  assert (ms_member m = "u1" /\ org_row "o" m = true) as [Hu Ho].
  { assert (Some m = md_memberships db3 !! "m1") as E by done. vm_compute in E. injection E as ->. done. }
  rewrite <-Hu. apply (removed_member_loses_organization db3 "m1" m "o" db4).
  - exact db3_ok.
  - done.
  - exact Hm.
  - exact Ho.
  - vm_compute. reflexivity.
Defined.
