(* ===== verification/CasTokens.v ===== *)
(** * The tokens of the artifact CAS

    internal/robotaccount/cas/robotaccount.go, their verification in
    app/artifact-cas/internal/server/grpc.go, and the use case that mints them,
    app/controlplane/pkg/biz/cascredentials.go.  The control plane signs a token
    that names a backend, a role and possibly one digest; the CAS trusts nothing
    else.

    The signature library and the hashes of go-containerregistry are classes,
    with the behaviour that they document as laws. *)

From S2P Require Import Prelude.
From S2P Require Import GoStrings.
From S2P Require Import BizErrors.
From S2P Require Import Authz.

Open Scope Z_scope.

(** ** Hashes *)

(** go-containerregistry's [Hash]; [SHA256] is the sum of crypto/sha256 in
    hexadecimal *)
Class Hashes := {
  Hash : Type;
  NewHash : string -> result Hash;
  Hash_String : Hash -> string;
  Hash_Hex : Hash -> string;
  SHA256 : string -> string
}.

Class HashLaws `{Hashes} := {
  NewHash_String : forall s h, NewHash s = Ok h -> Hash_String h = s;
  NewHash_sha256 : forall s h, NewHash s = Ok h -> s = "sha256:" +:+ Hash_Hex h;
  NewHash_SHA256 : forall content, is_ok (NewHash ("sha256:" +:+ SHA256 content)) = true;
  SHA256_plain : forall content,
    has_char ":" (SHA256 content) = false /\ has_char "/" (SHA256 content) = false /\ SHA256 content <> ""
}.

(** ** Claims *)

Abbreviation CasRole := string.
Definition Downloader : CasRole := "downloader".
Definition Uploader : CasRole := "uploader".

Definition JWTAudience : string := "artifact-cas.chainloop".
(** jwt.CASAudience of the control plane *)
Definition CASAudience : string := "artifact-cas.chainloop".
Definition DefaultIssuer : string := "cp.chainloop".

Record Claims := {
  cc_Issuer : string;
  cc_Audience : list string;
  cc_ExpiresAt : option Z;
  cc_Role : CasRole;
  cc_StoredSecretID : string;
  cc_BackendType : string;
  cc_MaxBytes : Z;
  cc_OrgID : string;
  cc_SourceInternal : bool;
  cc_Digest : string
}.

#[export] Instance Claims_eq_dec : EqDecision Claims.
Proof. solve_decision. Defined.

Definition set_source_internal (c : Claims) : Claims :=
  {| cc_Issuer := cc_Issuer c; cc_Audience := cc_Audience c; cc_ExpiresAt := cc_ExpiresAt c; cc_Role := cc_Role c;
     cc_StoredSecretID := cc_StoredSecretID c; cc_BackendType := cc_BackendType c; cc_MaxBytes := cc_MaxBytes c;
     cc_OrgID := cc_OrgID c; cc_SourceInternal := true; cc_Digest := cc_Digest c |}.
Definition set_digest (d : string) (c : Claims) : Claims :=
  {| cc_Issuer := cc_Issuer c; cc_Audience := cc_Audience c; cc_ExpiresAt := cc_ExpiresAt c; cc_Role := cc_Role c;
     cc_StoredSecretID := cc_StoredSecretID c; cc_BackendType := cc_BackendType c; cc_MaxBytes := cc_MaxBytes c;
     cc_OrgID := cc_OrgID c; cc_SourceInternal := cc_SourceInternal c; cc_Digest := d |}.

(** [GenerateOpt] *)
Abbreviation GenerateOpt := (Claims -> Claims).
Definition WithSourceInternal : GenerateOpt := set_source_internal.
Definition WithDigest (digest : string) : GenerateOpt := set_digest digest.

(** [Validate], called by the parser of tokens *)
Definition Validate (c : Claims) : result unit :=
  if bool_decide (JWTAudience ∈ cc_Audience c) then Ok tt else Err (EMsg "token has invalid audience").

Definition known_role (r : CasRole) : bool := bool_decide (r = Downloader) || bool_decide (r = Uploader).

Definition CheckRole (c : Claims) (r : CasRole) : result unit :=
  _ ← guard_err (negb (known_role r)) (EMsg "invalid role");
  guard_err (negb (bool_decide (cc_Role c = r))) (EMsg ("invalid role, got=" +:+ cc_Role c +:+ ", want=" +:+ r)).

(** [parseDigest]: the full form or the hexadecimal part only *)
Definition parseDigest `{Hashes} (digest : string) : result Hash :=
  NewHash (if has_char ":" digest then digest else "sha256:" +:+ digest).

Definition CheckDigest `{Hashes} (c : Claims) (digest : string) : result unit :=
  if is_empty (cc_Digest c) then Ok tt
  else
    requested ← map_err (EWrap "invalid digest") (parseDigest digest);
    guard_err (negb (bool_decide (Hash_String requested = cc_Digest c)))
      (EMsg "token not authorized for this digest").

Definition Unauthorized : string := "Unauthorized".

(** What the middleware left in the context: nothing, claims of another type, or ours *)
Inductive AuthInfo := NoAuth | OtherClaims | CasClaims (c : Claims).

Definition InfoFromAuth (auth : AuthInfo) : result Claims :=
  match auth with
  | NoAuth => Err (transport_err Unauthorized "missing authentication information")
  | OtherClaims => Err (transport_err Unauthorized "invalid authentication information")
  | CasClaims c =>
      _ ← guard_err (is_empty (cc_StoredSecretID c)) (transport_err Unauthorized "missing secret reference");
      _ ← guard_err (is_empty (cc_BackendType c)) (transport_err Unauthorized "missing backend type");
      _ ← guard_err (negb (known_role (cc_Role c))) (transport_err Unauthorized "invalid role");
      Ok c
  end.

(** ** Minting *)

(** The signature library: keys, signing, and parsing a token at a time, which
    checks the signature and the expiration and tells the signing method *)
Class Jwt := {
  Key : Type;
  ParseECPrivateKeyFromPEM : string -> result Key;
  public_key : Key -> string;
  SignedString : Key -> Claims -> result string;
  ParseWithClaims : string -> Z -> string -> result (string * Claims)
}.

Definition SigningMethod : string := "ES512".

Class JwtLaws `{Jwt} := {
  Parse_Signed : forall k c now t, SignedString k c = Ok t ->
    (forall e, cc_ExpiresAt c = Some e -> now < e) ->
    ParseWithClaims (public_key k) now t = Ok (SigningMethod, c)
}.

Definition ErrTokenMalformed : string := "token is malformed".
Definition ErrTokenExpired : string := "token is expired".
Definition ErrTokenNotValidYet : string := "token is not valid yet".

(** [verifyAndMarshalJWT]; a token that parses is valid *)
Definition verifyAndMarshalJWT `{Jwt} (pub : string) (now : Z) (token : string) : result Claims :=
  match ('(method, c) ← ParseWithClaims pub now token; _ ← Validate c; Ok (method, c)) with
  | Err e =>
      if errors_is ErrTokenMalformed e then Err (transport_err Unauthorized "token is invalid")
      else if errors_is ErrTokenExpired e || errors_is ErrTokenNotValidYet e
      then Err (transport_err Unauthorized "token has expired")
      else Err (transport_err Unauthorized "unauthorized")
  | Ok (method, c) =>
      _ ← guard_err (negb (bool_decide (method = SigningMethod))) (transport_err Unauthorized "wrong signing method");
      Ok c
  end.

Section Builder.
Context `{Hashes} `{Jwt} `{UuidLib} (ReadFile : string -> result string).

Record Builder := { bd_pk : option Key; bd_issuer : string; bd_expiration : option Z }.

Definition WithIssuer (issuer : string) (b : Builder) : result Builder :=
  Ok {| bd_pk := bd_pk b; bd_issuer := issuer; bd_expiration := bd_expiration b |}.
Definition WithExpiration (d : Z) (b : Builder) : result Builder :=
  _ ← guard_err (bool_decide (d = 0)) (EMsg "expiration needs to be set");
  Ok {| bd_pk := bd_pk b; bd_issuer := bd_issuer b; bd_expiration := Some d |}.
Definition WithPrivateKey (path : string) (b : Builder) : result Builder :=
  rawKey ← ReadFile path;
  k ← map_err (EWrap "unable to parse ECDSA private key") (ParseECPrivateKeyFromPEM rawKey);
  Ok {| bd_pk := Some k; bd_issuer := bd_issuer b; bd_expiration := bd_expiration b |}.

Definition NewBuilder (opts : list (Builder -> result Builder)) : result Builder :=
  b ← foldM_result (fun b opt => opt b) opts {| bd_pk := None; bd_issuer := ""; bd_expiration := None |};
  _ ← guard_err (is_empty (bd_issuer b)) (EMsg "issuer is required");
  _ ← guard_err (match bd_pk b with None => true | Some _ => false end) (EMsg "private key is required");
  Ok b.

(** The claims that [GenerateJWT] signs *)
Definition builder_claims (ra : Builder) (now : Z) (backendType secretID audience : string) (role : CasRole)
    (maxBytes : Z) (orgID : string) (opts : list GenerateOpt) : result Claims :=
  _ ← guard_err (is_empty backendType) (EMsg "backend type is required");
  _ ← guard_err (is_empty secretID) (EMsg "secret id is required");
  _ ← guard_err (is_empty audience) (EMsg "audience is required");
  _ ← guard_err (is_empty orgID) (EMsg "org id is required");
  _ ← guard_err (negb (known_role role)) (EMsg "invalid role");
  let claims := foldl (fun c opt => opt c)
    {| cc_Issuer := bd_issuer ra; cc_Audience := [audience];
       cc_ExpiresAt := Z.add now <$> bd_expiration ra; cc_Role := role; cc_StoredSecretID := secretID;
       cc_BackendType := backendType; cc_MaxBytes := maxBytes; cc_OrgID := orgID; cc_SourceInternal := false;
       cc_Digest := "" |} opts in
  if is_empty (cc_Digest claims) then Ok claims
  else
    h ← map_err (EWrap "invalid digest") (parseDigest (cc_Digest claims));
    Ok (set_digest (Hash_String h) claims).

Definition GenerateJWT (ra : Builder) (now : Z) (backendType secretID audience : string) (role : CasRole)
    (maxBytes : Z) (orgID : string) (opts : list GenerateOpt) : result string :=
  claims ← builder_claims ra now backendType secretID audience role maxBytes orgID opts;
  match bd_pk ra with
  | Some k => SignedString k claims
  | None => Err (EMsg "key is invalid")
  end.

(** ** The use case of the control plane *)

Definition defaultExpirationTime : Z := 30.

Definition NewCASCredentialsUseCase (privateKeyPath : string) : result Builder :=
  NewBuilder [WithPrivateKey privateKeyPath; WithIssuer DefaultIssuer; WithExpiration defaultExpirationTime].

Record CASCredsOpts := {
  cr_BackendType : string;
  cr_SecretPath : string;
  cr_Role : CasRole;
  cr_MaxBytes : Z;
  cr_OrgID : UUID;
  cr_SourceInternal : bool;
  cr_Digest : string
}.

(** [validateDigest] of casmapping.go *)
Definition validateDigest (digest : string) : result unit :=
  match NewHash digest with
  | Ok _ => Ok tt
  | Err _ => Err (NewErrValidationStr "invalid digest format")
  end.

Definition GenerateTemporaryCredentials (uc : Builder) (now : Z) (ref : CASCredsOpts) : result string :=
  _ ← guard_err (bool_decide (cr_OrgID ref = uuid_Nil)) (EMsg "org id is required");
  let internal := if cr_SourceInternal ref then [WithSourceInternal] else [] in
  scope ← (if is_empty (cr_Digest ref) then Ok []
           else _ ← validateDigest (cr_Digest ref); Ok [WithDigest (cr_Digest ref)]);
  GenerateJWT uc now (cr_BackendType ref) (cr_SecretPath ref) CASAudience (cr_Role ref) (cr_MaxBytes ref)
    (cr_OrgID ref) (internal ++ scope).

(** The claims of the temporary credentials *)
Definition temporary_claims (uc : Builder) (now : Z) (ref : CASCredsOpts) : Claims :=
  {| cc_Issuer := bd_issuer uc; cc_Audience := [CASAudience]; cc_ExpiresAt := Z.add now <$> bd_expiration uc;
     cc_Role := cr_Role ref; cc_StoredSecretID := cr_SecretPath ref; cc_BackendType := cr_BackendType ref;
     cc_MaxBytes := cr_MaxBytes ref; cc_OrgID := cr_OrgID ref; cc_SourceInternal := cr_SourceInternal ref;
     cc_Digest := cr_Digest ref |}.
End Builder.

(** ** Lemmas *)

Section Lemmas.
Context `{HashLaws}.

Lemma NewHash_inv s h : NewHash s = Ok h -> Hash_String h = s /\ s = "sha256:" +:+ Hash_Hex h /\ has_char ":" s = true.
Proof.
  intros Hh. pose proof (NewHash_sha256 _ _ Hh) as Hs. split; [by apply NewHash_String|]. split; [done|]. by rewrite Hs.
Qed.

Lemma parseDigest_full s h : NewHash s = Ok h -> parseDigest s = Ok h.
Proof. intros Hh. destruct (NewHash_inv s h Hh) as (_ & _ & Hc). unfold parseDigest. by rewrite Hc. Qed.

Lemma parseDigest_Ok d h :
  parseDigest d = Ok h -> Hash_String h = (if has_char ":" d then d else "sha256:" +:+ d).
Proof. unfold parseDigest. apply NewHash_String. Qed.

(** A scoped token is only good for its digest, in either form *)
Lemma CheckDigest_scoped c d :
  CheckDigest c d = Ok tt -> cc_Digest c <> "" -> cc_Digest c = d \/ cc_Digest c = "sha256:" +:+ d.
Proof.
  unfold CheckDigest. intros Hc Hne. apply is_empty_false in Hne. rewrite Hne in Hc. inv_ok. split_bool.
  match goal with Hp : parseDigest d = Ok _ |- _ => apply parseDigest_Ok in Hp end.
  destruct (has_char ":" d); [left|right]; congruence.
Qed.

Lemma CheckDigest_own c h :
  NewHash (cc_Digest c) = Ok h ->
  CheckDigest c (cc_Digest c) = Ok tt /\ (has_char ":" (Hash_Hex h) = false -> CheckDigest c (Hash_Hex h) = Ok tt).
Proof.
  intros Hh. destruct (NewHash_inv _ _ Hh) as (Hs & Hx & Hcol).
  assert (is_empty (cc_Digest c) = false) as Hne by (apply is_empty_false; intros E; by rewrite E in Hcol).
  unfold CheckDigest, parseDigest. rewrite Hne, Hcol, Hh. cbn. rewrite bool_decide_eq_true_2 by done.
  split; [done|]. intros Hp. rewrite Hp, <-Hx, Hh. cbn. by rewrite bool_decide_eq_true_2.
Qed.

Lemma CheckRole_Ok c r : CheckRole c r = Ok tt <-> known_role r = true /\ cc_Role c = r.
Proof.
  unfold CheckRole. split.
  - intros Hc. inv_ok. by split_bool.
  - intros (Hk & Hr). rewrite Hk, Hr. cbn. by rewrite bool_decide_eq_true_2.
Qed.

Lemma GenerateTemporaryCredentials_Ok `{Jwt} `{UuidLib} uc now ref t :
  GenerateTemporaryCredentials uc now ref = Ok t ->
  (exists k, bd_pk uc = Some k /\ SignedString k (temporary_claims uc now ref) = Ok t)
  /\ cr_OrgID ref <> uuid_Nil /\ cr_BackendType ref <> "" /\ cr_SecretPath ref <> "" /\ known_role (cr_Role ref) = true
  /\ (cr_Digest ref <> "" -> exists h, NewHash (cr_Digest ref) = Ok h).
Proof.
  unfold GenerateTemporaryCredentials. intros Hg. apply bind_Ok in Hg as ([] & Hnil%guard_err_Ok & Hg).
  apply bind_Ok in Hg as (scope & Hscope & Hg). unfold GenerateJWT in Hg. apply bind_Ok in Hg as (c & Hc & Hg).
  assert (exists k, bd_pk uc = Some k /\ SignedString k c = Ok t) as (k & Hk & Hsig).
  { destruct (bd_pk uc) as [k|]; [by exists k|done]. }
  unfold builder_claims in Hc. inv_ok. split_bool.
  repeat match goal with Hx : is_empty _ = false |- _ => apply is_empty_false in Hx end.
  assert (c = temporary_claims uc now ref /\ (cr_Digest ref <> "" -> exists h, NewHash (cr_Digest ref) = Ok h)) as [-> Hd].
  { destruct (is_empty (cr_Digest ref)) eqn:Hd.
    - apply is_empty_true in Hd. injection Hscope as <-. unfold temporary_claims. rewrite Hd. split; [|done].
      destruct (cr_SourceInternal ref); cbn in Hc; by injection Hc as <-.
    - apply bind_Ok in Hscope as ([] & Hv & [= <-]). unfold validateDigest in Hv.
      destruct (NewHash (cr_Digest ref)) as [h|] eqn:Hh; [|done]. split; [|by exists h].
      pose proof (NewHash_String _ _ Hh) as Hs. pose proof (parseDigest_full _ _ Hh) as Hp.
      destruct (cr_SourceInternal ref) eqn:Hi; cbn in Hc; rewrite Hd, Hp in Hc; cbn in Hc; injection Hc as <-;
        unfold temporary_claims, set_digest; cbn; by rewrite Hs, Hi. }
  split; [by exists k|]. repeat (split; [done|]). done.
Qed.
(** The CAS reads back the claims of temporary credentials until they expire *)
Lemma temporary_token_verifies `{JwtLaws} `{UuidLib} uc k now at_time ref t :
  GenerateTemporaryCredentials uc now ref = Ok t -> bd_pk uc = Some k ->
  (forall d, bd_expiration uc = Some d -> at_time < now + d) ->
  verifyAndMarshalJWT (public_key k) at_time t = Ok (temporary_claims uc now ref)
  /\ InfoFromAuth (CasClaims (temporary_claims uc now ref)) = Ok (temporary_claims uc now ref).
Proof.
  intros Hg Hpk Hexp. destruct (GenerateTemporaryCredentials_Ok _ _ _ _ Hg) as ((k' & Hk' & Hs) & Ho & Hb & Hsec & Hr & Hd).
  assert (k' = k) as -> by congruence. apply is_empty_false in Hb, Hsec. split; [|cbn; by rewrite Hsec, Hb, Hr].
  unfold verifyAndMarshalJWT. rewrite (Parse_Signed k _ _ _ Hs); [reflexivity|].
  cbn. intros e. destruct (bd_expiration uc) as [d|]; [|done]. cbn. intros [= <-]. by apply Hexp.
Qed.
End Lemmas.

(** The credentials that the control plane mints say what was asked for, no more: until
    they expire the CAS reads back from them exactly the backend, the organization, the
    size limit and the role of the request; no other role passes; and credentials for one
    digest pass for that digest only, in full or as its hexadecimal part. *)
Theorem temporary_credentials_faithful `{HashLaws} `{JwtLaws} `{UuidLib} uc k now at_time ref t :
  GenerateTemporaryCredentials uc now ref = Ok t -> bd_pk uc = Some k ->
  (forall d, bd_expiration uc = Some d -> at_time < now + d) ->
  exists c, verifyAndMarshalJWT (public_key k) at_time t = Ok c /\ InfoFromAuth (CasClaims c) = Ok c
    /\ cc_BackendType c = cr_BackendType ref /\ cc_StoredSecretID c = cr_SecretPath ref /\ cc_OrgID c = cr_OrgID ref
    /\ cc_MaxBytes c = cr_MaxBytes ref /\ cc_SourceInternal c = cr_SourceInternal ref
    /\ (forall r, CheckRole c r = Ok tt <-> r = cr_Role ref)
    /\ (cr_Digest ref <> "" ->
          CheckDigest c (cr_Digest ref) = Ok tt
          /\ forall d, CheckDigest c d = Ok tt -> d = cr_Digest ref \/ "sha256:" +:+ d = cr_Digest ref).
Proof.
  intros Hg Hpk Hexp. destruct (GenerateTemporaryCredentials_Ok _ _ _ _ Hg) as (_ & _ & _ & _ & Hr & Hd).
  destruct (temporary_token_verifies _ _ _ _ _ _ Hg Hpk Hexp) as [Hv Hi]. exists (temporary_claims uc now ref).
  do 7 (split; [done|]). split.
  - intros r. rewrite CheckRole_Ok. cbn. naive_solver.
  - intros Hne. destruct (Hd Hne) as (h & Hh). split; [by destruct (CheckDigest_own (temporary_claims uc now ref) h Hh)|].
    intros d Hc. apply CheckDigest_scoped in Hc; [|done]. cbn in Hc. naive_solver.
Qed.

(** ** A library of tokens and hashes *)

Module Toy.

(** The checksum is a toy: the length in unary, so that it stays hexadecimal *)
Fixpoint toy_sum (s : string) : string :=
  match s with "" => "f" | String _ s' => String "a" (toy_sum s') end.

#[export] Instance toy_hashes : Hashes := {
  Hash := string;
  NewHash s := match cut ":" s with
               | Some (alg, hex) => if bool_decide (alg = "sha256") && negb (has_char ":" hex) then Ok hex
                                    else Err (EMsg "unsupported hash")
               | None => Err (EMsg "cannot parse hash")
               end;
  Hash_String h := "sha256:" +:+ h;
  Hash_Hex h := h;
  SHA256 := toy_sum
}.

Lemma toy_sum_plain s : has_char ":" (toy_sum s) = false /\ has_char "/" (toy_sum s) = false /\ toy_sum s <> "".
Proof. induction s as [|c s (IH1 & IH2 & _)]; [done|]. cbn. by rewrite IH1, IH2. Qed.

Lemma toy_NewHash s h : NewHash s = Ok h -> s = "sha256:" +:+ h.
Proof.
  cbn. destruct (cut ":" s) as [[alg hex]|] eqn:E; [|done]. destruct (bool_decide (alg = "sha256")) eqn:Ha; [|done].
  apply bool_decide_eq_true in Ha as ->. destruct (has_char ":" hex); [done|]. cbn. intros [= <-].
  by apply cut_Some in E.
Qed.

#[export] Instance toy_hash_laws : HashLaws.
Proof.
  split.
  - intros s h Hh. apply toy_NewHash in Hh. by rewrite Hh.
  - intros s h Hh. by apply toy_NewHash in Hh.
  - intros content. cbn. destruct (toy_sum content) as [|c r] eqn:E; [done|].
    change (is_ok (if negb (has_char ":" (String c r)) then Ok (String c r) else Err (EMsg "unsupported hash")) = true).
    rewrite <-E. destruct (toy_sum_plain content) as [-> _]. done.
  - apply toy_sum_plain.
Qed.

(** Tokens are signed by writing them down: a finite table of claims *)
Definition toy_claims : list Claims :=
  [{| cc_Issuer := DefaultIssuer; cc_Audience := [CASAudience]; cc_ExpiresAt := Some 130; cc_Role := Downloader;
      cc_StoredSecretID := "secret"; cc_BackendType := "OCI"; cc_MaxBytes := 100; cc_OrgID := "o";
      cc_SourceInternal := false; cc_Digest := "sha256:aaa" |}].

#[export] Instance toy_jwt : Jwt := {
  Key := unit;
  ParseECPrivateKeyFromPEM _ := Ok tt;
  public_key _ := "pub";
  SignedString _ c := if bool_decide (c ∈ toy_claims) then Ok "token-0" else Err (EMsg "not in the table");
  ParseWithClaims _ now t :=
    if bool_decide (t = "token-0") then
      match toy_claims with
      | c :: _ => if match cc_ExpiresAt c with Some e => bool_decide (now < e) | None => true end then Ok (SigningMethod, c)
                  else Err (ESentinel ErrTokenExpired)
      | [] => Err (ESentinel ErrTokenMalformed)
      end
    else Err (ESentinel ErrTokenMalformed)
}.

#[export] Instance toy_jwt_laws : JwtLaws.
Proof.
  split. intros k c now t. cbn [SignedString ParseWithClaims toy_jwt].
  destruct (bool_decide (c ∈ toy_claims)) eqn:Hc; [|done]. apply bool_decide_eq_true in Hc.
  unfold toy_claims in Hc. apply list_elem_of_singleton in Hc as ->. intros [= <-] He.
  rewrite (bool_decide_eq_true_2 ("token-0" = "token-0")) by done. cbn. rewrite bool_decide_eq_true_2; [done|]. by apply He.
Qed.

#[export] Instance toy_uuid : UuidLib := {| uuid_Parse := Some |}.

Definition toy_builder : Builder := {| bd_pk := Some tt; bd_issuer := DefaultIssuer; bd_expiration := Some 30 |}.

Definition toy_creds : CASCredsOpts :=
  {| cr_BackendType := "OCI"; cr_SecretPath := "secret"; cr_Role := Downloader; cr_MaxBytes := 100; cr_OrgID := "o";
     cr_SourceInternal := false; cr_Digest := "sha256:aaa" |}.

Example toy_builder_configured : NewCASCredentialsUseCase Ok "key.pem" = Ok toy_builder.
Proof. reflexivity. Qed.

Example toy_token_expires :
  GenerateTemporaryCredentials toy_builder 100 toy_creds = Ok "token-0"
  /\ is_ok (verifyAndMarshalJWT "pub" 129 "token-0") = true
  /\ verifyAndMarshalJWT "pub" 130 "token-0" = Err (transport_err Unauthorized "token has expired").
Proof. vm_compute. done. Qed.
End Toy.

Import Toy.

Lemma temporary_credentials_faithful_witness :
  exists c, verifyAndMarshalJWT "pub" 110 "token-0" = Ok c /\ cc_Digest c = "sha256:aaa"
    /\ CheckDigest c "aaa" = Ok tt /\ CheckRole c Downloader = Ok tt.
Proof.
  destruct (temporary_credentials_faithful Toy.toy_builder tt 100 110 Toy.toy_creds "token-0") as (c & Hv & _ & _ & _ & _ & _ & _ & Hr & _).
  - vm_compute. reflexivity.
  - reflexivity.
  - intros d [= <-]. done.
  - exists c. split; [exact Hv|]. assert (Ok c = verifyAndMarshalJWT "pub" 110 "token-0") as E by (symmetry; exact Hv).
    vm_compute in E. injection E as ->. split; [reflexivity|]. split; [vm_compute; reflexivity|]. by apply Hr.
Defined.
