(* ===== verification/CasMappings.v ===== *)
(** * Where an artifact is stored, and who may download it

    app/controlplane/pkg/biz/casmapping.go over pkg/data/casmapping.go, and the
    services that hand out credentials for the artifact CAS:
    internal/service/cascredential.go and casredirect.go, with the mappings that
    internal/service/attestation.go creates for a stored attestation.

    A mapping says that a backend holds the artifact of a digest, for a project or
    a product of the organization of the backend.  Downloading means finding a
    mapping that the caller reaches.  The order in which the database returns rows
    that its query leaves tied is a parameter. *)

From S2P Require Import Prelude.
From S2P Require Import GoStrings.
From S2P Require Import CraftingState.
From S2P Require Import Envelope.
From S2P Require Import Renderer.
From S2P Require Import BizErrors.
From S2P Require Import WorkflowRuns.
From S2P Require Import Authz.
From S2P Require Import ApiTokens.
From S2P Require Import Access.
From S2P Require Import CasBackends.
From S2P Require Import Memberships.
From S2P Require Import CasTokens.

Open Scope Z_scope.

(** ** The tables (ent/schema/casmapping.go) *)

Record MappingRow := {
  mp_digest : string;
  mp_backend : UUID;
  mp_organization : UUID;
  mp_project : option UUID;
  mp_product : option UUID;
  mp_run : option UUID;
  mp_created_at : Z
}.

(** The mappings, with the tables that their queries read; of the workflow runs
    only their existence matters *)
Record CasDB := {
  cd_mappings : gmap UUID MappingRow;
  cd_backends : Backends;
  cd_projects : gmap UUID ProjectRow;
  cd_runs : gset UUID
}.

Definition with_mappings (db : CasDB) (t : gmap UUID MappingRow) : CasDB :=
  {| cd_mappings := t; cd_backends := cd_backends db; cd_projects := cd_projects db; cd_runs := cd_runs db |}.

(** [ORDER BY]: rows in some order that respects [le] *)
Class DbOrder := {
  order_by : forall {A}, (A -> A -> bool) -> list A -> list A
}.
Class DbOrderLaws `{DbOrder} := {
  order_by_Permutation : forall {A} (le : A -> A -> bool) l, order_by le l ≡ₚ l;
  order_by_sorted : forall {A} (le : A -> A -> bool) l,
    Transitive (fun a b => le a b = true) -> (forall a b, le a b = true \/ le b a = true) ->
    StronglySorted (fun a b => le a b = true) (order_by le l)
}.

(** [biz.CASMapping]; identifiers that are not set are the zero UUID *)
Record CASMapping := {
  cm_ID : UUID;
  cm_OrgID : UUID;
  cm_WorkflowRunID : UUID;
  cm_Backend : UUID * Backend;
  cm_Digest : string;
  cm_CreatedAt : Z;
  cm_ProjectID : UUID;
  cm_ProductID : UUID
}.

Definition entCASMappingToBiz (db : CasDB) (m : UUID * MappingRow) : result CASMapping :=
  match cd_backends db !! mp_backend m.2 with
  | None => Err (EWrap "failed to get cas backend" (EMsg "ent: cas_backend not found"))
  | Some b =>
      Ok {| cm_ID := m.1; cm_OrgID := mp_organization m.2; cm_WorkflowRunID := default uuid_Nil (mp_run m.2);
            cm_Backend := (mp_backend m.2, b); cm_Digest := mp_digest m.2; cm_CreatedAt := mp_created_at m.2;
            cm_ProjectID := default uuid_Nil (mp_project m.2); cm_ProductID := default uuid_Nil (mp_product m.2) |}
  end.

Record CASMappingCreateOpts := {
  mc_WorkflowRunID : option UUID;
  mc_ProjectID : option UUID;
  mc_ProductID : option UUID
}.

Definition live_project (db : CasDB) (org project : UUID) : bool :=
  match cd_projects db !! project with
  | Some p => bool_decide (pr_organization p = org) && negb (pr_deleted p)
  | None => false
  end.

(** [findByID], with the backend, deleted or not *)
Definition findMappingByID (db : CasDB) (id : UUID) : result (option CASMapping) :=
  match cd_mappings db !! id with
  | None => Ok None
  | Some row => Some <$> entCASMappingToBiz db (id, row)
  end.

(** The checks of [Create], and the row that it inserts *)
Definition new_mapping (db : CasDB) (now : Z) (digest : string) (casBackendID : UUID)
    (opts : option CASMappingCreateOpts) : result MappingRow :=
  backend ← match backend_FindByID (cd_backends db) casBackendID with
            | Some b => Ok b
            | None => Err (EMsg "cas backend not found")
            end;
  _ ← match opts ≫= mc_WorkflowRunID with
      | Some run => guard_err (negb (bool_decide (run ∈ cd_runs db))) (NewErrNotFound "workflow run")
      | None => Ok tt
      end;
  _ ← match opts ≫= mc_ProjectID with
      | Some p => guard_err (negb (live_project db (cb_organization backend) p))
                    (NewErrNotFound ("project " +:+ p +:+ " in organization " +:+ cb_organization backend))
      | None => Ok tt
      end;
  Ok {| mp_digest := digest; mp_backend := casBackendID; mp_organization := cb_organization backend;
        mp_project := opts ≫= mc_ProjectID; mp_product := opts ≫= mc_ProductID; mp_run := opts ≫= mc_WorkflowRunID;
        mp_created_at := now |}.

Definition repo_CreateMapping (db : CasDB) (id : UUID) (now : Z) (digest : string) (casBackendID : UUID)
    (opts : option CASMappingCreateOpts) : result (option CASMapping) * CasDB :=
  match new_mapping db now digest casBackendID opts with
  | Err e => (Err e, db)
  | Ok row =>
      match cd_mappings db !! id with
      | Some _ => (Err (EWrap "failed to create casMapping" (EMsg "constraint failed")), db)
      | None =>
          let db' := with_mappings db (<[id := row]> (cd_mappings db)) in
          (findMappingByID db' id, db')
      end
  end.

(** The predicate of one organization, and their disjunction *)
Definition in_org_scope (scopes : RBACScopes) (m : MappingRow) (o : UUID) : bool :=
  match scopes !! o with
  | None => bool_decide (mp_organization m = o)
  | Some scope =>
      bool_decide (mp_organization m = o)
      && (match mp_project m with Some p => bool_decide (p ∈ sc_ProjectIDs scope) | None => false end
          || match mp_product m with Some p => bool_decide (p ∈ sc_ProductIDs scope) | None => false end)
  end.

Definition in_scopes (orgs : list UUID) (scopes : RBACScopes) (m : MappingRow) : bool :=
  existsb (in_org_scope scopes m) orgs.

(** [queryServiceable] *)
Definition queryServiceable (db : CasDB) (P : MappingRow -> bool) : list (UUID * MappingRow) :=
  List.filter (fun kv => P kv.2 && match backend_FindByID (cd_backends db) (mp_backend kv.2) with
                                   | Some _ => true | None => false end)
    (map_to_list (cd_mappings db)).

Definition backend_default (db : CasDB) (m : MappingRow) : bool :=
  match cd_backends db !! mp_backend m with Some b => cb_default b | None => false end.

(** [ORDER BY cas_backend.default DESC, created_at ASC] *)
Definition preferred (db : CasDB) (a b : UUID * MappingRow) : bool :=
  match backend_default db a.2, backend_default db b.2 with
  | true, false => true
  | false, true => false
  | _, _ => bool_decide (mp_created_at a.2 <= mp_created_at b.2)
  end.

Definition oldest (a b : UUID * MappingRow) : bool := bool_decide (mp_created_at a.2 <= mp_created_at b.2).

Section Mappings.
Context `{UuidLib} `{Hashes} `{DbOrder}.

Definition findOnePreferringDefault (db : CasDB) (P : MappingRow -> bool) : option (UUID * MappingRow) :=
  head (order_by (preferred db) (queryServiceable db P)).

Definition FindByDigestInOrgs (db : CasDB) (digest : string) (orgs : list UUID) (scopes : RBACScopes)
    : result (option CASMapping) :=
  match orgs with
  | [] => Ok None
  | _ =>
      match findOnePreferringDefault db (fun m => bool_decide (mp_digest m = digest) && in_scopes orgs scopes m) with
      | None => Ok None
      | Some m => Some <$> entCASMappingToBiz db m
      end
  end.

Definition repo_ListByDigestInOrg (db : CasDB) (digest : string) (orgID : UUID) : result (list CASMapping) :=
  mapM_result (entCASMappingToBiz db)
    (order_by oldest (queryServiceable db (fun m => bool_decide (mp_digest m = digest)
                                                    && bool_decide (mp_organization m = orgID)))).

(** ** The use case (biz/casmapping.go) *)

Definition mapping_Create (db : CasDB) (id : UUID) (now : Z) (digest casBackendID : string)
    (opts : option CASMappingCreateOpts) : result (option CASMapping) * CasDB :=
  match (b ← parse_uuid casBackendID;
         _ ← validateDigest digest;
         _ ← guard_err (bool_decide (is_Some (opts ≫= mc_ProjectID)) && bool_decide (is_Some (opts ≫= mc_ProductID)))
               (NewErrValidationStr "a mapping cannot be scoped to a project and a product at once");
         Ok b) with
  | Err e => (Err e, db)
  | Ok b => repo_CreateMapping db id now digest b opts
  end.

Definition FindCASMappingForDownloadByOrg (db : CasDB) (digest : string) (orgs : list UUID) (scopes : RBACScopes)
    : result CASMapping :=
  _ ← validateDigest digest;
  _ ← guard_err (bool_decide (orgs = [])) (NewErrValidationStr "no organizations provided");
  mapping ← map_err (EWrap "failed to find cas mapping in orgs") (FindByDigestInOrgs db digest orgs scopes);
  match mapping with
  | Some m => Ok m
  | None => Err (NewErrNotFound "digest not found in any mapping")
  end.

Definition FindCASMappingForDownloadByUser (members : MemberDB) (db : CasDB) (digest userID : string) : result CASMapping :=
  user ← parse_uuid userID;
  let '(userOrgs, scopes) := GetOrgsAndRBACInfoForUser members user in
  map_err (EWrap "failed to find cas mapping for download") (FindCASMappingForDownloadByOrg db digest userOrgs scopes).

Definition ListByDigestInOrg (db : CasDB) (digest : string) (orgID : UUID) : result (list CASMapping) :=
  _ ← validateDigest digest;
  _ ← guard_err (bool_decide (orgID = uuid_Nil)) (NewErrValidationStr "organization ID cannot be empty");
  map_err (EWrap "failed to list cas mappings in org") (repo_ListByDigestInOrg db digest orgID).
End Mappings.

(** [CASMappingLookupRef] *)
Record CASMappingLookupRef := { lr_Name : string; lr_Digest : string }.

(** The mappings that [storeAttestation] creates for the references of an
    attestation (internal/service/attestation.go); [fresh] makes their identifiers *)
Fixpoint create_mappings `{UuidLib} `{Hashes} (others : goerr -> bool) (fresh : CasDB -> UUID) (db : CasDB) (now : Z)
    (backend : UUID * Backend) (run project : UUID) (refs : list CASMappingLookupRef) : result unit * CasDB :=
  match refs with
  | [] => (Ok tt, db)
  | ref :: refs =>
      match mapping_Create db (fresh db) now (lr_Digest ref) backend.1
              (Some {| mc_WorkflowRunID := Some run; mc_ProjectID := Some project; mc_ProductID := None |}) with
      | (Err e, db') => (Err (handleUseCaseErr others e), db')
      | (Ok _, db') => create_mappings others fresh db' now backend run project refs
      end
  end.

(** [LookupDigestsInAttestation]; the hash of a material is dereferenced *)
Section Lookup.
Context `{Decoders}.

Definition material_ref (m : NormalizedMaterial) : result (list CASMappingLookupRef) :=
  if nz_uploaded_to_cas m then
    digest ← material_hash m; Ok [{| lr_Name := nz_name m; lr_Digest := digest |}]
  else Ok [].

Definition evaluations_ref (ref : option PolicyEvaluationsRef) : result (list CASMappingLookupRef) :=
  match ref with
  | None => Ok []
  | Some r =>
      match per_descriptor r with
      | None => Err (panic "nil dereference")
      | Some d => Ok match rd_digest d !! "sha256" with
                     | Some hex => [{| lr_Name := rd_name d; lr_Digest := "sha256:" +:+ hex |}]
                     | None => []
                     end
      end
  end.

Definition LookupDigestsInAttestation (att : DsseEnvelope) (digest : string) : result (list CASMappingLookupRef) :=
  predicate ← map_err (EWrap "extracting predicate") (extract_predicate att);
  materials ← mapM_result material_ref (get_materials predicate);
  evaluations ← evaluations_ref (pp_evaluations_ref predicate);
  Ok ({| lr_Name := "attestation"; lr_Digest := digest |} :: concat materials ++ evaluations).

Definition map_attestation `{Hashes} (others : goerr -> bool) (fresh : CasDB -> UUID) (db : CasDB) (now : Z)
    (backend : UUID * Backend) (run project : UUID) (att : DsseEnvelope) (digest : string) : result unit * CasDB :=
  if is_inline backend.2 then (Ok tt, db)
  else match LookupDigestsInAttestation att digest with
       | Err e => (Err (handleUseCaseErr others e), db)
       | Ok references => create_mappings others fresh db now backend run project references
       end.
End Lookup.

(** ** The services *)

Inductive CredentialsRole := ROLE_UNSPECIFIED | ROLE_DOWNLOADER | ROLE_UPLOADER.

Record CredentialsRequest := {
  rq_Role : CredentialsRole;
  rq_Digest : string;
  rq_SourceInternal : bool;
  rq_ScopeToDigest : bool
}.

Definition requireCurrentUserOrAPIToken (c : Ctx) : result (option UUID * option CtxToken) :=
  match cx_user c, cx_token c with
  | None, None => Err (transport_err Forbidden "logged in user nor API token found")
  | u, t => Ok (u, t)
  end.

Definition requireCurrentAuthzSubject (c : Ctx) : result string :=
  if is_empty (cx_subject c) then Err (transport_err NotFound "authorization subject not set") else Ok (cx_subject c).

Definition resolveSourceInternal (requested : bool) (token : option CtxToken) : bool :=
  requested && match token with Some t => ct_IsSystem t | None => false end.

(** [rbacScopesForOrg] as the scopes of the repository: projects only *)
Definition caller_scopes (c : Ctx) (orgID : UUID) : result RBACScopes :=
  scopes ← (rbacScopesForOrg c orgID : result (gmap UUID (list UUID)));
  Ok (fmap (M := gmap UUID) (fun projects => {| sc_ProjectIDs := projects; sc_ProductIDs := [] |}) scopes).

Section Services.
Context `{UuidLib} `{Hashes} `{DbOrder} `{Jwt}.
(** [AuthzUseCase.Enforce], the errors that are bad requests, and the tables *)
Context (enforce : string -> Policy -> result bool) (others : goerr -> bool).
Context (members : MemberDB) (db : CasDB) (builder : Builder).

(** The lookup for the current user, or else for the current token: the outer
    error is returned to the caller at once, the inner one is the lookup's *)
Definition find_mapping (c : Ctx) (org : Org) (digest : string) : result (result CASMapping) :=
  match cx_user c with
  | Some u => Ok (FindCASMappingForDownloadByUser members db digest u)
  | None =>
      orgID ← map_err (handleUseCaseErr others) (raw_uuid (org_ID org));
      scopes ← caller_scopes c orgID;
      Ok (FindCASMappingForDownloadByOrg db digest [orgID] scopes)
  end.

Definition role_of (r : CredentialsRole) : result (CasRole * Policy) :=
  match r with
  | ROLE_DOWNLOADER => Ok (Downloader, PolicyArtifactDownload)
  | ROLE_UPLOADER => Ok (Uploader, PolicyArtifactUpload)
  | ROLE_UNSPECIFIED => Err (panic "nil dereference")
  end.

(** The backend of a download: of the mapping, else the default one if allowed.
    For a user every error of the lookup is dropped. *)
Definition download_backend (c : Ctx) (org : Org) (digest : string) (defaultBackend : UUID * Backend)
    : result (option (UUID * Backend)) :=
  found ← find_mapping c org digest;
  mapping ← match found, cx_user c with
            | Ok m, _ => Ok (Some m)
            | Err _, Some _ => Ok None
            | Err e, None => if IsNotFound e then Ok None
                             else if IsErrValidation e then Err (transport_err BadRequest "invalid")
                             else Err (handleUseCaseErr others e)
            end;
  match mapping with
  | Some m => Ok (Some (cm_Backend m))
  | None =>
      ok ← map_err (handleUseCaseErr others) (enforce (cx_subject c) PolicyDefaultBackendArtifactRead);
      Ok (if ok : bool then Some defaultBackend else None)
  end.

(** [CASCredentialsService.Get], up to the request for credentials *)
Definition credentials_for (c : Ctx) (req : CredentialsRequest) : result (CASCredsOpts * (UUID * Backend)) :=
  who ← requireCurrentUserOrAPIToken c;
  let sourceInternal := resolveSourceInternal (rq_SourceInternal req) who.2 in
  currentOrg ← requireCurrentOrg c;
  subject ← requireCurrentAuthzSubject c;
  _ ← guard_err (rq_ScopeToDigest req && is_empty (rq_Digest req))
        (transport_err BadRequest "a digest is required to scope the credentials");
  '(role, policyToCheck) ← role_of (rq_Role req);
  ok ← map_err (handleUseCaseErr others) (enforce subject policyToCheck);
  _ ← guard_err (negb ok) (transport_err Forbidden "not allowed to perform this operation");
  defaultBackend ← match FindDefaultBackend (cd_backends db) (org_ID currentOrg) with
                   | Ok b => Ok b
                   | Err e => if IsNotFound e then Err (transport_err NotFound "main CAS backend not found")
                              else Err (handleUseCaseErr others e)
                   end;
  backend ← match rq_Role req with
            | ROLE_DOWNLOADER => download_backend c currentOrg (rq_Digest req) defaultBackend
            | ROLE_UPLOADER => Ok (Some defaultBackend)
            | ROLE_UNSPECIFIED => Ok None
            end;
  match backend with
  | None => Err (transport_err Forbidden "operation not allowed")
  | Some b =>
      _ ← guard_err (is_inline b.2)
            (transport_err BadRequest "cannot upload or download artifacts from an inline CAS backend");
      Ok ({| cr_BackendType := cb_provider b.2; cr_SecretPath := cb_secret b.2; cr_Role := role;
             cr_MaxBytes := cb_max_bytes b.2; cr_OrgID := cb_organization b.2; cr_SourceInternal := sourceInternal;
             cr_Digest := if rq_ScopeToDigest req then rq_Digest req else "" |}, b)
  end.

Definition credentials_Get (now : Z) (c : Ctx) (req : CredentialsRequest) : result (string * (UUID * Backend)) :=
  '(ref, b) ← credentials_for c req;
  t ← map_err (handleUseCaseErr others) (GenerateTemporaryCredentials builder now ref);
  Ok (t, b).

(** [GetDownloadURL]: the base URL with the digest joined to its path, and the
    token as the query parameter t; building URLs is net/url's *)
Context (download_url : string) (join_path : string -> string -> result string) (with_query_t : string -> string -> string).

Definition ErrCasBackendInvalid : goerr := transport_err BadRequest "CAS Storage is in an invalid state".

Definition download_credentials (c : Ctx) (digest : string) (scopeToDigest : bool) : result (CASMapping * option CASCredsOpts) :=
  _ ← requireCurrentUserOrAPIToken c;
  currentOrg ← requireCurrentOrg c;
  found ← find_mapping c currentOrg digest;
  mapping ← match found with
            | Ok m => Ok m
            | Err e => if IsNotFound e then Err (transport_err NotFound "artifact not found")
                       else if IsErrValidation e then Err (transport_err BadRequest "invalid")
                       else Err (handleUseCaseErr others e)
            end;
  let b := (cm_Backend mapping).2 in
  _ ← guard_err (is_inline b) (transport_err NotFound "CAS backend is inline");
  _ ← guard_err (negb (bool_decide (cb_status b = ValidationOK))) ErrCasBackendInvalid;
  Ok (mapping,
      if is_empty (cb_secret b) then None
      else Some {| cr_BackendType := cb_provider b; cr_SecretPath := cb_secret b; cr_Role := Downloader;
                   cr_MaxBytes := cb_max_bytes b; cr_OrgID := cb_organization b; cr_SourceInternal := false;
                   cr_Digest := if scopeToDigest then digest else "" |}).

Definition GetDownloadURL (now : Z) (c : Ctx) (digest : string) (scopeToDigest : bool) : result string :=
  '(mapping, creds) ← download_credentials c digest scopeToDigest;
  url ← map_err (handleUseCaseErr others) (join_path download_url digest);
  match creds with
  | None => Ok url
  | Some ref =>
      t ← map_err (handleUseCaseErr others) (GenerateTemporaryCredentials builder now ref);
      Ok (with_query_t url t)
  end.
End Services.

(** ** Who reaches a mapping *)

(** The row is of one of the organizations, and of a project or a product of the
    caller's scope there, if it has one *)
Definition reachable (orgs : list UUID) (scopes : RBACScopes) (row : MappingRow) : Prop :=
  mp_organization row ∈ orgs /\
  forall sc, scopes !! mp_organization row = Some sc ->
    (exists p, mp_project row = Some p /\ p ∈ sc_ProjectIDs sc) \/ (exists p, mp_product row = Some p /\ p ∈ sc_ProductIDs sc).

Definition live_backend (db : CasDB) (row : MappingRow) (b : Backend) : Prop :=
  backend_FindByID (cd_backends db) (mp_backend row) = Some b.

Lemma in_opt (l : list UUID) (o : option UUID) :
  match o with Some p => bool_decide (p ∈ l) | None => false end = true <-> exists p, o = Some p /\ p ∈ l.
Proof. destruct o; [rewrite bool_decide_eq_true|]; naive_solver. Qed.

Lemma in_scopes_reachable orgs scopes row : in_scopes orgs scopes row = true <-> reachable orgs scopes row.
Proof.
  unfold in_scopes, reachable. rewrite existsb_exists. setoid_rewrite <-list_elem_of_In. unfold in_org_scope. split.
  - intros (o & Ho & Hs). destruct (scopes !! o) as [sc|] eqn:Hsc.
    + apply andb_true_iff in Hs as [<-%bool_decide_eq_true Hs]. split; [done|]. intros sc' Hsc'.
      assert (sc' = sc) as -> by congruence. by rewrite orb_true_iff, !in_opt in Hs.
    + apply bool_decide_eq_true in Hs as <-. split; [done|congruence].
  - intros (Ho & Hs). exists (mp_organization row). split; [done|]. destruct (scopes !! _) as [sc|] eqn:Hsc.
    + rewrite andb_true_iff, orb_true_iff, !in_opt, bool_decide_eq_true. split; [done|]. by apply Hs.
    + by apply bool_decide_eq_true.
Qed.

Lemma reach_predicate digest orgs scopes row :
  bool_decide (mp_digest row = digest) && in_scopes orgs scopes row = true <-> mp_digest row = digest /\ reachable orgs scopes row.
Proof. by rewrite andb_true_iff, bool_decide_eq_true, in_scopes_reachable. Qed.

Lemma elem_of_serviceable db P id row :
  (id, row) ∈ queryServiceable db P <-> cd_mappings db !! id = Some row /\ P row = true /\ exists b, live_backend db row b.
Proof.
  unfold queryServiceable, live_backend. rewrite list_elem_of_In, filter_In, <-list_elem_of_In, elem_of_map_to_list, andb_true_iff.
  cbn. destruct (backend_FindByID _ _); naive_solver.
Qed.

Lemma preferred_total db a b : preferred db a b = true \/ preferred db b a = true.
Proof.
  unfold preferred. destruct (backend_default db a.2), (backend_default db b.2); auto; rewrite !bool_decide_eq_true; lia.
Qed.

Lemma preferred_trans db : Transitive (fun a b => preferred db a b = true).
Proof.
  intros a b c. unfold preferred.
  destruct (backend_default db a.2), (backend_default db b.2), (backend_default db c.2); try done; rewrite !bool_decide_eq_true; lia.
Qed.

Section Facts.
Context `{UuidLib} `{Hashes} `{DbOrderLaws}.

Lemma findOne_spec db P :
  match findOnePreferringDefault db P with
  | None => forall id row b, cd_mappings db !! id = Some row -> P row = true -> ~ live_backend db row b
  | Some (id, row) =>
      cd_mappings db !! id = Some row /\ P row = true /\ (exists b, live_backend db row b)
      /\ forall id' row' b', cd_mappings db !! id' = Some row' -> P row' = true -> live_backend db row' b' ->
           preferred db (id, row) (id', row') = true
  end.
Proof.
  unfold findOnePreferringDefault. pose proof (order_by_Permutation (preferred db) (queryServiceable db P)) as Hp.
  pose proof (order_by_sorted (preferred db) (queryServiceable db P) (preferred_trans db) (preferred_total db)) as Hs.
  destruct (order_by _ _) as [|[id row] l]; cbn [head].
  - intros id row b Hm HP Hb. assert ((id, row) ∈ queryServiceable db P) as Hin by (apply elem_of_serviceable; eauto).
    rewrite <-Hp in Hin. by apply not_elem_of_nil in Hin.
  - assert ((id, row) ∈ queryServiceable db P) as (Hm & HP & Hb)%elem_of_serviceable by (rewrite <-Hp; left).
    do 3 (split; [done|]). intros id' row' b' Hm' HP' Hb'.
    assert ((id', row') ∈ queryServiceable db P) as Hin by (apply elem_of_serviceable; eauto). rewrite <-Hp in Hin.
    inversion_clear Hs as [|? ? _ Hall]. apply elem_of_cons in Hin as [[= -> ->]|Hin].
    + unfold preferred. destruct (backend_default db _); by apply bool_decide_eq_true.
    + rewrite Forall_forall in Hall. by apply Hall.
Qed.

Lemma live_backend_default db row b : live_backend db row b -> backend_default db row = cb_default b.
Proof.
  unfold live_backend, backend_FindByID, backend_default. destruct (cd_backends db !! mp_backend row) as [b0|]; [|done].
  cbn. destruct (cb_deleted b0); [done|]. by intros [= ->].
Qed.

(** The mapping that is chosen *)
Record chosen (db : CasDB) (digest : string) (reach : MappingRow -> Prop) (m : CASMapping) (row : MappingRow) : Prop := {
  ch_row : cd_mappings db !! cm_ID m = Some row;
  ch_digest : mp_digest row = digest;
  ch_reach : reach row;
  ch_id : (cm_Backend m).1 = mp_backend row;
  ch_live : live_backend db row (cm_Backend m).2;
  ch_org : cm_OrgID m = mp_organization row;
  ch_best : forall id' row' b', cd_mappings db !! id' = Some row' -> mp_digest row' = digest -> reach row' ->
    live_backend db row' b' ->
    (cb_default b' = true -> cb_default (cm_Backend m).2 = true)
    /\ (cb_default b' = cb_default (cm_Backend m).2 -> mp_created_at row <= mp_created_at row')
}.

Lemma preferred_spec db a b ba bb :
  live_backend db a.2 ba -> live_backend db b.2 bb -> preferred db a b = true ->
  (cb_default bb = true -> cb_default ba = true) /\ (cb_default bb = cb_default ba -> mp_created_at a.2 <= mp_created_at b.2).
Proof.
  intros Ha Hb. unfold preferred. rewrite (live_backend_default _ _ _ Ha), (live_backend_default _ _ _ Hb).
  destruct (cb_default ba), (cb_default bb); try done; rewrite bool_decide_eq_true; done.
Qed.

Lemma live_backend_row db row b : live_backend db row b -> cd_backends db !! mp_backend row = Some b.
Proof.
  unfold live_backend, backend_FindByID. destruct (cd_backends db !! _) as [b0|]; [|done]. cbn.
  destruct (cb_deleted b0); [done|]. by intros [= ->].
Qed.

Lemma FindByOrg_spec db digest orgs scopes :
  is_ok (NewHash digest) = true ->
  match FindCASMappingForDownloadByOrg db digest orgs scopes with
  | Ok m => exists row, chosen db digest (reachable orgs scopes) m row
  | Err e => forall id row b, cd_mappings db !! id = Some row -> mp_digest row = digest -> reachable orgs scopes row ->
               ~ live_backend db row b
  end.
Proof.
  intros Hh. unfold FindCASMappingForDownloadByOrg, validateDigest. destruct (NewHash digest); [|done]. cbn [mbind result_bind].
  case_bool_decide as Hnil; cbn [guard_err mbind result_bind].
  { intros id row b _ _ [Ho _]. rewrite Hnil in Ho. by apply not_elem_of_nil in Ho. }
  unfold FindByDigestInOrgs. destruct orgs as [|o orgs]; [done|].
  match goal with |- context [findOnePreferringDefault db ?P] => pose proof (findOne_spec db P) as Hf;
    destruct (findOnePreferringDefault db P) as [[id row]|] end.
  - destruct Hf as (Hm & HP & (b & Hb) & Hbest). apply reach_predicate in HP as [Hd Hr].
    pose proof (live_backend_row _ _ _ Hb) as Hrow.
    unfold entCASMappingToBiz. cbn [snd fst]. rewrite Hrow. cbn. exists row. constructor; cbn; try done.
    intros id' row' b' Hm' Hd' Hr' Hb'. apply (preferred_spec db (id, row) (id', row')); [done..|].
    apply (Hbest id' row' b'); [done|by apply reach_predicate|done].
  - cbn. intros id row b Hm Hd Hr. apply (Hf id row b); [done|]. by apply reach_predicate.
Qed.

(** What the memberships of a user let it read *)
Definition user_may_read (members : MemberDB) (user : UUID) (row : MappingRow) : Prop :=
  let mine := ListAllMembershipsForUser members user in
  let org := mp_organization row in
  (exists x, x ∈ mine /\ ms_resource_type x = ResourceTypeOrganization /\ ms_resource x = org)
  /\ ((forall x, x ∈ mine -> restricts org x = false)
      \/ exists x, x ∈ mine /\ membership_org x = org
           /\ (ms_resource_type x = ResourceTypeProject /\ mp_project row = Some (ms_resource x)
               \/ ms_resource_type x = ResourceTypeProduct /\ mp_product row = Some (ms_resource x))).

Lemma elem_of_resources org ms kind p :
  p ∈ resourcesWithMembershipInOrg org ms kind
  <-> exists x, x ∈ ms /\ ms_resource_type x = kind /\ membership_org x = org /\ ms_resource x = p.
Proof.
  unfold resourcesWithMembershipInOrg. rewrite list_elem_of_fmap. setoid_rewrite list_elem_of_In. setoid_rewrite filter_In.
  setoid_rewrite <-list_elem_of_In. setoid_rewrite andb_true_iff. setoid_rewrite bool_decide_eq_true. naive_solver.
Qed.

Lemma user_reachable members user row :
  let '(orgs, scopes) := GetOrgsAndRBACInfoForUser members user in
  reachable orgs scopes row <-> user_may_read members user row.
Proof.
  unfold GetOrgsAndRBACInfoForUser, user_may_read. set (ms := ListAllMembershipsForUser members user).
  pose proof (orgs_and_scopes_spec ms ms ([], ∅)) as [Ho _]. pose proof (orgs_and_scopes_lookup ms ms ([], ∅)) as Hs.
  destruct (orgs_and_scopes ms ms ([], ∅)) as [orgs scopes]. cbn [fst snd] in *. unfold reachable. rewrite Ho, Hs, lookup_empty.
  assert ((mp_organization row ∈ [] \/ (exists m, m ∈ ms /\ ms_resource_type m = ResourceTypeOrganization /\ ms_resource m = mp_organization row))
          <-> exists x, x ∈ ms /\ ms_resource_type x = ResourceTypeOrganization /\ ms_resource x = mp_organization row) as ->
    by (split; [intros [Hx%not_elem_of_nil|Hx]; [done|done]|by right]).
  apply and_iff_compat_l. destruct (existsb _ ms) eqn:Hx.
  - apply existsb_exists in Hx as (x & Hx%list_elem_of_In & Hrx). split.
    + intros Hsc. right. destruct (Hsc _ eq_refl) as [(p & Hp & Hin)|(p & Hp & Hin)];
        apply elem_of_resources in Hin as (y & Hy & Hk & Horg & <-); exists y; auto.
    + intros [Hno|(y & Hy & Horg & Hk)] sc [= <-]; [by rewrite Hno in Hrx|].
      destruct Hk as [[Hk Hp]|[Hk Hp]]; [left|right]; exists (ms_resource y); (split; [done|]); apply elem_of_resources; eauto.
  - split; [|done]. intros _. left. intros x Hxin. apply not_true_is_false. intros Hr.
    assert (existsb (restricts (mp_organization row)) ms = true) as He; [|congruence].
    apply existsb_exists. exists x. split; [by apply list_elem_of_In|done].
Qed.
End Facts.

Lemma chosen_iff db digest (P Q : MappingRow -> Prop) m row :
  (forall r, P r <-> Q r) -> chosen db digest P m row -> chosen db digest Q m row.
Proof.
  intros Hpq [Hr Hd Hp Hi Hl Ho Hb]. constructor; try done; [by apply Hpq|].
  intros id' row' b' Hm Hd' Hq. apply (Hb id' row' b'); [done..|by apply Hpq].
Qed.

(** C31: What a user downloads is exactly what its memberships let it read. The lookup
    finds a mapping of the digest, on a backend that is not deleted, in an organization
    of the user, and for a user that is restricted there, of a project or a product it
    is a member of; of these it takes one on a default backend if there is any, and the
    oldest one among equals; and it fails only when there is none. *)
Theorem user_download_exact `{UuidLib} `{Hashes} `{DbOrderLaws} members db digest userID user :
  uuid_Parse userID = Some user -> is_ok (NewHash digest) = true ->
  match FindCASMappingForDownloadByUser members db digest userID with
  | Ok m => exists row, chosen db digest (user_may_read members user) m row
  | Err _ => forall id row b, cd_mappings db !! id = Some row -> mp_digest row = digest ->
               user_may_read members user row -> ~ live_backend db row b
  end.
Proof.
  intros Hu Hh. unfold FindCASMappingForDownloadByUser, parse_uuid. rewrite Hu. cbn [mbind result_bind].
  pose proof (user_reachable members user) as Hr. destruct (GetOrgsAndRBACInfoForUser members user) as [orgs scopes].
  pose proof (FindByOrg_spec db digest orgs scopes Hh) as Hf.
  destruct (FindCASMappingForDownloadByOrg db digest orgs scopes) as [m|e]; cbn [map_err].
  - destruct Hf as (row & Hc). exists row. eapply chosen_iff; [|done]. exact Hr.
  - intros id row b Hm Hd Hmay. apply (Hf id row b); [done..|]. by apply Hr.
Qed.

(** ** Creating mappings *)

Section Creation.
Context `{UuidLib} `{Hashes}.

Lemma new_mapping_Ok db now digest u opts row :
  new_mapping db now digest u opts = Ok row ->
  exists b, backend_FindByID (cd_backends db) u = Some b /\ mp_digest row = digest /\ mp_backend row = u
    /\ mp_organization row = cb_organization b /\ mp_project row = opts ≫= mc_ProjectID /\ mp_product row = opts ≫= mc_ProductID
    /\ forall p, mp_project row = Some p -> live_project db (cb_organization b) p = true.
Proof.
  unfold new_mapping. intros Hn. apply bind_Ok in Hn as (b & Hb & Hn). apply bind_Ok in Hn as ([] & _ & Hn).
  apply bind_Ok in Hn as ([] & Hp & Hn). injection Hn as <-. destruct (backend_FindByID _ u) as [b0|]; [|done].
  injection Hb as ->. exists b. do 6 (split; [done|]). cbn. intros p Hpr. rewrite Hpr in Hp. apply guard_err_Ok in Hp.
  by apply negb_false_iff in Hp.
Qed.

Lemma mapping_Create_spec db id now digest bid opts :
  match mapping_Create db id now digest bid opts with
  | (Ok _, db') => exists u row, uuid_Parse bid = Some u /\ is_ok (NewHash digest) = true
      /\ new_mapping db now digest u opts = Ok row /\ (opts ≫= mc_ProjectID = None \/ opts ≫= mc_ProductID = None)
      /\ cd_mappings db !! id = None /\ db' = with_mappings db (<[id := row]> (cd_mappings db))
  | (Err _, db') => db' = db
  end.
Proof.
  unfold mapping_Create. match goal with |- context [match ?c with Ok _ => _ | Err _ => _ end] => destruct c as [u|e] eqn:Hc end;
    [|done]. apply bind_Ok in Hc as (u' & Hu%parse_uuid_Ok & Hc). apply bind_Ok in Hc as ([] & Hv & Hc).
  apply bind_Ok in Hc as ([] & Hg%guard_err_Ok & Hc). injection Hc as ->. unfold repo_CreateMapping.
  destruct (new_mapping db now digest u opts) as [row|] eqn:Hn; [|done]. destruct (cd_mappings db !! id) eqn:Hid; [done|].
  destruct (new_mapping_Ok _ _ _ _ _ _ Hn) as (b & Hb & _ & Hrow & _). unfold findMappingByID. cbn [cd_mappings with_mappings].
  rewrite lookup_insert_eq. unfold entCASMappingToBiz. cbn [snd cd_backends with_mappings].
  rewrite Hrow. unfold backend_FindByID in Hb. destruct (cd_backends db !! u) as [b0|] eqn:Hb0; [|done]. cbn [fmap result_fmap].
  exists u, row. split; [done|]. split; [unfold validateDigest in Hv; by destruct (NewHash digest)|].
  split; [done|]. split; [|done]. apply andb_false_iff in Hg as [Hg|Hg]; apply bool_decide_eq_false, eq_None_not_Some in Hg; auto.
Qed.

(** Every mapping is on a backend of its organization, and of one resource at most *)
Definition mapping_wf (db : CasDB) (row : MappingRow) : Prop :=
  (exists b, cd_backends db !! mp_backend row = Some b /\ cb_organization b = mp_organization row)
  /\ (mp_project row = None \/ mp_product row = None).
Definition mappings_wf (db : CasDB) : Prop := map_Forall (fun _ row => mapping_wf db row) (cd_mappings db).

Lemma mapping_Create_wf db id now digest bid opts :
  mappings_wf db -> mappings_wf (mapping_Create db id now digest bid opts).2.
Proof.
  intros Hwf. pose proof (mapping_Create_spec db id now digest bid opts) as Hs.
  destruct (mapping_Create _ _ _ _ _ _) as [[r|e] db']; cbn [snd]; [|by subst].
  destruct Hs as (u & row & _ & _ & Hn & Hone & _ & ->). apply map_Forall_insert_2; [|done].
  destruct (new_mapping_Ok _ _ _ _ _ _ Hn) as (b & Hb & _ & Hu & Ho & Hp & Hq & _). split; [|by rewrite Hp, Hq].
  exists b. rewrite Hu, Ho. split; [|done]. unfold backend_FindByID in Hb. cbn. destruct (cd_backends db !! u); [|done].
  cbn in Hb. destruct (cb_deleted _); [done|congruence].
Qed.

Lemma create_mappings_spec others fresh db now backend run project refs db' :
  create_mappings others fresh db now backend run project refs = (Ok tt, db') ->
  cd_backends db' = cd_backends db
  /\ (forall id row, cd_mappings db !! id = Some row -> cd_mappings db' !! id = Some row)
  /\ (forall id row, cd_mappings db' !! id = Some row -> cd_mappings db !! id = Some row \/ mp_digest row ∈ lr_Digest <$> refs)
  /\ (forall ref, ref ∈ refs -> is_ok (NewHash (lr_Digest ref)) = true /\ exists id row b u,
        cd_mappings db' !! id = Some row /\ mp_digest row = lr_Digest ref /\ mp_project row = Some project
        /\ uuid_Parse backend.1 = Some u /\ mp_backend row = u /\ live_backend db row b /\ mp_organization row = cb_organization b).
Proof.
  revert db. induction refs as [|ref refs IH]; intros db; cbn [create_mappings].
  { intros [= <-]. do 3 (split; [by auto|]). by intros ref Hin%not_elem_of_nil. }
  pose proof (mapping_Create_spec db (fresh db) now (lr_Digest ref) backend.1
                (Some {| mc_WorkflowRunID := Some run; mc_ProjectID := Some project; mc_ProductID := None |})) as Hs.
  destruct (mapping_Create _ _ _ _ _ _) as [[r|e] db1]; [|done]. intros Hc.
  destruct Hs as (u & row & Hu & Hh & Hn & _ & Hid & ->). apply IH in Hc as (Hb & Hkeep & Honly & Hall). cbn in *.
  destruct (new_mapping_Ok _ _ _ _ _ _ Hn) as (b & Hbk & Hd & Hbu & Ho & Hp & _).
  split; [done|]. split; [intros id row' Hr; apply Hkeep; rewrite lookup_insert_ne; [done|congruence]|]. split.
  - intros id row' [Hr|Hin]%Honly; [|right; by right]. apply lookup_insert_Some in Hr as [[<- <-]|[_ Hr]]; [|by left].
    right. rewrite Hd. left.
  - intros ref' [->|Hin]%elem_of_cons; [|by apply Hall]. split; [done|]. exists (fresh db), row, b, u.
    split; [apply Hkeep, lookup_insert_eq|]. do 4 (split; [done|]). split; [|done]. unfold live_backend. by rewrite Hbu.
Qed.
End Creation.

Lemma find_is_ok `{UuidLib} `{Hashes} `{DbOrderLaws} db digest orgs scopes :
  is_ok (NewHash digest) = true ->
  is_ok (FindCASMappingForDownloadByOrg db digest orgs scopes) = true <->
  exists id row b, cd_mappings db !! id = Some row /\ mp_digest row = digest /\ reachable orgs scopes row /\ live_backend db row b.
Proof.
  intros Hh. pose proof (FindByOrg_spec db digest orgs scopes Hh) as Hf. split.
  - destruct (FindCASMappingForDownloadByOrg _ _ _ _) as [m|]; [|done]. intros _. destruct Hf as (row & []). eauto 10.
  - intros (id & row & b & Hm & Hd & Hr & Hl). destruct (FindCASMappingForDownloadByOrg _ _ _ _); [done|].
    by destruct (Hf id row b).
Qed.

(** Storing an attestation opens exactly what it names. Afterwards the attestation, every
    material that it declares uploaded and its policy evaluations can be downloaded by
    whoever reaches the project of its workflow in the organization of the backend, and
    every other digest can be downloaded by whom it could be before. *)
Theorem mapped_artifacts_downloadable `{Decoders} `{Hashes} `{DbOrderLaws} others fresh db now backend u b run project
    att digest refs db' :
  map_attestation others fresh db now backend run project att digest = (Ok tt, db') -> is_inline backend.2 = false ->
  LookupDigestsInAttestation att digest = Ok refs ->
  uuid_Parse backend.1 = Some u -> backend_FindByID (cd_backends db) u = Some b ->
  (forall ref orgs scopes, ref ∈ refs -> cb_organization b ∈ orgs ->
     (forall sc, scopes !! cb_organization b = Some sc -> project ∈ sc_ProjectIDs sc) ->
     exists m, FindCASMappingForDownloadByOrg db' (lr_Digest ref) orgs scopes = Ok m)
  /\ forall d orgs scopes, d ∉ lr_Digest <$> refs ->
       is_ok (FindCASMappingForDownloadByOrg db' d orgs scopes) = is_ok (FindCASMappingForDownloadByOrg db d orgs scopes).
Proof.
  intros Hmap Hin Hl Hu Hb. unfold map_attestation in Hmap. rewrite Hin, Hl in Hmap.
  apply create_mappings_spec in Hmap as (Hbk & Hkeep & Honly & Hall).
  assert (forall row b, live_backend db' row b <-> live_backend db row b) as Hlive by (intros; unfold live_backend; by rewrite Hbk).
  split.
  - intros ref orgs scopes Href Hor Hsc. destruct (Hall ref Href) as (Hh & id & row & b0 & u0 & Hm & Hd & Hp & Hu0 & Hmb & Hlb & Ho).
    assert (b0 = b) as -> by (unfold live_backend in Hlb; congruence).
    assert (is_ok (FindCASMappingForDownloadByOrg db' (lr_Digest ref) orgs scopes) = true) as Hok.
    { apply find_is_ok; [done|]. exists id, row, b. do 2 (split; [done|]). split; [|by apply Hlive].
      split; [by rewrite Ho|]. rewrite Ho. intros sc Hs. left. exists project. auto. }
    destruct (FindCASMappingForDownloadByOrg _ _ _ _) as [m|]; [by exists m|done].
  - intros d orgs scopes Hd. destruct (is_ok (NewHash d)) eqn:Hh.
    + apply Bool.eq_iff_eq_true. rewrite !find_is_ok by done. split; intros (id & row & b0 & Hm & Hd' & Hr & Hlb).
      * exists id, row, b0. rewrite <-Hlive. apply Honly in Hm as [Hm|Hm]; [done|congruence].
      * exists id, row, b0. rewrite Hlive. auto.
    + unfold FindCASMappingForDownloadByOrg, validateDigest. by destruct (NewHash d).
Qed.

(** ** Credentials *)

(** What the current user, or else the current token, may read *)
Definition caller_may_read `{UuidLib} (members : MemberDB) (c : Ctx) (org : Org) (row : MappingRow) : Prop :=
  match cx_user c with
  | Some u => exists user, uuid_Parse u = Some user /\ user_may_read members user row
  | None =>
      uuid_Parse (org_ID org) = Some (mp_organization row)
      /\ forall visible, visibleProjects c = Ok (Some visible) -> exists p, mp_project row = Some p /\ p ∈ visible
  end.

Section Credentials.
Context `{UuidLib} `{Hashes} `{DbOrderLaws} (enforce : string -> Policy -> result bool) (others : goerr -> bool).
Context (members : MemberDB) (db : CasDB).

Lemma find_mapping_spec c org digest r m :
  find_mapping others members db c org digest = Ok r -> r = Ok m ->
  exists row, chosen db digest (caller_may_read members c org) m row.
Proof.
  unfold find_mapping, caller_may_read. destruct (cx_user c) as [u|] eqn:Hu.
  - intros [= <-] Hf. unfold FindCASMappingForDownloadByUser in Hf. apply bind_Ok in Hf as (user & Hp%parse_uuid_Ok & Hf).
    pose proof (user_reachable members user) as Hr. destruct (GetOrgsAndRBACInfoForUser members user) as [orgs scopes].
    apply map_err_Ok in Hf. assert (is_ok (NewHash digest) = true) as Hh.
    { unfold FindCASMappingForDownloadByOrg, validateDigest in Hf. by destruct (NewHash digest). }
    pose proof (FindByOrg_spec db digest orgs scopes Hh) as Hs. rewrite Hf in Hs. destruct Hs as (row & Hc). exists row.
    eapply chosen_iff; [|done]. intros r0. rewrite Hr. split; [by exists user|].
    intros (user' & Hp' & Hm). by assert (user' = user) as <- by congruence.
  - intros Hf Hm. apply bind_Ok in Hf as (orgID & Ho%map_err_Ok%raw_uuid_Ok & Hf). apply bind_Ok in Hf as (scopes & Hsc & Hf).
    injection Hf as <-. assert (is_ok (NewHash digest) = true) as Hh.
    { unfold FindCASMappingForDownloadByOrg, validateDigest in Hm. by destruct (NewHash digest). }
    pose proof (FindByOrg_spec db digest [orgID] scopes Hh) as Hs. rewrite Hm in Hs. destruct Hs as (row & Hc). exists row.
    unfold caller_scopes, rbacScopesForOrg in Hsc. destruct (visibleProjects c) as [vis|] eqn:Hv; [|done]. cbn in Hsc.
    eapply chosen_iff; [|done]. intros r0. unfold reachable. rewrite Ho, list_elem_of_singleton. injection Hsc as <-.
    destruct vis as [projects|]; cbn.
    + rewrite map_fmap_singleton. split.
      * intros [-> Hp]. split; [done|]. intros visible [= <-]. rewrite lookup_singleton_eq in Hp.
        destruct (Hp _ eq_refl) as [(p & ? & ?)|(p & _ & Hn%not_elem_of_nil)]; [|done]. by exists p.
      * intros [[= ->] Hp]. split; [done|]. rewrite lookup_singleton_eq. intros sc [= <-]. left. by apply Hp.
    + rewrite fmap_empty. split; [by intros [-> _]|]. intros [[= ->] _]. split; [done|]. intros sc. by rewrite lookup_empty.
Qed.

(** What the request for credentials says *)
Record confined (c : Ctx) (req : CredentialsRequest) (org : Org) (ref : CASCredsOpts) (b : UUID * Backend) : Prop := {
  cf_inline : is_inline b.2 = false;
  cf_type : cr_BackendType ref = cb_provider b.2;
  cf_secret : cr_SecretPath ref = cb_secret b.2;
  cf_org : cr_OrgID ref = cb_organization b.2;
  cf_max : cr_MaxBytes ref = cb_max_bytes b.2;
  cf_digest : cr_Digest ref = if rq_ScopeToDigest req then rq_Digest req else "";
  cf_scoped : rq_ScopeToDigest req = true -> rq_Digest req <> "";
  cf_internal : cr_SourceInternal ref = true -> exists t, cx_token c = Some t /\ ct_IsSystem t = true;
  cf_role : match rq_Role req with
    | ROLE_UPLOADER =>
        cr_Role ref = Uploader /\ enforce (cx_subject c) PolicyArtifactUpload = Ok true
        /\ FindDefaultBackend (cd_backends db) (org_ID org) = Ok b
    | ROLE_DOWNLOADER =>
        cr_Role ref = Downloader /\ enforce (cx_subject c) PolicyArtifactDownload = Ok true
        /\ ((exists m row, chosen db (rq_Digest req) (caller_may_read members c org) m row /\ cm_Backend m = b)
            \/ FindDefaultBackend (cd_backends db) (org_ID org) = Ok b
               /\ enforce (cx_subject c) PolicyDefaultBackendArtifactRead = Ok true)
    | ROLE_UNSPECIFIED => False
    end
}.

Lemma download_backend_spec c org digest dflt b :
  download_backend enforce others members db c org digest dflt = Ok (Some b) ->
  (exists m row, chosen db digest (caller_may_read members c org) m row /\ cm_Backend m = b)
  \/ b = dflt /\ enforce (cx_subject c) PolicyDefaultBackendArtifactRead = Ok true.
Proof.
  unfold download_backend. intros Hd. apply bind_Ok in Hd as (found & Hf & Hd). apply bind_Ok in Hd as (mapping & Hm & Hd).
  destruct mapping as [m|].
  - injection Hd as <-. left. assert (found = Ok m) as Hfm.
    { destruct found as [m'|e]; [by injection Hm as ->|]. destruct (cx_user c); [done|].
      destruct (IsNotFound e); [done|]. by destruct (IsErrValidation e). }
    destruct (find_mapping_spec _ _ _ _ _ Hf Hfm) as (row & Hc). by exists m, row.
  - right. apply bind_Ok in Hd as (ok & He%map_err_Ok & Hd). destruct ok; [|done]. by injection Hd as <-.
Qed.

Lemma credentials_for_spec c req ref b :
  credentials_for enforce others members db c req = Ok (ref, b) ->
  exists org, cx_org c = Some org /\ confined c req org ref b.
Proof.
  unfold credentials_for. intros Hc. apply bind_Ok in Hc as (who & Hwho & Hc). apply bind_Ok in Hc as (org & Horg & Hc).
  apply bind_Ok in Hc as (subject & Hsub & Hc). apply bind_Ok in Hc as ([] & Hg%guard_err_Ok & Hc).
  apply bind_Ok in Hc as ([role policy] & Hrole & Hc). apply bind_Ok in Hc as (ok & Hok%map_err_Ok & Hc).
  apply bind_Ok in Hc as ([] & Hnok%guard_err_Ok & Hc). apply bind_Ok in Hc as (dflt & Hdf & Hc).
  apply bind_Ok in Hc as (backend & Hbk & Hc). destruct backend as [b'|]; [|done].
  apply bind_Ok in Hc as ([] & Hin%guard_err_Ok & Hc). injection Hc as <- <-. exists org.
  unfold requireCurrentOrg in Horg. destruct (cx_org c) as [o|] eqn:Ho; [|done]. injection Horg as <-. split; [done|].
  unfold requireCurrentAuthzSubject in Hsub. destruct (is_empty (cx_subject c)); [done|]. injection Hsub as <-.
  apply negb_false_iff in Hnok as ->.
  assert (FindDefaultBackend (cd_backends db) (org_ID o) = Ok dflt) as Hdef.
  { destruct (FindDefaultBackend _ _) as [d|e]; [by injection Hdf as ->|]. by destruct (IsNotFound e). }
  constructor; cbn; try done.
  - intros Hs. rewrite Hs in Hg. by apply is_empty_false in Hg.
  - unfold resolveSourceInternal. intros [_ Hsys]%andb_true_iff. unfold requireCurrentUserOrAPIToken in Hwho.
    destruct (cx_user c), (cx_token c) as [t|]; try done; injection Hwho as <-; cbn in Hsys; try done; by exists t.
  - destruct (rq_Role req); cbn in Hrole; [done| |]; injection Hrole as <- <-.
    + do 2 (split; [done|]). destruct (download_backend_spec _ _ _ _ _ Hbk) as [?|[-> ?]]; [by left|right; by split].
    + injection Hbk as <-. done.
Qed.
End Credentials.

(** C8: Credentials for storage are confined. A token of the CAS that is handed out is for a
    backend that is not inline, carries the backend's organization and size limit, and is
    bound to the digest if that was asked for, which needs one; one for uploads needs the
    upload policy and is for the default backend of the current organization; one for
    downloads needs the download policy and is for the backend of a mapping of the digest
    that the caller may read, or else for the default backend if a policy allows that; and
    an API token only gets backends of its own organization. *)
Theorem credentials_confined `{UuidLib} `{HashLaws} `{DbOrderLaws} `{Jwt} enforce others members db builder now c req t b :
  mappings_wf db ->
  credentials_Get enforce others members db builder now c req = Ok (t, b) ->
  exists org k ref, cx_org c = Some org /\ bd_pk builder = Some k
    /\ SignedString k (temporary_claims builder now ref) = Ok t
    /\ confined enforce members db c req org ref b
    /\ (cx_user c = None -> uuid_Parse (org_ID org) = Some (cr_OrgID ref)).
Proof.
  intros Hwf Hg. unfold credentials_Get in Hg. apply bind_Ok in Hg as ([ref b'] & Hf & Hg).
  apply bind_Ok in Hg as (t' & Ht%map_err_Ok & Hg). injection Hg as -> ->.
  destruct (credentials_for_spec _ _ _ _ _ _ _ _ Hf) as (org & Ho & Hc).
  destruct (GenerateTemporaryCredentials_Ok _ _ _ _ Ht) as ((k & Hk & Hs) & _).
  exists org, k, ref. do 4 (split; [done|]). intros Hu. rewrite (cf_org _ _ _ _ _ _ _ _ Hc).
  assert (forall d, FindDefaultBackend (cd_backends db) (org_ID org) = Ok d -> uuid_Parse (org_ID org) = Some (cb_organization d.2)) as Hd.
  { intros d Hd. unfold FindDefaultBackend in Hd. apply bind_Ok in Hd as (o & Hp%parse_uuid_Ok & Hd).
    apply bind_Ok in Hd as (r & Hr & Hd). destruct r as [x|]; [|done]. injection Hd as ->. rewrite Hp. f_equal.
    unfold repo_FindDefaultBackend, only_live in Hr. destruct (List.filter _ _) as [|y [|]] eqn:Hfl; try done.
    injection Hr as <-. assert (y ∈ [y]) as Hy by left. rewrite <-Hfl in Hy. apply list_elem_of_In, filter_In in Hy as [_ Hy].
    unfold live_in in Hy. split_bool. done. }
  pose proof (cf_role _ _ _ _ _ _ _ _ Hc) as Hr. destruct (rq_Role req); [done| |].
  - destruct Hr as (_ & _ & [(m & row & Hch & <-)|[Hdef _]]); [|by apply Hd].
    destruct Hch as [Hrow _ Hread Hid Hlive _ _]. unfold caller_may_read in Hread. rewrite Hu in Hread.
    destruct Hread as [-> _]. destruct (Hwf _ _ Hrow) as [(b0 & Hb0 & Hb0o) _]. f_equal.
    apply live_backend_row in Hlive. congruence.
  - destruct Hr as (_ & _ & Hdef). by apply Hd.
Qed.

(** ** Witnesses *)

Module CasTables.
#[export] Instance sorted_rows : DbOrder := {| order_by := fun A le => @merge_sort A (fun a b => le a b = true) (fun a b => decide (le a b = true)) |}.

#[export] Instance sorted_rows_laws : DbOrderLaws.
Proof.
  split.
  - intros A le l. apply merge_sort_Permutation.
  - intros A le l Ht Htot. apply StronglySorted_merge_sort; [exact Ht|exact Htot].
Qed.

(** An organization with an S3 backend as its default and an older one, a project, a run *)
Definition backend_row (def : bool) : Backend :=
  {| cb_name := "b"; cb_organization := "o"; cb_location := ""; cb_description := ""; cb_secret := "secret";
     cb_provider := "OCI"; cb_default := def; cb_fallback := false; cb_managed := false; cb_max_bytes := 100;
     cb_status := ValidationOK; cb_error := None; cb_created_at := 0; cb_validated_at := 0; cb_deleted := false |}.

Definition table : CasDB :=
  {| cd_mappings := {[ "m1" := {| mp_digest := "sha256:aaa"; mp_backend := "b1"; mp_organization := "o";
                                  mp_project := Some "p"; mp_product := None; mp_run := Some "run"; mp_created_at := 1 |};
                       "m2" := {| mp_digest := "sha256:aaa"; mp_backend := "b2"; mp_organization := "o";
                                  mp_project := Some "p"; mp_product := None; mp_run := Some "run"; mp_created_at := 2 |} ]};
     cd_backends := {[ "b1" := backend_row false; "b2" := backend_row true ]};
     cd_projects := {[ "p" := {| pr_name := "project"; pr_organization := "o"; pr_deleted := false |} ]};
     cd_runs := {[ "run" ]} |}.

Definition member (role : Role) (kind : ResourceType) (resource : UUID) : MembershipRow :=
  {| ms_role := role; ms_current := true; ms_type := MembershipTypeUser; ms_member := "u"; ms_resource_type := kind;
     ms_resource := resource; ms_parent := None; ms_organization := Some "o"; ms_user := Some "u"; ms_created_at := 0 |}.

(** A user that is restricted to its projects, of which it has one *)
Definition members : MemberDB :=
  {| md_memberships := {[ "x1" := member RoleOrgMember ResourceTypeOrganization "o";
                          "x2" := member RoleProjectViewer ResourceTypeProject "p" ]};
     md_groups := ∅; md_group_members := ∅; md_users := {[ "u" := "u@x" ]}; md_orgs := {[ "o" := "org" ]} |}.

Definition caller : Ctx :=
  {| cx_token := None; cx_user := Some "u"; cx_memberships := None;
     cx_org := Some {| org_ID := "o"; org_Name := "org"; org_Suspended := false |}; cx_subject := RoleOrgMember |}.

Definition envelope : DsseEnvelope := {| de_payload_type := ""; de_payload := ""; de_signatures := [] |}.

(** Identifiers longer than every one in use *)
Definition next_id (db : CasDB) : UUID := String.concat "" ("n" :: (map_to_list (cd_mappings db)).*1).

(** The table of tokens has the claims that are asked for below *)
Definition request : CredentialsRequest :=
  {| rq_Role := ROLE_DOWNLOADER; rq_Digest := "sha256:aaa"; rq_SourceInternal := true; rq_ScopeToDigest := true |}.
End CasTables.

Import CasTokens.Toy.
Import CasTables.

Lemma user_download_exact_witness :
  exists m row, FindCASMappingForDownloadByUser members table "sha256:aaa" "u" = Ok m
    /\ chosen table "sha256:aaa" (user_may_read members "u") m row /\ (cm_Backend m).1 = "b2".
Proof.
  pose proof (user_download_exact members table "sha256:aaa" "u" "u" eq_refl eq_refl) as Hd.
  destruct (FindCASMappingForDownloadByUser members table "sha256:aaa" "u") as [m|e] eqn:E; [|vm_compute in E; done].
  destruct Hd as (row & Hc). exists m, row. split; [reflexivity|]. split; [exact Hc|].
  vm_compute in E. injection E as <-. reflexivity.
Defined.

Lemma mapped_artifacts_downloadable_witness :
  exists db' m, (map_attestation (fun _ => false) next_id table 3 ("b2", backend_row true) "run" "p" envelope "sha256:d").2 = db'
    /\ is_ok (FindCASMappingForDownloadByOrg table "sha256:beef" ["o"] {["o" := {| sc_ProjectIDs := ["p"]; sc_ProductIDs := [] |}]}) = false
    /\ FindCASMappingForDownloadByOrg db' "sha256:beef" ["o"] {["o" := {| sc_ProjectIDs := ["p"]; sc_ProductIDs := [] |}]} = Ok m.
Proof.
  destruct (map_attestation (fun _ => false) next_id table 3 ("b2", backend_row true) "run" "p" envelope "sha256:d") as [r db'] eqn:E.
  assert (r = Ok tt) as -> by (vm_compute in E; by injection E as <- _).
  destruct (LookupDigestsInAttestation envelope "sha256:d") as [refs|] eqn:El; [|vm_compute in El; done].
  destruct (mapped_artifacts_downloadable (fun _ => false) next_id table 3 ("b2", backend_row true) "b2" (backend_row true)
              "run" "p" envelope "sha256:d" refs db' E eq_refl El eq_refl ltac:(vm_compute; reflexivity)) as [Hd _].
  destruct (Hd {| lr_Name := "sbom"; lr_Digest := "sha256:beef" |} ["o"] {["o" := {| sc_ProjectIDs := ["p"]; sc_ProductIDs := [] |}]}) as (m & Hm).
  - vm_compute in El. injection El as <-. right. left.
  - left.
  - intros sc. vm_compute. intros [= <-]. left.
  - exists db', m. split; [reflexivity|]. split; [vm_compute; reflexivity|exact Hm].
Defined.

Lemma credentials_confined_witness :
  exists t b ref, credentials_Get (fun r p => Ok (role_allows r p)) (fun _ => false) members table toy_builder 100 caller request = Ok (t, b)
    /\ b.1 = "b2" /\ cr_Digest ref = "sha256:aaa" /\ cr_Role ref = Downloader /\ cr_SourceInternal ref = false
    /\ SignedString tt (temporary_claims toy_builder 100 ref) = Ok t.
Proof.
  destruct (credentials_Get (fun r p => Ok (role_allows r p)) (fun _ => false) members table toy_builder 100 caller request)
    as [[t b]|e] eqn:E; [|vm_compute in E; done].
  destruct (credentials_confined (fun r p => Ok (role_allows r p)) (fun _ => false) members table toy_builder 100 caller request t b)
    as (org & k & ref & Ho & Hk & Hs & Hc & _).
  - apply map_Forall_insert_2; [|apply map_Forall_singleton];
      (split; [first [exists (backend_row true); split; vm_compute; reflexivity
                    |exists (backend_row false); split; vm_compute; reflexivity]|by right]).
  - exact E.
  - exists t, b, ref. split; [reflexivity|]. destruct k. vm_compute in E. injection E as <- <-. split; [reflexivity|].
    split; [apply Hc|]. split; [apply Hc|]. split; [|exact Hs].
    destruct (cr_SourceInternal ref) eqn:Hi; [|done]. by destruct (cf_internal _ _ _ _ _ _ _ _ Hc Hi) as (t & Ht & _).
Defined.
