(* ===== verification/BlobStores.v ===== *)
(** * Object stores

    pkg/blobmanager: the interface of the stores that hold artifacts, and three of
    its implementations, on S3 (s3/backend.go), on S3 access points that tenants
    share (s3accesspoint/backend.go) and on Azure (azureblob/backend.go).

    The interface is the class [Blobmanager], and [BlobLaws] is what its users rely
    on; the SDKs are parameters, with what their services document as laws, from
    which each implementation proves the laws of the interface.  Go's context
    carries the claims of the request, so operations take them. *)

From S2P Require Import Prelude.
From S2P Require Import GoStrings.
From S2P Require Import Base64.
From S2P Require Import Authz.
From S2P Require Import CasTokens.

Open Scope Z_scope.

(** ** The interface (backend.go, errors.go) *)

(** [v1.CASResource] *)
Record CASResource := { rs_FileName : string; rs_Size : Z; rs_Digest : string }.

Definition AuthorAnnotation : string := "chainloop.dev".

Definition BlobErrNotFound : string := "backend.ErrNotFound".
Definition NewBlobErrNotFound (entity : string) : goerr := EWrap (entity +:+ " not found") (ESentinel BlobErrNotFound).
Definition IsBlobNotFound : goerr -> bool := errors_is BlobErrNotFound.

Definition ErrUploadSizeExceeded : string := "backend.ErrUploadSizeExceeded".
Definition NewErrUploadSizeExceeded : goerr := ESentinel ErrUploadSizeExceeded.
Definition IsUploadSizeExceeded : goerr -> bool := errors_is ErrUploadSizeExceeded.

(** [UploaderDownloader].  A download writes bytes and may then fail. *)
Class Blobmanager := {
  Store : Type;
  Client : Type;
  bm_Upload : Client -> AuthInfo -> Store -> string -> CASResource -> result unit * Store;
  bm_Exists : Client -> AuthInfo -> Store -> string -> result bool;
  bm_Describe : Client -> AuthInfo -> Store -> string -> result CASResource;
  bm_Download : Client -> AuthInfo -> Store -> string -> string * option goerr;
  bm_CheckWritePermissions : Client -> AuthInfo -> Store -> result unit * Store
}.

(** The organization of a token is a UUID, which has no slash *)
Definition plain_auth (auth : AuthInfo) : Prop :=
  match auth with CasClaims c => has_char "/" (cc_OrgID c) = false | _ => True end.

(** A store holds contents at locations; a client keeps the artifact of a digest
    at a location of its own choice, from which the digest can be told. *)
Class BlobLaws `{Blobmanager} := {
  Location : Type;
  Location_eq_dec :: EqDecision Location;
  content : Store -> Location -> option string;
  locate : Client -> AuthInfo -> string -> Location;
  locate_org : forall c i i' d, cc_OrgID i = cc_OrgID i' -> locate c (CasClaims i) d = locate c (CasClaims i') d;
  locate_digest : forall c c' a a' d d', plain_auth a -> plain_auth a' -> locate c a d = locate c' a' d' -> d = d';
  Upload_law : forall c a s body r,
    let '(res, s') := bm_Upload c a s body r in
    (forall l, l <> locate c a (rs_Digest r) -> content s' l = content s l)
    /\ (content s' (locate c a (rs_Digest r)) = Some body
        \/ content s' (locate c a (rs_Digest r)) = content s (locate c a (rs_Digest r)) /\ is_ok res = false);
  Exists_law : forall c a s d, bm_Exists c a s d = Ok true -> is_Some (content s (locate c a d));
  Download_law : forall c a s d bytes, bm_Download c a s d = (bytes, None) -> content s (locate c a d) = Some bytes;
  Check_law : forall c a s c' a' d, plain_auth a -> plain_auth a' ->
    content (bm_CheckWritePermissions c a s).2 (locate c' a' d) = content s (locate c' a' d)
}.

(** ** S3 *)

Record HeadObject := {
  ho_ChecksumSHA256 : option string;
  ho_Metadata : gmap string string;
  ho_ContentLength : option Z
}.

(** The SDK: clients of an endpoint; [s3_upload] is its upload manager and
    [s3_download] its sequential download manager *)
Class S3Sdk := {
  S3State : Type;
  S3Client : Type;
  s3_head : S3Client -> S3State -> string -> string -> bool -> result HeadObject;
  s3_upload : S3Client -> S3State -> string -> string -> string -> gmap string string -> result unit * S3State;
  s3_put : S3Client -> S3State -> string -> string -> string -> result unit * S3State;
  s3_get : S3Client -> S3State -> string -> string -> result string;
  s3_download : S3Client -> S3State -> string -> string -> string * option goerr
}.

Definition S3NotFoundCode : string := "NotFound".

(** An object is written as a whole or not at all, and read as it was written *)
Class S3Laws `{S3Sdk} := {
  s3_object : S3State -> string * string * string -> option string;
  s3_endpoint : S3Client -> string;
  s3_head_law : forall c s b k mode r, s3_head c s b k mode = Ok r -> is_Some (s3_object s (s3_endpoint c, b, k));
  s3_upload_law : forall c s b k body md,
    let '(r, s') := s3_upload c s b k body md in
    (forall l, l <> (s3_endpoint c, b, k) -> s3_object s' l = s3_object s l)
    /\ (s3_object s' (s3_endpoint c, b, k) = Some body
        \/ s3_object s' (s3_endpoint c, b, k) = s3_object s (s3_endpoint c, b, k) /\ is_ok r = false);
  s3_put_law : forall c s b k body l, l <> (s3_endpoint c, b, k) -> s3_object (s3_put c s b k body).2 l = s3_object s l;
  s3_download_law : forall c s b k bytes, s3_download c s b k = (bytes, None) -> s3_object s (s3_endpoint c, b, k) = Some bytes
}.

Definition resourceName (digest : string) : string := "sha256:" +:+ digest.

(** encoding/hex *)
Definition hex_digit (c : ascii) : option N :=
  let n := N_of_ascii c in
  if (48 <=? n)%N && (n <=? 57)%N then Some (n - 48)%N
  else if (97 <=? n)%N && (n <=? 102)%N then Some (n - 87)%N
  else if (65 <=? n)%N && (n <=? 70)%N then Some (n - 55)%N
  else None.
Fixpoint hex_DecodeString (s : string) : option string :=
  match s with
  | "" => Some ""
  | String _ "" => None
  | String a (String b s') =>
      match hex_digit a, hex_digit b with
      | Some x, Some y => String (ascii_of_N (x * 16 + y)) <$> hex_DecodeString s'
      | _, _ => None
      end
  end.

Definition hexSha256ToBinaryB64 (hexString : string) : string :=
  match hex_DecodeString hexString with Some decoded => EncodeToString decoded | None => "" end.

(** [Exists], which every implementation has: what [Describe] finds *)
Definition exists_of (described : result CASResource) : result bool :=
  match described with
  | Err e => if IsBlobNotFound e then Ok false else Err e
  | Ok _ => Ok true
  end.

(** [strings.Contains] *)
Fixpoint contains (s sub : string) : bool :=
  has_prefix s sub || match s with "" => false | String _ s' => contains s' sub end.

(** What [Describe] makes of the answer of S3 *)
Definition describe_object (reading digest : string) (size : option Z -> result Z) (r : result HeadObject) : result CASResource :=
  match r with
  | Err e => if errors_is S3NotFoundCode e then Err (NewBlobErrNotFound "artifact") else Err (EWrap reading e)
  | Ok resp =>
      _ ← match ho_ChecksumSHA256 resp with
          | Some sum => guard_err (negb (bool_decide (sum = hexSha256ToBinaryB64 digest)))
                          (EMsg ("failed to validate integrity of object, got=" +:+ sum))
          | None => Ok tt
          end;
      _ ← guard_err (negb (bool_decide (ho_Metadata resp !! "author" = Some AuthorAnnotation)))
            (EMsg "asset not uploaded by Chainloop");
      match ho_Metadata resp !! "filename" with
      | None => Err (EMsg "couldn't find file metadata")
      | Some fileName => n ← size (ho_ContentLength resp); Ok {| rs_FileName := fileName; rs_Size := n; rs_Digest := digest |}
      end
  end.

Definition object_metadata (fileName : string) : gmap string string :=
  <["author" := AuthorAnnotation]> {["filename" := fileName]}.

Module S3.
Section S3.
Context `{S3Sdk}.

(** [s3.Backend] *)
Record s3_Backend := { b_client : S3Client; b_bucket : string; b_customEndpoint : string }.

Definition checksumVerificationEnabled (b : s3_Backend) : bool :=
  negb (negb (is_empty (b_customEndpoint b)) && contains (b_customEndpoint b) "r2.cloudflarestorage.com").

Definition s3_Describe (b : s3_Backend) (s : S3State) (digest : string) : result CASResource :=
  describe_object "failed to read from bucket" digest (fun n => match n with Some n => Ok n | None => Err (panic "nil dereference") end)
    (s3_head (b_client b) s (b_bucket b) (resourceName digest) (checksumVerificationEnabled b)).

Definition s3_Exists (b : s3_Backend) (s : S3State) (digest : string) : result bool := exists_of (s3_Describe b s digest).

Definition s3_Upload (b : s3_Backend) (s : S3State) (body : string) (r : CASResource) : result unit * S3State :=
  let '(res, s') := s3_upload (b_client b) s (b_bucket b) (resourceName (rs_Digest r)) body (object_metadata (rs_FileName r)) in
  (map_err (EWrap "failed to upload to bucket") res, s').

Definition s3_Download (b : s3_Backend) (s : S3State) (digest : string) : string * option goerr :=
  match s3_Exists b s digest with
  | Err e => ("", Some e)
  | Ok false => ("", Some (NewBlobErrNotFound "artifact"))
  | Ok true => s3_download (b_client b) s (b_bucket b) (resourceName digest)
  end.

Definition s3_CheckWritePermissions (b : s3_Backend) (s : S3State) : result unit * S3State :=
  match s3_put (b_client b) s (b_bucket b) "healthcheck" "healthcheckdata" with
  | (Err e, s') => (Err (EWrap "failed to write to bucket" e), s')
  | (Ok _, s') =>
      (match s3_get (b_client b) s' (b_bucket b) "healthcheck" with
       | Err e => Err (EWrap "failed to read from bucket" e) | Ok _ => Ok tt end, s')
  end.

#[local] Instance s3_blobmanager : Blobmanager := {
  Store := S3State;
  Client := s3_Backend;
  bm_Upload b _ := s3_Upload b;
  bm_Exists b _ := s3_Exists b;
  bm_Describe b _ := s3_Describe b;
  bm_Download b _ := s3_Download b;
  bm_CheckWritePermissions b _ := s3_CheckWritePermissions b
}.

(** S3 implements the interface: an artifact is the object of its name *)
Context {laws : S3Laws}.

Lemma s3_Describe_Ok b s d r : s3_Describe b s d = Ok r -> is_Some (s3_object s (s3_endpoint (b_client b), b_bucket b, resourceName d)).
Proof.
  unfold s3_Describe. destruct (s3_head _ _ _ _ _) as [h|e] eqn:Hh; [intros _; by eapply s3_head_law|].
  cbn. by destruct (errors_is _ e).
Qed.

#[local] Instance s3_blob_laws : BlobLaws.
Proof.
  refine {| Location := string * string * string; content := (s3_object : Store -> _);
            locate := fun (b : Client) _ d => (s3_endpoint (b_client b), b_bucket b, resourceName d) |}.
  - done.
  - intros c c' a a' d d' _ _ [= _ _ Hk]. done.
  - intros c a s body r. cbn [bm_Upload s3_blobmanager]. unfold s3_Upload.
    pose proof (s3_upload_law (b_client c) s (b_bucket c) (resourceName (rs_Digest r)) body (object_metadata (rs_FileName r))) as Hu.
    destruct (s3_upload _ _ _ _ _ _) as [res s']. destruct Hu as [Ho Hc]. split; [exact Ho|].
    destruct Hc as [?|[? ?]]; [by left|right]. split; [done|]. by destruct res.
  - intros c a s d Hx. cbn in Hx. unfold s3_Exists, exists_of in Hx.
    destruct (s3_Describe c s d) as [r|e] eqn:Hd; [by eapply s3_Describe_Ok|]. by destruct (IsBlobNotFound e).
  - intros c a s d bytes. cbn [bm_Download s3_blobmanager]. unfold s3_Download.
    destruct (s3_Exists c s d) as [[]|]; [apply s3_download_law|done|done].
  - intros c a s c' a' d _ _. cbn [bm_CheckWritePermissions s3_blobmanager]. unfold s3_CheckWritePermissions.
    pose proof (s3_put_law (b_client c) s (b_bucket c) "healthcheck" "healthcheckdata"
                  (s3_endpoint (b_client c'), b_bucket c', resourceName d) ltac:(by intros [=])) as Hp.
    by destruct (s3_put _ _ _ _ _) as [[]]; cbn in *.
Defined.
End S3.
End S3.

(** ** S3 access points: one bucket, one key space per organization *)

Module S3AccessPoint.

(** [s3accesspoint.Credentials] *)
Record Credentials := {
  ap_AccessPointARN : string;
  ap_Region : string;
  ap_BaseRoleARN : string;
  ap_SessionPolicyARN : string
}.

Definition ErrValidation : string := "backend.ErrValidation".
Definition ErrMissingRequestingOrg : goerr := ESentinel "s3accesspoint: requesting org missing from claims".
Definition invalid (msg : string) : goerr := EWrap msg (ESentinel ErrValidation).

(** [devModeEnabled]; ASCII, as are the spellings *)
Definition lower_char (c : ascii) : ascii :=
  let n := N_of_ascii c in if (65 <=? n)%N && (n <=? 90)%N then ascii_of_N (n + 32) else c.
Fixpoint to_lower (s : string) : string :=
  match s with "" => "" | String c s' => String (lower_char c) (to_lower s') end.
Definition devModeEnabled (env : string) : bool :=
  bool_decide (to_lower (trim_space env) ∈ ["1"; "true"; "yes"; "on"]).

(** [arn.Parse] of the SDK is a parameter: the service and the resource of a name *)
Definition Validate (arn_Parse : string -> result (string * string)) (env : string) (c : option Credentials) : result unit :=
  match c with
  | None => Err (invalid "nil credentials")
  | Some c =>
      _ ← guard_err (is_empty (ap_AccessPointARN c)) (invalid "missing access_point_arn");
      _ ← guard_err (negb (has_prefix (ap_AccessPointARN c) "arn:aws:s3:")
                     || negb (contains (ap_AccessPointARN c) ":accesspoint/"))
            (invalid "access_point_arn is not an S3 access point ARN");
      _ ← guard_err (is_empty (ap_Region c)) (invalid "missing region");
      _ ← (if devModeEnabled env then Ok tt
           else
             _ ← guard_err (is_empty (ap_BaseRoleARN c)) (invalid "missing base_role_arn");
             guard_err (negb (has_prefix (ap_BaseRoleARN c) "arn:aws:iam::"))
               (invalid "base_role_arn is not a valid IAM role ARN"));
      if is_empty (ap_SessionPolicyARN c) then Ok tt
      else match arn_Parse (ap_SessionPolicyARN c) with
           | Ok (service, resource) =>
               guard_err (negb (bool_decide (service = "iam")) || negb (has_prefix resource "policy/")
                          || bool_decide (resource = "policy/"))
                 (invalid "session_policy_arn is not a valid IAM managed policy ARN")
           | Err _ => Err (invalid "session_policy_arn is not a valid IAM managed policy ARN")
           end
  end.

(** The organization that a request is for *)
Definition requesting_org (auth : AuthInfo) : result string :=
  info ← InfoFromAuth auth;
  _ ← guard_err (is_empty (cc_OrgID info)) ErrMissingRequestingOrg;
  Ok (cc_OrgID info).

(** *** The credentials of a request *)

Inductive SessionPolicy := PolicyArns (arns : list string) | InlinePolicy (document : string).
Record AssumeRoleInput := {
  ar_RoleArn : string;
  ar_RoleSessionName : string;
  ar_DurationSeconds : Z;
  ar_Policy : SessionPolicy
}.

Definition roleSessionName (orgUUID : string) : string := "cas-" +:+ orgUUID.

Definition quoted (s : string) : string := String (byte 34) "" +:+ s +:+ String (byte 34) "".
Definition buildSessionPolicy (apARN : string) : string :=
  "{" +:+ quoted "Version" +:+ ":" +:+ quoted "2012-10-17" +:+ "," +:+ quoted "Statement" +:+ ":[{" +:+
  quoted "Effect" +:+ ":" +:+ quoted "Allow" +:+ "," +:+
  quoted "Action" +:+ ":[" +:+ quoted "s3:GetObject" +:+ "," +:+ quoted "s3:PutObject" +:+ "]," +:+
  quoted "Resource" +:+ ":" +:+ quoted (apARN +:+ "/object/*") +:+ "}]}".

Definition SessionDuration : Z := 3600.

(** What [Retrieve] asks of STS *)
Definition session_input (c : Credentials) (orgID : string) : AssumeRoleInput :=
  {| ar_RoleArn := ap_BaseRoleARN c; ar_RoleSessionName := roleSessionName orgID; ar_DurationSeconds := SessionDuration;
     ar_Policy := if is_empty (ap_SessionPolicyARN c) then InlinePolicy (buildSessionPolicy (ap_AccessPointARN c))
                  else PolicyArns [ap_SessionPolicyARN c] |}.

(** The credentials of AWS are opaque; STS may answer without any *)
Definition Retrieve {AwsCredentials} (AssumeRole : AssumeRoleInput -> result (option AwsCredentials))
    (ambient : option (result AwsCredentials)) (useAmbient : bool) (c : Credentials) (auth : AuthInfo) : result AwsCredentials :=
  orgID ← requesting_org auth;
  if useAmbient then
    match ambient with
    | None => Err (EMsg "s3accesspoint: dev mode requested but no ambient credentials available")
    | Some r => r
    end
  else
    out ← map_err (EWrap ("sts:AssumeRole for org " +:+ orgID)) (AssumeRole (session_input c orgID));
    match out with
    | None => Err (EMsg "sts:AssumeRole returned no credentials")
    | Some creds => Ok creds
    end.

Section Backend.
Context `{S3Sdk}.

(** The client asks [Retrieve] for the credentials of a request, through a cache of
    the SDK, and fails as S3 does if it gets none *)
Record ap_Backend := { b_creds : Credentials; b_s3Client : S3Client }.

Definition keyFor (auth : AuthInfo) (digest : string) : result string :=
  orgID ← requesting_org auth;
  Ok (orgID +:+ "/sha256:" +:+ digest).

Definition ap_Describe (b : ap_Backend) (auth : AuthInfo) (s : S3State) (digest : string) : result CASResource :=
  key ← keyFor auth digest;
  describe_object "reading from access point" digest (fun n => Ok (default 0 n))
    (s3_head (b_s3Client b) s (ap_AccessPointARN (b_creds b)) key true).

Definition ap_Exists (b : ap_Backend) (auth : AuthInfo) (s : S3State) (digest : string) : result bool :=
  exists_of (ap_Describe b auth s digest).

Definition ap_Upload (b : ap_Backend) (auth : AuthInfo) (s : S3State) (body : string) (r : CASResource) : result unit * S3State :=
  match keyFor auth (rs_Digest r) with
  | Err e => (Err e, s)
  | Ok key =>
      let '(res, s') := s3_upload (b_s3Client b) s (ap_AccessPointARN (b_creds b)) key body (object_metadata (rs_FileName r)) in
      (map_err (EWrap "uploading to access point") res, s')
  end.

Definition ap_Download (b : ap_Backend) (auth : AuthInfo) (s : S3State) (digest : string) : string * option goerr :=
  match ap_Exists b auth s digest with
  | Err e => ("", Some e)
  | Ok false => ("", Some (NewBlobErrNotFound "artifact"))
  | Ok true =>
      match keyFor auth digest with
      | Err e => ("", Some e)
      | Ok key => s3_download (b_s3Client b) s (ap_AccessPointARN (b_creds b)) key
      end
  end.

Definition ap_CheckWritePermissions (b : ap_Backend) (auth : AuthInfo) (s : S3State) : result unit * S3State :=
  match requesting_org auth with
  | Err e => (Err e, s)
  | Ok orgID =>
      let key := orgID +:+ "/" +:+ "healthcheck" in
      match s3_put (b_s3Client b) s (ap_AccessPointARN (b_creds b)) key "healthcheckdata" with
      | (Err e, s') => (Err (EWrap "writing healthcheck object" e), s')
      | (Ok _, s') =>
          (match s3_get (b_s3Client b) s' (ap_AccessPointARN (b_creds b)) key with
           | Err e => Err (EWrap "reading healthcheck object" e) | Ok _ => Ok tt end, s')
      end
  end.

#[local] Instance ap_blobmanager : Blobmanager := {
  Store := S3State;
  Client := ap_Backend;
  bm_Upload := ap_Upload;
  bm_Exists := ap_Exists;
  bm_Describe := ap_Describe;
  bm_Download := ap_Download;
  bm_CheckWritePermissions := ap_CheckWritePermissions
}.

(** *** The interface *)

Context {laws : S3Laws}.

Lemma requesting_org_Ok auth o :
  requesting_org auth = Ok o -> exists c, auth = CasClaims c /\ InfoFromAuth auth = Ok c /\ o = cc_OrgID c /\ o <> "".
Proof.
  unfold requesting_org. intros Hr. apply bind_Ok in Hr as (c & Hc & Hr). apply bind_Ok in Hr as ([] & Hg%guard_err_Ok & [= <-]).
  apply is_empty_false in Hg. destruct auth as [| |c']; [done|done|]. exists c'.
  assert (c = c') as -> by (unfold InfoFromAuth in Hc; inv_ok; congruence). done.
Qed.

(** Where the artifact of a request would be, whether or not it is well formed *)
Definition org_of (auth : AuthInfo) : string := match auth with CasClaims c => cc_OrgID c | _ => "" end.
Definition ap_location (b : ap_Backend) (auth : AuthInfo) (d : string) : string * string * string :=
  (s3_endpoint (b_s3Client b), ap_AccessPointARN (b_creds b), org_of auth +:+ "/sha256:" +:+ d).

Lemma keyFor_Ok auth d k : keyFor auth d = Ok k -> k = org_of auth +:+ "/sha256:" +:+ d.
Proof.
  unfold keyFor. intros Hk. apply bind_Ok in Hk as (o & Ho & [= <-]).
  by destruct (requesting_org_Ok _ _ Ho) as (c & -> & _ & -> & _).
Qed.

Lemma plain_org auth : plain_auth auth -> has_char "/" (org_of auth) = false.
Proof. by destruct auth. Qed.

Lemma split_at_slash a a' r r' :
  has_char "/" a = false -> has_char "/" a' = false -> a +:+ "/" +:+ r = a' +:+ "/" +:+ r' -> a = a' /\ r = r'.
Proof.
  intros Ha Ha' He. pose proof (cut_first "/" "" a r Ha) as H1. pose proof (cut_first "/" "" a' r' Ha') as H2.
  cbn in H1, H2, He. rewrite He in H1. rewrite H1 in H2. by injection H2 as -> ->.
Qed.

Lemma ap_location_inj b b' a a' d d' :
  plain_auth a -> plain_auth a' -> ap_location b a d = ap_location b' a' d' -> org_of a = org_of a' /\ d = d'.
Proof.
  intros Ha%plain_org Ha'%plain_org [= _ _ Hk]. destruct (split_at_slash (org_of a) (org_of a') ("sha256:" +:+ d) ("sha256:" +:+ d') Ha Ha' Hk) as [? Hd].
  split; [done|]. by apply str_app_inj in Hd.
Qed.

Lemma ap_Describe_Ok b a s d r : ap_Describe b a s d = Ok r -> is_Some (s3_object s (ap_location b a d)).
Proof.
  unfold ap_Describe. intros Hd. apply bind_Ok in Hd as (k & Hk%keyFor_Ok & Hd).
  destruct (s3_head _ _ _ _ _) as [h|e] eqn:Hh; [|cbn in Hd; by destruct (errors_is _ e)].
  unfold ap_location. rewrite <-Hk. by eapply s3_head_law.
Qed.

#[local] Instance ap_blob_laws : BlobLaws.
Proof.
  refine {| Location := string * string * string; content := (s3_object : Store -> _); locate := (ap_location : Client -> _) |}.
  - intros c i i' d Hi. unfold ap_location. cbn. by rewrite Hi.
  - intros c c' a a' d d' Ha Ha' He. by destruct (ap_location_inj _ _ _ _ _ _ Ha Ha' He).
  - intros c a s body r. cbn [bm_Upload ap_blobmanager]. unfold ap_Upload. destruct (keyFor a (rs_Digest r)) as [k|] eqn:Hk.
    + apply keyFor_Ok in Hk. unfold ap_location. rewrite <-Hk.
      pose proof (s3_upload_law (b_s3Client c) s (ap_AccessPointARN (b_creds c)) k body (object_metadata (rs_FileName r))) as Hu.
      destruct (s3_upload _ _ _ _ _ _) as [res s']. destruct Hu as [Ho Hc]. split; [exact Ho|].
      destruct Hc as [?|[? ?]]; [by left|right]. split; [done|]. by destruct res.
    + split; [done|]. by right.
  - intros c a s d Hx. cbn in Hx. unfold ap_Exists, exists_of in Hx.
    destruct (ap_Describe c a s d) as [r|e] eqn:Hd; [by eapply ap_Describe_Ok|]. by destruct (IsBlobNotFound e).
  - intros c a s d bytes. cbn [bm_Download ap_blobmanager]. unfold ap_Download.
    destruct (ap_Exists c a s d) as [[]|]; [|done|done]. destruct (keyFor a d) as [k|] eqn:Hk; [|done].
    apply keyFor_Ok in Hk. unfold ap_location. rewrite <-Hk. apply s3_download_law.
  - intros c a s c' a' d Ha Ha'. cbn [bm_CheckWritePermissions ap_blobmanager]. unfold ap_CheckWritePermissions.
    destruct (requesting_org a) as [o|] eqn:Hr; [|done]. destruct (requesting_org_Ok _ _ Hr) as (cl & -> & _ & -> & _).
    pose proof (s3_put_law (b_s3Client c) s (ap_AccessPointARN (b_creds c)) (cc_OrgID cl +:+ "/" +:+ "healthcheck") "healthcheckdata"
                  (ap_location c' a' d)) as Hp.
    match type of Hp with ?P -> _ => assert P as Hne end.
    { intros [= _ _ Hk]. destruct (split_at_slash (org_of a') (cc_OrgID cl) ("sha256:" +:+ d) "healthcheck" (plain_org _ Ha') Ha Hk) as [_ [=]]. }
    specialize (Hp Hne). by destruct (s3_put _ _ _ _ _) as [[]]; cbn in *.
Defined.
End Backend.
End S3AccessPoint.


(** ** Azure *)

Module Azureblob.

(** The SDK: a client of a service URL and one of a blob's URL, over containers of blobs *)
Class AzureSdk := {
  AzState : Type;
  AzCredential : Type;
  AzClient : Type;
  AzBlobClient : Type;
  az_NewClient : string -> AzCredential -> result AzClient;
  az_blob_NewClient : string -> AzCredential -> result AzBlobClient;
  az_CreateContainer : AzClient -> AzState -> string -> result unit * AzState;
  az_UploadFile : AzClient -> AzState -> string -> string -> string -> gmap string string -> result unit * AzState;
  az_UploadStream : AzClient -> AzState -> string -> string -> string -> gmap string string -> result unit * AzState;
  az_UploadBuffer : AzClient -> AzState -> string -> string -> result unit * AzState;
  az_GetProperties : AzBlobClient -> AzState -> result (gmap string string * option Z);
  az_DownloadStream : AzClient -> AzState -> string -> string -> result (string * option goerr)
}.

(** A blob belongs to a service URL, a container and a name, and is written as a whole *)
Class AzureLaws `{AzureSdk} := {
  az_object : AzState -> string * string * string -> option string;
  az_create_law : forall url cred cl s c, az_NewClient url cred = Ok cl ->
    forall l, az_object (az_CreateContainer cl s c).2 l = az_object s l;
  az_buffer_law : forall url cred cl s c n, az_NewClient url cred = Ok cl ->
    forall l, l <> (url, c, n) -> az_object (az_UploadBuffer cl s c n).2 l = az_object s l;
  az_upload_law : forall url cred cl s c n body md (file : bool), az_NewClient url cred = Ok cl ->
    let '(r, s') := (if file then az_UploadFile else az_UploadStream) cl s c n body md in
    (forall l, l <> (url, c, n) -> az_object s' l = az_object s l)
    /\ (az_object s' (url, c, n) = Some body
        \/ az_object s' (url, c, n) = az_object s (url, c, n) /\ is_ok r = false);
  az_properties_law : forall url c n cred bc s p, az_blob_NewClient (url +:+ c +:+ "/" +:+ n) cred = Ok bc ->
    az_GetProperties bc s = Ok p -> is_Some (az_object s (url, c, n));
  az_download_law : forall url cred cl s c n bytes, az_NewClient url cred = Ok cl ->
    az_DownloadStream cl s c n = Ok (bytes, None) -> az_object s (url, c, n) = Some bytes
}.

Definition BlobNotFound : string := "BlobNotFound".
Definition ContainerAlreadyExists : string := "ContainerAlreadyExists".
Definition no_client : goerr -> goerr := EWrap "failed to create Azure Blob Storage client".

Section Backend.
Context `{AzureSdk}.

Record az_Backend := {
  b_storageAccountName : string;
  b_container : string;
  b_credentials : AzCredential;
  b_endpoint : string
}.

Definition getServiceURL (b : az_Backend) : string :=
  "https://" +:+ b_storageAccountName b +:+ "."
  +:+ (if is_empty (b_endpoint b) then "blob.core.windows.net" else b_endpoint b) +:+ "/".

Definition resourcePath (b : az_Backend) (digest : string) : string :=
  getServiceURL b +:+ b_container b +:+ "/" +:+ resourceName digest.

Definition client (b : az_Backend) : result AzClient := map_err no_client (az_NewClient (getServiceURL b) (b_credentials b)).
Definition blobClient (b : az_Backend) (digest : string) : result AzBlobClient :=
  map_err no_client (az_blob_NewClient (resourcePath b digest) (b_credentials b)).

Definition createContainer (b : az_Backend) (cl : AzClient) (s : AzState) : result unit * AzState :=
  match az_CreateContainer cl s (b_container b) with
  | (Err e, s') => (if errors_is ContainerAlreadyExists e then Ok tt
                    else Err (EWrap "failed to create Blob storage Container" e), s')
  | (Ok _, s') => (Ok tt, s')
  end.

Definition az_Describe (b : az_Backend) (s : AzState) (digest : string) : result CASResource :=
  bc ← map_err no_client (blobClient b digest);
  match az_GetProperties bc s with
  | Err e => if errors_is BlobNotFound e then Err (NewBlobErrNotFound "artifact")
             else Err (EWrap "failed to get blob properties" e)
  | Ok (metadata, contentLength) =>
      _ ← guard_err (negb (bool_decide (metadata !! "Author" = Some AuthorAnnotation)))
            (EMsg "asset not uploaded by Chainloop");
      match metadata !! "Filename", contentLength with
      | None, _ => Err (EMsg "couldn't find file metadata")
      | Some _, None => Err (panic "nil dereference")
      | Some fileName, Some n => Ok {| rs_FileName := fileName; rs_Size := n; rs_Digest := "" |}
      end
  end.

Definition az_Exists (b : az_Backend) (s : AzState) (digest : string) : result bool := exists_of (az_Describe b s digest).

(** [file]: the reader is an open file *)
Definition az_Upload (file : bool) (b : az_Backend) (s : AzState) (body : string) (r : CASResource) : result unit * AzState :=
  match client b with
  | Err e => (Err e, s)
  | Ok cl =>
      match createContainer b cl s with
      | (Err e, s') => (Err (EWrap "failed to create Blob storage Container" e), s')
      | (Ok _, s') =>
          let metadata : gmap string string := <["Author" := AuthorAnnotation]> {["Filename" := rs_FileName r]} in
          (if file then az_UploadFile else az_UploadStream) cl s' (b_container b) (resourceName (rs_Digest r)) body metadata
      end
  end.

Definition az_Download (b : az_Backend) (s : AzState) (digest : string) : string * option goerr :=
  match az_Exists b s digest with
  | Err e => ("", Some (EWrap "invalid artifact" e))
  | Ok false => ("", Some (NewBlobErrNotFound "artifact"))
  | Ok true =>
      match client b with
      | Err e => ("", Some (no_client e))
      | Ok cl =>
          match az_DownloadStream cl s (b_container b) (resourceName digest) with
          | Err e => ("", Some (EWrap "failed to download blob" e))
          | Ok (bytes, e) => (bytes, EWrap "failed to copy blob to writer" <$> e)
          end
      end
  end.

Definition az_CheckWritePermissions (b : az_Backend) (s : AzState) : result unit * AzState :=
  match client b with
  | Err e => (Err (no_client e), s)
  | Ok cl =>
      match createContainer b cl s with
      | (Err e, s') => (Err (EWrap "failed to create Blob storage Container" e), s')
      | (Ok _, s') =>
          let '(res, s'') := az_UploadBuffer cl s' (b_container b) "healthCheck" in
          (map_err (EWrap "failed write to Blob Storage") res, s'')
      end
  end.

#[local] Instance az_blobmanager : Blobmanager := {
  Store := AzState;
  Client := az_Backend;
  bm_Upload b _ := az_Upload true b;
  bm_Exists b _ := az_Exists b;
  bm_Describe b _ := az_Describe b;
  bm_Download b _ := az_Download b;
  bm_CheckWritePermissions b _ := az_CheckWritePermissions b
}.

(** *** The interface *)

Context {laws : AzureLaws}.

Definition az_location (b : az_Backend) (d : string) : string * string * string := (getServiceURL b, b_container b, resourceName d).

Lemma createContainer_keeps b cl s l :
  az_NewClient (getServiceURL b) (b_credentials b) = Ok cl -> az_object (createContainer b cl s).2 l = az_object s l.
Proof.
  intros Hc. pose proof (az_create_law _ _ _ s (b_container b) Hc l) as Hl. unfold createContainer.
  by destruct (az_CreateContainer _ _ _) as [[]].
Qed.

Lemma Exists_location b s d : az_Exists b s d = Ok true -> is_Some (az_object s (az_location b d)).
Proof.
  unfold az_Exists, exists_of. destruct (az_Describe b s d) as [r|e] eqn:Hd; [|by destruct (IsBlobNotFound e)]. intros _.
  unfold az_Describe in Hd. apply bind_Ok in Hd as (bc & Hb%map_err_Ok & Hd). unfold blobClient in Hb. apply map_err_Ok in Hb.
  destruct (az_GetProperties bc s) as [p|e] eqn:Hp; [|by destruct (errors_is _ e)]. by eapply az_properties_law.
Qed.

#[local] Instance az_blob_laws : BlobLaws.
Proof.
  refine {| Location := string * string * string; content := (az_object : Store -> _);
            locate := fun (b : Client) _ d => az_location b d |}.
  - done.
  - intros c c' a a' d d' _ _ [= _ _ Hk]. done.
  - intros c a s body r. cbn [bm_Upload az_blobmanager]. unfold az_Upload.
    destruct (client c) as [cl|] eqn:Hc; [|by split; [|right]]. apply map_err_Ok in Hc.
    pose proof (fun l => createContainer_keeps c cl s l Hc) as Hk. destruct (createContainer c cl s) as [[[]|e] s']; cbn in Hk.
    + pose proof (az_upload_law _ _ _ s' (b_container c) (resourceName (rs_Digest r)) body
                    (<["Author" := AuthorAnnotation]> {["Filename" := rs_FileName r]}) true Hc) as Hu. cbn in Hu.
      destruct (az_UploadFile _ _ _ _ _ _) as [res s'']. destruct Hu as [Ho Hd]. split.
      * intros l Hl. rewrite <-Hk. by apply Ho.
      * rewrite <-(Hk (az_location c _)). exact Hd.
    + split; [intros l _; apply Hk|]. right. by rewrite Hk.
  - intros c a s d. apply Exists_location.
  - intros c a s d bytes. cbn [bm_Download az_blobmanager]. unfold az_Download.
    destruct (az_Exists c s d) as [[]|]; [|done|done]. destruct (client c) as [cl|] eqn:Hc; [|done]. apply map_err_Ok in Hc.
    destruct (az_DownloadStream _ _ _ _) as [[by_ [e|]]|] eqn:Hd; intros [=]; subst. by eapply az_download_law.
  - intros c a s c' a' d _ _. cbn [bm_CheckWritePermissions az_blobmanager]. unfold az_CheckWritePermissions.
    destruct (client c) as [cl|] eqn:Hc; [|done]. apply map_err_Ok in Hc.
    pose proof (fun l => createContainer_keeps c cl s l Hc) as Hk. destruct (createContainer c cl s) as [[[]|e] s']; cbn in Hk; [|apply Hk].
    pose proof (az_buffer_law _ _ _ s' (b_container c) "healthCheck" Hc (az_location c' d) ltac:(by intros [=])) as Hb.
    destruct (az_UploadBuffer _ _ _ _) as [res s'']. cbn in *. rewrite Hb. apply Hk.
Defined.
End Backend.
End Azureblob.

(** ** A service in memory *)

Module ToyS3.
Abbreviation toy_objects := (gmap (string * string) (string * gmap string string)).

#[export] Instance toy_s3 : S3Sdk := {
  S3State := toy_objects;
  S3Client := unit;
  s3_head _ s b k _ := match s !! (b, k) with
    | Some (body, md) => Ok {| ho_ChecksumSHA256 := None; ho_Metadata := md; ho_ContentLength := Some (Z.of_nat (String.length body)) |}
    | None => Err (ESentinel S3NotFoundCode)
    end;
  s3_upload _ s b k body md := (Ok tt, <[(b, k) := (body, md)]> s);
  s3_put _ s b k body := (Ok tt, <[(b, k) := (body, ∅)]> s);
  s3_get _ s b k := match s !! (b, k) with Some o => Ok o.1 | None => Err (ESentinel S3NotFoundCode) end;
  s3_download _ s b k := match s !! (b, k) with Some o => (o.1, None) | None => ("", Some (ESentinel S3NotFoundCode)) end
}.

Lemma toy_pair_ne (b k : string) (l : string * string * string) : l <> ("", b, k) -> l.1.1 = "" -> (b, k) <> (l.1.2, l.2).
Proof. destruct l as [[e b'] k']. cbn. intros Hl -> [= <- <-]. done. Qed.

#[export] Instance toy_s3_laws : S3Laws.
Proof.
  refine {| s3_object := fun s l => if bool_decide (l.1.1 = "") then fst <$> (s : toy_objects) !! (l.1.2, l.2) else None;
            s3_endpoint := fun _ => "" |}.
  - intros c s b k mode r. cbn. destruct (_ !! _) as [[body md]|]; [|done]. intros _. by eexists.
  - intros c s b k body md. cbn. split.
    + intros l Hl. case_bool_decide as E; [|done]. by rewrite (lookup_insert_ne _ _ _ _ (toy_pair_ne _ _ _ Hl E)).
    + left. by rewrite lookup_insert_eq.
  - intros c s b k body l Hl. cbn. case_bool_decide as E; [|done]. by rewrite (lookup_insert_ne _ _ _ _ (toy_pair_ne _ _ _ Hl E)).
  - intros c s b k bytes. cbn. destruct (_ !! _) as [[body md]|]; [|done]. by intros [= ->].
Defined.

Definition access_point : S3AccessPoint.ap_Backend :=
  {| S3AccessPoint.b_creds := {| S3AccessPoint.ap_AccessPointARN := "arn:aws:s3:r:1:accesspoint/x"; S3AccessPoint.ap_Region := "r";
                                 S3AccessPoint.ap_BaseRoleARN := "arn:aws:iam::1:role/x"; S3AccessPoint.ap_SessionPolicyARN := "" |};
     S3AccessPoint.b_s3Client := tt |}.

Definition auth_of (org : string) : AuthInfo :=
  CasClaims {| cc_Issuer := DefaultIssuer; cc_Audience := [CASAudience]; cc_ExpiresAt := None; cc_Role := Uploader;
               cc_StoredSecretID := "secret"; cc_BackendType := "AWS-S3-ACCESS-POINT"; cc_MaxBytes := 100; cc_OrgID := org;
               cc_SourceInternal := false; cc_Digest := "" |}.
End ToyS3.

Import ToyS3.

