(* ===== verification/ArtifactCas.v ===== *)
(** * The artifact CAS

    app/artifact-cas/internal/service: the byte stream that writes and reads
    artifacts (bytestream.go), the staging of both on disk (staging.go), the caches
    of an upload (cache.go, with pkg/cache/casexistence), the HTTP download
    (download.go), the description of a resource (resource.go) and the audit events
    (auditor.go).

    A request takes an [Env]: what the world outside of the process does while the
    request runs (providers, disk, caches, connections), the contents of the streams
    being lists of what arrives.  Requests interleave at the point where an upload
    has been verified and is handed to the store ([Write_begin], [Write_commit]).
    The loggers and the pace hook, which production leaves unset, are left out. *)

From stdpp Require Import pretty.
From S2P Require Import Prelude.
From S2P Require Import GoStrings.
From S2P Require Import Base64.
From S2P Require Import BizErrors.
From S2P Require Import Authz.
From S2P Require Import Access.
From S2P Require Import CasTokens.
From S2P Require Import BlobStores.

Open Scope Z_scope.

(** ** Errors *)

(** [sl.LogAndMaskErr] *)
Definition LogAndMaskErr (e : goerr) : goerr := transport_err InternalServer "server error".

(** [status.Error]; a code is the sentinel of its errors *)
Definition InvalidArgument : string := "InvalidArgument".
Definition ResourceExhausted : string := "ResourceExhausted".
Definition DataLoss : string := "DataLoss".
Definition Unavailable : string := "Unavailable".
Definition Canceled : string := "Canceled".
Definition status_Error (code : string) (e : goerr) : goerr := EWrap2 "status" (ESentinel code) (EMsg "message").

Definition ECONNRESET : string := "connection reset by peer".
Definition EPIPE : string := "broken pipe".
Definition ErrEOF : string := "EOF".

Definition isClientDisconnect (e : goerr) : bool :=
  errors_is ErrCanceled e || errors_is Canceled e || errors_is ECONNRESET e || errors_is EPIPE e.

(** [kerrors.IsNotFound] *)
Definition kerrors_IsNotFound : goerr -> bool := errors_is NotFound.

(** [digestMismatchError], with what it was expected to be *)
Definition digestMismatch : string := "digestMismatchError".
Definition digestMismatchError (kind got want : string) : goerr :=
  EWrap (kind +:+ ": got=" +:+ got +:+ ", want=" +:+ want) (ESentinel digestMismatch).
Definition stagingUpload : string := "uploaded content does not match the declared digest".
Definition stagingDownload : string := "stored content does not match the requested digest".

(** ** The world of a request *)

(** Failures of the staging disk: creating the file, unlinking it, writing it up to
    a size, sizing and rewinding it, and its nth read *)
Record Disk := {
  dk_create : option goerr;
  dk_unlink : option goerr;
  dk_write : Z -> option goerr;
  dk_size : option goerr;
  dk_rewind : option goerr;
  dk_read : nat -> option goerr
}.

(** encoding/gob on [CASResource], of which it keeps the exported fields *)
Class Gob := {
  gob_Encode : CASResource -> result string;
  gob_Decode : string -> result CASResource
}.
Class GobLaws `{Gob} := {
  gob_Decode_Encode : forall r raw, gob_Encode r = Ok raw -> gob_Decode raw = Ok r
}.

(** [bytestream.WriteRequest] *)
Record WriteRequest := { wq_ResourceName : string; wq_FinishWrite : bool; wq_Data : string }.

(** One turn of the loop that receives: what the context says, if it is done, and
    what [Recv] returns.  After its last turn a stream is at its end. *)
Record Turn := { tn_ctx : option goerr; tn_recv : result WriteRequest }.
Abbreviation WriteStream := (list Turn).

(** [decodeResource] *)
Definition decodeResource `{Gob} (b64encoded : string) : result CASResource :=
  match DecodeString b64encoded with
  | None => Err (EMsg "illegal base64 data")
  | Some raw => gob_Decode raw
  end.

(** [getWriteRequest] on what [Recv] returned *)
Definition getWriteRequest `{Gob} (r : result WriteRequest) : result (WriteRequest * CASResource) :=
  req ← r;
  resource ← map_err (fun _ => EMsg "resourceName must be set") (decodeResource (wq_ResourceName req));
  Ok (req, resource).

(** ** Staging *)

Definition checkUploadSize (total maxSize : Z) : result unit :=
  if negb (bool_decide (maxSize = 0)) && bool_decide (maxSize < total) then Err NewErrUploadSizeExceeded else Ok tt.

Definition str_size (s : string) : Z := Z.of_nat (String.length s).

Section Staging.
Context `{Gob} `{Hashes}.
Variables (stagingDir : string) (disk : Disk).

(** [stageAndVerify].  [fill] says what its producer wrote and whether it failed;
    [n] counts the staging files that are open. *)
Definition stageAndVerify (kind wantDigest : string) (fill : string * result unit) (n : nat) : result (string * Z) * nat :=
  if is_empty stagingDir then (Err (EMsg "no staging directory configured"), n)
  else match dk_create disk with
  | Some e => (Err (EWrap "creating staging file" e), n)
  | None =>
      let n := S n in
      let closed := (n - 1)%nat in
      match dk_unlink disk with
      | Some e => (Err (EWrap "unlinking staging file" e), closed)
      | None =>
          match fill.2 with
          | Err e => (Err e, closed)
          | Ok _ =>
              let got := SHA256 fill.1 in
              if negb (bool_decide (got = wantDigest)) then (Err (digestMismatchError kind got wantDigest), closed)
              else match dk_size disk with
              | Some e => (Err (EWrap "sizing staging file" e), closed)
              | None =>
                  match dk_rewind disk with
                  | Some e => (Err (EWrap "rewinding staging file" e), closed)
                  | None => (Ok (fill.1, str_size fill.1), n)
                  end
              end
          end
      end
  end.

(** The closure [write] of [spillStream], on what is staged already *)
Definition spill_write (maxSize : Z) (staged data : string) : string * result unit :=
  if is_empty data then (staged, Ok tt)
  else
    let size := str_size staged + str_size data in
    match checkUploadSize size maxSize with
    | Err e => (staged, Err e)
    | Ok _ =>
        match dk_write disk size with
        | Some e => (staged, Err (EWrap "writing to staging file" e))
        | None => (staged +:+ data, Ok tt)
        end
    end.

Fixpoint spill_loop (maxSize : Z) (staged : string) (stream : WriteStream) : string * result unit :=
  match stream with
  | [] => (staged, Ok tt)
  | turn :: stream =>
      match tn_ctx turn with
      | Some e => (staged, Err e)
      | None =>
          match getWriteRequest (tn_recv turn) with
          | Err e => if errors_is ErrEOF e then (staged, Ok tt) else (staged, Err e)
          | Ok (req, _) =>
              match spill_write maxSize staged (wq_Data req) with
              | (staged, Err e) => (staged, Err e)
              | (staged, Ok _) =>
                  if wq_FinishWrite req then (staged, Ok tt) else spill_loop maxSize staged stream
              end
          end
      end
  end.

Definition spillStream (maxSize : Z) (firstData : string) (stream : WriteStream) : string * result unit :=
  match spill_write maxSize "" firstData with
  | (staged, Err e) => (staged, Err e)
  | (staged, Ok _) => spill_loop maxSize staged stream
  end.
End Staging.

(** ** The service *)

(** Audit events; the organization is that of the token *)
Inductive AuditEvent :=
| CASArtifactUploaded (org digest fileName backendType : string) (size : Z) (skipped : bool)
| CASArtifactDownloaded (org digest fileName backendType : string) (size : Z).

(** [casexistence.Key] *)
Definition casexistence_Key `{Hashes} (orgID backendType secretID digest : string) : string :=
  join [orgID; backendType; SHA256 secretID; digest] "/".

(** [clientKey] *)
Definition clientKey (info : Claims) : string :=
  join [cc_BackendType info; cc_OrgID info; cc_StoredSecretID info] (String (byte 0) "").

Section Service.
Context `{Gob} `{Hashes} `{UuidLib} `{Blobmanager}.

Record Env := {
  ev_providers : nat -> string -> option (string -> result Client);
  ev_stagingDir : string;
  ev_disk : Disk;
  ev_cache_get : option goerr;
  ev_cache_set : option goerr;
  ev_close : option goerr;
  ev_send : nat -> option goerr;
  ev_audit : bool
}.

(** [commonService]: the store behind its backends, its caches if they are enabled,
    the staging files that are open, and the audit events *)
Record CasState := {
  st_store : Store;
  st_existence : option (gmap string Z);
  st_clients : option (gmap string Client);
  st_open : nat;
  st_audit : list AuditEvent
}.

Definition with_store (s : Store) (st : CasState) : CasState :=
  {| st_store := s; st_existence := st_existence st; st_clients := st_clients st; st_open := st_open st; st_audit := st_audit st |}.
Definition with_existence (m : option (gmap string Z)) (st : CasState) : CasState :=
  {| st_store := st_store st; st_existence := m; st_clients := st_clients st; st_open := st_open st; st_audit := st_audit st |}.
Definition with_clients (m : option (gmap string Client)) (st : CasState) : CasState :=
  {| st_store := st_store st; st_existence := st_existence st; st_clients := m; st_open := st_open st; st_audit := st_audit st |}.
Definition with_open (n : nat) (st : CasState) : CasState :=
  {| st_store := st_store st; st_existence := st_existence st; st_clients := st_clients st; st_open := n; st_audit := st_audit st |}.
Definition with_audit (l : list AuditEvent) (st : CasState) : CasState :=
  {| st_store := st_store st; st_existence := st_existence st; st_clients := st_clients st; st_open := st_open st; st_audit := l |}.

(** [closeStagingFile] *)
Definition closeStagingFile (st : CasState) : CasState := with_open (st_open st - 1) st.

(** [shouldEmit] and [Dispatch] *)
Definition shouldEmit (env : Env) (info : Claims) : bool := ev_audit env && negb (cc_SourceInternal info).
Definition Dispatch (env : Env) (info : Claims) (event : UUID -> AuditEvent) (st : CasState) : CasState :=
  if shouldEmit env info then
    match uuid_Parse (cc_OrgID info) with
    | Some org => with_audit (st_audit st ++ [event org]) st
    | None => st
    end
  else st.

(** *** The caches (cache.go) *)

Definition existenceKey (st : CasState) (info : Claims) (digest : string) : string :=
  match st_existence st with
  | None => ""
  | Some _ => if is_empty (cc_OrgID info) then ""
              else casexistence_Key (cc_OrgID info) (cc_BackendType info) (cc_StoredSecretID info) digest
  end.

Definition lookupExistence (env : Env) (key : string) (st : CasState) : option Z :=
  if is_empty key then None
  else match ev_cache_get env with Some _ => None | None => m ← st_existence st; m !! key end.

Definition storeExistence (env : Env) (key : string) (size : Z) (st : CasState) : CasState :=
  if is_empty key then st
  else match ev_cache_set env, st_existence st with
       | None, Some m => with_existence (Some (<[key := size]> m)) st
       | _, _ => st
       end.

(** [loadBackend]; [n] counts the loads of the request *)
Definition loadBackend (env : Env) (n : nat) (providerType secretID : string) : result Client :=
  match ev_providers env n providerType with
  | None => Err (transport_err NotFound ("backend " +:+ providerType +:+ " not found"))
  | Some fromCredentials => map_err (EWrap "failed to retrieve backend") (fromCredentials secretID)
  end.

Definition loadUploadBackend (env : Env) (n : nat) (info : Claims) (st : CasState) : result (Client * bool) * CasState :=
  match st_clients st with
  | None => (b ← loadBackend env n (cc_BackendType info) (cc_StoredSecretID info); Ok (b, false), st)
  | Some m =>
      match m !! clientKey info with
      | Some b => (Ok (b, true), st)
      | None =>
          match loadBackend env n (cc_BackendType info) (cc_StoredSecretID info) with
          | Err e => (Err e, st)
          | Ok b => (Ok (b, false), with_clients (Some (<[clientKey info := b]> m)) st)
          end
      end
  end.

Definition dropUploadBackend (info : Claims) (st : CasState) : CasState :=
  match st_clients st with None => st | Some m => with_clients (Some (delete (clientKey info) m)) st end.

(** *** Writing *)

(** [backendExists]: the loop of its attempts, on fuel *)
Fixpoint backendExists_loop (fuel : nat) (env : Env) (attempt : nat) (auth : AuthInfo) (info : Claims) (digest : string)
    (st : CasState) : result (Client * bool) * CasState :=
  match fuel with
  | O => (Err (panic "out of fuel"), st)
  | S fuel =>
      match loadUploadBackend env attempt info st with
      | (Err e, st) => (Err (if kerrors_IsNotFound e then e else LogAndMaskErr e), st)
      | (Ok (b, cached), st) =>
          match bm_Exists b auth (st_store st) digest with
          | Ok exists_ => (Ok (b, exists_), st)
          | Err e =>
              let st := dropUploadBackend info st in
              if negb cached || (0 <? attempt)%nat then (Err (LogAndMaskErr e), st)
              else backendExists_loop fuel env (S attempt) auth info digest st
          end
      end
  end.

Definition backendExists (env : Env) (auth : AuthInfo) (info : Claims) (digest : string) (st : CasState)
    : result (Client * bool) * CasState :=
  backendExists_loop 2 env 0 auth info digest st.

Definition dispatchSkippedUpload (env : Env) (info : Claims) (resource : CASResource) (size : Z) : CasState -> CasState :=
  Dispatch env info (fun org => CASArtifactUploaded org (rs_Digest resource) (rs_FileName resource) (cc_BackendType info) size true).

(** The answer: [SendAndClose] with a committed size, or nothing *)
Definition SendAndClose (env : Env) (committedSize : Z) : result (option Z) :=
  match ev_close env with Some e => Err e | None => Ok (Some committedSize) end.

(** An upload that is staged and verified, on its way to the store *)
Record Pending := {
  pd_auth : AuthInfo;
  pd_info : Claims;
  pd_client : Client;
  pd_key : string;
  pd_resource : CASResource;
  pd_body : string;
  pd_size : Z
}.

(** How an upload that was not staged ends *)
Definition spillError (e : goerr) : result (option Z) :=
  if errors_is digestMismatch e then Err (status_Error InvalidArgument e)
  else if isClientDisconnect e then Ok None
  else if IsUploadSizeExceeded e then Err (status_Error ResourceExhausted e)
  else Err (LogAndMaskErr e).

(** The request up to its first message, which names the artifact *)
Definition write_request (auth : AuthInfo) (stream : WriteStream) : result (Claims * WriteRequest * CASResource * WriteStream) :=
  info ← InfoFromAuth auth;
  _ ← map_err (fun _ => transport_err Unauthorized "service") (CheckRole info Uploader);
  first ← map_err (fun _ => transport_err BadRequest "resource name")
            match stream with [] => Err (ESentinel ErrEOF) | turn :: _ => getWriteRequest (tn_recv turn) end;
  _ ← map_err (fun _ => transport_err Forbidden "service") (CheckDigest info (rs_Digest first.2));
  Ok (info, first.1, first.2, tail stream).

(** [Write] until the staged file goes to the store *)
Definition Write_begin (env : Env) (auth : AuthInfo) (stream : WriteStream) (st : CasState)
    : (result (option Z) + Pending) * CasState :=
  match write_request auth stream with
  | Err e => (inl (Err e), st)
  | Ok (info, req, resource, stream) =>
      let key := existenceKey st info (rs_Digest resource) in
      match lookupExistence env key st with
      | Some size => (inl (SendAndClose env 0), dispatchSkippedUpload env info resource size st)
      | None =>
          match backendExists env auth info (rs_Digest resource) st with
          | (Err e, st) => (inl (Err e), st)
          | (Ok (b, true), st) =>
              let st :=
                if negb (is_empty key) || shouldEmit env info then
                  match bm_Describe b auth (st_store st) (rs_Digest resource) with
                  | Ok r => dispatchSkippedUpload env info resource (rs_Size r) (storeExistence env key (rs_Size r) st)
                  | Err _ => dispatchSkippedUpload env info resource 0 st
                  end
                else st in
              (inl (SendAndClose env 0), st)
          | (Ok (b, false), st) =>
              let '(staged, n) := stageAndVerify (ev_stagingDir env) (ev_disk env) stagingUpload (rs_Digest resource)
                    (spillStream (ev_disk env) (cc_MaxBytes info) (wq_Data req) stream) (st_open st) in
              match staged with
              | Err e => (inl (spillError e), with_open n st)
              | Ok (body, size) =>
                  (inr {| pd_auth := auth; pd_info := info; pd_client := b; pd_key := key; pd_resource := resource;
                          pd_body := body; pd_size := size |}, with_open n st)
              end
          end
      end
  end.

(** The rest of [Write] *)
Definition Write_commit (env : Env) (p : Pending) (st : CasState) : result (option Z) * CasState :=
  let '(res, s') := bm_Upload (pd_client p) (pd_auth p) (st_store st) (pd_body p) (pd_resource p) in
  let st := closeStagingFile (with_store s' st) in
  match res with
  | Err e => (Err (LogAndMaskErr e), dropUploadBackend (pd_info p) st)
  | Ok _ =>
      (SendAndClose env (pd_size p),
       Dispatch env (pd_info p)
         (fun org => CASArtifactUploaded org (rs_Digest (pd_resource p)) (rs_FileName (pd_resource p)) (cc_BackendType (pd_info p))
                       (pd_size p) false)
         (storeExistence env (pd_key p) (pd_size p) st))
  end.

Definition Write (env : Env) (auth : AuthInfo) (stream : WriteStream) (st : CasState) : result (option Z) * CasState :=
  match Write_begin env auth stream st with
  | (inl r, st) => (r, st)
  | (inr p, st) => Write_commit env p st
  end.

(** *** Reading *)

(** [stageDownload]; a download whose bytes do not fit on the disk fails *)
Definition stageDownload (env : Env) (b : Client) (auth : AuthInfo) (digest : string) (st : CasState) : result (string * Z) * nat :=
  let '(bytes, e) := bm_Download b auth (st_store st) digest in
  stageAndVerify (ev_stagingDir env) (ev_disk env) stagingDownload digest
    (bytes, match dk_write (ev_disk env) (str_size bytes), e with
            | Some d, _ => Err (EWrap "writing to staging file" d)
            | None, Some e => Err e
            | None, None => Ok tt
            end) (st_open st).

Definition stagedChunkSize : nat := 512 * 1024.

(** [sendWriter] *)
Definition sendWriter (env : Env) (n : nat) : option goerr :=
  match ev_send env n with
  | Some e => Some (if errors_is Unavailable e then EWrap2 "joined" (ESentinel ErrCanceled) e else e)
  | None => None
  end.

(** [copyStaged]: the messages that were sent, and the failure that ended it *)
Fixpoint copy_loop (fuel : nat) (env : Env) (n : nat) (rest : string) : list string * option goerr :=
  match fuel with
  | O => ([], Some (panic "out of fuel"))
  | S fuel =>
      match dk_read (ev_disk env) n with
      | Some e => ([], Some e)
      | None =>
          if is_empty rest then ([], None)
          else match sendWriter env n with
          | Some e => ([], Some e)
          | None =>
              let '(sent, e) := copy_loop fuel env (S n) (str_drop stagedChunkSize rest) in
              (str_take stagedChunkSize rest :: sent, e)
          end
      end
  end.
Definition copyStaged (env : Env) (body : string) : list string * option goerr :=
  copy_loop (S (String.length body)) env 0 body.

Definition downloadError (e : goerr) : result unit :=
  if errors_is digestMismatch e then Err (status_Error DataLoss e)
  else if isClientDisconnect e then Ok tt
  else Err (LogAndMaskErr e).

(** The request of a read, with its client *)
Definition read_request (env : Env) (auth : AuthInfo) (resourceName : string) : result (Claims * Client) :=
  info ← InfoFromAuth auth;
  _ ← map_err (fun _ => transport_err Unauthorized "service") (CheckRole info Downloader);
  _ ← guard_err (is_empty resourceName) (transport_err BadRequest "empty resource name");
  _ ← map_err (fun _ => transport_err Forbidden "service") (CheckDigest info resourceName);
  b ← map_err (fun e => if kerrors_IsNotFound e then e else LogAndMaskErr e)
        (loadBackend env 0 (cc_BackendType info) (cc_StoredSecretID info));
  Ok (info, b).

(** [Read]: its error, and the messages that it sent *)
Definition Read (env : Env) (auth : AuthInfo) (resourceName : string) (st : CasState) : (result unit * list string) * CasState :=
  match read_request env auth resourceName with
  | Err e => ((Err e, []), st)
  | Ok (info, b) =>
      let '(staged, n) := stageDownload env b auth resourceName st in
      let st := with_open n st in
      match staged with
      | Err e => ((downloadError e, []), st)
      | Ok (body, size) =>
          let '(sent, failed) := copyStaged env body in
          match failed with
          | Some e => ((downloadError e, sent), closeStagingFile st)
          | None =>
              ((Ok tt, sent),
               closeStagingFile (Dispatch env info
                 (fun org => CASArtifactDownloaded org resourceName "" (cc_BackendType info) size) st))
          end
      end
  end.

(** *** Describing (resource.go) *)

Definition ResourceDescribe (env : Env) (auth : AuthInfo) (digest : string) (st : CasState) : result CASResource :=
  info ← InfoFromAuth auth;
  _ ← map_err (fun _ => transport_err Unauthorized "service") (CheckRole info Downloader);
  _ ← map_err (fun _ => transport_err Forbidden "service") (CheckDigest info digest);
  b ← map_err (fun e => if kerrors_IsNotFound e then e else LogAndMaskErr e)
        (loadBackend env 0 (cc_BackendType info) (cc_StoredSecretID info));
  match bm_Describe b auth (st_store st) digest with
  | Err e => Err (if IsBlobNotFound e then transport_err NotFound "not found" else LogAndMaskErr e)
  | Ok r => Ok {| rs_FileName := rs_FileName r; rs_Size := rs_Size r; rs_Digest := rs_Digest r |}
  end.

(** *** Downloading over HTTP (download.go) *)

(** A response: the status once a header is written (200 if none ever is), the
    headers, which are sent with it, and the body *)
Record Response := { rw_status : option Z; rw_header : gmap string string; rw_body : string }.

Definition no_response : Response := {| rw_status := None; rw_header := ∅; rw_body := "" |}.

Definition WriteHeader (code : Z) (w : Response) : Response :=
  {| rw_status := Some (default code (rw_status w)); rw_header := rw_header w; rw_body := rw_body w |}.
Definition on_header (f : gmap string string -> gmap string string) (w : Response) : Response :=
  match rw_status w with
  | Some _ => w
  | None => {| rw_status := None; rw_header := f (rw_header w); rw_body := rw_body w |}
  end.
Definition SetHeader (k v : string) : Response -> Response := on_header <[k := v]>.
Definition WriteBody (s : string) (w : Response) : Response :=
  if is_empty s then w
  else
    let w := WriteHeader 200 w in
    {| rw_status := rw_status w; rw_header := rw_header w; rw_body := rw_body w +:+ s |}.

(** [http.Error]; the text of an error is of no interest *)
Definition http_Error (msg : string) (code : Z) (w : Response) : Response :=
  WriteBody (msg +:+ newline)
    (WriteHeader code (SetHeader "X-Content-Type-Options" "nosniff"
      (SetHeader "Content-Type" "text/plain; charset=utf-8" (on_header (delete "Content-Length") w)))).

Definition trim_prefix (s pre : string) : string :=
  if has_prefix s pre then str_drop (String.length pre) s else s.

Definition etagMatches (ifNoneMatch etag : string) : bool :=
  existsb (fun candidate => let candidate := trim_space candidate in
             bool_decide (candidate = "*") || bool_decide (trim_prefix candidate "W/" = etag))
    (split ifNoneMatch ",").

Definition setCacheHeaders (etag : string) (w : Response) : Response :=
  SetHeader "Cache-Control" "private, no-cache" (SetHeader "ETag" etag w).

(** [ctx.Err()] of the request, if it is done *)
Definition writeDownloadError (ctx_err : option goerr) (e : goerr) (w : Response) : Response :=
  if errors_is digestMismatch e then http_Error "digest mismatch" 500 w
  else if match ctx_err with Some c => errors_is ErrCanceled c | None => false end || isClientDisconnect e then w
  else http_Error "server error" 500 w.

(** A request, with what its connection does: how many bytes [io.Copy] gets through
    before a failure, if it fails *)
Record HttpRequest := {
  hr_digest : option string;
  hr_ifNoneMatch : string;
  hr_filename : string;
  hr_ctx_err : option goerr;
  hr_copy : option (nat * goerr)
}.

(** [strconv.Quote], of a text with nothing to escape *)
Definition Quote (s : string) : string := String (byte 34) "" +:+ s +:+ String (byte 34) "".
(** [strconv.FormatInt] *)
Definition FormatInt (n : Z) : string := pretty n.

(** The request up to its client: what failed, with its status, or the digest *)
Definition download_request (env : Env) (auth : AuthInfo) (r : HttpRequest) : (Z * string) + (Claims * Hash * Client) :=
  match InfoFromAuth auth, hr_digest r with
  | Err _, _ => inl (401, "unauthorized")
  | Ok _, None => inl (400, "missing digest")
  | Ok info, Some digest =>
      match NewHash digest with
      | Err _ => inl (400, "invalid digest")
      | Ok want =>
          match CheckRole info Downloader with
          | Err _ => inl (401, "invalid role")
          | Ok _ =>
              match CheckDigest info (Hash_String want) with
              | Err _ => inl (403, "token not authorized for this digest")
              | Ok _ =>
                  match loadBackend env 0 (cc_BackendType info) (cc_StoredSecretID info) with
                  | Err e => if kerrors_IsNotFound e then inl (404, "backend not found") else inl (500, "server error")
                  | Ok b => inr (info, want, b)
                  end
              end
          end
      end
  end.

Definition ServeHTTP (env : Env) (auth : AuthInfo) (r : HttpRequest) (st : CasState) : Response * CasState :=
  match download_request env auth r with
  | inl (code, msg) => (http_Error msg code no_response, st)
  | inr (auth_info, wantChecksum, b) =>
      match bm_Describe b auth (st_store st) (Hash_Hex wantChecksum) with
      | Err e => ((if IsBlobNotFound e then http_Error "artifact not found" 404 else http_Error "server error" 500) no_response, st)
      | Ok info =>
          let etag := Quote (Hash_String wantChecksum) in
          if etagMatches (hr_ifNoneMatch r) etag then (WriteHeader 304 (setCacheHeaders etag no_response), st)
          else
            let filename := if is_empty (hr_filename r) then rs_FileName info else hr_filename r in
            let '(staged, n) := stageDownload env b auth (Hash_Hex wantChecksum) st in
            let st := with_open n st in
            match staged with
            | Err e => (writeDownloadError (hr_ctx_err r) e no_response, st)
            | Ok (body, size) =>
                let w := setCacheHeaders etag (SetHeader "Content-Length" (FormatInt size)
                           (SetHeader "Content-Disposition" ("attachment; filename=" +:+ filename) no_response)) in
                match hr_copy r with
                | Some (k, e) => (writeDownloadError (hr_ctx_err r) e (WriteBody (str_take k body) w), closeStagingFile st)
                | None =>
                    (WriteBody body w,
                     closeStagingFile (Dispatch env auth_info
                       (fun org => CASArtifactDownloaded org (Hash_Hex wantChecksum) filename (cc_BackendType auth_info) size) st))
                end
            end
      end
  end.
End Service.

(** ** Lemmas *)

Section Lemmas.
Context `{Gob} `{HashLaws} `{UuidLib} `{BlobLaws}.

Lemma str_size_app a b : str_size (a +:+ b) = str_size a + str_size b.
Proof. unfold str_size. rewrite str_length_app. lia. Qed.

(** *** Staging *)

Lemma stageAndVerify_Ok dir disk kind want fill n body size n' :
  stageAndVerify dir disk kind want fill n = (Ok (body, size), n') ->
  fill.1 = body /\ is_ok fill.2 = true /\ SHA256 body = want /\ size = str_size body /\ n' = S n.
Proof.
  unfold stageAndVerify. destruct (is_empty dir); [done|]. destruct (dk_create disk); [done|]. destruct (dk_unlink disk); [done|].
  destruct fill as [staged [u|e]]; cbn; [|done]. case_bool_decide as Hd; cbn; [|done].
  destruct (dk_size disk); [done|]. destruct (dk_rewind disk); [done|]. by intros [= <- <- <-].
Qed.

Lemma stageAndVerify_Err dir disk kind want fill n e n' :
  stageAndVerify dir disk kind want fill n = (Err e, n') -> n' = n.
Proof.
  unfold stageAndVerify. destruct (is_empty dir); [by intros [= _ <-]|]. destruct (dk_create disk); [by intros [= _ <-]|].
  replace (S n - 1)%nat with n by lia. destruct (dk_unlink disk); [by intros [= _ <-]|].
  destruct fill.2 as [u|x]; [|by intros [= _ <-]]. destruct (negb _); [by intros [= _ <-]|].
  destruct (dk_size disk); [by intros [= _ <-]|]. destruct (dk_rewind disk); by intros [= _ <-].
Qed.

(** The data that a stream carries up to its end *)
Fixpoint stream_data (stream : WriteStream) : string :=
  match stream with
  | [] => ""
  | turn :: stream =>
      match getWriteRequest (tn_recv turn) with
      | Err _ => ""
      | Ok (req, _) => wq_Data req +:+ if wq_FinishWrite req then "" else stream_data stream
      end
  end.

Definition within (maxSize : Z) (staged : string) : Prop := maxSize = 0 \/ staged = "" \/ str_size staged <= maxSize.

Lemma spill_write_Ok disk maxSize staged data out :
  spill_write disk maxSize staged data = (out, Ok tt) -> within maxSize staged -> out = staged +:+ data /\ within maxSize out.
Proof.
  unfold spill_write. destruct (is_empty data) eqn:Hd.
  - apply is_empty_true in Hd as ->. intros [= <-] Hw. by rewrite str_app_nil_r.
  - unfold checkUploadSize. destruct (negb _ && _) eqn:Hc; cbn; [done|]. destruct (dk_write disk _); [done|].
    intros [= <-] _. split; [done|]. unfold within. rewrite str_size_app.
    apply andb_false_iff in Hc as [Hc|Hc]; [left; apply negb_false_iff in Hc; by apply bool_decide_eq_true in Hc|].
    apply bool_decide_eq_false in Hc. right. right. lia.
Qed.

Lemma spill_loop_Ok disk maxSize stream : forall staged out,
  spill_loop disk maxSize staged stream = (out, Ok tt) -> within maxSize staged ->
  out = staged +:+ stream_data stream /\ within maxSize out.
Proof.
  induction stream as [|turn stream IH]; intros staged out; cbn.
  - intros [= <-]. by rewrite str_app_nil_r.
  - destruct (tn_ctx turn); [done|]. destruct (getWriteRequest (tn_recv turn)) as [[req res]|e].
    + destruct (spill_write _ _ _ _) as [mid [[]|e]] eqn:Hw; [|done]. intros Hl Hin.
      destruct (spill_write_Ok _ _ _ _ _ Hw Hin) as [-> Hin']. destruct (wq_FinishWrite req).
      * injection Hl as <-. by rewrite str_app_nil_r.
      * destruct (IH _ _ Hl Hin') as [-> ?]. split; [by rewrite str_app_assoc|done].
    + destruct (errors_is ErrEOF e); [|done]. intros [= <-]. by rewrite str_app_nil_r.
Qed.

Lemma spillStream_Ok disk maxSize first stream out :
  spillStream disk maxSize first stream = (out, Ok tt) -> out = first +:+ stream_data stream /\ within maxSize out.
Proof.
  unfold spillStream. destruct (spill_write _ _ _ _) as [mid [[]|e]] eqn:Hw; [|done]. intros Hl.
  destruct (spill_write_Ok _ _ _ _ _ Hw) as [-> Hin]; [by right; left|]. by apply (spill_loop_Ok _ _ _ _ _ Hl).
Qed.

(** *** Keys *)

Record plain_claims (info : Claims) : Prop := {
  pc_org : has_char "/" (cc_OrgID info) = false;
  pc_org0 : has_char (byte 0) (cc_OrgID info) = false;
  pc_type : has_char "/" (cc_BackendType info) = false;
  pc_type0 : has_char (byte 0) (cc_BackendType info) = false
}.

Lemma app_char_inj c a a' r r' :
  has_char c a = false -> has_char c a' = false -> a +:+ String c r = a' +:+ String c r' -> a = a' /\ r = r'.
Proof.
  intros Ha Ha' He. pose proof (cut_first c "" a r Ha) as E. pose proof (cut_first c "" a' r' Ha') as E'.
  change (String c "" +:+ r) with (String c r) in E. change (String c "" +:+ r') with (String c r') in E'.
  rewrite He, E' in E. by injection E as -> ->.
Qed.

Lemma clientKey_inj i i' :
  plain_claims i -> plain_claims i' -> clientKey i = clientKey i' ->
  cc_BackendType i = cc_BackendType i' /\ cc_StoredSecretID i = cc_StoredSecretID i'.
Proof.
  intros Hi Hi' He. unfold clientKey in He. cbn [join] in He.
  apply (app_char_inj (byte 0)) in He as [Ht He]; [|apply Hi|apply Hi'].
  apply (app_char_inj (byte 0)) in He as [Ho He]; [by split|apply Hi|apply Hi'].
Qed.

Lemma casexistence_Key_inj i i' d d' :
  plain_claims i -> plain_claims i' ->
  casexistence_Key (cc_OrgID i) (cc_BackendType i) (cc_StoredSecretID i) d
  = casexistence_Key (cc_OrgID i') (cc_BackendType i') (cc_StoredSecretID i') d' ->
  cc_OrgID i = cc_OrgID i' /\ cc_BackendType i = cc_BackendType i'
  /\ SHA256 (cc_StoredSecretID i) = SHA256 (cc_StoredSecretID i') /\ d = d'.
Proof.
  intros Hi Hi' He. unfold casexistence_Key in He. cbn [join] in He.
  apply (app_char_inj "/") in He as [Ho He]; [|apply Hi|apply Hi'].
  apply (app_char_inj "/") in He as [Ht He]; [|apply Hi|apply Hi'].
  apply (app_char_inj "/") in He as [Hs He]; [done|apply SHA256_plain|apply SHA256_plain].
Qed.

Lemma casexistence_Key_not_empty o t s d : casexistence_Key o t s d <> "".
Proof. unfold casexistence_Key. cbn [join]. by destruct o. Qed.

Lemma existenceKey_cases st info d :
  existenceKey st info d = ""
  \/ existenceKey st info d = casexistence_Key (cc_OrgID info) (cc_BackendType info) (cc_StoredSecretID info) d.
Proof. unfold existenceKey. destruct (st_existence st); [|by left]. destruct (is_empty _); [by left|by right]. Qed.

Lemma InfoFromAuth_Ok auth info : InfoFromAuth auth = Ok info -> auth = CasClaims info.
Proof. destruct auth as [| |c]; cbn; [done|done|]. intros Hi. inv_ok. congruence. Qed.

Lemma Dispatch_audit env info event st :
  Dispatch env info event st = st \/ exists org, Dispatch env info event st = with_audit (st_audit st ++ [event org]) st.
Proof. unfold Dispatch. destruct (shouldEmit _ _); [|by left]. destruct (uuid_Parse _) as [o|]; [right; by exists o|by left]. Qed.
End Lemmas.

(** ** The invariant *)

(** A running service: requests interleave where an upload is handed to its store,
    entries leave the caches at any time, and backends are checked for writing *)
Record Cas `{Blobmanager} := { cas_state : CasState; cas_pending : list Pending }.

Definition evict_existence `{Blobmanager} (key : string) (st : CasState) : CasState :=
  with_existence (delete key <$> st_existence st) st.
Definition evict_client `{Blobmanager} (key : string) (st : CasState) : CasState :=
  with_clients (delete key <$> st_clients st) st.

Section Running.
Context `{Gob} `{Hashes} `{UuidLib} `{BlobLaws}.
(** Where the backend of a type and a secret keeps its artifacts: whichever client is
    loaded for them, at any time.  And the secrets that tokens refer to. *)
Variables (site : string -> string -> Client) (known : string -> Prop).

Definition at_site (b : Client) (info : Claims) : Prop :=
  forall a d, locate b a d = locate (site (cc_BackendType info) (cc_StoredSecretID info)) a d.

Definition env_ok (env : Env) : Prop :=
  forall n ty p sec b a d, ev_providers env n ty = Some p -> p sec = Ok b -> locate b a d = locate (site ty sec) a d.

Definition token_ok (info : Claims) : Prop := plain_claims info /\ known (cc_StoredSecretID info).
Definition auth_ok (auth : AuthInfo) : Prop := forall info, auth = CasClaims info -> token_ok info.

(** The artifact that a token means by a digest *)
Definition stored (s : Store) (info : Claims) (d : string) : option string :=
  content s (locate (site (cc_BackendType info) (cc_StoredSecretID info)) (CasClaims info) d).

Inductive cas_step : Cas -> Cas -> Prop :=
| step_answered env auth stream st ps r st' :
    env_ok env -> auth_ok auth -> Write_begin env auth stream st = (inl r, st') ->
    cas_step {| cas_state := st; cas_pending := ps |} {| cas_state := st'; cas_pending := ps |}
| step_staged env auth stream st ps p st' :
    env_ok env -> auth_ok auth -> Write_begin env auth stream st = (inr p, st') ->
    cas_step {| cas_state := st; cas_pending := ps |} {| cas_state := st'; cas_pending := p :: ps |}
| step_commit env st ps1 p ps2 r st' :
    Write_commit env p st = (r, st') ->
    cas_step {| cas_state := st; cas_pending := ps1 ++ p :: ps2 |} {| cas_state := st'; cas_pending := ps1 ++ ps2 |}
| step_read env auth name st ps r st' :
    Read env auth name st = (r, st') ->
    cas_step {| cas_state := st; cas_pending := ps |} {| cas_state := st'; cas_pending := ps |}
| step_download env auth r st ps w st' :
    ServeHTTP env auth r st = (w, st') ->
    cas_step {| cas_state := st; cas_pending := ps |} {| cas_state := st'; cas_pending := ps |}
| step_check b auth st ps :
    plain_auth auth ->
    cas_step {| cas_state := st; cas_pending := ps |}
      {| cas_state := with_store (bm_CheckWritePermissions b auth (st_store st)).2 st; cas_pending := ps |}
| step_evict_existence key st ps :
    cas_step {| cas_state := st; cas_pending := ps |} {| cas_state := evict_existence key st; cas_pending := ps |}
| step_evict_client key st ps :
    cas_step {| cas_state := st; cas_pending := ps |} {| cas_state := evict_client key st; cas_pending := ps |}.

(** Whatever is stored hashes to the digest that it is stored under *)
Definition content_ok (s : Store) : Prop :=
  forall b a d body, plain_auth a -> content s (locate b a d) = Some body -> SHA256 body = d.

(** A cached artifact is stored, a cached client leads where it should *)
Record state_ok (st : CasState) : Prop := {
  ok_content : content_ok (st_store st);
  ok_existence : forall m info d, st_existence st = Some m -> token_ok info ->
    is_Some (m !! casexistence_Key (cc_OrgID info) (cc_BackendType info) (cc_StoredSecretID info) d) ->
    is_Some (stored (st_store st) info d);
  ok_clients : forall m info b, st_clients st = Some m -> token_ok info -> m !! clientKey info = Some b -> at_site b info
}.

Record pending_ok (p : Pending) : Prop := {
  po_auth : pd_auth p = CasClaims (pd_info p);
  po_token : token_ok (pd_info p);
  po_site : at_site (pd_client p) (pd_info p);
  po_digest : SHA256 (pd_body p) = rs_Digest (pd_resource p);
  po_size : pd_size p = str_size (pd_body p);
  po_key : pd_key p = "" \/ pd_key p = casexistence_Key (cc_OrgID (pd_info p)) (cc_BackendType (pd_info p))
                                         (cc_StoredSecretID (pd_info p)) (rs_Digest (pd_resource p))
}.

Record cas_ok (c : Cas) : Prop := {
  ok_state : state_ok (cas_state c);
  ok_pending : Forall pending_ok (cas_pending c);
  ok_open : st_open (cas_state c) = length (cas_pending c)
}.

(** What is stored stays *)
Definition grows (s s' : Store) : Prop :=
  forall b a d, plain_auth a -> is_Some (content s (locate b a d)) -> is_Some (content s' (locate b a d)).

(** *** Each operation keeps it *)

Context {hash_laws : HashLaws}.
Hypothesis secrets_apart : forall s s', known s -> known s' -> SHA256 s = SHA256 s' -> s = s'.

Lemma plain_token info : token_ok info -> plain_auth (CasClaims info).
Proof. intros [Hp _]. apply Hp. Qed.

Lemma grows_refl s : grows s s.
Proof. by intros b a d _. Qed.

Lemma grows_stored s s' info d : grows s s' -> token_ok info -> is_Some (stored s info d) -> is_Some (stored s' info d).
Proof. intros Hg Hi. apply Hg. by apply plain_token. Qed.

Lemma state_ok_eq st st' :
  st_store st' = st_store st -> st_existence st' = st_existence st -> st_clients st' = st_clients st ->
  state_ok st -> state_ok st'.
Proof. intros Hs He Hc [Ho Hex Hcl]. by split; rewrite ?Hs, ?He, ?Hc. Qed.

Lemma state_ok_store st s : state_ok st -> content_ok s -> grows (st_store st) s -> state_ok (with_store s st).
Proof.
  intros [Ho Hex Hcl] Hs Hg. split; [done| |done]. cbn. intros m info d Hm Hi Hk.
  eapply grows_stored; [done|done|by eapply Hex].
Qed.

Lemma state_ok_evict st : state_ok st -> forall key, state_ok (evict_existence key st) /\ state_ok (evict_client key st).
Proof.
  intros [Ho Hex Hcl] key. split; split; cbn; try done.
  - destruct (st_existence st) as [m|] eqn:E; [|done]. intros m' info d [= <-] Hi [x Hx].
    apply lookup_delete_Some in Hx as [_ Hx]. by eapply Hex.
  - destruct (st_clients st) as [m|] eqn:E; [|done]. intros m' info b [= <-] Hi Hx.
    apply lookup_delete_Some in Hx as [_ Hx]. by eapply Hcl.
Qed.

Lemma state_ok_storeExistence env key size st info d :
  state_ok st -> token_ok info -> is_Some (stored (st_store st) info d) ->
  key = "" \/ key = casexistence_Key (cc_OrgID info) (cc_BackendType info) (cc_StoredSecretID info) d ->
  state_ok (storeExistence env key size st)
  /\ st_store (storeExistence env key size st) = st_store st /\ st_open (storeExistence env key size st) = st_open st.
Proof.
  intros Hok Hi Hd Hk. destruct (Hok) as [Ho Hex Hcl]. unfold storeExistence. destruct (is_empty key) eqn:Hke; [done|].
  destruct (ev_cache_set env); [done|]. destruct (st_existence st) as [m|] eqn:E; [|done]. split; [|done].
  destruct Hk as [-> | ->]; [done|]. split; [done| |done]. cbn. intros m' info' d' [= <-] Hi' Hx.
  destruct (decide (casexistence_Key (cc_OrgID info) (cc_BackendType info) (cc_StoredSecretID info) d
                    = casexistence_Key (cc_OrgID info') (cc_BackendType info') (cc_StoredSecretID info') d')) as [He|Hne].
  - apply casexistence_Key_inj in He as (Hoo & Ht & Hs & ->); [|apply Hi|apply Hi'].
    apply secrets_apart in Hs; [|apply Hi|apply Hi']. unfold stored. rewrite <-Ht, <-Hs.
    by rewrite <-(locate_org _ _ _ _ Hoo).
  - rewrite lookup_insert_ne in Hx by done. by eapply Hex.
Qed.

Lemma dropUploadBackend_spec info st :
  state_ok st -> state_ok (dropUploadBackend info st) /\ st_store (dropUploadBackend info st) = st_store st
  /\ st_open (dropUploadBackend info st) = st_open st /\ st_existence (dropUploadBackend info st) = st_existence st.
Proof.
  intros Hok. unfold dropUploadBackend. destruct (st_clients st) as [m|] eqn:E; [|done]. split; [|done].
  destruct (state_ok_evict _ Hok (clientKey info)) as [_ Hev]. unfold evict_client in Hev. by rewrite E in Hev.
Qed.

Lemma loadBackend_site env n info b :
  env_ok env -> loadBackend env n (cc_BackendType info) (cc_StoredSecretID info) = Ok b -> at_site b info.
Proof.
  intros He. unfold loadBackend. destruct (ev_providers _ _ _) as [p|] eqn:Hp; [|done].
  intros Hb%map_err_Ok a d. by eapply He.
Qed.

Lemma loadUploadBackend_spec env n info st r st' :
  env_ok env -> state_ok st -> token_ok info -> loadUploadBackend env n info st = (r, st') ->
  state_ok st' /\ st_store st' = st_store st /\ st_open st' = st_open st /\ st_existence st' = st_existence st
  /\ (forall b cached, r = Ok (b, cached) -> at_site b info).
Proof.
  intros He Hok Hi. destruct (Hok) as [Ho Hex Hcl]. unfold loadUploadBackend. destruct (st_clients st) as [m|] eqn:E.
  - destruct (m !! clientKey info) as [b|] eqn:Hm.
    + intros [= <- <-]. repeat (split; [done|]). intros b' c [= <- _]. by eapply Hcl.
    + destruct (loadBackend env n _ _) as [b|e] eqn:Hl; intros [= <- <-].
      * apply loadBackend_site in Hl; [|done]. split; [|repeat (split; [done|]); by intros b' c [= <- _]].
        split; [done|done|]. cbn [with_clients st_clients]. intros m' info' b' [= <-] Hi' Hx.
        destruct (decide (clientKey info = clientKey info')) as [Hk|Hk].
        -- rewrite Hk, lookup_insert_eq in Hx. injection Hx as <-.
           apply clientKey_inj in Hk as [Ht Hs]; [|apply Hi|apply Hi']. unfold at_site in *. by rewrite <-Ht, <-Hs.
        -- rewrite lookup_insert_ne in Hx by done. by eapply Hcl.
      * by repeat (split; [done|]).
  - intros [= <- <-]. repeat (split; [done|]).
    intros b c Hb. apply bind_Ok in Hb as (b' & Hl & [= <- <-]). by apply loadBackend_site in Hl.
Qed.

Lemma backendExists_spec env auth info digest fuel : forall n st r st',
  env_ok env -> state_ok st -> token_ok info -> backendExists_loop fuel env n auth info digest st = (r, st') ->
  state_ok st' /\ st_store st' = st_store st /\ st_open st' = st_open st /\ st_existence st' = st_existence st
  /\ (forall b ex, r = Ok (b, ex) -> at_site b info /\ bm_Exists b auth (st_store st) digest = Ok ex).
Proof.
  induction fuel as [|fuel IH]; intros n st r st' He Hok Hi; cbn [backendExists_loop]; [by intros [= <- <-]|].
  destruct (loadUploadBackend env n info st) as [l st1] eqn:Hl.
  destruct (loadUploadBackend_spec _ _ _ _ _ _ He Hok Hi Hl) as (Hok1 & Hs1 & Ho1 & Hx1 & Hb).
  destruct l as [[b cached]|e]; [|by intros [= <- <-]].
  destruct (bm_Exists b auth (st_store st1) digest) as [ex|e] eqn:Hex.
  - intros [= <- <-]. repeat (split; [done|]). intros b' ex' [= <- <-]. split; [by eapply Hb|]. by rewrite <-Hs1.
  - destruct (dropUploadBackend_spec info st1 Hok1) as (Hok2 & Hs2 & Ho2 & Hx2).
    destruct (negb cached || (0 <? n)%nat).
    + intros [= <- <-]. split; [done|]. split; [congruence|]. split; [congruence|]. by split; [congruence|].
    + intros Hr. destruct (IH _ _ _ _ He Hok2 Hi Hr) as (? & ? & ? & ? & Hr'). split; [done|]. split; [congruence|].
      split; [congruence|]. split; [congruence|]. intros b' ex' ->. rewrite <-Hs1, <-Hs2. by apply Hr'.
Qed.

Lemma write_request_Ok auth stream info req resource rest :
  write_request auth stream = Ok (info, req, resource, rest) ->
  auth = CasClaims info /\ cc_Role info = Uploader /\ CheckDigest info (rs_Digest resource) = Ok tt
  /\ rest = tail stream
  /\ exists turn stream', stream = turn :: stream' /\ getWriteRequest (tn_recv turn) = Ok (req, resource).
Proof.
  unfold write_request. intros Hw. apply bind_Ok in Hw as (i & Hi & Hw). apply bind_Ok in Hw as ([] & Hr%map_err_Ok & Hw).
  apply bind_Ok in Hw as ([rq rs] & Hf%map_err_Ok & Hw). apply bind_Ok in Hw as ([] & Hd%map_err_Ok & Hw).
  injection Hw as -> -> -> <-. split; [by apply InfoFromAuth_Ok|]. split; [by apply CheckRole_Ok|]. split; [done|]. split; [done|].
  destruct stream as [|turn stream']; [done|]. by exists turn, stream'.
Qed.

Lemma SendAndClose_Ok env m n : SendAndClose env m = Ok (Some n) -> n = m.
Proof. unfold SendAndClose. destruct (ev_close env); [done|]. by intros [= ->]. Qed.

Lemma Dispatch_ok env info event st :
  state_ok st -> let st' := Dispatch env info event st in
  state_ok st' /\ st_store st' = st_store st /\ st_open st' = st_open st.
Proof.
  intros Hok. cbn zeta. destruct (Dispatch_audit env info event st) as [-> | [org ->]]; [done|].
  by split; [apply (state_ok_eq st)|].
Qed.

Lemma lookupExistence_stored env st info d size :
  state_ok st -> token_ok info -> lookupExistence env (existenceKey st info d) st = Some size ->
  is_Some (stored (st_store st) info d).
Proof.
  intros Hok Hi Hl. unfold lookupExistence in Hl. destruct (is_empty _) eqn:Hk; [done|]. destruct (ev_cache_get env); [done|].
  destruct (st_existence st) as [m|] eqn:E; [|done]. cbn in Hl.
  destruct (existenceKey_cases st info d) as [Hx|Hx]; [by rewrite Hx in Hk|rewrite Hx in Hl].
  eapply ok_existence; [done|done|done|by eexists].
Qed.

(** An answer of the first half of an upload: a size is only acknowledged, as zero,
    of an artifact that is stored already *)
Definition answered (auth : AuthInfo) (stream : WriteStream) (st : CasState) (res : result (option Z)) : Prop :=
  forall n, res = Ok (Some n) ->
    n = 0 /\ exists info req resource rest, write_request auth stream = Ok (info, req, resource, rest)
      /\ is_Some (stored (st_store st) info (rs_Digest resource)).

Lemma answered_stored env auth stream st info req resource rest :
  write_request auth stream = Ok (info, req, resource, rest) -> is_Some (stored (st_store st) info (rs_Digest resource)) ->
  answered auth stream st (SendAndClose env 0).
Proof. intros Hw Hd n Hn%SendAndClose_Ok. split; [done|]. by exists info, req, resource, rest. Qed.

(** The record of an artifact that was found in the store *)
Lemma skipped_ok env auth info resource b st :
  state_ok st -> token_ok info -> is_Some (stored (st_store st) info (rs_Digest resource)) -> forall key,
  key = "" \/ key = casexistence_Key (cc_OrgID info) (cc_BackendType info) (cc_StoredSecretID info) (rs_Digest resource) ->
  let st' := match bm_Describe b auth (st_store st) (rs_Digest resource) with
             | Ok r => dispatchSkippedUpload env info resource (rs_Size r) (storeExistence env key (rs_Size r) st)
             | Err _ => dispatchSkippedUpload env info resource 0 st
             end in
  state_ok st' /\ st_store st' = st_store st /\ st_open st' = st_open st.
Proof.
  intros Hok Hi Hd key Hk. destruct (bm_Describe _ _ _ _) as [r|e]; [|by apply Dispatch_ok].
  destruct (state_ok_storeExistence env key (rs_Size r) st info (rs_Digest resource) Hok Hi Hd Hk) as (Hok' & Hs & Ho).
  destruct (Dispatch_ok env info (fun org => CASArtifactUploaded org (rs_Digest resource) (rs_FileName resource)
    (cc_BackendType info) (rs_Size r) true) _ Hok') as (Hok2 & Hs2 & Ho2).
  split; [done|]. by split; [etransitivity|etransitivity].
Qed.

(** What the first half of an upload does *)
Lemma Write_begin_spec env auth stream st r st' :
  env_ok env -> auth_ok auth -> state_ok st -> Write_begin env auth stream st = (r, st') ->
  state_ok st' /\ st_store st' = st_store st
  /\ match r with
     | inl res => st_open st' = st_open st /\ answered auth stream st res
     | inr p =>
         st_open st' = S (st_open st) /\ pending_ok p
         /\ exists req rest, write_request auth stream = Ok (pd_info p, req, pd_resource p, rest)
              /\ pd_body p = wq_Data req +:+ stream_data rest /\ within (cc_MaxBytes (pd_info p)) (pd_body p)
     end.
Proof.
  intros He Ha Hok. unfold Write_begin.
  destruct (write_request auth stream) as [[[[info req] resource] rest]|e] eqn:Hw; [|by intros [= <- <-]].
  destruct (write_request_Ok _ _ _ _ _ _ Hw) as (Hauth & _ & _ & _). pose proof (Ha _ Hauth) as Hi.
  destruct (lookupExistence env _ st) as [size|] eqn:Hl.
  { intros [= <- <-]. apply lookupExistence_stored in Hl; [|done|done].
    destruct (Dispatch_ok env info (fun org => CASArtifactUploaded org (rs_Digest resource) (rs_FileName resource)
      (cc_BackendType info) size true) st Hok) as (? & ? & ?).
    do 3 (split; [done|]). by eapply answered_stored. }
  destruct (backendExists env auth info (rs_Digest resource) st) as [ex st1] eqn:Hb.
  destruct (backendExists_spec _ _ _ _ _ _ _ _ _ He Hok Hi Hb) as (Hok1 & Hs1 & Ho1 & Hx1 & Hr).
  destruct ex as [[b ex]|e]; [|by intros [= <- <-]]. destruct (Hr b ex eq_refl) as [Hsite Hex]. destruct ex.
  - assert (is_Some (stored (st_store st) info (rs_Digest resource))) as Hd.
    { unfold stored. rewrite <-Hsite, <-Hauth. by apply Exists_law. }
    pose proof (answered_stored env auth stream st info req resource rest Hw Hd) as Han.
    destruct (negb (is_empty _) || shouldEmit env info); intros [= <- <-]; [|done].
    destruct (skipped_ok env auth info resource b st1 Hok1 Hi ltac:(by rewrite Hs1) _ (existenceKey_cases st info (rs_Digest resource)))
      as (? & Hs2 & Ho2).
    split; [done|]. split; [by rewrite Hs2|]. split; [by rewrite Ho2|done].
  - destruct (stageAndVerify _ _ _ _ _ _) as [[[body size]|e] n] eqn:Hst; intros [= <- <-].
    + apply stageAndVerify_Ok in Hst as (Hbody & Hfill & Hsha & -> & ->).
      destruct (spillStream _ _ _ _) as [out [[]|e]] eqn:Hsp; [|done]. cbn in Hbody. subst out.
      destruct (spillStream_Ok _ _ _ _ _ Hsp) as [Hdata Hin].
      split; [by apply (state_ok_eq st1)|]. split; [done|]. split; [by rewrite <-Ho1|]. split; [|by exists req, rest].
      split; cbn; try done. apply existenceKey_cases.
    + apply stageAndVerify_Err in Hst as ->. split; [by apply (state_ok_eq st1)|]. split; [done|].
      split; [done|]. intros m. unfold spillError. destruct (errors_is _ _); [done|]. destruct (isClientDisconnect e); [done|].
      by destruct (IsUploadSizeExceeded e).
Qed.

(** What the second half does *)
Lemma Write_commit_spec env p st r st' :
  state_ok st -> pending_ok p -> Write_commit env p st = (r, st') ->
  state_ok st' /\ grows (st_store st) (st_store st') /\ st_open st' = (st_open st - 1)%nat
  /\ (forall l, l <> locate (pd_client p) (pd_auth p) (rs_Digest (pd_resource p)) ->
        content (st_store st') l = content (st_store st) l)
  /\ forall n, r = Ok (Some n) ->
       n = str_size (pd_body p) /\ stored (st_store st') (pd_info p) (rs_Digest (pd_resource p)) = Some (pd_body p).
Proof.
  intros Hok [Hauth Hi Hsite Hsha Hsize Hkey]. unfold Write_commit.
  set (target := locate (pd_client p) (pd_auth p) (rs_Digest (pd_resource p))).
  pose proof (Upload_law (pd_client p) (pd_auth p) (st_store st) (pd_body p) (pd_resource p)) as Hu. fold target in Hu.
  destruct (bm_Upload _ _ _ _ _) as [res s']. destruct Hu as [Hothers Htarget].
  assert (content_ok s') as Hc.
  { intros b a d body Ha Hb. destruct (decide (locate b a d = target)) as [He|Hne].
    - assert (d = rs_Digest (pd_resource p)) as ->.
      { eapply locate_digest; [done| |exact He]. rewrite Hauth. by apply plain_token. }
      rewrite He in Hb. destruct Htarget as [Ht|[Ht _]]; [congruence|]. rewrite Ht, <-He in Hb. by eapply ok_content.
    - rewrite Hothers in Hb by done. by eapply ok_content. }
  assert (grows (st_store st) s') as Hg.
  { intros b a d Ha Hb. destruct (decide (locate b a d = target)) as [He|Hne]; [|by rewrite Hothers].
    rewrite He in Hb |- *. destruct Htarget as [->|[-> _]]; [by eexists|done]. }
  assert (state_ok (closeStagingFile (with_store s' st))) as Hok'.
  { apply (state_ok_eq (with_store s' st)); [done|done|done|by apply state_ok_store]. }
  destruct res as [[]|e]; intros [= <- <-].
  - assert (stored s' (pd_info p) (rs_Digest (pd_resource p)) = Some (pd_body p)) as Hst.
    { unfold stored. rewrite <-Hsite, <-Hauth. destruct Htarget as [?|[_ ?]]; done. }
    destruct (state_ok_storeExistence env (pd_key p) (pd_size p) _ _ _ Hok' Hi ltac:(by eexists) Hkey) as (Hok2 & Hs2 & Ho2).
    destruct (Dispatch_ok env (pd_info p) (fun org => CASArtifactUploaded org (rs_Digest (pd_resource p))
      (rs_FileName (pd_resource p)) (cc_BackendType (pd_info p)) (pd_size p) false) _ Hok2) as (Hok3 & Hs3 & Ho3).
    split; [done|]. rewrite Hs3, Hs2, Ho3, Ho2. do 3 (split; [done|]). intros n Hn%SendAndClose_Ok. by rewrite Hn, Hsize.
  - destruct (dropUploadBackend_spec (pd_info p) _ Hok') as (Hok2 & Hs2 & Ho2 & _). split; [done|]. by rewrite Hs2, Ho2.
Qed.

(** *** Reads *)

Lemma take_drop n s : s = str_take n s +:+ str_drop n s.
Proof.
  unfold str_take. revert s. induction n as [|n IH]; intros [|c s]; cbn; try done.
  change (String c s = String c (String.substring 0 n s +:+ str_drop n s)). by rewrite <-IH.
Qed.

Lemma drop_length n s : (0 < n)%nat -> s <> "" -> (String.length (str_drop n s) < String.length s)%nat.
Proof.
  destruct n as [|n]; [lia|]. destruct s as [|c s]; [done|]. intros _ _. cbn.
  clear. revert s. induction n as [|n IH]; intros s; cbn; [destruct s; lia|]. destruct s as [|c s]; cbn; [lia|].
  specialize (IH s). lia.
Qed.

(** All the bytes of the messages *)
Definition sent_bytes (sent : list string) : string := foldr String.append "" sent.

Lemma copy_loop_spec env fuel : forall n rest sent e,
  copy_loop fuel env n rest = (sent, e) ->
  (exists tl, rest = sent_bytes sent +:+ tl) /\ (e = None -> rest = sent_bytes sent)
  /\ Forall (fun m => (String.length m <= stagedChunkSize)%nat) sent.
Proof.
  induction fuel as [|fuel IH]; intros n rest sent e; cbn [copy_loop].
  { intros [= <- <-]. split; [by exists rest|]. by split. }
  destruct (dk_read _ _); [intros [= <- <-]; split; [by exists rest|by split]|].
  destruct (is_empty rest) eqn:Hr; [apply is_empty_true in Hr as ->; intros [= <- <-]; split; [by exists ""|by split]|].
  destruct (sendWriter env n); [intros [= <- <-]; split; [by exists rest|by split]|].
  destruct (copy_loop fuel env (S n) _) as [more e'] eqn:Hc. intros [= <- <-].
  destruct (IH _ _ _ _ Hc) as ((tl & Htl) & Hall & Hlen). cbn [sent_bytes foldr]. fold (sent_bytes more).
  split; [exists tl; by rewrite str_app_assoc, <-Htl, <-take_drop|].
  split; [intros He; by rewrite <-(Hall He), <-take_drop|]. constructor; [|done].
  unfold str_take. clear. revert rest. generalize stagedChunkSize as k.
  induction k as [|k IH]; intros [|c s]; cbn; try lia. specialize (IH s). lia.
Qed.

Lemma copy_loop_all env fuel : forall n rest,
  (forall m, dk_read (ev_disk env) m = None) -> (forall m, ev_send env m = None) -> (String.length rest < fuel)%nat ->
  exists sent, copy_loop fuel env n rest = (sent, None).
Proof.
  induction fuel as [|fuel IH]; intros n rest Hd Hs Hl; [lia|]. cbn [copy_loop]. rewrite Hd.
  destruct (is_empty rest) eqn:Hr; [by eexists|]. unfold sendWriter. rewrite Hs.
  apply is_empty_false in Hr. destruct (IH (S n) (str_drop stagedChunkSize rest) Hd Hs) as (sent & Hsent).
  { assert (0 < stagedChunkSize)%nat as Hp by (unfold stagedChunkSize; lia). pose proof (drop_length _ _ Hp Hr). lia. }
  rewrite Hsent. by eexists.
Qed.

(** The connection and the disk do not fail *)
Definition undisturbed (env : Env) : Prop :=
  ev_stagingDir env <> "" /\ dk_create (ev_disk env) = None /\ dk_unlink (ev_disk env) = None
  /\ (forall n, dk_write (ev_disk env) n = None) /\ dk_size (ev_disk env) = None /\ dk_rewind (ev_disk env) = None
  /\ (forall n, dk_read (ev_disk env) n = None) /\ (forall n, ev_send env n = None).

Lemma stageDownload_Ok env b auth d st body size n :
  stageDownload env b auth d st = (Ok (body, size), n) ->
  content (st_store st) (locate b auth d) = Some body /\ SHA256 body = d /\ size = str_size body /\ n = S (st_open st).
Proof.
  unfold stageDownload. destruct (bm_Download b auth (st_store st) d) as [bytes e] eqn:Hd.
  intros Hs. apply stageAndVerify_Ok in Hs as (Hb & Hf & Hsha & -> & ->). cbn in Hb, Hf. subst bytes.
  destruct (dk_write _ _); [done|]. destruct e; [done|]. split; [by eapply Download_law|]. done.
Qed.

Lemma stageDownload_undisturbed env b auth d st body :
  undisturbed env -> bm_Download b auth (st_store st) d = (body, None) -> SHA256 body = d ->
  stageDownload env b auth d st = (Ok (body, str_size body), S (st_open st)).
Proof.
  intros (Hdir & Hc & Hu & Hw & Hz & Hr & _) Hd Hsha. unfold stageDownload, stageAndVerify. rewrite Hd.
  apply is_empty_false in Hdir. rewrite Hdir, Hc, Hu, Hw, Hz, Hr. cbn. by rewrite bool_decide_eq_true_2.
Qed.

Lemma stageDownload_Err env b auth d st e n : stageDownload env b auth d st = (Err e, n) -> n = st_open st.
Proof. unfold stageDownload. destruct (bm_Download _ _ _ _) as [bytes x]. apply stageAndVerify_Err. Qed.

(** What a read leaves behind: nothing but an audit event *)
Definition only_audits (st st' : CasState) : Prop := exists l, st' = with_audit l st.

Lemma only_audits_close env info event n st st' :
  n = S (st_open st) -> st' = with_open n st \/ st' = Dispatch env info event (with_open n st) ->
  only_audits st (closeStagingFile st').
Proof.
  intros -> Hst. assert (exists l, st' = with_audit l (with_open (S (st_open st)) st)) as (l & ->).
  { destruct Hst as [-> | ->]; [by exists (st_audit st)|].
    destruct (Dispatch_audit env info event (with_open (S (st_open st)) st)) as [-> | [org ->]]; by eexists. }
  exists l. unfold closeStagingFile, with_open, with_audit. cbn. f_equal. lia.
Qed.

Lemma only_audits_refl st : only_audits st st.
Proof. exists (st_audit st). by destruct st. Qed.

Lemma with_open_same st : with_open (st_open st) st = st.
Proof. by destruct st. Qed.

Lemma Read_spec env auth name st res sent st' :
  Read env auth name st = ((res, sent), st') ->
  only_audits st st' /\ Forall (fun m => (String.length m <= stagedChunkSize)%nat) sent
  /\ (sent_bytes sent = "" \/ exists info b body rest, read_request env auth name = Ok (info, b)
        /\ content (st_store st) (locate b auth name) = Some body /\ SHA256 body = name /\ body = sent_bytes sent +:+ rest).
Proof.
  unfold Read. destruct (read_request env auth name) as [[info b]|e] eqn:Hr.
  - destruct (stageDownload env b auth name st) as [[[body size]|e] n] eqn:Hs.
    + apply stageDownload_Ok in Hs as (Hc & Hsha & -> & Hn). destruct (copyStaged env body) as [out failed] eqn:Hcp.
      destruct (copy_loop_spec _ _ _ _ _ _ Hcp) as ((tl & Htl) & _ & Hlen).
      assert (sent = out /\ only_audits st st' ->
        only_audits st st' /\ Forall (fun m => (String.length m <= stagedChunkSize)%nat) sent
        /\ (sent_bytes sent = "" \/ exists info0 b0 body0 rest, Ok (info, b) = Ok (info0, b0)
          /\ content (st_store st) (locate b0 auth name) = Some body0 /\ SHA256 body0 = name
          /\ body0 = sent_bytes sent +:+ rest)) as Hall.
      { intros [-> Ho]. split; [done|]. split; [done|]. right. by exists info, b, body, tl. }
      destruct failed as [e|]; intros [= <- <- <-]; apply Hall; (split; [done|]).
      * eapply (only_audits_close env info (fun _ => CASArtifactDownloaded "" "" "" "" 0)); [exact Hn|by left].
      * eapply only_audits_close; [exact Hn|by right].
    + apply stageDownload_Err in Hs as ->. rewrite with_open_same. intros [= <- <- <-].
      split; [apply only_audits_refl|]. split; [constructor|by left].
  - intros [= <- <- <-]. split; [apply only_audits_refl|]. split; [constructor|by left].
Qed.

Lemma Read_undisturbed env auth name st info b body :
  undisturbed env -> read_request env auth name = Ok (info, b) ->
  bm_Download b auth (st_store st) name = (body, None) -> SHA256 body = name ->
  exists sent st', Read env auth name st = ((Ok tt, sent), st') /\ sent_bytes sent = body.
Proof.
  intros Hun Hq Hd Hsha. unfold Read. rewrite Hq, (stageDownload_undisturbed _ _ _ _ _ _ Hun Hd Hsha).
  destruct Hun as (_ & _ & _ & _ & _ & _ & Hrd & Hsd). unfold copyStaged.
  destruct (copy_loop_all env (S (String.length body)) 0 body Hrd Hsd) as (out & Hout); [lia|]. rewrite Hout.
  eexists _, _. split; [done|]. destruct (copy_loop_spec _ _ _ _ _ _ Hout) as (_ & Hall & _). by rewrite <-Hall.
Qed.

(** The body of a download that has the status of a success *)
Lemma WriteBody_body s w : rw_body (WriteBody s w) = rw_body w +:+ s.
Proof. unfold WriteBody. destruct (is_empty s) eqn:E; [apply is_empty_true in E as ->; by rewrite str_app_nil_r|done]. Qed.

Lemma http_Error_body msg code w : rw_body (http_Error msg code w) = rw_body w +:+ (msg +:+ newline).
Proof.
  assert (forall f w', rw_body (on_header f w') = rw_body w') as Hh.
  { intros f w'. unfold on_header. destruct (rw_status w') eqn:E; [done|]. by destruct w'. }
  unfold http_Error. rewrite WriteBody_body. cbn [WriteHeader rw_body]. unfold SetHeader. by rewrite !Hh.
Qed.

Lemma WriteBody_error msg code w :
  rw_status w = None -> 0 < code -> rw_status (http_Error msg code w) = Some code.
Proof.
  intros Hs Hc. unfold http_Error, SetHeader, on_header. rewrite Hs. cbn. unfold WriteBody.
  destruct (is_empty _) eqn:E; [apply is_empty_true in E|done]. by destruct msg.
Qed.

(** What a response that is not an error carries: nothing, or an artifact, whole unless
    the copy failed *)
Lemma ServeHTTP_spec env auth r st w st' :
  ServeHTTP env auth r st = (w, st') ->
  only_audits st st'
  /\ (default 200 (rw_status w) = 200 -> rw_body w = "" \/ exists info want b body, download_request env auth r = inr (info, want, b)
        /\ content (st_store st) (locate b auth (Hash_Hex want)) = Some body /\ SHA256 body = Hash_Hex want
        /\ (hr_copy r = None -> rw_body w = body)
        /\ (forall k e, hr_copy r = Some (k, e) ->
              exists tl, rw_body w = str_take k body +:+ tl /\ (tl = "" \/ tl = "server error" +:+ newline \/ tl = "digest mismatch" +:+ newline))).
Proof.
  assert (forall msg code, code <> 200 -> 0 < code -> default 200 (rw_status (http_Error msg code no_response)) <> 200) as Herr.
  { intros msg code Hne Hp. by rewrite WriteBody_error. }
  unfold ServeHTTP. destruct (download_request env auth r) as [[code msg]|[[info want] b]] eqn:Hq.
  { intros [= <- <-]. split; [apply only_audits_refl|]. intros Hs. exfalso. revert Hs.
    assert (code <> 200 /\ 0 < code) as [? ?]; [|by apply Herr].
    unfold download_request in Hq. repeat (case_match; simplify_eq; try lia). }
  destruct (bm_Describe b auth (st_store st) (Hash_Hex want)) as [rr|e].
  2: { intros [= <- <-]. split; [apply only_audits_refl|]. intros Hs. exfalso. revert Hs.
       destruct (IsBlobNotFound e); by apply Herr. }
  destruct (etagMatches _ _); [intros [= <- <-]; split; [apply only_audits_refl|done]|].
  destruct (stageDownload env b auth (Hash_Hex want) st) as [[[body size]|e] n] eqn:Hst.
  - apply stageDownload_Ok in Hst as (Hc & Hsha & -> & Hn). destruct (hr_copy r) as [[k e]|] eqn:Hcp; intros [= <- <-].
    + split; [eapply (only_audits_close env info (fun _ => CASArtifactDownloaded "" "" "" "" 0)); [exact Hn|by left]|].
      intros _. right. exists info, want, b, body. do 3 (split; [done|]). split; [done|]. intros k' e' [= <- <-].
      unfold writeDownloadError. destruct (errors_is digestMismatch e).
      * eexists. rewrite http_Error_body, WriteBody_body. split; [done|by right; right].
      * destruct (_ || _); [exists ""; rewrite WriteBody_body, str_app_nil_r; split; [done|by left]|].
        eexists. rewrite http_Error_body, WriteBody_body. split; [done|by right; left].
    + split; [eapply only_audits_close; [exact Hn|by right]|]. intros _. right. exists info, want, b, body.
      do 3 (split; [done|]). split; [|done]. intros _. by rewrite WriteBody_body.
  - apply stageDownload_Err in Hst as ->. rewrite with_open_same. intros [= <- <-]. split; [apply only_audits_refl|].
    unfold writeDownloadError. destruct (errors_is _ _); [intros Hs; exfalso; revert Hs; by apply Herr|].
    destruct (_ || _); [by left|intros Hs; exfalso; revert Hs; by apply Herr].
Qed.

(** *** Every step *)

Lemma only_audits_ok st st' ps :
  only_audits st st' -> cas_ok {| cas_state := st; cas_pending := ps |} ->
  cas_ok {| cas_state := st'; cas_pending := ps |} /\ grows (st_store st) (st_store st').
Proof. intros (l & ->) [Hs Hp Ho]. split; [|apply grows_refl]. split; [by apply (state_ok_eq st)|done|done]. Qed.

Lemma cas_step_ok c c' :
  cas_step c c' -> cas_ok c -> cas_ok c' /\ grows (st_store (cas_state c)) (st_store (cas_state c')).
Proof.
  intros Hst Hok. pose proof Hok as Hok0. destruct Hok0 as [Hs Hp Ho]. destruct Hst as
    [env auth stream st ps r st' He Ha Hw|env auth stream st ps p st' He Ha Hw|env st ps1 p ps2 r st' Hw
    |env auth name st ps [r sent] st' Hr|env auth r st ps w st' Hr|b auth st ps Ha|key st ps|key st ps]; cbn in *.
  - destruct (Write_begin_spec _ _ _ _ _ _ He Ha Hs Hw) as (Hs' & Hst & Hopen & _).
    split; [split; cbn; [done|done|congruence]|rewrite Hst; apply grows_refl].
  - destruct (Write_begin_spec _ _ _ _ _ _ He Ha Hs Hw) as (Hs' & Hst & Hopen & Hpo & _).
    split; [split; cbn; [done|by constructor|congruence]|rewrite Hst; apply grows_refl].
  - apply Forall_app in Hp as [Hp1 Hp2]. inversion Hp2 as [|? ? Hpo Hp2' Heq]; subst.
    destruct (Write_commit_spec _ _ _ _ _ Hs Hpo Hw) as (Hs' & Hg & Hopen & _). split; [|done].
    split; cbn; [done|by apply Forall_app|]. rewrite Hopen, Ho, !length_app. cbn. lia.
  - destruct (Read_spec _ _ _ _ _ _ _ Hr) as (Hoa & _). by apply only_audits_ok.
  - destruct (ServeHTTP_spec _ _ _ _ _ _ Hr) as (Hoa & _). by apply only_audits_ok.
  - assert (forall b' a d, plain_auth a ->
      content (bm_CheckWritePermissions b auth (st_store st)).2 (locate b' a d) = content (st_store st) (locate b' a d)) as Hc.
    { intros b' a d Ha'. by apply Check_law. }
    assert (grows (st_store st) (bm_CheckWritePermissions b auth (st_store st)).2) as Hg.
    { intros b' a d Ha'. by rewrite Hc. }
    split; [|done]. split; [|done|done]. apply state_ok_store; [done| |done].
    intros b' a d body Ha'. rewrite Hc by done. by apply ok_content.
  - split; [|apply grows_refl]. split; [by apply state_ok_evict|done|done].
  - split; [|apply grows_refl]. split; [by apply state_ok_evict|done|done].
Qed.

Lemma cas_steps_ok c c' :
  rtc cas_step c c' -> cas_ok c -> cas_ok c' /\ grows (st_store (cas_state c)) (st_store (cas_state c')).
Proof.
  induction 1 as [c|c c1 c' Hst Hsts IH]; intros Hok; [split; [done|apply grows_refl]|].
  destruct (cas_step_ok _ _ Hst Hok) as [Hok1 Hg1]. destruct (IH Hok1) as [Hok' Hg']. split; [done|].
  intros b a d Ha Hb. apply Hg'; [done|]. by apply Hg1.
Qed.

Lemma stored_hashes c info d body :
  cas_ok c -> token_ok info -> stored (st_store (cas_state c)) info d = Some body -> SHA256 body = d.
Proof. intros [[Ho _ _] _ _] Hi Hb. eapply Ho; [by apply plain_token|exact Hb]. Qed.

Lemma Write_spec env auth stream st st' n ps :
  env_ok env -> auth_ok auth -> cas_ok {| cas_state := st; cas_pending := ps |} ->
  Write env auth stream st = (Ok (Some n), st') ->
  cas_ok {| cas_state := st'; cas_pending := ps |}
  /\ exists info req resource rest, write_request auth stream = Ok (info, req, resource, rest)
    /\ (forall l, l <> locate (site (cc_BackendType info) (cc_StoredSecretID info)) auth (rs_Digest resource) ->
          content (st_store st') l = content (st_store st) l)
    /\ (n = 0 /\ st_store st' = st_store st /\ is_Some (stored (st_store st) info (rs_Digest resource))
        \/ exists data, data = wq_Data req +:+ stream_data rest /\ n = str_size data /\ within (cc_MaxBytes info) data
             /\ stored (st_store st') info (rs_Digest resource) = Some data).
Proof.
  intros He Ha Hok. unfold Write. destruct (Write_begin env auth stream st) as [[r|p] st1] eqn:Hb.
  - intros [= -> <-]. pose proof (step_answered _ _ _ _ ps _ _ He Ha Hb) as Hstep.
    destruct (cas_step_ok _ _ Hstep Hok) as [Hok' _]. split; [done|].
    destruct (Write_begin_spec _ _ _ _ _ _ He Ha (ok_state _ Hok) Hb) as (_ & Hs & _ & Han).
    destruct (Han n eq_refl) as (-> & info & req & resource & rest & Hw & Hd). exists info, req, resource, rest.
    split; [done|]. split; [intros l _; by rewrite Hs|]. by left.
  - intros Hc. pose proof (step_staged _ _ _ _ ps _ _ He Ha Hb) as Hstep. destruct (cas_step_ok _ _ Hstep Hok) as [Hok1 _].
    destruct (cas_step_ok _ _ (step_commit env st1 [] p ps _ _ Hc) Hok1) as [Hok' _]. split; [done|].
    destruct (Write_begin_spec _ _ _ _ _ _ He Ha (ok_state _ Hok) Hb) as (Hs1 & Hst & _ & Hpo & req & rest & Hw & Hdata & Hin).
    destruct (Write_commit_spec _ _ _ _ _ Hs1 Hpo Hc) as (_ & _ & _ & Hothers & Hn). destruct (Hn n eq_refl) as [-> Hstored].
    exists (pd_info p), req, (pd_resource p), rest. split; [done|]. split.
    + intros l Hl. cbn in Hst. rewrite <-Hst. apply Hothers. rewrite (po_site _ Hpo), (po_auth _ Hpo).
      by destruct (write_request_Ok _ _ _ _ _ _ Hw) as (<- & _).
    + right. exists (pd_body p). by rewrite <-Hdata.
Qed.

(** *** Uploads that nothing disturbs *)

(** The backend of a token answers truthfully for a digest, and takes its content *)
Definition accepts (s : Store) (info : Claims) (d : string) : Prop :=
  forall b, at_site b info ->
    bm_Exists b (CasClaims info) s d = Ok (bool_decide (is_Some (content s (locate b (CasClaims info) d))))
    /\ forall body r, rs_Digest r = d -> is_ok (bm_Upload b (CasClaims info) s body r).1 = true.

(** A turn that brings a message *)
Definition good_turn (turn : Turn) : Prop := tn_ctx turn = None /\ is_ok (getWriteRequest (tn_recv turn)) = true.

Lemma spill_write_undisturbed disk staged data :
  (forall n, dk_write disk n = None) -> spill_write disk 0 staged data = (staged +:+ data, Ok tt).
Proof.
  intros Hd. unfold spill_write. destruct (is_empty data) eqn:E; [apply is_empty_true in E as ->; by rewrite str_app_nil_r|].
  cbn. by rewrite Hd.
Qed.

Lemma spill_loop_undisturbed disk stream : forall staged,
  (forall n, dk_write disk n = None) -> Forall good_turn stream ->
  spill_loop disk 0 staged stream = (staged +:+ stream_data stream, Ok tt).
Proof.
  induction stream as [|turn stream IH]; intros staged Hd Hg; cbn [spill_loop stream_data]; [by rewrite str_app_nil_r|].
  inversion Hg as [|? ? [Hc Hr] Hg']; subst. rewrite Hc. destruct (getWriteRequest (tn_recv turn)) as [[req res]|e]; [|done].
  rewrite spill_write_undisturbed by done. destruct (wq_FinishWrite req); [by rewrite str_app_nil_r|].
  by rewrite IH, str_app_assoc.
Qed.

Lemma loadUploadBackend_any env info st n :
  env_ok env -> state_ok st -> token_ok info ->
  is_ok (loadBackend env n (cc_BackendType info) (cc_StoredSecretID info)) = true ->
  exists b cached st', loadUploadBackend env n info st = (Ok (b, cached), st').
Proof.
  intros He Hok Hi Hl. unfold loadUploadBackend. destruct (loadBackend env n _ _) as [b|]; [|done].
  destruct (st_clients st) as [m|]; [|by eexists _, _, _]. destruct (m !! clientKey info); by eexists _, _, _.
Qed.

Lemma Write_undisturbed env auth stream st info req resource rest :
  env_ok env -> state_ok st -> token_ok info -> undisturbed env -> ev_close env = None ->
  write_request auth stream = Ok (info, req, resource, rest) -> cc_MaxBytes info = 0 ->
  is_ok (loadBackend env 0 (cc_BackendType info) (cc_StoredSecretID info)) = true ->
  accepts (st_store st) info (rs_Digest resource) ->
  Forall good_turn rest -> SHA256 (wq_Data req +:+ stream_data rest) = rs_Digest resource ->
  exists n st', Write env auth stream st = (Ok (Some n), st').
Proof.
  intros He Hok Hi (Hdir & Hc & Hu & Hw & Hz & Hr & _) Hclose Hq Hmax Hload Hacc Hrest Hsha.
  destruct (write_request_Ok _ _ _ _ _ _ Hq) as (Hauth & _). unfold Write, Write_begin. rewrite Hq.
  assert (forall n, SendAndClose env n = Ok (Some n)) as Hsend by (intros n; unfold SendAndClose; by rewrite Hclose).
  destruct (lookupExistence _ _ _); [rewrite Hsend; by eexists _, _|].
  destruct (loadUploadBackend_any env info st 0 He Hok Hi Hload) as (b & cached & st1 & Hl).
  destruct (loadUploadBackend_spec _ _ _ _ _ _ He Hok Hi Hl) as (Hok1 & Hs1 & _ & _ & Hsite).
  destruct (Hacc b (Hsite _ _ eq_refl)) as [Hex Hup].
  unfold backendExists. cbn [backendExists_loop]. rewrite Hl, Hs1, Hauth, Hex.
  case_bool_decide; [rewrite Hsend; by eexists _, _|]. unfold spillStream, stageAndVerify.
  rewrite Hmax, spill_write_undisturbed, str_app_nil_l, spill_loop_undisturbed by done. cbn [fst snd].
  apply is_empty_false in Hdir. rewrite Hdir, Hc, Hu, Hz, Hr, bool_decide_eq_true_2 by done. cbn [negb]. unfold Write_commit.
  cbn [pd_client pd_auth pd_body pd_resource pd_info pd_size pd_key with_open st_store]. rewrite Hs1.
  pose proof (Hup (wq_Data req +:+ stream_data rest) resource eq_refl) as Hupok.
  destruct (bm_Upload _ _ _ _ _) as [[[]|e] s']; [|done]. rewrite Hsend. by eexists _, _.
Qed.
End Running.

(** ** Theorems *)

(** C3: The store is content addressed, forever. Starting from a store whose artifacts hash to
    their digests, however the requests to the service interleave, wherever their streams,
    connections, disks and backends fail, and whatever leaves the caches, every artifact of
    the store hashes to the digest that it is stored under; what was stored is still there;
    what the caches claim of the store and of its clients is true; and no request leaves a
    staging file open but those that are on their way to the store. *)
Theorem store_content_addressed `{Gob} `{HashLaws} `{UuidLib} `{BlobLaws} (site : string -> string -> Client) (known : string -> Prop) c c' :
  (forall s s', known s -> known s' -> SHA256 s = SHA256 s' -> s = s') ->
  cas_ok site known c -> rtc (cas_step site known) c c' ->
  content_ok (st_store (cas_state c'))
  /\ grows (st_store (cas_state c)) (st_store (cas_state c'))
  /\ (forall m info d, st_existence (cas_state c') = Some m -> token_ok known info ->
        is_Some (m !! casexistence_Key (cc_OrgID info) (cc_BackendType info) (cc_StoredSecretID info) d) ->
        exists body, stored site (st_store (cas_state c')) info d = Some body /\ SHA256 body = d)
  /\ (forall m info b, st_clients (cas_state c') = Some m -> token_ok known info -> m !! clientKey info = Some b -> at_site site b info)
  /\ st_open (cas_state c') = length (cas_pending c').
Proof.
  intros Hap Hok Hsteps. destruct (cas_steps_ok site known Hap _ _ Hsteps Hok) as [Hok' Hg].
  destruct (Hok') as [[Hc Hex Hcl] _ Ho]. split; [done|]. split; [done|]. split; [|by split].
  intros m info d Hm Hi Hk. destruct (Hex m info d Hm Hi Hk) as [body Hb]. exists body. split; [done|].
  by eapply stored_hashes.
Qed.



(** A client for uploads whose credentials went stale is replaced, once. Looking for an
    artifact tries a backend at most twice, whatever it answers; and if the client that was
    kept fails but the one that is loaded anew works, the upload goes on with the new one,
    which is kept in its place. *)
Theorem stale_client_replaced `{Blobmanager} env auth info digest st :
  (forall k, backendExists_loop (2 + k) env 0 auth info digest st = backendExists env auth info digest st)
  /\ (forall m stale e fresh ex, st_clients st = Some m -> m !! clientKey info = Some stale ->
        bm_Exists stale auth (st_store st) digest = Err e ->
        loadBackend env 1 (cc_BackendType info) (cc_StoredSecretID info) = Ok fresh ->
        bm_Exists fresh auth (st_store st) digest = Ok ex ->
        backendExists env auth info digest st
        = (Ok (fresh, ex), with_clients (Some (<[clientKey info := fresh]> m)) st)).
Proof.
  split.
  - intros k. unfold backendExists. cbn [backendExists_loop Nat.add].
    destruct (loadUploadBackend env 0 info st) as [[[b cached]|e] st1]; [|done].
    destruct (bm_Exists b auth (st_store st1) digest); [done|]. destruct (negb cached || (0 <? 0)%nat); [done|].
    destruct (loadUploadBackend env 1 info _) as [[[b' cached']|e'] st2]; [|done].
    destruct (bm_Exists b' auth (st_store st2) digest); [done|]. by rewrite orb_true_r.
  - intros m stale e fresh ex Hm Hk Hst Hload Hfr. unfold backendExists. cbn [backendExists_loop].
    unfold loadUploadBackend at 1. rewrite Hm, Hk, Hst. cbn. unfold dropUploadBackend, loadUploadBackend. rewrite Hm. cbn.
    rewrite lookup_delete_eq, Hload. cbn. rewrite Hfr. f_equal. unfold with_clients. cbn. by rewrite insert_delete_eq.
Qed.

(** C40: A reset between the service and its backend passes for a client that left. If the
    download of the backend fails with a reset connection, a broken pipe or a cancellation of
    its own, the read reports success although it sent nothing, whatever was asked for. *)
Theorem backend_reset_reads_empty `{Gob} `{Hashes} `{UuidLib} `{Blobmanager} env auth name st info b bytes e :
  undisturbed env -> read_request env auth name = Ok (info, b) ->
  bm_Download b auth (st_store st) name = (bytes, Some e) -> isClientDisconnect e = true -> errors_is digestMismatch e = false ->
  Read env auth name st = ((Ok tt, []), st).
Proof.
  intros (Hdir & Hc & Hu & Hw & _) Hq Hd Hdis Hmis. unfold Read, stageDownload, stageAndVerify. rewrite Hq, Hd.
  apply is_empty_false in Hdir. rewrite Hdir, Hc, Hu, Hw. cbn [snd]. unfold downloadError. rewrite Hmis, Hdis.
  replace (S (st_open st) - 1)%nat with (st_open st) by lia. by rewrite with_open_same.
Qed.

(** ** A service in memory *)

Module ToyCas.
Import CasTokens.Toy.
Import BlobStores.ToyS3.

#[export] Instance toy_blobmanager : Blobmanager := S3AccessPoint.ap_blobmanager.
#[export] Instance toy_blob_laws : BlobLaws := S3AccessPoint.ap_blob_laws.

(** A resource of no size is written down with a slash *)
#[export] Instance toy_gob : Gob := {
  gob_Encode r := if bool_decide (rs_Size r = 0) && negb (has_char "/" (rs_FileName r))
                  then Ok (rs_FileName r +:+ "/" +:+ rs_Digest r) else Err (EMsg "not encodable");
  gob_Decode raw := match cut "/" raw with
                    | Some (f, d) => Ok {| rs_FileName := f; rs_Size := 0; rs_Digest := d |}
                    | None => Err (EMsg "not decodable") end
}.
#[export] Instance toy_gob_laws : GobLaws.
Proof.
  split. intros [f n d] raw. cbn. case_bool_decide as Hn; [|done]. destruct (has_char "/" f) eqn:Hf; [done|].
  cbn. intros [= <-]. pose proof (cut_first "/" "" f d Hf) as Hc. change (String "/" "") with "/" in Hc. rewrite Hc. by subst n.
Qed.

Definition disk : Disk :=
  {| dk_create := None; dk_unlink := None; dk_write := fun _ => None; dk_size := None; dk_rewind := None; dk_read := fun _ => None |}.
Definition env : Env :=
  {| ev_providers := fun _ ty => if bool_decide (ty = "AWS-S3-ACCESS-POINT") then Some (fun _ => Ok access_point) else None;
     ev_stagingDir := "/staging"; ev_disk := disk; ev_cache_get := None; ev_cache_set := None; ev_close := None;
     ev_send := fun _ => None; ev_audit := true |}.

Definition claims (role digest : string) : Claims :=
  {| cc_Issuer := DefaultIssuer; cc_Audience := [CASAudience]; cc_ExpiresAt := None; cc_Role := role; cc_StoredSecretID := "secret";
     cc_BackendType := "AWS-S3-ACCESS-POINT"; cc_MaxBytes := 100; cc_OrgID := "o"; cc_SourceInternal := false; cc_Digest := digest |}.
Definition auth (role digest : string) : AuthInfo := CasClaims (claims role digest).

Definition site (_ _ : string) : Client := access_point.
Definition known (s : string) : Prop := s = "secret".

Definition start : CasState :=
  {| st_store := (∅ : toy_objects); st_existence := Some ∅; st_clients := Some ∅; st_open := 0; st_audit := [] |}.
Definition chunk (data : string) (finish : bool) : Turn :=
  {| tn_ctx := None;
     tn_recv := Ok {| wq_ResourceName := EncodeToString "f/aaaaf"; wq_FinishWrite := finish; wq_Data := data |} |}.

(** "hiho" in two messages, whose toy checksum is aaaaf *)
Definition upload : WriteStream := [chunk "hi" false; chunk "ho" true].
Definition after : CasState := (Write env (auth Uploader "sha256:aaaaf") upload start).2.

Lemma pc_plain role digest : plain_claims (claims role digest).
Proof. by split. Qed.

Lemma start_ok : cas_ok site known {| cas_state := start; cas_pending := [] |}.
Proof.
  split; [split|constructor|done]; cbn.
  - intros b a d body _ Hb. cbn in Hb. by case_bool_decide.
  - intros m info d [= <-] _ [x Hx]. by rewrite lookup_empty in Hx.
  - intros m info b [= <-] _ Hx. by rewrite lookup_empty in Hx.
Qed.

Lemma env_is_ok : env_ok site env.
Proof. intros n ty p sec b a d. cbn. case_bool_decide; [|done]. by intros [= <-] [= <-]. Qed.

Lemma auth_is_ok role digest : auth_ok known (auth role digest).
Proof. intros info [= <-]. by split. Qed.

Lemma known_apart (s s' : string) : known s -> known s' -> SHA256 s = SHA256 s' -> s = s'.
Proof. by intros -> ->. Qed.

Lemma steps : rtc (cas_step site known) {| cas_state := start; cas_pending := [] |} {| cas_state := after; cas_pending := [] |}.
Proof.
  assert (match (Write_begin env (auth Uploader "sha256:aaaaf") upload start).1 with inl _ => false | inr _ => true end = true) as Hr
    by (vm_compute; reflexivity).
  destruct (Write_begin env (auth Uploader "sha256:aaaaf") upload start) as [[r|p] st1] eqn:E; [done|].
  eapply rtc_l; [eapply step_staged; [apply env_is_ok|apply auth_is_ok|exact E]|].
  apply rtc_once. apply (step_commit site known env st1 [] p [] (Write_commit env p st1).1).
  unfold after, Write. rewrite E. by destruct (Write_commit env p st1).
Qed.

(** The same service, when the connection to its store is reset during downloads *)
#[local] Instance reset_s3 : S3Sdk := {
  S3State := toy_objects;
  S3Client := unit;
  s3_head := s3_head (S3Sdk := toy_s3);
  s3_upload := s3_upload (S3Sdk := toy_s3);
  s3_put := s3_put (S3Sdk := toy_s3);
  s3_get := s3_get (S3Sdk := toy_s3);
  s3_download _ _ _ _ := ("hi", Some (EWrap "read tcp" (ESentinel ECONNRESET)))
}.
Definition reset_blobs : Blobmanager := S3AccessPoint.ap_blobmanager (H := reset_s3).
Definition reset_client : @Client reset_blobs :=
  {| S3AccessPoint.b_creds := S3AccessPoint.b_creds access_point; S3AccessPoint.b_s3Client := tt |}.
Definition reset_env : @Env reset_blobs :=
  @Build_Env reset_blobs (fun _ _ => Some (fun _ => Ok reset_client)) "/staging" disk None None None (fun _ => None) true.
Definition reset_state : @CasState reset_blobs :=
  @Build_CasState reset_blobs (st_store after : toy_objects) None None 0 [].
End ToyCas.

Import CasTokens.Toy.
Import BlobStores.ToyS3.
Import ToyCas.

Lemma store_content_addressed_witness :
  exists body, stored site (st_store after) (claims Uploader "") "aaaaf" = Some body /\ SHA256 body = "aaaaf"
    /\ content_ok (st_store after) /\ st_open after = 0%nat.
Proof.
  destruct (store_content_addressed site known _ _ known_apart start_ok steps) as (Hc & _ & Hex & _ & Ho).
  assert (match st_existence after with
          | Some m => m !! casexistence_Key "o" "AWS-S3-ACCESS-POINT" "secret" "aaaaf" | None => None end = Some 4) as Hk
    by (vm_compute; reflexivity).
  destruct (st_existence after) as [m|] eqn:Hm; [|discriminate Hk].
  destruct (Hex m (claims Uploader "") "aaaaf" Hm (conj (pc_plain _ _) eq_refl) (ex_intro _ 4 Hk)) as (body & Hb & Hs).
  exists body. exact (conj Hb (conj Hs (conj Hc Ho))).
Defined.



Lemma backend_reset_reads_empty_witness :
  stored site (st_store after) (claims Downloader "") "aaaaf" = Some "hiho"
  /\ @Read _ _ reset_blobs reset_env (auth Downloader "") "aaaaf" reset_state = ((Ok tt, []), reset_state).
Proof.
  split; [vm_compute; reflexivity|].
  apply (@backend_reset_reads_empty _ _ _ reset_blobs reset_env (auth Downloader "") "aaaaf" reset_state (claims Downloader "") reset_client
           "hi" (EWrap "read tcp" (ESentinel ECONNRESET))).
  - by repeat split.
  - reflexivity.
  - vm_compute. reflexivity.
  - reflexivity.
  - reflexivity.
Defined.

(** A service whose kept client has lost its credentials *)
Module StaleClient.
#[local] Instance flaky_s3 : S3Sdk := {
  S3State := toy_objects;
  S3Client := bool;
  s3_head c := if c then s3_head (S3Sdk := toy_s3) tt else fun _ _ _ _ => Err (EMsg "ExpiredToken");
  s3_upload _ := s3_upload (S3Sdk := toy_s3) tt;
  s3_put _ := s3_put (S3Sdk := toy_s3) tt;
  s3_get _ := s3_get (S3Sdk := toy_s3) tt;
  s3_download _ := s3_download (S3Sdk := toy_s3) tt
}.
Definition blobs : Blobmanager := S3AccessPoint.ap_blobmanager (H := flaky_s3).
Definition client (works : bool) : @Client blobs :=
  {| S3AccessPoint.b_creds := S3AccessPoint.b_creds access_point; S3AccessPoint.b_s3Client := works |}.
Definition flaky_env : @Env blobs :=
  @Build_Env blobs (fun _ _ => Some (fun _ => Ok (client true))) "/staging" disk None None None (fun _ => None) true.
Definition kept (works : bool) : option (gmap string (@Client blobs)) := Some {[clientKey (claims Uploader "") := client works]}.
Definition flaky_state (works : bool) : @CasState blobs :=
  @Build_CasState blobs (st_store after : toy_objects) None (kept works) 0 [].
End StaleClient.

Lemma stale_client_replaced_witness :
  @backendExists StaleClient.blobs StaleClient.flaky_env (auth Uploader "") (claims Uploader "") "aaaaf" (StaleClient.flaky_state false)
  = (Ok (StaleClient.client true, true), StaleClient.flaky_state true).
Proof.
  destruct (@stale_client_replaced StaleClient.blobs StaleClient.flaky_env (auth Uploader "") (claims Uploader "") "aaaaf"
              (StaleClient.flaky_state false)) as (_ & Hs).
  rewrite (Hs {[clientKey (claims Uploader "") := StaleClient.client false]} (StaleClient.client false)
             (EWrap "reading from access point" (EMsg "ExpiredToken")) (StaleClient.client true) true).
  - unfold StaleClient.flaky_state, StaleClient.kept, with_clients. cbn [st_store st_existence st_open st_audit]. by rewrite insert_singleton_eq.
  - reflexivity.
  - reflexivity.
  - vm_compute. reflexivity.
  - reflexivity.
  - vm_compute. reflexivity.
Defined.
