(* ===== verification/CasClient.v ===== *)
(** * The client of the artifact CAS

    pkg/casclient (uploader.go, downloader.go) and the use case of the control plane
    that runs it with credentials of its own, app/controlplane/pkg/biz/casclient.go,
    against the service of [ArtifactCas] behind its authentication
    (app/artifact-cas/internal/server/grpc.go).

    A reader is the list of what its reads return, and a call runs the server on the
    messages that the client got to send.  Progress reports are left out. *)

From S2P Require Import Prelude.
From S2P Require Import GoStrings.
From S2P Require Import Base64.
From S2P Require Import BizErrors.
From S2P Require Import Authz.
From S2P Require Import Access.
From S2P Require Import CasTokens.
From S2P Require Import BlobStores.
From S2P Require Import ArtifactCas.

Open Scope Z_scope.

(** ** Readers *)

(** One [Read]: bytes, bytes together with [io.EOF], or a failure.  After its last
    step a reader is at its end. *)
Inductive ReadStep := RData (s : string) | RLast (s : string) | RFailed (e : goerr).
Abbreviation Reader := (list ReadStep).

Definition defaultUploadChunkSize : nat := 1024 * 1024.

(** An open file, read through the client's buffer *)
Fixpoint file_reader_fuel (fuel : nat) (content : string) : Reader :=
  match fuel with
  | O => []
  | S fuel =>
      if is_empty content then []
      else RData (str_take defaultUploadChunkSize content) :: file_reader_fuel fuel (str_drop defaultUploadChunkSize content)
  end.
Definition file_reader (content : string) : Reader := file_reader_fuel (String.length content) content.

Fixpoint reader_content (r : Reader) : string :=
  match r with
  | RData s :: r => s +:+ reader_content r
  | RLast s :: _ => s
  | _ => ""
  end.

(** ** The client *)

Record UpDownStatus := { us_Filename : string; us_Digest : string; us_ProcessedBytes : Z }.
Record ResourceInfo := { ri_Digest : string; ri_Filename : string; ri_Size : Z }.

(** The connection of a call: opening the stream, its nth send, and its context
    before that send *)
Record Conn := {
  cn_open : option goerr;
  cn_send : nat -> option goerr;
  cn_ctx : nat -> option goerr
}.

Section Client.
Context `{Gob} `{Hashes}.

(** [encodeResource] *)
Definition encodeResource (fileName digest : string) : result string :=
  _ ← guard_err (is_empty fileName) (EMsg "file name is empty");
  h ← map_err (EWrap "decoding digest") (NewHash digest);
  raw ← gob_Encode {| rs_FileName := fileName; rs_Size := 0; rs_Digest := Hash_Hex h |};
  Ok (EncodeToString raw).

Definition data_message (resource data : string) : WriteRequest :=
  {| wq_ResourceName := resource; wq_FinishWrite := false; wq_Data := data |}.
Definition finish_message (resource : string) : WriteRequest :=
  {| wq_ResourceName := resource; wq_FinishWrite := true; wq_Data := "" |}.

(** The loop of [Upload]: the messages that it sends, and the bytes that it reports
    as processed if it gets to [CloseAndRecv] *)
Fixpoint upload_loop (cn : Conn) (resource : string) (n : nat) (processed : Z) (r : Reader) : list WriteRequest * result Z :=
  match r with
  | [] | RLast _ :: _ =>
      match cn_send cn n with
      | None => ([finish_message resource], Ok processed)
      | Some e => ([], if errors_is ErrEOF e then Ok processed else Err (EWrap "sending the finished upload message" e))
      end
  | RFailed e :: _ => ([], Err (EWrap "reading content" e))
  | RData s :: r =>
      match cn_ctx cn n with
      | Some e => ([], Err e)
      | None =>
          match cn_send cn n with
          | Some e => ([], if errors_is ErrEOF e then Ok processed else Err e)
          | None =>
              let '(sent, ended) := upload_loop cn resource (S n) (processed + str_size s) r in
              (data_message resource s :: sent, ended)
          end
      end
  end.

(** What the server receives: the messages, and a cancellation if the client gave up *)
Definition message_turn (m : WriteRequest) : Turn := {| tn_ctx := None; tn_recv := Ok m |}.
Definition cancelled_turn : Turn := {| tn_ctx := Some (ESentinel ErrCanceled); tn_recv := Err (ESentinel ErrCanceled) |}.
Definition received (sent : list WriteRequest) (ended : result Z) : WriteStream :=
  map message_turn sent ++ (if is_ok ended then [] else [cancelled_turn]).

(** [Upload], calling a server that may change a state *)
Definition client_Upload {S} (cn : Conn) (server : WriteStream -> S -> result (option Z) * S) (r : Reader)
    (filename digest : string) (st : S) : result UpDownStatus * S :=
  match (h ← map_err (EWrap "decoding digest") (NewHash digest);
         resource ← map_err (EWrap "encoding resource name") (encodeResource filename (Hash_String h));
         _ ← match cn_open cn with Some e => Err (EWrap "creating the gRPC client" e) | None => Ok tt end;
         Ok (h, resource)) with
  | Err e => (Err e, st)
  | Ok (h, resource) =>
      let '(sent, ended) := upload_loop cn resource 0 0 r in
      let '(answer, st) := server (received sent ended) st in
      (match ended, answer with
       | Err e, _ => Err e
       | Ok _, Err e => Err e
       | Ok _, Ok None => Err (EMsg "no response")
       | Ok processed, Ok (Some _) =>
           Ok {| us_Filename := filename; us_Digest := Hash_String h; us_ProcessedBytes := processed |}
       end, st)
  end.

(** [Digest] of a content that can be read and rewound *)
Definition Digest (content : result string) (rewound : result unit) : result string :=
  content ← map_err (EWrap "generating digest") content;
  _ ← map_err (EWrap "rewinding file pointer") rewound;
  Ok ("sha256:" +:+ SHA256 content).

(** [UploadFile], with [path.Base] of the path *)
Definition UploadFile {S} (cn : Conn) (server : WriteStream -> S -> result (option Z) * S) (file : result string)
    (rewound : result unit) (base : string) (st : S) : result UpDownStatus * S :=
  match (content ← map_err (EWrap "can't open file to upload") file; digest ← Digest (Ok content) rewound; Ok (content, digest)) with
  | Err e => (Err e, st)
  | Ok (content, digest) => client_Upload cn server (file_reader content) base digest st
  end.

(** The loop of [Download]: what is written, and how it ends *)
Fixpoint download_loop (write : nat -> option goerr) (n : nat) (msgs : list string) (ended : result unit) : string * option goerr :=
  match msgs with
  | [] => ("", match ended with Ok _ => None | Err e => if errors_is ErrEOF e then None else Some e end)
  | m :: msgs =>
      match write n with
      | Some e => ("", Some e)
      | None => let '(out, e) := download_loop write (S n) msgs ended in (m +:+ out, e)
      end
  end.

Definition client_Download {S} (cn : Conn) (server : string -> S -> (result unit * list string) * S) (write : nat -> option goerr)
    (digest : string) (st : S) : (string * option goerr) * S :=
  match NewHash digest with
  | Err e => (("", Some (EWrap "decoding digest" e)), st)
  | Ok h =>
      match cn_open cn with
      | Some e => (("", Some (EWrap "creating the gRPC client" e)), st)
      | None =>
          let '((ended, sent), st) := server (Hash_Hex h) st in
          (download_loop write 0 sent ended, st)
      end
  end.

Definition client_Describe (server : string -> result CASResource) (digest : string) : result ResourceInfo :=
  h ← map_err (EWrap "decoding digest") (NewHash digest);
  r ← map_err (EWrap "contacting API to get resource Info") (server (Hash_Hex h));
  Ok {| ri_Digest := rs_Digest r; ri_Filename := rs_FileName r; ri_Size := rs_Size r |}.
End Client.

(** ** The service behind its authentication *)

Section Server.
Context `{Gob} `{Hashes} `{UuidLib} `{Blobmanager} `{Jwt}.

(** [jwtAuthFunc]: the claims of the token go to the context *)
Definition jwtAuthFunc (publicKey : string) (now : Z) (token : string) : result AuthInfo :=
  claims ← verifyAndMarshalJWT publicKey now token;
  Ok (CasClaims claims).

Definition serve_Write (env : Env) (publicKey : string) (now : Z) (token : string) (stream : WriteStream) (st : CasState)
    : result (option Z) * CasState :=
  match jwtAuthFunc publicKey now token with
  | Err e => (Err e, st)
  | Ok auth => Write env auth stream st
  end.

Definition serve_Read (env : Env) (publicKey : string) (now : Z) (token name : string) (st : CasState)
    : (result unit * list string) * CasState :=
  match jwtAuthFunc publicKey now token with
  | Err e => ((Err e, []), st)
  | Ok auth => Read env auth name st
  end.

(** ** The use case of the control plane *)

(** The service as the control plane reaches it: its connection, environment, key
    and clock *)
Record CASServer := { sv_conn : Conn; sv_env : Env; sv_publicKey : string; sv_now : Z }.

Definition creds_opts (backendType secretID : string) (role : CasRole) (orgID : UUID) (digest : string) : CASCredsOpts :=
  {| cr_BackendType := backendType; cr_SecretPath := secretID; cr_Role := role; cr_MaxBytes := 0; cr_OrgID := orgID;
     cr_SourceInternal := true; cr_Digest := digest |}.

(** [casAPIClient]: the token that the client is made with *)
Definition casAPIClient (uc : Builder) (now : Z) (factory : result unit) (ref : CASCredsOpts) : result string :=
  token ← map_err (EWrap "failed to generate temporary credentials") (GenerateTemporaryCredentials uc now ref);
  _ ← factory;
  Ok token.

Definition CASClient_Upload (uc : Builder) (now : Z) (factory : result unit) (sv : CASServer) (backendType secretID : string)
    (orgID : UUID) (content : Reader) (filename digest : string) (st : CasState) : result unit * CasState :=
  match casAPIClient uc now factory (creds_opts backendType secretID Uploader orgID digest) with
  | Err e => (Err (EWrap "failed to create cas client" e), st)
  | Ok token =>
      match client_Upload (sv_conn sv) (serve_Write (sv_env sv) (sv_publicKey sv) (sv_now sv) token) content filename digest st with
      | (Err e, st) => (Err (EWrap "failed to upload content" e), st)
      | (Ok _, st) => (Ok tt, st)
      end
  end.

Definition CASClient_Download (uc : Builder) (now : Z) (factory : result unit) (sv : CASServer) (backendType secretID : string)
    (orgID : UUID) (write : nat -> option goerr) (digest : string) (st : CasState) : (string * option goerr) * CasState :=
  match casAPIClient uc now factory (creds_opts backendType secretID Downloader orgID digest) with
  | Err e => (("", Some (EWrap "failed to create cas client" e)), st)
  | Ok token =>
      let '((out, e), st) := client_Download (sv_conn sv) (serve_Read (sv_env sv) (sv_publicKey sv) (sv_now sv) token) write digest st in
      ((out, EWrap "failed to download content" <$> e), st)
  end.
End Server.

(** ** Lemmas *)

Section Lemmas.
Context `{GobLaws} `{HashLaws}.

Lemma reader_content_file content : reader_content (file_reader content) = content.
Proof.
  unfold file_reader. assert (forall fuel s, (String.length s <= fuel)%nat -> reader_content (file_reader_fuel fuel s) = s) as Hf.
  { induction fuel as [|fuel IH]; intros s Hl; cbn [file_reader_fuel]; [destruct s; [done|cbn in Hl; lia]|].
    destruct (is_empty s) eqn:E; [by apply is_empty_true in E as ->|]. apply is_empty_false in E. cbn [reader_content].
    rewrite IH; [by rewrite <-take_drop|].
    assert (0 < defaultUploadChunkSize)%nat as Hp by (unfold defaultUploadChunkSize; lia).
    pose proof (drop_length _ _ Hp E). lia. }
  by apply Hf.
Qed.

Definition whole (r : Reader) : Prop := Forall (fun step => match step with RData _ => True | _ => False end) r.

Lemma whole_file content : whole (file_reader content).
Proof.
  unfold file_reader. generalize (String.length content) as n. intros n. revert content.
  induction n as [|n IH]; intros content; cbn [file_reader_fuel]; [constructor|].
  destruct (is_empty content); [constructor|by constructor; [|apply IH]].
Qed.

(** A connection that nothing disturbs *)
Definition quiet (cn : Conn) : Prop := cn_open cn = None /\ (forall n, cn_send cn n = None) /\ (forall n, cn_ctx cn n = None).

Lemma upload_loop_quiet cn resource r : forall n processed,
  quiet cn -> whole r ->
  upload_loop cn resource n processed r
  = (map (fun step => data_message resource match step with RData s => s | _ => "" end) r ++ [finish_message resource],
     Ok (processed + str_size (reader_content r))).
Proof.
  induction r as [|step r IH]; intros n processed (Ho & Hs & Hc) Hw; cbn [upload_loop map reader_content].
  - rewrite Hs. cbn. by rewrite Z.add_0_r.
  - inversion Hw as [|? ? Hstep Hw']; subst. destruct step as [s| |]; [|done|done].
    rewrite Hc, Hs, IH by done. cbn [reader_content]. by rewrite str_size_app, Z.add_assoc.
Qed.

(** The server reads back what the client encoded *)
Lemma getWriteRequest_encoded filename digest h resource finish data :
  NewHash digest = Ok h -> encodeResource filename digest = Ok resource ->
  getWriteRequest (Ok {| wq_ResourceName := resource; wq_FinishWrite := finish; wq_Data := data |})
  = Ok ({| wq_ResourceName := resource; wq_FinishWrite := finish; wq_Data := data |},
        {| rs_FileName := filename; rs_Size := 0; rs_Digest := Hash_Hex h |}).
Proof.
  intros Hh He. unfold encodeResource in He. apply bind_Ok in He as ([] & _ & He). rewrite Hh in He. cbn in He.
  apply bind_Ok in He as (raw & Hraw & [= <-]). unfold getWriteRequest, decodeResource.
  cbn [mbind result_bind wq_ResourceName]. by rewrite Decode_Encode, (gob_Decode_Encode _ _ Hraw).
Qed.

Lemma encodeResource_ok filename digest h :
  NewHash digest = Ok h -> filename <> "" ->
  is_ok (gob_Encode {| rs_FileName := filename; rs_Size := 0; rs_Digest := Hash_Hex h |}) = true ->
  exists resource, encodeResource filename digest = Ok resource.
Proof.
  intros Hh Hf%is_empty_false Hg. unfold encodeResource. rewrite Hf, Hh. cbn. destruct (gob_Encode _); [by eexists|done].
Qed.

(** What the server makes of the messages of a quiet client *)
Lemma stream_quiet filename digest h resource r :
  NewHash digest = Ok h -> encodeResource filename digest = Ok resource -> whole r ->
  let stream := received (map (fun step => data_message resource match step with RData s => s | _ => "" end) r
                          ++ [finish_message resource]) (Ok 0) in
  Forall good_turn stream /\ stream_data stream = reader_content r
  /\ exists turn req, head stream = Some turn
       /\ getWriteRequest (tn_recv turn) = Ok (req, {| rs_FileName := filename; rs_Size := 0; rs_Digest := Hash_Hex h |})
       /\ wq_Data req +:+ stream_data (tail stream) = reader_content r.
Proof.
  intros Hh He Hw. cbn zeta. unfold received. rewrite app_nil_r.
  assert (forall m, wq_ResourceName m = resource -> getWriteRequest (tn_recv (message_turn m))
    = Ok (m, {| rs_FileName := filename; rs_Size := 0; rs_Digest := Hash_Hex h |})) as Hget.
  { intros [n f d]. cbn [wq_ResourceName]. intros ->. by apply (getWriteRequest_encoded filename digest h). }
  set (msgs := map (fun step => data_message resource match step with RData s => s | _ => "" end)).
  assert (Forall good_turn (map message_turn (msgs r ++ [finish_message resource]))
          /\ stream_data (map message_turn (msgs r ++ [finish_message resource])) = reader_content r) as [Hg Hd].
  { induction r as [|step r IH]; cbn [msgs map app stream_data reader_content].
    - rewrite Hget by done. split; [|done]. constructor; [|constructor]. split; [done|]. by rewrite Hget.
    - inversion Hw as [|? ? Hstep Hw']; subst. destruct step as [s| |]; [|done|done]. destruct (IH Hw') as [IHg IHd].
      rewrite Hget by done. split; [constructor; [|done]; split; [done|by rewrite Hget]|]. cbn [wq_FinishWrite data_message wq_Data].
      by rewrite <-IHd. }
  split; [done|]. split; [done|]. destruct r as [|step r].
  - exists (message_turn (finish_message resource)), (finish_message resource). by rewrite <-Hget.
  - inversion Hw as [|? ? Hstep Hw']; subst. destruct step as [s| |]; [|done|done].
    exists (message_turn (data_message resource s)), (data_message resource s). split; [done|]. split; [by apply Hget|].
    cbn [msgs map app stream_data] in Hd. by rewrite Hget in Hd.
Qed.
End Lemmas.

(** ** The round trip *)

Section RoundTrip.
Context `{GobLaws} `{HashLaws} `{UuidLib} `{BlobLaws} `{JwtLaws}.
Variables (site : string -> string -> Client) (known : string -> Prop).
Hypothesis secrets_apart : forall s s', known s -> known s' -> SHA256 s = SHA256 s' -> s = s'.

(** A backend of the control plane, an artifact and a server that answers it *)
Variables (uc : Builder) (k : Key) (now : Z) (sv : CASServer) (backendType secretID : string) (orgID : UUID)
  (r : Reader) (filename : string).

Definition hex : string := SHA256 (reader_content r).
Definition full_digest : string := "sha256:" +:+ hex.
Definition claims_for (role : CasRole) : Claims :=
  temporary_claims uc now (creds_opts backendType secretID role orgID full_digest).

(** The control plane can mint credentials, which the server accepts for now; nothing
    disturbs the connection and the disk; and the backend can be loaded *)
Record in_order : Prop := {
  io_key : bd_pk uc = Some k;
  io_public : sv_publicKey sv = public_key k;
  io_time : forall d, bd_expiration uc = Some d -> sv_now sv < now + d;
  io_creds : forall role, known_role role = true ->
    is_ok (GenerateTemporaryCredentials uc now (creds_opts backendType secretID role orgID full_digest)) = true;
  io_token : forall role, token_ok known (claims_for role);
  io_quiet : quiet (sv_conn sv);
  io_env : env_ok site (sv_env sv);
  io_undisturbed : undisturbed (sv_env sv);
  io_close : ev_close (sv_env sv) = None;
  io_load : is_ok (loadBackend (sv_env sv) 0 backendType secretID) = true;
  io_whole : whole r;
  io_filename : filename <> "";
  io_gob : is_ok (gob_Encode {| rs_FileName := filename; rs_Size := 0; rs_Digest := hex |}) = true
}.

(** The backend hands out what it stores for a digest *)
Definition hands_out (s : Store) (info : Claims) (d : string) : Prop :=
  forall b body, at_site site b info -> content s (locate b (CasClaims info) d) = Some body ->
    bm_Download b (CasClaims info) s d = (body, None).

Lemma full_digest_hash : exists h, NewHash full_digest = Ok h /\ Hash_String h = full_digest /\ Hash_Hex h = hex.
Proof.
  pose proof (NewHash_SHA256 (reader_content r)) as Hok. destruct (NewHash ("sha256:" +:+ SHA256 (reader_content r))) as [h|] eqn:Hh; [|done].
  exists h. split; [done|]. split; [by apply NewHash_String|]. pose proof (NewHash_sha256 _ _ Hh) as Hs. by apply str_app_inj in Hs.
Qed.

Lemma token_for role :
  in_order -> known_role role = true ->
  exists t, casAPIClient uc now (Ok tt) (creds_opts backendType secretID role orgID full_digest) = Ok t
    /\ jwtAuthFunc (sv_publicKey sv) (sv_now sv) t = Ok (CasClaims (claims_for role))
    /\ InfoFromAuth (CasClaims (claims_for role)) = Ok (claims_for role)
    /\ CheckRole (claims_for role) role = Ok tt /\ CheckDigest (claims_for role) hex = Ok tt.
Proof.
  intros Hio Hr. pose proof (io_creds Hio role Hr) as Hg.
  destruct (GenerateTemporaryCredentials _ _ _) as [t|] eqn:E in Hg; [|done]. exists t. unfold casAPIClient. rewrite E. split; [done|].
  destruct (temporary_token_verifies _ _ _ _ _ _ E (io_key Hio) (io_time Hio)) as [Hv Hi].
  split; [unfold jwtAuthFunc; by rewrite (io_public Hio), Hv|]. split; [done|]. split; [by apply CheckRole_Ok|].
  destruct full_digest_hash as (h & Hh & _ & Hx). rewrite <-Hx. apply (CheckDigest_own (claims_for role) h Hh).
  rewrite Hx. apply SHA256_plain.
Qed.

Lemma upload_reaches_server (server : WriteStream -> CasState -> result (option Z) * CasState) st :
  in_order -> forall h resource, NewHash full_digest = Ok h -> encodeResource filename full_digest = Ok resource ->
  exists stream, client_Upload (sv_conn sv) server r filename full_digest st
    = (let '(answer, st) := server stream st in
       (match answer with
        | Err e => Err e
        | Ok None => Err (EMsg "no response")
        | Ok (Some _) => Ok {| us_Filename := filename; us_Digest := full_digest; us_ProcessedBytes := str_size (reader_content r) |}
        end, st))
    /\ Forall good_turn stream
    /\ exists turn req, head stream = Some turn
       /\ getWriteRequest (tn_recv turn) = Ok (req, {| rs_FileName := filename; rs_Size := 0; rs_Digest := hex |})
       /\ wq_Data req +:+ stream_data (tail stream) = reader_content r.
Proof.
  intros Hio h resource Hh He. destruct full_digest_hash as (h' & Hh' & Hs & Hx). rewrite Hh in Hh'. injection Hh' as <-.
  destruct (stream_quiet filename full_digest h resource r Hh He (io_whole Hio)) as (Hg & _ & Hhead). rewrite Hx in Hhead.
  eexists. split; [|exact (conj Hg Hhead)]. unfold client_Upload. rewrite Hh. cbn. rewrite Hs, He. cbn.
  destruct (io_quiet Hio) as (Ho & _). rewrite Ho. cbn. rewrite (upload_loop_quiet _ _ _ _ _ (io_quiet Hio) (io_whole Hio)), Z.add_0_l.
  match goal with |- context [received ?l (Ok (str_size _))] =>
    change (received l (Ok (str_size (reader_content r)))) with (received l (Ok 0)) end.
  rewrite Hs. by destruct (server _ st) as [[[n|]|e] st2].
Qed.

Lemma upload_stores c :
  in_order -> cas_ok site known c -> accepts site (st_store (cas_state c)) (claims_for Uploader) hex ->
  exists st', CASClient_Upload uc now (Ok tt) sv backendType secretID orgID r filename full_digest (cas_state c) = (Ok tt, st')
    /\ cas_ok site known {| cas_state := st'; cas_pending := cas_pending c |}
    /\ is_Some (stored site (st_store st') (claims_for Uploader) hex)
    /\ (stored site (st_store (cas_state c)) (claims_for Uploader) hex = None ->
        stored site (st_store st') (claims_for Uploader) hex = Some (reader_content r)).
Proof.
  intros Hio Hok Hacc. destruct c as [st ps]. cbn [cas_state cas_pending] in *.
  destruct (token_for Uploader Hio eq_refl) as (t & Ht & Hauth & Hinfo & Hrole & Hdig).
  destruct full_digest_hash as (h & Hh & Hs & Hx).
  destruct (encodeResource_ok filename full_digest h Hh (io_filename Hio) ltac:(rewrite Hx; apply (io_gob Hio))) as (resource & He).
  destruct (upload_reaches_server (serve_Write (sv_env sv) (sv_publicKey sv) (sv_now sv) t) st Hio h resource Hh He)
    as (stream & Hup & Hgood & turn & req & Hhead & Hget & Hdata).
  assert (write_request (CasClaims (claims_for Uploader)) stream
          = Ok (claims_for Uploader, req, {| rs_FileName := filename; rs_Size := 0; rs_Digest := hex |}, tail stream)) as Hreq.
  { unfold write_request. rewrite Hinfo. cbn [mbind result_bind map_err]. rewrite Hrole. cbn [mbind result_bind map_err].
    destruct stream as [|tn stream']; [done|]. injection Hhead as ->. rewrite Hget. cbn [mbind result_bind map_err fst snd].
    change (rs_Digest {| rs_FileName := filename; rs_Size := 0; rs_Digest := hex |}) with hex. by rewrite Hdig. }
  assert (Forall good_turn (tail stream)) as Hrest by (destruct stream; [constructor|by inversion Hgood]).
  assert (auth_ok known (CasClaims (claims_for Uploader))) as Ha by (intros info [= <-]; apply (io_token Hio)).
  destruct (Write_undisturbed site known (sv_env sv) _ stream st (claims_for Uploader) req _ _ (io_env Hio) (ok_state _ _ _ Hok)
              (io_token Hio Uploader) (io_undisturbed Hio) (io_close Hio) Hreq eq_refl (io_load Hio) Hacc Hrest) as (n & st' & Hw).
  { by rewrite Hdata. }
  destruct (Write_spec site known secrets_apart _ _ _ _ _ _ ps (io_env Hio) Ha Hok Hw)
    as (Hok' & info & req' & res' & rest' & Hreq' & _ & Hcases).
  rewrite Hreq in Hreq'. injection Hreq' as <- <- <- <-. exists st'.
  split; [unfold CASClient_Upload; rewrite Ht, Hup; unfold serve_Write; rewrite Hauth, Hw; done|]. split; [done|].
  rewrite Hdata in Hcases. cbn [rs_Digest] in Hcases. split.
  - destruct Hcases as [(_ & -> & Hd)|(data & -> & _ & _ & ->)]; [done|by eexists].
  - intros Hnone. destruct Hcases as [(_ & _ & Hd)|(data & -> & _ & _ & ->)]; [rewrite Hnone in Hd; by destruct Hd|done].
Qed.

Lemma download_serves st write :
  in_order -> (forall n, write n = None) -> hands_out (st_store st) (claims_for Downloader) hex ->
  forall body, stored site (st_store st) (claims_for Downloader) hex = Some body -> SHA256 body = hex ->
  (CASClient_Download uc now (Ok tt) sv backendType secretID orgID write full_digest st).1 = (body, None).
Proof.
  intros Hio Hwr Hout body Hb Hsha. destruct (token_for Downloader Hio eq_refl) as (t & Ht & Hauth & Hinfo & Hrole & Hdig).
  destruct full_digest_hash as (h & Hh & Hs & Hx). pose proof (io_load Hio) as Hload.
  destruct (loadBackend (sv_env sv) 0 backendType secretID) as [b|] eqn:Hl; [|done].
  assert (at_site site b (claims_for Downloader)) as Hsite by (by apply (loadBackend_site site (sv_env sv) 0); [apply (io_env Hio)|]).
  assert (read_request (sv_env sv) (CasClaims (claims_for Downloader)) hex = Ok (claims_for Downloader, b)) as Hq.
  { unfold read_request. rewrite Hinfo. cbn [mbind result_bind map_err]. rewrite Hrole. cbn [mbind result_bind map_err].
    assert (is_empty hex = false) as Hne by (apply is_empty_false, SHA256_plain). rewrite Hne. cbn [mbind result_bind guard_err].
    rewrite Hdig. cbn [mbind result_bind map_err]. change (cc_BackendType (claims_for Downloader)) with backendType.
    change (cc_StoredSecretID (claims_for Downloader)) with secretID. by rewrite Hl. }
  unfold stored in Hb. rewrite <-Hsite in Hb.
  destruct (Read_undisturbed _ _ _ st _ b body (io_undisturbed Hio) Hq (Hout b body Hsite Hb) Hsha) as (sent & st2 & Hr & Hsent).
  unfold CASClient_Download, client_Download. rewrite Ht, Hh. destruct (io_quiet Hio) as (-> & _). rewrite Hx. unfold serve_Read. rewrite Hauth, Hr.
  assert (forall n, download_loop write n sent (Ok tt) = (sent_bytes sent, None)) as ->.
  { clear -Hwr. induction sent as [|m sent IH]; intros n; cbn; [done|]. by rewrite Hwr, IH. }
  by rewrite Hsent.
Qed.

Lemma claims_same_place s : stored site s (claims_for Uploader) hex = stored site s (claims_for Downloader) hex.
Proof. unfold stored. by rewrite (locate_org _ (claims_for Uploader) (claims_for Downloader)). Qed.
End RoundTrip.

(** C4: What the control plane uploads it can download. When nothing disturbs the connection and
    the disk and the backend of an organization takes content, the upload of an artifact with
    credentials for its digest succeeds, whatever the caches hold; and however the service
    goes on, a download with credentials for the digest, when the backend hands out what it
    stores, succeeds and yields content of the same digest: of a digest that was not stored
    before, right after the upload, the very bytes that were read. *)
Theorem artifacts_round_trip `{GobLaws} `{HashLaws} `{UuidLib} `{BlobLaws} `{JwtLaws} (site : string -> string -> Client)
    (known : string -> Prop) uc k now sv backendType secretID orgID r filename c write :
  (forall s s', known s -> known s' -> SHA256 s = SHA256 s' -> s = s') ->
  in_order site known uc k now sv backendType secretID orgID r filename -> (forall n, write n = None) ->
  cas_ok site known c ->
  accepts site (st_store (cas_state c)) (claims_for uc now backendType secretID orgID r Uploader) (hex r) ->
  exists st', CASClient_Upload uc now (Ok tt) sv backendType secretID orgID r filename (full_digest r) (cas_state c) = (Ok tt, st')
    /\ (forall c', rtc (cas_step site known) {| cas_state := st'; cas_pending := cas_pending c |} c' ->
          hands_out site (st_store (cas_state c')) (claims_for uc now backendType secretID orgID r Downloader) (hex r) ->
          exists out, (CASClient_Download uc now (Ok tt) sv backendType secretID orgID write (full_digest r) (cas_state c')).1 = (out, None)
            /\ SHA256 out = SHA256 (reader_content r))
    /\ (stored site (st_store (cas_state c)) (claims_for uc now backendType secretID orgID r Uploader) (hex r) = None ->
          hands_out site (st_store st') (claims_for uc now backendType secretID orgID r Downloader) (hex r) ->
          (CASClient_Download uc now (Ok tt) sv backendType secretID orgID write (full_digest r) st').1 = (reader_content r, None)).
Proof.
  intros Hap Hio Hwr Hok Hacc.
  destruct (upload_stores site known Hap uc k now sv backendType secretID orgID r filename c Hio Hok Hacc)
    as (st' & Hup & Hok' & Hd & Hnew).
  exists st'. split; [done|]. rewrite claims_same_place in Hd. rewrite !claims_same_place in Hnew. split.
  - intros c' Hsteps Hout. destruct (cas_steps_ok site known Hap _ _ Hsteps Hok') as [Hok'' Hg].
    destruct (grows_stored site known _ _ _ _ Hg (io_token _ _ _ _ _ _ _ _ _ _ _ Hio Downloader) Hd) as [body Hb].
    pose proof (stored_hashes site known _ _ _ _ Hok'' (io_token _ _ _ _ _ _ _ _ _ _ _ Hio Downloader) Hb) as Hsha.
    exists body. split; [|exact Hsha]. by eapply download_serves.
  - intros Hnone Hout. eapply download_serves; [done|done|done| |done]. apply Hnew. by rewrite claims_same_place in Hnone.
Qed.

(** ** A control plane in memory *)

Module ToyClient.
Import CasTokens.Toy.
Import BlobStores.ToyS3.
Import ToyCas.

Definition reader : Reader := [RData "hi"; RData "ho"].
Definition opts (role : CasRole) : CASCredsOpts := creds_opts "AWS-S3-ACCESS-POINT" "secret" role "o" "sha256:aaaaf".

(** Tokens of two claims, that are called after their roles *)
#[export] Instance role_jwt : Jwt := {
  Key := unit;
  ParseECPrivateKeyFromPEM _ := Ok tt;
  public_key _ := "pub";
  SignedString _ c :=
    if bool_decide (cc_Digest c = "sha256:aaaaf" /\ cc_ExpiresAt c = Some 130 /\ cc_Issuer c = DefaultIssuer
                    /\ cc_Audience c = [CASAudience] /\ cc_StoredSecretID c = "secret" /\ cc_OrgID c = "o"
                    /\ cc_BackendType c = "AWS-S3-ACCESS-POINT" /\ cc_MaxBytes c = 0 /\ cc_SourceInternal c = true)
    then Ok (cc_Role c) else Err (EMsg "not signed");
  ParseWithClaims _ now t :=
    if bool_decide (now < 130) then
      Ok (SigningMethod,
          {| cc_Issuer := DefaultIssuer; cc_Audience := [CASAudience]; cc_ExpiresAt := Some 130; cc_Role := t;
             cc_StoredSecretID := "secret"; cc_BackendType := "AWS-S3-ACCESS-POINT"; cc_MaxBytes := 0; cc_OrgID := "o";
             cc_SourceInternal := true; cc_Digest := "sha256:aaaaf" |})
    else Err (ESentinel ErrTokenExpired)
}.

#[export] Instance role_jwt_laws : JwtLaws.
Proof.
  split. intros k [iss aud ex role sec ty mx org si d] now t. cbn. case_bool_decide as Hc; [|done].
  destruct Hc as (-> & -> & -> & -> & -> & -> & -> & -> & ->). intros [= <-] He. rewrite bool_decide_eq_true_2; [done|].
  by apply He.
Qed.

Definition builder : @Builder role_jwt := {| bd_pk := Some tt; bd_issuer := DefaultIssuer; bd_expiration := Some 30 |}.
Definition server : CASServer :=
  {| sv_conn := {| cn_open := None; cn_send := fun _ => None; cn_ctx := fun _ => None |}; sv_env := env; sv_publicKey := "pub";
     sv_now := 110 |}.

Lemma everything_in_order :
  in_order site known builder tt 100 server "AWS-S3-ACCESS-POINT" "secret" "o" reader "f".
Proof.
  split; try done.
  - by intros d [= <-].
  - intros role Hr. unfold known_role in Hr. apply orb_true_iff in Hr as [Hr|Hr]; apply bool_decide_eq_true in Hr as ->;
      vm_compute; reflexivity.
  - apply env_is_ok.
  - by repeat constructor.
Qed.

Lemma accepted : accepts site (∅ : toy_objects) (claims_for builder 100 "AWS-S3-ACCESS-POINT" "secret" "o" reader Uploader) "aaaaf".
Proof.
  intros b Hb. split; [|by intros body r _]. cbn. case_bool_decide as Hd; [|done]. exfalso. revert Hd.
  case_bool_decide; [rewrite lookup_empty|]; by intros [].
Qed.

Lemma handed_out (s : toy_objects) :
  s !! ("arn:aws:s3:r:1:accesspoint/x", "o/sha256:aaaaf") = Some ("hiho", object_metadata "f") ->
  hands_out site s (claims_for builder 100 "AWS-S3-ACCESS-POINT" "secret" "o" reader Downloader) "aaaaf".
Proof.
  intros Hs b body Hb. pose proof (Hb (CasClaims (claims_for builder 100 "AWS-S3-ACCESS-POINT" "secret" "o" reader Downloader)) "aaaaf") as Hl.
  cbn in Hl. injection Hl as Hl. rewrite Hb. intros Hc.
  assert (body = "hiho") as ->.
  { change (fst <$> s !! ("arn:aws:s3:r:1:accesspoint/x", "o/sha256:aaaaf") = Some body) in Hc. rewrite Hs in Hc.
    by injection Hc as <-. }
  assert (S3AccessPoint.keyFor (CasClaims (claims_for builder 100 "AWS-S3-ACCESS-POINT" "secret" "o" reader Downloader)) "aaaaf"
          = Ok "o/sha256:aaaaf") as Hk by (vm_compute; reflexivity).
  cbn [bm_Download toy_blobmanager S3AccessPoint.ap_blobmanager]. unfold S3AccessPoint.ap_Download, S3AccessPoint.ap_Exists, S3AccessPoint.ap_Describe.
  rewrite Hk. cbn [mbind result_bind]. rewrite Hl. cbn [s3_head s3_download toy_s3]. rewrite Hs. reflexivity.
Qed.
End ToyClient.

Import CasTokens.Toy.
Import BlobStores.ToyS3.
Import ToyCas.
Import ToyClient.

Lemma artifacts_round_trip_witness :
  exists st', CASClient_Upload builder 100 (Ok tt) server "AWS-S3-ACCESS-POINT" "secret" "o" reader "f" "sha256:aaaaf" start = (Ok tt, st')
    /\ (CASClient_Download builder 100 (Ok tt) server "AWS-S3-ACCESS-POINT" "secret" "o" (fun _ => None) "sha256:aaaaf" st').1
       = ("hiho", None).
Proof.
  destruct (artifacts_round_trip site known builder tt 100 server "AWS-S3-ACCESS-POINT" "secret" "o" reader "f"
              {| cas_state := start; cas_pending := [] |} (fun _ => None) known_apart everything_in_order (fun _ => eq_refl) start_ok accepted)
    as (st' & Hup & _ & Hdown).
  exists st'. split; [exact Hup|]. apply Hdown; [vm_compute; reflexivity|]. apply handed_out.
  assert ((st_store (CASClient_Upload builder 100 (Ok tt) server "AWS-S3-ACCESS-POINT" "secret" "o" reader "f" "sha256:aaaaf" start).2
           : toy_objects) !! ("arn:aws:s3:r:1:accesspoint/x", "o/sha256:aaaaf") = Some ("hiho", object_metadata "f")) as E
    by (vm_compute; reflexivity).
  exact (eq_trans (f_equal (fun x : result unit * CasState =>
    (st_store x.2 : toy_objects) !! ("arn:aws:s3:r:1:accesspoint/x", "o/sha256:aaaaf")) (eq_sym Hup)) E).
Defined.
