(* ===== verification/ContractSchemas.v ===== *)
(** * Raw contracts and the policies they name

    app/controlplane/pkg/unmarshal: the formats a contract may have;
    app/controlplane/pkg/policies: the registry of policy providers and the HTTP
    client of one; and the part of biz/workflowcontract.go that reads a raw
    contract, validates it and resolves the policies and groups it refers to.

    The decoders of JSON, YAML and protobuf, the validator of messages and the
    HTTP transport are classes without laws. *)

From S2P Require Import Prelude.
From S2P Require Import GoStrings.
From S2P Require Import Contract.
From S2P Require Import PolicyRefs.
From S2P Require Import PolicyEngine.
From S2P Require Import PolicyLoaders.
From S2P Require Import BizErrors.
From S2P Require Import Authz.
From S2P Require Import Access.

Open Scope Z_scope.

(** ** Formats (unmarshal.go) *)

Abbreviation RawFormat := string.
Definition RawFormatJSON : RawFormat := "json".
Definition RawFormatYAML : RawFormat := "yaml".
Definition RawFormatCUE : RawFormat := "cue".

(** The decoders of a message, which may fill it partly before they fail; the one
    of YAML takes whether it validates *)
Record Codec (Msg : Type) := {
  co_zero : Msg;
  co_json : string -> Msg * result unit;
  co_yaml : bool -> string -> Msg * result unit;
  co_validate : Msg -> result unit
}.
Arguments co_zero {Msg} _.
Arguments co_json {Msg} _ _.
Arguments co_yaml {Msg} _ _ _.
Arguments co_validate {Msg} _ _.

(** The switch of [FromRaw] *)
Definition decode_raw {Msg} (c : Codec Msg) (body : string) (format : RawFormat) (doValidate : bool) : Msg * result unit :=
  if bool_decide (format = RawFormatJSON) then
    let '(m, r) := co_json c body in (m, map_err (EWrap "error unmarshalling raw message") r)
  else if bool_decide (format = RawFormatYAML) then
    let '(m, r) := co_yaml c doValidate body in (m, map_err (EWrap "error unmarshalling raw message") r)
  else if bool_decide (format = RawFormatCUE) then (co_zero c, Err errCUENotSupported)
  else (co_zero c, Err (EMsg ("unsupported format: " +:+ format))).

(** [FromRaw] *)
Definition FromRaw {Msg} (c : Codec Msg) (body : string) (format : RawFormat) (doValidate : bool) : Msg * result unit :=
  match decode_raw c body format doValidate with
  | (out, Err e) => (out, Err e)
  | (out, Ok _) => (out, if doValidate then map_err (EWrap "error validating raw message") (co_validate c out) else Ok tt)
  end.

Class Markup := {
  (** encoding/json and yaml read the text *)
  json_text : string -> bool;
  yaml_text : string -> bool;
  codec_v1 : Codec CraftingSchema;
  codec_v2 : Codec CraftingSchemaV2;
  codec_policy : Codec Contract.Policy;
  codec_group : Codec PolicyGroup;
  protoyaml_Marshal : CraftingSchemaV2 -> result string;
  protojson_Marshal : CraftingSchema -> result string;
  proto_Unmarshal : string -> result CraftingSchema;
  (** go-containerregistry, net/url and apimachinery *)
  ref_NewHash : string -> result string;
  ref_url_Parse : string -> result URL;
  IsDNS1123Label : string -> list string
}.

Section Schemas.
Context `{Markup}.

(** [IdentifyFormat] *)
Definition IdentifyFormat (raw : string) : result RawFormat :=
  if json_text raw then Ok RawFormatJSON
  else if yaml_text raw then Ok RawFormatYAML
  else Err (EMsg "format not found").

(** [biz.Contract] *)
Record BizContract := {
  ct_raw : string;
  ct_format : RawFormat;
  ct_schema : option CraftingSchema;
  ct_schemav2 : option CraftingSchemaV2
}.

Definition isV2Schema (c : BizContract) : bool := bool_decide (is_Some (ct_schemav2 c)).
Definition isV1Schema (c : BizContract) : bool := bool_decide (is_Some (ct_schema c)).

(** [ValidateIsDNS1123] (biz.go) *)
Definition ValidateIsDNS1123 (name : string) : result unit := validateIsDNS1123 IsDNS1123Label name.

(** The custom validations of both schemas *)
Definition custom_validations (unique attachments : result unit) : result unit :=
  _ ← map_err (fun _ => NewErrValidationStr "unique material name validation failed") unique;
  map_err (fun _ => NewErrValidationStr "policy attachment validation failed") attachments.

(** [UnmarshalAndValidateRawContract] *)
Definition UnmarshalAndValidateRawContract (raw : string) (format : RawFormat) : result BizContract :=
  match FromRaw codec_v2 raw format true with
  | (v2, Ok _) =>
      _ ← custom_validations (ValidateUniqueMaterialNameV2 v2)
            (ValidatePolicyAttachmentsV2 ref_NewHash ref_url_Parse IsDNS1123Label v2);
      Ok {| ct_raw := raw; ct_format := format; ct_schema := ToV1 (Some v2); ct_schemav2 := Some v2 |}
  | (_, Err _) =>
      match FromRaw codec_v1 raw format true with
      | (v1, Ok _) =>
          _ ← custom_validations (ValidateUniqueMaterialName v1)
                (ValidatePolicyAttachments ref_NewHash ref_url_Parse IsDNS1123Label v1);
          Ok {| ct_raw := raw; ct_format := format; ct_schema := Some v1; ct_schemav2 := None |}
      | (_, Err _) => Err (NewErrValidationStr "contract validation failed")
      end
  end.

(** [identifyUnMarshalAndValidateRawContract] *)
Definition identifyUnMarshalAndValidateRawContract (raw : string) : result BizContract :=
  format ← map_err (EWrap "identify contract") (IdentifyFormat raw);
  UnmarshalAndValidateRawContract raw format.

(** [SchemaToRawContract] *)
Definition SchemaToRawContract (contract : CraftingSchema) : result BizContract :=
  r ← map_err (EWrap "failed to marshal contract") (protojson_Marshal contract);
  Ok {| ct_raw := r; ct_format := RawFormatJSON; ct_schema := Some contract; ct_schemav2 := None |}.

Definition default_schema (name : string) : CraftingSchemaV2 :=
  {| v2c_api_version := "chainloop.dev/v1"; v2c_kind := "Contract";
     v2c_metadata := {| meta_name := name; meta_description := ""; meta_annotations := ∅; meta_organization := None;
                        meta_finding_type := None |};
     v2c_spec := Some {| v2s_materials := []; v2s_env_allow_list := []; v2s_runner := None; v2s_policies := None;
                         v2s_policy_groups := []; v2s_annotations := [] |} |}.

(** [createDefaultContract] *)
Definition createDefaultContract (name : string) : result BizContract :=
  rawYAML ← map_err (EWrap "failed to marshal default contract to YAML") (protoyaml_Marshal (default_schema name));
  Ok {| ct_raw := rawYAML; ct_format := RawFormatYAML; ct_schema := ToV1 (Some (default_schema name));
        ct_schemav2 := Some (default_schema name) |}.

(** ** The name of a contract (service/workflowcontract.go) *)

(** [extractMetadata] *)
Definition extractMetadata (rawContract : string) : result (option Metadata) :=
  if is_empty rawContract then Ok None
  else match IdentifyFormat rawContract with
  | Err _ => Ok None
  | Ok format =>
      let '(v2Probe, lenientErr) := FromRaw codec_v2 rawContract format false in
      if negb (bool_decide (v2c_api_version v2Probe = "chainloop.dev/v1") && bool_decide (v2c_kind v2Probe = "Contract"))
      then Ok None
      else
        _ ← map_err (fun _ => transport_err BadRequest "invalid contract") lenientErr;
        match FromRaw codec_v2 rawContract format true with
        | (_, Err _) => Err (transport_err BadRequest "invalid contract")
        | (v2Contract, Ok _) => Ok (Some (v2c_metadata v2Contract))
        end
  end.

(** [validateAndExtractMetadata] *)
Definition validateAndExtractMetadata (rawContract explicitName explicitDesc : string) : result (string * option string) :=
  metadata ← extractMetadata rawContract;
  '(name, desc) ←
    match metadata with
    | Some md =>
        _ ← guard_err (negb (is_empty explicitName) && negb (is_empty (meta_name md))
                       && negb (bool_decide (explicitName = meta_name md)))
              (transport_err BadRequest "contract name cannot be changed");
        Ok (meta_name md, meta_description md)
    | None =>
        _ ← guard_err (is_empty explicitName) (transport_err BadRequest "name is required");
        Ok (explicitName, explicitDesc)
    end;
  Ok (name, if is_empty desc then None else Some desc).
End Schemas.

(** ** Policy providers (policyprovider.go, registry.go) *)

(** A URL as the providers use it: its text without the query, and its host *)
Record Endpoint := { ep_text : string; ep_host : string }.

Record HttpRequest := {
  hq_method : string;
  hq_url : string;
  hq_query : list (string * string);
  hq_headers : list (string * string);
  hq_body : string
}.

(** A response: its status code and text, and its body unless reading it fails *)
Record HttpResponse := { hs_code : Z; hs_status : string; hs_body : result string }.

Record RawMessage := { rw_body : string; rw_format : string }.

Record ProviderResponse := {
  ps_data : option jobject;
  ps_digest : string;
  ps_raw : option RawMessage;
  ps_organization_name : string
}.

Class ProviderNet := {
  url_JoinPath : string -> list string -> result string;
  endpoint_Parse : string -> result Endpoint;
  http_Do : HttpRequest -> result HttpResponse;
  protojson_attachment : PolicyAttachment -> result string;
  json_validate_request : string -> result string;
  json_validate_response : string -> result (bool * list string);
  json_provider_response : string -> result ProviderResponse;
  json_reason : string -> option string;
  json_object : jobject -> result string
}.

Definition ErrPolicyNotFound : string := "policy not found".
Definition ErrPolicyUnauthorized : string := "unauthorized request to policy provider".

Record PolicyReference := { prf_URL : string; prf_Digest : string }.

(** [ProviderAuthOpts] *)
Record ProviderAuthOpts := { au_token : string; au_org_name : string; au_cli_version : string }.

(** [PolicyProvider] *)
Record PolicyProvider := { pp_name : string; pp_url : string; pp_default : bool }.

Section Providers.
Context `{Markup} `{ProviderNet}.

Definition when_set (k v : string) : list (string * string) := if is_empty v then [] else [(k, v)].

(** [readBodyMsg] *)
Definition readBodyMsg (r : HttpResponse) : string :=
  match hs_body r with
  | Err _ => hs_status r
  | Ok body =>
      let body := str_take 1024 body in
      if is_empty body then hs_status r
      else match json_reason body with
           | Some reason => if is_empty reason then body else reason
           | None => body
           end
  end.

(** [unmarshalFromRaw] *)
Definition unmarshalFromRaw {Msg} (c : Codec Msg) (raw : RawMessage) : result Msg :=
  format ← (if bool_decide (rw_format raw = "FORMAT_JSON") then Ok RawFormatJSON
            else if bool_decide (rw_format raw = "FORMAT_YAML") then Ok RawFormatYAML
            else if bool_decide (rw_format raw = "FORMAT_CUE") then Ok RawFormatCUE
            else Err (EMsg ("unsupported format: " +:+ rw_format raw)));
  let '(out, r) := FromRaw c (rw_body raw) format false in
  _ ← map_err (EWrap "error unmarshalling policy response") r; Ok out.

(** [createRef] *)
Definition createRef (policyURL : Endpoint) (name digest orgName : string) : PolicyReference :=
  let refURL := "chainloop://" +:+ ep_host policyURL +:+ "/" +:+ name in
  {| prf_URL := if is_empty orgName then refURL else refURL +:+ "?org=" +:+ orgName; prf_Digest := digest |}.

(** The request of [queryProvider]; the query is encoded in the order of its keys *)
Definition query_request (url : Endpoint) (digest orgName : string) (auth : ProviderAuthOpts) (ignoreCompat : bool) : HttpRequest :=
  {| hq_method := "GET"; hq_url := ep_text url;
     hq_query := when_set "digest" digest ++ (if ignoreCompat then [("include_all_versions", "true")] else [])
                 ++ when_set "organization_name" orgName;
     hq_headers := [("Authorization", "Bearer " +:+ au_token auth)]
                   ++ when_set "Chainloop-Organization" (au_org_name auth)
                   ++ when_set "Chainloop-Cli-Version" (au_cli_version auth);
     hq_body := "" |}.

(** The errors of a status other than 200 *)
Definition status_error (r : HttpResponse) : goerr :=
  if bool_decide (hs_code r = 404) then ESentinel ErrPolicyNotFound
  else if bool_decide (hs_code r = 401) || bool_decide (hs_code r = 403)
  then EWrap (readBodyMsg r) (ESentinel ErrPolicyUnauthorized)
  else EMsg "expected status code 200".

(** The message of a response; an empty response leaves it empty *)
Definition response_message {Msg} (c : Codec Msg) (response : ProviderResponse) : result Msg :=
  match ps_raw response, ps_data response with
  | Some raw, _ => map_err (EWrap "error unmarshalling policy response") (unmarshalFromRaw c raw)
  | None, Some data =>
      jsonPolicy ← map_err (EWrap "error marshalling policy response") (json_object data);
      let '(out, r) := co_json c jsonPolicy in
      _ ← map_err (EWrap "error unmarshalling policy response") r; Ok out
  | None, None => Ok (co_zero c)
  end.

(** [queryProvider], with the message it fills *)
Definition queryProvider {Msg} (c : Codec Msg) (url : Endpoint) (digest orgName : string) (auth : ProviderAuthOpts)
    (ignoreCompat : bool) : result (Msg * string * string) :=
  resp ← map_err (EWrap "error executing policy request") (http_Do (query_request url digest orgName auth ignoreCompat));
  _ ← guard_err (negb (bool_decide (hs_code resp = 200))) (status_error resp);
  resBytes ← map_err (EWrap "error reading policy response") (hs_body resp);
  response ← map_err (EWrap "error unmarshalling policy response") (json_provider_response resBytes);
  out ← response_message c response;
  Ok (out, ps_digest response, if is_empty (ps_organization_name response) then orgName else ps_organization_name response).

(** What [Resolve] and [ResolveGroup] share *)
Definition resolve_at {Msg} (c : Codec Msg) (endpoint_name kind : string) (p : PolicyProvider) (name orgName : string)
    (auth : ProviderAuthOpts) (ignoreCompat : bool) : result (Msg * PolicyReference) :=
  _ ← guard_err (is_empty name || is_empty (au_token auth)) (EMsg "both the name and the token are mandatory");
  let '(name, digest) := ExtractDigest name in
  endpoint ← map_err (EWrap ("failed to resolve " +:+ kind)) (url_JoinPath (pp_url p) [endpoint_name; name]);
  url ← map_err (EWrap "error parsing policy provider URL") (endpoint_Parse endpoint);
  '(out, providerDigest, orgName) ← map_err (EWrap ("failed to resolve " +:+ kind))
    (queryProvider c url digest orgName auth ignoreCompat);
  Ok (out, createRef url name providerDigest orgName).

(** [PolicyProvider.Resolve] *)
Definition provider_Resolve (p : PolicyProvider) (policyName policyOrgName : string) (auth : ProviderAuthOpts)
    (ignoreCompat : bool) : result (Contract.Policy * PolicyReference) :=
  resolve_at codec_policy "policies" "policy" p policyName policyOrgName auth ignoreCompat.

(** [PolicyProvider.ResolveGroup] *)
Definition provider_ResolveGroup (p : PolicyProvider) (groupName groupOrgName : string) (auth : ProviderAuthOpts)
    (ignoreCompat : bool) : result (PolicyGroup * PolicyReference) :=
  resolve_at codec_group "groups" "group" p groupName groupOrgName auth ignoreCompat.

(** [PolicyProvider.ValidateAttachment] *)
Definition provider_ValidateAttachment (p : PolicyProvider) (att : PolicyAttachment) (auth : ProviderAuthOpts) : result unit :=
  endpoint ← map_err (EWrap "invalid url") (url_JoinPath (pp_url p) ["policies"; "validate"]);
  url ← map_err (EWrap "error parsing policy provider URL") (endpoint_Parse endpoint);
  attBody ← map_err (EWrap "error serializing policy attachment") (protojson_attachment att);
  reqBody ← map_err (EWrap "error serializing policy validation request") (json_validate_request attBody);
  resp ← map_err (EWrap "error executing policy request")
    (http_Do {| hq_method := "POST"; hq_url := ep_text url; hq_query := [];
                hq_headers := [("Authorization", "Bearer " +:+ au_token auth); ("Content-Type", "application/json")]
                              ++ when_set "Chainloop-Cli-Version" (au_cli_version auth);
                hq_body := reqBody |});
  if negb (bool_decide (hs_code resp = 200)) then
    if bool_decide (hs_code resp = 404) || bool_decide (hs_code resp = 405) then Ok tt
    else if bool_decide (hs_code resp = 401) || bool_decide (hs_code resp = 403)
    then Err (EWrap (readBodyMsg resp) (ESentinel ErrPolicyUnauthorized))
    else Err (EMsg "expected status code 200")
  else
    resBytes ← map_err (EWrap "error reading validation response") (hs_body resp);
    response ← map_err (EWrap "error unmarshalling validation response") (json_validate_response resBytes);
    guard_err (negb (fst response)) (EMsg "validation failures").
End Providers.

(** [NewRegistryConfig] *)
Record RegistryConfig := { rc_name : string; rc_host : string; rc_url : string; rc_default : bool }.

(** [Registry] *)
Abbreviation Registry := (gmap string PolicyProvider).

(** The loop of [NewRegistry] *)
Definition registry_step (acc : Registry * bool) (p : RegistryConfig) : result (Registry * bool) :=
  let '(r, hasDefault) := acc in
  _ ← guard_err (hasDefault && rc_default p) (EMsg "duplicate default policy");
  _ ← guard_err (negb (is_empty (rc_url p)) && negb (is_empty (rc_host p)))
        (EMsg "wrong configuration for policy provider");
  let url := if is_empty (rc_host p) then rc_url p else trim_suffix (rc_host p) "/policies" in
  Ok (<[rc_name p := {| pp_name := rc_name p; pp_url := url; pp_default := rc_default p |}]> r, hasDefault || rc_default p).

(** [NewRegistry] *)
Definition NewRegistry (conf : list RegistryConfig) : result Registry :=
  fst <$> foldM_result registry_step conf (∅, false).

(** [DefaultProvider], [GetProvider] and [GetProviderNames] *)
Definition DefaultProvider (r : Registry) : option PolicyProvider :=
  List.find pp_default (map_to_list r).*2.

Definition GetProvider (r : Registry) (name : string) : option PolicyProvider :=
  if is_empty name then DefaultProvider r else r !! name.

Definition GetProviderNames (r : Registry) : list string := (map_to_list r).*1.

(** ** The policies of a contract (biz/workflowcontract.go) *)

(** A policy or group with where it comes from *)
Record RemotePolicy := { rp_ref : PolicyReference; rp_policy : Contract.Policy }.
Record RemotePolicyGroup := { rg_ref : PolicyReference; rg_group : PolicyGroup }.

Section Policies.
Context `{Markup} `{ProviderNet} (policyRegistry : Registry).
(** The CLI version of the request's header *)
Context (cliVersion : string).

(** [findProvider] *)
Definition findProvider (providerName : string) : result PolicyProvider :=
  _ ← guard_err (bool_decide (GetProviderNames policyRegistry = [])) (EMsg "policy providers not configured");
  match (if is_empty providerName then DefaultProvider policyRegistry else GetProvider policyRegistry providerName) with
  | Some p => Ok p
  | None => Err (EMsg ("failed to resolve provider: " +:+ providerName))
  end.

(** [providerAuthOpts] *)
Definition providerAuthOpts (token currentOrgName : string) : ProviderAuthOpts :=
  {| au_token := token; au_org_name := currentOrgName; au_cli_version := cliVersion |}.

(** The errors of [GetPolicy] and [GetPolicyGroup] *)
Definition resolution_error (what name : string) (e : goerr) : goerr :=
  if errors_is ErrPolicyNotFound e then NewErrNotFound (what +:+ " " +:+ name)
  else if errors_is ErrPolicyUnauthorized e then NewErrUnauthorizedStr ("failed to resolve " +:+ what +:+ " " +:+ name)
  else EWrap "failed to resolve policy" e.

(** [GetPolicy] *)
Definition GetPolicy (providerName policyName policyOrgName currentOrgName token : string) (ignoreCompat : bool)
    : result RemotePolicy :=
  provider ← findProvider providerName;
  '(policy, ref) ← map_err (resolution_error "policy" policyName)
    (provider_Resolve provider policyName policyOrgName (providerAuthOpts token currentOrgName) ignoreCompat);
  Ok {| rp_ref := ref; rp_policy := policy |}.

(** [GetPolicyGroup] *)
Definition GetPolicyGroup (providerName groupName groupOrgName currentOrgName token : string) (ignoreCompat : bool)
    : result RemotePolicyGroup :=
  provider ← findProvider providerName;
  '(group, ref) ← map_err (resolution_error "policy group" groupName)
    (provider_ResolveGroup provider groupName groupOrgName (providerAuthOpts token currentOrgName) ignoreCompat);
  Ok {| rg_ref := ref; rg_group := group |}.

(** [ValidatePolicyAttachment] *)
Definition ValidatePolicyAttachment (providerName : string) (att : PolicyAttachment) (token : string) : result unit :=
  provider ← findProvider providerName;
  map_err (fun e => if errors_is ErrPolicyUnauthorized e then NewErrUnauthorizedStr "invalid attachment"
                    else EWrap "invalid attachment" e)
    (provider_ValidateAttachment provider att (providerAuthOpts token "")).

(** The required inputs that are not given *)
Definition missing_inputs (inputs : list PolicyInput) (args : gmap string string) : list PolicyInput :=
  List.filter (fun i => input_required i && negb (bool_decide (is_Some (args !! input_name i)))) inputs.

(** A bare reference to what the same batch creates *)
Definition batch_local (pr : ProviderRef) (batchNames : list string) : bool :=
  is_empty (pr_provider pr) && is_empty (pr_org_name pr) && bool_decide (PolicyRefs.pr_name pr ∈ batchNames).

(** [findAndValidatePolicy] *)
Definition findAndValidatePolicy (att : PolicyAttachment) (token : string) (batchPolicyNames : list string)
    : result (option Contract.Policy) :=
  let check (policy : option Contract.Policy) : result (option Contract.Policy) :=
    match policy with
    | Some p =>
        match missing_inputs (spec_inputs (policy_spec p)) (att_with att) with
        | [] => Ok (Some p)
        | i :: _ => Err (NewErrValidationStr ("missing required input " +:+ input_name i))
        end
    | None => Ok None
    end in
  if IsProviderScheme (GetRef att) then
    let pr := ProviderParts (GetRef att) in
    if batch_local pr batchPolicyNames then Ok None
    else
      _ ← ValidatePolicyAttachment (pr_provider pr) att token;
      remotePolicy ← GetPolicy (pr_provider pr) (PolicyRefs.pr_name pr) (pr_org_name pr) "" token true;
      check (Some (rp_policy remotePolicy))
  else check (GetEmbedded att).

(** The name of a policy that may be nil *)
Definition policy_name (p : option Contract.Policy) : string :=
  match p with Some p => meta_name (policy_metadata p) | None => "" end.

(** [validateSkipList] *)
Definition validateSkipList (group : PolicyGroup) (groupAtt : PolicyGroupAttachment) (token : string) : result unit :=
  match group_att_skip groupAtt with
  | [] => Ok tt
  | skip =>
      found ← mapM_result (fun att =>
          map_err (EWrap "failed to get policy name during skip list validation") (findAndValidatePolicy att token []))
        (List.concat (List.map gm_policies (GroupMaterials group)) ++ GroupAttestation group);
      guard_err (existsb (fun name => negb (bool_decide (name ∈ List.map policy_name found))) skip)
        (EMsg "policy not found in policy group")
  end.

(** The loop over the inputs of a group *)
Definition group_input_step (args : gmap string string) (_ : unit) (input : PolicyInput) : result unit :=
  _ ← guard_err (input_required input && negb (bool_decide (is_Some (args !! input_name input))))
        (NewErrValidationStr ("missing required input " +:+ input_name input +:+ " for group"));
  guard_err (input_required input && negb (is_empty (input_default input)))
    (NewErrValidationStr "input can not be required and have a default at the same time").

(** [findAndValidatePolicyGroup] *)
Definition findAndValidatePolicyGroup (att : PolicyGroupAttachment) (token : string) (batchPolicyGroupNames : list string)
    : result (option PolicyGroup) :=
  if negb (IsProviderScheme (group_att_ref att)) then Ok None
  else
    let pr := ProviderParts (group_att_ref att) in
    if batch_local pr batchPolicyGroupNames then Ok None
    else
      remoteGroup ← map_err (fun _ => NewErrValidationStr "failed to get policy group")
        (GetPolicyGroup (pr_provider pr) (PolicyRefs.pr_name pr) (pr_org_name pr) "" token true);
      let group := rg_group remoteGroup in
      _ ← foldM_result (group_input_step (group_att_with att)) (group_inputs group) tt;
      _ ← map_err (EWrap "failed to validate skip list") (validateSkipList group att token);
      Ok (Some group).

(** One loop of [ValidateContractPolicies]; [NewErrValidation] hides the error *)
Definition validate_each {A B} (f : A -> result B) (l : list A) : result unit :=
  foldM_result (fun _ a => _ ← map_err (fun _ => NewErrValidationStr "invalid policy") (f a); Ok tt) l tt.

(** The attachments of a contract: those of the attestation, of the materials, and the groups *)
Definition contract_policies (c : BizContract) : option (list PolicyAttachment * list PolicyGroupAttachment) :=
  match ct_schema c, ct_schemav2 c with
  | Some s, _ => Some (GetAttestationPolicies (cs_policies s) ++ GetMaterialPolicies (cs_policies s), cs_policy_groups s)
  | None, Some v2 =>
      Some (match v2c_spec v2 with
            | Some spec => (GetAttestationPolicies (v2s_policies spec) ++ GetMaterialPolicies (v2s_policies spec),
                            v2s_policy_groups spec)
            | None => ([], [])
            end)
  | None, None => None
  end.

(** [ValidateContractPolicies] *)
Definition ValidateContractPolicies (rawSchema token : string) (batchPolicyNames batchPolicyGroupNames : list string)
    : result unit :=
  c ← map_err (fun _ => NewErrValidationStr "invalid contract") (identifyUnMarshalAndValidateRawContract rawSchema);
  match contract_policies c with
  | None => Err (NewErrValidationStr "invalid schema format")
  | Some (policies, groups) =>
      _ ← validate_each (fun att => findAndValidatePolicy att token batchPolicyNames) policies;
      validate_each (fun gatt => findAndValidatePolicyGroup gatt token batchPolicyGroupNames) groups
  end.
End Policies.

(** ** What an accepted contract is *)

Lemma unique_names_Ok seen ms :
  unique_names seen ms = Ok tt <-> NoDup (sm_name <$> ms) /\ forall m, m ∈ ms -> sm_name m ∉ seen.
Proof.
  revert seen. induction ms as [|m ms IH]; intros seen; cbn [unique_names fmap list_fmap].
  - split; [|done]. intros _. split; [constructor | by intros m ?%not_elem_of_nil].
  - rewrite NoDup_cons. destruct (decide (sm_name m ∈ seen)) as [Hin|Hin].
    + split; [done|]. intros (_ & H). destruct (H m); [left | done].
    + rewrite IH. split.
      * intros (Hnd & H). repeat split; [|done|].
        -- intros (m' & Hm' & Hx)%list_elem_of_fmap. apply (H m' Hx). rewrite <- Hm'. set_solver.
        -- intros m' [-> | Hm']%elem_of_cons; [done|]. specialize (H m' Hm'). set_solver.
      * intros ((Hm & Hnd) & H). split; [done|]. intros m' Hm'. apply not_elem_of_union. split.
        -- rewrite elem_of_singleton. intros E. apply Hm. rewrite <- E. by apply list_elem_of_fmap_2.
        -- apply H. by right.
Qed.

Lemma validate_attachments_Ok `{Markup} l :
  validate_attachments ref_NewHash ref_url_Parse IsDNS1123Label l = Ok tt ->
  forall att, att ∈ l -> GetRef att <> "" ->
    ValidatePolicyAttachmentRef ref_NewHash ref_url_Parse IsDNS1123Label (GetRef att) = Ok tt.
Proof.
  unfold validate_attachments. induction l as [|x l IH]; cbn [foldM_result]; [by intros _ a ?%not_elem_of_nil|].
  rewrite bind_Ok. intros ([] & Hx & Hl) att [-> | Hin]%elem_of_cons Hr; [|by apply IH].
  rewrite (proj2 (is_empty_false _) Hr) in Hx. by apply map_err_Ok in Hx.
Qed.

(** A schema whose material names are unique and whose references are valid *)
Definition schema_ok `{Markup} (s : CraftingSchema) : Prop :=
  NoDup (sm_name <$> cs_materials s)
  /\ forall att, att ∈ GetAttestationPolicies (cs_policies s) ++ GetMaterialPolicies (cs_policies s) -> GetRef att <> "" ->
       ValidatePolicyAttachmentRef ref_NewHash ref_url_Parse IsDNS1123Label (GetRef att) = Ok tt.

(** What a contract is after it was read *)
Record contract_ok `{Markup} (raw : string) (c : BizContract) : Prop := {
  cok_raw : ct_raw c = raw;
  cok_schema : forall s, ct_schema c = Some s -> schema_ok s;
  cok_v2 : forall v2, ct_schemav2 c = Some v2 -> ct_schema c = ToV1 (Some v2);
  cok_some : isV1Schema c || isV2Schema c = true
}.

Lemma custom_validations_Ok a b u : custom_validations a b = Ok u -> a = Ok tt /\ b = Ok tt.
Proof. unfold custom_validations. intros E. inv_ok. destruct a as [[]|], b as [[]|]; by inv_ok. Qed.

Lemma UnmarshalAndValidate_ok `{Markup} raw format c :
  UnmarshalAndValidateRawContract raw format = Ok c ->
  contract_ok raw c /\ ct_format c = format /\ (format = RawFormatJSON \/ format = RawFormatYAML).
Proof.
  unfold UnmarshalAndValidateRawContract.
  assert (forall Msg (cd : Codec Msg) m, FromRaw cd raw format true = (m, Ok tt) -> format = RawFormatJSON \/ format = RawFormatYAML)
    as Hfmt.
  { intros Msg cd m. unfold FromRaw, decode_raw.
    case_bool_decide; [by left|]. case_bool_decide; [by right|]. by case_bool_decide. }
  destruct (FromRaw codec_v2 raw format true) as [v2 [[]|e]] eqn:E2.
  - intros Hok. apply bind_Ok in Hok as ([] & Hv & [= <-]). apply custom_validations_Ok in Hv as [Hu Ha].
    split; [|split; [done | by apply (Hfmt _ _ _ E2)]]. split; cbn; [done| |by intros v [= <-]|].
    + unfold ToV1. unfold ValidateUniqueMaterialNameV2 in Hu. unfold ValidatePolicyAttachmentsV2 in Ha.
      destruct (v2c_spec v2) as [spec|]; [|done]. intros s [= <-]. split; cbn.
      * by apply unique_names_Ok in Hu as [? _].
      * destruct (v2s_policies spec) as [p|]; [|by intros a ?%not_elem_of_nil]. by apply validate_attachments_Ok.
    + apply orb_true_r.
  - destruct (FromRaw codec_v1 raw format true) as [v1 [[]|e']] eqn:E1; [|done].
    intros Hok. apply bind_Ok in Hok as ([] & Hv & [= <-]). apply custom_validations_Ok in Hv as [Hu Ha].
    split; [|split; [done | by apply (Hfmt _ _ _ E1)]]. split; cbn; [done| |done|done].
    intros s [= <-]. split; [by apply unique_names_Ok in Hu as [? _] | by apply validate_attachments_Ok].
Qed.

(** A contract that is accepted is JSON or YAML, keeps its text, has materials
    with unique names and valid references, and its legacy schema is the one of
    its specification. *)
Theorem accepted_contract_ok `{Markup} raw c :
  identifyUnMarshalAndValidateRawContract raw = Ok c ->
  contract_ok raw c /\ (ct_format c = RawFormatJSON \/ ct_format c = RawFormatYAML).
Proof. unfold identifyUnMarshalAndValidateRawContract. intros E. inv_ok. apply UnmarshalAndValidate_ok in E. naive_solver. Qed.

(** ** What validating the policies of a contract means *)

Definition inputs_given (inputs : list PolicyInput) (args : gmap string string) : Prop :=
  forall i, i ∈ inputs -> input_required i = true -> is_Some (args !! input_name i).

Lemma missing_inputs_nil inputs args : missing_inputs inputs args = [] <-> inputs_given inputs args.
Proof.
  unfold missing_inputs, inputs_given. induction inputs as [|x l IH]; cbn [List.filter].
  - split; [by intros _ i ?%not_elem_of_nil | done].
  - destruct (input_required x) eqn:Er; cbn [andb]; [destruct (bool_decide _) eqn:Es; cbn [negb]|].
    + apply bool_decide_eq_true in Es. rewrite IH. split.
      * intros H i [-> | Hi]%elem_of_cons Hr; [done | by apply H].
      * intros H i Hi. apply H. by right.
    + apply bool_decide_eq_false in Es. split; [done|]. intros H. destruct Es. apply H; [left | done].
    + rewrite IH. split.
      * intros H i [-> | Hi]%elem_of_cons Hr; [congruence | by apply H].
      * intros H i Hi. apply H. by right.
Qed.

Lemma validate_each_Ok {A B} (f : A -> result B) l : validate_each f l = Ok tt <-> forall a, a ∈ l -> is_ok (f a) = true.
Proof.
  unfold validate_each. induction l as [|x l IH]; cbn [foldM_result].
  - split; [by intros _ a ?%not_elem_of_nil | done].
  - destruct (f x) as [b|e] eqn:E; cbn [mbind result_bind map_err].
    + rewrite IH. split; [|by intros H a Ha; apply H; right].
      intros H a [-> | Ha]%elem_of_cons; [by rewrite E | by apply H].
    + split; [done|]. intros H. specialize (H x). rewrite E in H. by discriminate H; left.
Qed.

Section Known.
Context `{Markup} `{ProviderNet} (reg : Registry) (cliVersion : string).

(** A policy that the contract may use: an embedded one with the inputs it needs,
    or one that a configured provider vouches for and has *)
Definition policy_known (token : string) (batch : list string) (att : PolicyAttachment) : Prop :=
  if IsProviderScheme (GetRef att) then
    let pr := ProviderParts (GetRef att) in
    batch_local pr batch = true
    \/ exists provider remote,
         findProvider reg (pr_provider pr) = Ok provider
         /\ is_ok (provider_ValidateAttachment provider att (providerAuthOpts cliVersion token "")) = true
         /\ GetPolicy reg cliVersion (pr_provider pr) (PolicyRefs.pr_name pr) (pr_org_name pr) "" token true = Ok remote
         /\ inputs_given (spec_inputs (policy_spec (rp_policy remote))) (att_with att)
  else forall p, GetEmbedded att = Some p -> inputs_given (spec_inputs (policy_spec p)) (att_with att).

Lemma findAndValidatePolicy_known att token batch :
  is_ok (findAndValidatePolicy reg cliVersion att token batch) = true <-> policy_known token batch att.
Proof.
  unfold findAndValidatePolicy, policy_known. destruct (IsProviderScheme (GetRef att)).
  - destruct (batch_local _ _); [split; [by left | done]|].
    unfold ValidatePolicyAttachment, GetPolicy.
    destruct (findProvider reg _) as [p|e] eqn:Ep; cbn [mbind result_bind]; [|naive_solver].
    destruct (provider_ValidateAttachment p att _) as [[]|e] eqn:Ev; cbn [mbind result_bind map_err].
    2:{ split; [done|]. intros [? | (p' & r & Hp & Hv & _)]; [done|]. injection Hp as <-. by rewrite Ev in Hv. }
    destruct (provider_Resolve _ _ _ _ _) as [[pol ref]|e] eqn:Er; cbn [mbind result_bind map_err].
    2:{ split; [done|]. intros [? | (p' & r & _ & _ & Hg & _)]; [done|]. done. }
    cbn [rp_policy]. destruct (missing_inputs _ _) eqn:Em; cbn; (split; [intros Hx|]); try done.
    + right. eexists _, _. split; [done|]. split; [by rewrite Ev|]. split; [reflexivity|]. by apply missing_inputs_nil.
    + intros [? | (p' & r & _ & _ & Hr & Hi)]; [done|]. injection Hr as <-. cbn in Hi.
      apply missing_inputs_nil in Hi. by rewrite Em in Hi.
  - destruct (GetEmbedded att) as [p|]; [|split; [by intros _ p | done]].
    destruct (missing_inputs _ _) eqn:Em; (split; [intros Hx|intros Hx]); try done.
    + intros p' [= <-]. by apply missing_inputs_nil.
    + specialize (Hx p eq_refl). apply missing_inputs_nil in Hx. by rewrite Em in Hx.
Qed.

(** A group that the contract may use: a local one, or one that a provider has,
    with its required inputs given and without defaults, whose skipped policies
    exist *)
Definition group_known (token : string) (batch : list string) (att : PolicyGroupAttachment) : Prop :=
  IsProviderScheme (group_att_ref att) = true ->
  let pr := ProviderParts (group_att_ref att) in
  batch_local pr batch = true
  \/ exists remote,
       GetPolicyGroup reg cliVersion (pr_provider pr) (PolicyRefs.pr_name pr) (pr_org_name pr) "" token true = Ok remote
       /\ inputs_given (group_inputs (rg_group remote)) (group_att_with att)
       /\ (forall i, i ∈ group_inputs (rg_group remote) -> input_required i = true -> input_default i = "")
       /\ validateSkipList reg cliVersion (rg_group remote) att token = Ok tt.

Lemma group_inputs_Ok args l :
  foldM_result (group_input_step args) l tt = Ok tt
  <-> inputs_given l args /\ forall i, i ∈ l -> input_required i = true -> input_default i = "".
Proof.
  induction l as [|x l IH]; cbn [foldM_result].
  - split; [|done]. intros _. split; intros i Hi; by apply not_elem_of_nil in Hi.
  - rewrite bind_Ok. split.
    + intros ([] & Hx & Hl). apply IH in Hl as [Hg Hd]. unfold group_input_step in Hx. inv_ok.
      split; intros i [-> | Hi]%elem_of_cons Hr; [|by apply Hg| |by apply Hd]; rewrite Hr in *; cbn [andb] in *.
      * by split_bool.
      * split_bool. by apply is_empty_true.
    + intros [Hg Hd]. exists tt. split.
      * unfold group_input_step. destruct (input_required x) eqn:Er; cbn [andb]; [|done].
        rewrite bool_decide_eq_true_2 by (apply Hg; [left | done]). cbn. rewrite (Hd x) by (done || left). done.
      * apply IH. split; intros i Hi; [apply Hg | apply Hd]; by right.
Qed.

Lemma findAndValidatePolicyGroup_known att token batch :
  is_ok (findAndValidatePolicyGroup reg cliVersion att token batch) = true <-> group_known token batch att.
Proof.
  unfold findAndValidatePolicyGroup, group_known. destruct (IsProviderScheme _); cbn [negb]; [|by split].
  destruct (batch_local _ _); [split; [by left | done]|].
  destruct (GetPolicyGroup _ _ _ _ _ _ _ _) as [r|e] eqn:Eg; cbn [mbind result_bind map_err].
  2:{ split; [done|]. intros Hk. by destruct (Hk eq_refl) as [? | (r' & Hr & _)]. }
  destruct (foldM_result _ _ _) as [[]|e] eqn:Ef; cbn [mbind result_bind].
  - apply group_inputs_Ok in Ef. destruct (validateSkipList _ _ _ _ _) as [[]|e] eqn:Es; cbn.
    + split; [|done]. intros _ _. right. exists r. naive_solver.
    + split; [done|]. intros Hk. destruct (Hk eq_refl) as [? | (r' & [= <-] & _ & _ & Hs)]; [done|]. by rewrite Es in Hs.
  - split; [done|]. intros Hk. destruct (Hk eq_refl) as [? | (r' & [= <-] & Hg & Hd & _)]; [done|].
    exfalso. assert (foldM_result (group_input_step (group_att_with att)) (group_inputs (rg_group r)) tt = Ok tt) as E
      by by apply group_inputs_Ok. by rewrite Ef in E.
Qed.

(** The policies of a contract validate exactly when the contract is accepted and
    every policy and every group that it names is known: to a provider that is
    configured, or, in a dry run, to the batch. *)
Theorem contract_policies_known raw token batchPolicies batchGroups :
  ValidateContractPolicies reg cliVersion raw token batchPolicies batchGroups = Ok tt
  <-> exists c policies groups, identifyUnMarshalAndValidateRawContract raw = Ok c
        /\ contract_policies c = Some (policies, groups)
        /\ (forall att, att ∈ policies -> policy_known token batchPolicies att)
        /\ (forall att, att ∈ groups -> group_known token batchGroups att).
Proof.
  unfold ValidateContractPolicies. rewrite bind_Ok. split.
  - intros (c & Hc & Hv). apply map_err_Ok in Hc. destruct (contract_policies c) as [[policies groups]|] eqn:Ec; [|done].
    apply bind_Ok in Hv as ([] & Hp & Hg). exists c, policies, groups. repeat split; [done..| |];
      intros att Hin; [apply findAndValidatePolicy_known | apply findAndValidatePolicyGroup_known];
      [apply (proj1 (validate_each_Ok _ _) Hp) | apply (proj1 (validate_each_Ok _ _) Hg)]; done.
  - intros (c & policies & groups & Hc & Hcp & Hp & Hg). exists c. split; [by apply map_err_Ok|]. rewrite Hcp.
    apply bind_Ok. exists tt. split; apply validate_each_Ok; intros att Hin;
      [apply findAndValidatePolicy_known | apply findAndValidatePolicyGroup_known]; auto.
Qed.
End Known.

(** ** Witnesses *)

Module ContractToys.
Definition metadata (name : string) : Metadata :=
  {| meta_name := name; meta_description := "about " +:+ name; meta_annotations := ∅; meta_organization := None; meta_finding_type := None |}.

Definition attachment : PolicyAttachment :=
  {| att_policy := Some (AttachedRef "chainloop://checks"); att_selector := None; att_disabled := false;
     att_with := {[ "severity" := "high" ]}; att_requirements := []; att_gate := None |}.

(** A contract that asks for one material and attaches one policy of a provider *)
Definition schema (name : string) : CraftingSchemaV2 :=
  {| v2c_api_version := "chainloop.dev/v1"; v2c_kind := "Contract"; v2c_metadata := metadata name;
     v2c_spec := Some
       {| v2s_materials := [{| sm_type := SBOM_CYCLONEDX_JSON; sm_name := "sbom"; sm_optional := false; sm_output := false;
                               sm_annotations := []; sm_skip_upload := false; sm_group := "" |}];
          v2s_env_allow_list := []; v2s_runner := None;
          v2s_policies := Some {| policies_materials := []; policies_attestation := [attachment] |};
          v2s_policy_groups := []; v2s_annotations := [] |} |}.

Definition policy (name : string) : Contract.Policy :=
  {| policy_api_version := "v1"; policy_kind := "Policy"; policy_metadata := metadata name;
     policy_spec := {| spec_source := None; spec_type := STRING; spec_policies := [];
                       spec_inputs := [{| input_name := "severity"; input_description := ""; input_required := true;
                                          input_default := "" |}] |} |}.

(** A text is a brace or a letter followed by the name *)
Definition named {Msg} (f : string -> Msg) : Codec Msg :=
  {| co_zero := f ""; co_json := fun s => (f (str_drop 1 s), Ok tt); co_yaml := fun _ s => (f (str_drop 1 s), Ok tt);
     co_validate := fun _ => Ok tt |}.

#[export] Instance toy_markup : Markup :=
  {| json_text := String.prefix "{"; yaml_text := fun s => negb (is_empty s);
     codec_v1 := named (fun _ => {| cs_schema_version := "v1"; cs_materials := []; cs_env_allow_list := []; cs_runner := None;
                                    cs_annotations := []; cs_policies := None; cs_policy_groups := [] |});
     codec_v2 := named schema; codec_policy := named policy;
     codec_group := named (fun n => {| group_metadata := metadata n; group_policies := None; group_inputs := [] |});
     protoyaml_Marshal := fun c => Ok ("y" +:+ meta_name (v2c_metadata c)); protojson_Marshal := fun _ => Ok "{legacy";
     proto_Unmarshal := fun _ => Err (EMsg "no legacy contract");
     ref_NewHash := Ok; ref_url_Parse := fun s => Ok {| url_scheme := ""; url_host := ""; url_path := s |};
     IsDNS1123Label := fun _ => [] |}.

(** A provider that has the policies whose names it is asked for, at its own URL *)
#[export] Instance toy_net : ProviderNet :=
  {| url_JoinPath := fun base parts => Ok (String.concat "/" (base :: parts));
     endpoint_Parse := fun s => Ok {| ep_text := s; ep_host := "provider" |};
     http_Do := fun r =>
       if bool_decide (hq_method r = "POST") then Ok {| hs_code := 404; hs_status := "404"; hs_body := Ok "" |}
       else if bool_decide (hq_url r = "https://provider/policies/checks")
       then Ok {| hs_code := 200; hs_status := "200"; hs_body := Ok "checks" |}
       else Ok {| hs_code := 403; hs_status := "403"; hs_body := Ok "" |};
     protojson_attachment := fun _ => Ok ""; json_validate_request := Ok; json_validate_response := fun _ => Ok (true, []);
     json_provider_response := fun s =>
       Ok {| ps_data := None; ps_digest := "d"; ps_raw := Some {| rw_body := "{" +:+ s; rw_format := "FORMAT_JSON" |};
             ps_organization_name := "" |};
     json_reason := fun _ => None; json_object := fun _ => Ok "" |}.

Definition registry : Registry :=
  {[ "main" := {| pp_name := "main"; pp_url := "https://provider"; pp_default := true |} ]}.
End ContractToys.

Import ContractToys.

Lemma accepted_contract_ok_witness :
  exists c, identifyUnMarshalAndValidateRawContract "{build" = Ok c /\ ct_raw c = "{build" /\ ct_format c = RawFormatJSON.
Proof.
  destruct (identifyUnMarshalAndValidateRawContract "{build") as [c|] eqn:E; [|discriminate E].
  exists c. split; [reflexivity|]. split.
  - exact (cok_raw _ _ (proj1 (accepted_contract_ok _ _ E))).
  - destruct (proj2 (accepted_contract_ok _ _ E)) as [-> | Hf]; [reflexivity|].
    exfalso. revert Hf. injection E as <-. discriminate.
Defined.

(** A contract's policy that its provider has, and one that no provider is configured for *)
Example toy_contract_validates :
  ValidateContractPolicies registry "" "{build" "token" [] [] = Ok tt
  /\ is_ok (ValidateContractPolicies ∅ "" "{build" "token" [] []) = false
  /\ ValidateContractPolicies ∅ "" "{build" "token" ["checks"] [] = Ok tt.
Proof. vm_compute. repeat split. Qed.
