(* ===== verification/WorkflowContracts.v ===== *)
(** * Workflow contracts and their revisions

    app/controlplane/pkg/data/workflowcontract.go over the tables of
    ent/schema/workflowcontract.go and workflowcontractversion.go, the use case
    biz/workflowcontract.go and the service internal/service/workflowcontract.go:
    creating, describing, updating, applying and deleting contracts, whose
    revisions are only ever added.

    An update reads the latest revision and writes the next one in two steps,
    which other calls may interleave with.  The order of the database among ties
    is the class [DbOrder]; random suffixes and the raw token of a request are
    parameters.  Audit events have no counterpart. *)

From S2P Require Import Prelude.
From S2P Require Import GoStrings.
From S2P Require Import Contract.
From S2P Require Import BizErrors.
From S2P Require Import Authz.
From S2P Require Import ApiTokens.
From S2P Require Import Access.
From S2P Require Import RunStore.
From S2P Require Import Referrers.
From S2P Require Import CasMappings.
From S2P Require Import ContractSchemas.

Open Scope Z_scope.

(** ** Tables *)

(** The settings of an organization *)
Record OrganizationRow := {
  og_name : string;
  og_deleted : bool;
  og_block_on_violation : bool;
  og_prevent_implicit : bool;
  og_restrict_contracts : bool;
  og_block_released : bool;
  og_allowed_hostnames : list string;
  og_ai_agent_collector : bool;
  og_skip_runner_env_vars : bool
}.

Definition ContractScopeProject : string := "project".
Definition ContractScopeOrg : string := "org".

(** A contract; a scope that is not set is empty, with the zero identifier *)
Record ContractRow := {
  kr_name : string;
  kr_organization : UUID;
  kr_description : string;
  kr_scope_type : string;
  kr_scope_id : UUID;
  kr_created_at : Z;
  kr_updated_at : Z;
  kr_deleted : bool
}.

(** A revision; [kv_body] is the old protobuf form, empty in new rows *)
Record ContractVersionRow := {
  kv_contract : UUID;
  kv_body : string;
  kv_raw_body : string;
  kv_format : RawFormat;
  kv_revision : Z;
  kv_created_at : Z
}.

(** The contracts, their revisions, the projects, the organizations, and the
    workflows with their versions and runs *)
Record ContractDB := {
  kd_contracts : gmap UUID ContractRow;
  kd_versions : gmap UUID ContractVersionRow;
  kd_projects : gmap UUID ProjectRow;
  kd_orgs : gmap UUID OrganizationRow;
  kd_runs : DB
}.

Definition with_contracts (db : ContractDB) (t : gmap UUID ContractRow) : ContractDB :=
  {| kd_contracts := t; kd_versions := kd_versions db; kd_projects := kd_projects db; kd_orgs := kd_orgs db; kd_runs := kd_runs db |}.
Definition with_contract_versions (db : ContractDB) (t : gmap UUID ContractVersionRow) : ContractDB :=
  {| kd_contracts := kd_contracts db; kd_versions := t; kd_projects := kd_projects db; kd_orgs := kd_orgs db; kd_runs := kd_runs db |}.
Definition with_projects (db : ContractDB) (t : gmap UUID ProjectRow) : ContractDB :=
  {| kd_contracts := kd_contracts db; kd_versions := kd_versions db; kd_projects := t; kd_orgs := kd_orgs db; kd_runs := kd_runs db |}.
Definition with_run_tables (db : ContractDB) (r : DB) : ContractDB :=
  {| kd_contracts := kd_contracts db; kd_versions := kd_versions db; kd_projects := kd_projects db; kd_orgs := kd_orgs db; kd_runs := r |}.

(** ** What the callers see *)

Record ScopedEntity := { se_Type : string; se_ID : UUID; se_Name : string }.

(** [WorkflowRef] *)
Record WorkflowRef := { wrf_ID : UUID; wrf_Name : string; wrf_ProjectName : string }.

(** [biz.WorkflowContract] *)
Record WorkflowContract := {
  wk_ID : UUID;
  wk_Name : string;
  wk_Description : string;
  wk_LatestRevision : Z;
  wk_LatestRevisionCreatedAt : Z;
  wk_WorkflowRefs : list WorkflowRef;
  wk_ScopedEntity : option ScopedEntity
}.

Record WorkflowContractVersion := {
  wv_ID : UUID;
  wv_Description : string;
  wv_Revision : Z;
  wv_CreatedAt : Z;
  wv_Schema : BizContract
}.

Record WorkflowContractWithVersion := {
  wcv_Contract : WorkflowContract;
  wcv_Version : WorkflowContractVersion;
  wcv_Changed : bool
}.

Definition IsGlobalScoped (c : WorkflowContract) : bool := bool_decide (wk_ScopedEntity c = None).

Definition IsProjectScoped (c : WorkflowContract) : bool :=
  match wk_ScopedEntity c with Some s => bool_decide (se_Type s = ContractScopeProject) | None => false end.

Definition with_description (d : string) (c : WorkflowContract) : WorkflowContract :=
  {| wk_ID := wk_ID c; wk_Name := wk_Name c; wk_Description := d; wk_LatestRevision := wk_LatestRevision c;
     wk_LatestRevisionCreatedAt := wk_LatestRevisionCreatedAt c; wk_WorkflowRefs := wk_WorkflowRefs c;
     wk_ScopedEntity := wk_ScopedEntity c |}.

(** ** Queries (data/workflowcontract.go) *)

(** A live contract of the organization, by its identifier or its name *)
Definition contract_matches (orgID : UUID) (contractID : option UUID) (name : option string) (kr : UUID * ContractRow) : bool :=
  bool_decide (kr_organization kr.2 = orgID) && negb (kr_deleted kr.2)
  && match contractID with Some i => bool_decide (kr.1 = i) | None => true end
  && match name with Some n => bool_decide (kr_name kr.2 = n) | None => true end.

(** [contractInOrg]: [Only], with [None] when there is none *)
Definition contractInOrg (db : ContractDB) (orgID : UUID) (contractID : option UUID) (name : option string)
    : result (option (UUID * ContractRow)) :=
  match contractID, name with
  | None, None => Err (EMsg "either contractID or name must be provided")
  | _, _ =>
      match List.filter (contract_matches orgID contractID name) (map_to_list (kd_contracts db)) with
      | [] => Ok None
      | [c] => Ok (Some c)
      | _ => Err (EMsg "ent: workflow_contract not singular")
      end
  end.

Definition versions_of (db : ContractDB) (id : UUID) : list (UUID * ContractVersionRow) :=
  List.filter (fun kv => bool_decide (kv_contract kv.2 = id)) (map_to_list (kd_versions db)).

(** The newest revision first *)
Definition revision_desc (a b : UUID * ContractVersionRow) : bool := bool_decide (kv_revision b.2 <= kv_revision a.2).

(** [getWorkflowReferences]: the live workflows that use a contract *)
Definition getWorkflowReferences (db : ContractDB) (id : UUID) : list WorkflowRef :=
  (fun kv => {| wrf_ID := kv.1; wrf_Name := wr_name kv.2;
                wrf_ProjectName := match kd_projects db !! wr_project kv.2 with Some p => pr_name p | None => "" end |})
    <$> List.filter (fun kv => bool_decide (wr_contract kv.2 = id) && negb (wr_deleted kv.2))
          (map_to_list (db_workflows (kd_runs db))).

(** [entContractToBizContract]: without the project of its scope the revision is left out *)
Definition entContractToBizContract (db : ContractDB) (w : UUID * ContractRow) (version : ContractVersionRow)
    (refs : list WorkflowRef) : WorkflowContract :=
  let scope := if bool_decide (kr_scope_id w.2 = uuid_Nil) then None
               else Some {| se_Type := kr_scope_type w.2; se_ID := kr_scope_id w.2; se_Name := "" |} in
  let c revision scope :=
    {| wk_ID := w.1; wk_Name := kr_name w.2; wk_Description := kr_description w.2; wk_LatestRevision := revision;
       wk_LatestRevisionCreatedAt := kv_created_at version; wk_WorkflowRefs := refs; wk_ScopedEntity := scope |} in
  if bool_decide (kr_scope_type w.2 = ContractScopeProject) then
    match kd_projects db !! kr_scope_id w.2 with
    | None => c 0 scope
    | Some p => c (kv_revision version)
                  (Some {| se_Type := kr_scope_type w.2; se_ID := kr_scope_id w.2; se_Name := pr_name p |})
    end
  else c (kv_revision version) scope.

Section Repo.
Context `{Markup} `{DbOrder}.

(** [latestVersion] *)
Definition latestVersion (db : ContractDB) (id : UUID) : result (UUID * ContractVersionRow) :=
  match order_by revision_desc (versions_of db id) with
  | v :: _ => Ok v
  | [] => Err (EMsg "ent: workflow_contract_version not found")
  end.

(** The contract of a row: the old form is printed, the new one is parsed; a row
    with both has no schema *)
Definition version_contract (w : ContractVersionRow) : result BizContract :=
  if is_empty (kv_raw_body w) then
    schema ← proto_Unmarshal (kv_body w);
    map_err (EWrap "failed to generate fallback raw body") (SchemaToRawContract schema)
  else if is_empty (kv_body w) then
    parsed ← map_err (EWrap "failed to unmarshal raw body") (UnmarshalAndValidateRawContract (kv_raw_body w) (kv_format w));
    Ok {| ct_raw := kv_raw_body w; ct_format := kv_format w; ct_schema := ct_schema parsed; ct_schemav2 := ct_schemav2 parsed |}
  else Ok {| ct_raw := kv_raw_body w; ct_format := kv_format w; ct_schema := None; ct_schemav2 := None |}.

(** [entContractVersionToBizContractVersion] *)
Definition entContractVersionToBizContractVersion (v : UUID * ContractVersionRow) : result WorkflowContractVersion :=
  contract ← version_contract v.2;
  Ok {| wv_ID := v.1; wv_CreatedAt := kv_created_at v.2; wv_Revision := kv_revision v.2; wv_Schema := contract;
        wv_Description := match ct_schemav2 contract with Some v2 => meta_description (v2c_metadata v2) | None => "" end |}.

(** [List], with the projects that narrow it *)
Definition repo_ListContracts (db : ContractDB) (orgID : UUID) (projects : option (list UUID)) : result (list WorkflowContract) :=
  let visible (kr : UUID * ContractRow) :=
    contract_matches orgID None None kr
    && match kd_orgs db !! orgID with Some o => negb (og_deleted o) | None => false end
    && match projects with
       | None => true
       | Some ps => bool_decide (kr_scope_type kr.2 = ContractScopeProject) && bool_decide (kr_scope_id kr.2 ∈ ps)
                    || bool_decide (kr_scope_id kr.2 = uuid_Nil)
       end in
  mapM_result (fun kr => latestV ← latestVersion db kr.1;
                         Ok (entContractToBizContract db kr latestV.2 (getWorkflowReferences db kr.1)))
    (order_by (fun a b : UUID * ContractRow => bool_decide (kr_created_at b.2 <= kr_created_at a.2))
       (List.filter visible (map_to_list (kd_contracts db)))).

(** [FindVersionByID]: [None] when there is no such revision *)
Definition repo_FindVersionByID (db : ContractDB) (versionID : UUID) : result (option WorkflowContractWithVersion) :=
  match kd_versions db !! versionID with
  | None => Ok None
  | Some row =>
      contractVersion ← entContractVersionToBizContractVersion (versionID, row);
      match kd_contracts db !! kv_contract row with
      | None => Err (panic "nil dereference")
      | Some c => Ok (Some {| wcv_Contract := entContractToBizContract db (kv_contract row, c) row [];
                              wcv_Version := contractVersion; wcv_Changed := false |})
      end
  end.

(** The revision that [Describe] asks for, zero being the latest *)
Definition find_revision (db : ContractDB) (id : UUID) (revision : Z) (latestV : UUID * ContractVersionRow)
    : result (UUID * ContractVersionRow) :=
  if bool_decide (revision = 0) then Ok latestV
  else match List.filter (fun kv => bool_decide (kv_revision kv.2 = revision)) (versions_of db id) with
  | [] => Err (NewErrNotFound "contract")
  | [v] => Ok v
  | _ => Err (EMsg "ent: workflow_contract_version not singular")
  end.

(** [WorkflowContractRepo.Describe] *)
Definition repo_DescribeContract (db : ContractDB) (orgID contractID : UUID) (revision : Z) (skipReferences : bool)
    : result WorkflowContractWithVersion :=
  found ← contractInOrg db orgID (Some contractID) None;
  match found with
  | None => Err (NewErrNotFound "contract")
  | Some c =>
      latestV ← latestVersion db c.1;
      version ← find_revision db c.1 revision latestV;
      v ← entContractVersionToBizContractVersion version;
      Ok {| wcv_Contract := entContractToBizContract db c latestV.2 (if skipReferences then [] else getWorkflowReferences db c.1);
            wcv_Version := v; wcv_Changed := false |}
  end.

(** [FindByIDInOrg] and [FindByNameInOrg] *)
Definition found_contract (db : ContractDB) (c : UUID * ContractRow) : result WorkflowContract :=
  latestV ← latestVersion db c.1;
  Ok (entContractToBizContract db c latestV.2 (getWorkflowReferences db c.1)).

Definition repo_FindContractByID (db : ContractDB) (orgID contractID : UUID) : result (option WorkflowContract) :=
  found ← contractInOrg db orgID (Some contractID) None;
  match found with None => Ok None | Some c => Some <$> found_contract db c end.

Definition repo_FindContractByName (db : ContractDB) (orgID : UUID) (name : string) : result WorkflowContract :=
  found ← map_err (EWrap "failed to find contract") (contractInOrg db orgID None (Some name));
  match found with
  | None => Err (NewErrNotFound "contract")
  | Some c => map_err (EWrap "failed to get latest version") (found_contract db c)
  end.

(** ** Writing *)

Record ContractCreateOpts := {
  kc_Name : string;
  kc_OrgID : UUID;
  kc_Description : option string;
  kc_Contract : BizContract;
  kc_ProjectID : option UUID
}.

(** The index on the live names, the key and the organization, which constrain an insertion *)
Definition contract_conflict (db : ContractDB) (id : UUID) (orgID : UUID) (name : string) : bool :=
  existsb (contract_matches orgID None (Some name)) (map_to_list (kd_contracts db))
  || bool_decide (is_Some (kd_contracts db !! id)) || negb (bool_decide (is_Some (kd_orgs db !! orgID))).

Definition new_contract (opts : ContractCreateOpts) (now : Z) : ContractRow :=
  {| kr_name := kc_Name opts; kr_organization := kc_OrgID opts; kr_description := default "" (kc_Description opts);
     kr_scope_type := match kc_ProjectID opts with Some _ => ContractScopeProject | None => "" end;
     kr_scope_id := default uuid_Nil (kc_ProjectID opts); kr_created_at := now; kr_updated_at := now; kr_deleted := false |}.

Definition new_version (contract : UUID) (c : BizContract) (revision now : Z) : ContractVersionRow :=
  {| kv_contract := contract; kv_body := ""; kv_raw_body := ct_raw c; kv_format := ct_format c; kv_revision := revision;
     kv_created_at := now |}.

(** The creation of a revision: the body is not empty and the key is new *)
Definition insert_version (db : ContractDB) (vid : UUID) (row : ContractVersionRow) : result ContractDB :=
  _ ← guard_err (is_empty (kv_raw_body row)) (EMsg "ent: validator failed for field raw_body");
  _ ← guard_err (bool_decide (is_Some (kd_versions db !! vid))) (NewErrAlreadyExists "constraint failed");
  Ok (with_contract_versions db (<[vid := row]> (kd_versions db))).

(** [addCreateToTx]; the identifiers are fresh *)
Definition addCreateToTx (db : ContractDB) (id vid : UUID) (now : Z) (opts : ContractCreateOpts)
    : result (ContractRow * ContractVersionRow * ContractDB) :=
  _ ← guard_err (contract_conflict db id (kc_OrgID opts) (kc_Name opts)) (NewErrAlreadyExists "constraint failed");
  let row := new_contract opts now in
  let version := new_version id (kc_Contract opts) 1 now in
  db ← insert_version (with_contracts db (<[id := row]> (kd_contracts db))) vid version;
  Ok (row, version, db).

(** [WorkflowContractRepo.Create] *)
Definition repo_CreateContract (db : ContractDB) (id vid : UUID) (now : Z) (opts : ContractCreateOpts)
    : result (WorkflowContract * ContractDB) :=
  '(row, version, db) ← addCreateToTx db id vid now opts;
  Ok (entContractToBizContract db (id, row) version [], db).

Record ContractUpdateOpts := { ku_Description : option string; ku_Contract : option BizContract }.

Definition describe_row (description : option string) (now : Z) (c : ContractRow) : ContractRow :=
  {| kr_name := kr_name c; kr_organization := kr_organization c; kr_description := default (kr_description c) description;
     kr_scope_type := kr_scope_type c; kr_scope_id := kr_scope_id c; kr_created_at := kr_created_at c; kr_updated_at := now;
     kr_deleted := kr_deleted c |}.

(** The first half of [WorkflowContractRepo.Update]: the row is written at once, not
    in the transaction, and the latest revision is read; [None] without a contract *)
Definition update_begin (db : ContractDB) (now : Z) (orgID : UUID) (name : string) (description : option string)
    : result (option (UUID * (UUID * ContractVersionRow))) * ContractDB :=
  match contractInOrg db orgID None (Some name) with
  | Err e => (Err e, db)
  | Ok None => (Ok None, db)
  | Ok (Some (id, row)) =>
      let db1 := with_contracts db (<[id := describe_row description now row]> (kd_contracts db)) in
      match latestVersion db1 id with
      | Err e => (Err e, db1)
      | Ok lv => (Ok (Some (id, lv)), db1)
      end
  end.

(** The second half: a revision is created if the contract changed *)
Definition update_commit (db : ContractDB) (vid : UUID) (now : Z) (id : UUID) (lv : UUID * ContractVersionRow)
    (contract : option BizContract) : result ((UUID * ContractVersionRow) * ContractDB) :=
  match contract with
  | Some c =>
      if bool_decide (kv_raw_body lv.2 = ct_raw c) then Ok (lv, db)
      else
        let row := new_version id c (kv_revision lv.2 + 1) now in
        db ← insert_version db vid row; Ok ((vid, row), db)
  | None => Ok (lv, db)
  end.

(** What [Update] returns after it has committed *)
Definition update_result (db : ContractDB) (orgID : UUID) (name : string) (lv : UUID * ContractVersionRow)
    : result WorkflowContractWithVersion :=
  found ← contractInOrg db orgID None (Some name);
  match found with
  | None => Err (EMsg "ent: workflow_contract not found")
  | Some c =>
      v ← entContractVersionToBizContractVersion lv;
      Ok {| wcv_Contract := entContractToBizContract db c lv.2 (getWorkflowReferences db c.1); wcv_Version := v;
            wcv_Changed := false |}
  end.

(** [WorkflowContractRepo.Update], without interleaving *)
Definition repo_UpdateContract (db : ContractDB) (vid : UUID) (now : Z) (orgID : UUID) (name : string) (opts : ContractUpdateOpts)
    : result (option WorkflowContractWithVersion) * ContractDB :=
  match update_begin db now orgID name (ku_Description opts) with
  | (Err e, db1) => (Err e, db1)
  | (Ok None, db1) => (Ok None, db1)
  | (Ok (Some (id, lv)), db1) =>
      match update_commit db1 vid now id lv (ku_Contract opts) with
      | Err e => (Err e, db1)
      | Ok (lv', db2) => (Some <$> update_result db2 orgID name lv', db2)
      end
  end.

Definition delete_row (now : Z) (c : ContractRow) : ContractRow :=
  {| kr_name := kr_name c; kr_organization := kr_organization c; kr_description := kr_description c;
     kr_scope_type := kr_scope_type c; kr_scope_id := kr_scope_id c; kr_created_at := kr_created_at c; kr_updated_at := now;
     kr_deleted := true |}.

(** [SoftDelete] *)
Definition repo_SoftDeleteContract (db : ContractDB) (id : UUID) (now : Z) : result ContractDB :=
  match kd_contracts db !! id with
  | Some row => Ok (with_contracts db (<[id := delete_row now row]> (kd_contracts db)))
  | None => Err (EMsg "ent: workflow_contract not found")
  end.
End Repo.

(** ** The use case (biz/workflowcontract.go) *)

Definition RandomNameMaxTries : nat := 10.

(** [IdentityReference], of a project *)
Record IdentityReference := { ir_Id : string; ir_Name : string }.

Definition reference_IsSet (r : IdentityReference) : bool := negb (is_empty (ir_Id r)) || negb (is_empty (ir_Name r)).

Section UseCase.
Context `{UuidLib} `{Markup} `{DbOrder}.
(** The random number of each try, as text *)
Context (random : nat -> string).

(** [generateValidDNS1123WithSuffix] *)
Definition generateValidDNS1123WithSuffix (i : nat) (prefix : string) : result string :=
  let name := replace_all "_" "-" (prefix +:+ "-" +:+ random i) in
  _ ← map_err (EWrap "generated name is not DNS1123-valid") (ValidateIsDNS1123 name); Ok name.

Definition with_contract_name (name : string) (o : ContractCreateOpts) : ContractCreateOpts :=
  {| kc_Name := name; kc_OrgID := kc_OrgID o; kc_Description := kc_Description o; kc_Contract := kc_Contract o;
     kc_ProjectID := kc_ProjectID o |}.

(** The loop of [createWithUniqueName], at try [i] of the last [tries] *)
Fixpoint unique_name_loop (tries i : nat) (db : ContractDB) (id vid : UUID) (now : Z) (originalName : string)
    (opts : ContractCreateOpts) : result (WorkflowContract * ContractDB) :=
  match tries with
  | O => Err (NewErrValidationStr "name already taken")
  | S tries' =>
      name ← match i with
             | O => Ok originalName
             | S _ => map_err (EWrap "failed to generate random name") (generateValidDNS1123WithSuffix i originalName)
             end;
      match repo_CreateContract db id vid now (with_contract_name name opts) with
      | Ok r => Ok r
      | Err e => if IsErrAlreadyExists e then unique_name_loop tries' (S i) db id vid now originalName opts
                 else Err (EWrap "failed to create contract" e)
      end
  end.

(** [createWithUniqueName] *)
Definition createWithUniqueName (db : ContractDB) (id vid : UUID) (now : Z) (opts : ContractCreateOpts)
    : result (WorkflowContract * ContractDB) :=
  unique_name_loop RandomNameMaxTries 0 db id vid now (kc_Name opts) opts.

(** [WorkflowContractUseCase.List], [FindByIDInOrg] and [FindByNameInOrg] *)
Definition uc_ListContracts (db : ContractDB) (orgID : string) (projects : option (list UUID)) : result (list WorkflowContract) :=
  org ← parse_uuid orgID; repo_ListContracts db org projects.

Definition uc_FindContractByID (db : ContractDB) (orgID contractID : string) : result (option WorkflowContract) :=
  org ← parse_uuid orgID; contract ← parse_uuid contractID; repo_FindContractByID db org contract.

Definition uc_FindContractByName (db : ContractDB) (orgID name : string) : result WorkflowContract :=
  org ← parse_uuid orgID; repo_FindContractByName db org name.

Record WorkflowContractCreateOpts := {
  kw_OrgID : string;
  kw_Name : string;
  kw_RawSchema : string;
  kw_Description : option string;
  kw_ProjectID : option UUID;
  kw_AddUniquePrefix : bool
}.

(** [WorkflowContractUseCase.Create] *)
Definition uc_CreateContract (db : ContractDB) (id vid : UUID) (now : Z) (opts : WorkflowContractCreateOpts)
    : result (WorkflowContract * ContractDB) :=
  _ ← guard_err (is_empty (kw_OrgID opts)) (NewErrValidationStr "organization is required");
  org ← raw_uuid (kw_OrgID opts);
  _ ← guard_err (is_empty (kw_Name opts)) (NewErrValidationStr "name is required");
  _ ← map_err (fun _ => NewErrValidationStr "invalid name") (ValidateIsDNS1123 (kw_Name opts));
  contract ← (if negb (is_empty (kw_RawSchema opts))
              then map_err (EWrap "failed to load contract") (identifyUnMarshalAndValidateRawContract (kw_RawSchema opts))
              else map_err (EWrap "failed to create default contract") (createDefaultContract (kw_Name opts)));
  let args := {| kc_Name := kw_Name opts; kc_OrgID := org; kc_Description := kw_Description opts; kc_Contract := contract;
                 kc_ProjectID := kw_ProjectID opts |} in
  map_err (fun e => if IsErrAlreadyExists e then NewErrAlreadyExists "name already taken" else EWrap "failed to create contract" e)
    (if kw_AddUniquePrefix opts then createWithUniqueName db id vid now args else repo_CreateContract db id vid now args).

(** [WorkflowContractUseCase.Describe] *)
Definition uc_DescribeContract (db : ContractDB) (orgID contractID : string) (revision : Z) (skipReferences : bool)
    : result WorkflowContractWithVersion :=
  org ← raw_uuid orgID; contract ← raw_uuid contractID;
  desc ← repo_DescribeContract db org contract revision skipReferences;
  Ok (if is_empty (wv_Description (wcv_Version desc)) then desc
      else {| wcv_Contract := with_description (wv_Description (wcv_Version desc)) (wcv_Contract desc);
              wcv_Version := wcv_Version desc; wcv_Changed := wcv_Changed desc |}).

(** [WorkflowContractUseCase.FindVersionByID] *)
Definition uc_FindVersionByID (db : ContractDB) (versionID : string) : result WorkflowContractWithVersion :=
  version ← raw_uuid versionID;
  r ← map_err (EWrap "finding contract version") (repo_FindVersionByID db version);
  match r with Some r => Ok r | None => Err (NewErrNotFound "contract version") end.

Record WorkflowContractUpdateOpts := { kp_RawSchema : string; kp_Description : option string }.

(** The contract of an update, if it has one *)
Definition update_contract (rawSchema : string) : result (option BizContract) :=
  if is_empty rawSchema then Ok None
  else Some <$> map_err (EWrap "failed to load contract") (identifyUnMarshalAndValidateRawContract rawSchema).

(** [WorkflowContractUseCase.Update] *)
Definition uc_UpdateContract (db : ContractDB) (vid : UUID) (now : Z) (orgID name : string) (opts : WorkflowContractUpdateOpts)
    : result WorkflowContractWithVersion * ContractDB :=
  match (org ← raw_uuid orgID;
         contract ← update_contract (kp_RawSchema opts);
         before ← map_err (EWrap "failed to find contract") (repo_FindContractByName db org name);
         Ok (org, contract, before)) with
  | Err e => (Err e, db)
  | Ok (org, contract, before) =>
      match repo_UpdateContract db vid now org name {| ku_Description := kp_Description opts; ku_Contract := contract |} with
      | (Err e, db1) => (Err (EWrap "failed to update contract" e), db1)
      | (Ok None, db1) => (Err (NewErrNotFound "contract"), db1)
      | (Ok (Some c), db1) =>
          (Ok {| wcv_Contract := wcv_Contract c; wcv_Version := wcv_Version c;
                 wcv_Changed := negb (bool_decide (wk_LatestRevision before = wv_Revision (wcv_Version c))) |}, db1)
      end
  end.

(** [RevisionWouldChange] *)
Definition RevisionWouldChange (db : ContractDB) (orgID contractID rawSchema : string) : result bool :=
  org ← raw_uuid orgID; contract ← raw_uuid contractID;
  incoming ← map_err (EWrap "failed to load contract") (identifyUnMarshalAndValidateRawContract rawSchema);
  latest ← repo_DescribeContract db org contract 0 false;
  Ok (negb (bool_decide (ct_raw (wv_Schema (wcv_Version latest)) = ct_raw incoming))).

(** [WorkflowContractUseCase.Delete] *)
Definition uc_DeleteContract (db : ContractDB) (now : Z) (orgID contractID : string) : result ContractDB :=
  org ← raw_uuid orgID; id ← raw_uuid contractID;
  contract ← repo_FindContractByID db org id;
  match contract with
  | None => Err (NewErrNotFound "contract")
  | Some c =>
      _ ← guard_err (negb (bool_decide (wk_WorkflowRefs c = [])))
            (NewErrValidationStr "there are associated workflows with this contract, delete them first");
      map_err (EWrap "failed to delete contract") (repo_SoftDeleteContract db id now)
  end.

(** ** Organizations and projects *)

(** [OrganizationUseCase.FindByID] *)
Definition org_FindByID (db : ContractDB) (id : string) : result OrganizationRow :=
  org ← parse_uuid id;
  match kd_orgs db !! org with
  | Some o => if og_deleted o then Err (NewErrNotFound "organization") else Ok o
  | None => Err (NewErrNotFound "organization")
  end.

(** [FindProjectByOrgIDAndName] and [FindProjectByOrgIDAndID]: live projects of a live organization *)
Definition live_org (db : ContractDB) (orgID : UUID) : bool :=
  match kd_orgs db !! orgID with Some o => negb (og_deleted o) | None => false end.

Definition project_named (orgID : UUID) (name : string) (p : ProjectRow) : bool :=
  bool_decide (pr_organization p = orgID) && bool_decide (pr_name p = name) && negb (pr_deleted p).

Definition FindProjectByOrgIDAndName (db : ContractDB) (orgID : UUID) (name : string) : result (UUID * ProjectRow) :=
  match List.filter (fun kv => live_org db orgID && project_named orgID name kv.2) (map_to_list (kd_projects db)) with
  | [] => Err (NewErrNotFound ("project " +:+ name))
  | [p] => Ok p
  | _ => Err (EWrap "project query failed" (EMsg "ent: project not singular"))
  end.

Definition FindProjectByOrgIDAndID (db : ContractDB) (orgID id : UUID) : result (UUID * ProjectRow) :=
  match kd_projects db !! id with
  | Some p => if live_org db orgID && bool_decide (pr_organization p = orgID) && negb (pr_deleted p) then Ok (id, p)
              else Err (NewErrNotFound ("project " +:+ id))
  | None => Err (NewErrNotFound ("project " +:+ id))
  end.

(** [IdentityReference.Parse] and [FindProjectByReference] *)
Definition FindProjectByReference (db : ContractDB) (orgID : string) (ref : IdentityReference) : result (UUID * string) :=
  _ ← guard_err (negb (is_empty (ir_Id ref)) && negb (is_empty (ir_Name ref)))
        (transport_err BadRequest "invalid project reference");
  id ← (if is_empty (ir_Id ref) then Ok None
        else match uuid_Parse (ir_Id ref) with
             | Some u => Ok (Some u) | None => Err (transport_err BadRequest "invalid project reference") end);
  _ ← guard_err (is_empty orgID) (NewErrValidationStr "orgID or project reference are empty");
  org ← parse_uuid orgID;
  p ← (if negb (is_empty (ir_Name ref)) then FindProjectByOrgIDAndName db org (ir_Name ref)
       else match id with
            | Some u => if bool_decide (u = uuid_Nil) then Err (NewErrValidationStr "project reference is empty")
                        else FindProjectByOrgIDAndID db org u
            | None => Err (NewErrValidationStr "project reference is empty")
            end);
  Ok (p.1, pr_name p.2).
End UseCase.

(** ** The service (service/workflowcontract.go) *)

(** [APPLY_STATUS_...] *)
Inductive ApplyStatus := APPLY_STATUS_UNCHANGED | APPLY_STATUS_UPDATED | APPLY_STATUS_CREATED.

Record ApplyResponse := { ar_Changed : bool; ar_Status : ApplyStatus; ar_CurrentRevision : Z }.

Definition apply_status (changed : bool) : ApplyStatus := if changed then APPLY_STATUS_UPDATED else APPLY_STATUS_UNCHANGED.

(** [canCreateContractsInRestrictedMode] *)
Definition canCreateContractsInRestrictedMode (c : Ctx) : bool :=
  match cx_token c with
  | Some t => IsOrgScoped (Some t) || IsInstanceScoped (Some t)
  | None => isUserOrgAdmin c
  end.

Section Service.
Context `{UuidLib} `{Markup} `{DbOrder} `{ProviderNet}.
(** [AuthzUseCase.Enforce], the errors that are bad requests, the providers, the
    CLI version and the token of the request, and the random names *)
Context (enforce : string -> Authz.Policy -> result bool) (others : goerr -> bool).
Context (policyRegistry : Registry) (cliVersion : string) (rawToken : result string) (random : nat -> string).

(** [checkContractAccess] *)
Definition checkContractAccess (c : Ctx) (contract : WorkflowContract) (policy : Authz.Policy) (allowGlobalAccess : bool)
    : result unit :=
  _ ← guard_err (IsGlobalScoped contract && rbacEnabled c && negb allowGlobalAccess)
        (transport_err BadRequest "you can not manage a global contract");
  match wk_ScopedEntity contract with
  | Some s => if IsProjectScoped contract
              then authorizeResource enforce others c false policy ResourceTypeProject (se_ID s)
              else Ok tt
  | None => Ok tt
  end.

(** The policies of a raw contract, checked with the token of the request *)
Definition check_policies (rawContract token : string) : result unit :=
  if is_empty rawContract then Ok tt
  else map_err (handleUseCaseErr others) (ValidateContractPolicies policyRegistry cliVersion rawContract token [] []).

(** [WorkflowContractService.List] *)
Definition svc_ListContracts (db : ContractDB) (c : Ctx) : result (list WorkflowContract) :=
  org ← requireCurrentOrg c;
  visible ← visibleProjects c;
  map_err (handleUseCaseErr others) (uc_ListContracts db (org_ID org) visible).

(** [WorkflowContractService.Describe] *)
Definition svc_DescribeContract (db : ContractDB) (c : Ctx) (name : string) (revision : Z) : result WorkflowContractWithVersion :=
  org ← requireCurrentOrg c;
  contract ← map_err (handleUseCaseErr others) (uc_FindContractByName db (org_ID org) name);
  _ ← checkContractAccess c contract PolicyWorkflowContractRead true;
  map_err (handleUseCaseErr others) (uc_DescribeContract db (org_ID org) (wk_ID contract) revision false).

(** The restriction of an organization on who creates contracts *)
Definition may_create_contracts (db : ContractDB) (c : Ctx) (org : Org) : result unit :=
  settings ← map_err (handleUseCaseErr others) (org_FindByID db (org_ID org));
  guard_err (og_restrict_contracts settings && negb (canCreateContractsInRestrictedMode c))
    (transport_err Forbidden "contract creation is restricted to organization administrators and service accounts").

(** What [WorkflowContractService.Create] checks, and its options *)
Definition create_contract_checks (db : ContractDB) (c : Ctx) (name rawContract description : string) (project : IdentityReference)
    : result WorkflowContractCreateOpts :=
  org ← requireCurrentOrg c;
  _ ← guard_err (rbacEnabled c && negb (reference_IsSet project)) (transport_err BadRequest "project is required");
  _ ← may_create_contracts db c org;
  projectID ← (if reference_IsSet project
               then p ← userHasPermissionOnProject enforce others (FindProjectByReference db (org_ID org)) c project
                          PolicyWorkflowContractCreate;
                    Ok (Some p.1)
               else Ok None);
  token ← rawToken;
  _ ← check_policies rawContract token;
  '(contractName, description) ← validateAndExtractMetadata rawContract name description;
  Ok {| kw_OrgID := org_ID org; kw_Name := contractName; kw_RawSchema := rawContract; kw_Description := description;
        kw_ProjectID := projectID; kw_AddUniquePrefix := false |}.

(** [WorkflowContractService.Create] *)
Definition svc_CreateContract (db : ContractDB) (id vid : UUID) (now : Z) (c : Ctx) (name rawContract description : string)
    (project : IdentityReference) : result (WorkflowContract * ContractDB) :=
  opts ← create_contract_checks db c name rawContract description project;
  map_err (handleUseCaseErr others) (uc_CreateContract random db id vid now opts).

(** What [WorkflowContractService.Update] checks: the organization, the name and the description *)
Definition update_contract_checks (db : ContractDB) (c : Ctx) (name rawContract description : string)
    : result (Org * string * option string) :=
  org ← requireCurrentOrg c;
  '(contractName, description) ← validateAndExtractMetadata rawContract name description;
  contract ← map_err (handleUseCaseErr others) (uc_FindContractByName db (org_ID org) contractName);
  _ ← checkContractAccess c contract PolicyWorkflowContractUpdate false;
  token ← rawToken;
  _ ← check_policies rawContract token;
  Ok (org, contractName, description).

(** An update whose error is converted *)
Definition update_as (db : ContractDB) (vid : UUID) (now : Z) (org : Org) (name rawContract : string) (description : option string)
    : result WorkflowContractWithVersion * ContractDB :=
  let '(r, db1) := uc_UpdateContract db vid now (org_ID org) name {| kp_RawSchema := rawContract; kp_Description := description |} in
  (map_err (handleUseCaseErr others) r, db1).

(** [WorkflowContractService.Update] *)
Definition svc_UpdateContract (db : ContractDB) (vid : UUID) (now : Z) (c : Ctx) (name rawContract description : string)
    : result WorkflowContractWithVersion * ContractDB :=
  match update_contract_checks db c name rawContract description with
  | Err e => (Err e, db)
  | Ok (org, contractName, description) => update_as db vid now org contractName rawContract description
  end.

(** What [Apply] does before it changes anything: the organization, the name, the
    description and the contract of that name *)
Definition apply_checks (db : ContractDB) (c : Ctx) (rawSchema : string) (dryRun : bool) (batchPolicies batchGroups : list string)
    : result (Org * string * option string * option WorkflowContract) :=
  org ← requireCurrentOrg c;
  '(contractName, description) ← validateAndExtractMetadata rawSchema "" "";
  token ← rawToken;
  _ ← map_err (handleUseCaseErr others)
        (ValidateContractPolicies policyRegistry cliVersion rawSchema token
           (if dryRun then batchPolicies else []) (if dryRun then batchGroups else []));
  contract ← match uc_FindContractByName db (org_ID org) contractName with
             | Ok contract => Ok (Some contract)
             | Err e => if IsNotFound e then Ok None else Err (handleUseCaseErr others e)
             end;
  Ok (org, contractName, description, contract).

(** [Apply] of a contract that exists *)
Definition apply_update (db : ContractDB) (vid : UUID) (now : Z) (c : Ctx) (org : Org) (contractName rawSchema : string)
    (description : option string) (contract : WorkflowContract) (dryRun : bool) : result ApplyResponse * ContractDB :=
  match checkContractAccess c contract PolicyWorkflowContractUpdate false with
  | Err e => (Err e, db)
  | Ok _ =>
      if dryRun then
        (changed ← map_err (handleUseCaseErr others) (RevisionWouldChange db (org_ID org) (wk_ID contract) rawSchema);
         Ok {| ar_Changed := changed; ar_Status := apply_status changed; ar_CurrentRevision := wk_LatestRevision contract |}, db)
      else
        let '(r, db1) := update_as db vid now org contractName rawSchema description in
        (schemaWithVersion ← r;
         Ok {| ar_Changed := wcv_Changed schemaWithVersion; ar_Status := apply_status (wcv_Changed schemaWithVersion);
               ar_CurrentRevision := wk_LatestRevision (wcv_Contract schemaWithVersion) |}, db1)
  end.

(** [Apply] of a contract that does not exist *)
Definition apply_create (db : ContractDB) (id vid : UUID) (now : Z) (c : Ctx) (org : Org) (contractName rawSchema : string)
    (description : option string) (dryRun : bool) : result (ApplyResponse * ContractDB) :=
  _ ← may_create_contracts db c org;
  _ ← guard_err (rbacEnabled c) (transport_err Forbidden "you can not create an organization-level contract");
  if dryRun then Ok ({| ar_Changed := true; ar_Status := APPLY_STATUS_CREATED; ar_CurrentRevision := 0 |}, db)
  else
    '(schema, db1) ← map_err (handleUseCaseErr others)
      (uc_CreateContract random db id vid now
         {| kw_OrgID := org_ID org; kw_Name := contractName; kw_RawSchema := rawSchema; kw_Description := description;
            kw_ProjectID := None; kw_AddUniquePrefix := false |});
    Ok ({| ar_Changed := true; ar_Status := APPLY_STATUS_CREATED; ar_CurrentRevision := wk_LatestRevision schema |}, db1).

(** [WorkflowContractService.Apply] *)
Definition svc_ApplyContract (db : ContractDB) (id vid : UUID) (now : Z) (c : Ctx) (rawSchema : string) (dryRun : bool)
    (batchPolicies batchGroups : list string) : result ApplyResponse * ContractDB :=
  match apply_checks db c rawSchema dryRun batchPolicies batchGroups with
  | Err e => (Err e, db)
  | Ok (org, contractName, description, Some contract) =>
      apply_update db vid now c org contractName rawSchema description contract dryRun
  | Ok (org, contractName, description, None) =>
      match apply_create db id vid now c org contractName rawSchema description dryRun with
      | Err e => (Err e, db)
      | Ok (r, db1) => (Ok r, db1)
      end
  end.

(** [WorkflowContractService.Delete] *)
Definition svc_DeleteContract (db : ContractDB) (now : Z) (c : Ctx) (name : string) : result ContractDB :=
  org ← requireCurrentOrg c;
  contract ← map_err (handleUseCaseErr others) (uc_FindContractByName db (org_ID org) name);
  _ ← checkContractAccess c contract PolicyWorkflowContractDelete false;
  map_err (handleUseCaseErr others) (uc_DeleteContract db now (org_ID org) (wk_ID contract)).
End Service.

(** ** The invariant of the tables *)

Section Invariant.
Context `{Markup}.

(** A contract that can be read back from what is stored of it *)
Definition readable_contract (c : BizContract) : Prop :=
  ct_raw c <> "" /\ is_ok (UnmarshalAndValidateRawContract (ct_raw c) (ct_format c)) = true.

Definition readable_version (v : ContractVersionRow) : Prop :=
  kv_body v = "" /\ kv_raw_body v <> "" /\ is_ok (UnmarshalAndValidateRawContract (kv_raw_body v) (kv_format v)) = true.

Definition has_revision (db : ContractDB) (id : UUID) (r : Z) : Prop :=
  exists vid v, kd_versions db !! vid = Some v /\ kv_contract v = id /\ kv_revision v = r.

(** A scope that is not set, or a project of the organization *)
Definition scope_ok (db : ContractDB) (row : ContractRow) : Prop :=
  kr_scope_type row = "" /\ kr_scope_id row = uuid_Nil
  \/ kr_scope_type row = ContractScopeProject /\ kr_scope_id row <> uuid_Nil
     /\ exists p, kd_projects db !! kr_scope_id row = Some p /\ pr_organization p = kr_organization row.

Record contracts_ok (db : ContractDB) : Prop := {
  ko_names : forall i j a b, kd_contracts db !! i = Some a -> kd_contracts db !! j = Some b ->
    kr_deleted a = false -> kr_deleted b = false -> kr_organization a = kr_organization b -> kr_name a = kr_name b -> i = j;
  ko_scope : forall i a, kd_contracts db !! i = Some a -> scope_ok db a;
  ko_first : forall i a, kd_contracts db !! i = Some a -> has_revision db i 1;
  ko_versions : forall vid v, kd_versions db !! vid = Some v ->
    is_Some (kd_contracts db !! kv_contract v) /\ 1 <= kv_revision v
    /\ (1 < kv_revision v -> has_revision db (kv_contract v) (kv_revision v - 1)) /\ readable_version v
}.

(** Every revision number names one revision *)
Definition revisions_unique (db : ContractDB) : Prop :=
  forall i j v w, kd_versions db !! i = Some v -> kd_versions db !! j = Some w -> kv_contract v = kv_contract w ->
    kv_revision v = kv_revision w -> i = j.
End Invariant.

Lemma contract_matches_true org id name kr :
  contract_matches org id name kr = true <->
  kr_organization kr.2 = org /\ kr_deleted kr.2 = false
  /\ (forall i, id = Some i -> kr.1 = i) /\ (forall n, name = Some n -> kr_name kr.2 = n).
Proof.
  unfold contract_matches. rewrite !andb_true_iff, bool_decide_eq_true, negb_true_iff.
  destruct id as [i|], name as [n|]; rewrite ?bool_decide_eq_true; naive_solver.
Qed.

Lemma contractInOrg_Some db org id name i row :
  contractInOrg db org id name = Ok (Some (i, row)) ->
  kd_contracts db !! i = Some row /\ kr_organization row = org /\ kr_deleted row = false
  /\ (forall x, id = Some x -> i = x) /\ (forall n, name = Some n -> kr_name row = n).
Proof.
  intros Hc. assert (List.filter (contract_matches org id name) (map_to_list (kd_contracts db)) = [(i, row)]) as Hf.
  { unfold contractInOrg in Hc. destruct id, name; try done; destruct (List.filter _ _) as [|? [|]]; by try injection Hc as ->. }
  assert ((i, row) ∈ [(i, row)]) as Hin by left. rewrite <- Hf in Hin.
  apply list_elem_of_In, filter_In in Hin as [Hin%list_elem_of_In Hm]. apply contract_matches_true in Hm.
  split; [by apply elem_of_map_to_list | done].
Qed.

(** Without a contract of that name or identifier there is none to be found *)
Lemma contractInOrg_None db org id name i row :
  contractInOrg db org id name = Ok None -> kd_contracts db !! i = Some row ->
  contract_matches org id name (i, row) = false.
Proof.
  intros Hc Hi. destruct (contract_matches org id name (i, row)) eqn:Hm; [|done]. exfalso.
  assert ((i, row) ∈ List.filter (contract_matches org id name) (map_to_list (kd_contracts db))) as Hin.
  { apply list_elem_of_In, filter_In. split; [|done]. by apply list_elem_of_In, elem_of_map_to_list. }
  unfold contractInOrg in Hc. destruct id, name; try done; destruct (List.filter _ _) as [|? [|]]; try done;
    by apply not_elem_of_nil in Hin.
Qed.

(** An element that is the only one to pass a filter *)
Lemma filter_singleton {A} (P : A -> bool) l x :
  NoDup l -> x ∈ l -> P x = true -> (forall y, y ∈ l -> P y = true -> y = x) -> List.filter P l = [x].
Proof.
  induction l as [|y l IH]; intros Hnd Hx HP Hu; [by apply not_elem_of_nil in Hx|].
  apply NoDup_cons in Hnd as [Hy Hnd]. cbn [List.filter]. destruct (P y) eqn:E.
  - assert (y = x) as -> by (apply Hu; [left | done]). f_equal.
    assert (forall z, z ∈ l -> P z = false) as Hn.
    { intros z Hz. destruct (P z) eqn:Ez; [|done]. rewrite (Hu z) in Hz; [done | by right | done]. }
    clear -Hn. induction l as [|z l IH]; [done|]. cbn. rewrite Hn by left. apply IH. intros w Hw. apply Hn. by right.
  - apply elem_of_cons in Hx as [-> | Hx]; [congruence|]. apply IH; [done..|]. intros z Hz. apply Hu. by right.
Qed.

Lemma contractInOrg_name `{Markup} db org i row :
  contracts_ok db -> kd_contracts db !! i = Some row -> kr_deleted row = false -> kr_organization row = org ->
  contractInOrg db org None (Some (kr_name row)) = Ok (Some (i, row)).
Proof.
  intros Hok Hi Hd Ho. unfold contractInOrg.
  rewrite (filter_singleton _ _ (i, row)); [done | apply NoDup_map_to_list | by apply elem_of_map_to_list | |].
  - apply contract_matches_true. cbn. naive_solver.
  - intros [j b] Hj%elem_of_map_to_list Hm%contract_matches_true. cbn in Hm. destruct Hm as (Ho' & Hd' & _ & Hn).
    assert (j = i) as -> by (apply (ko_names _ Hok j i b row); naive_solver). f_equal. congruence.
Qed.

Lemma contractInOrg_id db org i row :
  kd_contracts db !! i = Some row -> kr_deleted row = false -> kr_organization row = org ->
  contractInOrg db org (Some i) None = Ok (Some (i, row)).
Proof.
  intros Hi Hd Ho. unfold contractInOrg.
  rewrite (filter_singleton _ _ (i, row)); [done | apply NoDup_map_to_list | by apply elem_of_map_to_list | |].
  - apply contract_matches_true. cbn. naive_solver.
  - intros [j b] Hj%elem_of_map_to_list Hm%contract_matches_true. cbn in Hm. destruct Hm as (_ & _ & Hx & _).
    specialize (Hx i eq_refl). subst j. f_equal. congruence.
Qed.

(** ** Every operation keeps it *)

Lemma has_revision_insert db vid row id r :
  kd_versions db !! vid = None -> has_revision db id r ->
  has_revision (with_contract_versions db (<[vid := row]> (kd_versions db))) id r.
Proof.
  intros Hn (v0 & v & Hv & Hc & Hr). exists v0, v. split; [|done]. cbn. rewrite lookup_insert_ne; [done|]. congruence.
Qed.

Lemma insert_version_Ok db vid row db' :
  insert_version db vid row = Ok db' ->
  kv_raw_body row <> "" /\ kd_versions db !! vid = None /\ db' = with_contract_versions db (<[vid := row]> (kd_versions db)).
Proof.
  unfold insert_version. intros E. inv_ok. split; [by apply is_empty_false|]. split; [|done].
  split_bool. by destruct (kd_versions db !! vid) eqn:E; [destruct H0; eauto|].
Qed.

Section Keeps.
Context `{Markup}.

(** A row that keeps what identifies its contract, and may be deleted *)
Definition same_contract (a b : ContractRow) : Prop :=
  kr_name b = kr_name a /\ kr_organization b = kr_organization a /\ kr_scope_type b = kr_scope_type a
  /\ kr_scope_id b = kr_scope_id a /\ (kr_deleted b = false -> kr_deleted a = false).

Lemma ok_change_row db id a b :
  contracts_ok db -> kd_contracts db !! id = Some a -> same_contract a b ->
  contracts_ok (with_contracts db (<[id := b]> (kd_contracts db))).
Proof.
  intros Hok Ha (Hn & Ho & Ht & Hs & Hd).
  assert (forall i x, (<[id := b]> (kd_contracts db)) !! i = Some x ->
            exists y, kd_contracts db !! i = Some y /\ same_contract y x) as Hback.
  { intros i x [[<- <-] | [_ Hx]]%lookup_insert_Some; [exists a; done | exists x; split; [done | repeat split; done]]. }
  split; cbn.
  - intros i j x y Hx Hy Dx Dy Oxy Nxy. apply Hback in Hx as (x' & Hx & ? & ? & _ & _ & ?).
    apply Hback in Hy as (y' & Hy & ? & ? & _ & _ & ?). apply (ko_names _ Hok i j x' y'); naive_solver congruence.
  - intros i x Hx. apply Hback in Hx as (y & Hy & ? & Eo & Et & Es & _). pose proof (ko_scope _ Hok i y Hy) as Hsc.
    unfold scope_ok in *. cbn. by rewrite Et, Es, Eo.
  - intros i x Hx. apply Hback in Hx as (y & Hy & _). by apply (ko_first _ Hok i y).
  - intros vid v Hv. destruct (ko_versions _ Hok vid v Hv) as (Hc & Hrest). split; [|done].
    destruct (decide (kv_contract v = id)) as [-> |]; [rewrite lookup_insert_eq; eauto | by rewrite lookup_insert_ne].
Qed.

Lemma ok_insert_version db vid row :
  contracts_ok db -> kd_versions db !! vid = None -> is_Some (kd_contracts db !! kv_contract row) -> 1 <= kv_revision row ->
  (1 < kv_revision row -> has_revision db (kv_contract row) (kv_revision row - 1)) -> readable_version row ->
  contracts_ok (with_contract_versions db (<[vid := row]> (kd_versions db))).
Proof.
  intros Hok Hf Hc H1 Hp Hr. split; cbn.
  - apply (ko_names _ Hok).
  - apply (ko_scope _ Hok).
  - intros i a Ha. apply has_revision_insert; [done | by apply (ko_first _ Hok i a)].
  - intros v0 v [[<- <-] | [_ Hv]]%lookup_insert_Some.
    + repeat split; try done; [intros Hlt; by apply has_revision_insert, Hp | apply Hr..].
    + destruct (ko_versions _ Hok v0 v Hv) as (Hx & Hy & Hz & Hw).
      repeat split; try done; [intros Hlt; by apply has_revision_insert, Hz | apply Hw..].
Qed.

(** The scope of a new contract: none, or a project of its organization *)
Definition project_in_org (db : ContractDB) (orgID : UUID) (project : option UUID) : Prop :=
  forall p, project = Some p -> p <> uuid_Nil /\ exists row, kd_projects db !! p = Some row /\ pr_organization row = orgID.

Lemma contract_conflict_false db id org name :
  contract_conflict db id org name = false ->
  (forall i a, kd_contracts db !! i = Some a -> kr_organization a = org -> kr_name a = name -> kr_deleted a = true)
  /\ kd_contracts db !! id = None /\ is_Some (kd_orgs db !! org).
Proof.
  unfold contract_conflict. rewrite !orb_false_iff, negb_false_iff, bool_decide_eq_true, bool_decide_eq_false.
  intros ((He & Hi) & Ho). repeat split; [|destruct (kd_contracts db !! id); [destruct Hi; eauto | done]|done].
  intros i a Ha Horg Hn. destruct (kr_deleted a) eqn:Hd; [done|]. exfalso.
  assert (existsb (contract_matches org None (Some name)) (map_to_list (kd_contracts db)) = true); [|congruence].
  apply existsb_exists. exists (i, a). split; [by apply list_elem_of_In, elem_of_map_to_list|].
  apply contract_matches_true. naive_solver.
Qed.

(** What a creation writes *)
Lemma addCreateToTx_Ok db id vid now opts row version db' :
  addCreateToTx db id vid now opts = Ok (row, version, db') ->
  row = new_contract opts now /\ version = new_version id (kc_Contract opts) 1 now
  /\ contract_conflict db id (kc_OrgID opts) (kc_Name opts) = false /\ kd_versions db !! vid = None
  /\ ct_raw (kc_Contract opts) <> ""
  /\ db' = with_contract_versions (with_contracts db (<[id := row]> (kd_contracts db))) (<[vid := version]> (kd_versions db)).
Proof.
  unfold addCreateToTx. intros E. apply bind_Ok in E as (u & Hg & E). apply guard_err_Ok in Hg.
  apply bind_Ok in E as (db1 & Hi & [= <- <- <-]). apply insert_version_Ok in Hi as (Hr & Hn & ->). done.
Qed.

Lemma ok_create db id vid now opts row version db' :
  contracts_ok db -> addCreateToTx db id vid now opts = Ok (row, version, db') ->
  readable_contract (kc_Contract opts) -> project_in_org db (kc_OrgID opts) (kc_ProjectID opts) -> contracts_ok db'.
Proof.
  intros Hok Hadd Hr Hp. apply addCreateToTx_Ok in Hadd as (-> & -> & Hcf & Hv & _ & ->).
  apply contract_conflict_false in Hcf as (Hnames & Hid & _).
  assert (has_revision (with_contract_versions (with_contracts db (<[id := new_contract opts now]> (kd_contracts db)))
            (<[vid := new_version id (kc_Contract opts) 1 now]> (kd_versions db))) id 1) as Hfirst.
  { eexists vid, _. cbn. by rewrite lookup_insert_eq. }
  split; cbn.
  - intros i j a b [[<- <-] | [Hi Ha]]%lookup_insert_Some [[<- <-] | [Hj Hb]]%lookup_insert_Some Da Db Ho Hn; [done| | |].
    + cbn in Ho, Hn. by rewrite (Hnames j b Hb) in Db.
    + cbn in Ho, Hn. by rewrite (Hnames i a Ha) in Da.
    + by apply (ko_names _ Hok i j a b).
  - intros i a [[<- <-] | [Hi Ha]]%lookup_insert_Some; [|by apply (ko_scope _ Hok i a)].
    unfold scope_ok. cbn. destruct (kc_ProjectID opts) as [p|] eqn:Ep; [|by left].
    right. destruct (Hp p eq_refl) as (Hnil & prow & Hprow & Horg). naive_solver.
  - intros i a [[<- <-] | [Hi Ha]]%lookup_insert_Some; [done|].
    destruct (ko_first _ Hok i a Ha) as (v0 & v & Hv0 & Hc & Hrev). exists v0, v. split; [|done].
    cbn. rewrite lookup_insert_ne; [done | congruence].
  - intros v0 v [[<- <-] | [Hne Hv0]]%lookup_insert_Some.
    + cbn. rewrite lookup_insert_eq. split; [eauto|]. split; [lia|]. split; [lia|].
      destruct Hr as [Hr1 Hr2]. done.
    + destruct (ko_versions _ Hok v0 v Hv0) as (Hc & Hone & Hprev & Hread).
      split; [destruct (decide (kv_contract v = id)) as [-> |]; [rewrite lookup_insert_eq; eauto | by rewrite lookup_insert_ne]|].
      split; [done|]. split; [|done]. intros Hlt. destruct (Hprev Hlt) as (w0 & w & Hw & Hwc & Hwr).
      exists w0, w. split; [|done]. cbn. rewrite lookup_insert_ne; [done | congruence].
Qed.
End Keeps.

(** ** Calls that interleave *)

(** protoyaml reads back the default contract that it printed *)
Class MarkupLaws `{Markup} := {
  default_readable : forall name c, createDefaultContract name = Ok c -> readable_contract c
}.

(** An update between its two halves *)
Record PendingUpdate := { pu_id : UUID; pu_latest : UUID * ContractVersionRow; pu_contract : option BizContract }.

Record ContractState := { cst_db : ContractDB; cst_pending : list PendingUpdate }.

Section History.
Context `{UuidLib} `{MarkupLaws} `{DbOrderLaws}.

Inductive contract_step : ContractState -> ContractState -> Prop :=
| kst_create db P random id vid now opts w db' :
    uc_CreateContract random db id vid now opts = Ok (w, db') ->
    (forall org, uuid_Parse (kw_OrgID opts) = Some org -> project_in_org db org (kw_ProjectID opts)) ->
    contract_step {| cst_db := db; cst_pending := P |} {| cst_db := db'; cst_pending := P |}
| kst_begin db P now org name description raw contract id lv db' :
    update_contract raw = Ok contract ->
    update_begin db now org name description = (Ok (Some (id, lv)), db') ->
    contract_step {| cst_db := db; cst_pending := P |}
      {| cst_db := db'; cst_pending := {| pu_id := id; pu_latest := lv; pu_contract := contract |} :: P |}
| kst_abandon db P now org name description r db' :
    update_begin db now org name description = (r, db') ->
    contract_step {| cst_db := db; cst_pending := P |} {| cst_db := db'; cst_pending := P |}
| kst_commit db P Q vid now pu lv db' :
    update_commit db vid now (pu_id pu) (pu_latest pu) (pu_contract pu) = Ok (lv, db') ->
    contract_step {| cst_db := db; cst_pending := P ++ pu :: Q |} {| cst_db := db'; cst_pending := P ++ Q |}
| kst_rollback db P Q pu :
    contract_step {| cst_db := db; cst_pending := P ++ pu :: Q |} {| cst_db := db; cst_pending := P ++ Q |}
| kst_delete db P now orgID contractID db' :
    uc_DeleteContract db now orgID contractID = Ok db' ->
    contract_step {| cst_db := db; cst_pending := P |} {| cst_db := db'; cst_pending := P |}.

(** Updates on the way have read a revision of their contract *)
Definition pending_ok (db : ContractDB) (P : list PendingUpdate) : Prop :=
  forall pu, pu ∈ P ->
    kd_versions db !! (pu_latest pu).1 = Some (pu_latest pu).2 /\ kv_contract (pu_latest pu).2 = pu_id pu
    /\ forall c, pu_contract pu = Some c -> readable_contract c.

Record state_ok (s : ContractState) : Prop := {
  sok_db : contracts_ok (cst_db s);
  sok_pending : pending_ok (cst_db s) (cst_pending s)
}.

(** What never changes: the revisions, and what identifies a contract *)
Record extends (a b : ContractDB) : Prop := {
  ext_versions : forall vid v, kd_versions a !! vid = Some v -> kd_versions b !! vid = Some v;
  ext_contracts : forall id x, kd_contracts a !! id = Some x -> exists y, kd_contracts b !! id = Some y /\ same_contract x y
}.

#[export] Instance extends_refl : Reflexive extends.
Proof. intros a. split; [done|]. intros id x Hx. exists x. by repeat split. Qed.

#[export] Instance extends_trans : Transitive extends.
Proof.
  intros a b c [Hv Hc] [Hv' Hc']. split; [auto|]. intros id x Hx. destruct (Hc id x Hx) as (y & Hy & Hxy).
  destruct (Hc' id y Hy) as (z & Hz & Hyz). exists z. split; [done|]. unfold same_contract in *. naive_solver congruence.
Qed.

Lemma identify_readable raw c :
  raw <> "" -> identifyUnMarshalAndValidateRawContract raw = Ok c -> readable_contract c.
Proof.
  intros Hne Hi. pose proof Hi as Hu. unfold identifyUnMarshalAndValidateRawContract in Hu.
  apply bind_Ok in Hu as (f & Hf & Hu). destruct (UnmarshalAndValidate_ok _ _ _ Hu) as (Hok & Hfmt & _).
  split; [by rewrite (cok_raw _ _ Hok)|]. by rewrite (cok_raw _ _ Hok), Hfmt, Hu.
Qed.

Lemma update_contract_readable raw contract c :
  update_contract raw = Ok contract -> contract = Some c -> readable_contract c.
Proof.
  unfold update_contract. destruct (is_empty raw) eqn:E; [by intros [= <-]|].
  destruct (identifyUnMarshalAndValidateRawContract raw) as [c'|] eqn:Ei; cbn; [|done].
  intros [= <-] [= <-]. apply (identify_readable raw); [by apply is_empty_false | done].
Qed.

(** A creation, whatever its name ends up to be, is one insertion *)
Lemma unique_name_Ok random tries i db id vid now name opts w db' :
  unique_name_loop random tries i db id vid now name opts = Ok (w, db') ->
  exists n, repo_CreateContract db id vid now (with_contract_name n opts) = Ok (w, db').
Proof.
  revert i. induction tries as [|tries IH]; intros i; cbn [unique_name_loop]; [done|].
  rewrite bind_Ok. intros (n & _ & Hc). destruct (repo_CreateContract _ _ _ _ _) as [r|e] eqn:E.
  - injection Hc as ->. by exists n.
  - destruct (IsErrAlreadyExists e); [by eapply IH | done].
Qed.

Lemma uc_CreateContract_Ok random db id vid now opts w db' :
  uc_CreateContract random db id vid now opts = Ok (w, db') ->
  exists org o row version, uuid_Parse (kw_OrgID opts) = Some org
    /\ addCreateToTx db id vid now o = Ok (row, version, db') /\ w = entContractToBizContract db' (id, row) version []
    /\ kc_OrgID o = org /\ kc_ProjectID o = kw_ProjectID opts /\ readable_contract (kc_Contract o)
    /\ (kw_AddUniquePrefix opts = false -> kc_Name o = kw_Name opts).
Proof.
  unfold uc_CreateContract. intros E. apply bind_Ok in E as ([] & _ & E). apply bind_Ok in E as (org & Ho & E).
  apply raw_uuid_Ok in Ho. apply bind_Ok in E as ([] & _ & E). apply bind_Ok in E as ([] & _ & E).
  apply bind_Ok in E as (contract & Hc & E). apply map_err_Ok in E.
  assert (readable_contract contract) as Hr.
  { destruct (is_empty (kw_RawSchema opts)) eqn:Ee; cbn [negb] in Hc; apply map_err_Ok in Hc.
    - by apply default_readable in Hc.
    - apply (identify_readable (kw_RawSchema opts)); [by apply is_empty_false | done]. }
  assert (exists n, (kw_AddUniquePrefix opts = false -> n = kw_Name opts)
    /\ repo_CreateContract db id vid now
       {| kc_Name := n; kc_OrgID := org; kc_Description := kw_Description opts; kc_Contract := contract;
          kc_ProjectID := kw_ProjectID opts |} = Ok (w, db')) as (n & Hn & Hrep).
  { destruct (kw_AddUniquePrefix opts).
    - unfold createWithUniqueName in E. apply unique_name_Ok in E as (n & E). exists n. by split.
    - by exists (kw_Name opts). }
  unfold repo_CreateContract in Hrep. apply bind_Ok in Hrep as ([[row version] db1] & Hadd & [= <- <-]).
  eexists org, _, row, version. do 2 (split; [eassumption|]). do 3 (split; [reflexivity|]). split; [exact Hr | exact Hn].
Qed.

Lemma addCreate_extends db id vid now o row version db' :
  addCreateToTx db id vid now o = Ok (row, version, db') -> extends db db'.
Proof.
  intros Hadd. apply addCreateToTx_Ok in Hadd as (-> & -> & Hcf & Hv & _ & ->).
  apply contract_conflict_false in Hcf as (_ & Hid & _). split; cbn.
  - intros v0 v Hv0. rewrite lookup_insert_ne; [done | congruence].
  - intros i x Hx. exists x. rewrite lookup_insert_ne by congruence. by repeat split.
Qed.

Lemma latestVersion_Ok db id lv :
  latestVersion db id = Ok lv ->
  kd_versions db !! lv.1 = Some lv.2 /\ kv_contract lv.2 = id
  /\ forall vid v, kd_versions db !! vid = Some v -> kv_contract v = id -> kv_revision v <= kv_revision lv.2.
Proof.
  unfold latestVersion. destruct (order_by revision_desc (versions_of db id)) as [|x l] eqn:E; [done|]. intros [= ->].
  pose proof (order_by_Permutation revision_desc (versions_of db id)) as Hp. rewrite E in Hp.
  assert (forall vid v, (vid, v) ∈ versions_of db id <-> kd_versions db !! vid = Some v /\ kv_contract v = id) as Hel.
  { intros vid v. unfold versions_of. rewrite list_elem_of_In, filter_In, <- list_elem_of_In, elem_of_map_to_list. cbn.
    by rewrite bool_decide_eq_true. }
  destruct lv as [vid0 v0]. assert ((vid0, v0) ∈ versions_of db id) as Hin by (rewrite <- Hp; left).
  apply Hel in Hin as [Hlk Hcid]. split; [done|]. split; [done|]. intros vid v Hv Hc. cbn.
  assert ((vid, v) ∈ (vid0, v0) :: l) as Hin' by (rewrite Hp; by apply Hel).
  pose proof (order_by_sorted revision_desc (versions_of db id)) as Hs. rewrite E in Hs.
  assert (StronglySorted (fun a b => revision_desc a b = true) ((vid0, v0) :: l)) as Hsorted.
  { apply Hs; unfold revision_desc; [intros a b c; rewrite !bool_decide_eq_true; lia|]. intros a b. rewrite !bool_decide_eq_true. lia. }
  apply StronglySorted_inv in Hsorted as [_ Hall]. apply elem_of_cons in Hin' as [[= -> ->] | Hin']; [lia|].
  rewrite Forall_forall in Hall. specialize (Hall (vid, v) Hin'). unfold revision_desc in Hall. by apply bool_decide_eq_true in Hall.
Qed.

Lemma update_begin_spec db now org name description r db' :
  contracts_ok db -> update_begin db now org name description = (r, db') ->
  contracts_ok db' /\ extends db db' /\ kd_versions db' = kd_versions db
  /\ forall id lv, r = Ok (Some (id, lv)) ->
       latestVersion db id = Ok lv /\ exists row, contractInOrg db org None (Some name) = Ok (Some (id, row))
         /\ db' = with_contracts db (<[id := describe_row description now row]> (kd_contracts db)).
Proof.
  unfold update_begin. intros Hok. destruct (contractInOrg _ _ _ _) as [[[id row]|]|e] eqn:Ec.
  2,3: intros [= <- <-]; split; [done|]; split; [done|]; split; [done|]; by intros.
  apply contractInOrg_Some in Ec as Hc. destruct Hc as (Hrow & _).
  assert (contracts_ok (with_contracts db (<[id := describe_row description now row]> (kd_contracts db)))) as Hok1.
  { eapply ok_change_row; [done.. | by repeat split]. }
  assert (extends db (with_contracts db (<[id := describe_row description now row]> (kd_contracts db)))) as Hext.
  { split; [done|]. intros i x Hx. cbn. destruct (decide (i = id)) as [-> |].
    - rewrite lookup_insert_eq. eexists. split; [done|]. rewrite Hrow in Hx. injection Hx as <-. by repeat split.
    - rewrite lookup_insert_ne by done. exists x. by repeat split. }
  change (latestVersion (with_contracts db (<[id:=describe_row description now row]> (kd_contracts db))) id)
    with (latestVersion db id).
  destruct (latestVersion db id) as [lv|e] eqn:El; intros [= <- <-]; (split; [done|]); (split; [done|]); (split; [done|]); [|by intros].
  intros i v [= <- <-]. split; [done|]. exists row. done.
Qed.

Lemma update_commit_spec db vid now id lv contract lv' db' :
  contracts_ok db -> kd_versions db !! lv.1 = Some lv.2 -> kv_contract lv.2 = id ->
  (forall c, contract = Some c -> readable_contract c) ->
  update_commit db vid now id lv contract = Ok (lv', db') ->
  contracts_ok db' /\ extends db db' /\ kd_contracts db' = kd_contracts db
  /\ kd_versions db' !! lv'.1 = Some lv'.2 /\ kv_contract lv'.2 = id
  /\ match contract with
     | Some c => if bool_decide (kv_raw_body lv.2 = ct_raw c) then lv' = lv /\ db' = db
                 else kd_versions db !! vid = None /\ lv' = (vid, new_version id c (kv_revision lv.2 + 1) now)
                      /\ kd_versions db' = <[vid := new_version id c (kv_revision lv.2 + 1) now]> (kd_versions db)
     | None => lv' = lv /\ db' = db
     end.
Proof.
  intros Hok Hlv Hid Hread. unfold update_commit. destruct contract as [c|]; [|by intros [= <- <-]].
  case_bool_decide as Heq; [by intros [= <- <-]|]. intros E. apply bind_Ok in E as (db1 & Hi & [= <- <-]).
  apply insert_version_Ok in Hi as (Hne & Hv & ->). destruct (ko_versions _ Hok _ _ Hlv) as (Hc & Hone & _ & _).
  split.
  - apply ok_insert_version; try done.
    + cbn. by rewrite <- Hid.
    + cbn. lia.
    + intros _. cbn. exists lv.1, lv.2. split; [done|]. split; [done|]. lia.
    + destruct (Hread c eq_refl) as [Hr1 Hr2]. done.
  - split; [split; cbn|].
    + intros v0 v Hv0. rewrite lookup_insert_ne; [done | congruence].
    + intros i x Hx. exists x. by repeat split.
    + cbn. rewrite lookup_insert_eq. done.
Qed.
Lemma uc_DeleteContract_Ok db now orgID contractID db' :
  uc_DeleteContract db now orgID contractID = Ok db' ->
  exists org id row, uuid_Parse orgID = Some org /\ uuid_Parse contractID = Some id
    /\ kd_contracts db !! id = Some row /\ kr_organization row = org /\ kr_deleted row = false
    /\ getWorkflowReferences db id = [] /\ db' = with_contracts db (<[id := delete_row now row]> (kd_contracts db)).
Proof.
  unfold uc_DeleteContract, repo_FindContractByID. intros E. apply bind_Ok in E as (org & Ho & E). apply raw_uuid_Ok in Ho.
  apply bind_Ok in E as (id & Hid & E). apply raw_uuid_Ok in Hid. apply bind_Ok in E as (c & Hc & E).
  apply bind_Ok in Hc as (found & Hf & Hc). destruct found as [[i row]|]; [|by injection Hc as <-].
  apply contractInOrg_Some in Hf as (Hrow & Horg & Hd & Hi & _). specialize (Hi id eq_refl). subst i.
  unfold found_contract in Hc. destruct (latestVersion db (id, row).1) as [lv|]; cbn in Hc; [|done]. injection Hc as <-.
  apply bind_Ok in E as ([] & Hg & E). apply guard_err_Ok, negb_false_iff, bool_decide_eq_true in Hg.
  apply map_err_Ok in E. unfold repo_SoftDeleteContract in E. rewrite Hrow in E. injection E as <-.
  exists org, id, row. repeat split; try done. revert Hg. unfold entContractToBizContract.
  case_bool_decide; [destruct (kd_projects db !! _)|]; done.
Qed.

Lemma change_row_extends db id a b :
  kd_contracts db !! id = Some a -> same_contract a b -> extends db (with_contracts db (<[id := b]> (kd_contracts db))).
Proof.
  intros Ha Hs. split; [done|]. intros i x Hx. cbn. destruct (decide (i = id)) as [-> |].
  - rewrite lookup_insert_eq. exists b. split; [done|]. rewrite Ha in Hx. by injection Hx as <-.
  - rewrite lookup_insert_ne by done. exists x. by repeat split.
Qed.

Lemma pending_extends db db' P : extends db db' -> pending_ok db P -> pending_ok db' P.
Proof. intros Hext HP pu Hpu. destruct (HP pu Hpu) as (Hv & Hrest). split; [by apply (ext_versions _ _ Hext) | done]. Qed.

Lemma contract_step_ok s s' : state_ok s -> contract_step s s' -> state_ok s' /\ extends (cst_db s) (cst_db s').
Proof.
  intros [Hok HP] Hstep.
  destruct Hstep as [db P random id vid now opts w db' Hc Hproj | db P now org name description raw contract id lv db' Hu Hb
    | db P now org name description r db' Hb | db P Q vid now pu lv db' Hc | db P Q pu | db P now orgID contractID db' Hd]; cbn in *.
  - apply uc_CreateContract_Ok in Hc as (org & o & row & version & Ho & Hadd & _ & Horg & Hp & Hr & _).
    assert (extends db db') as Hext by by eapply addCreate_extends. split; [|done].
    split; cbn; [|by eapply pending_extends]. eapply ok_create; try done. rewrite Horg, Hp. by apply Hproj.
  - apply update_begin_spec in Hb as (Hok' & Hext & Hv & Hlv); [|done]. destruct (Hlv id lv eq_refl) as (Hl & _).
    split; [|done]. split; cbn; [done|]. intros pu [-> | Hpu]%elem_of_cons; cbn; [|by eapply pending_extends].
    apply latestVersion_Ok in Hl as (Hl & Hcid & _). rewrite Hv. repeat split; try done.
    + by eapply update_contract_readable.
    + by eapply update_contract_readable.
  - apply update_begin_spec in Hb as (Hok' & Hext & _); [|done]. split; [|done]. split; cbn; [done | by eapply pending_extends].
  - destruct (HP pu) as (Hv & Hcid & Hr); [set_solver|].
    apply update_commit_spec in Hc as (Hok' & Hext & _); [|done..]. split; [|done].
    split; cbn; [done|]. eapply pending_extends; [done|]. intros x Hx. apply HP. set_solver.
  - split; [|done]. split; cbn; [done|]. intros x Hx. apply HP. set_solver.
  - apply uc_DeleteContract_Ok in Hd as (org & id & row & _ & _ & Hrow & _ & _ & _ & ->).
    assert (same_contract row (delete_row now row)) as Hs by by repeat split.
    split; [|by eapply change_row_extends]. split; cbn; [by eapply ok_change_row | done].
Qed.

Lemma no_gaps db id r : contracts_ok db -> has_revision db id r -> forall k, 1 <= k <= r -> has_revision db id k.
Proof.
  intros Hok Hr k Hk. assert (exists n, r = k + Z.of_nat n) as (n & ->) by (exists (Z.to_nat (r - k)); lia).
  induction n as [|n IH].
  - by replace (k + Z.of_nat 0) with k in Hr by lia.
  - apply IH; [lia|]. destruct Hr as (vid & v & Hv & <- & Hrev).
    destruct (ko_versions _ Hok vid v Hv) as (_ & _ & Hp & _). replace (k + Z.of_nat n) with (kv_revision v - 1) by lia.
    apply Hp. lia.
Qed.

(** C18: The history of contracts is append-only, however the calls interleave: the
    tables stay well-formed; a revision that exists never changes; what identifies
    a contract never changes and a deleted contract stays deleted; and the
    revisions of a contract are numbered from one without gaps. *)
Theorem contract_history s s' :
  state_ok s -> rtc contract_step s s' ->
  contracts_ok (cst_db s')
  /\ (forall vid v, kd_versions (cst_db s) !! vid = Some v -> kd_versions (cst_db s') !! vid = Some v)
  /\ (forall id a, kd_contracts (cst_db s) !! id = Some a ->
        exists b, kd_contracts (cst_db s') !! id = Some b /\ same_contract a b)
  /\ (forall id a, kd_contracts (cst_db s') !! id = Some a -> has_revision (cst_db s') id 1)
  /\ (forall id r k, has_revision (cst_db s') id r -> 1 <= k <= r -> has_revision (cst_db s') id k).
Proof.
  intros Hok Hsteps.
  assert (state_ok s' /\ extends (cst_db s) (cst_db s')) as [Hok' Hext].
  { induction Hsteps as [|s s1 s2 Hstep _ IH]; [by split|]. destruct (contract_step_ok _ _ Hok Hstep) as [Hok1 Hext1].
    destruct (IH Hok1) as [? ?]. split; [done | by etrans]. }
  split; [apply Hok'|]. split; [apply Hext|]. split; [apply Hext|]. split; [apply (ko_first _ (sok_db _ Hok'))|].
  intros id r k Hr Hk. by apply (no_gaps _ _ r (sok_db _ Hok')).
Qed.
End History.

(** ** One call after the other *)

Section Sequential.
Context `{UuidLib} `{MarkupLaws} `{DbOrderLaws}.

Lemma elem_of_versions_of db id vid v :
  (vid, v) ∈ versions_of db id <-> kd_versions db !! vid = Some v /\ kv_contract v = id.
Proof.
  unfold versions_of. rewrite list_elem_of_In, filter_In, <- list_elem_of_In, elem_of_map_to_list. cbn.
  by rewrite bool_decide_eq_true.
Qed.

Lemma latestVersion_exists db id r : has_revision db id r -> exists lv, latestVersion db id = Ok lv.
Proof.
  intros (vid & v & Hv & Hc & _). unfold latestVersion. destruct (order_by _ _) as [|lv l] eqn:E; [|eauto].
  pose proof (order_by_Permutation revision_desc (versions_of db id)) as Hp. rewrite E in Hp.
  assert ((vid, v) ∈ versions_of db id) as Hin by by apply elem_of_versions_of. rewrite <- Hp in Hin.
  by apply not_elem_of_nil in Hin.
Qed.

(** The latest revision is the one with the greatest number *)
Lemma latestVersion_is db id vid v :
  revisions_unique db -> kd_versions db !! vid = Some v -> kv_contract v = id ->
  (forall j w, kd_versions db !! j = Some w -> kv_contract w = id -> kv_revision w <= kv_revision v) ->
  latestVersion db id = Ok (vid, v).
Proof.
  intros Hu Hv Hc Hmax. destruct (latestVersion_exists db id (kv_revision v)) as ([j w] & Hl); [by exists vid, v|].
  rewrite Hl. apply latestVersion_Ok in Hl as (Hw & Hwc & Hge). cbn in *. specialize (Hge vid v Hv Hc). specialize (Hmax j w Hw Hwc).
  assert (j = vid) as -> by (apply (Hu j vid w v); congruence || lia). rewrite Hv in Hw. by injection Hw as ->.
Qed.

Lemma find_revision_is db id vid v lv :
  revisions_unique db -> kd_versions db !! vid = Some v -> kv_contract v = id -> kv_revision v <> 0 ->
  find_revision db id (kv_revision v) lv = Ok (vid, v).
Proof.
  intros Hu Hv Hc Hr. unfold find_revision. rewrite bool_decide_eq_false_2 by done.
  rewrite (filter_singleton _ _ (vid, v)); [done | apply NoDup_ListNoDup, List.NoDup_filter, NoDup_ListNoDup, NoDup_map_to_list | by apply elem_of_versions_of | |].
  - by apply bool_decide_eq_true.
  - intros [j w] Hj%elem_of_versions_of Hjr%bool_decide_eq_true. destruct Hj as [Hw Hwc]. cbn in Hjr.
    assert (j = vid) as -> by (apply (Hu j vid w v); congruence). rewrite Hv in Hw. by injection Hw as ->.
Qed.

Lemma readable_version_contract v : readable_version v -> exists c, version_contract v = Ok c /\ ct_raw c = kv_raw_body v.
Proof.
  intros (Hb & Hr & Hu). unfold version_contract. rewrite (proj2 (is_empty_false _) Hr), Hb. cbn.
  destruct (UnmarshalAndValidateRawContract _ _) as [p|]; [|done]. cbn. eauto.
Qed.

(** What describing a revision that exists gives *)
Lemma repo_Describe_is db org id row vid v revision skip :
  contracts_ok db -> revisions_unique db -> kd_contracts db !! id = Some row -> kr_organization row = org ->
  kr_deleted row = false -> kd_versions db !! vid = Some v -> kv_contract v = id ->
  (revision = kv_revision v \/ revision = 0 /\ latestVersion db id = Ok (vid, v)) ->
  exists d ver, repo_DescribeContract db org id revision skip = Ok d /\ wcv_Version d = ver
    /\ entContractVersionToBizContractVersion (vid, v) = Ok ver /\ wv_ID ver = vid /\ wv_Revision ver = kv_revision v
    /\ ct_raw (wv_Schema ver) = kv_raw_body v.
Proof.
  intros Hok Hu Hrow Horg Hd Hv Hc Hrev. unfold repo_DescribeContract.
  rewrite (contractInOrg_id db org id row) by done. cbn [mbind result_bind].
  destruct (ko_versions _ Hok vid v Hv) as (_ & Hone & _ & Hread).
  assert (exists lv, latestVersion db id = Ok lv) as (lv & Hl).
  { apply (latestVersion_exists _ _ (kv_revision v)). by exists vid, v. }
  cbn [fst]. rewrite Hl. cbn [mbind result_bind].
  assert (find_revision db id revision lv = Ok (vid, v)) as ->.
  { destruct Hrev as [-> | [-> Hl']]; [apply find_revision_is; done || lia|].
    unfold find_revision. rewrite bool_decide_eq_true_2 by done. congruence. }
  cbn [mbind result_bind]. destruct (readable_version_contract v Hread) as (c & Hcv & Hraw).
  unfold entContractVersionToBizContractVersion. cbn [snd fst]. rewrite Hcv. cbn [mbind result_bind].
  eexists _, _. split; [reflexivity|]. split; [reflexivity|]. split; [reflexivity|]. cbn. done.
Qed.

Lemma contract_is_live db org name id row :
  contractInOrg db org None (Some name) = Ok (Some (id, row)) ->
  kd_contracts db !! id = Some row /\ kr_organization row = org /\ kr_deleted row = false /\ kr_name row = name.
Proof. intros Hc. apply contractInOrg_Some in Hc as (? & ? & ? & _ & Hn). naive_solver. Qed.

Lemma repo_FindContractByName_Ok db org name w :
  contracts_ok db -> repo_FindContractByName db org name = Ok w ->
  exists id row lv, contractInOrg db org None (Some name) = Ok (Some (id, row)) /\ latestVersion db id = Ok lv
    /\ wk_ID w = id /\ wk_LatestRevision w = kv_revision lv.2
    /\ wk_ScopedEntity w = if bool_decide (kr_scope_id row = uuid_Nil) then None
         else Some {| se_Type := kr_scope_type row; se_ID := kr_scope_id row;
                      se_Name := match kd_projects db !! kr_scope_id row with Some p => pr_name p | None => "" end |}.
Proof.
  intros Hok. unfold repo_FindContractByName. destruct (contractInOrg _ _ _ _) as [[[id row]|]|e] eqn:Ec; cbn; [|done..].
  unfold found_contract. cbn [fst]. destruct (latestVersion db id) as [lv|] eqn:El; cbn; [|done]. intros [= <-].
  exists id, row, lv. split; [done|]. split; [done|].
  apply contract_is_live in Ec as (Hrow & _). pose proof (ko_scope _ Hok id row Hrow) as Hs.
  unfold entContractToBizContract, scope_ok in *. cbn [snd fst].
  destruct Hs as [[Ht Hn] | (Ht & Hn & p & Hp & _)]; rewrite Ht.
  - rewrite bool_decide_eq_false_2 by done. rewrite Hn. cbn. done.
  - rewrite bool_decide_eq_true_2, Hp by done. cbn. by rewrite bool_decide_eq_false_2.
Qed.

(** What an update does to the revisions of its contract *)
Definition updated (db : ContractDB) (vid : UUID) (now : Z) (id : UUID) (lv : UUID * ContractVersionRow)
    (contract : option BizContract) (lv' : UUID * ContractVersionRow) (db' : ContractDB) : Prop :=
  match contract with
  | Some c => if bool_decide (kv_raw_body lv.2 = ct_raw c) then lv' = lv /\ kd_versions db' = kd_versions db
              else kd_versions db !! vid = None /\ lv' = (vid, new_version id c (kv_revision lv.2 + 1) now)
                   /\ kd_versions db' = <[vid := new_version id c (kv_revision lv.2 + 1) now]> (kd_versions db)
  | None => lv' = lv /\ kd_versions db' = kd_versions db
  end.

Lemma repo_UpdateContract_Ok db vid now org name opts w db' :
  contracts_ok db -> (forall c, ku_Contract opts = Some c -> readable_contract c) ->
  repo_UpdateContract db vid now org name opts = (Ok (Some w), db') ->
  contracts_ok db' /\ extends db db' /\ exists id row lv lv', contractInOrg db org None (Some name) = Ok (Some (id, row))
    /\ latestVersion db id = Ok lv /\ updated db vid now id lv (ku_Contract opts) lv' db'
    /\ kd_versions db' !! lv'.1 = Some lv'.2 /\ kv_contract lv'.2 = id
    /\ kd_contracts db' = <[id := describe_row (ku_Description opts) now row]> (kd_contracts db)
    /\ wk_ID (wcv_Contract w) = id /\ entContractVersionToBizContractVersion lv' = Ok (wcv_Version w)
    /\ wk_LatestRevision (wcv_Contract w) = kv_revision lv'.2.
Proof.
  intros Hok Hread. unfold repo_UpdateContract. destruct (update_begin db now org name _) as [[[[id lv]|]|e] db1] eqn:Eb; [|done..].
  apply update_begin_spec in Eb as (Hok1 & Hext1 & Hv1 & Hlv); [|done].
  destruct (Hlv id lv eq_refl) as (Hl & row & Hc & Hdb1). clear Hlv.
  destruct (update_commit db1 vid now id lv (ku_Contract opts)) as [[lv' db2]|e] eqn:Ec; [|done]. intros [= Hr <-].
  pose proof (latestVersion_Ok _ _ _ Hl) as (Hlv1 & Hlvc & _). rewrite <- Hv1 in Hlv1.
  apply update_commit_spec in Ec as (Hok2 & Hext2 & Hk2 & Hlv' & Hlc' & Hcases); [|done..].
  split; [done|]. split; [by etrans|]. exists id, row, lv, lv'. do 2 (split; [done|]).
  split.
  { unfold updated. destruct (ku_Contract opts) as [c|]; [case_bool_decide|].
    - destruct Hcases as [-> ->]. by rewrite Hv1.
    - rewrite <- Hv1. done.
    - destruct Hcases as [-> ->]. by rewrite Hv1. }
  do 2 (split; [done|]). split; [by rewrite Hk2, Hdb1|].
  destruct (update_result db2 org name lv') as [u|] eqn:Eu; [|done]. injection Hr as <-.
  apply contract_is_live in Hc as (Hrow & Horg & Hd & Hname).
  unfold update_result in Eu.
  assert (kd_contracts db2 !! id = Some (describe_row (ku_Description opts) now row)) as Hrow2
    by by rewrite Hk2, Hdb1; cbn; rewrite lookup_insert_eq.
  pose proof (contractInOrg_name db2 org id (describe_row (ku_Description opts) now row) Hok2 Hrow2 Hd Horg) as Hfind.
  cbn [kr_name describe_row] in Hfind. rewrite Hname in Hfind. rewrite Hfind in Eu. cbn [mbind result_bind] in Eu.
  destruct (entContractVersionToBizContractVersion lv') as [ver|]; [|done]. injection Eu as <-. cbn.
  assert (scope_ok db2 (describe_row (ku_Description opts) now row)) as Hs by by eapply (ko_scope _ Hok2).
  unfold scope_ok, entContractToBizContract in *. cbn in *.
  destruct Hs as [[Ht Hn] | (Ht & Hn & p & Hp & _)]; rewrite Ht.
  - rewrite bool_decide_eq_false_2 by done. done.
  - rewrite bool_decide_eq_true_2, Hp by done. done.
Qed.

Lemma updated_unique db vid now id lv contract lv' db' :
  revisions_unique db -> latestVersion db id = Ok lv -> updated db vid now id lv contract lv' db' -> revisions_unique db'.
Proof.
  intros Hu Hl. apply latestVersion_Ok in Hl as (_ & _ & Hmax). unfold updated.
  destruct contract as [c|]; [case_bool_decide|]; [intros [_ Hv]| |intros [_ Hv]].
  1,3: unfold revisions_unique; rewrite Hv; exact Hu.
  intros (Hf & _ & Hv) i j a b. rewrite Hv.
  intros [[<- <-] | [Hi Ha]]%lookup_insert_Some [[<- <-] | [Hj Hb]]%lookup_insert_Some Hc Hr; [done| | |].
  - cbn in Hc, Hr. specialize (Hmax j b Hb (eq_sym Hc)). lia.
  - cbn in Hc, Hr. specialize (Hmax i a Ha Hc). lia.
  - by apply (Hu i j a b).
Qed.

(** The latest revision after an update is the one that it returns *)
Lemma updated_latest db vid now id lv contract lv' db' :
  revisions_unique db -> latestVersion db id = Ok lv -> updated db vid now id lv contract lv' db' ->
  latestVersion db' id = Ok lv'.
Proof.
  intros Hu Hl Hup. pose proof (updated_unique _ _ _ _ _ _ _ _ Hu Hl Hup) as Hu'.
  pose proof (latestVersion_Ok _ _ _ Hl) as (Hlv & Hlc & Hmax). unfold updated in Hup.
  assert (lv' = lv /\ kd_versions db' = kd_versions db -> latestVersion db' id = Ok lv') as Hsame.
  { intros [-> Hv]. destruct lv as [v0 v]. apply latestVersion_is; rewrite ?Hv; done. }
  destruct contract as [c|]; [|by apply Hsame]. case_bool_decide; [by apply Hsame|].
  destruct Hup as (Hf & -> & Hv). apply latestVersion_is; [done|by rewrite Hv, lookup_insert_eq|done|].
  intros j w. rewrite Hv. intros [[<- <-] | [Hj Hw]]%lookup_insert_Some Hwc; [done|]. specialize (Hmax j w Hw Hwc). cbn. lia.
Qed.

Lemma repo_Describe_inv db org id revision skip d :
  repo_DescribeContract db org id revision skip = Ok d ->
  exists row vid v, kd_contracts db !! id = Some row /\ kr_organization row = org /\ kr_deleted row = false
    /\ kd_versions db !! vid = Some v /\ kv_contract v = id /\ (revision <> 0 -> kv_revision v = revision)
    /\ (revision = 0 -> latestVersion db id = Ok (vid, v))
    /\ entContractVersionToBizContractVersion (vid, v) = Ok (wcv_Version d).
Proof.
  unfold repo_DescribeContract. intros E. apply bind_Ok in E as (found & Hf & E). destruct found as [[i row]|]; [|done].
  apply contractInOrg_Some in Hf as (Hrow & Horg & Hd & Hi & _). specialize (Hi id eq_refl). subst i. cbn [fst] in E.
  apply bind_Ok in E as (lv & Hl & E). apply bind_Ok in E as ([vid v] & Hr & E). apply bind_Ok in E as (ver & Hver & [= <-]).
  exists row, vid, v. split; [done|]. split; [done|]. split; [done|]. unfold find_revision in Hr. case_bool_decide as Hz.
  - injection Hr as ->. pose proof (latestVersion_Ok _ _ _ Hl) as (Hv & Hc & _). cbn in *. by repeat split.
  - destruct (List.filter _ _) as [|x [|]] eqn:Ef; [done| |done]. injection Hr as ->.
    assert ((vid, v) ∈ [(vid, v)]) as Hin by left. rewrite <- Ef in Hin.
    apply list_elem_of_In, filter_In in Hin as [Hin%list_elem_of_In Hrev%bool_decide_eq_true].
    apply elem_of_versions_of in Hin as [Hv Hc]. repeat split; done.
Qed.

Lemma uc_Describe_Ok db orgID contractID revision skip d :
  uc_DescribeContract db orgID contractID revision skip = Ok d <->
  exists org id d0, uuid_Parse orgID = Some org /\ uuid_Parse contractID = Some id
    /\ repo_DescribeContract db org id revision skip = Ok d0
    /\ d = if is_empty (wv_Description (wcv_Version d0)) then d0
           else {| wcv_Contract := with_description (wv_Description (wcv_Version d0)) (wcv_Contract d0);
                   wcv_Version := wcv_Version d0; wcv_Changed := wcv_Changed d0 |}.
Proof.
  unfold uc_DescribeContract. rewrite bind_Ok. split.
  - intros (org & Ho & E). apply raw_uuid_Ok in Ho. apply bind_Ok in E as (id & Hi & E). apply raw_uuid_Ok in Hi.
    apply bind_Ok in E as (d0 & Hd & [= <-]). eauto 10.
  - intros (org & id & d0 & Ho & Hi & Hd & ->). exists org. split; [by apply raw_uuid_Ok|].
    apply bind_Ok. exists id. split; [by apply raw_uuid_Ok|]. apply bind_Ok. by exists d0.
Qed.

Lemma described_version (d0 : WorkflowContractWithVersion) :
  wcv_Version (if is_empty (wv_Description (wcv_Version d0)) then d0
    else {| wcv_Contract := with_description (wv_Description (wcv_Version d0)) (wcv_Contract d0);
            wcv_Version := wcv_Version d0; wcv_Changed := wcv_Changed d0 |}) = wcv_Version d0.
Proof. by destruct (is_empty _). Qed.

Lemma uc_UpdateContract_Ok db vid now orgID name opts w db' :
  contracts_ok db -> uc_UpdateContract db vid now orgID name opts = (Ok w, db') ->
  exists org contract before c, uuid_Parse orgID = Some org /\ update_contract (kp_RawSchema opts) = Ok contract
    /\ repo_FindContractByName db org name = Ok before
    /\ repo_UpdateContract db vid now org name {| ku_Description := kp_Description opts; ku_Contract := contract |} = (Ok (Some c), db')
    /\ wcv_Contract w = wcv_Contract c /\ wcv_Version w = wcv_Version c
    /\ wcv_Changed w = negb (bool_decide (wk_LatestRevision before = wv_Revision (wcv_Version c))).
Proof.
  intros Hok. unfold uc_UpdateContract.
  destruct (raw_uuid orgID ≫= _) as [[[org contract] before]|e] eqn:Ep; [|done].
  apply bind_Ok in Ep as (o & Ho & Ep). apply raw_uuid_Ok in Ho. apply bind_Ok in Ep as (ct & Hct & Ep).
  apply bind_Ok in Ep as (b & Hb & [= <- <- <-]). apply map_err_Ok in Hb.
  destruct (repo_UpdateContract _ _ _ _ _ _) as [[[c|]|e] db1] eqn:Eu; [|done..]. intros [= <- <-].
  by exists o, ct, b, c.
Qed.

(** C21: Updating a contract gives back what was sent and forgets nothing: afterwards
    the latest revision is described with exactly the text of the update, every
    revision that could be described is described as before, and the tables stay
    well-formed with one revision of each number. *)
Theorem updated_contract_described db vid now orgID name opts w db' :
  contracts_ok db -> revisions_unique db ->
  uc_UpdateContract db vid now orgID name opts = (Ok w, db') ->
  contracts_ok db' /\ revisions_unique db'
  /\ (forall contractID skip, uuid_Parse contractID = Some (wk_ID (wcv_Contract w)) ->
        exists d, uc_DescribeContract db' orgID contractID 0 skip = Ok d /\ wcv_Version d = wcv_Version w)
  /\ (kp_RawSchema opts <> "" -> ct_raw (wv_Schema (wcv_Version w)) = kp_RawSchema opts)
  /\ (forall org contractID r skip d, r <> 0 -> uc_DescribeContract db org contractID r skip = Ok d ->
        exists d', uc_DescribeContract db' org contractID r skip = Ok d' /\ wcv_Version d' = wcv_Version d).
Proof.
  intros Hok Hu E. destruct (uc_UpdateContract_Ok _ _ _ _ _ _ _ _ Hok E)
    as (org & contract & before & c & Ho & Hct & _ & Hup & Hwc & Hwv & _).
  assert (forall x, contract = Some x -> readable_contract x) as Hread by by intros x; eapply update_contract_readable.
  destruct (repo_UpdateContract_Ok _ _ _ _ _ {| ku_Description := kp_Description opts; ku_Contract := contract |} _ _ Hok Hread Hup)
    as (Hok' & Hext & id & row & lv & lv' & Hc & Hl & Hupd & Hlv' & Hlc' & Hk & Hid & Hver & _).
  pose proof (updated_unique _ _ _ _ _ _ _ _ Hu Hl Hupd) as Hu'.
  pose proof (updated_latest _ _ _ _ _ _ _ _ Hu Hl Hupd) as Hl'.
  apply contract_is_live in Hc as (Hrow & Horg & Hd & _).
  assert (forall i a, kd_contracts db !! i = Some a -> kr_deleted a = false ->
    exists b, kd_contracts db' !! i = Some b /\ kr_organization b = kr_organization a /\ kr_deleted b = false) as Hlive.
  { intros i a Ha Hda. rewrite Hk. destruct (decide (i = id)) as [-> |]; [|rewrite lookup_insert_ne by done; eauto].
    rewrite lookup_insert_eq. eexists. split; [done|]. rewrite Hrow in Ha. by injection Ha as <-. }
  split; [done|]. split; [done|]. split; [|split].
  - intros contractID skip Hcid. rewrite Hwc, Hid in Hcid. destruct (Hlive id row Hrow Hd) as (row' & Hrow' & Horg' & Hd').
    destruct lv' as [v1 v]. destruct (repo_Describe_is db' org id row' v1 v 0 skip) as (d & ver & Hdesc & Hv & Hent & _); try done; [congruence | by right |].
    eexists. split; [apply uc_Describe_Ok; exists org, id, d; split; [done|]; split; [done|]; split; [done | reflexivity]|].
    rewrite described_version, Hv, Hwv. rewrite Hent in Hver. by injection Hver.
  - intros Hne. rewrite Hwv. unfold update_contract in Hct. rewrite (proj2 (is_empty_false _) Hne) in Hct.
    destruct (identifyUnMarshalAndValidateRawContract (kp_RawSchema opts)) as [bc|] eqn:Ei; cbn in Hct; [|done]. injection Hct as <-.
    destruct (accepted_contract_ok _ _ Ei) as [Hbc _]. pose proof (cok_raw _ _ Hbc) as Hraw.
    destruct lv' as [v1 v]. destruct (ko_versions _ Hok' v1 v Hlv') as (_ & _ & _ & Hrd).
    destruct (readable_version_contract v Hrd) as (x & Hx & Hxr). unfold entContractVersionToBizContractVersion in Hver.
    cbn [snd] in Hver. rewrite Hx in Hver. injection Hver as Hver. rewrite <- Hver. cbn [wv_Schema]. rewrite Hxr.
    cbn [updated ku_Contract] in Hupd. case_bool_decide as Heq.
    + destruct Hupd as [<- _]. cbn in Heq. congruence.
    + destruct Hupd as (_ & [= _ ->] & _). exact Hraw.
  - intros orgX cidX r skip d Hr Hdesc. apply uc_Describe_Ok in Hdesc as (ox & ix & d0 & Hox & Hix & Hd0 & ->).
    apply repo_Describe_inv in Hd0 as (rx & vx & v & Hrx & Hrox & Hrdx & Hvx & Hvc & Hvr & _ & Hent).
    destruct (Hlive ix rx Hrx Hrdx) as (rx' & Hrx' & Horx' & Hdrx').
    destruct (repo_Describe_is db' ox ix rx' vx v r skip) as (d' & ver & Hdesc & Hv & Hent' & _); try done;
      [congruence | by apply (ext_versions _ _ Hext) | left; by rewrite Hvr |].
    eexists. split; [apply uc_Describe_Ok; exists ox, ix, d'; split; [done|]; split; [done|]; split; [done | reflexivity]|].
    rewrite !described_version, Hv. rewrite Hent in Hent'. by injection Hent'.
Qed.
End Sequential.

(** ** Who changes which contract *)

Section Confined.
Context `{UuidLib} `{MarkupLaws} `{DbOrderLaws} `{ProviderNet}.
Context (enforce : string -> Authz.Policy -> result bool) (others : goerr -> bool).
Context (policyRegistry : Registry) (cliVersion : string) (rawToken : result string) (random : nat -> string).

(** A call of the service and the tables that it leaves, also when it fails *)
Inductive contract_call (db : ContractDB) (c : Ctx) : ContractDB -> Prop :=
| ccall_create id vid now name raw description project w db' :
    svc_CreateContract enforce others policyRegistry cliVersion rawToken random db id vid now c name raw description project
      = Ok (w, db') -> contract_call db c db'
| ccall_update vid now name raw description r db' :
    svc_UpdateContract enforce others policyRegistry cliVersion rawToken db vid now c name raw description = (r, db') ->
    contract_call db c db'
| ccall_apply id vid now raw dryRun batchPolicies batchGroups r db' :
    svc_ApplyContract enforce others policyRegistry cliVersion rawToken random db id vid now c raw dryRun batchPolicies batchGroups
      = (r, db') -> contract_call db c db'
| ccall_delete now name db' :
    svc_DeleteContract enforce others db now c name = Ok db' -> contract_call db c db'.

(** Nothing but a contract and its revisions changes *)
Record only_changes (db db' : ContractDB) (id : UUID) : Prop := {
  oc_contracts : forall j, j <> id -> kd_contracts db' !! j = kd_contracts db !! j;
  oc_kept : forall vid v, kd_versions db !! vid = Some v -> kd_versions db' !! vid = Some v;
  oc_new : forall vid v, kd_versions db' !! vid = Some v -> kd_versions db !! vid = Some v \/ kv_contract v = id;
  oc_rest : kd_projects db' = kd_projects db /\ kd_orgs db' = kd_orgs db /\ kd_runs db' = kd_runs db
}.

(** The contract that a caller may change: of the current organization, and of the
    whole of it only without restricted roles *)
Definition may_change (c : Ctx) (row : ContractRow) : Prop :=
  exists org, requireCurrentOrg c = Ok org /\ uuid_Parse (org_ID org) = Some (kr_organization row)
    /\ (kr_scope_type row = "" /\ rbacEnabled c = false
        \/ kr_scope_type row = ContractScopeProject
           /\ exists op, op ∈ [PolicyWorkflowContractCreate; PolicyWorkflowContractUpdate; PolicyWorkflowContractDelete]
                /\ authorizeResource enforce others c false op ResourceTypeProject (kr_scope_id row) = Ok tt).

Lemma only_changes_row db id row : only_changes db (with_contracts db (<[id := row]> (kd_contracts db))) id.
Proof. split; cbn; [|by eauto..]. intros j Hj. by rewrite lookup_insert_ne. Qed.

Lemma insert_version_changes db vid row db' :
  insert_version db vid row = Ok db' -> only_changes db db' (kv_contract row).
Proof.
  intros (_ & Hf & ->)%insert_version_Ok. split; cbn; [done| | |done].
  - intros i v Hv. rewrite lookup_insert_ne; [done|]. intros ->. congruence.
  - intros i v [[<- <-] | [_ Hv]]%lookup_insert_Some; [by right | by left].
Qed.

Lemma only_changes_trans a b c id : only_changes a b id -> only_changes b c id -> only_changes a c id.
Proof.
  intros [A1 A2 A3 (A4 & A5 & A6)] [B1 B2 B3 (B4 & B5 & B6)]. split; [|by eauto| |repeat split; congruence].
  - intros j Hj. by rewrite B1, A1.
  - intros vid v Hv. destruct (B3 vid v Hv) as [Hb|]; [by apply A3 | by right].
Qed.

(** A failing update may leave the description written; nothing else changes *)
Lemma repo_UpdateContract_changes db vid now org name opts r db' :
  repo_UpdateContract db vid now org name opts = (r, db') ->
  db' = db \/ exists id row row', contractInOrg db org None (Some name) = Ok (Some (id, row))
    /\ only_changes db db' id /\ kd_contracts db' !! id = Some row' /\ same_contract row row' /\ kr_deleted row' = kr_deleted row.
Proof.
  unfold repo_UpdateContract, update_begin.
  destruct (contractInOrg db org None (Some name)) as [[[id row]|]|e] eqn:Ec; [|by intros [= _ <-]; left..].
  set (row' := describe_row (ku_Description opts) now row).
  set (db1 := with_contracts db (<[id := row']> (kd_contracts db))).
  assert (only_changes db db1 id) as Hdb1 by apply only_changes_row.
  assert (kd_contracts db1 !! id = Some row') as Hrow by apply lookup_insert_eq.
  destruct (latestVersion db1 id) as [lv|e]; [|intros [= _ <-]; right; exists id, row, row'; split; [done|]; done].
  destruct (update_commit db1 vid now id lv (ku_Contract opts)) as [[lv' db2]|e] eqn:Eu;
    [|intros [= _ <-]; right; exists id, row, row'; done].
  intros [= _ <-]. right. exists id, row, row'. split; [done|].
  unfold update_commit in Eu. destruct (ku_Contract opts) as [c|]; [case_bool_decide|]; [by injection Eu as _ <-| |by injection Eu as _ <-].
  apply bind_Ok in Eu as (db3 & Hi & [= _ <-]). split; [|by apply insert_version_Ok in Hi as (_ & _ & ->)].
  eapply only_changes_trans; [exact Hdb1|]. by apply insert_version_changes in Hi.
Qed.
Lemma repo_UpdateContract_keeps db vid now org name opts r db' :
  contracts_ok db -> (forall c, ku_Contract opts = Some c -> readable_contract c) ->
  repo_UpdateContract db vid now org name opts = (r, db') -> contracts_ok db'.
Proof.
  intros Hok Hread. unfold repo_UpdateContract. destruct (update_begin db now org name _) as [rb db1] eqn:Eb.
  apply update_begin_spec in Eb as (Hok1 & _ & Hv1 & Hlv); [|done].
  destruct rb as [[[id lv]|]|e]; [|by intros [= _ <-]..]. destruct (Hlv id lv eq_refl) as (Hl & _).
  pose proof (latestVersion_Ok _ _ _ Hl) as (Hlv1 & Hlvc & _). rewrite <- Hv1 in Hlv1.
  destruct (update_commit db1 vid now id lv (ku_Contract opts)) as [[lv' db2]|e] eqn:Ec; [|by intros [= _ <-]].
  apply update_commit_spec in Ec as (Hok2 & _); [|done..]. by intros [= _ <-].
Qed.

(** An update of the use case, also when it fails *)
Lemma uc_UpdateContract_keeps db vid now orgID name opts r db' :
  contracts_ok db -> uc_UpdateContract db vid now orgID name opts = (r, db') ->
  contracts_ok db'
  /\ (db' = db \/ exists org id row row', uuid_Parse orgID = Some org /\ contractInOrg db org None (Some name) = Ok (Some (id, row))
       /\ only_changes db db' id /\ kd_contracts db' !! id = Some row' /\ same_contract row row' /\ kr_deleted row' = kr_deleted row).
Proof.
  intros Hok. unfold uc_UpdateContract.
  destruct (raw_uuid orgID ≫= _) as [[[o ct] before]|e] eqn:Ep; [|by intros [= _ <-]; split; [|left]].
  apply bind_Ok in Ep as (o1 & Ho1%raw_uuid_Ok & Ep). apply bind_Ok in Ep as (ct1 & Hct & Ep).
  apply bind_Ok in Ep as (? & _ & [= -> -> _]).
  destruct (repo_UpdateContract _ _ _ _ _ _) as [ru dbu] eqn:Eu. intros Hr.
  assert (db' = dbu) as -> by by destruct ru as [[?|]|?]; injection Hr as _ <-.
  split.
  - eapply repo_UpdateContract_keeps; [done| |exact Eu]. intros c Hc. by eapply update_contract_readable.
  - apply repo_UpdateContract_changes in Eu as [-> | (i & row & row' & Hx)]; [by left | right]. by exists o, i, row, row'.
Qed.

Lemma parse_org org u : raw_uuid org = Ok u \/ parse_uuid org = Ok u -> uuid_Parse org = Some u.
Proof. by intros [?%raw_uuid_Ok | ?%parse_uuid_Ok]. Qed.

(** A contract that the caller may access with [op], found by its name *)
Lemma accessed db c org name w op :
  contracts_ok db -> requireCurrentOrg c = Ok org -> uc_FindContractByName db (org_ID org) name = Ok w ->
  checkContractAccess enforce others c w op false = Ok tt ->
  op ∈ [PolicyWorkflowContractCreate; PolicyWorkflowContractUpdate; PolicyWorkflowContractDelete] ->
  exists o row, uuid_Parse (org_ID org) = Some o
    /\ contractInOrg db o None (Some name) = Ok (Some (wk_ID w, row)) /\ may_change c row.
Proof.
  intros Hok Horg Hw Ha Hop. apply bind_Ok in Hw as (o & Ho%parse_uuid_Ok & Hw).
  apply repo_FindContractByName_Ok in Hw as (id & row & lv & Hc & _ & -> & _ & Hs); [|done].
  exists o, row. split; [done|]. split; [done|]. exists org. split; [done|].
  apply contract_is_live in Hc as (Hrow & Ho' & _). split; [congruence|].
  unfold checkContractAccess in Ha. apply bind_Ok in Ha as ([] & Hg%guard_err_Ok & Ha).
  unfold IsGlobalScoped, IsProjectScoped in *. rewrite Hs in Ha, Hg.
  destruct (ko_scope _ Hok id row Hrow) as [[Ht Hn] | (Ht & Hn & _)].
  - left. rewrite Hn in Hg. cbn in Hg. rewrite andb_true_r in Hg. done.
  - right. split; [done|]. exists op. split; [done|]. rewrite bool_decide_eq_false_2 in Ha by done. cbn in Ha.
    by rewrite Ht in Ha.
Qed.

Lemma may_change_same c a b : same_contract a b -> may_change c a -> may_change c b.
Proof.
  intros (_ & Ho & Ht & Hs & _) (org & Horg & Hp & Hm). exists org. split; [done|]. rewrite Ho, Ht, Hs. done.
Qed.

(** An update of a contract that the caller may change *)
Lemma update_as_changes db vid now c org name raw description o id row r db' :
  uuid_Parse (org_ID org) = Some o -> contractInOrg db o None (Some name) = Ok (Some (id, row)) -> may_change c row ->
  update_as others db vid now org name raw description = (r, db') ->
  db' = db \/ exists i row', only_changes db db' i /\ kd_contracts db' !! i = Some row' /\ may_change c row'.
Proof.
  intros Ho Hc Hm. unfold update_as, uc_UpdateContract.
  destruct (raw_uuid (org_ID org) ≫= _) as [[[o' ct] before]|e] eqn:Ep; [|by intros [= _ <-]; left].
  apply bind_Ok in Ep as (o1 & Ho1%raw_uuid_Ok & Ep). apply bind_Ok in Ep as (? & _ & Ep).
  apply bind_Ok in Ep as (? & _ & [= -> _ _]). assert (o' = o) as -> by congruence.
  destruct (repo_UpdateContract _ _ _ _ _ _) as [ru dbu] eqn:Eu. intros Hr.
  assert (db' = dbu) as -> by by destruct ru as [[?|]|?]; injection Hr as _ <-.
  apply repo_UpdateContract_changes in Eu as [-> | (i & row1 & row' & Hc' & Hch & Hrow' & Hsame & _)]; [by left|].
  rewrite Hc in Hc'. injection Hc' as <- <-. right. exists id, row'. split; [done|]. split; [done|].
  by eapply may_change_same.
Qed.

(** A creation in the current organization *)
Lemma create_changes db id vid now c org o w db' :
  requireCurrentOrg c = Ok org -> kw_OrgID o = org_ID org -> uc_CreateContract random db id vid now o = Ok (w, db') ->
  match kw_ProjectID o with
  | Some p => authorizeResource enforce others c false PolicyWorkflowContractCreate ResourceTypeProject p = Ok tt
  | None => rbacEnabled c = false
  end ->
  exists i row', only_changes db db' i /\ kd_contracts db' !! i = Some row' /\ may_change c row'.
Proof.
  intros Horg Hoo Hc Hp.
  apply uc_CreateContract_Ok in Hc as (o' & opts & row & version & Ho & Ha & _ & Hk & Hkp & _).
  apply addCreateToTx_Ok in Ha as (-> & -> & _ & Hf & _ & ->). exists id, (new_contract opts now). cbn.
  split; [split; cbn; [| | |done]|split; [by rewrite lookup_insert_eq|]].
  - intros j Hj. by rewrite lookup_insert_ne.
  - intros i v Hv. rewrite lookup_insert_ne; [done|]. intros ->. congruence.
  - intros i v [[<- <-] | [_ Hv]]%lookup_insert_Some; [by right | by left].
  - exists org. split; [done|]. cbn. rewrite Hk, <- Hoo. split; [done|]. rewrite Hkp.
    destruct (kw_ProjectID o) as [p|]; cbn; [right | by left]. split; [done|]. exists PolicyWorkflowContractCreate.
    split; [by left | done].
Qed.

(** The identifiers of the rows are canonical *)
Definition ids_canonical (db : ContractDB) : Prop :=
  forall id, is_Some (kd_contracts db !! id) -> uuid_Parse id = Some id.

Lemma apply_checks_Ok db c raw dryRun bp bg org n d found :
  apply_checks others policyRegistry cliVersion rawToken db c raw dryRun bp bg = Ok (org, n, d, found) ->
  requireCurrentOrg c = Ok org /\ raw <> ""
  /\ (forall w, found = Some w -> uc_FindContractByName db (org_ID org) n = Ok w).
Proof.
  intros Ek. apply bind_Ok in Ek as (org' & Horg & Ek). apply bind_Ok in Ek as ([n' d'] & Hmd & Ek).
  apply bind_Ok in Ek as (tok & _ & Ek). apply bind_Ok in Ek as ([] & _ & Ek). apply bind_Ok in Ek as (f & Hf & [= -> -> -> ->]).
  split; [done|]. split; [by intros -> |]. intros w ->. destruct (uc_FindContractByName _ _ _) as [w'|e]; [by injection Hf as ->|].
  by destruct (IsNotFound e).
Qed.

(** What a batch creates is not looked up, so it only makes more contracts valid *)
Lemma batch_local_nil (pr : PolicyRefs.ProviderRef) : batch_local pr [] = false.
Proof. unfold batch_local. rewrite (bool_decide_eq_false_2 (PolicyRefs.pr_name pr ∈ [])); [apply andb_false_r | by intros ?%not_elem_of_nil]. Qed.

Lemma validate_each_mono {A B} (f g : A -> result B) l u :
  (forall a b, f a = Ok b -> exists b', g a = Ok b') -> validate_each f l = Ok u -> validate_each g l = Ok u.
Proof.
  intros Hfg. unfold validate_each. destruct u. induction l as [|a l IH]; [done|]. cbn. rewrite !bind_Ok.
  intros ([] & Ha & Hl). exists tt. split; [|by apply IH]. apply bind_Ok in Ha as (b & Hb%map_err_Ok & _).
  destruct (Hfg a b Hb) as (b' & ->). done.
Qed.

Lemma batch_validates raw token bp bg :
  ValidateContractPolicies policyRegistry cliVersion raw token [] [] = Ok tt ->
  ValidateContractPolicies policyRegistry cliVersion raw token bp bg = Ok tt.
Proof.
  unfold ValidateContractPolicies. rewrite !bind_Ok. intros (ct & Hc & Hv). exists ct. split; [done|].
  destruct (contract_policies ct) as [[ps gs]|]; [|done]. apply bind_Ok in Hv as ([] & Hp & Hg). apply bind_Ok. exists tt.
  split; [revert Hp | revert Hg]; apply validate_each_mono; intros a b.
  - unfold findAndValidatePolicy. rewrite batch_local_nil. destruct (PolicyRefs.IsProviderScheme _); [|by eauto].
    destruct (batch_local _ bp); by eauto.
  - unfold findAndValidatePolicyGroup. rewrite batch_local_nil. destruct (negb _); [by eauto|].
    destruct (batch_local _ bg); by eauto.
Qed.

(** The latest revision of a contract holds the text it was written with *)
Lemma RevisionWouldChange_is db org o id row lv raw incoming :
  contracts_ok db -> revisions_unique db -> uuid_Parse org = Some o -> uuid_Parse id = Some id ->
  kd_contracts db !! id = Some row -> kr_organization row = o -> kr_deleted row = false -> latestVersion db id = Ok lv ->
  identifyUnMarshalAndValidateRawContract raw = Ok incoming ->
  RevisionWouldChange db org id raw = Ok (negb (bool_decide (kv_raw_body lv.2 = raw))).
Proof.
  intros Hok Hu Ho Hi Hrow Horg Hd Hl Hin. destruct lv as [v1 v].
  pose proof (latestVersion_Ok _ _ _ Hl) as (Hv & Hvc & _). cbn [fst snd] in *.
  destruct (repo_Describe_is db o id row v1 v 0 false) as (d & ver & Hdesc & Hver & _ & _ & _ & Hraw); try done; [by right|].
  unfold RevisionWouldChange. rewrite (proj2 (raw_uuid_Ok _ _) Ho), (proj2 (raw_uuid_Ok _ _) Hi). cbn [mbind result_bind].
  rewrite Hin. cbn [map_err mbind result_bind]. rewrite Hdesc. cbn [mbind result_bind]. rewrite Hver, Hraw.
  by rewrite (cok_raw _ _ (proj1 (accepted_contract_ok _ _ Hin))).
Qed.

Lemma apply_checks_dry db c raw bp bg x :
  apply_checks others policyRegistry cliVersion rawToken db c raw false bp bg = Ok x ->
  apply_checks others policyRegistry cliVersion rawToken db c raw true bp bg = Ok x.
Proof.
  unfold apply_checks. rewrite !bind_Ok. intros (org & Horg & Ek). exists org. split; [done|].
  revert Ek. rewrite !bind_Ok. intros ([n d] & Hn & Ek). exists (n, d). split; [done|].
  revert Ek. rewrite !bind_Ok. intros (tok & Ht & Ek). exists tok. split; [done|].
  apply bind_Ok in Ek as ([] & Hv%map_err_Ok & Ek). apply bind_Ok. exists tt. split; [|done].
  apply map_err_Ok. by apply batch_validates.
Qed.

(** A call changes nothing, or one contract that the caller may change *)
Definition confined (db : ContractDB) (c : Ctx) (db' : ContractDB) : Prop :=
  db' = db \/ exists id row, only_changes db db' id /\ kd_contracts db' !! id = Some row /\ may_change c row.

Lemma create_confined db c id vid now name raw description project w db' :
  contracts_ok db -> ids_canonical db ->
  svc_CreateContract enforce others policyRegistry cliVersion rawToken random db id vid now c name raw description project = Ok (w, db') ->
  confined db c db'.
Proof.
  intros Hok Hid Hc. unfold confined.
  apply bind_Ok in Hc as (opts & Hopts & Hc%map_err_Ok). right.
  apply bind_Ok in Hopts as (org & Horg & Hopts). apply bind_Ok in Hopts as ([] & Hg%guard_err_Ok & Hopts).
  apply bind_Ok in Hopts as ([] & _ & Hopts). apply bind_Ok in Hopts as (p & Hp & Hopts).
  apply bind_Ok in Hopts as (tok & _ & Hopts). apply bind_Ok in Hopts as ([] & _ & Hopts).
  apply bind_Ok in Hopts as ([n d] & _ & [= <-]). eapply create_changes; [done| |done|]; [done|]. cbn.
  destruct (reference_IsSet project).
  - apply bind_Ok in Hp as (x & Hx & [= <-]). apply bind_Ok in Hx as (y & _ & Hx).
    destruct (rbacEnabled c) eqn:Hr; cbn in Hx; [by apply bind_Ok in Hx as ([] & Ha & [= <-])|].
    unfold authorizeResource. by rewrite Hr.
  - injection Hp as <-. cbn in Hg. by rewrite andb_true_r in Hg.
Qed.

Lemma update_confined db c vid now name raw description r db' :
  contracts_ok db -> ids_canonical db ->
  svc_UpdateContract enforce others policyRegistry cliVersion rawToken db vid now c name raw description = (r, db') ->
  confined db c db'.
Proof.
  intros Hok Hid Hc. unfold confined.
  unfold svc_UpdateContract in Hc.
  destruct (update_contract_checks _ _ _ _ _ _ _ _ _ _) as [[[org n] d]|] eqn:Ek; [|by injection Hc as _ <-; left].
  apply bind_Ok in Ek as (org' & Horg & Ek). apply bind_Ok in Ek as ([n' d'] & _ & Ek).
  apply bind_Ok in Ek as (w & Hw%map_err_Ok & Ek). apply bind_Ok in Ek as ([] & Ha & Ek).
  apply bind_Ok in Ek as (tok & _ & Ek). apply bind_Ok in Ek as ([] & _ & [= -> -> ->]).
  eapply accessed in Ha as (o & row & Ho & Hcon & Hm); [|done..|by right; left].
  by eapply update_as_changes.
Qed.

Lemma apply_confined db c id vid now raw dryRun bp bg r db' :
  contracts_ok db -> ids_canonical db ->
  svc_ApplyContract enforce others policyRegistry cliVersion rawToken random db id vid now c raw dryRun bp bg = (r, db') ->
  confined db c db'.
Proof.
  intros Hok Hid Hc. unfold confined.
  unfold svc_ApplyContract in Hc.
  destruct (apply_checks _ _ _ _ _ _ _ _ _ _) as [[[[org n] d] [w|]]|] eqn:Ek; [| |by injection Hc as _ <-; left].
  - destruct (apply_checks_Ok _ _ _ _ _ _ _ _ _ _ Ek) as (Horg & _ & Hw).
    unfold apply_update in Hc. destruct (checkContractAccess _ _ _ _ _ _) as [[]|] eqn:Ha; [|by injection Hc as _ <-; left].
    destruct dryRun; [by injection Hc as _ <-; left|]. specialize (Hw w eq_refl).
    eapply accessed in Ha as (o & row & Ho & Hcon & Hm); [|done..|by right; left].
    destruct (update_as _ _ _ _ _ _ _ _) as [ru dbu] eqn:Eu. injection Hc as _ <-. by eapply update_as_changes.
  - destruct (apply_checks_Ok _ _ _ _ _ _ _ _ _ _ Ek) as (Horg & _).
    destruct (apply_create _ _ _ _ _ _ _ _ _ _ _) as [[r' db1]|] eqn:Ec; [|by injection Hc as _ <-; left].
    injection Hc as _ <-. unfold apply_create in Ec. apply bind_Ok in Ec as ([] & _ & Ec).
    apply bind_Ok in Ec as ([] & Hr%guard_err_Ok & Ec). destruct dryRun; [by injection Ec as _ <-; left|].
    apply bind_Ok in Ec as ([w db2] & Hcr%map_err_Ok & [= _ <-]). right.
    eapply create_changes; [exact Horg | | exact Hcr|]; done.
Qed.

Lemma delete_confined db c now name db' :
  contracts_ok db -> ids_canonical db ->
  svc_DeleteContract enforce others db now c name = Ok db' ->
  confined db c db'.
Proof.
  intros Hok Hid Hc. unfold confined.
  apply bind_Ok in Hc as (org & Horg & Hc). apply bind_Ok in Hc as (w & Hw%map_err_Ok & Hc).
  apply bind_Ok in Hc as ([] & Ha & Hc%map_err_Ok).
  eapply accessed in Ha as (o & row & Ho & Hcon & Hm); [|done..|by right; right; left].
  apply contract_is_live in Hcon as (Hrow & _).
  apply uc_DeleteContract_Ok in Hc as (o' & id & row' & Ho' & Hi & Hrow' & _ & _ & _ & ->).
  rewrite (Hid (wk_ID w)) in Hi by done. injection Hi as <-. right. exists (wk_ID w), (delete_row now row').
  split; [apply only_changes_row|]. split; [apply lookup_insert_eq|]. rewrite Hrow in Hrow'. by injection Hrow' as <-.
Qed.

(** C20: Whatever a call of the contract service does, and even when it fails halfway,
    it changes at most one contract and the revisions of that contract: one of
    the caller's organization, which a caller with restricted roles may only do
    to a contract of a project where a role allows it. *)
Theorem contract_changes_confined db c db' :
  contracts_ok db -> ids_canonical db -> contract_call db c db' ->
  db' = db \/ exists id row, only_changes db db' id /\ kd_contracts db' !! id = Some row /\ may_change c row.
Proof.
  intros Hok Hid Hcall. destruct Hcall as [? ? ? ? ? ? ? ? ? Hc | ? ? ? ? ? ? ? Hc | ? ? ? ? ? ? ? ? ? Hc | ? ? ? Hc].
  - by apply create_confined in Hc.
  - by apply update_confined in Hc.
  - by apply apply_confined in Hc.
  - by apply delete_confined in Hc.
Qed.

Lemma converted_revision v ver : entContractVersionToBizContractVersion v = Ok ver -> wv_Revision ver = kv_revision v.2.
Proof. unfold entContractVersionToBizContractVersion. intros E. by apply bind_Ok in E as (x & _ & [= <-]). Qed.

(** An update changes the revision exactly when the texts differ *)
Lemma apply_change db vid now org n raw d w wv dbu :
  contracts_ok db -> revisions_unique db -> ids_canonical db -> uc_FindContractByName db org n = Ok w ->
  raw <> "" ->
  uc_UpdateContract db vid now org n {| kp_RawSchema := raw; kp_Description := d |} = (Ok wv, dbu) ->
  RevisionWouldChange db org (wk_ID w) raw = Ok (wcv_Changed wv)
  /\ wk_LatestRevision w = wk_LatestRevision (wcv_Contract wv) - (if wcv_Changed wv then 1 else 0).
Proof.
  intros Hok Hu Hid Hw Hne Hup. apply bind_Ok in Hw as (o & Ho%parse_uuid_Ok & Hw).
  destruct (uc_UpdateContract_Ok _ _ _ _ _ _ _ _ Hok Hup) as (o' & ct & before & cv & Ho' & Hct & Hb & Hr & Hwc & Hwv & Hch).
  assert (o' = o) as -> by congruence. rewrite Hw in Hb. injection Hb as <-.
  assert (forall x, ct = Some x -> readable_contract x) as Hread by by intros x; eapply update_contract_readable.
  apply repo_FindContractByName_Ok in Hw as (id & row & lv & Hc & Hl & -> & Hlr & _); [|done].
  destruct (repo_UpdateContract_Ok _ _ _ _ _ {| ku_Description := d; ku_Contract := ct |} _ _ Hok Hread Hr)
    as (_ & _ & id' & row' & lv0 & lv' & Hc' & Hl' & Hupd & _ & _ & _ & _ & Hver & Hrev).
  rewrite Hc in Hc'. injection Hc' as <- <-. rewrite Hl in Hl'. injection Hl' as <-.
  apply contract_is_live in Hc as (Hrow & Horg & Hd & _).
  unfold update_contract in Hct. cbn [kp_RawSchema] in Hct. rewrite (proj2 (is_empty_false _) Hne) in Hct.
  destruct (identifyUnMarshalAndValidateRawContract raw) as [bc|] eqn:Ei; cbn in Hct; [|done]. injection Hct as <-.
  rewrite (RevisionWouldChange_is db org o id row lv raw bc Hok Hu Ho) by eauto.
  pose proof (cok_raw _ _ (proj1 (accepted_contract_ok _ _ Ei))) as Hraw.
  apply converted_revision in Hver. rewrite Hwc, Hch, Hlr, Hver, Hrev.
  cbn [updated ku_Contract] in Hupd. rewrite Hraw in Hupd. case_bool_decide as Heq.
  - destruct Hupd as [-> _]. rewrite bool_decide_eq_true_2 by done. cbn. split; [done | lia].
  - destruct Hupd as (_ & -> & _). cbn. rewrite bool_decide_eq_false_2 by lia. cbn. split; [done | lia].
Qed.

End Confined.

(** ** A small instance *)

Import ContractToys CasTables.

Module ContractTables.
#[export] Instance any_uuid : UuidLib := {| uuid_Parse := fun s => if is_empty s then None else Some s |}.

#[export] Instance toy_markup_laws : MarkupLaws (H := toy_markup).
Proof.
  constructor. intros name c [= <-]. split; [discriminate|]. cbn. reflexivity.
Qed.

Definition organization : OrganizationRow :=
  {| og_name := "org"; og_deleted := false; og_block_on_violation := false; og_prevent_implicit := false;
     og_restrict_contracts := false; og_block_released := false; og_allowed_hostnames := [];
     og_ai_agent_collector := false; og_skip_runner_env_vars := false |}.

(** An organization without contracts *)
Definition empty_db : ContractDB :=
  {| kd_contracts := ∅; kd_versions := ∅; kd_projects := ∅; kd_orgs := {[ "o" := organization ]};
     kd_runs := {| db_workflows := ∅; db_versions := ∅; db_runs := ∅; db_bundles := ∅ |} |}.

Definition creation (raw : string) : WorkflowContractCreateOpts :=
  {| kw_OrgID := "o"; kw_Name := "build"; kw_RawSchema := raw; kw_Description := None; kw_ProjectID := None;
     kw_AddUniquePrefix := false |}.

Definition update (raw : string) : WorkflowContractUpdateOpts := {| kp_RawSchema := raw; kp_Description := None |}.

(** The random part of a name *)
Definition suffix (i : nat) : string := if bool_decide (i = 1%nat) then "a" else "b".

Definition created_db : ContractDB :=
  match uc_CreateContract suffix empty_db "c" "v1" 10 (creation "{build") with Ok (_, db) => db | Err _ => empty_db end.

(** A member who administers the organization *)
Definition admin : Ctx :=
  {| cx_token := None; cx_user := Some "u"; cx_memberships := Some []; cx_org := Some toy_organization;
     cx_subject := RoleAdmin |}.

Lemma empty_contracts_ok : contracts_ok empty_db /\ revisions_unique empty_db.
Proof. split; [split|]; intros i a; cbn; [|by rewrite lookup_empty..]. intros x y. by rewrite lookup_empty. Qed.

Lemma created_db_ok : contracts_ok created_db /\ revisions_unique created_db.
Proof.
  split.
  - destruct (uc_CreateContract suffix empty_db "c" "v1" 10 (creation "{build")) as [[w db]|] eqn:E; [|discriminate E].
    destruct (contract_step_ok {| cst_db := empty_db; cst_pending := [] |} {| cst_db := db; cst_pending := [] |}) as [[Hdb _] _].
    + split; [apply empty_contracts_ok | by intros pu ?%not_elem_of_nil].
    + eapply kst_create; [exact E|]. done.
    + unfold created_db. rewrite E. exact Hdb.
  - intros i j v w. change (kd_versions created_db) with (kd_versions created_db).
    replace (kd_versions created_db) with ({[ "v1" := new_version "c" {| ct_raw := "{build"; ct_format := RawFormatJSON;
      ct_schema := None; ct_schemav2 := None |} 1 10 ]} : gmap UUID ContractVersionRow) by reflexivity.
    intros [<- _]%lookup_singleton_Some [<- _]%lookup_singleton_Some. done.
Qed.

Lemma created_canonical : ids_canonical created_db.
Proof.
  intros i. replace (kd_contracts created_db) with ({[ "c" := new_contract {| kc_Name := "build"; kc_OrgID := "o";
    kc_Description := None; kc_Contract := {| ct_raw := ""; ct_format := RawFormatJSON; ct_schema := None; ct_schemav2 := None |};
    kc_ProjectID := None |} 10 ]} : gmap UUID ContractRow) by reflexivity.
  intros [r [<- _]%lookup_singleton_Some]. reflexivity.
Qed.
End ContractTables.

Import ContractTables.

Lemma contract_history_witness :
  exists s', rtc contract_step {| cst_db := created_db; cst_pending := [] |} s'
    /\ kd_versions (cst_db s') !! "v1" = kd_versions created_db !! "v1" /\ has_revision (cst_db s') "c" 1.
Proof.
  destruct (uc_DeleteContract created_db 20 "o" "c") as [db|] eqn:E; [|discriminate E].
  exists {| cst_db := db; cst_pending := [] |}.
  assert (rtc contract_step {| cst_db := created_db; cst_pending := [] |} {| cst_db := db; cst_pending := [] |}) as Hs
    by by eapply rtc_once, kst_delete.
  assert (state_ok {| cst_db := created_db; cst_pending := [] |}) as Hok
    by by split; [apply created_db_ok | intros pu ?%not_elem_of_nil].
  destruct (contract_history _ _ Hok Hs) as (_ & Hv & Hc & Hfirst & _). split; [done|]. split.
  - exact (Hv "v1" _ eq_refl).
  - destruct (Hc "c" _ eq_refl) as (b & Hb & _). exact (Hfirst "c" b Hb).
Defined.

Lemma updated_contract_described_witness :
  exists w db', uc_UpdateContract created_db "v2" 20 "o" "build" (update "{other") = (Ok w, db')
    /\ ct_raw (wv_Schema (wcv_Version w)) = "{other"
    /\ exists d, uc_DescribeContract db' "o" "c" 1 false = Ok d /\ ct_raw (wv_Schema (wcv_Version d)) = "{build".
Proof.
  destruct (uc_UpdateContract created_db "v2" 20 "o" "build" (update "{other")) as [[w|] db'] eqn:E; [|discriminate E].
  exists w, db'. split; [done|].
  destruct (updated_contract_described _ _ _ _ _ _ _ _ (proj1 created_db_ok) (proj2 created_db_ok) E)
    as (_ & _ & _ & Hraw & Hold).
  split; [by apply Hraw|].
  destruct (uc_DescribeContract created_db "o" "c" 1 false) as [d|] eqn:Ed; [|discriminate Ed].
  destruct (Hold "o" "c" 1 false d) as (d' & Hd' & Hv); [lia | exact Ed|]. exists d'. split; [exact Hd'|]. rewrite Hv.
  injection Ed as <-. reflexivity.
Defined.

(** Applying a contract as an administrator of the organization *)
Definition toy_apply (dryRun : bool) : result ApplyResponse * ContractDB :=
  svc_ApplyContract toy_enforce (fun _ => false) registry "" (Ok "token") suffix created_db "c2" "v2" 20 admin "{build" dryRun [] [].


Lemma contract_changes_confined_witness :
  exists db' id row, svc_DeleteContract toy_enforce (fun _ => false) created_db 20 admin "build" = Ok db'
    /\ only_changes created_db db' id /\ kd_contracts db' !! id = Some row
    /\ may_change toy_enforce (fun _ => false) admin row.
Proof.
  assert ((fun db => kr_deleted <$> kd_contracts db !! "c") <$>
    svc_DeleteContract toy_enforce (fun _ => false) created_db 20 admin "build" = Ok (Some true)) as Hd by (vm_compute; reflexivity).
  destruct (svc_DeleteContract toy_enforce (fun _ => false) created_db 20 admin "build") as [db'|] eqn:E; [|discriminate Hd].
  destruct (contract_changes_confined toy_enforce (fun _ => false) registry "" (Ok "token") suffix created_db admin db'
    (proj1 created_db_ok) created_canonical (ccall_delete _ _ _ _ _ _ _ _ _ _ _ E)) as [-> | (id & row & Hch & Hrow & Hm)].
  - discriminate Hd.
  - exists db', id, row. done.
Defined.

(** Two updates that read the same latest revision both write the next one, and the
    contract cannot be described at that revision any more *)
Theorem concurrent_updates_collide :
  exists s', rtc contract_step {| cst_db := created_db; cst_pending := [] |} s'
    /\ cst_pending s' = [] /\ ~ revisions_unique (cst_db s')
    /\ uc_DescribeContract (cst_db s') "o" "c" 2 false = Err (EMsg "ent: workflow_contract_version not singular").
Proof.
  eexists. split.
  { eapply rtc_l; [eapply (kst_begin created_db [] 20 "o" "build" None "{one"); reflexivity|].
    eapply rtc_l; [eapply (kst_begin _ _ 20 "o" "build" None "{two"); reflexivity|].
    eapply rtc_l; [eapply (kst_commit _ [] _ "v2" 20); reflexivity|].
    apply rtc_once. eapply (kst_commit _ [] _ "v3" 20). reflexivity. }
  split; [reflexivity|]. split; [|vm_compute; reflexivity].
  intros Hu. assert ("v2" = "v3") as [=]. eapply (Hu "v2" "v3"); vm_compute; reflexivity.
Qed.
