(* ===== verification/JsonFilter.v ===== *)
(** * JSON filters

    pkg/jsonfilter/jsonfilter.go: the predicates on a JSON column that a request
    asks for.  The SQL builder writes the column and the path into the query as
    they are, so the two regular expressions are what keeps a request from adding
    SQL of its own.  The expressions are automata here, with the languages that
    they accept; the predicates of the SQL builder are data. *)

From S2P Require Import Prelude.
From S2P Require Import GoStrings.

(** ** The expressions *)

Definition in_range (lo hi : nat) (c : ascii) : bool :=
  Nat.leb lo (Ascii.nat_of_ascii c) && Nat.leb (Ascii.nat_of_ascii c) hi.

(** [[A-Za-z_]], [[0-9]] and [[A-Za-z0-9_]] *)
Definition ident_start (c : ascii) : bool := in_range 65 90 c || in_range 97 122 c || Ascii.eqb c "_".
Definition digit (c : ascii) : bool := in_range 48 57 c.
Definition ident_char (c : ascii) : bool := ident_start c || digit c.

(** The states of [fieldPathRegexp]: before an identifier, in one, after an opening
    bracket, in an index, after a closing bracket *)
Inductive PathState := BeforeIdent | InIdent | OpenIndex | InIndex | AfterIndex.

Definition path_next (q : PathState) (c : ascii) : option PathState :=
  match q with
  | BeforeIdent => if ident_start c then Some InIdent else None
  | InIdent => if ident_char c then Some InIdent
               else if Ascii.eqb c "." then Some BeforeIdent else if Ascii.eqb c "[" then Some OpenIndex else None
  | OpenIndex => if digit c then Some InIndex else None
  | InIndex => if digit c then Some InIndex else if Ascii.eqb c "]" then Some AfterIndex else None
  | AfterIndex => if Ascii.eqb c "." then Some BeforeIdent else if Ascii.eqb c "[" then Some OpenIndex else None
  end.

Definition path_final (q : PathState) : bool :=
  match q with InIdent | AfterIndex => true | _ => false end.

Fixpoint path_run (q : PathState) (s : string) : bool :=
  match s with
  | "" => path_final q
  | String c s => match path_next q c with Some q' => path_run q' s | None => false end
  end.

(** [fieldPathRegexp] and [columnRegexp] *)
Definition fieldPathRegexp (s : string) : bool := path_run BeforeIdent s.

Definition columnRegexp (s : string) : bool :=
  match s with "" => false | String c s => ident_start c && str_forall ident_char s end.

(** [validateColumn] and [validateFieldPath] *)
Definition validateColumn (column : string) : result unit :=
  if columnRegexp column then Ok tt else Err (EMsg "invalid column: must be a valid identifier").

Definition validateFieldPath (fieldPath : string) : result unit :=
  if is_empty fieldPath then Ok tt
  else if fieldPathRegexp fieldPath then Ok tt
  else Err (EMsg "invalid field path: must be dot-separated identifiers with optional numeric array indices").

(** ** The filters *)

Definition OpEQ : string := "eq".
Definition OpNEQ : string := "neq".
Definition OpIN : string := "in".

(** A value: a string or something else, by its text *)
Inductive JsonValue := JString (s : string) | JOther (text : string).

Record JSONFilter := {
  jf_Column : string;
  jf_FieldPath : string;
  jf_Value : JsonValue;
  jf_Operator : string
}.

(** The predicates of ent's sqljson, with their column and path *)
Inductive JsonPredicate :=
| ValueEQ (column : string) (value : JsonValue) (path : string)
| ValueNEQ (column : string) (value : JsonValue) (path : string)
| ValueIn (column : string) (values : list string) (path : string).

(** [BuildEntSelectorFromJSONFilter] *)
Definition BuildEntSelectorFromJSONFilter (f : JSONFilter) : result JsonPredicate :=
  _ ← guard_err (is_empty (jf_Column f) || is_empty (jf_Operator f)) (EMsg "invalid filter: column and operator are required");
  _ ← validateColumn (jf_Column f);
  _ ← validateFieldPath (jf_FieldPath f);
  if bool_decide (jf_Operator f = OpEQ) then Ok (ValueEQ (jf_Column f) (jf_Value f) (jf_FieldPath f))
  else if bool_decide (jf_Operator f = OpNEQ) then Ok (ValueNEQ (jf_Column f) (jf_Value f) (jf_FieldPath f))
  else if bool_decide (jf_Operator f = OpIN) then
    match jf_Value f with
    | JString castedValue => Ok (ValueIn (jf_Column f) (trim_space <$> split castedValue ",") (jf_FieldPath f))
    | JOther _ => Err (EMsg "invalid value for 'in' operator: must be a slice of strings")
    end
  else Err (EMsg ("unsupported operator: " +:+ jf_Operator f)).

Definition predicate_column (p : JsonPredicate) : string :=
  match p with ValueEQ c _ _ | ValueNEQ c _ _ | ValueIn c _ _ => c end.
Definition predicate_path (p : JsonPredicate) : string :=
  match p with ValueEQ _ _ s | ValueNEQ _ _ s | ValueIn _ _ s => s end.

(** ** The languages *)

(** [[A-Za-z_][A-Za-z0-9_]*] *)
Definition ident (s : string) : Prop := columnRegexp s = true.

(** A step of a path: a dot and an identifier, or an index in brackets *)
Inductive path_step : string -> Prop :=
| ps_field s : ident s -> path_step (String "." s)
| ps_index s : s <> "" -> str_forall digit s = true -> path_step (String "[" (s +:+ "]")).

(** An identifier followed by steps *)
Definition field_path (s : string) : Prop :=
  exists i steps, ident i /\ Forall path_step steps /\ s = i +:+ String.concat "" steps.

(** What may follow in a state, up to the end of the path *)
Definition rest_of (q : PathState) (s : string) : Prop :=
  exists a steps, Forall path_step steps /\ s = a +:+ String.concat "" steps
    /\ match q with
       | BeforeIdent => ident a
       | InIdent => str_forall ident_char a = true
       | OpenIndex => exists d, d <> "" /\ str_forall digit d = true /\ a = d +:+ "]"
       | InIndex => exists d, str_forall digit d = true /\ a = d +:+ "]"
       | AfterIndex => a = ""
       end.

Lemma concat_cons s l : String.concat "" (s :: l) = s +:+ String.concat "" l.
Proof. destruct l; [|done]. induction s as [|c s IH]; [done|]. exact (f_equal (String c) IH). Qed.

Lemma str_app_cons c (a b : string) : String c a +:+ b = String c (a +:+ b).
Proof. done. Qed.

Lemma path_run_sound q s : path_run q s = true -> rest_of q s.
Proof.
  revert q. induction s as [|c s IH]; intros q.
  - destruct q; intros [=]; exists "", []; repeat split; constructor.
  - cbn [path_run]. destruct (path_next q c) as [q'|] eqn:En; [|done].
    intros (a & steps & Hs & -> & Ha)%IH. destruct q; cbn in En.
    + destruct (ident_start c) eqn:Ec; [|done]. injection En as <-. exists (String c a), steps.
      split; [done|]. split; [done|]. unfold ident. cbn. by rewrite Ec.
    + destruct (ident_char c) eqn:Ec; [|destruct (Ascii.eqb c ".") eqn:Ed; [|destruct (Ascii.eqb c "[") eqn:Eb; [|done]]].
      * injection En as <-. exists (String c a), steps. split; [done|]. split; [done|]. cbn. by rewrite Ec.
      * injection En as <-. apply Ascii.eqb_eq in Ed as ->. exists "", (String "." a :: steps).
        split; [by constructor; [constructor|]|]. split; [by rewrite concat_cons | done].
      * injection En as <-. apply Ascii.eqb_eq in Eb as ->. destruct Ha as (d & Hd & Hf & ->).
        exists "", (String "[" (d +:+ "]") :: steps). split; [by constructor; [constructor|]|].
        split; [by rewrite concat_cons | done].
    + destruct (digit c) eqn:Ec; [|done]. injection En as <-. destruct Ha as (d & Hf & ->).
      exists (String c d +:+ "]"), steps. split; [done|]. split; [done|]. exists (String c d). cbn. by rewrite Ec.
    + destruct (digit c) eqn:Ec; [|destruct (Ascii.eqb c "]") eqn:Eb; [|done]].
      * injection En as <-. destruct Ha as (d & Hf & ->). exists (String c d +:+ "]"), steps. split; [done|]. split; [done|].
        exists (String c d). cbn. by rewrite Ec.
      * injection En as <-. apply Ascii.eqb_eq in Eb as ->. subst a. exists "]", steps. split; [done|]. split; [done|].
        by exists "".
    + destruct (Ascii.eqb c ".") eqn:Ed; [|destruct (Ascii.eqb c "[") eqn:Eb; [|done]].
      * injection En as <-. apply Ascii.eqb_eq in Ed as ->. exists "", (String "." a :: steps).
        split; [by constructor; [constructor|]|]. split; [by rewrite concat_cons | done].
      * injection En as <-. apply Ascii.eqb_eq in Eb as ->. destruct Ha as (d & Hd & Hf & ->).
        exists "", (String "[" (d +:+ "]") :: steps). split; [by constructor; [constructor|]|].
        split; [by rewrite concat_cons | done].
Qed.

Lemma run_ident a s : str_forall ident_char a = true -> path_run InIdent (a +:+ s) = path_run InIdent s.
Proof.
  induction a as [|c a IH]; [done|]. rewrite str_app_cons. cbn [str_forall path_run path_next].
  destruct (ident_char c); [exact IH | done].
Qed.

Lemma run_start a s : ident a -> path_run BeforeIdent (a +:+ s) = path_run InIdent s.
Proof.
  unfold ident. destruct a as [|c a]; [done|]. rewrite str_app_cons. cbn [columnRegexp path_run path_next].
  intros [Hc Ha]%andb_true_iff. rewrite Hc. by apply run_ident.
Qed.

Lemma run_index d s : str_forall digit d = true -> path_run InIndex (d +:+ String "]" s) = path_run AfterIndex s.
Proof.
  induction d as [|c d IH]; [done|]. rewrite str_app_cons. cbn [str_forall path_run path_next].
  destruct (digit c); [exact IH | done].
Qed.

Lemma run_steps steps q : Forall path_step steps -> q = InIdent \/ q = AfterIndex -> path_run q (String.concat "" steps) = true.
Proof.
  intros Hs. revert q. induction Hs as [|x l Hx Hl IH]; intros q Hq; [by destruct Hq as [-> | ->]|].
  rewrite concat_cons. destruct Hx as [a Ha | d Hd Hf].
  - transitivity (path_run BeforeIdent (a +:+ String.concat "" l)); [by destruct Hq as [-> | ->]|].
    rewrite run_start by done. apply IH. by left.
  - transitivity (path_run OpenIndex ((d +:+ "]") +:+ String.concat "" l)); [by destruct Hq as [-> | ->]|].
    rewrite str_app_assoc, str_app_cons, str_app_nil_l. destruct d as [|c d]; [done|]. rewrite str_app_cons.
    cbn [str_forall path_run path_next] in Hf |- *. destruct (digit c); [|done]. rewrite run_index by done. apply IH. by right.
Qed.

(** The recognizer of field paths accepts exactly the paths of the comment: an
    identifier, then fields after dots and numeric indices in brackets. *)
Theorem field_path_language s : validateFieldPath s = Ok tt <-> s = "" \/ field_path s.
Proof.
  unfold validateFieldPath. destruct (is_empty s) eqn:Ee; [apply is_empty_true in Ee; naive_solver|].
  apply is_empty_false in Ee. destruct (fieldPathRegexp s) eqn:Ef.
  - split; [|done]. intros _. right. apply path_run_sound in Ef as (a & steps & Hs & -> & Ha). by exists a, steps.
  - split; [done|]. intros [-> | (i & steps & Hi & Hs & ->)]; [done|]. unfold fieldPathRegexp in Ef.
    rewrite run_start, run_steps in Ef by (done || by left). done.
Qed.

(** ** Nothing that could leave the query's literal *)

(** The characters that a column or a path may have *)
Definition plain_char (c : ascii) : bool :=
  ident_char c || Ascii.eqb c "." || Ascii.eqb c "[" || Ascii.eqb c "]".

Lemma path_next_plain q c q' : path_next q c = Some q' -> plain_char c = true.
Proof.
  unfold plain_char, ident_char. destruct q; cbn; unfold ident_char;
    destruct (ident_start c), (digit c), (Ascii.eqb c "."), (Ascii.eqb c "["), (Ascii.eqb c "]"); done.
Qed.

Lemma path_run_plain q s : path_run q s = true -> str_forall plain_char s = true.
Proof.
  revert q. induction s as [|c s IH]; intros q; [done|]. cbn. destruct (path_next q c) as [q'|] eqn:En; [|done].
  intros Hs. rewrite (path_next_plain _ _ _ En). cbn. by eapply IH.
Qed.

Lemma str_forall_impl f g s : (forall c, f c = true -> g c = true) -> str_forall f s = true -> str_forall g s = true.
Proof.
  intros Hfg. induction s as [|c s IH]; [done|]. cbn. intros [Hc Hs]%andb_true_iff. by rewrite (Hfg c Hc), IH.
Qed.

(** A predicate that is built has a plain identifier for a column and a path
    without quotes, backslashes or spaces, and they are those of the filter. *)
Theorem filter_not_injectable f p :
  BuildEntSelectorFromJSONFilter f = Ok p ->
  predicate_column p = jf_Column f /\ predicate_path p = jf_FieldPath f
  /\ str_forall ident_char (predicate_column p) = true
  /\ str_forall plain_char (predicate_path p) = true
  /\ (forall c, plain_char c = true -> c <> "'"%char /\ c <> byte 34 /\ c <> "\"%char /\ c <> " "%char /\ c <> ";"%char).
Proof.
  unfold BuildEntSelectorFromJSONFilter. intros E.
  apply bind_Ok in E as ([] & _ & E). apply bind_Ok in E as ([] & Hc & E). apply bind_Ok in E as ([] & Hp & E).
  assert (predicate_column p = jf_Column f /\ predicate_path p = jf_FieldPath f) as [-> ->].
  { repeat case_bool_decide; [by injection E as <-..| |done]. destruct (jf_Value f); [by injection E as <-|done]. }
  split; [done|]. split; [done|]. split; [|split].
  - unfold validateColumn in Hc. destruct (columnRegexp (jf_Column f)) eqn:Ec; [|done].
    destruct (jf_Column f) as [|c s]; [done|]. cbn in Ec |- *. apply andb_true_iff in Ec as [Hs Ht].
    unfold ident_char at 1. by rewrite Hs.
  - unfold validateFieldPath in Hp. destruct (is_empty _) eqn:Ee; [by apply is_empty_true in Ee as ->|].
    destruct (fieldPathRegexp _) eqn:Ef; [|done]. by apply path_run_plain in Ef.
  - intros c Hp'. repeat split; intros ->; discriminate Hp'.
Qed.

Definition toy_filter (path value : string) : JSONFilter :=
  {| jf_Column := "metadata"; jf_FieldPath := path; jf_Value := JString value; jf_Operator := OpIN |}.

Lemma filter_not_injectable_witness :
  exists p, BuildEntSelectorFromJSONFilter (toy_filter "items[0].name" "a, b") = Ok p
    /\ p = ValueIn "metadata" ["a"; "b"] "items[0].name" /\ str_forall plain_char (predicate_path p) = true.
Proof.
  destruct (BuildEntSelectorFromJSONFilter (toy_filter "items[0].name" "a, b")) as [p|] eqn:E; [|discriminate E].
  exists p. split; [done|]. split; [injection E as <-; reflexivity|].
  destruct (filter_not_injectable _ _ E) as (_ & _ & _ & Hp & _). exact Hp.
Defined.

(** A quote, a trailing dot, an index that is not a number *)
Example bad_paths :
  (is_ok <$> [validateFieldPath "a.b[12].c"; validateFieldPath "a'"; validateFieldPath "a."; validateFieldPath "a[x]";
              validateFieldPath ".a"]) = [true; false; false; false; false].
Proof. reflexivity. Qed.
