(* ===== verification/Workflows.v ===== *)
(** * Workflows

    app/controlplane/pkg/data/workflow.go over the table of ent/schema/workflow.go,
    the use case biz/workflow.go and the service internal/service/workflow.go,
    with the implicit creation of service/attestation.go ([FindOrCreateWorkflow]).
    A creation finds or creates the project, its first version and the contract
    in one transaction, and makes the caller the owner of the project.

    The tables are those of the contracts and of the memberships, with the
    attachments of integrations.  Audit events and the cache of memberships have
    no counterpart; a JSON predicate is evaluated by the database. *)

From S2P Require Import Prelude.
From S2P Require Import GoStrings.
From S2P Require Import Contract.
From S2P Require Import BizErrors.
From S2P Require Import Pagination.
From S2P Require Import Authz.
From S2P Require Import ApiTokens.
From S2P Require Import Access.
From S2P Require Import RunStore.
From S2P Require Import WorkflowRuns.
From S2P Require Import Referrers.
From S2P Require Import Memberships.
From S2P Require Import CasMappings.
From S2P Require Import ContractSchemas.
From S2P Require Import WorkflowContracts.
From S2P Require Import JsonFilter.

Open Scope Z_scope.

(** ** Tables *)

(** An attachment of an integration to a workflow *)
Record AttachmentRow := { ia_workflow : UUID; ia_deleted : bool }.

Record WorkflowDB := {
  wd_db : ContractDB;
  wd_members : MemberDB;
  wd_attachments : gmap UUID AttachmentRow
}.

Definition with_db (w : WorkflowDB) (db : ContractDB) : WorkflowDB :=
  {| wd_db := db; wd_members := wd_members w; wd_attachments := wd_attachments w |}.

Definition workflow_rows (db : ContractDB) : gmap UUID WorkflowRow := db_workflows (kd_runs db).

Definition with_workflow_rows (db : ContractDB) (t : gmap UUID WorkflowRow) : ContractDB :=
  with_run_tables db (with_workflows (kd_runs db) t).

(** [biz.Workflow] *)
Record Workflow := {
  wf_ID : UUID;
  wf_Name : string;
  wf_Description : string;
  wf_Team : string;
  wf_Project : string;
  wf_ProjectID : UUID;
  wf_OrgID : UUID;
  wf_CreatedAt : Z;
  wf_RunsCounter : Z;
  wf_LastRun : option (UUID * RunRow);
  wf_ContractID : UUID;
  wf_ContractName : string;
  wf_ContractRevisionLatest : Z;
  wf_WorkflowTemplateID : option UUID
}.

(** [WorkflowCreateOpts]; the contract that was detected is an argument of the creation *)
Record WorkflowCreateOpts := {
  wo_Name : string;
  wo_OrgID : string;
  wo_Project : string;
  wo_Team : string;
  wo_Description : string;
  wo_ContractName : string;
  wo_ContractID : string;
  wo_ContractBytes : option string;
  wo_Owner : option UUID;
  wo_ImplicitCreation : bool;
  wo_UserIsOrgAdmin : bool;
  wo_OrgRestrictContractCreationToAdmins : bool;
  wo_WorkflowTemplateID : option UUID
}.

Record WorkflowUpdateOpts := {
  wu_Team : option string;
  wu_Description : option string;
  wu_ContractID : option string
}.

Record TimeWindow := { tw_From : Z; tw_To : Z }.

(** [WorkflowListOpts]; a filter that is not applied is empty or [None] *)
Record WorkflowListOpts := {
  wl_WorkflowName : string;
  wl_WorkflowDescription : string;
  wl_WorkflowTeam : string;
  wl_WorkflowProjectNames : list string;
  wl_WorkflowRunRunnerType : string;
  wl_WorkflowActiveWindow : option TimeWindow;
  wl_WorkflowRunLastStatus : option WorkflowRunStatus;
  wl_JSONFilters : list JSONFilter;
  wl_ProjectIDs : option (list UUID)
}.

(** ** Storage (data/workflow.go) *)

Section WorkflowRepo.
Context `{UuidLib} `{Markup} `{DbOrder}.

(** [entWFToBizWF], with the contract, the project and the latest run loaded *)
Definition entWFToBizWF (db : ContractDB) (w : UUID * WorkflowRow) : result Workflow :=
  let wf contract name revision :=
    {| wf_ID := w.1; wf_Name := wr_name w.2; wf_Description := wr_description w.2; wf_Team := wr_team w.2;
       wf_Project := match kd_projects db !! wr_project w.2 with Some p => pr_name p | None => "" end;
       wf_ProjectID := wr_project w.2; wf_OrgID := wr_organization w.2; wf_CreatedAt := wr_created_at w.2;
       wf_RunsCounter := wr_runs_count w.2;
       wf_LastRun := id ← wr_latest_run w.2; r ← db_runs (kd_runs db) !! id; Some (id, r);
       wf_ContractID := contract; wf_ContractName := name; wf_ContractRevisionLatest := revision;
       wf_WorkflowTemplateID := wr_template w.2 |} in
  match kd_contracts db !! wr_contract w.2 with
  | Some c =>
      lv ← map_err (EWrap "finding contract version") (latestVersion db (wr_contract w.2));
      Ok (wf (wr_contract w.2) (kr_name c) (kv_revision lv.2))
  | None => Ok (wf uuid_Nil "" 0)
  end.

(** [FindByID] *)
Definition repo_FindWorkflow (db : ContractDB) (id : UUID) : result Workflow :=
  match workflow_rows db !! id with
  | Some w => if wr_deleted w then Err (NewErrNotFound "workflow") else entWFToBizWF db (id, w)
  | None => Err (NewErrNotFound "workflow")
  end.

(** [GetOrgScoped] *)
Definition GetOrgScoped (db : ContractDB) (orgID id : UUID) : result Workflow :=
  match workflow_rows db !! id with
  | Some w => if live_org db orgID && bool_decide (wr_organization w = orgID) && negb (wr_deleted w)
              then entWFToBizWF db (id, w) else Err (NewErrNotFound "workflow")
  | None => Err (NewErrNotFound "workflow")
  end.

(** A live workflow of that name and project *)
Definition workflow_named (project : UUID) (name : string) (w : WorkflowRow) : bool :=
  bool_decide (wr_project w = project) && bool_decide (wr_name w = name) && negb (wr_deleted w).

(** [GetOrgScopedByProjectAndName] *)
Definition GetOrgScopedByProjectAndName (db : ContractDB) (orgID : UUID) (projectName workflowName : string) : result Workflow :=
  match find_where (project_named orgID projectName) (kd_projects db) with
  | None => Err (NewErrNotFound "project")
  | Some (p, _) =>
      match find_where (workflow_named p workflowName) (workflow_rows db) with
      | None => Err (NewErrNotFound "workflow")
      | Some w => entWFToBizWF db w
      end
  end.

(** The project is found or created: the unique index on the live names ignores a duplicate *)
Definition upsert_project (db : ContractDB) (id : UUID) (orgID : UUID) (name : string) : result (UUID * ContractDB) :=
  match find_where (project_named orgID name) (kd_projects db) with
  | Some (p, _) => Ok (p, db)
  | None =>
      _ ← guard_err (bool_decide (is_Some (kd_projects db !! id)) || negb (bool_decide (is_Some (kd_orgs db !! orgID))))
            (EWrap "creating project" (EMsg "constraint failed"));
      Ok (id, with_projects db (<[id := {| pr_name := name; pr_organization := orgID; pr_deleted := false |}]> (kd_projects db)))
  end.

(** The default version of the project is found or created *)
Definition ensure_version (db : ContractDB) (id project : UUID) : result ContractDB :=
  match find_where (version_named project DefaultVersionName) (db_versions (kd_runs db)) with
  | Some _ => Ok db
  | None => with_run_tables db
              <$> map_err (EWrap "creating project version")
                    (createProjectVersionWithTx (kd_runs db) id project DefaultVersionName true None)
  end.

(** A contract that the organization does not let this caller create *)
Definition creation_restricted (opts : WorkflowCreateOpts) : bool :=
  wo_OrgRestrictContractCreationToAdmins opts && negb (wo_UserIsOrgAdmin opts).

Definition create_contract (db : ContractDB) (id vid : UUID) (now : Z) (opts : WorkflowCreateOpts) (orgID project : UUID)
    (name : string) (detected : BizContract) : result (UUID * ContractDB) :=
  _ ← guard_err (creation_restricted opts)
        (NewErrUnauthorizedStr "contract creation is restricted to organization administrators");
  '(_, _, db) ← map_err (EWrap "creating contract")
    (addCreateToTx db id vid now
       {| kc_Name := name; kc_OrgID := orgID; kc_Description := None; kc_Contract := detected; kc_ProjectID := Some project |});
  Ok (id, db).

(** The name in the metadata of a contract that the request brings *)
Definition metadata_name (opts : WorkflowCreateOpts) (detected : BizContract) : string :=
  match wo_ContractBytes opts, ct_schemav2 detected with
  | Some _, Some v2 => meta_name (v2c_metadata v2)
  | _, _ => ""
  end.

(** The contract of a workflow that does not name one *)
Definition implicit_contract (db : ContractDB) (id vid : UUID) (now : Z) (opts : WorkflowCreateOpts) (orgID project : UUID)
    (detected : BizContract) : result (UUID * ContractDB) :=
  let name := metadata_name opts detected in
  if negb (is_empty name) then
    found ← map_err (EWrap "failed to check contract") (contractInOrg db orgID None (Some name));
    match found with
    | Some _ => Err (NewErrAlreadyExists ("contract " +:+ name +:+ " already exists"))
    | None => create_contract db id vid now opts orgID project name detected
    end
  else
    let defaultContractName := wo_Project opts +:+ "-" +:+ wo_Name opts in
    found ← map_err (EWrap "failed to find contract") (contractInOrg db orgID None (Some defaultContractName));
    match found with
    | Some c => Ok (c.1, db)
    | None => create_contract db id vid now opts orgID project defaultContractName detected
    end.

(** A contract that is named has no scope, or that of a project of this name *)
Definition explicit_contract (db : ContractDB) (opts : WorkflowCreateOpts) (orgID contract : UUID) : result (UUID * ContractDB) :=
  found ← contractInOrg db orgID (Some contract) None;
  match found with
  | None => Err (EMsg "ent: workflow_contract not found")
  | Some c =>
      if negb (bool_decide (kr_scope_id c.2 = uuid_Nil)) && bool_decide (kr_scope_type c.2 = ContractScopeProject) then
        match kd_projects db !! kr_scope_id c.2 with
        | Some p => if bool_decide (pr_name p = wo_Project opts) then Ok (contract, db)
                    else Err (NewErrUnauthorizedStr "contract is scoped to a different project")
        | None => Err (NewErrUnauthorizedStr "contract is scoped to a different project")
        end
      else Ok (contract, db)
  end.

Definition new_workflow (opts : WorkflowCreateOpts) (orgID project contract : UUID) (now : Z) : WorkflowRow :=
  {| wr_name := wo_Name opts; wr_team := wo_Team opts; wr_description := wo_Description opts; wr_contract := contract;
     wr_organization := orgID; wr_project := project; wr_deleted := false; wr_runs_count := 0; wr_latest_run := None;
     wr_template := wo_WorkflowTemplateID opts; wr_metadata := ""; wr_created_at := now; wr_updated_at := now |}.

(** The keys and the index on the live names *)
Definition insert_workflow (db : ContractDB) (id : UUID) (w : WorkflowRow) : result ContractDB :=
  let taken (x : WorkflowRow) := workflow_named (wr_project w) (wr_name w) x && bool_decide (wr_organization x = wr_organization w) in
  _ ← guard_err (bool_decide (is_Some (workflow_rows db !! id)) || bool_decide (is_Some (find_where taken (workflow_rows db)))
                 || negb (bool_decide (is_Some (kd_contracts db !! wr_contract w)))
                 || negb (bool_decide (is_Some (kd_projects db !! wr_project w)))
                 || negb (bool_decide (is_Some (kd_orgs db !! wr_organization w))))
        (NewErrAlreadyExists "constraint failed");
  Ok (with_workflow_rows db (<[id := w]> (workflow_rows db))).

(** The identifiers of the new rows *)
Record FreshIDs := { fi_workflow : UUID; fi_project : UUID; fi_version : UUID; fi_contract : UUID; fi_revision : UUID }.

(** The contract that the caller expects; the zero identifier is none *)
Definition expected_contract (db : ContractDB) (opts : WorkflowCreateOpts) (orgID : UUID) : result UUID :=
  contract ← (if is_empty (wo_ContractID opts) then Ok uuid_Nil else raw_uuid (wo_ContractID opts));
  if is_empty (wo_ContractName opts) then Ok contract
  else
    found ← contractInOrg db orgID None (Some (wo_ContractName opts));
    match found with
    | Some c => Ok c.1
    | None => Err (NewErrNotFound ("contract " +:+ wo_ContractName opts))
    end.

(** The transaction of [WorkflowRepo.Create] *)
Definition create_workflow_tx (db : ContractDB) (ids : FreshIDs) (now : Z) (opts : WorkflowCreateOpts) (detected : BizContract)
    (orgID contract : UUID) : result ContractDB :=
  '(project, db) ← upsert_project db (fi_project ids) orgID (wo_Project opts);
  db ← ensure_version db (fi_version ids) project;
  '(contract, db) ←
    (if bool_decide (contract = uuid_Nil)
     then implicit_contract db (fi_contract ids) (fi_revision ids) now opts orgID project detected
     else explicit_contract db opts orgID contract);
  insert_workflow db (fi_workflow ids) (new_workflow opts orgID project contract now).

(** [WorkflowRepo.Create] *)
Definition repo_CreateWorkflow (db : ContractDB) (ids : FreshIDs) (now : Z) (opts : WorkflowCreateOpts) (detected : BizContract)
    : result Workflow * ContractDB :=
  match (org ← raw_uuid (wo_OrgID opts);
         _ ← guard_err (negb (is_empty (wo_ContractName opts)) && negb (is_empty (wo_ContractID opts)))
               (EMsg "contract name and ID cannot be provided at the same time");
         contract ← expected_contract db opts org;
         create_workflow_tx db ids now opts detected org contract) with
  | Err e => (Err e, db)
  | Ok db1 => (repo_FindWorkflow db1 (fi_workflow ids), db1)
  end.

Definition update_row (opts : WorkflowUpdateOpts) (contract : option UUID) (now : Z) (w : WorkflowRow) : WorkflowRow :=
  {| wr_name := wr_name w; wr_team := default (wr_team w) (wu_Team opts);
     wr_description := default (wr_description w) (wu_Description opts); wr_contract := default (wr_contract w) contract;
     wr_organization := wr_organization w; wr_project := wr_project w; wr_deleted := wr_deleted w;
     wr_runs_count := wr_runs_count w; wr_latest_run := wr_latest_run w; wr_template := wr_template w;
     wr_metadata := wr_metadata w; wr_created_at := wr_created_at w; wr_updated_at := now |}.

(** [WorkflowRepo.Update]; the contract of the row must exist *)
Definition repo_UpdateWorkflow (db : ContractDB) (id : UUID) (now : Z) (opts : WorkflowUpdateOpts) : result Workflow * ContractDB :=
  match (match wu_ContractID opts with Some c => Some <$> raw_uuid c | None => Ok None end) with
  | Err e => (Err e, db)
  | Ok contract =>
      match workflow_rows db !! id with
      | None => (Err (EWrap "failed to update workflow" (EMsg "ent: workflow not found")), db)
      | Some w =>
          let w' := update_row opts contract now w in
          if negb (bool_decide (is_Some (kd_contracts db !! wr_contract w'))) then (Err (NewErrAlreadyExists "constraint failed"), db)
          else let db1 := with_workflow_rows db (<[id := w']> (workflow_rows db)) in (repo_FindWorkflow db1 id, db1)
      end
  end.

Definition bump_runs (w : WorkflowRow) : WorkflowRow :=
  {| wr_name := wr_name w; wr_team := wr_team w; wr_description := wr_description w; wr_contract := wr_contract w;
     wr_organization := wr_organization w; wr_project := wr_project w; wr_deleted := wr_deleted w;
     wr_runs_count := wr_runs_count w + 1; wr_latest_run := wr_latest_run w; wr_template := wr_template w;
     wr_metadata := wr_metadata w; wr_created_at := wr_created_at w; wr_updated_at := wr_updated_at w |}.

(** [IncRunsCounter] *)
Definition repo_IncRunsCounter (db : ContractDB) (id : UUID) : ContractDB :=
  with_workflow_rows db (alter bump_runs id (workflow_rows db)).

Definition delete_workflow_row (now : Z) (w : WorkflowRow) : WorkflowRow :=
  {| wr_name := wr_name w; wr_team := wr_team w; wr_description := wr_description w; wr_contract := wr_contract w;
     wr_organization := wr_organization w; wr_project := wr_project w; wr_deleted := true;
     wr_runs_count := wr_runs_count w; wr_latest_run := wr_latest_run w; wr_template := wr_template w;
     wr_metadata := wr_metadata w; wr_created_at := wr_created_at w; wr_updated_at := now |}.

(** [WorkflowRepo.SoftDelete]: the attachments go with the workflow *)
Definition repo_SoftDeleteWorkflow (w : WorkflowDB) (id : UUID) (now : Z) : result WorkflowDB :=
  match workflow_rows (wd_db w) !! id with
  | None => Err (EMsg "ent: workflow not found")
  | Some row =>
      Ok {| wd_db := with_workflow_rows (wd_db w) (<[id := delete_workflow_row now row]> (workflow_rows (wd_db w)));
            wd_members := wd_members w;
            wd_attachments := (fun a => if bool_decide (ia_workflow a = id)
                                        then {| ia_workflow := id; ia_deleted := true |} else a) <$> wd_attachments w |}
  end.
End WorkflowRepo.

(** ** Listing *)

Section Listing.
Context `{Markup} `{DbOrder}.
(** How the database evaluates a JSON predicate on the metadata of a row *)
Context (json_holds : JsonPredicate -> string -> bool).

Definition str_contains (s sub : string) : bool := bool_decide (is_Some (cut sub s)).

Definition latest_run (db : ContractDB) (w : WorkflowRow) : option RunRow := id ← wr_latest_run w; db_runs (kd_runs db) !! id.

(** [applyWorkflowRunFilters]: the workflows of the latest runs that match, or all *)
Definition run_filters (db : ContractDB) (orgID : UUID) (f : WorkflowListOpts) (kw : UUID * WorkflowRow) : bool :=
  let in_org (w : WorkflowRow) := live_org db orgID && bool_decide (wr_organization w = orgID) in
  if is_empty (wl_WorkflowRunRunnerType f) && bool_decide (wl_WorkflowRunLastStatus f = None) then in_org kw.2
  else
    existsb (fun x =>
        in_org x.2 && match latest_run db x.2 with
                      | Some r => bool_decide (run_workflow r = kw.1)
                                  && (is_empty (wl_WorkflowRunRunnerType f) || bool_decide (run_runner_type r = wl_WorkflowRunRunnerType f))
                                  && match wl_WorkflowRunLastStatus f with Some s => bool_decide (run_state r = s) | None => true end
                      | None => false
                      end)
      (map_to_list (workflow_rows db)).

(** The conditions of [applyWorkflowFilters] that narrow the query, the predicates
    of the JSON filters being built before *)
Definition narrow_filters (db : ContractDB) (f : WorkflowListOpts) (predicates : list JsonPredicate) (w : WorkflowRow) : bool :=
  match wl_ProjectIDs f with Some ps => bool_decide (wr_project w ∈ ps) | None => true end
  && match wl_WorkflowActiveWindow f with
     | Some t => bool_decide (tw_From t <= wr_updated_at w <= tw_To t) | None => true end
  && (bool_decide (wl_WorkflowProjectNames f = [])
      || match kd_projects db !! wr_project w with Some p => bool_decide (pr_name p ∈ wl_WorkflowProjectNames f) | None => false end)
  && forallb (fun p => json_holds p (wr_metadata w)) predicates.

(** Those that are alternatives *)
Definition any_filter (f : WorkflowListOpts) (w : WorkflowRow) : bool :=
  let conditions := (if is_empty (wl_WorkflowTeam f) then [] else [str_contains (wr_team w) (wl_WorkflowTeam f)])
                    ++ (if is_empty (wl_WorkflowName f) then [] else [str_contains (wr_name w) (wl_WorkflowName f)])
                    ++ (if is_empty (wl_WorkflowDescription f) then []
                        else [str_contains (wr_description w) (wl_WorkflowDescription f)]) in
  match conditions with [] => true | _ => existsb id conditions end.

Definition on_metadata (f : JSONFilter) : JSONFilter :=
  {| jf_Column := "metadata"; jf_FieldPath := jf_FieldPath f; jf_Value := jf_Value f; jf_Operator := jf_Operator f |}.

(** [applyWorkflowFilters] *)
Definition applyWorkflowFilters (db : ContractDB) (f : WorkflowListOpts) : result (WorkflowRow -> bool) :=
  predicates ← mapM_result (fun j => map_err (fun _ => NewErrValidationStr "invalid JSON filter")
                                       (BuildEntSelectorFromJSONFilter (on_metadata j))) (wl_JSONFilters f);
  Ok (fun w => narrow_filters db f predicates w && any_filter f w).

Definition matching_workflows (db : ContractDB) (orgID : UUID) (f : WorkflowListOpts) (keep : WorkflowRow -> bool)
    : list (UUID * WorkflowRow) :=
  List.filter (fun kw => run_filters db orgID f kw && negb (wr_deleted kw.2) && keep kw.2) (map_to_list (workflow_rows db)).

Definition newest_workflow (a b : UUID * WorkflowRow) : bool := bool_decide (wr_created_at b.2 <= wr_created_at a.2).

(** [WorkflowRepo.List]: a page of the matches and their number *)
Definition repo_ListWorkflows (db : ContractDB) (orgID : UUID) (f : WorkflowListOpts) (pg : OffsetPaginationOpts)
    : result (list Workflow * Z) :=
  keep ← applyWorkflowFilters db f;
  let rows := matching_workflows db orgID f keep in
  page ← mapM_result (fun w => map_err (EWrap "converting entity") (entWFToBizWF db w))
    (take (Z.to_nat (Limit pg)) (drop (Z.to_nat (Offset pg)) (order_by newest_workflow rows)));
  Ok (page, Z.of_nat (length rows)).
End Listing.

(** ** The use case (biz/workflow.go) *)

Section WorkflowUseCase.
Context `{UuidLib} `{Markup} `{DbOrder}.

Definition ErrImplicitWorkflowCreationDisabled : string := "implicit workflow and project creation is disabled for this organization".

(** What [Create] checks, with the organization and the contract that it found *)
Definition create_workflow_checks (db : ContractDB) (opts : WorkflowCreateOpts) : result (UUID * BizContract) :=
  _ ← guard_err (is_empty (wo_Name opts)) (EMsg "workflow name is required");
  _ ← guard_err (is_empty (wo_Project opts)) (EMsg "project name is required");
  _ ← guard_err (is_empty (wo_OrgID opts)) (EMsg "organization ID is required");
  defaultContract ← map_err (EWrap "failed to create default contract")
    (createDefaultContract (wo_Project opts +:+ "-" +:+ wo_Name opts));
  detected ← match wo_ContractBytes opts with
             | Some raw => map_err (EWrap "failed to load contract") (identifyUnMarshalAndValidateRawContract raw)
             | None => Ok defaultContract
             end;
  _ ← map_err (fun _ => NewErrValidationStr "invalid name") (ValidateIsDNS1123 (wo_Name opts));
  _ ← map_err (fun _ => NewErrValidationStr "invalid project") (ValidateIsDNS1123 (wo_Project opts));
  org ← map_err (EWrap "failed to parse org ID") (raw_uuid (wo_OrgID opts));
  _ ← (if wo_ImplicitCreation opts then
         match kd_orgs db !! org with
         | Some o => if og_deleted o then Err (NewErrNotFound "organization")
                     else guard_err (og_prevent_implicit o) (ESentinel ErrImplicitWorkflowCreationDisabled)
         | None => Err (NewErrNotFound "organization")
         end
       else Ok tt);
  Ok (org, detected).

(** [WorkflowUseCase.Create]; [membership] is the identifier of the owner's row *)
Definition uc_CreateWorkflow (w : WorkflowDB) (ids : FreshIDs) (membership : UUID) (now : Z) (opts : WorkflowCreateOpts)
    : result Workflow * WorkflowDB :=
  match create_workflow_checks (wd_db w) opts with
  | Err e => (Err e, w)
  | Ok (org, detected) =>
      match repo_CreateWorkflow (wd_db w) ids now opts detected with
      | (Err e, db1) =>
          (Err (if IsErrAlreadyExists e then NewErrAlreadyExists "workflow already exists" else EWrap "can't create the workflow" e),
           with_db w db1)
      | (Ok wf, db1) =>
          (Ok wf, {| wd_db := db1; wd_attachments := wd_attachments w;
                     wd_members := match wo_Owner opts with
                                   | Some owner => SetProjectOwner (wd_members w) membership now org (wf_ProjectID wf) owner
                                   | None => wd_members w
                                   end |})
      end
  end.

(** [WorkflowUseCase.Update] *)
Definition uc_UpdateWorkflow (db : ContractDB) (now : Z) (orgID workflowID : string) (opts : WorkflowUpdateOpts)
    : result Workflow * ContractDB :=
  match (org ← parse_uuid orgID; id ← parse_uuid workflowID;
         _ ← GetOrgScoped db org id;
         _ ← match wu_ContractID opts with
             | Some c => found ← uc_FindContractByID db orgID c;
                         guard_err (bool_decide (found = None)) (NewErrNotFound "contract")
             | None => Ok tt
             end;
         Ok id) with
  | Err e => (Err e, db)
  | Ok id =>
      let '(r, db1) := repo_UpdateWorkflow db id now opts in
      (map_err (fun e => if IsErrAlreadyExists e then NewErrValidationStr "name already taken"
                         else EWrap "failed to update workflow" e) r, db1)
  end.

(** [findOrCreateContract] *)
Definition findOrCreateContract (random : nat -> string) (db : ContractDB) (id vid : UUID) (now : Z) (orgID name : string)
    : result (WorkflowContract * ContractDB) :=
  match uc_FindContractByName db orgID name with
  | Ok e => Ok (e, db)
  | Err _ => uc_CreateContract random db id vid now
      {| kw_OrgID := orgID; kw_Name := name; kw_RawSchema := ""; kw_Description := None; kw_ProjectID := None;
         kw_AddUniquePrefix := true |}
  end.

(** [WorkflowUseCase.List] *)
Definition uc_ListWorkflows (json_holds : JsonPredicate -> string -> bool) (db : ContractDB) (orgID : string)
    (f : WorkflowListOpts) (pg : option OffsetPaginationOpts) : result (list Workflow * Z) :=
  org ← parse_uuid orgID;
  repo_ListWorkflows json_holds db org f (default NewDefaultOffsetPaginationOpts pg).

(** [WorkflowUseCase.IncRunsCounter] *)
Definition uc_IncRunsCounter (db : ContractDB) (workflowID : string) : result ContractDB :=
  id ← parse_uuid workflowID; Ok (repo_IncRunsCounter db id).

(** [WorkflowUseCase.FindByID], [FindByIDInOrg] and [FindByNameInOrg] *)
Definition uc_FindWorkflowByID (db : ContractDB) (workflowID : string) : result Workflow :=
  id ← raw_uuid workflowID; repo_FindWorkflow db id.

Definition uc_FindWorkflowByIDInOrg (db : ContractDB) (orgID workflowID : string) : result Workflow :=
  org ← parse_uuid orgID; id ← parse_uuid workflowID;
  map_err (EWrap "failed to get workflow") (GetOrgScoped db org id).

Definition uc_FindWorkflowByName (db : ContractDB) (orgID projectName workflowName : string) : result Workflow :=
  org ← parse_uuid orgID;
  _ ← guard_err (is_empty workflowName) (NewErrValidationStr "empty workflow name");
  _ ← guard_err (is_empty projectName) (NewErrValidationStr "empty project name");
  map_err (EWrap "failed to get workflow") (GetOrgScopedByProjectAndName db org projectName workflowName).

(** [WorkflowUseCase.Delete] *)
Definition uc_DeleteWorkflow (w : WorkflowDB) (now : Z) (orgID workflowID : string) : result WorkflowDB :=
  org ← parse_uuid orgID; id ← parse_uuid workflowID;
  _ ← map_err (EWrap "failed to get workflow") (GetOrgScoped (wd_db w) org id);
  map_err (EWrap "failed to soft delete workflow") (repo_SoftDeleteWorkflow w id now).
End WorkflowUseCase.

(** ** The service (service/workflow.go) *)

(** [workflowsActivityTimeWindowPbToTimeWindow], of times in seconds *)
Inductive WorkflowActivityWindow := WINDOW_UNSPECIFIED | WINDOW_LAST_DAY | WINDOW_LAST_7_DAYS | WINDOW_LAST_30_DAYS.

Definition workflowsActivityTimeWindow (now : Z) (tw : WorkflowActivityWindow) : result TimeWindow :=
  let days n := Ok {| tw_From := now - n * 86400; tw_To := now |} in
  match tw with
  | WINDOW_LAST_DAY => days 1
  | WINDOW_LAST_7_DAYS => days 7
  | WINDOW_LAST_30_DAYS => days 30
  | WINDOW_UNSPECIFIED => Err (EMsg "invalid time window")
  end.

(** [pbJSONFilterOperatorToPkg] and [pbJSONFilterToPkg] *)
Inductive JSONOperator := JSON_OPERATOR_UNSPECIFIED | JSON_OPERATOR_EQ | JSON_OPERATOR_NEQ | JSON_OPERATOR_IN.

Definition pbJSONFilterOperatorToPkg (o : JSONOperator) : string :=
  match o with
  | JSON_OPERATOR_EQ => OpEQ | JSON_OPERATOR_NEQ => OpNEQ | JSON_OPERATOR_IN => OpIN
  | JSON_OPERATOR_UNSPECIFIED => ""
  end.

Definition pbJSONFilterToPkg (path value : string) (o : JSONOperator) : JSONFilter :=
  {| jf_Column := ""; jf_FieldPath := path; jf_Value := JString value; jf_Operator := pbJSONFilterOperatorToPkg o |}.

(** kratos' [errors.IsNotFound] *)
Definition transport_not_found (e : goerr) : bool := bool_decide (grpc_status e = Some NotFound).

Definition project_named_ref (name : string) : IdentityReference := {| ir_Id := ""; ir_Name := name |}.

Section WorkflowService.
Context `{UuidLib} `{Markup} `{DbOrder} `{ProviderNet}.
Context (enforce : string -> Authz.Policy -> result bool) (others : goerr -> bool).
Context (policyRegistry : Registry) (cliVersion : string) (rawToken : result string).
Context (json_holds : JsonPredicate -> string -> bool).

(** The permission on a project by its name *)
Definition on_project (db : ContractDB) (orgID : string) (c : Ctx) (project : string) (policy : Authz.Policy) : result (UUID * string) :=
  userHasPermissionOnProject enforce others (FindProjectByReference db orgID) c (project_named_ref project) policy.

(** To create workflows in a project, or to create the project if there is none *)
Definition may_create_workflow (db : ContractDB) (orgID : string) (c : Ctx) (project : string) : result unit :=
  match on_project db orgID c project PolicyWorkflowCreate with
  | Ok _ => Ok tt
  | Err e => if transport_not_found e then userCanCreateProject enforce others c else Err e
  end.

Record CreateRequest := {
  cr_Name : string;
  cr_ProjectName : string;
  cr_Team : string;
  cr_Description : string;
  cr_ContractName : string;
  cr_ContractBytes : option string;
  cr_WorkflowTemplateId : string
}.

(** The owner of a project that the call creates, and whether the user administers the organization *)
Definition current_owner (c : Ctx) : result (option UUID * bool) :=
  match cx_user c with
  | Some u => id ← map_err (handleUseCaseErr others) (raw_uuid u); Ok (Some id, isUserOrgAdmin c)
  | None => Ok (None, false)
  end.

(** The options of [WorkflowService.Create] *)
Definition create_workflow_request (db : ContractDB) (c : Ctx) (req : CreateRequest) : result WorkflowCreateOpts :=
  currentOrg ← requireCurrentOrg c;
  org ← map_err (handleUseCaseErr others) (org_FindByID db (org_ID currentOrg));
  _ ← may_create_workflow db (org_ID currentOrg) c (cr_ProjectName req);
  template ← (if is_empty (cr_WorkflowTemplateId req) then Ok None
              else match uuid_Parse (cr_WorkflowTemplateId req) with
                   | Some t => Ok (Some t)
                   | None => Err (transport_err BadRequest "invalid workflow template ID") end);
  '(owner, admin) ← current_owner c;
  Ok {| wo_Name := cr_Name req; wo_OrgID := org_ID currentOrg; wo_Project := cr_ProjectName req; wo_Team := cr_Team req;
        wo_Description := cr_Description req; wo_ContractName := cr_ContractName req; wo_ContractID := "";
        wo_ContractBytes := cr_ContractBytes req; wo_Owner := owner; wo_ImplicitCreation := false; wo_UserIsOrgAdmin := admin;
        wo_OrgRestrictContractCreationToAdmins := og_restrict_contracts org; wo_WorkflowTemplateID := template |}.

(** A use case's error is converted *)
Definition workflow_reply {A S} (r : result A * S) : result A * S := (map_err (handleUseCaseErr others) r.1, r.2).

(** [WorkflowService.Create] *)
Definition svc_CreateWorkflow (w : WorkflowDB) (ids : FreshIDs) (membership : UUID) (now : Z) (c : Ctx) (req : CreateRequest)
    : result Workflow * WorkflowDB :=
  match create_workflow_request (wd_db w) c req with
  | Err e => (Err e, w)
  | Ok opts => workflow_reply (uc_CreateWorkflow w ids membership now opts)
  end.

(** What [Update], [Delete] and [View] check first: the permission and the workflow *)
Definition workflow_for (db : ContractDB) (c : Ctx) (project name : string) (policy : Authz.Policy) : result (Org * Workflow) :=
  currentOrg ← requireCurrentOrg c;
  _ ← on_project db (org_ID currentOrg) c project policy;
  wf ← map_err (handleUseCaseErr others) (uc_FindWorkflowByName db (org_ID currentOrg) project name);
  Ok (currentOrg, wf).

(** [WorkflowService.Update] *)
Definition svc_UpdateWorkflow (db : ContractDB) (now : Z) (c : Ctx) (project name : string) (team description contractName : option string)
    : result Workflow * ContractDB :=
  match ('(org, wf) ← workflow_for db c project name PolicyWorkflowUpdate;
         contractID ← match contractName with
                      | Some n => k ← map_err (handleUseCaseErr others) (uc_FindContractByName db (org_ID org) n); Ok (Some (wk_ID k))
                      | None => Ok None
                      end;
         Ok (org, wf, contractID)) with
  | Err e => (Err e, db)
  | Ok (org, wf, contractID) =>
      workflow_reply (uc_UpdateWorkflow db now (org_ID org) (wf_ID wf)
        {| wu_Team := team; wu_Description := description; wu_ContractID := contractID |})
  end.

(** [WorkflowService.Delete] *)
Definition svc_DeleteWorkflow (w : WorkflowDB) (now : Z) (c : Ctx) (project name : string) : result WorkflowDB :=
  '(org, wf) ← workflow_for (wd_db w) c project name PolicyWorkflowDelete;
  map_err (handleUseCaseErr others) (uc_DeleteWorkflow w now (org_ID org) (wf_ID wf)).

(** [WorkflowService.View] *)
Definition svc_ViewWorkflow (db : ContractDB) (c : Ctx) (project name : string) : result Workflow :=
  '(_, wf) ← workflow_for db c project name PolicyWorkflowRead; Ok wf.

(** [WorkflowService.List]: whatever the filters, the projects are those that the caller sees *)
Definition with_projects_filter (f : WorkflowListOpts) (ps : option (list UUID)) : WorkflowListOpts :=
  {| wl_WorkflowName := wl_WorkflowName f; wl_WorkflowDescription := wl_WorkflowDescription f; wl_WorkflowTeam := wl_WorkflowTeam f;
     wl_WorkflowProjectNames := wl_WorkflowProjectNames f; wl_WorkflowRunRunnerType := wl_WorkflowRunRunnerType f;
     wl_WorkflowActiveWindow := wl_WorkflowActiveWindow f; wl_WorkflowRunLastStatus := wl_WorkflowRunLastStatus f;
     wl_JSONFilters := wl_JSONFilters f; wl_ProjectIDs := ps |}.

Definition svc_ListWorkflows (db : ContractDB) (c : Ctx) (f : WorkflowListOpts) (pagination : option (Z * Z))
    : result (list Workflow * Z) :=
  currentOrg ← requireCurrentOrg c;
  pg ← match pagination with
       | Some (page, size) => map_err (handleUseCaseErr others) (NewOffsetPaginationOpts page size)
       | None => Ok NewDefaultOffsetPaginationOpts
       end;
  visible ← visibleProjects c;
  map_err (handleUseCaseErr others) (uc_ListWorkflows json_holds db (org_ID currentOrg) (with_projects_filter f visible) (Some pg)).

(** ** Implicit creation (service/attestation.go) *)

Record FindOrCreateRequest := {
  fr_WorkflowName : string;
  fr_ProjectName : string;
  fr_ContractName : string;
  fr_ContractBytes : option string
}.

(** The checks of [FindOrCreateWorkflow]; [account] is the organization of the caller's account *)
Definition find_or_create_checks (db : ContractDB) (c : Ctx) (account : option string) (req : FindOrCreateRequest) : result string :=
  match account with
  | None => Err (transport_err NotFound "neither robot account nor API token found")
  | Some orgID =>
      _ ← guard_err (match cx_token c with
                     | Some t => match ct_WorkflowName t with Some n => negb (bool_decide (n = fr_WorkflowName req)) | None => false end
                     | None => false end)
            (transport_err Forbidden "API token is workflow-scoped and cannot create or look up other workflows");
      _ ← may_create_workflow db orgID c (fr_ProjectName req);
      token ← rawToken;
      _ ← match fr_ContractBytes req with
          | Some raw => map_err (handleUseCaseErr others) (ValidateContractPolicies policyRegistry cliVersion raw token [] [])
          | None => Ok tt
          end;
      Ok orgID
  end.

(** The options of the workflow that it creates *)
Definition implicit_options (db : ContractDB) (c : Ctx) (orgID : string) (req : FindOrCreateRequest) : result WorkflowCreateOpts :=
  org ← map_err (handleUseCaseErr others) (org_FindByID db orgID);
  '(owner, admin) ← current_owner c;
  Ok {| wo_Name := fr_WorkflowName req; wo_OrgID := orgID; wo_Project := fr_ProjectName req; wo_Team := ""; wo_Description := "";
        wo_ContractName := fr_ContractName req; wo_ContractID := ""; wo_ContractBytes := fr_ContractBytes req; wo_Owner := owner;
        wo_ImplicitCreation := true; wo_UserIsOrgAdmin := admin;
        wo_OrgRestrictContractCreationToAdmins := og_restrict_contracts org; wo_WorkflowTemplateID := None |}.

(** [FindOrCreateWorkflow] *)
Definition svc_FindOrCreateWorkflow (w : WorkflowDB) (ids : FreshIDs) (membership vid : UUID) (now : Z) (c : Ctx)
    (account : option string) (req : FindOrCreateRequest) : result Workflow * WorkflowDB :=
  match find_or_create_checks (wd_db w) c account req with
  | Err e => (Err e, w)
  | Ok orgID =>
      match uc_FindWorkflowByName (wd_db w) orgID (fr_ProjectName req) (fr_WorkflowName req) with
      | Ok wf =>
          match fr_ContractBytes req with
          | Some raw =>
              let '(r, db1) := uc_UpdateContract (wd_db w) vid now orgID (wf_ContractName wf)
                                 {| kp_RawSchema := raw; kp_Description := None |} in
              (_ ← map_err (handleUseCaseErr others) r; Ok wf, with_db w db1)
          | None =>
              if negb (is_empty (fr_ContractName req)) && negb (bool_decide (fr_ContractName req = wf_ContractName wf))
              then (Err (transport_err BadRequest "you can't change to another contract during the attestation process"), w)
              else (Ok wf, w)
          end
      | Err e =>
          if negb (IsNotFound e) then (Err (handleUseCaseErr others e), w)
          else match implicit_options (wd_db w) c orgID req with
          | Err e => (Err e, w)
          | Ok opts =>
              let '(r, w1) := uc_CreateWorkflow w ids membership now opts in
              (map_err (fun e => if errors_is ErrImplicitWorkflowCreationDisabled e
                                 then transport_err Forbidden "creating workflows during the attestation process is disabled for this organization"
                                 else handleUseCaseErr others (EWrap "failed to initialize the attestation" e)) r, w1)
          end
      end
  end.
End WorkflowService.

(** ** The invariant *)

Section Invariant.
Context `{Markup}.

(** A workflow that is not deleted has a contract that is not deleted, in its
    organization, and a project of its organization *)
Record workflows_ok (db : ContractDB) : Prop := {
  wok_contracts : contracts_ok db;
  wok_nil : kd_projects db !! uuid_Nil = None;
  wok_projects : forall i j p q, kd_projects db !! i = Some p -> kd_projects db !! j = Some q ->
    pr_deleted p = false -> pr_deleted q = false -> pr_organization p = pr_organization q -> pr_name p = pr_name q -> i = j;
  wok_uses : forall id w, workflow_rows db !! id = Some w -> wr_deleted w = false ->
    (exists c, kd_contracts db !! wr_contract w = Some c /\ kr_deleted c = false /\ kr_organization c = wr_organization w)
    /\ exists p, kd_projects db !! wr_project w = Some p /\ pr_organization p = wr_organization w;
  wok_names : forall i j w v, workflow_rows db !! i = Some w -> workflow_rows db !! j = Some v ->
    wr_deleted w = false -> wr_deleted v = false -> wr_project w = wr_project v -> wr_name w = wr_name v -> i = j
}.

(** The contracts change, but those in use stay *)
Lemma ok_contracts db db' :
  workflows_ok db -> contracts_ok db' -> kd_projects db' = kd_projects db -> workflow_rows db' = workflow_rows db ->
  (forall id w c, workflow_rows db !! id = Some w -> wr_deleted w = false ->
     kd_contracts db !! wr_contract w = Some c -> kr_deleted c = false ->
     exists c', kd_contracts db' !! wr_contract w = Some c' /\ kr_deleted c' = false /\ kr_organization c' = kr_organization c) ->
  workflows_ok db'.
Proof.
  intros Hok Hc Hp Hw Hk. split; [done|rewrite Hp; apply Hok|rewrite Hp; apply Hok| |rewrite Hw; apply Hok].
  intros id w. rewrite Hw, Hp. intros Hid Hd. destruct (wok_uses _ Hok id w Hid Hd) as [(c & Hc1 & Hc2 & Hc3) Hpr].
  split; [|done]. destruct (Hk id w c Hid Hd Hc1 Hc2) as (c' & ? & ? & ?). exists c'. split; [done|]. split; [done | congruence].
Qed.

(** A row of a workflow that keeps its name and project, and whose contract and
    project are as they must be *)
Lemma ok_workflow_row db id w :
  workflows_ok db ->
  (wr_deleted w = false ->
     (exists c, kd_contracts db !! wr_contract w = Some c /\ kr_deleted c = false /\ kr_organization c = wr_organization w)
     /\ exists p, kd_projects db !! wr_project w = Some p /\ pr_organization p = wr_organization w) ->
  (wr_deleted w = false -> forall j v, j <> id -> workflow_rows db !! j = Some v -> wr_deleted v = false ->
     wr_project v = wr_project w -> wr_name v = wr_name w -> False) ->
  workflows_ok (with_workflow_rows db (<[id := w]> (workflow_rows db))).
Proof.
  intros Hok Hu Hn. split; cbn; [|apply Hok..| |].
  - destruct (wok_contracts _ Hok) as [A B C D]. by split.
  - intros i v [[<- <-] | [_ Hv]]%lookup_insert_Some; [exact Hu | apply (wok_uses _ Hok i v Hv)].
  - intros i j a b [[<- <-] | [Hi Ha]]%lookup_insert_Some [[<- <-] | [Hj Hb]]%lookup_insert_Some Da Db Hp Hm; [done| | |].
    + exfalso. by apply (Hn Da j b).
    + exfalso. by apply (Hn Db i a).
    + by apply (wok_names _ Hok i j a b).
Qed.

(** Projects are only added *)
Lemma contracts_ok_projects db db' :
  contracts_ok db -> kd_contracts db' = kd_contracts db -> kd_versions db' = kd_versions db ->
  (forall i p, kd_projects db !! i = Some p -> kd_projects db' !! i = Some p) -> contracts_ok db'.
Proof.
  intros [A B C D] Hc Hv Hp. split; unfold has_revision, scope_ok in *; rewrite ?Hc, ?Hv; try done.
  intros i a Ha. destruct (B i a Ha) as [? | (Ht & Hn & p & Hp1 & Hp2)]; [by left | right; naive_solver].
Qed.
End Invariant.

Section Steps.
Context `{UuidLib} `{MarkupLaws} `{DbOrderLaws}.

(** The order of creation of projects and versions *)
Lemma upsert_project_Ok db id org name p db' :
  workflows_ok db -> id <> uuid_Nil -> upsert_project db id org name = Ok (p, db') ->
  workflows_ok db' /\ kd_contracts db' = kd_contracts db /\ kd_versions db' = kd_versions db /\ kd_orgs db' = kd_orgs db
  /\ kd_runs db' = kd_runs db /\ (forall i x, kd_projects db !! i = Some x -> kd_projects db' !! i = Some x)
  /\ exists row, kd_projects db' !! p = Some row /\ pr_name row = name /\ pr_organization row = org /\ pr_deleted row = false.
Proof.
  intros Hok Hid. unfold upsert_project. destruct (find_where _ _) as [[q row]|] eqn:Ef.
  - intros [= <- <-]. apply find_where_Some in Ef as [Hq Hn]. unfold project_named in Hn. split_bool.
    split; [done|]. do 5 (split; [done|]). by exists row.
  - intros Hg. apply bind_Ok in Hg as ([] & Hg%guard_err_Ok & [= <- <-]). apply orb_false_iff in Hg as [Hg1 Hg2].
    apply bool_decide_eq_false in Hg1. assert (kd_projects db !! id = None) as Hnone by by apply eq_None_not_Some.
    assert (forall i x, kd_projects db !! i = Some x ->
      <[id:={| pr_name := name; pr_organization := org; pr_deleted := false |}]> (kd_projects db) !! i = Some x) as Hkeep.
    { intros i x Hi. rewrite lookup_insert_ne; [done | congruence]. }
    split.
    { split; cbn; [|by rewrite lookup_insert_ne by done; apply Hok| | |apply Hok].
      - eapply contracts_ok_projects; [apply Hok|done..].
      - intros i j a b [[<- <-] | [Hi Ha]]%lookup_insert_Some [[<- <-] | [Hj Hb]]%lookup_insert_Some Da Db Ho Hn; [done| | |].
        + pose proof (find_where_None _ _ _ _ Ef Hb) as Hx. unfold project_named in Hx. cbn in Ho, Hn.
          rewrite Db, <- Ho, <- Hn, !bool_decide_eq_true_2 in Hx by done. done.
        + pose proof (find_where_None _ _ _ _ Ef Ha) as Hx. unfold project_named in Hx. cbn in Ho, Hn.
          rewrite Da, Ho, Hn, !bool_decide_eq_true_2 in Hx by done. done.
        + by apply (wok_projects _ Hok i j a b).
      - intros i w Hi Hd. destruct (wok_uses _ Hok i w Hi Hd) as [Hc (q & Hq & Hqo)]. split; [done|]. exists q. split; [by apply Hkeep | done]. }
    do 4 (split; [done|]). split; [done|]. eexists. cbn. by rewrite lookup_insert_eq.
Qed.

(** Only the versions of projects change *)
Lemma ensure_version_Ok db id p db' :
  workflows_ok db -> ensure_version db id p = Ok db' ->
  workflows_ok db' /\ kd_contracts db' = kd_contracts db /\ kd_versions db' = kd_versions db /\ kd_orgs db' = kd_orgs db
  /\ kd_projects db' = kd_projects db /\ workflow_rows db' = workflow_rows db.
Proof.
  intros Hok. unfold ensure_version. destruct (find_where _ _); [by intros [= <-]|].
  destruct (createProjectVersionWithTx _ _ _ _ _ _) as [r|] eqn:Ec; cbn; [|done]. intros [= <-].
  assert (db_workflows r = db_workflows (kd_runs db)) as Hw.
  { unfold createProjectVersionWithTx in Ec. apply bind_Ok in Ec as (_ & _ & Ec).
    by repeat case_match; simplify_eq/=. }
  split; [|done]. apply (ok_contracts db); [done| |done|exact Hw|naive_solver].
  eapply contracts_ok_projects; [apply Hok|done..].
Qed.

(** The contract of a new workflow, as the tables were and as they are *)
Definition contract_choice (db db' : ContractDB) (opts : WorkflowCreateOpts) (detected : BizContract) (contract project : UUID)
    (kid : UUID) (krow : ContractRow) : Prop :=
  if bool_decide (contract = uuid_Nil) then
    let name := metadata_name opts detected in
    kr_name krow = (if is_empty name then wo_Project opts +:+ "-" +:+ wo_Name opts else name)
    /\ (is_empty name = true /\ kd_contracts db !! kid = Some krow
        \/ kd_contracts db !! kid = None /\ kr_scope_type krow = ContractScopeProject /\ kr_scope_id krow = project)
  else
    kid = contract /\ kd_contracts db !! kid = Some krow
    /\ (kr_scope_type krow = ""
        \/ exists p, kd_projects db' !! kr_scope_id krow = Some p /\ pr_name p = wo_Project opts).

(** What a step of the transaction leaves alone *)
Record kept_tables (db db' : ContractDB) : Prop := {
  kt_projects : kd_projects db' = kd_projects db;
  kt_orgs : kd_orgs db' = kd_orgs db;
  kt_rows : workflow_rows db' = workflow_rows db;
  kt_contracts : forall i c, kd_contracts db !! i = Some c -> kd_contracts db' !! i = Some c
}.

Lemma create_contract_Ok db id vid now opts org project name detected k db' :
  workflows_ok db -> (ct_raw detected <> "" -> readable_contract detected) -> project_in_org db org (Some project) ->
  create_contract db id vid now opts org project name detected = Ok (k, db') ->
  workflows_ok db' /\ kept_tables db db' /\ creation_restricted opts = false /\ kd_contracts db !! k = None
  /\ exists row, kd_contracts db' !! k = Some row /\ kr_deleted row = false /\ kr_organization row = org /\ kr_name row = name
       /\ kr_scope_type row = ContractScopeProject /\ kr_scope_id row = project.
Proof.
  intros Hok Hr Hp. unfold create_contract. intros E. apply bind_Ok in E as ([] & Hg%guard_err_Ok & E).
  apply bind_Ok in E as ([[row version] db1] & Ha%map_err_Ok & [= <- <-]).
  pose proof Ha as Ha'. apply addCreateToTx_Ok in Ha' as (-> & -> & Hcf & Hf & Hraw & Hdb).
  apply contract_conflict_false in Hcf as (_ & Hid & _).
  pose proof (ok_create _ _ _ _ _ _ _ _ (wok_contracts _ Hok) Ha (Hr Hraw) Hp) as Hc.
  assert (kept_tables db db1) as Hk.
  { subst db1. split; cbn; try done. intros i c Hi. rewrite lookup_insert_ne; [done | congruence]. }
  split; [|split; [done|split; [done|split; [done|]]]].
  - apply (ok_contracts db); [done|done|apply Hk|apply Hk|]. intros i w c _ _ Hi Hd. exists c. split; [by apply Hk | done].
  - eexists. subst db1. cbn. split; [by rewrite lookup_insert_eq | done].
Qed.

Lemma implicit_contract_Ok db id vid now opts org project detected k db' :
  workflows_ok db -> (ct_raw detected <> "" -> readable_contract detected) -> project_in_org db org (Some project) ->
  implicit_contract db id vid now opts org project detected = Ok (k, db') ->
  workflows_ok db' /\ kept_tables db db' /\ (creation_restricted opts = true -> db' = db)
  /\ exists row, kd_contracts db' !! k = Some row /\ kr_deleted row = false /\ kr_organization row = org
       /\ contract_choice db db' opts detected uuid_Nil project k row.
Proof.
  intros Hok Hr Hp. unfold implicit_contract, contract_choice.
  destruct (is_empty (metadata_name opts detected)) eqn:Ee; cbn [negb].
  - intros E. apply bind_Ok in E as ([[i row]|] & Hf%map_err_Ok & E).
    + cbn in E. injection E as <- <-. apply contract_is_live in Hf as (Hrow & Ho & Hd & Hn).
      split; [done|]. split; [by split|]. split; [done|]. exists row. cbn. naive_solver.
    + apply create_contract_Ok in E as (? & ? & Hg & Hk & row & ? & ? & ? & ? & ? & ?); [|done..].
      split; [done|]. split; [done|]. split; [congruence|]. exists row. cbn. naive_solver.
  - intros E. apply bind_Ok in E as ([[i row]|] & Hf%map_err_Ok & E); [done|].
    apply create_contract_Ok in E as (? & ? & Hg & Hk & row & ? & ? & ? & ? & ? & ?); [|done..].
    split; [done|]. split; [done|]. split; [congruence|]. exists row. cbn. naive_solver.
Qed.

Lemma explicit_contract_Ok db opts org contract project detected k db' :
  workflows_ok db -> contract <> uuid_Nil -> explicit_contract db opts org contract = Ok (k, db') ->
  db' = db /\ exists row, kd_contracts db !! k = Some row /\ kr_deleted row = false /\ kr_organization row = org
       /\ contract_choice db db opts detected contract project k row.
Proof.
  intros Hok Hnil. unfold explicit_contract, contract_choice. intros E. apply bind_Ok in E as ([[i row]|] & Hf & E); [|done].
  apply contractInOrg_Some in Hf as (Hrow & Ho & Hd & Hi & _). specialize (Hi contract eq_refl). subst i.
  rewrite (bool_decide_eq_false_2 (contract = uuid_Nil)) by done. cbn [snd fst] in E.
  destruct (ko_scope _ (wok_contracts _ Hok) _ _ Hrow) as [[Ht Hs] | (Ht & Hs & _)]; rewrite Ht in E.
  - rewrite Hs, (bool_decide_eq_true_2 (uuid_Nil = uuid_Nil)) in E by done. cbn in E. injection E as <- <-. split; [done|]. exists row. repeat split; try done. by left.
  - rewrite (bool_decide_eq_false_2 (kr_scope_id row = uuid_Nil)), bool_decide_eq_true_2 in E by done. cbn [negb andb] in E.
    destruct (kd_projects db !! kr_scope_id row) as [p|] eqn:Ep; [|done]. case_bool_decide as Hn; [|done].
    injection E as <- <-. split; [done|]. exists row. repeat split; try done. right. by exists p.
Qed.

(** What the transaction of a creation does *)
Lemma create_workflow_tx_Ok db ids now opts detected org contract db' :
  workflows_ok db -> fi_project ids <> uuid_Nil -> (ct_raw detected <> "" -> readable_contract detected) ->
  create_workflow_tx db ids now opts detected org contract = Ok db' ->
  workflows_ok db' /\ (creation_restricted opts = true -> kd_contracts db' = kd_contracts db)
  /\ kd_orgs db' = kd_orgs db
  /\ (forall i w, workflow_rows db !! i = Some w -> workflow_rows db' !! i = Some w)
  /\ exists project prow kid krow,
       workflow_rows db' !! fi_workflow ids = Some (new_workflow opts org project kid now)
       /\ kd_projects db' !! project = Some prow /\ pr_name prow = wo_Project opts /\ pr_organization prow = org /\ pr_deleted prow = false
       /\ kd_contracts db' !! kid = Some krow /\ kr_deleted krow = false /\ kr_organization krow = org
       /\ contract_choice db db' opts detected contract project kid krow.
Proof.
  intros Hok Hid Hr. unfold create_workflow_tx. intros E. apply bind_Ok in E as ([project db1] & Hup & E).
  apply upsert_project_Ok in Hup as (Hok1 & Hc1 & _ & Ho1 & Hr1 & Hp1 & prow & Hprow & Hn & Horg & Hd); [|done..].
  apply bind_Ok in E as (db2 & Hv & E). apply ensure_version_Ok in Hv as (Hok2 & Hc2 & _ & Ho2 & Hp2 & Hr2); [|done].
  apply bind_Ok in E as ([kid db3] & Hk & E).
  assert (project_in_org db2 org (Some project)) as Hin.
  { intros p [= <-]. rewrite Hp2. split; [intros ->; by rewrite (wok_nil _ Hok1) in Hprow | by exists prow]. }
  assert (workflows_ok db3 /\ kept_tables db2 db3 /\ (creation_restricted opts = true -> db3 = db2)
    /\ exists krow, kd_contracts db3 !! kid = Some krow /\ kr_deleted krow = false /\ kr_organization krow = org
         /\ contract_choice db2 db3 opts detected contract project kid krow) as (Hok3 & Hkt & Hres & krow & Hkrow & Hkd & Hko & Hch).
  { destruct (bool_decide (contract = uuid_Nil)) eqn:Eb.
    - apply bool_decide_eq_true in Eb as ->. by eapply implicit_contract_Ok.
    - apply bool_decide_eq_false in Eb. eapply explicit_contract_Ok in Hk as (-> & row & ? & ? & ? & ?); [|done..].
      split; [done|]. split; [by split|]. split; [done|]. by exists row. }
  unfold insert_workflow in E. apply bind_Ok in E as ([] & Hg%guard_err_Ok & [= <-]).
  rewrite !orb_false_iff in Hg. destruct Hg as ((((Hg1 & Hg2) & _) & _) & _).
  apply bool_decide_eq_false, eq_None_not_Some in Hg1. apply bool_decide_eq_false, eq_None_not_Some in Hg2.
  split; [|split; [|split; [cbn; rewrite (kt_orgs _ _ Hkt); congruence | split]]].
  - apply ok_workflow_row; [done| |].
    + intros _. split; [by exists krow|]. exists prow. cbn. by rewrite (kt_projects _ _ Hkt), Hp2.
    + intros _ j v _ Hv Hdv Hpv Hnv. pose proof (find_where_None _ _ _ _ Hg2 Hv) as Hx. cbn in Hpv, Hnv.
      destruct (wok_uses _ Hok3 j v Hv Hdv) as [_ (q & Hq & Hqo)]. rewrite Hpv, (kt_projects _ _ Hkt), Hp2, Hprow in Hq.
      injection Hq as <-. unfold workflow_named in Hx. cbn in Hx. rewrite Hpv, Hnv, Hdv, !bool_decide_eq_true_2 in Hx by congruence. done.
  - intros Hcr. specialize (Hres Hcr). subst db3. cbn. by rewrite Hc2, Hc1.
  - intros i w Hi. cbn. rewrite lookup_insert_ne.
    + rewrite (kt_rows _ _ Hkt), Hr2. unfold workflow_rows in *. by rewrite Hr1.
    + intros <-. rewrite (kt_rows _ _ Hkt), Hr2 in Hg1. unfold workflow_rows in *. rewrite Hr1 in Hg1. congruence.
  - exists project, prow, kid, krow. cbn. rewrite lookup_insert_eq, (kt_projects _ _ Hkt), Hp2. do 8 (split; [done|]).
    unfold contract_choice in *. cbn. rewrite Hc2, Hc1 in Hch. done.
Qed.

(** What the checks of a creation give *)
Lemma create_workflow_checks_Ok db opts org detected :
  create_workflow_checks db opts = Ok (org, detected) ->
  uuid_Parse (wo_OrgID opts) = Some org /\ wo_Name opts <> "" /\ wo_Project opts <> ""
  /\ (ct_raw detected <> "" -> readable_contract detected).
Proof.
  unfold create_workflow_checks. intros E. apply bind_Ok in E as ([] & Hn%guard_err_Ok%is_empty_false & E).
  apply bind_Ok in E as ([] & Hp%guard_err_Ok%is_empty_false & E). apply bind_Ok in E as ([] & _ & E).
  apply bind_Ok in E as (dc & Hdc%map_err_Ok & E). apply bind_Ok in E as (det & Hdet & E).
  apply bind_Ok in E as ([] & _ & E). apply bind_Ok in E as ([] & _ & E). apply bind_Ok in E as (o & Ho%map_err_Ok%raw_uuid_Ok & E).
  apply bind_Ok in E as ([] & _ & [= -> ->]). do 3 (split; [done|]). intros Hraw.
  destruct (wo_ContractBytes opts) as [raw|]; [|injection Hdet as ->; by eapply default_readable].
  apply map_err_Ok in Hdet. eapply identify_readable; [|exact Hdet]. pose proof (proj1 (accepted_contract_ok _ _ Hdet)) as Hc.
  by rewrite <- (cok_raw _ _ Hc).
Qed.

Lemma repo_CreateWorkflow_inv db ids now opts detected r db' :
  repo_CreateWorkflow db ids now opts detected = (r, db') ->
  (db' = db /\ is_ok r = false)
  \/ exists org contract, uuid_Parse (wo_OrgID opts) = Some org /\ expected_contract db opts org = Ok contract
       /\ create_workflow_tx db ids now opts detected org contract = Ok db' /\ r = repo_FindWorkflow db' (fi_workflow ids).
Proof.
  unfold repo_CreateWorkflow. destruct (raw_uuid _ ≫= _) as [db1|e] eqn:E; [|by intros [= <- <-]; left]. intros [= <- <-]. right.
  apply bind_Ok in E as (org & Ho%raw_uuid_Ok & E). apply bind_Ok in E as ([] & _ & E). apply bind_Ok in E as (k & Hk & E).
  by exists org, k.
Qed.

(** A workflow that is not deleted is found, with its contract and its project *)
Lemma workflow_found db id w :
  workflows_ok db -> workflow_rows db !! id = Some w -> wr_deleted w = false ->
  exists wf c p, repo_FindWorkflow db id = Ok wf /\ entWFToBizWF db (id, w) = Ok wf
    /\ kd_contracts db !! wr_contract w = Some c /\ kd_projects db !! wr_project w = Some p
    /\ wf_ID wf = id /\ wf_Name wf = wr_name w /\ wf_OrgID wf = wr_organization w /\ wf_ProjectID wf = wr_project w
    /\ wf_Project wf = pr_name p /\ wf_ContractID wf = wr_contract w /\ wf_ContractName wf = kr_name c.
Proof.
  intros Hok Hw Hd. destruct (wok_uses _ Hok id w Hw Hd) as [(c & Hc & _) (p & Hp & _)].
  destruct (latestVersion_exists db (wr_contract w) 1) as (lv & Hlv); [by apply (ko_first _ (wok_contracts _ Hok) _ c)|].
  unfold repo_FindWorkflow. rewrite Hw, Hd. unfold entWFToBizWF. cbn [fst snd]. rewrite Hc, Hlv, Hp. cbn [map_err mbind result_bind].
  eexists _, c, p. split; [reflexivity|]. done.
Qed.

Lemma uc_CreateWorkflow_inv w ids membership now opts r w' :
  uc_CreateWorkflow w ids membership now opts = (r, w') ->
  wd_db w' = wd_db w /\ is_ok r = false
  \/ exists org detected contract, create_workflow_checks (wd_db w) opts = Ok (org, detected)
       /\ expected_contract (wd_db w) opts org = Ok contract
       /\ create_workflow_tx (wd_db w) ids now opts detected org contract = Ok (wd_db w')
       /\ (is_ok r = true -> r = repo_FindWorkflow (wd_db w') (fi_workflow ids)).
Proof.
  unfold uc_CreateWorkflow. destruct (create_workflow_checks _ _) as [[org detected]|e] eqn:Ec; [|by intros [= <- <-]; left].
  destruct (repo_CreateWorkflow _ _ _ _ _) as [rr db1] eqn:Er.
  apply repo_CreateWorkflow_inv in Er as [[-> Hr] | (o & k & Ho & Hk & Htx & Hr)].
  - destruct rr; [done|]. intros [= <- <-]. by left.
  - intros Hw. right. apply create_workflow_checks_Ok in Ec as Hc. destruct Hc as (Ho' & _). assert (o = org) as -> by congruence.
    exists org, detected, k. destruct rr as [wf|e]; injection Hw as <- <-; cbn; [by rewrite <- Hr | done].
Qed.

(** Calls one after the other on workflows, their contracts and their runs *)
Inductive workflow_step (w : WorkflowDB) : WorkflowDB -> Prop :=
| wst_create ids membership now opts r w' :
    fi_project ids <> uuid_Nil -> uc_CreateWorkflow w ids membership now opts = (r, w') -> workflow_step w w'
| wst_update now orgID id opts r db' :
    uc_UpdateWorkflow (wd_db w) now orgID id opts = (r, db') -> workflow_step w (with_db w db')
| wst_delete now orgID id w' : uc_DeleteWorkflow w now orgID id = Ok w' -> workflow_step w w'
| wst_count id db' : uc_IncRunsCounter (wd_db w) id = Ok db' -> workflow_step w (with_db w db')
| wst_run opts wf snapshot run version now runs :
    create_tx (kd_runs (wd_db w)) opts wf snapshot run version now = Ok runs ->
    workflow_step w (with_db w (with_run_tables (wd_db w) runs))
| wst_contract_create random id vid now opts k db' :
    uc_CreateContract random (wd_db w) id vid now opts = Ok (k, db') ->
    (forall org, uuid_Parse (kw_OrgID opts) = Some org -> project_in_org (wd_db w) org (kw_ProjectID opts)) ->
    workflow_step w (with_db w db')
| wst_contract_update vid now orgID name opts r db' :
    uc_UpdateContract (wd_db w) vid now orgID name opts = (r, db') -> workflow_step w (with_db w db')
| wst_contract_delete now orgID contractID db' :
    uc_DeleteContract (wd_db w) now orgID contractID = Ok db' -> workflow_step w (with_db w db').

(** An update keeps what the row was made for; the contract is one of the organization *)
Lemma uc_UpdateWorkflow_inv db now orgID id opts r db' :
  uc_UpdateWorkflow db now orgID id opts = (r, db') ->
  db' = db \/ exists wid w contract,
    workflow_rows db !! wid = Some w /\ wr_deleted w = false /\ uuid_Parse orgID = Some (wr_organization w)
    /\ db' = with_workflow_rows db (<[wid := update_row opts contract now w]> (workflow_rows db))
    /\ match contract with
       | Some k => exists c, kd_contracts db !! k = Some c /\ kr_deleted c = false /\ kr_organization c = wr_organization w
       | None => True
       end.
Proof.
  unfold uc_UpdateWorkflow. destruct (parse_uuid orgID ≫= _) as [wid|e] eqn:E; [|by intros [= _ <-]; left].
  apply bind_Ok in E as (org & Ho%parse_uuid_Ok & E). apply bind_Ok in E as (i & Hi%parse_uuid_Ok & E).
  apply bind_Ok in E as (wf & Hwf & E). apply bind_Ok in E as ([] & Hk & [= ->]).
  unfold GetOrgScoped in Hwf. destruct (workflow_rows db !! wid) as [w|] eqn:Ew; [|done].
  destruct (live_org db org && bool_decide (wr_organization w = org) && negb (wr_deleted w)) eqn:Eg; [|done].
  apply andb_true_iff in Eg as [[_ Horg%bool_decide_eq_true]%andb_true_iff Hd%negb_true_iff].
  destruct (repo_UpdateWorkflow db wid now opts) as [ru dbu] eqn:Eu. intros [= _ <-].
  unfold repo_UpdateWorkflow in Eu. rewrite Ew in Eu.
  destruct (match wu_ContractID opts with Some c => Some <$> raw_uuid c | None => Ok None end) as [contract|e] eqn:Ec;
    [|by injection Eu as _ <-; left].
  destruct (negb _); [by injection Eu as _ <-; left|]. injection Eu as _ <-. right. exists wid, w, contract.
  split; [done|]. split; [done|]. split; [congruence|]. split; [done|].
  destruct (wu_ContractID opts) as [c|]; [|by injection Ec as <-].
  destruct (raw_uuid c) as [k|] eqn:Er; [|done]. injection Ec as <-. apply raw_uuid_Ok in Er.
  apply bind_Ok in Hk as (found & Hf & Hg%guard_err_Ok). apply bind_Ok in Hf as (o & Ho'%parse_uuid_Ok & Hf).
  apply bind_Ok in Hf as (k' & Hk'%parse_uuid_Ok & Hf). assert (o = org) as -> by congruence. assert (k' = k) as -> by congruence.
  apply bind_Ok in Hf as ([[i row]|] & Hc & Hf); [|injection Hf as <-; by rewrite bool_decide_eq_true_2 in Hg].
  apply contractInOrg_Some in Hc as (Hrow & Hro & Hrd & Hri & _). specialize (Hri k eq_refl). subst i.
  exists row. split; [done|]. split; [done | congruence].
Qed.

Lemma ok_other_run_tables db runs :
  workflows_ok db -> db_workflows runs = workflow_rows db -> workflows_ok (with_run_tables db runs).
Proof.
  intros Hok Hw. apply (ok_contracts db); [done| |done|exact Hw|naive_solver].
  eapply contracts_ok_projects; [apply Hok|done..].
Qed.

(** A workflow that uses a contract is one of its references *)
Lemma no_references db id :
  getWorkflowReferences db id = [] ->
  forall i w, workflow_rows db !! i = Some w -> wr_deleted w = false -> wr_contract w <> id.
Proof.
  unfold getWorkflowReferences. intros Hnil i w Hi Hd Hc. apply fmap_nil_inv in Hnil.
  assert ((i, w) ∈ List.filter (fun kv => bool_decide (wr_contract kv.2 = id) && negb (wr_deleted kv.2))
            (map_to_list (db_workflows (kd_runs db)))) as Hin.
  { apply list_elem_of_In, filter_In. split; [by apply list_elem_of_In, elem_of_map_to_list|]. cbn.
    by rewrite Hd, bool_decide_eq_true_2. }
  rewrite Hnil in Hin. by apply not_elem_of_nil in Hin.
Qed.

Lemma alter_is_insert {A} (f : A -> A) (m : gmap UUID A) i x : m !! i = Some x -> alter f i m = <[i := f x]> m.
Proof.
  intros Hi. apply map_eq. intros j. destruct (decide (j = i)) as [-> |].
  - by rewrite lookup_alter_eq, lookup_insert_eq, Hi.
  - by rewrite lookup_alter_ne, lookup_insert_ne.
Qed.

Lemma create_version_step_rows db opts wf snapshot vid v db' :
  create_version_step db opts wf snapshot vid = Ok (v, db') -> db_workflows db' = db_workflows db.
Proof.
  unfold create_version_step, promoteVersionToLatestWithTx, createProjectVersionWithTx. intros E.
  repeat (case_match || inv_ok || simplify_eq/=); done.
Qed.

(** A row that keeps what identifies its workflow, and its contract *)
Lemma ok_same_row db id row row' :
  workflows_ok db -> workflow_rows db !! id = Some row ->
  wr_name row' = wr_name row -> wr_project row' = wr_project row -> wr_contract row' = wr_contract row ->
  wr_deleted row' = wr_deleted row -> wr_organization row' = wr_organization row ->
  workflows_ok (with_workflow_rows db (<[id := row']> (workflow_rows db))).
Proof.
  intros Hok Hrow Hn Hp Hc Hd Ho. apply ok_workflow_row; [done| |]; rewrite Hd, ?Hn, ?Hp, ?Hc, ?Ho.
  - intros Hdel. by apply (wok_uses _ Hok id row).
  - intros Hdel j v Hj Hv Hdv Hpv Hnv. apply Hj. by apply (wok_names _ Hok j id v row).
Qed.

Lemma run_creation_ok db opts wf snap run ver now runs :
  workflows_ok db -> create_tx (kd_runs db) opts wf snap run ver now = Ok runs -> workflows_ok (with_run_tables db runs).
Proof.
  intros Hok Hr. unfold create_tx in Hr. apply bind_Ok in Hr as ([version db1] & Hv & Hr).
  destruct (db_runs db1 !! run), (db_workflows db1 !! co_workflow opts) as [row|] eqn:Er, (db_versions db1 !! version); try done.
  injection Hr as <-. assert (db_workflows db1 = workflow_rows db) as Hw by by eapply create_version_step_rows.
  rewrite Hw in Er.
  apply (ok_other_run_tables (with_workflow_rows db (<[co_workflow opts := count_workflow_run run now row]> (workflow_rows db))));
    [|cbn; by rewrite Hw].
  by eapply ok_same_row.
Qed.

Lemma workflow_step_ok w w' : workflows_ok (wd_db w) -> workflow_step w w' -> workflows_ok (wd_db w').
Proof.
  intros Hok Hs. destruct Hs as [ids m now opts r w' Hf Hc | now o id opts r db' Hu | now o id w' Hd | id db' Hc
    | opts wf snap run ver now runs Hr | random id vid now opts k db' Hc Hp | vid now o name opts r db' Hu | now o id db' Hd]; cbn.
  - apply uc_CreateWorkflow_inv in Hc as [[-> _] | (org & det & k & Hch & _ & Htx & _)]; [done|].
    apply create_workflow_checks_Ok in Hch as (_ & _ & _ & Hr). by eapply create_workflow_tx_Ok in Htx as [? _].
  - apply uc_UpdateWorkflow_inv in Hu as [-> | (wid & row & k & Hrow & Hd & Ho & -> & Hk)]; [done|].
    destruct (wok_uses _ Hok wid row Hrow Hd) as [Hc Hp]. apply ok_workflow_row; [done| |].
    + intros _. split; [|done]. destruct k as [k|]; [exact Hk | exact Hc].
    + intros _ j v Hj Hv Hdv Hpv Hnv. apply Hj. by apply (wok_names _ Hok j wid v row).
  - apply bind_Ok in Hd as (org & _ & Hd). apply bind_Ok in Hd as (i & _ & Hd). apply bind_Ok in Hd as (? & _ & Hd%map_err_Ok).
    unfold repo_SoftDeleteWorkflow in Hd. destruct (workflow_rows (wd_db w) !! i) as [row|] eqn:Er; [|done].
    injection Hd as <-. cbn. by apply ok_workflow_row.
  - apply bind_Ok in Hc as (i & _ & [= <-]). unfold repo_IncRunsCounter.
    destruct (workflow_rows (wd_db w) !! i) as [row|] eqn:Er.
    + rewrite (alter_is_insert _ _ _ _ Er). by eapply ok_same_row.
    + rewrite alter_id by congruence. by apply ok_other_run_tables.
  - by eapply run_creation_ok.
  - apply uc_CreateContract_Ok in Hc as (org & o & row & version & Ho & Ha & _ & Hk & Hkp & Hread & _).
    pose proof Ha as Ha'. apply addCreateToTx_Ok in Ha' as (_ & _ & Hcf & _ & _ & Hdb). apply contract_conflict_false in Hcf as (_ & Hid & _).
    apply (ok_contracts (wd_db w)); [done| |by subst db'..|].
    + eapply ok_create; [apply Hok|exact Ha|done|]. rewrite Hk, Hkp. by apply Hp.
    + intros i x c _ _ Hc Hcd. subst db'. cbn. exists c. rewrite lookup_insert_ne; [done | congruence].
  - apply uc_UpdateContract_keeps in Hu as [Hc [-> | (org & id & row & row' & _ & Hf & Hch & Hrow' & Hsame & Hdel)]]; [| |apply Hok]; [done|].
    apply contract_is_live in Hf as (Hrow & _). destruct (oc_rest _ _ _ Hch) as (Hp & _ & Hr).
    apply (ok_contracts (wd_db w)); [done|done|done|by unfold workflow_rows; rewrite Hr|].
    intros i x c _ _ Hx Hd. destruct (decide (wr_contract x = id)) as [Heq |].
    + rewrite Heq in Hx |- *. exists row'. rewrite Hrow in Hx. injection Hx as <-. split; [done|]. split; [congruence|]. apply Hsame.
    + exists c. by rewrite (oc_contracts _ _ _ Hch).
  - apply uc_DeleteContract_Ok in Hd as (org & i & row & _ & _ & Hrow & _ & _ & Href & ->).
    apply (ok_contracts (wd_db w)); [done| |done|done|].
    + eapply ok_change_row; [apply Hok|exact Hrow|]. repeat split; done.
    + intros j x c Hx Hxd Hc Hcd. exists c. cbn. rewrite lookup_insert_ne; [done|]. apply not_eq_sym. by eapply no_references.
Qed.

(** C19: Whatever the calls on workflows, contracts and runs, a workflow that is not
    deleted keeps a contract of its organization that is not deleted, and so it is
    always found with it; names stay unique in a project. *)
Theorem workflows_keep_contracts w w' :
  workflows_ok (wd_db w) -> rtc workflow_step w w' ->
  workflows_ok (wd_db w')
  /\ forall id row, workflow_rows (wd_db w') !! id = Some row -> wr_deleted row = false ->
       exists wf c, repo_FindWorkflow (wd_db w') id = Ok wf /\ wf_Name wf = wr_name row
         /\ kd_contracts (wd_db w') !! wf_ContractID wf = Some c /\ kr_deleted c = false
         /\ kr_organization c = wf_OrgID wf /\ kr_name c = wf_ContractName wf.
Proof.
  intros Hok Hs. assert (workflows_ok (wd_db w')) as Hok'.
  { revert Hok. induction Hs as [|w1 w2 w3 H12 _ IH]; [done|]. intros Hok. by eapply IH, workflow_step_ok. }
  split; [done|]. intros id row Hrow Hd.
  destruct (workflow_found _ _ _ Hok' Hrow Hd) as (wf & c & p & Hf & _ & Hc & _ & _ & Hn & Ho & _ & _ & Hk & Hkn).
  destruct (wok_uses _ Hok' _ _ Hrow Hd) as [(c' & Hc' & Hd' & Ho') _]. exists wf, c. rewrite Hk, Hkn, Ho.
  rewrite Hc in Hc'. injection Hc' as <-. done.
Qed.

Lemma expected_contract_Ok db opts org contract :
  expected_contract db opts org = Ok contract ->
  (wo_ContractName opts = "" -> wo_ContractID opts = "" -> contract = uuid_Nil)
  /\ (wo_ContractName opts <> "" -> exists row, kd_contracts db !! contract = Some row /\ kr_name row = wo_ContractName opts).
Proof.
  unfold expected_contract. intros E. apply bind_Ok in E as (k & Hk & E).
  destruct (is_empty (wo_ContractName opts)) eqn:Ee.
  - apply is_empty_true in Ee. injection E as <-. split; [|done]. intros _ Hid. rewrite Hid in Hk. cbn in Hk. by injection Hk as <-.
  - apply is_empty_false in Ee. apply bind_Ok in E as ([[i row]|] & Hc & E); [|done]. injection E as <-.
    apply contract_is_live in Hc as (Hrow & _ & _ & Hn). split; [done|]. intros _. by exists row.
Qed.

(** The contract that a created workflow has, and how it was chosen *)
Lemma created_choice w ids membership now opts wf w' :
  workflows_ok (wd_db w) -> fi_project ids <> uuid_Nil ->
  uc_CreateWorkflow w ids membership now opts = (Ok wf, w') ->
  wf_Name wf = wo_Name opts /\ wf_Project wf = wo_Project opts
  /\ (creation_restricted opts = true -> kd_contracts (wd_db w') = kd_contracts (wd_db w))
  /\ exists org detected contract krow, expected_contract (wd_db w) opts org = Ok contract
    /\ kd_contracts (wd_db w') !! wf_ContractID wf = Some krow /\ kr_deleted krow = false /\ kr_name krow = wf_ContractName wf
    /\ contract_choice (wd_db w) (wd_db w') opts detected contract (wf_ProjectID wf) (wf_ContractID wf) krow.
Proof.
  intros Hok Hf Hc. apply uc_CreateWorkflow_inv in Hc as [[_ ?] | (org & det & k & Hch & Hk & Htx & Hr)]; [done|].
  apply create_workflow_checks_Ok in Hch as (_ & _ & _ & Hread).
  apply create_workflow_tx_Ok in Htx as (Hok' & Hres & _ & _ & project & prow & kid & krow & Hrow & Hp & Hpn & _ & _ & Hkr & Hkd & _ & Hcho); [|done..].
  destruct (workflow_found _ _ _ Hok' Hrow eq_refl) as (wf' & c & p & Hwf & _ & Hc & Hp' & _ & Hn & _ & Hpi & Hpr & Hki & Hkn).
  cbn in *. specialize (Hr eq_refl). rewrite Hwf in Hr. injection Hr as ->. rewrite Hkr in Hc. injection Hc as <-.
  rewrite Hp in Hp'. injection Hp' as <-. split; [done|]. split; [congruence|]. split; [done|].
  exists org, det, k, krow. by rewrite Hki, Hkn, Hpi.
Qed.

(** A contract that is named is the one that is found *)
Lemma choice_named db db' opts org detected contract project kid krow :
  kd_contracts db !! uuid_Nil = None -> expected_contract db opts org = Ok contract -> wo_ContractName opts <> "" ->
  contract_choice db db' opts detected contract project kid krow ->
  kr_name krow = wo_ContractName opts
  /\ (kr_scope_type krow = "" \/ exists p, kd_projects db' !! kr_scope_id krow = Some p /\ pr_name p = wo_Project opts).
Proof.
  intros Hnil Hk Hne Hcho. destruct (expected_contract_Ok _ _ _ _ Hk) as [_ Hnamed].
  destruct (Hnamed Hne) as (row & Hrow & Hrn). unfold contract_choice in Hcho.
  rewrite bool_decide_eq_false_2 in Hcho by (intros ->; congruence).
  destruct Hcho as (-> & Hold & Hs). split; [congruence | done].
Qed.

(** C23: The contract of a new workflow: the one that the request names, which has no
    scope or that of a project of the workflow's name; else one that is created for
    the project, or one that has the default name.  Where contracts are restricted
    to administrators and the caller is none, no contract is created or changed. *)
Theorem created_workflow_contract w ids membership now opts wf w' :
  workflows_ok (wd_db w) -> fi_project ids <> uuid_Nil -> kd_contracts (wd_db w) !! uuid_Nil = None ->
  uc_CreateWorkflow w ids membership now opts = (Ok wf, w') ->
  wf_Name wf = wo_Name opts /\ wf_Project wf = wo_Project opts
  /\ (creation_restricted opts = true -> kd_contracts (wd_db w') = kd_contracts (wd_db w))
  /\ exists c, kd_contracts (wd_db w') !! wf_ContractID wf = Some c /\ kr_deleted c = false /\ kr_name c = wf_ContractName wf
    /\ (wo_ContractName opts <> "" ->
          kr_name c = wo_ContractName opts
          /\ (kr_scope_type c = "" \/ exists p, kd_projects (wd_db w') !! kr_scope_id c = Some p /\ pr_name p = wo_Project opts))
    /\ (wo_ContractName opts = "" -> wo_ContractID opts = "" ->
          kd_contracts (wd_db w) !! wf_ContractID wf = None
          /\ kr_scope_type c = ContractScopeProject /\ kr_scope_id c = wf_ProjectID wf
          \/ kd_contracts (wd_db w) !! wf_ContractID wf = Some c /\ kr_name c = wo_Project opts +:+ "-" +:+ wo_Name opts).
Proof.
  intros Hok Hf Hnil Hc.
  destruct (created_choice _ _ _ _ _ _ _ Hok Hf Hc) as (Hn & Hp & Hres & org & det & k & krow & Hk & Hrow & Hd & Hkn & Hcho).
  do 3 (split; [done|]). exists krow. do 3 (split; [done|]). split; [intros Hne; by eapply choice_named|].
  intros Hn1 Hn2. unfold contract_choice in Hcho. destruct (expected_contract_Ok _ _ _ _ Hk) as [Hempty _].
  rewrite (Hempty Hn1 Hn2), bool_decide_eq_true_2 in Hcho by done.
  destruct Hcho as [Hname [[He Hold] | Hnew]]; [right | by left]. rewrite He in Hname. done.
Qed.
End Steps.

(** ** What a listing shows *)

Section Visible.
Context `{UuidLib} `{Markup} `{DbOrderLaws}.
Context (others : goerr -> bool) (json_holds : JsonPredicate -> string -> bool).

(** The latest run of a workflow is one of its runs *)
Definition latest_runs_own (db : ContractDB) : Prop :=
  forall id w r, workflow_rows db !! id = Some w -> latest_run db w = Some r -> run_workflow r = id.

Lemma entWFToBizWF_fields db kw wf :
  entWFToBizWF db kw = Ok wf -> wf_ID wf = kw.1 /\ wf_ProjectID wf = wr_project kw.2 /\ wf_OrgID wf = wr_organization kw.2.
Proof.
  unfold entWFToBizWF. destruct (kd_contracts db !! wr_contract kw.2); [|by intros [= <-]].
  destruct (map_err _ _); cbn; [by intros [= <-] | done].
Qed.

Lemma matching_in_org db org f keep id w :
  latest_runs_own db -> (id, w) ∈ matching_workflows db org f keep ->
  workflow_rows db !! id = Some w /\ wr_deleted w = false /\ wr_organization w = org /\ keep w = true.
Proof.
  intros Hown Hin. unfold matching_workflows in Hin. apply list_elem_of_In, filter_In in Hin as [Hin Hf].
  apply list_elem_of_In, elem_of_map_to_list in Hin. cbn [fst snd] in Hf. apply andb_true_iff in Hf as [Hf Hk].
  apply andb_true_iff in Hf as [Hr Hd%negb_true_iff]. split; [done|]. split; [done|]. split; [|done].
  unfold run_filters in Hr. destruct (is_empty _ && _); [by apply andb_true_iff in Hr as [_ Hr%bool_decide_eq_true]|].
  apply existsb_exists in Hr as ([j x] & Hx & Hr). apply list_elem_of_In, elem_of_map_to_list in Hx. cbn [fst snd] in Hr.
  apply andb_true_iff in Hr as [[_ Ho%bool_decide_eq_true]%andb_true_iff Hr].
  destruct (latest_run db x) as [r|] eqn:El; [|done].
  apply andb_true_iff in Hr as [[Hrw%bool_decide_eq_true _]%andb_true_iff _].
  pose proof (Hown j x r Hx El) as Hj. assert (j = id) as -> by congruence. rewrite Hin in Hx. by injection Hx as ->.
Qed.

(** A listing shows workflows of the caller's organization that are not deleted,
    and to a caller with restricted roles only those of the projects it sees,
    whatever the filters of the request. *)
Theorem listing_confined db c f pagination page n :
  latest_runs_own db -> svc_ListWorkflows others json_holds db c f pagination = Ok (page, n) ->
  exists org, requireCurrentOrg c = Ok org
  /\ forall wf, wf ∈ page ->
       uuid_Parse (org_ID org) = Some (wf_OrgID wf)
       /\ (exists w, workflow_rows db !! wf_ID wf = Some w /\ wr_deleted w = false)
       /\ (forall ps, visibleProjects c = Ok (Some ps) -> wf_ProjectID wf ∈ ps).
Proof.
  intros Hown E. apply bind_Ok in E as (org & Horg & E). apply bind_Ok in E as (pg & _ & E). apply bind_Ok in E as (vis & Hvis & E).
  apply map_err_Ok in E. apply bind_Ok in E as (o & Ho%parse_uuid_Ok & E). apply bind_Ok in E as (keep & Hkeep & E).
  apply bind_Ok in E as (rows & Hrows & [= <- <-]). exists org. split; [done|]. intros wf Hin.
  apply mapM_result_Ok in Hrows. apply list_elem_of_lookup in Hin as (k & Hk).
  destruct (Forall2_lookup_r _ _ _ _ _ Hrows Hk) as ([id w] & Hl & Hw). apply map_err_Ok in Hw.
  apply entWFToBizWF_fields in Hw as (Hid & Hp & Hwo). cbn [fst snd] in *.
  assert ((id, w) ∈ matching_workflows db o (with_projects_filter f vis) keep) as Hin.
  { rewrite <- (order_by_Permutation newest_workflow). apply list_elem_of_lookup_2 in Hl.
    by eapply (sublist_subseteq _ _ (sublist_drop _ _)), (sublist_subseteq _ _ (sublist_take _ _)). }
  apply matching_in_org in Hin as (Hrow & Hd & Hor & Hkp); [|done].
  split; [congruence|]. split; [exists w; by rewrite Hid|].
  intros ps Hps. rewrite Hps in Hvis. injection Hvis as <-. apply bind_Ok in Hkeep as (preds & _ & [= <-]).
  apply andb_true_iff in Hkp as [Hn _]. unfold narrow_filters in Hn. rewrite !andb_true_iff in Hn. cbn in Hn.
  destruct Hn as [[[Hn _] _] _]. rewrite Hp. by apply bool_decide_eq_true in Hn.
Qed.
End Visible.

(** ** Finding what was created *)

Section FindAgain.
Context `{UuidLib} `{MarkupLaws} `{DbOrderLaws} `{ProviderNet}.
Context (enforce : string -> Authz.Policy -> result bool) (others : goerr -> bool).
Context (policyRegistry : Registry) (cliVersion : string) (rawToken : result string).

Lemma find_where_is {A} (P : A -> bool) (t : gmap UUID A) i v :
  t !! i = Some v -> P v = true -> (forall j x, t !! j = Some x -> P x = true -> j = i) -> find_where P t = Some (i, v).
Proof.
  intros Hi HP Hu. destruct (find_where P t) as [[j x]|] eqn:Ef.
  - apply find_where_Some in Ef as [Hj Hx]. assert (j = i) as -> by by apply (Hu j x). rewrite Hi in Hj. by injection Hj as ->.
  - by rewrite (find_where_None _ _ _ _ Ef Hi) in HP.
Qed.

(** A live project is found by its name, as a row and as a reference *)
Lemma project_found db org o p row :
  workflows_ok db -> uuid_Parse org = Some o -> org <> "" -> live_org db o = true ->
  kd_projects db !! p = Some row -> pr_organization row = o -> pr_deleted row = false -> pr_name row <> "" ->
  find_where (project_named o (pr_name row)) (kd_projects db) = Some (p, row)
  /\ FindProjectByReference db org (project_named_ref (pr_name row)) = Ok (p, pr_name row).
Proof.
  intros Hok Ho Hoe Hl Hp Hpo Hd Hn.
  assert (project_named o (pr_name row) row = true) as HP by (unfold project_named; rewrite Hd, !bool_decide_eq_true_2 by done; done).
  assert (forall j x, kd_projects db !! j = Some x -> project_named o (pr_name row) x = true -> j = p) as Hu.
  { intros j x Hj Hx. unfold project_named in Hx. split_bool. apply (wok_projects _ Hok j p x row); congruence. }
  split; [by apply find_where_is|]. unfold FindProjectByReference, project_named_ref. cbn [ir_Id ir_Name].
  rewrite (proj2 (is_empty_false _) Hoe), (proj2 (is_empty_false _) Hn), (proj2 (parse_uuid_Ok _ _) Ho).
  cbn [is_empty bool_decide negb andb guard_err mbind result_bind]. unfold FindProjectByOrgIDAndName.
  rewrite (filter_singleton _ _ (p, row)).
  - done.
  - apply NoDup_map_to_list.
  - by apply elem_of_map_to_list.
  - cbn. by rewrite Hl, HP.
  - intros [j x] Hj%elem_of_map_to_list Hx. cbn in Hx. apply andb_true_iff in Hx as [_ Hx].
    assert (j = p) as -> by by apply (Hu j x). rewrite Hp in Hj. by injection Hj as ->.
Qed.

Lemma implicit_options_Ok db c orgID req opts :
  implicit_options others db c orgID req = Ok opts ->
  (exists o, uuid_Parse orgID = Some o /\ live_org db o = true)
  /\ wo_Name opts = fr_WorkflowName req /\ wo_OrgID opts = orgID /\ wo_Project opts = fr_ProjectName req
  /\ wo_ContractName opts = fr_ContractName req /\ wo_ContractBytes opts = fr_ContractBytes req.
Proof.
  unfold implicit_options. intros E. apply bind_Ok in E as (org & Ho%map_err_Ok & E). apply bind_Ok in E as ([ow ad] & _ & [= <-]).
  split; [|done]. apply bind_Ok in Ho as (o & Ho%parse_uuid_Ok & Hf). exists o. split; [done|]. unfold live_org.
  destruct (kd_orgs db !! o) as [x|]; [|done]. by destruct (og_deleted x).
Qed.

(** The checks pass again once the project exists *)
Lemma checks_again db db' c account req orgID p :
  rbacEnabled c = false -> FindProjectByReference db' orgID (project_named_ref (fr_ProjectName req)) = Ok p ->
  find_or_create_checks enforce others policyRegistry cliVersion rawToken db c account req = Ok orgID ->
  find_or_create_checks enforce others policyRegistry cliVersion rawToken db' c account req = Ok orgID.
Proof.
  intros Hr Hp. unfold find_or_create_checks. destruct account as [a|]; [|done]. intros E.
  apply bind_Ok in E as ([] & Hg & E). apply bind_Ok in E as ([] & _ & E). rewrite Hg. cbn [mbind result_bind].
  assert (a = orgID) as -> by (revert E; destruct rawToken; cbn; [|done]; intros E; by apply bind_Ok in E as ([] & _ & [= ->])).
  unfold may_create_workflow, on_project, userHasPermissionOnProject. rewrite Hp, Hr. exact E.
Qed.

(** A workflow is found by its name and its project's *)
Lemma named_workflow_found db orgID o id row wf :
  workflows_ok db -> uuid_Parse orgID = Some o -> workflow_rows db !! id = Some row -> wr_deleted row = false ->
  wr_organization row = o -> repo_FindWorkflow db id = Ok wf ->
  (forall p, kd_projects db !! wr_project row = Some p -> pr_deleted p = false) ->
  wf_Name wf <> "" -> wf_Project wf <> "" ->
  uc_FindWorkflowByName db orgID (wf_Project wf) (wf_Name wf) = Ok wf.
Proof.
  intros Hok Ho Hrow Hd Hro Hwf Hlive Hn Hp. destruct (wok_uses _ Hok id row Hrow Hd) as [_ (p & Hpr & Hpo)].
  destruct (workflow_found _ _ _ Hok Hrow Hd) as (wf' & c & p' & Hwf' & Hent & _ & Hpr' & _ & Hwn & _ & _ & Hwp & _).
  rewrite Hwf in Hwf'. injection Hwf' as <-. rewrite Hpr in Hpr'. injection Hpr' as <-.
  unfold uc_FindWorkflowByName. rewrite (proj2 (parse_uuid_Ok _ _) Ho), (proj2 (is_empty_false _) Hn), (proj2 (is_empty_false _) Hp).
  cbn [guard_err mbind result_bind]. unfold GetOrgScopedByProjectAndName. rewrite Hwp, Hwn.
  rewrite (find_where_is _ _ (wr_project row) p); [|done| |].
  - rewrite (find_where_is _ _ id row); [by rewrite Hent|done| |].
    + unfold workflow_named. by rewrite Hd, !bool_decide_eq_true_2.
    + intros j x Hj Hx. unfold workflow_named in Hx. split_bool. by apply (wok_names _ Hok j id x row).
  - unfold project_named. rewrite (Hlive p Hpr), !bool_decide_eq_true_2 by congruence. done.
  - intros j x Hj Hx. unfold project_named in Hx. split_bool. apply (wok_projects _ Hok j (wr_project row) x p); try congruence. by apply Hlive.
Qed.

(** Asking for a workflow again gives the one that the first request created and
    changes nothing, for a caller without restricted roles and a request that
    brings no contract. *)
Theorem find_or_create_idempotent w ids membership vid now c account req wf w1 ids' membership' vid' now' :
  workflows_ok (wd_db w) -> fi_project ids <> uuid_Nil -> kd_contracts (wd_db w) !! uuid_Nil = None ->
  uuid_Parse "" = None -> rbacEnabled c = false -> fr_ContractBytes req = None ->
  svc_FindOrCreateWorkflow enforce others policyRegistry cliVersion rawToken w ids membership vid now c account req = (Ok wf, w1) ->
  svc_FindOrCreateWorkflow enforce others policyRegistry cliVersion rawToken w1 ids' membership' vid' now' c account req = (Ok wf, w1).
Proof.
  intros Hok Hf Hnil Hue Hrbac Hb. unfold svc_FindOrCreateWorkflow.
  destruct (find_or_create_checks _ _ _ _ _ (wd_db w) _ _ _) as [orgID|] eqn:Ek; [|done].
  destruct (uc_FindWorkflowByName (wd_db w) _ _ _) as [wf0|e] eqn:Ef.
  { rewrite Hb. destruct (negb _ && _) eqn:Ec; [done|]. intros [= -> <-]. by rewrite Ek, Ef, Ec. }
  destruct (negb (IsNotFound e)); [done|]. destruct (implicit_options _ _ _ _ _) as [opts|] eqn:Eo; [|done].
  destruct (uc_CreateWorkflow w ids membership now opts) as [r w2] eqn:Ec. intros [= Hr <-]. apply map_err_Ok in Hr as ->.
  apply implicit_options_Ok in Eo as ((o & Ho & Hlive) & Hn & Hid & Hp & Hk & Hbytes).
  destruct (created_choice _ _ _ _ _ _ _ Hok Hf Ec) as (Hwn & Hwp & _ & org' & det' & k & krow' & Hkx & _ & _ & Hkn & Hcho).
  apply uc_CreateWorkflow_inv in Ec as [[_ ?] | (org & det & contract & Hch & _ & Htx & Hres)]; [done|]. specialize (Hres eq_refl).
  apply create_workflow_checks_Ok in Hch as (Ho' & Hne & Hpe & Hread). assert (org = o) as -> by congruence.
  apply create_workflow_tx_Ok in Htx as (Hok' & _ & Horgs & _ & project & prow & kid & krow & Hrow & Hpr & Hpn & Hpo & Hpd & _); [|done..].
  assert (orgID <> "") as Horg by (intros ->; congruence).
  destruct (project_found (wd_db w2) orgID o project prow Hok' Ho Horg) as [_ Href]; try done;
    [by unfold live_org in *; rewrite Horgs | by rewrite Hpn|].
  rewrite Hpn, Hp in Href. rewrite (checks_again _ _ _ _ _ _ _ Hrbac Href Ek).
  pose proof (named_workflow_found (wd_db w2) orgID o _ _ wf Hok' Ho Hrow eq_refl eq_refl (eq_sym Hres)) as Hfind.
  rewrite Hwp, Hwn, Hp, Hn in Hfind. rewrite Hfind; [| |congruence..]; [|intros q Hq; cbn in Hq; rewrite Hpr in Hq; by injection Hq as <-].
  rewrite Hb. destruct (is_empty (fr_ContractName req)) eqn:Ee; [done|]. apply is_empty_false in Ee.
  rewrite bool_decide_eq_true_2; [done|]. rewrite <- Hk in *.
  destruct (choice_named _ _ _ _ _ _ _ _ _ Hnil Hkx Ee Hcho) as [Hx _]. congruence.
Qed.
End FindAgain.

(** ** A small instance *)

Import ContractToys CasTables ContractTables.

Module WorkflowTables.
Definition no_members : MemberDB :=
  {| md_memberships := ∅; md_groups := ∅; md_group_members := ∅; md_users := ∅; md_orgs := ∅ |}.

Definition empty_tables : WorkflowDB := {| wd_db := empty_db; wd_members := no_members; wd_attachments := ∅ |}.

Lemma empty_tables_ok : workflows_ok (wd_db empty_tables).
Proof. split; [apply empty_contracts_ok|done|..]; cbn; intros i j; intros; simplify_map_eq. Qed.

Definition ids (n : string) : FreshIDs :=
  {| fi_workflow := "w" +:+ n; fi_project := "p" +:+ n; fi_version := "v" +:+ n; fi_contract := "c" +:+ n; fi_revision := "r" +:+ n |}.

(** A creation by a user who administers the organization *)
Definition named (project name contract : string) : WorkflowCreateOpts :=
  {| wo_Name := name; wo_OrgID := "o"; wo_Project := project; wo_Team := ""; wo_Description := ""; wo_ContractName := contract;
     wo_ContractID := ""; wo_ContractBytes := None; wo_Owner := Some "u"; wo_ImplicitCreation := false; wo_UserIsOrgAdmin := true;
     wo_OrgRestrictContractCreationToAdmins := false; wo_WorkflowTemplateID := None |}.

Definition create (w : WorkflowDB) (n project name contract : string) : result Workflow * WorkflowDB :=
  uc_CreateWorkflow w (ids n) ("m" +:+ n) 10 (named project name contract).

(** The project [a] with a workflow [b-c], whose contract is [a-b-c] *)
Definition first : WorkflowDB := (create empty_tables "1" "a" "b-c" "").2.

Lemma first_ok : workflows_ok (wd_db first).
Proof.
  apply (workflow_step_ok empty_tables); [exact empty_tables_ok|]. unfold first.
  destruct (create empty_tables "1" "a" "b-c" "") as [r w] eqn:E. eapply wst_create; [|exact E]. discriminate.
Qed.
End WorkflowTables.

Import WorkflowTables.

Lemma workflows_keep_contracts_witness :
  exists wf c, repo_FindWorkflow (wd_db first) "w1" = Ok wf /\ kd_contracts (wd_db first) !! wf_ContractID wf = Some c
    /\ kr_deleted c = false.
Proof.
  assert (wr_deleted <$> workflow_rows (wd_db first) !! "w1" = Some false) as Hd by (vm_compute; reflexivity).
  destruct (workflow_rows (wd_db first) !! "w1") as [row|] eqn:E; [|discriminate Hd]. injection Hd as Hd.
  destruct (workflows_keep_contracts first first first_ok (rtc_refl _ _)) as [_ Hfound].
  destruct (Hfound "w1" row E Hd) as (wf & c & Hwf & _ & Hc & Hcd & _). exists wf, c. done.
Defined.

Lemma created_workflow_contract_witness :
  exists wf w' c, create first "2" "d" "e" "" = (Ok wf, w') /\ kd_contracts (wd_db w') !! wf_ContractID wf = Some c
    /\ kr_name c = wf_ContractName wf /\ wf_Project wf = "d".
Proof.
  assert (is_ok (create first "2" "d" "e" "").1 = true) as Hr by (vm_compute; reflexivity).
  destruct (create first "2" "d" "e" "") as [[wf|] w'] eqn:E; [|discriminate Hr].
  destruct (created_workflow_contract first (ids "2") "m2" 10 (named "d" "e" "") wf w' first_ok) as (_ & Hp & _ & c & Hc & _ & Hn & _);
    [discriminate | vm_compute; reflexivity | exact E|].
  exists wf, w', c. split; [reflexivity|]. split; [exact Hc|]. split; [exact Hn | exact Hp].
Defined.

(** The scope of the contract of a new workflow, by its project's name, and the project of the workflow *)
Definition scoped_elsewhere (r : result Workflow * WorkflowDB) : option (string * string * string) :=
  match r with
  | (Ok wf, w) =>
      match kd_contracts (wd_db w) !! wf_ContractID wf with
      | Some c => match kd_projects (wd_db w) !! kr_scope_id c with
                  | Some p => Some (kr_scope_type c, pr_name p, wf_Project wf) | None => None end
      | None => None
      end
  | _ => None
  end.

(** The contract of another project: the default name of the workflow [c] of the
    project [a-b] is that of the workflow [b-c] of the project [a] *)
Theorem default_contract_of_another_project :
  exists wf w' c p, create first "2" "a-b" "c" "" = (Ok wf, w')
    /\ kd_contracts (wd_db w') !! wf_ContractID wf = Some c /\ kr_scope_type c = ContractScopeProject
    /\ kd_projects (wd_db w') !! kr_scope_id c = Some p /\ pr_name p = "a" /\ wf_Project wf = "a-b"
    /\ is_ok (create first "2" "a-b" "c" "a-b-c").1 = false.
Proof.
  assert (scoped_elsewhere (create first "2" "a-b" "c" "") = Some (ContractScopeProject, "a", "a-b")) as Hs by (vm_compute; reflexivity).
  unfold scoped_elsewhere in Hs. destruct (create first "2" "a-b" "c" "") as [[wf|] w']; [|discriminate Hs].
  destruct (kd_contracts (wd_db w') !! wf_ContractID wf) as [c|] eqn:Ec; [|discriminate Hs].
  destruct (kd_projects (wd_db w') !! kr_scope_id c) as [p|] eqn:Ep; [|discriminate Hs]. injection Hs as Ht Hp Hw.
  exists wf, w', c, p. do 6 (split; [done|]). vm_compute. reflexivity.
Qed.

(** A member of the organization who administers the project of identifier [p] *)
Definition member_of (p : UUID) : Ctx :=
  {| cx_token := None; cx_user := Some "u";
     cx_memberships := Some [{| rm_Role := RoleProjectAdmin; rm_ResourceType := ResourceTypeProject; rm_ResourceID := p |}];
     cx_org := Some toy_organization; cx_subject := RoleOrgMember |}.

Definition no_others (e : goerr) : bool := false.

(** The workflow [e] of the project [d], beside the project [a] *)
Definition second : WorkflowDB := (create first "2" "d" "e" "").2.

Definition update_second (contract : option string) : result Workflow * ContractDB :=
  svc_UpdateWorkflow toy_enforce no_others (wd_db second) 20 (member_of "p2") "d" "e" None None contract.

(** An update attaches a contract of another project, which the caller may not even
    read, and which naming at the creation is refused *)
Theorem update_attaches_contract_of_another_project :
  exists wf db', update_second (Some "a-b-c") = (Ok wf, db') /\ wf_ContractName wf = "a-b-c" /\ wf_Project wf = "d"
    /\ is_ok (svc_DescribeContract toy_enforce no_others (wd_db second) (member_of "p2") "a-b-c" 0) = false
    /\ is_ok (create second "3" "d" "f" "a-b-c").1 = false.
Proof.
  assert ((fun wf => (wf_ContractName wf, wf_Project wf)) <$> (update_second (Some "a-b-c")).1 = Ok ("a-b-c", "d")) as Hs
    by (vm_compute; reflexivity).
  destruct (update_second (Some "a-b-c")) as [[wf|] db']; [|discriminate Hs]. injection Hs as Hn Hp.
  exists wf, db'. split; [reflexivity|]. split; [exact Hn|]. split; [exact Hp|]. split; vm_compute; reflexivity.
Qed.

(** The workflow [e] of the project [d] with the contract [build] of the organization *)
Definition shared : WorkflowDB := (create (with_db empty_tables created_db) "2" "d" "e" "build").2.

Definition request (raw : option string) : FindOrCreateRequest :=
  {| fr_WorkflowName := "e"; fr_ProjectName := "d"; fr_ContractName := ""; fr_ContractBytes := raw |}.

Definition find_or_create (w : WorkflowDB) (n : string) (c : Ctx) (raw : option string) : result Workflow * WorkflowDB :=
  svc_FindOrCreateWorkflow toy_enforce no_others registry "" (Ok "token") w (ids n) ("m" +:+ n) ("r" +:+ n) 30 c (Some "o") (request raw).

(** The contract service refuses that a member of a project updates a contract of
    the organization, but asking for a workflow that uses it with another contract
    does it *)
Theorem implicit_creation_overwrites_contract :
  svc_UpdateContract toy_enforce no_others registry "" (Ok "token") (wd_db shared) "r3" 30 (member_of "p2") "build" "ybuild" ""
    = (Err (transport_err BadRequest "you can not manage a global contract"), wd_db shared)
  /\ exists wf w', find_or_create shared "3" (member_of "p2") (Some "ybuild") = (Ok wf, w')
       /\ kr_scope_type <$> kd_contracts (wd_db shared) !! "c" = Some ""
       /\ (fun d => (wv_Revision (wcv_Version d), ct_raw (wv_Schema (wcv_Version d)))) <$> uc_DescribeContract (wd_db w') "o" "c" 0 true
            = Ok (2, "ybuild").
Proof.
  split.
  - unfold svc_UpdateContract.
    assert (update_contract_checks toy_enforce no_others registry "" (Ok "token") (wd_db shared) (member_of "p2") "build" "ybuild" ""
            = Err (transport_err BadRequest "you can not manage a global contract")) as -> by (vm_compute; reflexivity).
    reflexivity.
  - assert (is_ok (find_or_create shared "3" (member_of "p2") (Some "ybuild")).1 = true) as Hr by (vm_compute; reflexivity).
    assert ((fun d => (wv_Revision (wcv_Version d), ct_raw (wv_Schema (wcv_Version d))))
      <$> uc_DescribeContract (wd_db (find_or_create shared "3" (member_of "p2") (Some "ybuild")).2) "o" "c" 0 true = Ok (2, "ybuild"))
      as Hd by (vm_compute; reflexivity).
    destruct (find_or_create shared "3" (member_of "p2") (Some "ybuild")) as [[wf|] w']; [|discriminate Hr].
    exists wf, w'. split; [reflexivity|]. split; [vm_compute; reflexivity | exact Hd].
Qed.

Lemma find_or_create_idempotent_witness :
  exists wf w1, find_or_create first "3" admin None = (Ok wf, w1) /\ find_or_create w1 "4" admin None = (Ok wf, w1).
Proof.
  assert (is_ok (find_or_create first "3" admin None).1 = true) as Hr by (vm_compute; reflexivity).
  destruct (find_or_create first "3" admin None) as [[wf|] w1] eqn:E; [|discriminate Hr].
  exists wf, w1. split; [reflexivity|].
  assert (kd_contracts (wd_db first) !! uuid_Nil = None) as Hnil by (vm_compute; reflexivity).
  assert (fi_project (ids "3") <> uuid_Nil) as Hid by discriminate.
  exact (find_or_create_idempotent toy_enforce no_others registry "" (Ok "token") first (ids "3") "m3" "r3" 30 admin (Some "o") (request None)
    wf w1 (ids "4") "m4" "r4" 30 first_ok Hid Hnil eq_refl eq_refl eq_refl E).
Defined.

(** Nothing to filter by *)
Definition everything : WorkflowListOpts :=
  {| wl_WorkflowName := ""; wl_WorkflowDescription := ""; wl_WorkflowTeam := ""; wl_WorkflowProjectNames := [];
     wl_WorkflowRunRunnerType := ""; wl_WorkflowActiveWindow := None; wl_WorkflowRunLastStatus := None; wl_JSONFilters := [];
     wl_ProjectIDs := None |}.

Lemma no_runs_own w : db_runs (kd_runs (wd_db w)) = ∅ -> latest_runs_own (wd_db w).
Proof.
  intros Hr id row r _ Hl. unfold latest_run in Hl. rewrite Hr in Hl. destruct (wr_latest_run row); [|discriminate Hl].
  cbn in Hl. by rewrite lookup_empty in Hl.
Qed.

Lemma listing_confined_witness :
  exists page, svc_ListWorkflows no_others (fun _ _ => true) (wd_db second) (member_of "p2") everything None = Ok (page, 1)
    /\ Forall (fun wf => wf_ProjectID wf = "p2") page /\ length page = 1%nat.
Proof.
  assert ((fun r => (length r.1, r.2)) <$> svc_ListWorkflows no_others (fun _ _ => true) (wd_db second) (member_of "p2") everything None
          = Ok (1%nat, 1)) as Hs by (vm_compute; reflexivity).
  destruct (svc_ListWorkflows _ _ _ _ _ _) as [[page n]|] eqn:E; [|discriminate Hs]. injection Hs as Hl Hn. cbn in Hl, Hn. subst n.
  exists page. split; [reflexivity|]. split; [|exact Hl].
  assert (latest_runs_own (wd_db second)) as Hown by (apply no_runs_own; vm_compute; reflexivity).
  destruct (listing_confined _ _ _ _ _ _ _ _ Hown E) as (org & _ & Hin). apply Forall_forall. intros wf Hwf.
  destruct (Hin wf Hwf) as (_ & _ & Hp). specialize (Hp ["p2"] eq_refl). by apply list_elem_of_singleton in Hp.
Defined.
