(* ===== verification/AttestationService.v ===== *)
(** * The attestation service

    app/controlplane/internal/service/attestation.go: the calls of a client that
    makes an attestation, from its initialization to the moment it is stored,
    indexed and mapped, over the use cases of the other files, with
    biz/attestation.go, which uploads bundles, and the download of bundles of
    biz/workflowrun.go.

    The store of artifacts is the interface [CASClient] of biz/casclient.go, which
    the client of [CasClient] implements.  An upload that a call leaves running is
    kept in the state until a later step runs it.  Integrations, which are only
    told about an attestation, metrics and logs have no counterpart. *)

From S2P Require Import Prelude.
From S2P Require Import GoStrings.
From S2P Require Import Envelope.
From S2P Require Import Renderer.
From S2P Require Import Verifier.
From S2P Require Import BizErrors.
From S2P Require Import Signing.
From S2P Require Import RunStore.
From S2P Require Import WorkflowRuns.
From S2P Require Import Authz.
From S2P Require Import ApiTokens.
From S2P Require Import Access.
From S2P Require Import Referrers.
From S2P Require Import StateManagers.
From S2P Require Import CasBackends.
From S2P Require Import Memberships.
From S2P Require Import CasTokens.
From S2P Require Import CasMappings.
From S2P Require Import BlobStores.
From S2P Require Import ArtifactCas.
From S2P Require Import CasClient.
From S2P Require Import ContractSchemas.
From S2P Require Import WorkflowContracts.
From S2P Require Import Workflows.

Open Scope Z_scope.

(** ** The state *)

(** [biz.CASClient]: an upload of a content under a file name and a digest, to a
    provider with the secret of an organization, and the download of a digest.
    The number tells the attempts of an upload apart. *)
Class CASClient := {
  CASStore : Type;
  cas_Upload : nat -> string -> string -> UUID -> string -> string -> string -> CASStore -> result unit * CASStore;
  cas_Download : string -> string -> UUID -> string -> CASStore -> string * option goerr
}.

(** The use case of the control plane, which reaches a server for each attempt; what
    a download leaves behind, the audit of the server, is not kept *)
Definition casclient_usecase `{Gob} `{Hashes} `{UuidLib} `{Blobmanager} `{Jwt} (uc : Builder) (now : nat -> Z)
    (factory : result unit) (sv : nat -> CASServer) : CASClient :=
  {| CASStore := CasState;
     cas_Upload attempt provider secret org content filename digest :=
       CASClient_Upload uc (now attempt) factory (sv attempt) provider secret org (file_reader content) filename digest;
     cas_Download provider secret org digest st :=
       (CASClient_Download uc (now 0%nat) factory (sv 0%nat) provider secret org (fun _ => None) digest st).1 |}.

(** An upload of a bundle that a call left running *)
Record PendingUpload := {
  pu_bundle : string;
  pu_backend : UUID * Backend;
  pu_run : string;
  pu_digest : string
}.

(** The tables that the service works on, the cache of bundles if there is one, the
    store of artifacts and the running uploads *)
Record AttestationDB `{CASClient} := {
  at_workflows : WorkflowDB;
  at_backends : Backends;
  at_mappings : gmap UUID MappingRow;
  at_referrers : ReferrerTable;
  at_cache : option (gmap string string);
  at_cas : CASStore;
  at_uploads : list PendingUpload
}.

Section State.
Context `{CASClient}.

Definition contract_db (db : AttestationDB) : ContractDB := wd_db (at_workflows db).
Definition runs (db : AttestationDB) : DB := kd_runs (contract_db db).

Definition with_workflow_db (db : AttestationDB) (w : WorkflowDB) : AttestationDB :=
  {| at_workflows := w; at_backends := at_backends db; at_mappings := at_mappings db; at_referrers := at_referrers db;
     at_cache := at_cache db; at_cas := at_cas db; at_uploads := at_uploads db |}.
Definition with_run_db (db : AttestationDB) (r : DB) : AttestationDB :=
  with_workflow_db db (Workflows.with_db (at_workflows db) (with_run_tables (contract_db db) r)).
Definition with_backends (db : AttestationDB) (t : Backends) : AttestationDB :=
  {| at_workflows := at_workflows db; at_backends := t; at_mappings := at_mappings db; at_referrers := at_referrers db;
     at_cache := at_cache db; at_cas := at_cas db; at_uploads := at_uploads db |}.
Definition with_cas_mappings (db : AttestationDB) (t : gmap UUID MappingRow) : AttestationDB :=
  {| at_workflows := at_workflows db; at_backends := at_backends db; at_mappings := t; at_referrers := at_referrers db;
     at_cache := at_cache db; at_cas := at_cas db; at_uploads := at_uploads db |}.
Definition with_referrers (db : AttestationDB) (t : ReferrerTable) : AttestationDB :=
  {| at_workflows := at_workflows db; at_backends := at_backends db; at_mappings := at_mappings db; at_referrers := t;
     at_cache := at_cache db; at_cas := at_cas db; at_uploads := at_uploads db |}.
Definition with_bundle_cache (db : AttestationDB) (c : option (gmap string string)) : AttestationDB :=
  {| at_workflows := at_workflows db; at_backends := at_backends db; at_mappings := at_mappings db;
     at_referrers := at_referrers db; at_cache := c; at_cas := at_cas db; at_uploads := at_uploads db |}.
Definition with_cas (db : AttestationDB) (s : CASStore) : AttestationDB :=
  {| at_workflows := at_workflows db; at_backends := at_backends db; at_mappings := at_mappings db;
     at_referrers := at_referrers db; at_cache := at_cache db; at_cas := s; at_uploads := at_uploads db |}.
Definition with_uploads (db : AttestationDB) (l : list PendingUpload) : AttestationDB :=
  {| at_workflows := at_workflows db; at_backends := at_backends db; at_mappings := at_mappings db;
     at_referrers := at_referrers db; at_cache := at_cache db; at_cas := at_cas db; at_uploads := l |}.

(** The tables as the mappings see them *)
Definition mapping_db (db : AttestationDB) : CasDB :=
  {| cd_mappings := at_mappings db; cd_backends := at_backends db; cd_projects := kd_projects (contract_db db);
     cd_runs := dom (db_runs (runs db)) |}.

(** *** A call: a result, and the state that it leaves, also when it fails *)

Definition M (A : Type) : Type := AttestationDB -> result A * AttestationDB.

#[export] Instance M_ret : MRet M := fun A x db => (Ok x, db).
#[export] Instance M_bind : MBind M := fun A B f m db =>
  match m db with (Ok x, db') => f x db' | (Err e, db') => (Err e, db') end.

(** What only reads *)
Definition reads {A} (f : AttestationDB -> result A) : M A := fun db => (f db, db).
Definition fails {A} (e : goerr) : M A := fun db => (Err e, db).
Definition requires (b : bool) (e : goerr) : M unit := fun db => (guard_err (negb b) e, db).
(** What replaces a part of the state, or leaves it when it fails *)
Definition writes {S} (put : AttestationDB -> S -> AttestationDB) (f : AttestationDB -> result S) : M unit := fun db =>
  match f db with Ok s => (Ok tt, put db s) | Err e => (Err e, db) end.
(** The error of a call, converted *)
Definition failing {A} (f : goerr -> goerr) (m : M A) : M A := fun db => (map_err f (m db).1, (m db).2).
Definition when (b : bool) (m : M unit) : M unit := if b then m else mret tt.
End State.

(** ** What the calls read *)

(** [BootstrapConfig], as far as it is read *)
Record BootstrapConfig := { bc_UiDashboardUrl : string; bc_SkipDbStorage : bool }.

(** Errors of the reason [CASBackendErrorReason] *)
Definition ErrorCasBackendErrorReasonRequired (msg : string) : goerr := transport_err Forbidden msg.
Definition ErrorCasBackendErrorReasonInvalid (msg : string) : goerr := transport_err Forbidden msg.

Definition APITokenProviderKey : string := "apiTokenProvider".

Section Service.
Context `{Decoders} `{Crypto} `{Markup} `{DbOrder} `{Hashes} `{Secrets} `{Jwt} `{CASClient}.
Context {CSR SignerKey : Type} {libs : CALibraries (CSR := CSR) (SignerKey := SignerKey)}.
(** [AuthzUseCase.Enforce], the errors that are bad requests, the signing use case, the
    configuration, the builder of CAS tokens and the policy providers *)
Context (enforce : string -> Policy -> result bool) (others : goerr -> bool).
Context (signing : option (SigningUseCase (CSR := CSR))) (conf : BootstrapConfig) (builder : Builder).

Abbreviation reply := (failing (handleUseCaseErr others)).

(** [downloadBundleFromCAS] *)
Definition downloadBundleFromCAS (db : AttestationDB) (digest : string) (org : UUID) : result (option string) :=
  mapping ← map_err (EWrap "finding CAS mapping") (FindCASMappingForDownloadByOrg (mapping_db db) digest [org] ∅);
  let b := (cm_Backend mapping).2 in
  match cas_Download (cb_provider b) (cb_secret b) (cb_organization b) digest (at_cas db) with
  | (_, Some e) => Err (EWrap "downloading attestation bundle" e)
  | (content, None) => Ok (Some content)
  end.

Definition sources (db : AttestationDB) : BundleSources :=
  {| bs_cache := at_cache db; bs_download := downloadBundleFromCAS db |}.

(** [WorkflowRunUseCase.GetByIDInOrg], in a live organization *)
Definition GetRun (orgID runID : string) : M RunView := fun db =>
  match (org ← parse_uuid orgID; _ ← parse_uuid runID;
         guard_err (negb (live_org (contract_db db) org)) (EWrap "finding workflow run" (NewErrNotFound "workflow run"))) with
  | Err e => (Err e, db)
  | Ok _ => let '(src, r) := GetByIDInOrg (runs db) (sources db) orgID runID in (r, with_bundle_cache db (bs_cache src))
  end.

(** The workflow that is loaded with a run: with its project, without its contract *)
Definition workflow_of_run (db : AttestationDB) (v : RunView) : result Workflow :=
  match workflow_of (runs db) (view_row v) with
  | None => Err (panic "nil dereference")
  | Some w =>
      Ok {| wf_ID := run_workflow (view_row v); wf_Name := wr_name w; wf_Description := wr_description w; wf_Team := wr_team w;
            wf_Project := match kd_projects (contract_db db) !! wr_project w with Some p => pr_name p | None => "" end;
            wf_ProjectID := wr_project w; wf_OrgID := wr_organization w; wf_CreatedAt := wr_created_at w;
            wf_RunsCounter := wr_runs_count w; wf_LastRun := None; wf_ContractID := uuid_Nil; wf_ContractName := "";
            wf_ContractRevisionLatest := 0; wf_WorkflowTemplateID := wr_template w |}
  end.

(** The backends that are loaded with a run, also the deleted ones *)
Definition backends_of (db : AttestationDB) (r : RunRow) : list (UUID * Backend) :=
  omap (fun id => pair id <$> at_backends db !! id) (run_backends r).

(** The caller's account, with [msg] if there is none *)
Definition account (acc : option RobotAccount) (msg : string) : M RobotAccount :=
  match acc with Some a => mret a | None => fails (transport_err NotFound msg) end.

(** [checkAuthRequirements] *)
Definition checkAuthRequirements (a : RobotAccount) (workflowName : string) : M unit :=
  requires (negb (bool_decide (ra_provider_key a = APITokenProviderKey) && is_empty workflowName))
    (transport_err BadRequest "when using an API Token, workflow name is required as parameter").

(** The workflow that a token, or the account of the call, is pinned to *)
Definition pinned (c : Ctx) (acc : option RobotAccount) (wf : Workflow) : M unit :=
  _ ← requires (match cx_token c with
                | Some t => match ct_WorkflowID t with Some w => bool_decide (wf_ID wf = w) | None => true end
                | None => true
                end) (transport_err Forbidden "API token is scoped to a different workflow");
  requires (match acc with
            | Some a => is_empty (ra_workflow_id a) || bool_decide (wf_ID wf = ra_workflow_id a)
            | None => true
            end) (transport_err Forbidden "robot account is scoped to a different workflow").

(** [findWorkflowFromTokenOrNameOrRunID] *)
Definition findWorkflowFromTokenOrNameOrRunID (c : Ctx) (acc : option RobotAccount) (orgID projectName workflowName runID : string)
    : M Workflow :=
  _ ← requires (negb (is_empty orgID)) (NewErrValidationStr "orgID must be provided");
  wf ← (if negb (is_empty workflowName) then
          reads (fun db => uc_FindWorkflowByName (contract_db db) orgID projectName workflowName)
        else if negb (is_empty runID) then
          v ← failing (EWrap "error retrieving the workflow run") (GetRun orgID runID);
          reads (fun db => workflow_of_run db v)
        else fails (NewErrValidationStr "workflowName or workflowRunId must be provided"));
  _ ← pinned c acc wf;
  mret wf.

(** [userHasPermissionOnProject], on a project by its name *)
Definition permitted (orgID : string) (c : Ctx) (project : string) (policy : Policy) : M (UUID * string) :=
  reads (fun db => on_project enforce others (contract_db db) orgID c project policy).

(** [WorkflowContractUseCase.Describe] of the contract of a workflow, without its references *)
Definition describe_contract (wf : Workflow) (revision : Z) : M WorkflowContractWithVersion :=
  reads (fun db => uc_DescribeContract (contract_db db) (wf_OrgID wf) (wf_ContractID wf) revision true).

(** ** The calls *)

(** [GetContract]; the contract of another project is hidden under RBAC *)
Definition svc_GetContract (c : Ctx) (acc : option RobotAccount) (projectName workflowName : string) (revision : Z)
    : M (Workflow * WorkflowContractWithVersion) :=
  a ← account acc "neither robot account nor API token found";
  _ ← checkAuthRequirements a workflowName;
  wf ← reply (findWorkflowFromTokenOrNameOrRunID c acc (ra_org_id a) projectName workflowName "");
  _ ← permitted (ra_org_id a) c projectName PolicyWorkflowRead;
  contractVersion ← reply (describe_contract wf revision);
  _ ← requires (negb (rbacEnabled c && IsProjectScoped (wcv_Contract contractVersion)
                      && negb (bool_decide (se_ID <$> wk_ScopedEntity (wcv_Contract contractVersion) = Some (wf_ProjectID wf)))))
        (transport_err NotFound "contract not found");
  mret (wf, contractVersion).

(** *** Initialization *)

Record InitRequest := {
  ai_ContractRevision : Z;
  ai_JobUrl : string;
  ai_Runner : string;
  ai_WorkflowName : string;
  ai_ProjectName : string;
  ai_ProjectVersion : string;
  ai_RequireExistingVersion : bool;
  ai_UseLatestVersion : bool;
  ai_MarkAsLatest : option bool
}.

(** The result of [Init]: the run, its workflow, the settings of the organization and
    the options for signing *)
Record InitResult := {
  ar_WorkflowRun : UUID * RunRow;
  ar_Workflow : Workflow;
  ar_Organization : string;
  ar_BlockOnPolicyViolation : bool;
  ar_PoliciesAllowedHostnames : list string;
  ar_UiDashboardUrl : string;
  ar_EnableAiAgentCollector : bool;
  ar_SkipRunnerEnvVars : bool;
  ar_TimestampAuthorityUrl : string;
  ar_SigningCa : string
}.

(** [FindDefaultOrFallbackBackend] with the errors of [Init] *)
Definition init_backend (orgID : string) : M (UUID * Backend) :=
  failing (fun e => if IsNotFound e then ErrorCasBackendErrorReasonRequired "no CAS backend configured for organization"
                    else if IsErrValidation e then ErrorCasBackendErrorReasonInvalid "CAS backend is unreachable or misconfigured"
                    else handleUseCaseErr others e)
    (reads (fun db => FindDefaultOrFallbackBackend (at_backends db) orgID)).

Definition init_options (wf : Workflow) (contractVersion : WorkflowContractWithVersion) (backend : UUID * Backend)
    (org : OrganizationRow) (req : InitRequest) : WorkflowRunCreateOpts :=
  {| wo_workflow_id := wf_ID wf;
     wo_contract_revision := Some (wv_ID (wcv_Version contractVersion), wk_LatestRevision (wcv_Contract contractVersion),
                                   wv_Revision (wcv_Version contractVersion));
     wo_run_url := ai_JobUrl req; wo_runner_type := ai_Runner req; wo_cas_backend := backend.1;
     wo_project_version := ai_ProjectVersion req; wo_use_latest := ai_UseLatestVersion req;
     wo_require_existing := ai_RequireExistingVersion req; wo_mark_as_latest := ai_MarkAsLatest req;
     wo_block_released := og_block_released org |}.

(** What [SigningOptions] says; an issuer without a URL is dereferenced *)
Definition timestamp_url : result string :=
  match signing ≫= GetCurrentTSA with
  | None => Ok ""
  | Some tsa => match tsa_URL tsa with Some url => Ok url | None => Err (panic "nil dereference") end
  end.
Definition signing_ca_name : string :=
  match signing ≫= GetSigningCA with Some ca => GetName ca | None => "" end.

(** [Init]; the identifiers are fresh *)
Definition svc_Init (c : Ctx) (acc : option RobotAccount) (run_id version_id : UUID) (now : Z) (req : InitRequest) : M InitResult :=
  a ← account acc "neither robot account nor API token found";
  org ← reply (reads (fun db => org_FindByID (contract_db db) (ra_org_id a)));
  _ ← checkAuthRequirements a (ai_WorkflowName req);
  wf ← reply (findWorkflowFromTokenOrNameOrRunID c acc (ra_org_id a) (ai_ProjectName req) (ai_WorkflowName req) "");
  _ ← permitted (ra_org_id a) c (ai_ProjectName req) PolicyWorkflowRunCreate;
  contractVersion ← failing (fun _ => transport_err NotFound "contract not found") (describe_contract wf (ai_ContractRevision req));
  backend ← init_backend (ra_org_id a);
  _ ← reply (writes with_run_db (fun db => Create (runs db) (init_options wf contractVersion backend org req) run_id version_id now));
  run ← reads (fun db => match db_runs (runs db) !! run_id with Some r => Ok r | None => Err (panic "nil dereference") end);
  url ← reads (fun _ => timestamp_url);
  mret {| ar_WorkflowRun := (run_id, run); ar_Workflow := wf; ar_Organization := og_name org;
          ar_BlockOnPolicyViolation := og_block_on_violation org; ar_PoliciesAllowedHostnames := og_allowed_hostnames org;
          ar_UiDashboardUrl := bc_UiDashboardUrl conf; ar_EnableAiAgentCollector := og_ai_agent_collector org;
          ar_SkipRunnerEnvVars := og_skip_runner_env_vars org; ar_TimestampAuthorityUrl := url;
          ar_SigningCa := signing_ca_name |}.

(** *** Storing *)

(** [UploadAttestationToCAS] *)
Definition UploadAttestationToCAS (attempt : nat) (u : PendingUpload) : CASStore -> result unit * CASStore :=
  let b := (pu_backend u).2 in
  cas_Upload attempt (cb_provider b) (cb_secret b) (cb_organization b) (pu_bundle u)
    ("attestation-" +:+ pu_run u +:+ ".json") (pu_digest u).

(** [uploadAttestationToCASWithRetry]: the number of retries that fit into the time
    that is given to them *)
Fixpoint upload_attempts (retries attempt : nat) (u : PendingUpload) (st : CASStore) : result unit * CASStore :=
  match UploadAttestationToCAS attempt u st, retries with
  | (Ok _, st'), _ => (Ok tt, st')
  | (Err e, st'), O => (Err e, st')
  | (Err _, st'), S retries => upload_attempts retries (S attempt) u st'
  end.

Definition uploadAttestationToCASWithRetry (retries : nat) (u : PendingUpload) : M unit := fun db =>
  let '(r, st) := upload_attempts retries 0 u (at_cas db) in (r, with_cas db st).

(** An upload that was left running, in the order in which they happen to run *)
Definition run_upload (retries i : nat) : M unit := fun db =>
  match at_uploads db !! i with
  | None => (Ok tt, db)
  | Some u =>
      let '(r, st) := upload_attempts retries 0 u (at_cas db) in (r, with_uploads (with_cas db st) (delete i (at_uploads db)))
  end.

(** The first backend of a run, which is the only one *)
Definition first_backend (v : RunView) : M (UUID * Backend) :=
  reads (fun db => match backends_of db (view_row v) with
                   | b :: _ => Ok b
                   | [] => Err (transport_err NotFound "workflow run has no CAS backend")
                   end).

(** A backend that is not known to work is validated again *)
Definition revalidate (now : Z) (b : UUID * Backend) : M unit := fun db =>
  let '(r, t) := PerformValidation (at_backends db) b.1 now in
  (map_err (fun _ => ErrorCasBackendErrorReasonInvalid "your CAS backend can't be reached") r, with_backends db t).

(** The tables of organizations and contract revisions, as the runs see them *)
Definition catalog (db : AttestationDB) : Catalog :=
  {| cat_organizations := omap (fun o => if og_deleted o then None else Some (og_block_released o)) (kd_orgs (contract_db db));
     cat_contracts :=
       map_imap (fun id _ => match repo_FindVersionByID (contract_db db) id with
                             | Err e => Some (Err e)
                             | Ok None => None
                             | Ok (Some w) => Some (Ok (ct_schema (wv_Schema (wcv_Version w))))
                             end) (kd_versions (contract_db db)) |}.

(** [WorkflowRunUseCase.SaveAttestation]; what was committed before an error stays *)
Definition save_attestation (runID bundle : string) (skip : bool) : M string := fun db =>
  let '(r, digest) := SaveAttestation signing (catalog db) (runs db) runID bundle skip in (digest, with_run_db db r).

(** The bundle goes to the database, and to the store of artifacts afterwards, or else
    only to the store, and that before the run refers to it *)
Definition store_bundle (retries : nat) (bundle : string) (runID : UUID) (b : UUID * Backend) : M string :=
  if bc_SkipDbStorage conf && negb (is_inline b.2) then
    let upload := {| pu_bundle := bundle; pu_backend := b; pu_run := runID; pu_digest := bundle_digest bundle |} in
    _ ← reply (reads (fun db => ValidateAttestationContract signing (catalog db) (runs db) runID bundle));
    _ ← reply (uploadAttestationToCASWithRetry retries upload);
    reply (save_attestation runID bundle true)
  else
    digest ← reply (save_attestation runID bundle false);
    _ ← when (negb (is_inline b.2)) (fun db =>
          (Ok tt, with_uploads db ({| pu_bundle := bundle; pu_backend := b; pu_run := runID; pu_digest := digest |} :: at_uploads db)));
    mret digest.

(** The references of the attestation and their mappings; the identifiers are fresh *)
Definition index_attestation (fresh : refkey -> UUID) (now : Z) (env : DsseEnvelope) (digest workflowID : string) : M unit :=
  reply (writes with_referrers (fun db => ExtractAndPersist fresh now (runs db) (at_referrers db) env digest workflowID)).

Definition map_references (fresh : CasDB -> UUID) (now : Z) (b : UUID * Backend) (runID project : UUID) (env : DsseEnvelope)
    (digest : string) : M unit := fun db =>
  let '(r, t) := map_attestation others fresh (mapping_db db) now b runID project env digest in
  (r, with_cas_mappings db (cd_mappings t)).

(** [UpdateReleaseStatus] of the version of a run, loaded with it *)
Definition release_version (now : Z) (v : RunView) : M unit :=
  version ← reads (fun db => match db_versions (runs db) !! run_version (view_row v) with
                             | Some _ => Ok (run_version (view_row v)) | None => Err (panic "nil dereference") end);
  reply (writes with_run_db (fun db => u ← parse_uuid version; version_Update (runs db) u (Some false) now)).

(** [storeAttestation]; the workflow, the run and its backend are what the call read
    before *)
Definition storeAttestation (freshRef : refkey -> UUID) (freshMap : CasDB -> UUID) (retries : nat) (now : Z) (bundle : string)
    (wf : Workflow) (runID : UUID) (wfRun : RunView) (b : UUID * Backend) (markAsReleased : option bool) : M string :=
  dsseEnv ← reply (reads (fun _ => envelope_of_bundle bundle));
  _ ← when (negb (is_inline b.2) && negb (bool_decide (cb_status b.2 = ValidationOK))) (revalidate now b);
  digest ← store_bundle retries bundle runID b;
  _ ← index_attestation freshRef now dsseEnv digest (wf_ID wf);
  _ ← map_references freshMap now b runID (wf_ProjectID wf) dsseEnv digest;
  _ ← when (is_true markAsReleased) (release_version now wfRun);
  _ ← reply (writes with_run_db (fun db => uc_MarkAsFinished (runs db) runID RunSuccess "" now));
  mret digest.

Record StoreRequest := { as_WorkflowRunId : string; as_AttestationBundle : string; as_MarkVersionAsReleased : option bool }.

(** [Store] *)
Definition svc_Store (c : Ctx) (acc : option RobotAccount) (freshRef : refkey -> UUID) (freshMap : CasDB -> UUID) (retries : nat)
    (now : Z) (req : StoreRequest) : M string :=
  a ← account acc "robot account not found";
  _ ← requires (negb (is_empty (as_AttestationBundle req))) (transport_err BadRequest "attestation bundle is required");
  wf ← reply (findWorkflowFromTokenOrNameOrRunID c acc (ra_org_id a) "" "" (as_WorkflowRunId req));
  _ ← permitted (ra_org_id a) c (wf_Project wf) PolicyWorkflowRunCreate;
  wRun ← reply (GetRun (ra_org_id a) (as_WorkflowRunId req));
  b ← first_backend wRun;
  runID ← reads (fun _ => parse_uuid (as_WorkflowRunId req));
  reply (storeAttestation freshRef freshMap retries now (as_AttestationBundle req) wf runID wRun b (as_MarkVersionAsReleased req)).

(** *** Cancellation *)

Inductive TriggerType := TRIGGER_TYPE_UNSPECIFIED | TRIGGER_TYPE_FAILURE | TRIGGER_TYPE_CANCELLATION.

Definition cancel_status (t : TriggerType) : result WorkflowRunStatus :=
  match t with
  | TRIGGER_TYPE_FAILURE => Ok RunError
  | TRIGGER_TYPE_CANCELLATION => Ok RunCancelled
  | TRIGGER_TYPE_UNSPECIFIED => Err (EMsg "invalid trigger")
  end.

(** [Cancel] *)
Definition svc_Cancel (c : Ctx) (acc : option RobotAccount) (now : Z) (runID : string) (trigger : TriggerType) (reason : string) : M unit :=
  a ← account acc "robot account not found";
  wf ← reply (findWorkflowFromTokenOrNameOrRunID c acc (ra_org_id a) "" "" runID);
  _ ← permitted (ra_org_id a) c (wf_Project wf) PolicyWorkflowRunUpdate;
  status ← reads (fun _ => cancel_status trigger);
  _ ← writes with_run_db (fun db => uc_MarkAsFinished (runs db) runID status reason now);
  _ ← reply (GetRun (ra_org_id a) runID);
  mret tt.

(** *** Credentials for uploads *)

Definition upload_credentials (b : Backend) : CASCredsOpts :=
  {| cr_BackendType := cb_provider b; cr_SecretPath := cb_secret b; cr_Role := Uploader; cr_MaxBytes := cb_max_bytes b;
     cr_OrgID := cb_organization b; cr_SourceInternal := false; cr_Digest := "" |}.

(** [GetUploadCreds]: the backend of the run and, if it has a secret, a token *)
Definition svc_GetUploadCreds (c : Ctx) (acc : option RobotAccount) (now : Z) (runID : string) : M ((UUID * Backend) * string) :=
  a ← account acc "robot account not found";
  wRun ← reply (GetRun (ra_org_id a) runID);
  wf ← reads (fun db => workflow_of_run db wRun);
  _ ← permitted (ra_org_id a) c (wf_Project wf) PolicyWorkflowRunCreate;
  b ← first_backend wRun;
  _ ← when (negb (bool_decide (cb_status b.2 = ValidationOK))) (revalidate now b);
  token ← (if is_empty (cb_secret b.2) then mret ""
           else reply (reads (fun _ => GenerateTemporaryCredentials builder now (upload_credentials b.2))));
  mret (b, token).
End Service.

(** *** Policies of remote providers *)

Section PolicyCalls.
Context `{Markup} `{ProviderNet} (others : goerr -> bool) (policyRegistry : Registry) (cliVersion : string).

(** What both calls need: the raw token of the request and an organization *)
Definition policy_caller (c : Ctx) (token : option string) : result (string * Org) :=
  match token with
  | None => Err (transport_err Forbidden "token not found")
  | Some t => org ← map_err (fun _ => transport_err Forbidden "organization not found") (requireCurrentOrg c); Ok (t, org)
  end.

(** [GetPolicy] *)
Definition svc_GetPolicy (c : Ctx) (token : option string) (provider policyName orgName : string) : result RemotePolicy :=
  '(t, org) ← policy_caller c token;
  map_err (handleUseCaseErr others) (GetPolicy policyRegistry cliVersion provider policyName orgName (org_Name org) t false).

(** [GetPolicyGroup] *)
Definition svc_GetPolicyGroup (c : Ctx) (token : option string) (provider groupName orgName : string) : result RemotePolicyGroup :=
  '(t, org) ← policy_caller c token;
  map_err (handleUseCaseErr others) (GetPolicyGroup policyRegistry cliVersion provider groupName orgName (org_Name org) t false).
End PolicyCalls.

(** ** Calls and the result they leave *)

Section Monad.
Context `{CASClient}.

Lemma M_bind_Ok {A B} (m : M A) (f : A -> M B) db y db' :
  (m ≫= f) db = (Ok y, db') <-> exists x db1, m db = (Ok x, db1) /\ f x db1 = (Ok y, db').
Proof.
  unfold mbind, M_bind. destruct (m db) as [[x|e] db1].
  - split; [intros E; by exists x, db1 | by intros (x' & db1' & [= <- <-] & E)].
  - split; [done | by intros (x' & db1' & ? & _)].
Qed.

Lemma reads_Ok {A} (f : AttestationDB -> result A) db x db' : reads f db = (Ok x, db') <-> f db = Ok x /\ db' = db.
Proof. unfold reads. split; [by intros [= <- <-] | by intros [<- ->]]. Qed.

Lemma requires_Ok b e db u db' : requires b e db = (Ok u, db') <-> b = true /\ db' = db.
Proof. unfold requires. destruct u, b; cbn; split; try done; [by intros [= <-] | by intros [_ ->] | by intros [? _]]. Qed.

Lemma writes_Ok {S} (put : AttestationDB -> S -> AttestationDB) f db u db' :
  writes put f db = (Ok u, db') <-> exists s, f db = Ok s /\ db' = put db s.
Proof.
  unfold writes. destruct u, (f db) as [s|e]; split; try done; [intros [= <-]; by exists s | by intros (s' & [= <-] & ->) | by intros (s' & ? & _)].
Qed.

Lemma failing_Ok {A} g (m : M A) db x db' : failing g m db = (Ok x, db') <-> m db = (Ok x, db').
Proof. unfold failing. destruct (m db) as [[y|e] db1]; cbn; split; try done; by intros [= <- <-]. Qed.

Lemma ret_Ok {A} (x y : A) (db db' : AttestationDB) : (mret x : M A) db = (Ok y, db') <-> y = x /\ db' = db.
Proof. unfold mret, M_ret. split; [by intros [= <- <-] | by intros [<- ->]]. Qed.

Lemma when_Ok b (m : M unit) db db' : when b m db = (Ok tt, db') <-> if b then m db = (Ok tt, db') else db' = db.
Proof. unfold when. destruct b; [done|]. rewrite ret_Ok. split; [by intros [_ ->] | by intros ->]. Qed.

Lemma account_Ok acc msg db a db' : account acc msg db = (Ok a, db') <-> acc = Some a /\ db' = db.
Proof.
  unfold account. destruct acc; [rewrite ret_Ok|]; split; try done; [by intros [-> ->] | by intros [[= ->] ->] | by intros [? _]].
Qed.

(** A call that keeps a relation, from states where [P] holds, also when it fails *)
Definition within_rel (P : AttestationDB -> Prop) (R : AttestationDB -> AttestationDB -> Prop) {A} (m : M A) : Prop :=
  forall db, P db -> R db (m db).2.

Class Stable (P : AttestationDB -> Prop) (R : AttestationDB -> AttestationDB -> Prop) : Prop :=
  stable : forall db db', P db -> R db db' -> P db'.

#[export] Instance stable_any R : Stable (fun _ => True) R.
Proof. done. Qed.

Section Within.
Context (P : AttestationDB -> Prop) (R : AttestationDB -> AttestationDB -> Prop) `{!PreOrder R} `{!Stable P R}.

Lemma within_bind {A B} (m : M A) (f : A -> M B) :
  within_rel P R m -> (forall x, within_rel P R (f x)) -> within_rel P R (m ≫= f).
Proof.
  intros Hm Hf db Hp. specialize (Hm db Hp). unfold mbind, M_bind. destruct (m db) as [[x|e] db1]; [|done].
  etrans; [done|]. apply Hf. by eapply stable.
Qed.
Lemma within_ret {A} (x : A) : within_rel P R (mret x).
Proof. intros db _. cbn. reflexivity. Qed.
Lemma within_reads {A} (f : AttestationDB -> result A) : within_rel P R (reads f).
Proof. intros db _. cbn. reflexivity. Qed.
Lemma within_fails {A} e : within_rel P R (fails (A := A) e).
Proof. intros db _. cbn. reflexivity. Qed.
Lemma within_requires b e : within_rel P R (requires b e).
Proof. intros db _. cbn. reflexivity. Qed.
Lemma within_failing {A} g (m : M A) : within_rel P R m -> within_rel P R (failing g m).
Proof. intros Hm db Hp. by apply Hm. Qed.
Lemma within_when b m : within_rel P R m -> within_rel P R (when b m).
Proof. intros Hm. destruct b; [exact Hm | apply within_ret]. Qed.
Lemma within_account acc msg : within_rel P R (account acc msg).
Proof. destruct acc; [apply within_ret | apply within_fails]. Qed.
Lemma within_writes {S} (put : AttestationDB -> S -> AttestationDB) f :
  (forall db s, P db -> f db = Ok s -> R db (put db s)) -> within_rel P R (writes put f).
Proof. intros Hp db Hpre. unfold writes. destruct (f db) eqn:E; [by apply Hp | cbn; reflexivity]. Qed.
End Within.

(** What a part of a call leaves is known to the rest of it *)
Lemma within_bind_then P R `{!PreOrder R} {A B} (Q : A -> AttestationDB -> Prop) (m : M A) (f : A -> M B) :
  within_rel P R m -> (forall db x db1, P db -> m db = (Ok x, db1) -> Q x db1) -> (forall x, within_rel (Q x) R (f x)) ->
  within_rel P R (m ≫= f).
Proof.
  intros Hm HQ Hf db Hp. specialize (Hm db Hp). unfold mbind, M_bind. destruct (m db) as [[x|e] db1] eqn:E; [|done].
  etrans; [done|]. apply Hf. by eapply HQ.
Qed.

Lemma within_impl (P Q : AttestationDB -> Prop) R {A} (m : M A) :
  (forall db, P db -> Q db) -> within_rel Q R m -> within_rel P R m.
Proof. intros Hpq Hm db Hp. by apply Hm, Hpq. Qed.

Lemma within_any P R {A} (m : M A) : within_rel (fun _ => True) R m -> within_rel P R m.
Proof. intros Hm db _. by apply Hm. Qed.
End Monad.

(** Stepping through a call *)
Ltac walk :=
  repeat lazymatch goal with
    | |- within_rel _ _ (mbind _ _) => apply within_bind; [typeclasses eauto|typeclasses eauto| |intros ?]
    | |- within_rel _ _ (mret _) => apply within_ret; typeclasses eauto
    | |- within_rel _ _ (reads _) => apply within_reads; typeclasses eauto
    | |- within_rel _ _ (fails _) => apply within_fails; typeclasses eauto
    | |- within_rel _ _ (requires _ _) => apply within_requires; typeclasses eauto
    | |- within_rel _ _ (account _ _) => apply within_account; typeclasses eauto
    | |- within_rel _ _ (permitted _ _ _ _ _ _) => apply within_reads; typeclasses eauto
    | |- within_rel _ _ (describe_contract _ _) => apply within_reads; typeclasses eauto
    | |- within_rel _ _ (first_backend _) => apply within_reads; typeclasses eauto
    | |- within_rel _ _ (failing _ _) => apply within_failing
    | |- within_rel _ _ (when _ _) => apply within_when; [typeclasses eauto|]
    | |- within_rel _ _ (match ?b with true => _ | false => _ end) => destruct b
    end.

