(* ===== verification/AttestationRecords.v ===== *)
(** * The records of attestations

    The guarantees of the calls of [AttestationService]: what is shown of an
    attestation is what was recorded under its digest, over any sequence of calls;
    a successful call of [Store] leaves a complete record; calls only change the
    runs that their callers may change. *)

From S2P Require Import Prelude.
From S2P Require Import GoStrings.
From S2P Require Import Envelope.
From S2P Require Import Renderer.
From S2P Require Import Verifier.
From S2P Require Import BizErrors.
From S2P Require Import Signing.
From S2P Require Import RunStore.
From S2P Require Import WorkflowRuns.
From S2P Require Import Authz.
From S2P Require Import ApiTokens.
From S2P Require Import Access.
From S2P Require Import Referrers.
From S2P Require Import StateManagers.
From S2P Require Import CasBackends.
From S2P Require Import Memberships.
From S2P Require Import CasTokens.
From S2P Require Import CasMappings.
From S2P Require Import BlobStores.
From S2P Require Import ArtifactCas.
From S2P Require Import CasClient.
From S2P Require Import ContractSchemas.
From S2P Require Import WorkflowContracts.
From S2P Require Import Workflows.

From S2P Require Import AttestationService.

Open Scope Z_scope.

Lemma acceptable_run `{Decoders} `{Crypto} `{Secrets} {CSR SignerKey} {libs : CALibraries (CSR := CSR) (SignerKey := SignerKey)}
    (signing : option (SigningUseCase (CSR := CSR))) cat db u bundle id block p :
  acceptable signing cat db u bundle = Ok (id, block, p) -> uuid_Parse u = Some id /\ is_Some (db_runs db !! id).
Proof.
  unfold acceptable. intros E. apply bind_Ok in E as (i & Hi%parse_uuid_Ok & E).
  destruct (FindByID _ _) as [row|] eqn:Ef; [|done]. repeat (apply bind_Ok in E as (? & _ & E)). injection E as <- _ _. eauto.
Qed.

(** ** Reading a run *)

Section Reading.
Context `{Decoders} `{Crypto} `{DbOrder} `{Hashes} `{CASClient}.

(** Where the bundle of a run is found *)
Inductive found_bundle (db : DB) (src : BundleSources) (id : UUID) (digest bundle : string) : Prop :=
| found_in_cache c : bs_cache src = Some c -> c !! digest = Some bundle -> found_bundle db src id digest bundle
| found_in_db : db_bundles db !! id = Some bundle -> found_bundle db src id digest bundle
| found_in_cas org : bs_download src digest org = Ok (Some bundle) -> bundle <> "" -> found_bundle db src id digest bundle.

Lemma applyBundle_Ok v bundle v' :
  applyBundle v bundle = Ok v' -> view_row v' = view_row v /\ view_digest v' = view_digest v /\ view_bundle v' = bundle.
Proof. unfold applyBundle. intros E. apply bind_Ok in E as (b & _ & E). by apply bind_Ok in E as (env & _ & [= <-]). Qed.

(** What is shown was found, and the cache only takes what was found *)
Definition shows (db : DB) (src : BundleSources) (id : UUID) (v : RunView) (src' : BundleSources) (res : result RunView) : Prop :=
  (forall c' d b, bs_cache src' = Some c' -> c' !! d = Some b ->
     (exists c, bs_cache src = Some c /\ c !! d = Some b) \/ d = view_digest v /\ found_bundle db src id d b)
  /\ forall v', res = Ok v' -> view_row v' = view_row v /\ view_digest v' = view_digest v
       /\ (view_bundle v' = view_bundle v
           \/ run_state (view_row v) = RunSuccess /\ found_bundle db src id (view_digest v) (view_bundle v')).

Lemma shows_same db src id v r : (forall v', r = Ok v' -> v' = v) -> shows db src id v src r.
Proof.
  intros Hr. split; [intros c' d b ? ?; left; by exists c'|]. intros v' E. rewrite (Hr v' E). naive_solver.
Qed.

Lemma shows_found db src id v b src' :
  run_state (view_row v) = RunSuccess -> found_bundle db src id (view_digest v) b ->
  src' = src \/ src' = cacheBundle src (view_digest v) b -> shows db src id v src' (applyBundle v b).
Proof.
  intros Hs Hf Hs'. split.
  - intros c' d b' Hc Hd. destruct Hs' as [-> | ->]; [left; by exists c'|]. cbn in Hc.
    destruct (bs_cache src) as [c|]; [|done]. injection Hc as <-.
    apply lookup_insert_Some in Hd as [[<- <-] | [_ Hd]]; [by right | left; by exists c].
  - intros v' (? & ? & ->)%applyBundle_Ok. naive_solver.
Qed.

Lemma from_cas_shows db src id v src' res :
  run_state (view_row v) = RunSuccess -> from_cas db src v = (src', res) -> shows db src id v src' res.
Proof.
  intros Hs. unfold from_cas. destruct (workflow_of db (view_row v)) as [wf|]; [|intros [= <- <-]; by apply shows_same].
  destruct (bs_download src _ _) as [[b|]|] eqn:Ed; [|intros [= <- <-]; apply shows_same; naive_solver..].
  destruct (is_empty b) eqn:Eb; intros [= <- <-]; [apply shows_same; naive_solver|]. apply is_empty_false in Eb.
  apply shows_found; [done| |by right]. by eapply found_in_cas.
Qed.

Lemma addAttestation_shows db src id v src' res :
  addAttestationFromBundle db src id v = (src', res) -> shows db src id v src' res.
Proof.
  unfold addAttestationFromBundle. destruct (negb _ || _) eqn:Eg; [intros [= <- <-]; apply shows_same; naive_solver|].
  apply orb_false_iff in Eg as [Hs%negb_false_iff%bool_decide_eq_true Hne].
  destruct (_ ≫= _) as [cached|] eqn:Ec.
  { destruct (bs_cache src) as [c|] eqn:Eb; [|done]. intros [= <- <-]. apply shows_found; [done| |by left].
    by eapply found_in_cache. }
  unfold GetBundle. destruct (db_bundles db !! id) as [b|] eqn:Ebn.
  - destruct (is_empty b); [by apply from_cas_shows|]. intros [= <- <-]. apply shows_found; [done| |by right]. by apply found_in_db.
  - destruct (IsNotFound _); [by apply from_cas_shows | intros [= <- <-]; by apply shows_same].
Qed.

(** Reading a run: it changes the cache only, and shows the run of the organization *)
Lemma GetRun_shows orgID runID db res db' :
  GetRun orgID runID db = (res, db') ->
  db' = db /\ is_ok res = false
  \/ exists org id r src' res', uuid_Parse orgID = Some org /\ uuid_Parse runID = Some id /\ live_org (contract_db db) org = true
       /\ RunStore.FindByIDInOrg (runs db) org id = Ok r /\ shows (runs db) (sources db) id (run_view r) src' res'
       /\ db' = with_bundle_cache db (bs_cache src') /\ res = map_err (EWrap "retrieving attestation from bundle") res'.
Proof.
  unfold GetRun. destruct (_ ≫= _) as [[]|] eqn:Ek; [|intros [= <- <-]; by left].
  apply bind_Ok in Ek as (org & Ho%parse_uuid_Ok & Ek). apply bind_Ok in Ek as (id & Hi%parse_uuid_Ok & Hl%guard_err_Ok).
  apply negb_false_iff in Hl. unfold GetByIDInOrg, parse_uuid. rewrite Ho, Hi. cbn [mbind result_bind].
  destruct (RunStore.FindByIDInOrg _ _ _) as [r|e] eqn:Ef; cbn [map_err mbind result_bind].
  - destruct (addAttestationFromBundle _ _ _ _) as [src' res'] eqn:Ea. cbn. intros [= <- <-]. right.
    apply addAttestation_shows in Ea. exists org, id, r, src', res'. naive_solver.
  - intros [= <- <-]. left. split; [|done]. destruct db. done.
Qed.

Lemma FindByIDInOrg_Ok db org id r :
  RunStore.FindByIDInOrg db org id = Ok r ->
  db_runs db !! id = Some r /\ exists w, db_workflows db !! run_workflow r = Some w /\ wr_organization w = org.
Proof.
  unfold RunStore.FindByIDInOrg. destruct (db_runs db !! id) as [r'|]; [|done].
  destruct (db_workflows db !! run_workflow r') as [w|] eqn:Ew; [|done]. case_bool_decide; [|done]. intros [= <-]. eauto.
Qed.

Lemma GetRun_row orgID runID db v db' :
  GetRun orgID runID db = (Ok v, db') ->
  exists org id, uuid_Parse orgID = Some org /\ uuid_Parse runID = Some id /\ live_org (contract_db db) org = true
    /\ RunStore.FindByIDInOrg (runs db) org id = Ok (view_row v) /\ runs db' = runs db
    /\ view_digest v = run_digest (view_row v)
    /\ (view_bundle v = "" \/ run_state (view_row v) = RunSuccess
                            /\ found_bundle (runs db) (sources db) id (view_digest v) (view_bundle v)).
Proof.
  intros [[_ ?] | (org & id & r & src' & res' & Ho & Hi & Hl & Hf & [_ Hs] & -> & Hres)]%GetRun_shows; [done|].
  symmetry in Hres. apply map_err_Ok in Hres. destruct (Hs v Hres) as (Hrow & Hd & Hb). cbn in Hrow, Hd, Hb.
  exists org, id. rewrite Hrow, Hd. done.
Qed.

Lemma first_backend_Ok v db b db' :
  first_backend v db = (Ok b, db') -> db' = db /\ exists l, backends_of db (view_row v) = b :: l.
Proof. unfold first_backend. intros [E ->]%reads_Ok. destruct (backends_of _ _) as [|x l]; [done|]. injection E as ->. eauto. Qed.

(** Reading changes the cache only *)
Lemma GetRun_cache org runID db res db' : GetRun org runID db = (res, db') -> exists c, db' = with_bundle_cache db c.
Proof.
  intros [[-> _] | (? & ? & ? & src & ? & _ & _ & _ & _ & _ & -> & _)]%GetRun_shows; [|by eexists].
  exists (at_cache db). by destruct db.
Qed.

Lemma GetRun_same org runID db v db1 v' db2 :
  GetRun org runID db = (Ok v, db1) -> GetRun org runID db1 = (Ok v', db2) -> view_row v' = view_row v.
Proof.
  intros (o & id & Ho & Hi & _ & Hf & Hr & _)%GetRun_row (o' & id' & Ho' & Hi' & _ & Hf' & _)%GetRun_row.
  rewrite Hr in Hf'. congruence.
Qed.
End Reading.

(** ** What is shown of an attestation is what was recorded *)

Section Integrity.
Context `{Decoders} `{Crypto} `{Markup} `{DbOrder} `{Hashes} `{Secrets} `{Jwt} `{CASClient}.
Context {CSR SignerKey : Type} {libs : CALibraries (CSR := CSR) (SignerKey := SignerKey)}.
Context (enforce : string -> Policy -> result bool) (others : goerr -> bool).
Context (signing : option (SigningUseCase (CSR := CSR))) (conf : BootstrapConfig) (builder : Builder).

(** Whether the bundle of a run goes to the store of artifacts only *)
Definition inlines (db : AttestationDB) (r : RunRow) : list bool := (fun b => is_inline b.2) <$> backends_of db r.
Definition skips_db (db : AttestationDB) (r : RunRow) : bool :=
  match inlines db r with i :: _ => bc_SkipDbStorage conf && negb i | [] => false end.

(** The bundles of the database are those of the digests of their runs, which are not
    stored elsewhere, and the cache holds bundles under their digests *)
Record bundles_coherent (db : AttestationDB) : Prop := {
  co_bundles : forall id b, db_bundles (runs db) !! id = Some b ->
    b <> "" /\ exists r, db_runs (runs db) !! id = Some r /\ run_digest r = bundle_digest b /\ skips_db db r = false;
  co_cache : forall c d b, at_cache db = Some c -> c !! d = Some b -> b <> "" /\ d = bundle_digest b
}.

(** What leaves the digests, the bundles and the providers of backends alone *)
Record digests_kept (db db' : AttestationDB) : Prop := {
  dk_bundles : db_bundles (runs db') = db_bundles (runs db);
  dk_runs : forall id r, db_runs (runs db) !! id = Some r -> exists r', db_runs (runs db') !! id = Some r'
    /\ run_digest r' = run_digest r /\ run_backends r' = run_backends r;
  dk_cache : at_cache db' = at_cache db;
  dk_providers : forall id, cb_provider <$> at_backends db' !! id = cb_provider <$> at_backends db !! id
}.

(** The steps of the service: one reading of a run, the transactions that record an
    attestation, and whatever else leaves digests and bundles alone *)
Inductive service_step (db : AttestationDB) : AttestationDB -> Prop :=
| ss_read orgID runID : service_step db (GetRun orgID runID db).2
| ss_bundle id bundle block r row :
    SaveAttestationBundle (runs db) id (bundle_digest bundle) bundle block = Ok r ->
    db_runs (runs db) !! id = Some row -> skips_db db row = false -> service_step db (with_run_db db r)
| ss_digest id bundle block r row :
    SaveAttestationDigest (runs db) id (bundle_digest bundle) block = Ok r ->
    db_runs (runs db) !! id = Some row -> skips_db db row = true -> service_step db (with_run_db db r)
| ss_other db' : digests_kept db db' -> service_step db db'.

Lemma inlines_kept db db' r r' :
  digests_kept db db' -> run_backends r' = run_backends r -> inlines db' r' = inlines db r.
Proof.
  intros Hk Hb. unfold inlines, backends_of. rewrite Hb. clear Hb. induction (run_backends r) as [|id l IH]; [done|]. cbn.
  pose proof (dk_providers _ _ Hk id) as Hp.
  destruct (at_backends db' !! id) as [b'|], (at_backends db !! id) as [b|]; cbn in *; try done.
  injection Hp as Hp. f_equal; [unfold is_inline; cbn; by rewrite Hp | exact IH].
Qed.

Lemma skips_kept db db' r r' : digests_kept db db' -> run_backends r' = run_backends r -> skips_db db' r' = skips_db db r.
Proof. intros Hk Hb. unfold skips_db. by rewrite (inlines_kept _ _ _ _ Hk Hb). Qed.

Lemma kept_coherent db db' : digests_kept db db' -> bundles_coherent db -> bundles_coherent db'.
Proof.
  intros Hk [Hb Hc]. split.
  - intros id b. rewrite (dk_bundles _ _ Hk). intros (Hne & r & Hr & Hd & Hs)%Hb. split; [done|].
    destruct (dk_runs _ _ Hk _ _ Hr) as (r' & Hr' & Hd' & Hb'). exists r'. split; [done|]. split; [congruence|].
    by rewrite (skips_kept _ _ _ _ Hk Hb').
  - intros c d b. rewrite (dk_cache _ _ Hk). apply Hc.
Qed.

#[export] Instance digests_kept_preorder : PreOrder digests_kept.
Proof.
  split.
  - intros db. split; [done| |done|done]. intros id r Hr. by exists r.
  - intros a b c [A1 A2 A3 A4] [B1 B2 B3 B4]. split; [congruence| |congruence|intros id; by rewrite B4, A4].
    intros id r Hr. destruct (A2 _ _ Hr) as (r1 & Hr1 & ? & ?). destruct (B2 _ _ Hr1) as (r2 & Hr2 & ? & ?).
    exists r2. split; [done|]. split; congruence.
Qed.

(** What the store hands out for a digest has it, or is nothing *)
Definition downloads_whole : Prop := forall provider secret org digest st content,
  cas_Download provider secret org digest st = (content, None) -> content = "" \/ digest = bundle_digest content.

(** *** The steps keep the bundles coherent *)

Lemma found_is_digest db id r d b :
  downloads_whole -> bundles_coherent db -> db_runs (runs db) !! id = Some r -> d = run_digest r ->
  found_bundle (runs db) (sources db) id d b -> b <> "" /\ d = bundle_digest b.
Proof.
  intros Hw [Hb Hc] Hr -> [c Hca Hcd | Hdb | org Hdl Hne].
  - by apply (Hc _ _ _ Hca).
  - destruct (Hb _ _ Hdb) as (? & r' & Hr' & Hd & _). split; [done | congruence].
  - split; [done|]. cbn in Hdl. unfold downloadBundleFromCAS in Hdl. apply bind_Ok in Hdl as (m & _ & Hdl).
    destruct (cas_Download _ _ _ _ _) as [content [e|]] eqn:Ed; [done|]. injection Hdl as ->.
    by destruct (Hw _ _ _ _ _ _ Ed).
Qed.

Lemma reading_ok db orgID runID : downloads_whole -> bundles_coherent db -> bundles_coherent (GetRun orgID runID db).2.
Proof.
  intros Hw Hok. destruct (GetRun orgID runID db) as [res db'] eqn:E. cbn.
  apply GetRun_shows in E as [[-> _] | (org & id & r & src' & res' & _ & _ & _ & Hf & [Hc _] & -> & _)]; [done|].
  apply FindByIDInOrg_Ok in Hf as [Hr _]. split; [apply (co_bundles _ Hok)|].
  cbn. intros c' d b Hc' Hd. destruct (Hc _ _ _ Hc' Hd) as [(c & Hca & Hcd) | [-> Hf]]; [by eapply (co_cache _ Hok)|].
  by eapply found_is_digest.
Qed.

Lemma SaveAttestationBundle_row db id digest bundle block r :
  SaveAttestationBundle db id digest bundle block = Ok r ->
  db_bundles db !! id = None /\ bundle <> ""
  /\ r = with_bundles (update_run db id (RunStore.set_digest digest)) (<[id := bundle]> (db_bundles db)).
Proof. intros (db1 & [-> _]%SaveAttestationDigest_Ok & -> & _ & ? & ?)%SaveAttestationBundle_Ok. done. Qed.

Lemma service_step_ok db db' : downloads_whole -> bundles_coherent db -> service_step db db' -> bundles_coherent db'.
Proof.
  intros Hw Hok [orgID runID | id bundle block r row Hs Hr Hm | id bundle block r row Hs Hr Hm | db1 Hk];
    [by apply reading_ok| | |by eapply kept_coherent]; destruct Hok as [Hb Hc].
  - apply SaveAttestationBundle_row in Hs as (Hnone & Hnb & ->). split; [|done]. cbn.
    intros j b [[<- <-] | [Hj Hbj]]%lookup_insert_Some.
    + split; [done|]. rewrite lookup_alter_eq, Hr. by exists (RunStore.set_digest (bundle_digest bundle) row).
    + destruct (Hb _ _ Hbj) as (? & r & Hrj & Hd & Hs). split; [done|]. exists r. by rewrite lookup_alter_ne.
  - apply SaveAttestationDigest_Ok in Hs as [-> _]. split; [|done]. cbn.
    intros j b Hbj. destruct (Hb _ _ Hbj) as (? & r & Hrj & Hd & Hs). split; [done|].
    assert (j <> id) by (intros ->; congruence). exists r. by rewrite lookup_alter_ne.
Qed.

(** *** The calls are sequences of steps *)

Abbreviation steps := (rtc service_step).

Lemma kept_steps P {A} (m : M A) : (forall db, P db -> digests_kept db (m db).2) -> within_rel P steps m.
Proof. intros Hm db Hp. apply rtc_once, ss_other. by apply Hm. Qed.

(** What does not touch the runs, the cache and the backends *)
Lemma elsewhere_kept db db' :
  runs db' = runs db -> at_cache db' = at_cache db -> at_backends db' = at_backends db -> digests_kept db db'.
Proof. intros Hr Hc Hb. split; rewrite ?Hr, ?Hc, ?Hb; try done. intros id r ?. by exists r. Qed.

(** Run tables with the same bundles, digests and backends *)
Definition runs_kept (a b : DB) : Prop :=
  db_bundles b = db_bundles a
  /\ forall id r, db_runs a !! id = Some r -> exists r', db_runs b !! id = Some r'
       /\ run_digest r' = run_digest r /\ run_backends r' = run_backends r.

Lemma run_tables_kept db r : runs_kept (runs db) r -> digests_kept db (with_run_db db r).
Proof. intros [Hb Hr]. by split. Qed.

Lemma update_run_kept db id f :
  (forall r, run_digest (f r) = run_digest r /\ run_backends (f r) = run_backends r) -> runs_kept db (update_run db id f).
Proof.
  intros Hf. split; [done|]. intros j r Hr. cbn. destruct (decide (j = id)) as [->|].
  - rewrite lookup_alter_eq, Hr. cbn. exists (f r). split; [done | apply Hf].
  - rewrite lookup_alter_ne by done. by exists r.
Qed.

Lemma create_version_step_runs db opts wf snapshot vid v db' :
  create_version_step db opts wf snapshot vid = Ok (v, db') -> db_runs db' = db_runs db /\ db_bundles db' = db_bundles db.
Proof.
  unfold create_version_step, promoteVersionToLatestWithTx, createProjectVersionWithTx. intros E.
  repeat (case_match || inv_ok || simplify_eq/=); done.
Qed.

Lemma create_tx_runs db opts wf snapshot run vid now db' :
  create_tx db opts wf snapshot run vid now = Ok db' ->
  db_runs db !! run = None /\ db_bundles db' = db_bundles db
  /\ exists version, db_runs db' = <[run := new_run opts wf version now]> (db_runs db).
Proof.
  unfold create_tx. intros E. apply bind_Ok in E as ([version db1] & Hv & E). apply create_version_step_runs in Hv as [Hr Hb].
  destruct (db_runs db1 !! run) as [|] eqn:Ef; [done|]. destruct (db_workflows db1 !! _); [|done].
  destruct (db_versions db1 !! version); [|done]. injection E as <-. cbn. rewrite <- Hr, <- Hb.
  split; [done|]. split; [done|]. by exists version.
Qed.

Lemma Create_kept db opts run vid now db' : Create db opts run vid now = Ok db' -> runs_kept db db'.
Proof.
  unfold Create. intros E. apply bind_Ok in E as (o & _ & E). apply bind_Ok in E as ([wf snapshot] & _ & E).
  apply create_tx_runs in E as (Hnone & Hb & version & Hr). split; [done|].
  intros id r Hid. exists r. rewrite Hr, lookup_insert_ne; [done|]. intros <-. congruence.
Qed.

Lemma MarkAsFinished_Ok db id status reason now db' :
  uc_MarkAsFinished db id status reason now = Ok db' ->
  exists u r, uuid_Parse id = Some u /\ db_runs db !! u = Some r /\ db' = update_run db u (set_state status reason (Some now)).
Proof.
  unfold uc_MarkAsFinished, MarkAsFinished. intros E. apply bind_Ok in E as (u & Hu%parse_uuid_Ok & E).
  destruct (db_runs db !! u) as [r|] eqn:Er; [|done]. injection E as <-. by exists u, r.
Qed.

Lemma version_Update_Ok db id pre now db' :
  version_Update db id pre now = Ok db' ->
  db_runs db' = db_runs db /\ db_bundles db' = db_bundles db /\ db_workflows db' = db_workflows db
  /\ exists v v', db_versions db !! id = Some v /\ db_versions db' !! id = Some v' /\ pv_deleted v = false
       /\ pv_prerelease v' = default (pv_prerelease v) pre.
Proof.
  unfold version_Update. destruct (db_versions db !! id) as [v|] eqn:Ev; [|done]. destruct (pv_deleted v) eqn:Ed; [done|].
  intros [= <-]. do 3 (split; [done|]). cbn. rewrite lookup_insert_eq. by eexists _, _.
Qed.

Lemma PerformValidation_providers t id now k :
  cb_provider <$> (PerformValidation t id now).2 !! k = cb_provider <$> t !! k.
Proof.
  unfold PerformValidation. destruct (parse_uuid id) as [u|]; [|done]. destruct (backend_FindByID t u) as [b|]; [|done].
  destruct (is_inline b); [done|]. destruct (negb _); [done|]. destruct (validation b) as [status err]. cbn.
  unfold repo_UpdateValidationStatus. destruct (t !! u) as [b'|] eqn:Eu; [|done].
  destruct (decide (k = u)) as [->|]; [by rewrite lookup_insert_eq, Eu | by rewrite lookup_insert_ne].
Qed.

Lemma GetRun_steps P orgID runID : within_rel P steps (GetRun orgID runID).
Proof. intros db _. apply rtc_once, ss_read. Qed.

Lemma writes_runs_steps P f :
  (forall db r, f db = Ok r -> runs_kept (runs db) r) -> within_rel P steps (writes with_run_db f).
Proof.
  intros Hf. apply within_writes; [typeclasses eauto|]. intros db r _ Hr. apply rtc_once, ss_other, run_tables_kept. by apply Hf.
Qed.

Lemma revalidate_steps P now b : within_rel P steps (revalidate now b).
Proof.
  apply kept_steps. intros db _. unfold revalidate. destruct (PerformValidation _ _ _) as [r t] eqn:E. cbn. split; try done.
  - intros id row ?. by exists row.
  - intros id. cbn. rewrite <- (PerformValidation_providers (at_backends db) b.1 now id). by rewrite E.
Qed.

Lemma find_steps P c acc org project name runID :
  within_rel P steps (findWorkflowFromTokenOrNameOrRunID c acc org project name runID).
Proof.
  apply within_any. unfold findWorkflowFromTokenOrNameOrRunID, pinned. walk;  apply GetRun_steps.
Qed.

(** The mode in which the bundle of a run is stored *)
Definition run_mode (id : UUID) (skip : bool) (db : AttestationDB) : Prop :=
  exists row, db_runs (runs db) !! id = Some row /\ skips_db db row = skip.

Lemma alter_backends (t : gmap UUID RunRow) i f id r :
  (forall x, run_backends (f x) = run_backends x) -> t !! id = Some r ->
  exists r', alter f i t !! id = Some r' /\ run_backends r' = run_backends r.
Proof.
  intros Hf Hr. destruct (decide (id = i)) as [->|].
  - rewrite lookup_alter_eq, Hr. cbn. exists (f r). by rewrite Hf.
  - rewrite lookup_alter_ne by done. by exists r.
Qed.

Lemma run_mode_step id skip db db' : run_mode id skip db -> service_step db db' -> run_mode id skip db'.
Proof.
  intros (row & Hr & Hm) [orgID runID | i bundle block r row' Hs _ _ | i bundle block r row' Hs _ _ | db1 Hk].
  - destruct (GetRun orgID runID db) as [res db1] eqn:E. cbn.
    apply GetRun_shows in E as [[-> _] | (? & ? & ? & ? & ? & _ & _ & _ & _ & _ & -> & _)]; by exists row.
  - apply SaveAttestationBundle_row in Hs as (_ & _ & ->).
    destruct (alter_backends _ i (RunStore.set_digest (bundle_digest bundle)) _ _ (fun _ => eq_refl) Hr) as (r' & Hr' & Hb).
    exists r'. split; [done|]. rewrite <- Hm. unfold skips_db, inlines, backends_of. cbn. by rewrite Hb.
  - apply SaveAttestationDigest_Ok in Hs as [-> _].
    destruct (alter_backends _ i (RunStore.set_digest (bundle_digest bundle)) _ _ (fun _ => eq_refl) Hr) as (r' & Hr' & Hb).
    exists r'. split; [done|]. rewrite <- Hm. unfold skips_db, inlines, backends_of. cbn. by rewrite Hb.
  - destruct (dk_runs _ _ Hk _ _ Hr) as (r' & Hr' & _ & Hb). exists r'. split; [done|]. by rewrite (skips_kept _ _ _ _ Hk Hb).
Qed.

#[export] Instance run_mode_stable id skip : Stable (run_mode id skip) steps.
Proof. intros db db' Hm Hs. induction Hs as [|a b c Hab _ IH]; [done|]. by eapply IH, run_mode_step. Qed.

Lemma save_steps u id bundle skip :
  uuid_Parse u = Some id -> within_rel (run_mode id skip) steps (save_attestation signing u bundle skip).
Proof.
  intros Hu db (row & Hr & Hm). unfold save_attestation. destruct (SaveAttestation _ _ _ _ _ _) as [r digest] eqn:E. cbn.
  unfold SaveAttestation in E. destruct (acceptable _ _ _ _ _) as [[[run block] p]|] eqn:Ea; [|injection E as <- _].
  2:{ apply rtc_once, ss_other, run_tables_kept. split; [done|]. intros i x ?. by exists x. }
  assert (run = id) as -> by (apply acceptable_run in Ea as [? _]; congruence).
  set (saved := if skip then _ else _) in E. assert (forall db1, saved = Ok db1 -> service_step db (with_run_db db db1)) as Hstep.
  { unfold saved. destruct skip; intros db1 Hs%map_err_Ok; [by eapply ss_digest | by eapply ss_bundle]. }
  destruct saved as [db1|e]; [|injection E as <- _; apply rtc_once, ss_other, run_tables_kept; split; [done|]; intros i x ?; by exists x].
  eapply rtc_l; [by apply Hstep|].
  destruct (UpdatePolicyStatus db1 id _) as [db2|e] eqn:Eu; injection E as <- _; [|done].
  unfold UpdatePolicyStatus in Eu. destruct (db_runs db1 !! id); [|done]. injection Eu as <-.
  change (with_run_db db (update_run db1 id ?f)) with (with_run_db (with_run_db db db1) (update_run db1 id f)).
  apply rtc_once, ss_other, run_tables_kept. by apply update_run_kept.
Qed.

(** Parsed identifiers are canonical *)
Definition uuid_canonical : Prop := forall s u, uuid_Parse s = Some u -> uuid_Parse u = Some u.

Definition skip_of (b : UUID * Backend) : bool := bc_SkipDbStorage conf && negb (is_inline b.2).

Lemma elsewhere_steps P (f : AttestationDB -> result unit * AttestationDB) :
  (forall db, runs (f db).2 = runs db /\ at_cache (f db).2 = at_cache db /\ at_backends (f db).2 = at_backends db) ->
  within_rel P steps (f : M unit).
Proof. intros Hf. apply kept_steps. intros db _. destruct (Hf db) as (? & ? & ?). by apply elsewhere_kept. Qed.

Lemma store_bundle_steps retries bundle id b :
  uuid_Parse id = Some id -> within_rel (run_mode id (skip_of b)) steps (store_bundle others signing conf retries bundle id b).
Proof.
  intros Hu. unfold store_bundle. destruct (bc_SkipDbStorage conf && negb (is_inline b.2)) eqn:Es; unfold skip_of; rewrite Es.
  - walk; [|by apply save_steps]. apply elsewhere_steps. intros db. unfold uploadAttestationToCASWithRetry.
    by destruct (upload_attempts _ _ _ _).
  - walk; [by apply save_steps|]. by apply elsewhere_steps.
Qed.

Lemma index_steps P fresh now env digest wf : within_rel P steps (index_attestation others fresh now env digest wf).
Proof.
  unfold index_attestation. apply within_failing, within_writes; [typeclasses eauto|]. intros db t _ _.
  by apply rtc_once, ss_other, elsewhere_kept.
Qed.

Lemma map_steps P fresh now b run project env digest : within_rel P steps (map_references others fresh now b run project env digest).
Proof. apply elsewhere_steps. intros db. unfold map_references. by destruct (map_attestation _ _ _ _ _ _ _ _ _). Qed.

Lemma release_steps P now v : within_rel P steps (release_version others now v).
Proof.
  apply within_any. unfold release_version. walk. apply writes_runs_steps. intros db r E.
  apply bind_Ok in E as (u & _ & (Hr & Hb & _)%version_Update_Ok). split; [done|]. intros id row ?. exists row. by rewrite Hr.
Qed.

Lemma finish_steps P u status reason now : within_rel P steps (writes with_run_db (fun db => uc_MarkAsFinished (runs db) u status reason now)).
Proof. apply writes_runs_steps. intros db r (i & row & _ & _ & ->)%MarkAsFinished_Ok. by apply update_run_kept. Qed.

Lemma storeAttestation_steps freshRef freshMap retries now bundle wf id v b released :
  uuid_Parse id = Some id ->
  within_rel (run_mode id (skip_of b)) steps
    (storeAttestation others signing conf freshRef freshMap retries now bundle wf id v b released).
Proof.
  intros Hu. unfold storeAttestation. walk.
  - apply revalidate_steps.
  - by apply store_bundle_steps.
  - apply index_steps.
  - apply map_steps.
  - apply release_steps.
  - apply finish_steps.
Qed.

Lemma svc_Store_steps c acc freshRef freshMap retries now req :
  uuid_canonical -> within_rel (fun _ => True) steps (svc_Store enforce others signing conf c acc freshRef freshMap retries now req).
Proof.
  intros Hcan. unfold svc_Store. do 4 (apply within_bind; [typeclasses eauto|typeclasses eauto|walk; apply find_steps|intros ?]).
  eapply (within_bind_then _ _ (fun v db => exists id, uuid_Parse (as_WorkflowRunId req) = Some id
                                            /\ db_runs (runs db) !! id = Some (view_row v))).
  { apply within_failing, GetRun_steps. }
  { intros db v db1 _ (org & id & _ & Hi & _ & [Hr _]%FindByIDInOrg_Ok & Hrs & _)%failing_Ok%GetRun_row. exists id. by rewrite Hrs. }
  intros v. eapply (within_bind_then _ _ (fun b db => exists id, uuid_Parse (as_WorkflowRunId req) = Some id /\ run_mode id (skip_of b) db)).
  { apply within_reads. typeclasses eauto. }
  { intros db b db1 (id & Hi & Hr) (-> & l & Hb)%first_backend_Ok. exists id. split; [done|]. exists (view_row v). split; [done|].
    unfold skips_db, inlines. by rewrite Hb. }
  intros b. eapply (within_bind_then _ _ (fun id db => uuid_Parse id = Some id /\ run_mode id (skip_of b) db)).
  { apply within_reads. typeclasses eauto. }
  { intros db u db1 (id & Hi & Hm) (Hp & ->)%reads_Ok. apply parse_uuid_Ok in Hp. assert (u = id) as -> by congruence.
    split; [by eapply Hcan | done]. }
  intros id. apply within_failing. intros db [Hu Hm]. by apply storeAttestation_steps.
Qed.
Lemma upload_steps P retries i : within_rel P steps (run_upload retries i).
Proof.
  apply elsewhere_steps. intros db. unfold run_upload. destruct (at_uploads db !! i); [|done].
  by destruct (upload_attempts _ _ _ _).
Qed.

Lemma Init_steps c acc run version now req :
  within_rel (fun _ => True) steps (svc_Init enforce others signing conf c acc run version now req).
Proof.
  unfold svc_Init, checkAuthRequirements, init_backend. walk; [apply find_steps|].
  apply writes_runs_steps. intros db r. apply Create_kept.
Qed.

Lemma Cancel_steps c acc now run trigger reason : within_rel (fun _ => True) steps (svc_Cancel enforce others c acc now run trigger reason).
Proof. unfold svc_Cancel. walk; [apply find_steps | apply finish_steps | apply GetRun_steps]. Qed.

Lemma GetUploadCreds_steps c acc now run : within_rel (fun _ => True) steps (svc_GetUploadCreds enforce others builder c acc now run).
Proof. unfold svc_GetUploadCreds. walk; [apply GetRun_steps | apply revalidate_steps]. Qed.

Lemma GetContract_steps c acc project name revision :
  within_rel (fun _ => True) steps (svc_GetContract enforce others c acc project name revision).
Proof. unfold svc_GetContract, checkAuthRequirements. walk. apply find_steps. Qed.

(** What clients call, in any order, the uploads that are left running, and whatever
    else leaves digests and bundles alone *)
Inductive service_call (db : AttestationDB) : AttestationDB -> Prop :=
| call_GetContract c acc project name revision :
    service_call db (svc_GetContract enforce others c acc project name revision db).2
| call_Init c acc run version now req : service_call db (svc_Init enforce others signing conf c acc run version now req db).2
| call_Store c acc freshRef freshMap retries now req :
    service_call db (svc_Store enforce others signing conf c acc freshRef freshMap retries now req db).2
| call_Cancel c acc now run trigger reason : service_call db (svc_Cancel enforce others c acc now run trigger reason db).2
| call_GetUploadCreds c acc now run : service_call db (svc_GetUploadCreds enforce others builder c acc now run db).2
| call_View orgID runID : service_call db (GetRun orgID runID db).2
| call_upload retries i : service_call db (run_upload retries i db).2
| call_other db' : digests_kept db db' -> service_call db db'.

Lemma service_call_steps db db' : uuid_canonical -> service_call db db' -> steps db db'.
Proof.
  intros Hcan []; [by apply GetContract_steps | by apply Init_steps | by apply svc_Store_steps | by apply Cancel_steps
    | by apply GetUploadCreds_steps | by apply (GetRun_steps (fun _ => True)) | by apply (upload_steps (fun _ => True))
    | by apply rtc_once, ss_other].
Qed.

Lemma service_calls_coherent db db' :
  uuid_canonical -> downloads_whole -> bundles_coherent db -> rtc service_call db db' -> bundles_coherent db'.
Proof.
  intros Hcan Hw Hok Hs. induction Hs as [|a b c Hab _ IH]; [done|]. apply IH. clear IH.
  apply (service_call_steps _ _ Hcan) in Hab. induction Hab as [|x y z Hxy _ IH]; [done|]. by eapply IH, service_step_ok.
Qed.

(** C11: What is shown of an attestation is what was recorded.  After any calls of
    clients, of uploads in the background and of reads, from a coherent state, a run
    that is read is one of the organization, shown with its recorded digest, and the
    bundle that is shown with it, if there is one, is that of a successful run and
    has that very digest, be it taken from the database, the store of artifacts or
    the cache. *)
Theorem shown_attestation_recorded db db1 orgID runID v db2 :
  uuid_canonical -> downloads_whole -> bundles_coherent db -> rtc service_call db db1 ->
  GetRun orgID runID db1 = (Ok v, db2) ->
  bundles_coherent db2
  /\ exists org id wf, uuid_Parse orgID = Some org /\ uuid_Parse runID = Some id
       /\ db_runs (runs db1) !! id = Some (view_row v) /\ db_workflows (runs db1) !! run_workflow (view_row v) = Some wf
       /\ wr_organization wf = org /\ live_org (contract_db db1) org = true
       /\ view_digest v = run_digest (view_row v)
       /\ (view_bundle v <> "" -> run_state (view_row v) = RunSuccess /\ view_digest v = bundle_digest (view_bundle v)).
Proof.
  intros Hcan Hw Hok Hs Hg. pose proof (service_calls_coherent _ _ Hcan Hw Hok Hs) as Hok1. split.
  { pose proof (reading_ok _ orgID runID Hw Hok1) as Hok2. by rewrite Hg in Hok2. }
  apply GetRun_row in Hg as (org & id & Ho & Hi & Hl & Hf & _ & Hd & Hb).
  pose proof (FindByIDInOrg_Ok _ _ _ _ Hf) as (Hr & wf & Hwf & Hwo).
  exists org, id, wf. do 7 (split; [done|]). intros Hne. destruct Hb as [?|[Hst Hfound]]; [done|]. split; [done|].
  by eapply found_is_digest.
Qed.
End Integrity.

(** The store of artifacts that the control plane reaches is such a store, if what it
    read is sent *)
Lemma download_loop_all msgs ended out : forall n, download_loop (fun _ => None) n msgs ended = (out, None) -> out = sent_bytes msgs.
Proof.
  revert out. induction msgs as [|m msgs IH]; intros out n; cbn [download_loop].
  - destruct ended as [|e]; [by intros [= <-]|]. by destruct (errors_is _ _); intros [= <-].
  - destruct (download_loop _ (S n) msgs ended) as [out' e] eqn:E. intros [= <- ->]. by rewrite (IH _ _ E).
Qed.

Lemma casclient_downloads_whole `{Crypto} `{GobLaws} `{HashLaws} `{UuidLib} `{BlobLaws} `{Jwt} uc now factory (sv : nat -> CASServer) :
  (forall content, sha256_hex content = SHA256 content) ->
  (forall n, dk_read (ev_disk (sv_env (sv 0%nat))) n = None) -> (forall n, ev_send (sv_env (sv 0%nat)) n = None) ->
  @downloads_whole _ (casclient_usecase uc now factory sv).
Proof.
  intros Hsha Hread Hsend provider secret org digest st content. cbn. unfold CASClient_Download, client_Download, serve_Read.
  destruct (casAPIClient _ _ _ _) as [token|]; [|done].
  destruct (NewHash digest) as [h|] eqn:Eh; [|done]. apply NewHash_sha256 in Eh as ->. destruct (cn_open _); [done|].
  destruct (jwtAuthFunc _ _ _) as [auth|e].
  2:{ cbn. destruct (errors_is _ _); [intros [= <-]; by left | done]. }
  destruct (Read _ _ _ _) as [[ended sent] st'] eqn:Er.
  destruct (download_loop _ 0 sent ended) as [out e] eqn:Ed. cbn. intros [= <- He].
  destruct e; [done|]. apply download_loop_all in Ed as ->. unfold bundle_digest. rewrite Hsha.
  unfold Read in Er. destruct (read_request _ _ _) as [[info b]|]; [|injection Er as <- <- <-; by left].
  destruct (stageDownload _ _ _ _ _) as [[[body size]|] n] eqn:Es; [|injection Er as <- <- <-; by left].
  apply stageDownload_Ok in Es as (_ & Hb & _). unfold copyStaged in Er.
  destruct (copy_loop_all (sv_env (sv 0%nat)) (S (String.length body)) 0 body Hread Hsend ltac:(lia)) as (all & Hall).
  rewrite Hall in Er. injection Er as <- <- <-. destruct (copy_loop_spec _ _ _ _ _ _ Hall) as (_ & Hbody & _).
  right. by rewrite <- (Hbody eq_refl), Hb.
Qed.

(** ** What a successful call of [Store] leaves *)

Section Recording.
Context `{Decoders} `{Crypto} `{Markup} `{DbOrderLaws} `{Hashes} `{Secrets} `{Jwt} `{CASClient}.
Context {CSR SignerKey : Type} {libs : CALibraries (CSR := CSR) (SignerKey := SignerKey)}.
Context (enforce : string -> Policy -> result bool) (others : goerr -> bool).
Context (signing : option (SigningUseCase (CSR := CSR))) (conf : BootstrapConfig) (builder : Builder).

(** What the calls that record an attestation leave alone *)
Record setting_kept (db db' : AttestationDB) : Prop := {
  sk_orgs : kd_orgs (contract_db db') = kd_orgs (contract_db db);
  sk_projects : kd_projects (contract_db db') = kd_projects (contract_db db);
  sk_workflows : db_workflows (runs db') = db_workflows (runs db)
}.

#[export] Instance setting_kept_preorder : PreOrder setting_kept.
Proof. split; [by split | intros a b c [] []; split; congruence]. Qed.

(** The effects of the parts of [storeAttestation] *)
Lemma revalidate_Ok now b db u db' : revalidate now b db = (Ok u, db') -> exists t, db' = with_backends db t.
Proof. unfold revalidate. destruct (PerformValidation _ _ _) as [r t]. intros [= _ <-]. by exists t. Qed.

Lemma save_attestation_Ok u bundle skip db digest db' :
  save_attestation signing u bundle skip db = (Ok digest, db') ->
  exists id p r, uuid_Parse u = Some id /\ digest = bundle_digest bundle /\ db' = with_run_db db r
    /\ is_Some (db_runs (runs db) !! id) /\ db_runs r = alter (attested_row digest p) id (db_runs (runs db))
    /\ db_versions r = db_versions (runs db) /\ db_workflows r = db_workflows (runs db)
    /\ (skip = false -> db_bundles (runs db) !! id = None /\ db_bundles r = <[id := bundle]> (db_bundles (runs db)) /\ bundle <> "").
Proof.
  unfold save_attestation. destruct (SaveAttestation _ _ _ _ _ _) as [r res] eqn:E. intros [= -> <-].
  apply SaveAttestation_db in E as (id & block & p & Ha & Hd & Hr & Hv & Hw & _ & Hb).
  apply acceptable_run in Ha as [Hi Hrow]. exists id, p, r. eauto 10.
Qed.

Lemma store_bundle_Ok retries bundle id b db digest db' :
  uuid_Parse id = Some id -> store_bundle others signing conf retries bundle id b db = (Ok digest, db') ->
  exists p r st ups, digest = bundle_digest bundle /\ db' = with_uploads (with_cas (with_run_db db r) st) ups
    /\ is_Some (db_runs (runs db) !! id) /\ db_runs r = alter (attested_row digest p) id (db_runs (runs db))
    /\ db_versions r = db_versions (runs db) /\ db_workflows r = db_workflows (runs db)
    /\ if skip_of conf b then True
       else db_bundles (runs db) !! id = None /\ db_bundles r = <[id := bundle]> (db_bundles (runs db)) /\ bundle <> ""
            /\ (is_inline b.2 = false ->
                ups = {| pu_bundle := bundle; pu_backend := b; pu_run := id; pu_digest := digest |} :: at_uploads db).
Proof.
  intros Hu. unfold store_bundle, skip_of. destruct (bc_SkipDbStorage conf && negb (is_inline b.2)); intros E.
  - apply M_bind_Ok in E as ([] & db0 & (_ & ->)%failing_Ok%reads_Ok & E).
    apply M_bind_Ok in E as ([] & db1 & E1%failing_Ok & E%failing_Ok). unfold uploadAttestationToCASWithRetry in E1.
    destruct (upload_attempts _ _ _ _) as [res st]. injection E1 as -> <-.
    apply save_attestation_Ok in E as (i & p & r & Hi & Hd & -> & Hr & E & Hv & Hw & _). assert (i = id) as -> by congruence.
    by exists p, r, st, (at_uploads db).
  - apply M_bind_Ok in E as (d & db1 & E1%failing_Ok & E).
    apply save_attestation_Ok in E1 as (i & p & r & Hi & Hd & -> & Hr & E1 & Hv & Hw & Hb). assert (i = id) as -> by congruence.
    apply M_bind_Ok in E as ([] & db2 & E2%when_Ok & (-> & ->)%ret_Ok). destruct (Hb eq_refl) as (Hb1 & Hb2 & Hb3).
    destruct (is_inline b.2); cbn in E2.
    + subst db2. exists p, r, (at_cas db), (at_uploads db). done.
    + injection E2 as <-. by eexists p, r, (at_cas db), _.
Qed.

Lemma index_attestation_Ok fresh now env digest workflowID db u db' :
  index_attestation others fresh now env digest workflowID db = (Ok u, db') ->
  exists t w att, db' = with_referrers db t /\ uuid_Parse workflowID = Some w
    /\ t !! (digest, ReferrerAttestationType) = Some att /\ w ∈ rr_workflows att.
Proof.
  intros (t & Et & ->)%failing_Ok%writes_Ok. pose proof Et as E. unfold ExtractAndPersist in E.
  apply bind_Ok in E as (w & Hw%parse_uuid_Ok & E). apply bind_Ok in E as (wf & Hwf%map_err_Ok & E).
  apply bind_Ok in E as (refs & Hx%map_err_Ok & _).
  destruct (ExtractAndPersist_saved fresh now _ _ _ _ _ _ _ _ Hw Hwf Hx) as (Hg & t' & Ht & Hin & _).
  rewrite Et in Ht. injection Ht as <-. destruct (graph_center _ _ Hg) as (a & Ha & Hak & _).
  eexists t, w, _. split; [done|]. split; [done|]. rewrite <- Hak. split; [by apply Hin|].
  unfold upserted. destruct (at_referrers db !! rf_key a); cbn; set_solver.
Qed.

(** Who reaches the project in the organization of the backend can download *)
Definition downloadable (db : CasDB) (org project : UUID) (digest : string) : Prop :=
  forall orgs scopes, org ∈ orgs -> (forall sc, scopes !! org = Some sc -> project ∈ sc_ProjectIDs sc) ->
    is_ok (FindCASMappingForDownloadByOrg db digest orgs scopes) = true.

Lemma map_references_Ok fresh now b run project env digest db u db' :
  map_references others fresh now b run project env digest db = (Ok u, db') ->
  exists t, db' = with_cas_mappings db t
    /\ (is_inline b.2 = false -> exists refs bid bk, LookupDigestsInAttestation env digest = Ok refs
          /\ uuid_Parse b.1 = Some bid /\ backend_FindByID (at_backends db) bid = Some bk
          /\ forall ref, ref ∈ refs -> downloadable (mapping_db db') (cb_organization bk) project (lr_Digest ref)).
Proof.
  unfold map_references. destruct (map_attestation _ _ _ _ _ _ _ _ _) as [r m] eqn:E. intros [= -> <-].
  exists (cd_mappings m). split; [done|]. intros Hi. unfold map_attestation in E. rewrite Hi in E.
  destruct (LookupDigestsInAttestation env digest) as [refs|] eqn:El; [|done]. destruct u.
  apply create_mappings_spec in E as (_ & _ & _ & Hall).
  assert (exists bid bk, uuid_Parse b.1 = Some bid /\ backend_FindByID (at_backends db) bid = Some bk) as (bid & bk & Hbid & Hbk).
  { unfold LookupDigestsInAttestation in El. repeat (apply bind_Ok in El as (? & _ & El)). injection El as <-.
    edestruct Hall as (_ & id & row & bk & bid & _ & _ & _ & Hp & <- & Hl & _); [by apply elem_of_cons; left|]. by exists (mp_backend row), bk. }
  exists refs, bid, bk. do 3 (split; [done|]). intros ref Href orgs scopes Hor Hsc.
  destruct (Hall ref Href) as (Hh & id & row & bk' & bid' & Hm & Hd & Hp & Hb1 & Hb2 & Hl & Ho).
  assert (bid' = bid) as -> by congruence. unfold live_backend in Hl. rewrite Hb2 in Hl.
  assert (bk' = bk) as -> by (cbn in Hl; congruence). apply find_is_ok; [done|]. exists id, row, bk.
  do 2 (split; [done|]). split; [|unfold live_backend; by rewrite Hb2].
  split; [by rewrite Ho|]. rewrite Ho. intros sc Hs. left. exists project. auto.
Qed.

Lemma release_version_Ok now v db u db' :
  release_version others now v db = (Ok u, db') ->
  exists r id x, db' = with_run_db db r /\ db_runs r = db_runs (runs db) /\ db_bundles r = db_bundles (runs db)
    /\ db_workflows r = db_workflows (runs db) /\ uuid_Parse (run_version (view_row v)) = Some id
    /\ db_versions r !! id = Some x /\ pv_prerelease x = false.
Proof.
  unfold release_version. intros E. apply M_bind_Ok in E as (version & db1 & [Ev ->]%reads_Ok & E).
  destruct (db_versions _ !! _); [|done]. injection Ev as <-. apply failing_Ok, writes_Ok in E as (r & E & ->).
  apply bind_Ok in E as (id & Hid%parse_uuid_Ok & E).
  apply version_Update_Ok in E as (? & ? & ? & x0 & x & _ & Hx & _ & Hp). by exists r, id, x.
Qed.

(** What is recorded of a run: its outcome, the bundle or its upload, and, for the
    project of its workflow, the attestation in the index and everything that it
    refers to in the store of artifacts *)
Record recorded (db db' : AttestationDB) (bundle : string) (b : UUID * Backend) (wf : Workflow) (id : UUID) (now : Z)
    (env : DsseEnvelope) (digest : string) : Prop := {
  rc_envelope : envelope_of_bundle bundle = Ok env;
  rc_digest : digest = bundle_digest bundle;
  rc_run : exists p row, db_runs (runs db) !! id = Some row
    /\ db_runs (runs db') = <[id := set_state RunSuccess "" (Some now) (attested_row digest p row)]> (db_runs (runs db));
  rc_setting : setting_kept db db';
  rc_bundle : skip_of conf b = false ->
    db_bundles (runs db) !! id = None /\ db_bundles (runs db') = <[id := bundle]> (db_bundles (runs db)) /\ bundle <> ""
    /\ (is_inline b.2 = false ->
        at_uploads db' = {| pu_bundle := bundle; pu_backend := b; pu_run := id; pu_digest := digest |} :: at_uploads db);
  rc_index : exists w att, uuid_Parse (wf_ID wf) = Some w
    /\ at_referrers db' !! (digest, ReferrerAttestationType) = Some att /\ w ∈ rr_workflows att;
  rc_mapped : is_inline b.2 = false -> exists refs bid bk, LookupDigestsInAttestation env digest = Ok refs
    /\ uuid_Parse b.1 = Some bid /\ backend_FindByID (at_backends db') bid = Some bk
    /\ forall ref, ref ∈ refs -> downloadable (mapping_db db') (cb_organization bk) (wf_ProjectID wf) (lr_Digest ref)
}.

Lemma alter_some {A} (f : A -> A) (m : gmap UUID A) id x : m !! id = Some x -> alter f id m = <[id := f x]> m.
Proof.
  intros Hx. apply map_eq. intros j. destruct (decide (j = id)) as [->|].
  - by rewrite lookup_alter_eq, lookup_insert_eq, Hx.
  - by rewrite lookup_alter_ne, lookup_insert_ne.
Qed.

Lemma storeAttestation_Ok freshRef freshMap retries now bundle wf id v b released db digest db' :
  uuid_Parse id = Some id ->
  storeAttestation others signing conf freshRef freshMap retries now bundle wf id v b released db = (Ok digest, db') ->
  exists env, recorded db db' bundle b wf id now env digest
    /\ (released = Some true -> exists u x, uuid_Parse (run_version (view_row v)) = Some u
          /\ db_versions (runs db') !! u = Some x /\ pv_prerelease x = false).
Proof.
  intros Hu E. unfold storeAttestation in E.
  apply M_bind_Ok in E as (env & db0 & [He ->]%failing_Ok%reads_Ok & E).
  apply M_bind_Ok in E as ([] & db1 & E1%when_Ok & E).
  assert (exists t, db1 = with_backends db t) as (t & ->).
  { destruct (_ && _); [by eapply revalidate_Ok | subst db1; exists (at_backends db); by destruct db]. }
  clear E1. apply M_bind_Ok in E as (d & db2 & E2 & E). apply (store_bundle_Ok _ _ _ _ _ _ _ Hu) in E2
    as (p & r & st & ups & -> & -> & [row Hrow] & Hruns & Hvers & Hwfs & Hbun).
  apply M_bind_Ok in E as ([] & db3 & E3 & E). apply index_attestation_Ok in E3 as (tr & w & att & -> & Hw & Hatt & Hin).
  apply M_bind_Ok in E as ([] & db4 & E4 & E). apply map_references_Ok in E4 as (tm & -> & Hmap).
  apply M_bind_Ok in E as ([] & db5 & E5%when_Ok & E). apply M_bind_Ok in E as ([] & db6 & E6%failing_Ok & (-> & ->)%ret_Ok).
  apply writes_Ok in E6 as (rf & E6 & ->). apply MarkAsFinished_Ok in E6 as (i & rowf & Hi & Hrowf & ->).
  assert (i = id) as -> by congruence. set (db4 := with_cas_mappings _ tm) in *.
  assert (exists r5, db5 = with_run_db db4 r5 /\ db_runs r5 = db_runs r /\ db_bundles r5 = db_bundles r /\ db_workflows r5 = db_workflows r
    /\ (released = Some true -> exists u x, uuid_Parse (run_version (view_row v)) = Some u
          /\ db_versions r5 !! u = Some x /\ pv_prerelease x = false)) as (r5 & -> & Hr5 & Hb5 & Hw5 & Hrel).
  { destruct released as [[]|]; cbn in E5; [|subst db5; by exists r..].
    apply release_version_Ok in E5 as (r5 & u & x & -> & Ha & Hb & Hc & Hd & He5 & Hf). exists r5. do 4 (split; [done|]). eauto. }
  cbn in Hrow, Hruns, Hwfs, Hbun. exists env. split; [|done]. cbn in Hrowf. split; try done.
  - exists p, row. split; [done|]. cbn. rewrite Hr5, Hruns, (alter_some _ _ _ _ Hrow).
    rewrite (alter_some _ _ _ (attested_row (bundle_digest bundle) p row)) by by rewrite lookup_insert_eq. by rewrite insert_insert_eq.
  - split; [done..|]. cbn. by rewrite Hw5, Hwfs.
  - intros Hs. rewrite Hs in Hbun. destruct Hbun as (? & Hb & ? & ?). cbn. rewrite Hb5. done.
  - by exists w, att.
Qed.

(** The workflow that is found by a run is the run's *)
Lemma find_by_run_Ok c acc org runID db wf db' :
  findWorkflowFromTokenOrNameOrRunID c acc org "" "" runID db = (Ok wf, db') ->
  exists v, GetRun org runID db = (Ok v, db') /\ workflow_of_run db' v = Ok wf /\ pinned c acc wf db' = (Ok tt, db').
Proof.
  unfold findWorkflowFromTokenOrNameOrRunID. intros E. apply M_bind_Ok in E as ([] & db0 & [_ ->]%requires_Ok & E).
  apply M_bind_Ok in E as (w & db1 & E1 & E). apply M_bind_Ok in E as ([] & db2 & E2 & [-> ->]%ret_Ok).
  cbn in E1. destruct (negb (is_empty runID)); [|done]. apply M_bind_Ok in E1 as (v & db3 & E3%failing_Ok & [E1 ->]%reads_Ok).
  assert (db2 = db3) as ->; [|by exists v].
  unfold pinned in E2. apply M_bind_Ok in E2 as ([] & db4 & [_ ->]%requires_Ok & [_ ->]%requires_Ok). done.
Qed.

(** The parts of a successful call of [Store] *)
Lemma svc_Store_Ok c acc freshRef freshMap retries now req db digest db' :
  svc_Store enforce others signing conf c acc freshRef freshMap retries now req db = (Ok digest, db') ->
  exists a wf v b l id cache p, acc = Some a /\ as_AttestationBundle req <> ""
    /\ uuid_Parse (as_WorkflowRunId req) = Some id
    /\ GetRun (ra_org_id a) (as_WorkflowRunId req) db = (Ok v, with_bundle_cache db p)
    /\ workflow_of_run db v = Ok wf /\ pinned c acc wf db = (Ok tt, db)
    /\ is_ok (on_project enforce others (contract_db db) (ra_org_id a) c (wf_Project wf) PolicyWorkflowRunCreate) = true
    /\ backends_of db (view_row v) = b :: l
    /\ exists v', view_row v' = view_row v /\ storeAttestation others signing conf freshRef freshMap retries now (as_AttestationBundle req) wf id v' b
         (as_MarkVersionAsReleased req) (with_bundle_cache db cache) = (Ok digest, db').
Proof.
  unfold svc_Store. intros E. apply M_bind_Ok in E as (a & db0 & [-> ->]%account_Ok & E).
  apply M_bind_Ok in E as ([] & db0 & [Hne%negb_true_iff%is_empty_false ->]%requires_Ok & E).
  apply M_bind_Ok in E as (wf & db1 & E1%failing_Ok & E). apply find_by_run_Ok in E1 as (v & Hg & Hwf & Hp).
  destruct (GetRun_cache _ _ _ _ _ Hg) as (c1 & ->).
  apply M_bind_Ok in E as (u & db2 & [Hperm ->]%reads_Ok & E). apply M_bind_Ok in E as (v' & db3 & Hg'%failing_Ok & E).
  destruct (GetRun_cache _ _ _ _ _ Hg') as (c2 & ->). pose proof (GetRun_same _ _ _ _ _ _ _ Hg Hg') as Hv.
  apply M_bind_Ok in E as (b & db4 & (-> & l & Hb)%first_backend_Ok & E).
  apply M_bind_Ok in E as (id & db5 & [Hi%parse_uuid_Ok ->]%reads_Ok & E%failing_Ok).
  exists a, wf, v, b, l, id, c2, c1. split; [done|]. split; [done|]. split; [done|]. split; [done|]. split; [done|].
  split. { unfold pinned in *. apply M_bind_Ok in Hp as ([] & d & [Hx ->]%requires_Ok & [Hy _]%requires_Ok).
    apply M_bind_Ok. exists tt, db. by rewrite !requires_Ok. }
  split. { by rewrite (Hperm : on_project _ _ (contract_db db) _ _ _ _ = _). } split; [by rewrite <- Hv|]. by exists v'.
Qed.

Lemma recorded_cache db c db' bundle b wf id now env digest :
  recorded (with_bundle_cache db c) db' bundle b wf id now env digest -> recorded db db' bundle b wf id now env digest.
Proof. intros [? ? ? [] ? ? ?]. by split. Qed.

(** A recorded bundle is read back *)
Lemma recorded_readable db db' bundle b wf id now env digest orgID runID v db1 :
  recorded db db' bundle b wf id now env digest -> skip_of conf b = false -> bundles_coherent conf db' ->
  (forall x, bundle_digest x = digest -> x = bundle) -> uuid_Parse runID = Some id ->
  GetRun orgID runID db = (Ok v, db1) ->
  exists v' db2, GetRun orgID runID db' = (Ok v', db2)
    /\ view_bundle v' = bundle /\ view_envelope v' = Some env /\ view_digest v' = digest.
Proof.
  intros [He Hd (p & row & Hrow & Hruns) [Ho _ Hwfs] Hbun _ _] Hs Hok Hinj Hid Hg.
  destruct (Hbun Hs) as (_ & Hb & Hne & _). apply GetRun_row in Hg as (org & i & Hpo & Hi & Hl & Hf & _).
  assert (i = id) as -> by congruence. apply FindByIDInOrg_Ok in Hf as (Hr & w & Hw & Hwo).
  assert (view_row v = row) as Hv by congruence. rewrite Hv in Hw. clear Hv Hr.
  unfold GetRun, GetByIDInOrg, parse_uuid. rewrite Hpo, Hid. cbn [mbind result_bind].
  assert (live_org (contract_db db') org = true) as -> by (unfold live_org; by rewrite Ho). cbn [negb guard_err].
  assert (RunStore.FindByIDInOrg (runs db') org id = Ok (set_state RunSuccess "" (Some now) (attested_row digest p row))) as ->.
  { unfold RunStore.FindByIDInOrg. rewrite Hruns, lookup_insert_eq. cbn. by rewrite Hwfs, Hw, bool_decide_eq_true_2. }
  cbn [mbind result_bind map_err].
  destruct (addAttestationFromBundle_stored (runs db') (sources db') id
    (run_view (set_state RunSuccess "" (Some now) (attested_row digest p row))) bundle env) as (src & -> & _).
  - done.
  - by rewrite Hd.
  - done.
  - unfold GetBundle. by rewrite Hb, lookup_insert_eq.
  - done.
  - cbn. intros c x Hc Hx. apply Hinj. symmetry. by eapply (co_cache _ _ Hok).
  - by eexists _, _.
Qed.

End Recording.

(** ** An attestation is recorded once *)

Section Once.
Context `{Decoders} `{Crypto} `{Markup} `{DbOrderLaws} `{Hashes} `{Secrets} `{Jwt} `{CASClient}.
Context {CSR SignerKey : Type} {libs : CALibraries (CSR := CSR) (SignerKey := SignerKey)}.
Context (enforce : string -> Policy -> result bool) (others : goerr -> bool).
Context (signing : option (SigningUseCase (CSR := CSR))) (conf : BootstrapConfig) (builder : Builder).

Lemma service_step_bundle db db' id bundle :
  service_step conf db db' -> db_bundles (runs db) !! id = Some bundle -> db_bundles (runs db') !! id = Some bundle.
Proof.
  intros [orgID runID | i b block r row Hs _ _ | i b block r row Hs _ _ | db1 Hk] Hb.
  - destruct (GetRun orgID runID db) as [res db1] eqn:E. by apply GetRun_cache in E as (c & ->).
  - apply SaveAttestationBundle_row in Hs as (Hnone & _ & ->). cbn. rewrite lookup_insert_ne; [done|congruence].
  - by apply SaveAttestationDigest_Ok in Hs as [-> _].
  - by rewrite (dk_bundles _ _ Hk).
Qed.

Lemma service_calls_bundle db db' id bundle : uuid_canonical ->
  rtc (service_call enforce others signing conf builder) db db' ->
  db_bundles (runs db) !! id = Some bundle -> db_bundles (runs db') !! id = Some bundle.
Proof.
  intros Hcan Hs Hb. induction Hs as [|x y z Hxy _ IH]; [done|]. apply IH. clear IH.
  apply (service_call_steps _ _ _ _ _ _ _ Hcan) in Hxy. induction Hxy as [|x1 y1 z1 Hs _ IH]; [done|]. by eapply IH, service_step_bundle.
Qed.

End Once.

(** ** Who changes a run *)

Section Confinement.
Context `{Decoders} `{Crypto} `{Markup} `{DbOrderLaws} `{Hashes} `{Secrets} `{Jwt} `{CASClient}.
Context {CSR SignerKey : Type} {libs : CALibraries (CSR := CSR) (SignerKey := SignerKey)}.
Context (enforce : string -> Policy -> result bool) (others : goerr -> bool).
Context (signing : option (SigningUseCase (CSR := CSR))) (conf : BootstrapConfig) (builder : Builder).

(** The rows of runs stay, or only that of one run changes, which keeps its workflow *)
Definition same_runs (db db' : AttestationDB) : Prop := db_runs (runs db') = db_runs (runs db).
Definition only_run (id : UUID) (db db' : AttestationDB) : Prop :=
  (forall j, j <> id -> db_runs (runs db') !! j = db_runs (runs db) !! j)
  /\ run_workflow <$> db_runs (runs db') !! id = run_workflow <$> db_runs (runs db) !! id.

#[export] Instance same_runs_preorder : PreOrder same_runs.
Proof. split; [done | intros a b c ? ?; unfold same_runs in *; congruence]. Qed.
#[export] Instance only_run_preorder id : PreOrder (only_run id).
Proof.
  split; [done|]. intros a b c [A1 A2] [B1 B2]. split; [|congruence]. intros j Hj. by rewrite B1, A1.
Qed.

Lemma same_only id db db' : same_runs db db' -> only_run id db db'.
Proof. intros E. unfold only_run. by rewrite E. Qed.

(** A part of a call fails, or the rest of it follows *)
Lemma bind_within R {A B} (m : M A) (f : A -> M B) db r db' :
  within_rel (fun _ => True) R m -> (m ≫= f) db = (r, db') ->
  R db db' \/ exists x db1, m db = (Ok x, db1) /\ R db db1 /\ f x db1 = (r, db').
Proof.
  intros Hm. specialize (Hm db I). unfold mbind, M_bind. destruct (m db) as [[x|e] db1]; cbn in Hm.
  - intros E. right. by exists x, db1.
  - intros [= <- <-]. by left.
Qed.

Lemma GetRun_same_runs orgID runID : within_rel (fun _ => True) same_runs (GetRun orgID runID).
Proof. intros db _. destruct (GetRun _ _ db) as [r db'] eqn:E. by apply GetRun_cache in E as (c & ->). Qed.

Lemma find_same_runs c acc org project name runID :
  within_rel (fun _ => True) same_runs (findWorkflowFromTokenOrNameOrRunID c acc org project name runID).
Proof. unfold findWorkflowFromTokenOrNameOrRunID, pinned. walk; apply GetRun_same_runs. Qed.

Lemma update_only_run db id f r : (forall x, run_workflow (f x) = run_workflow x) ->
  db_runs r = db_runs (update_run (runs db) id f) -> only_run id db (with_run_db db r).
Proof.
  intros Hf Hr. split.
  - intros j Hj. cbn. rewrite Hr. cbn. by rewrite lookup_alter_ne.
  - cbn. rewrite Hr. cbn. rewrite lookup_alter_eq. destruct (db_runs (runs db) !! id); cbn; [by rewrite Hf | done].
Qed.

Lemma save_only_run u id bundle skip : uuid_Parse u = Some id ->
  within_rel (fun _ => True) (only_run id) (save_attestation signing u bundle skip).
Proof.
  intros Hu db _. unfold save_attestation, SaveAttestation. destruct (acceptable _ _ _ _ _) as [[[run block] p]|] eqn:Ea; [|done].
  assert (run = id) as -> by (apply acceptable_run in Ea as [? _]; congruence).
  set (saved := if skip then _ else _).
  assert (forall r, saved = Ok r -> db_runs r = db_runs (update_run (runs db) id (RunStore.set_digest (bundle_digest bundle)))) as Hs.
  { unfold saved. destruct skip; intros r Hr%map_err_Ok;
      [by apply SaveAttestationDigest_Ok in Hr as [-> _] | by apply SaveAttestationBundle_row in Hr as (_ & _ & ->)]. }
  destruct saved as [db1|e]; [|done]. assert (only_run id db (with_run_db db db1)) as Hd1 by (eapply update_only_run; [|by apply Hs]; done).
  unfold UpdatePolicyStatus. destruct (db_runs db1 !! id); [|done]. cbn [snd]. etrans; [exact Hd1|].
  change (with_run_db db (update_run db1 id ?f)) with (with_run_db (with_run_db db db1) (update_run db1 id f)).
  eapply update_only_run; [|reflexivity]. done.
Qed.

Lemma finish_only_run u id status reason now : uuid_Parse u = Some id ->
  within_rel (fun _ => True) (only_run id) (writes with_run_db (fun db => uc_MarkAsFinished (runs db) u status reason now)).
Proof.
  intros Hu. apply within_writes; [typeclasses eauto|]. intros db r _ (i & row & Hi & _ & ->)%MarkAsFinished_Ok.
  assert (i = id) as -> by congruence. eapply update_only_run; [|reflexivity]. done.
Qed.

Lemma elsewhere_only_run id (f : AttestationDB -> result unit * AttestationDB) :
  (forall db, runs (f db).2 = runs db) -> within_rel (fun _ => True) (only_run id) (f : M unit).
Proof. intros Hf db _. apply same_only. unfold same_runs. by rewrite Hf. Qed.

Lemma storeAttestation_only_run freshRef freshMap retries now bundle wf id v b released : uuid_Parse id = Some id ->
  within_rel (fun _ => True) (only_run id) (storeAttestation others signing conf freshRef freshMap retries now bundle wf id v b released).
Proof.
  intros Hu. unfold storeAttestation, store_bundle, index_attestation, release_version. walk;
    try by (apply save_only_run || apply finish_only_run).
  - apply elsewhere_only_run. intros db. unfold revalidate. by destruct (PerformValidation _ _ _).
  - apply elsewhere_only_run. intros db. unfold uploadAttestationToCASWithRetry. by destruct (upload_attempts _ _ _ _).
  - by apply elsewhere_only_run.
  - apply within_writes; [typeclasses eauto|]. intros db t _ _. done.
  - apply elsewhere_only_run. intros db. unfold map_references. by destruct (map_attestation _ _ _ _ _ _ _ _ _).
  - apply within_writes; [typeclasses eauto|]. intros db r _ E. apply bind_Ok in E as (u & _ & (Hr & _)%version_Update_Ok).
    apply same_only. exact Hr.
Qed.

(** The workflow that a call is tied to, by a token or an account *)
Definition tied_to (c : Ctx) (acc : option RobotAccount) (id : UUID) : Prop :=
  (forall t w, cx_token c = Some t -> ct_WorkflowID t = Some w -> id = w)
  /\ forall a, acc = Some a -> ra_workflow_id a <> "" -> id = ra_workflow_id a.

(** The caller may change the runs of a workflow: it is one of the organization of its
    account, of a project on which it has the permission, and not another one than it
    is tied to *)
Record entitled (c : Ctx) (acc : option RobotAccount) (db : AttestationDB) (policy : Policy) (wf : Workflow) : Prop := {
  en_tied : tied_to c acc (wf_ID wf);
  en_workflow : exists a org w, acc = Some a /\ uuid_Parse (ra_org_id a) = Some org
    /\ db_workflows (runs db) !! wf_ID wf = Some w /\ wr_organization w = org
    /\ is_ok (on_project enforce others (contract_db db) (ra_org_id a) c (wf_Project wf) policy) = true
}.

Lemma pinned_tied c acc wf db u db' : pinned c acc wf db = (Ok u, db') -> tied_to c acc (wf_ID wf).
Proof.
  unfold pinned. intros E. apply M_bind_Ok in E as ([] & db1 & [Ht _]%requires_Ok & [Ha _]%requires_Ok). split.
  - intros t w Hc Hw. rewrite Hc, Hw in Ht. by apply bool_decide_eq_true in Ht.
  - intros a -> Hne. apply orb_true_iff in Ha as [He%is_empty_true|He%bool_decide_eq_true]; done.
Qed.

(** The workflow of a run, with the organization that it was found in *)
Lemma found_run c acc orgID runID db wf db' :
  findWorkflowFromTokenOrNameOrRunID c acc orgID "" "" runID db = (Ok wf, db') ->
  tied_to c acc (wf_ID wf)
  /\ exists org id row w, uuid_Parse orgID = Some org /\ uuid_Parse runID = Some id /\ db_runs (runs db) !! id = Some row
       /\ run_workflow row = wf_ID wf /\ db_workflows (runs db) !! wf_ID wf = Some w /\ wr_organization w = org.
Proof.
  intros (v & Hg & Hwf & Hp)%find_by_run_Ok. split; [by eapply pinned_tied|].
  destruct (GetRun_cache _ _ _ _ _ Hg) as (cache & ->).
  apply GetRun_row in Hg as (org & id & Ho & Hi & _ & (Hr & w & Hw & Hwo)%FindByIDInOrg_Ok & _).
  unfold workflow_of_run, workflow_of in Hwf. cbn in Hwf. destruct (db_workflows _ !! run_workflow _) as [w'|] eqn:Ew; [|done].
  injection Hwf as <-. injection Hw as ->. by exists org, id, (view_row v), w.
Qed.

(** The calls that change runs *)
Inductive recording_call (c : Ctx) (acc : option RobotAccount) (db : AttestationDB) : Policy -> AttestationDB -> Prop :=
| recording_Init run version now req :
    recording_call c acc db PolicyWorkflowRunCreate (svc_Init enforce others signing conf c acc run version now req db).2
| recording_Store freshRef freshMap retries now req :
    recording_call c acc db PolicyWorkflowRunCreate (svc_Store enforce others signing conf c acc freshRef freshMap retries now req db).2
| recording_Cancel now run trigger reason :
    recording_call c acc db PolicyWorkflowRunUpdate (svc_Cancel enforce others c acc now run trigger reason db).2.

(** What a call may do to the runs *)
Definition confined_to (c : Ctx) (acc : option RobotAccount) (db : AttestationDB) (policy : Policy) (db' : AttestationDB) : Prop :=
  same_runs db db' \/ exists wf id row, entitled c acc db policy wf
    /\ (forall j, j <> id -> db_runs (runs db') !! j = db_runs (runs db) !! j)
    /\ db_runs (runs db') !! id = Some row /\ run_workflow row = wf_ID wf.

(** The next part of a call, when what failed would have left the runs alone *)
Ltac onward E :=
  apply (bind_within same_runs) in E;
  [ destruct E as [?|E]; [left; solve [done | etrans; eassumption]|]
  | walk; apply GetRun_same_runs || apply find_same_runs ].

Lemma confined_run c acc db db' policy wf id row :
  entitled c acc db policy wf -> only_run id db db' -> db_runs (runs db) !! id = Some row -> run_workflow row = wf_ID wf ->
  confined_to c acc db policy db'.
Proof.
  intros Hen [Ho Hid] Hr Hw. right. rewrite Hr in Hid.
  destruct (db_runs (runs db') !! id) as [row'|] eqn:Er; [|done]. injection Hid as Hid. exists wf, id, row'. rewrite Hid. done.
Qed.

(** What [Store] and [Cancel] start with *)
Lemma run_entitled c a runID db wf db1 policy u :
  findWorkflowFromTokenOrNameOrRunID c (Some a) (ra_org_id a) "" "" runID db = (Ok wf, db1) ->
  permitted enforce others (ra_org_id a) c (wf_Project wf) policy db1 = (Ok u, db1) ->
  entitled c (Some a) db policy wf
  /\ exists id row, uuid_Parse runID = Some id /\ db_runs (runs db) !! id = Some row /\ run_workflow row = wf_ID wf.
Proof.
  intros Hf Hp. pose proof Hf as (v & (cache & ->)%GetRun_cache & _)%find_by_run_Ok.
  apply found_run in Hf as [Ht (org & id & row & w & Ho & Hi & Hr & Hrw & Hw & Hwo)]. split; [|by exists id, row].
  split; [done|]. exists a, org, w. do 4 (split; [done|]). apply reads_Ok in Hp as [Hp _].
  by rewrite (Hp : on_project _ _ (contract_db db) _ _ _ _ = _).
Qed.

(** The same when only a run could have changed *)
Lemma only_GetRun id orgID runID : within_rel (fun _ => True) (only_run id) (GetRun orgID runID).
Proof. intros db _. apply same_only. by apply GetRun_same_runs. Qed.

Lemma only_bind {A B} id (m : M A) (f : A -> M B) db r db' :
  within_rel (fun _ => True) (only_run id) m -> (m ≫= f) db = (r, db') ->
  (forall x db1, m db = (Ok x, db1) -> f x db1 = (r, db') -> only_run id db1 db') -> only_run id db db'.
Proof.
  intros Hm [?|(x & db1 & Ex & H1' & E)]%(bind_within (only_run id)) Hf; [done| |done]. etrans; [done|]. by eapply Hf.
Qed.

Lemma Store_confined c acc freshRef freshMap retries now req db : uuid_canonical ->
  confined_to c acc db PolicyWorkflowRunCreate (svc_Store enforce others signing conf c acc freshRef freshMap retries now req db).2.
Proof.
  intros Hcan. destruct (svc_Store _ _ _ _ _ _ _ _ _ _ _ db) as [r db'] eqn:E. cbn [snd]. unfold svc_Store in E.
  onward E. destruct E as (a & db1 & [-> ->]%account_Ok & _ & E).
  onward E. destruct E as ([] & db1 & [_ ->]%requires_Ok & _ & E).
  onward E. destruct E as (wf & db1 & Hf%failing_Ok & Hs1 & E).
  onward E. destruct E as (u & db2 & Hp & Hs2 & E). assert (db2 = db1) as -> by by apply reads_Ok in Hp as [_ ->].
  destruct (run_entitled _ _ _ _ _ _ _ _ Hf Hp) as [Hen (id & row & Hi & Hr & Hrw)]. clear Hf Hp Hs2.
  eapply confined_run; [done| |done|done]. etrans; [by apply same_only|].
  eapply only_bind; [|exact E|]; [apply within_failing, only_GetRun|]. clear E. intros wRun db2 _ E.
  eapply only_bind; [|exact E|]; [walk|]. clear E. intros b db3 _ E.
  eapply only_bind; [|exact E|]; [walk|]. clear E. intros runID db4 [Hp%parse_uuid_Ok _]%reads_Ok E.
  assert (runID = id) as -> by congruence.
  pose proof (storeAttestation_only_run freshRef freshMap retries now (as_AttestationBundle req) wf id wRun b
    (as_MarkVersionAsReleased req) (Hcan _ _ Hi) db4 I) as Hw. pose proof (f_equal snd E) as Hd. cbn in Hd. by rewrite <- Hd.
Qed.

Lemma Cancel_confined c acc now runID trigger reason db :
  confined_to c acc db PolicyWorkflowRunUpdate (svc_Cancel enforce others c acc now runID trigger reason db).2.
Proof.
  destruct (svc_Cancel _ _ _ _ _ _ _ _ db) as [r db'] eqn:E. cbn [snd]. unfold svc_Cancel in E.
  onward E. destruct E as (a & db1 & [-> ->]%account_Ok & _ & E).
  onward E. destruct E as (wf & db1 & Hf%failing_Ok & Hs1 & E).
  onward E. destruct E as (u & db2 & Hp & Hs2 & E). assert (db2 = db1) as -> by by apply reads_Ok in Hp as [_ ->].
  destruct (run_entitled _ _ _ _ _ _ _ _ Hf Hp) as [Hen (id & row & Hi & Hr & Hrw)]. clear Hf Hp Hs2.
  eapply confined_run; [done| |done|done]. etrans; [by apply same_only|].
  eapply only_bind; [|exact E|]; [walk|]. clear E. intros status db2 _ E.
  eapply only_bind; [|exact E|]; [by apply finish_only_run|]. clear E. intros [] db3 _ E.
  eapply only_bind; [|exact E|]; [apply within_failing, only_GetRun|]. clear E. by intros v db4 _ [= _ <-].
Qed.

(** The identifiers of workflows are canonical *)
Definition workflow_ids_canonical (db : AttestationDB) : Prop :=
  forall id, is_Some (db_workflows (runs db) !! id) -> uuid_Parse id = Some id.

Lemma entWFToBizWF_project (db : ContractDB) kw wf :
  entWFToBizWF db kw = Ok wf -> wf_Project wf = match kd_projects db !! wr_project kw.2 with Some p => pr_name p | None => "" end.
Proof.
  unfold entWFToBizWF. destruct (kd_contracts db !! wr_contract kw.2); [|by intros [= <-]].
  destruct (map_err _ _); cbn; [by intros [= <-] | done].
Qed.

(** The workflow that is found by its name is the live one of that name, of the project
    of that name of the organization *)
Lemma found_by_name c acc orgID project name db wf db' :
  workflows_ok (contract_db db) ->
  findWorkflowFromTokenOrNameOrRunID c acc orgID project name "" db = (Ok wf, db') ->
  db' = db /\ tied_to c acc (wf_ID wf)
  /\ exists org w, uuid_Parse orgID = Some org /\ db_workflows (runs db) !! wf_ID wf = Some w /\ wr_organization w = org
       /\ wf_Project wf = project /\ wr_name w = name /\ wr_deleted w = false /\ wf_ProjectID wf = wr_project w.
Proof.
  intros Hok. unfold findWorkflowFromTokenOrNameOrRunID. intros E. apply M_bind_Ok in E as ([] & db0 & [_ ->]%requires_Ok & E).
  apply M_bind_Ok in E as (w & db1 & E1 & E). apply M_bind_Ok in E as ([] & db2 & E2 & [-> ->]%ret_Ok).
  cbn in E1. destruct (negb (is_empty name)); [|done]. apply reads_Ok in E1 as [E1 ->].
  pose proof E2 as Ht%pinned_tied. unfold pinned in E2. apply M_bind_Ok in E2 as ([] & db4 & [_ ->]%requires_Ok & [_ ->]%requires_Ok).
  split; [done|]. split; [done|]. unfold uc_FindWorkflowByName in E1. apply bind_Ok in E1 as (org & Ho%parse_uuid_Ok & E1).
  apply bind_Ok in E1 as ([] & _ & E1). apply bind_Ok in E1 as ([] & _ & E1%map_err_Ok).
  unfold GetOrgScopedByProjectAndName in E1. destruct (find_where _ _) as [[p prow]|] eqn:Ep; [|done].
  destruct (find_where (workflow_named p name) _) as [[i w']|] eqn:Ew; [|done].
  apply find_where_Some in Ep as [Hp Hpn], Ew as [Hw Hwn]. cbn in Hpn, Hwn.
  apply andb_true_iff in Hpn as [[Hpo%bool_decide_eq_true Hpn%bool_decide_eq_true]%andb_true_iff _].
  apply andb_true_iff in Hwn as [[Hwp%bool_decide_eq_true Hwn%bool_decide_eq_true]%andb_true_iff Hd%negb_true_iff].
  pose proof (entWFToBizWF_project _ _ _ E1) as Hproj. apply entWFToBizWF_fields in E1 as (Hid & Hpid & _). cbn in *.
  destruct (wok_uses _ Hok _ _ Hw Hd) as (_ & q & Hq & Hqo). exists org, w'. rewrite Hid.
  rewrite Hwp in Hq. rewrite Hp in Hq. injection Hq as <-. rewrite Hproj, Hwp, Hp, Hpid. split; [done|]. split; [done|]. split; [congruence|]. done.
Qed.

Lemma find_by_name_reads c acc org project name :
  within_rel (fun _ => True) eq (findWorkflowFromTokenOrNameOrRunID c acc org project name "").
Proof.
  unfold findWorkflowFromTokenOrNameOrRunID, pinned. change (negb (is_empty "")) with false. walk.
Qed.

(** A part of a call that only reads *)
Lemma read_bind {A B} (m : M A) (f : A -> M B) db res db' :
  within_rel (fun _ => True) eq m -> (m ≫= f) db = (res, db') ->
  db' = db /\ is_ok res = false \/ exists x, m db = (Ok x, db) /\ f x db = (res, db').
Proof.
  intros Hm. specialize (Hm db I). unfold mbind, M_bind. destruct (m db) as [[x|e] db1]; cbn in Hm; subst db1.
  - intros E. right. by exists x.
  - intros [= <- <-]. by left.
Qed.

Ltac past E := apply read_bind in E; [destruct E as [?|E]; [by left|] | walk; apply find_by_name_reads].

(** A call of [Init] changes nothing, or it creates a run *)
Lemma Init_cases c acc run version now req db res db' :
  workflows_ok (contract_db db) -> svc_Init enforce others signing conf c acc run version now req db = (res, db') ->
  db' = db /\ is_ok res = false
  \/ exists a org wf cv backend r, acc = Some a /\ org_FindByID (contract_db db) (ra_org_id a) = Ok org
       /\ findWorkflowFromTokenOrNameOrRunID c acc (ra_org_id a) (ai_ProjectName req) (ai_WorkflowName req) "" db = (Ok wf, db)
       /\ is_ok (on_project enforce others (contract_db db) (ra_org_id a) c (ai_ProjectName req) PolicyWorkflowRunCreate) = true
       /\ uc_DescribeContract (contract_db db) (wf_OrgID wf) (wf_ContractID wf) (ai_ContractRevision req) true = Ok cv
       /\ FindDefaultOrFallbackBackend (at_backends db) (ra_org_id a) = Ok backend
       /\ Create (runs db) (init_options wf cv backend org req) run version now = Ok r /\ db' = with_run_db db r
       /\ forall v, res = Ok v -> ar_Workflow v = wf /\ ar_Organization v = og_name org
            /\ ar_BlockOnPolicyViolation v = og_block_on_violation org
            /\ exists row, db_runs r !! run = Some row /\ ar_WorkflowRun v = (run, row).
Proof.
  intros Hok E. unfold svc_Init, checkAuthRequirements, init_backend in E.
  past E. destruct E as (a & [-> _]%account_Ok & E).
  past E. destruct E as (org & [Horg _]%failing_Ok%reads_Ok & E).
  past E. destruct E as ([] & _ & E).
  past E. destruct E as (wf & Hwf%failing_Ok & E).
  past E. destruct E as (u & [Hperm _]%reads_Ok & E).
  past E. destruct E as (cv & [Hcv _]%failing_Ok%reads_Ok & E).
  past E. destruct E as (backend & [Hb _]%failing_Ok%reads_Ok & E).
  unfold mbind at 1, M_bind at 1 in E. unfold failing, writes in E.
  destruct (Create _ _ _ _ _) as [r|e] eqn:Ec; cbn [fst snd map_err] in E; [|injection E as <- <-; by left].
  right. exists a, org, wf, cv, backend, r. do 3 (split; [done|]). split; [by rewrite Hperm|]. do 3 (split; [done|]).
  assert (db' = with_run_db db r /\ is_ok res = false -> db' = with_run_db db r /\ forall v, res = Ok v -> False) as Hfail.
  { intros [-> Hres]. split; [done|]. intros v ->. done. }
  apply read_bind in E as [[-> Hn]%Hfail|(row & [Er _]%reads_Ok & E)]; [split; [done|]; by intros v ?%Hn| |walk].
  apply read_bind in E as [[-> Hn]%Hfail|(url & _ & [= <- <-])]; [split; [done|]; by intros v ?%Hn| |walk].
  split; [done|]. intros v [= <-]. cbn in *. destruct (db_runs r !! run) as [x|]; [|done]. injection Er as ->. eauto 10.
Qed.

Lemma Init_confined c acc run version now req db :
  workflows_ok (contract_db db) -> workflow_ids_canonical db ->
  confined_to c acc db PolicyWorkflowRunCreate (svc_Init enforce others signing conf c acc run version now req db).2.
Proof.
  intros Hok Hids. destruct (svc_Init _ _ _ _ _ _ _ _ _ _ db) as [res db'] eqn:E. cbn [snd].
  apply (Init_cases _ _ _ _ _ _ _ _ _ Hok) in E as [[-> _]|(a & org & wf & cv & b & r & -> & _ & Hf & Hp & _ & _ & Hc & -> & _)]; [by left|].
  apply (found_by_name _ _ _ _ _ _ _ _ Hok) in Hf as (_ & Ht & o & w & Ho & Hw & Hwo & Hproj & _).
  unfold Create, create_opts in Hc. cbn in Hc. apply bind_Ok in Hc as (opts & Hopts & Hc).
  apply bind_Ok in Hopts as (id & Hid & Hopts). apply bind_Ok in Hopts as ([] & _ & Hopts). apply bind_Ok in Hopts as ([] & _ & Hopts).
  apply bind_Ok in Hopts as ([] & _ & Hopts). apply bind_Ok in Hopts as ([] & _ & [= <-]).
  apply bind_Ok in Hc as ([w0 snapshot] & _ & Hc). apply create_tx_runs in Hc as (_ & _ & v & Hr). right.
  eexists wf, run, _. split; [|split; [|split]].
  - split; [done|]. exists a, o, w. rewrite Hproj. done.
  - intros j Hj. cbn. by rewrite Hr, lookup_insert_ne.
  - cbn. by rewrite Hr, lookup_insert_eq.
  - cbn. unfold raw_uuid in Hid. specialize (Hids _ (mk_is_Some _ _ Hw)). rewrite Hids in Hid. by injection Hid.
Qed.


Lemma Create_Ok db opts run version now db' :
  Create db opts run version now = Ok db' ->
  exists id contract latest used name w snapshot, uuid_Parse (wo_workflow_id opts) = Some id
    /\ wo_contract_revision opts = Some (contract, latest, used)
    /\ let o := {| RunStore.co_workflow := id; RunStore.co_contract_version := contract; RunStore.co_url := wo_run_url opts;
                   RunStore.co_runner_type := wo_runner_type opts; RunStore.co_backends := [wo_cas_backend opts];
                   RunStore.co_revision_latest := latest; RunStore.co_revision_used := used; RunStore.co_version := name;
                   RunStore.co_use_latest := wo_use_latest opts; RunStore.co_require_existing := wo_require_existing opts;
                   RunStore.co_mark_latest := wo_mark_as_latest opts; RunStore.co_block_released := wo_block_released opts |} in
       resolve_version db o = Ok (w, snapshot) /\ create_tx db o w snapshot run version now = Ok db'.
Proof.
  unfold Create, create_opts. intros E. apply bind_Ok in E as (o & Ho & E). apply bind_Ok in E as ([w snapshot] & Hr & E).
  unfold raw_uuid in Ho. destruct (uuid_Parse _) as [id|]; [|done]. cbn [mbind result_bind] in Ho.
  apply bind_Ok in Ho as ([] & _ & Ho). destruct (wo_contract_revision opts) as [[[contract latest] used]|]; [|done].
  apply bind_Ok in Ho as ([] & _ & Ho). apply bind_Ok in Ho as ([] & _ & Ho). apply bind_Ok in Ho as ([] & _ & [= <-]).
  by eexists id, contract, latest, used, _, w, snapshot.
Qed.

(** C15: What [Init] creates. *)
Theorem initialized_run c acc run version now req db v db' :
  workflows_ok (contract_db db) -> workflow_ids_canonical db -> consistent (runs db) ->
  svc_Init enforce others signing conf c acc run version now req db = (Ok v, db') ->
  exists a org w cv backend row ver, acc = Some a /\ org_FindByID (contract_db db) (ra_org_id a) = Ok org
    /\ entitled c acc db PolicyWorkflowRunCreate (ar_Workflow v) /\ wf_Project (ar_Workflow v) = ai_ProjectName req
    /\ db_workflows (runs db) !! wf_ID (ar_Workflow v) = Some w /\ wr_name w = ai_WorkflowName req /\ wr_deleted w = false
    /\ uc_DescribeContract (contract_db db) (wf_OrgID (ar_Workflow v)) (wf_ContractID (ar_Workflow v)) (ai_ContractRevision req) true = Ok cv
    /\ FindDefaultOrFallbackBackend (at_backends db) (ra_org_id a) = Ok backend
    /\ ar_WorkflowRun v = (run, row) /\ db_runs (runs db) !! run = None
    /\ db_runs (runs db') = <[run := row]> (db_runs (runs db))
    /\ run_workflow row = wf_ID (ar_Workflow v) /\ run_state row = RunInitialized /\ run_digest row = ""
    /\ run_contract_version row = wv_ID (wcv_Version cv) /\ run_revision_used row = wv_Revision (wcv_Version cv)
    /\ run_backends row = [backend.1]
    /\ db_versions (runs db') !! run_version row = Some ver /\ (og_block_released org = true -> pv_prerelease ver = true)
    /\ consistent (runs db').
Proof.
  intros Hok Hids Hcons E. pose proof E as Hs.
  apply (Init_cases _ _ _ _ _ _ _ _ _ Hok) in E as [[_ ?]|(a & org & wf & cv & b & r & -> & Horg & Hf & Hp & Hcv & Hb & Hc & -> & Hv)]; [done|].
  destruct (Hv v eq_refl) as (-> & _ & _ & row & Hrow & Hrun). clear Hv Hs.
  apply (found_by_name _ _ _ _ _ _ _ _ Hok) in Hf as (_ & Ht & o & w & Ho & Hw & Hwo & Hproj & Hname & Hdel & _).
  pose proof (Create_Ok _ _ _ _ _ _ Hc) as (id & contract & latest & used & name & w0 & snapshot & Hid & [= <- <- <-] & Hr & Htx).
  cbn in Hid. rewrite (Hids _ (mk_is_Some _ _ Hw)) in Hid. injection Hid as <-.
  pose proof (create_tx_runs _ _ _ _ _ _ _ _ Htx) as (Hnone & _ & pv & Hruns).
  destruct (create_tx_consistent _ _ _ _ _ _ _ _ Htx Hcons (resolve_pending _ _ _ _ Hr)) as (Hcons' & _ & pv' & Hl & Hblock).
  rewrite Hruns, lookup_insert_eq in Hrow. injection Hrow as <-.
  assert (pv' = pv) as ->.
  { unfold RunStore.links in Hl. rewrite Hruns, lookup_fmap, lookup_insert_eq in Hl. by injection Hl. }
  destruct (runs_linked _ Hcons' _ _ _ _ Hl) as (_ & ver & _ & Hver & _).
  eexists a, org, w, cv, b, _, ver. do 2 (split; [done|]). split; [split; [done|]; exists a, o, w; by rewrite Hproj|].
  do 16 (split; [done|]). split; [|done].
  intros Hbl. destruct (Hblock Hbl) as (ver' & Hver' & Hpre). congruence.
Qed.
End Confinement.

(** ** A small instance *)

Import Toy Tables ContractToys CasTables ContractTables WorkflowTables.

Module AttestationToys.
(** A store that remembers the contents of digests and checks them *)
#[export] Instance toy_cas : CASClient :=
  {| CASStore := gmap string string;
     cas_Upload attempt provider secret org content filename digest st := (Ok tt, <[digest := content]> st);
     cas_Download provider secret org digest st :=
       match st !! digest with
       | Some c => if bool_decide (digest = bundle_digest c) then (c, None) else ("", Some (EMsg "digest mismatch"))
       | None => ("", Some (NewErrNotFound "artifact"))
       end |}.

Lemma toy_cas_whole : downloads_whole.
Proof.
  intros provider secret org digest st content. cbn. case_match; [|discriminate].
  case_bool_decide; [intros [= <-]; by right | discriminate].
Qed.

Lemma toy_uuid_canonical : uuid_canonical.
Proof. intros s u. cbn. destruct (is_empty s) eqn:E; [done|]. intros [= <-]. by rewrite E. Qed.

(** The workflow [b-c] of the project [a], with a backend and no runs *)
Definition start : AttestationDB :=
  {| at_workflows := first; at_backends := {[ "b1" := backend_row true ]}; at_mappings := ∅; at_referrers := ∅;
     at_cache := Some ∅; at_cas := ∅; at_uploads := [] |}.

Definition stored_in_db : BootstrapConfig := {| bc_UiDashboardUrl := ""; bc_SkipDbStorage := false |}.
Definition unsigned : option (SigningUseCase (CSR := string)) := None.
Definition robot : option RobotAccount := Some {| ra_org_id := "o"; ra_workflow_id := ""; ra_provider_key := "" |}.
Definition init_request : InitRequest :=
  {| ai_ContractRevision := 0; ai_JobUrl := "job"; ai_Runner := "runner"; ai_WorkflowName := "b-c"; ai_ProjectName := "a";
     ai_ProjectVersion := "v1"; ai_RequireExistingVersion := false; ai_UseLatestVersion := false; ai_MarkAsLatest := None |}.

Definition toy_Init : result InitResult * AttestationDB :=
  svc_Init toy_enforce no_others unsigned stored_in_db admin robot "run" "version" 20 init_request start.
Definition initialized : AttestationDB := toy_Init.2.

Definition store_request (release : option bool) : StoreRequest :=
  {| as_WorkflowRunId := "run"; as_AttestationBundle := "bundle"; as_MarkVersionAsReleased := release |}.
Definition ref_id (k : refkey) : UUID := k.1 +:+ k.2.
Definition mapping_id (db : CasDB) : UUID := if bool_decide (cd_mappings db = ∅) then "m1" else "m2".
Definition toy_Store (release : option bool) (db : AttestationDB) : result string * AttestationDB :=
  svc_Store toy_enforce no_others unsigned stored_in_db admin robot ref_id mapping_id 0 30 (store_request release) db.

(** Keys that sign anything *)
#[export] Instance any_jwt : Jwt :=
  {| Key := unit; ParseECPrivateKeyFromPEM := fun _ => Ok tt; public_key := fun _ => "pub"; SignedString := fun _ _ => Ok "token";
     ParseWithClaims := fun _ _ _ => Err (EMsg "") |}.
Definition any_builder : Builder := {| bd_pk := Some tt; bd_issuer := DefaultIssuer; bd_expiration := Some 30 |}.

(** An account that is tied to a workflow *)
Definition tied_robot (workflow : string) : option RobotAccount :=
  Some {| ra_org_id := "o"; ra_workflow_id := workflow; ra_provider_key := "" |}.
Definition toy_creds (acc : option RobotAccount) (db : AttestationDB) : result string :=
  snd <$> (svc_GetUploadCreds toy_enforce no_others any_builder admin acc 30 "run" db).1.

(** The backends after something happened to the one of the run *)
Definition with_backend (f : Backend -> Backend) (db : AttestationDB) : AttestationDB :=
  with_backends db (alter f "b1" (at_backends db)).
Definition deleted_backend (b : Backend) : Backend :=
  {| cb_name := cb_name b; cb_organization := cb_organization b; cb_location := cb_location b; cb_description := cb_description b;
     cb_secret := cb_secret b; cb_provider := cb_provider b; cb_default := false; cb_fallback := cb_fallback b;
     cb_managed := cb_managed b; cb_max_bytes := cb_max_bytes b; cb_status := cb_status b; cb_error := cb_error b;
     cb_created_at := cb_created_at b; cb_validated_at := cb_validated_at b; cb_deleted := true |}.
Definition failed_backend (b : Backend) : Backend :=
  {| cb_name := cb_name b; cb_organization := cb_organization b; cb_location := cb_location b; cb_description := cb_description b;
     cb_secret := cb_secret b; cb_provider := cb_provider b; cb_default := cb_default b; cb_fallback := cb_fallback b;
     cb_managed := cb_managed b; cb_max_bytes := cb_max_bytes b; cb_status := ValidationFailed; cb_error := cb_error b;
     cb_created_at := cb_created_at b; cb_validated_at := cb_validated_at b; cb_deleted := cb_deleted b |}.

(** Secrets that cannot be read *)
Definition closed_secrets : Secrets :=
  {| SaveCredentials := fun _ _ _ => Err (EMsg ""); ReadCredentials := fun _ => Err (EMsg "access denied");
     provider_known := fun p => negb (is_empty p); ValidateAndExtractCredentials := fun _ _ _ => None |}.
End AttestationToys.

Import AttestationToys.

Lemma start_canonical : workflow_ids_canonical start.
Proof.
  intros id [w Hw]. cbn. destruct (is_empty id) eqn:E; [|done]. apply is_empty_true in E as ->. vm_compute in Hw. discriminate Hw.
Qed.
Lemma start_consistent : consistent (runs start).
Proof.
  assert (db_versions (runs start) = {[ "v1" := {| pv_project := "p1"; pv_version := "v0"; pv_prerelease := true; pv_latest := true;
            pv_deleted := false; pv_run_count := 0; pv_released_at := None; pv_last_run_at := None |} ]}
          /\ db_runs (runs start) = ∅ /\ db_bundles (runs start) = ∅) as (Hv & Hr & Hb) by (vm_compute; done).
  split; rewrite ?Hv, ?Hb; unfold RunStore.links; rewrite ?Hr, ?fmap_empty.
  - by intros i j v w [<- _]%lookup_singleton_Some [<- _]%lookup_singleton_Some.
  - by intros i j v w [<- _]%lookup_singleton_Some [<- _]%lookup_singleton_Some.
  - intros id w o v. by rewrite lookup_empty.
  - intros w wf Hw. assert (wr_runs_count <$> db_workflows (runs start) !! w = Some (wr_runs_count wf)) as E by by rewrite Hw.
    replace (db_workflows (runs start)) with ({[ "w1" := default toy_row (db_workflows (runs start) !! "w1") ]} : gmap UUID WorkflowRow)
      in E by (vm_compute; reflexivity).
    rewrite lookup_singleton in E. case_decide; [|discriminate E]. cbn [fmap option_fmap option_map] in E. injection E as <-.
    vm_compute. reflexivity.
  - intros v ver [<- <-]%lookup_singleton_Some. reflexivity.
  - intros id b. by rewrite lookup_empty.
Qed.

Lemma initialized_coherent : bundles_coherent stored_in_db initialized.
Proof.
  split.
  - intros id b. replace (db_bundles (runs initialized)) with (∅ : gmap UUID string) by (vm_compute; reflexivity). by rewrite lookup_empty.
  - intros c d b. replace (at_cache initialized) with (Some ∅ : option (gmap string string)) by (vm_compute; reflexivity).
    intros [= <-]. by rewrite lookup_empty.
Qed.

Definition stored : AttestationDB := (toy_Store (Some true) initialized).2.

Abbreviation toy_call := (service_call toy_enforce no_others unsigned stored_in_db any_builder).

Lemma stored_called : rtc toy_call initialized stored.
Proof.
  apply rtc_once. unfold stored, toy_Store.
  exact (call_Store toy_enforce no_others unsigned stored_in_db any_builder initialized admin robot ref_id mapping_id 0 30 (store_request (Some true))).
Qed.

Lemma shown_attestation_recorded_witness :
  exists v db2, GetRun "o" "run" stored = (Ok v, db2) /\ view_bundle v = "bundle" /\ view_digest v = bundle_digest "bundle".
Proof.
  assert (view_bundle <$> (GetRun "o" "run" stored).1 = Ok "bundle") as Hb by (vm_compute; reflexivity).
  destruct (GetRun "o" "run" stored) as [[v|e] db2] eqn:Hg; [|discriminate Hb]. injection Hb as Hb.
  exists v, db2. split; [reflexivity|]. split; [exact Hb|].
  destruct (shown_attestation_recorded toy_enforce no_others unsigned stored_in_db any_builder initialized stored "o" "run" v db2
    toy_uuid_canonical toy_cas_whole initialized_coherent stored_called Hg) as (_ & org & id & wf & _ & _ & _ & _ & _ & _ & _ & Hd).
  rewrite Hb in Hd. apply Hd. discriminate.
Defined.

Lemma stored_coherent : bundles_coherent stored_in_db stored.
Proof.
  exact (service_calls_coherent toy_enforce no_others unsigned stored_in_db any_builder initialized stored
    toy_uuid_canonical toy_cas_whole initialized_coherent stored_called).
Qed.



Lemma initialized_run_witness :
  exists v, toy_Init = (Ok v, initialized) /\ db_runs (runs initialized) = <[ "run" := (ar_WorkflowRun v).2 ]> (db_runs (runs start)).
Proof.
  assert (is_ok toy_Init.1 = true) as Hr by (vm_compute; reflexivity). assert (toy_Init.2 = initialized) as Hs by reflexivity.
  destruct toy_Init as [[v|e] db'] eqn:E; [|discriminate Hr]. cbn [snd] in Hs. subst db'. unfold toy_Init in E.
  destruct (initialized_run toy_enforce no_others unsigned stored_in_db admin robot "run" "version" 20 init_request start v initialized
    first_ok start_canonical start_consistent E) as (a & org & w & cv & b & row & ver & _ & _ & _ & _ & _ & _ & _ & _ & _ & Hrun & _ & Hruns & _).
  exists v. split; [reflexivity|]. rewrite Hrun. exact Hruns.
Defined.


(** *** Where the calls fall short *)

(** The digest, the bundle and the state of the run, as they are shown *)
Definition shown (db : AttestationDB) : result (string * string * WorkflowRunStatus) :=
  (fun v => (view_digest v, view_bundle v, run_state (view_row v))) <$> (GetRun "o" "run" db).1.

(** A backend that is deleted before the attestation is stored *)
Definition interrupted : AttestationDB := (toy_Store None (with_backend deleted_backend initialized)).2.

(** A call of [Store] that fails after the bundle was saved, here because the backend
    of the run was deleted in the meantime, leaves a run that is not finished and
    whose attestation is not shown, and storing it again fails for good *)
Theorem failed_store_blocks_retry :
  is_ok (toy_Store None (with_backend deleted_backend initialized)).1 = false
  /\ db_bundles (runs interrupted) !! "run" = Some "bundle"
  /\ shown interrupted = Ok (bundle_digest "bundle", "", RunInitialized)
  /\ is_ok (toy_Store None (with_backends interrupted (at_backends initialized))).1 = false.
Proof. vm_compute. done. Qed.

(** An account that is tied to another workflow gets credentials to upload to the
    backend of a run, for which the other calls refuse it *)
Theorem upload_credentials_of_another_workflow :
  toy_creds (tied_robot "other") initialized = Ok "token"
  /\ (svc_Store toy_enforce no_others unsigned stored_in_db admin (tied_robot "other") ref_id mapping_id 0 30 (store_request None) initialized).1
     = Err (handleUseCaseErr no_others (transport_err Forbidden "robot account is scoped to a different workflow")).
Proof. vm_compute. done. Qed.

(** A run that was cancelled after its success does not show its attestation any more *)
Theorem cancellation_hides_attestation :
  shown stored = Ok (bundle_digest "bundle", "bundle", RunSuccess)
  /\ let '(r, db) := svc_Cancel toy_enforce no_others admin robot 40 "run" TRIGGER_TYPE_CANCELLATION "oops" stored in
     r = Ok tt /\ shown db = Ok (bundle_digest "bundle", "", RunCancelled).
Proof. vm_compute. done. Qed.

(** Credentials are handed out for a backend whose validation fails, again *)
Theorem unreachable_backend_handed_out :
  let '(r, db) := svc_GetUploadCreds (H4 := closed_secrets) toy_enforce no_others any_builder admin robot 30 "run"
                    (with_backend failed_backend initialized) in
  snd <$> r = Ok "token" /\ (cb_status <$> at_backends db !! "b1") = Some ValidationFailed
  /\ (at_backends db !! "b1" ≫= cb_error) = Some errMsgCredentialsAccess.
Proof. vm_compute. done. Qed.
