(* ===== verification/Netguard.v ===== *)
(** * The network guard

    pkg/netguard/netguard.go and pkg/policies/engine/rego/httpsend.go: outbound
    requests on behalf of policies only reach publicly routable addresses, and
    [http.send] of a policy only takes web URLs and no local files.

    Addresses are Go's [net.IP]: the bytes of an IPv4 or IPv6 address.  The
    methods of package net that the code uses are translated from their
    documentation; name resolution and dialling are parameters. *)

From S2P Require Import Prelude.
From S2P Require Import GoStrings.
From S2P Require Import PolicyEngine.
From S2P Require Import PolicyGroups.

Open Scope Z_scope.

(** ** Addresses (package net) *)

(** The bytes of an address, most significant first *)
Definition IP := list Z.

Definition zeros (n : nat) : IP := repeat 0 n.

Definition v4InV6Prefix : IP := zeros 10 ++ [255; 255].

Definition is_v4 (ip : IP) : bool := bool_decide (length ip = 4%nat).
Definition is_v6 (ip : IP) : bool := bool_decide (length ip = 16%nat).

(** [To4] *)
Definition To4 (ip : IP) : option IP :=
  if is_v4 ip then Some ip
  else if is_v6 ip && bool_decide (take 12 ip = v4InV6Prefix) then Some (drop 12 ip)
  else None.

(** [Equal]: an IPv4 address and its IPv6 form are equal *)
Definition ip_Equal (x y : IP) : bool :=
  bool_decide (default x (To4 x) = default y (To4 y)).

Definition IPv4bcast : IP := [255; 255; 255; 255].
Definition IPv4zero : IP := zeros 4.
Definition IPv6unspecified : IP := zeros 16.
Definition IPv6loopback : IP := zeros 15 ++ [1].

Definition IsUnspecified (ip : IP) : bool := ip_Equal ip IPv4zero || ip_Equal ip IPv6unspecified.

Definition IsLoopback (ip : IP) : bool :=
  match To4 ip with
  | Some (a :: _) => bool_decide (a = 127)
  | _ => ip_Equal ip IPv6loopback
  end.

Definition IsMulticast (ip : IP) : bool :=
  match To4 ip, ip with
  | Some (a :: _), _ => bool_decide (Z.land a 240 = 224)
  | _, a :: _ => is_v6 ip && bool_decide (a = 255)
  | _, [] => false
  end.

Definition IsLinkLocalUnicast (ip : IP) : bool :=
  match To4 ip, ip with
  | Some (a :: b :: _), _ => bool_decide (a = 169) && bool_decide (b = 254)
  | _, a :: b :: _ => is_v6 ip && bool_decide (a = 254) && bool_decide (Z.land b 192 = 128)
  | _, _ => false
  end.

Definition IsGlobalUnicast (ip : IP) : bool :=
  (is_v4 ip || is_v6 ip)
  && negb (ip_Equal ip IPv4bcast) && negb (IsUnspecified ip) && negb (IsLoopback ip)
  && negb (IsMulticast ip) && negb (IsLinkLocalUnicast ip).

Definition IsPrivate (ip : IP) : bool :=
  match To4 ip, ip with
  | Some (a :: b :: _), _ =>
      bool_decide (a = 10) || (bool_decide (a = 172) && bool_decide (Z.land b 240 = 16))
      || (bool_decide (a = 192) && bool_decide (b = 168))
  | _, a :: _ => is_v6 ip && bool_decide (Z.land a 254 = 252)
  | _, [] => false
  end.

(** [net.IPNet]: a network and its mask, of the same length *)
Record IPNet := { net_IP : IP; net_Mask : IP }.

(** [IPNet.Contains] *)
Definition Contains (n : IPNet) (ip : IP) : bool :=
  let x := default ip (To4 ip) in
  bool_decide (length x = length (net_IP n))
  && forallb (fun '(nn, (m, b)) => bool_decide (Z.land nn m = Z.land b m))
       (combine (net_IP n) (combine (net_Mask n) x)).

(** [net.CIDRMask] *)
Fixpoint CIDRMask (ones : nat) (len : nat) : IP :=
  match len with
  | O => []
  | S len' => (if bool_decide (8 <= ones)%nat then 255 else 256 - 2 ^ (8 - Z.of_nat ones))
              :: CIDRMask (ones - 8) len'
  end.

(** The network of a prefix: its leading bytes, followed by zeros *)
Definition cidr (leading : list Z) (len ones : nat) : IPNet :=
  {| net_IP := leading ++ zeros (len - length leading); net_Mask := CIDRMask ones len |}.

(** ** Publicly routable addresses (netguard.go) *)

Definition blockedNets : list IPNet :=
  [cidr [0] 4 8; cidr [100; 64] 4 10; cidr [192; 0; 0] 4 24; cidr [192; 0; 2] 4 24;
   cidr [198; 18] 4 15; cidr [198; 51; 100] 4 24; cidr [203; 0; 113] 4 24; cidr [240] 4 4;
   cidr [] 16 96; cidr [0; 100; 255; 155] 16 96; cidr [0; 100; 255; 155; 0; 1] 16 48;
   cidr [1; 0] 16 64; cidr [32; 1] 16 32; cidr [32; 1; 0; 2] 16 48; cidr [32; 1; 13; 184] 16 32;
   cidr [32; 2] 16 16].

(** [IsPubliclyRoutable]; [None] is the nil address *)
Definition IsPubliclyRoutable (ip : option IP) : bool :=
  match ip with
  | None => false
  | Some ip =>
      if negb (IsGlobalUnicast ip) then false
      else if IsPrivate ip then false
      else let ip := default ip (To4 ip) in negb (existsb (fun n => Contains n ip) blockedNets)
  end.

(** ** Dialling *)

Section Dial.
Context {Conn : Type}.
Context (SplitHostPort : string -> result (string * string)).
Context (JoinHostPort : string -> string -> string) (ip_String : IP -> string).
Context (resolve : string -> result (list IP)).
Context (dial : string -> result Conn).

(** The loop that dials: the addresses tried, and the outcome *)
Fixpoint dial_first (ips : list IP) (port : string) (lastErr : goerr)
    : list string * result Conn :=
  match ips with
  | [] => ([], Err lastErr)
  | ip :: ips' =>
      let addr := JoinHostPort (ip_String ip) port in
      match dial addr with
      | Ok conn => ([addr], Ok conn)
      | Err e => let '(tried, r) := dial_first ips' port e in (addr :: tried, r)
      end
  end.

(** [PublicOnlyDialContext]: the addresses it dials, and the outcome *)
Definition PublicOnlyDialContext (addr : string) : list string * result Conn :=
  match SplitHostPort addr with
  | Err _ => ([], Err (EWrap ("malformed address " +:+ addr) (ESentinel ErrBlockedTarget)))
  | Ok (host, port) =>
      match resolve host with
      | Err e => ([], Err (EWrap ("resolving " +:+ host) e))
      | Ok [] => ([], Err (EWrap (host +:+ " did not resolve to any address") (ESentinel ErrBlockedTarget)))
      | Ok ips =>
          if forallb (fun ip => IsPubliclyRoutable (Some ip)) ips
          then dial_first ips port (panic "no address")
          else ([], Err (EWrap (host +:+ " resolves to non-public address") (ESentinel ErrBlockedTarget)))
      end
  end.
End Dial.

(** ** What is refused *)

(** The number that bytes spell *)
Definition number (ip : IP) : Z := fold_left (fun n b => n * 256 + b) ip 0.

Definition is_byte (b : Z) : Prop := 0 <= b < 256.

(** The IPv4 ranges that are not public, by the address and length of their
    prefix (RFC 6890 and its companions) *)
Definition v4_reserved : list (IP * Z) :=
  [([0; 0; 0; 0], 8); ([10; 0; 0; 0], 8); ([100; 64; 0; 0], 10); ([127; 0; 0; 0], 8);
   ([169; 254; 0; 0], 16); ([172; 16; 0; 0], 12); ([192; 0; 0; 0], 24); ([192; 0; 2; 0], 24);
   ([192; 168; 0; 0], 16); ([198; 18; 0; 0], 15); ([198; 51; 100; 0], 24); ([203; 0; 113; 0], 24);
   ([224; 0; 0; 0], 4); ([240; 0; 0; 0], 4)].

Definition in_v4_range (ip : IP) (r : IP * Z) : Prop :=
  number ip / 2 ^ (32 - snd r) = number (fst r) / 2 ^ (32 - snd r).

(** A property of all bytes is checked by evaluation. *)
Lemma byte_ind (P : Z -> bool) :
  forallb P (map Z.of_nat (seq 0 256)) = true -> forall b, is_byte b -> P b = true.
Proof.
  intros HP b Hb. rewrite forallb_forall in HP. apply HP, in_map_iff.
  exists (Z.to_nat b). unfold is_byte in Hb. split; [lia|]. apply in_seq. lia.
Qed.

(** A masked byte lies in an interval. *)
Lemma byte_masked m v lo hi :
  forallb (fun b => Bool.eqb (Z.land b m =? v) ((lo <=? b) && (b <? hi))) (map Z.of_nat (seq 0 256)) = true ->
  forall b, is_byte b -> Z.land b m = v <-> lo <= b < hi.
Proof.
  intros HP b Hb. pose proof (byte_ind _ HP b Hb) as He. apply Bool.eqb_prop in He.
  destruct (Z.eqb_spec (Z.land b m) v), (Z.leb_spec lo b), (Z.ltb_spec b hi); cbn in He; try done; lia.
Qed.

Lemma byte_mask_all b : is_byte b -> Z.land b 255 = b.
Proof.
  intros Hb. apply Z.eqb_eq. revert b Hb. by apply (byte_ind (fun b => Z.land b 255 =? b)).
Qed.

Lemma To4_v4 a b c d : To4 [a; b; c; d] = Some [a; b; c; d].
Proof. reflexivity. Qed.

(** Membership in a network, byte by byte *)
Lemma Contains_v4 n1 n2 n3 n4 m1 m2 m3 m4 a b c d :
  Contains {| net_IP := [n1; n2; n3; n4]; net_Mask := [m1; m2; m3; m4] |} [a; b; c; d]
  = bool_decide (Z.land a m1 = Z.land n1 m1) && (bool_decide (Z.land b m2 = Z.land n2 m2)
    && (bool_decide (Z.land c m3 = Z.land n3 m3) && bool_decide (Z.land d m4 = Z.land n4 m4))).
Proof.
  unfold Contains. rewrite To4_v4. cbn [default from_option id net_IP net_Mask length].
  rewrite bool_decide_eq_true_2 by done. cbn [andb combine forallb]. rewrite andb_true_r.
  repeat f_equal; apply bool_decide_ext; split; congruence.
Qed.

Lemma Contains_v4_v6 net mask a b c d :
  length net = 16%nat -> Contains {| net_IP := net; net_Mask := mask |} [a; b; c; d] = false.
Proof. intros Hn. unfold Contains. rewrite To4_v4. cbn [net_IP]. rewrite Hn. done. Qed.

Definition v4_net (n m : IP) : IPNet := {| net_IP := n; net_Mask := m |}.

(** The IPv4 part of the list, with its masks *)
Lemma blocked_v4 a b c d :
  existsb (fun n => Contains n [a; b; c; d]) blockedNets
  = existsb (fun n => Contains n [a; b; c; d])
      [v4_net [0; 0; 0; 0] [255; 0; 0; 0]; v4_net [100; 64; 0; 0] [255; 192; 0; 0];
       v4_net [192; 0; 0; 0] [255; 255; 255; 0]; v4_net [192; 0; 2; 0] [255; 255; 255; 0];
       v4_net [198; 18; 0; 0] [255; 254; 0; 0]; v4_net [198; 51; 100; 0] [255; 255; 255; 0];
       v4_net [203; 0; 113; 0] [255; 255; 255; 0]; v4_net [240; 0; 0; 0] [240; 0; 0; 0]].
Proof.
  unfold blockedNets, v4_net. cbn [existsb].
  repeat match goal with |- context[Contains (cidr ?l 4 ?o) _] =>
    let n := eval vm_compute in (cidr l 4 o) in change (cidr l 4 o) with n end.
  repeat match goal with |- context[Contains (cidr ?l 16 ?o) _] =>
    rewrite (Contains_v4_v6 (net_IP (cidr l 16 o)) (net_Mask (cidr l 16 o))) by reflexivity end.
  done.
Qed.

(** Turn boolean tests into propositions. *)
Ltac to_prop :=
  repeat first
    [ rewrite orb_false_iff | rewrite negb_true_iff | rewrite <- not_true_iff_false
    | rewrite andb_true_iff | rewrite bool_decide_eq_true ].

(** The masks that the code uses, as intervals *)
Lemma land_240_224 b : is_byte b -> Z.land b 240 = 224 <-> 224 <= b < 240.
Proof. by apply (byte_masked 240 224 224 240). Qed.

Lemma land_240_240 b : is_byte b -> Z.land b 240 = 240 <-> 240 <= b < 256.
Proof. by apply (byte_masked 240 240 240 256). Qed.

Lemma land_240_16 b : is_byte b -> Z.land b 240 = 16 <-> 16 <= b < 32.
Proof. by apply (byte_masked 240 16 16 32). Qed.

Lemma land_192_64 b : is_byte b -> Z.land b 192 = 64 <-> 64 <= b < 128.
Proof. by apply (byte_masked 192 64 64 128). Qed.

Lemma land_254_18 b : is_byte b -> Z.land b 254 = 18 <-> 18 <= b < 20.
Proof. by apply (byte_masked 254 18 18 20). Qed.

(** The decision for IPv4, stage by stage *)
Lemma global_v4 a b c d :
  is_byte a ->
  IsGlobalUnicast [a; b; c; d] = true <->
  [a; b; c; d] <> IPv4bcast /\ [a; b; c; d] <> IPv4zero /\ a <> 127 /\ ~ (224 <= a < 240)
  /\ ~ (a = 169 /\ b = 254).
Proof.
  intros Ha. unfold IsGlobalUnicast, IsUnspecified, IsLoopback, IsMulticast, IsLinkLocalUnicast, ip_Equal.
  rewrite To4_v4. change (To4 IPv4bcast) with (Some IPv4bcast). change (To4 IPv4zero) with (Some IPv4zero).
  change (To4 IPv6unspecified) with (@None IP). cbn [default from_option id].
  change (is_v4 [a; b; c; d]) with true. cbn [orb andb].
  rewrite (bool_decide_eq_false_2 ([a; b; c; d] = IPv6unspecified)) by done. rewrite orb_false_r.
  to_prop. rewrite land_240_224 by done. tauto.
Qed.

Lemma private_v4 a b c d :
  is_byte b ->
  IsPrivate [a; b; c; d] = false <->
  a <> 10 /\ ~ (a = 172 /\ 16 <= b < 32) /\ ~ (a = 192 /\ b = 168).
Proof.
  intros Hb. unfold IsPrivate. rewrite To4_v4. to_prop. rewrite land_240_16 by done. tauto.
Qed.

Lemma blocked_v4_false a b c d :
  is_byte a -> is_byte b -> is_byte c ->
  existsb (fun n => Contains n [a; b; c; d]) blockedNets = false <->
  a <> 0 /\ ~ (a = 100 /\ 64 <= b < 128) /\ ~ (a = 192 /\ b = 0 /\ c = 0) /\ ~ (a = 192 /\ b = 0 /\ c = 2)
  /\ ~ (a = 198 /\ 18 <= b < 20) /\ ~ (a = 198 /\ b = 51 /\ c = 100) /\ ~ (a = 203 /\ b = 0 /\ c = 113)
  /\ ~ (240 <= a < 256).
Proof.
  intros Ha Hb Hc. rewrite blocked_v4. unfold v4_net. cbn [existsb]. rewrite !Contains_v4.
  rewrite !Z.land_0_r, !byte_mask_all by (unfold is_byte in *; lia).
  change (Z.land 64 192) with 64. change (Z.land 18 254) with 18. change (Z.land 240 240) with 240.
  rewrite (bool_decide_eq_true_2 (0 = 0)) by done. rewrite !andb_true_r. to_prop.
  rewrite land_192_64, land_254_18, land_240_240 by assumption. assert (false <> true) by done. tauto.
Qed.

(** A prefix of the number is a test on the bytes. *)
Ltac range_to_bytes :=
  unfold in_v4_range, number, is_byte in *; cbn [fst snd fold_left];
  match goal with |- context[2 ^ (32 - ?l)] =>
    let p := eval vm_compute in (2 ^ (32 - l)) in change (2 ^ (32 - l)) with p end;
  Z.to_euclidean_division_equations; lia.

Lemma in_v4_8 n a b c d :
  is_byte n -> is_byte a -> is_byte b -> is_byte c -> is_byte d ->
  in_v4_range [a; b; c; d] ([n; 0; 0; 0], 8) <-> a = n.
Proof. intros. range_to_bytes. Qed.

Lemma in_v4_16 n m a b c d :
  is_byte n -> is_byte m -> is_byte a -> is_byte b -> is_byte c -> is_byte d ->
  in_v4_range [a; b; c; d] ([n; m; 0; 0], 16) <-> a = n /\ b = m.
Proof. intros. range_to_bytes. Qed.

Lemma in_v4_24 n m k a b c d :
  is_byte n -> is_byte m -> is_byte k -> is_byte a -> is_byte b -> is_byte c -> is_byte d ->
  in_v4_range [a; b; c; d] ([n; m; k; 0], 24) <-> a = n /\ b = m /\ c = k.
Proof. intros. range_to_bytes. Qed.

Lemma in_v4_odd a b c d :
  is_byte a -> is_byte b -> is_byte c -> is_byte d ->
  (in_v4_range [a; b; c; d] ([100; 64; 0; 0], 10) <-> a = 100 /\ 64 <= b < 128)
  /\ (in_v4_range [a; b; c; d] ([172; 16; 0; 0], 12) <-> a = 172 /\ 16 <= b < 32)
  /\ (in_v4_range [a; b; c; d] ([198; 18; 0; 0], 15) <-> a = 198 /\ 18 <= b < 20)
  /\ (in_v4_range [a; b; c; d] ([224; 0; 0; 0], 4) <-> 224 <= a < 240)
  /\ (in_v4_range [a; b; c; d] ([240; 0; 0; 0], 4) <-> 240 <= a < 256).
Proof. intros. split; [|split; [|split; [|split]]]; range_to_bytes. Qed.

Lemma routable_v4 a b c d :
  is_byte a -> is_byte b -> is_byte c -> is_byte d ->
  IsPubliclyRoutable (Some [a; b; c; d]) = true <->
  Forall (fun r => ~ in_v4_range [a; b; c; d] r) v4_reserved.
Proof.
  intros Ha Hb Hc Hd.
  assert (forall n, 0 <= n < 256 -> is_byte n) as Hbyte by done.
  destruct (in_v4_odd a b c d Ha Hb Hc Hd) as (H1 & H2 & H3 & H4 & H5).
  unfold v4_reserved. rewrite !Forall_cons, Forall_nil.
  rewrite !in_v4_8, !in_v4_16, !in_v4_24, H1, H2, H3, H4, H5 by (assumption || (apply Hbyte; lia)).
  transitivity (IsGlobalUnicast [a; b; c; d] = true /\ IsPrivate [a; b; c; d] = false
                /\ existsb (fun n => Contains n [a; b; c; d]) blockedNets = false).
  { unfold IsPubliclyRoutable. rewrite To4_v4. cbn [default from_option id].
    destruct (IsGlobalUnicast _), (IsPrivate _), (existsb _ _); cbn; intuition discriminate. }
  rewrite global_v4, private_v4, blocked_v4_false by assumption.
  assert ([a; b; c; d] = IPv4bcast -> 240 <= a < 256) by (intros [= -> _ _ _]; lia).
  assert ([a; b; c; d] = IPv4zero -> a = 0) by (by intros [= -> _ _ _]).
  tauto.
Qed.

(** ** IPv6 *)

(** The IPv6 ranges whose prefix is whole bytes: IPv4-compatible, both NAT64
    prefixes, discard-only, Teredo, benchmarking, documentation, 6to4 and
    multicast *)
Definition v6_reserved : list IP :=
  [zeros 12; [0; 100; 255; 155] ++ zeros 8; [0; 100; 255; 155; 0; 1]; [1; 0] ++ zeros 6;
   [32; 1; 0; 0]; [32; 1; 0; 2; 0; 0]; [32; 1; 13; 184]; [32; 2]; [255]].

Definition starts_with (p ip : IP) : Prop := take (length p) ip = p.

#[export] Instance starts_with_dec p ip : Decision (starts_with p ip).
Proof. unfold starts_with. apply _. Defined.

Lemma masked_prefix k net ip :
  Forall is_byte net -> Forall is_byte ip -> length net = length ip ->
  forallb (fun '(nn, (m, b)) => bool_decide (Z.land nn m = Z.land b m))
    (combine net (combine (repeat 255 k ++ repeat 0 (length ip - k)) ip))
  = bool_decide (take k net = take k ip).
Proof.
  intros Hn. revert k ip. induction Hn as [|x net Hx _ IH]; intros k ip Hi Hl.
  { destruct ip; [|done]. by destruct k. }
  destruct Hi as [|y ip Hy Hi]; [done|]. injection Hl as Hl.
  destruct k as [|k]; cbn [repeat app length Nat.sub combine forallb take].
  - rewrite !Z.land_0_r. rewrite (bool_decide_eq_true_2 (0 = 0)) by done. cbn [andb].
    specialize (IH 0%nat ip Hi Hl). cbn [repeat app] in IH. rewrite Nat.sub_0_r in IH. rewrite IH.
    by rewrite !bool_decide_eq_true_2.
  - rewrite IH by done. rewrite !byte_mask_all by done.
    apply eq_true_iff_eq. rewrite andb_true_iff, !bool_decide_eq_true. split; [by intros [-> ->]|].
    by intros [= -> ->].
Qed.

Definition is_v6_address (ip : IP) : Prop := length ip = 16%nat /\ Forall is_byte ip /\ To4 ip = None.

(** Networks whose prefix is [p] *)
Definition prefix_net (n : IPNet) (p : IP) : Prop :=
  length (net_IP n) = 16%nat /\ Forall is_byte (net_IP n)
  /\ net_Mask n = repeat 255 (length p) ++ repeat 0 (16 - length p)
  /\ take (length p) (net_IP n) = p.

Lemma Contains_v6 n p ip :
  is_v6_address ip -> prefix_net n p -> Contains n ip = bool_decide (starts_with p ip).
Proof.
  intros (Hl & Hb & H4) (Hn & Hnb & Hm & Hp). unfold Contains. rewrite H4.
  cbn [default from_option id]. rewrite bool_decide_eq_true_2 by congruence. cbn [andb].
  rewrite Hm, <- Hl, masked_prefix by congruence. rewrite Hp. unfold starts_with.
  apply bool_decide_ext. split; congruence.
Qed.

Lemma Contains_v6_v4 n ip : is_v6_address ip -> length (net_IP n) = 4%nat -> Contains n ip = false.
Proof.
  intros (Hl & _ & H4) Hn. unfold Contains. rewrite H4. cbn [default from_option id].
  by rewrite Hl, Hn.
Qed.

Ltac prefix_net_tac :=
  split; [reflexivity|]; split;
    [repeat (apply Forall_cons; split; [unfold is_byte; lia|]); apply Forall_nil; exact I
    |split; reflexivity].

Lemma blocked_prefixes :
  Forall2 prefix_net (drop 8 blockedNets) (take 8 v6_reserved)
  /\ Forall (fun n => length (net_IP n) = 4%nat) (take 8 blockedNets).
Proof.
  split.
  - repeat (apply Forall2_cons; split; [prefix_net_tac|]). apply Forall2_nil. exact I.
  - repeat (apply Forall_cons; split; [reflexivity|]). apply Forall_nil. exact I.
Qed.

Lemma blocked_v6 ip :
  is_v6_address ip ->
  existsb (fun n => Contains n ip) blockedNets = false <->
  Forall (fun p => ~ starts_with p ip) (take 8 v6_reserved).
Proof.
  intros Hip. destruct blocked_prefixes as [H6 H4].
  rewrite <- (take_drop 8 blockedNets), existsb_app, orb_false_iff.
  assert (existsb (fun n => Contains n ip) (take 8 blockedNets) = false) as ->.
  { induction H4 as [|n l Hn _ IH]; [done|]. cbn [existsb]. by rewrite Contains_v6_v4. }
  split; [intros [_ He] | intros Hf; split; [done|]].
  - induction H6 as [|n p l ps Hnp _ IH]; [constructor|]. cbn [existsb] in He.
    apply orb_false_iff in He as [Hc He]. rewrite (Contains_v6 n p) in Hc by done.
    apply bool_decide_eq_false in Hc. constructor; auto.
  - induction H6 as [|n p l ps Hnp _ IH]; [done|]. apply Forall_cons in Hf as [Hp Hf]. cbn [existsb].
    apply orb_false_iff. split; [|auto]. rewrite (Contains_v6 n p) by done. by apply bool_decide_eq_false.
Qed.

Lemma land_192_128 b : is_byte b -> Z.land b 192 = 128 <-> 128 <= b < 192.
Proof. by apply (byte_masked 192 128 128 192). Qed.

Lemma land_254_252 b : is_byte b -> Z.land b 254 = 252 <-> 252 <= b < 254.
Proof. by apply (byte_masked 254 252 252 254). Qed.

(** Link-local and unique local addresses, whose prefixes are not whole bytes *)
Definition v6_local (ip : IP) : Prop :=
  match ip with
  | a :: b :: _ => (a = 254 /\ 128 <= b < 192) \/ 252 <= a < 254
  | _ => False
  end.

Lemma global_v6 ip :
  is_v6_address ip ->
  IsGlobalUnicast ip = true <->
  ip <> IPv6unspecified /\ ip <> IPv6loopback /\ ~ starts_with [255] ip
  /\ match ip with a :: b :: _ => ~ (a = 254 /\ 128 <= b < 192) | _ => True end.
Proof.
  intros (Hl & Hb & H4).
  destruct ip as [|a [|b ip]]; [done..|]. apply Forall_cons in Hb as [Ha Hb]. apply Forall_cons in Hb as [Hb _].
  unfold IsGlobalUnicast, IsUnspecified, IsLoopback, IsMulticast, IsLinkLocalUnicast, ip_Equal.
  rewrite H4. change (To4 IPv4bcast) with (Some IPv4bcast). change (To4 IPv4zero) with (Some IPv4zero).
  change (To4 IPv6unspecified) with (@None IP). change (To4 IPv6loopback) with (@None IP).
  cbn [default from_option id].
  assert (is_v6 (a :: b :: ip) = true) as -> by (unfold is_v6; rewrite Hl; done). rewrite orb_true_r.
  assert (forall x : IP, length x = 4%nat -> bool_decide (@eq IP (a :: b :: ip) x) = false) as Hlen.
  { intros x Hx. apply bool_decide_eq_false. intros <-. by rewrite Hl in Hx. }
  rewrite (Hlen IPv4bcast), (Hlen IPv4zero) by done. cbn [orb negb andb].
  to_prop. rewrite land_192_128 by done. unfold starts_with. cbn [length take].
  assert ([a] = [255] <-> a = 255) as -> by (split; [by intros [= ->]|by intros ->]).
  tauto.
Qed.

Lemma private_v6 ip :
  is_v6_address ip ->
  IsPrivate ip = false <-> match ip with a :: _ => ~ (252 <= a < 254) | _ => True end.
Proof.
  intros (Hl & Hb & H4). destruct ip as [|a ip]; [done|]. apply Forall_cons in Hb as [Ha Hb].
  unfold IsPrivate. rewrite H4.
  assert (is_v6 (a :: ip) = true) as -> by (unfold is_v6; rewrite Hl; done). cbn [andb].
  to_prop. by rewrite land_254_252.
Qed.

Lemma routable_v6 ip :
  is_v6_address ip ->
  IsPubliclyRoutable (Some ip) = true <->
  Forall (fun p => ~ starts_with p ip) v6_reserved /\ ~ v6_local ip.
Proof.
  intros Hip.
  transitivity (IsGlobalUnicast ip = true /\ IsPrivate ip = false
                /\ existsb (fun n => Contains n ip) blockedNets = false).
  { pose proof Hip as (_ & _ & H4). unfold IsPubliclyRoutable. rewrite H4. cbn [default from_option id].
    destruct (IsGlobalUnicast _), (IsPrivate _), (existsb _ _); cbn; intuition discriminate. }
  rewrite global_v6, private_v6, blocked_v6 by done.
  rewrite <- (take_drop 8 v6_reserved) at 2. rewrite Forall_app.
  change (drop 8 v6_reserved) with [[255]]. rewrite Forall_singleton.
  assert (ip = IPv6unspecified \/ ip = IPv6loopback -> starts_with (zeros 12) ip) as Hz by (by intros [-> | ->]).
  assert (Forall (fun p => ~ starts_with p ip) (take 8 v6_reserved) -> ~ starts_with (zeros 12) ip) as Hz2.
  { intros Hf. apply Forall_cons in Hf as [Hf _]. exact Hf. }
  destruct Hip as (Hl & _ & _). destruct ip as [|a [|b ip]]; [done..|]. unfold v6_local. tauto.
Qed.

(** C39: An address is publicly routable exactly when it is in none of the reserved
    ranges: for IPv4 those of the registry of special addresses (this network,
    private, shared, loopback, link-local with the metadata services of clouds,
    documentation, benchmarking, multicast, reserved), for IPv6 those that embed
    an IPv4 address, the local ones and the reserved ones; and an IPv4 address in
    its IPv6 form is judged as the IPv4 address. *)
Theorem routable_exact :
  (forall a b c d, is_byte a -> is_byte b -> is_byte c -> is_byte d ->
     IsPubliclyRoutable (Some [a; b; c; d]) = true <->
     Forall (fun r => number [a; b; c; d] / 2 ^ (32 - snd r) <> number (fst r) / 2 ^ (32 - snd r)) v4_reserved)
  /\ (forall ip, length ip = 16%nat -> Forall is_byte ip -> To4 ip = None ->
        IsPubliclyRoutable (Some ip) = true <->
        Forall (fun p => take (length p) ip <> p) v6_reserved /\ ~ v6_local ip)
  /\ (forall a b c d, IsPubliclyRoutable (Some (v4InV6Prefix ++ [a; b; c; d]))
                      = IsPubliclyRoutable (Some [a; b; c; d]))
  /\ IsPubliclyRoutable None = false.
Proof.
  split; [exact routable_v4|]. split; [intros ip Hl Hb H4; by apply routable_v6|].
  split; [|done]. intros a b c d. unfold IsPubliclyRoutable, IsGlobalUnicast, IsPrivate, IsUnspecified,
    IsLoopback, IsMulticast, IsLinkLocalUnicast, ip_Equal.
  change (To4 (v4InV6Prefix ++ [a; b; c; d])) with (Some [a; b; c; d]). by rewrite To4_v4.
Qed.

Section DialTheorems.
Context {Conn : Type}.
Context (SplitHostPort : string -> result (string * string)).
Context (JoinHostPort : string -> string -> string) (ip_String : IP -> string).
Context (resolve : string -> result (list IP)).
Context (dial : string -> result Conn).

Abbreviation dial_public := (PublicOnlyDialContext SplitHostPort JoinHostPort ip_String resolve dial).

Lemma dial_first_tried ips port e tried r :
  dial_first JoinHostPort ip_String dial ips port e = (tried, r) ->
  (forall addr, addr ∈ tried -> exists ip, ip ∈ ips /\ addr = JoinHostPort (ip_String ip) port)
  /\ match r with
     | Ok conn => exists addr, last tried = Some addr /\ dial addr = Ok conn
     | Err _ => tried = map (fun ip => JoinHostPort (ip_String ip) port) ips
                /\ Forall (fun addr => is_ok (dial addr) = false) tried
     end.
Proof.
  revert e tried r. induction ips as [|ip ips IH]; intros e tried r; cbn [dial_first].
  { intros [= <- <-]. split; [by intros addr ?%not_elem_of_nil|]. by split; [|constructor]. }
  destruct (dial (JoinHostPort (ip_String ip) port)) as [conn|e'] eqn:Ed.
  - intros [= <- <-]. split; [|by eexists].
    intros addr ->%list_elem_of_singleton. exists ip. split; [left|done].
  - destruct (dial_first _ _ _ ips port e') as [tried' r'] eqn:Er. intros [= <- <-].
    destruct (IH _ _ _ Er) as [Hin Hr]. split.
    + intros addr [->|Ha]%elem_of_cons; [exists ip; split; [left|done]|].
      destruct (Hin _ Ha) as (ip' & ? & ?). exists ip'. split; [by right|done].
    + destruct r' as [conn|e2].
      * destruct Hr as (addr & Hl & Hd). exists addr. split; [|done]. by destruct tried'.
      * destruct Hr as [-> Hf]. split; [done|]. constructor; [by rewrite Ed|done].
Qed.

(** The guarded dialler only ever connects to an address that it checked: all
    addresses it dials are public ones of the host, and are the very ones that
    were resolved; if the host has any address that is not public it dials none
    and reports the blocked target; and a connection it returns is one of those
    dials. *)
Theorem dials_public_only addr tried r :
  dial_public addr = (tried, r) ->
  (forall a, a ∈ tried -> exists host port ips ip,
     SplitHostPort addr = Ok (host, port) /\ resolve host = Ok ips /\ ip ∈ ips
     /\ a = JoinHostPort (ip_String ip) port /\ IsPubliclyRoutable (Some ip) = true)
  /\ (forall host port ips ip, SplitHostPort addr = Ok (host, port) -> resolve host = Ok ips ->
        ip ∈ ips -> IsPubliclyRoutable (Some ip) = false ->
        tried = [] /\ exists e, r = Err e /\ errors_is ErrBlockedTarget e = true)
  /\ (forall conn, r = Ok conn -> exists a, a ∈ tried /\ dial a = Ok conn).
Proof.
  unfold PublicOnlyDialContext. destruct (SplitHostPort addr) as [[host port]|e].
  2:{ intros [= <- <-]. split; [by intros ? ?%not_elem_of_nil|]. by split. }
  destruct (resolve host) as [[|ip0 ips]|e] eqn:Er.
  - intros [= <- <-]. split; [by intros ? ?%not_elem_of_nil|]. split; [|done].
    intros h p ips ip [= <- <-] Hi Hin. rewrite Er in Hi. injection Hi as <-. by apply not_elem_of_nil in Hin.
  - destruct (forallb _ _) eqn:Ef.
    + intros Hd. destruct (dial_first_tried _ _ _ _ _ Hd) as [Hin Hr].
      rewrite forallb_forall in Ef.
      assert (forall ip, ip ∈ ip0 :: ips -> IsPubliclyRoutable (Some ip) = true) as Hpub.
      { intros ip Hip. apply Ef. by apply list_elem_of_In. }
      split; [|split].
      * intros a Ha. destruct (Hin _ Ha) as (ip & Hip & ->). exists host, port, (ip0 :: ips), ip. auto 10.
      * intros h p ips' ip [= <- <-] Hi Hip Hno. rewrite Er in Hi. injection Hi as <-.
        by rewrite (Hpub _ Hip) in Hno.
      * intros conn ->. destruct Hr as (a & Hl & Hdial). exists a. split; [|done].
        apply last_Some in Hl as [l ->]. apply elem_of_app. right. by apply list_elem_of_singleton.
    + intros [= <- <-]. split; [by intros ? ?%not_elem_of_nil|]. split; [|done].
      intros h p ips' ip _ _ _ _. split; [done|]. by eexists.
  - intros [= <- <-]. split; [by intros ? ?%not_elem_of_nil|]. split; [|done].
    intros h p ips ip [= <- <-] Hi. by rewrite Er in Hi.
Qed.
End DialTheorems.

(** ** Transports and [http.send] *)

Section Transport.
Context {Conn : Type}.

Definition DialFunc := string -> list string * result Conn.

(** The fields of [http.Transport] that decide what a request connects to *)
Record Transport := {
  t_DialContext : DialFunc;
  t_DialTLSContext : option DialFunc;
  t_DialTLS : option DialFunc;
  t_Proxy : option (string -> option string)
}.

Context (guarded : DialFunc).

(** [RestrictTransport]: replaces all of these, whatever transport it is given;
    [guarded] is [PublicOnlyDialContext] on the resolver and a dialler of the
    system *)
Definition RestrictTransport (t : option Transport) : Transport :=
  {| t_DialContext := guarded; t_DialTLSContext := None; t_DialTLS := None; t_Proxy := None |}.

(** What net/http connects to for a request to [addr]: its proxy if it has one;
    for https without a proxy the TLS diallers go first *)
Definition connects (t : Transport) (https : bool) (addr : string) : list string * result Conn :=
  match match t_Proxy t with Some proxy => proxy addr | None => None end with
  | Some proxyAddr => t_DialContext t proxyAddr
  | None =>
      if https then default (default (t_DialContext t) (t_DialTLS t)) (t_DialTLSContext t) addr
      else t_DialContext t addr
  end.

Definition allowedHTTPSendSchemes : list string := ["http"; "https"].

Definition restrictedHTTPSendOptions : list string :=
  ["tls_ca_cert_file"; "tls_ca_cert_env_variable"; "tls_client_cert_file";
   "tls_client_cert_env_variable"; "tls_client_key_file"; "tls_client_key_env_variable"].

(** The scheme that [url.Parse] finds *)
Context (parse_scheme : string -> result string).

(** [validateHTTPSendRequest] *)
Definition validateHTTPSendRequest (request : json) : result unit :=
  match request with
  | JObj req =>
      _ ← (match obj_get "url" req with
           | None => Ok tt
           | Some urlTerm =>
               match parse_scheme (as_string (Some urlTerm)) with
               | Ok scheme => guard_err (negb (bool_decide (scheme ∈ allowedHTTPSendSchemes)))
                                (EMsg ("url scheme " +:+ scheme +:+ " is not allowed"))
               | Err _ => Ok tt
               end
           end);
      guard_err (existsb (fun opt => bool_decide (is_Some (obj_get opt req))) restrictedHTTPSendOptions)
        (EMsg "request option is not allowed")
  | _ => Ok tt
  end.

(** The builtin that replaces [http.send]: OPA's own [send] takes a function on
    the transport it builds, if it builds one *)
Context {Answer : Type} (send : (option Transport -> option Transport) -> json -> result Answer).

Definition http_send (permissive publicTargetsOnly : bool) (request : json) : result Answer :=
  _ ← (if permissive then Ok tt else validateHTTPSendRequest request);
  send (if publicTargetsOnly then fun t => Some (RestrictTransport t) else fun t => t) request.

(** [http.send] of a policy, in the restrictive mode, is only performed for
    web URLs and without options that read local files or variables; and with
    public targets only, whatever transport OPA builds, every connection goes
    through the guarded dialler, to the request's own address: no proxy and no
    TLS dialler bypasses it. *)
Theorem http_send_guarded publicOnly req r :
  http_send false publicOnly (JObj req) = Ok r ->
  (forall u scheme, obj_get "url" req = Some u -> parse_scheme (as_string (Some u)) = Ok scheme ->
     scheme ∈ ["http"; "https"])
  /\ (forall opt, opt ∈ restrictedHTTPSendOptions -> obj_get opt req = None)
  /\ (publicOnly = true ->
        send (fun t => Some (RestrictTransport t)) (JObj req) = Ok r
        /\ forall t https addr, connects (RestrictTransport t) https addr = guarded addr).
Proof.
  unfold http_send. intros Hs. apply bind_Ok in Hs as ([] & Hv & Hs). unfold validateHTTPSendRequest in Hv.
  apply bind_Ok in Hv as ([] & Hu & Ho). split; [|split].
  - intros u scheme Hurl Hp. rewrite Hurl, Hp in Hu. apply guard_err_Ok in Hu.
    by apply negb_false_iff, bool_decide_eq_true in Hu.
  - intros opt Hopt. apply guard_err_Ok in Ho. destruct (obj_get opt req) eqn:E; [|done].
    exfalso. apply not_true_iff_false in Ho. apply Ho. apply existsb_exists. exists opt.
    split; [by apply list_elem_of_In|]. rewrite E. by apply bool_decide_eq_true.
  - intros ->. split; [done|]. intros t https addr. by destruct https.
Qed.
End Transport.

(** ** Witnesses *)

Lemma dials_public_only_witness :
  PublicOnlyDialContext (fun _ => Ok ("metadata", "80")) (fun h p => h +:+ ":" +:+ p)
    (fun _ => "ip") (fun _ => Ok [[93; 184; 216; 34]; [169; 254; 169; 254]]) (fun _ => Ok tt) "metadata:80"
  = ([], Err (EWrap ("metadata resolves to non-public address") (ESentinel ErrBlockedTarget)))
  /\ IsPubliclyRoutable (Some [93; 184; 216; 34]) = true.
Proof.
  split; [|vm_compute; reflexivity].
  destruct (PublicOnlyDialContext (fun _ => Ok ("metadata", "80")) (fun h p => h +:+ ":" +:+ p)
    (fun _ => "ip") (fun _ => Ok [[93; 184; 216; 34]; [169; 254; 169; 254]]) (fun _ => Ok tt) "metadata:80")
    as [tried r] eqn:E.
  destruct (dials_public_only _ _ _ _ _ _ _ _ E) as (_ & Hno & _).
  destruct (Hno "metadata" "80" _ [169; 254; 169; 254] eq_refl eq_refl) as [-> _];
    [right; left | vm_compute; reflexivity |].
  vm_compute in E. injection E as <-. reflexivity.
Defined.

Lemma http_send_guarded_witness :
  let req := [("url", JStr "https://example.com"); ("method", JStr "get")] in
  http_send (fun _ => ([], Ok tt)) (fun _ => Ok "https") (fun _ _ => Ok tt) false true (JObj req) = Ok tt
  /\ obj_get "tls_client_key_file" req = None.
Proof.
  cbn zeta. split; [vm_compute; reflexivity|].
  apply (http_send_guarded (fun _ => ([], Ok tt)) (fun _ => Ok "https") (fun _ _ => Ok tt) true
    [("url", JStr "https://example.com"); ("method", JStr "get")] tt); [vm_compute; reflexivity|].
  apply (bool_decide_unpack _). vm_compute. exact I.
Defined.
